(* ===== verification/_CoqProject ===== *)
-Q . S2P
Prelude.v
Stateful.v
Json.v
JsonTotal.v
Dicts.v
PyTime.v
PyDecimal.v
Sha256.v
Canonical.v
Base64.v
Platforms.v
Models.v
CertModels.v
CertLedger.v
StateMachine.v
Common.v
TrustedStore.v
Rules.v
Compensation.v
Calculation.v
Approval.v
AuditSkill.v
Strategy.v
Packaging.v
Evidence.v
Checks.v
Certificate.v
CertFacts.v
CertSound.v
CertTotal.v
CertDemo.v
ReceiptModels.v
Receipt.v
ReceiptFacts.v
ReceiptSound.v
ReceiptChain.v
ReceiptDemo.v
OutcomeModels.v
OutcomeIndex.v
Outcome.v
OutcomeFacts.v
OutcomeObservers.v
OutcomeSound.v
OutcomeChain.v
OutcomeTotal.v
OutcomeDemo.v
HttpFraming.v
HttpReader.v
HttpChunked.v
JsonNesting.v
RunStore.v
RunBinding.v
RunTrace.v
Runtime.v
RunPrepared.v
RunApprove.v
RunLifecycle.v
RunVerify.v
RunWritten.v
RunPackage.v
RunDemo.v
ToolServer.v
ToolServerFacts.v
ToolServerSound.v
ToolServerDemo.v
DemoFs.v
DemoInit.v
DemoInitFacts.v
DemoInitDescriptors.v
DemoInitKeeps.v
DemoInitSound.v
DemoInitDemo.v
WireTime.v
Cli.v
CliSound.v
CliEnds.v
CliDemo.v
