(* ===== verification/Prelude.v ===== *)
(** * A Rocq model of the ProofFlow reference core

    ProofFlow (src/src/proofflow/) turns a directory of synthetic fixtures into a case:
    it ingests documents as Evidence, builds a timeline, retrieves rules, computes an
    economic compensation with decimal arithmetic, drafts a proposal, audits it, stops
    at a human gate, and packages the approved draft.  Every artifact is sealed with the
    SHA-256 digest of its canonical JSON, every step leaves a trace event, and the state
    machine of state_machine.py is the only way a case advances.  Beside that pipeline
    stand three verifiers of signed statements: an ActionCertificate authorises one
    action, an ExecutionReceipt reports one execution of it, and an OutcomeClosure says
    what the execution did; each opens a DSSE envelope, checks it against a trust policy
    and what the operator expects, refers to the statement before it, and writes to one
    store (a replay ledger, a receipt index, an outcome index).  A tool service offers
    three of the Skills over HTTP to callers that hold its token, with a registry in memory
    of the Evidence it ingested itself.  init-demo installs the files of a demo into a new
    directory, against other processes that interfere; and the command line puts all of
    these behind exit codes.  This development models those parts function by
    function and proves what makes them correct.

    ** The files, and the code they model

    - Prelude: the exceptions and the [result] monad (a call returns [Ok] or raises
      [Raise]), byte strings, sorting, list lemmas, the hint database [pf].
    - Json, PyTime, PyDecimal, Sha256: the parts of Python's standard library the code
      computes with: json.loads and json.dumps (both layouts), date and datetime (a
      datetime is [Naive] or [Aware] with its UTC instant in microseconds), Decimal
      under the default context (28 digits), and SHA-256 itself.
    - JsonTotal: the JSON reader ends on every text.  Dicts: an ordered dict as an
      association list.  Checks: a verifier as a sequence of checks that stop or go on
      ([checked], the notation [<~]), with the logic the theorems on verifiers use
      ([stops], [answers], [delivers], [raises_only]).
    - Canonical: canonical.py.  [pyval] is a Python value before serialization;
      [canonicalize], [canonical_json] and [sha256_digest] follow the code.
    - Platforms: two instances of [Platform], one with the real SHA-256, one with a
      short digest for the examples.
    - Models: models.py and contracts.py: a Record per class, its validators as
      [X_validate], its serialization as a [ToPy] instance; [Artifact] is the interface
      of the sealed classes ([seal], [verify_hash]).
    - StateMachine: state_machine.py ([transition_case], the guards, [permitted] as the
      relation they decide).
    - Common: factories.py and skills/common.py ([stable_id], [artifact_meta],
      [unless_denied], [success]).
    - TrustedStore: trusted_store.py; the registry is a [gmap] from artifact keys to
      canonical payloads.
    - Rules, Compensation, Calculation, Approval, AuditSkill, Strategy, Packaging,
      Evidence: the Skills (skills/*.py and strategy.py), one Definition per Skill and
      one per group of its checks.
    - RunStore, RunBinding, RunTrace, Runtime, RunApprove, RunVerify:
      reference_runtime.py.  A run directory is a map from relative paths to contents;
      [prepare_reference_run], [approve_reference_run] and [package_reference_run]
      return the directory as they leave it, with the result or the exception, and
      [verify_reference_run] returns the report.
    - Base64, CertModels, CertLedger, Certificate: action_certificate.py: canonical
      base64, the contracts, the replay ledger and the revocation snapshot, and
      [verify_action_certificate].  CertFacts, CertSound, CertTotal: its theorems.
    - ReceiptModels, Receipt: execution_receipt.py: the contracts, the receipt index and
      [verify_execution_receipt].  ReceiptFacts, ReceiptSound, ReceiptChain: its
      theorems, the last one across both verifiers.
    - OutcomeModels, OutcomeIndex, Outcome: outcome_closure.py: the contracts, the outcome
      index and [verify_outcome_closure].  OutcomeFacts, OutcomeObservers, OutcomeSound,
      OutcomeChain, OutcomeTotal: its theorems, OutcomeChain across the three verifiers.
    - CertDemo, ReceiptDemo, OutcomeDemo: one action authorised, executed and closed, in
      the model; the witnesses of those theorems.
    - HttpFraming, HttpReader, HttpChunked, JsonNesting: the transport of tool_server.py.
      A [bytes] value is a list of bytes; [_DeadlineRequestReader] is what it has buffered
      and the arrivals its stream still delivers ([Reader]); the chunked decoder is written
      against [ByteSource], whose laws the reader has; the grammar it decides is [chunked].
    - ToolServer: the rest of tool_server.py and the tool calls of contracts.py:
      configuration, admission, framing checks, [do_POST], [do_GET], [handle_one_request],
      and the slots of concurrent requests as a step relation.  ToolServerFacts,
      ToolServerSound: its theorems.  ToolServerDemo: a run of the service, the witness.
    - Stateful: computations that change a state and may fail, with triples; the request
      reader, the installation of the demo and [main] are written in it.
    - DemoFs, DemoInit: demo_init.py.  A [Session] is a file system of inodes, the open
      descriptors, the variables of a run, and the events to come: before any system call
      other processes may change anything, and any call may fail.  DemoInitFacts,
      DemoInitDescriptors, DemoInitKeeps, DemoInitSound: its theorems.  DemoInitDemo: runs
      of it, the witnesses.
    - WireTime: the timestamps of the wire ([parse_utc_rfc3339_z] of action_certificate.py).
      Cli: cli.py: the commands over what their files hold, the output, the exit codes and
      the error handling of [main].  CliSound, CliEnds: its theorems; CliDemo: the three
      verifications as commands, the witnesses.
    - RunPrepared, RunLifecycle, RunWritten, RunPackage: the theorems on whole runs.
    - RunDemo: one run from fixtures to a verified package, executed in the model; it
      is the witness that the hypotheses of those theorems can hold.

    ** What the theorems show

    - Canonical form: equal canonical bytes mean equal canonical structures
      ([canonical_json_injective]), digests do not see field order or trailing zeros
      ([sha256_digest_stable], [decimal_text_scale]); a seal verifies and binds every
      field up to a SHA-256 collision ([seal_verify], [content_hash_binds]).
    - State machine: the transition function decides exactly [permitted]
      ([transition_case_total]), cannot be replayed, keeps the hash chain ([run_trace]),
      and reaches PACKAGED only through a PASS audit and an APPROVE decision of a human
      with the required role ([packaged_requires_human_approval]).
    - Registry: registration is atomic, bounded and never replaces
      ([register_all_contract]); what it answers for was registered ([contains_sound]).
    - Calculation: the service time is the number of half years the statute counts
      ([service_coefficient_spec], monotone), the amount is exact to the cent
      ([compensation_cents], [compensation_bounds]), a successful sheet rests on trusted
      evidence, catalogued rules and a valid scope receipt ([calculate_success_sound]),
      and such a basis suffices ([calculate_complete]).  [compensation_overflow] and
      [calculate_arithmetic_escapes]: a wage of 1E+26 makes the Skill raise.
    - The other Skills: each returns SUCCESS exactly on its specification, and on every
      other input the result the code documents.
    - Runs: preparing, approving and packaging are all or nothing on the directory
      ([prepare_reference_run_correct] and its companions); a prepared run is intact and
      each step keeps it so; the trace check is exact ([trace_integrity_correct]); the
      approval subject commits to everything the reviewer saw ([subject_hash_binds]); a
      run the verifier accepts is one in which everything follows from the policy
      ([verify_sound]), and if it is packaged, a legal reviewer approved it
      ([verified_package_was_approved]).

    - Certificates: an ACCEPT means the whole specification [authorized] and a reservation
      ([certificate_accept_sound]), at most once per nonce and idempotency key
      ([accepted_once]); the approved scope commits to the request
      ([approval_scope_binds]); with a sane clock the verifier always answers
      ([verification_answers]).
    - Receipts: an ACCEPT means [attested] and an entry in the index
      ([receipt_accept_sound]), two recorded receipts of one attempt carry one payload
      ([receipts_unambiguous]), and the action was authorised
      ([receipt_of_authorized_action]).
    - Outcomes: a PASS or a FAIL means [closed], with the reconciled effects that make the
      verdict, and an entry in the index ([outcome_sound]); the verdict of an execution
      does not change ([outcome_is_final]); the in-memory index is one log per attempt
      ([index_refines_logs]); a PASS rests on an authorised action, a recorded receipt and
      observers that are parties to neither ([outcome_of_authorized_action]); whatever is
      returned is well formed, and the verifier raises in one case only
      ([outcome_answers]), which is a defect: a partial success
      ([partial_success_raises]).
    - Tool service: the decoder reads exactly the chunked bodies within its limits, however
      they arrive ([chunked_body_exact], [chunked_round_trip]); the scan for nesting is
      exact ([json_nesting_exact]); a body that reaches a tool was framed in one way only
      and is the JSON the limits allow ([read_json_body_sound]); every request is answered
      within the limit on responses ([post_answers]), but for a comparison that raises on
      text that is not ASCII, a defect ([non_ascii_token_escapes]); the slots of requests
      are kept ([request_slots_bounded]); and a calculation that succeeds rests on Evidence
      that authorised requests of the same run ingested ([service_calculation_sound]).
    - Demo installation: whatever other processes do and whichever calls fail, nothing that
      was there is overwritten or removed ([initialize_demo_keeps]), no descriptor stays
      open ([initialize_demo_closes]), the run ends with a result or one of eight errors
      ([initialize_demo_errors]), and success means that the output is the pinned bundle and
      nothing else, when nobody interferes after the files were written
      ([initialize_demo_installs]).  [demo_full_disk]: a file whose write fails stays.
    - Command line: exit code 0 means that the component behind the command succeeded on
      what the files hold ([exit_code_zero_sound]); init-demo and the verifications of
      certificates and outcomes end with an answer or a fixed error ([commands_end]); the
      timestamps the program writes are read back ([parse_utc_rfc3339_z_round_trip]).
      [last_minute_escapes]: a time in the last minute of the calendar is a traceback.

    ** Parameters and hypotheses

    [Platform] holds what is not computed here: the digest function (its only law is the
    shape of a digest; collisions appear in the conclusions), [str.strip] on Unicode
    text and the texts of exceptions that reach a message.  [Loader] is pydantic's
    [model_validate] for each class the runtime reloads; [LoaderLaws] says that what it
    returns passed the validators.  RunDemo and Platforms instantiate all of them.
    [Ed25519] is the signature check of the cryptography package, without a law: the
    theorems say which keys verified, not that signatures cannot be forged.
    [CertificateParser], [load_ExecutionReceiptStatement] and
    [load_OutcomeClosureStatement] are pydantic's parsers of the wire models;
    [CertificateParserLaws] and [OutcomeParserLaws] say that what they return passed the
    validators and that they fail with a ValueError.  [ReplayLedger], [ReceiptIndex],
    [OutcomeClosureIndex] and [EvidenceResolver] are the protocols the verifiers are
    written against; the laws of the first three are proved of the in-memory classes.
    CertDemo, ReceiptDemo and OutcomeDemo instantiate them all.
    [ToolLoader] holds pydantic's [model_validate_json] of the tool calls and the entries of
    its errors, without a law; [handle_one_request] takes the header parser of http.server as
    an argument.  ToolServerDemo instantiates the loader with a table.
    [WireParser] holds the parsers of the documents the commands read, under the same two
    laws; CliDemo instantiates it.  The resources of the package are a function.

    ** Bounds and fuel

    The JSON scanner takes as fuel twice the length of its input, which bounds its
    nesting and its items ([jsize_print], JsonTotal); [coef_text] takes as fuel the number of binary digits
    of the coefficient, which bounds its decimal digits ([coef_text_go_fuel]); the loops of
    the request reader take as fuel the bytes still to arrive ([rounds]), those of the
    chunked decoder the bytes still to read, and neither runs out ([exact_loop_spec],
    [line_loop_spec], [read_chunked_body_spec]); the loop that writes a file takes its
    length, the one that reads it back its length and all that the events still write to
    it ([write_loop_ends], [initialize_demo_errors]).  Integers
    are Python's unbounded ones ([Z]); Decimal overflow and precision are those of the
    default context.

    ** Not modelled

    The files of a run are one map: symbolic links, permissions, concurrent writers and a crash
    between two writes are left out, so all or nothing means with respect to
    exceptions.  [Unmodelled] marks inputs outside the model (for instance an embedded
    NUL in a path).  The locks of the registry, the
    ledger and the indexes are what makes each of their operations one step; the requests of
    the tool service are therefore taken in the order of their registrations, and as the
    registry only grows, a calculation that runs beside them sees less, never more.
    Sockets, the thread scheduler, the parsing of the request line and headers and the
    standard error pages are those of Python's http.server; a response the peer does not
    receive is not distinguished from one it does.  In the
    installation of the demo os.close always succeeds, and the path of the parent is what
    it resolves to at each call.  argparse is not modelled: the commands start from parsed
    options; nor is an interrupt at any other place than while serving.  The benchmarks, the
    demo server and the scripts under src/scripts and src/deploy are build, deployment and
    presentation code around the program. *)
From Stdlib Require Export List Sorted Permutation ZArith Lia Ascii String.
From Stdlib Require Import DecimalString DecimalZ.
From stdpp Require Export strings gmap sorting.

#[global] Set Warnings "-notation-overridden".

Declare Scope pf_scope.
Delimit Scope pf_scope with pf.

(** ** Exceptions and the result monad

    A Python call either returns or raises.  [exn] lists the exception classes
    the modelled code raises or catches, with the message where the code reads
    it back.  [Unmodelled] marks the inputs this development leaves out. *)
Inductive exn :=
| ValueError (msg : string)
| TypeError (msg : string)
| ValidationError (msg : string)
| OverflowError (msg : string)
| InvalidOperation
| DecimalOverflow
| AssertionError
| KeyError (key : string)
| IndexError
| TransitionRejected (msg : string)
| TrustedArtifactStoreCapacityError (msg : string)
| TrustedArtifactStoreRegistrationError (msg : string)
| ReferenceRunError (msg : string)
| ReferenceRunBlocked (stage : string) (codes : list string)
| RuntimeError (msg : string)
| OSError (msg : string)
| FileExistsError
| FileNotFoundError
| RequestReadTimeout
| BodyUnexpectedEOF
| BodyLineTooLong
| BodyProtocolError (status : Z) (code message : string)
| ToolServerConfigurationError (msg : string)
| DemoInitializationError (code message : string)
| CliInputError (code message : string)
| Unmodelled (msg : string).

#[export] Instance exn_eq_dec : EqDecision exn.
Proof. solve_decision. Defined.

(** [except ValueError]: pydantic's ValidationError and TransitionRejected are
    subclasses of ValueError. *)
Definition is_value_error (e : exn) : bool :=
  match e with
  | ValueError _ | ValidationError _ | TransitionRejected _ => true
  | _ => false
  end.

Definition is_type_error (e : exn) : bool :=
  match e with TypeError _ => true | _ => false end.

Inductive result (A : Type) :=
| Ok (a : A)
| Raise (e : exn).
Arguments Ok {A} a.
Arguments Raise {A} e.

#[export] Instance result_eq_dec `{EqDecision A} : EqDecision (result A).
Proof. solve_decision. Defined.

#[export] Instance result_ret : MRet result := λ A a, Ok a.
#[export] Instance result_bind : MBind result :=
  λ A B k m, match m with Ok a => k a | Raise e => Raise e end.
#[export] Instance result_fmap : FMap result :=
  λ A B f m, match m with Ok a => Ok (f a) | Raise e => Raise e end.

(** [if not condition: raise e] *)
Definition require (b : bool) (e : exn) : result unit :=
  if b then Ok () else Raise e.

(** Left-to-right evaluation of a generator of fallible items. *)
Fixpoint mapR {A B} (f : A → result B) (l : list A) : result (list B) :=
  match l with
  | [] => Ok []
  | x :: l => y ← f x; ys ← mapR f l; Ok (y :: ys)
  end.

Fixpoint foldR {S A} (f : S → A → result S) (s : S) (l : list A) : result S :=
  match l with
  | [] => Ok s
  | x :: l => s' ← f s x; foldR f s' l
  end.

Definition is_ok {A} (m : result A) : bool :=
  match m with Ok _ => true | Raise _ => false end.

(** ** Inversion and automation for the monad *)
Lemma bind_Ok {A B} (m : result A) (k : A → result B) b :
  m ≫= k = Ok b ↔ ∃ a, m = Ok a ∧ k a = Ok b.
Proof.
  destruct m; unfold mbind; simpl.
  - split; [intros H; exists a; by split | by intros (? & [= <-] & ?)].
  - split; [done | by intros (? & ? & ?)].
Qed.

Lemma bind_Raise {A B} (m : result A) (k : A → result B) e :
  m ≫= k = Raise e ↔ m = Raise e ∨ ∃ a, m = Ok a ∧ k a = Raise e.
Proof.
  destruct m; unfold mbind; simpl; split.
  - intros H; right; exists a; by split.
  - intros [|(? & [= <-] & ?)]; done.
  - intros [= ->]; by left.
  - intros [[= ->]|(? & ? & ?)]; done.
Qed.

Lemma require_Ok b e u : require b e = Ok u ↔ b = true.
Proof. destruct b, u; simpl; naive_solver. Qed.

Lemma require_Raise b e e' : require b e = Raise e' ↔ b = false ∧ e' = e.
Proof. destruct b; simpl; naive_solver. Qed.

Section result_facts.
Context {A B S : Type}.

Lemma mapR_length (f : A → result B) l ys :
  mapR f l = Ok ys → length ys = length l.
Proof.
  revert ys; induction l as [|x l IH]; intros ys; simpl.
  - by intros [= <-].
  - intros (y & _ & (zs & H & [= <-])%bind_Ok)%bind_Ok. simpl. f_equal. auto.
Qed.

Lemma mapR_Forall2 (f : A → result B) l ys :
  mapR f l = Ok ys ↔ Forall2 (λ x y, f x = Ok y) l ys.
Proof.
  revert ys; induction l as [|x l IH]; intros ys; simpl.
  - split; [intros [= <-]; constructor | intros H; by inversion H].
  - rewrite bind_Ok. setoid_rewrite bind_Ok. split.
    + intros (y & Hy & zs & Hz & [= <-]). constructor; [done|by apply IH].
    + intros H; inversion H; subst. eexists; split; [done|].
      eexists; split; [by apply IH|done].
Qed.

Lemma Forall2_in_r (R : A → B → Prop) l ys y :
  Forall2 R l ys → y ∈ ys → ∃ x, x ∈ l ∧ R x y.
Proof.
  induction 1 as [|x z l zs Hr _ IH]; [by intros ?%not_elem_of_nil|].
  intros [->|Hy]%elem_of_cons; [exists x; split; [by left|done]|].
  destruct (IH Hy) as (w & ? & ?). exists w. split; [by right|done].
Qed.

Lemma mapR_app (f : A → result B) l1 l2 :
  mapR f (l1 ++ l2) = (y1 ← mapR f l1; y2 ← mapR f l2; Ok (y1 ++ y2)).
Proof.
  induction l1 as [|x l IH]; simpl.
  - by destruct (mapR f l2).
  - destruct (f x); simpl; [|done]. rewrite IH.
    destruct (mapR f l); simpl; [|done]. by destruct (mapR f l2).
Qed.

Lemma mapR_total (f : A → result B) l :
  (∀ x, x ∈ l → ∃ y, f x = Ok y) → ∃ ys, mapR f l = Ok ys.
Proof.
  induction l as [|x l IH]; intros H; simpl; [by eexists|].
  destruct (H x) as [y ->]; [by left|].
  destruct IH as [ys ->]; [intros; apply H; by right|]. by eexists.
Qed.

Lemma mapR_ext (f g : A → result B) l :
  (∀ x, x ∈ l → f x = g x) → mapR f l = mapR g l.
Proof.
  induction l as [|x l IH]; intros H; simpl; [done|].
  rewrite (H x) by (by left). rewrite IH; [done|]. intros; apply H; by right.
Qed.

Lemma foldR_app (f : S → A → result S) s l1 l2 :
  foldR f s (l1 ++ l2) = (s' ← foldR f s l1; foldR f s' l2).
Proof.
  revert s; induction l1 as [|x l IH]; intros s; simpl; [done|].
  destruct (f s x); simpl; [by apply IH|done].
Qed.

(** An invariant of one step is an invariant of the loop. *)
Lemma foldR_inv (P : S → Prop) (f : S → A → result S) s l s' :
  (∀ t x t', x ∈ l → P t → f t x = Ok t' → P t') →
  P s → foldR f s l = Ok s' → P s'.
Proof.
  revert s; induction l as [|x l IH]; intros s Hf Hs; simpl; [by intros [= <-]|].
  intros (t & Ht & H)%bind_Ok. eapply IH; [|eapply Hf|]; eauto.
  - intros; eapply Hf; eauto; by right.
  - by left.
Qed.
(** A loop ends in [s0] when no step leaves it and each step accepts its item. *)
Lemma foldR_clean (f : S → A → result S) (s0 : S) (P : A → Prop) :
  (∀ s x, f s x = Ok s0 ↔ s = s0 ∧ P x) →
  ∀ l s, foldR f s l = Ok s0 ↔ s = s0 ∧ Forall P l.
Proof.
  intros Hf. induction l as [|x l IH]; intros s; simpl.
  - split; [intros [= ->]; by split|by intros [-> _]].
  - rewrite bind_Ok, Forall_cons. split.
    + intros (t & Ht & [-> Hl]%IH). by apply Hf in Ht as [-> ?].
    + intros (-> & Hx & Hl). exists s0. split; [by apply Hf|by apply IH].
Qed.
End result_facts.

(** [inv_ok] opens every hypothesis saying that a monadic computation returned. *)
Ltac inv_ok :=
  repeat match goal with
  | H : mbind _ _ = Ok _ |- _ => apply bind_Ok in H; destruct H as (? & ? & H)
  | H : Ok _ = Ok _ |- _ => injection H; clear H; intros; subst
  | H : mret _ = Ok _ |- _ => injection H; clear H; intros; subst
  | H : Raise _ = Ok _ |- _ => discriminate H
  | H : Ok _ = Raise _ |- _ => discriminate H
  | H : require _ _ = Ok _ |- _ => apply require_Ok in H
  end.

(** [split_bools] turns boolean connectives in the hypotheses into facts. *)
Ltac split_bools :=
  repeat match goal with
  | H : (_ && _) = true |- _ => apply andb_true_iff in H; destruct H
  | H : (_ || _) = false |- _ => apply orb_false_iff in H; destruct H
  | H : negb _ = true |- _ => apply negb_true_iff in H
  | H : negb _ = false |- _ => apply negb_false_iff in H
  | H : bool_decide _ = true |- _ => apply bool_decide_eq_true in H
  | H : bool_decide _ = false |- _ => apply bool_decide_eq_false in H
  end.

(** [elem_cases] enumerates membership in a literal list. *)
Ltac elem_cases :=
  repeat match goal with
  | H : _ ∈ _ :: _ |- _ => apply elem_of_cons in H as [H|H]; [try subst|]
  | H : _ ∈ [] |- _ => by apply not_elem_of_nil in H
  end.

(** [elem_here] proves membership in a literal list. *)
Ltac elem_here := refine (proj1 (bool_decide_eq_true _) _); vm_compute; reflexivity.

Create HintDb pf.

(** ** Strings

    A Python [str] is represented by its UTF-8 encoding, a [bytes] value by its
    bytes: both are [string], a list of 8-bit characters.  The order of UTF-8
    encodings is the order of code points, so [String.leb] is the order
    [sorted] uses on [str]. *)
Fixpoint string_all (p : ascii → bool) (s : string) : bool :=
  match s with
  | EmptyString => true
  | String c s => p c && string_all p s
  end.

Definition in_range (lo hi : nat) (c : ascii) : bool :=
  (lo <=? nat_of_ascii c)%nat && (nat_of_ascii c <=? hi)%nat.
Definition is_digit (c : ascii) : bool := in_range 48 57 c.
Definition is_lower_hex (c : ascii) : bool := is_digit c || in_range 97 102 c.
Definition is_alnum (c : ascii) : bool :=
  is_digit c || in_range 65 90 c || in_range 97 122 c.
Definition ascii_in (s : string) (c : ascii) : bool :=
  existsb (Ascii.eqb c) (list_ascii_of_string s).

(** A printable ASCII character other than the space. *)
Definition is_solid (c : ascii) : bool := in_range 33 126 c.
Definition last_char (s : string) : option ascii := last (list_ascii_of_string s).

(** No whitespace at either end, and not empty. *)
Definition solid_edges (s : string) : bool :=
  match s with
  | EmptyString => false
  | String c _ =>
      is_solid c && match last_char s with Some d => is_solid d | None => false end
  end.

(** The text of an [int]. *)
Definition z_text (z : Z) : string := NilZero.string_of_int (Z.to_int z).
(** [bool(items)] *)
Definition nonempty {A} (l : list A) : bool := match l with [] => false | _ => true end.

Definition nat_text (n : nat) : string := z_text (Z.of_nat n).

(** [sep.join(items)], [s.startswith(p)], [s.removeprefix(p)], [s[:n]] *)
Definition str_join (sep : string) (l : list string) : string := String.concat sep l.
Definition starts_with (p s : string) : bool := String.prefix p s.
Definition str_take (n : nat) (s : string) : string := String.substring 0 n s.
Definition str_drop (n : nat) (s : string) : string :=
  String.substring n (String.length s - n) s.
Definition remove_prefix (p s : string) : string :=
  if starts_with p s then str_drop (String.length p) s else s.
Definition contains (sub s : string) : bool :=
  match String.index 0 sub s with Some _ => true | None => false end.

Fixpoint has_char (c : ascii) (s : string) : bool :=
  match s with EmptyString => false | String d s => Ascii.eqb d c || has_char c s end.

Lemma str_app_cons c s t : String c s +:+ t = String c (s +:+ t).
Proof. reflexivity. Qed.

Lemma str_app_nil_l s : "" +:+ s = s.
Proof. reflexivity. Qed.
#[export] Hint Rewrite str_app_cons str_app_nil_l : pf.

Lemma str_length_app s t : String.length (s +:+ t) = (String.length s + String.length t)%nat.
Proof. induction s as [|c s IH]; [done|]. rewrite str_app_cons. simpl. by rewrite IH. Qed.

Lemma str_app_assoc (s t u : string) : s +:+ (t +:+ u) = (s +:+ t) +:+ u.
Proof. induction s as [|c s IH]; [done|]. by rewrite !str_app_cons, IH. Qed.

Lemma str_app_nil_r (s : string) : s +:+ "" = s.
Proof. induction s as [|c s IH]; [done|]. by rewrite str_app_cons, IH. Qed.

Lemma str_app_inv_l (s t u : string) : s +:+ t = s +:+ u → t = u.
Proof. apply (inj (String.append s)). Qed.

Lemma str_app_inv_len (s s' t t' : string) :
  String.length s = String.length s' → s +:+ t = s' +:+ t' → s = s' ∧ t = t'.
Proof.
  revert s'; induction s as [|c s IH]; intros [|c' s']; try done.
  rewrite !str_app_cons. intros [= Hl] [= -> H]. destruct (IH _ Hl H) as [-> ->]. done.
Qed.

Lemma string_all_app p s t : string_all p (s +:+ t) = string_all p s && string_all p t.
Proof.
  induction s as [|c s IH]; [done|]. rewrite str_app_cons. simpl.
  by rewrite IH, andb_assoc.
Qed.

Lemma string_all_impl (p q : ascii → bool) s :
  (∀ c, p c = true → q c = true) → string_all p s = true → string_all q s = true.
Proof.
  intros Hpq. induction s as [|c s IH]; simpl; [done|].
  rewrite !andb_true_iff. naive_solver.
Qed.

(** ** Sorting

    [sorted(items, key=...)] is stable: [isort] inserts an item before the
    first item that is not smaller. *)
Section isort.
Context {A : Type} (leb : A → A → bool).

Fixpoint insert_sorted (x : A) (l : list A) : list A :=
  match l with
  | [] => [x]
  | y :: l' => if leb x y then x :: l else y :: insert_sorted x l'
  end.

Fixpoint isort (l : list A) : list A :=
  match l with [] => [] | x :: l => insert_sorted x (isort l) end.

Lemma insert_sorted_perm x l : insert_sorted x l ≡ₚ x :: l.
Proof.
  induction l as [|y l IH]; simpl; [done|].
  destruct (leb x y); [done|]. rewrite IH. by constructor.
Qed.

Lemma isort_perm l : isort l ≡ₚ l.
Proof. induction l as [|x l IH]; simpl; [done|]. by rewrite insert_sorted_perm, IH. Qed.

Lemma elem_of_isort x l : x ∈ isort l ↔ x ∈ l.
Proof. by rewrite isort_perm. Qed.

Lemma length_isort l : length (isort l) = length l.
Proof. by rewrite isort_perm. Qed.

Context (leb_total : ∀ x y, leb x y = true ∨ leb y x = true).
Context (leb_trans : ∀ x y z, leb x y = true → leb y z = true → leb x z = true).

Lemma insert_sorted_sorted x l :
  StronglySorted (λ a b, leb a b = true) l →
  StronglySorted (λ a b, leb a b = true) (insert_sorted x l).
Proof.
  induction 1 as [|y l Hl IH Hy]; simpl; [by repeat constructor|].
  destruct (leb x y) eqn:E.
  - constructor; [by constructor|]. constructor; [done|].
    eapply Forall_impl; [exact Hy|]. eauto.
  - constructor; [done|]. rewrite insert_sorted_perm. constructor; [|done].
    destruct (leb_total x y); congruence.
Qed.

Lemma isort_sorted l : StronglySorted (λ a b, leb a b = true) (isort l).
Proof. induction l; simpl; [constructor|by apply insert_sorted_sorted]. Qed.

Lemma isort_id l : StronglySorted (λ a b, leb a b = true) l → isort l = l.
Proof.
  induction 1 as [|x l Hl IH Hx]; simpl; [done|]. rewrite IH.
  destruct Hx as [|y l Hxy Hx]; simpl; [done|]. by rewrite Hxy.
Qed.

Lemma isort_idem l : isort (isort l) = isort l.
Proof. apply isort_id, isort_sorted. Qed.
End isort.

Lemma string_leb_trans x y z :
  String.leb x y = true → String.leb y z = true → String.leb x z = true.
Proof.
  intros ??. apply Is_true_true. change (String.le x z).
  trans y; by apply Is_true_true.
Qed.

(** Sorting records by a [str] key. *)
Definition key_leb {A} (f : A → string) (x y : A) : bool := String.leb (f x) (f y).

Lemma key_leb_total {A} (f : A → string) x y :
  key_leb f x y = true ∨ key_leb f y x = true.
Proof. apply String.leb_total. Qed.
Lemma key_leb_trans {A} (f : A → string) x y z :
  key_leb f x y = true → key_leb f y z = true → key_leb f x z = true.
Proof. apply string_leb_trans. Qed.
#[export] Hint Resolve key_leb_total key_leb_trans String.leb_total string_leb_trans : pf.

Lemma isort_key_sorted {A} (f : A → string) l :
  StronglySorted (λ a b, key_leb f a b = true) (isort (key_leb f) l).
Proof. apply isort_sorted; eauto with pf. Qed.

(** With distinct keys the result does not depend on the order of the input. *)
Lemma isort_key_perm {A} (f : A → string) (l1 l2 : list A) :
  NoDup (f <$> l1) → l1 ≡ₚ l2 → isort (key_leb f) l1 = isort (key_leb f) l2.
Proof.
  intros Hnd Hp. eapply (StronglySorted_unique_strong (λ a b, key_leb f a b = true)).
  - intros x y Hx Hy Hxy Hyx. rewrite elem_of_isort in Hx, Hy.
    rewrite <- Hp in Hy.
    assert (f x = f y) as Hf by by apply String.leb_antisym.
    apply list_elem_of_lookup in Hx as [i Hi], Hy as [j Hj].
    assert (i = j) as ->; [|congruence].
    apply (NoDup_lookup (f <$> l1) i j (f x)); [done| |].
    + by rewrite list_lookup_fmap, Hi.
    + by rewrite list_lookup_fmap, Hj, Hf.
  - apply isort_key_sorted.
  - apply isort_key_sorted.
  - by rewrite !isort_perm.
Qed.

Lemma StronglySorted_filter {A} (R : A → A → Prop) (P : A → Prop) `{∀ x, Decision (P x)} l :
  StronglySorted R l → StronglySorted R (filter P l).
Proof.
  induction 1 as [|x l _ IH Hx]; [constructor|]. rewrite filter_cons.
  destruct (decide (P x)); [|done]. constructor; [done|].
  rewrite Forall_forall in *. intros y [_ Hy]%list_elem_of_filter. auto.
Qed.

(** [tuple(dict.fromkeys(items))]: the first occurrence of each item. *)
Fixpoint dedup `{EqDecision A} (l : list A) : list A :=
  match l with
  | [] => []
  | x :: l => x :: filter (λ y, y ≠ x) (dedup l)
  end.

Lemma elem_of_dedup `{EqDecision A} (l : list A) x : x ∈ dedup l ↔ x ∈ l.
Proof.
  induction l as [|y l IH]; simpl; [done|].
  rewrite !elem_of_cons, list_elem_of_filter, IH.
  destruct (decide (x = y)); naive_solver.
Qed.

Lemma NoDup_dedup `{EqDecision A} (l : list A) : NoDup (dedup l).
Proof.
  induction l as [|y l IH]; simpl; constructor.
  - rewrite list_elem_of_filter. naive_solver.
  - by apply NoDup_filter.
Qed.

Lemma dedup_id `{EqDecision A} (l : list A) : NoDup l → dedup l = l.
Proof.
  induction 1 as [|x l Hx Hl IH]; simpl; [done|]. rewrite IH. f_equal.
  clear -Hx. induction l as [|y l IH]; [done|].
  apply not_elem_of_cons in Hx as [??].
  rewrite filter_cons_True by done. by rewrite IH.
Qed.
