(* ===== verification/Stateful.v ===== *)
(** * Computations on a state that may fail

    A computation changes a state and returns or raises; a failed one leaves the state
    too, as a Python call does that mutates objects before it raises.  The triples state
    what holds afterwards in either case; they have a rule for each way the modelled code
    composes calls. *)
From S2P Require Import Prelude.

Definition stateful (S A : Type) : Type := S → S * result A.
#[export] Instance stateful_ret S : MRet (stateful S) := λ A a s, (s, Ok a).
#[export] Instance stateful_bind S : MBind (stateful S) := λ A B k m s,
  let '(s, x) := m s in match x with Ok a => k a s | Raise e => (s, Raise e) end.

Definition failing {S A} (e : exn) : stateful S A := λ s, (s, Raise e).
Definition gets {S A} (f : S → A) : stateful S A := λ s, (s, Ok (f s)).
Definition modify {S} (f : S → S) : stateful S unit := λ s, (f s, Ok ()).
Definition lifted {S A} (x : result A) : stateful S A := λ s, (s, x).
(** [try]: the outcome as a value *)
Definition attempt {S A} (m : stateful S A) : stateful S (result A) := λ s, let '(s, x) := m s in (s, Ok x).
(** [try: m except: handler] *)
Definition catching {S A} (m : stateful S A) (handler : exn → stateful S A) : stateful S A := λ s,
  let '(s, x) := m s in match x with Ok a => (s, Ok a) | Raise e => handler e s end.
(** [for x in l: f(x)] *)
Fixpoint each {S A} (f : A → stateful S unit) (l : list A) : stateful S unit :=
  match l with
  | [] => mret ()
  | x :: l => _ ← f x; each f l
  end.

Section runs.
Context {S A B : Type}.
Implicit Types (m : stateful S A) (k : A → stateful S B).

Lemma stateful_Ok m k s s' a : m s = (s', Ok a) → (m ≫= k) s = k a s'.
Proof. intros H. unfold mbind, stateful_bind. by rewrite H. Qed.
Lemma stateful_Raise m k s s' e : m s = (s', Raise e) → (m ≫= k) s = (s', Raise e).
Proof. intros H. unfold mbind, stateful_bind. by rewrite H. Qed.
Lemma bind_stateful_Ok m k s s' b : (m ≫= k) s = (s', Ok b) ↔ ∃ s1 a, m s = (s1, Ok a) ∧ k a s1 = (s', Ok b).
Proof.
  unfold mbind, stateful_bind. destruct (m s) as [s1 [a|e]]; split; try naive_solver.
Qed.
End runs.

(** ** Triples *)
Section triples.
Context {S : Type}.
Implicit Types P : S → Prop.

Definition triple {A} P (m : stateful S A) (Q : A → S → Prop) (X : exn → S → Prop) : Prop :=
  ∀ s, P s → match m s with (s', Ok a) => Q a s' | (s', Raise e) => X e s' end.

Lemma triple_weaken {A} P P' (m : stateful S A) Q Q' X X' :
  triple P m Q X → (∀ s, P' s → P s) → (∀ a s, Q a s → Q' a s) → (∀ e s, X e s → X' e s) → triple P' m Q' X'.
Proof.
  intros H HP HQ HX s Hs. specialize (H s (HP s Hs)). destruct (m s) as [s' [a|e]]; auto.
Qed.
Lemma triple_and {A} P (m : stateful S A) Q Q' X X' :
  triple P m Q X → triple (λ _, True) m Q' X' → triple P m (λ a s, Q a s ∧ Q' a s) X.
Proof. intros H H' s Hs. specialize (H s Hs). specialize (H' s I). by destruct (m s) as [s' [a|e]]. Qed.
Lemma triple_ret {A} P (a : A) Q X : (∀ s, P s → Q a s) → triple P (mret a) Q X.
Proof. intros H s Hs. by apply H. Qed.
Lemma triple_failing {A} P e (Q : A → S → Prop) X : (∀ s, P s → X e s) → triple P (failing e) Q X.
Proof. intros H s Hs. by apply H. Qed.
Lemma triple_gets {A} P (f : S → A) Q X : (∀ s, P s → Q (f s) s) → triple P (gets f) Q X.
Proof. intros H s Hs. by apply H. Qed.
Lemma triple_modify P f Q X : (∀ s, P s → Q () (f s)) → triple P (modify f) Q X.
Proof. intros H s Hs. by apply H. Qed.
Lemma triple_lifted {A} P (x : result A) Q X :
  (∀ s, P s → match x with Ok a => Q a s | Raise e => X e s end) → triple P (lifted x) Q X.
Proof. intros H s Hs. unfold lifted. by specialize (H s Hs). Qed.
Lemma triple_bind {A B} P (m : stateful S A) (k : A → stateful S B) Q R X :
  triple P m Q X → (∀ a, triple (Q a) (k a) R X) → triple P (m ≫= k) R X.
Proof.
  intros Hm Hk s Hs. specialize (Hm s Hs). unfold mbind, stateful_bind. destruct (m s) as [s' [a|e]]; [|done].
  exact (Hk a s' Hm).
Qed.
Lemma triple_catching {A} P (m : stateful S A) handler Q X Y :
  triple P m Q X → (∀ e, triple (X e) (handler e) Q Y) → triple P (catching m handler) Q Y.
Proof.
  intros Hm Hh s Hs. specialize (Hm s Hs). unfold catching. destruct (m s) as [s' [a|e]]; [done|]. exact (Hh e s' Hm).
Qed.
Lemma triple_attempt {A} P (m : stateful S A) Q X :
  triple P m (λ a, Q (Ok a)) (λ e, Q (Raise e)) → triple P (attempt m) Q X.
Proof. intros Hm s Hs. specialize (Hm s Hs). unfold attempt. by destruct (m s) as [s' [a|e]]. Qed.
(** A loop keeps what every round keeps. *)
Lemma triple_each {A} (I : S → Prop) (f : A → stateful S unit) l X :
  (∀ x, x ∈ l → triple I (f x) (λ _, I) X) → triple I (each f l) (λ _, I) X.
Proof.
  induction l as [|x l IH]; intros H; cbn [each]; [by apply triple_ret|].
  eapply triple_bind; [apply H; by left|]. intros u. apply IH. intros y Hy. apply H. by right.
Qed.
(** The loop as a fold over its list, when each round says what it adds *)
Lemma triple_each_seq {A} (I : list A → S → Prop) (f : A → stateful S unit) l X :
  (∀ done x, triple (I done) (f x) (λ _, I (done ++ [x])) X) →
  ∀ done, triple (I done) (each f l) (λ _, I (done ++ l)) X.
Proof.
  intros Hf. induction l as [|x l IH]; intros done; cbn [each].
  - rewrite app_nil_r. by apply triple_ret.
  - eapply triple_bind; [apply Hf|]. intros u. rewrite (cons_middle x done l), app_assoc. apply IH.
Qed.

(** A fact that does not concern the state *)
Lemma triple_pure {A} P (F : Prop) (m : stateful S A) Q X : (F → triple P m Q X) → triple (λ s, P s ∧ F) m Q X.
Proof. intros H s [Hs HF]. by apply H. Qed.
(** A loop establishes what each round establishes. *)
Lemma triple_each_facts {A} P (F : A → Prop) (f : A → stateful S unit) l X :
  (∀ x, x ∈ l → triple P (f x) (λ _ s, P s ∧ F x) X) → triple P (each f l) (λ _ s, P s ∧ Forall F l) X.
Proof.
  induction l as [|x l IH]; intros H; cbn [each]; [by apply triple_ret|].
  eapply triple_bind; [apply H; by left|]. intros u. apply triple_pure. intros Hx.
  eapply triple_weaken; [apply IH; intros y Hy; apply H; by right|done| |done]. intros u' s [Hs Hl]. split; [done|by constructor].
Qed.

(** What holds before holds after, however the computation ends. *)
Definition keeps {A} (I : S → Prop) (m : stateful S A) : Prop := triple I m (λ _, I) (λ _, I).
Lemma keeps_ret {A} I (a : A) : keeps I (mret a).
Proof. by apply triple_ret. Qed.
Lemma keeps_failing {A} I e : keeps (A := A) I (failing e).
Proof. by apply triple_failing. Qed.
Lemma keeps_gets {A} I (f : S → A) : keeps I (gets f).
Proof. by apply triple_gets. Qed.
Lemma keeps_bind {A B} I (m : stateful S A) (k : A → stateful S B) : keeps I m → (∀ a, keeps I (k a)) → keeps I (m ≫= k).
Proof. intros Hm Hk. eapply triple_bind; [exact Hm|]. intros a. apply Hk. Qed.
Lemma keeps_catching {A} I (m : stateful S A) handler : keeps I m → (∀ e, keeps I (handler e)) → keeps I (catching m handler).
Proof. intros Hm Hh. eapply triple_catching; [exact Hm|]. intros e. apply Hh. Qed.
Lemma keeps_attempt {A} I (m : stateful S A) : keeps I m → keeps I (attempt m).
Proof. intros Hm. by apply triple_attempt. Qed.
Lemma keeps_each {A} I (f : A → stateful S unit) l : (∀ x, x ∈ l → keeps I (f x)) → keeps I (each f l).
Proof. intros H. apply triple_each. exact H. Qed.
End triples.

Create HintDb keeps.
#[export] Hint Resolve keeps_ret keeps_failing keeps_gets keeps_attempt : keeps.
(** Go through a block call by call. *)
Ltac keeping := repeat first
  [ solve [auto with keeps]
  | apply keeps_bind; [|intros ?]
  | apply keeps_catching; [|intros ?]
  | apply keeps_each; intros ? ?
  | match goal with |- keeps _ (match ?x with _ => _ end) => destruct x end
  | match goal with |- keeps _ (if ?x then _ else _) => destruct x end ].
