(* ===== verification/Json.v ===== *)
(** * JSON text: the printer and the scanner of Python's [json] module

    [json] is the value domain of [json.loads]; [dumps] is [json.dumps] with
    [ensure_ascii=False, sort_keys=True] in the three separator styles the
    program uses, and [loads] is [json.loads] on the text of a UTF-8 document.
    A float is carried as its literal.  The main result is that [loads] reads
    back what [dumps] wrote, so the canonical bytes of a payload determine it. *)
From Stdlib Require Import DecimalString DecimalFacts DecimalZ.
From S2P Require Import Prelude.

(** ** Texts of integers *)
Definition read_int (s : string) : option Z := Z.of_int <$> NilZero.int_of_string s.

(** A non-empty run of digits with no superfluous leading zero. *)
Definition digits_wf (s : string) : bool :=
  match s with
  | EmptyString => false
  | String c EmptyString => is_digit c
  | String c s' => is_digit c && negb (Ascii.eqb c "0") && string_all is_digit s'
  end.

Lemma digits_wf_all s : digits_wf s = true → string_all is_digit s = true.
Proof.
  destruct s as [|c [|d s]]; simpl; [done|by rewrite andb_true_r|].
  intros. by split_bools; rewrite ?andb_true_iff.
Qed.

Lemma string_of_uint_digits d : string_all is_digit (NilEmpty.string_of_uint d) = true.
Proof. induction d; simpl; done. Qed.

Lemma string_of_uint_wf d :
  Decimal.unorm d = d → digits_wf (NilZero.string_of_uint d) = true.
Proof.
  assert (∀ c d, is_digit c = true → Ascii.eqb c "0" = false →
    digits_wf (String c (NilEmpty.string_of_uint d)) = true) as Hnz.
  { intros c u Hc H0. pose proof (string_of_uint_digits u) as Hu. simpl.
    destruct (NilEmpty.string_of_uint u); [done|]. by rewrite Hc, H0, Hu. }
  destruct d as [|d|d|d|d|d|d|d|d|d|d]; intros Hn; try (apply Hnz; done); [done|].
  destruct d; simpl; [done|..]; exfalso; revert Hn;
    unfold Decimal.unorm; simpl; intros Hn; try discriminate Hn.
  destruct (Decimal.nzhead d) eqn:E; try discriminate Hn.
  by destruct (nzhead_nonzero _ _ E).
Qed.

(** [z_text z] is the digits of [Z.abs z], after a minus sign if negative. *)
Lemma z_text_shape z :
  ∃ ds, digits_wf ds = true ∧
    z_text z = (if (z <? 0)%Z then String "-" ds else ds).
Proof.
  unfold z_text. assert (Decimal.norm (Z.to_int z) = Z.to_int z) as Hn.
  { by rewrite <- to_of, of_to. }
  destruct z as [|p|p]; simpl in *.
  - by exists "0".
  - eexists; split; [|done]. apply string_of_uint_wf. by injection Hn.
  - eexists; split; [|done]. apply string_of_uint_wf.
    destruct (Decimal.nzhead (Pos.to_uint p)) eqn:E; [discriminate Hn|..];
      injection Hn as Hn; unfold Decimal.unorm; by rewrite E.
Qed.

Lemma read_z_text z : read_int (z_text z) = Some z.
Proof.
  unfold read_int, z_text. rewrite NilZero.isi.
  - simpl. by rewrite of_to.
  - destruct z; simpl; try done. intros [= H].
    by destruct (DecimalPos.Unsigned.to_uint_nonnil p).
  - destruct z; simpl; try done. intros [= H].
    by destruct (DecimalPos.Unsigned.to_uint_nonnil p).
Qed.

Lemma z_text_inj z1 z2 : z_text z1 = z_text z2 → z1 = z2.
Proof. intros H. apply (f_equal read_int) in H. rewrite !read_z_text in H. congruence. Qed.

(** ** Values and the printer *)
Inductive json :=
| JNull
| JBool (b : bool)
| JInt (z : Z)
| JFloat (literal : string)
| JStr (s : string)
| JArr (l : list json)
| JObj (l : list (string * json)).

Definition char (n : nat) : string := String (ascii_of_nat n) EmptyString.
Definition dquote : ascii := ascii_of_nat 34.
Definition backslash : ascii := ascii_of_nat 92.

Definition hex_digit (n : N) : ascii :=
  ascii_of_N (if (n <? 10)%N then 48 + n else 87 + n)%N.
Definition hex4 (n : N) : string :=
  (String (hex_digit (n / 4096 mod 16)) (String (hex_digit (n / 256 mod 16))
    (String (hex_digit (n / 16 mod 16)) (String (hex_digit (n mod 16)) EmptyString))))%N.

(** [json.encoder.ESCAPE] and [ESCAPE_DCT] *)
Definition escape_char (c : ascii) : string :=
  let n := nat_of_ascii c in
  if (n =? 34)%nat then char 92 +:+ char 34
  else if (n =? 92)%nat then char 92 +:+ char 92
  else if (n =? 8)%nat then char 92 +:+ "b"
  else if (n =? 12)%nat then char 92 +:+ "f"
  else if (n =? 10)%nat then char 92 +:+ "n"
  else if (n =? 13)%nat then char 92 +:+ "r"
  else if (n =? 9)%nat then char 92 +:+ "t"
  else if (n <? 32)%nat then char 92 +:+ "u" +:+ hex4 (N_of_ascii c)
  else String c EmptyString.

Fixpoint escape (s : string) : string :=
  match s with EmptyString => "" | String c s => escape_char c +:+ escape s end.

Definition quote (s : string) : string := char 34 +:+ escape s +:+ char 34.

(** The separators of [json.dumps]: [Compact] is [separators=(",", ":")],
    [Spaced] the default, [Indent2] is [indent=2]. *)
Inductive style := Compact | Spaced | Indent2.

Definition item_sep (st : style) : string :=
  match st with Spaced => ", " | _ => "," end.
Definition key_sep (st : style) : string :=
  match st with Compact => ":" | _ => ": " end.

Fixpoint spaces (n : nat) : string :=
  match n with O => "" | S n => String " " (spaces n) end.
Definition newline (st : style) (lvl : nat) : string :=
  match st with Indent2 => char 10 +:+ spaces (2 * lvl) | _ => "" end.

Definition wrap (st : style) (lvl : nat) (op cl : string) (items : list string) : string :=
  match items with
  | [] => op +:+ cl
  | _ => op +:+ newline st (S lvl) +:+
         str_join (item_sep st +:+ newline st (S lvl)) items +:+ newline st lvl +:+ cl
  end.

Fixpoint print (st : style) (lvl : nat) (j : json) : string :=
  match j with
  | JNull => "null"
  | JBool b => if b then "true" else "false"
  | JInt z => z_text z
  | JFloat t => t
  | JStr s => quote s
  | JArr l => wrap st lvl "[" "]" (map (print st (S lvl)) l)
  | JObj l =>
      wrap st lvl "{" "}"
        (map (λ kv, quote (fst kv) +:+ key_sep st +:+ print st (S lvl) (snd kv)) l)
  end.

(** [sort_keys=True] *)
Fixpoint sort_keys (j : json) : json :=
  match j with
  | JArr l => JArr (map sort_keys l)
  | JObj l => JObj (isort (key_leb fst) (map (λ kv, (fst kv, sort_keys (snd kv))) l))
  | _ => j
  end.

Definition dumps (st : style) (j : json) : string := print st 0 (sort_keys j).

(** ** The scanner *)
Definition JSONDecodeError (msg : string) : exn := ValueError msg.

Definition is_ws (c : ascii) : bool :=
  let n := nat_of_ascii c in
  (n =? 32)%nat || (n =? 9)%nat || (n =? 10)%nat || (n =? 13)%nat.

Fixpoint skip_ws (s : string) : string :=
  match s with
  | EmptyString => s
  | String c s' => if is_ws c then skip_ws s' else s
  end.

Definition hex_value (c : ascii) : option N :=
  let n := N_of_ascii c in
  if is_digit c then Some (n - 48)%N
  else if in_range 97 102 c then Some (n - 87)%N
  else if in_range 65 70 c then Some (n - 55)%N
  else None.

Definition hex4_value (a b c d : ascii) : option N :=
  w ← hex_value a; x ← hex_value b; y ← hex_value c; z ← hex_value d;
  Some (4096 * w + 256 * x + 16 * y + z)%N.

(** UTF-8 encoding of a code point that is not a surrogate *)
Definition byte (n : N) : string := String (ascii_of_N n) EmptyString.
Definition utf8_encode (n : N) : string :=
  (if n <? 128 then byte n
   else if n <? 2048 then byte (192 + n / 64) +:+ byte (128 + n mod 64)
   else if n <? 65536 then
     byte (224 + n / 4096) +:+ byte (128 + n / 64 mod 64) +:+ byte (128 + n mod 64)
   else byte (240 + n / 262144) +:+ byte (128 + n / 4096 mod 64) +:+
        byte (128 + n / 64 mod 64) +:+ byte (128 + n mod 64))%N.

Definition is_high (n : N) : bool := (55296 <=? n)%N && (n <=? 56319)%N.
Definition is_low (n : N) : bool := (56320 <=? n)%N && (n <=? 57343)%N.

Definition simple_escape (e : ascii) : option string :=
  let n := nat_of_ascii e in
  if (n =? 34)%nat then Some (char 34)
  else if (n =? 92)%nat then Some (char 92)
  else if (n =? 47)%nat then Some (char 47)
  else if (n =? 98)%nat then Some (char 8)
  else if (n =? 102)%nat then Some (char 12)
  else if (n =? 110)%nat then Some (char 10)
  else if (n =? 114)%nat then Some (char 13)
  else if (n =? 116)%nat then Some (char 9)
  else None.

Definition cons_str (t : string) (m : result (string * string)) : result (string * string) :=
  '(u, r) ← m; Ok (t +:+ u, r).

(** [scanstring(s, end)]: the text after the opening quote; returns the decoded
    string and what follows the closing quote. *)
Fixpoint scanstring (s : string) : result (string * string) :=
  match s with
  | EmptyString => Raise (JSONDecodeError "Unterminated string")
  | String c s1 =>
      if Ascii.eqb c dquote then Ok (EmptyString, s1)
      else if Ascii.eqb c backslash then
        match s1 with
        | String e s2 =>
            if Ascii.eqb e "u" then
              match s2 with
              | String a (String b (String c' (String d s3))) =>
                  match hex4_value a b c' d with
                  | None => Raise (JSONDecodeError "Invalid \uXXXX escape")
                  | Some n =>
                      if is_high n || is_low n then
                        match s3 with
                        | String k1 (String k2 (String p (String q (String r (String t s4))))) =>
                            if Ascii.eqb k1 backslash && Ascii.eqb k2 "u" && is_high n then
                              match hex4_value p q r t with
                              | Some m =>
                                  if is_low m then
                                    cons_str (utf8_encode
                                      (65536 + 1024 * (n - 55296) + (m - 56320))%N)
                                      (scanstring s4)
                                  else Raise (Unmodelled "lone surrogate")
                              | None => Raise (JSONDecodeError "Invalid \uXXXX escape")
                              end
                            else Raise (Unmodelled "lone surrogate")
                        | _ => Raise (Unmodelled "lone surrogate")
                        end
                      else cons_str (utf8_encode n) (scanstring s3)
                  end
              | _ => Raise (JSONDecodeError "Invalid \uXXXX escape")
              end
            else match simple_escape e with
                 | Some t => cons_str t (scanstring s2)
                 | None => Raise (JSONDecodeError "Invalid \escape")
                 end
        | EmptyString => Raise (JSONDecodeError "Unterminated string")
        end
      else if (nat_of_ascii c <? 32)%nat then Raise (JSONDecodeError "Invalid control character")
      else cons_str (String c EmptyString) (scanstring s1)
  end.

Fixpoint span_digits (s : string) : string * string :=
  match s with
  | String c s' =>
      if is_digit c then let '(d, r) := span_digits s' in (String c d, r) else ("", s)
  | EmptyString => ("", "")
  end.

(** [(\.\d+)?]: the fraction and what follows *)
Definition scan_frac (s : string) : string * string :=
  match s with
  | String "." s' => let '(d, r) := span_digits s' in
      match d with EmptyString => ("", s) | _ => ("." +:+ d, r) end
  | _ => ("", s)
  end.

(** [([eE][-+]?\d+)?] *)
Definition scan_exp (s : string) : string * string :=
  match s with
  | String c s' =>
      if Ascii.eqb c "e" || Ascii.eqb c "E" then
        let '(sg, s2) := match s' with
          | String "+" t => ("+", t) | String "-" t => ("-", t) | _ => ("", s') end in
        let '(d, r) := span_digits s2 in
        match d with EmptyString => ("", s) | _ => (String c (sg +:+ d), r) end
      else ("", s)
  | EmptyString => ("", s)
  end.

(** [NUMBER_RE]: a sign, an integer part without leading zeros, a fraction, an exponent *)
Definition scan_number (s : string) : option (json * string) :=
  let '(sg, s1) := match s with String "-" t => ("-", t) | _ => ("", s) end in
  let '(ds, s2) := span_digits s1 in
  match ds with
  | EmptyString => None
  | String c ds' =>
      let '(int, s3) := if Ascii.eqb c "0" then ("0", ds' +:+ s2) else (ds, s2) in
      let '(fr, s4) := scan_frac s3 in
      let '(ex, s5) := scan_exp s4 in
      match fr +:+ ex with
      | EmptyString => z ← read_int (sg +:+ int); Some (JInt z, s5)
      | _ => Some (JFloat (sg +:+ int +:+ fr +:+ ex), s5)
      end
  end.

(** [object_pairs_hook] and [parse_constant] *)
Record hooks := {
  object_pairs : list (string * json) → result (list (string * json));
  parse_constant : string → result json;
}.

Definition literal (w : string) (j : result json) (s : string) : option (result (json * string)) :=
  if starts_with w s then Some (v ← j; Ok (v, str_drop (String.length w) s)) else None.

Definition scan_literal (h : hooks) (s : string) : option (result (json * string)) :=
  match literal "null" (Ok JNull) s with Some r => Some r | None =>
  match literal "true" (Ok (JBool true)) s with Some r => Some r | None =>
  match literal "false" (Ok (JBool false)) s with Some r => Some r | None =>
  match scan_number s with Some r => Some (Ok r) | None =>
  match literal "NaN" (parse_constant h "NaN") s with Some r => Some r | None =>
  match literal "Infinity" (parse_constant h "Infinity") s with Some r => Some r | None =>
  literal "-Infinity" (parse_constant h "-Infinity") s
  end end end end end end.

(** The text after an expected character *)
Definition eat (c : ascii) (s : string) : option string :=
  match s with
  | String d r => if Ascii.eqb d c then Some r else None
  | EmptyString => None
  end.

(** [scan_once], [JSONArray] and [JSONObject].  Of two nested calls at least one consumes a
    character, so twice the length of the text bounds the recursion. *)
Fixpoint scan_value (h : hooks) (fuel : nat) (s : string) {struct fuel} : result (json * string) :=
  match fuel with
  | O => Raise (Unmodelled "fuel")
  | S fuel =>
      match s with
      | EmptyString => Raise (JSONDecodeError "Expecting value")
      | String c s1 =>
          if Ascii.eqb c dquote then '(t, r) ← scanstring s1; Ok (JStr t, r)
          else if Ascii.eqb c "[" then
            match eat "]" (skip_ws s1) with
            | Some r => Ok (JArr [], r)
            | None => '(l, r) ← scan_items h fuel (skip_ws s1); Ok (JArr l, r)
            end
          else if Ascii.eqb c "{" then
            match eat "}" (skip_ws s1) with
            | Some r => l ← object_pairs h []; Ok (JObj l, r)
            | None =>
                '(l, r) ← scan_members h fuel (skip_ws s1);
                l' ← object_pairs h l; Ok (JObj l', r)
            end
          else match scan_literal h s with
               | Some r => r
               | None => Raise (JSONDecodeError "Expecting value")
               end
      end
  end
with scan_items (h : hooks) (fuel : nat) (s : string) {struct fuel} : result (list json * string) :=
  match fuel with
  | O => Raise (Unmodelled "fuel")
  | S fuel =>
      '(v, r) ← scan_value h fuel s;
      match skip_ws r with
      | String "," r1 => '(l, r2) ← scan_items h fuel (skip_ws r1); Ok (v :: l, r2)
      | String "]" r1 => Ok ([v], r1)
      | _ => Raise (JSONDecodeError "Expecting ',' delimiter")
      end
  end
with scan_members (h : hooks) (fuel : nat) (s : string) {struct fuel}
    : result (list (string * json) * string) :=
  match fuel with
  | O => Raise (Unmodelled "fuel")
  | S fuel =>
      match s with
      | String c s1 =>
          if negb (Ascii.eqb c dquote) then
            Raise (JSONDecodeError "Expecting property name enclosed in double quotes")
          else
            '(k, r) ← scanstring s1;
            match skip_ws r with
            | String ":" r1 =>
                '(v, r2) ← scan_value h fuel (skip_ws r1);
                match skip_ws r2 with
                | String "," r3 =>
                    '(l, r4) ← scan_members h fuel (skip_ws r3); Ok ((k, v) :: l, r4)
                | String "}" r3 => Ok ([(k, v)], r3)
                | _ => Raise (JSONDecodeError "Expecting ',' delimiter")
                end
            | _ => Raise (JSONDecodeError "Expecting ':' delimiter")
            end
      | EmptyString =>
          Raise (JSONDecodeError "Expecting property name enclosed in double quotes")
      end
  end.

Definition loads_with (h : hooks) (s : string) : result json :=
  '(j, r) ← scan_value h (S (2 * String.length s)) (skip_ws s);
  match skip_ws r with
  | EmptyString => Ok j
  | _ => Raise (JSONDecodeError "Extra data")
  end.

(** [dict(pairs)]: a repeated key keeps its first position and its last value. *)
Fixpoint dict_set {A} (k : string) (v : A) (l : list (string * A)) : list (string * A) :=
  match l with
  | [] => [(k, v)]
  | (k', v') :: l => if String.eqb k' k then (k, v) :: l else (k', v') :: dict_set k v l
  end.
Definition dict_of {A} (l : list (string * A)) : list (string * A) :=
  fold_left (λ d kv, dict_set (fst kv) (snd kv) d) l [].

Definition default_hooks : hooks := {|
  object_pairs := λ l, Ok (dict_of l);
  parse_constant := λ w, Ok (JFloat w);
|}.

Definition loads (s : string) : result json := loads_with default_hooks s.

(** ** Reading back what was printed *)

(** No float, and no repeated key. *)
Fixpoint wf_json (j : json) : bool :=
  match j with
  | JFloat _ => false
  | JArr l => forallb wf_json l
  | JObj l => bool_decide (NoDup (map fst l)) && forallb (λ kv, wf_json (snd kv)) l
  | _ => true
  end.

Section json_ind.
Context (P : json → Prop).
Context (Pnull : P JNull) (Pbool : ∀ b, P (JBool b)) (Pint : ∀ z, P (JInt z))
  (Pfloat : ∀ t, P (JFloat t)) (Pstr : ∀ s, P (JStr s))
  (Parr : ∀ l, Forall P l → P (JArr l))
  (Pobj : ∀ l, Forall (λ kv, P (snd kv)) l → P (JObj l)).

Fixpoint json_ind' (j : json) : P j :=
  match j with
  | JNull => Pnull | JBool b => Pbool b | JInt z => Pint z
  | JFloat t => Pfloat t | JStr s => Pstr s
  | JArr l => Parr l
      ((fix go (l : list json) : Forall P l :=
          match l with
          | [] => List.Forall_nil _
          | x :: l => List.Forall_cons _ _ _ (json_ind' x) (go l)
          end) l)
  | JObj l => Pobj l
      ((fix go (l : list (string * json)) : Forall (λ kv, P (snd kv)) l :=
          match l with
          | [] => List.Forall_nil _
          | x :: l => List.Forall_cons _ _ _ (json_ind' (snd x)) (go l)
          end) l)
  end.
End json_ind.

Fixpoint jsize (j : json) : nat :=
  match j with
  | JArr l => S (sum_list_with (λ x, S (jsize x)) l)
  | JObj l => S (sum_list_with (λ kv, S (jsize (snd kv))) l)
  | _ => 1
  end.

(** What may follow a value without being read as part of a number. *)
Definition delim (r : string) : bool :=
  match r with
  | EmptyString => true
  | String c _ => negb (is_digit c || Ascii.eqb c "." || Ascii.eqb c "e" || Ascii.eqb c "E")
  end.

Definition hooks_keep (h : hooks) : Prop :=
  ∀ l, NoDup (map fst l) → object_pairs h l = Ok l.

Lemma dict_set_fresh {A} k (v : A) l :
  k ∉ map fst l → dict_set k v l = l ++ [(k, v)].
Proof.
  induction l as [|[k' v'] l IH]; simpl; [done|]. rewrite not_elem_of_cons.
  intros [Hk Hl]. destruct (String.eqb_spec k' k); [congruence|]. by rewrite IH.
Qed.

Lemma dict_of_id {A} (l : list (string * A)) : NoDup (map fst l) → dict_of l = l.
Proof.
  intros Hnd. unfold dict_of.
  cut (∀ acc, NoDup (map fst acc ++ map fst l) →
    fold_left (λ d kv, dict_set (fst kv) (snd kv) d) l acc = acc ++ l).
  { intros H. by apply (H []). }
  clear Hnd. induction l as [|[k v] l IH]; intros acc Hnd.
  - by rewrite app_nil_r.
  - simpl in *. assert (k ∉ map fst acc) as Hk.
    { apply NoDup_app in Hnd as (_ & Hnd & _). intros Hk. apply (Hnd _ Hk). by left. }
    rewrite dict_set_fresh by done. rewrite IH.
    + by rewrite <- app_assoc.
    + by rewrite map_app, <- app_assoc.
Qed.

Lemma default_hooks_keep : hooks_keep default_hooks.
Proof. intros l Hl. simpl. by rewrite dict_of_id. Qed.

(** *** Strings *)
Lemma scan_escape_char c s t r :
  scanstring s = Ok (t, r) → scanstring (escape_char c +:+ s) = Ok (String c t, r).
Proof.
  intros H. destruct c as [[] [] [] [] [] [] [] []];
    match goal with |- scanstring (escape_char ?c +:+ _) = _ =>
      let e := eval vm_compute in (escape_char c) in change (escape_char c) with e end;
    rewrite ?str_app_cons, ?str_app_nil_l; simpl; rewrite H; reflexivity.
Qed.

Lemma scan_quote s r : scanstring (escape s +:+ String dquote r) = Ok (s, r).
Proof.
  induction s as [|c s IH]; [done|].
  simpl. rewrite <- str_app_assoc. by apply scan_escape_char.
Qed.

(** *** Numbers *)
Lemma span_digits_app ds r :
  string_all is_digit ds = true →
  match r with String c _ => is_digit c = false | EmptyString => True end →
  span_digits (ds +:+ r) = (ds, r).
Proof.
  intros Hds Hr. induction ds as [|c ds IH].
  - destruct r as [|c r]; [done|]. rewrite str_app_nil_l. simpl. by rewrite Hr.
  - simpl in Hds. apply andb_true_iff in Hds as [Hc Hds].
    rewrite str_app_cons. simpl. by rewrite Hc, IH.
Qed.

Lemma scan_frac_delim r : delim r = true → scan_frac r = ("", r).
Proof.
  destruct r as [|c r]; simpl; [done|]. intros H.
  destruct (Ascii.eqb_spec c ".") as [->|Hc]; [by rewrite andb_false_r in H || done|].
  destruct c as [[] [] [] [] [] [] [] []]; try done. 
Qed.

Lemma scan_exp_delim r : delim r = true → scan_exp r = ("", r).
Proof.
  destruct r as [|c r]; simpl; [done|]. rewrite negb_true_iff, !orb_false_iff.
  by intros [[[_ _] ->] ->].
Qed.

Lemma delim_not_digit r :
  delim r = true → match r with String c _ => is_digit c = false | EmptyString => True end.
Proof. destruct r; simpl; [done|]. rewrite negb_true_iff, !orb_false_iff. tauto. Qed.

Lemma digit_cases c : is_digit c = true →
  Ascii.eqb c dquote = false ∧ Ascii.eqb c "[" = false ∧ Ascii.eqb c "{" = false ∧
  Ascii.eqb c "-" = false ∧ is_ws c = false ∧
  (∀ s, starts_with "null" (String c s) = false) ∧
  (∀ s, starts_with "true" (String c s) = false) ∧
  (∀ s, starts_with "false" (String c s) = false).
Proof. destruct c as [[] [] [] [] [] [] [] []]; try done; intros _; repeat split. Qed.

Lemma digits_wf_int c ds r :
  digits_wf (String c ds) = true →
  (if Ascii.eqb c "0" then ("0", ds +:+ r) else (String c ds, r)) = (String c ds, r).
Proof.
  destruct (Ascii.eqb_spec c "0") as [->|]; [|done].
  by destruct ds.
Qed.

Lemma scan_number_digits sg ds r :
  digits_wf ds = true → delim r = true →
  scan_number (if sg : bool then String "-" (ds +:+ r) else ds +:+ r) =
  (z ← read_int (if sg then String "-" ds else ds); Some (JInt z, r)).
Proof.
  intros Hds Hr. destruct ds as [|c ds]; [done|].
  assert (is_digit c = true) as Hc.
  { apply digits_wf_all in Hds. simpl in Hds. by split_bools. }
  unfold scan_number.
  replace (match (if sg then _ else _) with String "-" t => ("-", t) | _ => _ end)
    with (if sg then "-" else "", String c ds +:+ r).
  2:{ destruct sg; [done|]. rewrite str_app_cons.
      destruct c as [[] [] [] [] [] [] [] []]; done. }
  rewrite span_digits_app by (by apply digits_wf_all || by apply delim_not_digit).
  rewrite digits_wf_int, scan_frac_delim, scan_exp_delim by done.
  by destruct sg.
Qed.

Lemma scan_number_text z r :
  delim r = true → scan_number (z_text z +:+ r) = Some (JInt z, r).
Proof.
  intros Hr. destruct (z_text_shape z) as (ds & Hds & Hz).
  pose proof (read_z_text z) as Hread. rewrite Hz in Hread |- *.
  destruct (z <? 0)%Z.
  - rewrite str_app_cons. rewrite (scan_number_digits true ds r Hds Hr).
    by rewrite Hread.
  - rewrite (scan_number_digits false ds r Hds Hr). by rewrite Hread.
Qed.

(** *** Literals and whitespace *)
Lemma starts_with_app w r : starts_with w (w +:+ r) = true.
Proof.
  unfold starts_with. induction w as [|c w IH]; [by destruct r|].
  rewrite str_app_cons. simpl. by destruct (ascii_dec c c).
Qed.

Lemma substring_all n r : (String.length r ≤ n)%nat → String.substring 0 n r = r.
Proof.
  revert n; induction r as [|c r IH]; intros [|n]; simpl; try done; [lia|].
  intros H. by rewrite IH by lia.
Qed.

Lemma str_drop_app w r : str_drop (String.length w) (w +:+ r) = r.
Proof.
  unfold str_drop. rewrite str_length_app.
  replace (String.length w + String.length r - String.length w)%nat
    with (String.length r) by lia.
  induction w as [|c w IH]; [by apply substring_all|].
  rewrite str_app_cons. exact IH.
Qed.

Lemma starts_with_drop w s : starts_with w s = true → w +:+ str_drop (String.length w) s = s.
Proof.
  intros Hs. assert (∃ t, s = w +:+ t) as [t ->]; [|by rewrite str_drop_app].
  revert s Hs. induction w as [|c w IH]; intros s Hs; [by exists s|].
  destruct s as [|d s]; [done|]. simpl in Hs. destruct (Ascii.ascii_dec c d) as [->|]; [|done].
  destruct (IH s Hs) as [t ->]. by exists t.
Qed.

Lemma literal_app w j r : literal w j (w +:+ r) = Some (v ← j; Ok (v, r)).
Proof. unfold literal. by rewrite starts_with_app, str_drop_app. Qed.

Lemma skip_ws_spaces n x : skip_ws (spaces n +:+ x) = skip_ws x.
Proof. induction n as [|n IH]; [done|exact IH]. Qed.

Lemma skip_ws_newline st lvl x : skip_ws (newline st lvl +:+ x) = skip_ws x.
Proof.
  destruct st; try done. unfold newline. rewrite <- str_app_assoc.
  exact (skip_ws_spaces (2 * lvl) x).
Qed.

(** The first character of a printed value. *)
Definition value_start (s : string) : bool :=
  match s with
  | String c _ => negb (is_ws c) && negb (Ascii.eqb c "]") && negb (Ascii.eqb c "}")
  | EmptyString => false
  end.

Lemma value_start_app s r : value_start s = true → value_start (s +:+ r) = true.
Proof. by destruct s. Qed.

Lemma skip_ws_start s : value_start s = true → skip_ws s = s.
Proof.
  destruct s as [|c s]; simpl; [done|]. intros. split_bools. by rewrite H.
Qed.

Lemma value_start_eat c s :
  c = "]"%char ∨ c = "}"%char → value_start s = true → eat c s = None.
Proof.
  intros Hc. destruct s as [|d s]; simpl; [done|]. intros. split_bools.
  by destruct Hc as [-> | ->]; rewrite ?H0, ?H1.
Qed.

Lemma print_start st lvl j : wf_json j = true → value_start (print st lvl j) = true.
Proof.
  destruct j as [|[]|z|t|s|l|l]; try done; intros _; simpl.
  - destruct (z_text_shape z) as (ds & Hds & ->). destruct (z <? 0)%Z; [done|].
    destruct ds as [|c ds]; [done|]. apply digits_wf_all in Hds. simpl in *. split_bools.
    destruct c as [[] [] [] [] [] [] [] []]; done.
  - by destruct l.
  - by destruct l.
Qed.

(** *** Values *)
Section scan_print.
Context (h : hooks) (Hh : hooks_keep h) (st : style).

Definition scans (j : json) : Prop := ∀ lvl fuel r,
  (jsize j ≤ fuel)%nat → delim r = true → scan_value h fuel (print st lvl j +:+ r) = Ok (j, r).

Lemma delim_newline lvl c r :
  negb (is_digit c || Ascii.eqb c "." || Ascii.eqb c "e" || Ascii.eqb c "E") = true →
  delim (newline st lvl +:+ String c r) = true.
Proof. by destruct st. Qed.

Lemma delim_sep x : delim (item_sep st +:+ x) = true.
Proof. by destruct st. Qed.

Lemma skip_ws_sep lvl x :
  value_start x = true →
  skip_ws (match st with
    Spaced => String " " (newline st lvl +:+ x) | _ => newline st lvl +:+ x end) = x.
Proof.
  intros Hx. transitivity (skip_ws x).
  - rewrite <- (skip_ws_newline st lvl x). by destruct st.
  - by apply skip_ws_start.
Qed.

Lemma scan_value_digit fuel c s :
  is_digit c = true ∨ c = "-"%char →
  scan_value h (S fuel) (String c s) =
  match scan_literal h (String c s) with
  | Some r => r | None => Raise (JSONDecodeError "Expecting value") end.
Proof.
  intros Hc. simpl. destruct c as [[] [] [] [] [] [] [] []];
    (destruct Hc as [Hc|Hc]; [discriminate Hc || reflexivity|discriminate Hc || reflexivity]).
Qed.

Lemma scan_int z : scans (JInt z).
Proof.
  intros lvl [|fuel] r Hf Hr; [simpl in Hf; lia|]. cbn [print].
  pose proof (scan_number_text z r Hr) as Hn.
  destruct (z_text_shape z) as (ds & Hds & Hz). rewrite Hz in Hn |- *.
  assert (∃ c s, (if (z <? 0)%Z then String "-" ds else ds) +:+ r = String c s ∧
    (is_digit c = true ∨ c = "-"%char)) as (c & s & Hs & Hc).
  { destruct (z <? 0)%Z.
    - exists "-"%char, (ds +:+ r). split; [reflexivity|by right].
    - destruct ds as [|c ds]; [done|]. exists c, (ds +:+ r). split; [reflexivity|left].
      apply digits_wf_all in Hds. simpl in Hds. by split_bools. }
  rewrite Hs in Hn |- *. rewrite scan_value_digit by done.
  unfold scan_literal. rewrite Hn. unfold literal.
  destruct c as [[] [] [] [] [] [] [] []];
    destruct Hc as [Hc|Hc]; try discriminate Hc; reflexivity.
Qed.

Lemma scan_word w j :
  (∀ r, scan_literal h (w +:+ r) = Some (Ok (j, r))) →
  match w with
  | String c _ => Ascii.eqb c dquote = false ∧ Ascii.eqb c "[" = false ∧ Ascii.eqb c "{" = false
  | EmptyString => False end →
  ∀ fuel r, scan_value h (S fuel) (w +:+ r) = Ok (j, r).
Proof.
  intros Hw Hc fuel r. specialize (Hw r). destruct w as [|c w]; [done|].
  destruct Hc as (H1 & H2 & H3). rewrite str_app_cons in Hw |- *.
  cbn [scan_value]. by rewrite H1, H2, H3, Hw.
Qed.

Lemma scan_items_join l :
  Forall scans l → Forall (λ j, wf_json j = true) l → l ≠ [] → ∀ lvl fuel r,
  (sum_list_with (λ x, S (jsize x)) l ≤ fuel)%nat →
  scan_items h fuel
    (str_join (item_sep st +:+ newline st lvl) (map (print st lvl) l) +:+
     newline st (pred lvl) +:+ String "]" r) = Ok (l, r).
Proof.
  induction l as [|j l IH]; [done|]. intros Hl Hw _ lvl [|fuel] r Hf; [simpl in Hf; lia|].
  apply Forall_cons in Hl as [Hj Hl]. apply Forall_cons in Hw as [Hwj Hw]. simpl in Hf.
  cbn [scan_items]. destruct l as [|j' l].
  - cbn. rewrite Hj by (lia || by apply delim_newline). simpl.
    rewrite skip_ws_newline. done.
  - change (str_join ?sep (map ?f (j :: j' :: l))) with
      (f j +:+ sep +:+ str_join sep (map f (j' :: l))).
    rewrite <- !str_app_assoc. rewrite Hj by (lia || apply delim_sep). simpl mbind.
    unfold mbind, result_bind.
    assert (∀ x, value_start x = true →
      skip_ws (item_sep st +:+ newline st lvl +:+ x) = String "," (match st with Spaced => String " " (newline st lvl +:+ x) | _ => newline st lvl +:+ x end)) as Hsep.
    { intros x Hx. by destruct st. }
    assert (value_start (str_join (item_sep st +:+ newline st lvl) (map (print st lvl) (j' :: l))
      +:+ newline st (pred lvl) +:+ String "]" r) = true) as Hstart.
    { apply value_start_app. apply Forall_cons in Hw as [Hwj' _].
      destruct l; [by apply print_start|]. by apply value_start_app, print_start. }
    rewrite Hsep by done. cbv iota beta.
    replace (skip_ws (match st with Spaced => _ | _ => _ end)) with
      (str_join (item_sep st +:+ newline st lvl) (map (print st lvl) (j' :: l))
      +:+ newline st (pred lvl) +:+ String "]" r).
    2:{ symmetry. by apply skip_ws_sep. }
    rewrite IH; [done|done|done|done|]. simpl in *. lia.
Qed.

Definition print_member (lvl : nat) (kv : string * json) : string :=
  quote (fst kv) +:+ key_sep st +:+ print st lvl (snd kv).

Lemma scan_members_join l :
  Forall (λ kv, scans (snd kv)) l → Forall (λ kv, wf_json (snd kv) = true) l → l ≠ [] →
  ∀ lvl fuel r, (sum_list_with (λ kv, S (jsize (snd kv))) l ≤ fuel)%nat →
  scan_members h fuel
    (str_join (item_sep st +:+ newline st lvl) (map (print_member lvl) l) +:+
     newline st (pred lvl) +:+ String "}" r) = Ok (l, r).
Proof.
  induction l as [|[k j] l IH]; [done|]. intros Hl Hw _ lvl [|fuel] r Hf; [simpl in Hf; lia|].
  apply Forall_cons in Hl as [Hj Hl]. apply Forall_cons in Hw as [Hwj Hw]. simpl in Hf, Hj, Hwj.
  assert (∀ x, delim x = true →
    scan_members h (S fuel) (print_member lvl (k, j) +:+ x) =
    match skip_ws x with
    | String "," r3 => '(l, r4) ← scan_members h fuel (skip_ws r3); Ok ((k, j) :: l, r4)
    | String "}" r3 => Ok ([(k, j)], r3)
    | _ => Raise (JSONDecodeError "Expecting ',' delimiter")
    end) as Hstep.
  { intros x Hx. unfold print_member, quote, char. simpl fst; simpl snd.
    rewrite <- !str_app_assoc, str_app_cons, str_app_nil_l. cbn [scan_members].
    change (negb (Ascii.eqb (ascii_of_nat 34) dquote)) with false. cbv iota.
    rewrite str_app_cons, str_app_nil_l.
    change (ascii_of_nat 34) with dquote. rewrite scan_quote.
    change (mbind ?f (Ok ?a)) with (f a). cbv beta iota.
    assert (skip_ws (key_sep st +:+ print st lvl j +:+ x) =
      String ":" (match st with Compact => print st lvl j +:+ x | _ => String " " (print st lvl j +:+ x) end)) as ->
      by by destruct st.
    cbv iota beta.
    replace (skip_ws (match st with Compact => _ | _ => _ end)) with (print st lvl j +:+ x).
    2:{ symmetry. transitivity (skip_ws (print st lvl j +:+ x)); [by destruct st|].
        by apply skip_ws_start, value_start_app, print_start. }
    rewrite Hj by (lia || done). reflexivity. }
  destruct l as [|kv' l].
  - cbn [str_join String.concat map]. rewrite Hstep by (by apply delim_newline).
    by rewrite skip_ws_newline.
  - change (str_join ?sep (map ?f ((k, j) :: kv' :: l))) with
      (f (k, j) +:+ sep +:+ str_join sep (map f (kv' :: l))).
    rewrite <- !str_app_assoc. rewrite Hstep by apply delim_sep.
    set (tl := str_join _ _ +:+ _).
    assert (value_start tl = true) as Hstart.
    { unfold tl. apply value_start_app. by destruct l. }
    assert (skip_ws (item_sep st +:+ newline st lvl +:+ tl) = String "," (match st with Spaced => String " " (newline st lvl +:+ tl) | _ => newline st lvl +:+ tl end)) as ->
      by by destruct st.
    cbv iota beta.
    replace (skip_ws (match st with Spaced => _ | _ => _ end)) with tl.
    2:{ symmetry. by apply skip_ws_sep. }
    unfold tl. rewrite IH; [done|done|done|done|]. simpl in *. lia.
Qed.

Lemma scan_value_arr l : l ≠ [] → Forall scans l → Forall (λ j, wf_json j = true) l →
  scans (JArr l).
Proof.
  intros Hne Hl Hw lvl [|fuel] r Hf Hr; [simpl in Hf; lia|].
  cbn [print]. unfold wrap. destruct l as [|j l]; [done|]. set (items := map _ _).
  assert (items ≠ []) as Hi by done. destruct items as [|i items'] eqn:Ei; [done|].
  rewrite <- Ei. rewrite <- !str_app_assoc, str_app_cons, str_app_nil_l.
  assert (value_start (str_join (item_sep st +:+ newline st (S lvl)) items +:+
    newline st lvl +:+ "]" +:+ r) = true) as Hstart.
  { apply value_start_app. apply Forall_cons in Hw as [Hw _].
    unfold items. destruct l; [by apply print_start|]. by apply value_start_app, print_start. }
  cbn [scan_value].
  change (Ascii.eqb "[" dquote) with false. change (Ascii.eqb "[" "[") with true. cbv iota.
  rewrite skip_ws_newline, (skip_ws_start _ Hstart).
  pose proof (scan_items_join (j :: l) Hl Hw Hne (S lvl) fuel r) as Hgo.
  change (map (print st (S lvl)) (j :: l)) with items in Hgo. simpl pred in Hgo.
  change ("]" +:+ r) with (String "]" r).
  simpl in Hf. rewrite Hgo by (simpl; lia). clear Hgo.
  by rewrite value_start_eat by auto.
Qed.

Lemma scan_value_obj l : l ≠ [] → NoDup (map fst l) →
  Forall (λ kv, scans (snd kv)) l → Forall (λ kv, wf_json (snd kv) = true) l →
  scans (JObj l).
Proof.
  intros Hne Hnd Hl Hw lvl [|fuel] r Hf Hr; [simpl in Hf; lia|].
  cbn [print]. unfold wrap.
  change (map _ l) with (map (print_member (S lvl)) l).
  destruct l as [|kv l]; [done|]. set (items := map _ _).
  assert (items ≠ []) as Hi by done. destruct items as [|i items'] eqn:Ei; [done|].
  rewrite <- Ei. rewrite <- !str_app_assoc, str_app_cons, str_app_nil_l.
  assert (value_start (str_join (item_sep st +:+ newline st (S lvl)) items +:+
    newline st lvl +:+ "}" +:+ r) = true) as Hstart.
  { apply value_start_app. unfold items. by destruct l. }
  cbn [scan_value].
  change (Ascii.eqb "{" dquote) with false. change (Ascii.eqb "{" "[") with false.
  change (Ascii.eqb "{" "{") with true. cbv iota.
  rewrite skip_ws_newline, (skip_ws_start _ Hstart).
  pose proof (scan_members_join (kv :: l) Hl Hw Hne (S lvl) fuel r) as Hgo.
  change (map (print_member (S lvl)) (kv :: l)) with items in Hgo. simpl pred in Hgo.
  change ("}" +:+ r) with (String "}" r).
  simpl in Hf. rewrite Hgo by (simpl; lia). clear Hgo.
  rewrite value_start_eat by auto.
  change (mbind ?f (Ok ?a)) with (f a). cbv beta iota. by rewrite Hh.
Qed.

Lemma scan_print j : wf_json j = true → scans j.
Proof.
  induction j as [| b | z | t | s | l IH | l IH] using json_ind'; intros Hwf.
  - intros lvl [|fuel] r Hf Hr; [simpl in Hf; lia|]. cbn [print]. apply scan_word; [|done].
    intros ?. unfold scan_literal. by rewrite literal_app.
  - intros lvl [|fuel] r Hf Hr; [simpl in Hf; lia|]. cbn [print].
    destruct b; apply scan_word; try done; intros ?; unfold scan_literal.
    + change (literal "null" _ _) with (@None (result (json * string))).
      by rewrite literal_app.
    + change (literal "null" _ _) with (@None (result (json * string))).
      change (literal "true" _ _) with (@None (result (json * string))).
      by rewrite literal_app.
  - apply scan_int.
  - done.
  - intros lvl [|fuel] r Hf Hr; [simpl in Hf; lia|].
    cbn [print]. unfold quote, char. rewrite <- !str_app_assoc.
    rewrite str_app_cons, str_app_nil_l. cbn [scan_value].
    change (Ascii.eqb (ascii_of_nat 34) dquote) with true. cbv iota.
    rewrite str_app_cons, str_app_nil_l. change (ascii_of_nat 34) with dquote.
    by rewrite scan_quote.
  - simpl in Hwf. rewrite forallb_forall in Hwf.
    assert (Forall (λ j, wf_json j = true) l) as Hw by by apply List.Forall_forall.
    destruct l as [|j l].
    { intros lvl [|fuel] r Hf Hr; [simpl in Hf; lia|]. reflexivity. }
    apply scan_value_arr; [done| |done].
    rewrite List.Forall_forall in IH, Hw |- *. auto.
  - simpl in Hwf. split_bools. rewrite forallb_forall in H0.
    assert (Forall (λ kv, wf_json (snd kv) = true) l) as Hw by by apply List.Forall_forall.
    destruct l as [|kv l].
    { intros lvl [|fuel] r Hf Hr; [simpl in Hf; lia|]. cbn.
      rewrite Hh by constructor. done. }
    apply scan_value_obj; [done|done| |done].
    rewrite List.Forall_forall in IH, Hw |- *. auto.
Qed.

(** *** Fuel: a printed value is at least as long as its size. *)
Lemma length_join sep items :
  (1 ≤ String.length sep)%nat → items ≠ [] →
  (sum_list_with (λ i, S (String.length i)) items ≤ S (String.length (str_join sep items)))%nat.
Proof.
  intros Hs. induction items as [|i [|i' items] IH]; intros Hne; [done|simpl; lia|].
  change (str_join sep (i :: i' :: items)) with (i +:+ sep +:+ str_join sep (i' :: items)).
  rewrite !str_length_app. specialize (IH ltac:(done)). simpl in *. lia.
Qed.

Lemma length_wrap lvl op cl items :
  String.length op = 1%nat → String.length cl = 1%nat →
  (S (sum_list_with (λ i, S (String.length i)) items) ≤ String.length (wrap st lvl op cl items))%nat.
Proof.
  intros Ho Hc. unfold wrap. destruct items as [|i items].
  - rewrite str_length_app. simpl. lia.
  - rewrite !str_length_app, Ho, Hc.
    pose proof (length_join (item_sep st +:+ newline st (S lvl)) (i :: items)) as H.
    rewrite str_length_app in H. specialize (H ltac:(destruct st; simpl; lia) ltac:(done)). lia.
Qed.

Lemma jsize_print j lvl : wf_json j = true → (jsize j ≤ String.length (print st lvl j))%nat.
Proof.
  revert lvl. induction j as [| b | z | t | s | l IH | l IH] using json_ind'; intros lvl Hwf;
    try (pose proof (print_start st lvl _ Hwf) as Hs; simpl jsize;
         destruct (print st lvl _); [done|simpl; lia]).
  - simpl in Hwf. rewrite forallb_forall in Hwf. cbn [print jsize].
    etransitivity; [|by apply length_wrap].
    induction IH as [|j l Hj _ IHl]; simpl; [lia|].
    assert (jsize j ≤ String.length (print st (S lvl) j))%nat by (apply Hj, Hwf; by left).
    specialize (IHl ltac:(intros; apply Hwf; by right)). lia.
  - simpl in Hwf. split_bools. rewrite forallb_forall in H0. clear H. cbn [print jsize].
    etransitivity; [|by apply length_wrap].
    induction IH as [|kv l Hj _ IHl]; simpl; [lia|].
    assert (jsize (snd kv) ≤ String.length (print st (S lvl) (snd kv)))%nat
      by (apply Hj, H0; by left).
    rewrite !str_length_app. specialize (IHl ltac:(intros; apply H0; by right)). lia.
Qed.

Lemma loads_print j : wf_json j = true → loads_with h (print st 0 j) = Ok j.
Proof.
  intros Hwf. unfold loads_with. rewrite skip_ws_start by by apply print_start.
  rewrite <- (str_app_nil_r (print st 0 j)) at 2. rewrite scan_print; try done.
  apply Nat.lt_le_incl. pose proof (jsize_print j 0 Hwf). simpl. lia.
Qed.
End scan_print.

(** *** Sorted objects *)
Lemma sort_keys_wf j : wf_json j = true → wf_json (sort_keys j) = true.
Proof.
  induction j as [| b | z | t | s | l IH | l IH] using json_ind'; intros Hwf; try done.
  - simpl in *. rewrite forallb_forall in *. intros x (y & <- & Hy)%in_map_iff.
    rewrite List.Forall_forall in IH. auto.
  - simpl in *. split_bools. rewrite forallb_forall in H0. rewrite List.Forall_forall in IH.
    apply andb_true_iff; split.
    + apply bool_decide_eq_true. change (map fst) with (fmap (M := list) (@fst string json)) in *.
      rewrite isort_perm. change (map ?f l) with (f <$> l). rewrite <- list_fmap_compose.
      unfold compose. simpl. exact H.
    + rewrite forallb_forall. intros x Hx%list_elem_of_In.
      rewrite elem_of_isort in Hx. apply list_elem_of_In, in_map_iff in Hx as (y & <- & Hy).
      simpl. auto.
Qed.

(** [json.loads(json.dumps(v, sort_keys=True)) == sort_keys(v)] in every style,
    with any object hook that keeps objects without repeated keys. *)
Lemma loads_dumps h st j :
  hooks_keep h → wf_json j = true → loads_with h (dumps st j) = Ok (sort_keys j).
Proof. intros Hh Hwf. by apply loads_print, sort_keys_wf. Qed.

Lemma dumps_inj st j1 j2 :
  wf_json j1 = true → wf_json j2 = true → dumps st j1 = dumps st j2 → sort_keys j1 = sort_keys j2.
Proof.
  intros H1 H2 H. apply (loads_dumps _ st _ default_hooks_keep) in H1.
  apply (loads_dumps _ st _ default_hooks_keep) in H2. congruence.
Qed.
