(* ===== verification/JsonTotal.v ===== *)
(** * The JSON reader ends

    The fuel of [loads_with] is enough on every text: a failure is an error in the text, an
    error of a hook, or the escape of a lone surrogate, which the model leaves out. *)
From S2P Require Import Prelude Json.

(** Every item the scanner reads is shorter than what it read it from. *)
Lemma skip_ws_length s : (String.length (skip_ws s) ≤ String.length s)%nat.
Proof. induction s as [|c s IH]; simpl; [done|]. destruct (is_ws c); simpl; lia. Qed.

Lemma span_digits_length s : String.length s = (String.length (fst (span_digits s)) + String.length (snd (span_digits s)))%nat.
Proof.
  induction s as [|c s IH]; simpl; [done|]. destruct (is_digit c); [|done].
  destruct (span_digits s). simpl in *. lia.
Qed.

Lemma scan_frac_length s : (String.length (snd (scan_frac s)) ≤ String.length s)%nat.
Proof.
  destruct s as [|c s]; [done|]. unfold scan_frac.
  destruct c as [[] [] [] [] [] [] [] []]; try done.
  pose proof (span_digits_length s). destruct (span_digits s) as [[|d ds] r]; simpl in *; lia.
Qed.

Lemma scan_exp_length s : (String.length (snd (scan_exp s)) ≤ String.length s)%nat.
Proof.
  destruct s as [|c s]; [done|]. unfold scan_exp. destruct (_ || _); [|done].
  set (p := match s with String "+" t => ("+", t) | String "-" t => ("-", t) | _ => ("", s) end).
  assert (String.length (snd p) ≤ String.length s)%nat as Hp.
  { subst p. destruct s as [|d s]; [done|]. destruct d as [[] [] [] [] [] [] [] []]; simpl; lia. }
  destruct p as [sg s2]. pose proof (span_digits_length s2). destruct (span_digits s2) as [[|d ds] r]; simpl in *; lia.
Qed.

Lemma scan_number_length s j r : scan_number s = Some (j, r) → (String.length r < String.length s)%nat.
Proof.
  unfold scan_number.
  set (p := match s with String "-" t => ("-", t) | _ => ("", s) end).
  assert (String.length (snd p) ≤ String.length s)%nat as Hp.
  { subst p. destruct s as [|d s]; [done|]. destruct d as [[] [] [] [] [] [] [] []]; simpl; lia. }
  destruct p as [sg s1]. pose proof (span_digits_length s1) as Hd.
  destruct (span_digits s1) as [[|c ds] s2]; [done|]. cbn [fst snd] in *.
  set (q := if Ascii.eqb c "0" then ("0", ds +:+ s2) else (String c ds, s2)).
  assert (String.length (snd q) < String.length s)%nat as Hq.
  { subst q. destruct (Ascii.eqb c "0"); simpl in *; rewrite ?str_length_app; lia. }
  destruct q as [int s3]. pose proof (scan_frac_length s3). destruct (scan_frac s3) as [fr s4].
  pose proof (scan_exp_length s4). destruct (scan_exp s4) as [ex s5]. cbn [fst snd] in *.
  destruct (fr +:+ ex); [destruct (read_int _)|]; intros [= <- <-]; lia.
Qed.

Section errors.
Context (h : hooks) (E : exn → Prop).
Hypothesis E_value : ∀ m, E (ValueError m).
Hypothesis E_surrogate : E (Unmodelled "lone surrogate").
Hypothesis E_pairs : ∀ l e, object_pairs h l = Raise e → E e.
Hypothesis E_constant : ∀ w e, parse_constant h w = Raise e → E e.

(** A scanner fails with an allowed error or consumes part of its text. *)
Definition scans_down {A} (m : result (A * string)) (s : string) : Prop :=
  match m with
  | Ok (_, r) => (String.length r < String.length s)%nat
  | Raise e => E e
  end.

Lemma scans_down_cons t m s s' :
  scans_down m s → (String.length s ≤ String.length s')%nat → scans_down (cons_str t m) s'.
Proof. destruct m as [[u r]|e]; simpl; [lia|done]. Qed.

Lemma scanstring_down s : scans_down (scanstring s) s.
Proof.
  induction s as [s IH] using (induction_ltof1 _ String.length). unfold ltof in IH.
  destruct s as [|c s1]; [apply E_value|]. cbn [scanstring].
  destruct (Ascii.eqb c dquote); [simpl; lia|].
  destruct (Ascii.eqb c backslash); [|destruct (_ <? 32)%nat; [apply E_value|];
    eapply scans_down_cons; [apply IH|]; simpl; lia].
  destruct s1 as [|e s2]; [apply E_value|]. destruct (Ascii.eqb e "u").
  - destruct s2 as [|a [|b [|c' [|d s3]]]]; try apply E_value.
    destruct (hex4_value a b c' d) as [n|]; [|apply E_value].
    destruct (_ || _); [|eapply scans_down_cons; [apply IH|]; simpl; lia].
    destruct s3 as [|k1 [|k2 [|p [|q [|r [|t s4]]]]]]; try apply E_surrogate.
    destruct (_ && _); [|apply E_surrogate]. destruct (hex4_value p q r t) as [m|]; [|apply E_value].
    destruct (is_low m); [|apply E_surrogate]. eapply scans_down_cons; [apply IH|]; simpl; lia.
  - destruct (simple_escape e); [|apply E_value]. eapply scans_down_cons; [apply IH|]; simpl; lia.
Qed.

Lemma literal_down w j s r :
  w ≠ EmptyString → (∀ e, j = Raise e → E e) → literal w j s = Some r → scans_down r s.
Proof.
  unfold literal. intros Hw Hj H. destruct (starts_with w s) eqn:Hs; [|done]. injection H as <-.
  destruct j as [v|e]; cbn; [|by apply Hj].
  apply starts_with_drop in Hs. apply (f_equal String.length) in Hs. rewrite str_length_app in Hs.
  destruct w; simpl in *; [done|lia].
Qed.

Lemma scan_literal_down s r : scan_literal h s = Some r → scans_down r s.
Proof.
  unfold scan_literal. intros H.
  repeat match type of H with
  | match ?m with _ => _ end = Some _ => destruct m eqn:?; [try injection H as ->|]
  end; try match goal with
  | Hl : literal _ _ _ = Some _ |- _ => by (eapply literal_down; [..|exact Hl]; [done|try done; apply E_constant])
  end.
  injection H as <-. match goal with x : json * string |- _ => destruct x as [j r'] end.
  by eapply scan_number_length.
Qed.

Lemma eat_length c s r : eat c s = Some r → String.length s = S (String.length r).
Proof. destruct s as [|d s]; simpl; [done|]. destruct (Ascii.eqb d c); [by intros [= ->]|done]. Qed.

(** The three scanners with enough fuel *)
Definition value_down (fuel : nat) : Prop :=
  ∀ s, (2 * String.length s < fuel)%nat → scans_down (scan_value h fuel s) s.
Definition items_down (fuel : nat) : Prop :=
  ∀ s, (2 * String.length s + 1 < fuel)%nat → scans_down (scan_items h fuel s) s.
Definition members_down (fuel : nat) : Prop :=
  ∀ s, (2 * String.length s < fuel)%nat → scans_down (scan_members h fuel s) s.

Lemma scans_down_bind {A B} (m : result (A * string)) (k : A * string → result (B * string)) s s' :
  scans_down m s → (∀ v r, (String.length r < String.length s)%nat → scans_down (k (v, r)) s') →
  scans_down (m ≫= k) s'.
Proof. destruct m as [[v r]|e]; cbn; auto. Qed.

Lemma scan_value_step fuel : items_down fuel → members_down fuel → value_down (S fuel).
Proof.
  intros Hi Hm [|c s1] Hf; [apply E_value|]. cbn [scan_value]. simpl String.length in *.
  pose proof (skip_ws_length s1) as Hws.
  destruct (Ascii.eqb c dquote).
  { eapply scans_down_bind; [apply scanstring_down|]. intros t r Hr. simpl. lia. }
  destruct (Ascii.eqb c "[").
  { destruct (eat "]" (skip_ws s1)) as [r|] eqn:He; [apply eat_length in He; simpl; lia|].
    eapply scans_down_bind; [apply Hi; lia|]. intros l r Hr. simpl. lia. }
  destruct (Ascii.eqb c "{").
  { destruct (eat "}" (skip_ws s1)) as [r|] eqn:He.
    - apply eat_length in He. destruct (object_pairs h []) as [l|e] eqn:Ep; cbn; [lia|by eapply E_pairs].
    - eapply scans_down_bind; [apply Hm; lia|]. intros l r Hr.
      destruct (object_pairs h l) as [l'|e] eqn:Ep; cbn; [lia|by eapply E_pairs]. }
  destruct (scan_literal h (String c s1)) as [r|] eqn:El; [by apply scan_literal_down|apply E_value].
Qed.

Lemma scan_items_step fuel : value_down fuel → items_down fuel → items_down (S fuel).
Proof.
  intros Hv Hi s Hf. cbn [scan_items]. eapply scans_down_bind; [apply Hv; lia|]. intros v r Hr.
  pose proof (skip_ws_length r) as Hw. destruct (skip_ws r) as [|c r1]; [apply E_value|]. simpl in Hw.
  pose proof (skip_ws_length r1). destruct c as [[] [] [] [] [] [] [] []]; try apply E_value; [simpl; lia|].
  eapply scans_down_bind; [apply Hi; lia|]. intros l r2 Hr2. simpl. lia.
Qed.

Lemma scan_members_step fuel : value_down fuel → members_down fuel → members_down (S fuel).
Proof.
  intros Hv Hm [|c s1] Hf; [apply E_value|]. cbn [scan_members]. simpl String.length in *.
  destruct (negb (Ascii.eqb c dquote)); [apply E_value|].
  eapply scans_down_bind; [apply scanstring_down|]. intros k r Hr.
  pose proof (skip_ws_length r) as Hw. destruct (skip_ws r) as [|d r1]; [apply E_value|]. simpl in Hw.
  pose proof (skip_ws_length r1). destruct d as [[] [] [] [] [] [] [] []]; try apply E_value.
  eapply scans_down_bind; [apply Hv; lia|]. intros v r2 Hr2.
  pose proof (skip_ws_length r2) as Hw2. destruct (skip_ws r2) as [|d r3]; [apply E_value|]. simpl in Hw2.
  pose proof (skip_ws_length r3). destruct d as [[] [] [] [] [] [] [] []]; try apply E_value; [simpl; lia|].
  eapply scans_down_bind; [apply Hm; lia|]. intros l r4 Hr4. simpl. lia.
Qed.

Lemma scanners_down fuel : value_down fuel ∧ items_down fuel ∧ members_down fuel.
Proof.
  induction fuel as [|fuel (Hv & Hi & Hm)].
  - repeat split; intros s Hs; lia.
  - split; [by apply scan_value_step|]. split; [by apply scan_items_step|by apply scan_members_step].
Qed.

(** Reading a text ends with a value or an allowed error. *)
Lemma loads_with_ends s : match loads_with h s with Ok _ => True | Raise e => E e end.
Proof.
  unfold loads_with. pose proof (skip_ws_length s).
  pose proof (proj1 (scanners_down (S (2 * String.length s))) (skip_ws s) ltac:(lia)) as Hd.
  destruct (scan_value h _ _) as [[j r]|e]; cbn in *; [|done]. by destruct (skip_ws r).
Qed.
End errors.
