(* ===== verification/Dicts.v ===== *)
(** * Dictionaries

    A Python dict whose order matters is an association list: [dict_set] keeps the position
    of a key and replaces its value, [assoc] looks a key up. *)
From S2P Require Import Prelude Json.

Fixpoint assoc {A} (k : string) (l : list (string * A)) : option A :=
  match l with
  | [] => None
  | (k', v) :: l => if String.eqb k' k then Some v else assoc k l
  end.

Lemma elem_of_dict_set {A} k (v : A) l x : x ∈ dict_set k v l → x = (k, v) ∨ x ∈ l.
Proof.
  induction l as [|[k0 v0] l IH]; simpl; [intros ?%list_elem_of_singleton; auto|].
  destruct (String.eqb k0 k); intros [->|Hx]%elem_of_cons; auto using list_elem_of_here, list_elem_of_further.
  destruct (IH Hx); auto using list_elem_of_further.
Qed.

Lemma dict_set_in {A} k (v : A) l : (k, v) ∈ dict_set k v l.
Proof.
  induction l as [|[k0 v0] l IH]; simpl; [by left|]. destruct (String.eqb k0 k); [by left|by right].
Qed.

Lemma dict_set_other {A} k (v : A) l k' v' : (k', v') ∈ l → k' ≠ k → (k', v') ∈ dict_set k v l.
Proof.
  intros Hx Hk. induction l as [|[k0 v0] l IH]; simpl; [by apply not_elem_of_nil in Hx|].
  apply elem_of_cons in Hx as [[= <- <-]|Hx].
  - rewrite (proj2 (String.eqb_neq _ _)) by done. by left.
  - destruct (String.eqb k0 k); right; auto.
Qed.

Lemma dict_set_NoDup {A} k (v : A) l : NoDup (map fst l) → NoDup (map fst (dict_set k v l)).
Proof.
  induction l as [|[k0 v0] l IH]; simpl; intros H; [apply NoDup_singleton|].
  apply NoDup_cons in H as [H0 H]. destruct (String.eqb_spec k0 k) as [->|Hne]; simpl; apply NoDup_cons; [done|].
  split; [|auto]. intros Hin. apply H0. apply list_elem_of_In, in_map_iff in Hin as ([k1 v1] & <- & Hx).
  apply list_elem_of_In, elem_of_dict_set in Hx as [[= -> ->]|Hx]; [done|].
  apply list_elem_of_In, in_map_iff. exists (k1, v1). by rewrite list_elem_of_In in Hx.
Qed.

Lemma assoc_fresh {A} k (l : list (string * A)) : ¬ is_Some (assoc k l) → k ∉ map fst l.
Proof.
  intros H Hin. apply H. clear H. induction l as [|[k0 v0] l IH]; simpl in *; [by apply not_elem_of_nil in Hin|].
  apply elem_of_cons in Hin as [->|Hin]; [rewrite String.eqb_refl; eauto|].
  destruct (String.eqb k0 k); eauto.
Qed.

Lemma NoDup_snoc {A} (l : list A) x : NoDup l → x ∉ l → NoDup (l ++ [x]).
Proof.
  intros Hl Hx. apply NoDup_app. split; [done|]. split; [|apply NoDup_singleton].
  by intros y Hy ->%list_elem_of_singleton.
Qed.

Lemma elem_of_dict_of {A} (l : list (string * A)) x : x ∈ dict_of l → x ∈ l.
Proof.
  unfold dict_of. assert (∀ d, x ∈ fold_left (λ d kv, dict_set (fst kv) (snd kv) d) l d → x ∈ d ∨ x ∈ l) as Hgen.
  { induction l as [|kv l IH]; intros d Hx; simpl in Hx; [by left|]. apply IH in Hx as [Hx|Hx].
    - apply elem_of_dict_set in Hx as [->|Hx]; [right; destruct kv; by left|by left].
    - right. by right. }
  intros Hx. by destruct (Hgen [] Hx) as [?%not_elem_of_nil|].
Qed.
Lemma assoc_Some {A} k (v : A) l : assoc k l = Some v → (k, v) ∈ l.
Proof.
  induction l as [|[k0 v0] l IH]; simpl; [done|].
  destruct (String.eqb_spec k0 k) as [->|]; [intros [= ->]; by left|intros; right; auto].
Qed.

Lemma assoc_elem {A} k (v : A) l : NoDup (map fst l) → (k, v) ∈ l → assoc k l = Some v.
Proof.
  induction l as [|[k' v'] l IH]; simpl; [by intros _ ?%not_elem_of_nil|].
  intros [Hk Hl]%NoDup_cons [[= -> ->]|Hin]%elem_of_cons; [by rewrite String.eqb_refl|].
  destruct (String.eqb_spec k' k) as [->|]; [|auto].
  exfalso. apply Hk, list_elem_of_In, in_map_iff. exists (k, v). split; [done|].
  by apply list_elem_of_In.
Qed.

Lemma assoc_dict_set {A} k k' (v : A) l : assoc k (dict_set k' v l) = if String.eqb k' k then Some v else assoc k l.
Proof.
  induction l as [|[k0 v0] l IH]; simpl; [by destruct (String.eqb k' k)|].
  destruct (String.eqb_spec k0 k') as [->|Hne]; simpl.
  - by destruct (String.eqb k' k).
  - rewrite IH. destruct (String.eqb_spec k0 k) as [->|]; [|done].
    by rewrite (proj2 (String.eqb_neq k' k)) by congruence.
Qed.

Lemma is_Some_insert `{Countable K} {A} (m : gmap K A) k v x :
  is_Some (m !! x) → is_Some (<[k := v]> m !! x).
Proof. destruct (decide (k = x)) as [->|]; [rewrite lookup_insert_eq|rewrite lookup_insert_ne]; eauto. Qed.

