(* ===== verification/PyTime.v ===== *)
(** * Dates and times of the Python standard library

    [datetime.date], [calendar.monthrange] and the part of [datetime.datetime]
    the program uses.  A [datetime] is naive or aware; an aware one is its UTC
    instant, which is all that comparison, [astimezone(UTC)] and the canonical
    text depend on.  Instants count microseconds from 0001-01-01T00:00:00. *)
From S2P Require Import Prelude.
Local Open Scope Z_scope.

(** ** Decimal digits *)
Definition digit_char (n : Z) : ascii := ascii_of_N (Z.to_N (48 + n)).
Definition digit_value (c : ascii) : option Z :=
  if is_digit c then Some (Z.of_N (N_of_ascii c) - 48) else None.

Definition pad2 (z : Z) : string :=
  String (digit_char (z / 10 mod 10)) (String (digit_char (z mod 10)) "").
Definition pad4 (z : Z) : string := pad2 (z / 100) +:+ pad2 (z mod 100).
Definition pad6 (z : Z) : string := pad2 (z / 10000) +:+ pad4 (z mod 10000).

Lemma digit_value_char n : 0 ≤ n ≤ 9 → digit_value (digit_char n) = Some n.
Proof.
  intros Hn.
  assert (n = 0 ∨ n = 1 ∨ n = 2 ∨ n = 3 ∨ n = 4 ∨ n = 5 ∨ n = 6 ∨ n = 7 ∨ n = 8 ∨ n = 9)
    as H by lia.
  destruct_or! H; subst; reflexivity.
Qed.

(** ** The calendar *)
Record date := mk_date { year : Z; month : Z; day : Z }.

#[export] Instance date_eq_dec : EqDecision date.
Proof. solve_decision. Defined.

Definition MINYEAR : Z := 1.
Definition MAXYEAR : Z := 9999.

Definition is_leap (y : Z) : bool :=
  (y mod 4 =? 0) && (negb (y mod 100 =? 0) || (y mod 400 =? 0)).

Definition days_in_month (y m : Z) : Z :=
  if (m =? 2) then (if is_leap y then 29 else 28)
  else if (m =? 4) || (m =? 6) || (m =? 9) || (m =? 11) then 30 else 31.

Definition valid_date (d : date) : bool :=
  (MINYEAR <=? year d) && (year d <=? MAXYEAR) && (1 <=? month d) && (month d <=? 12)
  && (1 <=? day d) && (day d <=? days_in_month (year d) (month d)).

(** [date(year, month, day)] *)
Definition date_new (y m d : Z) : result date :=
  _ ← require ((MINYEAR <=? y) && (y <=? MAXYEAR))
        (ValueError ("year " +:+ z_text y +:+ " is out of range"));
  _ ← require ((1 <=? m) && (m <=? 12)) (ValueError "month must be in 1..12");
  _ ← require ((1 <=? d) && (d <=? days_in_month y m))
        (ValueError "day is out of range for month");
  Ok (mk_date y m d).

(** Tuple order *)
Definition date_ltb (a b : date) : bool :=
  (year a <? year b) || ((year a =? year b) &&
    ((month a <? month b) || ((month a =? month b) && (day a <? day b)))).
Definition date_leb (a b : date) : bool := negb (date_ltb b a).

(** [calendar.monthrange(year, month)[1]] *)
Definition monthrange_days (y m : Z) : Z := days_in_month y m.

(** [date.isoformat()] *)
Definition date_isoformat (d : date) : string :=
  pad4 (year d) +:+ "-" +:+ pad2 (month d) +:+ "-" +:+ pad2 (day d).

(** *** Ordinals *)
Definition days_before_year (y : Z) : Z :=
  let p := y - 1 in p * 365 + p / 4 - p / 100 + p / 400.

Fixpoint sum_months (y : Z) (n : nat) : Z :=
  match n with
  | O => 0
  | S k => sum_months y k + days_in_month y (Z.of_nat (S k))
  end.
Definition days_before_month (y m : Z) : Z := sum_months y (Z.to_nat (m - 1)).

Definition toordinal (d : date) : Z :=
  days_before_year (year d) + days_before_month (year d) (month d) + day d.

(** [_ord2ymd]: 400-, 100-, 4- and 1-year cycles, then the month by search. *)
Fixpoint find_month (y n : Z) (m : Z) (fuel : nat) : Z * Z :=
  match fuel with
  | O => (m, n)
  | S fuel =>
      if n <=? days_in_month y m then (m, n)
      else find_month y (n - days_in_month y m) (m + 1) fuel
  end.

Definition fromordinal (n : Z) : date :=
  let n := n - 1 in
  let n400 := n / 146097 in let n := n mod 146097 in
  let n100 := n / 36524 in let n := n mod 36524 in
  let n4 := n / 1461 in let n := n mod 1461 in
  let n1 := n / 365 in let n := n mod 365 in
  let y := n400 * 400 + n100 * 100 + n4 * 4 + n1 + 1 in
  if (n1 =? 4) || (n100 =? 4) then mk_date (y - 1) 12 31
  else let '(m, d) := find_month y (n + 1) 1 12 in mk_date y m d.

(** Monday is 0. *)
Definition weekday (d : date) : Z := (toordinal d + 6) mod 7.

(** *** [date.fromisoformat]

    The C implementation: only the byte length is checked first; after the
    weekday of an ISO week date the rest of the text is not looked at. *)
Definition iso_week1_monday (y : Z) : Z :=
  let first_day := toordinal (mk_date y 1 1) in
  let first_weekday := (first_day + 6) mod 7 in
  let monday := first_day - first_weekday in
  if 3 <? first_weekday then monday + 7 else monday.

Definition invalid_isoformat (s : string) : exn :=
  ValueError ("Invalid isoformat string: '" +:+ s +:+ "'").

Definition iso_to_date (s : string) (y w d : Z) : result date :=
  _ ← require ((MINYEAR <=? y) && (y <=? MAXYEAR)) (invalid_isoformat s);
  let first_weekday := weekday (mk_date y 1 1) in
  let week53 := (first_weekday =? 3) || ((first_weekday =? 2) && is_leap y) in
  _ ← require ((1 <=? w) && ((w <=? 52) || ((w =? 53) && week53))) (invalid_isoformat s);
  _ ← require ((1 <=? d) && (d <=? 7)) (invalid_isoformat s);
  let r := fromordinal (iso_week1_monday y + (w - 1) * 7 + (d - 1)) in
  date_new (year r) (month r) (day r).

(** [parse_digits(p, &var, n)] *)
Fixpoint parse_digits (n : nat) (acc : Z) (s : string) : option (Z * string) :=
  match n, s with
  | O, _ => Some (acc, s)
  | S n, String c s => v ← digit_value c; parse_digits n (acc * 10 + v) s
  | S _, EmptyString => None
  end.

Definition date_fromisoformat (s : string) : result date :=
  let fail := Raise (invalid_isoformat s) in
  let len := String.length s in
  if negb ((len =? 7) || (len =? 8) || (len =? 10))%nat then fail else
  match parse_digits 4 0 s with
  | None => fail
  | Some (y, s1) =>
      let '(sep, s2) := match s1 with String "-" r => (true, r) | _ => (false, s1) end in
      match s2 with
      | String "W" s3 =>
          match parse_digits 2 0 s3 with
          | None => fail
          | Some (w, EmptyString) => iso_to_date s y w 1
          | Some (w, s4) =>
              let s5 := if sep then match s4 with String "-" r => Some r | _ => None end
                        else Some s4 in
              match s5 ≫= parse_digits 1 0 with
              | None => fail
              | Some (d, _) => iso_to_date s y w d
              end
          end
      | _ =>
          match parse_digits 2 0 s2 with
          | None => fail
          | Some (m, s3) =>
              let s4 := if sep then match s3 with String "-" r => Some r | _ => None end
                        else Some s3 in
              match s4 ≫= parse_digits 2 0 with
              | Some (d, EmptyString) => date_new y m d
              | _ => fail
              end
          end
      end
  end.

Lemma date_new_Ok y m d r : date_new y m d = Ok r ↔ r = mk_date y m d ∧ valid_date r = true.
Proof.
  unfold date_new, valid_date. rewrite bind_Ok. setoid_rewrite bind_Ok.
  setoid_rewrite bind_Ok. setoid_rewrite require_Ok. split.
  - intros (_ & Hy & _ & Hm & _ & Hd & [= <-]). split; [done|]. simpl.
    split_bools. rewrite !andb_true_iff. tauto.
  - intros [-> H]. simpl in H. split_bools. exists (). split; [by rewrite andb_true_iff|].
    exists (). split; [by rewrite andb_true_iff|].
    exists (). split; [by rewrite andb_true_iff|done].
Qed.

(** *** Order *)
Lemma date_ltb_spec a b : date_ltb a b = true ↔
  year a < year b ∨ year a = year b ∧
    (month a < month b ∨ month a = month b ∧ day a < day b).
Proof.
  unfold date_ltb. rewrite !orb_true_iff, !andb_true_iff, !orb_true_iff, !andb_true_iff,
    !Z.ltb_lt, !Z.eqb_eq. lia.
Qed.

Lemma date_ltb_irrefl a : date_ltb a a = false.
Proof. apply not_true_iff_false. rewrite date_ltb_spec. lia. Qed.

Lemma date_leb_spec a b : date_leb a b = true ↔
  year a < year b ∨ year a = year b ∧
    (month a < month b ∨ month a = month b ∧ day a ≤ day b).
Proof.
  unfold date_leb. rewrite negb_true_iff, <- not_true_iff_false, date_ltb_spec. lia.
Qed.

Lemma date_leb_total a b : date_leb a b = true ∨ date_leb b a = true.
Proof. rewrite !date_leb_spec. lia. Qed.

Lemma date_leb_trans a b c : date_leb a b = true → date_leb b c = true → date_leb a c = true.
Proof. rewrite !date_leb_spec. lia. Qed.

Lemma date_leb_antisym a b : date_leb a b = true → date_leb b a = true → a = b.
Proof. rewrite !date_leb_spec. destruct a, b; simpl. intros. f_equal; lia. Qed.

Lemma valid_date_bounds d : valid_date d = true →
  1 ≤ year d ≤ 9999 ∧ 1 ≤ month d ≤ 12 ∧ 1 ≤ day d ≤ days_in_month (year d) (month d).
Proof. unfold valid_date, MINYEAR, MAXYEAR. intros. split_bools. lia. Qed.

Lemma days_in_month_bounds y m : 28 ≤ days_in_month y m ≤ 31.
Proof. unfold days_in_month. repeat case_match; lia. Qed.

(** *** Round trip of dates *)
Lemma parse_pad2 z acc s : 0 ≤ z ≤ 99 →
  parse_digits 2 acc (pad2 z +:+ s) = Some (acc * 100 + z, s).
Proof.
  intros Hz. unfold pad2. rewrite !str_app_cons, str_app_nil_l. cbn [parse_digits].
  pose proof (Z.mod_pos_bound (z / 10) 10 eq_refl).
  pose proof (Z.mod_pos_bound z 10 eq_refl).
  rewrite !digit_value_char by lia.
  unfold mbind, option_bind. f_equal. f_equal.
  rewrite (Z.mod_small (z / 10)) by (split; [apply Z.div_pos|apply Z.div_lt_upper_bound]; lia).
  pose proof (Z.div_mod z 10). lia.
Qed.

Lemma parse_digits_add n m acc s :
  parse_digits (n + m) acc s = '(v, r) ← parse_digits n acc s; parse_digits m v r.
Proof.
  revert acc s; induction n as [|n IH]; intros acc s; [done|].
  destruct s as [|c s]; [done|]. simpl. destruct (digit_value c); simpl; [apply IH|done].
Qed.

Lemma parse_pad4 z s : 0 ≤ z ≤ 9999 → parse_digits 4 0 (pad4 z +:+ s) = Some (z, s).
Proof.
  intros Hz. unfold pad4. rewrite <- str_app_assoc.
  change 4%nat with (2 + 2)%nat. rewrite parse_digits_add, parse_pad2.
  - unfold mbind, option_bind. cbv beta iota. rewrite parse_pad2.
    + f_equal. f_equal. pose proof (Z.div_mod z 100). lia.
    + pose proof (Z.mod_pos_bound z 100). lia.
  - split; [apply Z.div_pos; lia|]. apply Z.lt_succ_r, Z.div_lt_upper_bound; lia.
Qed.

Lemma pad2_not_W z s : match pad2 z +:+ s with String "W" _ => False | _ => True end.
Proof.
  unfold pad2. rewrite str_app_cons.
  assert (0 ≤ z / 10 mod 10 ≤ 9) as H by (pose proof (Z.mod_pos_bound (z / 10) 10); lia).
  pose proof (digit_value_char _ H) as Hd.
  destruct (digit_char (z / 10 mod 10)) as [[] [] [] [] [] [] [] []]; try done.
Qed.

(** [date.fromisoformat(d.isoformat()) == d] *)
Lemma date_isoformat_roundtrip d :
  valid_date d = true → date_fromisoformat (date_isoformat d) = Ok d.
Proof.
  intros Hv. pose proof (valid_date_bounds d Hv) as (Hy & Hm & Hd).
  pose proof (days_in_month_bounds (year d) (month d)).
  assert (String.length (date_isoformat d) = 10%nat) as Hlen.
  { unfold date_isoformat, pad4. rewrite !str_length_app. done. }
  unfold date_fromisoformat. rewrite Hlen. simpl negb. cbv iota.
  unfold date_isoformat at 1. rewrite parse_pad4 by lia. cbv iota beta.
  change ("-" +:+ ?x) with (String "-" x). cbv iota beta.
  pose proof (pad2_not_W (month d) ("-" +:+ pad2 (day d))) as HW.
  assert (∀ A (x y : A) (f : string → A), match pad2 (month d) +:+ "-" +:+ pad2 (day d) with
    String "W" r => f r | _ => y end = y) as Hskip.
  { intros. destruct (pad2 (month d) +:+ _) as [|c r]; [done|].
    destruct c as [[] [] [] [] [] [] [] []]; done. }
  change (String "-" (pad2 (day d))) with ("-" +:+ pad2 (day d)).
  rewrite Hskip by exact (Ok d). rewrite parse_pad2 by lia. cbv iota beta.
  change ("-" +:+ pad2 (day d)) with (String "-" (pad2 (day d))).
  unfold mbind, option_bind. cbv iota beta.
  rewrite <- (str_app_nil_r (pad2 (day d))), parse_pad2 by lia.
  apply date_new_Ok. by destruct d.
Qed.

(** [date.fromisoformat] raises only [ValueError]. *)
Lemma date_new_raise y m d e : date_new y m d = Raise e → is_value_error e = true.
Proof.
  unfold date_new. intros H. repeat (apply bind_Raise in H as [H|(? & _ & H)];
    [by apply require_Raise in H as [_ ->]|]). done.
Qed.

Lemma iso_to_date_raise s y w d e : iso_to_date s y w d = Raise e → is_value_error e = true.
Proof.
  unfold iso_to_date. cbv zeta. intros H. do 3 (apply bind_Raise in H as [H|(? & _ & H)];
    [by apply require_Raise in H as [_ ->]|]). by eapply date_new_raise.
Qed.

Lemma date_fromisoformat_raise s e : date_fromisoformat s = Raise e → is_value_error e = true.
Proof.
  unfold date_fromisoformat. intros H.
  repeat match goal with
  | H : Raise _ = Raise _ |- _ => injection H as <-; reflexivity
  | H : date_new _ _ _ = Raise _ |- _ => by eapply date_new_raise
  | H : iso_to_date _ _ _ _ = Raise _ |- _ => by eapply iso_to_date_raise
  | H : (if ?b then _ else _) = Raise _ |- _ => destruct b
  | H : match ?x with _ => _ end = Raise _ |- _ => destruct x
  end.
Qed.

(** ** Datetimes *)
Inductive datetime :=
| Naive (us : Z)
| Aware (us : Z).

#[export] Instance datetime_eq_dec : EqDecision datetime.
Proof. solve_decision. Defined.

(** [not (value.tzinfo is None or value.utcoffset() is None)] *)
Definition is_aware (t : datetime) : bool := match t with Aware _ => true | _ => false end.

Definition TypeError_compare : exn :=
  TypeError "can't compare offset-naive and offset-aware datetimes".

(** [a < b] *)
Definition dt_ltb (a b : datetime) : result bool :=
  match a, b with
  | Naive x, Naive y | Aware x, Aware y => Ok (x <? y)
  | _, _ => Raise TypeError_compare
  end.

(** [a == b]; a naive and an aware datetime are never equal. *)
Definition dt_eqb (a b : datetime) : bool := bool_decide (a = b).

Definition us_per_second : Z := 1000000.
Definition us_per_day : Z := 86400 * us_per_second.
(** The last instant [datetime] can represent *)
Definition MAX_US : Z := 3652059 * us_per_day - 1.
Definition in_datetime_range (us : Z) : bool := (0 <=? us) && (us <=? MAX_US).

(** [timedelta(seconds=n)], [timedelta(hours=n)] in microseconds *)
Definition seconds (n : Z) : Z := n * us_per_second.
Definition hours (n : Z) : Z := n * 3600 * us_per_second.

(** [t + delta] *)
Definition dt_add (t : datetime) (delta : Z) : result datetime :=
  match t with
  | Naive us => _ ← require (in_datetime_range (us + delta)) (OverflowError "date value out of range");
                Ok (Naive (us + delta))
  | Aware us => _ ← require (in_datetime_range (us + delta)) (OverflowError "date value out of range");
                Ok (Aware (us + delta))
  end.

(** [isoformat(timespec="microseconds")] without the offset *)
Definition isoformat_us (us : Z) : string :=
  let d := fromordinal (us / us_per_day + 1) in
  let r := us mod us_per_day in
  let s := r / us_per_second in
  date_isoformat d +:+ "T" +:+ pad2 (s / 3600) +:+ ":" +:+ pad2 (s / 60 mod 60) +:+ ":"
    +:+ pad2 (s mod 60) +:+ "." +:+ pad6 (r mod us_per_second).
