(* ===== verification/PyDecimal.v ===== *)
(** * [decimal.Decimal] of the Python standard library

    Numbers with a sign, a coefficient and an exponent, and the arithmetic of
    the default context: 28 significant digits, ROUND_HALF_EVEN, Emin -999999,
    Emax 999999, InvalidOperation and Overflow trapped.  The constructor is
    exact.  Texts are read as ASCII. *)
From S2P Require Import Prelude Json.
Local Open Scope Z_scope.

Inductive decimal :=
| Fin (neg : bool) (coef : N) (exp : Z)
| Inf (neg : bool)
| NaN.

#[export] Instance decimal_eq_dec : EqDecision decimal.
Proof. solve_decision. Defined.

Definition prec : Z := 28.
Definition Emax : Z := 999999.
Definition Emin : Z := -999999.
Definition Etiny : Z := Emin - prec + 1.
Definition Etop : Z := Emax - prec + 1.

(** [value.is_finite()] *)
Definition is_finite (d : decimal) : bool := match d with Fin _ _ _ => true | _ => false end.

(** The decimal digits of a coefficient; every step divides by ten, so the
    binary logarithm bounds the recursion. *)
Definition digit_N (n : N) : ascii := ascii_of_N (48 + n).
Definition fuel_of (c : N) : nat := S (N.to_nat (N.log2 c)).

Fixpoint coef_text_go (fuel : nat) (c : N) : string :=
  match fuel with
  | O => ""
  | S fuel =>
      if (c <? 10)%N then String (digit_N c) ""
      else coef_text_go fuel (c / 10) +:+ String (digit_N (c mod 10)) ""
  end.
(** [d._int] *)
Definition coef_text (c : N) : string := coef_text_go (fuel_of c) c.

(** [len(d._int)] *)
Definition ndigits (c : N) : Z := Z.of_nat (String.length (coef_text c)).

Definition pow10 (n : Z) : N := Z.to_N (10 ^ n).

Inductive rounding := ROUND_HALF_EVEN | ROUND_HALF_UP.

(** The quotient [c / p] rounded to an integer *)
Definition div_round (mode : rounding) (c p : N) : N :=
  (let q := c / p in
   let r := c mod p in
   let up := match mode with
     | ROUND_HALF_UP => p <=? 2 * r
     | ROUND_HALF_EVEN => (p <? 2 * r) || ((p =? 2 * r) && N.odd q)
     end in
   if up then q + 1 else q)%N.

(** [_rescale(exp, rounding)]: the coefficient at another exponent *)
Definition rescale (mode : rounding) (c : N) (e e' : Z) : N :=
  if e' <=? e then (c * pow10 (e - e'))%N else div_round mode c (pow10 (e' - e)).

(** [_fix(context)] *)
Definition fix_ctx (neg : bool) (c : N) (e : Z) : result decimal :=
  if (c =? 0)%N then Ok (Fin neg 0 (Z.min (Z.max e Etiny) Emax)) else
  let exp_min := ndigits c + e - prec in
  if Etop <? exp_min then Raise DecimalOverflow else
  let exp_min := Z.max exp_min Etiny in
  if e <? exp_min then
    let c1 := div_round ROUND_HALF_EVEN c (pow10 (exp_min - e)) in
    let '(c2, e2) := if prec <? ndigits c1 then ((c1 / 10)%N, exp_min + 1) else (c1, exp_min) in
    if Etop <? e2 then Raise DecimalOverflow else Ok (Fin neg c2 e2)
  else Ok (Fin neg c e).

(** [a * b] of finite operands *)
Definition dec_mul (a b : decimal) : result decimal :=
  match a, b with
  | Fin na ca ea, Fin nb cb eb => fix_ctx (xorb na nb) (ca * cb) (ea + eb)
  | _, _ => Raise (Unmodelled "special values")
  end.

(** The signed coefficient at exponent [e], for [e] at most the exponent *)
Definition signed_at (d : decimal) (e : Z) : Z :=
  match d with
  | Fin n c x => (if n then -1 else 1) * (Z.of_N c * 10 ^ (x - e))
  | _ => 0
  end.

Definition dexp (d : decimal) : Z := match d with Fin _ _ e => e | _ => 0 end.

(** [a + b] of finite operands *)
Definition dec_add (a b : decimal) : result decimal :=
  match a, b with
  | Fin na _ ea, Fin nb _ eb =>
      let e := Z.min ea eb in
      let s := signed_at a e + signed_at b e in
      fix_ctx (if s =? 0 then na && nb else s <? 0) (Z.abs_N s) e
  | _, _ => Raise (Unmodelled "special values")
  end.

(** [a < b], [a == b] of finite operands *)
Definition dec_ltb (a b : decimal) : bool :=
  let e := Z.min (dexp a) (dexp b) in signed_at a e <? signed_at b e.
Definition dec_eqb (a b : decimal) : bool :=
  let e := Z.min (dexp a) (dexp b) in signed_at a e =? signed_at b e.
(** [min(a, b)]: the first one unless the second is smaller *)
Definition dec_min (a b : decimal) : decimal := if dec_ltb b a then b else a.

(** [d.quantize(Decimal((0, (1,), e)), rounding)] *)
Definition quantize (mode : rounding) (d : decimal) (e : Z) : result decimal :=
  match d with
  | Fin n c x =>
      if negb ((Etiny <=? e) && (e <=? Emax)) then Raise InvalidOperation else
      if (c =? 0)%N then fix_ctx n 0 e else
      let adjusted := x + ndigits c - 1 in
      if (Emax <? adjusted) || (prec <? adjusted - e + 1) then Raise InvalidOperation else
      let c' := rescale mode c x e in
      if (Emax <? e + ndigits c' - 1) || (prec <? ndigits c') then Raise InvalidOperation
      else fix_ctx n c' e
  | _ => Raise (Unmodelled "special values")
  end.

(** ** Texts *)
Fixpoint zeros (n : nat) : string := match n with O => "" | S n => String "0" (zeros n) end.

(** [format(d, "f")] *)
Definition format_f (d : decimal) : string :=
  match d with
  | Fin n c e =>
      let '(c, e) := if (c =? 0)%N && (0 <? e) then (0%N, 0) else (c, e) in
      let ds := coef_text c in
      let len := Z.of_nat (String.length ds) in
      let dotplace := e + len in
      let '(int, frac) :=
        if dotplace <? 0 then ("0", zeros (Z.to_nat (- dotplace)) +:+ ds)
        else if len <? dotplace then (ds +:+ zeros (Z.to_nat (dotplace - len)), "")
        else (match Z.to_nat dotplace with O => "0" | k => str_take k ds end,
              str_drop (Z.to_nat dotplace) ds) in
      (if n then "-" else "") +:+ int +:+
        match frac with EmptyString => "" | _ => "." +:+ frac end
  | Inf n => if n then "-Infinity" else "Infinity"
  | NaN => "NaN"
  end.

(** [format(d, ".2f")] under the default context *)
Definition format_2f (d : decimal) : string :=
  match d with
  | Fin n c e => format_f (Fin n (rescale ROUND_HALF_EVEN c e (-2)) (-2))
  | _ => format_f d
  end.

(** [Decimal(n)] of an int *)
Definition dec_of_Z (z : Z) : decimal := Fin (z <? 0) (Z.abs_N z) 0.

(** *** Digits *)
Lemma fuel_step c : (10 <= c)%N → (fuel_of (c / 10) < fuel_of c)%nat.
Proof.
  intros Hc. unfold fuel_of. apply le_n_S.
  assert (N.log2 (c / 10) < N.log2 c)%N; [|lia].
  assert (N.log2 (c / 10) <= N.log2 (c / 2))%N as H1.
  { apply N.log2_le_mono, N.div_le_compat_l. lia. }
  assert (c / 2 = N.shiftr c 1)%N as E by (by rewrite N.shiftr_div_pow2).
  rewrite E, N.log2_shiftr in H1 by lia.
  assert (0 < N.log2 c)%N by (apply N.log2_pos; lia). lia.
Qed.

Lemma coef_text_go_fuel c : ∀ f1 f2, (fuel_of c <= f1)%nat → (fuel_of c <= f2)%nat →
  coef_text_go f1 c = coef_text_go f2 c.
Proof.
  induction c as [c IH] using (well_founded_induction N.lt_wf_0).
  intros [|f1] [|f2] H1 H2; [unfold fuel_of in *; lia..|]. simpl.
  destruct (N.ltb_spec c 10) as [|Hc]; [done|].
  pose proof (fuel_step c Hc). f_equal. apply IH; [apply N.div_lt; lia|lia|lia].
Qed.

Lemma coef_text_small c : (c < 10)%N → coef_text c = String (digit_N c) "".
Proof. intros Hc. unfold coef_text, fuel_of. simpl. by apply N.ltb_lt in Hc as ->. Qed.

Lemma coef_text_step c : (10 <= c)%N →
  coef_text c = coef_text (c / 10) +:+ String (digit_N (c mod 10)) "".
Proof.
  intros Hc. unfold coef_text at 1. unfold fuel_of. simpl.
  assert ((c <? 10)%N = false) as -> by by apply N.ltb_ge. f_equal.
  pose proof (fuel_step c Hc). unfold coef_text. apply coef_text_go_fuel; [|done].
  unfold fuel_of in *. lia.
Qed.

Lemma coef_text_mul10 c : (0 < c)%N → coef_text (c * 10) = coef_text c +:+ "0".
Proof.
  intros Hc. rewrite coef_text_step by lia. by rewrite N.div_mul, N.Div0.mod_mul.
Qed.

Lemma coef_text_digits c : string_all is_digit (coef_text c) = true.
Proof.
  assert (∀ d, (d < 10)%N → is_digit (digit_N d) = true) as Hd.
  { intros d Hd. destruct d as [|p]; [done|].
    do 4 (destruct p as [p|p|]; try done; try lia). }
  induction c as [c IH] using (well_founded_induction N.lt_wf_0).
  destruct (N.lt_ge_cases c 10) as [H|H].
  - rewrite coef_text_small by done. simpl. by rewrite Hd.
  - rewrite coef_text_step, string_all_app, IH by (done || apply N.div_lt; lia).
    simpl. rewrite Hd; [done|]. apply N.mod_lt. lia.
Qed.

(** [10 ^ (ndigits c - 1) <= c < 10 ^ ndigits c] *)
Lemma ndigits_spec c : 1 ≤ ndigits c ∧ Z.of_N c < 10 ^ ndigits c ∧
  ((0 < c)%N → 10 ^ (ndigits c - 1) ≤ Z.of_N c).
Proof.
  induction c as [c IH] using (well_founded_induction N.lt_wf_0).
  destruct (N.lt_ge_cases c 10) as [H|H].
  - unfold ndigits. rewrite coef_text_small by done. simpl. lia.
  - destruct (IH (c / 10)%N) as (H1 & H2 & H3); [apply N.div_lt; lia|].
    assert (ndigits c = ndigits (c / 10) + 1) as E.
    { unfold ndigits. rewrite (coef_text_step c), str_length_app by done. simpl. lia. }
    rewrite E. rewrite N2Z.inj_div in *. simpl Z.of_N in *.
    pose proof (Z.div_mod (Z.of_N c) 10 ltac:(done)).
    pose proof (Z.mod_pos_bound (Z.of_N c) 10 eq_refl).
    split; [lia|]. split.
    + rewrite Z.pow_add_r by lia. lia.
    + intros _. replace (ndigits (c / 10) + 1 - 1) with (1 + (ndigits (c / 10) - 1)) by lia.
      rewrite Z.pow_add_r by lia.
      assert (0 < c / 10)%N by (apply N.div_str_pos; lia). lia.
Qed.

Lemma ndigits_le c n : Z.of_N c < 10 ^ n → 0 < n → ndigits c ≤ n.
Proof.
  intros Hc Hn. destruct (ndigits_spec c) as (H1 & _ & H3).
  destruct (N.eq_0_gt_0_cases c) as [->|H0]; [change (ndigits 0) with 1; lia|].
  specialize (H3 H0). destruct (Z.le_gt_cases (ndigits c) n); [done|].
  assert (10 ^ n ≤ 10 ^ (ndigits c - 1)) by (apply Z.pow_le_mono_r; lia). lia.
Qed.

(** *** [Decimal(text)] *)
Definition is_space (c : ascii) : bool :=
  is_ws c || in_range 11 12 c || in_range 28 31 c.
Fixpoint drop_while (p : ascii → bool) (s : string) : string :=
  match s with
  | String c s' => if p c then drop_while p s' else s
  | EmptyString => s
  end.
Definition str_rev (s : string) : string := String.rev s.
(** [s.strip()] on ASCII text *)
Definition py_strip (s : string) : string :=
  str_rev (drop_while is_space (str_rev (drop_while is_space s))).
Fixpoint remove_char (p : ascii → bool) (s : string) : string :=
  match s with
  | String c s' => if p c then remove_char p s' else String c (remove_char p s')
  | EmptyString => s
  end.
Definition lower (c : ascii) : ascii :=
  if in_range 65 90 c then ascii_of_nat (nat_of_ascii c + 32) else c.
Fixpoint lower_str (s : string) : string :=
  match s with String c s' => String (lower c) (lower_str s') | EmptyString => s end.

Fixpoint digits_N (acc : N) (s : string) : N :=
  match s with
  | String c s' => digits_N (acc * 10 + (N_of_ascii c - 48)) s'
  | EmptyString => acc
  end.

Definition split_sign (s : string) : bool * string :=
  match s with
  | String "-" t => (true, t) | String "+" t => (false, t) | _ => (false, s)
  end.

(** The exponent part: [E[-+]?\d+] or nothing *)
Definition parse_exponent (s : string) : option Z :=
  match s with
  | EmptyString => Some 0
  | String c s1 =>
      if negb (Ascii.eqb (lower c) "e") then None else
      let '(n, s2) := split_sign s1 in
      match span_digits s2 with
      | (EmptyString, _) => None
      | (ds, EmptyString) => let v := Z.of_N (digits_N 0 ds) in Some (if n then - v else v)
      | _ => None
      end
  end.

Definition MAX_EMAX : Z := 999999999999999999.

(** The constructor is exact, but its range is that of the widest context. *)
Definition exact_in_range (n : bool) (c : N) (e : Z) : result decimal :=
  if (MAX_EMAX <? e + ndigits c - 1) || (e <? - (2 * MAX_EMAX)) then Raise InvalidOperation
  else Ok (Fin n c e).

Definition decimal_of_string (s : string) : result decimal :=
  let '(n, t) := split_sign (remove_char (Ascii.eqb "_") (py_strip s)) in
  let l := lower_str t in
  if bool_decide (l = "inf" ∨ l = "infinity") then Ok (Inf n)
  else if starts_with "nan" l && string_all is_digit (str_drop 3 l) then Ok NaN
  else if starts_with "snan" l && string_all is_digit (str_drop 4 l) then Ok NaN
  else
    let '(int, t1) := span_digits t in
    let '(frac, t2) := match t1 with
      | String "." t => span_digits t | _ => ("", t1) end in
    match int +:+ frac, parse_exponent t2 with
    | EmptyString, _ | _, None => Raise InvalidOperation
    | ds, Some x => exact_in_range n (digits_N 0 ds) (x - Z.of_nat (String.length frac))
    end.
