(* ===== verification/Sha256.v ===== *)
(** * SHA-256

    [hashlib.sha256(data).hexdigest()] (FIPS 180-4) on 32-bit words in [N], and
    the shape of its result.  The development is stated over any digest function
    with that shape (see Canonical); this one shows there is one. *)
From S2P Require Import Prelude.
Local Open Scope N_scope.

Definition w32 (x : N) : N := x mod 4294967296.
Definition rotr (n x : N) : N := N.lor (N.shiftr x n) (w32 (N.shiftl x (32 - n))).

Definition Ch x y z := N.lxor (N.land x y) (N.land (N.lxor x 4294967295) z).
Definition Maj x y z := N.lxor (N.lxor (N.land x y) (N.land x z)) (N.land y z).
Definition Sigma0 x := N.lxor (N.lxor (rotr 2 x) (rotr 13 x)) (rotr 22 x).
Definition Sigma1 x := N.lxor (N.lxor (rotr 6 x) (rotr 11 x)) (rotr 25 x).
Definition sigma0 x := N.lxor (N.lxor (rotr 7 x) (rotr 18 x)) (N.shiftr x 3).
Definition sigma1 x := N.lxor (N.lxor (rotr 17 x) (rotr 19 x)) (N.shiftr x 10).

(** *** The constants: fractional parts of roots of the first primes *)
Fixpoint next_primes (fuel : nat) (p : N) (found : list N) : list N :=
  match fuel with
  | O => rev found
  | S fuel =>
      let divisible := existsb (λ q, p mod q =? 0) found in
      next_primes fuel (p + 1) (if divisible then found else p :: found)
  end.
Definition primes : list N := next_primes 310 2 [].

(** The greatest [r < lo + 2^bits] with [r^k <= x], by bisection *)
Fixpoint root (bits : nat) (k lo x : N) : N :=
  match bits with
  | O => lo
  | S b => let mid := lo + N.shiftl 1 (N.of_nat b) in
           root b k (if mid ^ k <=? x then mid else lo) x
  end.
(** The first 32 bits of the fractional part of the [k]-th root of [p] *)
Definition root_fraction (k p : N) : N := w32 (root 40 k 0 (N.shiftl p (32 * k))).

Definition K256 : list N := Eval vm_compute in map (root_fraction 3) (take 64 primes).
Definition H256 : list N := Eval vm_compute in map (root_fraction 2) (take 8 primes).

Fixpoint word_of (acc : N) (l : list N) : N :=
  match l with [] => acc | b :: l => word_of (acc * 256 + b) l end.

Fixpoint words (fuel : nat) (l : list N) : list N :=
  match fuel with
  | O => []
  | S fuel => match l with [] => [] | _ => word_of 0 (take 4 l) :: words fuel (drop 4 l) end
  end.

(** The schedule, latest word first: 48 more words after the 16 of the block *)
Fixpoint schedule (n : nat) (rev_w : list N) : list N :=
  match n with
  | O => rev_w
  | S n =>
      let g := λ i, default 0 (rev_w !! i) in
      schedule n (w32 (sigma1 (g 1%nat) + g 6%nat + sigma0 (g 14%nat) + g 15%nat) :: rev_w)
  end.

Definition round (st : list N) (kw : N * N) : list N :=
  match st with
  | [a; b; c; d; e; f; g; h] =>
      let t1 := h + Sigma1 e + Ch e f g + fst kw + snd kw in
      let t2 := Sigma0 a + Maj a b c in
      [w32 (t1 + t2); a; b; c; w32 (d + t1); e; f; g]
  | _ => st
  end.

Definition block (st : list N) (ws : list N) : list N :=
  let w := rev (schedule 48 (rev ws)) in
  zip_with (λ a b, w32 (a + b)) st (fold_left round (zip K256 w) st).

Fixpoint blocks (fuel : nat) (st : list N) (ws : list N) : list N :=
  match fuel with
  | O => st
  | S fuel => match ws with [] => st | _ => blocks fuel (block st (take 16 ws)) (drop 16 ws) end
  end.

(** [n] bytes, most significant first *)
Fixpoint be_bytes (n : nat) (x : N) : list N :=
  match n with
  | O => []
  | S k => N.shiftr x (8 * N.of_nat k) mod 256 :: be_bytes k x
  end.

Definition padded (data : list N) : list N :=
  let len := length data in
  data ++ [128] ++ repeat 0 (Nat.modulo (119 - Nat.modulo len 64) 64)
       ++ be_bytes 8 (8 * N.of_nat len).

Definition sha256 (data : list N) : list N :=
  let p := padded data in
  blocks (length p) H256 (words (length p) p).

Definition hexc (n : N) : ascii := ascii_of_N (if n <? 10 then 48 + n else 87 + n).
Definition hex_byte (n : N) : list ascii := [hexc (n / 16 mod 16); hexc (n mod 16)].

Definition sha256_hexdigest (s : string) : string :=
  string_of_list_ascii
    (concat (map hex_byte (concat (map (be_bytes 4)
      (sha256 (map N_of_ascii (list_ascii_of_string s))))))).

Example sha256_abc : sha256_hexdigest "abc" =
  "ba7816bf8f01cfea414140de5dae2223b00361a396177a9cb410ff61f20015ad".
Proof. vm_compute. reflexivity. Qed.

(** ** Shape: 64 lower-case hexadecimal digits *)
Definition hex64 (s : string) : bool :=
  (String.length s =? 64)%nat && string_all is_lower_hex s.

Lemma hexc_hex n : is_lower_hex (hexc (n mod 16)) = true.
Proof.
  assert (n mod 16 < 16) as H by by apply N.mod_lt.
  destruct (n mod 16) as [|p]; [done|].
  do 4 (destruct p as [p|p|]; try done; try lia).
Qed.

Lemma hex_bytes_all l :
  string_all is_lower_hex (string_of_list_ascii (concat (map hex_byte l))) = true.
Proof.
  induction l as [|b l IH]; [done|]. simpl. by rewrite !hexc_hex, IH.
Qed.

Lemma hex_bytes_length l :
  String.length (string_of_list_ascii (concat (map hex_byte l))) = (2 * length l)%nat.
Proof. induction l as [|b l IH]; [done|]. simpl. rewrite IH. lia. Qed.

Lemma round_length st kw : length st = 8%nat → length (round st kw) = 8%nat.
Proof. do 9 (destruct st as [|? st]; try done). Qed.

Lemma schedule_length n l : length (schedule n l) = (n + length l)%nat.
Proof. revert l; induction n as [|n IH]; intros l; [done|]. simpl. rewrite IH. simpl. lia. Qed.

Lemma block_length st ws : length st = 8%nat → length (block st ws) = 8%nat.
Proof.
  intros Hst. unfold block. rewrite length_zip_with, Hst.
  assert (∀ l s, length s = 8%nat → length (fold_left round l s) = 8%nat) as Hf.
  { induction l as [|kw l IH]; intros s Hs; [done|]. by apply IH, round_length. }
  by rewrite Hf.
Qed.

Lemma blocks_length fuel st ws : length st = 8%nat → length (blocks fuel st ws) = 8%nat.
Proof.
  revert st ws; induction fuel as [|fuel IH]; intros st ws Hst; [done|].
  simpl. destruct ws; [done|]. by apply IH, block_length.
Qed.

Lemma be_bytes_length n x : length (be_bytes n x) = n.
Proof. induction n; simpl; congruence. Qed.

Lemma sha256_hexdigest_shape s : hex64 (sha256_hexdigest s) = true.
Proof.
  unfold hex64, sha256_hexdigest. rewrite hex_bytes_length, hex_bytes_all, andb_true_r.
  assert (∀ l, length (concat (map (be_bytes 4) l)) = (4 * length l)%nat) as Hc.
  { induction l as [|x l IH]; [done|]. cbn [map concat].
    rewrite length_app, be_bytes_length, IH. simpl. lia. }
  rewrite Hc. unfold sha256. by rewrite blocks_length.
Qed.
