(* ===== verification/Canonical.v ===== *)
(** * canonical.py: canonical serialization and digests

    [pyval] is the domain [canonicalize] inspects with [isinstance]; a pydantic
    model enters it through [model_dump], which is [to_py] of its class. *)
From S2P Require Import Prelude Json PyTime PyDecimal Sha256.
Local Open Scope Z_scope.

(** ** The platform

    [sha256_hex] is [hashlib.sha256(...).hexdigest()].  [str_strip] is what
    pydantic does to a [str] field under [str_strip_whitespace=True], and
    [exc_text] is [str(exc)].  The definitions take them as an interface with the
    documented laws; Platforms instantiates it. *)
Class Platform := {
  sha256_hex : string → string;
  str_strip : string → string;
  exc_text : exn → string;
}.

Class PlatformLaws (P : Platform) : Prop := {
  sha256_hex_shape : ∀ b, hex64 (sha256_hex b) = true;
  str_strip_solid : ∀ s, solid_edges s = true → str_strip s = s;
  str_strip_idem : ∀ s, str_strip (str_strip s) = str_strip s;
}.

(** Two different inputs with one digest *)
Definition collision `{Platform} (x y : string) : Prop := x ≠ y ∧ sha256_hex x = sha256_hex y.

(** ** Python values *)
Inductive pyval :=
| VNone
| VBool (b : bool)
| VInt (z : Z)
| VStr (s : string)
| VFloat (literal : string)
| VDecimal (d : decimal)
| VDatetime (t : datetime)
| VDate (d : date)
| VPath (posix : string)
| VBytes (b : string)
| VEnum (value : pyval)
| VDict (items : list (string * pyval))
| VSet (items : list pyval)
| VSeq (items : list pyval)
| VOther (type_name : string).

Section pyval_ind.
Context (P : pyval → Prop)
  (Pnone : P VNone) (Pbool : ∀ b, P (VBool b)) (Pint : ∀ z, P (VInt z)) (Pstr : ∀ s, P (VStr s))
  (Pfloat : ∀ t, P (VFloat t)) (Pdec : ∀ d, P (VDecimal d)) (Pdt : ∀ t, P (VDatetime t))
  (Pdate : ∀ d, P (VDate d)) (Ppath : ∀ s, P (VPath s)) (Pbytes : ∀ b, P (VBytes b))
  (Penum : ∀ v, P v → P (VEnum v))
  (Pdict : ∀ l, Forall (λ kv, P (snd kv)) l → P (VDict l))
  (Pset : ∀ l, Forall P l → P (VSet l)) (Pseq : ∀ l, Forall P l → P (VSeq l))
  (Pother : ∀ t, P (VOther t)).

Fixpoint pyval_ind' (v : pyval) : P v :=
  let all := fix go (l : list pyval) : Forall P l :=
    match l with
    | [] => List.Forall_nil _
    | x :: l => List.Forall_cons _ _ _ (pyval_ind' x) (go l)
    end in
  match v with
  | VNone => Pnone | VBool b => Pbool b | VInt z => Pint z | VStr s => Pstr s
  | VFloat t => Pfloat t | VDecimal d => Pdec d | VDatetime t => Pdt t | VDate d => Pdate d
  | VPath s => Ppath s | VBytes b => Pbytes b | VEnum v => Penum v (pyval_ind' v)
  | VDict l => Pdict l
      ((fix go (l : list (string * pyval)) : Forall (λ kv, P (snd kv)) l :=
          match l with
          | [] => List.Forall_nil _
          | x :: l => List.Forall_cons _ _ _ (pyval_ind' (snd x)) (go l)
          end) l)
  | VSet l => Pset l (all l)
  | VSeq l => Pseq l (all l)
  | VOther t => Pother t
  end.
End pyval_ind.

(** ** The functions of canonical.py *)
Fixpoint rstrip (c : ascii) (s : string) : string :=
  match s with
  | EmptyString => ""
  | String d s' =>
      match rstrip c s' with
      | EmptyString => if Ascii.eqb d c then "" else String d ""
      | r => String d r
      end
  end.

Definition _decimal_text (value : decimal) : result string :=
  _ ← require (is_finite value)
        (ValueError "non-finite Decimal values are not canonicalizable");
  let text := format_f value in
  let text := if has_char "." text then rstrip "." (rstrip "0" text) else text in
  Ok (match text with EmptyString => "0" | _ => text end).

Definition _datetime_text (value : datetime) : result string :=
  match value with
  | Naive _ => Raise (ValueError "datetime values must be timezone-aware")
  | Aware us => Ok (isoformat_us us +:+ "Z")
  end.

Definition hexc2 (c : ascii) : string := string_of_list_ascii (hex_byte (N_of_ascii c)).
(** [bytes.hex()] *)
Fixpoint bytes_hex (b : string) : string :=
  match b with EmptyString => "" | String c b => hexc2 c +:+ bytes_hex b end.

Definition pair_result {A} (kv : string * result A) : result (string * A) :=
  v ← snd kv; Ok (fst kv, v).

(** The items of a mapping are visited in the order of their keys; sets are
    sorted by their JSON text. *)
Fixpoint canonicalize (exclude_keys : list string) (value : pyval) : result json :=
  match value with
  | VEnum v => canonicalize exclude_keys v
  | VDecimal d => t ← _decimal_text d; Ok (JStr t)
  | VDatetime t => s ← _datetime_text t; Ok (JStr s)
  | VDate d => Ok (JStr (date_isoformat d))
  | VPath s => Ok (JStr s)
  | VBytes b => Ok (JStr (bytes_hex b))
  | VDict items =>
      let kept := filter (λ kv, fst kv ∉ exclude_keys)
        (isort (key_leb fst)
          (map (λ kv, (fst kv, canonicalize exclude_keys (snd kv))) items)) in
      l ← mapR pair_result kept; Ok (JObj l)
  | VSet items =>
      l ← mapR id (map (canonicalize exclude_keys) items);
      Ok (JArr (isort (key_leb (dumps Spaced)) l))
  | VSeq items => l ← mapR id (map (canonicalize exclude_keys) items); Ok (JArr l)
  | VNone => Ok JNull
  | VStr s => Ok (JStr s)
  | VInt z => Ok (JInt z)
  | VBool b => Ok (JBool b)
  | VFloat _ => Raise (TypeError
      "float values are forbidden in canonical business payloads; use Decimal")
  | VOther t => Raise (TypeError ("unsupported canonical value: " +:+ t))
  end.

Definition canonical_json (exclude_keys : list string) (value : pyval) : result string :=
  payload ← canonicalize exclude_keys value; Ok (dumps Compact payload).

Section digests.
Context `{P : Platform}.

Definition sha256_bytes (value : string) : string := "sha256:" +:+ sha256_hex value.

Definition sha256_digest_except (exclude_keys : list string) (value : pyval) : result string :=
  bytes ← canonical_json exclude_keys value; Ok (sha256_bytes bytes).

Definition sha256_digest (value : pyval) : result string := sha256_digest_except [] value.
End digests.

(** [Field(pattern=r"^sha256:[0-9a-f]{64}$")] *)
Definition is_sha256 (s : string) : bool :=
  starts_with "sha256:" s && hex64 (remove_prefix "sha256:" s).

(** ** Canonicalizable values *)

(** A mapping has one item per key; a canonicalizable payload holds no float, no
    foreign object, no naive datetime and no non-finite Decimal. *)
Fixpoint wf_py (v : pyval) : bool :=
  match v with
  | VFloat _ | VOther _ => false
  | VDecimal d => is_finite d
  | VDatetime t => is_aware t
  | VEnum v => wf_py v
  | VDict l => bool_decide (NoDup (map fst l)) && forallb (λ kv, wf_py (snd kv)) l
  | VSet l | VSeq l => forallb wf_py l
  | _ => true
  end.

Lemma mapR_pair_result_keys {A} (l : list (string * result A)) r :
  mapR pair_result l = Ok r → map fst r = map fst l.
Proof.
  revert r; induction l as [|[k m] l IH]; intros r; simpl; [by intros [= <-]|].
  intros H. inv_ok. unfold pair_result in *. simpl in *. inv_ok. simpl. f_equal. auto.
Qed.

Lemma map_filter_fst {A} (ex : list string) (l : list (string * A)) :
  map fst (filter (λ kv : string * A, fst kv ∉ ex) l) = filter (λ k : string, k ∉ ex) (map fst l).
Proof.
  induction l as [|[k x] l IH]; [done|]. rewrite filter_cons. simpl.
  rewrite filter_cons. simpl. destruct (decide (k ∉ ex)); simpl; by rewrite IH.
Qed.

(** The keys of a canonical object: sorted, and those not excluded. *)
Lemma canonical_keys {A} (ex : list string) (l : list (string * A)) :
  NoDup (map fst l) →
  NoDup (map fst (filter (λ kv : string * A, fst kv ∉ ex) (isort (key_leb fst) l))).
Proof.
  intros Hnd. rewrite map_filter_fst. apply NoDup_filter.
  change (NoDup (fst <$> isort (key_leb fst) l)). by rewrite isort_perm.
Qed.

Lemma canonicalize_wf ex v :
  wf_py v = true → ∃ j, canonicalize ex v = Ok j ∧ wf_json j = true.
Proof.
  assert (∀ l, Forall (λ v, wf_py v = true → ∃ j, canonicalize ex v = Ok j ∧ wf_json j = true) l →
    forallb wf_py l = true → ∃ js, mapR id (map (canonicalize ex) l) = Ok js ∧
      forallb wf_json js = true) as Hseq.
  { induction 1 as [|x l Hx _ IH]; simpl; [exists []; done|].
    intros [H1 H2]%andb_true_iff. destruct (Hx H1) as (j & Hj & Hw).
    destruct (IH H2) as (js & Hjs & Hws). exists (j :: js).
    change (id (canonicalize ex x)) with (canonicalize ex x). rewrite Hj. simpl. rewrite Hjs. simpl. by rewrite Hw. }
  induction v as [| | | | | d | t | | | | v IH | l IH | l IH | l IH | ] using pyval_ind';
    simpl; intros Hwf; try (eexists; split; reflexivity); try discriminate Hwf.
  - destruct d; try done. unfold _decimal_text. simpl. eexists; split; reflexivity.
  - destruct t; [done|]. eexists; split; reflexivity.
  - by apply IH.
  - split_bools.
    set (l1 := map _ l). assert (map fst l1 = map fst l) as Hk.
    { unfold l1. rewrite map_map. done. }
    assert (Forall (λ kv, ∃ j, snd kv = Ok j ∧ wf_json j = true)
      (filter (λ kv : string * result json, fst kv ∉ ex) (isort (key_leb fst) l1))) as Hall.
    { rewrite Forall_forall. intros kv [_ Hkv]%list_elem_of_filter.
      rewrite elem_of_isort in Hkv. unfold l1 in Hkv.
      apply list_elem_of_In, in_map_iff in Hkv as (x & <- & Hx). simpl.
      rewrite List.Forall_forall in IH. rewrite forallb_forall in H0.
      apply IH; [done|]. by apply H0. }
    assert (NoDup (map fst (filter (λ kv : string * result json, fst kv ∉ ex) (isort (key_leb fst) l1)))) as Hnd
      by (apply canonical_keys; by rewrite Hk).
    assert (∀ m : list (string * result json), Forall (λ kv, ∃ j, snd kv = Ok j ∧ wf_json j = true) m →
      ∃ r, mapR pair_result m = Ok r ∧ forallb (λ kv, wf_json (snd kv)) r = true) as Hmap.
    { induction 1 as [|[k m] l' (j & Hj & Hw) _ (r & Hr & Hwr)]; [exists []; done|].
      simpl in *. subst. exists ((k, j) :: r). simpl.
      rewrite Hr. simpl. by rewrite Hw. }
    destruct (Hmap _ Hall) as (r & Hr & Hwr). rewrite Hr. exists (JObj r). split; [done|].
    simpl. rewrite Hwr, andb_true_r. apply bool_decide_eq_true.
    by rewrite (mapR_pair_result_keys _ _ Hr).
  - destruct (Hseq l IH Hwf) as (js & Hjs & Hw). rewrite Hjs. eexists; split; [done|].
    simpl. rewrite forallb_forall in *. intros x Hx%list_elem_of_In.
    rewrite elem_of_isort in Hx. by apply Hw, list_elem_of_In.
  - destruct (Hseq l IH Hwf) as (js & Hjs & Hw). rewrite Hjs. eexists; split; [reflexivity|exact Hw].
Qed.

(** A canonical structure is already in the order [sort_keys] produces. *)
Lemma canonicalize_sorted ex v j : canonicalize ex v = Ok j → sort_keys j = j.
Proof.
  assert (∀ l js, Forall (λ v, ∀ j, canonicalize ex v = Ok j → sort_keys j = j) l →
    mapR id (map (canonicalize ex) l) = Ok js → map sort_keys js = js) as Hseq.
  { intros l js Hl. revert js. induction Hl as [|x l Hx _ IH]; simpl; [by intros ? [= <-]|].
    intros js (j' & Hj & (js' & Hjs & [= <-])%bind_Ok)%bind_Ok. simpl.
    by rewrite (Hx _ Hj), (IH _ Hjs). }
  revert j. induction v as [| | | | | d | t | | | | v IH | l IH | l IH | l IH | ] using pyval_ind';
    simpl; intros j Hj; inv_ok; try done.
  - by apply IH.
  - rename x into r, H into Hr. set (kept := filter _ _) in Hr. simpl. f_equal.
    assert (map (λ kv, (fst kv, sort_keys (snd kv))) r = r) as ->.
    { apply mapR_Forall2 in Hr.
      assert (Forall (λ kv, ∃ v, v ∈ map snd l ∧ snd kv = canonicalize ex v) kept) as Hk.
      { apply Forall_forall. intros kv [_ Hkv]%list_elem_of_filter. rewrite elem_of_isort in Hkv.
        apply list_elem_of_In, in_map_iff in Hkv as (x & <- & Hx). exists (snd x).
        split; [|done]. apply list_elem_of_In, in_map_iff. eauto. }
      clearbody kept. induction Hr as [|[k m] [k' j] kept r Hp _ IHr]; [done|].
      apply Forall_cons in Hk as [(v & Hv & Hm) Hk]. simpl in *. rewrite IHr by done.
      unfold pair_result in Hp. simpl in Hp. inv_ok. subst.
      apply list_elem_of_In, in_map_iff in Hv as (y & <- & Hy).
      rewrite List.Forall_forall in IH. by rewrite (IH y Hy j). }
    apply isort_id. apply mapR_pair_result_keys in Hr.
    assert (StronglySorted (λ a b, key_leb fst a b = true) kept) as Hs.
    { unfold kept. apply StronglySorted_filter, isort_key_sorted. }
    assert (∀ {A B} (l1 : list (string * A)) (l2 : list (string * B)), map fst l1 = map fst l2 →
      StronglySorted (λ a b, key_leb fst a b = true) l2 →
      StronglySorted (λ a b, key_leb fst a b = true) l1) as Hmove; [|by eapply Hmove].
    intros A B l1 l2 Heq Hl2. revert l1 Heq.
    induction Hl2 as [|b l2 _ IHs Hb]; intros [|a l1] Heq; try done; [constructor|].
    injection Heq as Hab Heq. constructor; [by apply IHs|].
    apply Forall_forall. intros x Hx. unfold key_leb. rewrite Hab.
    assert (fst x ∈ map fst l2) as Hin.
    { rewrite <- Heq. apply list_elem_of_In, in_map. by apply list_elem_of_In. }
    apply list_elem_of_In, in_map_iff in Hin as (y & <- & Hy).
    rewrite List.Forall_forall in Hb. by apply Hb.
  - simpl. f_equal. pose proof (Hseq _ _ IH H) as Hx.
    assert (∀ l, Forall (λ j, sort_keys j = j) l → map sort_keys l = l) as Hid.
    { induction 1; simpl; congruence. }
    apply Hid. rewrite isort_perm. clear -Hx.
    induction x as [|j x IH]; [constructor|]. injection Hx as Hj Hx. constructor; auto.
  - simpl. f_equal. by apply (Hseq l).
Qed.

Lemma canonicalize_from_bytes ex v1 v2 b :
  wf_py v1 = true → wf_py v2 = true →
  canonical_json ex v1 = Ok b → canonical_json ex v2 = Ok b →
  ∃ j, canonicalize ex v1 = Ok j ∧ canonicalize ex v2 = Ok j.
Proof.
  intros Hw1 Hw2 H1 H2. unfold canonical_json in *. inv_ok.
  destruct (canonicalize_wf ex v1 Hw1) as (j1 & E1 & W1).
  destruct (canonicalize_wf ex v2 Hw2) as (j2 & E2 & W2).
  assert (x0 = j1) as -> by congruence. assert (x = j2) as -> by congruence.
  exists j1. split; [done|]. rewrite E2. f_equal.
  rewrite <- (canonicalize_sorted _ _ _ E1), <- (canonicalize_sorted _ _ _ E2).
  apply (dumps_inj Compact); congruence.
Qed.

(** Canonical bytes determine the canonical structure: two payloads whose
    [canonical_json] texts are equal have the same [canonicalize] result. *)
Lemma canonical_json_injective (ex : list string) (v1 v2 : pyval) (b : string) :
  wf_py v1 = true → wf_py v2 = true →
  canonical_json ex v1 = Ok b → canonical_json ex v2 = Ok b →
  canonicalize ex v1 = canonicalize ex v2.
Proof.
  intros Hw1 Hw2 H1 H2. by destruct (canonicalize_from_bytes ex v1 v2 b) as (j & -> & ->).
Qed.

(** ** Equivalent payloads

    Payloads that differ in the order of mapping items or of set elements, or in
    an [Enum] wrapper, are the same business object. *)
Inductive same_payload : pyval → pyval → Prop :=
| sp_refl v : same_payload v v
| sp_sym v w : same_payload v w → same_payload w v
| sp_trans v w u : same_payload v w → same_payload w u → same_payload v u
| sp_enum v w : same_payload v w → same_payload (VEnum v) w
| sp_dict_perm l1 l2 : NoDup (map fst l1) → l1 ≡ₚ l2 → same_payload (VDict l1) (VDict l2)
| sp_set_perm l1 l2 : forallb wf_py l1 = true → l1 ≡ₚ l2 → same_payload (VSet l1) (VSet l2)
| sp_dict l1 l2 :
    Forall2 (λ a b, fst a = fst b ∧ same_payload (snd a) (snd b)) l1 l2 →
    same_payload (VDict l1) (VDict l2)
| sp_seq l1 l2 : Forall2 same_payload l1 l2 → same_payload (VSeq l1) (VSeq l2).

#[export] Instance same_payload_equiv : Equivalence same_payload.
Proof. split; red; eauto using same_payload. Qed.

Lemma isort_dumps_perm (l1 l2 : list json) :
  Forall (λ j, wf_json j = true ∧ sort_keys j = j) l1 → l1 ≡ₚ l2 →
  isort (key_leb (dumps Spaced)) l1 = isort (key_leb (dumps Spaced)) l2.
Proof.
  intros Hl Hp. eapply (StronglySorted_unique_strong (λ a b, key_leb (dumps Spaced) a b = true)).
  - intros x y Hx Hy Hxy Hyx. rewrite elem_of_isort in Hx, Hy. rewrite <- Hp in Hy.
    rewrite Forall_forall in Hl. destruct (Hl _ Hx), (Hl _ Hy).
    assert (sort_keys x = sort_keys y); [|congruence].
    apply (dumps_inj Spaced); [done|done|]. by apply String.leb_antisym.
  - apply isort_key_sorted.
  - apply isort_key_sorted.
  - by rewrite !isort_perm.
Qed.

Lemma mapR_perm {A B} (f : A → result B) l1 l2 ys :
  l1 ≡ₚ l2 → mapR f l1 = Ok ys → ∃ zs, mapR f l2 = Ok zs ∧ ys ≡ₚ zs.
Proof.
  intros Hp. revert ys. induction Hp as [|x l l' _ IH|x y l|l l' l'' _ IH1 _ IH2];
    intros ys H; simpl in *.
  - eexists; split; [exact H|done].
  - apply bind_Ok in H as (y & Hy & H). apply bind_Ok in H as (ys' & H & [= <-]).
    destruct (IH _ H) as (zs & -> & Hz). rewrite Hy. eexists; split; [done|].
    by constructor.
  - apply bind_Ok in H as (y' & Hy & H). apply bind_Ok in H as (ys' & H & [= <-]).
    apply bind_Ok in H as (x' & Hx & H). apply bind_Ok in H as (zs & Hz & [= <-]).
    rewrite Hx, Hy. simpl. rewrite Hz. eexists; split; [done|]. constructor.
  - destruct (IH1 _ H) as (zs & Hz & Hzs). destruct (IH2 _ Hz) as (us & Hu & Hus).
    exists us. split; [done|]. by rewrite Hzs.
Qed.

Fixpoint canonicalize_same (ex : list string) (v w : pyval) (H : same_payload v w) {struct H} :
  canonicalize ex v = canonicalize ex w.
Proof.
  destruct H as [v|v w H|v w u H1 H2|v w H|l1 l2 Hnd Hp|l1 l2 Hw Hp|l1 l2 Hl|l1 l2 Hl].
  - done.
  - symmetry. by apply canonicalize_same.
  - transitivity (canonicalize ex w); by apply canonicalize_same.
  - simpl. by apply canonicalize_same.
  - simpl. do 3 f_equal. apply isort_key_perm.
    + change (NoDup (map fst (map (λ kv, (fst kv, canonicalize ex (snd kv))) l1))).
      rewrite map_map. exact Hnd.
    + by rewrite Hp.
  - simpl. assert (∃ js, mapR id (map (canonicalize ex) l1) = Ok js ∧
      Forall (λ j, wf_json j = true ∧ sort_keys j = j) js) as (js & Hjs & Hall).
    { clear -Hw. induction l1 as [|x l IH]; [by exists []|]. simpl in *. split_bools.
      destruct (IH H0) as (js & Hjs & Hall), (canonicalize_wf ex x H) as (j & Hj & Hwf).
      exists (j :: js). change (id (canonicalize ex x)) with (canonicalize ex x).
      rewrite Hj. simpl. rewrite Hjs. split; [done|]. constructor; [|done].
      split; [done|]. by eapply canonicalize_sorted. }
    destruct (mapR_perm id (map (canonicalize ex) l1) (map (canonicalize ex) l2) js)
      as (zs & Hzs & Hpz); [by rewrite Hp|done|].
    rewrite Hjs, Hzs. simpl. do 2 f_equal. by apply isort_dumps_perm.
  - simpl. do 4 f_equal.
    induction Hl as [|[k1 v1] [k2 v2] l1 l2 [Hk Hv] _ IH]; [done|]. simpl in *.
    rewrite IH, Hk. by rewrite (canonicalize_same ex _ _ Hv).
  - simpl. do 2 f_equal.
    induction Hl as [|v1 v2 l1 l2 Hv _ IH]; [done|]. simpl.
    by rewrite IH, (canonicalize_same ex _ _ Hv).
Qed.

#[export] Instance canonicalize_proper ex : Proper (same_payload ==> eq) (canonicalize ex).
Proof. intros v w. apply canonicalize_same. Qed.

(** Stability of the canonical digest: payloads that differ only in the order
    of mapping items, the order of set elements or an [Enum] wrapper, at any
    depth of mappings and sequences, have the same digest (and raise the same exception). *)
Lemma sha256_digest_stable `{Platform} (ex : list string) (v w : pyval) :
  same_payload v w → sha256_digest_except ex v = sha256_digest_except ex w.
Proof.
  intros Hvw. unfold sha256_digest_except, canonical_json. by rewrite Hvw.
Qed.

Section digest_facts.
Context `{P : Platform}.

(** The canonical texts of two payloads are a SHA-256 collision. *)
Definition colliding (ex : list string) (v1 v2 : pyval) : Prop :=
  ∃ b1 b2, canonical_json ex v1 = Ok b1 ∧ canonical_json ex v2 = Ok b2 ∧ collision b1 b2.

(** Equal digests: the same canonical structure, or a SHA-256 collision. *)
Lemma digest_injective ex v1 v2 h :
  wf_py v1 = true → wf_py v2 = true →
  sha256_digest_except ex v1 = Ok h → sha256_digest_except ex v2 = Ok h →
  canonicalize ex v1 = canonicalize ex v2 ∨ colliding ex v1 v2.
Proof.
  intros Hw1 Hw2 H1 H2. unfold sha256_digest_except in *. inv_ok.
  unfold sha256_bytes in *. apply str_app_inv_l in H1. rename x into b2, x0 into b1.
  destruct (decide (b1 = b2)) as [->|Hne].
  - left. destruct (canonicalize_from_bytes ex v1 v2 b2) as (j & -> & ->); done.
  - right. exists b1, b2. by repeat split.
Qed.

Lemma digest_total ex v : wf_py v = true → ∃ h, sha256_digest_except ex v = Ok h.
Proof.
  intros Hw. unfold sha256_digest_except, canonical_json.
  destruct (canonicalize_wf ex v Hw) as (j & -> & _). by eexists.
Qed.

Lemma digest_shape `{!PlatformLaws P} ex v h :
  sha256_digest_except ex v = Ok h → is_sha256 h = true.
Proof.
  unfold sha256_digest_except. intros. inv_ok. unfold is_sha256, sha256_bytes.
  rewrite starts_with_app. unfold remove_prefix. rewrite starts_with_app, str_drop_app.
  simpl. apply sha256_hex_shape.
Qed.

Lemma sha256_bytes_shape `{!PlatformLaws P} b : is_sha256 (sha256_bytes b) = true.
Proof.
  unfold is_sha256, sha256_bytes. rewrite starts_with_app. unfold remove_prefix.
  rewrite starts_with_app, str_drop_app. simpl. apply sha256_hex_shape.
Qed.
End digest_facts.

(** ** The items of a canonical object *)
Lemma canonical_item ex l j k v :
  canonicalize ex (VDict l) = Ok j → (k, v) ∈ l → k ∉ ex →
  ∃ r jv, j = JObj r ∧ map fst r = map fst (filter (λ kv : string * result json, fst kv ∉ ex)
    (isort (key_leb fst) (map (λ kv, (fst kv, canonicalize ex (snd kv))) l))) ∧
    canonicalize ex v = Ok jv ∧ (k, jv) ∈ r.
Proof.
  simpl. intros (r & H & [= <-])%bind_Ok Hkv Hk.
  assert ((k, canonicalize ex v) ∈ filter (λ kv : string * result json, fst kv ∉ ex)
    (isort (key_leb fst) (map (λ kv, (fst kv, canonicalize ex (snd kv))) l))) as Hin.
  { apply list_elem_of_filter. split; [done|]. rewrite elem_of_isort.
    apply list_elem_of_In, in_map_iff. exists (k, v). split; [done|]. by apply list_elem_of_In. }
  pose proof (mapR_pair_result_keys _ _ H) as Hkeys.
  apply mapR_Forall2 in H as H2. apply list_elem_of_lookup in Hin as [i Hi].
  destruct (Forall2_lookup_l _ _ _ _ _ H2 Hi) as ([k' jv] & Hr & Hp).
  unfold pair_result in Hp. simpl in Hp.
  apply bind_Ok in Hp as (x & Hx & [= <- <-]). exists r, x.
  repeat split; [done|done|]. by apply list_elem_of_lookup_2 in Hr.
Qed.

(** Mappings with the same canonical object agree on each of their keys. *)
Lemma canonical_field ex l1 l2 j k v1 v2 :
  NoDup (map fst l1) → canonicalize ex (VDict l1) = Ok j → canonicalize ex (VDict l2) = Ok j →
  (k, v1) ∈ l1 → (k, v2) ∈ l2 → k ∉ ex → canonicalize ex v1 = canonicalize ex v2.
Proof.
  intros Hnd H1 H2 Hv1 Hv2 Hk.
  destruct (canonical_item _ _ _ _ _ H1 Hv1 Hk) as (r & j1 & -> & Hkeys & -> & Hr1).
  destruct (canonical_item _ _ _ _ _ H2 Hv2 Hk) as (r' & j2 & [= <-] & _ & -> & Hr2).
  assert (NoDup (map fst r)) as Hndr.
  { rewrite Hkeys. apply canonical_keys. by rewrite map_map. }
  apply list_elem_of_lookup in Hr1 as [i Hi], Hr2 as [i' Hi'].
  assert (i = i') as <-; [|congruence].
  apply (NoDup_lookup (map fst r) i i' k); [done| |];
    change (map fst r) with (fst <$> r); rewrite list_lookup_fmap; by rewrite ?Hi, ?Hi'.
Qed.

(** Two mappings with one canonical form agree on the keys they share. *)
Lemma fields_agree l m k v w :
  wf_py (VDict l) = true → canonicalize [] (VDict l) = canonicalize [] (VDict m) →
  (k, v) ∈ l → (k, w) ∈ m → canonicalize [] v = canonicalize [] w.
Proof.
  intros Hl E Hv Hw. destruct (canonicalize_wf [] _ Hl) as (j & H1 & _). pose proof H1 as H2.
  rewrite E in H2. cbn [wf_py] in Hl. apply andb_true_iff in Hl as [Hnd%bool_decide_eq_true _].
  apply (canonical_field [] l m j k); try done. apply not_elem_of_nil.
Qed.

Lemma strings_agree l m k s t :
  wf_py (VDict l) = true → canonicalize [] (VDict l) = canonicalize [] (VDict m) →
  (k, VStr s) ∈ l → (k, VStr t) ∈ m → s = t.
Proof. intros. assert (canonicalize [] (VStr s) = canonicalize [] (VStr t)) as [= ->]; [|done]. by eapply fields_agree. Qed.

(** ** Decimal texts *)
Lemma rstrip_app_same c s : rstrip c (s +:+ String c "") = rstrip c s.
Proof.
  induction s as [|d s IH].
  - simpl. by rewrite Ascii.eqb_refl.
  - rewrite str_app_cons. simpl. by rewrite IH.
Qed.

Lemma rstrip_app_other c d s : Ascii.eqb d c = false → rstrip c (s +:+ String d "") = s +:+ String d "".
Proof.
  intros Hd. induction s as [|e s IH].
  - simpl. by rewrite Hd.
  - rewrite str_app_cons. simpl. rewrite IH. by destruct s.
Qed.

Lemma has_char_app c s t : has_char c (s +:+ t) = has_char c s || has_char c t.
Proof.
  induction s as [|d s IH]; [done|]. rewrite str_app_cons. simpl. by rewrite IH, orb_assoc.
Qed.

Lemma has_char_digits s : string_all is_digit s = true → has_char "." s = false.
Proof.
  induction s as [|d s IH]; [done|]. simpl. intros [Hd Hs]%andb_true_iff.
  rewrite IH by done. destruct d as [[] [] [] [] [] [] [] []]; done.
Qed.

Lemma rstrip_digits s : string_all is_digit s = true → s ≠ "" → rstrip "." s = s.
Proof.
  induction s as [|d s IH]; [done|]. simpl. intros [Hd Hs]%andb_true_iff _.
  destruct s as [|e s].
  - simpl. destruct d as [[] [] [] [] [] [] [] []]; done.
  - by rewrite IH.
Qed.

Lemma rstrip_cons c d s : rstrip c s ≠ "" → rstrip c (String d s) = String d (rstrip c s).
Proof. simpl. by destruct (rstrip c s). Qed.

Lemma str_take_app n s t : (n ≤ String.length s)%nat → str_take n (s +:+ t) = str_take n s.
Proof.
  unfold str_take. revert n; induction s as [|d s IH]; intros [|n] Hn; try done.
  - by destruct t.
  - simpl in Hn; lia.
  - rewrite str_app_cons. simpl in *. by rewrite IH by lia.
Qed.

Lemma str_drop_cons n c s : str_drop (S n) (String c s) = str_drop n s.
Proof. reflexivity. Qed.

Lemma str_drop_app_l n s t : (n ≤ String.length s)%nat → str_drop n (s +:+ t) = str_drop n s +:+ t.
Proof.
  revert n; induction s as [|c s IH]; intros [|n] Hn; simpl in Hn; try lia.
  - unfold str_drop. simpl. rewrite Nat.sub_0_r. by apply substring_all.
  - unfold str_drop. rewrite !Nat.sub_0_r, !substring_all by done. done.
  - rewrite str_app_cons, !str_drop_cons. apply IH. lia.
Qed.

Lemma str_drop_full s : str_drop (String.length s) s = "".
Proof. rewrite <- (str_app_nil_r s) at 2. apply str_drop_app. Qed.

Lemma str_take_full n s : (String.length s ≤ n)%nat → str_take n s = s.
Proof. apply substring_all. Qed.

Lemma str_drop_length n s : String.length (str_drop n s) = (String.length s - n)%nat.
Proof.
  revert s; induction n as [|n IH]; intros [|c s]; try done.
  - unfold str_drop. by rewrite Nat.sub_0_r, substring_all.
  - rewrite str_drop_cons, IH. done.
Qed.

Lemma zeros_snoc n : zeros n +:+ "0" = zeros (S n).
Proof. induction n as [|n IH]; [done|]. simpl. rewrite str_app_cons, IH. done. Qed.

(** Stripping the text of a number whose fraction gained a zero *)
Lemma strip_fraction (pre frac : string) :
  rstrip "." (rstrip "0" (pre +:+ "." +:+ frac +:+ "0")) =
  rstrip "." (rstrip "0" (pre +:+ "." +:+ frac)).
Proof. rewrite !str_app_assoc. by rewrite rstrip_app_same. Qed.

Lemma strip_no_fraction (sign int : string) :
  (sign = "" ∨ sign = "-") → string_all is_digit int = true → int ≠ "" →
  rstrip "." (rstrip "0" ((sign +:+ int) +:+ "." +:+ "0")) = sign +:+ int.
Proof.
  intros Hs Hd Hi. rewrite str_app_assoc, rstrip_app_same.
  rewrite rstrip_app_other, rstrip_app_same by done.
  destruct Hs as [-> | ->]; [by apply rstrip_digits|].
  rewrite str_app_cons, str_app_nil_l, rstrip_cons; rewrite rstrip_digits; done.
Qed.

Lemma coef_text_nonempty c : coef_text c ≠ "".
Proof.
  intros H. destruct (ndigits_spec c) as [H1 _]. unfold ndigits in H1. rewrite H in H1.
  simpl in H1. lia.
Qed.

(** What [_decimal_text] strips *)
Definition strip_text (text : string) : string :=
  if has_char "." text then rstrip "." (rstrip "0" text) else text.

Lemma strip_text_point pre frac :
  strip_text (pre +:+ "." +:+ frac) = rstrip "." (rstrip "0" (pre +:+ "." +:+ frac)).
Proof. unfold strip_text. rewrite !has_char_app. simpl. by rewrite orb_true_r. Qed.

Lemma strip_text_plain sign int :
  (sign = "" ∨ sign = "-") → string_all is_digit int = true → strip_text (sign +:+ int) = sign +:+ int.
Proof.
  intros Hs Hd. unfold strip_text. rewrite has_char_app, (has_char_digits int) by done.
  by destruct Hs as [-> | ->].
Qed.

(** The digits [ds] with the decimal point after the first [p] of them *)
Definition place (ds : string) (p : Z) : string :=
  let len := Z.of_nat (String.length ds) in
  let '(int, frac) :=
    if p <? 0 then ("0", zeros (Z.to_nat (- p)) +:+ ds)
    else if len <? p then (ds +:+ zeros (Z.to_nat (p - len)), "")
    else (match Z.to_nat p with O => "0" | k => str_take k ds end, str_drop (Z.to_nat p) ds) in
  int +:+ match frac with EmptyString => "" | _ => "." +:+ frac end.

Lemma format_f_place n c e : (0 < c)%N →
  format_f (Fin n c e) =
  (if n then "-" else "") +:+ place (coef_text c) (e + Z.of_nat (String.length (coef_text c))).
Proof.
  intros Hc. unfold format_f, place.
  assert ((c =? 0)%N = false) as -> by (apply N.eqb_neq; lia).
  rewrite andb_false_l. cbv beta iota zeta. set (ds := coef_text c). set (L := Z.of_nat (String.length ds)).
  by destruct (e + L <? 0), (L <? e + L).
Qed.

Lemma strip_point_step pre frac : frac ≠ "" →
  strip_text (pre +:+ match frac +:+ "0" with EmptyString => "" | _ => "." +:+ frac +:+ "0" end) =
  strip_text (pre +:+ match frac with EmptyString => "" | _ => "." +:+ frac end).
Proof.
  intros Hf. destruct frac as [|c f]; [done|]. rewrite (str_app_cons c f "0").
  rewrite <- (str_app_cons c f "0"), !strip_text_point. apply strip_fraction.
Qed.

(** One more digit of precision does not change the text. *)
Lemma strip_place (sg ds : string) p :
  (sg = "" ∨ sg = "-") → string_all is_digit ds = true → ds ≠ "" →
  strip_text (sg +:+ place (ds +:+ "0") p) = strip_text (sg +:+ place ds p).
Proof.
  intros Hsg Hd Hne. unfold place. rewrite str_length_app. simpl (String.length "0").
  assert (0 < String.length ds)%nat as Hlen by (destruct ds; [done|simpl; lia]).
  set (L := String.length ds) in *. cbv zeta.
  destruct (Z.ltb_spec p 0) as [Hp|Hp]; cbv beta iota.
  - rewrite !str_app_assoc. apply strip_point_step.
    destruct (Z.to_nat (- p)) eqn:E; [lia|]. simpl. by rewrite str_app_cons.
  - destruct (Z.ltb_spec (Z.of_nat L) p) as [Hl|Hl].
    + destruct (Z.ltb_spec (Z.of_nat (L + 1)) p) as [Hl'|Hl']; cbv beta iota.
      * rewrite !str_app_nil_r, <- str_app_assoc. do 3 f_equal.
        by replace (Z.to_nat (p - Z.of_nat L)) with (S (Z.to_nat (p - Z.of_nat (L + 1)))) by lia.
      * assert (Z.to_nat p = S L) as -> by lia. cbv beta iota.
        assert (String.length (ds +:+ "0") = S L) as HL by (rewrite str_length_app; simpl; lia).
        rewrite str_take_full by lia. rewrite <- HL at 1. rewrite str_drop_full.
        by replace (Z.to_nat (p - Z.of_nat L)) with 1%nat by lia.
    + destruct (Z.ltb_spec (Z.of_nat (L + 1)) p) as [Hl'|_]; [lia|]. cbv beta iota.
      set (k := Z.to_nat p). assert (k ≤ L)%nat as Hk by lia.
      rewrite str_drop_app_l by done.
      assert (match k with O => "0" | S k' => str_take (S k') (ds +:+ "0") end =
        match k with O => "0" | S k' => str_take (S k') ds end) as ->
        by (destruct k; [done|by apply str_take_app]).
      set (int := match k with O => "0" | S k' => str_take (S k') ds end). rewrite !str_app_assoc.
      destruct (decide (str_drop k ds = "")) as [E|Hf]; [|by apply strip_point_step].
      assert (k = L) as Ek.
      { pose proof (str_drop_length k ds) as H0. rewrite E in H0. fold L in H0. simpl in H0. lia. }
      assert (int = ds) as ->.
      { unfold int. clearbody k. destruct k; [lia|]. apply str_take_full. fold L. lia. }
      rewrite E, !str_app_nil_l. cbv iota.
      rewrite strip_text_point, strip_no_fraction, str_app_nil_r by done. symmetry. by apply strip_text_plain.
Qed.

Lemma strip_format_step n c e :
  (0 < c)%N → strip_text (format_f (Fin n (c * 10) (e - 1))) = strip_text (format_f (Fin n c e)).
Proof.
  intros Hc. rewrite !format_f_place, coef_text_mul10 by lia. rewrite str_length_app.
  replace (e - 1 + _) with (e + Z.of_nat (String.length (coef_text c))) by (simpl; lia).
  apply strip_place; [destruct n; auto|apply coef_text_digits|apply coef_text_nonempty].
Qed.

Lemma strip_format_zero n e : (e ≤ 0) →
  strip_text (format_f (Fin n 0 e)) = (if n then "-0" else "0").
Proof.
  intros He. set (sg := if n then "-" else "").
  assert (format_f (Fin n 0 e) = sg +:+ place "0" (e + 1)) as ->.
  { unfold format_f, place. assert ((0 <? e) = false) as -> by (apply Z.ltb_ge; lia).
    change ((0 =? 0)%N && false) with false. cbv beta iota zeta.
    change (coef_text 0) with "0". change (Z.of_nat (String.length "0")) with 1.
    destruct (e + 1 <? 0), (1 <? e + 1); reflexivity. }
  assert (sg = "" ∨ sg = "-") as Hsg by (unfold sg; destruct n; auto).
  assert (∀ k, strip_text ((sg +:+ "0") +:+ "." +:+ zeros (S k)) = sg +:+ "0") as Hz.
  { intros k. rewrite strip_text_point. induction k as [|k IH].
    - by apply strip_no_fraction.
    - rewrite <- zeros_snoc, strip_fraction. apply IH. }
  assert (sg +:+ "0" = if n then "-0" else "0") as <- by (unfold sg; by destruct n).
  unfold place. destruct (Z.ltb_spec (e + 1) 0).
  - cbv beta iota zeta. rewrite zeros_snoc, str_app_assoc. apply Hz.
  - assert (e = 0 ∨ e = -1) as [-> | ->] by lia; by destruct Hsg as [-> | ->].
Qed.

(** Representation independence of amounts: writing a finite Decimal with [k]
    more fractional digits (as 60000.00 for 60000) does not change its canonical text. *)
Lemma decimal_text_scale (n : bool) (c : N) (e : Z) (k : nat) :
  (e ≤ 0 ∨ (0 < c)%N) →
  _decimal_text (Fin n (c * 10 ^ N.of_nat k) (e - Z.of_nat k)) = _decimal_text (Fin n c e).
Proof.
  intros H. unfold _decimal_text. simpl require. unfold mbind, result_bind.
  change (if has_char "." ?t then rstrip "." (rstrip "0" ?t) else ?t) with (strip_text t).
  cut (strip_text (format_f (Fin n (c * 10 ^ N.of_nat k) (e - Z.of_nat k))) =
       strip_text (format_f (Fin n c e))); [by intros ->|].
  destruct (N.eq_0_gt_0_cases c) as [->|Hc].
  - destruct H as [H|H]; [|lia]. rewrite N.mul_0_l. rewrite !strip_format_zero by lia. done.
  - induction k as [|k IH].
    + simpl. by rewrite N.mul_1_r, Z.sub_0_r.
    + rewrite <- IH. rewrite Nat2N.inj_succ, N.pow_succ_r', (N.mul_comm 10), N.mul_assoc.
      replace (e - Z.of_nat (S k)) with (e - Z.of_nat k - 1) by lia.
      apply strip_format_step. apply N.mul_pos_pos; [done|]. apply N.neq_0_lt_0, N.pow_nonzero. done.
Qed.

Lemma canonical_json_injective_witness :
  let v := VDict [("b", VInt 1); ("a", VSet [VStr "y"; VEnum (VStr "x")])] in
  let w := VDict [("a", VSet [VStr "x"; VStr "y"]); ("b", VInt 1)] in
  canonicalize [] v = canonicalize [] w.
Proof.
  intros v w. eapply (canonical_json_injective [] v w); vm_compute; reflexivity.
Defined.

(** 60000.00 and 60000 *)
Lemma decimal_text_scale_witness :
  _decimal_text (Fin false 6000000 (-2)) = _decimal_text (Fin false 60000 0) ∧
  _decimal_text (Fin false 60000 0) = Ok "60000".
Proof.
  split; [|reflexivity]. apply (decimal_text_scale false 60000 0 2). left. reflexivity.
Defined.
