(* ===== verification/Base64.v ===== *)
(** * base64, and the canonical form action_certificate.py accepts

    [b64encode] is [base64.b64encode] ([base64.urlsafe_b64encode] with [url]);
    [b64decode] is [base64.b64decode(validate=True)].  The decoder ignores the unused
    bits of the last digit, so many texts decode to the same bytes;
    [decode_canonical_base64] keeps the one the encoder writes. *)
From S2P Require Import Prelude Json Canonical.
Local Open Scope N_scope.

(** [b] is the standard digits when [url] is false, the URL-safe ones otherwise. *)
Definition b64_char (url : bool) (n : N) : ascii :=
  if n <? 26 then ascii_of_N (65 + n)
  else if n <? 52 then ascii_of_N (71 + n)
  else if n <? 62 then ascii_of_N (n - 4)
  else if n =? 62 then (if url then "-" else "+")%char
  else (if url then "_" else "/")%char.

Definition b64_value (c : ascii) : option N :=
  let n := N_of_ascii c in
  if in_range 65 90 c then Some (n - 65)
  else if in_range 97 122 c then Some (n - 71)
  else if in_range 48 57 c then Some (n + 4)
  else if Ascii.eqb c "+" then Some 62
  else if Ascii.eqb c "/" then Some 63
  else None.

Fixpoint b64encode (url : bool) (s : string) : string :=
  let digit n := b64_char url n in
  match s with
  | EmptyString => EmptyString
  | String a EmptyString =>
      let x := N_of_ascii a in
      String (digit (x / 4)) (String (digit (x mod 4 * 16)) "==")
  | String a (String b EmptyString) =>
      let x := N_of_ascii a in let y := N_of_ascii b in
      String (digit (x / 4)) (String (digit (x mod 4 * 16 + y / 16)) (String (digit (y mod 16 * 4)) "="))
  | String a (String b (String c r)) =>
      let x := N_of_ascii a in let y := N_of_ascii b in let z := N_of_ascii c in
      String (digit (x / 4)) (String (digit (x mod 4 * 16 + y / 16))
        (String (digit (y mod 16 * 4 + z / 64)) (String (digit (z mod 64)) (b64encode url r))))
  end.

Definition byte1 (v1 v2 : N) : ascii := ascii_of_N (v1 * 4 + v2 / 16).
Definition byte2 (v2 v3 : N) : ascii := ascii_of_N (v2 mod 16 * 16 + v3 / 4).
Definition byte3 (v3 v4 : N) : ascii := ascii_of_N (v3 mod 4 * 64 + v4).

Fixpoint b64decode (s : string) : option string :=
  match s with
  | EmptyString => Some EmptyString
  | String c1 (String c2 (String c3 (String c4 r))) =>
      v1 ← b64_value c1;
      v2 ← b64_value c2;
      if Ascii.eqb c3 "=" then
        if Ascii.eqb c4 "=" && String.eqb r "" then Some (String (byte1 v1 v2) "") else None
      else
        v3 ← b64_value c3;
        if Ascii.eqb c4 "=" then
          if String.eqb r "" then Some (String (byte1 v1 v2) (String (byte2 v2 v3) "")) else None
        else
          v4 ← b64_value c4;
          rest ← b64decode r;
          Some (String (byte1 v1 v2) (String (byte2 v2 v3) (String (byte3 v3 v4) rest)))
  | _ => None
  end.

Fixpoint string_map (f : ascii → ascii) (s : string) : string :=
  match s with EmptyString => EmptyString | String c r => String (f c) (string_map f r) end.
(** [bytes.maketrans(b"-_", b"+/")] *)
Definition standard_char (c : ascii) : ascii :=
  if Ascii.eqb c "-" then "+"%char else if Ascii.eqb c "_" then "/"%char else c.

Definition decode_canonical_base64 (value label : string) (expected_bytes : option nat)
    (allow_urlsafe : bool) : result string :=
  let malformed := ValueError (label +:+ " must be canonical base64") in
  _ ← require (string_all (in_range 0 127) value) malformed;
  let normalized := if allow_urlsafe then string_map standard_char value else value in
  match b64decode normalized with
  | None => Raise malformed
  | Some decoded =>
      _ ← require (String.eqb value (b64encode false decoded) ||
                   allow_urlsafe && String.eqb value (b64encode true decoded))
            (ValueError (label +:+ " must be canonical padded base64"));
      _ ← require (match expected_bytes with Some n => Nat.eqb (String.length decoded) n | None => true end)
            (ValueError (label +:+ " must decode to exactly " +:+
               match expected_bytes with Some n => nat_text n | None => "" end +:+ " bytes"));
      Ok decoded
  end.

(** ** The digits *)
Lemma b64_digits_check :
  forallb (λ n, bool_decide (b64_value (b64_char false n) = Some n) &&
                bool_decide (standard_char (b64_char true n) = b64_char false n) &&
                bool_decide (standard_char (b64_char false n) = b64_char false n) &&
                in_range 0 127 (b64_char false n) && in_range 0 127 (b64_char true n) &&
                negb (Ascii.eqb (b64_char false n) "="))
    (map N.of_nat (seq 0 64)) = true.
Proof. vm_compute. reflexivity. Qed.

Lemma b64_digit n : n < 64 →
  b64_value (b64_char false n) = Some n ∧ (∀ url, standard_char (b64_char url n) = b64_char false n) ∧
  (∀ url, in_range 0 127 (b64_char url n) = true) ∧ Ascii.eqb (b64_char false n) "=" = false.
Proof.
  intros Hn. pose proof b64_digits_check as H. rewrite forallb_forall in H. specialize (H n).
  specialize (H ltac:(apply in_map_iff; exists (N.to_nat n); rewrite in_seq; split; [apply N2Nat.id|lia])).
  split_bools. split; [done|]. split; [by intros []|]. split; [by intros []|done].
Qed.

(** Induction by groups of three bytes *)
Lemma string_ind3 (P : string → Prop) :
  P "" → (∀ a, P (String a "")) → (∀ a b, P (String a (String b ""))) →
  (∀ a b c r, P r → P (String a (String b (String c r)))) → ∀ s, P s.
Proof.
  intros H0 H1 H2 H3. fix IH 1. intros [|a [|b [|c r]]]; [done|done|done|]. apply H3, IH.
Qed.

Lemma byte_lt a : N_of_ascii a < 256.
Proof. apply N_ascii_bounded. Qed.

Lemma quotient k q r : r < k → (q * k + r) / k = q ∧ (q * k + r) mod k = r.
Proof.
  intros Hr. split.
  - rewrite N.div_add_l by lia. rewrite N.div_small by lia. lia.
  - rewrite N.add_comm, N.Div0.mod_add. by apply N.mod_small.
Qed.

Lemma groups (x y z : N) : x < 256 → y < 256 → z < 256 →
  x / 4 < 64 ∧ x mod 4 * 16 < 64 ∧ x mod 4 * 16 + y / 16 < 64 ∧ y mod 16 * 4 < 64 ∧
  y mod 16 * 4 + z / 64 < 64 ∧ z mod 64 < 64 ∧
  x / 4 * 4 + (x mod 4 * 16) / 16 = x ∧ x / 4 * 4 + (x mod 4 * 16 + y / 16) / 16 = x ∧
  (x mod 4 * 16 + y / 16) mod 16 * 16 + (y mod 16 * 4) / 4 = y ∧
  (x mod 4 * 16 + y / 16) mod 16 * 16 + (y mod 16 * 4 + z / 64) / 4 = y ∧
  (y mod 16 * 4 + z / 64) mod 4 * 64 + z mod 64 = z.
Proof.
  intros Hx Hy Hz.
  pose proof (N.div_mod x 4 ltac:(lia)) as Ex. pose proof (N.div_mod y 16 ltac:(lia)) as Ey.
  pose proof (N.div_mod z 64 ltac:(lia)) as Ez.
  pose proof (N.mod_lt x 4 ltac:(lia)) as Lx. pose proof (N.mod_lt y 16 ltac:(lia)) as Ly.
  pose proof (N.mod_lt z 64 ltac:(lia)) as Lz.
  set (x1 := x / 4) in *. set (x0 := x mod 4) in *. set (y1 := y / 16) in *. set (y0 := y mod 16) in *.
  set (z1 := z / 64) in *. set (z0 := z mod 64) in *.
  destruct (quotient 16 x0 y1 ltac:(lia)) as [-> ->]. destruct (quotient 4 y0 z1 ltac:(lia)) as [-> ->].
  destruct (quotient 16 x0 0 ltac:(lia)) as [Q _]. destruct (quotient 4 y0 0 ltac:(lia)) as [Q' _].
  rewrite N.add_0_r in Q, Q'. rewrite Q, Q'. clearbody x1 x0 y1 y0 z1 z0. lia.
Qed.

Lemma decode_encode s : b64decode (b64encode false s) = Some s.
Proof.
  induction s as [|a|a b|a b c r IH] using string_ind3; [done|..].
  - pose proof (byte_lt a) as Ha. destruct (groups (N_of_ascii a) 0 0) as (H1 & H2 & _ & _ & _ & _ & E1 & _); [lia..|].
    destruct (b64_digit _ H1) as (V1 & _ & _ & _), (b64_digit _ H2) as (V2 & _ & _ & _).
    cbn [b64encode b64decode]. rewrite V1, V2. cbn [mbind option_bind]. simpl.
    unfold byte1. by rewrite E1, ascii_N_embedding.
  - pose proof (byte_lt a) as Ha. pose proof (byte_lt b) as Hb.
    destruct (groups (N_of_ascii a) (N_of_ascii b) 0) as (H1 & _ & H2 & H3 & _ & _ & _ & E1 & E2 & _); [lia..|].
    destruct (b64_digit _ H1) as (V1 & _ & _ & _), (b64_digit _ H2) as (V2 & _ & _ & _),
      (b64_digit _ H3) as (V3 & _ & _ & N3).
    cbn [b64encode b64decode]. rewrite V1, V2. cbn [mbind option_bind]. rewrite N3, V3.
    cbn [mbind option_bind]. simpl. unfold byte1, byte2. by rewrite E1, E2, !ascii_N_embedding.
  - pose proof (byte_lt a) as Ha. pose proof (byte_lt b) as Hb. pose proof (byte_lt c) as Hc.
    destruct (groups (N_of_ascii a) (N_of_ascii b) (N_of_ascii c))
      as (H1 & _ & H2 & _ & H3 & H4 & _ & E1 & _ & E2 & E3); [lia..|].
    destruct (b64_digit _ H1) as (V1 & _ & _ & _), (b64_digit _ H2) as (V2 & _ & _ & _),
      (b64_digit _ H3) as (V3 & _ & _ & N3), (b64_digit _ H4) as (V4 & _ & _ & N4).
    cbn [b64encode b64decode]. rewrite V1, V2. cbn [mbind option_bind]. rewrite N3, V3.
    cbn [mbind option_bind]. rewrite N4, V4. cbn [mbind option_bind]. rewrite IH. cbn [mbind option_bind].
    unfold byte1, byte2, byte3. by rewrite E1, E2, E3, !ascii_N_embedding.
Qed.

(** Every character of an encoding is ASCII, and the translation undoes the URL-safe digits. *)
Lemma encoded_chars url s :
  string_all (in_range 0 127) (b64encode url s) = true ∧
  string_map standard_char (b64encode url s) = b64encode false s.
Proof.
  assert (∀ n, n < 64 → in_range 0 127 (b64_char url n) = true ∧
    standard_char (b64_char url n) = b64_char false n) as Hd.
  { intros n Hn. destruct (b64_digit n Hn) as (_ & H1 & H2 & _). auto. }
  induction s as [|a|a b|a b c r [IH1 IH2]] using string_ind3; [done|..].
  - destruct (groups (N_of_ascii a) 0 0) as (H1 & H2 & _); [pose proof (byte_lt a); lia..|].
    destruct (Hd _ H1) as [A1 B1], (Hd _ H2) as [A2 B2].
    cbn [b64encode string_all string_map]. rewrite A1, A2, B1, B2. done.
  - destruct (groups (N_of_ascii a) (N_of_ascii b) 0) as (H1 & _ & H2 & H3 & _);
      [pose proof (byte_lt a); lia|pose proof (byte_lt b); lia|lia|].
    destruct (Hd _ H1) as [A1 B1], (Hd _ H2) as [A2 B2], (Hd _ H3) as [A3 B3].
    cbn [b64encode string_all string_map]. rewrite A1, A2, A3, B1, B2, B3. done.
  - destruct (groups (N_of_ascii a) (N_of_ascii b) (N_of_ascii c)) as (H1 & _ & H2 & _ & H3 & H4 & _);
      [apply byte_lt..|].
    destruct (Hd _ H1) as [A1 B1], (Hd _ H2) as [A2 B2], (Hd _ H3) as [A3 B3], (Hd _ H4) as [A4 B4].
    cbn [b64encode string_all string_map]. rewrite A1, A2, A3, A4, B1, B2, B3, B4, IH1, IH2. done.
Qed.

(** Canonical base64 is canonical: a text is accepted exactly when it is the encoding of
    the bytes returned, in the standard digits or, where they are allowed, wholly in the
    URL-safe ones, and the bytes have the expected number; so no two accepted texts of
    one alphabet stand for the same bytes. *)
Lemma canonical_base64_exact (value label decoded : string) (expected_bytes : option nat)
    (allow_urlsafe : bool) :
  decode_canonical_base64 value label expected_bytes allow_urlsafe = Ok decoded ↔
  (value = b64encode false decoded ∨ allow_urlsafe = true ∧ value = b64encode true decoded) ∧
  (expected_bytes = None ∨ expected_bytes = Some (String.length decoded)).
Proof.
  assert (∀ e : option nat, match e with Some n => Nat.eqb (String.length decoded) n | None => true end = true ↔
    e = None ∨ e = Some (String.length decoded)) as He.
  { intros [n|]; [|naive_solver]. rewrite Nat.eqb_eq. naive_solver. }
  unfold decode_canonical_base64. cbv zeta. split.
  - intros H. apply bind_Ok in H as (? & _ & H). destruct (b64decode _) as [d|]; [|done].
    apply bind_Ok in H as (? & H1%require_Ok & H). apply bind_Ok in H as (? & H2%require_Ok & [= ->]).
    rewrite orb_true_iff, andb_true_iff, !String.eqb_eq in H1. apply He in H2. done.
  - intros [Hv Hl]. assert (∃ url, value = b64encode url decoded ∧ (url = true → allow_urlsafe = true)) as (url & -> & Hu).
    { destruct Hv as [->|[-> ->]]; [by exists false|by exists true]. }
    destruct (encoded_chars url decoded) as [Ha Hm]. rewrite Ha. cbn [require mbind result_bind].
    assert ((if allow_urlsafe then string_map standard_char (b64encode url decoded) else b64encode url decoded) =
      b64encode false decoded) as ->.
    { destruct allow_urlsafe; [done|]. destruct url; [|done]. by specialize (Hu eq_refl). }
    rewrite decode_encode.
    assert (String.eqb (b64encode url decoded) (b64encode false decoded) ||
      allow_urlsafe && String.eqb (b64encode url decoded) (b64encode true decoded) = true) as ->.
    { destruct url; [rewrite (Hu eq_refl), (String.eqb_refl (b64encode true decoded))|rewrite String.eqb_refl]; [by apply orb_true_r|done]. }
    cbn [require mbind result_bind]. by rewrite (proj2 (He _) Hl).
Qed.
