(* ===== verification/Platforms.v ===== *)
(** * Concrete platforms

    Instances of the [Platform] interface, on which the witnesses evaluate the
    definitions: [sha_platform] computes SHA-256, [toy_platform] a cheap
    stand-in of the same shape for the witnesses that hash long payloads. *)
From S2P Require Import Prelude Json PyDecimal Sha256 Canonical.

(** [s.strip()] on ASCII text *)
Fixpoint drop_space (l : list ascii) : list ascii :=
  match l with c :: l' => if is_space c then drop_space l' else l | [] => [] end.
Definition strip_text_ascii (s : string) : string :=
  string_of_list_ascii (rev (drop_space (rev (drop_space (list_ascii_of_string s))))).

Lemma drop_space_suffix l : ∃ k, l = k ++ drop_space l.
Proof.
  induction l as [|c l [k IH]]; simpl; [by exists []|].
  destruct (is_space c); [|by exists []]. exists (c :: k). simpl. by rewrite <- IH.
Qed.

Lemma drop_space_head l :
  match drop_space l with c :: _ => is_space c = false | [] => True end.
Proof. induction l as [|c l IH]; simpl; [done|]. by destruct (is_space c) eqn:E. Qed.

Lemma drop_space_id l :
  match l with c :: _ => is_space c = false | [] => True end → drop_space l = l.
Proof. destruct l as [|c l]; simpl; [done|]. by intros ->. Qed.

(** A list without spaces at either end is stripped already. *)
Lemma drop_space_rev_head l :
  match drop_space (rev (drop_space l)) with
  | [] => True
  | _ => match rev (drop_space (rev (drop_space l))) with
         | c :: _ => is_space c = false | [] => True end
  end.
Proof.
  pose proof (drop_space_head l) as Hh. set (m := drop_space l) in *. clearbody m.
  destruct (drop_space_suffix (rev m)) as [k Hk].
  set (d := drop_space (rev m)) in *. destruct d as [|x d'] eqn:Ed; [done|].
  assert (m = rev (x :: d') ++ rev k) as Hm.
  { rewrite <- rev_app_distr, <- Hk. by rewrite rev_involutive. }
  rewrite Hm in Hh. simpl in *. destruct (rev d' ++ [x]) as [|c r] eqn:E; [done|].
  exact Hh.
Qed.

Lemma strip_text_ascii_idem s : strip_text_ascii (strip_text_ascii s) = strip_text_ascii s.
Proof.
  unfold strip_text_ascii. rewrite list_ascii_of_string_of_list_ascii.
  set (l := list_ascii_of_string s). f_equal. f_equal.
  pose proof (drop_space_rev_head l) as H1. pose proof (drop_space_head (rev (drop_space l))) as H2.
  set (d := drop_space (rev (drop_space l))) in *. clearbody d.
  destruct d as [|x d]; [done|].
  rewrite (drop_space_id (rev (x :: d))) by exact H1.
  rewrite rev_involutive. by apply drop_space_id.
Qed.

Lemma solid_not_space c : is_solid c = true → is_space c = false.
Proof. destruct c as [[] [] [] [] [] [] [] []]; done. Qed.

Lemma last_rev_head {A} (l : list A) : last l = head (rev l).
Proof.
  induction l as [|x l IH] using rev_ind; [done|]. by rewrite last_snoc, rev_app_distr.
Qed.

Lemma strip_text_ascii_solid s : solid_edges s = true → strip_text_ascii s = s.
Proof.
  destruct s as [|c s]; [done|]. unfold solid_edges. intros [Hc Hl]%andb_true_iff.
  unfold strip_text_ascii. cbn [list_ascii_of_string].
  rewrite (drop_space_id (c :: list_ascii_of_string s)) by by apply solid_not_space.
  unfold last_char in Hl. cbn [list_ascii_of_string] in Hl. rewrite last_rev_head in Hl.
  rewrite drop_space_id.
  - rewrite rev_involutive. cbn [string_of_list_ascii]. f_equal. apply string_of_list_ascii_of_string.
  - destruct (rev (c :: list_ascii_of_string s)); [done|]. by apply solid_not_space.
Qed.

(** The message of an exception *)
Definition exn_text (e : exn) : string :=
  match e with
  | ValueError m | TypeError m | ValidationError m | OverflowError m
  | TransitionRejected m | TrustedArtifactStoreCapacityError m
  | TrustedArtifactStoreRegistrationError m | ReferenceRunError m
  | RuntimeError m | OSError m | ToolServerConfigurationError m | Unmodelled m => m
  | InvalidOperation => "[<class 'decimal.ConversionSyntax'>]"
  | DecimalOverflow => "[<class 'decimal.Overflow'>]"
  | AssertionError | RequestReadTimeout | BodyUnexpectedEOF | BodyLineTooLong => ""
  | BodyProtocolError _ code _ => code
  | DemoInitializationError _ m | CliInputError _ m => m
  | FileExistsError => "File exists"
  | FileNotFoundError => "No such file or directory"
  | KeyError k => k
  | IndexError => "index out of range"
  | ReferenceRunBlocked s _ => s
  end.

(** A 64-digit checksum *)
Fixpoint checksum (h : N) (s : string) : N :=
  match s with
  | EmptyString => h
  | String c s => checksum ((h * 31 + N_of_ascii c + 1) mod 1000000007)%N s
  end.
Fixpoint hex_digits (n : nat) (h : N) : list ascii :=
  match n with O => [] | S n => hexc (h mod 16)%N :: hex_digits n (h / 16)%N end.
Definition toy_hex (s : string) : string :=
  string_of_list_ascii (hex_digits 64 (checksum 7%N s)).

Lemma toy_hex_shape s : hex64 (toy_hex s) = true.
Proof.
  unfold hex64, toy_hex. generalize (checksum 7%N s) as h. intros h. apply andb_true_iff. split.
  - reflexivity.
  - generalize 64%nat as n. intros n. revert h; induction n as [|n IH]; intros h; [done|].
    simpl. rewrite IH. by rewrite hexc_hex.
Qed.

Definition sha_platform : Platform :=
  {| sha256_hex := sha256_hexdigest; str_strip := strip_text_ascii; exc_text := exn_text |}.
Definition toy_platform : Platform :=
  {| sha256_hex := toy_hex; str_strip := strip_text_ascii; exc_text := exn_text |}.

Lemma sha_platform_laws : PlatformLaws sha_platform.
Proof.
  split; [apply sha256_hexdigest_shape|apply strip_text_ascii_solid|apply strip_text_ascii_idem].
Qed.
Lemma toy_platform_laws : PlatformLaws toy_platform.
Proof. split; [apply toy_hex_shape|apply strip_text_ascii_solid|apply strip_text_ascii_idem]. Qed.

#[local] Existing Instance toy_platform.

Lemma sha256_digest_stable_witness :
  sha256_digest_except [] (VDict [("b", VInt 1); ("a", VSet [VStr "y"; VStr "x"])]) =
  sha256_digest_except [] (VDict [("b", VInt 1); ("a", VSet [VStr "x"; VStr "y"])]).
Proof.
  apply (sha256_digest_stable []). apply sp_dict. constructor; [split; [reflexivity|reflexivity]|].
  constructor; [|constructor]. split; [reflexivity|]. apply sp_set_perm; [reflexivity|constructor].
Defined.
