(* ===== verification/Models.v ===== *)
(** * models.py and contracts.py: the data the components exchange

    One [Record] per pydantic class, with the fields of the class in their order
    (prefixed by the class), and [to_py], the class's [model_dump].  The
    [..._validate] functions are the validators pydantic runs when the code
    constructs a value: the [Field] constraints, then the [model_validator].
    [Artifact] is the interface of the sealed classes. *)
From S2P Require Import Prelude Json PyTime PyDecimal Sha256 Canonical Platforms.
Local Open Scope Z_scope.

(** ** model_dump *)
Class ToPy (A : Type) := to_py : A → pyval.

(** [bytes], and [dict[str, Decimal | str | int]] *)
Record pybytes := mk_bytes { bytes_of : string }.
Definition pydict := list (string * pyval).

#[export] Instance string_to_py : ToPy string := VStr.
#[export] Instance Z_to_py : ToPy Z := VInt.
#[export] Instance bool_to_py : ToPy bool := VBool.
#[export] Instance decimal_to_py : ToPy decimal := VDecimal.
#[export] Instance date_to_py : ToPy date := VDate.
#[export] Instance datetime_to_py : ToPy datetime := VDatetime.
#[export] Instance bytes_to_py : ToPy pybytes := λ b, VBytes b.(bytes_of).
#[export] Instance dict_to_py : ToPy pydict := VDict.
#[export] Instance pyval_to_py : ToPy pyval := λ v, v.
#[export] Instance option_to_py `{ToPy A} : ToPy (option A) :=
  λ o, match o with Some a => to_py a | None => VNone end.
#[export] Instance list_to_py `{ToPy A} : ToPy (list A) := λ l, VSeq (map to_py l).

Definition SCHEMA_VERSION : string := "proofflow.dev/v1alpha1".

(** ** Enumerations *)
Module DataClassification.
Inductive DataClassification := PUBLIC_SYNTHETIC | INTERNAL | RESTRICTED.
Definition value (x : DataClassification) : string :=
  match x with
  | PUBLIC_SYNTHETIC => "PUBLIC_SYNTHETIC"
  | INTERNAL => "INTERNAL"
  | RESTRICTED => "RESTRICTED"
  end.
#[global] Instance DataClassification_eq_dec : EqDecision DataClassification.
Proof. solve_decision. Defined.
#[global] Instance DataClassification_value_inj : Inj (=) (=) value.
Proof. by intros [] []. Qed.
End DataClassification.
Notation DataClassification := DataClassification.DataClassification.
#[export] Instance DataClassification_to_py : ToPy DataClassification :=
  λ x, VEnum (VStr (DataClassification.value x)).

Module ActorKind.
Inductive ActorKind := AGENT | HUMAN | SYSTEM.
Definition value (x : ActorKind) : string :=
  match x with
  | AGENT => "AGENT"
  | HUMAN => "HUMAN"
  | SYSTEM => "SYSTEM"
  end.
#[global] Instance ActorKind_eq_dec : EqDecision ActorKind.
Proof. solve_decision. Defined.
#[global] Instance ActorKind_value_inj : Inj (=) (=) value.
Proof. by intros [] []. Qed.
End ActorKind.
Notation ActorKind := ActorKind.ActorKind.
#[export] Instance ActorKind_to_py : ToPy ActorKind :=
  λ x, VEnum (VStr (ActorKind.value x)).

Module FactStatus.
Inductive FactStatus := PROPOSED | VERIFIED | CONFLICTED | UNRESOLVED.
Definition value (x : FactStatus) : string :=
  match x with
  | PROPOSED => "PROPOSED"
  | VERIFIED => "VERIFIED"
  | CONFLICTED => "CONFLICTED"
  | UNRESOLVED => "UNRESOLVED"
  end.
#[global] Instance FactStatus_eq_dec : EqDecision FactStatus.
Proof. solve_decision. Defined.
#[global] Instance FactStatus_value_inj : Inj (=) (=) value.
Proof. by intros [] []. Qed.
End FactStatus.
Notation FactStatus := FactStatus.FactStatus.
#[export] Instance FactStatus_to_py : ToPy FactStatus :=
  λ x, VEnum (VStr (FactStatus.value x)).

Module CaseState.
Inductive CaseState := RECEIVED | INGESTING | NEEDS_EVIDENCE | FACTS_READY | RULES_READY | CALC_READY | PROPOSAL_READY | AUDIT_BLOCKED | AWAITING_APPROVAL | APPROVED | REJECTED | REVISION_REQUIRED | PACKAGED | CLOSED.
Definition value (x : CaseState) : string :=
  match x with
  | RECEIVED => "RECEIVED"
  | INGESTING => "INGESTING"
  | NEEDS_EVIDENCE => "NEEDS_EVIDENCE"
  | FACTS_READY => "FACTS_READY"
  | RULES_READY => "RULES_READY"
  | CALC_READY => "CALC_READY"
  | PROPOSAL_READY => "PROPOSAL_READY"
  | AUDIT_BLOCKED => "AUDIT_BLOCKED"
  | AWAITING_APPROVAL => "AWAITING_APPROVAL"
  | APPROVED => "APPROVED"
  | REJECTED => "REJECTED"
  | REVISION_REQUIRED => "REVISION_REQUIRED"
  | PACKAGED => "PACKAGED"
  | CLOSED => "CLOSED"
  end.
#[global] Instance CaseState_eq_dec : EqDecision CaseState.
Proof. solve_decision. Defined.
#[global] Instance CaseState_value_inj : Inj (=) (=) value.
Proof. by intros [] []. Qed.
End CaseState.
Notation CaseState := CaseState.CaseState.
#[export] Instance CaseState_to_py : ToPy CaseState :=
  λ x, VEnum (VStr (CaseState.value x)).

Module SkillStatus.
Inductive SkillStatus := SUCCESS | BLOCKED | NEEDS_HUMAN | RETRYABLE_FAILURE.
Definition value (x : SkillStatus) : string :=
  match x with
  | SUCCESS => "SUCCESS"
  | BLOCKED => "BLOCKED"
  | NEEDS_HUMAN => "NEEDS_HUMAN"
  | RETRYABLE_FAILURE => "RETRYABLE_FAILURE"
  end.
#[global] Instance SkillStatus_eq_dec : EqDecision SkillStatus.
Proof. solve_decision. Defined.
#[global] Instance SkillStatus_value_inj : Inj (=) (=) value.
Proof. by intros [] []. Qed.
End SkillStatus.
Notation SkillStatus := SkillStatus.SkillStatus.
#[export] Instance SkillStatus_to_py : ToPy SkillStatus :=
  λ x, VEnum (VStr (SkillStatus.value x)).

Module AuditVerdict.
Inductive AuditVerdict := PASS | REVISE | BLOCK.
Definition value (x : AuditVerdict) : string :=
  match x with
  | PASS => "PASS"
  | REVISE => "REVISE"
  | BLOCK => "BLOCK"
  end.
#[global] Instance AuditVerdict_eq_dec : EqDecision AuditVerdict.
Proof. solve_decision. Defined.
#[global] Instance AuditVerdict_value_inj : Inj (=) (=) value.
Proof. by intros [] []. Qed.
End AuditVerdict.
Notation AuditVerdict := AuditVerdict.AuditVerdict.
#[export] Instance AuditVerdict_to_py : ToPy AuditVerdict :=
  λ x, VEnum (VStr (AuditVerdict.value x)).

Module ApprovalDecision.
Inductive ApprovalDecision := APPROVE | REJECT | REVISE.
Definition value (x : ApprovalDecision) : string :=
  match x with
  | APPROVE => "APPROVE"
  | REJECT => "REJECT"
  | REVISE => "REVISE"
  end.
#[global] Instance ApprovalDecision_eq_dec : EqDecision ApprovalDecision.
Proof. solve_decision. Defined.
#[global] Instance ApprovalDecision_value_inj : Inj (=) (=) value.
Proof. by intros [] []. Qed.
End ApprovalDecision.
Notation ApprovalDecision := ApprovalDecision.ApprovalDecision.
#[export] Instance ApprovalDecision_to_py : ToPy ApprovalDecision :=
  λ x, VEnum (VStr (ApprovalDecision.value x)).

(** ** Artifact metadata *)
Record ArtifactMeta := mk_ArtifactMeta {
  meta_artifact_id : string;
  meta_tenant_id : string;
  meta_case_id : string;
  meta_schema_version : string;
  meta_producer_identity : string;
  meta_trace_id : string;
  meta_created_at : datetime;
  meta_source_refs : list string;
  meta_classification : DataClassification;
  meta_content_hash : option string;
}.
#[export] Instance ArtifactMeta_to_py : ToPy ArtifactMeta := λ x, VDict
    [("artifact_id", to_py x.(meta_artifact_id)); ("tenant_id", to_py x.(meta_tenant_id));
     ("case_id", to_py x.(meta_case_id)); ("schema_version", to_py x.(meta_schema_version));
     ("producer_identity", to_py x.(meta_producer_identity));
     ("trace_id", to_py x.(meta_trace_id)); ("created_at", to_py x.(meta_created_at));
     ("source_refs", to_py x.(meta_source_refs));
     ("classification", to_py x.(meta_classification));
     ("content_hash", to_py x.(meta_content_hash))].


(** [Field(min_length=1)] *)
Definition min_length_1 (s : string) : bool := negb (String.eqb s "").

Definition ArtifactMeta_validate (x : ArtifactMeta) : result ArtifactMeta :=
  _ ← require (min_length_1 x.(meta_artifact_id) && min_length_1 x.(meta_tenant_id) &&
      min_length_1 x.(meta_case_id) && min_length_1 x.(meta_producer_identity) &&
      min_length_1 x.(meta_trace_id)) (ValidationError "string_too_short");
  _ ← require (is_aware x.(meta_created_at))
        (ValidationError "created_at must be timezone-aware");
  Ok x.

(** [meta.model_copy(update={"content_hash": digest})] *)
Definition with_content_hash (h : option string) (x : ArtifactMeta) : ArtifactMeta :=
  mk_ArtifactMeta x.(meta_artifact_id) x.(meta_tenant_id) x.(meta_case_id)
    x.(meta_schema_version) x.(meta_producer_identity) x.(meta_trace_id)
    x.(meta_created_at) x.(meta_source_refs) x.(meta_classification) h.

(** ** Artifacts *)
Class Artifact (A : Type) := {
  class_name : string;
  meta : A → ArtifactMeta;
  set_meta : ArtifactMeta → A → A;
  body : A → list (string * pyval);
}.
Arguments class_name A {_}.

Class ArtifactLaws (A : Type) `{Artifact A} : Prop := {
  meta_set : ∀ m a, meta (set_meta m a) = m;
  set_meta_set : ∀ m m' a, set_meta m (set_meta m' a) = set_meta m a;
  set_meta_id : ∀ a, set_meta (meta a) a = a;
  body_set : ∀ m a, body (set_meta m a) = body a;
  body_keys : ∀ a, NoDup ("meta" :: map fst (body a));
}.

Fixpoint distinct_keys (l : list string) : bool :=
  match l with [] => true | k :: l => negb (existsb (String.eqb k) l) && distinct_keys l end.

Lemma distinct_keys_NoDup l : distinct_keys l = true → NoDup l.
Proof.
  induction l as [|k l IH]; simpl; [constructor|]. intros [Hk Hl]%andb_true_iff.
  constructor; [|auto]. intros Hin. apply negb_true_iff in Hk.
  rewrite <- not_true_iff_false, existsb_exists in Hk. apply Hk. exists k.
  split; [by apply list_elem_of_In|]. by apply String.eqb_eq.
Qed.

Ltac artifact_laws :=
  split; [reflexivity|reflexivity|by intros []|reflexivity|];
  intros; apply distinct_keys_NoDup; reflexivity.

Definition artifact_to_py `{Artifact A} (a : A) : pyval :=
  VDict (("meta", to_py (meta a)) :: body a).

Definition content_hash_key : list string := ["content_hash"].

Definition seal `{Platform} `{Artifact A} (self : A) : result A :=
  digest ← sha256_digest_except content_hash_key (artifact_to_py self);
  Ok (set_meta (with_content_hash (Some digest) (meta self)) self).

Definition verify_hash `{Platform} `{Artifact A} (self : A) : result bool :=
  match (meta self).(meta_content_hash) with
  | None => Ok false
  | Some h =>
      expected ← sha256_digest_except content_hash_key (artifact_to_py self);
      Ok (String.eqb h expected)
  end.

Definition artifact_ref `{Artifact A} (artifact : A) : string :=
  class_name A +:+ ":" +:+ (meta artifact).(meta_artifact_id).

(** ** The classes of models.py *)
Record CaseRecord := mk_CaseRecord {
  case_case_id : string;
  case_tenant_id : string;
  case_state : CaseState;
  case_state_version : Z;
  case_jurisdiction : string;
  case_as_of_date : date;
  case_input_manifest_hash : string;
  case_unresolved_items : list string;
  case_artifact_refs : list string;
}.
#[export] Instance CaseRecord_to_py : ToPy CaseRecord := λ x, VDict
    [("case_id", to_py x.(case_case_id)); ("tenant_id", to_py x.(case_tenant_id));
     ("state", to_py x.(case_state)); ("state_version", to_py x.(case_state_version));
     ("jurisdiction", to_py x.(case_jurisdiction)); ("as_of_date", to_py x.(case_as_of_date));
     ("input_manifest_hash", to_py x.(case_input_manifest_hash));
     ("unresolved_items", to_py x.(case_unresolved_items));
     ("artifact_refs", to_py x.(case_artifact_refs))].

Record SourceDocument := mk_SourceDocument {
  src_document_id : string;
  src_tenant_id : string;
  src_case_id : string;
  src_declared_sha256 : string;
  src_media_type : string;
  src_content : string;
  src_submitted_by : string;
}.
#[export] Instance SourceDocument_to_py : ToPy SourceDocument := λ x, VDict
    [("document_id", to_py x.(src_document_id)); ("tenant_id", to_py x.(src_tenant_id));
     ("case_id", to_py x.(src_case_id)); ("declared_sha256", to_py x.(src_declared_sha256));
     ("media_type", to_py x.(src_media_type)); ("content", to_py x.(src_content));
     ("submitted_by", to_py x.(src_submitted_by))].

Record EvidenceObject := mk_EvidenceObject {
  ev_meta : ArtifactMeta;
  ev_evidence_type : string;
  ev_field_name : string;
  ev_normalized_value : string;
  ev_verbatim_excerpt : string;
  ev_source_document_id : string;
  ev_fact_status : FactStatus;
  ev_confidence : decimal;
}.
#[export] Instance EvidenceObject_Artifact : Artifact EvidenceObject := {
  class_name := "EvidenceObject";
  meta := ev_meta;
  set_meta m x := mk_EvidenceObject m
    x.(ev_evidence_type) x.(ev_field_name) x.(ev_normalized_value) x.(ev_verbatim_excerpt)
     x.(ev_source_document_id) x.(ev_fact_status) x.(ev_confidence);
  body x :=
    [("evidence_type", to_py x.(ev_evidence_type)); ("field_name", to_py x.(ev_field_name));
     ("normalized_value", to_py x.(ev_normalized_value));
     ("verbatim_excerpt", to_py x.(ev_verbatim_excerpt));
     ("source_document_id", to_py x.(ev_source_document_id));
     ("fact_status", to_py x.(ev_fact_status)); ("confidence", to_py x.(ev_confidence))];
}.
#[export] Instance EvidenceObject_laws : ArtifactLaws EvidenceObject.
Proof. artifact_laws. Qed.
#[export] Instance EvidenceObject_to_py : ToPy EvidenceObject := artifact_to_py.

Record TimelineEvent := mk_TimelineEvent {
  tl_meta : ArtifactMeta;
  tl_occurred_from : option date;
  tl_occurred_to : option date;
  tl_description : string;
  tl_fact_status : FactStatus;
  tl_unresolved_reason : option string;
}.
#[export] Instance TimelineEvent_Artifact : Artifact TimelineEvent := {
  class_name := "TimelineEvent";
  meta := tl_meta;
  set_meta m x := mk_TimelineEvent m
    x.(tl_occurred_from) x.(tl_occurred_to) x.(tl_description) x.(tl_fact_status)
     x.(tl_unresolved_reason);
  body x :=
    [("occurred_from", to_py x.(tl_occurred_from)); ("occurred_to", to_py x.(tl_occurred_to));
     ("description", to_py x.(tl_description)); ("fact_status", to_py x.(tl_fact_status));
     ("unresolved_reason", to_py x.(tl_unresolved_reason))];
}.
#[export] Instance TimelineEvent_laws : ArtifactLaws TimelineEvent.
Proof. artifact_laws. Qed.
#[export] Instance TimelineEvent_to_py : ToPy TimelineEvent := artifact_to_py.

Record RuleCitation := mk_RuleCitation {
  rc_meta : ArtifactMeta;
  rc_rule_id : string;
  rc_version : string;
  rc_issue_code : string;
  rc_title : string;
  rc_jurisdiction : string;
  rc_effective_from : date;
  rc_effective_to : option date;
  rc_authoritative_source : string;
  rc_locator : string;
  rc_excerpt : string;
  rc_source_hash : string;
}.
#[export] Instance RuleCitation_Artifact : Artifact RuleCitation := {
  class_name := "RuleCitation";
  meta := rc_meta;
  set_meta m x := mk_RuleCitation m
    x.(rc_rule_id) x.(rc_version) x.(rc_issue_code) x.(rc_title) x.(rc_jurisdiction)
     x.(rc_effective_from) x.(rc_effective_to) x.(rc_authoritative_source) x.(rc_locator)
     x.(rc_excerpt) x.(rc_source_hash);
  body x :=
    [("rule_id", to_py x.(rc_rule_id)); ("version", to_py x.(rc_version));
     ("issue_code", to_py x.(rc_issue_code)); ("title", to_py x.(rc_title));
     ("jurisdiction", to_py x.(rc_jurisdiction)); ("effective_from", to_py x.(rc_effective_from));
     ("effective_to", to_py x.(rc_effective_to));
     ("authoritative_source", to_py x.(rc_authoritative_source));
     ("locator", to_py x.(rc_locator)); ("excerpt", to_py x.(rc_excerpt));
     ("source_hash", to_py x.(rc_source_hash))];
}.
#[export] Instance RuleCitation_laws : ArtifactLaws RuleCitation.
Proof. artifact_laws. Qed.
#[export] Instance RuleCitation_to_py : ToPy RuleCitation := artifact_to_py.

Record CalculationLineItem := mk_CalculationLineItem {
  li_item_code : string;
  li_formula_id : string;
  li_formula_version : string;
  li_parameters : pydict;
  li_intermediate_values : pydict;
  li_amount : decimal;
}.
#[export] Instance CalculationLineItem_to_py : ToPy CalculationLineItem := λ x, VDict
    [("item_code", to_py x.(li_item_code)); ("formula_id", to_py x.(li_formula_id));
     ("formula_version", to_py x.(li_formula_version)); ("parameters", to_py x.(li_parameters));
     ("intermediate_values", to_py x.(li_intermediate_values)); ("amount", to_py x.(li_amount))].

Record CalculationSheet := mk_CalculationSheet {
  cs_meta : ArtifactMeta;
  cs_line_items : list CalculationLineItem;
  cs_total : option decimal;
  cs_missing_parameters : list string;
  cs_reproducibility_hash : option string;
}.
#[export] Instance CalculationSheet_Artifact : Artifact CalculationSheet := {
  class_name := "CalculationSheet";
  meta := cs_meta;
  set_meta m x := mk_CalculationSheet m
    x.(cs_line_items) x.(cs_total) x.(cs_missing_parameters) x.(cs_reproducibility_hash);
  body x :=
    [("line_items", to_py x.(cs_line_items)); ("total", to_py x.(cs_total));
     ("missing_parameters", to_py x.(cs_missing_parameters));
     ("reproducibility_hash", to_py x.(cs_reproducibility_hash))];
}.
#[export] Instance CalculationSheet_laws : ArtifactLaws CalculationSheet.
Proof. artifact_laws. Qed.
#[export] Instance CalculationSheet_to_py : ToPy CalculationSheet := artifact_to_py.

Record Proposal := mk_Proposal {
  pr_meta : ArtifactMeta;
  pr_option_code : string;
  pr_summary : string;
  pr_actions : list string;
  pr_evidence_refs : list string;
  pr_rule_refs : list string;
  pr_calculation_ref : option string;
  pr_risks : list string;
  pr_uncertainties : list string;
}.
#[export] Instance Proposal_Artifact : Artifact Proposal := {
  class_name := "Proposal";
  meta := pr_meta;
  set_meta m x := mk_Proposal m
    x.(pr_option_code) x.(pr_summary) x.(pr_actions) x.(pr_evidence_refs) x.(pr_rule_refs)
     x.(pr_calculation_ref) x.(pr_risks) x.(pr_uncertainties);
  body x :=
    [("option_code", to_py x.(pr_option_code)); ("summary", to_py x.(pr_summary));
     ("actions", to_py x.(pr_actions)); ("evidence_refs", to_py x.(pr_evidence_refs));
     ("rule_refs", to_py x.(pr_rule_refs)); ("calculation_ref", to_py x.(pr_calculation_ref));
     ("risks", to_py x.(pr_risks)); ("uncertainties", to_py x.(pr_uncertainties))];
}.
#[export] Instance Proposal_laws : ArtifactLaws Proposal.
Proof. artifact_laws. Qed.
#[export] Instance Proposal_to_py : ToPy Proposal := artifact_to_py.

Record Conflict := mk_Conflict {
  cf_conflict_id : string;
  cf_severity : string;
  cf_object_refs : list string;
  cf_description : string;
  cf_required_action : string;
}.
#[export] Instance Conflict_to_py : ToPy Conflict := λ x, VDict
    [("conflict_id", to_py x.(cf_conflict_id)); ("severity", to_py x.(cf_severity));
     ("object_refs", to_py x.(cf_object_refs)); ("description", to_py x.(cf_description));
     ("required_action", to_py x.(cf_required_action))].

Record ConflictReport := mk_ConflictReport {
  cfr_meta : ArtifactMeta;
  cfr_conflicts : list Conflict;
  cfr_blocker_ids : list string;
  cfr_input_complete : bool;
}.
#[export] Instance ConflictReport_Artifact : Artifact ConflictReport := {
  class_name := "ConflictReport";
  meta := cfr_meta;
  set_meta m x := mk_ConflictReport m
    x.(cfr_conflicts) x.(cfr_blocker_ids) x.(cfr_input_complete);
  body x :=
    [("conflicts", to_py x.(cfr_conflicts)); ("blocker_ids", to_py x.(cfr_blocker_ids));
     ("input_complete", to_py x.(cfr_input_complete))];
}.
#[export] Instance ConflictReport_laws : ArtifactLaws ConflictReport.
Proof. artifact_laws. Qed.
#[export] Instance ConflictReport_to_py : ToPy ConflictReport := artifact_to_py.

Record AuditFinding := mk_AuditFinding {
  af_finding_id : string;
  af_severity : string;
  af_object_refs : list string;
  af_message : string;
  af_required_action : string;
}.
#[export] Instance AuditFinding_to_py : ToPy AuditFinding := λ x, VDict
    [("finding_id", to_py x.(af_finding_id)); ("severity", to_py x.(af_severity));
     ("object_refs", to_py x.(af_object_refs)); ("message", to_py x.(af_message));
     ("required_action", to_py x.(af_required_action))].

Record AuditReport := mk_AuditReport {
  ar_meta : ArtifactMeta;
  ar_verdict : AuditVerdict;
  ar_findings : list AuditFinding;
  ar_unsupported_claims : list string;
  ar_audited_artifact_hashes : list string;
  ar_policy_version : string;
}.
#[export] Instance AuditReport_Artifact : Artifact AuditReport := {
  class_name := "AuditReport";
  meta := ar_meta;
  set_meta m x := mk_AuditReport m
    x.(ar_verdict) x.(ar_findings) x.(ar_unsupported_claims) x.(ar_audited_artifact_hashes)
     x.(ar_policy_version);
  body x :=
    [("verdict", to_py x.(ar_verdict)); ("findings", to_py x.(ar_findings));
     ("unsupported_claims", to_py x.(ar_unsupported_claims));
     ("audited_artifact_hashes", to_py x.(ar_audited_artifact_hashes));
     ("policy_version", to_py x.(ar_policy_version))];
}.
#[export] Instance AuditReport_laws : ArtifactLaws AuditReport.
Proof. artifact_laws. Qed.
#[export] Instance AuditReport_to_py : ToPy AuditReport := artifact_to_py.

Record ApprovalRequest := mk_ApprovalRequest {
  areq_request_id : string;
  areq_tenant_id : string;
  areq_case_id : string;
  areq_trace_id : string;
  areq_artifact_ref : string;
  areq_artifact_hash : string;
  areq_audit_report_ref : string;
  areq_required_role : string;
  areq_created_at : datetime;
  areq_expires_at : datetime;
}.
#[export] Instance ApprovalRequest_to_py : ToPy ApprovalRequest := λ x, VDict
    [("request_id", to_py x.(areq_request_id)); ("tenant_id", to_py x.(areq_tenant_id));
     ("case_id", to_py x.(areq_case_id)); ("trace_id", to_py x.(areq_trace_id));
     ("artifact_ref", to_py x.(areq_artifact_ref));
     ("artifact_hash", to_py x.(areq_artifact_hash));
     ("audit_report_ref", to_py x.(areq_audit_report_ref));
     ("required_role", to_py x.(areq_required_role)); ("created_at", to_py x.(areq_created_at));
     ("expires_at", to_py x.(areq_expires_at))].

Record HumanDecision := mk_HumanDecision {
  hd_actor_id : string;
  hd_actor_kind : ActorKind;
  hd_actor_role : string;
  hd_decision : ApprovalDecision;
  hd_reason : string;
  hd_decided_at : datetime;
}.
#[export] Instance HumanDecision_to_py : ToPy HumanDecision := λ x, VDict
    [("actor_id", to_py x.(hd_actor_id)); ("actor_kind", to_py x.(hd_actor_kind));
     ("actor_role", to_py x.(hd_actor_role)); ("decision", to_py x.(hd_decision));
     ("reason", to_py x.(hd_reason)); ("decided_at", to_py x.(hd_decided_at))].

Record ApprovalRecord := mk_ApprovalRecord {
  arec_meta : ArtifactMeta;
  arec_request_id : string;
  arec_decision : ApprovalDecision;
  arec_approver_id : string;
  arec_approver_role : string;
  arec_reason : string;
  arec_approved_artifact_hash : string;
  arec_approval_method : string;
  arec_decided_at : datetime;
  arec_expires_at : datetime;
}.
#[export] Instance ApprovalRecord_Artifact : Artifact ApprovalRecord := {
  class_name := "ApprovalRecord";
  meta := arec_meta;
  set_meta m x := mk_ApprovalRecord m
    x.(arec_request_id) x.(arec_decision) x.(arec_approver_id) x.(arec_approver_role)
     x.(arec_reason) x.(arec_approved_artifact_hash) x.(arec_approval_method)
     x.(arec_decided_at) x.(arec_expires_at);
  body x :=
    [("request_id", to_py x.(arec_request_id)); ("decision", to_py x.(arec_decision));
     ("approver_id", to_py x.(arec_approver_id)); ("approver_role", to_py x.(arec_approver_role));
     ("reason", to_py x.(arec_reason));
     ("approved_artifact_hash", to_py x.(arec_approved_artifact_hash));
     ("approval_method", to_py x.(arec_approval_method));
     ("decided_at", to_py x.(arec_decided_at)); ("expires_at", to_py x.(arec_expires_at))];
}.
#[export] Instance ApprovalRecord_laws : ArtifactLaws ApprovalRecord.
Proof. artifact_laws. Qed.
#[export] Instance ApprovalRecord_to_py : ToPy ApprovalRecord := artifact_to_py.

Record PackageFile := mk_PackageFile {
  pfile_path : string;
  pfile_sha256 : string;
}.
#[export] Instance PackageFile_to_py : ToPy PackageFile := λ x, VDict
    [("path", to_py x.(pfile_path)); ("sha256", to_py x.(pfile_sha256))].

Record PackageManifest := mk_PackageManifest {
  pm_meta : ArtifactMeta;
  pm_approval_record_ref : string;
  pm_audit_report_ref : string;
  pm_files : list PackageFile;
  pm_included_artifact_refs : list string;
  pm_manifest_hash : option string;
}.
#[export] Instance PackageManifest_Artifact : Artifact PackageManifest := {
  class_name := "PackageManifest";
  meta := pm_meta;
  set_meta m x := mk_PackageManifest m
    x.(pm_approval_record_ref) x.(pm_audit_report_ref) x.(pm_files)
     x.(pm_included_artifact_refs) x.(pm_manifest_hash);
  body x :=
    [("approval_record_ref", to_py x.(pm_approval_record_ref));
     ("audit_report_ref", to_py x.(pm_audit_report_ref)); ("files", to_py x.(pm_files));
     ("included_artifact_refs", to_py x.(pm_included_artifact_refs));
     ("manifest_hash", to_py x.(pm_manifest_hash))];
}.
#[export] Instance PackageManifest_laws : ArtifactLaws PackageManifest.
Proof. artifact_laws. Qed.
#[export] Instance PackageManifest_to_py : ToPy PackageManifest := artifact_to_py.

Record TraceEvent := mk_TraceEvent {
  te_sequence : Z;
  te_trace_id : string;
  te_tenant_id : string;
  te_case_id : string;
  te_actor_identity : string;
  te_actor_kind : ActorKind;
  te_event_type : string;
  te_input_hash : option string;
  te_output_hash : option string;
  te_status : string;
  te_occurred_at : datetime;
  te_error_code : option string;
}.
#[export] Instance TraceEvent_to_py : ToPy TraceEvent := λ x, VDict
    [("sequence", to_py x.(te_sequence)); ("trace_id", to_py x.(te_trace_id));
     ("tenant_id", to_py x.(te_tenant_id)); ("case_id", to_py x.(te_case_id));
     ("actor_identity", to_py x.(te_actor_identity)); ("actor_kind", to_py x.(te_actor_kind));
     ("event_type", to_py x.(te_event_type)); ("input_hash", to_py x.(te_input_hash));
     ("output_hash", to_py x.(te_output_hash)); ("status", to_py x.(te_status));
     ("occurred_at", to_py x.(te_occurred_at)); ("error_code", to_py x.(te_error_code))].

Record SkillContext := mk_SkillContext {
  ctx_tenant_id : string;
  ctx_case_id : string;
  ctx_caller_identity : string;
  ctx_actor_kind : ActorKind;
  ctx_trace_id : string;
  ctx_idempotency_key : string;
  ctx_schema_version : string;
  ctx_expected_state_version : Z;
}.
#[export] Instance SkillContext_to_py : ToPy SkillContext := λ x, VDict
    [("tenant_id", to_py x.(ctx_tenant_id)); ("case_id", to_py x.(ctx_case_id));
     ("caller_identity", to_py x.(ctx_caller_identity)); ("actor_kind", to_py x.(ctx_actor_kind));
     ("trace_id", to_py x.(ctx_trace_id)); ("idempotency_key", to_py x.(ctx_idempotency_key));
     ("schema_version", to_py x.(ctx_schema_version));
     ("expected_state_version", to_py x.(ctx_expected_state_version))].

Record Issue := mk_Issue {
  iss_code : string;
  iss_severity : string;
  iss_message : string;
  iss_object_refs : list string;
  iss_retryable : bool;
  iss_needs_human : bool;
}.
#[export] Instance Issue_to_py : ToPy Issue := λ x, VDict
    [("code", to_py x.(iss_code)); ("severity", to_py x.(iss_severity));
     ("message", to_py x.(iss_message)); ("object_refs", to_py x.(iss_object_refs));
     ("retryable", to_py x.(iss_retryable)); ("needs_human", to_py x.(iss_needs_human))].

Record SkillResult (T : Type) := mk_SkillResult {
  sr_status : SkillStatus;
  sr_value : option T;
  sr_issues : list Issue;
  sr_input_hash : string;
  sr_output_hash : option string;
  sr_emitted_refs : list string;
}.
Arguments mk_SkillResult {T}.
Arguments sr_status {T}.
Arguments sr_value {T}.
Arguments sr_issues {T}.
Arguments sr_input_hash {T}.
Arguments sr_output_hash {T}.
Arguments sr_emitted_refs {T}.

(** ** The classes of contracts.py *)
Record ManifestDocument := mk_ManifestDocument {
  md_document_id : string;
  md_path : string;
  md_media_type : string;
  md_sha256 : string;
}.
#[export] Instance ManifestDocument_to_py : ToPy ManifestDocument := λ x, VDict
    [("document_id", to_py x.(md_document_id)); ("path", to_py x.(md_path));
     ("media_type", to_py x.(md_media_type)); ("sha256", to_py x.(md_sha256))].

Record CaseManifest := mk_CaseManifest {
  cm_schema_version : string;
  cm_fixture_status : string;
  cm_case_id : string;
  cm_tenant_id : string;
  cm_jurisdiction : string;
  cm_as_of_date : date;
  cm_issue_codes : list string;
  cm_documents : list ManifestDocument;
  cm_disclaimer : string;
}.
#[export] Instance CaseManifest_to_py : ToPy CaseManifest := λ x, VDict
    [("schema_version", to_py x.(cm_schema_version));
     ("fixture_status", to_py x.(cm_fixture_status)); ("case_id", to_py x.(cm_case_id));
     ("tenant_id", to_py x.(cm_tenant_id)); ("jurisdiction", to_py x.(cm_jurisdiction));
     ("as_of_date", to_py x.(cm_as_of_date)); ("issue_codes", to_py x.(cm_issue_codes));
     ("documents", to_py x.(cm_documents)); ("disclaimer", to_py x.(cm_disclaimer))].

Record EvidenceIngestRequest := mk_EvidenceIngestRequest {
  eir_document_id : string;
  eir_media_type : string;
  eir_declared_sha256 : string;
  eir_raw_content : pybytes;
}.
#[export] Instance EvidenceIngestRequest_to_py : ToPy EvidenceIngestRequest := λ x, VDict
    [("document_id", to_py x.(eir_document_id)); ("media_type", to_py x.(eir_media_type));
     ("declared_sha256", to_py x.(eir_declared_sha256));
     ("raw_content", to_py x.(eir_raw_content))].

Record EvidenceIngestOutput := mk_EvidenceIngestOutput {
  eio_evidence_objects : list EvidenceObject;
  eio_source_hash : string;
  eio_ignored_fields : list string;
}.
#[export] Instance EvidenceIngestOutput_to_py : ToPy EvidenceIngestOutput := λ x, VDict
    [("evidence_objects", to_py x.(eio_evidence_objects));
     ("source_hash", to_py x.(eio_source_hash)); ("ignored_fields", to_py x.(eio_ignored_fields))].

Record TimelineBuildRequest := mk_TimelineBuildRequest {
  tbr_evidence : list EvidenceObject;
}.
#[export] Instance TimelineBuildRequest_to_py : ToPy TimelineBuildRequest := λ x, VDict
    [("evidence", to_py x.(tbr_evidence))].

Record TimelineBuildOutput := mk_TimelineBuildOutput {
  tbo_events : list TimelineEvent;
  tbo_unresolved_items : list string;
}.
#[export] Instance TimelineBuildOutput_to_py : ToPy TimelineBuildOutput := λ x, VDict
    [("events", to_py x.(tbo_events)); ("unresolved_items", to_py x.(tbo_unresolved_items))].

Record RuleRecord := mk_RuleRecord {
  rr_rule_id : string;
  rr_version : string;
  rr_issue_code : string;
  rr_title : string;
  rr_jurisdiction : string;
  rr_effective_from : date;
  rr_effective_to : option date;
  rr_authoritative_source : string;
  rr_locator : string;
  rr_statement : string;
}.
#[export] Instance RuleRecord_to_py : ToPy RuleRecord := λ x, VDict
    [("rule_id", to_py x.(rr_rule_id)); ("version", to_py x.(rr_version));
     ("issue_code", to_py x.(rr_issue_code)); ("title", to_py x.(rr_title));
     ("jurisdiction", to_py x.(rr_jurisdiction)); ("effective_from", to_py x.(rr_effective_from));
     ("effective_to", to_py x.(rr_effective_to));
     ("authoritative_source", to_py x.(rr_authoritative_source));
     ("locator", to_py x.(rr_locator)); ("statement", to_py x.(rr_statement))].

Record RuleCatalog := mk_RuleCatalog {
  cat_catalog_version : string;
  cat_status : string;
  cat_legal_advice : bool;
  cat_source_policy : string;
  cat_rules : list RuleRecord;
}.
#[export] Instance RuleCatalog_to_py : ToPy RuleCatalog := λ x, VDict
    [("catalog_version", to_py x.(cat_catalog_version)); ("status", to_py x.(cat_status));
     ("legal_advice", to_py x.(cat_legal_advice)); ("source_policy", to_py x.(cat_source_policy));
     ("rules", to_py x.(cat_rules))].

Record RuleRetrieveRequest := mk_RuleRetrieveRequest {
  rq_issue_codes : list string;
  rq_jurisdiction : string;
  rq_as_of_date : date;
}.
#[export] Instance RuleRetrieveRequest_to_py : ToPy RuleRetrieveRequest := λ x, VDict
    [("issue_codes", to_py x.(rq_issue_codes)); ("jurisdiction", to_py x.(rq_jurisdiction));
     ("as_of_date", to_py x.(rq_as_of_date))].

Record RuleScopeReceipt := mk_RuleScopeReceipt {
  rsr_issue_codes : list string;
  rsr_jurisdiction : string;
  rsr_as_of_date : date;
  rsr_catalog_version : string;
  rsr_rule_query_input_hash : string;
}.
#[export] Instance RuleScopeReceipt_to_py : ToPy RuleScopeReceipt := λ x, VDict
    [("issue_codes", to_py x.(rsr_issue_codes)); ("jurisdiction", to_py x.(rsr_jurisdiction));
     ("as_of_date", to_py x.(rsr_as_of_date)); ("catalog_version", to_py x.(rsr_catalog_version));
     ("rule_query_input_hash", to_py x.(rsr_rule_query_input_hash))].

Record RuleRetrieveOutput := mk_RuleRetrieveOutput {
  rro_citations : list RuleCitation;
  rro_missing_issue_codes : list string;
  rro_catalog_version : string;
  rro_rule_scope : RuleScopeReceipt;
}.
#[export] Instance RuleRetrieveOutput_to_py : ToPy RuleRetrieveOutput := λ x, VDict
    [("citations", to_py x.(rro_citations));
     ("missing_issue_codes", to_py x.(rro_missing_issue_codes));
     ("catalog_version", to_py x.(rro_catalog_version)); ("rule_scope", to_py x.(rro_rule_scope))].

Record CalculateRequest := mk_CalculateRequest {
  creq_evidence : list EvidenceObject;
  creq_rule_citations : list RuleCitation;
  creq_rule_scope : RuleScopeReceipt;
  creq_formula_version : string;
}.
#[export] Instance CalculateRequest_to_py : ToPy CalculateRequest := λ x, VDict
    [("evidence", to_py x.(creq_evidence)); ("rule_citations", to_py x.(creq_rule_citations));
     ("rule_scope", to_py x.(creq_rule_scope));
     ("formula_version", to_py x.(creq_formula_version))].

Record CalculateOutput := mk_CalculateOutput {
  cout_sheet : CalculationSheet;
}.
#[export] Instance CalculateOutput_to_py : ToPy CalculateOutput := λ x, VDict
    [("sheet", to_py x.(cout_sheet))].

Record ConflictDetectRequest := mk_ConflictDetectRequest {
  cdr_evidence : list EvidenceObject;
  cdr_rules : list RuleCitation;
  cdr_calculation : option CalculationSheet;
  cdr_policy_version : string;
}.
#[export] Instance ConflictDetectRequest_to_py : ToPy ConflictDetectRequest := λ x, VDict
    [("evidence", to_py x.(cdr_evidence)); ("rules", to_py x.(cdr_rules));
     ("calculation", to_py x.(cdr_calculation)); ("policy_version", to_py x.(cdr_policy_version))].

Record ConflictDetectOutput := mk_ConflictDetectOutput {
  cdo_report : ConflictReport;
}.
#[export] Instance ConflictDetectOutput_to_py : ToPy ConflictDetectOutput := λ x, VDict
    [("report", to_py x.(cdo_report))].

Record ProposalGenerateRequest := mk_ProposalGenerateRequest {
  pgr_evidence : list EvidenceObject;
  pgr_rules : list RuleCitation;
  pgr_calculation : CalculationSheet;
}.
#[export] Instance ProposalGenerateRequest_to_py : ToPy ProposalGenerateRequest := λ x, VDict
    [("evidence", to_py x.(pgr_evidence)); ("rules", to_py x.(pgr_rules));
     ("calculation", to_py x.(pgr_calculation))].

Record ProposalGenerateOutput := mk_ProposalGenerateOutput {
  pgo_proposals : list Proposal;
}.
#[export] Instance ProposalGenerateOutput_to_py : ToPy ProposalGenerateOutput := λ x, VDict
    [("proposals", to_py x.(pgo_proposals))].

Record DecisionAuditRequest := mk_DecisionAuditRequest {
  dar_proposals : list Proposal;
  dar_evidence : list EvidenceObject;
  dar_rules : list RuleCitation;
  dar_calculation : CalculationSheet;
  dar_conflict_report : ConflictReport;
  dar_observed_event_types : list string;
  dar_policy_version : string;
}.
#[export] Instance DecisionAuditRequest_to_py : ToPy DecisionAuditRequest := λ x, VDict
    [("proposals", to_py x.(dar_proposals)); ("evidence", to_py x.(dar_evidence));
     ("rules", to_py x.(dar_rules)); ("calculation", to_py x.(dar_calculation));
     ("conflict_report", to_py x.(dar_conflict_report));
     ("observed_event_types", to_py x.(dar_observed_event_types));
     ("policy_version", to_py x.(dar_policy_version))].

Record DecisionAuditOutput := mk_DecisionAuditOutput {
  dao_report : AuditReport;
}.
#[export] Instance DecisionAuditOutput_to_py : ToPy DecisionAuditOutput := λ x, VDict
    [("report", to_py x.(dao_report))].

Record ApprovalExecuteRequest := mk_ApprovalExecuteRequest {
  aer_approval_request : ApprovalRequest;
  aer_current_artifact_hash : string;
}.
#[export] Instance ApprovalExecuteRequest_to_py : ToPy ApprovalExecuteRequest := λ x, VDict
    [("approval_request", to_py x.(aer_approval_request));
     ("current_artifact_hash", to_py x.(aer_current_artifact_hash))].

Record ApprovalExecuteOutput := mk_ApprovalExecuteOutput {
  aeo_record : ApprovalRecord;
}.
#[export] Instance ApprovalExecuteOutput_to_py : ToPy ApprovalExecuteOutput := λ x, VDict
    [("record", to_py x.(aeo_record))].

Record DocumentPackageRequest := mk_DocumentPackageRequest {
  dpr_proposal : Proposal;
  dpr_calculation : CalculationSheet;
  dpr_audit_report : AuditReport;
  dpr_approval_request : ApprovalRequest;
  dpr_approval_record : ApprovalRecord;
  dpr_current_artifact_hash : string;
  dpr_template_id : string;
  dpr_template_version : string;
}.
#[export] Instance DocumentPackageRequest_to_py : ToPy DocumentPackageRequest := λ x, VDict
    [("proposal", to_py x.(dpr_proposal)); ("calculation", to_py x.(dpr_calculation));
     ("audit_report", to_py x.(dpr_audit_report));
     ("approval_request", to_py x.(dpr_approval_request));
     ("approval_record", to_py x.(dpr_approval_record));
     ("current_artifact_hash", to_py x.(dpr_current_artifact_hash));
     ("template_id", to_py x.(dpr_template_id));
     ("template_version", to_py x.(dpr_template_version))].

Record DocumentPackageOutput := mk_DocumentPackageOutput {
  dpo_manifest : PackageManifest;
  dpo_draft_markdown : string;
  dpo_artifacts_json : string;
}.
#[export] Instance DocumentPackageOutput_to_py : ToPy DocumentPackageOutput := λ x, VDict
    [("manifest", to_py x.(dpo_manifest)); ("draft_markdown", to_py x.(dpo_draft_markdown));
     ("artifacts_json", to_py x.(dpo_artifacts_json))].

Record CompensationParameters := mk_CompensationParameters {
  cp_employment_start_date : date;
  cp_planned_termination_date : date;
  cp_monthly_wage_average : decimal;
  cp_local_previous_year_monthly_average_wage : decimal;
}.
#[export] Instance CompensationParameters_to_py : ToPy CompensationParameters := λ x, VDict
    [("employment_start_date", to_py x.(cp_employment_start_date));
     ("planned_termination_date", to_py x.(cp_planned_termination_date));
     ("monthly_wage_average", to_py x.(cp_monthly_wage_average));
     ("local_previous_year_monthly_average_wage", to_py x.(cp_local_previous_year_monthly_average_wage))].


(** ** Validation *)
Definition EvidenceObject_validate (x : EvidenceObject) : result EvidenceObject :=
  _ ← require (is_finite x.(ev_confidence) && negb (dec_ltb x.(ev_confidence) (dec_of_Z 0)) &&
      negb (dec_ltb (dec_of_Z 1) x.(ev_confidence))) (ValidationError "confidence");
  Ok x.

Definition CaseRecord_validate (x : CaseRecord) : result CaseRecord :=
  _ ← require (min_length_1 x.(case_case_id) && min_length_1 x.(case_tenant_id) &&
      (0 <=? x.(case_state_version)) && min_length_1 x.(case_jurisdiction) &&
      min_length_1 x.(case_input_manifest_hash)) (ValidationError "CaseRecord");
  Ok x.

Definition SourceDocument_validate (x : SourceDocument) : result SourceDocument :=
  _ ← require (min_length_1 x.(src_document_id) && min_length_1 x.(src_tenant_id) &&
      min_length_1 x.(src_case_id) && is_sha256 x.(src_declared_sha256))
        (ValidationError "SourceDocument");
  Ok x.

(** [bool(date_or_none)]: every date is truthy. *)
Definition TimelineEvent_validate (x : TimelineEvent) : result TimelineEvent :=
  let has_source := match x.(tl_meta).(meta_source_refs) with [] => false | _ => true end in
  let is_unresolved := bool_decide (x.(tl_fact_status) = FactStatus.UNRESOLVED) &&
    match x.(tl_unresolved_reason) with Some r => min_length_1 r | None => false end in
  _ ← require (has_source || is_unresolved)
        (ValidationError "timeline events require source_refs or an unresolved reason");
  _ ← require (match x.(tl_occurred_from), x.(tl_occurred_to) with
               | Some from, Some to => negb (date_ltb to from)
               | _, _ => true
               end) (ValidationError "occurred_to must not precede occurred_from");
  Ok x.

Definition RuleCitation_validate (x : RuleCitation) : result RuleCitation :=
  _ ← require (is_sha256 x.(rc_source_hash)) (ValidationError "source_hash"); Ok x.

Definition CalculationSheet_validate (x : CalculationSheet) : result CalculationSheet :=
  _ ← require (match x.(cs_missing_parameters), x.(cs_total) with
               | _ :: _, Some _ => false
               | _, _ => true
               end)
        (ValidationError "total must be absent when required parameters are missing");
  Ok x.

Definition ApprovalRequest_validate (x : ApprovalRequest) : result ApprovalRequest :=
  _ ← require (min_length_1 x.(areq_request_id) && min_length_1 x.(areq_tenant_id) &&
      min_length_1 x.(areq_case_id) && min_length_1 x.(areq_trace_id) &&
      min_length_1 x.(areq_artifact_ref) && is_sha256 x.(areq_artifact_hash) &&
      min_length_1 x.(areq_audit_report_ref) && min_length_1 x.(areq_required_role))
        (ValidationError "ApprovalRequest");
  _ ← require (is_aware x.(areq_created_at))
        (ValidationError "created_at must be timezone-aware");
  _ ← require (is_aware x.(areq_expires_at))
        (ValidationError "expires_at must be timezone-aware");
  ordered ← dt_ltb x.(areq_created_at) x.(areq_expires_at);
  _ ← require ordered (ValidationError "approval expiry must be after request creation");
  Ok x.

Definition HumanDecision_validate (x : HumanDecision) : result HumanDecision :=
  _ ← require (min_length_1 x.(hd_actor_id) && min_length_1 x.(hd_actor_role) &&
      min_length_1 x.(hd_reason)) (ValidationError "HumanDecision");
  _ ← require (bool_decide (x.(hd_actor_kind) = ActorKind.HUMAN))
        (ValidationError "approval decisions must come from a human actor");
  _ ← require (is_aware x.(hd_decided_at))
        (ValidationError "decided_at must be timezone-aware");
  Ok x.

Definition ApprovalRecord_validate (x : ApprovalRecord) : result ApprovalRecord :=
  _ ← require (min_length_1 x.(arec_request_id) && min_length_1 x.(arec_approver_id) &&
      min_length_1 x.(arec_approver_role) && min_length_1 x.(arec_reason) &&
      is_sha256 x.(arec_approved_artifact_hash) && min_length_1 x.(arec_approval_method))
        (ValidationError "ApprovalRecord");
  _ ← require (is_aware x.(arec_decided_at))
        (ValidationError "decided_at must be timezone-aware");
  _ ← require (is_aware x.(arec_expires_at))
        (ValidationError "expires_at must be timezone-aware");
  _ ← require (dt_eqb x.(arec_meta).(meta_created_at) x.(arec_decided_at))
        (ValidationError "approval metadata time must match the decision time");
  late ← dt_ltb x.(arec_expires_at) x.(arec_decided_at);
  _ ← require (negb late) (ValidationError "approval decision must not occur after expiry");
  Ok x.

Definition PackageFile_validate (x : PackageFile) : result PackageFile :=
  _ ← require (is_sha256 x.(pfile_sha256)) (ValidationError "sha256"); Ok x.

Definition TraceEvent_validate (x : TraceEvent) : result TraceEvent :=
  _ ← require (1 <=? x.(te_sequence)) (ValidationError "sequence");
  _ ← require (is_aware x.(te_occurred_at))
        (ValidationError "occurred_at must be timezone-aware");
  Ok x.

Definition SkillContext_validate (x : SkillContext) : result SkillContext :=
  _ ← require (min_length_1 x.(ctx_tenant_id) && min_length_1 x.(ctx_case_id) &&
      min_length_1 x.(ctx_caller_identity) && min_length_1 x.(ctx_trace_id) &&
      min_length_1 x.(ctx_idempotency_key) && (0 <=? x.(ctx_expected_state_version)))
        (ValidationError "SkillContext");
  Ok x.

Definition require_unique_non_empty_issue_codes (value : list string) : result (list string) :=
  _ ← require (forallb min_length_1 value) (ValueError "issue codes must not be empty");
  _ ← require (bool_decide (length (dedup value) = length value))
        (ValueError "issue codes must not contain duplicates");
  Ok value.

(** The length bounds are checked before the validator of the field, whose
    ValueError pydantic reports as a ValidationError. *)
Definition RuleRetrieveRequest_validate (x : RuleRetrieveRequest) : result RuleRetrieveRequest :=
  _ ← require ((1 <=? length x.(rq_issue_codes))%nat && (length x.(rq_issue_codes) <=? 32)%nat &&
      min_length_1 x.(rq_jurisdiction)) (ValidationError "RuleRetrieveRequest");
  match require_unique_non_empty_issue_codes x.(rq_issue_codes) with
  | Ok _ => Ok x
  | Raise _ => Raise (ValidationError "issue_codes")
  end.

Definition RuleScopeReceipt_validate (x : RuleScopeReceipt) : result RuleScopeReceipt :=
  _ ← RuleRetrieveRequest_validate
        (mk_RuleRetrieveRequest x.(rsr_issue_codes) x.(rsr_jurisdiction) x.(rsr_as_of_date));
  _ ← require (min_length_1 x.(rsr_catalog_version) && is_sha256 x.(rsr_rule_query_input_hash))
        (ValidationError "RuleScopeReceipt");
  Ok x.

(** A pydantic [Decimal] is finite. *)
Definition CompensationParameters_validate (x : CompensationParameters)
    : result CompensationParameters :=
  _ ← require (is_finite x.(cp_monthly_wage_average) &&
      is_finite x.(cp_local_previous_year_monthly_average_wage)) (ValidationError "finite_number");
  _ ← require (dec_ltb (dec_of_Z 0) x.(cp_monthly_wage_average) &&
      dec_ltb (dec_of_Z 0) x.(cp_local_previous_year_monthly_average_wage))
        (ValidationError "greater_than");
  Ok x.

(** ** Sealed artifacts *)
Section sealed.
Context `{P : Platform} `{HL : ArtifactLaws A}.

Definition wf_artifact (a : A) : Prop := wf_py (artifact_to_py a) = true.

Lemma canonicalize_meta_hash h (m : ArtifactMeta) :
  canonicalize content_hash_key (to_py (with_content_hash h m)) =
  canonicalize content_hash_key (to_py m).
Proof. reflexivity. Qed.

(** The digest of an artifact does not depend on its [content_hash]. *)
Lemma digest_content_hash h (a : A) :
  sha256_digest_except content_hash_key (artifact_to_py (set_meta (with_content_hash h (meta a)) a)) =
  sha256_digest_except content_hash_key (artifact_to_py a).
Proof.
  unfold sha256_digest_except, canonical_json, artifact_to_py. rewrite meta_set, body_set.
  assert (∀ v, canonicalize content_hash_key v = canonicalize content_hash_key (to_py (meta a)) →
    canonicalize content_hash_key (VDict (("meta", v) :: body a)) =
    canonicalize content_hash_key (VDict (("meta", to_py (meta a)) :: body a))) as Hext.
  { intros v Hv. simpl map. cbn [canonicalize]. simpl map. by rewrite Hv. }
  by rewrite (Hext _ (canonicalize_meta_hash h (meta a))).
Qed.

Lemma seal_Ok (a b : A) : seal a = Ok b →
  ∃ h, sha256_digest_except content_hash_key (artifact_to_py a) = Ok h ∧
    b = set_meta (with_content_hash (Some h) (meta a)) a.
Proof. unfold seal. intros. inv_ok. eauto. Qed.

Lemma seal_meta (a b : A) : seal a = Ok b →
  ∃ h, meta b = with_content_hash (Some h) (meta a) ∧ body b = body a.
Proof. intros (h & _ & ->)%seal_Ok. exists h. by rewrite meta_set, body_set. Qed.

Lemma verify_hash_true (a : A) : verify_hash a = Ok true ↔
  ∃ h, (meta a).(meta_content_hash) = Some h ∧
    sha256_digest_except content_hash_key (artifact_to_py a) = Ok h.
Proof.
  unfold verify_hash. destruct ((meta a).(meta_content_hash)) as [h|]; [|naive_solver].
  rewrite bind_Ok. split.
  - intros (e & He & [= ->%String.eqb_eq]). eauto.
  - intros (h' & [= <-] & He). exists h. by rewrite String.eqb_refl.
Qed.

Lemma seal_verifies (a b : A) : seal a = Ok b → verify_hash b = Ok true.
Proof.
  intros (h & Hh & ->)%seal_Ok. apply verify_hash_true. exists h.
  by rewrite meta_set, digest_content_hash.
Qed.

Lemma seal_total (a : A) : wf_artifact a → ∃ b, seal a = Ok b.
Proof. intros [h Hh]%(digest_total content_hash_key). unfold seal. rewrite Hh. by eexists. Qed.

(** Sealing: [seal] stores the digest of the artifact, the sealed artifact
    verifies, sealing again changes nothing, and a verifying artifact is its own seal. *)
Lemma seal_verify (a b : A) :
  seal a = Ok b → verify_hash b = Ok true ∧ seal b = Ok b ∧
  ∀ c, verify_hash c = Ok true → seal c = Ok c.
Proof.
  intros Hs. assert (∀ c : A, verify_hash c = Ok true → seal c = Ok c) as Hid.
  { intros c (h & Hh & Hd)%verify_hash_true. unfold seal. rewrite Hd. simpl.
    assert (with_content_hash (Some h) (meta c) = meta c) as ->
      by (rewrite <- Hh; by destruct (meta c)).
    by rewrite set_meta_id. }
  apply seal_verifies in Hs as Hv. auto.
Qed.

Lemma hash_binds_fields (a b : A) :
  wf_artifact a → wf_artifact b → verify_hash a = Ok true → verify_hash b = Ok true →
  (meta a).(meta_content_hash) = (meta b).(meta_content_hash) →
  (∀ k v w, (k, v) ∈ body a → (k, w) ∈ body b → k ≠ "content_hash" →
     canonicalize content_hash_key v = canonicalize content_hash_key w) ∨
  colliding content_hash_key (artifact_to_py a) (artifact_to_py b).
Proof.
  intros Hwa Hwb (h & Ha & Hda)%verify_hash_true (h' & Hb & Hdb)%verify_hash_true Heq.
  assert (h' = h) as -> by congruence.
  destruct (digest_injective _ _ _ _ Hwa Hwb Hda Hdb) as [Hj|]; [left|by right].
  intros k v w Hv Hw Hk. destruct (canonicalize_wf content_hash_key _ Hwa) as (j & Hja & _).
  apply (canonical_field content_hash_key (("meta", to_py (meta a)) :: body a)
    (("meta", to_py (meta b)) :: body b) j k).
  - exact (body_keys a).
  - exact Hja.
  - rewrite <- Hja. symmetry. exact Hj.
  - by right.
  - by right.
  - unfold content_hash_key. set_solver.
Qed.

(** A content hash binds the fields: two verifying artifacts of a class with
    the same [content_hash] have the same canonical value in every field of the
    class, unless their canonical texts are a SHA-256 collision. *)
Lemma content_hash_binds (a b : A) (k : string) (v w : pyval) :
  wf_artifact a → wf_artifact b → verify_hash a = Ok true → verify_hash b = Ok true →
  (meta a).(meta_content_hash) = (meta b).(meta_content_hash) →
  (k, v) ∈ body a → (k, w) ∈ body b → k ≠ "content_hash" →
  canonicalize content_hash_key v = canonicalize content_hash_key w ∨
  colliding content_hash_key (artifact_to_py a) (artifact_to_py b).
Proof.
  intros Hwa Hwb Va Vb Heq Hv Hw Hk.
  destruct (hash_binds_fields a b Hwa Hwb Va Vb Heq) as [Hf|]; [left; by eapply Hf|by right].
Qed.
End sealed.

(** Canonical texts are injective on the simple fields. *)
Lemma canonical_str ex (s t : string) :
  canonicalize ex (VStr s) = canonicalize ex (VStr t) → s = t.
Proof. by intros [= ->]. Qed.

(** ** A concrete artifact *)
#[local] Existing Instance toy_platform.

Definition demo_meta (id producer : string) : ArtifactMeta :=
  mk_ArtifactMeta id "TENANT-1" "CASE-1" SCHEMA_VERSION producer "TRACE-1" (Aware 1000000)
    ["SourceDocument:D1"] DataClassification.PUBLIC_SYNTHETIC None.
Definition demo_evidence (field value : string) : EvidenceObject :=
  mk_EvidenceObject (demo_meta ("evidence-" +:+ field) "PF-A2") "structured_field" field value
    (field +:+ "=" +:+ value) "D1" FactStatus.VERIFIED (Fin false 1 0).
(** [seal] of an artifact whose digest is known to exist *)
Definition sealed {A} (a : A) (r : result A) : A := match r with Ok b => b | Raise _ => a end.

Lemma seal_verify_witness :
  verify_hash (sealed (demo_evidence "currency" "CNY") (seal (demo_evidence "currency" "CNY"))) = Ok true.
Proof.
  destruct (seal_verify (demo_evidence "currency" "CNY")
    (sealed (demo_evidence "currency" "CNY") (seal (demo_evidence "currency" "CNY")))) as (H & _).
  - vm_compute. reflexivity.
  - exact H.
Defined.

Lemma content_hash_binds_witness :
  let a := sealed (demo_evidence "currency" "CNY") (seal (demo_evidence "currency" "CNY")) in
  canonicalize content_hash_key (VStr "CNY") = canonicalize content_hash_key (VStr "CNY") ∨
  colliding content_hash_key (artifact_to_py a) (artifact_to_py a).
Proof.
  intros a. apply (content_hash_binds a a "normalized_value" (VStr "CNY") (VStr "CNY"));
    try (vm_compute; reflexivity).
  - repeat constructor.
  - repeat constructor.
  - discriminate.
Defined.
