(* ===== verification/CertModels.v ===== *)
(** * action_certificate.py: the contracts

    A Record per wire model, with its validators as [X_validate].  Texts are the ones
    pydantic keeps, stripped.  A [wire_time] is a datetime with the text pydantic writes
    for it in JSON mode: two times are equal when their instants are, while the digest
    of a scope covers the text. *)
From S2P Require Import Prelude Json PyTime PyDecimal Sha256 Canonical Base64 Platforms Models.
Local Open Scope Z_scope.

Definition DSSE_PAYLOAD_TYPE : string := "application/vnd.in-toto+json".
Definition IN_TOTO_STATEMENT_TYPE : string := "https://in-toto.io/Statement/v1".
Definition ACTION_CERTIFICATE_PREDICATE_TYPE : string :=
  "https://proofflow.dev/attestations/action-certificate/v0.1".
Definition EXECUTION_RECEIPT_PREDICATE_TYPE : string :=
  "https://proofflow.dev/attestations/execution-receipt/v0.1".
Definition OUTCOME_CLOSURE_PREDICATE_TYPE : string :=
  "https://proofflow.dev/attestations/outcome-closure/v0.1".
Definition MAX_ENVELOPE_BYTES : Z := 256 * 1024.
Definition MAX_PAYLOAD_BYTES : Z := 128 * 1024.
Definition MAX_SIGNATURES : Z := 16.
Definition MAX_TRUST_ROOTS : Z := 64.
Definition MAX_REVOCATION_ENTRIES : Z := 4096.

(** ** Constraints of the fields *)

(** [len(text)] in code points: the bytes that do not continue a character *)
Fixpoint char_count (s : string) : Z :=
  match s with
  | EmptyString => 0
  | String c r => (if in_range 128 191 c then 0 else 1) + char_count r
  end.
Definition len_between (lo hi : Z) (s : string) : bool := (lo <=? char_count s) && (char_count s <=? hi).
Definition size_between {A} (lo hi : Z) (l : list A) : bool :=
  (lo <=? Z.of_nat (length l)) && (Z.of_nat (length l) <=? hi).

(** [IDENTIFIER_PATTERN] *)
Definition is_identifier (s : string) : bool :=
  match s with
  | String c r => is_alnum c && string_all (λ c, is_alnum c || has_char c "._:@-") r &&
      (String.length r <=? 127)%nat
  | EmptyString => false
  end.

Definition unique {A} `{EqDecision A} (l : list A) : bool := bool_decide (NoDup l).
Definition value_error (m : string) : exn := ValidationError m.

(** [value.casefold()], as far as the test below can see it: besides the ASCII capitals
    only the ligature U+FB01 folds to letters of "file", "data" or "urn". *)
Fixpoint fold_scheme (s : string) : string :=
  match s with
  | String a r =>
      match r with
      | String b (String c r') =>
          if Ascii.eqb a (ascii_of_nat 239) && Ascii.eqb b (ascii_of_nat 172) &&
             Ascii.eqb c (ascii_of_nat 129)
          then "fi" +:+ fold_scheme r'
          else String (if in_range 65 90 a then ascii_of_nat (nat_of_ascii a + 32) else a) (fold_scheme r)
      | _ => String (if in_range 65 90 a then ascii_of_nat (nat_of_ascii a + 32) else a) (fold_scheme r)
      end
  | EmptyString => EmptyString
  end.
Fixpoint contains_text (sub s : string) : bool :=
  starts_with sub s || match s with String _ r => contains_text sub r | EmptyString => false end.

Definition _reject_remote_reference (value label : string) : result string :=
  let lowered := fold_scheme value in
  _ ← require (negb (contains_text "://" lowered || starts_with "file:" lowered ||
                     starts_with "data:" lowered || starts_with "urn:" lowered))
        (ValueError (label +:+ " must not be a remote or indirect reference"));
  Ok value.

Record wire_time := mk_wire_time { wt_at : datetime; wt_json : string }.
Definition _require_aware (value : datetime) (label : string) : result datetime :=
  _ ← require (is_aware value) (ValueError (label +:+ " must be timezone-aware")); Ok value.

(** ** DSSE *)
Record DsseSignature := mk_DsseSignature { sg_keyid : string; sg_sig : string }.
Definition DsseSignature_validate (x : DsseSignature) : result DsseSignature :=
  _ ← require (len_between 0 128 x.(sg_keyid) && len_between 88 88 x.(sg_sig)) (value_error "length");
  _ ← _reject_remote_reference x.(sg_keyid) "keyid";
  _ ← decode_canonical_base64 x.(sg_sig) "signature" (Some 64%nat) true;
  Ok x.

Record DsseEnvelope := mk_DsseEnvelope {
  env_payloadType : string;
  env_payload : string;
  env_signatures : list DsseSignature;
}.
Definition DsseEnvelope_validate (x : DsseEnvelope) : result DsseEnvelope :=
  _ ← require (String.eqb x.(env_payloadType) DSSE_PAYLOAD_TYPE) (value_error "literal");
  _ ← require (len_between 1 ((MAX_PAYLOAD_BYTES + 2) / 3 * 4) x.(env_payload) &&
               size_between 1 MAX_SIGNATURES x.(env_signatures)) (value_error "length");
  decoded ← decode_canonical_base64 x.(env_payload) "payload" None true;
  _ ← require (Z.of_nat (String.length decoded) <=? MAX_PAYLOAD_BYTES)
        (ValueError "decoded payload exceeds the attestation byte limit");
  _ ← mapR DsseSignature_validate x.(env_signatures);
  Ok x.

(** ** The statement *)
Record InTotoSubject := mk_InTotoSubject { its_name : string; its_sha256 : string }.
Definition InTotoSubject_validate (x : InTotoSubject) : result InTotoSubject :=
  _ ← require (len_between 1 256 x.(its_name) && hex64 x.(its_sha256)) (value_error "constraint");
  _ ← _reject_remote_reference x.(its_name) "in-toto subject name";
  Ok x.

Record PrincipalBinding := mk_PrincipalBinding { pb_principal_id : string; pb_identity_issuer : string }.
Definition PrincipalBinding_validate (x : PrincipalBinding) : result PrincipalBinding :=
  _ ← require (is_identifier x.(pb_principal_id) && len_between 1 256 x.(pb_identity_issuer))
        (value_error "constraint"); Ok x.

Record DelegationHop := mk_DelegationHop {
  dh_delegator : string; dh_delegatee : string; dh_scope_sha256 : string }.
Definition DelegationHop_validate (x : DelegationHop) : result DelegationHop :=
  _ ← require (is_identifier x.(dh_delegator) && is_identifier x.(dh_delegatee) &&
               is_sha256 x.(dh_scope_sha256)) (value_error "constraint");
  _ ← require (negb (String.eqb x.(dh_delegator) x.(dh_delegatee)))
        (ValueError "delegator and delegatee must differ");
  Ok x.

Record SubjectBinding := mk_SubjectBinding {
  sb_subject_type : string; sb_subject_id : string; sb_attributes_sha256 : string }.
Definition SubjectBinding_validate (x : SubjectBinding) : result SubjectBinding :=
  _ ← require (len_between 1 128 x.(sb_subject_type) && len_between 1 256 x.(sb_subject_id) &&
               is_sha256 x.(sb_attributes_sha256)) (value_error "constraint"); Ok x.

Record ActionBinding := mk_ActionBinding { ab_action_name : string; ab_parameters_sha256 : string }.
Definition ActionBinding_validate (x : ActionBinding) : result ActionBinding :=
  _ ← require (len_between 1 128 x.(ab_action_name) && is_sha256 x.(ab_parameters_sha256))
        (value_error "constraint"); Ok x.

Record ResourceBinding := mk_ResourceBinding {
  rb_resource_type : string; rb_resource_id : string; rb_attributes_sha256 : string }.
Definition ResourceBinding_validate (x : ResourceBinding) : result ResourceBinding :=
  _ ← require (len_between 1 128 x.(rb_resource_type) && len_between 1 512 x.(rb_resource_id) &&
               is_sha256 x.(rb_attributes_sha256)) (value_error "constraint"); Ok x.

Record ContextBinding := mk_ContextBinding {
  cb_request_id : string; cb_trace_id : string; cb_environment : string; cb_attributes_sha256 : string }.
Definition ContextBinding_validate (x : ContextBinding) : result ContextBinding :=
  _ ← require (is_identifier x.(cb_request_id) && is_identifier x.(cb_trace_id) &&
               len_between 1 64 x.(cb_environment) && is_sha256 x.(cb_attributes_sha256))
        (value_error "constraint"); Ok x.

Record PolicyBinding := mk_PolicyBinding {
  plb_policy_id : string; plb_policy_revision : string; plb_policy_sha256 : string;
  plb_decision : string; plb_evaluated_at : wire_time; plb_expires_at : wire_time }.
Definition PolicyBinding_validate (x : PolicyBinding) : result PolicyBinding :=
  _ ← require (is_identifier x.(plb_policy_id) && len_between 1 128 x.(plb_policy_revision) &&
               is_sha256 x.(plb_policy_sha256) && String.eqb x.(plb_decision) "ALLOW")
        (value_error "constraint");
  evaluated ← _require_aware x.(plb_evaluated_at).(wt_at) "policy evaluated_at";
  expires ← _require_aware x.(plb_expires_at).(wt_at) "policy expires_at";
  later ← dt_ltb evaluated expires;
  _ ← require later (ValueError "policy expires_at must follow evaluated_at");
  Ok x.

Record ApprovalBinding := mk_ApprovalBinding {
  apb_required : bool; apb_approval_id : option string; apb_scope_sha256 : option string;
  apb_approver_principals : list string; apb_expires_at : option wire_time }.
Definition opt_all {A} (f : A → bool) (o : option A) : bool := match o with Some a => f a | None => true end.
Definition given {A} (o : option A) : bool := match o with Some _ => true | None => false end.
Definition ApprovalBinding_validate (x : ApprovalBinding) : result ApprovalBinding :=
  _ ← require (opt_all is_identifier x.(apb_approval_id) && opt_all is_sha256 x.(apb_scope_sha256) &&
               size_between 0 16 x.(apb_approver_principals)) (value_error "constraint");
  _ ← require (unique x.(apb_approver_principals)) (ValueError "approver principals must be unique");
  _ ← require (forallb (len_between 1 128) x.(apb_approver_principals))
        (ValueError "approver principal is invalid");
  if x.(apb_required) then
    match x.(apb_approval_id), x.(apb_scope_sha256), x.(apb_approver_principals), x.(apb_expires_at) with
    | Some _, Some _, _ :: _, Some expires =>
        _ ← _require_aware expires.(wt_at) "approval expires_at"; Ok x
    | _, _, _, _ => Raise (ValueError "approval-required certificates need complete approval binding")
    end
  else
    _ ← require (negb (given x.(apb_approval_id) || given x.(apb_scope_sha256) ||
                       nonempty x.(apb_approver_principals) || given x.(apb_expires_at)))
          (ValueError "approval fields must be absent when approval is not required");
    Ok x.

Record EffectBinding := mk_EffectBinding {
  eb_effect_type : string; eb_target : string; eb_request_sha256 : string; eb_idempotency_key : string }.
Definition EffectBinding_validate (x : EffectBinding) : result EffectBinding :=
  _ ← require (len_between 1 128 x.(eb_effect_type) && len_between 1 512 x.(eb_target) &&
               is_sha256 x.(eb_request_sha256) && is_identifier x.(eb_idempotency_key))
        (value_error "constraint"); Ok x.

#[export] Instance PrincipalBinding_eq_dec : EqDecision PrincipalBinding.
Proof. solve_decision. Defined.
#[export] Instance DelegationHop_eq_dec : EqDecision DelegationHop.
Proof. solve_decision. Defined.
#[export] Instance InTotoSubject_eq_dec : EqDecision InTotoSubject.
Proof. solve_decision. Defined.

Record ActionCertificatePredicate := mk_ActionCertificatePredicate {
  acp_version : string;
  acp_certificate_id : string;
  acp_tenant_id : string;
  acp_human_principal : PrincipalBinding;
  acp_workload_principal : PrincipalBinding;
  acp_audience : string;
  acp_delegation_chain : list DelegationHop;
  acp_subject : SubjectBinding;
  acp_action : ActionBinding;
  acp_resource : ResourceBinding;
  acp_context : ContextBinding;
  acp_data_classification : string;
  acp_policy : PolicyBinding;
  acp_approval : ApprovalBinding;
  acp_effect : EffectBinding;
  acp_nonce : string;
  acp_issued_at : wire_time;
  acp_not_before : wire_time;
  acp_expires_at : wire_time;
}.

Definition CLASSIFICATIONS : list string := ["PUBLIC_SYNTHETIC"; "INTERNAL"; "RESTRICTED"].

(** The delegation chain leads from the human to the workload. *)
Definition chain_check (human workload : string) (chain : list DelegationHop) : result unit :=
  _ ← require (unique chain) (ValueError "delegation hops must be unique");
  match chain, last chain with
  | first :: _, Some final =>
      _ ← require (String.eqb first.(dh_delegator) human)
            (ValueError "delegation chain must begin at the human principal");
      _ ← require (forallb (λ lr : DelegationHop * DelegationHop,
              String.eqb (fst lr).(dh_delegatee) (snd lr).(dh_delegator)) (zip chain (tail chain)))
            (ValueError "delegation chain is not contiguous");
      require (String.eqb final.(dh_delegatee) workload)
        (ValueError "delegation chain must end at the workload principal")
  | _, _ => require (String.eqb human workload)
        (ValueError "distinct principals require an explicit delegation chain")
  end.

Definition predicate_window (x : ActionCertificatePredicate) : result unit :=
  issued ← _require_aware x.(acp_issued_at).(wt_at) "issued_at";
  not_before ← _require_aware x.(acp_not_before).(wt_at) "not_before";
  expires ← _require_aware x.(acp_expires_at).(wt_at) "expires_at";
  early ← dt_ltb not_before issued;
  _ ← require (negb early) (ValueError "not_before must not precede issued_at");
  follows ← dt_ltb not_before expires;
  _ ← require follows (ValueError "expires_at must follow not_before");
  late_policy ← dt_ltb issued x.(acp_policy).(plb_evaluated_at).(wt_at);
  _ ← require (negb late_policy) (ValueError "policy evaluation must not follow certificate issuance");
  short_policy ← dt_ltb x.(acp_policy).(plb_expires_at).(wt_at) expires;
  _ ← require (negb short_policy) (ValueError "policy authorization must cover the certificate lifetime");
  match x.(acp_approval).(apb_expires_at) with
  | None => Ok ()
  | Some t =>
      short_approval ← dt_ltb t.(wt_at) expires;
      require (negb short_approval) (ValueError "approval must cover the certificate lifetime")
  end.

Definition ActionCertificatePredicate_validate (x : ActionCertificatePredicate)
    : result ActionCertificatePredicate :=
  _ ← require (String.eqb x.(acp_version) "0.1" && is_identifier x.(acp_certificate_id) &&
               is_identifier x.(acp_tenant_id) && len_between 1 256 x.(acp_audience) &&
               size_between 0 16 x.(acp_delegation_chain) &&
               bool_decide (x.(acp_data_classification) ∈ CLASSIFICATIONS) && is_identifier x.(acp_nonce))
        (value_error "constraint");
  _ ← PrincipalBinding_validate x.(acp_human_principal);
  _ ← PrincipalBinding_validate x.(acp_workload_principal);
  _ ← mapR DelegationHop_validate x.(acp_delegation_chain);
  _ ← SubjectBinding_validate x.(acp_subject);
  _ ← ActionBinding_validate x.(acp_action);
  _ ← ResourceBinding_validate x.(acp_resource);
  _ ← ContextBinding_validate x.(acp_context);
  _ ← PolicyBinding_validate x.(acp_policy);
  _ ← ApprovalBinding_validate x.(acp_approval);
  _ ← EffectBinding_validate x.(acp_effect);
  _ ← predicate_window x;
  _ ← chain_check x.(acp_human_principal).(pb_principal_id) x.(acp_workload_principal).(pb_principal_id)
        x.(acp_delegation_chain);
  Ok x.

Record ActionCertificateStatement := mk_ActionCertificateStatement {
  acs_statement_type : string;
  acs_subject : list InTotoSubject;
  acs_predicateType : string;
  acs_predicate : ActionCertificatePredicate;
}.
Definition ActionCertificateStatement_validate (x : ActionCertificateStatement)
    : result ActionCertificateStatement :=
  _ ← require (String.eqb x.(acs_statement_type) IN_TOTO_STATEMENT_TYPE &&
               size_between 1 64 x.(acs_subject) &&
               String.eqb x.(acs_predicateType) ACTION_CERTIFICATE_PREDICATE_TYPE)
        (value_error "constraint");
  _ ← mapR InTotoSubject_validate x.(acs_subject);
  _ ← require (unique (map its_name x.(acs_subject))) (ValueError "in-toto subject names must be unique");
  _ ← ActionCertificatePredicate_validate x.(acs_predicate);
  Ok x.

(** ** Trust roots *)
Inductive TrustPurpose := ACTION_ISSUER | HUMAN_APPROVAL | EXECUTION_OBSERVER | OUTCOME_OBSERVER.
#[export] Instance TrustPurpose_eq_dec : EqDecision TrustPurpose.
Proof. solve_decision. Defined.
Inductive ExecutionObserverScope :=
| RUNTIME_EXECUTION | ARTIFACT_IO | PROTOCOL_EXCHANGE | TRACE_EXPORT | INFERENCE_RESPONSE
| EFFECT_ATTEMPT | METRICS.
#[export] Instance ExecutionObserverScope_eq_dec : EqDecision ExecutionObserverScope.
Proof. solve_decision. Defined.
Inductive OutcomeObserverScope :=
| AUTHORIZATION_BINDING | EXECUTION_RECEIPT_BINDING | EFFECT_RECONCILIATION | BUSINESS_STATE.
#[export] Instance OutcomeObserverScope_eq_dec : EqDecision OutcomeObserverScope.
Proof. solve_decision. Defined.
Inductive OutcomeEvidenceSourceKind := LOCAL_BYTES.
#[export] Instance OutcomeEvidenceSourceKind_eq_dec : EqDecision OutcomeEvidenceSourceKind.
Proof. solve_decision. Defined.

Definition all_execution_scopes : list ExecutionObserverScope :=
  [RUNTIME_EXECUTION; ARTIFACT_IO; PROTOCOL_EXCHANGE; TRACE_EXPORT; INFERENCE_RESPONSE;
   EFFECT_ATTEMPT; METRICS].
Definition all_outcome_scopes : list OutcomeObserverScope :=
  [AUTHORIZATION_BINDING; EXECUTION_RECEIPT_BINDING; EFFECT_RECONCILIATION; BUSINESS_STATE].
(** [frozenset(given) == frozenset(required)] *)
Definition same_set {A} `{EqDecision A} (l k : list A) : bool :=
  forallb (λ x, bool_decide (x ∈ k)) l && forallb (λ x, bool_decide (x ∈ l)) k.
Definition is_purpose (p q : TrustPurpose) : bool := bool_decide (p = q).

Record TrustRoot := mk_TrustRoot {
  tr_root_id : string;
  tr_keyid_hints : list string;
  tr_algorithm : string;
  tr_purpose : TrustPurpose;
  tr_public_key_b64 : string;
  tr_tenant_id : string;
  tr_principal_id : string;
  tr_audiences : list string;
  tr_predicate_types : list string;
  tr_execution_observer_scopes : list ExecutionObserverScope;
  tr_outcome_observer_scopes : list OutcomeObserverScope;
  tr_outcome_evidence_source_kinds : list OutcomeEvidenceSourceKind;
  tr_outcome_evidence_source_principals : list string;
  tr_not_before : datetime;
  tr_not_after : datetime;
  tr_revoked_at : option datetime;
}.

Definition PREDICATE_TYPES : list string :=
  [ACTION_CERTIFICATE_PREDICATE_TYPE; EXECUTION_RECEIPT_PREDICATE_TYPE; OUTCOME_CLOSURE_PREDICATE_TYPE].

Definition hint_check (value : string) : result unit :=
  _ ← _reject_remote_reference value "keyid hint";
  require (char_count value <=? 128) (ValueError "keyid hint exceeds the size limit").

Definition root_window (x : TrustRoot) : result unit :=
  not_before ← _require_aware x.(tr_not_before) "root not_before";
  not_after ← _require_aware x.(tr_not_after) "root not_after";
  follows ← dt_ltb not_before not_after;
  _ ← require follows (ValueError "root not_after must follow not_before");
  match x.(tr_revoked_at) with
  | None => Ok ()
  | Some t => _ ← _require_aware t "root revoked_at"; Ok ()
  end.

(** The scopes and the evidence sources belong to the observer purposes. *)
Definition root_scopes (x : TrustRoot) : result unit :=
  let execution := is_purpose x.(tr_purpose) EXECUTION_OBSERVER in
  let outcome := is_purpose x.(tr_purpose) OUTCOME_OBSERVER in
  _ ← require (negb execution || same_set x.(tr_execution_observer_scopes) all_execution_scopes)
        (ValueError "EXECUTION_OBSERVER roots require every v0.1 observer scope");
  _ ← require (execution || negb (nonempty x.(tr_execution_observer_scopes)))
        (ValueError "only EXECUTION_OBSERVER roots may declare observer scopes");
  _ ← require (negb outcome || same_set x.(tr_outcome_observer_scopes) all_outcome_scopes)
        (ValueError "OUTCOME_OBSERVER roots require every v0.1 observer scope");
  _ ← require (outcome || negb (nonempty x.(tr_outcome_observer_scopes)))
        (ValueError "only OUTCOME_OBSERVER roots may declare outcome observer scopes");
  _ ← (if outcome then
         _ ← require (nonempty x.(tr_outcome_evidence_source_kinds))
               (ValueError "OUTCOME_OBSERVER roots must bind an evidence source kind");
         require (nonempty x.(tr_outcome_evidence_source_principals))
           (ValueError "OUTCOME_OBSERVER roots must bind evidence source principals")
       else
         require (negb (nonempty x.(tr_outcome_evidence_source_kinds) ||
                        nonempty x.(tr_outcome_evidence_source_principals)))
           (ValueError "only OUTCOME_OBSERVER roots may declare outcome evidence source bindings"));
  _ ← require (unique x.(tr_outcome_evidence_source_principals))
        (ValueError "outcome evidence source principals must be unique");
  require (forallb is_identifier x.(tr_outcome_evidence_source_principals))
    (ValueError "outcome evidence source principal is invalid").

Definition TrustRoot_validate (x : TrustRoot) : result TrustRoot :=
  _ ← require (is_identifier x.(tr_root_id) && size_between 0 8 x.(tr_keyid_hints) &&
               String.eqb x.(tr_algorithm) "Ed25519" && len_between 44 44 x.(tr_public_key_b64) &&
               is_identifier x.(tr_tenant_id) && is_identifier x.(tr_principal_id) &&
               size_between 1 16 x.(tr_audiences) && size_between 1 4 x.(tr_predicate_types) &&
               forallb (λ t, bool_decide (t ∈ PREDICATE_TYPES)) x.(tr_predicate_types) &&
               size_between 0 7 x.(tr_execution_observer_scopes) &&
               size_between 0 4 x.(tr_outcome_observer_scopes) &&
               size_between 0 1 x.(tr_outcome_evidence_source_kinds) &&
               size_between 0 16 x.(tr_outcome_evidence_source_principals)) (value_error "constraint");
  _ ← require (unique x.(tr_keyid_hints)) (ValueError "keyid hints must be unique");
  _ ← mapR hint_check x.(tr_keyid_hints);
  _ ← decode_canonical_base64 x.(tr_public_key_b64) "Ed25519 public key" (Some 32%nat) false;
  _ ← root_window x;
  _ ← require (unique x.(tr_audiences)) (ValueError "root audiences must be unique");
  _ ← require (unique x.(tr_predicate_types)) (ValueError "root predicate types must be unique");
  _ ← require (unique x.(tr_execution_observer_scopes))
        (ValueError "execution observer scopes must be unique");
  _ ← root_scopes x;
  Ok x.

Record TrustPolicy := mk_TrustPolicy {
  tp_policy_version : string;
  tp_allowed_tenants : list string;
  tp_allowed_human_principals : list string;
  tp_allowed_workload_principals : list string;
  tp_allowed_action_issuer_principals : list string;
  tp_allowed_approval_principals : list string;
  tp_allowed_execution_observer_principals : list string;
  tp_allowed_outcome_observer_principals : list string;
  tp_allowed_outcome_evidence_source_kinds : list OutcomeEvidenceSourceKind;
  tp_allowed_outcome_evidence_source_principals : list string;
  tp_allowed_audiences : list string;
  tp_allowed_predicate_types : list string;
  tp_approval_required : bool;
  tp_action_issuer_threshold : Z;
  tp_human_approval_threshold : Z;
  tp_execution_observer_threshold : Z;
  tp_outcome_observer_threshold : Z;
  tp_max_certificate_lifetime_seconds : Z;
  tp_max_clock_skew_seconds : Z;
  tp_roots : list TrustRoot;
}.
Definition within (lo hi z : Z) : bool := (lo <=? z) && (z <=? hi).

Definition TrustPolicy_validate (x : TrustPolicy) : result TrustPolicy :=
  _ ← require (String.eqb x.(tp_policy_version) "proofflow.action-certificate-trust/v0.1" &&
               size_between 1 64 x.(tp_allowed_tenants) && size_between 1 128 x.(tp_allowed_human_principals) &&
               size_between 1 128 x.(tp_allowed_workload_principals) &&
               size_between 1 64 x.(tp_allowed_action_issuer_principals) &&
               size_between 0 64 x.(tp_allowed_approval_principals) &&
               size_between 0 64 x.(tp_allowed_execution_observer_principals) &&
               size_between 0 64 x.(tp_allowed_outcome_observer_principals) &&
               size_between 0 1 x.(tp_allowed_outcome_evidence_source_kinds) &&
               size_between 0 64 x.(tp_allowed_outcome_evidence_source_principals) &&
               size_between 1 32 x.(tp_allowed_audiences) && size_between 1 4 x.(tp_allowed_predicate_types) &&
               forallb (λ t, bool_decide (t ∈ PREDICATE_TYPES)) x.(tp_allowed_predicate_types) &&
               within 1 16 x.(tp_action_issuer_threshold) && within 1 16 x.(tp_human_approval_threshold) &&
               within 1 16 x.(tp_execution_observer_threshold) &&
               within 1 16 x.(tp_outcome_observer_threshold) &&
               within 1 86400 x.(tp_max_certificate_lifetime_seconds) &&
               within 0 300 x.(tp_max_clock_skew_seconds) && size_between 1 MAX_TRUST_ROOTS x.(tp_roots))
        (value_error "constraint");
  _ ← mapR TrustRoot_validate x.(tp_roots);
  _ ← require (unique x.(tp_allowed_tenants) && unique x.(tp_allowed_human_principals) &&
               unique x.(tp_allowed_workload_principals) && unique x.(tp_allowed_action_issuer_principals) &&
               unique x.(tp_allowed_approval_principals) &&
               unique x.(tp_allowed_execution_observer_principals) &&
               unique x.(tp_allowed_outcome_observer_principals) &&
               unique x.(tp_allowed_outcome_evidence_source_kinds) &&
               unique x.(tp_allowed_outcome_evidence_source_principals) &&
               unique x.(tp_allowed_audiences) && unique x.(tp_allowed_predicate_types))
        (ValueError "trust policy allowlists must not contain duplicates");
  _ ← require (unique (map tr_root_id x.(tp_roots))) (ValueError "trust root IDs must be unique");
  _ ← require (negb x.(tp_approval_required) || nonempty x.(tp_allowed_approval_principals))
        (ValueError "approval-required policy needs allowed approval principals");
  Ok x.

(** ** What the caller expects *)
Record ExpectedBinding := mk_ExpectedBinding {
  xb_certificate_id : string;
  xb_tenant_id : string;
  xb_human_principal : PrincipalBinding;
  xb_workload_principal : PrincipalBinding;
  xb_audience : string;
  xb_delegation_chain : list DelegationHop;
  xb_statement_subjects : list InTotoSubject;
  xb_subject : SubjectBinding;
  xb_action : ActionBinding;
  xb_resource : ResourceBinding;
  xb_context : ContextBinding;
  xb_data_classification : string;
  xb_policy : PolicyBinding;
  xb_approval : ApprovalBinding;
  xb_effect : EffectBinding;
  xb_nonce : string;
}.

(** ** Results *)
Inductive ApprovalRevocationStatus := ACTIVE | REVOKED | REVOCATION_UNKNOWN.
Inductive ReservationStatus := RESERVED | REPLAY | IDEMPOTENCY_CONFLICT | UNAVAILABLE.
#[export] Instance ReservationStatus_eq_dec : EqDecision ReservationStatus.
Proof. solve_decision. Defined.
