(* ===== verification/CertLedger.v ===== *)
(** * action_certificate.py: the replay ledger and the revocation snapshot

    [ReplayLedger] is the protocol the verifier reserves through; its laws are what the
    protocol promises: a reservation takes a nonce and an idempotency key nobody holds,
    and nobody gives them back.  [InMemoryReplayLedger] is the reference ledger; its
    lock makes each reservation one step. *)
From S2P Require Import Prelude Json Dicts PyTime PyDecimal Sha256 Canonical Base64 Platforms Models CertModels.
Local Open Scope Z_scope.

(** ** The protocol *)
Class ReplayLedger (S : Type) :=
  reserve_once : S → string → string → string → string → S * result ReservationStatus.

Class ReplayLedgerLaws (S : Type) `{ReplayLedger S} := {
  holds_nonce : S → string * string → Prop;
  holds_key : S → string * string → Prop;
  reserve_fresh : ∀ s tenant nonce key intent s',
    reserve_once s tenant nonce key intent = (s', Ok RESERVED) →
    ¬ holds_nonce s (tenant, nonce) ∧ ¬ holds_key s (tenant, key) ∧
    holds_nonce s' (tenant, nonce) ∧ holds_key s' (tenant, key);
  reserve_keeps : ∀ s tenant nonce key intent s' r x,
    reserve_once s tenant nonce key intent = (s', r) →
    (holds_nonce s x → holds_nonce s' x) ∧ (holds_key s x → holds_key s' x);
}.

(** ** The reference ledger *)
Definition LedgerKey : Type := string * string.
Record InMemoryReplayLedger := mk_InMemoryReplayLedger {
  ml_capacity : Z;
  ml_nonces : gmap LedgerKey string;
  ml_idempotency : gmap LedgerKey string;
}.

Definition ledger_init (capacity : Z) : result InMemoryReplayLedger :=
  _ ← require (negb ((capacity <? 1) || (1000000 <? capacity)))
        (ValueError "replay ledger capacity must be between 1 and 1000000");
  Ok (mk_InMemoryReplayLedger capacity ∅ ∅).

Definition memory_reserve_once (s : InMemoryReplayLedger) (tenant_id nonce idempotency_key intent_sha256 : string)
    : InMemoryReplayLedger * ReservationStatus :=
  let nonce_key := (tenant_id, nonce) in
  let idempotency := (tenant_id, idempotency_key) in
  match s.(ml_nonces) !! nonce_key with
  | Some _ => (s, REPLAY)
  | None =>
      match s.(ml_idempotency) !! idempotency with
      | Some existing => (s, if String.eqb existing intent_sha256 then REPLAY else IDEMPOTENCY_CONFLICT)
      | None =>
          if s.(ml_capacity) <=? Z.of_nat (size s.(ml_nonces)) then (s, UNAVAILABLE)
          else
            (mk_InMemoryReplayLedger s.(ml_capacity) (<[nonce_key := intent_sha256]> s.(ml_nonces))
               (<[idempotency := intent_sha256]> s.(ml_idempotency)), RESERVED)
      end
  end.

#[export] Instance memory_ledger : ReplayLedger InMemoryReplayLedger := λ s tenant nonce key intent,
  let '(s', r) := memory_reserve_once s tenant nonce key intent in (s', Ok r).

(** ** Its contract *)
Inductive ledger_reachable : InMemoryReplayLedger → Prop :=
| lr_init capacity s : ledger_init capacity = Ok s → ledger_reachable s
| lr_step s tenant nonce key intent s' r : ledger_reachable s →
    memory_reserve_once s tenant nonce key intent = (s', r) → ledger_reachable s'.

(** The branches of a reservation, by what the ledger holds *)
Inductive reservation (s : InMemoryReplayLedger) (tenant nonce key intent : string)
    : InMemoryReplayLedger → ReservationStatus → Prop :=
| rv_nonce : is_Some (s.(ml_nonces) !! (tenant, nonce)) → reservation s tenant nonce key intent s REPLAY
| rv_same : s.(ml_nonces) !! (tenant, nonce) = None → s.(ml_idempotency) !! (tenant, key) = Some intent →
    reservation s tenant nonce key intent s REPLAY
| rv_conflict other : s.(ml_nonces) !! (tenant, nonce) = None →
    s.(ml_idempotency) !! (tenant, key) = Some other → other ≠ intent →
    reservation s tenant nonce key intent s IDEMPOTENCY_CONFLICT
| rv_full : s.(ml_nonces) !! (tenant, nonce) = None → s.(ml_idempotency) !! (tenant, key) = None →
    s.(ml_capacity) ≤ Z.of_nat (size s.(ml_nonces)) → reservation s tenant nonce key intent s UNAVAILABLE
| rv_reserved : s.(ml_nonces) !! (tenant, nonce) = None → s.(ml_idempotency) !! (tenant, key) = None →
    Z.of_nat (size s.(ml_nonces)) < s.(ml_capacity) →
    reservation s tenant nonce key intent
      (mk_InMemoryReplayLedger s.(ml_capacity) (<[(tenant, nonce) := intent]> s.(ml_nonces))
         (<[(tenant, key) := intent]> s.(ml_idempotency))) RESERVED.

Lemma memory_reservation s tenant nonce key intent s' r :
  memory_reserve_once s tenant nonce key intent = (s', r) ↔ reservation s tenant nonce key intent s' r.
Proof.
  unfold memory_reserve_once. cbv zeta. split.
  - destruct (ml_nonces s !! _) eqn:E1; [intros [= <- <-]; apply rv_nonce; by rewrite E1|].
    destruct (ml_idempotency s !! _) as [other|] eqn:E2.
    + intros [= <- <-]. destruct (String.eqb_spec other intent) as [->|]; [by apply rv_same|by eapply rv_conflict].
    + destruct (Z.leb_spec (ml_capacity s) (Z.of_nat (size (ml_nonces s)))); intros [= <- <-];
        [by apply rv_full|by apply rv_reserved].
  - intros []; repeat match goal with
    | H : is_Some _ |- _ => destruct H as [? H]
    | H : _ !! _ = _ |- _ => rewrite H; clear H
    end; try done.
    + by rewrite String.eqb_refl.
    + by rewrite (proj2 (String.eqb_neq _ _)).
    + by rewrite (proj2 (Z.leb_le _ _)).
    + by rewrite (proj2 (Z.leb_gt _ _)).
Qed.

Lemma memory_step s tenant nonce key intent s' r :
  reserve_once s tenant nonce key intent = (s', r) ↔
  ∃ status, r = Ok status ∧ reservation s tenant nonce key intent s' status.
Proof.
  unfold reserve_once, memory_ledger. destruct (memory_reserve_once _ _ _ _ _) as [s1 r1] eqn:E.
  apply memory_reservation in E. split.
  - intros [= <- <-]. by exists r1.
  - intros (status & -> & H). apply memory_reservation in H, E. rewrite E in H. by injection H as -> ->.
Qed.

Lemma memory_fresh s tenant nonce key intent s' :
  reserve_once s tenant nonce key intent = (s', Ok RESERVED) →
  ¬ is_Some (s.(ml_nonces) !! (tenant, nonce)) ∧ ¬ is_Some (s.(ml_idempotency) !! (tenant, key)) ∧
  is_Some (s'.(ml_nonces) !! (tenant, nonce)) ∧ is_Some (s'.(ml_idempotency) !! (tenant, key)).
Proof.
  intros (status & [= <-] & H)%memory_step. inversion H as [| | | |H1 H2 H3]; subst.
  cbn [ml_nonces ml_idempotency]. rewrite !lookup_insert_eq, H1, H2, <- !eq_None_not_Some. eauto.
Qed.

Lemma memory_keeps s tenant nonce key intent s' r x :
  reserve_once s tenant nonce key intent = (s', r) →
  (is_Some (s.(ml_nonces) !! x) → is_Some (s'.(ml_nonces) !! x)) ∧
  (is_Some (s.(ml_idempotency) !! x) → is_Some (s'.(ml_idempotency) !! x)).
Proof.
  intros (status & -> & H)%memory_step. inversion H; subst; try done.
  split; apply is_Some_insert.
Qed.

#[export] Instance memory_ledger_laws : ReplayLedgerLaws InMemoryReplayLedger := {|
  holds_nonce s k := is_Some (s.(ml_nonces) !! k);
  holds_key s k := is_Some (s.(ml_idempotency) !! k);
  reserve_fresh := memory_fresh;
  reserve_keeps := memory_keeps;
|}.

(** The in-memory ledger in full: a reservation takes exactly one of five branches, a
    refusal leaves the ledger as it was, and in every reachable ledger each intent holds
    one nonce and one idempotency key, at most [capacity] of them, so a ledger that is
    not full always reserves a fresh pair. *)
Lemma memory_ledger_contract (s : InMemoryReplayLedger) (tenant nonce key intent : string) :
  ledger_reachable s →
  1 ≤ s.(ml_capacity) ≤ 1000000 ∧ Z.of_nat (size s.(ml_nonces)) ≤ s.(ml_capacity) ∧
  size s.(ml_idempotency) = size s.(ml_nonces) ∧
  ∃ s' r, memory_reserve_once s tenant nonce key intent = (s', r) ∧
    reservation s tenant nonce key intent s' r ∧ (r ≠ RESERVED → s' = s) ∧ ledger_reachable s' ∧
    (r = RESERVED ↔ s.(ml_nonces) !! (tenant, nonce) = None ∧ s.(ml_idempotency) !! (tenant, key) = None ∧
       Z.of_nat (size s.(ml_nonces)) < s.(ml_capacity)).
Proof.
  intros Hs. assert (1 ≤ s.(ml_capacity) ≤ 1000000 ∧ Z.of_nat (size s.(ml_nonces)) ≤ s.(ml_capacity) ∧
    size s.(ml_idempotency) = size s.(ml_nonces)) as Hinv.
  { induction Hs as [capacity s H|s t n k i s' r _ (IH1 & IH2 & IH3) H].
    - unfold ledger_init in H. apply bind_Ok in H as (? & Hc%require_Ok & [= <-]).
      apply negb_true_iff, orb_false_iff in Hc as [?%Z.ltb_ge ?%Z.ltb_ge]. cbn. rewrite map_size_empty. lia.
    - apply memory_reservation in H. inversion H; subst; try done. cbn [ml_nonces ml_idempotency ml_capacity].
      rewrite !map_size_insert_None by done. lia. }
  destruct Hinv as (H1 & H2 & H3). do 3 (split; [done|]).
  destruct (memory_reserve_once s tenant nonce key intent) as [s' r] eqn:E. exists s', r.
  split; [done|]. pose proof E as Hr. apply memory_reservation in Hr.
  split; [done|]. split; [by inversion Hr; subst|]. split; [by eapply lr_step|].
  inversion Hr; subst; split; try done; intros (A1 & A2 & A3); try congruence; try lia.
  all: try match goal with H : is_Some _ |- _ => destruct H; congruence end.
Qed.

(** ** The revocation snapshot *)
Record ApprovalRevocationEntry := mk_ApprovalRevocationEntry {
  re_tenant_id : string; re_approval_id : string; re_approval_scope_sha256 : string;
  re_status : ApprovalRevocationStatus }.
Definition ApprovalRevocationEntry_validate (x : ApprovalRevocationEntry) : result ApprovalRevocationEntry :=
  _ ← require (is_identifier x.(re_tenant_id) && is_identifier x.(re_approval_id) &&
               is_sha256 x.(re_approval_scope_sha256)) (value_error "constraint"); Ok x.

Record ApprovalRevocationSnapshot := mk_ApprovalRevocationSnapshot {
  sn_snapshot_version : string; sn_as_of : datetime; sn_valid_until : datetime;
  sn_entries : list ApprovalRevocationEntry }.
Definition entry_key (e : ApprovalRevocationEntry) : LedgerKey := (e.(re_tenant_id), e.(re_approval_id)).
Definition ApprovalRevocationSnapshot_validate (x : ApprovalRevocationSnapshot)
    : result ApprovalRevocationSnapshot :=
  _ ← require (String.eqb x.(sn_snapshot_version) "proofflow.approval-revocations/v0.1" &&
               size_between 0 MAX_REVOCATION_ENTRIES x.(sn_entries)) (value_error "constraint");
  as_of ← _require_aware x.(sn_as_of) "approval revocation snapshot as_of";
  valid_until ← _require_aware x.(sn_valid_until) "approval revocation snapshot valid_until";
  _ ← mapR ApprovalRevocationEntry_validate x.(sn_entries);
  early ← dt_ltb valid_until as_of;
  _ ← require (negb early) (ValueError "approval revocation valid_until must not precede as_of");
  _ ← require (unique (map entry_key x.(sn_entries)))
        (ValueError "approval revocation entries must be unique");
  Ok x.

(** [{key: value for entry in entries}]: a later entry replaces an earlier one. *)
Definition snapshot_entries (x : ApprovalRevocationSnapshot)
    : gmap LedgerKey (string * ApprovalRevocationStatus) :=
  list_to_map (rev (map (λ e, (entry_key e, (e.(re_approval_scope_sha256), e.(re_status)))) x.(sn_entries))).

(** [SnapshotApprovalRevocationResolver(x).resolve(...)] *)
Definition snapshot_resolve (x : ApprovalRevocationSnapshot) (tenant_id approval_id approval_scope_sha256 : string)
    (as_of : datetime) : result ApprovalRevocationStatus :=
  verification_time ← _require_aware as_of "approval revocation verification time";
  before ← dt_ltb verification_time x.(sn_as_of);
  after ← (if (before : bool) then Ok false else dt_ltb x.(sn_valid_until) verification_time);
  if before || after then Ok REVOCATION_UNKNOWN
  else
    match snapshot_entries x !! (tenant_id, approval_id) with
    | Some (scope, status) =>
        if String.eqb scope approval_scope_sha256 then Ok status else Ok REVOCATION_UNKNOWN
    | None => Ok REVOCATION_UNKNOWN
    end.

(** A lookup of approval revocations; it may raise anything. *)
Definition Resolver : Type := string → string → string → datetime → result ApprovalRevocationStatus.

(** The snapshot resolver fails closed: for an aware time it always answers, and it
    answers ACTIVE or REVOKED exactly when the snapshot is valid at that time and
    has an entry of that tenant and approval with that scope and status. *)
Lemma snapshot_resolve_exact (x : ApprovalRevocationSnapshot) (tenant approval scope : string)
    (now : datetime) :
  ApprovalRevocationSnapshot_validate x = Ok x → is_aware now = true →
  ∃ status, snapshot_resolve x tenant approval scope now = Ok status ∧
    (status ≠ REVOCATION_UNKNOWN → mk_ApprovalRevocationEntry tenant approval scope status ∈ x.(sn_entries)) ∧
    ∀ given, mk_ApprovalRevocationEntry tenant approval scope given ∈ x.(sn_entries) →
      dt_ltb now x.(sn_as_of) = Ok false → dt_ltb x.(sn_valid_until) now = Ok false → status = given.
Proof.
  unfold ApprovalRevocationSnapshot_validate. intros H Ha.
  apply bind_Ok in H as (? & _ & H). apply bind_Ok in H as (as_of & H1 & H).
  apply bind_Ok in H as (until & H2 & H). apply bind_Ok in H as (? & _ & H).
  apply bind_Ok in H as (? & _ & H). apply bind_Ok in H as (? & _ & H).
  apply bind_Ok in H as (? & Hu%require_Ok%bool_decide_eq_true & _).
  apply bind_Ok in H1 as (? & H1%require_Ok & _). apply bind_Ok in H2 as (? & H2%require_Ok & _).
  assert (∀ v, snapshot_entries x !! (tenant, approval) = Some v ↔
    mk_ApprovalRevocationEntry tenant approval (fst v) (snd v) ∈ x.(sn_entries)) as Hlook.
  { intros [sc st]. unfold snapshot_entries. rewrite <- elem_of_list_to_map.
    - rewrite list_elem_of_In, <- in_rev, in_map_iff. split.
      + intros (e & Hk & He). unfold entry_key in Hk. injection Hk as <- <- <- <-.
        apply list_elem_of_In. by destruct e.
      + intros He%list_elem_of_In. exists (mk_ApprovalRevocationEntry tenant approval sc st). by split.
    - rewrite <- Permutation_rev. change (NoDup (map fst (map (λ e, (entry_key e,
        (e.(re_approval_scope_sha256), e.(re_status)))) x.(sn_entries)))). by rewrite map_map. }
  unfold snapshot_resolve, _require_aware. rewrite Ha. cbn [require mbind result_bind].
  destruct (dt_ltb now (sn_as_of x)) as [b1|e1] eqn:E1; [|by destruct now, (sn_as_of x)].
  cbn [mbind result_bind]. destruct b1; [cbn; by exists REVOCATION_UNKNOWN|]. cbn [mbind result_bind].
  destruct (dt_ltb (sn_valid_until x) now) as [b2|e2] eqn:E2; [|by destruct now, (sn_valid_until x)].
  cbn [mbind result_bind orb]. destruct b2; [by exists REVOCATION_UNKNOWN|].
  destruct (snapshot_entries x !! (tenant, approval)) as [[sc st]|] eqn:El.
  - pose proof (proj1 (Hlook (sc, st)) eq_refl) as Hin. cbn [fst snd] in Hin.
    destruct (String.eqb_spec sc scope) as [->|Hne].
    + exists st. split; [done|]. split; [done|]. intros given Hg _ _.
      pose proof (proj2 (Hlook (scope, given)) Hg). congruence.
    + exists REVOCATION_UNKNOWN. split; [done|]. split; [done|]. intros given Hg _ _.
      pose proof (proj2 (Hlook (scope, given)) Hg). congruence.
  - exists REVOCATION_UNKNOWN. split; [done|]. split; [done|]. intros given Hg _ _.
    pose proof (proj2 (Hlook (scope, given)) Hg). congruence.
Qed.

(** ** Examples *)
Definition demo_ledger : InMemoryReplayLedger := mk_InMemoryReplayLedger 2 ∅ ∅.
Lemma memory_ledger_contract_witness :
  ∃ s' r, memory_reserve_once demo_ledger "TENANT-1" "NONCE-1" "KEY-1" "INTENT-1" = (s', r) ∧ ledger_reachable s'.
Proof.
  assert (ledger_reachable demo_ledger) as Hr by (apply (lr_init 2); reflexivity).
  destruct (memory_ledger_contract demo_ledger "TENANT-1" "NONCE-1" "KEY-1" "INTENT-1" Hr)
    as (_ & _ & _ & s' & r & H & _ & _ & H' & _).
  exists s', r. split; [exact H|exact H'].
Defined.

Definition demo_scope : string :=
  "sha256:e3b0c44298fc1c149afbf4c8996fb92427ae41e4649b934ca495991b7852b855".
Definition demo_entry : ApprovalRevocationEntry :=
  mk_ApprovalRevocationEntry "TENANT-1" "APPROVAL-1" demo_scope ACTIVE.
Definition demo_snapshot : ApprovalRevocationSnapshot :=
  mk_ApprovalRevocationSnapshot "proofflow.approval-revocations/v0.1" (Aware 1000) (Aware 3000) [demo_entry].
Lemma snapshot_resolve_exact_witness :
  ∃ status, snapshot_resolve demo_snapshot "TENANT-1" "APPROVAL-1" demo_scope (Aware 2000) = Ok status ∧
    status = ACTIVE.
Proof.
  destruct (snapshot_resolve_exact demo_snapshot "TENANT-1" "APPROVAL-1" demo_scope (Aware 2000))
    as (status & H & _ & Ha); [vm_compute; reflexivity|reflexivity|].
  exists status. split; [exact H|]. apply Ha; [left|reflexivity|reflexivity].
Defined.
