(* ===== verification/StateMachine.v ===== *)
(** * state_machine.py: the case state machine

    [transition_case] is the only way a case changes state.  [permitted] states
    the workflow as a relation, one constructor per edge with its condition;
    [run] composes transitions, each applied to the case the previous one
    returned.  The [actor_identity] and [trace_id] of a request stand for the text
    pydantic keeps of them, which is stripped. *)
From S2P Require Import Prelude Json PyTime PyDecimal Canonical Platforms Models.
Local Open Scope Z_scope.

Record TransitionContext := mk_TransitionContext {
  tc_manifest_valid : bool;
  tc_input_hashes_match : bool;
  tc_evidence_complete : bool;
  tc_has_blocking_issue : bool;
  tc_rules_valid : bool;
  tc_calculation_complete : bool;
  tc_proposal_complete : bool;
  tc_audit_verdict : option AuditVerdict;
  tc_approval_decision : option ApprovalDecision;
  tc_approval_valid : bool;
  tc_package_valid : bool;
  tc_close_confirmed : bool;
  tc_actor_role : option string;
  tc_required_approval_role : option string;
}.

(** [TransitionContext()] *)
Definition default_context : TransitionContext :=
  mk_TransitionContext false false false false false false false None None false false false
    None None.

Definition ALLOWED_TRANSITIONS (s : CaseState) : list CaseState :=
  match s with
  | CaseState.RECEIVED => [CaseState.INGESTING]
  | CaseState.INGESTING => [CaseState.NEEDS_EVIDENCE; CaseState.FACTS_READY]
  | CaseState.NEEDS_EVIDENCE => [CaseState.INGESTING; CaseState.REJECTED]
  | CaseState.FACTS_READY => [CaseState.RULES_READY; CaseState.NEEDS_EVIDENCE]
  | CaseState.RULES_READY => [CaseState.CALC_READY; CaseState.NEEDS_EVIDENCE]
  | CaseState.CALC_READY => [CaseState.PROPOSAL_READY; CaseState.NEEDS_EVIDENCE]
  | CaseState.PROPOSAL_READY => [CaseState.AUDIT_BLOCKED; CaseState.AWAITING_APPROVAL]
  | CaseState.AUDIT_BLOCKED => [CaseState.REVISION_REQUIRED]
  | CaseState.AWAITING_APPROVAL =>
      [CaseState.APPROVED; CaseState.REJECTED; CaseState.REVISION_REQUIRED]
  | CaseState.APPROVED => [CaseState.PACKAGED; CaseState.REVISION_REQUIRED]
  | CaseState.REJECTED => [CaseState.CLOSED]
  | CaseState.REVISION_REQUIRED => [CaseState.INGESTING; CaseState.CLOSED]
  | CaseState.PACKAGED => [CaseState.CLOSED; CaseState.REVISION_REQUIRED]
  | CaseState.CLOSED => []
  end.

Definition _require (condition : bool) (message : string) : result unit :=
  require condition (TransitionRejected message).

(** [bool(text_or_none)] *)
Definition truthy (s : option string) : bool :=
  match s with Some t => min_length_1 t | None => false end.

(** The [if]/[elif] chain, tested in the order of the code. *)
Definition _validate_guard (current target : CaseState) (actor_kind : ActorKind)
    (context : TransitionContext) : result unit :=
  if decide (target = CaseState.INGESTING ∧ current = CaseState.RECEIVED) then
    _ ← _require context.(tc_manifest_valid) "input manifest is not valid";
    _require context.(tc_input_hashes_match) "one or more declared input hashes do not match"
  else if decide (target = CaseState.FACTS_READY) then
    _ ← _require context.(tc_evidence_complete) "evidence processing is incomplete";
    _require (negb context.(tc_has_blocking_issue)) "blocking evidence issue remains"
  else if decide (target = CaseState.NEEDS_EVIDENCE) then
    _require context.(tc_has_blocking_issue) "NEEDS_EVIDENCE requires a recorded blocking issue"
  else if decide (target = CaseState.RULES_READY) then
    _ ← _require context.(tc_rules_valid) "authoritative rules are incomplete or invalid";
    _require (negb context.(tc_has_blocking_issue)) "blocking rule issue remains"
  else if decide (target = CaseState.CALC_READY) then
    _ ← _require context.(tc_calculation_complete) "deterministic calculation is incomplete";
    _require (negb context.(tc_has_blocking_issue)) "blocking calculation issue remains"
  else if decide (target = CaseState.PROPOSAL_READY) then
    _require context.(tc_proposal_complete) "no fully referenced proposal is available"
  else if decide (target = CaseState.AUDIT_BLOCKED) then
    _require (bool_decide (context.(tc_audit_verdict) = Some AuditVerdict.BLOCK ∨
                           context.(tc_audit_verdict) = Some AuditVerdict.REVISE))
      "AUDIT_BLOCKED requires a BLOCK or REVISE audit verdict"
  else if decide (target = CaseState.AWAITING_APPROVAL) then
    _ ← _require (bool_decide (context.(tc_audit_verdict) = Some AuditVerdict.PASS))
          "audit must PASS before approval";
    _require (negb context.(tc_has_blocking_issue)) "blocking issue remains before approval"
  else if decide (current = CaseState.AWAITING_APPROVAL) then
    _ ← _require (bool_decide (actor_kind = ActorKind.HUMAN))
          "approval transitions require a human actor";
    _ ← _require (truthy context.(tc_actor_role) &&
            bool_decide (context.(tc_actor_role) = context.(tc_required_approval_role)))
          "human actor does not hold the required approval role";
    if decide (target = CaseState.APPROVED) then
      _ ← _require (bool_decide (context.(tc_approval_decision) = Some ApprovalDecision.APPROVE))
            "approval is absent";
      _require context.(tc_approval_valid) "approval is expired or bound to stale artifacts"
    else if decide (target = CaseState.REJECTED) then
      _require (bool_decide (context.(tc_approval_decision) = Some ApprovalDecision.REJECT))
        "rejection is absent"
    else if decide (target = CaseState.REVISION_REQUIRED) then
      _require (bool_decide (context.(tc_approval_decision) = Some ApprovalDecision.REVISE) ||
                negb context.(tc_approval_valid))
        "revision requires REVISE or an invalidated approval"
    else Ok ()
  else if decide (target = CaseState.PACKAGED) then
    _ ← _require context.(tc_approval_valid) "current approval is invalid";
    _ ← _require (bool_decide (context.(tc_audit_verdict) = Some AuditVerdict.PASS))
          "current audit is not PASS";
    _require context.(tc_package_valid) "package manifest is incomplete or inconsistent"
  else if decide (target = CaseState.CLOSED) then
    _require context.(tc_close_confirmed) "closing a case requires explicit confirmation"
  else Ok ().

(** [case.model_copy(update={"state": ..., "state_version": ...})] *)
Definition with_state (s : CaseState) (v : Z) (x : CaseRecord) : CaseRecord :=
  mk_CaseRecord x.(case_case_id) x.(case_tenant_id) s v x.(case_jurisdiction)
    x.(case_as_of_date) x.(case_input_manifest_hash) x.(case_unresolved_items)
    x.(case_artifact_refs).

(** The keyword arguments of one call *)
Record TransitionRequest := mk_TransitionRequest {
  tr_target : CaseState;
  tr_expected_state_version : Z;
  tr_actor_identity : string;
  tr_actor_kind : ActorKind;
  tr_trace_id : string;
  tr_sequence : Z;
  tr_occurred_at : datetime;
  tr_context : TransitionContext;
}.

Section machine.
Context `{P : Platform}.

Definition transition_case (case : CaseRecord) (r : TransitionRequest)
    : result (CaseRecord * TraceEvent) :=
  _ ← _require (1 <=? r.(tr_sequence)) "trace sequence must be positive";
  _ ← _require (r.(tr_expected_state_version) =? case.(case_state_version))
        ("stale state version: expected " +:+ z_text r.(tr_expected_state_version) +:+
         ", current " +:+ z_text case.(case_state_version));
  _ ← _require (bool_decide (r.(tr_target) ∈ ALLOWED_TRANSITIONS case.(case_state)))
        ("illegal transition: " +:+ CaseState.value case.(case_state) +:+ " -> " +:+
         CaseState.value r.(tr_target));
  _ ← _validate_guard case.(case_state) r.(tr_target) r.(tr_actor_kind) r.(tr_context);
  let new_case := with_state r.(tr_target) (case.(case_state_version) + 1) case in
  input_hash ← sha256_digest (to_py case);
  output_hash ← sha256_digest (to_py new_case);
  event ← TraceEvent_validate
    (mk_TraceEvent r.(tr_sequence) r.(tr_trace_id) case.(case_tenant_id) case.(case_case_id)
      r.(tr_actor_identity) r.(tr_actor_kind) "case.state_transition" (Some input_hash)
      (Some output_hash) "SUCCESS" r.(tr_occurred_at) None);
  Ok (new_case, event).

(** Successive transitions of one case, with the events in order *)
Fixpoint run (case : CaseRecord) (rs : list TransitionRequest)
    : result (CaseRecord * list TraceEvent) :=
  match rs with
  | [] => Ok (case, [])
  | r :: rs =>
      '(case1, e) ← transition_case case r;
      '(case2, es) ← run case1 rs;
      Ok (case2, e :: es)
  end.
End machine.

(** ** The workflow as a relation *)

(** A human holding the role the approval requires *)
Definition human_with_role (k : ActorKind) (x : TransitionContext) : Prop :=
  k = ActorKind.HUMAN ∧ ∃ role, role ≠ "" ∧ x.(tc_actor_role) = Some role ∧
  x.(tc_required_approval_role) = Some role.

Inductive permitted (k : ActorKind) (x : TransitionContext) : CaseState → CaseState → Prop :=
| p_ingest : tc_manifest_valid x = true → tc_input_hashes_match x = true →
    permitted k x CaseState.RECEIVED CaseState.INGESTING
| p_facts : tc_evidence_complete x = true → tc_has_blocking_issue x = false →
    permitted k x CaseState.INGESTING CaseState.FACTS_READY
| p_needs s : s ∈ [CaseState.INGESTING; CaseState.FACTS_READY; CaseState.RULES_READY;
                   CaseState.CALC_READY] →
    tc_has_blocking_issue x = true → permitted k x s CaseState.NEEDS_EVIDENCE
| p_retry s : s = CaseState.NEEDS_EVIDENCE ∨ s = CaseState.REVISION_REQUIRED →
    permitted k x s CaseState.INGESTING
| p_abandon : permitted k x CaseState.NEEDS_EVIDENCE CaseState.REJECTED
| p_rules : tc_rules_valid x = true → tc_has_blocking_issue x = false →
    permitted k x CaseState.FACTS_READY CaseState.RULES_READY
| p_calc : tc_calculation_complete x = true → tc_has_blocking_issue x = false →
    permitted k x CaseState.RULES_READY CaseState.CALC_READY
| p_proposal : tc_proposal_complete x = true →
    permitted k x CaseState.CALC_READY CaseState.PROPOSAL_READY
| p_blocked v : tc_audit_verdict x = Some v → v ≠ AuditVerdict.PASS →
    permitted k x CaseState.PROPOSAL_READY CaseState.AUDIT_BLOCKED
| p_await : tc_audit_verdict x = Some AuditVerdict.PASS → tc_has_blocking_issue x = false →
    permitted k x CaseState.PROPOSAL_READY CaseState.AWAITING_APPROVAL
| p_approve : human_with_role k x → tc_approval_decision x = Some ApprovalDecision.APPROVE →
    tc_approval_valid x = true → permitted k x CaseState.AWAITING_APPROVAL CaseState.APPROVED
| p_reject : human_with_role k x → tc_approval_decision x = Some ApprovalDecision.REJECT →
    permitted k x CaseState.AWAITING_APPROVAL CaseState.REJECTED
| p_revise : human_with_role k x →
    tc_approval_decision x = Some ApprovalDecision.REVISE ∨ tc_approval_valid x = false →
    permitted k x CaseState.AWAITING_APPROVAL CaseState.REVISION_REQUIRED
| p_package : tc_approval_valid x = true → tc_audit_verdict x = Some AuditVerdict.PASS →
    tc_package_valid x = true → permitted k x CaseState.APPROVED CaseState.PACKAGED
| p_reopen s : s ∈ [CaseState.AUDIT_BLOCKED; CaseState.APPROVED; CaseState.PACKAGED] →
    permitted k x s CaseState.REVISION_REQUIRED
| p_close s : s ∈ [CaseState.REJECTED; CaseState.REVISION_REQUIRED; CaseState.PACKAGED] →
    tc_close_confirmed x = true → permitted k x s CaseState.CLOSED.

Lemma human_with_role_spec k x : human_with_role k x ↔
  k = ActorKind.HUMAN ∧
  truthy x.(tc_actor_role) && bool_decide (x.(tc_actor_role) = x.(tc_required_approval_role)) = true.
Proof.
  unfold human_with_role. rewrite andb_true_iff, bool_decide_eq_true.
  destruct (tc_actor_role x) as [r|]; simpl.
  - unfold min_length_1. rewrite negb_true_iff, String.eqb_neq. split.
    + intros (-> & ? & ? & [= <-] & ->). done.
    + intros (-> & ? & H). split; [done|]. exists r. by rewrite <- H.
  - naive_solver.
Qed.

Lemma _require_Ok b m : _require b m = Ok () ↔ b = true.
Proof. unfold _require. apply require_Ok. Qed.

Lemma _require_bind b m (f : unit → result unit) :
  _require b m ≫= f = Ok () ↔ b = true ∧ f () = Ok ().
Proof. destruct b; simpl; naive_solver. Qed.

(** The guards and the table of the code implement the relation. *)
Lemma guard_permitted s t k x :
  t ∈ ALLOWED_TRANSITIONS s ∧ _validate_guard s t k x = Ok () ↔ permitted k x s t.
Proof.
  split.
  - intros [Ht Hg]. destruct s; simpl in Ht; repeat (apply elem_of_cons in Ht as [->|Ht]);
      try (by apply not_elem_of_nil in Ht); unfold _validate_guard in Hg; simpl in Hg;
      rewrite ?_require_bind, ?_require_Ok, ?bool_decide_eq_true, ?negb_true_iff, ?orb_true_iff,
        ?bool_decide_eq_true, ?negb_true_iff in Hg.
    all: try (destruct Hg as (Hk & Hr & Hg);
      assert (human_with_role k x) by by apply human_with_role_spec).
    all: try (constructor; set_solver).
    destruct Hg as [Hg|Hg]; by eapply p_blocked.
  - intros Hp. split.
    + destruct Hp; elem_cases; destruct_or?; subst; elem_here.
    + destruct Hp; try (match goal with H : human_with_role _ _ |- _ =>
        apply human_with_role_spec in H as [-> Hr] end);
      elem_cases; destruct_or?; subst; unfold _validate_guard; simpl;
      rewrite ?_require_bind, ?_require_Ok, ?bool_decide_eq_true, ?negb_true_iff, ?orb_true_iff,
        ?bool_decide_eq_true, ?negb_true_iff; try naive_solver.
      destruct v; naive_solver.
Qed.

(** ** One transition *)
Section transition_facts.
Context `{P : Platform}.

Lemma CaseRecord_wf (c : CaseRecord) : wf_py (to_py c) = true.
Proof.
  unfold to_py at 1, CaseRecord_to_py. cbn [wf_py]. apply andb_true_iff. split; [reflexivity|].
  assert (∀ l : list string, forallb wf_py (map to_py l) = true) as Hl
    by (induction l; simpl; auto).
  simpl. by rewrite !Hl.
Qed.

(** What the guards before the digests amount to *)
Definition admissible (case : CaseRecord) (r : TransitionRequest) : Prop :=
  1 ≤ r.(tr_sequence) ∧ r.(tr_expected_state_version) = case.(case_state_version) ∧
  permitted r.(tr_actor_kind) r.(tr_context) case.(case_state) r.(tr_target).

Lemma transition_Ok case r c' e :
  transition_case case r = Ok (c', e) ↔
  admissible case r ∧ is_aware r.(tr_occurred_at) = true ∧
  c' = with_state r.(tr_target) (case.(case_state_version) + 1) case ∧
  ∃ h h', sha256_digest (to_py case) = Ok h ∧ sha256_digest (to_py c') = Ok h' ∧
    e = mk_TraceEvent r.(tr_sequence) r.(tr_trace_id) case.(case_tenant_id) case.(case_case_id)
      r.(tr_actor_identity) r.(tr_actor_kind) "case.state_transition" (Some h) (Some h')
      "SUCCESS" r.(tr_occurred_at) None.
Proof.
  unfold transition_case, admissible, _require, TraceEvent_validate.
  rewrite <- guard_permitted. split.
  - intros H. apply bind_Ok in H as (? & H1%require_Ok & H).
    apply bind_Ok in H as (? & H2%require_Ok & H). apply bind_Ok in H as (? & H3%require_Ok & H).
    apply bind_Ok in H as ([] & H4 & H). apply bind_Ok in H as (h & Hh & H).
    apply bind_Ok in H as (h' & Hh' & H). apply bind_Ok in H as (e' & He & [= <- <-]).
    apply bind_Ok in He as (? & _ & He). apply bind_Ok in He as (? & Ha%require_Ok & [= <-]).
    apply Z.leb_le in H1. apply Z.eqb_eq in H2. apply bool_decide_eq_true in H3.
    repeat split; try done. exists h, h'. done.
  - intros ((H1 & H2 & H3 & H4) & Ha & -> & h & h' & Hh & Hh' & ->).
    apply Z.leb_le in H1. rewrite H1. apply Z.eqb_eq in H2. rewrite H2.
    rewrite bool_decide_eq_true_2 by done. rewrite H4. simpl. rewrite Hh. simpl. rewrite Hh'. simpl.
    rewrite H1. simpl. rewrite Ha. done.
Qed.

Lemma transition_cases (case : CaseRecord) (r : TransitionRequest) :
  is_aware r.(tr_occurred_at) = true →
  (admissible case r ∧ ∃ e, transition_case case r =
     Ok (with_state r.(tr_target) (case.(case_state_version) + 1) case, e)) ∨
  (¬ admissible case r ∧ ∃ m, transition_case case r = Raise (TransitionRejected m)).
Proof.
  intros Ha. destruct (transition_case case r) as [[c' e]|ex] eqn:E.
  - left. apply transition_Ok in E as E'. destruct E' as (Had & _ & -> & _). eauto.
  - right. split.
    + intros Had.
      destruct (digest_total [] (to_py case) (CaseRecord_wf _)) as [h Hh].
      destruct (digest_total [] (to_py (with_state r.(tr_target) (case.(case_state_version) + 1) case))
        (CaseRecord_wf _)) as [h' Hh'].
      assert (∃ x, transition_case case r = Ok x) as [x Hx]; [|congruence].
      eexists (_, _). apply transition_Ok. split; [done|]. split; [done|]. split; [done|].
      exists h, h'. repeat split; done.
    + unfold transition_case, _require, TraceEvent_validate in E.
      apply bind_Raise in E as [[_ ->]%require_Raise|(? & H1%require_Ok & E)]; [by eexists|].
      apply bind_Raise in E as [[_ ->]%require_Raise|(? & _ & E)]; [by eexists|].
      apply bind_Raise in E as [[_ ->]%require_Raise|(? & _ & E)]; [by eexists|].
      apply bind_Raise in E as [E|(? & _ & E)].
      * assert (∀ k x s t e, _validate_guard s t k x = Raise e →
          ∃ m, e = TransitionRejected m) as Hg; [|apply Hg in E as [m ->]; by eexists].
        clear. intros k x s t e. unfold _validate_guard, _require.
        repeat case_decide; intros HR;
          repeat first [ apply bind_Raise in HR as [HR|(? & _ & HR)]
                       | apply require_Raise in HR as [_ ->]; by eexists | discriminate HR ].
      * destruct (digest_total [] (to_py case) (CaseRecord_wf _)) as [h Hh].
        destruct (digest_total [] (to_py (with_state r.(tr_target) (case.(case_state_version) + 1) case))
          (CaseRecord_wf _)) as [h' Hh'].
        unfold sha256_digest in E. rewrite Hh in E. simpl in E. rewrite Hh' in E. simpl in E.
        rewrite H1 in E. simpl in E. rewrite Ha in E. discriminate.
Qed.

(** Functional correctness of [transition_case]: it returns exactly when the
    sequence number is positive, the expected version is the current one, the
    workflow permits the edge for this actor and context, and the event time is
    timezone-aware; every other request on a timezone-aware time raises TransitionRejected. *)
Lemma transition_case_total (case : CaseRecord) (r : TransitionRequest) :
  is_aware r.(tr_occurred_at) = true →
  (admissible case r ∧ ∃ e, transition_case case r =
     Ok (with_state r.(tr_target) (case.(case_state_version) + 1) case, e)) ∨
  (¬ admissible case r ∧ ∃ m, transition_case case r = Raise (TransitionRejected m)).
Proof. apply transition_cases. Qed.

(** Optimistic concurrency: a request that was applied once is stale on the
    case it produced, so applying it again raises TransitionRejected. *)
Lemma transition_not_replayable (case c' : CaseRecord) (r : TransitionRequest) (e : TraceEvent) :
  transition_case case r = Ok (c', e) →
  ∃ m, transition_case c' r = Raise (TransitionRejected m).
Proof.
  intros (Had & Ha & -> & _)%transition_Ok.
  destruct (transition_cases (with_state r.(tr_target) (case.(case_state_version) + 1) case) r Ha)
    as [[(_ & Hv & _) _]|[_ Hm]]; [|done].
  destruct Had as (_ & Hv' & _). simpl in Hv. lia.
Qed.

(** ** Runs *)
Lemma run_cons c r rs c2 es : run c (r :: rs) = Ok (c2, es) ↔
  ∃ c1 e es1, transition_case c r = Ok (c1, e) ∧ run c1 rs = Ok (c2, es1) ∧ es = e :: es1.
Proof.
  simpl. rewrite bind_Ok. split.
  - intros ([c1 e] & H1 & H). apply bind_Ok in H as ([c2' es1] & H2 & [= -> <-]). eauto 6.
  - intros (c1 & e & es1 & H1 & H2 & ->). exists (c1, e). rewrite H2. done.
Qed.

Lemma run_snoc c rs r c2 es : run c (rs ++ [r]) = Ok (c2, es) →
  ∃ c1 es1 e, run c rs = Ok (c1, es1) ∧ transition_case c1 r = Ok (c2, e) ∧ es = es1 ++ [e].
Proof.
  revert c es; induction rs as [|r0 rs IH]; intros c es.
  - intros (c1 & e & es1 & H1 & [= -> <-] & ->)%run_cons. by exists c, [], e.
  - intros (c1 & e & es1 & H1 & H2 & ->)%run_cons.
    destruct (IH _ _ H2) as (c3 & es3 & e3 & H3 & H4 & ->).
    exists c3, (e :: es3), e3. split; [|done]. apply run_cons. eauto 6.
Qed.

(** The fields a transition does not touch *)
Definition same_case (c c' : CaseRecord) : Prop := ∃ s v, c' = with_state s v c.

Lemma run_frame c rs c' es : run c rs = Ok (c', es) →
  same_case c c' ∧ c'.(case_state_version) = c.(case_state_version) + Z.of_nat (length rs).
Proof.
  revert c es; induction rs as [|r rs IH]; intros c es.
  - intros [= -> <-]. split; [|simpl; lia].
    exists c'.(case_state), c'.(case_state_version). by destruct c'.
  - intros (c1 & e & es1 & (_ & _ & -> & _)%transition_Ok & H2 & ->)%run_cons.
    destruct (IH _ _ H2) as [(s & v & ->) Hv]. split.
    + exists s, v. by destruct c.
    + rewrite Hv. simpl. lia.
Qed.

(** The events of a run: each output hash is the next input hash. *)
Fixpoint hash_chain (h : string) (es : list TraceEvent) (h' : string) : Prop :=
  match es with
  | [] => h = h'
  | e :: es => e.(te_input_hash) = Some h ∧ ∃ k, e.(te_output_hash) = Some k ∧ hash_chain k es h'
  end.

(** Trace integrity of a run: the state version counts the transitions, no
    other field of the case changes, there is one event per request, and the
    events are a hash chain from the digest of the first case to that of the last. *)
Lemma run_trace (c c' : CaseRecord) (rs : list TransitionRequest) (es : list TraceEvent) :
  run c rs = Ok (c', es) →
  same_case c c' ∧ c'.(case_state_version) = c.(case_state_version) + Z.of_nat (length rs) ∧
  length es = length rs ∧
  ∃ h h', sha256_digest (to_py c) = Ok h ∧ sha256_digest (to_py c') = Ok h' ∧ hash_chain h es h'.
Proof.
  intros H. destruct (run_frame _ _ _ _ H) as [Hs Hv]. split; [done|]. split; [done|]. clear Hs Hv.
  revert c es H; induction rs as [|r rs IH]; intros c es.
  - intros [= -> <-]. split; [done|].
    destruct (digest_total [] (to_py c') (CaseRecord_wf _)) as [h Hh]. by exists h, h.
  - intros (c1 & e & es1 & H1 & H2 & ->)%run_cons.
    destruct (IH _ _ H2) as (Hlen & h1 & h2 & Hh1 & Hh2 & Hc).
    apply transition_Ok in H1 as (_ & _ & _ & h & h' & Hh & Hh' & ->).
    split; [simpl; lia|]. exists h, h2. repeat split; try done.
    exists h'. split; [done|]. congruence.
Qed.

(** C1. Human gate: a case that was not already awaiting approval, approved or
    packaged becomes PACKAGED only through three consecutive last transitions:
    an audit PASS with no blocking issue, an APPROVE decision of a human holding
    the required role, and a packaging under the valid approval and a PASS audit. *)
Theorem packaged_requires_human_approval (c c' : CaseRecord) (rs : list TransitionRequest)
    (es : list TraceEvent) :
  run c rs = Ok (c', es) → c'.(case_state) = CaseState.PACKAGED →
  c.(case_state) ∉ [CaseState.PACKAGED; CaseState.APPROVED; CaseState.AWAITING_APPROVAL] →
  ∃ pre audit approve package, rs = pre ++ [audit; approve; package] ∧
    audit.(tr_target) = CaseState.AWAITING_APPROVAL ∧
    audit.(tr_context).(tc_audit_verdict) = Some AuditVerdict.PASS ∧
    audit.(tr_context).(tc_has_blocking_issue) = false ∧
    approve.(tr_target) = CaseState.APPROVED ∧
    human_with_role approve.(tr_actor_kind) approve.(tr_context) ∧
    approve.(tr_context).(tc_approval_decision) = Some ApprovalDecision.APPROVE ∧
    approve.(tr_context).(tc_approval_valid) = true ∧
    package.(tr_target) = CaseState.PACKAGED ∧
    package.(tr_context).(tc_approval_valid) = true ∧
    package.(tr_context).(tc_audit_verdict) = Some AuditVerdict.PASS ∧
    package.(tr_context).(tc_package_valid) = true.
Proof.
  intros H Hc' Hc.
  assert (∀ rs c' es, run c rs = Ok (c', es) → c'.(case_state) ≠ c.(case_state) →
    ∃ pre r c1 es1, rs = pre ++ [r] ∧ run c pre = Ok (c1, es1) ∧ r.(tr_target) = c'.(case_state) ∧
      permitted r.(tr_actor_kind) r.(tr_context) c1.(case_state) c'.(case_state)) as Hlast.
  { clear. intros rs c' es H Hne. destruct rs as [|r pre _] using rev_ind.
    - injection H as -> _. done.
    - apply run_snoc in H as (c1 & es1 & e & H1 & H2 & ->).
      apply transition_Ok in H2 as ((_ & _ & Hp) & _ & -> & _). by exists pre, r, c1, es1. }
  rewrite !not_elem_of_cons in Hc. destruct Hc as (Hc1 & Hc2 & Hc3 & _).
  destruct (Hlast _ _ _ H) as (pre3 & package & c3 & es3 & -> & H3 & Ht3 & Hp3); [congruence|].
  rewrite Hc' in Hp3, Ht3. inversion Hp3 as [| | | | | | | | | | | | |Ha3 Hb3 Hd3 Hs| |]; subst.
  destruct (Hlast _ _ _ H3) as (pre2 & approve & c2 & es2 & -> & H2 & Ht2 & Hp2); [congruence|].
  rewrite <- Hs in Hp2, Ht2. inversion Hp2 as [| | | | | | | | | |Ha2 Hb2 Hd2 Hs2| | | | |]; subst.
  destruct (Hlast _ _ _ H2) as (pre1 & audit & c1 & es1 & -> & H1 & Ht1 & Hp1); [congruence|].
  rewrite <- Hs2 in Hp1, Ht1. inversion Hp1 as [| | | | | | | | |Ha1 Hb1 Hs1| | | | | |]; subst.
  exists pre1, audit, approve, package. rewrite <- !app_assoc. repeat (split; [done|]); done.
Qed.
End transition_facts.

(** ** A concrete case *)
#[local] Existing Instance toy_platform.

Definition demo_case : CaseRecord :=
  mk_CaseRecord "CASE-1" "TENANT-1" CaseState.RECEIVED 0 "CN-ZJ" (mk_date 2026 7 1) "sha256:m" []
    [].
Definition demo_context : TransitionContext :=
  mk_TransitionContext true true true false true true true (Some AuditVerdict.PASS)
    (Some ApprovalDecision.APPROVE) true true true (Some "HR_REVIEWER") (Some "HR_REVIEWER").
Definition demo_request (n : Z) (target : CaseState) : TransitionRequest :=
  mk_TransitionRequest target n "PF-A1" ActorKind.HUMAN "TRACE-1" (n + 1) (Aware (seconds n))
    demo_context.
Definition demo_path : list TransitionRequest :=
  [demo_request 0 CaseState.INGESTING; demo_request 1 CaseState.FACTS_READY;
   demo_request 2 CaseState.RULES_READY; demo_request 3 CaseState.CALC_READY;
   demo_request 4 CaseState.PROPOSAL_READY; demo_request 5 CaseState.AWAITING_APPROVAL;
   demo_request 6 CaseState.APPROVED; demo_request 7 CaseState.PACKAGED].

Lemma transition_case_total_witness :
  admissible demo_case (demo_request 0 CaseState.INGESTING) ∧
  ∃ e, transition_case demo_case (demo_request 0 CaseState.INGESTING) =
    Ok (with_state CaseState.INGESTING 1 demo_case, e).
Proof.
  destruct (transition_case_total demo_case (demo_request 0 CaseState.INGESTING))
    as [[Had He]|[Hn _]].
  - reflexivity.
  - split; [exact Had|exact He].
  - exfalso. apply Hn. split; [vm_compute; discriminate|]. split; [reflexivity|].
    apply p_ingest; reflexivity.
Defined.

Lemma transition_not_replayable_witness :
  ∃ m, transition_case (with_state CaseState.INGESTING 1 demo_case)
    (demo_request 0 CaseState.INGESTING) = Raise (TransitionRejected m).
Proof.
  eapply (transition_not_replayable demo_case _ (demo_request 0 CaseState.INGESTING)).
  vm_compute. reflexivity.
Defined.

Lemma run_trace_witness :
  ∃ c es h h', run demo_case demo_path = Ok (c, es) ∧ c.(case_state_version) = 8 ∧
    hash_chain h es h'.
Proof.
  destruct (run demo_case demo_path) as [[c es]|] eqn:E; [|vm_compute in E; discriminate E].
  destruct (run_trace demo_case c demo_path es E) as (_ & Hv & _ & h & h' & _ & _ & Hc).
  exists c, es, h, h'. split; [reflexivity|]. split; [exact Hv|exact Hc].
Defined.

Lemma packaged_requires_human_approval_witness :
  ∃ pre audit approve package, demo_path = pre ++ [audit; approve; package] ∧
    approve.(tr_actor_kind) = ActorKind.HUMAN.
Proof.
  destruct (run demo_case demo_path) as [[c es]|] eqn:E; [|vm_compute in E; discriminate E].
  destruct (packaged_requires_human_approval demo_case c demo_path es E)
    as (pre & r1 & r2 & r3 & Hp & _ & _ & _ & _ & [Hk _] & _).
  - vm_compute in E. injection E as <- _. reflexivity.
  - intros H. elem_cases; discriminate.
  - exists pre, r1, r2, r3. split; [exact Hp|exact Hk].
Defined.
