(* ===== verification/Common.v ===== *)
(** * factories.py and skills/common.py: identifiers, metadata and results *)
From S2P Require Import Prelude Json PyTime PyDecimal Canonical Platforms Models.
Local Open Scope Z_scope.

(** ** Results of a Skill *)
Definition issue (code severity message : string) (object_refs : list string)
    (needs_human : bool) : Issue :=
  mk_Issue code severity message object_refs false needs_human.
(** [Issue(code=..., severity="BLOCKER", message=...)] *)
Definition blocker (code message : string) : Issue := issue code "BLOCKER" message [] false.
Definition human_blocker (code message : string) : Issue := issue code "BLOCKER" message [] true.

Section common.
Context `{P : Platform}.

Definition stable_id (prefix : string) (value : pyval) : result string :=
  d ← sha256_digest value;
  Ok (prefix +:+ "-" +:+ str_take 20 (remove_prefix "sha256:" d)).

Definition artifact_meta (prefix identity : string) (context : SkillContext) (now : datetime)
    (payload_for_id : pyval) (source_refs : list string) : result ArtifactMeta :=
  artifact_id ← stable_id prefix payload_for_id;
  ArtifactMeta_validate
    (mk_ArtifactMeta artifact_id context.(ctx_tenant_id) context.(ctx_case_id) SCHEMA_VERSION
      identity context.(ctx_trace_id) now source_refs DataClassification.PUBLIC_SYNTHETIC None).

(** [SkillResult[T](status=BLOCKED, issues=..., input_hash=sha256_digest(request))] *)
Definition blocked {T} (request : pyval) (issues : list Issue) : result (SkillResult T) :=
  h ← sha256_digest request;
  Ok (mk_SkillResult SkillStatus.BLOCKED None issues h None []).

Definition denied {T} (context : SkillContext) (request : pyval) (expected_identity : string)
    : result (option (SkillResult T)) :=
  if String.eqb context.(ctx_caller_identity) expected_identity then Ok None
  else
    r ← blocked request
      [blocker "UNAUTHORIZED_CALLER"
         (context.(ctx_caller_identity) +:+ " cannot execute a Skill owned by " +:+
          expected_identity)];
    Ok (Some r).

Definition success {T} `{ToPy T} (request : pyval) (value : T) (emitted_refs : list string)
    : result (SkillResult T) :=
  i ← sha256_digest request;
  o ← sha256_digest (to_py value);
  Ok (mk_SkillResult SkillStatus.SUCCESS (Some value) [] i (Some o) emitted_refs).

(** [if result := denied(...): return result] before the body of a Skill *)
Definition unless_denied {T} (context : SkillContext) (request : pyval)
    (expected_identity : string) (handler : result (SkillResult T)) : result (SkillResult T) :=
  d ← denied context request expected_identity;
  match d with Some r => Ok r | None => handler end.

(** ** What callers learn from a result *)
Lemma blocked_Ok {T} request issues (r : SkillResult T) :
  blocked request issues = Ok r →
  r.(sr_status) = SkillStatus.BLOCKED ∧ r.(sr_value) = None ∧ r.(sr_issues) = issues.
Proof. unfold blocked. intros. inv_ok. done. Qed.

Lemma blocked_not_success {T} request issues (r : SkillResult T) :
  blocked request issues = Ok r → r.(sr_status) ≠ SkillStatus.SUCCESS.
Proof. by intros (-> & _)%blocked_Ok. Qed.

Lemma success_Ok {T} `{ToPy T} request (v : T) refs r :
  success request v refs = Ok r →
  r.(sr_status) = SkillStatus.SUCCESS ∧ r.(sr_value) = Some v ∧ r.(sr_issues) = [] ∧
  r.(sr_emitted_refs) = refs ∧ sha256_digest request = Ok r.(sr_input_hash) ∧
  ∃ h, sha256_digest (to_py v) = Ok h ∧ r.(sr_output_hash) = Some h.
Proof. unfold success. intros. inv_ok. eauto 10. Qed.

Lemma unless_denied_Ok {T} context request identity handler (r : SkillResult T) :
  unless_denied context request identity handler = Ok r →
  (context.(ctx_caller_identity) = identity ∧ handler = Ok r) ∨
  (context.(ctx_caller_identity) ≠ identity ∧ r.(sr_status) = SkillStatus.BLOCKED ∧
   r.(sr_value) = None ∧ iss_code <$> r.(sr_issues) = ["UNAUTHORIZED_CALLER"]).
Proof.
  unfold unless_denied, denied. destruct (String.eqb_spec (ctx_caller_identity context) identity).
  - intros H. left. split; [done|]. exact H.
  - intros H. right. apply bind_Ok in H as (d & Hd & H). apply bind_Ok in Hd as (b & Hb & [= <-]).
    injection H as <-. apply blocked_Ok in Hb as (-> & -> & ->). done.
Qed.

Lemma unless_denied_pass {T} context request identity (handler : result (SkillResult T)) :
  context.(ctx_caller_identity) = identity →
  unless_denied context request identity handler = handler.
Proof. intros <-. unfold unless_denied, denied. by rewrite String.eqb_refl. Qed.

(** A successful call passed the identity gate. *)
Lemma unless_denied_success {T} context request identity handler (r : SkillResult T) :
  unless_denied context request identity handler = Ok r → r.(sr_status) ≠ SkillStatus.BLOCKED →
  context.(ctx_caller_identity) = identity ∧ handler = Ok r.
Proof. intros [?|(_ & ? & _)]%unless_denied_Ok; done. Qed.

(** What [artifact_meta] puts in the metadata *)
Lemma artifact_meta_Ok prefix identity context now payload refs m :
  artifact_meta prefix identity context now payload refs = Ok m →
  ∃ i, stable_id prefix payload = Ok i ∧ is_aware now = true ∧
  m = mk_ArtifactMeta i context.(ctx_tenant_id) context.(ctx_case_id) SCHEMA_VERSION
        identity context.(ctx_trace_id) now refs DataClassification.PUBLIC_SYNTHETIC None.
Proof.
  unfold artifact_meta, ArtifactMeta_validate. intros H.
  apply bind_Ok in H as (i & Hi & H). apply bind_Ok in H as (? & _ & H).
  apply bind_Ok in H as (? & Ha%require_Ok & [= <-]). eauto.
Qed.

(** The scope of an artifact: [(tenant_id, case_id, trace_id)] *)
Definition context_scope (c : SkillContext) : string * string * string :=
  (c.(ctx_tenant_id), c.(ctx_case_id), c.(ctx_trace_id)).
Definition meta_scope (m : ArtifactMeta) : string * string * string :=
  (m.(meta_tenant_id), m.(meta_case_id), m.(meta_trace_id)).
End common.

(** ** Well-formed values *)
Lemma wf_strings (l : list string) : forallb wf_py (map to_py l) = true.
Proof. induction l; simpl; auto. Qed.

Lemma wf_string_list (l : list string) : wf_py (to_py l) = true.
Proof. apply wf_strings. Qed.

Lemma wf_option_string (o : option string) : wf_py (to_py o) = true.
Proof. by destruct o. Qed.

Lemma wf_dict (l : list (string * pyval)) :
  distinct_keys (map fst l) = true → Forall (λ kv, wf_py (snd kv) = true) l →
  wf_py (VDict l) = true.
Proof.
  intros Hk%distinct_keys_NoDup Hl. simpl. rewrite bool_decide_eq_true_2 by exact Hk.
  apply forallb_forall. intros kv Hkv. by eapply List.Forall_forall in Hl.
Qed.

Lemma wf_list `{ToPy A} (l : list A) :
  Forall (λ x, wf_py (to_py x) = true) l → wf_py (to_py l) = true.
Proof. intros Hl. simpl. induction Hl as [|x l Hx _ IH]; simpl; [done|]. by rewrite Hx. Qed.

Lemma wf_list_all `{ToPy A} (l : list A) :
  (∀ x : A, wf_py (to_py x) = true) → wf_py (to_py l) = true.
Proof. intros H1. apply wf_list, List.Forall_forall. auto. Qed.

Lemma wf_option_all `{ToPy A} (o : option A) :
  (∀ x : A, wf_py (to_py x) = true) → wf_py (to_py o) = true.
Proof. intros Hx. destruct o; [apply Hx|reflexivity]. Qed.

(** What a well-formed payload contains is well formed. *)
Lemma wf_dict_elem l k v : wf_py (VDict l) = true → (k, v) ∈ l → wf_py v = true.
Proof.
  simpl. intros [_ H]%andb_true_iff Hkv. rewrite forallb_forall in H.
  apply list_elem_of_In, (H (k, v)) in Hkv. done.
Qed.

Lemma wf_list_elem `{ToPy A} (l : list A) x : wf_py (to_py l) = true → x ∈ l → wf_py (to_py x) = true.
Proof.
  simpl. rewrite forallb_forall. intros H1 Hx. apply H1, in_map_iff. exists x.
  split; [done|]. by apply list_elem_of_In.
Qed.

Create HintDb wf.
#[export] Hint Resolve wf_string_list wf_option_string : wf.

(** [wf_solve] proves that a payload built from literal keys is canonicalizable. *)
Ltac wf_solve :=
  repeat first
    [ reflexivity
    | assumption
    | apply wf_dict; [reflexivity|]
    | apply List.Forall_nil
    | apply List.Forall_cons; [cbn [snd]|]
    | solve [auto with wf]
    | apply wf_list_all; intros ?
    | apply wf_option_all; intros ? ].

Lemma wf_meta (m : ArtifactMeta) : wf_py (to_py m) = is_aware m.(meta_created_at).
Proof.
  unfold to_py at 1, ArtifactMeta_to_py. cbn [wf_py]. rewrite bool_decide_eq_true_2.
  - cbn [forallb snd andb]. rewrite wf_string_list, wf_option_string. simpl.
    by rewrite !andb_true_r.
  - apply distinct_keys_NoDup. reflexivity.
Qed.

(** The wf of an artifact is that of its metadata and of its fields. *)
Lemma wf_artifact_spec `{ArtifactLaws A} (a : A) :
  wf_artifact a ↔ is_aware (meta a).(meta_created_at) = true ∧
    forallb (λ kv, wf_py (snd kv)) (body a) = true.
Proof.
  unfold wf_artifact, artifact_to_py. cbn [wf_py forallb snd map fst].
  rewrite bool_decide_eq_true_2 by apply body_keys. by rewrite wf_meta, andb_true_l, andb_true_iff.
Qed.

Lemma seal_wf `{P : Platform} `{ArtifactLaws A} (a b : A) :
  seal a = Ok b → wf_artifact a → wf_artifact b.
Proof.
  intros (h & Hm & Hb)%seal_meta. rewrite !wf_artifact_spec, Hb, Hm. done.
Qed.

(** A metadata record that has a canonical form carries an aware time. *)
Lemma meta_canonical_aware ex (m : ArtifactMeta) j :
  "created_at" ∉ ex → canonicalize ex (to_py m) = Ok j → is_aware m.(meta_created_at) = true.
Proof.
  intros Hex H. destruct (canonical_item ex _ j "created_at" (to_py m.(meta_created_at)) H)
    as (r & jv & _ & _ & Hc & _); [repeat constructor|done|].
  destruct (meta_created_at m); [|done]. discriminate Hc.
Qed.

Lemma artifact_canonical_aware `{Artifact A} ex (a : A) j :
  "created_at" ∉ ex → "meta" ∉ ex → canonicalize ex (artifact_to_py a) = Ok j →
  is_aware (meta a).(meta_created_at) = true.
Proof.
  intros Hex Hm Hc.
  destruct (canonical_item ex _ j "meta" (to_py (meta a)) Hc) as (r & jv & _ & _ & Hj & _);
    [by left|done|]. by eapply meta_canonical_aware.
Qed.

(** An Evidence object that has a canonical form is well formed. *)
Lemma evidence_canonical_wf (e : EvidenceObject) j :
  canonicalize [] (to_py e) = Ok j → wf_artifact e.
Proof.
  intros H. apply wf_artifact_spec. split.
  - apply (artifact_canonical_aware [] e j); [by apply not_elem_of_nil..|exact H].
  - destruct (canonical_item [] _ j "confidence" (to_py e.(ev_confidence)) H)
      as (r & jv & _ & _ & Hc & _); [repeat constructor|by apply not_elem_of_nil|].
    assert (is_finite e.(ev_confidence) = true) as Hf by (destruct (ev_confidence e); done).
    simpl. by rewrite Hf.
Qed.

(** ** Totality *)
Section total.
Context `{P : Platform}.

Definition valid_context (c : SkillContext) : Prop := SkillContext_validate c = Ok c.

Lemma valid_context_nonempty c : valid_context c →
  min_length_1 c.(ctx_tenant_id) = true ∧ min_length_1 c.(ctx_case_id) = true ∧
  min_length_1 c.(ctx_trace_id) = true.
Proof.
  unfold valid_context, SkillContext_validate.
  intros (? & H%require_Ok & _)%bind_Ok. by split_bools.
Qed.

Lemma context_wf (c : SkillContext) : wf_py (to_py c) = true.
Proof. wf_solve. Qed.

Lemma stable_id_total prefix v : wf_py v = true → ∃ i, stable_id prefix v = Ok i.
Proof.
  intros [h Hh]%(digest_total []). unfold stable_id, sha256_digest. rewrite Hh. by eexists.
Qed.

Lemma stable_id_nonempty c prefix v i :
  stable_id (String c prefix) v = Ok i → min_length_1 i = true.
Proof. unfold stable_id. intros (d & _ & [= <-])%bind_Ok. done. Qed.

Lemma artifact_meta_total c prefix identity context now payload refs :
  valid_context context → is_aware now = true → min_length_1 identity = true →
  wf_py payload = true →
  ∃ m, artifact_meta (String c prefix) identity context now payload refs = Ok m.
Proof.
  intros (H1 & H2 & H3)%valid_context_nonempty Ha Hi Hw.
  destruct (stable_id_total (String c prefix) payload Hw) as [i E].
  unfold artifact_meta. rewrite E. simpl. unfold ArtifactMeta_validate. simpl.
  rewrite (stable_id_nonempty _ _ _ _ E), H1, H2, H3, Hi. simpl. rewrite Ha. by eexists.
Qed.

Lemma blocked_total {T} request issues : wf_py request = true →
  ∃ r : SkillResult T, blocked request issues = Ok r.
Proof.
  intros [h Hh]%(digest_total []). unfold blocked, sha256_digest. rewrite Hh. by eexists.
Qed.

Lemma verify_hash_total `{Artifact A} (a : A) :
  wf_py (artifact_to_py a) = true → ∃ b, verify_hash a = Ok b.
Proof.
  intros Hw. unfold verify_hash. destruct (meta_content_hash (meta a)); [|by eexists].
  destruct (digest_total content_hash_key _ Hw) as [h ->]. by eexists.
Qed.

Lemma success_total {T} `{ToPy T} request (v : T) refs :
  wf_py request = true → wf_py (to_py v) = true → ∃ r, success request v refs = Ok r.
Proof.
  intros [h Hh]%(digest_total []) [o Ho]%(digest_total []).
  unfold success, sha256_digest. rewrite Hh. simpl. rewrite Ho. by eexists.
Qed.
End total.
