(* ===== verification/TrustedStore.v ===== *)
(** * trusted_store.py: the registry of locally ingested Evidence

    The store maps a key (tenant, case, trace, artifact id, content hash) to the
    canonical bytes of the Evidence.  The lock makes [register_all] and
    [contains] atomic, so any concurrent use is a sequence of them; what is
    computed before the lock is taken depends on the arguments only.  An
    exception leaves the store it was raised from: [register_all] returns the
    store together with the result. *)
From S2P Require Import Prelude Json PyTime PyDecimal Canonical Platforms Models Common.
Local Open Scope Z_scope.

Definition DEFAULT_TRUSTED_ARTIFACT_CAPACITY : Z := 4096.

Definition ArtifactKey : Type := string * string * string * string * string.

Record TrustedArtifactStore := mk_TrustedArtifactStore {
  ts_capacity : Z;
  ts_records : gmap ArtifactKey string;
}.

(** [TrustedArtifactStore(capacity)] *)
Definition store_init (capacity : Z) : result TrustedArtifactStore :=
  _ ← require (1 <=? capacity) (ValueError "trusted artifact capacity must be positive");
  Ok (mk_TrustedArtifactStore capacity ∅).

Definition registration_error (m : string) : exn := TrustedArtifactStoreRegistrationError m.

Section store.
Context `{P : Platform}.

Definition _key_from_artifact (evidence : EvidenceObject) : result ArtifactKey :=
  let m := evidence.(ev_meta) in
  match m.(meta_content_hash) with
  | None => Raise AssertionError
  | Some h => Ok (m.(meta_tenant_id), m.(meta_case_id), m.(meta_trace_id), m.(meta_artifact_id), h)
  end.

(** The loop body of [register_all] before the lock *)
Definition add_pending (pending : gmap ArtifactKey string) (item : EvidenceObject)
    : result (gmap ArtifactKey string) :=
  verified ← verify_hash item;
  _ ← require (verified && bool_decide (is_Some item.(ev_meta).(meta_content_hash)) &&
        String.eqb item.(ev_meta).(meta_producer_identity) "PF-A2" &&
        bool_decide (item.(ev_meta).(meta_classification) = DataClassification.PUBLIC_SYNTHETIC) &&
        bool_decide (item.(ev_fact_status) = FactStatus.VERIFIED))
      (registration_error "only verified PF-A2 PUBLIC_SYNTHETIC Evidence can be registered");
  key ← _key_from_artifact item;
  payload ← canonical_json [] (to_py item);
  _ ← require (match pending !! key with Some p => String.eqb p payload | None => true end)
      (registration_error "conflicting canonical Evidence share one registry key");
  Ok (<[key := payload]> pending).

(** No pending key is registered with another payload. *)
Definition no_replacement (pending records : gmap ArtifactKey string) : bool :=
  forallb (λ kp : ArtifactKey * string, match records !! fst kp with Some existing => String.eqb existing (snd kp) | None => true end)
    (map_to_list pending).

Definition register_all (s : TrustedArtifactStore) (evidence : list EvidenceObject)
    : TrustedArtifactStore * result unit :=
  match foldR add_pending ∅ evidence with
  | Raise e => (s, Raise e)
  | Ok pending =>
      if negb (no_replacement pending s.(ts_records)) then
        (s, Raise (registration_error "registered Evidence cannot be replaced"))
      else
        let new_keys := dom pending ∖ dom s.(ts_records) in
        if s.(ts_capacity) <? Z.of_nat (size s.(ts_records)) + Z.of_nat (size new_keys) then
          (s, Raise (TrustedArtifactStoreCapacityError "trusted artifact capacity would be exceeded"))
        else
          (mk_TrustedArtifactStore s.(ts_capacity) (pending ∪ s.(ts_records)), Ok ())
  end.

Definition contains (s : TrustedArtifactStore) (context : SkillContext) (evidence : EvidenceObject)
    : result bool :=
  match evidence.(ev_meta).(meta_content_hash) with
  | None => Ok false
  | Some h =>
      let key := (context.(ctx_tenant_id), context.(ctx_case_id), context.(ctx_trace_id),
                  evidence.(ev_meta).(meta_artifact_id), h) in
      match canonical_json [] (to_py evidence) with
      | Ok payload => Ok (bool_decide (s.(ts_records) !! key = Some payload))
      | Raise e => if is_type_error e || is_value_error e then Ok false else Raise e
      end
  end.

Definition store_len (s : TrustedArtifactStore) : Z := Z.of_nat (size s.(ts_records)).

(** ** What may be registered *)
Definition registrable (e : EvidenceObject) (k : ArtifactKey) (p : string) : Prop :=
  verify_hash e = Ok true ∧ e.(ev_meta).(meta_producer_identity) = "PF-A2" ∧
  e.(ev_meta).(meta_classification) = DataClassification.PUBLIC_SYNTHETIC ∧
  e.(ev_fact_status) = FactStatus.VERIFIED ∧
  _key_from_artifact e = Ok k ∧ canonical_json [] (to_py e) = Ok p.

Lemma add_pending_Ok pending e pending' :
  add_pending pending e = Ok pending' ↔
  ∃ k p, registrable e k p ∧ (pending !! k = None ∨ pending !! k = Some p) ∧
    pending' = <[k := p]> pending.
Proof.
  unfold add_pending, registrable. split.
  - intros H. apply bind_Ok in H as (v & Hv & H). apply bind_Ok in H as (? & Hr%require_Ok & H).
    apply bind_Ok in H as (k & Hk & H). apply bind_Ok in H as (p & Hp & H).
    apply bind_Ok in H as (? & Hc%require_Ok & [= <-]). split_bools. subst.
    exists k, p. repeat split; try done; [by apply String.eqb_eq|].
    destruct (pending !! k); [right|by left]. by apply String.eqb_eq in Hc as ->.
  - intros (k & p & (Hv & Hi & Hc & Hs & Hk & Hp) & Hl & ->). rewrite Hv. simpl.
    assert (is_Some (meta_content_hash (ev_meta e))) as Hsome.
    { unfold _key_from_artifact in Hk. destruct (meta_content_hash (ev_meta e)); by eauto. }
    rewrite Hi, Hc, Hs, !bool_decide_eq_true_2 by done. simpl. rewrite Hk. simpl. rewrite Hp. simpl.
    destruct Hl as [-> | ->]; simpl; [done|]. by rewrite String.eqb_refl.
Qed.

Lemma foldR_pending l m m' :
  foldR add_pending m l = Ok m' →
  (∀ k p, m !! k = Some p → m' !! k = Some p) ∧
  (∀ k p, m' !! k = Some p → m !! k = Some p ∨ ∃ e, e ∈ l ∧ registrable e k p) ∧
  (∀ e, e ∈ l → ∃ k p, registrable e k p ∧ m' !! k = Some p).
Proof.
  revert m; induction l as [|e l IH]; intros m; simpl.
  - intros [= <-]. repeat split; [done|by left|]. by intros e ?%not_elem_of_nil.
  - intros (m1 & (k & p & Hr & Hl & ->)%add_pending_Ok & H)%bind_Ok.
    destruct (IH _ H) as (I1 & I2 & I3). repeat split.
    + intros k' p' Hk'. apply I1. destruct (decide (k' = k)) as [->|].
      * rewrite lookup_insert_eq. destruct Hl; congruence.
      * by rewrite lookup_insert_ne.
    + intros k' p' [Hk'|(e' & He' & Hr')]%I2.
      * destruct (decide (k' = k)) as [->|].
        -- rewrite lookup_insert_eq in Hk'. injection Hk' as <-. right. exists e. split; [by left|done].
        -- rewrite lookup_insert_ne in Hk' by done. by left.
      * right. exists e'. split; [by right|done].
    + intros e' [->|He']%elem_of_cons; [|by apply I3]. exists k, p. split; [done|].
      apply I1. apply lookup_insert_eq.
Qed.

Lemma no_replacement_spec pending records :
  no_replacement pending records = true ↔
  ∀ k p q, pending !! k = Some p → records !! k = Some q → q = p.
Proof.
  unfold no_replacement. rewrite forallb_forall. split.
  - intros H k p q Hk Hq. specialize (H (k, p)).
    rewrite <- list_elem_of_In, elem_of_map_to_list in H. specialize (H Hk). simpl in H.
    rewrite Hq in H. by apply String.eqb_eq.
  - intros H [k p] Hk%list_elem_of_In%elem_of_map_to_list. simpl.
    destruct (records !! k) eqn:E; [|done]. apply String.eqb_eq. by eapply H.
Qed.

(** Merging without replacement *)
Lemma union_agree (pending records : gmap ArtifactKey string) :
  (∀ k p q, pending !! k = Some p → records !! k = Some q → q = p) →
  ∀ k p, (pending ∪ records) !! k = Some p ↔ pending !! k = Some p ∨ records !! k = Some p.
Proof.
  intros H k p. rewrite lookup_union_Some_raw. split; [naive_solver|].
  intros [?|Hr]; [by left|]. destruct (pending !! k) as [q|] eqn:E; [|by right].
  left. f_equal. symmetry. by eapply H.
Qed.

Lemma size_union_new (pending records : gmap ArtifactKey string) :
  size (pending ∪ records) = (size records + size (dom pending ∖ dom records))%nat.
Proof.
  rewrite <- !size_dom, dom_union_L.
  rewrite <- size_union by set_solver. f_equal. apply set_eq. intros x.
  rewrite !elem_of_union, elem_of_difference. destruct (decide (x ∈ dom records)); naive_solver.
Qed.

(** ** The contract of [register_all] *)
Inductive registered (s : TrustedArtifactStore) (l : list EvidenceObject) :
    TrustedArtifactStore * result unit → Prop :=
| reg_ok s' :
    s'.(ts_capacity) = s.(ts_capacity) → store_len s' ≤ s.(ts_capacity) →
    (∀ k p, s'.(ts_records) !! k = Some p ↔
      s.(ts_records) !! k = Some p ∨ ∃ e, e ∈ l ∧ registrable e k p) →
    (∀ e, e ∈ l → ∃ k p, registrable e k p) →
    registered s l (s', Ok ())
| reg_fail e : registered s l (s, Raise e).

Lemma register_all_registered s l : registered s l (register_all s l).
Proof.
  unfold register_all. destruct (foldR add_pending ∅ l) as [pending|e] eqn:E; [|constructor].
  destruct (no_replacement pending (ts_records s)) eqn:Hn; simpl; [|constructor].
  destruct (Z.ltb_spec (ts_capacity s)
    (Z.of_nat (size (ts_records s)) + Z.of_nat (size (dom pending ∖ dom (ts_records s))))) as [|Hc];
    [constructor|].
  rewrite no_replacement_spec in Hn. destruct (foldR_pending _ _ _ E) as (_ & H2 & H3).
  constructor; simpl; [done|unfold store_len; simpl; rewrite size_union_new; lia| |].
  - intros k p. rewrite union_agree by done. split.
    + intros [Hp|Hp]; [|by left]. apply H2 in Hp as [Hp|Hp]; [|by right].
      by rewrite lookup_empty in Hp.
    + intros [Hr|(e & He & Hr)]; [by right|]. left.
      destruct (H3 e He) as (k' & p' & (_ & _ & _ & _ & Hk' & Hp') & Hl).
      destruct Hr as (_ & _ & _ & _ & Hk & Hp). congruence.
  - intros e He. destruct (H3 e He) as (k & p & ? & _). eauto.
Qed.

(** C39. Registration is atomic and never replaces: [register_all] either raises and
    leaves the store as it was, or keeps every earlier record, adds exactly the
    canonical bytes of the batch, and stays within the capacity. *)
Theorem register_all_contract (s : TrustedArtifactStore) (l : list EvidenceObject) :
  registered s l (register_all s l).
Proof. apply register_all_registered. Qed.

(** Identical retries: registering a batch again succeeds, changes nothing and
    uses no capacity. *)
Lemma register_all_retry (s s' : TrustedArtifactStore) (l : list EvidenceObject) :
  register_all s l = (s', Ok ()) → register_all s' l = (s', Ok ()).
Proof.
  unfold register_all. destruct (foldR add_pending ∅ l) as [pending|e] eqn:E; [|done].
  destruct (no_replacement pending (ts_records s)) eqn:Hn; simpl; [|done].
  destruct (Z.ltb_spec (ts_capacity s)
    (Z.of_nat (size (ts_records s)) + Z.of_nat (size (dom pending ∖ dom (ts_records s))))) as [|Hc];
    [done|].
  intros [= <-]. simpl. rewrite no_replacement_spec in Hn.
  assert (no_replacement pending (pending ∪ ts_records s) = true) as ->.
  { apply no_replacement_spec. intros k p q Hp [Hq|Hq]%(union_agree pending _ Hn); [congruence|].
    by eapply Hn. }
  simpl. assert (dom pending ∖ dom (pending ∪ ts_records s) = ∅) as -> by
    (rewrite dom_union_L; set_solver).
  rewrite size_empty, size_union_new.
  destruct (Z.ltb_spec (ts_capacity s)
    (Z.of_nat (size (ts_records s) + size (dom pending ∖ dom (ts_records s))) + Z.of_nat 0));
    [lia|].
  by rewrite map_union_assoc, map_union_idemp.
Qed.

(** ** The invariant of a store *)
Definition store_inv (s : TrustedArtifactStore) : Prop :=
  1 ≤ s.(ts_capacity) ∧ store_len s ≤ s.(ts_capacity) ∧
  ∀ k p, s.(ts_records) !! k = Some p → ∃ e, registrable e k p.

(** Stores reachable by any interleaving of batches of any callers *)
Inductive reachable (capacity : Z) : TrustedArtifactStore → Prop :=
| reach_init s : store_init capacity = Ok s → reachable capacity s
| reach_register s l : reachable capacity s → reachable capacity (fst (register_all s l)).

Lemma reachable_inv capacity s : reachable capacity s → store_inv s.
Proof.
  induction 1 as [s H|s l _ IH].
  - unfold store_init in H. apply bind_Ok in H as (? & H%require_Ok & [= <-]).
    apply Z.leb_le in H. unfold store_inv, store_len. simpl. rewrite map_size_empty.
    repeat split; [lia|lia|]. intros k p Hk. by rewrite lookup_empty in Hk.
  - destruct (register_all_registered s l) as [s' Hcap Hlen Hrec Hall|e]; simpl; [|done].
    destruct IH as (I1 & I2 & I3). unfold store_inv. rewrite Hcap. repeat split; [done|done|].
    intros k p [?|(e & _ & ?)]%Hrec; eauto.
Qed.

Lemma contains_true s context e :
  contains s context e = Ok true ↔
  ∃ h p, e.(ev_meta).(meta_content_hash) = Some h ∧ canonical_json [] (to_py e) = Ok p ∧
    s.(ts_records) !! (context.(ctx_tenant_id), context.(ctx_case_id), context.(ctx_trace_id),
      e.(ev_meta).(meta_artifact_id), h) = Some p.
Proof.
  unfold contains. destruct (meta_content_hash (ev_meta e)) as [h|];
    [|split; [done|by intros (? & ? & ? & _)]].
  destruct (canonical_json [] (to_py e)) as [p|ex].
  - split.
    + intros [= Hb%bool_decide_eq_true]. eauto.
    + intros (? & ? & [= <-] & [= <-] & Hl). by rewrite bool_decide_eq_true_2.
  - split; [by destruct (_ || _)|by intros (? & ? & _ & ? & _)].
Qed.

(** Soundness of [contains]: Evidence that a reachable store contains for a
    caller is, field by field in canonical form, an Evidence object that was
    verified, produced by PF-A2 as PUBLIC_SYNTHETIC and VERIFIED, and registered
    under the caller's tenant, case and trace. *)
Lemma contains_sound (capacity : Z) (s : TrustedArtifactStore) (context : SkillContext)
    (e : EvidenceObject) :
  reachable capacity s → contains s context e = Ok true →
  ∃ e0 k p, registrable e0 k p ∧ s.(ts_records) !! k = Some p ∧
    meta_scope e0.(ev_meta) = context_scope context ∧
    e.(ev_meta).(meta_content_hash) = e0.(ev_meta).(meta_content_hash) ∧
    canonicalize [] (to_py e) = canonicalize [] (to_py e0).
Proof.
  intros (_ & _ & Hinv)%reachable_inv (h & p & Hh & Hp & Hl)%contains_true.
  destruct (Hinv _ _ Hl) as [e0 Hr]. pose proof Hr as (_ & _ & _ & _ & Hk & Hp0).
  eexists e0, _, p. split; [exact Hr|]. split; [exact Hl|].
  unfold _key_from_artifact in Hk. destruct (meta_content_hash (ev_meta e0)) as [h0|]; [|done].
  injection Hk as Ht Hc Htr Hid ->. unfold meta_scope, context_scope. rewrite Ht, Hc, Htr.
  split; [done|]. split; [done|].
  assert (∀ e : EvidenceObject, canonical_json [] (to_py e) = Ok p → wf_py (to_py e) = true) as Hwf.
  { intros e1 (j & Hj & _)%bind_Ok. by eapply evidence_canonical_wf. }
  destruct (canonicalize_from_bytes [] (to_py e) (to_py e0) p) as (j & -> & ->); auto.
Qed.

(** A registered object is found again under its own scope. *)
Lemma registered_contains s s' l e context :
  register_all s l = (s', Ok ()) → e ∈ l → context_scope context = meta_scope e.(ev_meta) →
  contains s' context e = Ok true.
Proof.
  intros H He Hs. pose proof (register_all_registered s l) as Hr. rewrite H in Hr.
  inversion Hr as [? _ _ Hrec Hall|]; subst.
  destruct (Hall e He) as (k & p & Hreg). pose proof Hreg as (_ & _ & _ & _ & Hk & Hp).
  unfold _key_from_artifact in Hk. destruct (meta_content_hash (ev_meta e)) as [h|] eqn:Eh; [|done].
  apply contains_true. exists h, p. split; [done|]. split; [done|].
  apply Hrec. right. exists e. split; [done|].
  unfold context_scope, meta_scope in Hs. injection Hs as -> -> ->. injection Hk as <-. done.
Qed.
End store.

(** ** A concrete store *)
#[local] Existing Instance toy_platform.

Definition demo_context (identity : string) : SkillContext :=
  mk_SkillContext "TENANT-1" "CASE-1" identity ActorKind.AGENT "TRACE-1" "K-1" SCHEMA_VERSION 0.
Definition sealed_evidence (field value : string) : EvidenceObject :=
  sealed (demo_evidence field value) (seal (demo_evidence field value)).
Definition demo_store : TrustedArtifactStore := mk_TrustedArtifactStore 2 ∅.
Definition demo_batch : list EvidenceObject :=
  [sealed_evidence "currency" "CNY"].


Lemma contains_sound_witness :
  ∃ e0 k p, registrable e0 k p ∧ meta_scope e0.(ev_meta) = ("TENANT-1", "CASE-1", "TRACE-1").
Proof.
  destruct (contains_sound 2 (fst (register_all demo_store demo_batch)) (demo_context "PF-A4")
    (sealed_evidence "currency" "CNY")) as (e0 & k & p & Hr & _ & Hs & _).
  - apply reach_register, reach_init. reflexivity.
  - vm_compute. reflexivity.
  - exists e0, k, p. split; [exact Hr|exact Hs].
Defined.
