(* ===== verification/Rules.v ===== *)
(** * skills/rules.py: date-aware filtering of the rule catalog *)
From S2P Require Import Prelude Json PyTime PyDecimal Canonical Platforms Models Common.
Local Open Scope Z_scope.

Definition jurisdiction_applies (rule_jurisdiction case_jurisdiction : string) : bool :=
  String.eqb case_jurisdiction rule_jurisdiction ||
  starts_with (rule_jurisdiction +:+ "-") case_jurisdiction.

(** [record.effective_from <= day and (record.effective_to is None or day <= record.effective_to)] *)
Definition in_force (record : RuleRecord) (day : date) : bool :=
  date_leb record.(rr_effective_from) day &&
  match record.(rr_effective_to) with None => true | Some last => date_leb day last end.

Definition record_matches (request : RuleRetrieveRequest) (issue_code : string)
    (record : RuleRecord) : bool :=
  String.eqb record.(rr_issue_code) issue_code &&
  jurisdiction_applies record.(rr_jurisdiction) request.(rq_jurisdiction) &&
  in_force record request.(rq_as_of_date).

Definition matching_rule_records (request : RuleRetrieveRequest) (issue_code : string)
    (catalog : RuleCatalog) : list RuleRecord :=
  filter (λ record, record_matches request issue_code record = true) catalog.(cat_rules).

Section rules.
Context `{P : Platform}.

(** The citation of one matching record *)
Definition cite (context : SkillContext) (request : RuleRetrieveRequest) (now : datetime)
    (issue_code : string) (record : RuleRecord) : result RuleCitation :=
  m ← artifact_meta "rule" "PF-A3" context now
    (VDict [("rule_id", to_py record.(rr_rule_id)); ("version", to_py record.(rr_version));
            ("issue_code", to_py issue_code); ("as_of_date", to_py request.(rq_as_of_date))])
    [record.(rr_authoritative_source)];
  source_hash ← sha256_digest (to_py record);
  citation ← RuleCitation_validate
    (mk_RuleCitation m record.(rr_rule_id) record.(rr_version) record.(rr_issue_code)
      record.(rr_title) record.(rr_jurisdiction) record.(rr_effective_from)
      record.(rr_effective_to) record.(rr_authoritative_source) record.(rr_locator)
      record.(rr_statement) source_hash);
  seal citation.

(** One turn of the loop over the issue codes: (citations, missing) *)
Definition retrieve_issue (context : SkillContext) (request : RuleRetrieveRequest)
    (catalog : RuleCatalog) (now : datetime) (acc : list RuleCitation * list string)
    (issue_code : string) : result (list RuleCitation * list string) :=
  match matching_rule_records request issue_code catalog with
  | [] => Ok (fst acc, snd acc ++ [issue_code])
  | matches => cs ← mapR (cite context request now issue_code) matches; Ok (fst acc ++ cs, snd acc)
  end.

Definition rule_retrieve (context : SkillContext) (request : RuleRetrieveRequest)
    (catalog : RuleCatalog) (now : datetime) : result (SkillResult RuleRetrieveOutput) :=
  unless_denied context (to_py request) "PF-A3" (
    '(citations, missing) ← foldR (retrieve_issue context request catalog now) ([], [])
       request.(rq_issue_codes);
    query_hash ← sha256_digest (to_py request);
    scope ← RuleScopeReceipt_validate
      (mk_RuleScopeReceipt request.(rq_issue_codes) request.(rq_jurisdiction)
        request.(rq_as_of_date) catalog.(cat_catalog_version) query_hash);
    let output := mk_RuleRetrieveOutput citations missing catalog.(cat_catalog_version) scope in
    input_hash ← sha256_digest (to_py request);
    output_hash ← sha256_digest (to_py output);
    Ok (mk_SkillResult
      (match missing with [] => SkillStatus.SUCCESS | _ => SkillStatus.NEEDS_HUMAN end)
      (Some output)
      (map (λ issue_code, human_blocker "INSUFFICIENT_AUTHORITY"
         (str_strip ("no active authoritative record for issue code " +:+ issue_code))) missing)
      input_hash (Some output_hash) (map artifact_ref citations))).

(** ** Matching *)
Lemma elem_of_matching request code catalog record :
  record ∈ matching_rule_records request code catalog ↔
  record ∈ catalog.(cat_rules) ∧ record.(rr_issue_code) = code ∧
  jurisdiction_applies record.(rr_jurisdiction) request.(rq_jurisdiction) = true ∧
  in_force record request.(rq_as_of_date) = true.
Proof.
  unfold matching_rule_records, record_matches.
  rewrite list_elem_of_filter, !andb_true_iff, String.eqb_eq. naive_solver.
Qed.

Lemma starts_with_spec p s : starts_with p s = true ↔ ∃ t, s = p +:+ t.
Proof.
  unfold starts_with. split.
  - revert s; induction p as [|c p IH]; intros [|d s]; simpl; try done; [by exists ""|by exists (String d s)|].
    destruct (Ascii.ascii_dec c d) as [->|]; [|done]. intros [t ->]%IH. by exists t.
  - intros [t ->]. induction p as [|c p IH]; [by destruct t|]. rewrite str_app_cons. simpl.
    destruct (Ascii.ascii_dec c c); [done|congruence].
Qed.

(** Jurisdictions form a hierarchy: a rule of a jurisdiction applies to it, and
    what applies to a jurisdiction applies to every jurisdiction below it. *)
Lemma jurisdiction_applies_preorder (a b c : string) :
  jurisdiction_applies a a = true ∧
  (jurisdiction_applies a b = true → jurisdiction_applies b c = true →
   jurisdiction_applies a c = true).
Proof.
  unfold jurisdiction_applies. rewrite !orb_true_iff, !String.eqb_eq, !starts_with_spec.
  split; [by left|]. intros [->|[t ->]]; [done|]. intros [->|[u ->]]; [right; by exists t|].
  right. exists (t +:+ "-" +:+ u). by rewrite !str_app_assoc.
Qed.

(** ** Retrieval *)

(** [citation] is the sealed citation of [record], issued for [context]. *)
Record cites (context : SkillContext) (now : datetime) (record : RuleRecord)
    (citation : RuleCitation) : Prop := {
  cites_sealed : verify_hash citation = Ok true;
  cites_rule : (citation.(rc_rule_id), citation.(rc_version), citation.(rc_issue_code)) =
    (record.(rr_rule_id), record.(rr_version), record.(rr_issue_code));
  cites_text : (citation.(rc_title), citation.(rc_jurisdiction), citation.(rc_locator),
      citation.(rc_excerpt), citation.(rc_authoritative_source)) =
    (record.(rr_title), record.(rr_jurisdiction), record.(rr_locator), record.(rr_statement),
      record.(rr_authoritative_source));
  cites_dates : (citation.(rc_effective_from), citation.(rc_effective_to)) =
    (record.(rr_effective_from), record.(rr_effective_to));
  cites_source : sha256_digest (to_py record) = Ok citation.(rc_source_hash);
  cites_producer : citation.(rc_meta).(meta_producer_identity) = "PF-A3";
  cites_scope : meta_scope citation.(rc_meta) = context_scope context;
  cites_class : citation.(rc_meta).(meta_classification) = DataClassification.PUBLIC_SYNTHETIC;
  cites_refs : citation.(rc_meta).(meta_source_refs) = [record.(rr_authoritative_source)];
  cites_time : citation.(rc_meta).(meta_created_at) = now;
}.

Lemma cite_cites context request now code record citation :
  cite context request now code record = Ok citation → cites context now record citation.
Proof.
  unfold cite, RuleCitation_validate. intros H.
  apply bind_Ok in H as (m & (i & _ & _ & ->)%artifact_meta_Ok & H).
  apply bind_Ok in H as (h & Hh & H). apply bind_Ok in H as (c & Hc & H).
  apply bind_Ok in Hc as (? & _ & [= <-]).
  pose proof (seal_verifies _ _ H) as Hv. apply seal_Ok in H as (d & _ & ->). by split.
Qed.

Lemma wf_RuleRecord (r : RuleRecord) : wf_py (to_py r) = true.
Proof. wf_solve. Qed.

Lemma cite_total `{!PlatformLaws P} context request now code record :
  valid_context context → is_aware now = true →
  ∃ citation, cite context request now code record = Ok citation.
Proof.
  intros Hc Ha. unfold cite.
  destruct (artifact_meta_total "r" "ule" "PF-A3" context now
    (VDict [("rule_id", to_py record.(rr_rule_id)); ("version", to_py record.(rr_version));
            ("issue_code", to_py code); ("as_of_date", to_py request.(rq_as_of_date))])
    [record.(rr_authoritative_source)]) as [m Hm]; [done|done|done|wf_solve|].
  rewrite Hm. simpl.
  destruct (digest_total [] (to_py record) (wf_RuleRecord _)) as [h Hh].
  unfold sha256_digest. rewrite Hh. simpl. unfold RuleCitation_validate. simpl.
  rewrite (digest_shape _ _ _ Hh). simpl. apply seal_total, wf_artifact_spec.
  apply artifact_meta_Ok in Hm as (i & _ & _ & ->). split; [done|].
  simpl. by destruct (rr_effective_to record).
Qed.

Definition has_no_match (request : RuleRetrieveRequest) (catalog : RuleCatalog) (code : string) : Prop :=
  matching_rule_records request code catalog = [].
#[export] Instance has_no_match_dec request catalog code : Decision (has_no_match request catalog code).
Proof.
  unfold has_no_match. destruct (matching_rule_records request code catalog); [left|right]; done.
Defined.

(** The records a query is to cite, in order *)
Definition expected_records (request : RuleRetrieveRequest) (catalog : RuleCatalog)
    (codes : list string) : list RuleRecord :=
  concat (map (λ code, matching_rule_records request code catalog) codes).

Lemma retrieve_loop context request catalog now codes cs ms cs' ms' :
  foldR (retrieve_issue context request catalog now) (cs, ms) codes = Ok (cs', ms') →
  ∃ new, cs' = cs ++ new ∧ Forall2 (cites context now) (expected_records request catalog codes) new ∧
    ms' = ms ++ filter (has_no_match request catalog) codes.
Proof.
  revert cs ms; induction codes as [|code codes IH]; intros cs ms; simpl.
  - intros [= <- <-]. exists []. by rewrite !app_nil_r.
  - intros ([cs1 ms1] & H1 & H)%bind_Ok. destruct (IH _ _ H) as (new & -> & Hnew & ->).
    unfold expected_records. simpl. unfold retrieve_issue in H1. cbn [fst snd] in H1.
    rewrite filter_cons. unfold has_no_match at 1.
    destruct (matching_rule_records request code catalog) as [|r rs] eqn:E.
    + injection H1 as <- <-. exists new.
      destruct (decide (has_no_match request catalog code)); [|done]. by rewrite <- app_assoc.
    + apply bind_Ok in H1 as (xs & Hxs & [= <- <-]).
      destruct (decide (has_no_match request catalog code)) as [Hn|_];
        [unfold has_no_match in Hn; congruence|].
      exists (xs ++ new). rewrite <- app_assoc. split; [done|]. split; [|done].
      apply Forall2_app; [|done]. apply mapR_Forall2 in Hxs.
      eapply Forall2_impl; [exact Hxs|]. intros x y. apply cite_cites.
Qed.

Lemma retrieve_loop_total `{!PlatformLaws P} context request catalog now codes cs ms :
  valid_context context → is_aware now = true →
  ∃ r, foldR (retrieve_issue context request catalog now) (cs, ms) codes = Ok r.
Proof.
  intros Hc Ha. revert cs ms; induction codes as [|code codes IH]; intros cs ms; simpl; [by eexists|].
  assert (∃ p, retrieve_issue context request catalog now (cs, ms) code = Ok p) as [[cs1 ms1] ->];
    [|apply IH].
  unfold retrieve_issue. cbn [fst snd].
  destruct (matching_rule_records request code catalog) as [|r rs]; [by eexists|].
  destruct (mapR_total (cite context request now code) (r :: rs)) as [xs ->];
    [intros; by apply cite_total|]. by eexists.
Qed.

Lemma wf_RuleRetrieveRequest (q : RuleRetrieveRequest) : wf_py (to_py q) = true.
Proof. wf_solve. Qed.

Lemma wf_RuleCitation (c : RuleCitation) :
  is_aware c.(rc_meta).(meta_created_at) = true → wf_py (to_py c) = true.
Proof.
  intros Ha. apply wf_artifact_spec. split; [exact Ha|]. simpl. by destruct (rc_effective_to c).
Qed.

(** The query a retrieval answers is valid: what [RuleRetrieveRequest(...)] checks *)
Definition valid_query (q : RuleRetrieveRequest) : Prop := RuleRetrieveRequest_validate q = Ok q.

Lemma scope_receipt_total `{!PlatformLaws P} q version h :
  valid_query q → min_length_1 version = true → sha256_digest (to_py q) = Ok h →
  RuleScopeReceipt_validate
    (mk_RuleScopeReceipt q.(rq_issue_codes) q.(rq_jurisdiction) q.(rq_as_of_date) version h) =
  Ok (mk_RuleScopeReceipt q.(rq_issue_codes) q.(rq_jurisdiction) q.(rq_as_of_date) version h).
Proof.
  intros Hq Hv Hh. unfold RuleScopeReceipt_validate. cbn -[RuleRetrieveRequest_validate].
  assert (mk_RuleRetrieveRequest q.(rq_issue_codes) q.(rq_jurisdiction) q.(rq_as_of_date) = q) as ->
    by by destruct q.
  rewrite Hq. simpl. unfold sha256_digest in Hh. by rewrite Hv, (digest_shape _ _ _ Hh).
Qed.

(** Functional correctness of [rule_retrieve], called by PF-A3 with a valid
    query: it returns one sealed citation per catalog record in force for each
    issue code, in order; it names exactly the codes with no such record; it
    succeeds when every code is covered and asks for a human otherwise; and the
    receipt is that of this query against this catalog. *)
Lemma rule_retrieve_complete `{!PlatformLaws P} (context : SkillContext)
    (request : RuleRetrieveRequest) (catalog : RuleCatalog) (now : datetime) :
  context.(ctx_caller_identity) = "PF-A3" → valid_context context → is_aware now = true →
  valid_query request → min_length_1 catalog.(cat_catalog_version) = true →
  ∃ r out h, rule_retrieve context request catalog now = Ok r ∧ r.(sr_value) = Some out ∧
    Forall2 (cites context now) (expected_records request catalog request.(rq_issue_codes))
      out.(rro_citations) ∧
    out.(rro_missing_issue_codes) =
      filter (has_no_match request catalog) request.(rq_issue_codes) ∧
    (r.(sr_status) = SkillStatus.SUCCESS ↔ out.(rro_missing_issue_codes) = []) ∧
    (r.(sr_status) = SkillStatus.NEEDS_HUMAN ↔ out.(rro_missing_issue_codes) ≠ []) ∧
    sha256_digest (to_py request) = Ok h ∧
    out.(rro_rule_scope) = mk_RuleScopeReceipt request.(rq_issue_codes)
      request.(rq_jurisdiction) request.(rq_as_of_date) catalog.(cat_catalog_version) h.
Proof.
  intros Hid Hc Ha Hq Hv. unfold rule_retrieve. rewrite unless_denied_pass by done.
  destruct (retrieve_loop_total context request catalog now request.(rq_issue_codes) [] [] Hc Ha)
    as [[cs ms] Hloop]. rewrite Hloop. cbn [mbind result_bind].
  destruct (retrieve_loop _ _ _ _ _ _ _ _ _ Hloop) as (new & Hcs & Hnew & Hms). simpl in Hcs, Hms.
  subst cs.
  destruct (digest_total [] (to_py request) (wf_RuleRetrieveRequest _)) as [h Hh].
  change (sha256_digest (to_py request) = Ok h) in Hh.
  rewrite !Hh. cbn [mbind result_bind].
  rewrite scope_receipt_total by done. cbn [mbind result_bind]. rewrite ?Hh. cbn [mbind result_bind].
  set (out := mk_RuleRetrieveOutput _ _ _ _).
  assert (wf_py (to_py out) = true) as Hwf.
  { apply wf_dict; [reflexivity|]. repeat constructor; [|apply wf_string_list|wf_solve].
    apply wf_list. clear -Hnew Ha. induction Hnew as [|x y l k Hxy _ IH]; constructor; [|done].
    apply wf_RuleCitation. by rewrite (cites_time _ _ _ _ Hxy). }
  destruct (digest_total [] (to_py out) Hwf) as [o Ho].
  unfold sha256_digest. rewrite Ho. cbn [mbind result_bind].
  eexists _, out, h. split; [reflexivity|]. cbn [sr_value sr_status].
  split; [done|]. split; [exact Hnew|]. split; [exact Hms|]. simpl.
  by destruct ms.
Qed.
End rules.

(** ** A concrete query *)
#[local] Existing Instance toy_platform.

Definition demo_rule (id code : string) : RuleRecord :=
  mk_RuleRecord id "1" code "title" "CN" (mk_date 2008 1 1) None "https://example.org" "Art. 47"
    "statement".
Definition demo_catalog : RuleCatalog :=
  mk_RuleCatalog "catalog-1" "SYNTHETIC" false "policy"
    [demo_rule "PRC-LCL-47" "economic_compensation_amount";
     demo_rule "PRC-LCL-47-2" "economic_compensation_wage_basis"].
Definition demo_query : RuleRetrieveRequest :=
  mk_RuleRetrieveRequest ["economic_compensation_amount"; "notice_period"] "CN-ZJ" (mk_date 2026 7 1).


Lemma rule_retrieve_complete_witness :
  ∃ r out, rule_retrieve (mk_SkillContext "T" "C" "PF-A3" ActorKind.AGENT "X" "K" SCHEMA_VERSION 0)
      demo_query demo_catalog (Aware 0) = Ok r ∧ r.(sr_value) = Some out ∧
    out.(rro_missing_issue_codes) = ["notice_period"] ∧ length out.(rro_citations) = 1%nat.
Proof.
  pose proof toy_platform_laws as HL.
  destruct (rule_retrieve_complete (mk_SkillContext "T" "C" "PF-A3" ActorKind.AGENT "X" "K" SCHEMA_VERSION 0)
    demo_query demo_catalog (Aware 0)) as (r & out & h & Hr & Hv & Hc & Hm & _);
    try reflexivity.
  exists r, out. split; [exact Hr|]. split; [exact Hv|]. split; [rewrite Hm; vm_compute; reflexivity|].
  apply Forall2_length in Hc. rewrite <- Hc. vm_compute. reflexivity.
Defined.
