(* ===== verification/Compensation.v ===== *)
(** * skills/calculation.py: length of service and amount

    The arithmetic of the calculation: anniversaries and half years on the
    calendar, the coefficient they give, and the capped amount in Decimal. *)
From S2P Require Import Prelude Json PyTime PyDecimal Canonical Models.
Local Open Scope Z_scope.

(** ** The length of service *)
Definition _add_months (value : date) (months : Z) : result date :=
  let month_index := value.(month) - 1 + months in
  let year' := value.(year) + month_index / 12 in
  let month' := month_index mod 12 + 1 in
  let day' := Z.min value.(day) (monthrange_days year' month') in
  date_new year' month' day'.

(** [date(y, start.month, min(start.day, calendar.monthrange(y, start.month)[1]))] *)
Definition anniversary_in (start : date) (y : Z) : result date :=
  date_new y start.(month) (Z.min start.(day) (monthrange_days y start.(month))).

Definition HALF : decimal := Fin false 5 (-1).

Definition _service_coefficient (start last : date) : result decimal :=
  _ ← require (negb (date_ltb last start))
        (ValueError "planned termination precedes employment start");
  let years := last.(year) - start.(year) in
  anniversary ← anniversary_in start last.(year);
  '(years, anniversary) ←
    (if date_ltb last anniversary
     then anniversary ← anniversary_in start (last.(year) - 1); Ok (years - 1, anniversary)
     else Ok (years, anniversary));
  let coefficient := dec_of_Z years in
  if bool_decide (last = anniversary) then Ok coefficient
  else
    half_year ← _add_months anniversary 6;
    dec_add coefficient (if date_leb half_year last then dec_of_Z 1 else HALF).

(** ** The amount *)
Record Compensation := mk_Compensation {
  wage_cap : decimal;
  high_wage_cap_applied : bool;
  effective_wage : decimal;
  effective_coefficient : decimal;
  amount : decimal;
}.

Definition compensation (p : CompensationParameters) (coefficient : decimal) : result Compensation :=
  cap ← dec_mul p.(cp_local_previous_year_monthly_average_wage) (dec_of_Z 3);
  let high := dec_ltb cap p.(cp_monthly_wage_average) in
  let wage := dec_min p.(cp_monthly_wage_average) cap in
  let coef := if high then dec_min coefficient (dec_of_Z 12) else coefficient in
  product ← dec_mul wage coef;
  amount ← quantize ROUND_HALF_UP product (-2);
  Ok (mk_Compensation cap high wage coef amount).

(** ** Small decimals *)

(** An operation whose exact result fits the context returns it exactly. *)
Lemma fix_ctx_exact n c e :
  Z.of_N c < 10 ^ 28 → -1000 ≤ e ≤ 1000 → fix_ctx n c e = Ok (Fin n c e).
Proof.
  intros Hc He. unfold fix_ctx. pose proof (ndigits_le c 28 Hc) as Hn.
  destruct (ndigits_spec c) as (Hn1 & _). unfold Etop, Etiny, Emax, Emin, prec.
  destruct (N.eqb_spec c 0) as [->|Hz].
  - do 2 f_equal. lia.
  - cbv zeta. destruct (Z.ltb_spec (999999 - 28 + 1) (ndigits c + e - 28)); [lia|].
    destruct (Z.ltb_spec e (Z.max (ndigits c + e - 28) (-999999 - 28 + 1))); [lia|done].
Qed.

(** The coefficient of [h] half years *)
Definition halves (h : Z) : decimal :=
  if Z.even h then dec_of_Z (h / 2) else Fin false (Z.to_N (h * 5)) (-1).

Lemma signed_dec_of_Z z e : signed_at (dec_of_Z z) e = z * 10 ^ (0 - e).
Proof.
  unfold signed_at, dec_of_Z. rewrite N2Z.inj_abs_N, Z.mul_assoc. f_equal.
  destruct (Z.ltb_spec z 0); lia.
Qed.

(** The sum of non-negative decimals, when it fits *)
Lemma dec_add_nonneg ca ea cb eb :
  let e := Z.min ea eb in
  let s := signed_at (Fin false ca ea) e + signed_at (Fin false cb eb) e in
  0 ≤ s < 10 ^ 28 → -1000 ≤ e ≤ 1000 →
  dec_add (Fin false ca ea) (Fin false cb eb) = Ok (Fin false (Z.to_N s) e).
Proof.
  intros e s Hs He. unfold dec_add. fold e. fold s.
  replace (Z.abs_N s) with (Z.to_N s) by lia.
  replace (if s =? 0 then false && false else s <? 0) with false
    by (destruct (Z.eqb_spec s 0); [done|symmetry; apply Z.ltb_ge; lia]).
  apply fix_ctx_exact; lia.
Qed.

Lemma dec_of_nonneg y : 0 ≤ y → dec_of_Z y = Fin false (Z.to_N y) 0.
Proof.
  intros Hy. unfold dec_of_Z. rewrite (proj2 (Z.ltb_ge y 0)) by lia. f_equal. lia.
Qed.

Lemma add_one y : 0 ≤ y ≤ 9999 → dec_add (dec_of_Z y) (dec_of_Z 1) = Ok (dec_of_Z (y + 1)).
Proof.
  intros Hy. rewrite !dec_of_nonneg by lia. rewrite dec_add_nonneg.
  - cbv zeta. do 2 f_equal. unfold signed_at. change (Z.min 0 0) with 0. change (10 ^ (0 - 0)) with 1. lia.
  - cbv zeta. unfold signed_at. change (Z.min 0 0) with 0. change (10 ^ (0 - 0)) with 1. lia.
  - simpl. lia.
Qed.

Lemma add_half y : 0 ≤ y ≤ 9999 → dec_add (dec_of_Z y) HALF = Ok (Fin false (Z.to_N (10 * y + 5)) (-1)).
Proof.
  intros Hy. unfold HALF. rewrite dec_of_nonneg by lia. rewrite dec_add_nonneg.
  - cbv zeta. do 2 f_equal. unfold signed_at. change (Z.min 0 (-1)) with (-1).
    change (10 ^ (0 - -1)) with 10. change (10 ^ (-1 - -1)) with 1. lia.
  - cbv zeta. unfold signed_at. change (Z.min 0 (-1)) with (-1).
    change (10 ^ (0 - -1)) with 10. change (10 ^ (-1 - -1)) with 1. lia.
  - simpl. lia.
Qed.

Lemma halves_even y : 0 ≤ y → halves (2 * y) = dec_of_Z y.
Proof.
  intros Hy. unfold halves. rewrite Z.even_mul. simpl. f_equal.
  rewrite Z.mul_comm. by apply Z.div_mul.
Qed.

Lemma halves_odd y : 0 ≤ y → halves (2 * y + 1) = Fin false (Z.to_N (10 * y + 5)) (-1).
Proof.
  intros Hy. unfold halves. rewrite Z.even_add, Z.even_mul. simpl. do 2 f_equal. lia.
Qed.

(** ** Anniversaries *)

(** The day the [y]-th year of service is complete *)
Definition anniversary (start : date) (y : Z) : date :=
  let year' := start.(year) + y in
  mk_date year' start.(month) (Z.min start.(day) (days_in_month year' start.(month))).

(** Six months later *)
Definition half_year_after (d : date) : date :=
  let '(y, m) := if d.(month) <=? 6 then (d.(year), d.(month) + 6)
                 else (d.(year) + 1, d.(month) - 6) in
  mk_date y m (Z.min d.(day) (days_in_month y m)).

Lemma anniversary_in_Ok start y :
  valid_date start = true → 1 ≤ start.(year) + y ≤ 9999 →
  anniversary_in start (start.(year) + y) = Ok (anniversary start y).
Proof.
  intros (H1 & H2 & H3)%valid_date_bounds Hy. unfold anniversary_in, monthrange_days.
  apply date_new_Ok. split; [done|]. unfold valid_date, anniversary, MINYEAR, MAXYEAR.
  cbn [year month day].
  pose proof (days_in_month_bounds (start.(year) + y) start.(month)).
  rewrite !andb_true_iff, !Z.leb_le. lia.
Qed.

Lemma add_six_months d : valid_date d = true → d.(year) < 9999 →
  _add_months d 6 = Ok (half_year_after d).
Proof.
  intros (H1 & H2 & H3)%valid_date_bounds Hy. unfold _add_months, half_year_after, monthrange_days.
  cbv zeta. destruct (Z.leb_spec d.(month) 6).
  - assert ((d.(month) - 1 + 6) / 12 = 0) as -> by (apply Z.div_small; lia).
    rewrite Z.mod_small by lia. rewrite Z.add_0_r.
    replace (d.(month) - 1 + 6 + 1) with (d.(month) + 6) by lia.
    apply date_new_Ok. split; [done|]. unfold valid_date, MINYEAR, MAXYEAR. cbn [year month day].
    pose proof (days_in_month_bounds d.(year) (d.(month) + 6)).
    rewrite !andb_true_iff, !Z.leb_le. lia.
  - assert ((d.(month) - 1 + 6) / 12 = 1) as -> by
      (symmetry; apply (Z.div_unique _ _ _ (d.(month) - 7)); lia).
    assert ((d.(month) - 1 + 6) mod 12 + 1 = d.(month) - 6) as -> by
      (rewrite <- (Z.mod_unique (d.(month) - 1 + 6) 12 1 (d.(month) - 7)); lia).
    apply date_new_Ok. split; [done|]. unfold valid_date, MINYEAR, MAXYEAR. cbn [year month day].
    pose proof (days_in_month_bounds (d.(year) + 1) (d.(month) - 6)).
    rewrite !andb_true_iff, !Z.leb_le. lia.
Qed.

Lemma anniversary_lt start y z : y < z → date_ltb (anniversary start y) (anniversary start z) = true.
Proof. intros. apply date_ltb_spec. simpl. lia. Qed.

Lemma anniversary_valid start y : valid_date start = true → 1 ≤ start.(year) + y ≤ 9999 →
  valid_date (anniversary start y) = true.
Proof.
  intros Hs Hy. pose proof (anniversary_in_Ok start y Hs Hy) as H. unfold anniversary_in in H.
  by apply date_new_Ok in H as [_ ?].
Qed.

Lemma anniversary_0 start : valid_date start = true → anniversary start 0 = start.
Proof.
  intros (H1 & H2 & H3)%valid_date_bounds. unfold anniversary. rewrite Z.add_0_r, Z.min_l by lia.
  by destruct start.
Qed.

(** ** The coefficient, by complete years *)

(** [y] complete years of service by [last], and [h] half years in all: none beyond
    an anniversary, one up to six months, two from six months on *)
Inductive service_of (start last : date) : Z → Z → Prop :=
| on_anniversary y : last = anniversary start y → service_of start last y (2 * y)
| first_half y : date_ltb (anniversary start y) last = true →
    date_ltb last (half_year_after (anniversary start y)) = true →
    date_ltb last (anniversary start (y + 1)) = true → service_of start last y (2 * y + 1)
| second_half y : date_ltb (anniversary start y) last = true →
    date_leb (half_year_after (anniversary start y)) last = true →
    date_ltb last (anniversary start (y + 1)) = true → service_of start last y (2 * y + 2).

Lemma coefficient_eq start last :
  valid_date start = true → valid_date last = true → date_leb start last = true →
  last.(year) < 9999 →
  ∃ y h, 0 ≤ y ≤ 9998 ∧ service_of start last y h ∧ _service_coefficient start last = Ok (halves h).
Proof.
  intros Hs Hl Hle Hy. pose proof (valid_date_bounds _ Hs) as (S1 & S2 & S3).
  pose proof (valid_date_bounds _ Hl) as (L1 & L2 & L3).
  unfold _service_coefficient. unfold date_leb in Hle. rewrite Hle. cbn [require mbind result_bind].
  apply date_leb_spec in Hle as Hle'. set (n := last.(year) - start.(year)).
  assert (0 ≤ n) as Hn by lia.
  assert (anniversary_in start (last.(year)) = Ok (anniversary start n)) as ->.
  { replace (last.(year)) with (start.(year) + n) by lia. apply anniversary_in_Ok; [done|lia]. }
  cbn [mbind result_bind].
  assert (date_ltb last (anniversary start n) = true → 1 ≤ n) as Hn1.
  { intros H. destruct (decide (n = 0)) as [E|]; [|lia]. rewrite E, anniversary_0 in H by done.
    unfold date_leb in Hle. by rewrite H in Hle. }
  assert (∃ y, 0 ≤ y ≤ 9998 ∧ date_leb (anniversary start y) last = true ∧
    date_ltb last (anniversary start (y + 1)) = true ∧
    (if date_ltb last (anniversary start n)
     then anniversary_in start (last.(year) - 1) ≫= λ a, Ok (n - 1, a)
     else Ok (n, anniversary start n)) = Ok (y, anniversary start y)) as (y & Hy0 & Ha & Hb & ->).
  { destruct (date_ltb last (anniversary start n)) eqn:E.
    - exists (n - 1). specialize (Hn1 eq_refl). split; [lia|].
      replace (n - 1 + 1) with n by lia. split; [|split; [done|]].
      + apply date_leb_spec. simpl. lia.
      + replace (last.(year) - 1) with (start.(year) + (n - 1)) by lia.
        rewrite anniversary_in_Ok by (done || lia). done.
    - exists n. split; [lia|]. unfold date_leb. rewrite E. split; [done|]. split; [|done].
      apply date_ltb_spec. simpl. lia. }
  cbn [mbind result_bind].
  assert (last ≠ anniversary start y → date_ltb (anniversary start y) last = true) as Hlt.
  { intros Hne. destruct (date_ltb (anniversary start y) last) eqn:E; [done|].
    exfalso. apply Hne. apply date_leb_antisym; [|done]. unfold date_leb. by rewrite E. }
  case_bool_decide as Hd.
  - exists y, (2 * y). rewrite halves_even by lia. split; [done|]. split; [by constructor|done].
  - specialize (Hlt Hd). apply date_leb_spec in Ha.
    rewrite add_six_months; [|apply anniversary_valid; [done|simpl in Ha; lia]|simpl in *; lia].
    cbn [mbind result_bind]. destruct (date_leb (half_year_after (anniversary start y)) last) eqn:E.
    + exists y, (2 * y + 2). rewrite add_one by lia.
      replace (2 * y + 2) with (2 * (y + 1)) at 2 by lia. rewrite halves_even by lia.
      split; [done|]. split; [by constructor|done].
    + exists y, (2 * y + 1). rewrite add_half, halves_odd by lia.
      split; [done|]. split; [|done]. constructor; try done.
      unfold date_leb in E. by apply negb_false_iff in E.
Qed.

Lemma service_unique start last y h y' h' :
  service_of start last y h → service_of start last y' h' → y = y' ∧ h = h'.
Proof.
  intros H H'. 
  assert (∀ y h, service_of start last y h → date_leb (anniversary start y) last = true ∧
    date_ltb last (anniversary start (y + 1)) = true) as Hb.
  { clear. intros y h [y' ->|y' H1 _ H2|y' H1 _ H2].
    - split; [apply date_leb_spec; lia|apply anniversary_lt; lia].
    - split; [|done]. apply date_ltb_spec in H1. apply date_leb_spec. lia.
    - split; [|done]. apply date_ltb_spec in H1. apply date_leb_spec. lia. }
  destruct (Hb _ _ H) as [A1 A2], (Hb _ _ H') as [B1 B2].
  assert (∀ y z, date_leb (anniversary start z) last = true →
    date_ltb last (anniversary start (y + 1)) = true → z ≤ y) as Hlt.
  { clear. intros y z H1 H2. apply Z.nlt_ge. intros Hlt.
    assert (date_leb (anniversary start (y + 1)) (anniversary start z) = true) as H3.
    { destruct (decide (z = y + 1)) as [->|]; [apply date_leb_spec; lia|].
      pose proof (anniversary_lt start (y + 1) z) as H3. rewrite date_ltb_spec in H3.
      apply date_leb_spec. lia. }
    rewrite date_leb_spec in H1, H3. rewrite date_ltb_spec in H2. lia. }
  assert (y = y') as <- by (apply Z.le_antisymm; eauto). split; [done|]. clear -H H'.
  inversion H as [? E1|? U1 U2|? U1 U2]; inversion H' as [? E2|? V1 V2|? V1 V2]; subst; try done;
    try (rewrite date_ltb_spec in U1; lia); try (rewrite date_ltb_spec in V1; lia);
    rewrite date_ltb_spec, date_leb_spec in *; lia.
Qed.

(** The coefficient counts service in half years: for an employment that ends
    before year 9999, [_service_coefficient] returns the coefficient of the unique
    number of half years [service_of] gives, a started half year counting as one. *)
Lemma service_coefficient_spec (start last : date) :
  valid_date start = true → valid_date last = true → date_leb start last = true →
  last.(year) < 9999 →
  ∃ y h, service_of start last y h ∧ _service_coefficient start last = Ok (halves h) ∧
    ∀ y' h', service_of start last y' h' → y' = y ∧ h' = h.
Proof.
  intros Hs Hl Hle Hy. destruct (coefficient_eq start last Hs Hl Hle Hy) as (y & h & _ & H & E).
  exists y, h. split; [done|]. split; [done|]. intros y' h' H'. by eapply service_unique.
Qed.

Lemma service_bounds start last y h : service_of start last y h →
  2 * y ≤ h ≤ 2 * y + 2 ∧ date_leb (anniversary start y) last = true ∧
  date_ltb last (anniversary start (y + 1)) = true.
Proof.
  destruct 1 as [y ->|y H1 _ H2|y H1 _ H2]; (split; [lia|]).
  - split; [apply date_leb_spec; lia|apply anniversary_lt; lia].
  - split; [|done]. apply date_ltb_spec in H1. apply date_leb_spec. lia.
  - split; [|done]. apply date_ltb_spec in H1. apply date_leb_spec. lia.
Qed.

Lemma service_mono start d1 d2 y1 h1 y2 h2 :
  service_of start d1 y1 h1 → service_of start d2 y2 h2 → date_leb d1 d2 = true → h1 ≤ h2.
Proof.
  intros H1 H2 Hd. destruct (service_bounds _ _ _ _ H1) as (B1 & L1 & _).
  destruct (service_bounds _ _ _ _ H2) as (B2 & _ & U2).
  destruct (Z.lt_trichotomy y1 y2) as [?|[<-|Hgt]]; [lia| |].
  - destruct H1 as [y1 E1|y1 U1 V1 _|y1 U1 V1 _]; [lia| |].
    + assert (d2 ≠ anniversary start y1) as Hne.
      { intros ->. rewrite date_ltb_spec in U1. rewrite date_leb_spec in Hd. lia. }
      inversion H2; subst; [done|lia..].
    + assert (date_leb (half_year_after (anniversary start y1)) d2 = true) as V2
        by (by eapply date_leb_trans).
      inversion H2 as [? E2|? W2 V2' _|]; [| |lia]; exfalso.
      * rewrite E2 in Hd. rewrite date_ltb_spec in U1. rewrite date_leb_spec in Hd. lia.
      * unfold date_leb in V2. by rewrite V2' in V2.
  - exfalso. assert (date_leb (anniversary start (y2 + 1)) (anniversary start y1) = true) as H3.
    { destruct (decide (y1 = y2 + 1)) as [->|]; [apply date_leb_spec; lia|].
      pose proof (anniversary_lt start (y2 + 1) y1) as H3. rewrite date_ltb_spec in H3.
      apply date_leb_spec. lia. }
    rewrite date_leb_spec in *. rewrite date_ltb_spec in *. lia.
Qed.

(** Longer service never lowers the coefficient. *)
Lemma service_coefficient_monotone (start d1 d2 : date) :
  valid_date start = true → valid_date d1 = true → valid_date d2 = true →
  date_leb start d1 = true → date_leb d1 d2 = true → d2.(year) < 9999 →
  ∃ h1 h2, _service_coefficient start d1 = Ok (halves h1) ∧
    _service_coefficient start d2 = Ok (halves h2) ∧ 0 ≤ h1 ≤ h2.
Proof.
  intros Hs H1 H2 Hle Hd Hy.
  assert (d1.(year) < 9999) by (apply date_leb_spec in Hd; lia).
  destruct (coefficient_eq start d1) as (y1 & h1 & Hy1 & S1 & E1); try done.
  destruct (coefficient_eq start d2) as (y2 & h2 & Hy2 & S2 & E2); try done;
    [by eapply date_leb_trans|].
  exists h1, h2. split; [done|]. split; [done|]. split.
  - apply service_bounds in S1. lia.
  - by eapply service_mono.
Qed.

(** ** The amount in cents *)

(** A non-negative amount of [c] cents, written with at most two decimals and at
    most [k] digits *)
Definition in_cents (k : Z) (d : decimal) (c : Z) : Prop :=
  ∃ n e, d = Fin false n e ∧ -2 ≤ e ≤ 0 ∧ c = Z.of_N n * 10 ^ (e + 2) ∧ Z.of_N n < 10 ^ k.

Lemma signed_at_shift d e e' : e' ≤ e ≤ dexp d → signed_at d e' = signed_at d e * 10 ^ (e - e').
Proof.
  intros He. destruct d as [n c x| |]; simpl in *; [|done|done].
  rewrite <- !Z.mul_assoc. do 2 f_equal. rewrite <- Z.pow_add_r by lia. f_equal. lia.
Qed.

Lemma dec_ltb_cents ja jb a b x y : in_cents ja a x → in_cents jb b y → dec_ltb a b = (x <? y).
Proof.
  intros (n & e & -> & He & -> & _) (m & f & -> & Hf & -> & _). unfold dec_ltb. simpl dexp.
  set (k := Z.min e f).
  assert (∀ n e, k ≤ e → -2 ≤ k → Z.of_N n * 10 ^ (e + 2) = signed_at (Fin false n e) k * 10 ^ (k + 2)) as Hs.
  { intros n' e' H1 H2. unfold signed_at. rewrite Z.mul_1_l, <- Z.mul_assoc, <- Z.pow_add_r by lia.
    do 2 f_equal. lia. }
  rewrite (Hs n e), (Hs m f) by lia.
  assert (0 < 10 ^ (k + 2)) by (apply Z.pow_pos_nonneg; lia).
  destruct (Z.ltb_spec (signed_at (Fin false n e) k) (signed_at (Fin false m f) k));
    symmetry; [apply Z.ltb_lt|apply Z.ltb_ge]; nia.
Qed.

Lemma dec_mul_exact n e m f : Z.of_N n * Z.of_N m < 10 ^ 28 → -1000 ≤ e + f ≤ 1000 →
  dec_mul (Fin false n e) (Fin false m f) = Ok (Fin false (n * m) (e + f)).
Proof. intros H He. unfold dec_mul. simpl xorb. apply fix_ctx_exact; [lia|done]. Qed.

(** What the coefficient is as a coefficient and exponent *)
Lemma halves_parts h : 0 ≤ h ≤ 20000 →
  ∃ k f, halves h = Fin false k f ∧ (f = 0 ∧ h = 2 * Z.of_N k ∨ f = -1 ∧ 5 * h = Z.of_N k) ∧
    Z.of_N k ≤ 100000.
Proof.
  intros Hh. unfold halves. destruct (Z.even h) eqn:E.
  - apply Z.even_spec in E as [k ->]. rewrite Z.mul_comm, Z.div_mul by done.
    rewrite dec_of_nonneg by lia. exists (Z.to_N k), 0. split; [done|]. split; [left; lia|lia].
  - exists (Z.to_N (h * 5)), (-1). split; [done|]. split; [right; lia|lia].
Qed.

Lemma dec_ltb_halves h k : 0 ≤ h ≤ 20000 → 0 ≤ k ≤ 20000 → dec_ltb (halves h) (halves k) = (h <? k).
Proof.
  intros Hh Hk. destruct (halves_parts h Hh) as (n & e & -> & He & _).
  destruct (halves_parts k Hk) as (m & f & -> & Hf & _). unfold dec_ltb. simpl dexp. unfold signed_at.
  assert (∀ (a b c d : Z), (a < b ↔ c < d) → (a <? b) = (c <? d)) as Hb
    by (intros; apply Bool.eq_iff_eq_true; by rewrite !Z.ltb_lt).
  destruct He as [[-> ->]|[-> He]], Hf as [[-> ->]|[-> Hf]]; apply Hb.
  - change (10 ^ (0 - Z.min 0 0)) with 1. lia.
  - change (10 ^ (0 - Z.min 0 (-1))) with 10. change (10 ^ (-1 - Z.min 0 (-1))) with 1. lia.
  - change (10 ^ (0 - Z.min (-1) 0)) with 10. change (10 ^ (-1 - Z.min (-1) 0)) with 1. lia.
  - change (10 ^ (-1 - Z.min (-1) (-1))) with 1. lia.
Qed.

(** Rounding half up of a number of half cents *)
Lemma quantize_cents n x c : -3 ≤ x ≤ 0 → Z.of_N n * 10 ^ (x + 3) = 5 * c → Z.of_N n < 10 ^ 22 →
  quantize ROUND_HALF_UP (Fin false n x) (-2) = Ok (Fin false (Z.to_N ((c + 1) / 2)) (-2)).
Proof.
  intros Hx Hc Hn. unfold quantize. change (negb _) with false at 1. cbv iota.
  destruct (N.eqb_spec n 0) as [->|Hz].
  - assert (c = 0) as -> by lia. reflexivity.
  - cbv zeta. pose proof (ndigits_le n 22 Hn) as Hd. destruct (ndigits_spec n) as (Hd1 & _).
    unfold Emax, prec.
    destruct (Z.ltb_spec 999999 (x + ndigits n - 1)); [lia|].
    destruct (Z.ltb_spec 28 (x + ndigits n - 1 - -2 + 1)); [lia|]. cbn [orb].
    assert (rescale ROUND_HALF_UP n x (-2) = Z.to_N ((c + 1) / 2)) as ->.
    { unfold rescale. destruct (Z.leb_spec (-2) x).
      - assert (c = 2 * (Z.of_N n * 10 ^ (x + 2))) as ->.
        { replace (x + 3) with (x + 2 + 1) in Hc by lia.
          rewrite Z.pow_add_r in Hc by lia. lia. }
        unfold pow10. replace (x - -2) with (x + 2) by lia.
        assert (0 < 10 ^ (x + 2)) by (apply Z.pow_pos_nonneg; lia).
        replace ((2 * (Z.of_N n * 10 ^ (x + 2)) + 1) / 2) with (Z.of_N n * 10 ^ (x + 2)); [nia|].
        rewrite (Z.mul_comm 2), Z.div_add_l by lia. change (1 / 2) with 0. lia.
      - assert (x = -3) as -> by lia. change (pow10 (-2 - -3)) with 10%N.
        change (10 ^ (-3 + 3)) with 1 in Hc. unfold div_round. cbv zeta.
        pose proof (N.div_mod n 10 ltac:(done)). pose proof (N.mod_lt n 10 ltac:(done)).
        set (q := (n / 10)%N) in *. set (r := (n mod 10)%N) in *. clearbody q r.
        assert (∀ z, c + 1 = 2 * z ∨ c + 1 = 2 * z + 1 → (c + 1) / 2 = z) as Hdiv
          by (intros z Hz'; symmetry; apply (Z.div_unique _ _ _ (c + 1 - 2 * z)); lia).
        destruct (N.leb_spec 10 (2 * r)).
        + rewrite (Hdiv (Z.of_N (q + 1))); lia.
        + rewrite (Hdiv (Z.of_N q)); lia. }
    set (c' := Z.to_N ((c + 1) / 2)).
    assert (Z.of_N c' < 10 ^ 26) as Hc'.
    { unfold c'. assert (5 * c < 10 ^ 25).
      { rewrite <- Hc. assert (10 ^ (x + 3) ≤ 10 ^ 3) by (apply Z.pow_le_mono_r; lia).
        assert (0 < 10 ^ (x + 3)) by (apply Z.pow_pos_nonneg; lia). nia. }
      assert ((c + 1) / 2 < 10 ^ 26) by (apply Z.div_lt_upper_bound; lia).
      destruct (Z.le_gt_cases 0 ((c + 1) / 2)); lia. }
    pose proof (ndigits_le c' 26 Hc').
    destruct (Z.ltb_spec 999999 (-2 + ndigits c' - 1)); [lia|].
    destruct (Z.ltb_spec 28 (ndigits c')); [lia|]. cbn [orb].
    apply fix_ctx_exact; lia.
Qed.

Lemma cap_cents local l : in_cents 15 local l →
  ∃ cap, dec_mul local (dec_of_Z 3) = Ok cap ∧ in_cents 16 cap (3 * l).
Proof.
  intros (n & e & -> & He & -> & Hn). rewrite (dec_of_nonneg 3) by lia.
  rewrite dec_mul_exact by (simpl; lia). eexists. split; [done|].
  exists (n * Z.to_N 3)%N, (e + 0). split; [done|]. rewrite Z.add_0_r. split; [done|].
  split; [lia|]. change (10 ^ 15) with 1000000000000000 in Hn.
  change (10 ^ 16) with 10000000000000000. lia.
Qed.

Lemma in_cents_weaken d c : in_cents 15 d c → in_cents 16 d c.
Proof.
  intros (n & e & -> & He & -> & Hn). exists n, e. repeat split; try done; try lia.
Qed.

Lemma dec_min_cents a b x y : in_cents 16 a x → in_cents 16 b y →
  in_cents 16 (dec_min a b) (Z.min x y).
Proof.
  intros Ha Hb. unfold dec_min. rewrite (dec_ltb_cents _ _ _ _ _ _ Hb Ha).
  destruct (Z.ltb_spec y x); [by rewrite Z.min_r by lia|by rewrite Z.min_l by lia].
Qed.

(** Wage times coefficient, rounded to the cent *)
Lemma product_cents wage x h : in_cents 16 wage x → 0 ≤ h ≤ 20000 →
  (product ← dec_mul wage (halves h); quantize ROUND_HALF_UP product (-2)) =
  Ok (Fin false (Z.to_N ((x * h + 1) / 2)) (-2)).
Proof.
  intros (n & e & -> & He & -> & Hn) Hh. destruct (halves_parts h Hh) as (k & f & -> & Hf & Hk).
  change (10 ^ 16) with 10000000000000000 in Hn.
  rewrite dec_mul_exact by (try (change (10 ^ 28) with 10000000000000000000000000000); nia).
  cbn [mbind result_bind]. apply quantize_cents; [lia| |].
  - rewrite N2Z.inj_mul. destruct Hf as [[-> Hf]|[-> Hf]].
    + replace (e + 0 + 3) with (e + 2 + 1) by lia. rewrite Z.pow_add_r by lia.
      change (10 ^ 1) with 10. nia.
    + replace (e + -1 + 3) with (e + 2) by lia. nia.
  - change (10 ^ 22) with 10000000000000000000000. nia.
Qed.

Lemma compensation_eq (p : CompensationParameters) (w l h : Z) :
  in_cents 15 p.(cp_monthly_wage_average) w →
  in_cents 15 p.(cp_local_previous_year_monthly_average_wage) l → 0 ≤ h ≤ 20000 →
  ∃ c, compensation p (halves h) = Ok c ∧
    c.(high_wage_cap_applied) = (3 * l <? w) ∧
    c.(effective_coefficient) = halves (if 3 * l <? w then Z.min h 24 else h) ∧
    c.(amount) = Fin false (Z.to_N
      ((Z.min w (3 * l) * (if (3 * l <? w)%Z then Z.min h 24 else h) + 1) / 2)) (-2).
Proof.
  intros Hw Hl Hh. unfold compensation. destruct (cap_cents _ _ Hl) as (cap & -> & Hcap).
  cbn [mbind result_bind]. pose proof (in_cents_weaken _ _ Hw) as Hw'.
  rewrite (dec_ltb_cents _ _ _ _ _ _ Hcap Hw').
  assert ((if 3 * l <? w then dec_min (halves h) (dec_of_Z 12) else halves h) =
    halves (if 3 * l <? w then Z.min h 24 else h)) as ->.
  { destruct (3 * l <? w); [|done]. change (dec_of_Z 12) with (halves 24). unfold dec_min.
    rewrite dec_ltb_halves by lia. destruct (Z.ltb_spec 24 h).
    - by rewrite Z.min_r by lia.
    - by rewrite Z.min_l by lia. }
  set (h' := if 3 * l <? w then Z.min h 24 else h).
  assert (0 ≤ h' ≤ 20000) as Hh' by (unfold h'; destruct (3 * l <? w); lia).
  pose proof (product_cents _ _ h' (dec_min_cents _ _ _ _ Hw' Hcap) Hh') as Hp.
  apply bind_Ok in Hp as (product & -> & Hq). cbn [mbind result_bind]. rewrite Hq.
  cbn [mbind result_bind]. eexists. split; [done|]. done.
Qed.

(** The amount, in cents: for positive wages with at most two decimals and
    fifteen digits, and [h] half years of service, the compensation is the exact
    product of the wage capped at three times the local average with the years of
    service, capped at twelve when the wage cap applies, rounded half up to the cent. *)
Lemma compensation_cents (p : CompensationParameters) (w l h : Z) :
  in_cents 15 p.(cp_monthly_wage_average) w →
  in_cents 15 p.(cp_local_previous_year_monthly_average_wage) l → 0 ≤ h ≤ 20000 →
  ∃ c, compensation p (halves h) = Ok c ∧
    c.(high_wage_cap_applied) = (3 * l <? w) ∧
    c.(effective_coefficient) = halves (if 3 * l <? w then Z.min h 24 else h) ∧
    c.(amount) = Fin false (Z.to_N
      ((Z.min w (3 * l) * (if (3 * l <? w)%Z then Z.min h 24 else h) + 1) / 2)) (-2).
Proof. apply compensation_eq. Qed.

(** Bounds of the amount: it never exceeds, rounded to the cent, the wage times
    the service, and a high wage is never paid more than three times the local
    average for each of at most twelve years. *)
Lemma compensation_bounds (p : CompensationParameters) (w l h : Z) (c : Compensation) :
  in_cents 15 p.(cp_monthly_wage_average) w →
  in_cents 15 p.(cp_local_previous_year_monthly_average_wage) l → 0 ≤ h ≤ 20000 →
  compensation p (halves h) = Ok c →
  ∃ cents, c.(amount) = Fin false (Z.to_N cents) (-2) ∧ 0 ≤ cents ∧
    2 * cents ≤ w * h + 1 ∧ (3 * l < w → cents ≤ 36 * l).
Proof.
  intros Hw Hl Hh Hc. destruct (compensation_eq p w l h Hw Hl Hh) as (c' & Hc' & _ & _ & Ha).
  assert (c' = c) as -> by congruence. eexists. split; [exact Ha|].
  assert (0 ≤ w) by (destruct Hw as (? & ? & _ & ? & -> & _); nia).
  assert (0 ≤ l) by (destruct Hl as (? & ? & _ & ? & -> & _); nia).
  set (h' := if 3 * l <? w then Z.min h 24 else h).
  assert (0 ≤ h' ≤ h) by (unfold h'; destruct (3 * l <? w); lia).
  pose proof (Z.div_mod (Z.min w (3 * l) * h' + 1) 2 ltac:(lia)).
  pose proof (Z.mod_pos_bound (Z.min w (3 * l) * h' + 1) 2 ltac:(lia)).
  set (q := (Z.min w (3 * l) * h' + 1) / 2) in *.
  assert (0 ≤ Z.min w (3 * l) * h' ≤ w * h) by nia.
  repeat split; [lia|lia|]. intros Hcap.
  assert (h' ≤ 24) by (unfold h'; rewrite (proj2 (Z.ltb_lt _ _)) by lia; lia).
  assert (Z.min w (3 * l) * h' ≤ 3 * l * 24) by nia. lia.
Qed.

(** The amount is rounded by a context of 28 digits outside the error handling:
    wages of 1E+26 are valid parameters, but [compensation] raises InvalidOperation. *)
Lemma compensation_overflow (start last : date) :
  let wage := Fin false 1 26 in
  let p := mk_CompensationParameters start last wage wage in
  decimal_of_string "1E+26" = Ok wage ∧ CompensationParameters_validate p = Ok p ∧
  compensation p (dec_of_Z 1) = Raise InvalidOperation.
Proof. intros wage p. split; [reflexivity|]. split; reflexivity. Qed.

(** ** Concrete services and wages *)
Lemma service_coefficient_spec_witness :
  ∃ y h, service_of (mk_date 2020 2 29) (mk_date 2026 2 28) y h ∧
    _service_coefficient (mk_date 2020 2 29) (mk_date 2026 2 28) = Ok (halves h) ∧ y = 6 ∧ h = 12.
Proof.
  destruct (service_coefficient_spec (mk_date 2020 2 29) (mk_date 2026 2 28))
    as (y & h & Hs & He & Hu); try reflexivity.
  exists y, h. split; [exact Hs|]. split; [exact He|].
  destruct (Hu 6 12) as [-> ->]; [|split; reflexivity].
  apply (on_anniversary _ _ 6). reflexivity.
Defined.

Lemma service_coefficient_monotone_witness :
  ∃ h1 h2, _service_coefficient (mk_date 2020 2 29) (mk_date 2025 3 1) = Ok (halves h1) ∧
    _service_coefficient (mk_date 2020 2 29) (mk_date 2025 12 31) = Ok (halves h2) ∧ 0 ≤ h1 ≤ h2.
Proof. apply service_coefficient_monotone; reflexivity. Defined.

Definition demo_parameters : CompensationParameters :=
  mk_CompensationParameters (mk_date 2010 1 1) (mk_date 2026 2 1) (Fin false 4000001 (-2))
    (Fin false 12000 0).

Lemma demo_wage : in_cents 15 (Fin false 4000001 (-2)) 4000001.
Proof. exists 4000001%N, (-2). repeat split; lia. Qed.
Lemma demo_local : in_cents 15 (Fin false 12000 0) 1200000.
Proof. exists 12000%N, 0. repeat split; lia. Qed.

Lemma compensation_cents_witness :
  ∃ c, compensation demo_parameters (halves 33) = Ok c ∧ c.(high_wage_cap_applied) = true ∧
    c.(amount) = Fin false 43200000 (-2).
Proof.
  destruct (compensation_cents demo_parameters 4000001 1200000 33 demo_wage demo_local)
    as (c & Hc & Hh & _ & Ha); [lia|].
  exists c. split; [exact Hc|]. split; [exact Hh|exact Ha].
Defined.

Lemma compensation_bounds_witness :
  ∃ c cents, compensation demo_parameters (halves 33) = Ok c ∧
    c.(amount) = Fin false (Z.to_N cents) (-2) ∧ cents ≤ 36 * 1200000.
Proof.
  destruct (compensation demo_parameters (halves 33)) as [c|] eqn:E; [|vm_compute in E; discriminate E].
  destruct (compensation_bounds demo_parameters 4000001 1200000 33 c demo_wage demo_local)
    as (cents & Ha & _ & _ & Hb); [lia|exact E|].
  exists c, cents. split; [reflexivity|]. split; [exact Ha|apply Hb; lia].
Defined.
