(* ===== verification/Calculation.v ===== *)
(** * skills/calculation.py: the economic-compensation calculation *)
From S2P Require Import Prelude Json PyTime PyDecimal Canonical Platforms Models Common.
From S2P Require Import TrustedStore Rules Compensation.
Local Open Scope Z_scope.

Definition SUPPORTED_FORMULA : string := "cn-economic-compensation-v0.1".
(** The frozensets, in sorted order *)
Definition REQUIRED_FIELDS : list string :=
  ["employment_start_date"; "local_previous_year_monthly_average_wage"; "monthly_wage_average";
   "planned_termination_date"].
Definition REQUIRED_RULE_ISSUES : list string :=
  ["economic_compensation_amount"; "economic_compensation_wage_basis"].

(** ** The values of the evidence *)

(** [grouped.setdefault(field, set()).add(value)] on a dict in insertion order *)
Fixpoint group_value (field value : string) (grouped : list (string * list string))
    : list (string * list string) :=
  match grouped with
  | [] => [(field, [value])]
  | (f, vs) :: rest =>
      if String.eqb f field
      then (f, if bool_decide (value ∈ vs) then vs else vs ++ [value]) :: rest
      else (f, vs) :: group_value field value rest
  end.

Definition group_fields (evidence : list EvidenceObject) : list (string * list string) :=
  fold_left (λ g e, group_value e.(ev_field_name) e.(ev_normalized_value) g) evidence [].

(** (values, conflicts) *)
Definition _field_values (evidence : list EvidenceObject) : list (string * string) * list string :=
  let grouped := group_fields evidence in
  (omap (λ fv : string * list string, match snd fv with [v] => Some (fst fv, v) | _ => None end)
     grouped,
   isort String.leb
     (omap (λ fv : string * list string, match snd fv with _ :: _ :: _ => Some (fst fv) | _ => None end)
        grouped)).

Fixpoint lookup_field (field : string) (values : list (string * string)) : result string :=
  match values with
  | [] => Raise (KeyError field)
  | (f, v) :: rest => if String.eqb f field then Ok v else lookup_field field rest
  end.

Section calculation.
Context `{P : Platform}.

(** ** The boundary of trust *)
Definition _seal_is_valid `{Artifact A} (artifact : A) : result bool :=
  match verify_hash artifact with
  | Ok b => Ok b
  | Raise e => if is_type_error e || is_value_error e then Ok false else Raise e
  end.

Definition rule_key (r : RuleRecord) : string * string := (r.(rr_rule_id), r.(rr_version)).

Definition _rule_matches_catalog (citation : RuleCitation) (catalog : RuleCatalog) : result bool :=
  match filter (λ r, rule_key r = (citation.(rc_rule_id), citation.(rc_version)))
          catalog.(cat_rules) with
  | [record] =>
      if String.eqb citation.(rc_issue_code) record.(rr_issue_code) &&
         String.eqb citation.(rc_title) record.(rr_title) &&
         String.eqb citation.(rc_jurisdiction) record.(rr_jurisdiction) &&
         bool_decide (citation.(rc_effective_from) = record.(rr_effective_from)) &&
         bool_decide (citation.(rc_effective_to) = record.(rr_effective_to)) &&
         String.eqb citation.(rc_authoritative_source) record.(rr_authoritative_source) &&
         String.eqb citation.(rc_locator) record.(rr_locator) &&
         String.eqb citation.(rc_excerpt) record.(rr_statement)
      then
        h ← sha256_digest (to_py record);
        Ok (String.eqb citation.(rc_source_hash) h &&
            bool_decide (citation.(rc_meta).(meta_source_refs) = [record.(rr_authoritative_source)]))
      else Ok false
  | _ => Ok false
  end.

Definition public_synthetic (m : ArtifactMeta) : bool :=
  bool_decide (m.(meta_classification) = DataClassification.PUBLIC_SYNTHETIC).

(** The four flags of the two loops *)
Record Flags := mk_Flags {
  unverified : bool; untrusted_evidence : bool; cross_context : bool; unresolved : bool
}.

Definition check_evidence (context : SkillContext) (s : TrustedArtifactStore) (fl : Flags)
    (e : EvidenceObject) : result Flags :=
  seal_valid ← _seal_is_valid e;
  let evidence_unverified := negb seal_valid || negb (public_synthetic e.(ev_meta)) ||
    negb (String.eqb e.(ev_meta).(meta_producer_identity) "PF-A2") in
  let evidence_cross_context := negb (bool_decide (meta_scope e.(ev_meta) = context_scope context)) in
  let evidence_unresolved := negb (bool_decide (e.(ev_fact_status) = FactStatus.VERIFIED)) in
  evidence_registered ← contains s context e;
  Ok (mk_Flags (fl.(unverified) || evidence_unverified)
        (fl.(untrusted_evidence) ||
           negb evidence_registered && negb evidence_unverified &&
           negb evidence_cross_context && negb evidence_unresolved)
        (fl.(cross_context) || evidence_cross_context)
        (fl.(unresolved) || evidence_unresolved)).

(** [unverified or (not sealed or ... or not _rule_matches_catalog(...))] stops at
    the first true operand. *)
Definition check_rule (context : SkillContext) (catalog : RuleCatalog) (fl : Flags)
    (rule : RuleCitation) : result Flags :=
  bad ← (if fl.(unverified) then Ok true else
         seal_valid ← _seal_is_valid rule;
         if negb seal_valid || negb (public_synthetic rule.(rc_meta)) ||
            negb (String.eqb rule.(rc_meta).(meta_producer_identity) "PF-A3")
         then Ok true
         else matches ← _rule_matches_catalog rule catalog; Ok (negb matches));
  Ok (mk_Flags bad fl.(untrusted_evidence)
        (fl.(cross_context) || negb (bool_decide (meta_scope rule.(rc_meta) = context_scope context)))
        fl.(unresolved)).

Definition flag_issues (fl : Flags) : list Issue :=
  (if fl.(unverified) then [human_blocker "UNVERIFIED_ARTIFACT"
     "calculation input contains an unverified or untrusted artifact"] else []) ++
  (if fl.(cross_context) then [blocker "CROSS_TENANT_REFERENCE"
     "calculation artifacts do not belong to the request context"] else []) ++
  (if fl.(untrusted_evidence) then [human_blocker "UNTRUSTED_EVIDENCE"
     "calculation evidence is not registered by this trusted runtime"] else []) ++
  (if fl.(unresolved) then [human_blocker "UNRESOLVED_PARAMETER"
     "calculation evidence must be VERIFIED before use"] else []).

Definition _artifact_boundary_issues (context : SkillContext) (request : CalculateRequest)
    (catalog : RuleCatalog) (trusted_artifacts : TrustedArtifactStore) : result (list Issue) :=
  fl ← foldR (check_evidence context trusted_artifacts) (mk_Flags false false false false)
         request.(creq_evidence);
  fl ← foldR (check_rule context catalog) fl request.(creq_rule_citations);
  Ok (flag_issues fl).

(** ** The scope of the rules *)
Definition Key3 : Type := string * string * string.
Definition record_key (r : RuleRecord) : Key3 :=
  (r.(rr_rule_id), r.(rr_version), r.(rr_issue_code)).
Definition citation_key (c : RuleCitation) : Key3 :=
  (c.(rc_rule_id), c.(rc_version), c.(rc_issue_code)).

(** The order of tuples of strings *)
Definition key3_leb (x y : Key3) : bool :=
  let '(a, b, c) := x in
  let '(a', b', c') := y in
  if String.eqb a a' then if String.eqb b b' then String.leb c c' else String.leb b b'
  else String.leb a a'.

Definition scope_query (scope : RuleScopeReceipt) : RuleRetrieveRequest :=
  mk_RuleRetrieveRequest scope.(rsr_issue_codes) scope.(rsr_jurisdiction) scope.(rsr_as_of_date).

Definition _rule_scope_issue (request : CalculateRequest) (catalog : RuleCatalog)
    : result (option Issue) :=
  let scope := request.(creq_rule_scope) in
  rule_query ← RuleRetrieveRequest_validate (scope_query scope);
  let expected := expected_records rule_query catalog rule_query.(rq_issue_codes) in
  let has_missing_scope_issue :=
    existsb (λ code, bool_decide (has_no_match rule_query catalog code)) rule_query.(rq_issue_codes) in
  let expected_rule_keys := isort key3_leb (map record_key expected) in
  let actual_rule_keys := isort key3_leb (map citation_key request.(creq_rule_citations)) in
  query_hash ← sha256_digest (to_py rule_query);
  Ok (if negb (String.eqb scope.(rsr_rule_query_input_hash) query_hash) ||
         negb (String.eqb scope.(rsr_catalog_version) catalog.(cat_catalog_version)) ||
         has_missing_scope_issue ||
         negb (bool_decide (actual_rule_keys = expected_rule_keys))
      then Some (human_blocker "RULE_SCOPE_MISMATCH"
        "rule citations are not a complete result for the declared jurisdiction, date, issue, and catalog scope")
      else None).

(** ** The Skill *)
Definition parameter_issues (conflicts missing missing_rules : list string) : list Issue :=
  map (λ field, human_blocker "CONFLICTING_PARAMETER"
        (str_strip ("multiple verified values for " +:+ field))) conflicts ++
  map (λ field, human_blocker "MISSING_PARAMETER"
        ("required calculation parameter is missing: " +:+ field)) missing ++
  map (λ code, human_blocker "MISSING_RULE"
        ("required calculation rule is missing: " +:+ code)) missing_rules.

(** The [try] block: the parameters and the coefficient *)
Definition parse_parameters (values : list (string * string))
    : result (CompensationParameters * decimal) :=
  t1 ← lookup_field "employment_start_date" values;
  start ← date_fromisoformat t1;
  t2 ← lookup_field "planned_termination_date" values;
  last ← date_fromisoformat t2;
  t3 ← lookup_field "monthly_wage_average" values;
  wage ← decimal_of_string t3;
  t4 ← lookup_field "local_previous_year_monthly_average_wage" values;
  local ← decimal_of_string t4;
  parameters ← CompensationParameters_validate (mk_CompensationParameters start last wage local);
  coefficient ← _service_coefficient start last;
  Ok (parameters, coefficient).

Definition is_invalid_operation (e : exn) : bool :=
  match e with InvalidOperation => true | _ => false end.

Definition line_item (formula_version : string) (p : CompensationParameters)
    (coefficient : decimal) (c : Compensation) : CalculationLineItem :=
  mk_CalculationLineItem "economic_compensation_reference" "PRC-LCL-47" formula_version
    [("employment_start_date", VStr (date_isoformat p.(cp_employment_start_date)));
     ("planned_termination_date", VStr (date_isoformat p.(cp_planned_termination_date)));
     ("monthly_wage_average", VDecimal p.(cp_monthly_wage_average));
     ("local_previous_year_monthly_average_wage",
        VDecimal p.(cp_local_previous_year_monthly_average_wage))]
    [("service_coefficient", VDecimal coefficient); ("wage_cap", VDecimal c.(wage_cap));
     ("high_wage_cap_applied", VStr (if c.(high_wage_cap_applied) then "true" else "false"));
     ("effective_wage", VDecimal c.(effective_wage));
     ("effective_coefficient", VDecimal c.(effective_coefficient))]
    c.(amount).

(** The sheet of one computed amount *)
Definition calculation_sheet (context : SkillContext) (request : CalculateRequest) (now : datetime)
    (p : CompensationParameters) (coefficient : decimal) (c : Compensation)
    : result CalculationSheet :=
  reproducibility_hash ← sha256_digest (VDict
    [("formula_version", to_py request.(creq_formula_version)); ("parameters", to_py p);
     ("coefficient", to_py coefficient); ("effective_wage", to_py c.(effective_wage));
     ("effective_coefficient", to_py c.(effective_coefficient))]);
  m ← artifact_meta "calculation" "PF-A4" context now
    (VDict [("formula_version", to_py request.(creq_formula_version));
            ("reproducibility_hash", to_py reproducibility_hash)])
    (map artifact_ref request.(creq_evidence) ++ map artifact_ref request.(creq_rule_citations));
  sheet ← CalculationSheet_validate
    (mk_CalculationSheet m [line_item request.(creq_formula_version) p coefficient c]
      (Some c.(amount)) [] (Some reproducibility_hash));
  seal sheet.

Definition deterministic_calculate (context : SkillContext) (request : CalculateRequest)
    (catalog : RuleCatalog) (trusted_artifacts : TrustedArtifactStore) (now : datetime)
    : result (SkillResult CalculateOutput) :=
  unless_denied context (to_py request) "PF-A4" (
    boundary_issues ← _artifact_boundary_issues context request catalog trusted_artifacts;
    match boundary_issues with
    | _ :: _ => blocked (to_py request) boundary_issues
    | [] =>
    scope_issue ← _rule_scope_issue request catalog;
    match scope_issue with
    | Some i => blocked (to_py request) [i]
    | None =>
    if negb (String.eqb request.(creq_formula_version) SUPPORTED_FORMULA) then
      blocked (to_py request) [blocker "FORMULA_NOT_FOUND"
        (str_strip ("unsupported formula version: " +:+ request.(creq_formula_version)))]
    else
    let '(values, conflicts) := _field_values request.(creq_evidence) in
    let missing := filter (λ f, f ∉ map fst values) REQUIRED_FIELDS in
    let missing_rules :=
      filter (λ i, i ∉ map rc_issue_code request.(creq_rule_citations)) REQUIRED_RULE_ISSUES in
    match conflicts, missing, missing_rules with
    | [], [], [] =>
        match parse_parameters values with
        | Raise e =>
            if is_value_error e || is_invalid_operation e then
              blocked (to_py request) [human_blocker "INVALID_PARAMETER" (str_strip (exc_text e))]
            else Raise e
        | Ok (parameters, coefficient) =>
            c ← compensation parameters coefficient;
            sheet ← calculation_sheet context request now parameters coefficient c;
            success (to_py request) (mk_CalculateOutput sheet) [artifact_ref sheet]
        end
    | _, _, _ => blocked (to_py request) (parameter_issues conflicts missing missing_rules)
    end
    end
    end).
End calculation.

(** ** The values of the evidence *)
Definition grouped_ok (evidence : list EvidenceObject) (g : list (string * list string)) : Prop :=
  NoDup (map fst g) ∧
  (∀ f vs, (f, vs) ∈ g → NoDup vs ∧ vs ≠ [] ∧
     ∀ v, v ∈ vs ↔ ∃ e, e ∈ evidence ∧ e.(ev_field_name) = f ∧ e.(ev_normalized_value) = v) ∧
  (∀ e, e ∈ evidence → e.(ev_field_name) ∈ map fst g).

Lemma group_value_keys f v g x : x ∈ map fst (group_value f v g) ↔ x = f ∨ x ∈ map fst g.
Proof.
  induction g as [|[f' vs] g IH]; simpl; [rewrite elem_of_cons; naive_solver|].
  destruct (String.eqb_spec f' f) as [->|]; simpl; rewrite !elem_of_cons; [naive_solver|].
  rewrite IH. naive_solver.
Qed.

Lemma group_value_NoDup f v g : NoDup (map fst g) → NoDup (map fst (group_value f v g)).
Proof.
  induction g as [|[f' vs] g IH]; simpl; [intros; repeat constructor; by apply not_elem_of_nil|].
  intros [Hf Hg]%NoDup_cons. destruct (String.eqb_spec f' f) as [->|]; simpl; constructor; auto.
  rewrite group_value_keys. naive_solver.
Qed.

Lemma group_value_elem f v g f' vs :
  NoDup (map fst g) → (f', vs) ∈ group_value f v g →
  (f' ≠ f ∧ (f', vs) ∈ g) ∨
  (f' = f ∧ ((vs = [v] ∧ f ∉ map fst g) ∨
    ∃ ws, (f, ws) ∈ g ∧ vs = if bool_decide (v ∈ ws) then ws else ws ++ [v])).
Proof.
  induction g as [|[f1 ws] g IH]; simpl.
  - intros _ [= -> ->]%list_elem_of_singleton. right. split; [done|]. left. split; [done|].
    by apply not_elem_of_nil.
  - intros [Hf Hg]%NoDup_cons. destruct (String.eqb_spec f1 f) as [->|Hne].
    + intros [[= -> ->]|Hin]%elem_of_cons.
      * right. split; [done|]. right. exists ws. split; [by left|done].
      * left. split; [|by right]. intros ->. apply Hf, list_elem_of_In, in_map_iff.
        exists (f, vs). split; [done|]. by apply list_elem_of_In.
    + intros [[= -> ->]|Hin]%elem_of_cons; [left; split; [done|by left]|].
      destruct (IH Hg Hin) as [[? ?]|[-> [[-> Hn]|(ws' & ? & ->)]]].
      * left. split; [done|by right].
      * right. split; [done|]. left. split; [done|]. rewrite not_elem_of_cons. auto.
      * right. split; [done|]. right. exists ws'. split; [by right|done].
Qed.

Lemma grouped_step evidence e g :
  grouped_ok evidence g →
  grouped_ok (evidence ++ [e]) (group_value e.(ev_field_name) e.(ev_normalized_value) g).
Proof.
  intros (Hnd & Hin & Hall).
  assert (∀ x, x ∈ evidence ++ [e] ↔ x ∈ evidence ∨ x = e) as Hx.
  { intros x. rewrite elem_of_app, list_elem_of_singleton. done. }
  repeat split.
  - by apply group_value_NoDup.
  - destruct (group_value_elem _ _ _ _ _ Hnd H) as [[_ Hg]|[-> [[-> _]|(ws & Hg & ->)]]].
    + by destruct (Hin _ _ Hg).
    + repeat constructor. by apply not_elem_of_nil.
    + destruct (Hin _ _ Hg) as (? & _ & _). case_bool_decide; [done|].
      apply NoDup_app. split; [done|]. split; [|repeat constructor; by apply not_elem_of_nil].
      intros x Hx1 ->%list_elem_of_singleton. done.
  - destruct (group_value_elem _ _ _ _ _ Hnd H) as [[_ Hg]|[-> [[-> _]|(ws & Hg & ->)]]].
    + by destruct (Hin _ _ Hg) as (_ & ? & _).
    + done.
    + destruct (Hin _ _ Hg) as (_ & ? & _). case_bool_decide; [done|]. by destruct ws.
  - intros Hv. destruct (group_value_elem _ _ _ _ _ Hnd H) as [[_ Hg]|[-> [[-> _]|(ws & Hg & ->)]]].
    + apply (Hin _ _ Hg) in Hv as (e' & He' & ?). exists e'. rewrite Hx. auto.
    + apply list_elem_of_singleton in Hv as ->. exists e. rewrite Hx. auto.
    + case_bool_decide as Hd; [|apply elem_of_app in Hv as [Hv| ->%list_elem_of_singleton]].
      * apply (Hin _ _ Hg) in Hv as (e' & He' & ?). exists e'. rewrite Hx. auto.
      * apply (Hin _ _ Hg) in Hv as (e' & He' & ?). exists e'. rewrite Hx. auto.
      * exists e. rewrite Hx. auto.
  - intros (e' & He' & Hf & Hv). apply Hx in He'.
    destruct (group_value_elem _ _ _ _ _ Hnd H) as [[Hne Hg]|[-> [[-> Hn]|(ws & Hg & ->)]]].
    + apply (Hin _ _ Hg). exists e'. destruct He' as [?| ->]; [done|congruence].
    + apply list_elem_of_singleton. destruct He' as [He'| ->]; [|done].
      exfalso. apply Hn. rewrite <- Hf. by apply Hall.
    + destruct He' as [He'| ->].
      * assert (v ∈ ws) as Hw by (apply (Hin _ _ Hg); eauto).
        case_bool_decide; [done|]. apply elem_of_app. by left.
      * rewrite <- Hv. case_bool_decide; [done|]. apply elem_of_app. right.
        by apply list_elem_of_singleton.
  - intros e' [He'| ->]%Hx; apply group_value_keys; [right; by apply Hall|by left].
Qed.

Lemma group_fields_ok evidence : grouped_ok evidence (group_fields evidence).
Proof.
  unfold group_fields. induction evidence as [|e l IH] using rev_ind.
  - split; [constructor|]. split; [by intros ? ? ?%not_elem_of_nil|by intros ? ?%not_elem_of_nil].
  - rewrite fold_left_app. by apply grouped_step.
Qed.

(** No field has two values. *)
Definition consistent (evidence : list EvidenceObject) : Prop :=
  ∀ e e', e ∈ evidence → e' ∈ evidence → e.(ev_field_name) = e'.(ev_field_name) →
    e.(ev_normalized_value) = e'.(ev_normalized_value).

Lemma no_conflicts_spec evidence :
  snd (_field_values evidence) = [] ↔ consistent evidence.
Proof.
  unfold _field_values. simpl. pose proof (group_fields_ok evidence) as (Hnd & Hin & Hall).
  split.
  - intros Hc e e' He He' Hf. pose proof (isort_perm String.leb (omap
      (λ fv : string * list string, match snd fv with _ :: _ :: _ => Some (fst fv) | _ => None end)
      (group_fields evidence))) as Hp. rewrite Hc in Hp. apply Permutation_nil in Hp.
    specialize (Hall e He). apply list_elem_of_In, in_map_iff in Hall as ([f vs] & Hf' & Hg).
    apply list_elem_of_In in Hg. simpl in Hf'. subst f. destruct (Hin _ _ Hg) as (_ & Hne & Hv).
    assert (e.(ev_normalized_value) ∈ vs) as H1 by (apply Hv; eauto).
    assert (e'.(ev_normalized_value) ∈ vs) as H2 by (apply Hv; eauto).
    destruct vs as [|v [|v' vs]]; [done| |].
    + apply list_elem_of_singleton in H1, H2. congruence.
    + exfalso. assert (e.(ev_field_name) ∈ omap
        (λ fv : string * list string, match snd fv with _ :: _ :: _ => Some (fst fv) | _ => None end)
        (group_fields evidence)) as Hm; [|rewrite Hp in Hm; by apply not_elem_of_nil in Hm].
      apply list_elem_of_omap. eexists. split; [exact Hg|]. done.
  - intros Hc. assert (omap
      (λ fv : string * list string, match snd fv with _ :: _ :: _ => Some (fst fv) | _ => None end)
      (group_fields evidence) = []) as ->; [|done].
    destruct (omap _ _) as [|f l] eqn:E; [done|]. exfalso.
    assert (f ∈ omap
      (λ fv : string * list string, match snd fv with _ :: _ :: _ => Some (fst fv) | _ => None end)
      (group_fields evidence)) as Hm by (rewrite E; by left).
    apply list_elem_of_omap in Hm as ([f' vs] & Hg & Hs). simpl in Hs.
    destruct vs as [|v [|v' vs]]; try done. injection Hs as <-.
    destruct (Hin _ _ Hg) as (Hvs & _ & Hv).
    destruct (proj1 (Hv v)) as (e & He & Hf & <-); [by left|].
    destruct (proj1 (Hv v')) as (e' & He' & Hf' & <-); [by right; left|].
    apply NoDup_cons in Hvs as [Hnot _]. apply Hnot. rewrite (Hc e e'); [by left|done|done|congruence].
Qed.

Lemma field_values_keys evidence : consistent evidence → ∀ f,
  f ∈ map fst (fst (_field_values evidence)) ↔ ∃ e, e ∈ evidence ∧ e.(ev_field_name) = f.
Proof.
  intros Hc f. unfold _field_values. cbn [fst]. pose proof (group_fields_ok evidence) as (Hnd & Hin & Hall).
  split.
  - intros Hf. apply list_elem_of_In, in_map_iff in Hf as ([f' v] & <- & Hf).
    apply list_elem_of_In, list_elem_of_omap in Hf as ([f1 vs] & Hg & Hs). simpl in *.
    destruct vs as [|w [|w' vs]]; try done. injection Hs as <- <-.
    destruct (Hin _ _ Hg) as (_ & _ & Hv). destruct (proj1 (Hv w)) as (e & He & Hf & _); [by left|].
    eauto.
  - intros (e & He & <-). specialize (Hall e He).
    apply list_elem_of_In, in_map_iff in Hall as ([f vs] & Hf & Hg). simpl in Hf.
    apply list_elem_of_In in Hg. rewrite <- Hf in *. destruct (Hin _ _ Hg) as (Hvs & Hne & Hv).
    destruct vs as [|v [|v' vs]]; [done| |].
    + apply list_elem_of_In, in_map_iff. exists (f, v). split; [done|].
      apply list_elem_of_In, list_elem_of_omap. exists (f, [v]). done.
    + exfalso. destruct (proj1 (Hv v)) as (e1 & He1 & Hf1 & <-); [by left|].
      destruct (proj1 (Hv v')) as (e2 & He2 & Hf2 & <-); [by right; left|].
      apply NoDup_cons in Hvs as [Hnot _]. apply Hnot. rewrite (Hc e1 e2); [by left|done|done|congruence].
Qed.

Lemma lookup_field_In f v values :
  NoDup (map fst values) → (f, v) ∈ values → lookup_field f values = Ok v.
Proof.
  induction values as [|[f' v'] l IH]; simpl; [by intros _ ?%not_elem_of_nil|].
  intros [Hf Hl]%NoDup_cons [[= -> ->]|Hin]%elem_of_cons; [by rewrite String.eqb_refl|].
  destruct (String.eqb_spec f' f) as [->|]; [|auto].
  exfalso. apply Hf, list_elem_of_In, in_map_iff. exists (f, v). split; [done|].
  by apply list_elem_of_In.
Qed.

Lemma omap_keys_sublist {A} (g : list (string * A)) (h : A → option string) :
  sublist (map fst (omap (λ fv : string * A, match h (snd fv) with Some v => Some (fst fv, v) | None => None end) g))
    (map fst g).
Proof.
  induction g as [|[f a] g IH]; simpl; [constructor|].
  destruct (h a); simpl; by constructor.
Qed.

(** The value the calculation reads for a field is the one of the evidence. *)
Lemma lookup_field_value evidence e :
  consistent evidence → e ∈ evidence →
  lookup_field e.(ev_field_name) (fst (_field_values evidence)) = Ok e.(ev_normalized_value).
Proof.
  intros Hc He. pose proof (group_fields_ok evidence) as (Hnd & Hin & Hall).
  apply lookup_field_In.
  - eapply sublist_NoDup; [exact Hnd|]. unfold _field_values. cbn [fst].
    etrans; [|apply (omap_keys_sublist _ (λ vs, match vs with [v] => Some v | _ => None end))].
    apply eq_subrelation; [apply _|]. f_equal. apply list_omap_ext, Forall_Forall2_diag, List.Forall_forall.
    intros [f [|v [|v' vs]]] _; done.
  - assert (e.(ev_field_name) ∈ map fst (fst (_field_values evidence))) as Hk
      by (apply field_values_keys; eauto).
    apply list_elem_of_In, in_map_iff in Hk as ([f v] & Hf & Hv). simpl in Hf. subst f.
    apply list_elem_of_In in Hv. pose proof Hv as Hv'. unfold _field_values in Hv'. cbn [fst] in Hv'.
    apply list_elem_of_omap in Hv' as ([f vs] & Hg & Hs). simpl in Hs.
    destruct vs as [|w [|w' vs]]; try done. injection Hs as -> ->.
    destruct (Hin _ _ Hg) as (_ & _ & Hw). destruct (proj1 (Hw v)) as (e' & He' & Hf & <-); [by left|].
    by rewrite (Hc e e').
Qed.

(** ** What a calculation rests on *)
Section basis.
Context `{P : Platform}.

Definition trusted_evidence (context : SkillContext) (s : TrustedArtifactStore)
    (e : EvidenceObject) : Prop :=
  verify_hash e = Ok true ∧
  e.(ev_meta).(meta_classification) = DataClassification.PUBLIC_SYNTHETIC ∧
  e.(ev_meta).(meta_producer_identity) = "PF-A2" ∧
  meta_scope e.(ev_meta) = context_scope context ∧ e.(ev_fact_status) = FactStatus.VERIFIED ∧
  contains s context e = Ok true.

Definition catalog_citation (context : SkillContext) (catalog : RuleCatalog) (c : RuleCitation) : Prop :=
  verify_hash c = Ok true ∧
  c.(rc_meta).(meta_classification) = DataClassification.PUBLIC_SYNTHETIC ∧
  c.(rc_meta).(meta_producer_identity) = "PF-A3" ∧
  meta_scope c.(rc_meta) = context_scope context ∧ _rule_matches_catalog c catalog = Ok true.

(** The citations are, up to order, the complete answer to the receipt's query. *)
Definition complete_scope (request : CalculateRequest) (catalog : RuleCatalog) : Prop :=
  let scope := request.(creq_rule_scope) in
  let q := scope_query scope in
  valid_query q ∧ sha256_digest (to_py q) = Ok scope.(rsr_rule_query_input_hash) ∧
  scope.(rsr_catalog_version) = catalog.(cat_catalog_version) ∧
  (∀ code, code ∈ q.(rq_issue_codes) → ¬ has_no_match q catalog code) ∧
  map citation_key request.(creq_rule_citations) ≡ₚ
    map record_key (expected_records q catalog q.(rq_issue_codes)).

Record calculation_basis (context : SkillContext) (request : CalculateRequest)
    (catalog : RuleCatalog) (s : TrustedArtifactStore) : Prop := {
  cb_caller : context.(ctx_caller_identity) = "PF-A4";
  cb_evidence : Forall (trusted_evidence context s) request.(creq_evidence);
  cb_rules : Forall (catalog_citation context catalog) request.(creq_rule_citations);
  cb_scope : complete_scope request catalog;
  cb_formula : request.(creq_formula_version) = SUPPORTED_FORMULA;
  cb_consistent : consistent request.(creq_evidence);
  cb_fields : ∀ f, f ∈ REQUIRED_FIELDS → ∃ e, e ∈ request.(creq_evidence) ∧ e.(ev_field_name) = f;
  cb_issues : ∀ i, i ∈ REQUIRED_RULE_ISSUES →
    ∃ c, c ∈ request.(creq_rule_citations) ∧ c.(rc_issue_code) = i;
}.

(** *** The boundary *)
Lemma seal_is_valid_true `{Artifact A} (a : A) : _seal_is_valid a = Ok true ↔ verify_hash a = Ok true.
Proof.
  unfold _seal_is_valid. destruct (verify_hash a) as [b|e]; [done|].
  by destruct (is_type_error e || is_value_error e).
Qed.

Definition clean : Flags := mk_Flags false false false false.

Lemma check_evidence_clean context s fl e :
  check_evidence context s fl e = Ok clean ↔ fl = clean ∧ trusted_evidence context s e.
Proof.
  unfold check_evidence, trusted_evidence, public_synthetic, clean. split.
  - intros (v & Hv & Hx)%bind_Ok. apply bind_Ok in Hx as (r & Hr & Hx).
    injection Hx as H1 H2 H3 H4.
    apply orb_false_iff in H1 as [F1 U], H2 as [F2 H2], H3 as [F3 X], H4 as [F4 N].
    rewrite U, X, N in H2. simpl in H2. rewrite !andb_true_r in H2.
    apply orb_false_iff in U as [U Up]. apply orb_false_iff in U as [Uv Uc].
    rewrite negb_false_iff in *. subst. apply bool_decide_eq_true in Uc, X, N.
    apply String.eqb_eq in Up. destruct fl; simpl in *; subst.
    split; [done|]. split; [by apply seal_is_valid_true|]. done.
  - intros [-> (Hv & Hc & Hp & Hs & Hf & Hr)]. apply seal_is_valid_true in Hv. rewrite Hv. simpl.
    rewrite Hr. simpl. rewrite Hp. by rewrite !bool_decide_eq_true_2.
Qed.

Lemma check_rule_clean context catalog fl c :
  check_rule context catalog fl c = Ok clean ↔ fl = clean ∧ catalog_citation context catalog c.
Proof.
  unfold check_rule, catalog_citation, public_synthetic, clean. split.
  - intros (bad & Hb & Hx)%bind_Ok. injection Hx as H1 H2 H3 H4. subst bad.
    apply orb_false_iff in H3 as [F3 X].
    destruct (unverified fl) eqn:F1; [done|]. apply bind_Ok in Hb as (v & Hv & Hb).
    destruct (negb v || _ || _) eqn:U; [done|].
    apply bind_Ok in Hb as (m & Hm & [= Hneg]).
    apply orb_false_iff in U as [U Up]. apply orb_false_iff in U as [Uv Uc].
    rewrite negb_false_iff in *. subst. apply bool_decide_eq_true in Uc, X.
    apply String.eqb_eq in Up. destruct fl; simpl in *; subst.
    split; [done|]. split; [by apply seal_is_valid_true|]. done.
  - intros [-> (Hv & Hc & Hp & Hs & Hm)]. apply seal_is_valid_true in Hv.
    cbn [unverified]. rewrite Hv. cbn [mbind result_bind]. rewrite Hc, Hp.
    rewrite (bool_decide_eq_true_2 (DataClassification.PUBLIC_SYNTHETIC = _)) by done. simpl.
    rewrite Hm. simpl. by rewrite bool_decide_eq_true_2.
Qed.

Lemma flag_issues_nil fl : flag_issues fl = [] ↔ fl = clean.
Proof. by destruct fl as [[] [] [] []]. Qed.

Lemma boundary_clean context request catalog s :
  _artifact_boundary_issues context request catalog s = Ok [] ↔
  Forall (trusted_evidence context s) request.(creq_evidence) ∧
  Forall (catalog_citation context catalog) request.(creq_rule_citations).
Proof.
  unfold _artifact_boundary_issues. fold clean. rewrite bind_Ok. split.
  - intros (f1 & H1 & H). apply bind_Ok in H as (f2 & H2 & [= H3]).
    apply flag_issues_nil in H3 as ->.
    apply (foldR_clean _ _ _ (check_rule_clean context catalog)) in H2 as [-> H2].
    by apply (foldR_clean _ _ _ (check_evidence_clean context s)) in H1 as [_ H1].
  - intros [H1 H2]. exists clean. split.
    + by apply (foldR_clean _ _ _ (check_evidence_clean context s)).
    + apply bind_Ok. exists clean. split; [|done].
      by apply (foldR_clean _ _ _ (check_rule_clean context catalog)).
Qed.

(** *** The scope *)
Lemma key3_leb_total x y : key3_leb x y = true ∨ key3_leb y x = true.
Proof.
  destruct x as [[a b] c], y as [[a' b'] c']. unfold key3_leb.
  rewrite (String.eqb_sym a' a), (String.eqb_sym b' b).
  destruct (String.eqb a a'); [destruct (String.eqb b b')|]; apply String.leb_total.
Qed.

Lemma key3_leb_antisym x y : key3_leb x y = true → key3_leb y x = true → x = y.
Proof.
  destruct x as [[a b] c], y as [[a' b'] c']. unfold key3_leb.
  rewrite (String.eqb_sym a' a), (String.eqb_sym b' b).
  destruct (String.eqb_spec a a') as [->|Ha]; [destruct (String.eqb_spec b b') as [->|Hb]|];
    intros H1 H2; pose proof (String.leb_antisym _ _ H1 H2); congruence.
Qed.

Lemma key3_leb_trans x y z : key3_leb x y = true → key3_leb y z = true → key3_leb x z = true.
Proof.
  destruct x as [[a b] c], y as [[a' b'] c'], z as [[a'' b''] c'']. unfold key3_leb.
  destruct (String.eqb_spec a a') as [->|Ha], (String.eqb_spec a' a'') as [->|Ha'].
  - destruct (String.eqb_spec b b') as [->|Hb], (String.eqb_spec b' b'') as [->|Hb'];
      rewrite ?String.eqb_refl.
    + apply string_leb_trans.
    + done.
    + by rewrite (proj2 (String.eqb_neq b b'')).
    + intros H1 H2. destruct (String.eqb_spec b b'') as [->|].
      * exfalso. apply Hb. by apply String.leb_antisym.
      * by eapply string_leb_trans.
  - done.
  - by rewrite (proj2 (String.eqb_neq a a'')).
  - intros H1 H2. destruct (String.eqb_spec a a'') as [->|].
    + exfalso. apply Ha. by apply String.leb_antisym.
    + by eapply string_leb_trans.
Qed.

Lemma isort_key3 l l' : isort key3_leb l = isort key3_leb l' ↔ l ≡ₚ l'.
Proof.
  split.
  - intros H. rewrite <- (isort_perm key3_leb l), H. apply isort_perm.
  - intros Hp. eapply (StronglySorted_unique_strong (λ a b, key3_leb a b = true)).
    + intros x y _ _. apply key3_leb_antisym.
    + apply isort_sorted; [apply key3_leb_total|apply key3_leb_trans].
    + apply isort_sorted; [apply key3_leb_total|apply key3_leb_trans].
    + by rewrite !isort_perm.
Qed.

Lemma RuleRetrieveRequest_validate_Ok q q' : RuleRetrieveRequest_validate q = Ok q' → q' = q.
Proof.
  unfold RuleRetrieveRequest_validate. intros (? & _ & H)%bind_Ok.
  destruct (require_unique_non_empty_issue_codes (rq_issue_codes q)); congruence.
Qed.

Lemma scope_issue_none request catalog :
  _rule_scope_issue request catalog = Ok None ↔ complete_scope request catalog.
Proof.
  unfold _rule_scope_issue, complete_scope, valid_query. set (sc := creq_rule_scope request).
  set (q := scope_query sc). split.
  - intros (q' & Hq & H)%bind_Ok. pose proof (RuleRetrieveRequest_validate_Ok _ _ Hq) as ->.
    apply bind_Ok in H as (h & Hh & H). destruct (_ || _) eqn:E in H; [done|].
    apply orb_false_iff in E as [E E4]. apply orb_false_iff in E as [E E3].
    apply orb_false_iff in E as [E1 E2]. rewrite negb_false_iff in *.
    apply String.eqb_eq in E1, E2. apply bool_decide_eq_true in E4.
    split; [done|]. split; [by rewrite E1|]. split; [done|]. split; [|by apply isort_key3].
    intros code Hcode Hn. rewrite <- not_true_iff_false, existsb_exists in E3. apply E3.
    exists code. split; [by apply list_elem_of_In|]. by apply bool_decide_eq_true.
  - intros (Hq & Hh & Hv & Hn & Hp). rewrite Hq. cbn [mbind result_bind]. rewrite Hh.
    cbn [mbind result_bind]. rewrite Hv, !String.eqb_refl.
    rewrite (bool_decide_eq_true_2 (isort _ _ = _)) by by apply isort_key3.
    assert (existsb (λ code, bool_decide (has_no_match q catalog code)) (rq_issue_codes q) = false) as ->;
      [|done].
    apply not_true_iff_false. rewrite existsb_exists. intros (code & Hc & Hd).
    apply bool_decide_eq_true in Hd. eapply Hn; [|exact Hd]. by apply list_elem_of_In.
Qed.

(** *** The required parameters *)
Lemma filter_nil {A} (Q : A → Prop) `{∀ x, Decision (Q x)} l :
  filter Q l = [] ↔ ∀ x, x ∈ l → ¬ Q x.
Proof.
  split.
  - intros Hn x Hx HQ. assert (x ∈ filter Q l) as Hf by by apply list_elem_of_filter.
    rewrite Hn in Hf. by apply not_elem_of_nil in Hf.
  - intros Hn. destruct (filter Q l) as [|x l'] eqn:E; [done|].
    assert (x ∈ filter Q l) as Hf by (rewrite E; by left).
    apply list_elem_of_filter in Hf as [HQ Hx]. by destruct (Hn x Hx).
Qed.

Lemma not_notin {A} `{EqDecision A} (x : A) (l : list A) : ¬ (x ∉ l) ↔ x ∈ l.
Proof. destruct (decide (x ∈ l)); naive_solver. Qed.

(** The parameter checks pass. *)
Definition parameters_present (request : CalculateRequest) : Prop :=
  consistent request.(creq_evidence) ∧
  (∀ f, f ∈ REQUIRED_FIELDS → ∃ e, e ∈ request.(creq_evidence) ∧ e.(ev_field_name) = f) ∧
  (∀ i, i ∈ REQUIRED_RULE_ISSUES →
     ∃ c, c ∈ request.(creq_rule_citations) ∧ c.(rc_issue_code) = i).

Lemma parameters_present_spec request :
  (snd (_field_values request.(creq_evidence)) = [] ∧
   filter (λ f, f ∉ map fst (fst (_field_values request.(creq_evidence)))) REQUIRED_FIELDS = [] ∧
   filter (λ i, i ∉ map rc_issue_code request.(creq_rule_citations)) REQUIRED_RULE_ISSUES = []) ↔
  parameters_present request.
Proof.
  unfold parameters_present. rewrite no_conflicts_spec, !filter_nil. setoid_rewrite not_notin.
  assert (∀ i, i ∈ map rc_issue_code (creq_rule_citations request) ↔
    ∃ c, c ∈ creq_rule_citations request ∧ rc_issue_code c = i) as Hi.
  { intros i. rewrite list_elem_of_In, in_map_iff. setoid_rewrite list_elem_of_In. naive_solver. }
  setoid_rewrite Hi. split; intros (Hc & Hf & Hr); (split; [done|]); (split; [|done]);
    intros f Hin; by apply (field_values_keys _ Hc), Hf.
Qed.

(** The sheet a successful calculation returns *)
Record sheet_of (context : SkillContext) (request : CalculateRequest) (now : datetime)
    (p : CompensationParameters) (coefficient : decimal) (c : Compensation)
    (sheet : CalculationSheet) : Prop := {
  sheet_total : sheet.(cs_total) = Some c.(amount);
  sheet_lines : sheet.(cs_line_items) = [line_item request.(creq_formula_version) p coefficient c];
  sheet_sealed : verify_hash sheet = Ok true;
  sheet_scope : meta_scope sheet.(cs_meta) = context_scope context;
  sheet_producer : sheet.(cs_meta).(meta_producer_identity) = "PF-A4";
  sheet_time : sheet.(cs_meta).(meta_created_at) = now;
  sheet_refs : sheet.(cs_meta).(meta_source_refs) =
    map artifact_ref request.(creq_evidence) ++ map artifact_ref request.(creq_rule_citations);
}.

Lemma calculation_sheet_Ok context request now p coefficient c sheet :
  calculation_sheet context request now p coefficient c = Ok sheet →
  sheet_of context request now p coefficient c sheet.
Proof.
  unfold calculation_sheet, CalculationSheet_validate. intros H.
  apply bind_Ok in H as (h & _ & H). apply bind_Ok in H as (m & (i & _ & _ & ->)%artifact_meta_Ok & H).
  apply bind_Ok in H as (sh & Hs & H). apply bind_Ok in Hs as (? & _ & [= <-]).
  pose proof (seal_verifies _ _ H) as Hv. apply seal_Ok in H as (d & _ & ->). by split.
Qed.

(** A call of the Skill either blocks or rests on its basis. *)
Lemma calculate_cases context request catalog s now r :
  deterministic_calculate context request catalog s now = Ok r →
  (r.(sr_status) = SkillStatus.BLOCKED ∧ r.(sr_value) = None) ∨
  (r.(sr_status) = SkillStatus.SUCCESS ∧ calculation_basis context request catalog s ∧
   ∃ p coefficient c sheet,
     parse_parameters (fst (_field_values request.(creq_evidence))) = Ok (p, coefficient) ∧
     compensation p coefficient = Ok c ∧ r.(sr_value) = Some (mk_CalculateOutput sheet) ∧
     sheet_of context request now p coefficient c sheet).
Proof.
  unfold deterministic_calculate. intros [[Hid H]|(_ & ? & ? & _)]%unless_denied_Ok; [|by left].
  apply bind_Ok in H as ([|i l] & Hb & H); [|left; by apply blocked_Ok in H as (? & ? & _)].
  apply bind_Ok in H as ([i|] & Hsc & H); [left; by apply blocked_Ok in H as (? & ? & _)|].
  destruct (String.eqb_spec (creq_formula_version request) SUPPORTED_FORMULA) as [Hf|]; cbn [negb] in H;
    [|left; by apply blocked_Ok in H as (? & ? & _)].
  destruct (_field_values (creq_evidence request)) as [values conflicts] eqn:Ev.
  pose proof (parameters_present_spec request) as Hpp. rewrite Ev in Hpp. cbn [fst snd] in Hpp.
  destruct conflicts as [|x xs]; [|left; by apply blocked_Ok in H as (? & ? & _)].
  destruct (filter _ REQUIRED_FIELDS) as [|x xs]; [|left; by apply blocked_Ok in H as (? & ? & _)].
  destruct (filter _ REQUIRED_RULE_ISSUES) as [|x xs]; [|left; by apply blocked_Ok in H as (? & ? & _)].
  destruct (parse_parameters values) as [[p coefficient]|e] eqn:Ep.
  - right. apply bind_Ok in H as (c & Hc & H). apply bind_Ok in H as (sheet & Hsh & H).
    apply success_Ok in H as (Hst & Hv & _).
    destruct (proj1 Hpp) as (P1 & P2 & P3); [done|].
    apply boundary_clean in Hb as [B1 B2]. apply scope_issue_none in Hsc.
    split; [done|]. split; [by split|]. exists p, coefficient, c, sheet. cbn [fst].
    split; [done|]. split; [done|]. split; [done|]. by apply calculation_sheet_Ok.
  - left. destruct (is_value_error e || is_invalid_operation e); [|done].
    by apply blocked_Ok in H as (? & ? & _).
Qed.

(** C34. Safety of [deterministic_calculate]: it succeeds only for PF-A4, on evidence
    that is sealed, VERIFIED, in scope and registered in the trusted store, on
    sealed citations that match the catalog and are the complete answer to the
    declared query, with one value per field; the sealed sheet then carries the
    capped compensation computed from those values. *)
Theorem calculate_success_sound (context : SkillContext) (request : CalculateRequest)
    (catalog : RuleCatalog) (s : TrustedArtifactStore) (now : datetime)
    (r : SkillResult CalculateOutput) :
  deterministic_calculate context request catalog s now = Ok r →
  r.(sr_status) = SkillStatus.SUCCESS →
  calculation_basis context request catalog s ∧
  ∃ p coefficient c sheet,
    parse_parameters (fst (_field_values request.(creq_evidence))) = Ok (p, coefficient) ∧
    compensation p coefficient = Ok c ∧ r.(sr_value) = Some (mk_CalculateOutput sheet) ∧
    sheet_of context request now p coefficient c sheet.
Proof. intros [[Hb _]|(_ & H)]%calculate_cases Hs; [congruence|done]. Qed.

(** *** Totality *)
Lemma verified_wf_evidence (e : EvidenceObject) : verify_hash e = Ok true → wf_artifact e.
Proof.
  intros (h & _ & Hd)%verify_hash_true.
  unfold sha256_digest_except in Hd. apply bind_Ok in Hd as (b & Hb & _).
  apply bind_Ok in Hb as (j & Hj & _). apply wf_artifact_spec.
  assert (∀ k, k ∈ ["created_at"; "meta"; "confidence"] → k ∉ content_hash_key) as Hk.
  { intros k Hk Hin. unfold content_hash_key in Hin. elem_cases; discriminate. }
  split; [apply (artifact_canonical_aware content_hash_key e j); [apply Hk; elem_here..|exact Hj]|].
  destruct (canonical_item content_hash_key _ j "confidence" (to_py e.(ev_confidence)) Hj)
    as (r & jv & _ & _ & Hc & _); [repeat constructor|apply Hk; elem_here|].
  assert (is_finite e.(ev_confidence) = true) as Hf by (destruct (ev_confidence e); done).
  simpl. by rewrite Hf.
Qed.

Lemma verified_aware `{Artifact A} (a : A) :
  verify_hash a = Ok true → is_aware (meta a).(meta_created_at) = true.
Proof.
  intros (h & _ & Hd)%verify_hash_true.
  unfold sha256_digest_except in Hd. apply bind_Ok in Hd as (b & Hb & _).
  apply bind_Ok in Hb as (j & Hj & _).
  apply (artifact_canonical_aware content_hash_key a j); [| |exact Hj];
    intros Hin; unfold content_hash_key in Hin; elem_cases; discriminate.
Qed.

Lemma fix_ctx_finite n c e d : fix_ctx n c e = Ok d → is_finite d = true.
Proof.
  unfold fix_ctx. intros H. repeat case_match; simplify_eq; done.
Qed.

Lemma dec_mul_finite a b d : dec_mul a b = Ok d → is_finite d = true.
Proof. destruct a, b; try done. apply fix_ctx_finite. Qed.

Lemma quantize_finite m a e d : quantize m a e = Ok d → is_finite d = true.
Proof.
  destruct a; try done. unfold quantize. intros H. repeat case_match; simplify_eq;
    by apply fix_ctx_finite in H.
Qed.

Lemma compensation_finite p coefficient c :
  is_finite p.(cp_monthly_wage_average) = true → is_finite coefficient = true →
  compensation p coefficient = Ok c →
  is_finite c.(wage_cap) = true ∧ is_finite c.(effective_wage) = true ∧
  is_finite c.(effective_coefficient) = true ∧ is_finite c.(amount) = true.
Proof.
  intros Hw Hc H. unfold compensation in H. apply bind_Ok in H as (cap & Hcap & H).
  apply bind_Ok in H as (prod & Hp & H). apply bind_Ok in H as (a & Ha & [= <-]). simpl.
  apply dec_mul_finite in Hcap. apply quantize_finite in Ha. unfold dec_min.
  repeat split; try done.
  - by case_match.
  - by repeat case_match.
Qed.

Lemma dec_add_finite a b d : dec_add a b = Ok d → is_finite d = true.
Proof. destruct a, b; try done. apply fix_ctx_finite. Qed.

Lemma parse_parameters_finite values p coefficient :
  parse_parameters values = Ok (p, coefficient) →
  is_finite p.(cp_monthly_wage_average) = true ∧
  is_finite p.(cp_local_previous_year_monthly_average_wage) = true ∧ is_finite coefficient = true.
Proof.
  unfold parse_parameters. intros H. do 8 (apply bind_Ok in H as (? & _ & H)).
  apply bind_Ok in H as (q & Hq & H). apply bind_Ok in H as (k & Hk & [= -> ->]).
  assert (is_finite coefficient = true) as Hfin.
  { unfold _service_coefficient in Hk. apply bind_Ok in Hk as (? & _ & Hk).
    apply bind_Ok in Hk as (? & _ & Hk). apply bind_Ok in Hk as ([y a] & _ & Hk).
    case_bool_decide; [by injection Hk as <-|].
    apply bind_Ok in Hk as (? & _ & Hk). by apply dec_add_finite in Hk. }
  unfold CompensationParameters_validate in Hq. apply bind_Ok in Hq as (? & Hf%require_Ok & Hq).
  apply bind_Ok in Hq as (? & _ & [= <-]). apply andb_true_iff in Hf as [? ?]. done.
Qed.

Lemma wf_request context request catalog s :
  calculation_basis context request catalog s → wf_py (to_py request) = true.
Proof.
  intros [_ He Hr _ _ _ _ _]. apply wf_dict; [reflexivity|]. repeat constructor.
  - apply wf_list. eapply Forall_impl; [exact He|]. intros e (Hv & _). cbn. by apply verified_wf_evidence.
  - apply wf_list. eapply Forall_impl; [exact Hr|]. intros c (Hv & _). cbn.
    apply wf_RuleCitation. exact (verified_aware c Hv).
  - wf_solve.
Qed.

Lemma calculation_sheet_total context request now p coefficient c :
  valid_context context → is_aware now = true →
  is_finite p.(cp_monthly_wage_average) = true →
  is_finite p.(cp_local_previous_year_monthly_average_wage) = true → is_finite coefficient = true →
  is_finite c.(wage_cap) = true ∧ is_finite c.(effective_wage) = true ∧
  is_finite c.(effective_coefficient) = true ∧ is_finite c.(amount) = true →
  ∃ sheet, calculation_sheet context request now p coefficient c = Ok sheet ∧
    wf_py (to_py sheet) = true.
Proof.
  intros Hc Ha Hp1 Hp2 Hk (C1 & C2 & C3 & C4). unfold calculation_sheet.
  edestruct (digest_total []) as [h Hh]; [|unfold sha256_digest; rewrite Hh]; [wf_solve|].
  cbn [mbind result_bind].
  destruct (artifact_meta_total "c" "alculation" "PF-A4" context now
    (VDict [("formula_version", to_py request.(creq_formula_version));
            ("reproducibility_hash", to_py h)])
    (map artifact_ref request.(creq_evidence) ++ map artifact_ref request.(creq_rule_citations)))
    as [m Hm]; [done|done|done|wf_solve|].
  rewrite Hm. cbn [mbind result_bind]. set (sheet := mk_CalculationSheet m _ _ _ _).
  change (CalculationSheet_validate sheet) with (Ok sheet). cbn [mbind result_bind].
  assert (wf_artifact sheet) as Hwf.
  { apply artifact_meta_Ok in Hm as (i & _ & _ & Em). apply wf_artifact_spec.
    split; [simpl; by rewrite Em|]. simpl. by rewrite Hp1, Hp2, Hk, C1, C2, C3, C4. }
  destruct (seal_total sheet Hwf) as [sh Hsh]. rewrite Hsh. exists sh. split; [done|].
  by eapply seal_wf.
Qed.

(** C35. Completeness of [deterministic_calculate]: on a valid basis whose parameters
    parse and whose amount fits the Decimal context, it succeeds. *)
Theorem calculate_complete (context : SkillContext) (request : CalculateRequest)
    (catalog : RuleCatalog) (s : TrustedArtifactStore) (now : datetime)
    (p : CompensationParameters) (coefficient : decimal) (c : Compensation) :
  calculation_basis context request catalog s → valid_context context → is_aware now = true →
  parse_parameters (fst (_field_values request.(creq_evidence))) = Ok (p, coefficient) →
  compensation p coefficient = Ok c →
  ∃ r, deterministic_calculate context request catalog s now = Ok r ∧
    r.(sr_status) = SkillStatus.SUCCESS.
Proof.
  intros Hb Hc Ha Hp Hk. pose proof (wf_request _ _ _ _ Hb) as Hwf.
  destruct Hb as [Hid He Hr Hs Hf Hcons Hfields Hissues].
  unfold deterministic_calculate. rewrite unless_denied_pass by done.
  rewrite (proj2 (boundary_clean context request catalog s)) by done. cbn [mbind result_bind].
  rewrite (proj2 (scope_issue_none request catalog)) by done. cbn [mbind result_bind].
  rewrite Hf, String.eqb_refl. cbn [negb].
  pose proof (proj2 (parameters_present_spec request)) as Hpp.
  destruct (_field_values (creq_evidence request)) as [values conflicts]. cbn [fst snd] in *.
  destruct Hpp as (-> & -> & ->); [done|]. rewrite Hp.
  rewrite Hk. cbn [mbind result_bind].
  destruct (parse_parameters_finite _ _ _ Hp) as (P1 & P2 & P3).
  destruct (calculation_sheet_total context request now p coefficient c) as (sheet & -> & Hws);
    try done; [by eapply compensation_finite|]. cbn [mbind result_bind].
  destruct (success_total (to_py request) (mk_CalculateOutput sheet) [artifact_ref sheet])
    as [r Hr']; [done|apply wf_dict; [reflexivity|]; by repeat constructor|].
  exists r. split; [done|]. by apply success_Ok in Hr' as (? & _).
Qed.
End basis.

(** Errors of the amount escape: on a valid basis whose parameters parse, an
    exception of the amount computation (InvalidOperation of [quantize], Overflow)
    is raised to the caller, not reported as INVALID_PARAMETER. *)
Lemma calculate_arithmetic_escapes `{P : Platform} (context : SkillContext)
    (request : CalculateRequest) (catalog : RuleCatalog) (s : TrustedArtifactStore)
    (now : datetime) (p : CompensationParameters) (coefficient : decimal) (e : exn) :
  calculation_basis context request catalog s →
  parse_parameters (fst (_field_values request.(creq_evidence))) = Ok (p, coefficient) →
  compensation p coefficient = Raise e →
  deterministic_calculate context request catalog s now = Raise e.
Proof.
  intros [Hid He Hr Hs Hf Hcons Hfields Hissues] Hp Hk.
  unfold deterministic_calculate. rewrite unless_denied_pass by done.
  rewrite (proj2 (boundary_clean context request catalog s)) by done. cbn [mbind result_bind].
  rewrite (proj2 (scope_issue_none request catalog)) by done. cbn [mbind result_bind].
  rewrite Hf, String.eqb_refl. cbn [negb].
  pose proof (proj2 (parameters_present_spec request)) as Hpp.
  destruct (_field_values (creq_evidence request)) as [values conflicts]. cbn [fst snd] in *.
  destruct Hpp as (-> & -> & ->); [done|]. rewrite Hp. by rewrite Hk.
Qed.

(** ** A concrete calculation *)
#[local] Existing Instance toy_platform.

Definition demo_agent (identity : string) : SkillContext :=
  mk_SkillContext "TENANT-1" "CASE-1" identity ActorKind.AGENT "TRACE-1" "K-1" SCHEMA_VERSION 0.
Definition demo_codes : list string :=
  ["economic_compensation_amount"; "economic_compensation_wage_basis"].
Definition demo_scope_query : RuleRetrieveRequest :=
  mk_RuleRetrieveRequest demo_codes "CN-ZJ" (mk_date 2026 7 1).
Definition demo_retrieved : RuleRetrieveOutput := Eval vm_compute in
  match rule_retrieve (demo_agent "PF-A3") demo_scope_query demo_catalog (Aware 0) with
  | Ok r => default (mk_RuleRetrieveOutput [] [] "" (mk_RuleScopeReceipt [] "" (mk_date 1 1 1) "" ""))
      r.(sr_value)
  | Raise _ => mk_RuleRetrieveOutput [] [] "" (mk_RuleScopeReceipt [] "" (mk_date 1 1 1) "" "")
  end.
Definition demo_calculation_evidence (wage : string) : list EvidenceObject :=
  [sealed_evidence "employment_start_date" "2020-01-15";
   sealed_evidence "planned_termination_date" "2026-07-31";
   sealed_evidence "monthly_wage_average" wage;
   sealed_evidence "local_previous_year_monthly_average_wage" wage].
Definition demo_request (wage : string) : CalculateRequest :=
  mk_CalculateRequest (demo_calculation_evidence wage) demo_retrieved.(rro_citations)
    demo_retrieved.(rro_rule_scope) SUPPORTED_FORMULA.
Definition demo_registered (wage : string) : TrustedArtifactStore :=
  fst (register_all (mk_TrustedArtifactStore 16 ∅) (demo_calculation_evidence wage)).

Lemma basis_intro context request catalog s :
  context.(ctx_caller_identity) = "PF-A4" →
  _artifact_boundary_issues context request catalog s = Ok [] →
  _rule_scope_issue request catalog = Ok None → request.(creq_formula_version) = SUPPORTED_FORMULA →
  (snd (_field_values request.(creq_evidence)) = [] ∧
   filter (λ f, f ∉ map fst (fst (_field_values request.(creq_evidence)))) REQUIRED_FIELDS = [] ∧
   filter (λ i, i ∉ map rc_issue_code request.(creq_rule_citations)) REQUIRED_RULE_ISSUES = []) →
  calculation_basis context request catalog s.
Proof.
  intros Hid [Hb1 Hb2]%boundary_clean Hs%scope_issue_none Hf (P1 & P2 & P3)%parameters_present_spec.
  by split.
Qed.

Lemma calculate_success_sound_witness :
  ∃ r sheet, deterministic_calculate (demo_agent "PF-A4") (demo_request "12000.00") demo_catalog
      (demo_registered "12000.00") (Aware 0) = Ok r ∧
    r.(sr_value) = Some (mk_CalculateOutput sheet) ∧ verify_hash sheet = Ok true.
Proof.
  destruct (deterministic_calculate (demo_agent "PF-A4") (demo_request "12000.00") demo_catalog
    (demo_registered "12000.00") (Aware 0)) as [r|] eqn:E; [|vm_compute in E; discriminate E].
  destruct (calculate_success_sound _ _ _ _ _ _ E) as (_ & p & k & c & sheet & _ & _ & Hv & Hs).
  - vm_compute in E. injection E as <-. reflexivity.
  - exists r, sheet. split; [reflexivity|]. split; [exact Hv|apply Hs].
Defined.

Lemma calculate_complete_witness :
  ∃ r, deterministic_calculate (demo_agent "PF-A4") (demo_request "12000.00") demo_catalog
      (demo_registered "12000.00") (Aware 0) = Ok r ∧ r.(sr_status) = SkillStatus.SUCCESS.
Proof.
  eapply calculate_complete.
  - apply basis_intro; vm_compute; repeat split; reflexivity.
  - reflexivity.
  - reflexivity.
  - vm_compute. reflexivity.
  - vm_compute. reflexivity.
Defined.

Lemma calculate_arithmetic_escapes_witness :
  deterministic_calculate (demo_agent "PF-A4") (demo_request "1E+26") demo_catalog
    (demo_registered "1E+26") (Aware 0) = Raise InvalidOperation.
Proof.
  eapply calculate_arithmetic_escapes.
  - apply basis_intro; vm_compute; repeat split; reflexivity.
  - vm_compute. reflexivity.
  - vm_compute. reflexivity.
Defined.
