(* ===== verification/Approval.v ===== *)
(** * skills/approval.py: the human gate *)
From S2P Require Import Prelude Json PyTime PyDecimal Canonical Platforms Models Common.
Local Open Scope Z_scope.

Section approval.
Context `{P : Platform}.

(** The issues of one approval attempt, in the order the code appends them *)
Definition approval_issues (context : SkillContext) (request : ApprovalExecuteRequest)
    (decision : HumanDecision) (now : datetime) : result (list Issue) :=
  let areq := request.(aer_approval_request) in
  let scope_issues :=
    if negb (String.eqb areq.(areq_tenant_id) context.(ctx_tenant_id)) ||
       negb (String.eqb areq.(areq_case_id) context.(ctx_case_id)) ||
       negb (String.eqb areq.(areq_trace_id) context.(ctx_trace_id))
    then [blocker "CROSS_TENANT_OR_CASE_APPROVAL"
            "approval request does not belong to the active tenant and case"] else [] in
  let role_issues :=
    if negb (String.eqb decision.(hd_actor_role) areq.(areq_required_role))
    then [blocker "UNAUTHORIZED_APPROVER"
            "human actor does not hold the required approval role"] else [] in
  time_issues ← (
    if negb (is_aware now)
    then Ok [blocker "INVALID_APPROVAL_TIME" "approval execution time must be timezone-aware"]
    else if negb (dt_eqb decision.(hd_decided_at) now)
    then Ok [blocker "APPROVAL_TIME_MISMATCH"
               "the recorded human decision time must match execution time"]
    else
      early ← dt_ltb now areq.(areq_created_at);
      Ok (if (early : bool) then [blocker "APPROVAL_NOT_YET_ACTIVE"
                           "approval cannot occur before the request was created"] else []));
  late_decision ← dt_ltb areq.(areq_expires_at) decision.(hd_decided_at);
  late ← (if (late_decision : bool) then Ok true
          else if is_aware now then dt_ltb areq.(areq_expires_at) now else Ok false);
  let expiry_issues :=
    if (late : bool) then [blocker "APPROVAL_EXPIRED" "approval request is expired"] else [] in
  let hash_issues :=
    if negb (String.eqb request.(aer_current_artifact_hash) areq.(areq_artifact_hash))
    then [blocker "ARTIFACT_CHANGED" "approval subject changed after the request was created"]
    else [] in
  Ok (scope_issues ++ role_issues ++ time_issues ++ expiry_issues ++ hash_issues).

Definition approval_record (context : SkillContext) (request : ApprovalExecuteRequest)
    (decision : HumanDecision) (now : datetime) : result ApprovalRecord :=
  let areq := request.(aer_approval_request) in
  m ← artifact_meta "approval" ("HUMAN:" +:+ decision.(hd_actor_id)) context now
    (VDict [("request_id", to_py areq.(areq_request_id)); ("decision", to_py decision.(hd_decision));
            ("actor_id", to_py decision.(hd_actor_id));
            ("artifact_hash", to_py areq.(areq_artifact_hash))])
    ["ApprovalRequest:" +:+ areq.(areq_request_id); areq.(areq_artifact_ref);
     areq.(areq_audit_report_ref)];
  record ← ApprovalRecord_validate
    (mk_ApprovalRecord m areq.(areq_request_id) decision.(hd_decision) decision.(hd_actor_id)
      decision.(hd_actor_role) decision.(hd_reason) areq.(areq_artifact_hash) "LOCAL_DEMO"
      decision.(hd_decided_at) areq.(areq_expires_at));
  seal record.

Definition human_approval (context : SkillContext) (request : ApprovalExecuteRequest)
    (decision : HumanDecision) (now : datetime) : result (SkillResult ApprovalExecuteOutput) :=
  unless_denied context (to_py request) "PF-A1" (
    issues ← approval_issues context request decision now;
    match issues with
    | _ :: _ => blocked (to_py request) issues
    | [] =>
        record ← approval_record context request decision now;
        success (to_py request) (mk_ApprovalExecuteOutput record) [artifact_ref record]
    end).

(** ** When an approval is accepted *)
Definition valid_request (r : ApprovalRequest) : Prop := ApprovalRequest_validate r = Ok r.
Definition valid_decision (d : HumanDecision) : Prop := HumanDecision_validate d = Ok d.

(** [now] is within the window of the request. *)
Definition in_window (r : ApprovalRequest) (now : datetime) : Prop :=
  dt_ltb now r.(areq_created_at) = Ok false ∧ dt_ltb r.(areq_expires_at) now = Ok false.

Definition acceptable (context : SkillContext) (request : ApprovalExecuteRequest)
    (decision : HumanDecision) (now : datetime) : Prop :=
  let areq := request.(aer_approval_request) in
  (areq.(areq_tenant_id), areq.(areq_case_id), areq.(areq_trace_id)) = context_scope context ∧
  decision.(hd_actor_role) = areq.(areq_required_role) ∧
  decision.(hd_decided_at) = now ∧ in_window areq now ∧
  request.(aer_current_artifact_hash) = areq.(areq_artifact_hash).

(** What the record of an accepted decision is bound to *)
Record bound_record (context : SkillContext) (request : ApprovalExecuteRequest)
    (decision : HumanDecision) (now : datetime) (record : ApprovalRecord) : Prop := {
  br_sealed : verify_hash record = Ok true;
  br_scope : meta_scope record.(arec_meta) = context_scope context;
  br_producer : record.(arec_meta).(meta_producer_identity) = "HUMAN:" +:+ decision.(hd_actor_id);
  br_request : record.(arec_request_id) = request.(aer_approval_request).(areq_request_id);
  br_subject : record.(arec_approved_artifact_hash) = request.(aer_current_artifact_hash);
  br_decision : (record.(arec_decision), record.(arec_approver_id), record.(arec_approver_role),
      record.(arec_reason), record.(arec_decided_at)) =
    (decision.(hd_decision), decision.(hd_actor_id), decision.(hd_actor_role),
      decision.(hd_reason), now);
  br_expiry : record.(arec_expires_at) = request.(aer_approval_request).(areq_expires_at);
}.

Lemma dt_eqb_eq a b : dt_eqb a b = true ↔ a = b.
Proof. unfold dt_eqb. apply bool_decide_eq_true. Qed.

Lemma dt_ltb_aware a b : is_aware a = true → is_aware b = true → ∃ x, dt_ltb a b = Ok x.
Proof. destruct a, b; try done. by eexists. Qed.

Lemma valid_request_times r : valid_request r →
  is_aware r.(areq_created_at) = true ∧ is_aware r.(areq_expires_at) = true.
Proof.
  unfold valid_request, ApprovalRequest_validate. intros H.
  apply bind_Ok in H as (? & _ & H). apply bind_Ok in H as (? & H1%require_Ok & H).
  by apply bind_Ok in H as (? & H2%require_Ok & H).
Qed.

Lemma valid_request_fields r : valid_request r →
  min_length_1 r.(areq_request_id) = true ∧ is_sha256 r.(areq_artifact_hash) = true.
Proof.
  unfold valid_request, ApprovalRequest_validate. intros (? & H%require_Ok & _)%bind_Ok.
  by split_bools.
Qed.

Lemma valid_decision_fields d : valid_decision d →
  min_length_1 d.(hd_actor_id) = true ∧ min_length_1 d.(hd_actor_role) = true ∧
  min_length_1 d.(hd_reason) = true ∧ d.(hd_actor_kind) = ActorKind.HUMAN ∧
  is_aware d.(hd_decided_at) = true.
Proof.
  unfold valid_decision, HumanDecision_validate. intros H.
  apply bind_Ok in H as (? & H1%require_Ok & H). apply bind_Ok in H as (? & H2%require_Ok & H).
  apply bind_Ok in H as (? & H3%require_Ok & H). by split_bools.
Qed.

Lemma wf_approval_request (r : ApprovalRequest) : valid_request r → wf_py (to_py r) = true.
Proof. intros [H1 H2]%valid_request_times. wf_solve. Qed.

(** The list of issues is empty exactly when the attempt is acceptable. *)
Lemma approval_issues_spec context request decision now :
  valid_request request.(aer_approval_request) → valid_decision decision →
  ∃ l, approval_issues context request decision now = Ok l ∧
    (l = [] ↔ acceptable context request decision now).
Proof.
  intros [Hc He]%valid_request_times (_ & _ & _ & _ & Hd)%valid_decision_fields.
  unfold approval_issues, acceptable, in_window. set (areq := aer_approval_request request) in *.
  destruct (dt_ltb_aware _ _ He Hd) as [ld Hld]. rewrite Hld.
  destruct (is_aware now) eqn:Ea; cbn [negb].
  - destruct (dt_eqb (hd_decided_at decision) now) eqn:Et; cbn [negb].
    + apply dt_eqb_eq in Et. subst now.
      destruct (dt_ltb_aware _ _ Ea Hc) as [early Hearly]. rewrite Hearly.
      rewrite Hld. cbn [mbind result_bind].
      assert (∃ late, (if ld then Ok true else Ok ld) = Ok late ∧ late = ld) as (late & -> & ->)
        by (destruct ld; by eexists).
      cbn [mbind result_bind]. eexists. split; [reflexivity|].
      unfold context_scope.
      destruct (String.eqb_spec (areq_tenant_id areq) (ctx_tenant_id context)),
        (String.eqb_spec (areq_case_id areq) (ctx_case_id context)),
        (String.eqb_spec (areq_trace_id areq) (ctx_trace_id context)),
        (String.eqb_spec (hd_actor_role decision) (areq_required_role areq)), early, ld,
        (String.eqb_spec (aer_current_artifact_hash request) (areq_artifact_hash areq));
        simpl; split; try done; try (intros (E & ? & ? & [? ?] & ?); congruence).
      intros _. repeat split; congruence.
    + cbn [mbind result_bind].
      assert (∃ late, (if ld then Ok true else dt_ltb (areq_expires_at areq) now) = Ok late) as [late ->].
      { destruct ld; [by eexists|]. by apply dt_ltb_aware. }
      cbn [mbind result_bind]. eexists. split; [reflexivity|]. split.
      * by destruct (negb _ || _ || _), (negb (String.eqb (hd_actor_role decision) _)).
      * intros (_ & _ & Hn & _). apply dt_eqb_eq in Hn. congruence.
  - cbn [mbind result_bind].
    assert (∃ late, (if ld then Ok true else Ok false) = Ok late) as [late ->]
      by (destruct ld; by eexists).
    cbn [mbind result_bind]. eexists. split; [reflexivity|]. split.
    + by destruct (negb _ || _ || _), (negb (String.eqb (hd_actor_role decision) _)).
    + intros (_ & _ & <- & _). congruence.
Qed.

Lemma approval_record_bound context request decision now record :
  acceptable context request decision now →
  approval_record context request decision now = Ok record →
  bound_record context request decision now record.
Proof.
  intros (_ & _ & Hnow & _ & Hcur) H. unfold approval_record, ApprovalRecord_validate in H.
  apply bind_Ok in H as (m & (i & _ & _ & ->)%artifact_meta_Ok & H).
  apply bind_Ok in H as (rec & Hrec & H).
  do 4 (apply bind_Ok in Hrec as (? & _ & Hrec)). apply bind_Ok in Hrec as (? & _ & Hrec).
  apply bind_Ok in Hrec as (? & _ & [= <-]).
  pose proof (seal_verifies _ _ H) as Hv. apply seal_Ok in H as (d & _ & ->).
  split; try done; simpl; congruence.
Qed.

Lemma approval_record_total context request decision now :
  valid_context context → valid_request request.(aer_approval_request) → valid_decision decision →
  acceptable context request decision now →
  ∃ record, approval_record context request decision now = Ok record ∧ wf_py (to_py record) = true.
Proof.
  intros Hc Hr Hd (_ & _ & Hnow & [_ Hlate] & _).
  pose proof (valid_request_times _ Hr) as [_ He]. destruct (valid_request_fields _ Hr) as [Hid Hh].
  destruct (valid_decision_fields _ Hd) as (D1 & D2 & D3 & _ & Ha). subst now.
  unfold approval_record.
  destruct (artifact_meta_total "a" "pproval" ("HUMAN:" +:+ hd_actor_id decision) context
    (hd_decided_at decision)
    (VDict [("request_id", to_py (areq_request_id (aer_approval_request request)));
            ("decision", to_py (hd_decision decision)); ("actor_id", to_py (hd_actor_id decision));
            ("artifact_hash", to_py (areq_artifact_hash (aer_approval_request request)))])
    ["ApprovalRequest:" +:+ areq_request_id (aer_approval_request request);
     areq_artifact_ref (aer_approval_request request);
     areq_audit_report_ref (aer_approval_request request)]) as [m Hm]; [done|done|done|wf_solve|].
  rewrite Hm. cbn [mbind result_bind]. apply artifact_meta_Ok in Hm as (i & _ & _ & ->).
  unfold ApprovalRecord_validate.
  cbn [arec_request_id arec_approver_id arec_approver_role arec_reason arec_approved_artifact_hash
    arec_approval_method arec_decided_at arec_expires_at arec_meta meta_created_at].
  rewrite Hid, D1, D2, D3, Hh. simpl (min_length_1 "LOCAL_DEMO"). cbn [andb require mbind result_bind].
  rewrite Ha, He. cbn [require mbind result_bind].
  rewrite (proj2 (dt_eqb_eq _ _)) by done. cbn [require mbind result_bind]. rewrite Hlate.
  change (min_length_1 "LOCAL_DEMO") with true. cbn [negb require mbind result_bind].
  set (record := mk_ApprovalRecord _ _ _ _ _ _ _ _ _ _).
  assert (wf_artifact record) as Hwf.
  { apply wf_artifact_spec. split; [exact Ha|]. simpl. by rewrite Ha, He. }
  destruct (seal_total record Hwf) as [sr Hsr]. rewrite Hsr. exists sr. split; [done|].
  by eapply seal_wf.
Qed.

(** C36. Functional correctness of the human gate, on a valid request and a valid
    human decision: [human_approval] succeeds exactly when PF-A1 calls it, the
    request belongs to the caller's tenant, case and trace, the human holds the
    required role, the decision is taken now and within the window, and the subject
    hash is unchanged; it blocks otherwise; the sealed record it returns is bound
    to the request, the subject, the human and the time. *)
Theorem human_approval_correct (context : SkillContext) (request : ApprovalExecuteRequest)
    (decision : HumanDecision) (now : datetime) :
  valid_context context → valid_request request.(aer_approval_request) → valid_decision decision →
  ∃ r, human_approval context request decision now = Ok r ∧
    ((r.(sr_status) = SkillStatus.SUCCESS ∧ context.(ctx_caller_identity) = "PF-A1" ∧
      acceptable context request decision now ∧
      ∃ record, r.(sr_value) = Some (mk_ApprovalExecuteOutput record) ∧
        bound_record context request decision now record) ∨
     (r.(sr_status) = SkillStatus.BLOCKED ∧ r.(sr_value) = None ∧
      ¬ (context.(ctx_caller_identity) = "PF-A1" ∧ acceptable context request decision now))).
Proof.
  intros Hc Hr Hd.
  assert (wf_py (to_py request) = true) as Hwf.
  { apply wf_dict; [reflexivity|]. repeat constructor. by apply wf_approval_request. }
  unfold human_approval.
  destruct (decide (context.(ctx_caller_identity) = "PF-A1")) as [Hid|Hid].
  - rewrite unless_denied_pass by done.
    destruct (approval_issues_spec context request decision now Hr Hd) as (l & -> & Hl).
    cbn [mbind result_bind]. destruct l as [|i l].
    + destruct (approval_record_total context request decision now) as (rec & Hrec & Hwr); try done;
        [by apply Hl|].
      rewrite Hrec. cbn [mbind result_bind].
      destruct (success_total (to_py request) (mk_ApprovalExecuteOutput rec) [artifact_ref rec])
        as [r Hs]; [done|apply wf_dict; [reflexivity|]; by repeat constructor|].
      exists r. split; [done|]. left. apply success_Ok in Hs as (? & ? & _).
      split; [done|]. split; [done|]. split; [by apply Hl|]. exists rec. split; [done|].
      apply approval_record_bound; [by apply Hl|done].
    + destruct (blocked_total (T:=ApprovalExecuteOutput) (to_py request) (i :: l) Hwf) as [r Hb].
      exists r. split; [done|]. right. apply blocked_Ok in Hb as (? & ? & _).
      split; [done|]. split; [done|]. intros [_ Hacc]. by apply Hl in Hacc.
  - unfold unless_denied, denied. rewrite (proj2 (String.eqb_neq _ _) Hid).
    edestruct (blocked_total (T:=ApprovalExecuteOutput) (to_py request)) as [r Hb]; [exact Hwf|].
    rewrite Hb. cbn [mbind result_bind]. exists r. split; [done|]. right.
    apply blocked_Ok in Hb as (? & ? & _). split; [done|]. split; [done|]. by intros [? _].
Qed.

(** What an approval hash commits to: two verifying approval records with the
    same content hash record the same decision, by the same approver in the same
    role, of the same request on the same subject, unless their canonical texts are
    a SHA-256 collision. *)
Lemma approval_hash_commits (a b : ApprovalRecord) :
  wf_artifact a → wf_artifact b → verify_hash a = Ok true → verify_hash b = Ok true →
  a.(arec_meta).(meta_content_hash) = b.(arec_meta).(meta_content_hash) →
  (a.(arec_decision), a.(arec_approver_id), a.(arec_approver_role), a.(arec_request_id),
     a.(arec_approved_artifact_hash)) =
  (b.(arec_decision), b.(arec_approver_id), b.(arec_approver_role), b.(arec_request_id),
     b.(arec_approved_artifact_hash)) ∨
  colliding content_hash_key (artifact_to_py a) (artifact_to_py b).
Proof.
  intros Ha Hb Va Vb Hh.
  destruct (hash_binds_fields a b Ha Hb Va Vb Hh) as [Hf|]; [left|by right].
  assert (a.(arec_request_id) = b.(arec_request_id)) as ->.
  { eapply canonical_str, (Hf "request_id"); [repeat constructor..|discriminate]. }
  assert (a.(arec_approver_id) = b.(arec_approver_id)) as ->.
  { eapply canonical_str, (Hf "approver_id"); [repeat constructor..|discriminate]. }
  assert (a.(arec_approver_role) = b.(arec_approver_role)) as ->.
  { eapply canonical_str, (Hf "approver_role"); [repeat constructor..|discriminate]. }
  assert (a.(arec_approved_artifact_hash) = b.(arec_approved_artifact_hash)) as ->.
  { eapply canonical_str, (Hf "approved_artifact_hash"); [repeat constructor..|discriminate]. }
  assert (a.(arec_decision) = b.(arec_decision)) as ->; [|done].
  apply ApprovalDecision.ApprovalDecision_value_inj.
  assert (canonicalize content_hash_key (to_py (arec_decision a)) =
    canonicalize content_hash_key (to_py (arec_decision b))) as Hd
    by (apply (Hf "decision"); [repeat constructor..|discriminate]).
  by injection Hd.
Qed.
End approval.

(** ** A concrete approval *)
#[local] Existing Instance toy_platform.

Definition demo_subject : string :=
  "sha256:0123456789abcdef0123456789abcdef0123456789abcdef0123456789abcdef".
Definition demo_approval_request : ApprovalRequest :=
  mk_ApprovalRequest "approval-request-1" "TENANT-1" "CASE-1" "TRACE-1" "Proposal:p1" demo_subject
    "AuditReport:a1" "HR_REVIEWER" (Aware 1000000) (Aware 9000000).
Definition demo_decision : HumanDecision :=
  mk_HumanDecision "human-1" ActorKind.HUMAN "HR_REVIEWER" ApprovalDecision.APPROVE "reviewed"
    (Aware 5000000).
Definition demo_approver : SkillContext :=
  mk_SkillContext "TENANT-1" "CASE-1" "PF-A1" ActorKind.AGENT "TRACE-1" "K-1" SCHEMA_VERSION 0.

Lemma human_approval_correct_witness :
  ∃ r record, human_approval demo_approver
      (mk_ApprovalExecuteRequest demo_approval_request demo_subject) demo_decision (Aware 5000000) = Ok r ∧
    r.(sr_value) = Some (mk_ApprovalExecuteOutput record) ∧
    record.(arec_approved_artifact_hash) = demo_subject.
Proof.
  destruct (human_approval_correct demo_approver
    (mk_ApprovalExecuteRequest demo_approval_request demo_subject) demo_decision (Aware 5000000))
    as (r & Hr & [(_ & _ & _ & record & Hv & Hb)|(_ & _ & Hn)]).
  - reflexivity.
  - vm_compute. reflexivity.
  - reflexivity.
  - exists r, record. split; [exact Hr|]. split; [exact Hv|apply Hb].
  - exfalso. apply Hn. repeat split; reflexivity.
Defined.

Definition demo_record : ApprovalRecord := Eval vm_compute in
  match approval_record demo_approver (mk_ApprovalExecuteRequest demo_approval_request demo_subject)
    demo_decision (Aware 5000000) with
  | Ok r => r
  | Raise _ => mk_ApprovalRecord (demo_meta "" "") "" ApprovalDecision.REJECT "" "" "" "" ""
      (Aware 0) (Aware 0)
  end.

