(* ===== verification/AuditSkill.v ===== *)
(** * skills/audit.py: conflict detection and decision audit *)
From S2P Require Import Prelude Json PyTime PyDecimal Canonical Platforms Models Common.
From S2P Require Import TrustedStore Rules Compensation Calculation.
Local Open Scope Z_scope.

(** The frozenset, in sorted order *)
Definition REQUIRED_PRE_AUDIT_EVENTS : list string :=
  ["skill.conflict_detect"; "skill.deterministic_calculate"; "skill.evidence_ingest";
   "skill.rule_retrieve"; "skill.timeline_build"; "strategy.proposal_generate"].

(** ** Grouping: [grouped.setdefault(field, {}).setdefault(value, []).append(ref)] *)
Definition Values : Type := list (string * list string).

Fixpoint append_ref (value ref : string) (values : Values) : Values :=
  match values with
  | [] => [(value, [ref])]
  | (v, refs) :: rest =>
      if String.eqb v value then (v, refs ++ [ref]) :: rest
      else (v, refs) :: append_ref value ref rest
  end.

Fixpoint group_ref (field value ref : string) (grouped : list (string * Values))
    : list (string * Values) :=
  match grouped with
  | [] => [(field, [(value, [ref])])]
  | (f, vs) :: rest =>
      if String.eqb f field then (f, append_ref value ref vs) :: rest
      else (f, vs) :: group_ref field value ref rest
  end.

Definition group_refs (evidence : list EvidenceObject) : list (string * Values) :=
  fold_left (λ g e, group_ref e.(ev_field_name) e.(ev_normalized_value) (artifact_ref e) g)
    evidence [].

(** The fields with at least two values, sorted *)
Definition conflicting_groups (evidence : list EvidenceObject) : list (string * Values) :=
  filter (λ g, (2 ≤ length (snd g))%nat) (isort (key_leb fst) (group_refs evidence)).

Definition values_py (values : Values) : pyval :=
  VDict (map (λ v : string * list string, (fst v, to_py (snd v))) values).

Section audit.
Context `{P : Platform}.

Definition make_conflict (g : string * Values) : result Conflict :=
  let '(field_name, values) := g in
  conflict_id ← stable_id "conflict"
    (VDict [("field", to_py field_name); ("values", values_py values)]);
  Ok (mk_Conflict conflict_id "BLOCKER" (concat (map snd values))
        (str_strip ("conflicting verified values for " +:+ field_name))
        "A human reviewer must resolve the source conflict.").

Definition conflict_detect (context : SkillContext) (request : ConflictDetectRequest)
    (now : datetime) : result (SkillResult ConflictDetectOutput) :=
  unless_denied context (to_py request) "PF-A6" (
    conflicts ← mapR make_conflict (conflicting_groups request.(cdr_evidence));
    let input_complete := nonempty request.(cdr_evidence) && nonempty request.(cdr_rules) &&
      bool_decide (is_Some request.(cdr_calculation)) in
    m ← artifact_meta "conflict-report" "PF-A6" context now
      (VDict [("policy_version", to_py request.(cdr_policy_version));
              ("conflicts", to_py conflicts); ("input_complete", to_py input_complete)])
      (map artifact_ref request.(cdr_evidence) ++ map artifact_ref request.(cdr_rules) ++
       match request.(cdr_calculation) with Some c => [artifact_ref c] | None => [] end);
    report ← seal (mk_ConflictReport m conflicts
      (map cf_conflict_id (filter (λ c, cf_severity c = "BLOCKER") conflicts)) input_complete);
    let output := mk_ConflictDetectOutput report in
    input_hash ← sha256_digest (to_py request);
    output_hash ← sha256_digest (to_py output);
    Ok (mk_SkillResult
      (if input_complete then SkillStatus.SUCCESS else SkillStatus.BLOCKED) (Some output)
      (if input_complete then []
       else [blocker "INCOMPLETE_INPUT" "conflict detection input is incomplete"])
      input_hash (Some output_hash) [artifact_ref report])).

(** ** decision_audit *)
Definition finding (payload : pyval) (refs : list string) (message action : string)
    : result AuditFinding :=
  i ← stable_id "finding" payload; Ok (mk_AuditFinding i "BLOCKER" refs message action).

(** [if condition: findings.append(...)] *)
Definition when_finding (condition : bool) (f : result AuditFinding) : result (list AuditFinding) :=
  if condition then x ← f; Ok [x] else Ok [].

Definition calculation_invalid (c : CalculationSheet) : result bool :=
  match c.(cs_total) with None => Ok true | Some _ => v ← verify_hash c; Ok (negb v) end.

Definition subset (l available : list string) : bool := forallb (λ x, bool_decide (x ∈ available)) l.

(** The unsupported claims of one proposal *)
Definition unsupported_claims (available_evidence available_rules : list string)
    (calculation_ref : string) (p : Proposal) : result (list string) :=
  sealed ← verify_hash p;
  Ok ((if negb sealed then [artifact_ref p +:+ " is not sealed"] else []) ++
      (if negb (nonempty p.(pr_evidence_refs)) || negb (subset p.(pr_evidence_refs) available_evidence)
       then [artifact_ref p +:+ " has invalid evidence references"] else []) ++
      (if negb (nonempty p.(pr_rule_refs)) || negb (subset p.(pr_rule_refs) available_rules)
       then [artifact_ref p +:+ " has invalid rule references"] else []) ++
      (if negb (bool_decide (p.(pr_calculation_ref) = Some calculation_ref))
       then [artifact_ref p +:+ " has an invalid calculation reference"] else [])).

Definition audit_unsupported (request : DecisionAuditRequest) : result (list string) :=
  ls ← mapR (unsupported_claims (map artifact_ref request.(dar_evidence))
               (map artifact_ref request.(dar_rules)) (artifact_ref request.(dar_calculation)))
         request.(dar_proposals);
  Ok (concat ls).

Definition missing_events (request : DecisionAuditRequest) : list string :=
  filter (λ e, e ∉ request.(dar_observed_event_types)) REQUIRED_PRE_AUDIT_EVENTS.

(** The findings appended before the proposals are examined *)
Definition upstream_findings (request : DecisionAuditRequest) : result (list AuditFinding) :=
  let missing := missing_events request in
  f1 ← when_finding (nonempty missing)
    (finding (VDict [("missing_events", to_py missing)]) []
       ("required trace events are missing: " +:+ str_join ", " missing)
       "Restore the missing trace evidence and rerun the audit.");
  f2 ← when_finding (negb request.(dar_conflict_report).(cfr_input_complete))
    (finding (VStr "conflict-input-incomplete") [artifact_ref request.(dar_conflict_report)]
       "conflict report was produced from incomplete inputs"
       "Complete all upstream evidence before audit.");
  f3 ← mapR (λ conflict_id, finding (VDict [("blocker", to_py conflict_id)]) [conflict_id]
       "an unresolved blocker conflict remains" "Resolve the conflict through the Human Gate.")
     request.(dar_conflict_report).(cfr_blocker_ids);
  invalid ← calculation_invalid request.(dar_calculation);
  f4 ← when_finding invalid
    (finding (VStr "calculation-invalid") [artifact_ref request.(dar_calculation)]
       "calculation is missing, unsealed, or inconsistent"
       "Rerun the versioned deterministic calculation.");
  Ok (f1 ++ f2 ++ f3 ++ f4).

Definition unsupported_finding (request : DecisionAuditRequest) (unsupported : list string)
    : result (list AuditFinding) :=
  when_finding (nonempty unsupported)
    (finding (VDict [("unsupported", to_py unsupported)]) (map artifact_ref request.(dar_proposals))
       "one or more proposal claims are not structurally supported"
       "Regenerate proposals with valid immutable references.").

(** The content hashes and the references of the audited artifacts *)
Definition audited_hashes (request : DecisionAuditRequest) : list string :=
  omap meta_content_hash
    (map ev_meta request.(dar_evidence) ++ map rc_meta request.(dar_rules) ++
     [request.(dar_calculation).(cs_meta); request.(dar_conflict_report).(cfr_meta)] ++
     map pr_meta request.(dar_proposals)).
Definition audited_refs (request : DecisionAuditRequest) : list string :=
  map artifact_ref request.(dar_evidence) ++ map artifact_ref request.(dar_rules) ++
  [artifact_ref request.(dar_calculation); artifact_ref request.(dar_conflict_report)] ++
  map artifact_ref request.(dar_proposals).

Definition audit_verdict (findings : list AuditFinding) : AuditVerdict :=
  if existsb (λ f, String.eqb f.(af_severity) "BLOCKER") findings then AuditVerdict.BLOCK
  else AuditVerdict.PASS.

Definition decision_audit (context : SkillContext) (request : DecisionAuditRequest)
    (now : datetime) : result (SkillResult DecisionAuditOutput) :=
  unless_denied context (to_py request) "PF-A6" (
    upstream ← upstream_findings request;
    unsupported ← audit_unsupported request;
    last ← unsupported_finding request unsupported;
    let findings := upstream ++ last in
    let audited := audited_hashes request in
    m ← artifact_meta "audit-report" "PF-A6" context now
      (VDict [("policy_version", to_py request.(dar_policy_version));
              ("audited_hashes", to_py audited); ("findings", to_py findings)])
      (audited_refs request);
    report ← seal (mk_AuditReport m (audit_verdict findings) findings unsupported audited
      request.(dar_policy_version));
    success (to_py request) (mk_DecisionAuditOutput report) [artifact_ref report]).

(** ** Conflicts *)
Lemma append_ref_keys v ref vs :
  map fst (append_ref v ref vs) =
  if bool_decide (v ∈ map fst vs) then map fst vs else map fst vs ++ [v].
Proof.
  induction vs as [|[w refs] vs IH]; [done|]. cbn [append_ref map fst].
  - destruct (String.eqb_spec w v) as [->|Hne]; cbn [map fst].
    + by rewrite bool_decide_eq_true_2 by by left.
    + rewrite IH. destruct (decide (v ∈ map fst vs)) as [Hin|Hin].
      * rewrite !bool_decide_eq_true_2; [done|by right|done].
      * rewrite !bool_decide_eq_false_2; [done| |done]. rewrite not_elem_of_cons. auto.
Qed.

(** Forgetting the references gives the grouping of the calculation. *)
Definition value_keys (g : string * Values) : string * list string := (fst g, map fst (snd g)).

Lemma group_ref_values f v ref g :
  map value_keys (group_ref f v ref g) = group_value f v (map value_keys g).
Proof.
  induction g as [|[f' vs] g IH]; simpl; [done|].
  destruct (String.eqb f' f); simpl; [|by rewrite IH].
  unfold value_keys at 1. simpl. by rewrite append_ref_keys.
Qed.

Lemma group_refs_values evidence : map value_keys (group_refs evidence) = group_fields evidence.
Proof.
  unfold group_refs, group_fields.
  assert (∀ l g, map value_keys (fold_left (λ g e, group_ref (ev_field_name e)
      (ev_normalized_value e) (artifact_ref e) g) l g) =
    fold_left (λ g e, group_value (ev_field_name e) (ev_normalized_value e) g) l (map value_keys g)) as H.
  { induction l as [|e l IH]; intros g; simpl; [done|]. by rewrite IH, group_ref_values. }
  apply H.
Qed.

(** There is a conflicting group exactly when a field has two values. *)
Lemma conflicting_groups_nil evidence : conflicting_groups evidence = [] ↔ consistent evidence.
Proof.
  rewrite <- no_conflicts_spec. unfold _field_values. cbn [snd]. rewrite <- group_refs_values.
  unfold conflicting_groups. set (g := group_refs evidence). clearbody g.
  assert (∀ A (l : list A) leb, isort leb l = [] ↔ l = []) as Hnil.
  { intros A l leb. split; [|by intros ->]. intros H. pose proof (isort_perm leb l) as Hp.
    rewrite H in Hp. by apply Permutation_nil in Hp. }
  rewrite Hnil, filter_nil. setoid_rewrite elem_of_isort. split.
  - intros H. induction g as [|[f vs] g IH]; [done|]. simpl.
    assert (¬ (2 ≤ length vs)%nat) as Hl by (apply (H (f, vs)); by left).
    destruct vs as [|v1 [|v2 vs]]; simpl in *; [..|lia]; apply IH; intros x Hx; apply H; by right.
  - intros H. induction g as [|[f vs] g IH]; [by intros x ?%not_elem_of_nil|]. simpl in H.
    destruct vs as [|v1 [|v2 vs]]; simpl in *; try done; intros x [->|Hx]%elem_of_cons; simpl;
      try lia; by apply IH.
Qed.

Lemma wf_values vs : NoDup (map fst vs) → wf_py (values_py vs) = true.
Proof.
  intros Hnd. unfold values_py. cbn [wf_py]. rewrite map_map. cbn [fst].
  rewrite bool_decide_eq_true_2 by done. apply forallb_forall. intros kv Hkv.
  apply in_map_iff in Hkv as (x & <- & _). apply wf_string_list.
Qed.

Lemma make_conflict_total evidence g : g ∈ conflicting_groups evidence →
  ∃ c, make_conflict g = Ok c ∧ cf_severity c = "BLOCKER".
Proof.
  unfold conflicting_groups. intros [_ Hg]%list_elem_of_filter. rewrite elem_of_isort in Hg.
  destruct g as [f vs]. unfold make_conflict.
  destruct (stable_id_total "conflict" (VDict [("field", to_py f); ("values", values_py vs)]))
    as [i ->]; [|by eexists].
  apply wf_dict; [reflexivity|]. repeat constructor. cbn [snd]. apply wf_values.
  destruct (group_fields_ok evidence) as (_ & Hin & _).
  destruct (Hin f (map fst vs)) as [Hnd _]; [|done].
  rewrite <- group_refs_values. apply list_elem_of_In, in_map_iff. exists (f, vs).
  split; [done|]. by apply list_elem_of_In.
Qed.

Lemma conflicts_total evidence :
  ∃ cs, mapR make_conflict (conflicting_groups evidence) = Ok cs ∧
    (∀ c, c ∈ cs → cf_severity c = "BLOCKER") ∧ length cs = length (conflicting_groups evidence).
Proof.
  destruct (mapR_total make_conflict (conflicting_groups evidence)) as [cs Hcs].
  { intros g Hg. destruct (make_conflict_total _ _ Hg) as (c & Hc & _). eauto. }
  exists cs. split; [done|]. split; [|by apply mapR_length in Hcs].
  intros c Hc. apply mapR_Forall2 in Hcs. apply list_elem_of_lookup in Hc as [i Hi].
  destruct (Forall2_lookup_r _ _ _ _ _ Hcs Hi) as (g & Hg & Hm).
  apply list_elem_of_lookup_2, make_conflict_total in Hg as (c' & Hc' & ?). congruence.
Qed.

(** Conflict detection, called by PF-A6: the sealed report names a blocker exactly
    when two pieces of evidence give one field different values, and the call
    succeeds exactly when evidence, rules and a calculation are all present. *)
Lemma conflict_detect_correct (context : SkillContext) (request : ConflictDetectRequest)
    (now : datetime) :
  context.(ctx_caller_identity) = "PF-A6" → valid_context context → is_aware now = true →
  wf_py (to_py request) = true →
  ∃ r report, conflict_detect context request now = Ok r ∧
    r.(sr_value) = Some (mk_ConflictDetectOutput report) ∧ verify_hash report = Ok true ∧
    (report.(cfr_blocker_ids) = [] ↔ consistent request.(cdr_evidence)) ∧
    (report.(cfr_input_complete) = true ↔ request.(cdr_evidence) ≠ [] ∧ request.(cdr_rules) ≠ [] ∧
       request.(cdr_calculation) ≠ None) ∧
    (r.(sr_status) = SkillStatus.SUCCESS ↔ report.(cfr_input_complete) = true).
Proof.
  intros Hid Hc Ha Hwf. unfold conflict_detect. rewrite unless_denied_pass by done.
  destruct (conflicts_total request.(cdr_evidence)) as (cs & -> & Hsev & Hlen).
  cbn [mbind result_bind]. set (complete := _ && _).
  edestruct (artifact_meta_total "c" "onflict-report" "PF-A6" context now) as [m Hm];
    [done|done|done| |rewrite Hm]; [wf_solve|]. cbn [mbind result_bind].
  set (rep := mk_ConflictReport m cs _ complete).
  assert (wf_artifact rep) as Hrep.
  { apply wf_artifact_spec. apply artifact_meta_Ok in Hm as (i & _ & _ & ->). split; [done|].
    apply forallb_forall, List.Forall_forall. repeat constructor; wf_solve. }
  destruct (seal_total rep Hrep) as [report Hs]. rewrite Hs. cbn [mbind result_bind].
  destruct (digest_total [] _ Hwf) as [h Hh]. unfold sha256_digest. rewrite Hh. cbn [mbind result_bind].
  edestruct (digest_total [] (to_py (mk_ConflictDetectOutput report))) as [o Ho].
  { apply wf_dict; [reflexivity|]. repeat constructor. by eapply (seal_wf rep). }
  rewrite Ho. cbn [mbind result_bind]. pose proof (seal_verifies _ _ Hs) as Hv.
  apply seal_Ok in Hs as (d & _ & ->). eexists _, _. split; [reflexivity|].
  split; [done|]. split; [done|].
  change (cfr_blocker_ids (set_meta _ _)) with (map cf_conflict_id (filter (λ c, cf_severity c = "BLOCKER") cs)).
  change (cfr_input_complete (set_meta _ _)) with complete. split; [|split].
  - rewrite <- conflicting_groups_nil. split.
    + intros Hn. destruct cs as [|c cs]; [by destruct (conflicting_groups _)|].
      rewrite filter_cons_True in Hn by (apply Hsev; by left). done.
    + intros Hn. rewrite Hn in Hlen. by destruct cs.
  - unfold complete. rewrite !andb_true_iff, bool_decide_eq_true.
    rewrite <- not_eq_None_Some.
    destruct (cdr_evidence request), (cdr_rules request); simpl; naive_solver.
  - cbn [sr_status]. by destruct complete.
Qed.

(** ** The audit *)
Definition blockers (l : list AuditFinding) : Prop := ∀ f, f ∈ l → af_severity f = "BLOCKER".

Lemma finding_total payload refs message action : wf_py payload = true →
  ∃ f, finding payload refs message action = Ok f ∧ af_severity f = "BLOCKER".
Proof. intros [i Hi]%(stable_id_total "finding"). unfold finding. rewrite Hi. by eexists. Qed.

Lemma when_finding_total b payload refs message action : wf_py payload = true →
  ∃ l, when_finding b (finding payload refs message action) = Ok l ∧ blockers l ∧ (l = [] ↔ b = false).
Proof.
  intros Hw. destruct (finding_total payload refs message action Hw) as (f & Hf & Hsev).
  unfold when_finding. rewrite Hf. destruct b; simpl.
  - exists [f]. split; [done|]. split; [|done]. by intros g ->%list_elem_of_singleton.
  - exists []. split; [done|]. split; [|done]. by intros g ?%not_elem_of_nil.
Qed.

(** Runs the finding at the head of the computation. *)
Ltac next_finding f B N :=
  match goal with
  | |- context [mbind _ (when_finding ?b (finding ?p ?r ?m ?a))] =>
      let E := fresh "E" in
      destruct (when_finding_total b p r m a) as (f & E & B & N); [wf_solve|];
      rewrite E; clear E; cbn [mbind result_bind]
  end.

Lemma blockers_app l k : blockers l → blockers k → blockers (l ++ k).
Proof. intros Hl Hk f [?|?]%elem_of_app; auto. Qed.

Definition valid_calculation (c : CalculationSheet) : Prop :=
  c.(cs_total) ≠ None ∧ verify_hash c = Ok true.

Lemma calculation_invalid_total (c : CalculationSheet) : wf_py (to_py c) = true →
  ∃ b, calculation_invalid c = Ok b ∧ (b = false ↔ valid_calculation c).
Proof.
  intros Hw. unfold calculation_invalid, valid_calculation.
  destruct (verify_hash_total c Hw) as [v ->]. destruct (cs_total c); simpl.
  - exists (negb v). split; [done|]. rewrite negb_false_iff. naive_solver.
  - exists true. split; [done|]. naive_solver.
Qed.

Lemma nonempty_false {A} (l : list A) : nonempty l = false ↔ l = [].
Proof. by destruct l. Qed.

Lemma missing_events_nil request :
  missing_events request = [] ↔
  ∀ e, e ∈ REQUIRED_PRE_AUDIT_EVENTS → e ∈ request.(dar_observed_event_types).
Proof. unfold missing_events. rewrite filter_nil. setoid_rewrite not_notin. done. Qed.

Lemma upstream_findings_total request : wf_py (to_py request.(dar_calculation)) = true →
  ∃ l, upstream_findings request = Ok l ∧ blockers l ∧
  (l = [] ↔ (∀ e, e ∈ REQUIRED_PRE_AUDIT_EVENTS → e ∈ request.(dar_observed_event_types)) ∧
    request.(dar_conflict_report).(cfr_input_complete) = true ∧
    request.(dar_conflict_report).(cfr_blocker_ids) = [] ∧
    valid_calculation request.(dar_calculation)).
Proof.
  intros Hw. unfold upstream_findings. cbv zeta.
  next_finding f1 B1 N1. next_finding f2 B2 N2.
  set (mk := λ conflict_id : string, _).
  assert (∃ f3, mapR mk request.(dar_conflict_report).(cfr_blocker_ids) = Ok f3 ∧ blockers f3 ∧
    (f3 = [] ↔ request.(dar_conflict_report).(cfr_blocker_ids) = [])) as (f3 & -> & B3 & N3).
  { generalize (cfr_blocker_ids (dar_conflict_report request)) as ids. clear.
    assert (∀ i, ∃ f, mk i = Ok f ∧ af_severity f = "BLOCKER") as Hmk.
    { intros i. apply finding_total. wf_solve. }
    clearbody mk. induction ids as [|i ids (fs & Hfs & Bs & _)]; cbn [mapR].
    - exists []. split; [done|]. split; [|done]. by intros f ?%not_elem_of_nil.
    - destruct (Hmk i) as (f & -> & Hsev). cbn [mbind result_bind]. rewrite Hfs. cbn.
      exists (f :: fs). split; [done|]. split; [|done]. intros g [->|?]%elem_of_cons; auto. }
  cbn [mbind result_bind]. destruct (calculation_invalid_total _ Hw) as (b & -> & Hb).
  cbn [mbind result_bind].
  next_finding f4 B4 N4.
  eexists. split; [done|]. split; [by repeat apply blockers_app|].
  rewrite nonempty_false, missing_events_nil in N1. rewrite negb_false_iff in N2. rewrite Hb in N4.
  rewrite <- N1, <- N2, <- N3, <- N4. rewrite !app_nil. done.
Qed.

(** The claims of a proposal are structurally supported. *)
Definition supported (request : DecisionAuditRequest) (p : Proposal) : Prop :=
  verify_hash p = Ok true ∧ p.(pr_evidence_refs) ≠ [] ∧ p.(pr_rule_refs) ≠ [] ∧
  (∀ x, x ∈ p.(pr_evidence_refs) → x ∈ map artifact_ref request.(dar_evidence)) ∧
  (∀ x, x ∈ p.(pr_rule_refs) → x ∈ map artifact_ref request.(dar_rules)) ∧
  p.(pr_calculation_ref) = Some (artifact_ref request.(dar_calculation)).

Lemma subset_spec l k : subset l k = true ↔ ∀ x, x ∈ l → x ∈ k.
Proof.
  unfold subset. rewrite forallb_forall. setoid_rewrite bool_decide_eq_true.
  setoid_rewrite list_elem_of_In. done.
Qed.

Lemma refs_invalid l k : negb (nonempty l) || negb (subset l k) = false ↔ l ≠ [] ∧ ∀ x, x ∈ l → x ∈ k.
Proof. rewrite orb_false_iff, !negb_false_iff, subset_spec. destruct l; naive_solver. Qed.

Lemma unsupported_claims_total request p : wf_py (to_py p) = true →
  ∃ l, unsupported_claims (map artifact_ref request.(dar_evidence))
    (map artifact_ref request.(dar_rules)) (artifact_ref request.(dar_calculation)) p = Ok l ∧
  (l = [] ↔ supported request p).
Proof.
  intros Hw. destruct (verify_hash_total p Hw) as [v Hv]. unfold unsupported_claims. rewrite Hv.
  cbn [mbind result_bind]. eexists. split; [reflexivity|].
  assert (∀ (b : bool) (m : string), (if b then [m] else []) = [] ↔ b = false) as Hif
    by (intros []; done).
  rewrite !app_nil, !Hif, !refs_invalid, !negb_false_iff, bool_decide_eq_true.
  unfold supported. rewrite Hv. split.
  - intros (-> & [? ?] & [? ?] & ?). done.
  - intros ([= ->] & ? & ? & ? & ? & ?). done.
Qed.

Lemma audit_unsupported_total request : wf_py (to_py request.(dar_proposals)) = true →
  ∃ l, audit_unsupported request = Ok l ∧
  (l = [] ↔ ∀ p, p ∈ request.(dar_proposals) → supported request p).
Proof.
  intros Hw. unfold audit_unsupported. set (f := unsupported_claims _ _ _).
  assert (∀ ps, (∀ p, p ∈ ps → wf_py (to_py p) = true) → ∃ ls, mapR f ps = Ok ls ∧
    (concat ls = [] ↔ ∀ p, p ∈ ps → supported request p)) as Hps.
  { induction ps as [|p ps IH]; intros Hps; cbn [mapR].
    - exists []. split; [done|]. split; [|done]. by intros _ p ?%not_elem_of_nil.
    - destruct (unsupported_claims_total request p) as (l & Hl & Hs); [apply Hps; by left|].
      change (f p = Ok l) in Hl. rewrite Hl. cbn [mbind result_bind]. destruct IH as (ls & -> & Hls); [intros; apply Hps; by right|].
      cbn. exists (l :: ls). split; [done|]. simpl. rewrite app_nil, Hs, Hls.
      setoid_rewrite elem_of_cons. naive_solver. }
  destruct (Hps request.(dar_proposals)) as (ls & -> & Hls); [intros p; by apply wf_list_elem|].
  cbn. eauto.
Qed.

(** What the audit of a decision requires *)
Definition passable (request : DecisionAuditRequest) : Prop :=
  (∀ e, e ∈ REQUIRED_PRE_AUDIT_EVENTS → e ∈ request.(dar_observed_event_types)) ∧
  request.(dar_conflict_report).(cfr_input_complete) = true ∧
  request.(dar_conflict_report).(cfr_blocker_ids) = [] ∧
  valid_calculation request.(dar_calculation) ∧
  ∀ p, p ∈ request.(dar_proposals) → supported request p.

Lemma audit_verdict_pass l : blockers l → (audit_verdict l = AuditVerdict.PASS ↔ l = []).
Proof.
  intros Hl. unfold audit_verdict. destruct l as [|f l]; [done|]. simpl.
  by rewrite (Hl f) by by left.
Qed.

(** C37. Correctness of the decision audit, called by PF-A6: it always reports; the
    verdict is PASS exactly when every required event was observed, the conflict
    report is complete without blockers, the calculation has a total and verifies,
    and every proposal is sealed with nonempty references to audited evidence, rules
    and this calculation; it is BLOCK otherwise; the sealed report lists the hashes
    of all audited artifacts. *)
Theorem decision_audit_correct (context : SkillContext) (request : DecisionAuditRequest)
    (now : datetime) :
  context.(ctx_caller_identity) = "PF-A6" → valid_context context → is_aware now = true →
  wf_py (to_py request) = true →
  ∃ r report, decision_audit context request now = Ok r ∧ r.(sr_status) = SkillStatus.SUCCESS ∧
    r.(sr_value) = Some (mk_DecisionAuditOutput report) ∧ verify_hash report = Ok true ∧
    (report.(ar_verdict) = AuditVerdict.PASS ↔ passable request) ∧
    (report.(ar_verdict) = AuditVerdict.BLOCK ↔ ¬ passable request) ∧
    report.(ar_audited_artifact_hashes) = audited_hashes request ∧
    meta_scope report.(ar_meta) = context_scope context.
Proof.
  intros Hid Hc Ha Hwf. unfold decision_audit. rewrite unless_denied_pass by done.
  assert (wf_py (to_py request.(dar_calculation)) = true) as Hw1.
  { eapply (wf_dict_elem _ "calculation"); [exact Hwf|]. repeat constructor. }
  assert (wf_py (to_py request.(dar_proposals)) = true) as Hw2.
  { eapply (wf_dict_elem _ "proposals"); [exact Hwf|]. repeat constructor. }
  destruct (upstream_findings_total request Hw1) as (up & -> & Bup & Nup). cbn [mbind result_bind].
  destruct (audit_unsupported_total request Hw2) as (un & -> & Nun). cbn [mbind result_bind].
  unfold unsupported_finding.
  next_finding uf Blast Nlast.
  edestruct (artifact_meta_total "a" "udit-report" "PF-A6" context now) as [m Hm];
    [done|done|done| |rewrite Hm]; [wf_solve|]. cbn [mbind result_bind].
  set (rep := mk_AuditReport m _ _ _ _ _).
  assert (wf_artifact rep) as Hrep.
  { apply wf_artifact_spec. apply artifact_meta_Ok in Hm as (i & _ & _ & ->). split; [done|].
    apply forallb_forall, List.Forall_forall. repeat constructor; wf_solve. }
  destruct (seal_total rep Hrep) as [report Hs]. rewrite Hs. cbn [mbind result_bind].
  destruct (success_total (to_py request) (mk_DecisionAuditOutput report) [artifact_ref report])
    as [r Hr]; [done|apply wf_dict; [reflexivity|]; repeat constructor; by eapply (seal_wf rep)|].
  exists r, report. split; [done|]. apply success_Ok in Hr as (? & ? & _).
  pose proof (seal_verifies _ _ Hs) as Hv. split; [done|]. split; [done|]. split; [done|].
  assert (ar_verdict report = audit_verdict (up ++ uf)) as Hverdict
    by (apply seal_Ok in Hs as (d & _ & ->); done).
  assert (ar_verdict report = AuditVerdict.PASS ↔ passable request) as Hpass.
  { rewrite Hverdict, audit_verdict_pass by by apply blockers_app.
    rewrite app_nil, Nup, Nlast, nonempty_false, Nun. unfold passable. naive_solver. }
  split; [done|]. split.
  - rewrite <- Hpass, Hverdict. unfold audit_verdict. by destruct (existsb _ _).
  - apply seal_Ok in Hs as (d & _ & ->). split; [done|].
    apply artifact_meta_Ok in Hm as (i & _ & _ & ->). done.
Qed.
End audit.
