(* ===== verification/Strategy.v ===== *)
(** * strategy.py: the proposal template, and its path to a PASS audit *)
From S2P Require Import Prelude Json PyTime PyDecimal Canonical Platforms Models Common.
From S2P Require Import TrustedStore Rules Compensation Calculation AuditSkill.
Local Open Scope Z_scope.

Section strategy.
Context `{P : Platform}.

(** The proposal for a verified calculation *)
Definition candidate_proposal (context : SkillContext) (request : ProposalGenerateRequest)
    (now : datetime) : result Proposal :=
  let evidence_refs := map artifact_ref request.(pgr_evidence) in
  let rule_refs := map artifact_ref request.(pgr_rules) in
  let calculation_ref := artifact_ref request.(pgr_calculation) in
  m ← artifact_meta "proposal" "PF-A5" context now
    (VDict [("option", VStr "controlled-human-review"); ("evidence_refs", to_py evidence_refs);
            ("rule_refs", to_py rule_refs); ("calculation_ref", to_py calculation_ref)])
    (evidence_refs ++ rule_refs ++ [calculation_ref]);
  seal (mk_Proposal m "CONTROLLED_HUMAN_REVIEW"
    "Prepare a controlled review draft that exposes the deterministic compensation reference, while requiring a qualified human to verify termination eligibility and all unresolved legal or factual preconditions."
    ["Verify the candidate termination basis against the complete factual record.";
     "Review the cited official provisions at their authoritative source.";
     "Review the calculation inputs, formula version, and reproducibility hash.";
     "Do not send, sign, submit, or write to an HR system from this workflow."]
    evidence_refs rule_refs (Some calculation_ref)
    ["A deterministic amount does not establish legal eligibility.";
     "The local-average wage in this fixture is synthetic, not an official Hangzhou value."]
    ["Article 40 eligibility is deliberately unverified in the synthetic notice.";
     "No domain expert has reviewed this reference run."]).

Definition create_candidate_proposals (context : SkillContext) (request : ProposalGenerateRequest)
    (now : datetime) : result (SkillResult ProposalGenerateOutput) :=
  unless_denied context (to_py request) "PF-A5" (
    invalid ← calculation_invalid request.(pgr_calculation);
    if (invalid : bool) then
      blocked (to_py request) [blocker "CALCULATION_NOT_VERIFIED"
        "proposal generation requires a sealed deterministic calculation"]
    else
      proposal ← candidate_proposal context request now;
      success (to_py request) (mk_ProposalGenerateOutput [proposal]) [artifact_ref proposal]).

(** What the template fills in *)
Lemma candidate_proposal_Ok context request now p :
  candidate_proposal context request now = Ok p →
  verify_hash p = Ok true ∧ p.(pr_evidence_refs) = map artifact_ref request.(pgr_evidence) ∧
  p.(pr_rule_refs) = map artifact_ref request.(pgr_rules) ∧
  p.(pr_calculation_ref) = Some (artifact_ref request.(pgr_calculation)) ∧
  meta_scope p.(pr_meta) = context_scope context ∧
  p.(pr_meta).(meta_producer_identity) = "PF-A5".
Proof.
  unfold candidate_proposal. intros H.
  apply bind_Ok in H as (m & (i & _ & _ & ->)%artifact_meta_Ok & H).
  pose proof (seal_verifies _ _ H) as Hv. apply seal_Ok in H as (d & _ & ->). done.
Qed.

Lemma candidate_proposal_total context request now :
  valid_context context → is_aware now = true →
  ∃ p, candidate_proposal context request now = Ok p ∧ wf_py (to_py p) = true.
Proof.
  intros Hc Ha. unfold candidate_proposal. cbv zeta.
  edestruct (artifact_meta_total "p" "roposal" "PF-A5" context now) as [m Hm];
    [done|done|done| |rewrite Hm]; [wf_solve|]. cbn [mbind result_bind].
  set (p := mk_Proposal m _ _ _ _ _ _ _ _).
  assert (wf_artifact p) as Hp.
  { apply wf_artifact_spec. apply artifact_meta_Ok in Hm as (i & _ & _ & ->). split; [done|].
    apply forallb_forall, List.Forall_forall. repeat constructor; wf_solve. }
  destruct (seal_total p Hp) as [q Hq]. rewrite Hq. exists q. split; [done|]. by eapply (seal_wf p).
Qed.

(** Proposal generation, called by PF-A5: it returns one sealed proposal, which
    references exactly the given evidence, rules and calculation, if the calculation
    has a total and verifies, and blocks otherwise. *)
Lemma create_candidate_proposals_correct (context : SkillContext)
    (request : ProposalGenerateRequest) (now : datetime) :
  context.(ctx_caller_identity) = "PF-A5" → valid_context context → is_aware now = true →
  wf_py (to_py request) = true →
  ∃ r, create_candidate_proposals context request now = Ok r ∧
    ((valid_calculation request.(pgr_calculation) ∧ r.(sr_status) = SkillStatus.SUCCESS ∧
      ∃ p, r.(sr_value) = Some (mk_ProposalGenerateOutput [p]) ∧ verify_hash p = Ok true ∧
        p.(pr_evidence_refs) = map artifact_ref request.(pgr_evidence) ∧
        p.(pr_rule_refs) = map artifact_ref request.(pgr_rules) ∧
        p.(pr_calculation_ref) = Some (artifact_ref request.(pgr_calculation)) ∧
        meta_scope p.(pr_meta) = context_scope context) ∨
     (¬ valid_calculation request.(pgr_calculation) ∧ r.(sr_status) = SkillStatus.BLOCKED ∧
      r.(sr_value) = None)).
Proof.
  intros Hid Hc Ha Hwf. unfold create_candidate_proposals. rewrite unless_denied_pass by done.
  destruct (calculation_invalid_total request.(pgr_calculation)) as (b & -> & Hb).
  { eapply (wf_dict_elem _ "calculation"); [exact Hwf|]. repeat constructor. }
  cbn [mbind result_bind]. destruct b.
  - edestruct (blocked_total (T:=ProposalGenerateOutput) (to_py request)) as [r Hr]; [done|].
    rewrite Hr. exists r. split; [done|]. right. apply blocked_Ok in Hr as (? & ? & _).
    split; [|done]. intros Hval. by apply Hb in Hval.
  - destruct (candidate_proposal_total context request now Hc Ha) as (p & Hp & Hwp).
    rewrite Hp. cbn [mbind result_bind].
    destruct (success_total (to_py request) (mk_ProposalGenerateOutput [p]) [artifact_ref p])
      as [r Hr]; [done|apply wf_dict; [reflexivity|]; repeat constructor; by apply wf_list; repeat constructor|].
    exists r. split; [done|]. left. apply success_Ok in Hr as (? & ? & _).
    split; [by apply Hb|]. split; [done|]. exists p. split; [done|].
    by apply candidate_proposal_Ok in Hp as (? & ? & ? & ? & ? & _).
Qed.

(** The pipeline reaches the human gate: for nonempty consistent evidence, rules
    and a valid calculation, the conflict report of [conflict_detect] and the
    proposals of [create_candidate_proposals] get a PASS from [decision_audit],
    once every required event was observed. *)
Lemma pipeline_passes (strategist auditor : SkillContext) (pgr : ProposalGenerateRequest)
    (t1 t2 t3 : datetime) (events : list string) (policy1 policy2 : string)
    (pr : SkillResult ProposalGenerateOutput) (po : ProposalGenerateOutput)
    (cr : SkillResult ConflictDetectOutput) (co : ConflictDetectOutput)
    (ar : SkillResult DecisionAuditOutput) (ao : DecisionAuditOutput) :
  pgr.(pgr_evidence) ≠ [] → pgr.(pgr_rules) ≠ [] → consistent pgr.(pgr_evidence) →
  (∀ e, e ∈ REQUIRED_PRE_AUDIT_EVENTS → e ∈ events) →
  create_candidate_proposals strategist pgr t1 = Ok pr → pr.(sr_value) = Some po →
  conflict_detect auditor (mk_ConflictDetectRequest pgr.(pgr_evidence) pgr.(pgr_rules)
    (Some pgr.(pgr_calculation)) policy1) t2 = Ok cr → cr.(sr_value) = Some co →
  decision_audit auditor (mk_DecisionAuditRequest po.(pgo_proposals) pgr.(pgr_evidence)
    pgr.(pgr_rules) pgr.(pgr_calculation) co.(cdo_report) events policy2) t3 = Ok ar →
  ar.(sr_value) = Some ao →
  ao.(dao_report).(ar_verdict) = AuditVerdict.PASS.
Proof.
  intros Hne Hnr Hcons Hev Hp Hpo Hcr Hco Har Hao.
  unfold create_candidate_proposals in Hp. apply unless_denied_Ok in Hp as [[_ Hp]|(_ & _ & ? & _)];
    [|congruence].
  apply bind_Ok in Hp as (invalid & Hinv & Hp).
  destruct invalid; [apply blocked_Ok in Hp as (_ & ? & _); congruence|].
  apply bind_Ok in Hp as (p & Hcp & Hp). apply success_Ok in Hp as (_ & Hv & _).
  assert (po = mk_ProposalGenerateOutput [p]) as -> by congruence.
  apply candidate_proposal_Ok in Hcp as (Pv & Pe & Pr & Pc & _).
  unfold conflict_detect in Hcr. apply unless_denied_Ok in Hcr as [[_ Hcr]|(_ & _ & ? & _)]; [|congruence].
  apply bind_Ok in Hcr as (cs & Hcs & Hcr). apply conflicting_groups_nil in Hcons as Hnil.
  cbn [cdr_evidence] in Hcs. rewrite Hnil in Hcs. injection Hcs as <-.
  apply bind_Ok in Hcr as (m & _ & Hcr). apply bind_Ok in Hcr as (report & Hrep & Hcr).
  apply bind_Ok in Hcr as (? & _ & Hcr). apply bind_Ok in Hcr as (? & _ & [= <-]).
  cbn [sr_value] in Hco. injection Hco as <-. cbn [cdo_report] in *.
  apply seal_Ok in Hrep as (d & _ & ->).
  unfold decision_audit in Har. apply unless_denied_Ok in Har as [[_ Har]|(_ & _ & ? & _)]; [|congruence].
  apply bind_Ok in Har as (up & Hup & Har). apply bind_Ok in Har as (un & Hun & Har).
  apply bind_Ok in Har as (uf & Huf & Har). apply bind_Ok in Har as (m' & _ & Har).
  apply bind_Ok in Har as (rep & Hseal & Har). apply success_Ok in Har as (_ & Hv' & _).
  assert (ao = mk_DecisionAuditOutput rep) as -> by congruence. cbn [dao_report].
  apply seal_Ok in Hseal as (d' & _ & ->).
  change (audit_verdict (up ++ uf) = AuditVerdict.PASS).
  assert (un = []) as ->.
  { unfold audit_unsupported in Hun. cbn [dar_proposals pgo_proposals mapR] in Hun.
    unfold unsupported_claims in Hun. rewrite Pv, Pe, Pr, Pc in Hun. cbn [mbind result_bind] in Hun.
    cbn [dar_evidence dar_rules dar_calculation] in Hun.
    assert (∀ l : list string, l ≠ [] → negb (nonempty l) || negb (subset l l) = false) as Hok.
    { intros l Hl. by apply refs_invalid. }
    rewrite !Hok in Hun; [|by destruct (pgr_rules pgr)|by destruct (pgr_evidence pgr)].
    rewrite bool_decide_eq_true_2 in Hun by done. by injection Hun as <-. }
  unfold unsupported_finding in Huf. cbn [nonempty when_finding] in Huf. injection Huf as <-.
  rewrite app_nil_r.
  unfold upstream_findings in Hup. cbv zeta in Hup.
  match type of Hup with context [missing_events ?q] =>
    assert (missing_events q = []) as Hm by (by apply missing_events_nil); rewrite Hm in Hup end.
  assert (nonempty (pgr_evidence pgr) = true) as E1 by (by destruct (pgr_evidence pgr)).
  assert (nonempty (pgr_rules pgr) = true) as E2 by (by destruct (pgr_rules pgr)).
  simpl in Hup. rewrite E1, E2 in Hup. simpl in Hup. rewrite Hinv in Hup. simpl in Hup.
  by injection Hup as <-.
Qed.
End strategy.

(** ** A concrete pipeline *)
#[local] Existing Instance toy_platform.

Definition demo_sheet : CalculationSheet := Eval vm_compute in
  match calculation_sheet (demo_agent "PF-A4") (demo_request "12000.00") (Aware 0)
    demo_parameters (dec_of_Z 7) (mk_Compensation HALF false HALF HALF (Fin false 8400000 (-2))) with
  | Ok s => s
  | Raise _ => mk_CalculationSheet (demo_meta "" "") [] None [] None
  end.
Definition demo_proposal_request : ProposalGenerateRequest :=
  mk_ProposalGenerateRequest (demo_calculation_evidence "12000.00")
    demo_retrieved.(rro_citations) demo_sheet.

Lemma create_candidate_proposals_correct_witness :
  ∃ r p, create_candidate_proposals (demo_agent "PF-A5") demo_proposal_request (Aware 0) = Ok r ∧
    r.(sr_value) = Some (mk_ProposalGenerateOutput [p]) ∧ verify_hash p = Ok true.
Proof.
  destruct (create_candidate_proposals_correct (demo_agent "PF-A5") demo_proposal_request (Aware 0))
    as (r & Hr & [(_ & _ & p & Hv & Hp & _)|(Hn & _)]);
    [reflexivity|reflexivity|reflexivity|vm_compute; reflexivity| |].
  - exists r, p. split; [exact Hr|]. split; [exact Hv|exact Hp].
  - exfalso. apply Hn. split; [discriminate|vm_compute; reflexivity].
Defined.

Lemma demo_consistent : consistent demo_proposal_request.(pgr_evidence).
Proof. apply no_conflicts_spec. vm_compute. reflexivity. Qed.

Definition demo_conflict_request : ConflictDetectRequest :=
  mk_ConflictDetectRequest demo_proposal_request.(pgr_evidence) demo_proposal_request.(pgr_rules)
    (Some demo_sheet) "conflict-policy-v0.1".

Lemma conflict_detect_correct_witness :
  ∃ r report, conflict_detect (demo_agent "PF-A6") demo_conflict_request (Aware 0) = Ok r ∧
    r.(sr_value) = Some (mk_ConflictDetectOutput report) ∧ report.(cfr_blocker_ids) = [].
Proof.
  destruct (conflict_detect_correct (demo_agent "PF-A6") demo_conflict_request (Aware 0))
    as (r & report & Hr & Hv & _ & Hb & _);
    [reflexivity|reflexivity|reflexivity|vm_compute; reflexivity|].
  exists r, report. split; [exact Hr|]. split; [exact Hv|].
    apply Hb, demo_consistent.
Defined.

Definition demo_conflict_report : ConflictReport := Eval vm_compute in
  match conflict_detect (demo_agent "PF-A6") demo_conflict_request (Aware 0) with
  | Ok (mk_SkillResult _ (Some o) _ _ _ _) => o.(cdo_report)
  | _ => mk_ConflictReport (demo_meta "" "") [] [] false
  end.

(** An audit without a proposal and without observed events *)
Definition demo_audit_request (events : list string) : DecisionAuditRequest :=
  mk_DecisionAuditRequest [] (demo_calculation_evidence "12000.00") demo_retrieved.(rro_citations)
    demo_sheet demo_conflict_report events "audit-policy-v0.1".

Lemma decision_audit_correct_witness :
  ∃ r report, decision_audit (demo_agent "PF-A6") (demo_audit_request []) (Aware 0) = Ok r ∧
    r.(sr_value) = Some (mk_DecisionAuditOutput report) ∧ report.(ar_verdict) = AuditVerdict.BLOCK.
Proof.
  destruct (decision_audit_correct (demo_agent "PF-A6") (demo_audit_request []) (Aware 0))
    as (r & report & Hr & _ & Hv & _ & _ & Hb & _);
    [reflexivity|reflexivity|reflexivity|vm_compute; reflexivity|].
  exists r, report. split; [exact Hr|]. split; [exact Hv|]. apply Hb. intros [He _].
    specialize (He "skill.rule_retrieve"). apply (not_elem_of_nil "skill.rule_retrieve"), He. elem_here.
Defined.

(** The results of the three calls *)
Definition no_result {T} : SkillResult T := mk_SkillResult SkillStatus.BLOCKED None [] "" None [].
Definition result_or {T} (r : result (SkillResult T)) : SkillResult T :=
  match r with Ok r => r | Raise _ => no_result end.
Definition demo_proposed : SkillResult ProposalGenerateOutput := Eval vm_compute in
  result_or (create_candidate_proposals (demo_agent "PF-A5") demo_proposal_request (Aware 0)).
Definition demo_detected : SkillResult ConflictDetectOutput := Eval vm_compute in
  result_or (conflict_detect (demo_agent "PF-A6") demo_conflict_request (Aware 0)).
Definition demo_output {T} (d : T) (r : SkillResult T) : T := default d r.(sr_value).
Definition demo_proposals : ProposalGenerateOutput := Eval vm_compute in
  demo_output (mk_ProposalGenerateOutput []) demo_proposed.
Definition demo_conflicts : ConflictDetectOutput := Eval vm_compute in
  demo_output (mk_ConflictDetectOutput demo_conflict_report) demo_detected.
Definition demo_full_audit : DecisionAuditRequest :=
  mk_DecisionAuditRequest demo_proposals.(pgo_proposals) demo_proposal_request.(pgr_evidence)
    demo_proposal_request.(pgr_rules) demo_sheet demo_conflicts.(cdo_report)
    REQUIRED_PRE_AUDIT_EVENTS "audit-policy-v0.1".
Definition demo_audited : SkillResult DecisionAuditOutput := Eval vm_compute in
  result_or (decision_audit (demo_agent "PF-A6") demo_full_audit (Aware 0)).
Definition demo_report : DecisionAuditOutput := Eval vm_compute in
  demo_output (mk_DecisionAuditOutput (mk_AuditReport (demo_meta "" "") AuditVerdict.BLOCK [] [] [] ""))
    demo_audited.

Lemma pipeline_passes_witness : demo_report.(dao_report).(ar_verdict) = AuditVerdict.PASS.
Proof.
  apply (pipeline_passes (demo_agent "PF-A5") (demo_agent "PF-A6") demo_proposal_request
    (Aware 0) (Aware 0) (Aware 0) REQUIRED_PRE_AUDIT_EVENTS "conflict-policy-v0.1"
    "audit-policy-v0.1" demo_proposed demo_proposals demo_detected demo_conflicts demo_audited).
  - discriminate.
  - discriminate.
  - exact demo_consistent.
  - intros e He. exact He.
  - vm_compute. reflexivity.
  - reflexivity.
  - vm_compute. reflexivity.
  - reflexivity.
  - vm_compute. reflexivity.
  - reflexivity.
Defined.
