(* ===== verification/Packaging.v ===== *)
(** * skills/packaging.py: the controlled draft and its manifest *)
From S2P Require Import Prelude Json PyTime PyDecimal Canonical Platforms Models Common.
From S2P Require Import Compensation Calculation Approval AuditSkill Strategy.
Local Open Scope Z_scope.

Definition _money (value : decimal) : string := format_2f value.

(** The newline of the template *)
Definition nl : string := String (ascii_of_nat 10) "".

(** [f"{text_or_none}"] *)
Definition format_option (o : option string) : string :=
  match o with Some s => s | None => "None" end.

Definition bullet_list (items : list string) : string :=
  str_join nl (map (λ item, "- " +:+ item) items).

(** [text.rstrip()] is not modelled: the template ends in a backquote before its
    last newline, and [rstrip] removes that newline. *)
Definition _render_draft (request : DocumentPackageRequest) : result string :=
  match request.(dpr_calculation).(cs_total), request.(dpr_calculation).(cs_line_items) with
  | None, _ => Raise AssertionError
  | Some _, [] => Raise IndexError
  | Some total, item :: _ => Ok (str_join nl
      ["# ProofFlow controlled review draft";
       "";
       "Status: **SYNTHETIC / HUMAN-REVIEWED DRAFT / NOT LEGAL ADVICE**";
       "";
       "This file does not authorize sending, signing, submitting, termination, payment,";
       "or an HR-system write.";
       "";
       "## Candidate option";
       "";
       request.(dpr_proposal).(pr_summary);
       "";
       "## Deterministic reference calculation";
       "";
       "- Amount: CNY " +:+ _money total;
       "- Formula: " +:+ item.(li_formula_version);
       "- Reproducibility hash: `" +:+
         format_option request.(dpr_calculation).(cs_reproducibility_hash) +:+ "`";
       "";
       "The amount is a deterministic reference only. It does not establish eligibility";
       "or a final legal outcome.";
       "";
       "## Risks";
       "";
       bullet_list request.(dpr_proposal).(pr_risks);
       "";
       "## Uncertainties";
       "";
       bullet_list request.(dpr_proposal).(pr_uncertainties);
       "";
       "## Immutable references";
       "";
       "- Proposal: `" +:+ artifact_ref request.(dpr_proposal) +:+ "`";
       "- Calculation: `" +:+ artifact_ref request.(dpr_calculation) +:+ "`";
       "- Audit: `" +:+ artifact_ref request.(dpr_audit_report) +:+ "`";
       "- Approval: `" +:+ artifact_ref request.(dpr_approval_record) +:+ "`"])
  end.

Section packaging.
Context `{P : Platform}.

(** [condition or not artifact.verify_hash()] *)
Definition or_unsealed `{Artifact A} (condition : bool) (a : A) : result bool :=
  if condition then Ok true else v ← verify_hash a; Ok (negb v).

Definition issue_when (condition : bool) (code message : string) : list Issue :=
  if condition then [blocker code message] else [].

(** [approval_record] is not bound to [approval_request]. *)
Definition request_mismatch (record : ApprovalRecord) (areq : ApprovalRequest) : bool :=
  negb (String.eqb record.(arec_request_id) areq.(areq_request_id)) ||
  negb (String.eqb record.(arec_approver_role) areq.(areq_required_role)) ||
  negb (String.eqb record.(arec_approved_artifact_hash) areq.(areq_artifact_hash)) ||
  negb (dt_eqb record.(arec_expires_at) areq.(areq_expires_at)).

Definition package_time_issues (record : ApprovalRecord) (now : datetime) : result (list Issue) :=
  if negb (is_aware now) then
    Ok [blocker "INVALID_PACKAGE_TIME" "package generation time must be timezone-aware"]
  else
    early ← dt_ltb now record.(arec_decided_at);
    if (early : bool) then
      Ok [blocker "PACKAGE_PRECEDES_APPROVAL" "package generation cannot precede the approval decision"]
    else
      late ← dt_ltb record.(arec_expires_at) now;
      Ok (issue_when late "APPROVAL_EXPIRED" "the approval expired before package generation").

Definition package_issues (request : DocumentPackageRequest) (now : datetime) : result (list Issue) :=
  let record := request.(dpr_approval_record) in
  bad_audit ← or_unsealed (negb (bool_decide (request.(dpr_audit_report).(ar_verdict) = AuditVerdict.PASS)))
                request.(dpr_audit_report);
  bad_approval ← or_unsealed (negb (bool_decide (record.(arec_decision) = ApprovalDecision.APPROVE)))
                   record;
  time_issues ← package_time_issues record now;
  bad_calculation ← calculation_invalid request.(dpr_calculation);
  Ok (issue_when bad_audit "AUDIT_NOT_PASSABLE" "a sealed PASS audit is required" ++
      issue_when bad_approval "APPROVAL_INVALID" "a sealed APPROVE record is required" ++
      issue_when (request_mismatch record request.(dpr_approval_request))
        "APPROVAL_REQUEST_MISMATCH" "approval record is not bound to the active approval request" ++
      issue_when (negb (String.eqb request.(dpr_current_artifact_hash) record.(arec_approved_artifact_hash)))
        "ARTIFACT_HASH_MISMATCH" "the approved subject hash no longer matches" ++
      time_issues ++
      issue_when bad_calculation "CALCULATION_INVALID" "a sealed deterministic calculation is required").

Definition artifact_payload (request : DocumentPackageRequest) : pyval :=
  VDict [("proposal", to_py request.(dpr_proposal)); ("calculation", to_py request.(dpr_calculation));
         ("audit_report", to_py request.(dpr_audit_report));
         ("approval_record", to_py request.(dpr_approval_record));
         ("template", VDict [("id", to_py request.(dpr_template_id));
                             ("version", to_py request.(dpr_template_version))])].

Definition included_refs (request : DocumentPackageRequest) : list string :=
  [artifact_ref request.(dpr_proposal); artifact_ref request.(dpr_calculation);
   artifact_ref request.(dpr_audit_report); artifact_ref request.(dpr_approval_record)].

(** The draft, the JSON file and the manifest over both *)
Definition build_package (context : SkillContext) (request : DocumentPackageRequest) (now : datetime)
    : result DocumentPackageOutput :=
  draft ← _render_draft request;
  payload ← canonicalize [] (artifact_payload request);
  let artifacts_json := dumps Indent2 payload in
  f1 ← PackageFile_validate (mk_PackageFile "review-draft.md" (sha256_bytes draft));
  f2 ← PackageFile_validate (mk_PackageFile "artifacts.json" (sha256_bytes artifacts_json));
  let files := [f1; f2] in
  manifest_hash ← sha256_digest (VDict
    [("files", to_py files); ("included_refs", to_py (included_refs request));
     ("approval_hash", to_py request.(dpr_approval_record).(arec_meta).(meta_content_hash));
     ("template_id", to_py request.(dpr_template_id));
     ("template_version", to_py request.(dpr_template_version))]);
  m ← artifact_meta "package" "PF-A1" context now (VDict [("manifest_hash", to_py manifest_hash)])
        (included_refs request);
  manifest ← seal (mk_PackageManifest m (artifact_ref request.(dpr_approval_record))
    (artifact_ref request.(dpr_audit_report)) files (included_refs request) (Some manifest_hash));
  Ok (mk_DocumentPackageOutput manifest (str_strip draft) (str_strip artifacts_json)).

Definition document_package (context : SkillContext) (request : DocumentPackageRequest)
    (now : datetime) : result (SkillResult DocumentPackageOutput) :=
  unless_denied context (to_py request) "PF-A1" (
    issues ← package_issues request now;
    match issues with
    | _ :: _ => blocked (to_py request) issues
    | [] =>
        output ← build_package context request now;
        success (to_py request) output [artifact_ref output.(dpo_manifest)]
    end).

(** ** When a package is produced *)
Definition bound_to_request (record : ApprovalRecord) (areq : ApprovalRequest) : Prop :=
  record.(arec_request_id) = areq.(areq_request_id) ∧
  record.(arec_approver_role) = areq.(areq_required_role) ∧
  record.(arec_approved_artifact_hash) = areq.(areq_artifact_hash) ∧
  record.(arec_expires_at) = areq.(areq_expires_at).

Definition packable (request : DocumentPackageRequest) (now : datetime) : Prop :=
  let record := request.(dpr_approval_record) in
  request.(dpr_audit_report).(ar_verdict) = AuditVerdict.PASS ∧
  verify_hash request.(dpr_audit_report) = Ok true ∧
  record.(arec_decision) = ApprovalDecision.APPROVE ∧ verify_hash record = Ok true ∧
  bound_to_request record request.(dpr_approval_request) ∧
  request.(dpr_current_artifact_hash) = record.(arec_approved_artifact_hash) ∧
  dt_ltb now record.(arec_decided_at) = Ok false ∧
  dt_ltb record.(arec_expires_at) now = Ok false ∧
  valid_calculation request.(dpr_calculation).

Lemma issue_when_nil b code message : issue_when b code message = [] ↔ b = false.
Proof. by destruct b. Qed.

Lemma or_unsealed_total `{Artifact A} b (a : A) : wf_py (artifact_to_py a) = true →
  ∃ x, or_unsealed b a = Ok x ∧ (x = false ↔ b = false ∧ verify_hash a = Ok true).
Proof.
  intros Hw. unfold or_unsealed. destruct b.
  - exists true. split; [done|]. naive_solver.
  - destruct (verify_hash_total a Hw) as [v ->]. exists (negb v). split; [done|].
    rewrite negb_false_iff. naive_solver.
Qed.

Lemma request_mismatch_spec record areq :
  request_mismatch record areq = false ↔ bound_to_request record areq.
Proof.
  unfold request_mismatch, bound_to_request.
  rewrite !orb_false_iff, !negb_false_iff, !String.eqb_eq, dt_eqb_eq. naive_solver.
Qed.

Lemma package_time_issues_total record now :
  is_aware record.(arec_decided_at) = true → is_aware record.(arec_expires_at) = true →
  ∃ l, package_time_issues record now = Ok l ∧
    (l = [] ↔ dt_ltb now record.(arec_decided_at) = Ok false ∧
              dt_ltb record.(arec_expires_at) now = Ok false).
Proof.
  intros Hd He. unfold package_time_issues. destruct (is_aware now) eqn:Ea; cbn [negb].
  - destruct (dt_ltb_aware _ _ Ea Hd) as [early ->]. cbn [mbind result_bind].
    destruct (dt_ltb_aware _ _ He Ea) as [late ->]. destruct early; cbn [mbind result_bind].
    + eexists. split; [reflexivity|]. naive_solver.
    + eexists. split; [reflexivity|]. rewrite issue_when_nil. naive_solver.
  - eexists. split; [reflexivity|]. split; [done|]. intros [H _].
    destruct now, (arec_decided_at record); done.
Qed.

Lemma package_issues_total request now : wf_py (to_py request) = true →
  ∃ l, package_issues request now = Ok l ∧ (l = [] ↔ packable request now).
Proof.
  intros Hwf.
  assert (∀ k v, (k, v) ∈ [("calculation", to_py request.(dpr_calculation));
      ("audit_report", to_py request.(dpr_audit_report));
      ("approval_record", to_py request.(dpr_approval_record))] → wf_py v = true) as Hw.
  { intros k v Hkv. eapply (wf_dict_elem _ k); [exact Hwf|].
    elem_cases; match goal with H : _ = _ |- _ => injection H as -> -> end; repeat constructor. }
  assert (wf_py (to_py request.(dpr_approval_record)) = true) as Hrec
    by (eapply (Hw "approval_record"); repeat constructor).
  assert (∀ k v, (k, v) ∈ body request.(dpr_approval_record) → wf_py v = true) as Hb.
  { intros k v Hkv. eapply (wf_dict_elem _ k); [exact Hrec|]. by right. }
  unfold package_issues. cbv zeta.
  destruct (or_unsealed_total (negb (bool_decide (ar_verdict (dpr_audit_report request) = AuditVerdict.PASS)))
    request.(dpr_audit_report)) as (b1 & -> & H1); [eapply (Hw "audit_report"); repeat constructor|].
  cbn [mbind result_bind].
  destruct (or_unsealed_total (negb (bool_decide (arec_decision (dpr_approval_record request) = ApprovalDecision.APPROVE)))
    request.(dpr_approval_record)) as (b2 & -> & H2); [done|]. cbn [mbind result_bind].
  destruct (package_time_issues_total request.(dpr_approval_record) now) as (l3 & -> & H3).
  { assert (wf_py (to_py (arec_decided_at (dpr_approval_record request))) = true)
      by (eapply (Hb "decided_at"); repeat constructor). done. }
  { assert (wf_py (to_py (arec_expires_at (dpr_approval_record request))) = true)
      by (eapply (Hb "expires_at"); repeat constructor). done. }
  cbn [mbind result_bind].
  destruct (calculation_invalid_total request.(dpr_calculation)) as (b4 & -> & H4);
    [eapply (Hw "calculation"); repeat constructor|]. cbn [mbind result_bind].
  eexists. split; [reflexivity|]. rewrite !app_nil, !issue_when_nil, H1, H2, H3, H4.
  rewrite request_mismatch_spec, !negb_false_iff, !bool_decide_eq_true, String.eqb_eq.
  unfold packable. naive_solver.
Qed.

(** What the package contains *)
Record package_of (context : SkillContext) (request : DocumentPackageRequest) (now : datetime)
    (output : DocumentPackageOutput) : Prop := {
  po_sealed : verify_hash output.(dpo_manifest) = Ok true;
  po_draft : ∃ draft, _render_draft request = Ok draft ∧ output.(dpo_draft_markdown) = str_strip draft ∧
    mk_PackageFile "review-draft.md" (sha256_bytes draft) ∈ output.(dpo_manifest).(pm_files);
  po_json : ∃ payload, canonicalize [] (artifact_payload request) = Ok payload ∧
    output.(dpo_artifacts_json) = str_strip (dumps Indent2 payload) ∧
    mk_PackageFile "artifacts.json" (sha256_bytes (dumps Indent2 payload))
      ∈ output.(dpo_manifest).(pm_files);
  po_files : length output.(dpo_manifest).(pm_files) = 2%nat;
  po_refs : output.(dpo_manifest).(pm_included_artifact_refs) = included_refs request;
  po_approval : output.(dpo_manifest).(pm_approval_record_ref) =
    artifact_ref request.(dpr_approval_record);
  po_scope : meta_scope output.(dpo_manifest).(pm_meta) = context_scope context;
  po_time : output.(dpo_manifest).(pm_meta).(meta_created_at) = now;
}.

Lemma PackageFile_validate_Ok f g : PackageFile_validate f = Ok g → g = f.
Proof. unfold PackageFile_validate. by intros (? & _ & [= <-])%bind_Ok. Qed.

Lemma build_package_Ok context request now output :
  build_package context request now = Ok output → package_of context request now output.
Proof.
  unfold build_package. intros H.
  apply bind_Ok in H as (draft & Hd & H). apply bind_Ok in H as (payload & Hp & H).
  apply bind_Ok in H as (f1 & ->%PackageFile_validate_Ok & H).
  apply bind_Ok in H as (f2 & ->%PackageFile_validate_Ok & H).
  apply bind_Ok in H as (h & _ & H). apply bind_Ok in H as (m & (i & _ & _ & ->)%artifact_meta_Ok & H).
  apply bind_Ok in H as (manifest & Hs & [= <-]).
  pose proof (seal_verifies _ _ Hs) as Hv. apply seal_Ok in Hs as (d & _ & ->).
  split; try done.
  - exists draft. repeat split; [done|]. by left.
  - exists payload. repeat split; [done|]. by right; left.
Qed.

Lemma PackageFile_sha `{!PlatformLaws P} path b :
  PackageFile_validate (mk_PackageFile path (sha256_bytes b)) = Ok (mk_PackageFile path (sha256_bytes b)).
Proof.
  unfold PackageFile_validate. cbn [pfile_sha256]. by rewrite sha256_bytes_shape.
Qed.

Lemma build_package_total `{!PlatformLaws P} context request now :
  valid_context context → is_aware now = true → wf_py (to_py request) = true →
  request.(dpr_calculation).(cs_total) ≠ None → request.(dpr_calculation).(cs_line_items) ≠ [] →
  ∃ output, build_package context request now = Ok output ∧ wf_py (to_py output) = true.
Proof.
  intros Hc Ha Hwf Htot Hlines. unfold build_package.
  assert (∃ draft, _render_draft request = Ok draft) as [draft ->].
  { unfold _render_draft. destruct (cs_total _); [|done]. destruct (cs_line_items _); [done|].
    by eexists. }
  cbn [mbind result_bind].
  assert (wf_py (artifact_payload request) = true) as Hpw.
  { apply wf_dict; [reflexivity|]. repeat constructor; cbn [snd].
    - eapply (wf_dict_elem _ "proposal"); [exact Hwf|]. repeat constructor.
    - eapply (wf_dict_elem _ "calculation"); [exact Hwf|]. repeat constructor.
    - eapply (wf_dict_elem _ "audit_report"); [exact Hwf|]. repeat constructor.
    - eapply (wf_dict_elem _ "approval_record"); [exact Hwf|]. repeat constructor. }
  destruct (canonicalize_wf [] _ Hpw) as (payload & -> & _). cbn [mbind result_bind].
  rewrite !PackageFile_sha. cbn [mbind result_bind].
  edestruct (digest_total []) as [h Hh]; [|unfold sha256_digest; rewrite Hh]; [wf_solve|].
  cbn [mbind result_bind].
  destruct (artifact_meta_total "p" "ackage" "PF-A1" context now
    (VDict [("manifest_hash", to_py h)]) (included_refs request)) as [m Hm]; [done|done|done|wf_solve|].
  rewrite Hm. cbn [mbind result_bind]. set (manifest := mk_PackageManifest m _ _ _ _ _).
  assert (wf_artifact manifest) as Hman.
  { apply wf_artifact_spec. apply artifact_meta_Ok in Hm as (i & _ & _ & ->). split; [done|].
    apply forallb_forall, List.Forall_forall. repeat constructor; wf_solve. }
  destruct (seal_total manifest Hman) as [sm Hsm]. rewrite Hsm. eexists. split; [reflexivity|].
  apply wf_dict; [reflexivity|]. repeat constructor. by eapply (seal_wf manifest).
Qed.


(** From the human gate to the package: the record of an accepted APPROVE
    decision can be packaged with a verifying PASS audit and a valid calculation at
    any time from the decision to the expiry of the request. *)
Lemma approved_is_packable (context : SkillContext) (areq : ApprovalExecuteRequest)
    (decision : HumanDecision) (t now : datetime) (r : SkillResult ApprovalExecuteOutput)
    (o : ApprovalExecuteOutput) (proposal : Proposal) (calculation : CalculationSheet)
    (report : AuditReport) (template version : string) :
  valid_request areq.(aer_approval_request) → valid_decision decision →
  human_approval context areq decision t = Ok r → r.(sr_value) = Some o →
  decision.(hd_decision) = ApprovalDecision.APPROVE →
  report.(ar_verdict) = AuditVerdict.PASS → verify_hash report = Ok true →
  valid_calculation calculation → dt_ltb now t = Ok false →
  dt_ltb areq.(aer_approval_request).(areq_expires_at) now = Ok false →
  packable (mk_DocumentPackageRequest proposal calculation report areq.(aer_approval_request)
    o.(aeo_record) areq.(aer_current_artifact_hash) template version) now.
Proof.
  intros Hr Hd H Ho Hdec Hpass Hrep Hcal Ht He. unfold human_approval in H.
  apply unless_denied_Ok in H as [[_ H]|(_ & _ & ? & _)]; [|congruence].
  destruct (approval_issues_spec context areq decision t Hr Hd) as (l & Hl & Hacc). rewrite Hl in H.
  cbn [mbind result_bind] in H. destruct l as [|i l]; [|apply blocked_Ok in H as (_ & ? & _); congruence].
  apply bind_Ok in H as (record & Hrec & H). apply success_Ok in H as (_ & Hv & _).
  assert (o = mk_ApprovalExecuteOutput record) as -> by congruence.
  assert (acceptable context areq decision t) as Ha by by apply Hacc.
  pose proof (approval_record_bound _ _ _ _ _ Ha Hrec) as [B1 B2 B3 B4 B5 B6 B7].
  destruct Ha as (_ & Hrole & _ & _ & Hcur). injection B6 as E1 E2 E3 E4 E5.
  unfold packable, bound_to_request. cbn. rewrite E1, E3, E5, B4, B5, B7.
  repeat (split; [congruence|]). done.
Qed.
End packaging.

(** ** A concrete package *)
#[local] Existing Instance toy_platform.

Definition demo_proposal : Proposal := Eval vm_compute in
  match demo_proposals.(pgo_proposals) with
  | p :: _ => p
  | [] => mk_Proposal (demo_meta "" "") "" "" [] [] [] None [] []
  end.
Definition demo_package_request : DocumentPackageRequest :=
  mk_DocumentPackageRequest demo_proposal demo_sheet demo_report.(dao_report) demo_approval_request
    demo_record demo_subject "controlled-review-draft" "0.1.0".


Definition demo_approved : SkillResult ApprovalExecuteOutput := Eval vm_compute in
  result_or (human_approval demo_approver
    (mk_ApprovalExecuteRequest demo_approval_request demo_subject) demo_decision (Aware 5000000)).

Lemma approved_is_packable_witness : packable demo_package_request (Aware 6000000).
Proof.
  apply (approved_is_packable demo_approver (mk_ApprovalExecuteRequest demo_approval_request demo_subject)
    demo_decision (Aware 5000000) (Aware 6000000) demo_approved (mk_ApprovalExecuteOutput demo_record)).
  - vm_compute. reflexivity.
  - reflexivity.
  - vm_compute. reflexivity.
  - reflexivity.
  - reflexivity.
  - reflexivity.
  - vm_compute. reflexivity.
  - split; [discriminate|vm_compute; reflexivity].
  - reflexivity.
  - reflexivity.
Defined.
