(* ===== verification/Evidence.v ===== *)
(** * skills/evidence.py: ingestion and timeline

    The source bytes are a [string].  Inputs whose treatment by [json.loads] is
    not modelled raise [Unmodelled]: UTF-16/32 and BOM-marked documents, lone
    surrogates, digit runs beyond CPython's limit for [int], and the text of floats. *)
From S2P Require Import Prelude Json Dicts PyTime PyDecimal Canonical Platforms Models Common.
From S2P Require Import TrustedStore Rules Compensation Calculation.
Local Open Scope Z_scope.

Definition ALLOWED_MEDIA_TYPES : list string := ["application/json"; "text/plain"].
(** The frozenset, in sorted order *)
Definition EXTRACTABLE_FIELDS : list string :=
  ["advance_notice_days"; "article_40_eligibility_verified"; "candidate_basis"; "contract_type";
   "currency"; "employee_ref"; "employer_ref"; "employment_start_date";
   "local_previous_year_monthly_average_wage"; "monthly_wage_average"; "planned_termination_date";
   "wage_months_observed"; "work_location"].

(** ** Decoding *)
Definition cont (c : ascii) : bool := in_range 128 191 c.

(** UTF-8: shortest forms, at most U+10FFFF, surrogates only if [lone] *)
Fixpoint utf8_valid (lone : bool) (fuel : nat) (s : string) : bool :=
  match fuel with
  | O => false
  | S k =>
    match s with
    | EmptyString => true
    | String a r =>
      if in_range 0 127 a then utf8_valid lone k r
      else if in_range 194 223 a then
        match r with String b r => cont b && utf8_valid lone k r | _ => false end
      else if in_range 224 239 a then
        match r with
        | String b (String c r) =>
            (if Ascii.eqb a (ascii_of_nat 224) then in_range 160 191 b
             else if Ascii.eqb a (ascii_of_nat 237) && negb lone then in_range 128 159 b else cont b) &&
            cont c && utf8_valid lone k r
        | _ => false
        end
      else if in_range 240 244 a then
        match r with
        | String b (String c (String d r)) =>
            (if Ascii.eqb a (ascii_of_nat 240) then in_range 144 191 b
             else if Ascii.eqb a (ascii_of_nat 244) then in_range 128 143 b else cont b) &&
            cont c && cont d && utf8_valid lone k r
        | _ => false
        end
      else false
    end
  end.
Definition is_utf8 (lone : bool) (s : string) : bool := utf8_valid lone (S (String.length s)) s.

(** [raw.decode("utf-8")] *)
Definition decode_utf8 (raw : string) : result string :=
  _ ← require (is_utf8 false raw) (ValueError "utf-8"); Ok raw.

(** [json.loads] guesses another encoding from a BOM or from NUL bytes. *)
Definition other_encoding (raw : string) : bool :=
  negb (string_all (λ c, negb (Ascii.eqb c (ascii_of_nat 0))) (str_take 4 raw) &&
        negb (in_range 254 255 (match raw with String c _ => c | _ => "a" end)) &&
        negb (starts_with (String (ascii_of_nat 239) (String (ascii_of_nat 187)
                (String (ascii_of_nat 191) ""))) raw)).

(** The longest run of digits *)
Fixpoint digit_run (best run : nat) (s : string) : nat :=
  match s with
  | EmptyString => Nat.max best run
  | String c s => if is_digit c then digit_run best (S run) s else digit_run (Nat.max best run) 0 s
  end.

(** [json.loads(raw)] *)
Definition json_loads (raw : string) : result json :=
  if other_encoding raw then Raise (Unmodelled "encoding")
  else if (4300 <? digit_run 0 0 raw)%nat then Raise (Unmodelled "int digits")
  else if is_utf8 false raw then loads raw
  else if is_utf8 true raw then Raise (Unmodelled "lone surrogate")
  else Raise (ValueError "utf-8").

(** ** Values *)
Fixpoint has_float (j : json) : bool :=
  match j with
  | JFloat _ => true
  | JArr l => existsb has_float l
  | JObj l => existsb (λ kv, has_float (snd kv)) l
  | _ => false
  end.

(** [str(True)] is not reached: a bool is tested first. *)
Definition _normalized (value : json) : result string :=
  match value with
  | JBool b => Ok (if b then "true" else "false")
  | JArr _ | JObj _ =>
      if has_float value then Raise (Unmodelled "float text") else Ok (dumps Compact value)
  | JNull => Ok "None"
  | JInt z => Ok (z_text z)
  | JStr s => Ok s
  | JFloat _ => Raise (Unmodelled "float text")
  end.

Section evidence.
Context `{P : Platform}.

(** The [try] block: the parsed document as a dict *)
Definition parse_document (request : EvidenceIngestRequest) : result (list (string * json)) :=
  let raw := request.(eir_raw_content).(bytes_of) in
  if String.eqb request.(eir_media_type) "application/json" then
    parsed ← json_loads raw;
    match parsed with
    | JObj items => Ok items
    | _ => Raise (ValueError "top-level JSON must be an object")
    end
  else
    text ← decode_utf8 raw; Ok [("text_content", JStr text)].

Definition evidence_item (context : SkillContext) (request : EvidenceIngestRequest) (now : datetime)
    (field : string * json) : result EvidenceObject :=
  let '(field_name, value) := field in
  normalized ← _normalized value;
  m ← artifact_meta "evidence" "PF-A2" context now
    (VDict [("document_id", to_py request.(eir_document_id)); ("field_name", to_py field_name);
            ("value", to_py (normalized : string))])
    ["SourceDocument:" +:+ request.(eir_document_id)];
  item ← EvidenceObject_validate
    (mk_EvidenceObject m "structured_field" field_name (str_strip normalized)
      (str_strip (field_name +:+ "=" +:+ normalized)) request.(eir_document_id) FactStatus.VERIFIED
      (dec_of_Z 1));
  seal item.

(** [(field, parsed[field]) for field in sorted(EXTRACTABLE_FIELDS.intersection(parsed))] *)
Definition extracted (parsed : list (string * json)) : list (string * json) :=
  omap (λ f, v ← assoc f parsed; Some (f, v)) EXTRACTABLE_FIELDS.

Definition evidence_ingest (context : SkillContext) (request : EvidenceIngestRequest)
    (now : datetime) : result (SkillResult EvidenceIngestOutput) :=
  unless_denied context (to_py request) "PF-A2" (
    if negb (bool_decide (request.(eir_media_type) ∈ ALLOWED_MEDIA_TYPES)) then
      blocked (to_py request) [human_blocker "UNSUPPORTED_FILE"
        (str_strip ("unsupported media type: " +:+ request.(eir_media_type)))]
    else
    let actual_hash := sha256_bytes request.(eir_raw_content).(bytes_of) in
    if negb (String.eqb actual_hash request.(eir_declared_sha256)) then
      blocked (to_py request) [blocker "SOURCE_HASH_MISMATCH"
        "declared source hash does not match the received bytes"]
    else
    match parse_document request with
    | Raise e =>
        if is_value_error e then
          blocked (to_py request) [human_blocker "PARSE_FAILED" (str_strip (exc_text e))]
        else Raise e
    | Ok parsed =>
        evidence ← mapR (evidence_item context request now) (extracted parsed);
        let ignored := isort String.leb (filter (λ k, k ∉ EXTRACTABLE_FIELDS) (dedup (map fst parsed))) in
        success (to_py request) (mk_EvidenceIngestOutput evidence actual_hash (map str_strip ignored))
          (map artifact_ref evidence)
    end).

(** ** timeline_build *)
Definition timeline_fields : list (string * string) :=
  [("employment_start_date", "Synthetic employment start");
   ("planned_termination_date", "Synthetic planned termination")].

Definition timeline_event (context : SkillContext) (now : datetime) (item : EvidenceObject)
    (description : string) (occurred : date) : result TimelineEvent :=
  m ← artifact_meta "timeline" "PF-A2" context now
    (VDict [("field", to_py item.(ev_field_name)); ("date", to_py item.(ev_normalized_value));
            ("source", to_py (artifact_ref item))]) [artifact_ref item];
  event ← TimelineEvent_validate
    (mk_TimelineEvent m (Some occurred) (Some occurred) description item.(ev_fact_status) None);
  seal event.

(** One turn of the loop: (events, unresolved) *)
Definition timeline_step (context : SkillContext) (now : datetime)
    (acc : list TimelineEvent * list string) (item : EvidenceObject)
    : result (list TimelineEvent * list string) :=
  match assoc item.(ev_field_name) timeline_fields with
  | None => Ok acc
  | Some description =>
      match date_fromisoformat item.(ev_normalized_value) with
      | Ok occurred => e ← timeline_event context now item description occurred; Ok (fst acc ++ [e], snd acc)
      | Raise e =>
          if is_value_error e then Ok (fst acc, snd acc ++ ["invalid date in " +:+ artifact_ref item])
          else Raise e
      end
  end.

Definition timeline_build (context : SkillContext) (request : TimelineBuildRequest)
    (now : datetime) : result (SkillResult TimelineBuildOutput) :=
  unless_denied context (to_py request) "PF-A2" (
    '(events, unresolved) ← foldR (timeline_step context now) ([], []) request.(tbr_evidence);
    let output := mk_TimelineBuildOutput events unresolved in
    input_hash ← sha256_digest (to_py request);
    output_hash ← sha256_digest (to_py output);
    Ok (mk_SkillResult
      (match unresolved with [] => SkillStatus.SUCCESS | _ => SkillStatus.NEEDS_HUMAN end)
      (Some output)
      (map (λ message, issue "AMBIGUOUS_DATE" "WARNING" message [] true) unresolved)
      input_hash (Some output_hash) (map artifact_ref events))).

(** ** What ingestion extracts *)
Lemma extracted_spec parsed f v :
  (f, v) ∈ extracted parsed ↔ f ∈ EXTRACTABLE_FIELDS ∧ assoc f parsed = Some v.
Proof.
  unfold extracted. rewrite list_elem_of_omap. split.
  - intros (g & Hg & H). destruct (assoc g parsed) eqn:E; [|done].
    unfold mbind, option_bind in H. by injection H as <- <-.
  - intros [Hf Ha]. exists f. by rewrite Ha.
Qed.

Lemma extracted_keys parsed : NoDup (map fst (extracted parsed)).
Proof.
  assert (∀ l, NoDup l → NoDup (map fst (omap (λ f, v ← assoc f parsed; Some (f, v)) l)) ∧
    ∀ f, f ∈ map fst (omap (λ f, v ← assoc f parsed; Some (f, v)) l) → f ∈ l) as H.
  { induction 1 as [|x l Hx _ [IH1 IH2]]; [split; [constructor|done]|]. simpl.
    destruct (assoc x parsed); simpl; split; try done.
    - constructor; [|done]. intros ?%IH2. done.
    - intros f [->|?%IH2]%elem_of_cons; [by left|by right].
    - intros f ?%IH2. by right. }
  apply H. apply (bool_decide_eq_true _). vm_compute. reflexivity.
Qed.

(** The Evidence object of one field *)
Record evidence_of (context : SkillContext) (request : EvidenceIngestRequest) (now : datetime)
    (field : string * json) (e : EvidenceObject) : Prop := {
  eo_sealed : verify_hash e = Ok true;
  eo_field : e.(ev_field_name) = fst field;
  eo_value : ∃ n, _normalized (snd field) = Ok n ∧ e.(ev_normalized_value) = str_strip n;
  eo_source : e.(ev_source_document_id) = request.(eir_document_id) ∧
    e.(ev_meta).(meta_source_refs) = ["SourceDocument:" +:+ request.(eir_document_id)];
  eo_status : e.(ev_fact_status) = FactStatus.VERIFIED;
  eo_producer : e.(ev_meta).(meta_producer_identity) = "PF-A2" ∧
    e.(ev_meta).(meta_classification) = DataClassification.PUBLIC_SYNTHETIC;
  eo_scope : meta_scope e.(ev_meta) = context_scope context;
  eo_wf : wf_artifact e;
}.

Lemma evidence_item_Ok context request now field e :
  evidence_item context request now field = Ok e → evidence_of context request now field e.
Proof.
  destruct field as [f v]. unfold evidence_item. intros H.
  apply bind_Ok in H as (n & Hn & H).
  apply bind_Ok in H as (m & (i & _ & Ha & ->)%artifact_meta_Ok & H).
  apply bind_Ok in H as (item & Hi & H). unfold EvidenceObject_validate in Hi.
  apply bind_Ok in Hi as (? & _ & [= <-]).
  assert (wf_artifact e).
  { eapply seal_wf; [exact H|]. apply wf_artifact_spec. done. }
  pose proof (seal_verifies _ _ H) as Hv. apply seal_Ok in H as (d & _ & ->).
  split; try done. by exists n.
Qed.

Lemma evidence_item_total context request now field :
  valid_context context → is_aware now = true →
  (∃ e, evidence_item context request now field = Ok e) ∨
  (∃ e, _normalized (snd field) = Raise e ∧ evidence_item context request now field = Raise e).
Proof.
  destruct field as [f v]. intros Hc Ha. unfold evidence_item. cbn [snd].
  destruct (_normalized v) as [n|e]; [left|right; by exists e]. cbn [mbind result_bind].
  edestruct (artifact_meta_total "e" "vidence" "PF-A2" context now) as [m Hm];
    [done|done|done| |rewrite Hm]; [wf_solve|]. cbn [mbind result_bind].
  unfold EvidenceObject_validate. cbn [ev_confidence]. cbn [mbind result_bind require is_finite].
  edestruct (seal_total (A:=EvidenceObject)) as [e He]; [|by exists e; exact He].
  apply artifact_meta_Ok in Hm as (i & _ & _ & ->). by apply wf_artifact_spec.
Qed.

Lemma evidence_items_total context request now fields :
  valid_context context → is_aware now = true →
  (∃ es, mapR (evidence_item context request now) fields = Ok es) ∨
  (∃ field e, field ∈ fields ∧ _normalized (snd field) = Raise e ∧
    mapR (evidence_item context request now) fields = Raise e).
Proof.
  intros Hc Ha. induction fields as [|x l IH]; [left; by eexists|]. simpl.
  destruct (evidence_item_total context request now x Hc Ha) as [[y ->]|(e & Hn & ->)].
  - destruct IH as [[ys ->]|(f & e & Hf & Hn & ->)]; [left; by eexists|].
    right. exists f, e. split; [by right|]. done.
  - right. exists x, e. split; [by left|]. done.
Qed.

(** Ingested evidence passes the registry's admission check. *)
Lemma evidence_of_registrable context request now field e :
  evidence_of context request now field e → ∃ k p, registrable e k p.
Proof.
  intros [Hv _ _ _ Hs [Hp Hc] _ Hw].
  pose proof Hv as (h & Hh & _)%verify_hash_true.
  assert (∃ p, canonical_json [] (to_py e) = Ok p) as [p Hcj].
  { destruct (canonicalize_wf [] (to_py e) Hw) as (j & Hj & _). eexists. unfold canonical_json.
    apply bind_Ok. by exists j. }
  change (meta e) with (ev_meta e) in Hh. unfold registrable, _key_from_artifact. rewrite Hh.
  by exists (e.(ev_meta).(meta_tenant_id), e.(ev_meta).(meta_case_id), e.(ev_meta).(meta_trace_id),
    e.(ev_meta).(meta_artifact_id), h), p.
Qed.

Lemma evidence_of_consistent context request now fields es :
  NoDup (map fst fields) → Forall2 (evidence_of context request now) fields es → consistent es.
Proof.
  intros Hnd HF e e' He He' Hf.
  destruct (Forall2_in_r _ _ _ _ HF He) as ([f v] & Hx & [_ H1 (n & Hn & ->) _ _ _ _ _]).
  destruct (Forall2_in_r _ _ _ _ HF He') as ([f' v'] & Hx' & [_ H1' (n' & Hn' & ->) _ _ _ _ _]).
  simpl in *. assert (f = f') as -> by congruence.
  assert (v = v') as <-; [|by rewrite Hn in Hn'; injection Hn' as ->].
  clear -Hnd Hx Hx'. induction fields as [|[g w] l IH]; [by apply not_elem_of_nil in Hx|].
  apply NoDup_cons in Hnd as [Hg Hnd].
  assert (∀ u, (g, u) ∈ l → False) as Hno.
  { intros u Hu. apply Hg, list_elem_of_In, in_map_iff. exists (g, u). split; [done|].
    by apply list_elem_of_In. }
  apply elem_of_cons in Hx as [Hx|Hx]; apply elem_of_cons in Hx' as [Hx'|Hx'];
    [congruence|injection Hx as <- <-|injection Hx' as <- <-|by apply IH];
    by destruct (Hno _ ltac:(eassumption)).
Qed.

(** [_normalized] raises only where it is not modelled. *)
Lemma normalized_raise v e : _normalized v = Raise e → e = Unmodelled "float text".
Proof. destruct v; simpl; try done; try (destruct (existsb _ _)); naive_solver. Qed.

(** ** The outcome of an ingestion *)
Definition refused {T} (code : string) (r : SkillResult T) : Prop :=
  r.(sr_status) = SkillStatus.BLOCKED ∧ r.(sr_value) = None ∧ iss_code <$> r.(sr_issues) = [code].

Inductive ingested (context : SkillContext) (request : EvidenceIngestRequest) (now : datetime) :
    result (SkillResult EvidenceIngestOutput) → Prop :=
| ing_media r : request.(eir_media_type) ∉ ALLOWED_MEDIA_TYPES →
    refused "UNSUPPORTED_FILE" r → ingested context request now (Ok r)
| ing_hash r : request.(eir_media_type) ∈ ALLOWED_MEDIA_TYPES →
    sha256_bytes request.(eir_raw_content).(bytes_of) ≠ request.(eir_declared_sha256) →
    refused "SOURCE_HASH_MISMATCH" r → ingested context request now (Ok r)
| ing_parse e r : sha256_bytes request.(eir_raw_content).(bytes_of) = request.(eir_declared_sha256) →
    parse_document request = Raise e → is_value_error e = true →
    refused "PARSE_FAILED" r → ingested context request now (Ok r)
| ing_ok parsed out r : request.(eir_media_type) ∈ ALLOWED_MEDIA_TYPES →
    sha256_bytes request.(eir_raw_content).(bytes_of) = request.(eir_declared_sha256) →
    parse_document request = Ok parsed →
    r.(sr_status) = SkillStatus.SUCCESS → r.(sr_value) = Some out →
    Forall2 (evidence_of context request now) (extracted parsed) out.(eio_evidence_objects) →
    consistent out.(eio_evidence_objects) →
    out.(eio_source_hash) = request.(eir_declared_sha256) →
    (∀ f, f ∈ map fst parsed → f ∉ EXTRACTABLE_FIELDS → str_strip f ∈ out.(eio_ignored_fields)) →
    ingested context request now (Ok r)
| ing_raise e : is_value_error e = false → (∃ m, e = Unmodelled m) ∨ parse_document request = Raise e →
    ingested context request now (Raise e).

Lemma blocked_refused {T} (request : pyval) (i : Issue) :
  wf_py request = true → ∃ r : SkillResult T, blocked request [i] = Ok r ∧ refused i.(iss_code) r.
Proof.
  intros Hw. destruct (blocked_total (T:=T) request [i] Hw) as [r Hr]. exists r. split; [done|].
  unfold refused. by apply blocked_Ok in Hr as (-> & -> & ->).
Qed.

Lemma wf_evidence_list (es : list EvidenceObject) : Forall wf_artifact es → wf_py (to_py es) = true.
Proof. intros H. by apply wf_list. Qed.

Lemma evidence_ingest_ingested context request now :
  context.(ctx_caller_identity) = "PF-A2" → valid_context context → is_aware now = true →
  ingested context request now (evidence_ingest context request now).
Proof.
  intros Hid Hc Ha. unfold evidence_ingest. rewrite unless_denied_pass by done.
  assert (wf_py (to_py request) = true) as Hw by reflexivity.
  cbv zeta. case_bool_decide as Hm; cbn [negb].
  2: { edestruct (blocked_refused (T:=EvidenceIngestOutput) (to_py request)) as (r & -> & Hr); [done|].
       by constructor. }
  destruct (String.eqb_spec (sha256_bytes request.(eir_raw_content).(bytes_of))
    request.(eir_declared_sha256)) as [Hh|Hh]; cbn [negb].
  2: { edestruct (blocked_refused (T:=EvidenceIngestOutput) (to_py request)) as (r & -> & Hr); [done|].
       by apply ing_hash. }
  destruct (parse_document request) as [parsed|e] eqn:Ep.
  2: { destruct (is_value_error e) eqn:Ev; [|apply ing_raise; auto].
       edestruct (blocked_refused (T:=EvidenceIngestOutput) (to_py request)) as (r & -> & Hr); [done|].
       by eapply ing_parse. }
  destruct (evidence_items_total context request now (extracted parsed) Hc Ha)
    as [[es Hes]|(f & e & _ & Hn & He)].
  2: { rewrite He. cbn [mbind result_bind]. apply normalized_raise in Hn as ->.
       apply ing_raise; [done|]. left. by eexists. }
  rewrite Hes. cbn [mbind result_bind]. cbv zeta. rewrite mapR_Forall2 in Hes.
  assert (Forall2 (evidence_of context request now) (extracted parsed) es) as HF
    by (eapply Forall2_impl; [exact Hes|]; intros; by apply evidence_item_Ok).
  set (out := mk_EvidenceIngestOutput _ _ _).
  destruct (success_total (to_py request) out (map artifact_ref es)) as [r Hr]; [done| |].
  { apply wf_dict; [reflexivity|]. repeat constructor; cbn [snd]; [|by apply wf_strings].
    apply wf_evidence_list. apply Forall_forall. intros e He.
    destruct (Forall2_in_r _ _ _ _ HF He) as (x & _ & Hx). apply Hx. }
  rewrite Hr. apply success_Ok in Hr as (Hs & Hv & _).
  eapply ing_ok; try done; [by eapply evidence_of_consistent; [apply extracted_keys|]|].
  intros f Hf Hx. apply list_elem_of_In, in_map_iff. exists f. split; [done|].
  apply list_elem_of_In, elem_of_isort, list_elem_of_filter. by rewrite elem_of_dedup.
Qed.

(** ** What the timeline contains *)
Definition dated (e : EvidenceObject) : option string := assoc e.(ev_field_name) timeline_fields.
Definition event_date (e : EvidenceObject) : option (EvidenceObject * string * date) :=
  description ← dated e;
  match date_fromisoformat e.(ev_normalized_value) with
  | Ok d => Some (e, description, d) | Raise _ => None end.
Definition undatable (e : EvidenceObject) : bool :=
  bool_decide (is_Some (dated e)) && negb (is_ok (date_fromisoformat e.(ev_normalized_value))).
Definition unresolved_text (e : EvidenceObject) : string := "invalid date in " +:+ artifact_ref e.

(** The event of an Evidence object with its description and date *)
Record event_of (context : SkillContext) (x : EvidenceObject * string * date) (t : TimelineEvent) : Prop := {
  tv_sealed : verify_hash t = Ok true;
  tv_day : t.(tl_occurred_from) = Some (snd x) ∧ t.(tl_occurred_to) = Some (snd x);
  tv_description : t.(tl_description) = snd (fst x);
  tv_status : t.(tl_fact_status) = (fst (fst x)).(ev_fact_status);
  tv_source : t.(tl_meta).(meta_source_refs) = [artifact_ref (fst (fst x))];
  tv_scope : meta_scope t.(tl_meta) = context_scope context;
  tv_wf : wf_artifact t;
}.

Lemma timeline_event_total context now e description d :
  valid_context context → is_aware now = true →
  ∃ t, timeline_event context now e description d = Ok t ∧ event_of context (e, description, d) t.
Proof.
  intros Hc Ha. unfold timeline_event.
  edestruct (artifact_meta_total "t" "imeline" "PF-A2" context now) as [m Hm];
    [done|done|done| |rewrite Hm]; [wf_solve|]. cbn [mbind result_bind].
  apply artifact_meta_Ok in Hm as (i & _ & _ & ->).
  unfold TimelineEvent_validate. simpl. rewrite date_ltb_irrefl. simpl.
  set (t := mk_TimelineEvent _ _ _ _ _ _).
  assert (wf_artifact t) as Hw by (apply wf_artifact_spec; done).
  destruct (seal_total t Hw) as [u Hu]. rewrite Hu. exists u. split; [done|].
  pose proof (seal_verifies _ _ Hu) as Hv. pose proof (seal_wf _ _ Hu Hw).
  apply seal_Ok in Hu as (h & _ & ->). by split.
Qed.

(** One step appends an event, appends a text, or does nothing. *)
Lemma timeline_step_spec context now events unresolved e :
  valid_context context → is_aware now = true →
  match event_date e with
  | Some x => ∃ t, timeline_step context now (events, unresolved) e = Ok (events ++ [t], unresolved) ∧
      event_of context x t ∧ undatable e = false
  | None => timeline_step context now (events, unresolved) e =
      Ok (events, unresolved ++ (if undatable e then [unresolved_text e] else []))
  end.
Proof.
  intros Hc Ha. unfold timeline_step, event_date, undatable, dated.
  destruct (assoc (ev_field_name e) timeline_fields) as [description|]; simpl; [|by rewrite app_nil_r].
  destruct (date_fromisoformat (ev_normalized_value e)) as [d|x] eqn:Ed; simpl.
  - destruct (timeline_event_total context now e description d Hc Ha) as (t & -> & Ht). by exists t.
  - by rewrite (date_fromisoformat_raise _ _ Ed).
Qed.

Lemma timeline_loop context now l events unresolved :
  valid_context context → is_aware now = true →
  ∃ new, foldR (timeline_step context now) (events, unresolved) l =
      Ok (events ++ new, unresolved ++ map unresolved_text (filter undatable l)) ∧
    Forall2 (event_of context) (omap event_date l) new.
Proof.
  intros Hc Ha. revert events unresolved. induction l as [|e l IH]; intros events unresolved.
  - exists []. simpl. by rewrite !app_nil_r.
  - cbn [foldR omap list_omap]. rewrite filter_cons.
    pose proof (timeline_step_spec context now events unresolved e Hc Ha) as Hs.
    destruct (event_date e) as [x|].
    + destruct Hs as (t & -> & Ht & ->). cbn [mbind result_bind].
      destruct (IH (events ++ [t]) unresolved) as (new & -> & HF). exists (t :: new).
      rewrite <- app_assoc. split; [done|]. by constructor.
    + rewrite Hs. cbn [mbind result_bind].
      destruct (IH events (unresolved ++ (if undatable e then [unresolved_text e] else [])))
        as (new & -> & HF). exists new. split; [|done]. do 2 f_equal. rewrite <- app_assoc. f_equal.
      by destruct (undatable e).
Qed.

Lemma undatable_none l : filter undatable l = [] ↔
  ∀ e, e ∈ l → is_Some (dated e) → is_Some (event_date e).
Proof.
  assert (∀ e, undatable e = true ↔ is_Some (dated e) ∧ ¬ is_Some (event_date e)) as He.
  { intros e. unfold undatable, event_date. rewrite andb_true_iff, bool_decide_eq_true.
    destruct (dated e) as [x|]; simpl; [|split; [by intros [[? ?] _]|by intros [[? ?] _]]].
    destruct (date_fromisoformat _); simpl; rewrite <- not_eq_None_Some; naive_solver. }
  split.
  - intros Hl e Hin Hd. destruct (event_date e) eqn:E; [by eexists|].
    assert (e ∈ filter undatable l) as Hf; [|rewrite Hl in Hf; by apply not_elem_of_nil in Hf].
    apply list_elem_of_filter. split; [|done]. apply Is_true_true, He. split; [done|].
    rewrite E. by intros [? ?].
  - intros Hl. destruct (filter undatable l) as [|e k] eqn:E; [done|].
    assert (e ∈ filter undatable l) as [Hu Hin]%list_elem_of_filter by (rewrite E; by left).
    apply Is_true_true, He in Hu as [Hd Hn]. by destruct Hn; apply Hl.
Qed.


(** The trust chain: what a successful ingestion returns can be registered, and once
    it is registered the calculation of the same tenant, case and trace trusts all of it. *)
Lemma ingested_is_trusted (context : SkillContext) (request : EvidenceIngestRequest)
    (now : datetime) (r : SkillResult EvidenceIngestOutput) (out : EvidenceIngestOutput)
    (s s' : TrustedArtifactStore) (u : result unit) (calculator : SkillContext) :
  valid_context context → is_aware now = true →
  evidence_ingest context request now = Ok r → r.(sr_value) = Some out →
  context_scope calculator = context_scope context →
  register_all s out.(eio_evidence_objects) = (s', u) →
  (∀ e, e ∈ out.(eio_evidence_objects) → ∃ k p, registrable e k p) ∧
  (u = Ok () → Forall (trusted_evidence calculator s') out.(eio_evidence_objects)).
Proof.
  intros Hc Ha Hr Hv Hs Hreg.
  assert (context.(ctx_caller_identity) = "PF-A2") as Hid.
  { unfold evidence_ingest in Hr. apply unless_denied_Ok in Hr as [[? _]|(_ & _ & ? & _)]; [done|congruence]. }
  pose proof (evidence_ingest_ingested context request now Hid Hc Ha) as Hi. rewrite Hr in Hi.
  assert (∃ parsed, Forall2 (evidence_of context request now) (extracted parsed)
    out.(eio_evidence_objects)) as [parsed HF].
  { inversion Hi as [? _ (_ & ? & _)|? _ _ (_ & ? & _)|? ? _ _ _ (_ & ? & _)|parsed ? ? _ _ _ _ Ho HF|];
      subst; try congruence. exists parsed. congruence. }
  split.
  - intros e (x & _ & Hx)%(Forall2_in_r _ _ _ _ HF). by eapply evidence_of_registrable.
  - intros ->. apply Forall_forall. intros e He.
    destruct (Forall2_in_r _ _ _ _ HF He) as (x & _ & [H1 _ _ _ H5 [H6 H6'] H7 _]).
    split; [done|]. split; [done|]. split; [done|]. split; [by rewrite Hs|]. split; [done|].
    eapply registered_contains; [exact Hreg|done|by rewrite Hs, H7].
Qed.

(** The timeline of a request: one sealed event, on the parsed day and with the
    source reference, for each Evidence object of a date field whose value parses, in
    order; one unresolved item for each that does not, and human review is requested
    exactly when there is such an item. *)
Lemma timeline_build_correct (context : SkillContext) (request : TimelineBuildRequest)
    (now : datetime) :
  context.(ctx_caller_identity) = "PF-A2" → valid_context context → is_aware now = true →
  wf_py (to_py request) = true →
  ∃ r out, timeline_build context request now = Ok r ∧ r.(sr_value) = Some out ∧
    Forall2 (event_of context) (omap event_date request.(tbr_evidence)) out.(tbo_events) ∧
    out.(tbo_unresolved_items) = map unresolved_text (filter undatable request.(tbr_evidence)) ∧
    (r.(sr_status) = SkillStatus.SUCCESS ↔
      ∀ e, e ∈ request.(tbr_evidence) → is_Some (dated e) → is_Some (event_date e)) ∧
    (r.(sr_status) = SkillStatus.SUCCESS ∨ r.(sr_status) = SkillStatus.NEEDS_HUMAN).
Proof.
  intros Hid Hc Ha Hw. unfold timeline_build. rewrite unless_denied_pass by done.
  destruct (timeline_loop context now request.(tbr_evidence) [] [] Hc Ha) as (events & Hl & HF).
  rewrite Hl. cbn [mbind result_bind]. cbv zeta. rewrite !app_nil_l.
  set (unresolved := map _ _). set (out := mk_TimelineBuildOutput _ _).
  destruct (digest_total [] _ Hw) as [i Hi]. unfold sha256_digest. rewrite Hi. cbn [mbind result_bind].
  assert (wf_py (to_py out) = true) as Ho.
  { apply wf_dict; [reflexivity|]. repeat constructor; cbn [snd]; [|by apply wf_strings].
    apply wf_list, Forall_forall. intros t (x & _ & Hx)%(Forall2_in_r _ _ _ _ HF). apply Hx. }
  destruct (digest_total [] _ Ho) as [o Hod]. rewrite Hod. cbn [mbind result_bind].
  eexists _, out. split; [reflexivity|]. split; [done|]. split; [done|]. split; [done|].
  cbn [sr_status]. split; [|destruct unresolved; auto].
  rewrite <- undatable_none. fold unresolved. subst unresolved.
  by destruct (filter undatable _).
Qed.
End evidence.

(** ** A concrete ingestion *)
#[local] Existing Instance toy_platform.

Definition demo_document : string := dumps Compact (JObj
  [("employment_start_date", JStr "2020-01-15"); ("monthly_wage_average", JInt 12000);
   ("note", JBool true); ("planned_termination_date", JStr "soon")]).
Definition demo_ingest : EvidenceIngestRequest :=
  mk_EvidenceIngestRequest "DOC-1" "application/json" (sha256_bytes demo_document)
    (mk_bytes demo_document).
Definition demo_ingested : SkillResult EvidenceIngestOutput := Eval vm_compute in
  match evidence_ingest (demo_agent "PF-A2") demo_ingest (Aware 0) with
  | Ok r => r | Raise _ => mk_SkillResult SkillStatus.BLOCKED None [] "" None [] end.
Definition demo_ingested_output : EvidenceIngestOutput := Eval vm_compute in
  default (mk_EvidenceIngestOutput [] "" []) demo_ingested.(sr_value).


Lemma ingested_is_trusted_witness :
  Forall (trusted_evidence (demo_agent "PF-A4")
    (fst (register_all (mk_TrustedArtifactStore 16 ∅) demo_ingested_output.(eio_evidence_objects))))
    demo_ingested_output.(eio_evidence_objects).
Proof.
  destruct (register_all (mk_TrustedArtifactStore 16 ∅) demo_ingested_output.(eio_evidence_objects))
    as [s u] eqn:E.
  eapply (ingested_is_trusted (demo_agent "PF-A2") demo_ingest (Aware 0) demo_ingested _ _ _ u);
    [..|exact E|].
  - vm_compute. reflexivity.
  - reflexivity.
  - vm_compute. reflexivity.
  - reflexivity.
  - reflexivity.
  - change u with (snd (s, u)). rewrite <- E. vm_compute. reflexivity.
Defined.

Lemma timeline_build_correct_witness :
  ∃ r out, timeline_build (demo_agent "PF-A2")
      (mk_TimelineBuildRequest demo_ingested_output.(eio_evidence_objects)) (Aware 0) = Ok r ∧
    r.(sr_value) = Some out ∧ r.(sr_status) = SkillStatus.NEEDS_HUMAN ∧
    map tl_occurred_from out.(tbo_events) = [Some (mk_date 2020 1 15)].
Proof.
  destruct (timeline_build_correct (demo_agent "PF-A2")
    (mk_TimelineBuildRequest demo_ingested_output.(eio_evidence_objects)) (Aware 0))
    as (r & out & Hr & Hv & _ & _ & Hs & _); [reflexivity|vm_compute; reflexivity..|].
  exists r, out. split; [exact Hr|]. split; [exact Hv|].
  vm_compute in Hr. injection Hr as <-. vm_compute in Hv. injection Hv as <-.
  split; reflexivity.
Defined.
