(* ===== verification/Checks.v ===== *)
(** * Checks that stop or go on

    A verifier is a sequence of checks: each one stops with the verifier's result or hands
    on what it established.  [stops] says what its results have in common, [answers]
    that it neither raises nor hands on anything unexpected. *)
From S2P Require Import Prelude.

(** A computation that returns *)
Definition returns {A} (m : result A) : Prop := ∃ x, m = Ok x.
Lemma returns_Ok {A} (x : A) : returns (Ok x).
Proof. by exists x. Qed.
Lemma returns_bind {A B} (m : result A) (k : A → result B) :
  returns m → (∀ x, m = Ok x → returns (k x)) → returns (m ≫= k).
Proof. intros [x ->] Hk. by apply Hk. Qed.
Lemma returns_foldR {A B} (f : B → A → result B) s l :
  (∀ s x, x ∈ l → returns (f s x)) → returns (foldR f s l).
Proof.
  revert s; induction l as [|x l IH]; intros s Hf; simpl; [apply returns_Ok|].
  apply returns_bind; [apply Hf; by left|]. intros s' _. apply IH. intros; apply Hf. by right.
Qed.
Lemma mapR_all {A B} (f : A → result B) l ys x : mapR f l = Ok ys → x ∈ l → returns (f x).
Proof.
  intros H Hx. apply mapR_Forall2 in H. apply list_elem_of_lookup in Hx as [i Hi].
  destruct (Forall2_lookup_l _ _ _ _ _ H Hi) as (y & _ & Hy). by exists y.
Qed.
Create HintDb returns.
#[export] Hint Resolve returns_Ok returns_bind : returns.

Inductive checked (R A : Type) :=
| Stop (r : R)
| Go (a : A).
Arguments Stop {R A} r.
Arguments Go {R A} a.

Definition and_then {R A B} (m : result (checked R A)) (k : A → result (checked R B)) : result (checked R B) :=
  x ← m; match x with Stop r => Ok (Stop r) | Go a => k a end.
Notation "x <~ m ; k" := (and_then m (λ x, k)) (at level 20, m at level 100, k at level 200, right associativity).

Section checked.
Context {R : Type}.
Implicit Types A B : Type.

Lemma and_then_Go {A B} (m : result (checked R A)) (k : A → result (checked R B)) b :
  and_then m k = Ok (Go b) ↔ ∃ a, m = Ok (Go a) ∧ k a = Ok (Go b).
Proof.
  unfold and_then. rewrite bind_Ok. split.
  - intros ([r|a] & H1 & H2); [done|eauto].
  - intros (a & H1 & H2). by exists (Go a).
Qed.

(** Every result a check stops with satisfies [P]. *)
Definition stops {A} (P : R → Prop) (m : result (checked R A)) : Prop := ∀ r, m = Ok (Stop r) → P r.

Section stops.
Context (P : R → Prop).
Lemma stops_Go {A} (x : A) : stops P (Ok (Go x)).
Proof. intros r. done. Qed.
Lemma stops_Raise {A} e : stops (A := A) P (Raise e).
Proof. intros r. done. Qed.
Lemma stops_bind {A B} (m : result A) (k : A → result (checked R B)) :
  (∀ a, stops P (k a)) → stops P (m ≫= k).
Proof. intros Hk r (a & _ & H)%bind_Ok. by eapply Hk. Qed.
Lemma stops_then {A B} (m : result (checked R A)) (k : A → result (checked R B)) :
  stops P m → (∀ a, stops P (k a)) → stops P (and_then m k).
Proof. intros Hm Hk r ([r'|a] & H1 & H2)%bind_Ok; [injection H2 as <-; by apply Hm|by eapply Hk]. Qed.
End stops.

(** A check answers, and what it hands on satisfies [Q]. *)
Definition answers {A} (m : result (checked R A)) (Q : A → Prop) : Prop :=
  returns m ∧ ∀ a, m = Ok (Go a) → Q a.

Lemma answers_Go {A} (Q : A → Prop) x : Q x → answers (Ok (Go x)) Q.
Proof. intros H. split; [apply returns_Ok|]. by intros ? [= <-]. Qed.
Lemma answers_bind {A B} (m : result A) (k : A → result (checked R B)) Q :
  returns m → (∀ x, m = Ok x → answers (k x) Q) → answers (m ≫= k) Q.
Proof. intros [x ->] Hk. by apply Hk. Qed.
Lemma answers_then {A B} (m : result (checked R A)) (k : A → result (checked R B)) Q Q' :
  answers m Q → (∀ x, Q x → answers (k x) Q') → answers (and_then m k) Q'.
Proof.
  intros [[[r|x] ->] Hq] Hk; cbn.
  - split; [apply returns_Ok|done].
  - by apply Hk, Hq.
Qed.
End checked.

(** A computation raises only the exceptions of [E]. *)
Definition raises_only {A} (E : exn → Prop) (m : result A) : Prop := ∀ e, m = Raise e → E e.
(** A check raises only those, and what it hands on satisfies [Q]. *)
Definition delivers {R A} (E : exn → Prop) (m : result (checked R A)) (Q : A → Prop) : Prop :=
  raises_only E m ∧ ∀ a, m = Ok (Go a) → Q a.

Section raises_only.
Context {E : exn → Prop}.
Lemma raises_returns {A} (m : result A) : returns m → raises_only E m.
Proof. by intros [x ->] e. Qed.
Lemma raises_bind {A B} (m : result A) (k : A → result B) :
  raises_only E m → (∀ x, m = Ok x → raises_only E (k x)) → raises_only E (m ≫= k).
Proof. intros Hm Hk e [He|(x & Hx & He)]%bind_Raise; [by apply Hm|by apply (Hk x Hx)]. Qed.
Lemma delivers_returns {R A} (m : result (checked R A)) Q : answers m Q → delivers E m Q.
Proof. intros [Hr Hq]. split; [by apply raises_returns|done]. Qed.
Lemma delivers_weaken {R A} (m : result (checked R A)) (Q Q' : A → Prop) :
  delivers E m Q → (∀ a, m = Ok (Go a) → Q a → Q' a) → delivers E m Q'.
Proof. intros [Hr Hq] H. split; [done|]. intros a Ha. by apply H; [|apply Hq]. Qed.
Lemma delivers_Go {R A} (Q : A → Prop) (x : A) : Q x → delivers E (Ok (Go (R := R) x)) Q.
Proof. intros H. split; [apply raises_returns, returns_Ok|]. by intros ? [= <-]. Qed.
Lemma delivers_bind {R A B} (m : result A) (k : A → result (checked R B)) Q :
  raises_only E m → (∀ x, m = Ok x → delivers E (k x) Q) → delivers E (m ≫= k) Q.
Proof.
  intros Hm Hk. split; [apply raises_bind; [done|intros x Hx; by apply Hk]|].
  intros b (x & Hx & Hb)%bind_Ok. by apply (Hk x Hx).
Qed.
Lemma delivers_then {R A B} (m : result (checked R A)) (k : A → result (checked R B)) Q Q' :
  delivers E m Q → (∀ x, Q x → delivers E (k x) Q') → delivers E (and_then m k) Q'.
Proof.
  intros [Hm Hq] Hk. unfold and_then. apply delivers_bind; [done|]. intros [r|x] Hx.
  - split; [apply raises_returns, returns_Ok|done].
  - by apply Hk, Hq.
Qed.
End raises_only.

Create HintDb stops.
#[export] Hint Resolve stops_Go stops_Raise : stops.

(** [by_guards] proves [stops] by cases on the guards of a check. *)
Ltac by_guards :=
  repeat first
    [ solve [auto with stops nocore]
    | match goal with
      | |- stops _ (_ ≫= _) => apply stops_bind; intros ?
      | |- stops _ (and_then _ _) => apply stops_then; [|intros ?]
      | |- context [match ?x with _ => _ end] => destruct x
      end ].
