(* ===== verification/Certificate.v ===== *)
(** * action_certificate.py: the verification of a certificate

    [verify_action_certificate] opens a DSSE envelope, checks it against the trust
    policy, the caller's expectation, the clock, the approval and its revocation, and
    reserves its nonce and its idempotency key.  A check either stops with a result or
    hands on what it established; the reservation is the last step, and the only one
    that changes state. *)
From S2P Require Import Prelude Json Dicts PyTime PyDecimal Sha256 Canonical Base64 Platforms Models.
From S2P Require Import Checks CertModels CertLedger Evidence.
Local Open Scope Z_scope.

Module VerificationStatus.
Inductive VerificationStatus := ACCEPT | REJECT | UNKNOWN.
End VerificationStatus.
#[global] Instance VerificationStatus_eq_dec : EqDecision VerificationStatus.VerificationStatus.
Proof. solve_decision. Defined.
Notation VerificationStatus := VerificationStatus.VerificationStatus.

Module VerificationReason.
Inductive VerificationReason :=
| ACCEPTED | ENVELOPE_INVALID | ENVELOPE_TOO_LARGE | PAYLOAD_INVALID | PAYLOAD_TOO_LARGE
| SIGNATURE_INVALID | ACTION_ISSUER_THRESHOLD_NOT_MET | HUMAN_APPROVAL_THRESHOLD_NOT_MET
| TRUST_POLICY_MISMATCH | EXPECTED_BINDING_MISMATCH | CERTIFICATE_TIME_INVALID
| ROOT_TIME_OR_REVOCATION_INVALID | APPROVAL_SCOPE_MISMATCH | APPROVAL_EXPIRED | APPROVAL_REVOKED
| APPROVAL_REVOCATION_UNKNOWN | APPROVAL_REVOCATION_UNAVAILABLE | SELF_APPROVAL | REPLAY_DETECTED
| IDEMPOTENCY_CONFLICT | REPLAY_LEDGER_UNAVAILABLE.
End VerificationReason.
#[global] Instance VerificationReason_eq_dec : EqDecision VerificationReason.VerificationReason.
Proof. solve_decision. Defined.
Notation VerificationReason := VerificationReason.VerificationReason.

Definition UNKNOWN_VERIFICATION_REASONS : list VerificationReason :=
  [VerificationReason.APPROVAL_REVOCATION_UNKNOWN; VerificationReason.APPROVAL_REVOCATION_UNAVAILABLE;
   VerificationReason.REPLAY_LEDGER_UNAVAILABLE].
Definition REJECT_VERIFICATION_REASONS : list VerificationReason :=
  [VerificationReason.ENVELOPE_INVALID; VerificationReason.ENVELOPE_TOO_LARGE;
   VerificationReason.PAYLOAD_INVALID; VerificationReason.PAYLOAD_TOO_LARGE;
   VerificationReason.SIGNATURE_INVALID; VerificationReason.ACTION_ISSUER_THRESHOLD_NOT_MET;
   VerificationReason.HUMAN_APPROVAL_THRESHOLD_NOT_MET; VerificationReason.TRUST_POLICY_MISMATCH;
   VerificationReason.EXPECTED_BINDING_MISMATCH; VerificationReason.CERTIFICATE_TIME_INVALID;
   VerificationReason.ROOT_TIME_OR_REVOCATION_INVALID; VerificationReason.APPROVAL_SCOPE_MISMATCH;
   VerificationReason.APPROVAL_EXPIRED; VerificationReason.APPROVAL_REVOKED;
   VerificationReason.SELF_APPROVAL; VerificationReason.REPLAY_DETECTED;
   VerificationReason.IDEMPOTENCY_CONFLICT].

Record ActionCertificateVerificationResult := mk_VerificationResult {
  avr_status : VerificationStatus;
  avr_reason_codes : list VerificationReason;
  avr_certificate_id : option string;
  avr_payload_sha256 : option string;
  avr_verified_action_issuer_roots : list string;
  avr_verified_human_approval_roots : list string;
  avr_reserved : bool;
}.
Notation Result := ActionCertificateVerificationResult.

Definition reasons_within (allowed reasons : list VerificationReason) : bool :=
  forallb (λ r, bool_decide (r ∈ allowed)) reasons.
Definition VerificationResult_validate (x : Result) : result Result :=
  _ ← require (size_between 1 16 x.(avr_reason_codes) && opt_all is_sha256 x.(avr_payload_sha256) &&
               size_between 0 16 x.(avr_verified_action_issuer_roots) &&
               size_between 0 16 x.(avr_verified_human_approval_roots)) (value_error "constraint");
  _ ← require (unique x.(avr_reason_codes)) (ValueError "verification reason codes must be unique");
  _ ← match x.(avr_status) with
      | VerificationStatus.ACCEPT =>
          require (bool_decide (x.(avr_reason_codes) = [VerificationReason.ACCEPTED]) && x.(avr_reserved))
            (ValueError "ACCEPT requires ACCEPTED and an atomic reservation")
      | VerificationStatus.REJECT =>
          require (negb x.(avr_reserved) && reasons_within REJECT_VERIFICATION_REASONS x.(avr_reason_codes))
            (ValueError "REJECT requires only closed rejection reasons and reserved=false")
      | VerificationStatus.UNKNOWN =>
          require (negb x.(avr_reserved) && reasons_within UNKNOWN_VERIFICATION_REASONS x.(avr_reason_codes))
            (ValueError "UNKNOWN requires only unavailable reasons and reserved=false")
      end;
  Ok x.

Definition _verification_result (status : VerificationStatus) (reasons : list VerificationReason)
    (certificate_id payload_sha256 : option string) (issuer_roots approval_roots : list string)
    (reserved : bool) : result Result :=
  VerificationResult_validate
    (mk_VerificationResult status (dedup reasons) certificate_id payload_sha256
      (isort String.leb issuer_roots) (isort String.leb approval_roots) reserved).

(** ** Envelopes and payloads *)

(** [dsse_pae]: the bytes a DSSE signature covers *)
Definition dsse_pae (payload_type payload : string) : string :=
  "DSSEv1 " +:+ nat_text (String.length payload_type) +:+ " " +:+ payload_type +:+ " " +:+
  nat_text (String.length payload) +:+ " " +:+ payload.

(** [reject_duplicates] and [reject_constant] *)
Definition strict_hooks : hooks := {|
  object_pairs := λ pairs, if unique (map fst pairs) then Ok pairs
    else Raise (ValueError "duplicate JSON object key");
  parse_constant := λ _, Raise (ValueError "non-finite JSON number") |}.

(** [int] refuses more than 4300 digits; 2^14280 has fewer. *)
Definition is_big_int (z : Z) : bool :=
  if Z.log2 (Z.abs z) <? 14280 then false else 10 ^ 4300 <=? Z.abs z.
Fixpoint has_big_int (j : json) : bool :=
  match j with
  | JInt z => is_big_int z
  | JArr l => existsb has_big_int l
  | JObj l => existsb (λ kv, has_big_int (snd kv)) l
  | _ => false
  end.

(** Every failure is one ValueError.  Bytes that are not UTF-8 and escapes of lone
    surrogates, which [json.loads] may read, are refused by the contract in any case. *)
Definition _strict_json_object (payload label : string) : result (list (string * json)) :=
  let malformed := ValueError (label +:+ " is not strict UTF-8 JSON") in
  if negb (is_utf8 false payload) then Raise malformed
  else
    match loads_with strict_hooks payload with
    | Ok parsed =>
        if has_big_int parsed then Raise malformed
        else
          match parsed with
          | JObj items => Ok items
          | _ => Raise (ValueError (label +:+ " root must be an object"))
          end
    | Raise e => if is_value_error e || bool_decide (e = Unmodelled "lone surrogate")
                 then Raise malformed else Raise e
    end.

(** pydantic's [model_validate_json] for the two contracts, and Ed25519 verification
    of a signature over a message under a public key *)
Class CertificateParser := {
  load_DsseEnvelope : string → result DsseEnvelope;
  load_ActionCertificateStatement : string → result ActionCertificateStatement;
}.
Class CertificateParserLaws (C : CertificateParser) : Prop := {
  load_DsseEnvelope_valid : ∀ b x, load_DsseEnvelope b = Ok x → DsseEnvelope_validate x = Ok x;
  load_Statement_valid : ∀ b x, load_ActionCertificateStatement b = Ok x →
    ActionCertificateStatement_validate x = Ok x;
  load_DsseEnvelope_raise : ∀ b e, load_DsseEnvelope b = Raise e → is_value_error e = true;
  load_Statement_raise : ∀ b e, load_ActionCertificateStatement b = Raise e → is_value_error e = true;
}.
Class Ed25519 := ed25519_verify : string → string → string → bool.

Definition parse_json_model {A} (load : string → result A) (payload label : string) : result A :=
  _ ← _strict_json_object payload label;
  match load payload with
  | Ok x => Ok x
  | Raise e => if is_value_error e then Raise (ValueError (label +:+ " violates its strict contract"))
               else Raise e
  end.

(** ** The approval scope *)
Definition PrincipalBinding_dump (x : PrincipalBinding) : pyval :=
  VDict [("principal_id", VStr x.(pb_principal_id)); ("identity_issuer", VStr x.(pb_identity_issuer))].
Definition DelegationHop_dump (x : DelegationHop) : pyval :=
  VDict [("delegator", VStr x.(dh_delegator)); ("delegatee", VStr x.(dh_delegatee));
         ("scope_sha256", VStr x.(dh_scope_sha256))].
Definition InTotoSubject_dump (x : InTotoSubject) : pyval :=
  VDict [("name", VStr x.(its_name)); ("digest", VDict [("sha256", VStr x.(its_sha256))])].
Definition SubjectBinding_dump (x : SubjectBinding) : pyval :=
  VDict [("subject_type", VStr x.(sb_subject_type)); ("subject_id", VStr x.(sb_subject_id));
         ("attributes_sha256", VStr x.(sb_attributes_sha256))].
Definition ActionBinding_dump (x : ActionBinding) : pyval :=
  VDict [("action_name", VStr x.(ab_action_name)); ("parameters_sha256", VStr x.(ab_parameters_sha256))].
Definition ResourceBinding_dump (x : ResourceBinding) : pyval :=
  VDict [("resource_type", VStr x.(rb_resource_type)); ("resource_id", VStr x.(rb_resource_id));
         ("attributes_sha256", VStr x.(rb_attributes_sha256))].
Definition ContextBinding_dump (x : ContextBinding) : pyval :=
  VDict [("request_id", VStr x.(cb_request_id)); ("trace_id", VStr x.(cb_trace_id));
         ("environment", VStr x.(cb_environment)); ("attributes_sha256", VStr x.(cb_attributes_sha256))].
Definition PolicyBinding_dump (x : PolicyBinding) : pyval :=
  VDict [("policy_id", VStr x.(plb_policy_id)); ("policy_revision", VStr x.(plb_policy_revision));
         ("policy_sha256", VStr x.(plb_policy_sha256)); ("decision", VStr x.(plb_decision));
         ("evaluated_at", VStr x.(plb_evaluated_at).(wt_json));
         ("expires_at", VStr x.(plb_expires_at).(wt_json))].
Definition EffectBinding_dump (x : EffectBinding) : pyval :=
  VDict [("effect_type", VStr x.(eb_effect_type)); ("target", VStr x.(eb_target));
         ("request_sha256", VStr x.(eb_request_sha256)); ("idempotency_key", VStr x.(eb_idempotency_key))].

Definition scope_items (statement : ActionCertificateStatement) : list (string * pyval) :=
  let p := statement.(acs_predicate) in
  [("tenant_id", VStr p.(acp_tenant_id)); ("human_principal", PrincipalBinding_dump p.(acp_human_principal));
   ("workload_principal", PrincipalBinding_dump p.(acp_workload_principal));
   ("audience", VStr p.(acp_audience));
   ("delegation_chain", VSeq (map DelegationHop_dump p.(acp_delegation_chain)));
   ("statement_subjects", VSeq (map InTotoSubject_dump statement.(acs_subject)));
   ("subject", SubjectBinding_dump p.(acp_subject)); ("action", ActionBinding_dump p.(acp_action));
   ("resource", ResourceBinding_dump p.(acp_resource)); ("context", ContextBinding_dump p.(acp_context));
   ("data_classification", VStr p.(acp_data_classification)); ("policy", PolicyBinding_dump p.(acp_policy));
   ("effect", EffectBinding_dump p.(acp_effect))].

Definition expected_binding_for (statement : ActionCertificateStatement) : ExpectedBinding :=
  let p := statement.(acs_predicate) in
  mk_ExpectedBinding p.(acp_certificate_id) p.(acp_tenant_id) p.(acp_human_principal)
    p.(acp_workload_principal) p.(acp_audience) p.(acp_delegation_chain) statement.(acs_subject)
    p.(acp_subject) p.(acp_action) p.(acp_resource) p.(acp_context) p.(acp_data_classification)
    p.(acp_policy) p.(acp_approval) p.(acp_effect) p.(acp_nonce).

(** Equality of bindings: times are compared as instants. *)
Definition instant (t : wire_time) : wire_time := mk_wire_time t.(wt_at) "".
Definition policy_instants (x : PolicyBinding) : PolicyBinding :=
  mk_PolicyBinding x.(plb_policy_id) x.(plb_policy_revision) x.(plb_policy_sha256) x.(plb_decision)
    (instant x.(plb_evaluated_at)) (instant x.(plb_expires_at)).
Definition approval_instants (x : ApprovalBinding) : ApprovalBinding :=
  mk_ApprovalBinding x.(apb_required) x.(apb_approval_id) x.(apb_scope_sha256) x.(apb_approver_principals)
    (option_map instant x.(apb_expires_at)).
Definition binding_instants (x : ExpectedBinding) : ExpectedBinding :=
  mk_ExpectedBinding x.(xb_certificate_id) x.(xb_tenant_id) x.(xb_human_principal) x.(xb_workload_principal)
    x.(xb_audience) x.(xb_delegation_chain) x.(xb_statement_subjects) x.(xb_subject) x.(xb_action)
    x.(xb_resource) x.(xb_context) x.(xb_data_classification) (policy_instants x.(xb_policy))
    (approval_instants x.(xb_approval)) x.(xb_effect) x.(xb_nonce).

#[export] Instance SubjectBinding_eq_dec : EqDecision SubjectBinding.
Proof. solve_decision. Defined.
#[export] Instance ActionBinding_eq_dec : EqDecision ActionBinding.
Proof. solve_decision. Defined.
#[export] Instance ResourceBinding_eq_dec : EqDecision ResourceBinding.
Proof. solve_decision. Defined.
#[export] Instance ContextBinding_eq_dec : EqDecision ContextBinding.
Proof. solve_decision. Defined.
#[export] Instance wire_time_eq_dec : EqDecision wire_time.
Proof. solve_decision. Defined.
#[export] Instance PolicyBinding_eq_dec : EqDecision PolicyBinding.
Proof. solve_decision. Defined.
#[export] Instance ApprovalBinding_eq_dec : EqDecision ApprovalBinding.
Proof. solve_decision. Defined.
#[export] Instance EffectBinding_eq_dec : EqDecision EffectBinding.
Proof. solve_decision. Defined.
#[export] Instance ExpectedBinding_eq_dec : EqDecision ExpectedBinding.
Proof. solve_decision. Defined.
Definition same_binding (a b : ExpectedBinding) : bool :=
  bool_decide (binding_instants a = binding_instants b).

(** ** Trust roots *)
Section roots.
Context `{P : Platform} `{K : Ed25519}.

Definition approval_scope_sha256 (statement : ActionCertificateStatement) : result string :=
  sha256_digest (VDict (scope_items statement)).

Definition trust_root_fingerprint (root : TrustRoot) : result string :=
  key ← decode_canonical_base64 root.(tr_public_key_b64) "public key" None false;
  Ok (sha256_bytes key).

(** The sort key of a root for one signature: hinted roots first, then by position; a
    repeated id has the position of its last root. *)
Definition root_order (roots : list TrustRoot) : list (string * nat) :=
  dict_of (imap (λ i root, (root.(tr_root_id), i)) roots).
Definition root_rank (order : list (string * nat)) (keyid : string) (root : TrustRoot) : nat * nat :=
  ((if negb (String.eqb keyid "") && bool_decide (keyid ∈ root.(tr_keyid_hints)) then 0 else 1)%nat,
   default 0%nat (assoc root.(tr_root_id) order)).
Definition rank_leb (a b : nat * nat) : bool :=
  (fst a <? fst b)%nat || (fst a =? fst b)%nat && (snd a <=? snd b)%nat.

(** The body of the loop over the candidates of one signature *)
Definition try_root (signature_bytes pae : string) (verified : list (string * TrustRoot)) (root : TrustRoot)
    : result (list (string * TrustRoot)) :=
  public_bytes ← decode_canonical_base64 root.(tr_public_key_b64) "Ed25519 public key" (Some 32%nat) false;
  Ok (if ed25519_verify public_bytes signature_bytes pae
      then dict_set root.(tr_root_id) root verified else verified).
Definition try_signature (roots : list TrustRoot) (pae : string) (verified : list (string * TrustRoot))
    (signature : DsseSignature) : result (list (string * TrustRoot)) :=
  signature_bytes ← decode_canonical_base64 signature.(sg_sig) "signature" (Some 64%nat) true;
  foldR (try_root signature_bytes pae) verified
    (isort (λ a b, rank_leb (root_rank (root_order roots) signature.(sg_keyid) a)
                            (root_rank (root_order roots) signature.(sg_keyid) b)) roots).
Definition cryptographically_verified_roots (envelope : DsseEnvelope) (payload : string)
    (roots : list TrustRoot) : result (list TrustRoot) :=
  verified ← foldR (try_signature roots (dsse_pae envelope.(env_payloadType) payload)) []
               envelope.(env_signatures);
  Ok (map snd (isort (key_leb fst) verified)).

Definition trust_root_is_current (root : TrustRoot) (now : datetime) (skew : Z) : result bool :=
  ahead ← dt_add now skew;
  early ← dt_ltb ahead root.(tr_not_before);
  if (early : bool) then Ok false
  else
    behind ← dt_add now (- skew);
    late ← dt_ltb behind root.(tr_not_after);
    if negb late then Ok false
    else match root.(tr_revoked_at) with None => Ok true | Some t => dt_ltb ahead t end.

(** The condition of the loop of [_qualifying_roots], negated *)
Definition qualifies (purpose : TrustPurpose) (predicate : ActionCertificatePredicate) (policy : TrustPolicy)
    (now : datetime) (approvers : option (list string)) (root : TrustRoot) : result bool :=
  let allowed_principals := if is_purpose purpose ACTION_ISSUER
    then policy.(tp_allowed_action_issuer_principals) else policy.(tp_allowed_approval_principals) in
  if negb (is_purpose root.(tr_purpose) purpose) ||
     negb (String.eqb root.(tr_tenant_id) predicate.(acp_tenant_id)) ||
     negb (bool_decide (predicate.(acp_audience) ∈ root.(tr_audiences))) ||
     negb (bool_decide (ACTION_CERTIFICATE_PREDICATE_TYPE ∈ root.(tr_predicate_types))) ||
     negb (bool_decide (root.(tr_principal_id) ∈ allowed_principals))
  then Ok false
  else
    current ← trust_root_is_current root now (seconds policy.(tp_max_clock_skew_seconds));
    Ok (current && match approvers with
                   | Some l => bool_decide (root.(tr_principal_id) ∈ l) | None => true end).

(** The body of the loop: one root per key and per principal *)
Definition add_distinct (ok : TrustRoot → result bool)
    (acc : list (string * TrustRoot) * list string) (root : TrustRoot)
    : result (list (string * TrustRoot) * list string) :=
  let '(distinct, principals) := acc in
  qualified ← ok root;
  if negb qualified then Ok acc
  else
    fingerprint ← trust_root_fingerprint root;
    if bool_decide (is_Some (assoc fingerprint distinct)) || bool_decide (root.(tr_principal_id) ∈ principals)
    then Ok acc
    else Ok (distinct ++ [(fingerprint, root)], root.(tr_principal_id) :: principals).

Definition _qualifying_roots (roots : list TrustRoot) (purpose : TrustPurpose)
    (predicate : ActionCertificatePredicate) (policy : TrustPolicy) (now : datetime)
    (approvers : option (list string)) : result (list TrustRoot) :=
  '(distinct, _) ← foldR (add_distinct (qualifies purpose predicate policy now approvers)) ([], []) roots;
  Ok (map snd (isort (key_leb fst) distinct)).
End roots.

(** ** The checks *)
Definition _policy_allows_expected (policy : TrustPolicy) (expected : ExpectedBinding) : bool :=
  bool_decide (expected.(xb_tenant_id) ∈ policy.(tp_allowed_tenants)) &&
  bool_decide (expected.(xb_human_principal).(pb_principal_id) ∈ policy.(tp_allowed_human_principals)) &&
  bool_decide (expected.(xb_workload_principal).(pb_principal_id) ∈ policy.(tp_allowed_workload_principals)) &&
  bool_decide (expected.(xb_audience) ∈ policy.(tp_allowed_audiences)) &&
  bool_decide (ACTION_CERTIFICATE_PREDICATE_TYPE ∈ policy.(tp_allowed_predicate_types)) &&
  Bool.eqb expected.(xb_approval).(apb_required) policy.(tp_approval_required).

(** [a - b] of two aware datetimes, in microseconds *)
Definition dt_sub (a b : datetime) : result Z :=
  match a, b with
  | Aware x, Aware y | Naive x, Naive y => Ok (x - y)
  | _, _ => Raise (TypeError "can't subtract offset-naive and offset-aware datetimes")
  end.

Definition _certificate_time_is_valid (predicate : ActionCertificatePredicate) (policy : TrustPolicy)
    (now : datetime) : result bool :=
  let skew := seconds policy.(tp_max_clock_skew_seconds) in
  lifetime ← dt_sub predicate.(acp_expires_at).(wt_at) predicate.(acp_issued_at).(wt_at);
  if seconds policy.(tp_max_certificate_lifetime_seconds) <? lifetime then Ok false
  else
    ahead ← dt_add now skew;
    early ← dt_ltb ahead predicate.(acp_not_before).(wt_at);
    if (early : bool) then Ok false
    else
      behind ← dt_add now (- skew);
      live ← dt_ltb behind predicate.(acp_expires_at).(wt_at);
      if negb live then Ok false
      else dt_ltb behind predicate.(acp_policy).(plb_expires_at).(wt_at).

Notation check := (checked Result).

Section verify.
Context `{P : Platform} `{K : Ed25519} `{C : CertificateParser}.

Definition stop {A} (status : VerificationStatus) (reasons : list VerificationReason)
    (certificate_id payload_sha256 : option string) (issuer_roots approval_roots : list TrustRoot)
    : result (check A) :=
  r ← _verification_result status reasons certificate_id payload_sha256 (map tr_root_id issuer_roots)
        (map tr_root_id approval_roots) false;
  Ok (Stop r).
Definition reject {A} (reason : VerificationReason) (certificate_id payload_sha256 : option string)
    : result (check A) :=
  stop VerificationStatus.REJECT [reason] certificate_id payload_sha256 [] [].

(** A signed payload: its digest, the roots that signed it, the statement *)
Record Opened := mk_Opened {
  op_payload_sha256 : string;
  op_verified_roots : list TrustRoot;
  op_statement : ActionCertificateStatement;
}.

Definition open_envelope (envelope_bytes : string) (policy : TrustPolicy) : result (check Opened) :=
  if MAX_ENVELOPE_BYTES <? Z.of_nat (String.length envelope_bytes)
  then reject VerificationReason.ENVELOPE_TOO_LARGE None None
  else
    match (envelope ← parse_json_model load_DsseEnvelope envelope_bytes "DSSE envelope";
           payload ← decode_canonical_base64 envelope.(env_payload) "payload" None true;
           Ok (envelope, payload)) with
    | Raise e => if is_value_error e then reject VerificationReason.ENVELOPE_INVALID None None else Raise e
    | Ok (envelope, payload) =>
        if MAX_PAYLOAD_BYTES <? Z.of_nat (String.length payload)
        then reject VerificationReason.PAYLOAD_TOO_LARGE None None
        else
          let payload_sha256 := sha256_bytes payload in
          verified_roots ← cryptographically_verified_roots envelope payload policy.(tp_roots);
          if negb (nonempty verified_roots)
          then reject VerificationReason.SIGNATURE_INVALID None (Some payload_sha256)
          else
            match parse_json_model load_ActionCertificateStatement payload "signed payload" with
            | Raise e => if is_value_error e
                then reject VerificationReason.PAYLOAD_INVALID None (Some payload_sha256) else Raise e
            | Ok statement => Ok (Go (mk_Opened payload_sha256 verified_roots statement))
            end
    end.

(** Policy, expectation, clock and issuers *)
Definition check_issuers (policy : TrustPolicy) (expected : ExpectedBinding) (now : datetime) (o : Opened)
    : result (check (list TrustRoot)) :=
  let predicate := o.(op_statement).(acs_predicate) in
  let certificate_id := Some predicate.(acp_certificate_id) in
  let sha := Some o.(op_payload_sha256) in
  if negb (_policy_allows_expected policy expected)
  then reject VerificationReason.TRUST_POLICY_MISMATCH certificate_id sha
  else if negb (same_binding (expected_binding_for o.(op_statement)) expected)
  then reject VerificationReason.EXPECTED_BINDING_MISMATCH certificate_id sha
  else
    in_time ← _certificate_time_is_valid predicate policy now;
    if negb in_time then reject VerificationReason.CERTIFICATE_TIME_INVALID certificate_id sha
    else
      issuer_roots ← _qualifying_roots o.(op_verified_roots) ACTION_ISSUER predicate policy now None;
      if Z.of_nat (length issuer_roots) <? policy.(tp_action_issuer_threshold)
      then stop VerificationStatus.REJECT
             [VerificationReason.ROOT_TIME_OR_REVOCATION_INVALID;
              VerificationReason.ACTION_ISSUER_THRESHOLD_NOT_MET] certificate_id sha [] []
      else Ok (Go issuer_roots).

(** [self_approved]: a principal or a key on both sides *)
Definition self_approved (predicate : ActionCertificatePredicate) (issuer_roots approval_roots : list TrustRoot)
    : result bool :=
  let issuers := map tr_principal_id issuer_roots in
  let approvers := map tr_principal_id approval_roots in
  issuer_keys ← mapR trust_root_fingerprint issuer_roots;
  approval_keys ← mapR trust_root_fingerprint approval_roots;
  Ok (bool_decide (predicate.(acp_human_principal).(pb_principal_id) ∈ approvers) ||
      bool_decide (predicate.(acp_workload_principal).(pb_principal_id) ∈ approvers) ||
      existsb (λ p, bool_decide (p ∈ approvers)) issuers ||
      existsb (λ k, bool_decide (k ∈ approval_keys)) issuer_keys).

(** The approval, when the certificate requires one *)
Definition check_approval (policy : TrustPolicy) (resolver : option Resolver) (now : datetime) (o : Opened)
    (issuer_roots : list TrustRoot) : result (check (list TrustRoot)) :=
  let predicate := o.(op_statement).(acs_predicate) in
  let approval := predicate.(acp_approval) in
  let certificate_id := Some predicate.(acp_certificate_id) in
  let sha := Some o.(op_payload_sha256) in
  if negb approval.(apb_required) then Ok (Go [])
  else
    scope ← approval_scope_sha256 o.(op_statement);
    if negb (bool_decide (approval.(apb_scope_sha256) = Some scope))
    then stop VerificationStatus.REJECT [VerificationReason.APPROVAL_SCOPE_MISMATCH] certificate_id sha
           issuer_roots []
    else
      approval_roots ← _qualifying_roots o.(op_verified_roots) HUMAN_APPROVAL predicate policy now
                         (Some approval.(apb_approver_principals));
      if Z.of_nat (length approval_roots) <? policy.(tp_human_approval_threshold)
      then stop VerificationStatus.REJECT [VerificationReason.HUMAN_APPROVAL_THRESHOLD_NOT_MET]
             certificate_id sha issuer_roots []
      else
        let stop_with status reason := stop status [reason] certificate_id sha issuer_roots approval_roots in
        own ← self_approved predicate issuer_roots approval_roots;
        if (own : bool) then stop_with VerificationStatus.REJECT VerificationReason.SELF_APPROVAL
        else
          live ← match approval.(apb_expires_at) with None => Ok false | Some t => dt_ltb now t.(wt_at) end;
          if negb live then stop_with VerificationStatus.REJECT VerificationReason.APPROVAL_EXPIRED
          else
            match resolver with
            | None => stop_with VerificationStatus.UNKNOWN VerificationReason.APPROVAL_REVOCATION_UNKNOWN
            | Some resolve =>
                match resolve predicate.(acp_tenant_id) (default "" approval.(apb_approval_id)) scope now with
                | Raise _ => stop_with VerificationStatus.UNKNOWN
                               VerificationReason.APPROVAL_REVOCATION_UNAVAILABLE
                | Ok REVOKED => stop_with VerificationStatus.REJECT VerificationReason.APPROVAL_REVOKED
                | Ok ACTIVE => Ok (Go approval_roots)
                | Ok REVOCATION_UNKNOWN => stop_with VerificationStatus.UNKNOWN
                                             VerificationReason.APPROVAL_REVOCATION_UNKNOWN
                end
            end.

(** Everything before the reservation *)
Definition admit_certificate (envelope_bytes : string) (policy : TrustPolicy) (expected : ExpectedBinding)
    (resolver : option Resolver) (now : datetime)
    : result (check (Opened * list TrustRoot * list TrustRoot)) :=
  _ ← _require_aware now "verification time";
  o <~ open_envelope envelope_bytes policy;
  issuer_roots <~ check_issuers policy expected now o;
  approval_roots <~ check_approval policy resolver now o issuer_roots;
  Ok (Go (o, issuer_roots, approval_roots)).

(** The [try] around the reservation: any exception means the ledger is unavailable. *)
Definition reserve {T} `{ReplayLedger T} (s : T) (statement : ActionCertificateStatement) : T * ReservationStatus :=
  let predicate := statement.(acs_predicate) in
  match approval_scope_sha256 statement with
  | Raise _ => (s, UNAVAILABLE)
  | Ok intent =>
      let '(s, r) := reserve_once s predicate.(acp_tenant_id) predicate.(acp_nonce)
                       predicate.(acp_effect).(eb_idempotency_key) intent in
      (s, match r with Ok status => status | Raise _ => UNAVAILABLE end)
  end.

Definition verify_action_certificate {T} `{ReplayLedger T} (envelope_bytes : string) (policy : TrustPolicy)
    (expected : ExpectedBinding) (s : T) (resolver : option Resolver) (now : datetime) : T * result Result :=
  match admit_certificate envelope_bytes policy expected resolver now with
  | Raise e => (s, Raise e)
  | Ok (Stop r) => (s, Ok r)
  | Ok (Go (o, issuer_roots, approval_roots)) =>
      let '(s, reservation) := reserve s o.(op_statement) in
      let finish status reason reserved :=
        _verification_result status [reason]
          (Some o.(op_statement).(acs_predicate).(acp_certificate_id)) (Some o.(op_payload_sha256))
          (map tr_root_id issuer_roots) (map tr_root_id approval_roots) reserved in
      (s, match reservation with
          | REPLAY => finish VerificationStatus.REJECT VerificationReason.REPLAY_DETECTED false
          | IDEMPOTENCY_CONFLICT =>
              finish VerificationStatus.REJECT VerificationReason.IDEMPOTENCY_CONFLICT false
          | UNAVAILABLE =>
              finish VerificationStatus.UNKNOWN VerificationReason.REPLAY_LEDGER_UNAVAILABLE false
          | RESERVED => finish VerificationStatus.ACCEPT VerificationReason.ACCEPTED true
          end)
  end.
End verify.
