(* ===== verification/CertFacts.v ===== *)
(** * What an accepted certificate has been checked for *)
From S2P Require Import Prelude Json Dicts PyTime PyDecimal Sha256 Canonical Base64 Platforms Models.
From S2P Require Import Checks CertModels CertLedger Evidence Certificate.
Local Open Scope Z_scope.

(** ** The signed bytes *)
Lemma digits_no_space ds : digits_wf ds = true → has_char " " ds = false.
Proof.
  intros H%digits_wf_all. induction ds as [|c ds IH]; [done|]. simpl in H |- *.
  apply andb_true_iff in H as [Hc Hd]. rewrite IH by done. destruct (Ascii.eqb_spec c " "); [by subst|done].
Qed.

Lemma nat_text_no_space n : has_char " " (nat_text n) = false.
Proof.
  unfold nat_text. destruct (z_text_shape (Z.of_nat n)) as (ds & Hd & ->).
  rewrite (proj2 (Z.ltb_ge _ _)) by lia. by apply digits_no_space.
Qed.

Lemma split_at_space a a' r r' :
  has_char " " a = false → has_char " " a' = false →
  a +:+ String " " r = a' +:+ String " " r' → a = a' ∧ r = r'.
Proof.
  revert a'; induction a as [|c a IH]; intros [|c' a']; simpl; intros Ha Ha' H.
  - by injection H as ->.
  - injection H as <- _. by rewrite Ascii.eqb_refl in Ha'.
  - injection H as -> _. by rewrite Ascii.eqb_refl in Ha.
  - injection H as -> H. apply orb_false_iff in Ha as [_ Ha], Ha' as [_ Ha'].
    destruct (IH a' Ha Ha' H) as [-> ->]. done.
Qed.

(** The pre-authentication encoding is unambiguous: a signature over it covers the
    payload type and the payload, whatever bytes they contain. *)
Lemma dsse_pae_injective (t t' p p' : string) : dsse_pae t p = dsse_pae t' p' ↔ t = t' ∧ p = p'.
Proof.
  split; [|by intros [-> ->]]. unfold dsse_pae. intros H.
  apply str_app_inv_l in H. apply split_at_space in H as [Hn H]; [|apply nat_text_no_space..].
  assert (String.length t = String.length t') as Hl by (apply z_text_inj in Hn; lia).
  apply str_app_inv_len in H as [-> H]; [|done]. injection H as H.
  apply split_at_space in H as [_ ->]; [done|apply nat_text_no_space..].
Qed.

(** ** Verified roots *)
Section verified.
Context `{P : Platform} `{K : Ed25519}.

(** A root whose key verifies the signature over the bytes *)
Definition signs (pae : string) (root : TrustRoot) (signature : DsseSignature) : Prop :=
  ∃ key bytes, decode_canonical_base64 root.(tr_public_key_b64) "Ed25519 public key" (Some 32%nat) false = Ok key ∧
    decode_canonical_base64 signature.(sg_sig) "signature" (Some 64%nat) true = Ok bytes ∧
    ed25519_verify key bytes pae = true.
Definition signed_by (envelope : DsseEnvelope) (payload : string) (root : TrustRoot) : Prop :=
  ∃ signature, signature ∈ envelope.(env_signatures) ∧
    signs (dsse_pae envelope.(env_payloadType) payload) root signature.

(** The dict of verified roots holds exactly the roots [Q]. *)
Definition verified_dict (roots : list TrustRoot) (verified : list (string * TrustRoot))
    (Q : TrustRoot → Prop) : Prop :=
  NoDup (map fst verified) ∧
  ∀ id root, (id, root) ∈ verified ↔ id = root.(tr_root_id) ∧ root ∈ roots ∧ Q root.

Lemma try_root_dict roots bytes pae verified root verified' Q :
  NoDup (map tr_root_id roots) → root ∈ roots → verified_dict roots verified Q →
  try_root bytes pae verified root = Ok verified' →
  verified_dict roots verified' (λ r, Q r ∨ r = root ∧ ∃ key,
    decode_canonical_base64 root.(tr_public_key_b64) "Ed25519 public key" (Some 32%nat) false = Ok key ∧
    ed25519_verify key bytes pae = true).
Proof.
  intros Hids Hroot [Hnd Hv] H. apply bind_Ok in H as (key & Hkey & [= <-]).
  destruct (ed25519_verify key bytes pae) eqn:E.
  - split; [by apply dict_set_NoDup|]. intros id r. split.
    + intros [[= -> ->]|Hx]%elem_of_dict_set; [eauto 10|]. apply Hv in Hx as (? & ? & ?). auto.
    + intros (-> & Hr & Hq). destruct (decide (tr_root_id r = tr_root_id root)) as [Heq|Hne].
      * assert (r = root) as ->; [|apply dict_set_in].
        apply list_elem_of_lookup in Hr as [i Hi], Hroot as [j Hj].
        assert (i = j) as ->; [|congruence].
        apply (NoDup_lookup (map tr_root_id roots) i j (tr_root_id root)); [done|..];
          change (map tr_root_id roots) with (tr_root_id <$> roots); rewrite list_lookup_fmap;
          by rewrite ?Hi, ?Hj; simpl; rewrite ?Heq.
      * destruct Hq as [Hq|[-> _]]; [|done]. apply dict_set_other; [|done]. by apply Hv.
  - split; [done|]. intros id r. rewrite Hv. split; [naive_solver|].
    intros (? & ? & [?|(-> & key' & Hk & Hver)]); [done|]. congruence.
Qed.

Lemma verified_dict_ext roots l Q Q' : (∀ r, Q r ↔ Q' r) → verified_dict roots l Q → verified_dict roots l Q'.
Proof. intros HQ [H1 H2]. split; [done|]. intros id r. by rewrite H2, HQ. Qed.

Lemma try_roots_dict roots bytes pae candidates verified verified' Q :
  NoDup (map tr_root_id roots) → (∀ r, r ∈ candidates → r ∈ roots) → verified_dict roots verified Q →
  foldR (try_root bytes pae) verified candidates = Ok verified' →
  verified_dict roots verified' (λ r, Q r ∨ r ∈ candidates ∧ ∃ key,
    decode_canonical_base64 r.(tr_public_key_b64) "Ed25519 public key" (Some 32%nat) false = Ok key ∧
    ed25519_verify key bytes pae = true).
Proof.
  intros Hids. revert verified Q; induction candidates as [|c cs IH]; intros verified Q Hc Hd H; simpl in H.
  - injection H as <-. eapply verified_dict_ext; [|exact Hd]. intros r. split; [auto|].
    intros [?|[?%not_elem_of_nil _]]; done.
  - apply bind_Ok in H as (v & Hv & H). eapply try_root_dict in Hv; [|done|apply Hc; by left|exact Hd].
    eapply IH in H; [|intros; apply Hc; by right|exact Hv]. eapply verified_dict_ext; [|exact H].
    intros r. cbv beta. rewrite elem_of_cons. naive_solver.
Qed.

Lemma try_signature_dict roots pae verified signature verified' Q :
  NoDup (map tr_root_id roots) → verified_dict roots verified Q →
  try_signature roots pae verified signature = Ok verified' →
  verified_dict roots verified' (λ r, Q r ∨ signs pae r signature).
Proof.
  intros Hids Hd H. apply bind_Ok in H as (bytes & Hb & H).
  eapply try_roots_dict in H; [|done| |exact Hd]; [|intros r; by rewrite elem_of_isort].
  destruct H as [H1 H2]. split; [done|]. intros id r. rewrite H2, elem_of_isort. unfold signs.
  split; intros (? & Hr & Hq); (split; [done|]); (split; [done|]); destruct Hq as [Hq|Hq]; auto; right.
  - destruct Hq as (_ & key & ? & ?). exists key, bytes. done.
  - destruct Hq as (key & bytes' & ? & ? & ?). split; [done|]. exists key. split; [done|]. congruence.
Qed.

(** The verified roots of an envelope are the roots that signed it. *)
Lemma verified_roots_spec envelope payload roots l :
  NoDup (map tr_root_id roots) → cryptographically_verified_roots envelope payload roots = Ok l →
  NoDup (map tr_root_id l) ∧ ∀ r, r ∈ l ↔ r ∈ roots ∧ signed_by envelope payload r.
Proof.
  intros Hids H. unfold cryptographically_verified_roots in H. apply bind_Ok in H as (verified & Hv & [= <-]).
  set (pae := dsse_pae _ _) in *.
  assert (∀ sigs verified0 Q, verified_dict roots verified0 Q →
    foldR (try_signature roots pae) verified0 sigs = Ok verified →
    verified_dict roots verified (λ r, Q r ∨ ∃ sg, sg ∈ sigs ∧ signs pae r sg)) as Hloop.
  { clear Hv. induction sigs as [|sg sigs IH]; intros v0 Q Hd Hv; simpl in Hv.
    - injection Hv as <-. eapply verified_dict_ext; [|exact Hd]. intros r. split; [auto|].
      intros [?|(? & ?%not_elem_of_nil & _)]; done.
    - apply bind_Ok in Hv as (v1 & Hv1 & Hv). eapply try_signature_dict in Hv1; [|done|exact Hd].
      eapply IH in Hv; [|exact Hv1]. eapply verified_dict_ext; [|exact Hv].
      intros r. cbv beta. split.
      + intros [[?|?]|(s & ? & ?)]; eauto using list_elem_of_here, list_elem_of_further.
      + intros [?|(s & [->|?]%elem_of_cons & ?)]; eauto. }
  destruct (Hloop envelope.(env_signatures) [] (λ _, False)) as [Hnd Hin]; [|done|].
  { split; [apply NoDup_nil_2|]. intros id r. split; [by intros ?%not_elem_of_nil|tauto]. }
  assert (∀ id r, (id, r) ∈ isort (key_leb fst) verified ↔ id = tr_root_id r ∧ r ∈ roots ∧ signed_by envelope payload r) as Hs.
  { intros id r. rewrite elem_of_isort, Hin. unfold signed_by. naive_solver. }
  assert (map tr_root_id (map snd (isort (key_leb fst) verified)) = map fst (isort (key_leb fst) verified)) as Hm.
  { rewrite map_map. apply map_ext_in. intros [id r] Hx%list_elem_of_In. by apply Hs in Hx as (-> & _). }
  split.
  - rewrite Hm. change (NoDup (fst <$> isort (key_leb fst) verified)). by rewrite isort_perm.
  - intros r. rewrite list_elem_of_In, in_map_iff. split.
    + intros ([id r'] & <- & Hx%list_elem_of_In). by apply Hs in Hx as (_ & ? & ?).
    + intros [Hr Hsig]. exists (tr_root_id r, r). split; [done|]. apply list_elem_of_In. by apply Hs.
Qed.
End verified.
