(* ===== verification/CertSound.v ===== *)
(** * What the verification of a certificate guarantees

    [authorized] is the specification of an acceptable certificate: what was signed, by
    whom, for whom and when.  An ACCEPT implies it ([certificate_accept_sound]), at most
    once per nonce and per idempotency key ([accepted_once]), and the scope a human
    approves commits to the whole request ([approval_scope_binds]). *)
From S2P Require Import Prelude Json Dicts PyTime PyDecimal Sha256 Canonical Base64 Platforms Models.
From S2P Require Import Checks CertModels CertLedger Evidence Certificate CertFacts.
Local Open Scope Z_scope.

(** The instant of a datetime, in microseconds *)
Definition us (t : datetime) : Z := match t with Naive x | Aware x => x end.

Lemma dt_ltb_us a b r : dt_ltb a b = Ok r → r = (us a <? us b).
Proof. by destruct a, b; intros [= <-]. Qed.
Lemma dt_add_us a d b : dt_add a d = Ok b → us b = us a + d.
Proof. by destruct a; intros (? & _ & [= <-])%bind_Ok. Qed.
Lemma dt_sub_us a b z : dt_sub a b = Ok z → z = us a - us b.
Proof. by destruct a, b; intros [= <-]. Qed.

(** [us_facts] turns the datetime operations that returned into facts about instants. *)
Ltac us_facts :=
  repeat match goal with
  | H : dt_add _ _ = Ok _ |- _ => apply dt_add_us in H
  | H : dt_sub _ _ = Ok _ |- _ => apply dt_sub_us in H
  | H : dt_ltb _ _ = Ok _ |- _ => apply dt_ltb_us in H
  | H : true = (_ <? _) |- _ => symmetry in H; apply Z.ltb_lt in H
  | H : false = (_ <? _) |- _ => symmetry in H; apply Z.ltb_ge in H
  | H : (_ <? _) = true |- _ => apply Z.ltb_lt in H
  | H : (_ <? _) = false |- _ => apply Z.ltb_ge in H
  end.

(** ** Quorums *)

(** A root in force: its window, widened by the skew, contains the time, and it was
    not revoked. *)
Definition in_force (root : TrustRoot) (now : datetime) (skew : Z) : Prop :=
  us root.(tr_not_before) ≤ us now + skew ∧ us now - skew < us root.(tr_not_after) ∧
  ∀ t, root.(tr_revoked_at) = Some t → us now + skew < us t.

Lemma trust_root_is_current_sound root now skew :
  trust_root_is_current root now skew = Ok true → in_force root now skew.
Proof.
  unfold trust_root_is_current, in_force. intros (ahead & H1 & H)%bind_Ok.
  apply bind_Ok in H as (early & H2 & H). destruct early; [done|].
  apply bind_Ok in H as (behind & H3 & H). apply bind_Ok in H as (late & H4 & H).
  destruct late; [|done]. cbn [negb] in H.
  destruct (tr_revoked_at root) as [t|] eqn:Er; us_facts;
    (split; [lia|]); (split; [lia|]); intros t' [= <-]; lia.
Qed.

(** What makes a root count towards a quorum *)
Record eligible (policy : TrustPolicy) (purpose : TrustPurpose) (predicate : ActionCertificatePredicate)
    (now : datetime) (approvers : option (list string)) (root : TrustRoot) : Prop := {
  el_purpose : root.(tr_purpose) = purpose;
  el_tenant : root.(tr_tenant_id) = predicate.(acp_tenant_id);
  el_audience : predicate.(acp_audience) ∈ root.(tr_audiences);
  el_predicate_type : ACTION_CERTIFICATE_PREDICATE_TYPE ∈ root.(tr_predicate_types);
  el_principal : root.(tr_principal_id) ∈ (if is_purpose purpose ACTION_ISSUER
    then policy.(tp_allowed_action_issuer_principals) else policy.(tp_allowed_approval_principals));
  el_in_force : in_force root now (seconds policy.(tp_max_clock_skew_seconds));
  el_approver : ∀ l, approvers = Some l → root.(tr_principal_id) ∈ l;
}.

Lemma qualifies_eligible purpose predicate policy now approvers root :
  qualifies purpose predicate policy now approvers root = Ok true →
  eligible policy purpose predicate now approvers root.
Proof.
  unfold qualifies. cbv zeta. destruct (_ || _) eqn:E; [done|].
  intros (current & Hc & [= H])%bind_Ok. split_bools. subst current.
  unfold is_purpose in *. split_bools. split; try done.
  - by apply String.eqb_eq.
  - by apply trust_root_is_current_sound.
  - intros l ->. by split_bools.
Qed.

(** One root per principal and per key *)
Definition distinct_roots `{Platform} (l : list TrustRoot) : Prop :=
  NoDup (map tr_principal_id l) ∧
  ∃ fingerprints, mapR trust_root_fingerprint l = Ok fingerprints ∧ NoDup fingerprints.

Section sound.
Context `{P : Platform} `{K : Ed25519} `{C : CertificateParser}.

Definition distinct_inv (roots : list TrustRoot) (ok : TrustRoot → result bool)
    (acc : list (string * TrustRoot) * list string) : Prop :=
  NoDup (map fst (fst acc)) ∧ NoDup (map (λ kv, (snd kv).(tr_principal_id)) (fst acc)) ∧
  Forall (λ kv : string * TrustRoot, trust_root_fingerprint (snd kv) = Ok (fst kv) ∧ snd kv ∈ roots ∧
    ok (snd kv) = Ok true ∧ (snd kv).(tr_principal_id) ∈ snd acc) (fst acc).

Lemma add_distinct_inv roots ok acc root acc' :
  root ∈ roots → distinct_inv roots ok acc → add_distinct ok acc root = Ok acc' → distinct_inv roots ok acc'.
Proof.
  intros Hroot. destruct acc as [distinct principals]. unfold distinct_inv. cbn [fst snd].
  intros (Hk & Hp & Hall) H. cbn [add_distinct] in H. apply bind_Ok in H as (q & Hq & H).
  destruct q; cbn [negb] in H; [|by injection H as <-]. apply bind_Ok in H as (fp & Hfp & H).
  destruct (_ || _) eqn:E; injection H as <-; [done|]. split_bools. cbn [fst snd]. split; [|split].
  - rewrite map_app. apply NoDup_snoc; [done|]. by apply assoc_fresh.
  - rewrite map_app. apply NoDup_snoc; [done|]. intros Hin.
    apply list_elem_of_In, in_map_iff in Hin as (kv & He & Hkv%list_elem_of_In).
    rewrite Forall_forall in Hall. destruct (Hall kv Hkv) as (_ & _ & _ & Hx). cbn [snd] in He. congruence.
  - apply Forall_app. split; [|repeat constructor; by auto].
    eapply Forall_impl; [exact Hall|]. intros kv (? & ? & ? & ?). auto using list_elem_of_further.
Qed.

Lemma qualifying_roots_spec roots purpose predicate policy now approvers l :
  _qualifying_roots roots purpose predicate policy now approvers = Ok l →
  distinct_roots l ∧ ∀ r, r ∈ l → r ∈ roots ∧ eligible policy purpose predicate now approvers r.
Proof.
  unfold _qualifying_roots. intros ([distinct principals] & H & [= <-])%bind_Ok.
  set (ok := qualifies _ _ _ _ _) in H.
  assert (distinct_inv roots ok (distinct, principals)) as (Hk & Hp & Hall).
  { eapply (foldR_inv (distinct_inv roots ok)); [| |exact H].
    - intros t x t' Hx Ht Hs. by eapply add_distinct_inv.
    - split; [apply NoDup_nil_2|]. split; [apply NoDup_nil_2|constructor]. }
  cbn [fst snd] in *. set (sorted := isort (key_leb fst) distinct).
  assert (sorted ≡ₚ distinct) as Hperm by apply isort_perm. rewrite <- Hperm in Hall. split.
  - split.
    + rewrite map_map. change (NoDup ((λ kv : string * TrustRoot, tr_principal_id (snd kv)) <$> sorted)).
      by rewrite Hperm.
    + exists (map fst sorted). split.
      * clear -Hall. induction Hall as [|kv sorted (H & _) _ IH]; simpl; [done|]. by rewrite H, IH.
      * change (NoDup (fst <$> sorted)). by rewrite Hperm.
  - intros r Hr. apply list_elem_of_In, in_map_iff in Hr as (kv & <- & Hkv%list_elem_of_In).
    rewrite Forall_forall in Hall. destruct (Hall kv Hkv) as (_ & ? & Hok & _).
    split; [done|]. by apply qualifies_eligible.
Qed.

(** ** The specification of an acceptable certificate *)

(** The bytes parse as an envelope whose payload parses as the statement; the verified
    roots are the roots of the policy that signed the payload. *)
Definition opens (envelope_bytes : string) (policy : TrustPolicy) (o : Opened) : Prop :=
  ∃ envelope payload,
    Z.of_nat (String.length envelope_bytes) ≤ MAX_ENVELOPE_BYTES ∧
    parse_json_model load_DsseEnvelope envelope_bytes "DSSE envelope" = Ok envelope ∧
    decode_canonical_base64 envelope.(env_payload) "payload" None true = Ok payload ∧
    Z.of_nat (String.length payload) ≤ MAX_PAYLOAD_BYTES ∧
    parse_json_model load_ActionCertificateStatement payload "signed payload" = Ok o.(op_statement) ∧
    o.(op_payload_sha256) = sha256_bytes payload ∧
    ∀ r, r ∈ o.(op_verified_roots) ↔ r ∈ policy.(tp_roots) ∧ signed_by envelope payload r.

(** The certificate and its policy decision are live, and the certificate is short. *)
Definition timely (policy : TrustPolicy) (predicate : ActionCertificatePredicate) (now : datetime) : Prop :=
  let skew := seconds policy.(tp_max_clock_skew_seconds) in
  let at_ (t : wire_time) := us t.(wt_at) in
  at_ predicate.(acp_expires_at) - at_ predicate.(acp_issued_at) ≤
    seconds policy.(tp_max_certificate_lifetime_seconds) ∧
  at_ predicate.(acp_not_before) ≤ us now + skew ∧ us now - skew < at_ predicate.(acp_expires_at) ∧
  us now - skew < at_ predicate.(acp_policy).(plb_expires_at).

Definition quorum (policy : TrustPolicy) (purpose : TrustPurpose) (now : datetime) (o : Opened)
    (approvers : option (list string)) (threshold : Z) (l : list TrustRoot) : Prop :=
  threshold ≤ Z.of_nat (length l) ∧ distinct_roots l ∧
  ∀ r, r ∈ l → r ∈ o.(op_verified_roots) ∧
    eligible policy purpose o.(op_statement).(acs_predicate) now approvers r.

Definition disjoint_lists (l k : list string) : Prop := ∀ x, x ∈ l → x ∉ k.
(** The approvers act neither as human, nor as workload, nor as issuers. *)
Definition independent (predicate : ActionCertificatePredicate) (issuers approvers : list TrustRoot) : Prop :=
  predicate.(acp_human_principal).(pb_principal_id) ∉ map tr_principal_id approvers ∧
  predicate.(acp_workload_principal).(pb_principal_id) ∉ map tr_principal_id approvers ∧
  disjoint_lists (map tr_principal_id issuers) (map tr_principal_id approvers) ∧
  ∃ ks ks', mapR trust_root_fingerprint issuers = Ok ks ∧ mapR trust_root_fingerprint approvers = Ok ks' ∧
    disjoint_lists ks ks'.

(** A live, unrevoked approval of exactly this request *)
Definition approved (policy : TrustPolicy) (resolver : option Resolver) (now : datetime) (o : Opened)
    (issuers approvers : list TrustRoot) : Prop :=
  let predicate := o.(op_statement).(acs_predicate) in
  let approval := predicate.(acp_approval) in
  ∃ scope resolve expires,
    approval_scope_sha256 o.(op_statement) = Ok scope ∧ approval.(apb_scope_sha256) = Some scope ∧
    quorum policy HUMAN_APPROVAL now o (Some approval.(apb_approver_principals))
      policy.(tp_human_approval_threshold) approvers ∧
    independent predicate issuers approvers ∧
    approval.(apb_expires_at) = Some expires ∧ us now < us expires.(wt_at) ∧
    resolver = Some resolve ∧
    resolve predicate.(acp_tenant_id) (default "" approval.(apb_approval_id)) scope now = Ok ACTIVE.

Record authorized (envelope_bytes : string) (policy : TrustPolicy) (expected : ExpectedBinding)
    (resolver : option Resolver) (now : datetime) (o : Opened) (issuers approvers : list TrustRoot) : Prop := {
  au_aware : is_aware now = true;
  au_opens : opens envelope_bytes policy o;
  au_policy : _policy_allows_expected policy expected = true;
  au_expected : binding_instants (expected_binding_for o.(op_statement)) = binding_instants expected;
  au_timely : timely policy o.(op_statement).(acs_predicate) now;
  au_issuers : quorum policy ACTION_ISSUER now o None policy.(tp_action_issuer_threshold) issuers;
  au_approved : if o.(op_statement).(acs_predicate).(acp_approval).(apb_required)
    then approved policy resolver now o issuers approvers else approvers = [];
}.

(** ** Each check establishes its part *)
Lemma stop_Go {A} status reasons cid sha i a (x : A) : stop status reasons cid sha i a ≠ Ok (Go x).
Proof. unfold stop. by intros (? & _ & ?)%bind_Ok. Qed.
Lemma reject_Go {A} reason cid sha (x : A) : reject reason cid sha ≠ Ok (Go x).
Proof. apply stop_Go. Qed.

Ltac no_stop := match goal with H : stop _ _ _ _ _ _ = Ok (Go _) |- _ => by apply stop_Go in H
  | H : reject _ _ _ = Ok (Go _) |- _ => by apply reject_Go in H end.

Lemma open_envelope_Go envelope_bytes policy o :
  NoDup (map tr_root_id policy.(tp_roots)) →
  open_envelope envelope_bytes policy = Ok (Go o) → opens envelope_bytes policy o.
Proof.
  unfold open_envelope. intros Hids H. destruct (Z.ltb_spec MAX_ENVELOPE_BYTES (Z.of_nat (String.length envelope_bytes)));
    [no_stop|].
  match type of H with match ?m with _ => _ end = _ => destruct m as [[envelope payload]|e] eqn:E end;
    [|destruct (is_value_error e); [no_stop|done]].
  apply bind_Ok in E as (env & He & E). apply bind_Ok in E as (pay & Hp & [= -> ->]).
  destruct (Z.ltb_spec MAX_PAYLOAD_BYTES (Z.of_nat (String.length payload))); [no_stop|].
  apply bind_Ok in H as (roots & Hr & H). destruct (negb (nonempty roots)); [no_stop|].
  destruct (parse_json_model load_ActionCertificateStatement _ _) as [statement|e] eqn:Es;
    [|destruct (is_value_error e); [no_stop|done]].
  injection H as <-. exists envelope, payload. do 4 (split; [done|]). split; [done|]. split; [done|].
  by apply verified_roots_spec in Hr as [_ ?].
Qed.

Lemma time_is_valid_timely predicate policy now :
  _certificate_time_is_valid predicate policy now = Ok true → timely policy predicate now.
Proof.
  unfold _certificate_time_is_valid, timely. cbv zeta. intros (life & H1 & H)%bind_Ok.
  destruct (Z.ltb_spec (seconds policy.(tp_max_certificate_lifetime_seconds)) life); [done|].
  apply bind_Ok in H as (ahead & H2 & H). apply bind_Ok in H as (early & H3 & H). destruct early; [done|].
  apply bind_Ok in H as (behind & H4 & H). apply bind_Ok in H as (live & H5 & H).
  destruct live; [|done]. cbn [negb] in H. us_facts. lia.
Qed.

Lemma check_issuers_Go policy expected now o issuers :
  check_issuers policy expected now o = Ok (Go issuers) →
  _policy_allows_expected policy expected = true ∧
  binding_instants (expected_binding_for o.(op_statement)) = binding_instants expected ∧
  timely policy o.(op_statement).(acs_predicate) now ∧
  quorum policy ACTION_ISSUER now o None policy.(tp_action_issuer_threshold) issuers.
Proof.
  unfold check_issuers. cbv zeta. intros H.
  destruct (_policy_allows_expected policy expected); cbn [negb] in H; [|no_stop].
  destruct (same_binding _ _) eqn:Hb; cbn [negb] in H; [|no_stop].
  apply bind_Ok in H as (t & Ht & H). destruct t; cbn [negb] in H; [|no_stop].
  apply bind_Ok in H as (l & Hl & H). destruct (Z.ltb_spec (Z.of_nat (length l)) policy.(tp_action_issuer_threshold));
    [no_stop|]. injection H as ->. unfold same_binding in Hb. split_bools. do 2 (split; [done|]).
  split; [by apply time_is_valid_timely|]. apply qualifying_roots_spec in Hl as [? ?]. by (split; [done|split]).
Qed.

Lemma self_approved_independent predicate issuers approvers :
  self_approved predicate issuers approvers = Ok false → independent predicate issuers approvers.
Proof.
  unfold self_approved. cbv zeta. intros (ks & H1 & H)%bind_Ok. apply bind_Ok in H as (ks' & H2 & [= H]).
  split_bools. split; [done|]. split; [done|].
  assert (∀ l k : list string, existsb (λ p, bool_decide (p ∈ k)) l = false → disjoint_lists l k) as Hd.
  { intros l k Hf x Hx Hk. eapply (proj2 (not_true_iff_false _)) in Hf. apply Hf, existsb_exists.
    exists x. rewrite <- list_elem_of_In, bool_decide_eq_true. done. }
  split; [by apply Hd|]. exists ks, ks'. auto.
Qed.

Lemma check_approval_Go policy resolver now o issuers approvers :
  check_approval policy resolver now o issuers = Ok (Go approvers) →
  if o.(op_statement).(acs_predicate).(acp_approval).(apb_required)
  then approved policy resolver now o issuers approvers else approvers = [].
Proof.
  unfold check_approval, approved. cbv zeta. destruct (apb_required _); cbn [negb]; [|by intros [= <-]].
  intros (scope & Hs & H)%bind_Ok. destruct (bool_decide _) eqn:Hm; cbn [negb] in H; [|no_stop].
  apply bind_Ok in H as (l & Hl & H). destruct (Z.ltb_spec (Z.of_nat (length l)) policy.(tp_human_approval_threshold));
    [no_stop|]. apply bind_Ok in H as (own & Ho & H). destruct own; [no_stop|].
  apply bind_Ok in H as (live & Hlive & H). destruct live; cbn [negb] in H; [|no_stop].
  destruct (apb_expires_at _) as [expires|] eqn:Ex; [|done]. us_facts.
  destruct resolver as [resolve|]; [|no_stop].
  destruct (resolve _ _ scope now) as [[]|e] eqn:Er; try no_stop. injection H as ->. split_bools.
  exists scope, resolve, expires. do 2 (split; [done|]).
  split; [apply qualifying_roots_spec in Hl as [? ?]; by (split; [done|split])|].
  split; [by apply self_approved_independent|]. done.
Qed.

Lemma admit_Go envelope_bytes policy expected resolver now o issuers approvers :
  NoDup (map tr_root_id policy.(tp_roots)) →
  admit_certificate envelope_bytes policy expected resolver now = Ok (Go (o, issuers, approvers)) →
  authorized envelope_bytes policy expected resolver now o issuers approvers.
Proof.
  unfold admit_certificate. intros Hids H. apply bind_Ok in H as (t & Ht & H).
  apply bind_Ok in Ht as (? & Ht%require_Ok & _).
  apply and_then_Go in H as (o' & Ho & H). apply and_then_Go in H as (i & Hi & H).
  apply and_then_Go in H as (a & Ha & [= -> -> ->]).
  apply check_issuers_Go in Hi as (? & ? & ? & ?). apply check_approval_Go in Ha.
  split; try done. by apply open_envelope_Go.
Qed.

(** ** A stopped verification refuses *)
Definition refusal (r : Result) : Prop :=
  r.(avr_status) ≠ VerificationStatus.ACCEPT ∧ r.(avr_reserved) = false.
Notation refuses := (stops refusal).

Lemma verification_result_shape status reasons cid sha i a reserved r :
  _verification_result status reasons cid sha i a reserved = Ok r →
  r = mk_VerificationResult status (dedup reasons) cid sha (isort String.leb i) (isort String.leb a) reserved.
Proof. unfold _verification_result, VerificationResult_validate. intros. by inv_ok. Qed.

Lemma refuses_stop {A} status reasons cid sha i a :
  status ≠ VerificationStatus.ACCEPT → stops (A := A) refusal (stop status reasons cid sha i a).
Proof.
  intros Hs r. unfold stop. intros (x & Hx & [= <-])%bind_Ok. apply verification_result_shape in Hx as ->.
  by split.
Qed.
Lemma refuses_reject {A} reason cid sha : stops (A := A) refusal (reject reason cid sha).
Proof. by apply refuses_stop. Qed.
#[local] Hint Resolve refuses_reject : stops.
#[local] Hint Extern 1 (stops refusal (stop _ _ _ _ _ _)) => apply refuses_stop; discriminate : stops.

Lemma open_envelope_refuses envelope_bytes policy : refuses (open_envelope envelope_bytes policy).
Proof. unfold open_envelope. by_guards. Qed.
Lemma check_issuers_refuses policy expected now o : refuses (check_issuers policy expected now o).
Proof. unfold check_issuers. cbv zeta. by_guards. Qed.
Lemma check_approval_refuses policy resolver now o issuers : refuses (check_approval policy resolver now o issuers).
Proof. unfold check_approval. cbv zeta. by_guards. Qed.
Lemma admit_refuses envelope_bytes policy expected resolver now :
  refuses (admit_certificate envelope_bytes policy expected resolver now).
Proof.
  unfold admit_certificate. apply stops_bind. intros _. apply stops_then; [apply open_envelope_refuses|].
  intros o. apply stops_then; [apply check_issuers_refuses|]. intros i.
  apply stops_then; [apply check_approval_refuses|]. auto with stops.
Qed.

(** The result of an accepted certificate *)
Definition accepted_result (o : Opened) (issuers approvers : list TrustRoot) : Result :=
  mk_VerificationResult VerificationStatus.ACCEPT [VerificationReason.ACCEPTED]
    (Some o.(op_statement).(acs_predicate).(acp_certificate_id)) (Some o.(op_payload_sha256))
    (isort String.leb (map tr_root_id issuers)) (isort String.leb (map tr_root_id approvers)) true.

(** The reservation of a statement was made. *)
Definition reserves {T} `{ReplayLedger T} (s : T) (statement : ActionCertificateStatement) (s' : T) : Prop :=
  let p := statement.(acs_predicate) in
  ∃ intent, approval_scope_sha256 statement = Ok intent ∧
    reserve_once s p.(acp_tenant_id) p.(acp_nonce) p.(acp_effect).(eb_idempotency_key) intent = (s', Ok RESERVED).

(** Every way a verification ends *)
Inductive verification {T} `{ReplayLedger T} (envelope_bytes : string) (policy : TrustPolicy)
    (expected : ExpectedBinding) (s : T) (resolver : option Resolver) (now : datetime)
    : T → result Result → Prop :=
| vn_refused r : refusal r →
    verification envelope_bytes policy expected s resolver now s (Ok r)
| vn_raised e : verification envelope_bytes policy expected s resolver now s (Raise e)
| vn_unreserved o issuers approvers s' status res :
    admit_certificate envelope_bytes policy expected resolver now = Ok (Go (o, issuers, approvers)) →
    reserve s o.(op_statement) = (s', status) → status ≠ RESERVED → (∀ r, res = Ok r → refusal r) →
    verification envelope_bytes policy expected s resolver now s' res
| vn_reserved o issuers approvers s' :
    admit_certificate envelope_bytes policy expected resolver now = Ok (Go (o, issuers, approvers)) →
    reserves s o.(op_statement) s' →
    verification envelope_bytes policy expected s resolver now s'
      (_ ← VerificationResult_validate (accepted_result o issuers approvers);
       Ok (accepted_result o issuers approvers)).

Lemma reserve_RESERVED {T} `{ReplayLedger T} (s : T) statement s' :
  reserve s statement = (s', RESERVED) ↔ reserves s statement s'.
Proof.
  unfold reserve, reserves. cbv zeta. destruct (approval_scope_sha256 statement) as [intent|e].
  - destruct (reserve_once _ _ _ _ _) as [s1 [r|e]] eqn:E; split.
    + intros [= <- ->]. exists intent. by rewrite E.
    + intros (i & [= <-] & H'). rewrite E in H'. by injection H' as -> ->.
    + done.
    + intros (i & [= <-] & H'). congruence.
  - split; [done|]. by intros (i & ? & _).
Qed.

Lemma verify_cases {T} `{ReplayLedger T} envelope_bytes policy expected (s : T) resolver now s' res :
  verify_action_certificate envelope_bytes policy expected s resolver now = (s', res) →
  verification envelope_bytes policy expected s resolver now s' res.
Proof.
  unfold verify_action_certificate. pose proof (admit_refuses envelope_bytes policy expected resolver now) as Hr.
  destruct (admit_certificate _ _ _ _ _) as [[r|[[o i] a]]|e] eqn:Ha.
  - intros [= <- <-]. apply vn_refused. by apply Hr.
  - destruct (reserve s (op_statement o)) as [s1 status] eqn:Hs. intros [= <- <-].
    destruct (decide (status = RESERVED)) as [->|Hne].
    + apply reserve_RESERVED in Hs. unfold _verification_result. pose proof (vn_reserved _ _ expected s _ _ _ _ _ _ Ha Hs) as H'.
      replace (VerificationResult_validate _) with
        (_ ← VerificationResult_validate (accepted_result o i a); Ok (accepted_result o i a)); [done|].
      change (mk_VerificationResult _ _ _ _ _ _ _) with (accepted_result o i a).
      destruct (VerificationResult_validate (accepted_result o i a)) as [x|e] eqn:E; [|done].
      unfold VerificationResult_validate in E. inv_ok. done.
    + eapply vn_unreserved; [exact Ha|exact Hs|done|]. intros r Hres.
      destruct status; try done; apply verification_result_shape in Hres as ->; by split.
  - intros [= <- <-]. apply vn_raised.
Qed.

Lemma policy_root_ids policy : TrustPolicy_validate policy = Ok policy → NoDup (map tr_root_id policy.(tp_roots)).
Proof. unfold TrustPolicy_validate. intros. inv_ok. unfold unique in *. by split_bools. Qed.

Lemma expected_nonce o expected :
  binding_instants (expected_binding_for (op_statement o)) = binding_instants expected →
  let p := o.(op_statement).(acs_predicate) in
  (p.(acp_tenant_id), p.(acp_nonce), p.(acp_effect).(eb_idempotency_key)) =
  (expected.(xb_tenant_id), expected.(xb_nonce), expected.(xb_effect).(eb_idempotency_key)).
Proof.
  intros H. cbv zeta. f_equal; [f_equal|].
  - exact (f_equal xb_tenant_id H).
  - exact (f_equal xb_nonce H).
  - exact (f_equal (λ x, x.(xb_effect).(eb_idempotency_key)) H).
Qed.

Section ledger.
Context `{HL : ReplayLedger T}.

(** An accepted verification was authorized and made its reservation. *)
Lemma verify_accept envelope_bytes policy expected s resolver now s' r :
  TrustPolicy_validate policy = Ok policy →
  verify_action_certificate envelope_bytes policy expected s resolver now = (s', Ok r) →
  r.(avr_status) = VerificationStatus.ACCEPT →
  ∃ o issuers approvers, authorized envelope_bytes policy expected resolver now o issuers approvers ∧
    reserves s o.(op_statement) s' ∧ r = accepted_result o issuers approvers.
Proof.
  intros Hp%policy_root_ids Hv Hs. apply verify_cases in Hv.
  remember (Ok r) as res. destruct Hv as [r0 [Hr _]| |o i a s' status res Ha _ _ Hr|o i a s' Ha Hres].
  - by injection Heqres as ->.
  - done.
  - by destruct (Hr r Heqres).
  - apply bind_Ok in Heqres as (? & _ & [= <-]). exists o, i, a. split; [by apply admit_Go|done].
Qed.

(** Anything the holders of the ledger do to it *)
Definition ledger_step (s s' : T) : Prop :=
  ∃ tenant nonce key intent r, reserve_once s tenant nonce key intent = (s', r).

(** A verification makes at most one reservation. *)
Lemma verify_steps envelope_bytes policy expected s resolver now s' res :
  verify_action_certificate envelope_bytes policy expected s resolver now = (s', res) → rtc ledger_step s s'.
Proof.
  intros Hv%verify_cases. destruct Hv as [| |o i a s' status res _ Hr _ _|o i a s' _ (intent & _ & Hr)]; try done.
  - unfold reserve in Hr. cbv zeta in Hr. destruct (approval_scope_sha256 _) as [intent|]; [|by injection Hr as <- _].
    destruct (reserve_once _ _ _ _ _) as [s1 r1] eqn:E. injection Hr as <- _.
    apply rtc_once. by repeat eexists.
  - apply rtc_once. by repeat eexists.
Qed.

Context `{!ReplayLedgerLaws T}.
Lemma steps_keep s s' x : rtc ledger_step s s' →
  (holds_nonce s x → holds_nonce s' x) ∧ (holds_key s x → holds_key s' x).
Proof.
  induction 1 as [|s1 s2 s3 (tenant & nonce & key & intent & r & H) _ IH]; [done|].
  apply (reserve_keeps _ _ _ _ _ _ _ x) in H. naive_solver.
Qed.

(** C11. No certificate is used twice: when two verifications are accepted one after the
    other, with any reservations by anybody in between, for the same tenant they have
    different nonces and different idempotency keys, over any ledger that keeps
    the protocol's promise. *)
Theorem accepted_once (bytes1 bytes2 : string) (policy1 policy2 : TrustPolicy)
    (expected1 expected2 : ExpectedBinding) (resolver1 resolver2 : option Resolver) (now1 now2 : datetime)
    (s s1 s2 s3 : T) (r1 r2 : Result) :
  TrustPolicy_validate policy1 = Ok policy1 → TrustPolicy_validate policy2 = Ok policy2 →
  verify_action_certificate bytes1 policy1 expected1 s resolver1 now1 = (s1, Ok r1) →
  rtc ledger_step s1 s2 →
  verify_action_certificate bytes2 policy2 expected2 s2 resolver2 now2 = (s3, Ok r2) →
  r1.(avr_status) = VerificationStatus.ACCEPT → r2.(avr_status) = VerificationStatus.ACCEPT →
  expected1.(xb_tenant_id) = expected2.(xb_tenant_id) →
  expected1.(xb_nonce) ≠ expected2.(xb_nonce) ∧
  expected1.(xb_effect).(eb_idempotency_key) ≠ expected2.(xb_effect).(eb_idempotency_key).
Proof.
  intros Hp1 Hp2 H1 Hsteps H2 A1 A2 Ht.
  apply verify_accept in H1 as (o1 & i1 & a1 & U1 & (intent1 & _ & R1) & _); [|done..].
  apply verify_accept in H2 as (o2 & i2 & a2 & U2 & (intent2 & _ & R2) & _); [|done..].
  destruct U1, U2. apply expected_nonce in au_expected0 as [= T1 N1 K1], au_expected1 as [= T2 N2 K2].
  apply reserve_fresh in R1 as (_ & _ & Hn & Hk), R2 as (Fn & Fk & _).
  rewrite T1, T2, N1, N2, K1, K2, Ht in *.
  split; intros Heq; rewrite Heq in *; [apply Fn|apply Fk]; by eapply steps_keep.
Qed.
End ledger.

(** C3. A verification that returns refuses without a reservation, or the certificate is
    authorized: the envelope and its payload are within their limits and
    parse, the payload was signed by every root that counts, the policy allows the
    caller's expectation and the statement meets it, certificate and policy decision
    are live at the time, the issuers reach their threshold with distinct principals and
    distinct keys in force for that tenant and audience, an approval, if required, covers
    exactly this request, comes from enough independent approvers and is neither
    expired nor revoked, and the reservation of nonce and idempotency key was made
    for that scope.  The result names the certificate, the payload and the roots. *)
Theorem certificate_accept_sound {T} `{ReplayLedger T} (envelope_bytes : string) (policy : TrustPolicy)
    (expected : ExpectedBinding) (s s' : T) (resolver : option Resolver) (now : datetime) (r : Result) :
  TrustPolicy_validate policy = Ok policy →
  verify_action_certificate envelope_bytes policy expected s resolver now = (s', Ok r) →
  refusal r ∨
  ∃ o issuers approvers, authorized envelope_bytes policy expected resolver now o issuers approvers ∧
    reserves s o.(op_statement) s' ∧ r = accepted_result o issuers approvers.
Proof.
  intros Hp Hv. destruct (decide (r.(avr_status) = VerificationStatus.ACCEPT)) as [Ha|Ha].
  - right. by eapply verify_accept.
  - left. apply verify_cases in Hv. remember (Ok r) as res.
    destruct Hv as [r0 Hr| |o i a s' status res _ _ _ Hr|o i a s' _ _]; [by injection Heqres as ->|done|auto|].
    apply bind_Ok in Heqres as (? & _ & [= <-]). done.
Qed.
End sound.

(** ** What an approval scope covers *)
Section scope.
Context `{P : Platform}.

(** [dump_inj] proves that a dump with one canonical form has one value. *)
Ltac dump_inj := intros a b H; destruct a, b; f_equal;
  (eapply strings_agree; [|exact H|..]; [reflexivity|repeat constructor..]).

Lemma PrincipalBinding_dump_inj a b :
  canonicalize [] (PrincipalBinding_dump a) = canonicalize [] (PrincipalBinding_dump b) → a = b.
Proof. revert a b. dump_inj. Qed.
Lemma DelegationHop_dump_inj a b :
  canonicalize [] (DelegationHop_dump a) = canonicalize [] (DelegationHop_dump b) → a = b.
Proof. revert a b. dump_inj. Qed.
Lemma SubjectBinding_dump_inj a b :
  canonicalize [] (SubjectBinding_dump a) = canonicalize [] (SubjectBinding_dump b) → a = b.
Proof. revert a b. dump_inj. Qed.
Lemma ActionBinding_dump_inj a b :
  canonicalize [] (ActionBinding_dump a) = canonicalize [] (ActionBinding_dump b) → a = b.
Proof. revert a b. dump_inj. Qed.
Lemma ResourceBinding_dump_inj a b :
  canonicalize [] (ResourceBinding_dump a) = canonicalize [] (ResourceBinding_dump b) → a = b.
Proof. revert a b. dump_inj. Qed.
Lemma ContextBinding_dump_inj a b :
  canonicalize [] (ContextBinding_dump a) = canonicalize [] (ContextBinding_dump b) → a = b.
Proof. revert a b. dump_inj. Qed.
Lemma EffectBinding_dump_inj a b :
  canonicalize [] (EffectBinding_dump a) = canonicalize [] (EffectBinding_dump b) → a = b.
Proof. revert a b. dump_inj. Qed.
Lemma InTotoSubject_dump_inj a b :
  canonicalize [] (InTotoSubject_dump a) = canonicalize [] (InTotoSubject_dump b) → a = b.
Proof.
  intros H. assert (canonicalize [] (VDict [("sha256", VStr a.(its_sha256))]) =
    canonicalize [] (VDict [("sha256", VStr b.(its_sha256))])) as [= Hd].
  { eapply fields_agree; [|exact H|..]; [reflexivity|repeat constructor..]. }
  assert (a.(its_name) = b.(its_name)); [|destruct a, b; cbn in *; congruence].
  eapply strings_agree; [|exact H|..]; [reflexivity|repeat constructor..].
Qed.

(** A dump and its inverse on canonical forms, for the items of a list *)
Lemma seq_dump_inj {A} (dump : A → pyval) (l l' : list A) :
  (∀ a b, canonicalize [] (dump a) = canonicalize [] (dump b) → a = b) →
  (∀ a, wf_py (dump a) = true) →
  canonicalize [] (VSeq (map dump l)) = canonicalize [] (VSeq (map dump l')) → l = l'.
Proof.
  intros Hinj Hwf H. assert (mapR id (map (canonicalize []) (map dump l)) =
    mapR id (map (canonicalize []) (map dump l'))) as E; [|clear H; revert l' E].
  { cbn [canonicalize] in H. destruct (mapR id (map (canonicalize []) (map dump l))) as [x|e] eqn:E1;
      destruct (mapR id (map (canonicalize []) (map dump l'))) as [y|e'] eqn:E2; cbn in H; congruence. }
  assert (∀ k, ∃ js, mapR id (map (canonicalize []) (map dump k)) = Ok js) as Htot.
  { intros k. apply mapR_total. intros x Hx. apply list_elem_of_In in Hx.
    rewrite map_map in Hx. apply in_map_iff in Hx as (a & <- & _).
    destruct (canonicalize_wf [] (dump a) (Hwf a)) as (j & -> & _). by exists j. }
  induction l as [|a l IH]; intros [|b l'] E; simpl in E; unfold id in E; try done.
  - destruct (canonicalize_wf [] (dump b) (Hwf b)) as (j & Hj & _). rewrite Hj in E.
    destruct (Htot l') as [js Hjs]. unfold id in Hjs. by rewrite Hjs in E.
  - destruct (canonicalize_wf [] (dump a) (Hwf a)) as (j & Hj & _). rewrite Hj in E.
    destruct (Htot l) as [js Hjs]. unfold id in Hjs. by rewrite Hjs in E.
  - destruct (canonicalize_wf [] (dump a) (Hwf a)) as (j & Hj & _).
    destruct (canonicalize_wf [] (dump b) (Hwf b)) as (j' & Hj' & _).
    destruct (Htot l) as [js Hjs], (Htot l') as [js' Hjs']. unfold id in Hjs, Hjs'.
    rewrite Hj, Hj', Hjs, Hjs' in E. injection E as -> ->. f_equal; [apply Hinj; congruence|].
    apply IH. unfold id. congruence.
Qed.

Lemma wf_scope statement : wf_py (VDict (scope_items statement)) = true.
Proof.
  assert (∀ A (dump : A → pyval) l, (∀ a, wf_py (dump a) = true) → forallb wf_py (map dump l) = true) as Hl.
  { intros A dump l Hw. induction l as [|a l IH]; simpl; [done|]. by rewrite Hw, IH. }
  cbn [wf_py scope_items]. apply andb_true_iff. split; [reflexivity|]. apply forallb_forall.
  intros kv Hkv%list_elem_of_In. unfold scope_items in Hkv. cbv zeta in Hkv.
  elem_cases; try reflexivity; subst; by apply Hl.
Qed.

(** What a statement asks for: everything but the approval itself, the identity of the
    certificate, its nonce and its own lifetime *)
Definition requested (st : ActionCertificateStatement) :=
  let p := st.(acs_predicate) in
  (p.(acp_tenant_id), p.(acp_human_principal), p.(acp_workload_principal), p.(acp_audience),
   p.(acp_delegation_chain), st.(acs_subject), p.(acp_subject), p.(acp_action), p.(acp_resource),
   p.(acp_context), p.(acp_data_classification), PolicyBinding_dump p.(acp_policy), p.(acp_effect)).

Lemma PolicyBinding_dump_inj a b :
  canonicalize [] (PolicyBinding_dump a) = canonicalize [] (PolicyBinding_dump b) →
  PolicyBinding_dump a = PolicyBinding_dump b.
Proof.
  destruct a as [? ? ? ? [? ?] [? ?]], b as [? ? ? ? [? ?] [? ?]]. intros H. unfold PolicyBinding_dump.
  cbn.
  f_equal. repeat apply f_equal2; try reflexivity; f_equal;
    (eapply strings_agree; [|exact H|..]; [reflexivity|repeat constructor..]).
Qed.

(** C12. The approval scope commits to the request: two statements with the same scope
    digest ask for the same action on the same resource, by the same principals through
    the same delegations, for the same tenant, audience, policy decision and effect, or
    their canonical texts are a SHA-256 collision. *)
Theorem approval_scope_binds (a b : ActionCertificateStatement) (scope : string) :
  approval_scope_sha256 a = Ok scope → approval_scope_sha256 b = Ok scope →
  requested a = requested b ∨ colliding [] (VDict (scope_items a)) (VDict (scope_items b)).
Proof.
  intros Ha Hb. destruct (digest_injective _ _ _ _ (wf_scope a) (wf_scope b) Ha Hb) as [Hj|]; [left|by right].
  assert (∀ k v w, (k, v) ∈ scope_items a → (k, w) ∈ scope_items b →
    canonicalize [] v = canonicalize [] w) as Hf
    by (intros k v w; apply fields_agree; [apply wf_scope|exact Hj]).
  assert (∀ k s t, (k, VStr s) ∈ scope_items a → (k, VStr t) ∈ scope_items b → s = t) as Hs
    by (intros k s t; apply strings_agree; [apply wf_scope|exact Hj]).
  unfold requested. cbv zeta. repeat apply f_equal2.
  all: first [ apply PrincipalBinding_dump_inj | apply SubjectBinding_dump_inj | apply ActionBinding_dump_inj
    | apply ResourceBinding_dump_inj | apply ContextBinding_dump_inj | apply EffectBinding_dump_inj
    | apply PolicyBinding_dump_inj | apply (seq_dump_inj DelegationHop_dump); [apply DelegationHop_dump_inj|done|]
    | apply (seq_dump_inj InTotoSubject_dump); [apply InTotoSubject_dump_inj|done|] | idtac ].
  all: first [eapply Hf; unfold scope_items; cbv zeta; repeat constructor
             |eapply Hs; unfold scope_items; cbv zeta; repeat constructor].
Qed.
End scope.
