(* ===== verification/CertTotal.v ===== *)
(** * Every verification of a certificate answers

    With a valid policy and a clock away from the ends of the calendar no guard, digest,
    decoding or comparison of the verifier raises, whatever bytes, expectation,
    resolver and ledger it is given. *)
From S2P Require Import Prelude Json Dicts JsonTotal PyTime PyDecimal Sha256 Canonical Base64 Platforms Models.
From S2P Require Import Checks CertModels CertLedger Evidence Certificate CertFacts CertSound.
Local Open Scope Z_scope.

(** ** The clock *)
Definition clear_clock (now : datetime) : Prop :=
  ∃ t, now = Aware t ∧ seconds 300 ≤ t ≤ MAX_US - seconds 300.

Lemma clock_add now skew : clear_clock now → -300 ≤ skew ≤ 300 →
  ∃ t, dt_add now (seconds skew) = Ok (Aware t).
Proof.
  intros (t & -> & Ht) Hs. unfold dt_add, in_datetime_range. unfold seconds, us_per_second in *.
  rewrite (proj2 (Z.leb_le 0 _)), (proj2 (Z.leb_le _ MAX_US)) by lia. cbn. eauto.
Qed.

Lemma aware_ltb t u : is_aware u = true → returns (dt_ltb (Aware t) u).
Proof. destruct u; [done|]. intros _. apply returns_Ok. Qed.

Lemma require_aware_Ok t label x : _require_aware t label = Ok x → x = t ∧ is_aware t = true.
Proof. unfold _require_aware. intros. by inv_ok. Qed.

(** ** What the contracts establish *)
Record root_ok (root : TrustRoot) : Prop := {
  ro_key : returns (decode_canonical_base64 root.(tr_public_key_b64) "Ed25519 public key" (Some 32%nat) false);
  ro_before : is_aware root.(tr_not_before) = true;
  ro_after : is_aware root.(tr_not_after) = true;
  ro_revoked : ∀ t, root.(tr_revoked_at) = Some t → is_aware t = true;
}.
Lemma TrustRoot_root_ok root x : TrustRoot_validate root = Ok x → root_ok root.
Proof.
  unfold TrustRoot_validate. intros H. apply bind_Ok in H as (? & _ & H). apply bind_Ok in H as (? & _ & H).
  apply bind_Ok in H as (? & _ & H). apply bind_Ok in H as (key & Hk & H). apply bind_Ok in H as (? & Hw & _).
  unfold root_window in Hw. apply bind_Ok in Hw as (b & Hb%require_aware_Ok & Hw).
  apply bind_Ok in Hw as (a & Ha%require_aware_Ok & Hw). apply bind_Ok in Hw as (? & _ & Hw).
  apply bind_Ok in Hw as (? & _ & Hw). split; [by eexists|tauto..|]. intros t Ht. rewrite Ht in Hw.
  by apply bind_Ok in Hw as (? & [_ ?]%require_aware_Ok & _).
Qed.

Record policy_ok (policy : TrustPolicy) : Prop := {
  po_roots : ∀ root, root ∈ policy.(tp_roots) → root_ok root;
  po_skew : 0 ≤ policy.(tp_max_clock_skew_seconds) ≤ 300;
}.
Lemma TrustPolicy_policy_ok policy : TrustPolicy_validate policy = Ok policy → policy_ok policy.
Proof.
  unfold TrustPolicy_validate. intros H. apply bind_Ok in H as (? & Hc%require_Ok & H).
  apply bind_Ok in H as (? & Hr & _). split.
  - intros root Hx. destruct (mapR_all _ _ _ _ Hr Hx) as [v Hv]. by eapply TrustRoot_root_ok.
  - apply andb_true_iff in Hc as [Hc _]. apply andb_true_iff in Hc as [_ Hc]. unfold within in Hc.
    apply andb_true_iff in Hc. lia.
Qed.

(** The times of a valid predicate are aware. *)
Record predicate_ok (p : ActionCertificatePredicate) : Prop := {
  pr_issued : is_aware p.(acp_issued_at).(wt_at) = true;
  pr_before : is_aware p.(acp_not_before).(wt_at) = true;
  pr_expires : is_aware p.(acp_expires_at).(wt_at) = true;
  pr_policy : is_aware p.(acp_policy).(plb_expires_at).(wt_at) = true;
  pr_approval : ∀ t, p.(acp_approval).(apb_expires_at) = Some t → is_aware t.(wt_at) = true;
}.
Lemma predicate_predicate_ok p x : ActionCertificatePredicate_validate p = Ok x → predicate_ok p.
Proof.
  unfold ActionCertificatePredicate_validate. intros H.
  repeat (let y := fresh "y" in let Hy := fresh "Hy" in apply bind_Ok in H as (y & Hy & H)).
  match goal with H : predicate_window p = Ok _ |- _ => rename H into Hw end.
  match goal with H : PolicyBinding_validate _ = Ok _ |- _ => rename H into Hp end.
  unfold predicate_window in Hw. apply bind_Ok in Hw as (a & [_ Ha]%require_aware_Ok & Hw).
  apply bind_Ok in Hw as (b & [_ Hb]%require_aware_Ok & Hw).
  apply bind_Ok in Hw as (c & [-> Hc]%require_aware_Ok & Hw).
  repeat (let y := fresh "y" in let Hy := fresh "Hz" in apply bind_Ok in Hw as (y & Hy & Hw)).
  unfold PolicyBinding_validate in Hp. apply bind_Ok in Hp as (? & _ & Hp).
  apply bind_Ok in Hp as (? & _ & Hp). apply bind_Ok in Hp as (? & [_ He]%require_aware_Ok & _).
  split; [done..|]. intros t Ht. rewrite Ht in Hw. apply bind_Ok in Hw as (s & Hs & _).
  destruct (wt_at t), (wt_at (acp_expires_at p)); done.
Qed.

(** ** Parsing *)
Lemma decode_raise value label n url e : decode_canonical_base64 value label n url = Raise e → is_value_error e = true.
Proof.
  unfold decode_canonical_base64. cbv zeta. intros [[_ ->]%require_Raise|(? & _ & H)]%bind_Raise; [done|].
  destruct (b64decode _); [|by injection H as <-].
  apply bind_Raise in H as [[_ ->]%require_Raise|(? & _ & H)]; [done|].
  by apply bind_Raise in H as [[_ ->]%require_Raise|(? & _ & H)].
Qed.

Lemma decode_relabel value label label' n url :
  returns (decode_canonical_base64 value label n url) → returns (decode_canonical_base64 value label' None url).
Proof.
  intros [x H]. exists x. unfold decode_canonical_base64 in *. cbv zeta in *.
  apply bind_Ok in H as (? & Ha%require_Ok & H). rewrite Ha. cbn [require mbind result_bind].
  destruct (b64decode _); [|done]. apply bind_Ok in H as (? & Hb%require_Ok & H). rewrite Hb.
  cbn [require mbind result_bind]. by apply bind_Ok in H as (? & _ & H).
Qed.

Lemma strict_json_raise payload label e : _strict_json_object payload label = Raise e → is_value_error e = true.
Proof.
  unfold _strict_json_object. cbv zeta. destruct (negb (is_utf8 false payload)); [by intros [= <-]|].
  pose proof (loads_with_ends strict_hooks
    (λ e, (is_value_error e || bool_decide (e = Unmodelled "lone surrogate")) = true)) as Hends.
  specialize (Hends ltac:(done) ltac:(done)).
  assert (∀ l e, object_pairs strict_hooks l = Raise e →
    is_value_error e || bool_decide (e = Unmodelled "lone surrogate") = true) as Hp.
  { intros l e'. cbn. destruct (unique (map fst l)); [done|by intros [= <-]]. }
  assert (∀ w e, parse_constant strict_hooks w = Raise e →
    is_value_error e || bool_decide (e = Unmodelled "lone surrogate") = true) as Hc by by intros w e' [= <-].
  specialize (Hends Hp Hc payload). destruct (loads_with strict_hooks payload) as [j|e'].
  - destruct (has_big_int j); [by intros [= <-]|]. destruct j; by intros [= <-].
  - rewrite Hends. by intros [= <-].
Qed.

Lemma parse_json_model_raise {A} (load : string → result A) payload label e :
  (∀ e, load payload = Raise e → is_value_error e = true) →
  parse_json_model load payload label = Raise e → is_value_error e = true.
Proof.
  unfold parse_json_model. intros Hl [Hs|(? & _ & H)]%bind_Raise; [by eapply strict_json_raise|].
  destruct (load payload) as [v|e'] eqn:E; [done|]. rewrite (Hl e' eq_refl) in H. by injection H as <-.
Qed.

Lemma parse_json_model_Ok {A} (load : string → result A) payload label x :
  parse_json_model load payload label = Ok x → load payload = Ok x.
Proof.
  unfold parse_json_model. intros (? & _ & H)%bind_Ok. destruct (load payload) as [y|e]; [congruence|].
  by destruct (is_value_error e).
Qed.

(** ** Roots *)
Section total.
Context `{P : Platform} `{!PlatformLaws P} `{K : Ed25519} `{C : CertificateParser} `{!CertificateParserLaws C}.
Context (policy : TrustPolicy) (now : datetime).
Hypothesis Hpolicy : policy_ok policy.
Hypothesis Hnow : clear_clock now.

Notation skew := (seconds policy.(tp_max_clock_skew_seconds)).

Lemma clock_shift : ∃ a b, dt_add now skew = Ok (Aware a) ∧ dt_add now (- skew) = Ok (Aware b).
Proof.
  destruct (po_skew _ Hpolicy). destruct (clock_add now (tp_max_clock_skew_seconds policy) Hnow) as [a Ha]; [lia|].
  destruct (clock_add now (- tp_max_clock_skew_seconds policy) Hnow) as [b Hb]; [lia|].
  exists a, b. split; [done|]. rewrite <- Hb. f_equal. unfold seconds. lia.
Qed.

Lemma current_returns root : root_ok root → returns (trust_root_is_current root now skew).
Proof.
  intros Hr. destruct clock_shift as (a & b & Ha & Hb). unfold trust_root_is_current. rewrite Ha, Hb.
  cbn [mbind result_bind]. apply returns_bind; [by apply aware_ltb, ro_before|]. intros [] _; [apply returns_Ok|].
  apply returns_bind; [by apply aware_ltb, ro_after|]. intros [] _; [|apply returns_Ok]. cbn [negb].
  destruct (tr_revoked_at root) as [t|] eqn:Et; [|apply returns_Ok]. apply aware_ltb. by eapply ro_revoked.
Qed.

Lemma fingerprint_returns root : root_ok root → returns (trust_root_fingerprint root).
Proof.
  intros Hr. unfold trust_root_fingerprint. apply returns_bind; [|auto with returns].
  eapply decode_relabel. by apply ro_key.
Qed.

Lemma fingerprints_return l : Forall root_ok l → returns (mapR trust_root_fingerprint l).
Proof.
  intros Hl. destruct (mapR_total trust_root_fingerprint l) as [ys ->]; [|apply returns_Ok].
  rewrite Forall_forall in Hl. intros x Hx. by apply fingerprint_returns, Hl.
Qed.

Lemma qualifying_returns roots purpose predicate approvers :
  Forall root_ok roots → returns (_qualifying_roots roots purpose predicate policy now approvers).
Proof.
  intros Hl. unfold _qualifying_roots. apply returns_bind; [|intros [] _; apply returns_Ok].
  apply returns_foldR. intros [distinct principals] root Hx. rewrite Forall_forall in Hl. cbn [add_distinct].
  apply returns_bind.
  - unfold qualifies. cbv zeta. destruct (_ || _); [apply returns_Ok|].
    apply returns_bind; [by apply current_returns, Hl|auto with returns].
  - intros [] _; [|apply returns_Ok]. cbn [negb].
    apply returns_bind; [by apply fingerprint_returns, Hl|]. intros fp _. destruct (_ || _); apply returns_Ok.
Qed.

Lemma verified_returns envelope payload :
  DsseEnvelope_validate envelope = Ok envelope →
  returns (cryptographically_verified_roots envelope payload policy.(tp_roots)).
Proof.
  unfold DsseEnvelope_validate. intros H. apply bind_Ok in H as (? & _ & H). apply bind_Ok in H as (? & _ & H).
  apply bind_Ok in H as (? & _ & H). apply bind_Ok in H as (? & _ & H). apply bind_Ok in H as (sigs & Hs & _).
  unfold cryptographically_verified_roots. apply returns_bind; [|auto with returns].
  apply returns_foldR. intros v signature Hx. destruct (mapR_all _ _ _ _ Hs Hx) as [sg Hsg].
  unfold try_signature, DsseSignature_validate in *. apply bind_Ok in Hsg as (? & _ & Hsg).
  apply bind_Ok in Hsg as (? & _ & Hsg). apply bind_Ok in Hsg as (bytes & Hb & _). rewrite Hb.
  cbn [mbind result_bind]. apply returns_foldR. intros v' root Hroot. rewrite elem_of_isort in Hroot.
  unfold try_root. apply returns_bind; [apply ro_key; by eapply po_roots|auto with returns].
Qed.

Lemma verified_incl envelope payload l :
  cryptographically_verified_roots envelope payload policy.(tp_roots) = Ok l → Forall root_ok l.
Proof.
  unfold cryptographically_verified_roots. intros (verified & H & [= <-])%bind_Ok.
  assert (Forall (λ kv, root_ok (snd kv)) verified) as Hv.
  { eapply (foldR_inv (λ v, Forall (λ kv : string * TrustRoot, root_ok (snd kv)) v)); [|constructor|exact H].
    intros t sg t' _ Ht Hs. unfold try_signature in Hs. apply bind_Ok in Hs as (bytes & _ & Hs).
    eapply (foldR_inv (λ v, Forall (λ kv : string * TrustRoot, root_ok (snd kv)) v)); [|exact Ht|exact Hs].
    intros u root u' Hroot Hu Hr. rewrite elem_of_isort in Hroot. unfold try_root in Hr.
    apply bind_Ok in Hr as (key & _ & [= <-]). destruct (ed25519_verify _ _ _); [|done].
    rewrite Forall_forall in *. intros kv [->|Hkv]%elem_of_dict_set; [by eapply po_roots|auto]. }
  apply Forall_forall. intros r Hr. apply list_elem_of_In, in_map_iff in Hr as (kv & <- & Hkv%list_elem_of_In).
  rewrite elem_of_isort in Hkv. rewrite Forall_forall in Hv. auto.
Qed.

(** ** Results *)
Definition reasons_fit (status : VerificationStatus) (reasons : list VerificationReason) (reserved : bool) : bool :=
  size_between 1 16 reasons && unique reasons &&
  match status with
  | VerificationStatus.ACCEPT => bool_decide (reasons = [VerificationReason.ACCEPTED]) && reserved
  | VerificationStatus.REJECT => negb reserved && reasons_within REJECT_VERIFICATION_REASONS reasons
  | VerificationStatus.UNKNOWN => negb reserved && reasons_within UNKNOWN_VERIFICATION_REASONS reasons
  end.

Lemma result_returns status reasons cid payload (i a : list string) reserved :
  reasons_fit status (dedup reasons) reserved = true → (length i ≤ 16)%nat → (length a ≤ 16)%nat →
  returns (_verification_result status reasons cid (Some (sha256_bytes payload)) i a reserved).
Proof.
  intros Hf Hi Ha. unfold _verification_result, VerificationResult_validate.
  cbn [avr_reason_codes avr_payload_sha256 avr_verified_action_issuer_roots avr_verified_human_approval_roots
    avr_status avr_reserved opt_all]. apply andb_true_iff in Hf as [[H1 H2]%andb_true_iff H3].
  rewrite H1, H2, sha256_bytes_shape. unfold size_between at 1 2. rewrite !length_isort.
  rewrite !(proj2 (Z.leb_le _ _)) by lia. cbn [andb require mbind result_bind].
  destruct status; rewrite H3; apply returns_Ok.
Qed.

Lemma stop_returns {A} status reasons cid payload (i a : list TrustRoot) :
  reasons_fit status (dedup reasons) false = true → (length i ≤ 16)%nat → (length a ≤ 16)%nat →
  returns (stop (A := A) status reasons cid (Some (sha256_bytes payload)) i a).
Proof.
  intros Hf Hi Ha. unfold stop. apply returns_bind; [|auto with returns].
  apply result_returns; by rewrite ?length_map.
Qed.

Ltac stopped := apply stop_returns; [vm_compute; reflexivity|simpl; lia..].

(** Distinct principals of an allowlist are at most as many as the allowlist has. *)
Lemma quorum_length purpose o approvers threshold l n :
  (length (if is_purpose purpose ACTION_ISSUER then policy.(tp_allowed_action_issuer_principals)
           else policy.(tp_allowed_approval_principals)) ≤ n)%nat →
  quorum policy purpose now o approvers threshold l → (length l ≤ n)%nat.
Proof.
  intros Hn (_ & [Hp _] & Hall). etransitivity; [|exact Hn]. rewrite <- (length_map tr_principal_id l).
  apply submseteq_length, NoDup_submseteq; [done|]. intros p Hin.
  apply list_elem_of_In, in_map_iff in Hin as (r & <- & Hr%list_elem_of_In). by apply (Hall r Hr).
Qed.

(** ** The checks *)
Hypothesis Hissuers : (length policy.(tp_allowed_action_issuer_principals) ≤ 16)%nat.
Hypothesis Happrovers : (length policy.(tp_allowed_approval_principals) ≤ 16)%nat.

Lemma issuer_count o approvers threshold l :
  quorum policy ACTION_ISSUER now o approvers threshold l → (length l ≤ 16)%nat.
Proof. by apply quorum_length. Qed.
Lemma approver_count o approvers threshold l :
  quorum policy HUMAN_APPROVAL now o approvers threshold l → (length l ≤ 16)%nat.
Proof. by apply quorum_length. Qed.

Definition opened_ok (o : Opened) : Prop :=
  (∃ payload, o.(op_payload_sha256) = sha256_bytes payload) ∧ Forall root_ok o.(op_verified_roots) ∧
  predicate_ok o.(op_statement).(acs_predicate).

Lemma answers_stop {A} (Q : A → Prop) status reasons cid sha i a :
  returns (stop (A := A) status reasons cid sha i a) → answers (stop status reasons cid sha i a) Q.
Proof. intros H. split; [done|]. by intros x ?%stop_Go. Qed.
Lemma open_envelope_answers envelope_bytes : answers (open_envelope envelope_bytes policy) opened_ok.
Proof.
  unfold open_envelope. destruct (_ <? _); [apply answers_stop; by eexists|].
  match goal with |- answers (match ?m with _ => _ end) _ => destruct m as [[envelope payload]|e] eqn:E end.
  - apply bind_Ok in E as (env & He & E). apply bind_Ok in E as (pay & _ & [= -> ->]).
    apply parse_json_model_Ok, load_DsseEnvelope_valid in He.
    destruct (_ <? _); [apply answers_stop; by eexists|].
    apply answers_bind; [by apply verified_returns|]. intros roots Hroots.
    destruct (negb _); [apply answers_stop; stopped|].
    destruct (parse_json_model load_ActionCertificateStatement _ _) as [st|e] eqn:Es.
    + apply answers_Go. split; [by eexists|]. split; [by eapply verified_incl|].
      apply parse_json_model_Ok, load_Statement_valid in Es. unfold ActionCertificateStatement_validate in Es.
      apply bind_Ok in Es as (? & _ & Es). apply bind_Ok in Es as (? & _ & Es).
      apply bind_Ok in Es as (? & _ & Es). apply bind_Ok in Es as (? & Hp & _).
      by eapply predicate_predicate_ok.
    + rewrite (parse_json_model_raise _ _ _ _ (load_Statement_raise _) Es). apply answers_stop; stopped.
  - assert (is_value_error e = true) as ->; [|apply answers_stop; by eexists].
    apply bind_Raise in E as [E|(env & He & E)].
    + by apply (parse_json_model_raise _ _ _ _ (load_DsseEnvelope_raise _) E).
    + apply bind_Raise in E as [E|(? & _ & E)]; [by eapply decode_raise|done].
Qed.

Lemma time_returns predicate : predicate_ok predicate → returns (_certificate_time_is_valid predicate policy now).
Proof.
  intros [H1 H2 H3 H4 _]. destruct clock_shift as (a & b & Ha & Hb).
  unfold _certificate_time_is_valid. cbv zeta. rewrite Ha, Hb.
  apply returns_bind; [destruct (wt_at (acp_expires_at predicate)), (wt_at (acp_issued_at predicate)); try done;
    apply returns_Ok|].
  intros life _. destruct (_ <? _); [apply returns_Ok|]. cbn [mbind result_bind].
  apply returns_bind; [by apply aware_ltb|]. intros [] _; [apply returns_Ok|].
  apply returns_bind; [by apply aware_ltb|]. intros [] _; [by apply aware_ltb|apply returns_Ok].
Qed.

Lemma check_issuers_answers expected o :
  opened_ok o → answers (check_issuers policy expected now o)
    (quorum policy ACTION_ISSUER now o None policy.(tp_action_issuer_threshold)).
Proof.
  intros Ho. split; [|intros i Hc; by apply check_issuers_Go in Hc as (_ & _ & _ & ?)]. destruct Ho as ([payload Hsha] & Hroots & Hp).
  unfold check_issuers. cbv zeta. rewrite Hsha.
  destruct (negb _); [stopped|]. destruct (negb _); [stopped|].
  apply returns_bind; [by apply time_returns|]. intros [] _; [|stopped]. cbn [negb].
  apply returns_bind; [by apply qualifying_returns|]. intros l _.
  destruct (_ <? _); [stopped|apply returns_Ok].
Qed.

Lemma scope_returns st : returns (approval_scope_sha256 st).
Proof. apply digest_total, wf_scope. Qed.

Lemma quorum_roots o purpose approvers threshold l :
  opened_ok o → quorum policy purpose now o approvers threshold l → Forall root_ok l.
Proof.
  intros (_ & Hr & _) (_ & _ & Hl). rewrite Forall_forall in Hr |- *. intros r Hx. by apply Hr, Hl.
Qed.

Lemma check_approval_answers resolver o issuers :
  opened_ok o → quorum policy ACTION_ISSUER now o None policy.(tp_action_issuer_threshold) issuers →
  answers (check_approval policy resolver now o issuers) (λ l, (length l ≤ 16)%nat).
Proof.
  intros Ho Hq. split.
  - pose proof (issuer_count _ _ _ _ Hq) as Hi. pose proof (quorum_roots _ _ _ _ _ Ho Hq) as Hir.
    pose proof Ho as ([payload Hsha] & Hroots & Hp). unfold check_approval. cbv zeta. rewrite Hsha.
    destruct (negb _); [apply returns_Ok|]. apply returns_bind; [apply scope_returns|]. intros scope _.
    destruct (negb _); [stopped|]. apply returns_bind; [by apply qualifying_returns|]. intros l Hl.
    destruct (Z.ltb_spec (Z.of_nat (length l)) policy.(tp_human_approval_threshold)); [stopped|].
    apply qualifying_roots_spec in Hl as [Hd Hl].
    assert (quorum policy HUMAN_APPROVAL now o _ policy.(tp_human_approval_threshold) l) as Hql
      by (split; [done|split; [exact Hd|exact Hl]]).
    pose proof (approver_count _ _ _ _ Hql) as Ha. pose proof (quorum_roots _ _ _ _ _ Ho Hql) as Har.
    apply returns_bind.
    { unfold self_approved. cbv zeta. apply returns_bind; [by apply fingerprints_return|]. intros ks _.
      apply returns_bind; [by apply fingerprints_return|auto with returns]. }
    intros [] _; [stopped|]. apply returns_bind.
    { destruct (apb_expires_at _) as [t|] eqn:Et; [|apply returns_Ok]. destruct Hnow as (n & -> & _).
      apply aware_ltb. by eapply pr_approval. }
    intros [] _; [|stopped]. cbn [negb]. destruct resolver as [resolve|]; [|stopped].
    destruct (resolve _ _ scope now) as [[]|]; try (by stopped). apply returns_Ok.
  - intros l Hl. apply check_approval_Go in Hl. destruct (apb_required _); [|subst; simpl; lia].
    destruct Hl as (? & ? & ? & _ & _ & Hql & _). by eapply approver_count.
Qed.

(** What reaches the reservation can be reported. *)
Definition reportable (x : Opened * list TrustRoot * list TrustRoot) : Prop :=
  let '(o, issuers, approvers) := x in
  (∃ payload, o.(op_payload_sha256) = sha256_bytes payload) ∧ (length issuers ≤ 16)%nat ∧ (length approvers ≤ 16)%nat.

Lemma admit_answers envelope_bytes expected resolver :
  answers (admit_certificate envelope_bytes policy expected resolver now) reportable.
Proof.
  unfold admit_certificate. apply answers_bind.
  { destruct Hnow as (t & -> & _). apply returns_Ok. }
  intros _ _. eapply answers_then; [apply open_envelope_answers|]. intros o Ho.
  eapply answers_then; [by apply check_issuers_answers|]. intros i Hi.
  eapply answers_then; [by apply check_approval_answers|]. intros a Ha. apply answers_Go.
  split; [apply Ho|]. split; [by eapply issuer_count|done].
Qed.

Lemma verify_returns {T} `{ReplayLedger T} envelope_bytes expected (s : T) resolver :
  returns (snd (verify_action_certificate envelope_bytes policy expected s resolver now)).
Proof.
  destruct (admit_answers envelope_bytes expected resolver) as [[c Hc] Hq].
  unfold verify_action_certificate. rewrite Hc. destruct c as [r|[[o i] a]]; [apply returns_Ok|].
  destruct (Hq _ Hc) as ([payload Hsha] & Hi & Ha). destruct (reserve s (op_statement o)) as [s' status].
  cbn [snd]. rewrite Hsha. destruct status; (apply result_returns; [vm_compute; reflexivity|by rewrite length_map..]).
Qed.
End total.

