(* ===== verification/CertDemo.v ===== *)
(** * A certificate, end to end

    Two certificates with approvals, verified under a toy digest, a toy signature scheme
    and a table for the contract parser: the hypotheses of the theorems about
    certificates hold together. *)
From S2P Require Import Prelude Json Dicts PyTime PyDecimal Sha256 Canonical Base64 Platforms Models.
From S2P Require Import Checks CertModels CertLedger Evidence Certificate CertFacts CertSound CertTotal.
Local Open Scope Z_scope.
#[local] Existing Instance toy_platform.
#[local] Existing Instance toy_platform_laws.

(** A signature of the toy scheme is the key, twice. *)
#[export] Instance toy_ed25519 : Ed25519 := λ key signature message, String.eqb signature (key +:+ key).
Definition issuer_key : string := "0123456789abcdef0123456789abcdef".
Definition approver_key : string := "fedcba9876543210fedcba9876543210".
Definition observer_key : string := "00112233445566778899aabbccddeeff".
Definition outcome_key : string := "ffeeddccbbaa99887766554433221100".

Definition day : Z := 86400 * us_per_second.
Definition demo_now : datetime := Aware (738000 * day).
Definition at_hour (h : Z) : datetime := Aware (738000 * day + hours h).
Definition wire_hour (h : Z) : wire_time := mk_wire_time (at_hour h) (isoformat_us (738000 * day + hours h) +:+ "Z").

Definition demo_root (id : string) (purpose : TrustPurpose) (key principal : string) : TrustRoot :=
  mk_TrustRoot id [] "Ed25519" purpose (b64encode false key) "TENANT-1" principal ["proofflow-demo"]
    [ACTION_CERTIFICATE_PREDICATE_TYPE] [] [] [] [] (at_hour (-24)) (at_hour 24) None.
Definition demo_policy : TrustPolicy := mk_TrustPolicy "proofflow.action-certificate-trust/v0.1"
  ["TENANT-1"] ["HUMAN-1"] ["WORKLOAD-1"] ["ISSUER-1"] ["APPROVER-1"] ["OBSERVER-1"] ["OUTCOME-1"] [LOCAL_BYTES]
  ["SOURCE-1"] ["proofflow-demo"; "proofflow-execution-receipt"; "proofflow-outcome-closure"]
  [ACTION_CERTIFICATE_PREDICATE_TYPE; EXECUTION_RECEIPT_PREDICATE_TYPE; OUTCOME_CLOSURE_PREDICATE_TYPE]
  true 1 1 1 1 86400 60
  [demo_root "ROOT-1" ACTION_ISSUER issuer_key "ISSUER-1";
   demo_root "ROOT-2" HUMAN_APPROVAL approver_key "APPROVER-1";
   mk_TrustRoot "ROOT-3" [] "Ed25519" EXECUTION_OBSERVER (b64encode false observer_key) "TENANT-1" "OBSERVER-1"
     ["proofflow-execution-receipt"] [EXECUTION_RECEIPT_PREDICATE_TYPE] all_execution_scopes [] [] []
     (at_hour (-24)) (at_hour 24) None;
   mk_TrustRoot "ROOT-4" [] "Ed25519" OUTCOME_OBSERVER (b64encode false outcome_key) "TENANT-1" "OUTCOME-1"
     ["proofflow-outcome-closure"] [OUTCOME_CLOSURE_PREDICATE_TYPE] [] all_outcome_scopes [LOCAL_BYTES] ["SOURCE-1"]
     (at_hour (-24)) (at_hour 24) None].

Definition no_sha : string := "sha256:" +:+ toy_hex "".
Definition demo_statement (nonce key : string) (scope : string) : ActionCertificateStatement :=
  mk_ActionCertificateStatement IN_TOTO_STATEMENT_TYPE [mk_InTotoSubject "request" (toy_hex "request")]
    ACTION_CERTIFICATE_PREDICATE_TYPE
    (mk_ActionCertificatePredicate "0.1" "CERT-1" "TENANT-1" (mk_PrincipalBinding "HUMAN-1" "issuer")
      (mk_PrincipalBinding "WORKLOAD-1" "issuer") "proofflow-demo" [mk_DelegationHop "HUMAN-1" "WORKLOAD-1" no_sha]
      (mk_SubjectBinding "case" "CASE-1" no_sha)
      (mk_ActionBinding "package" no_sha) (mk_ResourceBinding "package" "PKG-1" no_sha)
      (mk_ContextBinding "REQ-1" "0123456789abcdef0123456789abcdef" "test" no_sha) "PUBLIC_SYNTHETIC"
      (mk_PolicyBinding "POLICY-1" "1" no_sha "ALLOW" (wire_hour (-2)) (wire_hour 2))
      (mk_ApprovalBinding true (Some "APPROVAL-1") (Some scope) ["APPROVER-1"] (Some (wire_hour 2)))
      (mk_EffectBinding "write" "PKG-1" no_sha key) nonce (wire_hour (-1)) (wire_hour (-1)) (wire_hour 1)).
(** The scope does not depend on the scope digest in the approval. *)
Definition scoped (nonce key : string) : ActionCertificateStatement :=
  demo_statement nonce key
    match approval_scope_sha256 (demo_statement nonce key no_sha) with Ok scope => scope | Raise _ => "" end.
Definition statement1 : ActionCertificateStatement := Eval vm_compute in scoped "NONCE-1" "KEY-1".
Definition statement2 : ActionCertificateStatement := Eval vm_compute in scoped "NONCE-2" "KEY-2".

(** Payload [n] stands for statement [n], envelope [n] for its signed envelope. *)
Definition payload_text (n : string) : string := dumps Compact (JObj [("payload", JStr n)]).
Definition envelope_text (n : string) : string := dumps Compact (JObj [("envelope", JStr n)]).
Definition demo_envelope (n : string) : DsseEnvelope :=
  mk_DsseEnvelope DSSE_PAYLOAD_TYPE (b64encode false (payload_text n))
    [mk_DsseSignature "" (b64encode false (issuer_key +:+ issuer_key));
     mk_DsseSignature "" (b64encode true (approver_key +:+ approver_key))].
(** The envelope of a receipt, see ReceiptDemo *)
Definition receipt_payload_text : string := dumps Compact (JObj [("receipt", JStr "1")]).
Definition receipt_envelope_text : string := dumps Compact (JObj [("receipt-envelope", JStr "1")]).
Definition receipt_envelope : DsseEnvelope :=
  mk_DsseEnvelope DSSE_PAYLOAD_TYPE (b64encode false receipt_payload_text)
    [mk_DsseSignature "" (b64encode false (observer_key +:+ observer_key))].
(** The envelopes of closures, see OutcomeDemo *)
Definition outcome_payload_text (n : string) : string := dumps Compact (JObj [("outcome", JStr n)]).
Definition outcome_envelope_text (n : string) : string := dumps Compact (JObj [("outcome-envelope", JStr n)]).
Definition outcome_envelope (n : string) : DsseEnvelope :=
  mk_DsseEnvelope DSSE_PAYLOAD_TYPE (b64encode false (outcome_payload_text n))
    [mk_DsseSignature "" (b64encode false (outcome_key +:+ outcome_key))].
Definition table {A} (validate : A → result A) (entries : list (string * A)) (bytes : string) : result A :=
  match assoc bytes entries with
  | Some x => match validate x with Ok y => Ok y | Raise _ => Raise (value_error "contract") end
  | None => Raise (value_error "no such document")
  end.
#[export] Instance demo_parser : CertificateParser := {|
  load_DsseEnvelope := table DsseEnvelope_validate
    [(envelope_text "1", demo_envelope "1"); (envelope_text "2", demo_envelope "2");
     (receipt_envelope_text, receipt_envelope); (outcome_envelope_text "1", outcome_envelope "1");
     (outcome_envelope_text "2", outcome_envelope "2")];
  load_ActionCertificateStatement := table ActionCertificateStatement_validate
    [(payload_text "1", statement1); (payload_text "2", statement2)];
|}.

Lemma table_valid {A} (validate : A → result A) entries b x :
  (∀ y z, validate y = Ok z → y = z) → table validate entries b = Ok x → validate x = Ok x.
Proof.
  unfold table. intros Hv H. destruct (assoc b entries) as [y|]; [|done].
  destruct (validate y) as [z|] eqn:E; [|done]. injection H as ->. by rewrite <- (Hv y x E) at 1.
Qed.
Lemma table_raise {A} (validate : A → result A) entries b e :
  table validate entries b = Raise e → is_value_error e = true.
Proof. unfold table. destruct (assoc b entries) as [y|]; [destruct (validate y)|]; by intros [= <-]. Qed.

#[export] Instance demo_parser_laws : CertificateParserLaws demo_parser.
Proof.
  split.
  - intros b x. apply table_valid. unfold DsseEnvelope_validate. intros y z H. by inv_ok.
  - intros b x. apply table_valid. unfold ActionCertificateStatement_validate. intros y z H. by inv_ok.
  - intros b e. apply table_raise.
  - intros b e. apply table_raise.
Qed.

Definition demo_revocations : ApprovalRevocationSnapshot :=
  mk_ApprovalRevocationSnapshot "proofflow.approval-revocations/v0.1" (at_hour (-1)) (at_hour 1)
    [mk_ApprovalRevocationEntry "TENANT-1" "APPROVAL-1"
       (default "" statement1.(acs_predicate).(acp_approval).(apb_scope_sha256)) ACTIVE].
(** The second approval is looked up in a service that knows only it. *)
Definition resolver1 : option Resolver := Some (snapshot_resolve demo_revocations).
Definition resolver2 : option Resolver := Some (λ _ _ _ _, Ok ACTIVE).
Definition ledger0 : InMemoryReplayLedger := mk_InMemoryReplayLedger 4 ∅ ∅.
Definition verify1 := Eval vm_compute in verify_action_certificate (envelope_text "1") demo_policy
  (expected_binding_for statement1) ledger0 resolver1 demo_now.
Definition verify2 := Eval vm_compute in verify_action_certificate (envelope_text "2") demo_policy
  (expected_binding_for statement2) (fst verify1) resolver2 demo_now.

(** ** Witnesses *)
Lemma verified1 : verify_action_certificate (envelope_text "1") demo_policy (expected_binding_for statement1)
  ledger0 resolver1 demo_now = verify1.
Proof. vm_compute. reflexivity. Qed.
Lemma verified2 : verify_action_certificate (envelope_text "2") demo_policy (expected_binding_for statement2)
  (fst verify1) resolver2 demo_now = verify2.
Proof. vm_compute. reflexivity. Qed.
Definition outcome (v : InMemoryReplayLedger * result Result) : Result :=
  match snd v with Ok r => r | Raise _ => mk_VerificationResult VerificationStatus.UNKNOWN [] None None [] [] false end.

Lemma certificate_accept_sound_witness :
  ∃ o issuers approvers, authorized (envelope_text "1") demo_policy (expected_binding_for statement1) resolver1
      demo_now o issuers approvers ∧
    reserves ledger0 o.(op_statement) (fst verify1) ∧ outcome verify1 = accepted_result o issuers approvers.
Proof.
  destruct (certificate_accept_sound (envelope_text "1") demo_policy (expected_binding_for statement1) ledger0
    (fst verify1) resolver1 demo_now (outcome verify1)) as [[H _]|H]; [vm_compute; reflexivity| | |exact H].
  - rewrite verified1. reflexivity.
  - destruct H. reflexivity.
Defined.

Lemma accepted_once_witness : "NONCE-1" ≠ "NONCE-2" ∧ "KEY-1" ≠ "KEY-2".
Proof.
  apply (accepted_once (envelope_text "1") (envelope_text "2") demo_policy demo_policy
    (expected_binding_for statement1) (expected_binding_for statement2) resolver1 resolver2 demo_now demo_now
    ledger0 (fst verify1) (fst verify1) (fst verify2) (outcome verify1) (outcome verify2)).
  - vm_compute; reflexivity.
  - vm_compute; reflexivity.
  - rewrite verified1. reflexivity.
  - apply rtc_refl.
  - rewrite verified2. reflexivity.
  - reflexivity.
  - reflexivity.
  - reflexivity.
Defined.


Lemma approval_scope_binds_witness :
  requested statement1 = requested (demo_statement "NONCE-9" "KEY-1" no_sha) ∨
  colliding [] (VDict (scope_items statement1)) (VDict (scope_items (demo_statement "NONCE-9" "KEY-1" no_sha))).
Proof.
  apply (approval_scope_binds statement1 (demo_statement "NONCE-9" "KEY-1" no_sha)
    (default "" statement1.(acs_predicate).(acp_approval).(apb_scope_sha256))); vm_compute; reflexivity.
Defined.
