(* ===== verification/ReceiptModels.v ===== *)
(** * execution_receipt.py: the contracts

    A Record per observation with its validator.  Times are UTC instants: the wire profile
    accepts only texts with a trailing Z and datetimes whose offset is zero.  A tagged
    union is an inductive type; the literal kind and version are its constructor. *)
From S2P Require Import Prelude Json PyTime PyDecimal Sha256 Canonical Base64 Platforms Models CertModels.
Local Open Scope Z_scope.

Definition EXECUTION_RECEIPT_AUDIENCE : string := "proofflow-execution-receipt".
Definition MAX_ARTIFACTS_PER_DIRECTION : Z := 128.
Definition MAX_PROVENANCE_REFERENCES : Z := 128.
Definition MAX_TRACE_LINKS : Z := 64.
Definition MAX_RECEIPT_INDEX_CAPACITY : Z := 1000000.

Definition hex_text (n : nat) (s : string) : bool :=
  Nat.eqb (String.length s) n && string_all is_lower_hex s.
(** [not value.strip("0")] *)
Definition all_zero (s : string) : bool := string_all (Ascii.eqb "0") s.

(** [DECIMAL_AMOUNT_PATTERN] *)
Definition is_decimal_amount (s : string) : bool :=
  let '(whole, rest) := span_digits s in
  (match whole with
   | EmptyString => false
   | String c r => match r with EmptyString => true | _ => negb (Ascii.eqb c "0") end
   end) && (String.length whole <=? 12)%nat &&
  match rest with
  | EmptyString => true
  | String c fraction => Ascii.eqb c "." && string_all is_digit fraction &&
      (1 <=? String.length fraction)%nat && (String.length fraction <=? 9)%nat
  end.

Definition _require_utc (value : datetime) (label : string) : result datetime :=
  _ ← require (is_aware value) (ValueError (label +:+ " must be timezone-aware")); Ok value.

(** The local labels of a model: its name and its text, one after the other *)
Definition local_labels (model : string) (fields : list (string * string)) : result unit :=
  _ ← mapR (λ kv, _reject_remote_reference (snd kv) (model +:+ " " +:+ fst kv)) fields; Ok ().
Definition all_sha256 (l : list string) : bool := forallb is_sha256 l.

Inductive ObservationState := OBSERVED | UNOBSERVED.
#[export] Instance ObservationState_eq_dec : EqDecision ObservationState.
Proof. solve_decision. Defined.
(** A model whose optional fields are all absent when nothing was observed and all present
    otherwise *)
Definition observed_fields (status : ObservationState) (fields : list bool) (absent present : string) : result unit :=
  match status with
  | UNOBSERVED => require (forallb negb fields) (ValueError absent)
  | OBSERVED => require (forallb id fields) (ValueError present)
  end.

Record ProducerDeclaration := mk_ProducerDeclaration {
  pd_producer_id : string; pd_software_name : string; pd_software_version : string;
  pd_observer_principals : list string }.
Definition ProducerDeclaration_validate (x : ProducerDeclaration) : result ProducerDeclaration :=
  _ ← require (is_identifier x.(pd_producer_id) && len_between 1 128 x.(pd_software_name) &&
               len_between 1 64 x.(pd_software_version) && size_between 1 16 x.(pd_observer_principals))
        (value_error "constraint");
  _ ← local_labels "producer" [("software_name", x.(pd_software_name));
                               ("software_version", x.(pd_software_version))];
  _ ← require (unique x.(pd_observer_principals)) (ValueError "observer principals must be unique");
  _ ← require (forallb is_identifier x.(pd_observer_principals)) (ValueError "observer principal is invalid");
  Ok x.

Inductive AttemptStatus := COMPLETED | FAILED | CANCELLED | ATTEMPT_UNKNOWN.
#[export] Instance AttemptStatus_eq_dec : EqDecision AttemptStatus.
Proof. solve_decision. Defined.
Record AttemptObservation := mk_AttemptObservation {
  at_attempt_id : string; at_attempt_number : Z; at_started_at : datetime; at_ended_at : datetime;
  at_status : AttemptStatus }.
Definition AttemptObservation_validate (x : AttemptObservation) : result AttemptObservation :=
  _ ← require (is_identifier x.(at_attempt_id) && within 1 1000000 x.(at_attempt_number))
        (value_error "constraint");
  started ← _require_utc x.(at_started_at) "attempt started_at";
  ended ← _require_utc x.(at_ended_at) "attempt ended_at";
  early ← dt_ltb ended started;
  _ ← require (negb early) (ValueError "attempt ended_at must not precede started_at");
  Ok x.

Record RuntimeObservation := mk_RuntimeObservation {
  rt_runtime_name : string; rt_runtime_version : string; rt_runtime_build_sha256 : string;
  rt_instance_id : string }.
Definition RuntimeObservation_validate (x : RuntimeObservation) : result RuntimeObservation :=
  _ ← require (len_between 1 128 x.(rt_runtime_name) && len_between 1 64 x.(rt_runtime_version) &&
               is_sha256 x.(rt_runtime_build_sha256) && is_identifier x.(rt_instance_id))
        (value_error "constraint");
  _ ← local_labels "runtime" [("runtime_name", x.(rt_runtime_name)); ("runtime_version", x.(rt_runtime_version))];
  Ok x.

(** ** The protocol of the call *)
Inductive ProtocolObservation :=
| LocalProtocolObservation (handler_name request_sha256 response_sha256 : string)
| McpProtocolObservation (server_name tool_name request_sha256 response_sha256 : string)
| A2aProtocolObservation (agent_name task_id request_sha256 response_sha256 : string).
Definition pr_request_sha256 (p : ProtocolObservation) : string :=
  match p with
  | LocalProtocolObservation _ r _ | McpProtocolObservation _ _ r _ | A2aProtocolObservation _ _ r _ => r
  end.
Definition pr_response_sha256 (p : ProtocolObservation) : string :=
  match p with
  | LocalProtocolObservation _ _ r | McpProtocolObservation _ _ _ r | A2aProtocolObservation _ _ _ r => r
  end.
Definition ProtocolObservation_validate (x : ProtocolObservation) : result ProtocolObservation :=
  _ ← require (all_sha256 [pr_request_sha256 x; pr_response_sha256 x]) (value_error "constraint");
  _ ← match x with
      | LocalProtocolObservation handler _ _ =>
          _ ← require (len_between 1 128 handler) (value_error "constraint");
          local_labels "local" [("handler name", handler)]
      | McpProtocolObservation server tool _ _ =>
          _ ← require (len_between 1 128 server && len_between 1 128 tool) (value_error "constraint");
          local_labels "MCP" [("server_name", server); ("tool_name", tool)]
      | A2aProtocolObservation agent task _ _ =>
          _ ← require (len_between 1 128 agent && is_identifier task) (value_error "constraint");
          local_labels "A2A" [("agent name", agent)]
      end;
  Ok x.

Record TraceObservation := mk_TraceObservation {
  to_trace_id : string; to_span_id : string; to_parent_span_id : option string;
  to_linked_span_ids : list string; to_observer_evidence_sha256 : string }.
Definition TraceObservation_validate (x : TraceObservation) : result TraceObservation :=
  _ ← require (hex_text 32 x.(to_trace_id) && hex_text 16 x.(to_span_id) &&
               opt_all (hex_text 16) x.(to_parent_span_id) &&
               size_between 0 MAX_TRACE_LINKS x.(to_linked_span_ids) &&
               is_sha256 x.(to_observer_evidence_sha256)) (value_error "constraint");
  _ ← require (negb (all_zero x.(to_trace_id)) && negb (all_zero x.(to_span_id)) &&
               opt_all (λ s, negb (all_zero s)) x.(to_parent_span_id))
        (ValueError "OpenTelemetry trace and span IDs must not be all zero");
  _ ← require (unique x.(to_linked_span_ids)) (ValueError "linked span IDs must be unique");
  _ ← require (forallb (hex_text 16) x.(to_linked_span_ids)) (ValueError "linked span ID is invalid");
  _ ← require (forallb (λ s, negb (all_zero s)) x.(to_linked_span_ids))
        (ValueError "linked OpenTelemetry span IDs must not be all zero");
  _ ← require (negb (bool_decide (x.(to_parent_span_id) = Some x.(to_span_id)) ||
                     bool_decide (x.(to_span_id) ∈ x.(to_linked_span_ids))))
        (ValueError "a span cannot parent or link to itself");
  Ok x.

Record ArtifactObservation := mk_ArtifactObservation {
  ao_artifact_id : string; ao_sha256 : string; ao_media_type : string }.
Definition ArtifactObservation_validate (x : ArtifactObservation) : result ArtifactObservation :=
  _ ← require (is_identifier x.(ao_artifact_id) && is_sha256 x.(ao_sha256) && len_between 1 128 x.(ao_media_type))
        (value_error "constraint");
  _ ← _reject_remote_reference x.(ao_media_type) "artifact media type";
  Ok x.

Inductive OperationKind := TOOL | SKILL.
Record OperationObservation := mk_OperationObservation {
  oo_kind : OperationKind; oo_operation_id : string; oo_name : string; oo_version : string;
  oo_input_schema_sha256 : string; oo_output_schema_sha256 : string;
  oo_request_sha256 : string; oo_response_sha256 : string }.
Definition OperationObservation_validate (x : OperationObservation) : result OperationObservation :=
  _ ← require (is_identifier x.(oo_operation_id) && len_between 1 128 x.(oo_name) &&
               len_between 1 64 x.(oo_version) &&
               all_sha256 [x.(oo_input_schema_sha256); x.(oo_output_schema_sha256); x.(oo_request_sha256);
                           x.(oo_response_sha256)]) (value_error "constraint");
  _ ← local_labels (match x.(oo_kind) with TOOL => "tool" | SKILL => "Skill" end)
        [("name", x.(oo_name)); ("version", x.(oo_version))];
  Ok x.

(** ** What was measured *)
Record TokenUsageObservation := mk_TokenUsageObservation {
  tu_status : ObservationState; tu_input_tokens : option Z; tu_output_tokens : option Z;
  tu_total_tokens : option Z; tu_observer_evidence_sha256 : option string }.
Definition TokenUsageObservation_validate (x : TokenUsageObservation) : result TokenUsageObservation :=
  _ ← require (opt_all (within 0 10000000000) x.(tu_input_tokens) &&
               opt_all (within 0 10000000000) x.(tu_output_tokens) &&
               opt_all (within 0 20000000000) x.(tu_total_tokens) &&
               opt_all is_sha256 x.(tu_observer_evidence_sha256)) (value_error "constraint");
  _ ← observed_fields x.(tu_status) [given x.(tu_input_tokens); given x.(tu_output_tokens);
          given x.(tu_total_tokens); given x.(tu_observer_evidence_sha256)]
        "UNKNOWN usage must not carry token values or observer evidence"
        "OBSERVED usage requires token values and observer evidence";
  _ ← require (match x.(tu_input_tokens), x.(tu_output_tokens), x.(tu_total_tokens) with
               | Some input, Some output, Some total => total =? input + output
               | _, _, _ => true
               end) (ValueError "total_tokens must equal input_tokens plus output_tokens");
  Ok x.

Record ModelInvocationObservation := mk_ModelInvocationObservation {
  mi_invocation_id : string; mi_provider : string; mi_model : string; mi_model_revision : string;
  mi_inference_status : ObservationState; mi_request_sha256 : option string;
  mi_response_sha256 : option string; mi_inference_observer_evidence_sha256 : option string;
  mi_usage : TokenUsageObservation }.
Definition ModelInvocationObservation_validate (x : ModelInvocationObservation)
    : result ModelInvocationObservation :=
  _ ← require (is_identifier x.(mi_invocation_id) && forallb (len_between 1 128)
                 [x.(mi_provider); x.(mi_model); x.(mi_model_revision)] &&
               forallb (opt_all is_sha256) [x.(mi_request_sha256); x.(mi_response_sha256);
                 x.(mi_inference_observer_evidence_sha256)]) (value_error "constraint");
  _ ← TokenUsageObservation_validate x.(mi_usage);
  _ ← local_labels "model" [("provider", x.(mi_provider)); ("model", x.(mi_model));
                            ("model_revision", x.(mi_model_revision))];
  _ ← observed_fields x.(mi_inference_status) [given x.(mi_request_sha256); given x.(mi_response_sha256);
          given x.(mi_inference_observer_evidence_sha256)]
        "UNKNOWN inference must not carry observed request/response evidence"
        "OBSERVED inference requires request, response, and observer evidence";
  Ok x.

Inductive ProviderResult := TRANSPORT_ACK | PROVIDER_DECLARED_FAILURE | PROVIDER_PENDING.
Record EffectObservation := mk_EffectObservation {
  eo_effect_type : string; eo_target : string; eo_intent_sha256 : string; eo_idempotency_key : string;
  eo_status : ObservationState; eo_provider_result : option ProviderResult;
  eo_provider_operation_id : option string; eo_outbox_entry_sha256 : option string;
  eo_inbox_entry_sha256 : option string; eo_provider_request_sha256 : option string;
  eo_provider_response_sha256 : option string; eo_before_state_sha256 : option string;
  eo_after_state_sha256 : option string; eo_provider_event_sha256 : option string;
  eo_observer_evidence_sha256 : option string }.
Definition effect_digests (x : EffectObservation) : list (option string) :=
  [x.(eo_outbox_entry_sha256); x.(eo_inbox_entry_sha256); x.(eo_provider_request_sha256);
   x.(eo_provider_response_sha256); x.(eo_before_state_sha256); x.(eo_after_state_sha256);
   x.(eo_provider_event_sha256); x.(eo_observer_evidence_sha256)].
Definition EffectObservation_validate (x : EffectObservation) : result EffectObservation :=
  _ ← require (len_between 1 128 x.(eo_effect_type) && len_between 1 512 x.(eo_target) &&
               is_sha256 x.(eo_intent_sha256) && is_identifier x.(eo_idempotency_key) &&
               opt_all is_identifier x.(eo_provider_operation_id) &&
               forallb (opt_all is_sha256) (effect_digests x)) (value_error "constraint");
  _ ← local_labels "effect" [("effect_type", x.(eo_effect_type)); ("target", x.(eo_target))];
  _ ← observed_fields x.(eo_status) (given x.(eo_provider_result) :: given x.(eo_provider_operation_id) ::
          map given (effect_digests x))
        "UNKNOWN effect must not carry provider or observer evidence"
        "OBSERVED effect requires the complete v0.1 evidence set";
  Ok x.

Definition is_currency (s : string) : bool := Nat.eqb (String.length s) 3 && string_all (in_range 65 90) s.
Record CostObservation := mk_CostObservation {
  co_status : ObservationState; co_currency : option string; co_amount_decimal : option string;
  co_rate_card_sha256 : option string; co_observer_evidence_sha256 : option string }.
Definition CostObservation_validate (x : CostObservation) : result CostObservation :=
  _ ← require (opt_all is_currency x.(co_currency) && opt_all is_decimal_amount x.(co_amount_decimal) &&
               opt_all is_sha256 x.(co_rate_card_sha256) && opt_all is_sha256 x.(co_observer_evidence_sha256))
        (value_error "constraint");
  _ ← observed_fields x.(co_status) [given x.(co_currency); given x.(co_amount_decimal);
          given x.(co_rate_card_sha256); given x.(co_observer_evidence_sha256)]
        "UNKNOWN cost must not carry a zero, amount, or observer evidence"
        "OBSERVED cost requires currency, amount, and observer evidence";
  Ok x.

(** [du_clock] is the literal MONOTONIC when it is given. *)
Record DurationObservation := mk_DurationObservation {
  du_status : ObservationState; du_milliseconds : option Z; du_clock : option unit;
  du_precision_milliseconds : option Z; du_observer_evidence_sha256 : option string }.
Definition DurationObservation_validate (x : DurationObservation) : result DurationObservation :=
  _ ← require (opt_all (within 0 86400000) x.(du_milliseconds) &&
               opt_all (within 1 1000) x.(du_precision_milliseconds) &&
               opt_all is_sha256 x.(du_observer_evidence_sha256)) (value_error "constraint");
  _ ← observed_fields x.(du_status) [given x.(du_milliseconds); given x.(du_clock);
          given x.(du_precision_milliseconds); given x.(du_observer_evidence_sha256)]
        "UNKNOWN duration must not carry a zero, value, or observer evidence"
        "OBSERVED duration requires milliseconds and observer evidence";
  Ok x.

Record ProvenanceReference := mk_ProvenanceReference {
  pv_name : string; pv_media_type : string; pv_sha256 : string }.
Definition ProvenanceReference_validate (x : ProvenanceReference) : result ProvenanceReference :=
  _ ← require (len_between 1 256 x.(pv_name) && len_between 1 128 x.(pv_media_type) && is_sha256 x.(pv_sha256))
        (value_error "constraint");
  _ ← local_labels "provenance" [("name", x.(pv_name)); ("media_type", x.(pv_media_type))];
  Ok x.

Record ActionCertificateReference := mk_ActionCertificateReference {
  cr_certificate_id : string; cr_payload_sha256 : string; cr_envelope_sha256 : string;
  cr_verification_result_sha256 : string; cr_intent_sha256 : string;
  cr_verification_at : datetime; cr_reserved_at : datetime }.
Definition ActionCertificateReference_validate (x : ActionCertificateReference)
    : result ActionCertificateReference :=
  _ ← require (is_identifier x.(cr_certificate_id) &&
               all_sha256 [x.(cr_payload_sha256); x.(cr_envelope_sha256); x.(cr_verification_result_sha256);
                           x.(cr_intent_sha256)]) (value_error "constraint");
  verified ← _require_utc x.(cr_verification_at) "ActionCertificate verification_at";
  reserved ← _require_utc x.(cr_reserved_at) "ActionCertificate reserved_at";
  early ← dt_ltb reserved verified;
  _ ← require (negb early) (ValueError "ActionCertificate reserved_at must not precede verification_at");
  Ok x.

#[export] Instance ProducerDeclaration_eq_dec : EqDecision ProducerDeclaration.
Proof. solve_decision. Defined.
#[export] Instance RuntimeObservation_eq_dec : EqDecision RuntimeObservation.
Proof. solve_decision. Defined.
#[export] Instance ProtocolObservation_eq_dec : EqDecision ProtocolObservation.
Proof. solve_decision. Defined.
#[export] Instance TraceObservation_eq_dec : EqDecision TraceObservation.
Proof. solve_decision. Defined.
#[export] Instance ArtifactObservation_eq_dec : EqDecision ArtifactObservation.
Proof. solve_decision. Defined.
#[export] Instance OperationKind_eq_dec : EqDecision OperationKind.
Proof. solve_decision. Defined.
#[export] Instance OperationObservation_eq_dec : EqDecision OperationObservation.
Proof. solve_decision. Defined.
#[export] Instance ActionCertificateReference_eq_dec : EqDecision ActionCertificateReference.
Proof. solve_decision. Defined.

(** ** The receipt *)
Record ExecutionReceiptPredicate := mk_ExecutionReceiptPredicate {
  erp_version : string;
  erp_receipt_id : string;
  erp_execution_id : string;
  erp_task_id : string;
  erp_issued_at : datetime;
  erp_certificate_ref : ActionCertificateReference;
  erp_tenant_id : string;
  erp_case_id : string;
  erp_producer : ProducerDeclaration;
  erp_attempt : AttemptObservation;
  erp_executor_workload : PrincipalBinding;
  erp_runtime : RuntimeObservation;
  erp_protocol : ProtocolObservation;
  erp_trace : TraceObservation;
  erp_inputs : list ArtifactObservation;
  erp_outputs : list ArtifactObservation;
  erp_operation : OperationObservation;
  erp_model_invocation : option ModelInvocationObservation;
  erp_effect : EffectObservation;
  erp_cost : CostObservation;
  erp_duration : DurationObservation;
  erp_provenance : list ProvenanceReference;
}.

Definition artifact_ids (l : list ArtifactObservation) : list string := map ao_artifact_id l.
(** [bool(set(l) & set(k))] *)
Definition overlap (l k : list string) : bool := existsb (λ x, bool_decide (x ∈ k)) l.

(** [predicate_has_no_ambiguous_artifacts] *)
Definition receipt_consistent (x : ExecutionReceiptPredicate) : result unit :=
  _ ← require (negb (overlap (artifact_ids x.(erp_inputs)) (artifact_ids x.(erp_outputs))))
        (ValueError "input and output artifact IDs must be disjoint");
  _ ← require (negb (bool_decide (x.(erp_attempt).(at_status) = COMPLETED) && negb (nonempty x.(erp_outputs))))
        (ValueError "a completed attempt requires at least one output artifact");
  early ← dt_ltb x.(erp_issued_at) x.(erp_attempt).(at_ended_at);
  _ ← require (negb early) (ValueError "receipt issued_at must not precede attempt ended_at");
  _ ← require (String.eqb x.(erp_certificate_ref).(cr_intent_sha256) x.(erp_effect).(eo_intent_sha256))
        (ValueError "certificate intent and effect intent must match");
  _ ← require (String.eqb (pr_request_sha256 x.(erp_protocol)) x.(erp_operation).(oo_request_sha256) &&
               String.eqb (pr_response_sha256 x.(erp_protocol)) x.(erp_operation).(oo_response_sha256))
        (ValueError "protocol and operation request/response digests must match");
  _ ← match x.(erp_protocol) with
      | LocalProtocolObservation handler _ _ =>
          require (String.eqb handler x.(erp_operation).(oo_name))
            (ValueError "LOCAL handler_name must match the operation name")
      | McpProtocolObservation _ tool _ _ =>
          require (String.eqb tool x.(erp_operation).(oo_name))
            (ValueError "MCP tool_name must match the operation name")
      | A2aProtocolObservation _ task _ _ =>
          require (String.eqb task x.(erp_task_id))
            (ValueError "A2A protocol task_id must match the receipt task_id")
      end;
  require (negb (bool_decide (x.(erp_effect).(eo_status) = OBSERVED) &&
      negb (bool_decide (x.(erp_effect).(eo_provider_request_sha256) = Some x.(erp_operation).(oo_request_sha256)))))
    (ValueError "observed provider request must match the logical operation request").

Definition ExecutionReceiptPredicate_validate (x : ExecutionReceiptPredicate)
    : result ExecutionReceiptPredicate :=
  _ ← require (String.eqb x.(erp_version) "0.1" &&
               forallb is_identifier [x.(erp_receipt_id); x.(erp_execution_id); x.(erp_task_id);
                 x.(erp_tenant_id); x.(erp_case_id)] &&
               size_between 1 MAX_ARTIFACTS_PER_DIRECTION x.(erp_inputs) &&
               size_between 0 MAX_ARTIFACTS_PER_DIRECTION x.(erp_outputs) &&
               size_between 1 MAX_PROVENANCE_REFERENCES x.(erp_provenance)) (value_error "constraint");
  _ ← _require_utc x.(erp_issued_at) "receipt issued_at";
  _ ← ActionCertificateReference_validate x.(erp_certificate_ref);
  _ ← ProducerDeclaration_validate x.(erp_producer);
  _ ← AttemptObservation_validate x.(erp_attempt);
  _ ← PrincipalBinding_validate x.(erp_executor_workload);
  _ ← RuntimeObservation_validate x.(erp_runtime);
  _ ← ProtocolObservation_validate x.(erp_protocol);
  _ ← TraceObservation_validate x.(erp_trace);
  _ ← mapR ArtifactObservation_validate x.(erp_inputs);
  _ ← mapR ArtifactObservation_validate x.(erp_outputs);
  _ ← require (unique (artifact_ids x.(erp_inputs)) && unique (artifact_ids x.(erp_outputs)))
        (ValueError "artifact IDs must be unique within each direction");
  _ ← OperationObservation_validate x.(erp_operation);
  _ ← match x.(erp_model_invocation) with
      | Some m => _ ← ModelInvocationObservation_validate m; Ok () | None => Ok () end;
  _ ← EffectObservation_validate x.(erp_effect);
  _ ← CostObservation_validate x.(erp_cost);
  _ ← DurationObservation_validate x.(erp_duration);
  _ ← mapR ProvenanceReference_validate x.(erp_provenance);
  _ ← require (unique (map pv_name x.(erp_provenance))) (ValueError "provenance names must be unique");
  _ ← receipt_consistent x;
  Ok x.

Record ExecutionReceiptStatement := mk_ExecutionReceiptStatement {
  ers_statement_type : string;
  ers_subject : list InTotoSubject;
  ers_predicateType : string;
  ers_predicate : ExecutionReceiptPredicate;
}.
(** [{key: value for ... in ...}] *)
Definition dict_map (l : list (string * string)) : gmap string string := list_to_map (rev l).
Definition ExecutionReceiptStatement_validate (x : ExecutionReceiptStatement)
    : result ExecutionReceiptStatement :=
  _ ← require (String.eqb x.(ers_statement_type) IN_TOTO_STATEMENT_TYPE && size_between 0 64 x.(ers_subject) &&
               String.eqb x.(ers_predicateType) EXECUTION_RECEIPT_PREDICATE_TYPE) (value_error "constraint");
  _ ← mapR InTotoSubject_validate x.(ers_subject);
  _ ← require (unique (map its_name x.(ers_subject))) (ValueError "in-toto subject names must be unique");
  _ ← ExecutionReceiptPredicate_validate x.(ers_predicate);
  _ ← require (bool_decide (dict_map (map (λ s, (s.(its_name), s.(its_sha256))) x.(ers_subject)) =
         dict_map (map (λ a, (a.(ao_artifact_id), remove_prefix "sha256:" a.(ao_sha256)))
                       x.(ers_predicate).(erp_outputs))))
        (ValueError "in-toto subjects must exactly match output artifacts");
  Ok x.

(** ** What the caller expects *)
Record ExpectedExecutionBinding := mk_ExpectedExecutionBinding {
  xe_certificate_ref : ActionCertificateReference;
  xe_tenant_id : string;
  xe_case_id : string;
  xe_execution_id : string;
  xe_task_id : string;
  xe_attempt_id : string;
  xe_attempt_number : Z;
  xe_human_principal : PrincipalBinding;
  xe_executor_workload : PrincipalBinding;
  xe_executor_workload_key_fingerprints : list string;
  xe_human_principal_key_fingerprints : list string;
  xe_runtime : RuntimeObservation;
  xe_protocol : ProtocolObservation;
  xe_trace : TraceObservation;
  xe_inputs : list ArtifactObservation;
  xe_outputs : list ArtifactObservation;
  xe_operation : OperationObservation;
  xe_effect_type : string;
  xe_effect_target : string;
  xe_effect_intent_sha256 : string;
  xe_idempotency_key : string;
}.
#[export] Instance ExpectedExecutionBinding_eq_dec : EqDecision ExpectedExecutionBinding.
Proof. solve_decision. Defined.

Definition key_fingerprints (l : list string) : result unit :=
  _ ← require (unique l) (ValueError "identity key fingerprints must be unique");
  require (all_sha256 l) (ValueError "identity key fingerprint is invalid").
Definition ExpectedExecutionBinding_validate (x : ExpectedExecutionBinding) : result ExpectedExecutionBinding :=
  _ ← require (forallb is_identifier [x.(xe_tenant_id); x.(xe_case_id); x.(xe_execution_id); x.(xe_task_id);
                 x.(xe_attempt_id); x.(xe_idempotency_key)] && within 1 1000000 x.(xe_attempt_number) &&
               size_between 1 16 x.(xe_executor_workload_key_fingerprints) &&
               size_between 1 16 x.(xe_human_principal_key_fingerprints) &&
               size_between 1 MAX_ARTIFACTS_PER_DIRECTION x.(xe_inputs) &&
               size_between 0 MAX_ARTIFACTS_PER_DIRECTION x.(xe_outputs) &&
               len_between 1 128 x.(xe_effect_type) && len_between 1 512 x.(xe_effect_target) &&
               is_sha256 x.(xe_effect_intent_sha256)) (value_error "constraint");
  _ ← ActionCertificateReference_validate x.(xe_certificate_ref);
  _ ← PrincipalBinding_validate x.(xe_human_principal);
  _ ← PrincipalBinding_validate x.(xe_executor_workload);
  _ ← RuntimeObservation_validate x.(xe_runtime);
  _ ← ProtocolObservation_validate x.(xe_protocol);
  _ ← TraceObservation_validate x.(xe_trace);
  _ ← mapR ArtifactObservation_validate x.(xe_inputs);
  _ ← mapR ArtifactObservation_validate x.(xe_outputs);
  _ ← OperationObservation_validate x.(xe_operation);
  _ ← local_labels "expected effect" [("effect_type", x.(xe_effect_type)); ("effect_target", x.(xe_effect_target))];
  _ ← key_fingerprints x.(xe_executor_workload_key_fingerprints);
  _ ← key_fingerprints x.(xe_human_principal_key_fingerprints);
  _ ← require (unique (artifact_ids x.(xe_inputs)) && unique (artifact_ids x.(xe_outputs)))
        (ValueError "expected artifact IDs must be unique within each direction");
  _ ← require (negb (overlap (artifact_ids x.(xe_inputs)) (artifact_ids x.(xe_outputs))))
        (ValueError "expected input and output artifact IDs must be disjoint");
  Ok x.

(** [expected_execution_binding_for], a view of a validated statement *)
Definition expected_execution_binding_for (statement : ExecutionReceiptStatement) (human_principal : PrincipalBinding)
    (executor_workload_key_fingerprints human_principal_key_fingerprints : list string) : ExpectedExecutionBinding :=
  let p := statement.(ers_predicate) in
  mk_ExpectedExecutionBinding p.(erp_certificate_ref) p.(erp_tenant_id) p.(erp_case_id) p.(erp_execution_id)
    p.(erp_task_id) p.(erp_attempt).(at_attempt_id) p.(erp_attempt).(at_attempt_number) human_principal
    p.(erp_executor_workload) executor_workload_key_fingerprints human_principal_key_fingerprints
    p.(erp_runtime) p.(erp_protocol) p.(erp_trace) p.(erp_inputs) p.(erp_outputs) p.(erp_operation)
    p.(erp_effect).(eo_effect_type) p.(erp_effect).(eo_target) p.(erp_effect).(eo_intent_sha256)
    p.(erp_effect).(eo_idempotency_key).
