(* ===== verification/Receipt.v ===== *)
(** * execution_receipt.py: the receipt index and the verification of a receipt

    [verify_execution_receipt] opens the observers' envelope, checks it against the
    expectation, the accepted certificate it refers to and the roots that authorised it,
    and appends the receipt to the index, which is the last step and the only one that
    changes state. *)
From S2P Require Import Prelude Json Dicts PyTime PyDecimal Sha256 Canonical Base64 Platforms Models.
From S2P Require Import Checks CertModels CertLedger Evidence Certificate ReceiptModels.
Local Open Scope Z_scope.

(** ** The index *)
Inductive ReceiptIndexStatus :=
| APPENDED | ALREADY_PRESENT | RECEIPT_ID_CONFLICT | ATTEMPT_CONFLICT | KEY_CONFLICT | INDEX_UNAVAILABLE.
#[export] Instance ReceiptIndexStatus_eq_dec : EqDecision ReceiptIndexStatus.
Proof. solve_decision. Defined.

(** The arguments of [append_once] *)
Record ReceiptEntry := mk_ReceiptEntry {
  en_tenant_id : string; en_receipt_id : string; en_execution_id : string; en_attempt_id : string;
  en_payload_sha256 : string; en_idempotency_key : string; en_intent_sha256 : string }.
Definition receipt_key (e : ReceiptEntry) : string * string := (e.(en_tenant_id), e.(en_receipt_id)).
Definition attempt_key (e : ReceiptEntry) : string * string * string :=
  (e.(en_tenant_id), e.(en_execution_id), e.(en_attempt_id)).
Definition idempotency_key (e : ReceiptEntry) : string * string := (e.(en_tenant_id), e.(en_idempotency_key)).

Class ReceiptIndex (T : Type) := append_once : T → ReceiptEntry → T * result ReceiptIndexStatus.

(** What the protocol promises: a recorded receipt, attempt or key keeps its digest. *)
Class ReceiptIndexLaws (T : Type) `{ReceiptIndex T} := {
  receipt_of : T → string * string → option string;
  attempt_of : T → string * string * string → option string;
  intent_of : T → string * string → option string;
  append_recorded : ∀ s e s' status, append_once s e = (s', Ok status) →
    status = APPENDED ∨ status = ALREADY_PRESENT →
    receipt_of s' (receipt_key e) = Some e.(en_payload_sha256) ∧
    attempt_of s' (attempt_key e) = Some e.(en_payload_sha256) ∧
    (status = APPENDED → receipt_of s (receipt_key e) = None ∧
       intent_of s' (idempotency_key e) = Some e.(en_intent_sha256));
  append_keeps : ∀ s e s' r, append_once s e = (s', r) →
    (∀ k v, receipt_of s k = Some v → receipt_of s' k = Some v) ∧
    (∀ k v, attempt_of s k = Some v → attempt_of s' k = Some v) ∧
    (∀ k v, intent_of s k = Some v → intent_of s' k = Some v);
}.

Record InMemoryReceiptIndex := mk_InMemoryReceiptIndex {
  ix_capacity : Z;
  ix_receipts : gmap (string * string) string;
  ix_attempts : gmap (string * string * string) string;
  ix_idempotency : gmap (string * string) string;
}.
Definition index_init (capacity : Z) : result InMemoryReceiptIndex :=
  _ ← require (negb ((capacity <? 1) || (MAX_RECEIPT_INDEX_CAPACITY <? capacity)))
        (ValueError "receipt index capacity must be between 1 and 1000000");
  Ok (mk_InMemoryReceiptIndex capacity ∅ ∅ ∅).

Definition memory_append_once (s : InMemoryReceiptIndex) (e : ReceiptEntry)
    : InMemoryReceiptIndex * ReceiptIndexStatus :=
  let existing_receipt := s.(ix_receipts) !! receipt_key e in
  let existing_attempt := s.(ix_attempts) !! attempt_key e in
  let existing_intent := s.(ix_idempotency) !! idempotency_key e in
  match existing_receipt with
  | Some payload =>
      (s, if String.eqb payload e.(en_payload_sha256) &&
             bool_decide (existing_attempt = Some e.(en_payload_sha256))
          then ALREADY_PRESENT else RECEIPT_ID_CONFLICT)
  | None =>
      if given existing_attempt then (s, ATTEMPT_CONFLICT)
      else if match existing_intent with
              | Some intent => negb (String.eqb intent e.(en_intent_sha256)) | None => false end
      then (s, KEY_CONFLICT)
      else if s.(ix_capacity) <=? Z.of_nat (size s.(ix_receipts)) then (s, INDEX_UNAVAILABLE)
      else
        (mk_InMemoryReceiptIndex s.(ix_capacity)
           (<[receipt_key e := e.(en_payload_sha256)]> s.(ix_receipts))
           (<[attempt_key e := e.(en_payload_sha256)]> s.(ix_attempts))
           (<[idempotency_key e := e.(en_intent_sha256)]> s.(ix_idempotency)), APPENDED)
  end.
#[export] Instance memory_index : ReceiptIndex InMemoryReceiptIndex := λ s e,
  let '(s', r) := memory_append_once s e in (s', Ok r).

(** ** Results *)
Module ReceiptReason.
Inductive ReceiptReason :=
| APPENDED | ALREADY_PRESENT | ENVELOPE_INVALID | ENVELOPE_TOO_LARGE | PAYLOAD_INVALID
| PAYLOAD_TOO_LARGE | SIGNATURE_INVALID | TRUST_POLICY_MISMATCH | EXPECTED_BINDING_MISMATCH
| RECEIPT_TIME_INVALID | ACTION_CERTIFICATE_REFERENCE_MISMATCH | ACTION_CERTIFICATE_NOT_ACCEPTED
| ACTION_CERTIFICATE_RESERVATION_ORDER_INVALID | CERTIFICATE_EXECUTION_WINDOW_MISMATCH
| ACTION_CERTIFICATE_ACCEPTANCE_UNKNOWN | ACTION_CERTIFICATE_AUTHORITY_UNKNOWN
| EXECUTION_OBSERVER_THRESHOLD_NOT_MET | ROOT_TIME_OR_REVOCATION_INVALID | PRODUCER_SIGNER_MISMATCH
| SELF_OBSERVATION | RECEIPT_ID_CONFLICT | ATTEMPT_CONFLICT | IDEMPOTENCY_CONFLICT
| RECEIPT_INDEX_UNAVAILABLE.
End ReceiptReason.
#[global] Instance ReceiptReason_eq_dec : EqDecision ReceiptReason.ReceiptReason.
Proof. solve_decision. Defined.
Notation ExecutionReceiptVerificationReason := ReceiptReason.ReceiptReason.

Definition REJECT_RECEIPT_REASONS : list ExecutionReceiptVerificationReason :=
  [ReceiptReason.ENVELOPE_INVALID; ReceiptReason.ENVELOPE_TOO_LARGE; ReceiptReason.PAYLOAD_INVALID;
   ReceiptReason.PAYLOAD_TOO_LARGE; ReceiptReason.SIGNATURE_INVALID; ReceiptReason.TRUST_POLICY_MISMATCH;
   ReceiptReason.EXPECTED_BINDING_MISMATCH; ReceiptReason.RECEIPT_TIME_INVALID;
   ReceiptReason.ACTION_CERTIFICATE_REFERENCE_MISMATCH; ReceiptReason.ACTION_CERTIFICATE_NOT_ACCEPTED;
   ReceiptReason.ACTION_CERTIFICATE_RESERVATION_ORDER_INVALID;
   ReceiptReason.CERTIFICATE_EXECUTION_WINDOW_MISMATCH; ReceiptReason.PRODUCER_SIGNER_MISMATCH;
   ReceiptReason.SELF_OBSERVATION; ReceiptReason.RECEIPT_ID_CONFLICT; ReceiptReason.ATTEMPT_CONFLICT;
   ReceiptReason.IDEMPOTENCY_CONFLICT; ReceiptReason.ROOT_TIME_OR_REVOCATION_INVALID].
Definition UNKNOWN_RECEIPT_REASONS : list ExecutionReceiptVerificationReason :=
  [ReceiptReason.ACTION_CERTIFICATE_ACCEPTANCE_UNKNOWN; ReceiptReason.ACTION_CERTIFICATE_AUTHORITY_UNKNOWN;
   ReceiptReason.EXECUTION_OBSERVER_THRESHOLD_NOT_MET; ReceiptReason.RECEIPT_INDEX_UNAVAILABLE].

Record ExecutionReceiptVerificationResult := mk_ReceiptResult {
  erv_status : VerificationStatus;
  erv_reason_codes : list ExecutionReceiptVerificationReason;
  erv_receipt_id : option string;
  erv_payload_sha256 : option string;
  erv_envelope_sha256 : string;
  erv_verified_execution_observer_roots : list string;
  erv_recorded : bool;
  erv_inference_status : ObservationState;
  erv_usage_status : ObservationState;
  erv_effect_status : ObservationState;
  erv_cost_status : ObservationState;
  erv_duration_status : ObservationState;
}.
Notation ReceiptResult := ExecutionReceiptVerificationResult.
Definition observation_states (x : ReceiptResult) : list ObservationState :=
  [x.(erv_inference_status); x.(erv_usage_status); x.(erv_effect_status); x.(erv_cost_status);
   x.(erv_duration_status)].
Definition nothing_observed (x : ReceiptResult) : bool :=
  forallb (λ s, bool_decide (s = UNOBSERVED)) (observation_states x).
Definition receipt_reasons_within (allowed reasons : list ExecutionReceiptVerificationReason) : bool :=
  forallb (λ r, bool_decide (r ∈ allowed)) reasons.

Definition ReceiptResult_validate (x : ReceiptResult) : result ReceiptResult :=
  _ ← require (size_between 1 16 x.(erv_reason_codes) && opt_all is_sha256 x.(erv_payload_sha256) &&
               is_sha256 x.(erv_envelope_sha256) &&
               size_between 0 16 x.(erv_verified_execution_observer_roots)) (value_error "constraint");
  _ ← require (unique x.(erv_reason_codes)) (ValueError "verification reason codes must be unique");
  _ ← require (unique x.(erv_verified_execution_observer_roots))
        (ValueError "verified observer root IDs must be unique");
  _ ← match x.(erv_status) with
      | VerificationStatus.ACCEPT =>
          require (bool_decide (x.(erv_reason_codes) ∈
                     [[ReceiptReason.APPENDED]; [ReceiptReason.ALREADY_PRESENT]]) && x.(erv_recorded) &&
                   given x.(erv_receipt_id) && given x.(erv_payload_sha256) &&
                   nonempty x.(erv_verified_execution_observer_roots))
            (ValueError "ACCEPT requires a bound receipt, observer root, and recorded=true")
      | VerificationStatus.REJECT =>
          require (negb x.(erv_recorded) && receipt_reasons_within REJECT_RECEIPT_REASONS x.(erv_reason_codes) &&
                   nothing_observed x)
            (ValueError "REJECT requires only closed rejection reasons and recorded=false")
      | VerificationStatus.UNKNOWN =>
          require (negb x.(erv_recorded) && receipt_reasons_within UNKNOWN_RECEIPT_REASONS x.(erv_reason_codes) &&
                   nothing_observed x)
            (ValueError "UNKNOWN requires only unavailable reasons and recorded=false")
      end;
  Ok x.

Definition _receipt_result (status : VerificationStatus) (reasons : list ExecutionReceiptVerificationReason)
    (envelope_sha256 : string) (receipt_id payload_sha256 : option string) (observer_roots : list string)
    (recorded : bool) (statement : option ExecutionReceiptStatement) : result ReceiptResult :=
  let predicate := match statement, status with
    | Some st, VerificationStatus.ACCEPT => Some st.(ers_predicate) | _, _ => None end in
  let model := p ← predicate; p.(erp_model_invocation) in
  let state {A} (f : A → ObservationState) (o : option A) := from_option f UNOBSERVED o in
  ReceiptResult_validate
    (mk_ReceiptResult status (dedup reasons) receipt_id payload_sha256 envelope_sha256
      (isort String.leb observer_roots) recorded
      (state mi_inference_status model) (state (λ m, m.(mi_usage).(tu_status)) model)
      (state (λ p, p.(erp_effect).(eo_status)) predicate) (state (λ p, p.(erp_cost).(co_status)) predicate)
      (state (λ p, p.(erp_duration).(du_status)) predicate)).

(** ** The certificate a receipt refers to *)
Definition status_text (s : VerificationStatus) : string :=
  match s with
  | VerificationStatus.ACCEPT => "ACCEPT" | VerificationStatus.REJECT => "REJECT"
  | VerificationStatus.UNKNOWN => "UNKNOWN"
  end.
Definition reason_text (r : VerificationReason) : string :=
  match r with
  | VerificationReason.ACCEPTED => "ACCEPTED"
  | VerificationReason.ENVELOPE_INVALID => "ENVELOPE_INVALID"
  | VerificationReason.ENVELOPE_TOO_LARGE => "ENVELOPE_TOO_LARGE"
  | VerificationReason.PAYLOAD_INVALID => "PAYLOAD_INVALID"
  | VerificationReason.PAYLOAD_TOO_LARGE => "PAYLOAD_TOO_LARGE"
  | VerificationReason.SIGNATURE_INVALID => "SIGNATURE_INVALID"
  | VerificationReason.ACTION_ISSUER_THRESHOLD_NOT_MET => "ACTION_ISSUER_THRESHOLD_NOT_MET"
  | VerificationReason.HUMAN_APPROVAL_THRESHOLD_NOT_MET => "HUMAN_APPROVAL_THRESHOLD_NOT_MET"
  | VerificationReason.TRUST_POLICY_MISMATCH => "TRUST_POLICY_MISMATCH"
  | VerificationReason.EXPECTED_BINDING_MISMATCH => "EXPECTED_BINDING_MISMATCH"
  | VerificationReason.CERTIFICATE_TIME_INVALID => "CERTIFICATE_TIME_INVALID"
  | VerificationReason.ROOT_TIME_OR_REVOCATION_INVALID => "ROOT_TIME_OR_REVOCATION_INVALID"
  | VerificationReason.APPROVAL_SCOPE_MISMATCH => "APPROVAL_SCOPE_MISMATCH"
  | VerificationReason.APPROVAL_EXPIRED => "APPROVAL_EXPIRED"
  | VerificationReason.APPROVAL_REVOKED => "APPROVAL_REVOKED"
  | VerificationReason.APPROVAL_REVOCATION_UNKNOWN => "APPROVAL_REVOCATION_UNKNOWN"
  | VerificationReason.APPROVAL_REVOCATION_UNAVAILABLE => "APPROVAL_REVOCATION_UNAVAILABLE"
  | VerificationReason.SELF_APPROVAL => "SELF_APPROVAL"
  | VerificationReason.REPLAY_DETECTED => "REPLAY_DETECTED"
  | VerificationReason.IDEMPOTENCY_CONFLICT => "IDEMPOTENCY_CONFLICT"
  | VerificationReason.REPLAY_LEDGER_UNAVAILABLE => "REPLAY_LEDGER_UNAVAILABLE"
  end.
Definition VerificationResult_dump (x : Result) : pyval :=
  let text (o : option string) := from_option VStr VNone o in
  VDict [("verification_version", VStr "proofflow.action-certificate-verification/v0.1");
         ("status", VStr (status_text x.(avr_status)));
         ("reason_codes", VSeq (map (λ r, VStr (reason_text r)) x.(avr_reason_codes)));
         ("certificate_id", text x.(avr_certificate_id)); ("payload_sha256", text x.(avr_payload_sha256));
         ("verified_action_issuer_roots", VSeq (map VStr x.(avr_verified_action_issuer_roots)));
         ("verified_human_approval_roots", VSeq (map VStr x.(avr_verified_human_approval_roots)));
         ("reserved", VBool x.(avr_reserved))].

(** [a or b], where each side may raise *)
Definition orR (a b : result bool) : result bool := x ← a; if (x : bool) then Ok true else b.
Fixpoint anyR {A} (f : A → result bool) (l : list A) : result bool :=
  match l with [] => Ok false | x :: l => orR (f x) (anyR f l) end.
(** [len({f(x) for x in l})] *)
Definition distinct_count (l : list string) : Z := Z.of_nat (length (dedup l)).

Section context.
Context `{P : Platform} `{K : Ed25519} `{C : CertificateParser}.

Definition action_certificate_verification_sha256 (x : Result) : result string :=
  sha256_digest (VerificationResult_dump x).

Definition _policy_allows_receipt (policy : TrustPolicy) (expected : ExpectedExecutionBinding) : bool :=
  bool_decide (expected.(xe_tenant_id) ∈ policy.(tp_allowed_tenants)) &&
  bool_decide (expected.(xe_human_principal).(pb_principal_id) ∈ policy.(tp_allowed_human_principals)) &&
  bool_decide (expected.(xe_executor_workload).(pb_principal_id) ∈ policy.(tp_allowed_workload_principals)) &&
  bool_decide (EXECUTION_RECEIPT_AUDIENCE ∈ policy.(tp_allowed_audiences)) &&
  bool_decide (EXECUTION_RECEIPT_PREDICATE_TYPE ∈ policy.(tp_allowed_predicate_types)) &&
  nonempty policy.(tp_allowed_execution_observer_principals).

(** [parse_json_model] of an envelope, then its payload; [except ValueError] *)
Definition open_payload (bytes envelope_label payload_label : string) : result (option (DsseEnvelope * string)) :=
  match (envelope ← parse_json_model load_DsseEnvelope bytes envelope_label;
         payload ← decode_canonical_base64 envelope.(env_payload) payload_label None true;
         Ok (envelope, payload)) with
  | Ok x => Ok (Some x)
  | Raise e => if is_value_error e then Ok None else Raise e
  end.

(** The comparison of the reference with the bytes and the result it stands for *)
Definition reference_mismatch (bytes payload : string) (verification : Result)
    (expected : ActionCertificateReference) : result bool :=
  orR (Ok (negb (String.eqb (sha256_bytes bytes) expected.(cr_envelope_sha256)) ||
           negb (String.eqb (sha256_bytes payload) expected.(cr_payload_sha256))))
    (digest ← action_certificate_verification_sha256 verification;
     Ok (negb (String.eqb digest expected.(cr_verification_result_sha256)) ||
         negb (bool_decide (verification.(avr_certificate_id) = Some expected.(cr_certificate_id))) ||
         negb (bool_decide (verification.(avr_payload_sha256) = Some expected.(cr_payload_sha256))))).

Definition Context_ : Type :=
  VerificationStatus * option ExecutionReceiptVerificationReason * option ActionCertificateStatement.
Definition _action_certificate_context (action_certificate_envelope_bytes : string)
    (action_certificate_verification : Result) (expected : ActionCertificateReference) : result Context_ :=
  let mismatch := Ok (VerificationStatus.REJECT, Some ReceiptReason.ACTION_CERTIFICATE_REFERENCE_MISMATCH, None) in
  if MAX_ENVELOPE_BYTES <? Z.of_nat (String.length action_certificate_envelope_bytes) then mismatch
  else
    opened ← open_payload action_certificate_envelope_bytes "ActionCertificate DSSE envelope"
               "ActionCertificate payload";
    match opened with
    | None => mismatch
    | Some (envelope, payload) =>
        if negb (String.eqb envelope.(env_payloadType) DSSE_PAYLOAD_TYPE) ||
           (MAX_PAYLOAD_BYTES <? Z.of_nat (String.length payload))
        then mismatch
        else
          other ← reference_mismatch action_certificate_envelope_bytes payload action_certificate_verification
                    expected;
          if (other : bool) then mismatch
          else if bool_decide (action_certificate_verification.(avr_status) = VerificationStatus.UNKNOWN)
          then Ok (VerificationStatus.UNKNOWN, Some ReceiptReason.ACTION_CERTIFICATE_ACCEPTANCE_UNKNOWN, None)
          else if negb (bool_decide (action_certificate_verification.(avr_status) = VerificationStatus.ACCEPT)) ||
                  negb action_certificate_verification.(avr_reserved)
          then Ok (VerificationStatus.REJECT, Some ReceiptReason.ACTION_CERTIFICATE_NOT_ACCEPTED, None)
          else
            match parse_json_model load_ActionCertificateStatement payload "accepted ActionCertificate payload" with
            | Raise e => if is_value_error e then mismatch else Raise e
            | Ok statement =>
                another ← orR
                  (Ok (negb (String.eqb statement.(acs_predicate).(acp_certificate_id) expected.(cr_certificate_id))))
                  (scope ← approval_scope_sha256 statement;
                   Ok (negb (String.eqb scope expected.(cr_intent_sha256))));
                if (another : bool) then mismatch else Ok (VerificationStatus.ACCEPT, None, Some statement)
            end
    end.

(** ** The roots that authorised the certificate *)

(** The condition on each issuer or approver root *)
Definition authority_lacking (policy : TrustPolicy) (predicate : ActionCertificatePredicate)
    (purpose : TrustPurpose) (allowed : list string) (approvers : option (list string))
    (verification_at : datetime) (root : TrustRoot) : result bool :=
  if negb (is_purpose root.(tr_purpose) purpose) ||
     negb (String.eqb root.(tr_tenant_id) predicate.(acp_tenant_id)) ||
     negb (bool_decide (predicate.(acp_audience) ∈ root.(tr_audiences))) ||
     negb (bool_decide (ACTION_CERTIFICATE_PREDICATE_TYPE ∈ root.(tr_predicate_types))) ||
     negb (bool_decide (root.(tr_principal_id) ∈ allowed)) ||
     match approvers with Some l => negb (bool_decide (root.(tr_principal_id) ∈ l)) | None => false end
  then Ok true
  else
    current ← trust_root_is_current root verification_at (seconds policy.(tp_max_clock_skew_seconds));
    Ok (negb current).

Definition below_threshold (roots : list TrustRoot) (threshold : Z) : result bool :=
  orR (Ok (distinct_count (map tr_principal_id roots) <? threshold))
    (fingerprints ← mapR trust_root_fingerprint roots; Ok (distinct_count fingerprints <? threshold)).

(** [{root.root_id: root for root in roots}.get(id)] *)
Definition find_root (roots : list TrustRoot) (id : string) : option TrustRoot :=
  assoc id (dict_of (map (λ r, (r.(tr_root_id), r)) roots)).
Definition root_by_id (policy : TrustPolicy) : string → option TrustRoot := find_root policy.(tp_roots).

(** The envelope is opened and its signatures are verified again; a ValueError means no
    authority. *)
Definition cryptographic_root_ids (policy : TrustPolicy) (action_envelope_bytes : string)
    : result (option (list string)) :=
  match (envelope ← parse_json_model load_DsseEnvelope action_envelope_bytes
                      "accepted ActionCertificate DSSE envelope";
         payload ← decode_canonical_base64 envelope.(env_payload) "accepted ActionCertificate payload" None true;
         roots ← cryptographically_verified_roots envelope payload policy.(tp_roots);
         Ok (map tr_root_id roots)) with
  | Ok ids => Ok (Some ids)
  | Raise e => if is_value_error e then Ok None else Raise e
  end.

Definition authority_refused (policy : TrustPolicy) (predicate : ActionCertificatePredicate)
    (verification_at : datetime) (issuer_roots approval_roots : list TrustRoot) : result bool :=
  orR (orR (anyR (authority_lacking policy predicate ACTION_ISSUER
                    policy.(tp_allowed_action_issuer_principals) None verification_at) issuer_roots)
           (below_threshold issuer_roots policy.(tp_action_issuer_threshold)))
  (orR (if predicate.(acp_approval).(apb_required) then
          orR (Ok (Z.of_nat (length approval_roots) <? policy.(tp_human_approval_threshold)))
          (orR (anyR (authority_lacking policy predicate HUMAN_APPROVAL
                        policy.(tp_allowed_approval_principals)
                        (Some predicate.(acp_approval).(apb_approver_principals)) verification_at) approval_roots)
               (below_threshold approval_roots policy.(tp_human_approval_threshold)))
        else Ok (nonempty approval_roots))
       (self_approved predicate issuer_roots approval_roots)).

Definition _authority_roots (policy : TrustPolicy) (action_result : Result)
    (action_statement : ActionCertificateStatement) (action_envelope_bytes : string) (verification_at : datetime)
    : result (option (list TrustRoot)) :=
  let issuer_ids := action_result.(avr_verified_action_issuer_roots) in
  let approval_ids := action_result.(avr_verified_human_approval_roots) in
  if negb (unique (issuer_ids ++ approval_ids)) || negb (nonempty issuer_ids) ||
     negb (forallb (λ id, given (root_by_id policy id)) (issuer_ids ++ approval_ids))
  then Ok None
  else
    let issuer_roots := omap (root_by_id policy) issuer_ids in
    let approval_roots := omap (root_by_id policy) approval_ids in
    ids ← cryptographic_root_ids policy action_envelope_bytes;
    match ids with
    | None => Ok None
    | Some ids =>
        if negb (forallb (λ id, bool_decide (id ∈ ids)) (issuer_ids ++ approval_ids)) then Ok None
        else
          refused ← authority_refused policy action_statement.(acs_predicate) verification_at issuer_roots
                      approval_roots;
          Ok (if (refused : bool) then None else Some (issuer_roots ++ approval_roots))
    end.

(** ** The observers *)
Definition observer_root (policy : TrustPolicy) (predicate : ExecutionReceiptPredicate) (root : TrustRoot) : bool :=
  is_purpose root.(tr_purpose) EXECUTION_OBSERVER &&
  String.eqb root.(tr_tenant_id) predicate.(erp_tenant_id) &&
  bool_decide (EXECUTION_RECEIPT_AUDIENCE ∈ root.(tr_audiences)) &&
  bool_decide (EXECUTION_RECEIPT_PREDICATE_TYPE ∈ root.(tr_predicate_types)) &&
  bool_decide (root.(tr_principal_id) ∈ policy.(tp_allowed_execution_observer_principals)) &&
  same_set root.(tr_execution_observer_scopes) all_execution_scopes.

(** The state of the loop *)
Record Observers := mk_Observers {
  ob_distinct : list (string * TrustRoot);
  ob_principals : list string;
  ob_stale_or_revoked : bool;
  ob_self_observation : bool;
  ob_producer_mismatch : bool;
}.
Definition observe (policy : TrustPolicy) (predicate : ExecutionReceiptPredicate)
    (authority_principals authority_fingerprints : list string) (human_principal_id : string)
    (disallowed : list string) (now : datetime) (acc : Observers) (root : TrustRoot) : result Observers :=
  let skew := seconds policy.(tp_max_clock_skew_seconds) in
  let '(mk_Observers distinct principals stale self mismatch) := acc in
  if negb (observer_root policy predicate root) then Ok acc
  else if negb (bool_decide (root.(tr_principal_id) ∈ predicate.(erp_producer).(pd_observer_principals)))
  then Ok (mk_Observers distinct principals stale self true)
  else
    fingerprint ← trust_root_fingerprint root;
    if String.eqb root.(tr_principal_id) predicate.(erp_executor_workload).(pb_principal_id) ||
       String.eqb root.(tr_principal_id) human_principal_id ||
       bool_decide (root.(tr_principal_id) ∈ authority_principals) ||
       bool_decide (fingerprint ∈ authority_fingerprints) || bool_decide (fingerprint ∈ disallowed)
    then Ok (mk_Observers distinct principals stale true mismatch)
    else
      old ← orR (current ← trust_root_is_current root predicate.(erp_issued_at) skew; Ok (negb current))
                (current ← trust_root_is_current root now skew; Ok (negb current));
      if (old : bool) then Ok (mk_Observers distinct principals true self mismatch)
      else if bool_decide (is_Some (assoc fingerprint distinct)) || bool_decide (root.(tr_principal_id) ∈ principals)
      then Ok acc
      else Ok (mk_Observers (distinct ++ [(fingerprint, root)]) (root.(tr_principal_id) :: principals)
                 stale self mismatch).

Definition _qualifying_observer_roots (roots : list TrustRoot) (predicate : ExecutionReceiptPredicate)
    (policy : TrustPolicy) (authority_roots : list TrustRoot) (human_principal_id : string)
    (disallowed_key_fingerprints : list string) (now : datetime) : result (list TrustRoot * Observers) :=
  authority_fingerprints ← mapR trust_root_fingerprint authority_roots;
  acc ← foldR (observe policy predicate (map tr_principal_id authority_roots) authority_fingerprints
                 human_principal_id disallowed_key_fingerprints now) (mk_Observers [] [] false false false) roots;
  Ok (map snd (isort (key_leb fst) acc.(ob_distinct)), acc).
End context.

(** ** The verification *)
Notation rcheck := (checked ReceiptResult).

Section verify.
Context `{P : Platform} `{K : Ed25519} `{C : CertificateParser}.
(** pydantic's [model_validate_json] for receipts *)
Context (load_ExecutionReceiptStatement : string → result ExecutionReceiptStatement).

(** A signed receipt *)
Record OpenedReceipt := mk_OpenedReceipt {
  or_envelope_sha256 : string;
  or_payload_sha256 : string;
  or_verified_roots : list TrustRoot;
  or_statement : ExecutionReceiptStatement;
}.

Definition halt {A} (status : VerificationStatus) (reason : ExecutionReceiptVerificationReason)
    (envelope_sha256 : string) (receipt_id payload_sha256 : option string) (observer_roots : list TrustRoot)
    : result (rcheck A) :=
  r ← _receipt_result status [reason] envelope_sha256 receipt_id payload_sha256 (map tr_root_id observer_roots)
        false None;
  Ok (Stop r).
(** A receipt that was opened *)
Definition halt_on {A} (o : OpenedReceipt) (status : VerificationStatus)
    (reason : ExecutionReceiptVerificationReason) (observer_roots : list TrustRoot) : result (rcheck A) :=
  r ← _receipt_result status [reason] o.(or_envelope_sha256) (Some o.(or_statement).(ers_predicate).(erp_receipt_id))
        (Some o.(or_payload_sha256)) (map tr_root_id observer_roots) false (Some o.(or_statement));
  Ok (Stop r).

Definition open_receipt (envelope_bytes : string) (policy : TrustPolicy) : result (rcheck OpenedReceipt) :=
  let envelope_sha256 := sha256_bytes envelope_bytes in
  let refuse reason payload_sha256 := halt VerificationStatus.REJECT reason envelope_sha256 None payload_sha256 [] in
  if MAX_ENVELOPE_BYTES <? Z.of_nat (String.length envelope_bytes)
  then refuse ReceiptReason.ENVELOPE_TOO_LARGE None
  else
    opened ← open_payload envelope_bytes "ExecutionReceipt DSSE envelope" "ExecutionReceipt payload";
    match opened with
    | None => refuse ReceiptReason.ENVELOPE_INVALID None
    | Some (envelope, payload) =>
        if MAX_PAYLOAD_BYTES <? Z.of_nat (String.length payload)
        then refuse ReceiptReason.PAYLOAD_TOO_LARGE None
        else
          let payload_sha256 := sha256_bytes payload in
          verified_roots ← cryptographically_verified_roots envelope payload policy.(tp_roots);
          if negb (nonempty verified_roots) then refuse ReceiptReason.SIGNATURE_INVALID (Some payload_sha256)
          else
            match parse_json_model load_ExecutionReceiptStatement payload "signed receipt payload" with
            | Raise e => if is_value_error e then refuse ReceiptReason.PAYLOAD_INVALID (Some payload_sha256)
                         else Raise e
            | Ok statement => Ok (Go (mk_OpenedReceipt envelope_sha256 payload_sha256 verified_roots statement))
            end
    end.

(** Clock, policy and expectation *)
Definition check_expected (policy : TrustPolicy) (expected : ExpectedExecutionBinding) (now : datetime)
    (o : OpenedReceipt) : result (rcheck unit) :=
  let refuse reason := halt_on o VerificationStatus.REJECT reason [] in
  ahead ← dt_add now (seconds policy.(tp_max_clock_skew_seconds));
  future ← dt_ltb ahead o.(or_statement).(ers_predicate).(erp_issued_at);
  if (future : bool) then refuse ReceiptReason.RECEIPT_TIME_INVALID
  else if negb (_policy_allows_receipt policy expected) then refuse ReceiptReason.TRUST_POLICY_MISMATCH
  else if negb (bool_decide (expected_execution_binding_for o.(or_statement) expected.(xe_human_principal)
            expected.(xe_executor_workload_key_fingerprints) expected.(xe_human_principal_key_fingerprints) =
            expected))
  then refuse ReceiptReason.EXPECTED_BINDING_MISMATCH
  else Ok (Go ()).

Definition check_certificate (certificate_bytes : string) (verification : Result) (o : OpenedReceipt)
    : result (rcheck ActionCertificateStatement) :=
  '(action_status, action_reason, action_statement) ← _action_certificate_context certificate_bytes verification
      o.(or_statement).(ers_predicate).(erp_certificate_ref);
  if negb (bool_decide (action_status = VerificationStatus.ACCEPT)) then
    match action_reason with
    | None => halt_on o VerificationStatus.UNKNOWN ReceiptReason.ACTION_CERTIFICATE_ACCEPTANCE_UNKNOWN []
    | Some reason => halt_on o action_status reason []
    end
  else
    match action_statement with
    | None => halt_on o VerificationStatus.UNKNOWN ReceiptReason.ACTION_CERTIFICATE_ACCEPTANCE_UNKNOWN []
    | Some st => Ok (Go st)
    end.

(** [t + skew < not_before] and [t - skew >= expires_at] *)
Definition before_window (p : ActionCertificatePredicate) (skew : Z) (t : datetime) : result bool :=
  ahead ← dt_add t skew; dt_ltb ahead p.(acp_not_before).(wt_at).
Definition after_window (p : ActionCertificatePredicate) (skew : Z) (t : datetime) : result bool :=
  behind ← dt_add t (- skew); live ← dt_ltb behind p.(acp_expires_at).(wt_at); Ok (negb live).
Definition outside_window (policy : TrustPolicy) (p : ActionCertificatePredicate) (r : ExecutionReceiptPredicate)
    : result bool :=
  let skew := seconds policy.(tp_max_clock_skew_seconds) in
  let c := r.(erp_certificate_ref) in
  orR (before_window p skew c.(cr_verification_at)) (orR (after_window p skew c.(cr_verification_at))
  (orR (before_window p skew c.(cr_reserved_at)) (orR (after_window p skew c.(cr_reserved_at))
  (orR (before_window p skew r.(erp_attempt).(at_started_at)) (after_window p skew r.(erp_attempt).(at_ended_at)))))).

(** The receipt is about another action than the certificate. *)
Definition other_action (expected : ExpectedExecutionBinding) (st : ActionCertificateStatement)
    (r : ExecutionReceiptPredicate) : result bool :=
  let p := st.(acs_predicate) in
  orR (Ok (negb (String.eqb p.(acp_tenant_id) r.(erp_tenant_id)) ||
      negb (bool_decide (p.(acp_human_principal) = expected.(xe_human_principal))) ||
      negb (String.eqb p.(acp_subject).(sb_subject_id) r.(erp_case_id)) ||
      negb (bool_decide (p.(acp_workload_principal) = r.(erp_executor_workload))) ||
      negb (String.eqb p.(acp_context).(cb_trace_id) r.(erp_trace).(to_trace_id)) ||
      negb (String.eqb p.(acp_context).(cb_request_id) r.(erp_execution_id)) ||
      negb (String.eqb p.(acp_action).(ab_action_name) r.(erp_operation).(oo_name)) ||
      negb (String.eqb p.(acp_action).(ab_parameters_sha256) r.(erp_operation).(oo_request_sha256)) ||
      negb (String.eqb p.(acp_effect).(eb_effect_type) r.(erp_effect).(eo_effect_type)) ||
      negb (String.eqb p.(acp_effect).(eb_target) r.(erp_effect).(eo_target)) ||
      negb (String.eqb p.(acp_effect).(eb_request_sha256) r.(erp_operation).(oo_request_sha256)) ||
      negb (String.eqb p.(acp_effect).(eb_idempotency_key) r.(erp_effect).(eo_idempotency_key))))
    (scope ← approval_scope_sha256 st;
     Ok (negb (String.eqb scope r.(erp_effect).(eo_intent_sha256)) ||
         negb (bool_decide (dict_map (map (λ s, (s.(its_name), "sha256:" +:+ s.(its_sha256))) st.(acs_subject)) =
                dict_map (map (λ a, (a.(ao_artifact_id), a.(ao_sha256))) r.(erp_inputs)))) ||
         String.eqb p.(acp_resource).(rb_resource_type) "artifact" &&
           negb (bool_decide (p.(acp_resource).(rb_resource_id) ∈ artifact_ids r.(erp_outputs))))).

Definition check_action (policy : TrustPolicy) (expected : ExpectedExecutionBinding)
    (st : ActionCertificateStatement) (o : OpenedReceipt) : result (rcheck unit) :=
  let r := o.(or_statement).(ers_predicate) in
  let refuse reason := halt_on o VerificationStatus.REJECT reason [] in
  late ← dt_ltb r.(erp_attempt).(at_started_at) r.(erp_certificate_ref).(cr_reserved_at);
  if (late : bool) then refuse ReceiptReason.ACTION_CERTIFICATE_RESERVATION_ORDER_INVALID
  else
    outside ← outside_window policy st.(acs_predicate) r;
    if (outside : bool) then refuse ReceiptReason.CERTIFICATE_EXECUTION_WINDOW_MISMATCH
    else
      other ← other_action expected st r;
      if (other : bool) then refuse ReceiptReason.ACTION_CERTIFICATE_REFERENCE_MISMATCH else Ok (Go ()).

(** [frozenset(l) != frozenset(k)] *)
Definition different_set (l k : list string) : bool := negb (same_set l k).
Definition check_observers (policy : TrustPolicy) (expected : ExpectedExecutionBinding) (certificate_bytes : string)
    (verification : Result) (now : datetime) (st : ActionCertificateStatement) (o : OpenedReceipt)
    : result (rcheck (list TrustRoot)) :=
  let r := o.(or_statement).(ers_predicate) in
  authority ← _authority_roots policy verification st certificate_bytes r.(erp_certificate_ref).(cr_verification_at);
  match authority with
  | None => halt_on o VerificationStatus.UNKNOWN ReceiptReason.ACTION_CERTIFICATE_AUTHORITY_UNKNOWN []
  | Some authority_roots =>
      if negb (nonempty (List.filter (observer_root policy r) o.(or_verified_roots)))
      then halt_on o VerificationStatus.REJECT ReceiptReason.TRUST_POLICY_MISMATCH []
      else
        '(observer_roots, found) ← _qualifying_observer_roots o.(or_verified_roots) r policy authority_roots
            st.(acs_predicate).(acp_human_principal).(pb_principal_id)
            (expected.(xe_executor_workload_key_fingerprints) ++ expected.(xe_human_principal_key_fingerprints)) now;
        if found.(ob_self_observation) then halt_on o VerificationStatus.REJECT ReceiptReason.SELF_OBSERVATION []
        else if found.(ob_stale_or_revoked)
        then halt_on o VerificationStatus.REJECT ReceiptReason.ROOT_TIME_OR_REVOCATION_INVALID observer_roots
        else if found.(ob_producer_mismatch) ||
                different_set (map tr_principal_id observer_roots) r.(erp_producer).(pd_observer_principals)
        then halt_on o VerificationStatus.REJECT ReceiptReason.PRODUCER_SIGNER_MISMATCH []
        else if Z.of_nat (length observer_roots) <? policy.(tp_execution_observer_threshold)
        then halt_on o VerificationStatus.UNKNOWN ReceiptReason.EXECUTION_OBSERVER_THRESHOLD_NOT_MET observer_roots
        else Ok (Go observer_roots)
  end.

(** Everything before the index *)
Definition admit_receipt (envelope_bytes : string) (policy : TrustPolicy) (expected : ExpectedExecutionBinding)
    (certificate_bytes : string) (verification : Result) (now : datetime)
    : result (rcheck (OpenedReceipt * list TrustRoot)) :=
  _ ← _require_utc now "verification time";
  o <~ open_receipt envelope_bytes policy;
  _ <~ check_expected policy expected now o;
  st <~ check_certificate certificate_bytes verification o;
  _ <~ check_action policy expected st o;
  observer_roots <~ check_observers policy expected certificate_bytes verification now st o;
  Ok (Go (o, observer_roots)).

Definition entry_of (o : OpenedReceipt) : ReceiptEntry :=
  let p := o.(or_statement).(ers_predicate) in
  mk_ReceiptEntry p.(erp_tenant_id) p.(erp_receipt_id) p.(erp_execution_id) p.(erp_attempt).(at_attempt_id)
    o.(or_payload_sha256) p.(erp_effect).(eo_idempotency_key) p.(erp_effect).(eo_intent_sha256).

(** What the status of the index means for the receipt *)
Definition index_outcome (status : ReceiptIndexStatus)
    : VerificationStatus * ExecutionReceiptVerificationReason * bool :=
  match status with
  | ALREADY_PRESENT => (VerificationStatus.ACCEPT, ReceiptReason.ALREADY_PRESENT, true)
  | RECEIPT_ID_CONFLICT => (VerificationStatus.REJECT, ReceiptReason.RECEIPT_ID_CONFLICT, false)
  | ATTEMPT_CONFLICT => (VerificationStatus.REJECT, ReceiptReason.ATTEMPT_CONFLICT, false)
  | KEY_CONFLICT => (VerificationStatus.REJECT, ReceiptReason.IDEMPOTENCY_CONFLICT, false)
  | INDEX_UNAVAILABLE => (VerificationStatus.UNKNOWN, ReceiptReason.RECEIPT_INDEX_UNAVAILABLE, false)
  | APPENDED => (VerificationStatus.ACCEPT, ReceiptReason.APPENDED, true)
  end.

Definition verify_execution_receipt {T} `{ReceiptIndex T} (envelope_bytes : string) (policy : TrustPolicy)
    (expected : ExpectedExecutionBinding) (action_certificate_envelope_bytes : string)
    (action_certificate_verification : Result) (s : T) (now : datetime) : T * result ReceiptResult :=
  match admit_receipt envelope_bytes policy expected action_certificate_envelope_bytes
          action_certificate_verification now with
  | Raise e => (s, Raise e)
  | Ok (Stop r) => (s, Ok r)
  | Ok (Go (o, observer_roots)) =>
      let '(s, appended) := append_once s (entry_of o) in
      let '(status, reason, recorded) :=
        index_outcome (match appended with Ok status => status | Raise _ => INDEX_UNAVAILABLE end) in
      (s, _receipt_result status [reason] o.(or_envelope_sha256)
            (Some o.(or_statement).(ers_predicate).(erp_receipt_id)) (Some o.(or_payload_sha256))
            (map tr_root_id observer_roots) recorded (Some o.(or_statement)))
  end.
End verify.
