(* ===== verification/ReceiptFacts.v ===== *)
(** * The in-memory receipt index

    Its branches, the promise of the protocol and what a retry finds. *)
From S2P Require Import Prelude Json Dicts PyTime PyDecimal Sha256 Canonical Base64 Platforms Models.
From S2P Require Import Checks CertModels CertLedger Evidence Certificate.
From S2P Require Import ReceiptModels Receipt.
Local Open Scope Z_scope.

(** ** The in-memory index *)

(** The branches of an append, by what the index holds *)
Inductive append (s : InMemoryReceiptIndex) (e : ReceiptEntry) : InMemoryReceiptIndex → ReceiptIndexStatus → Prop :=
| ap_present : s.(ix_receipts) !! receipt_key e = Some e.(en_payload_sha256) →
    s.(ix_attempts) !! attempt_key e = Some e.(en_payload_sha256) → append s e s ALREADY_PRESENT
| ap_receipt payload : s.(ix_receipts) !! receipt_key e = Some payload →
    ¬ (payload = e.(en_payload_sha256) ∧ s.(ix_attempts) !! attempt_key e = Some e.(en_payload_sha256)) →
    append s e s RECEIPT_ID_CONFLICT
| ap_attempt other : s.(ix_receipts) !! receipt_key e = None → s.(ix_attempts) !! attempt_key e = Some other →
    append s e s ATTEMPT_CONFLICT
| ap_key other : s.(ix_receipts) !! receipt_key e = None → s.(ix_attempts) !! attempt_key e = None →
    s.(ix_idempotency) !! idempotency_key e = Some other → other ≠ e.(en_intent_sha256) → append s e s KEY_CONFLICT
| ap_full : s.(ix_receipts) !! receipt_key e = None → s.(ix_attempts) !! attempt_key e = None →
    (∀ other, s.(ix_idempotency) !! idempotency_key e = Some other → other = e.(en_intent_sha256)) →
    s.(ix_capacity) ≤ Z.of_nat (size s.(ix_receipts)) → append s e s INDEX_UNAVAILABLE
| ap_appended : s.(ix_receipts) !! receipt_key e = None → s.(ix_attempts) !! attempt_key e = None →
    (∀ other, s.(ix_idempotency) !! idempotency_key e = Some other → other = e.(en_intent_sha256)) →
    Z.of_nat (size s.(ix_receipts)) < s.(ix_capacity) →
    append s e (mk_InMemoryReceiptIndex s.(ix_capacity)
      (<[receipt_key e := e.(en_payload_sha256)]> s.(ix_receipts))
      (<[attempt_key e := e.(en_payload_sha256)]> s.(ix_attempts))
      (<[idempotency_key e := e.(en_intent_sha256)]> s.(ix_idempotency))) APPENDED.

Lemma memory_append s e s' r : memory_append_once s e = (s', r) → append s e s' r.
Proof.
  unfold memory_append_once. cbv zeta. destruct (ix_receipts s !! _) as [payload|] eqn:Er.
  - destruct (String.eqb_spec payload e.(en_payload_sha256)) as [->|Hne]; cbn [andb].
    + destruct (bool_decide _) eqn:Ea; intros [= <- <-]; split_bools; [by constructor|].
      eapply ap_receipt; [done|tauto].
    + intros [= <- <-]. eapply ap_receipt; [done|tauto].
  - destruct (ix_attempts s !! _) as [other|] eqn:Ea; cbn [given]; [intros [= <- <-]; by eapply ap_attempt|].
    assert ((∃ other, ix_idempotency s !! idempotency_key e = Some other ∧ other ≠ en_intent_sha256 e ∧
        match ix_idempotency s !! idempotency_key e with
        | Some intent => negb (String.eqb intent e.(en_intent_sha256)) | None => false end = true) ∨
      (∀ other, ix_idempotency s !! idempotency_key e = Some other → other = en_intent_sha256 e) ∧
        match ix_idempotency s !! idempotency_key e with
        | Some intent => negb (String.eqb intent e.(en_intent_sha256)) | None => false end = false)
      as [(other & Ei & Hne & ->)|[Hsame ->]].
    { destruct (ix_idempotency s !! _) as [other|]; [|by right].
      destruct (String.eqb_spec other e.(en_intent_sha256)) as [->|]; [right|left]; [|by eauto].
      split; [by intros ? [= <-]|done]. }
    + intros [= <- <-]. by eapply ap_key.
    + destruct (Z.leb_spec (ix_capacity s) (Z.of_nat (size (ix_receipts s)))); intros [= <- <-];
        [by apply ap_full|by apply ap_appended].
Qed.

Lemma memory_index_step s e s' r :
  append_once s e = (s', r) → ∃ status, r = Ok status ∧ append s e s' status.
Proof.
  unfold append_once, memory_index. destruct (memory_append_once s e) as [s1 r1] eqn:E.
  intros [= <- <-]. exists r1. split; [done|]. by apply memory_append.
Qed.

Lemma insert_same_keeps {A} `{Countable A} (m : gmap A string) k v x w :
  (∀ u, m !! k = Some u → u = v) → m !! x = Some w → <[k := v]> m !! x = Some w.
Proof.
  intros Hk Hx. destruct (decide (k = x)) as [<-|Hne]; [|by rewrite lookup_insert_ne].
  rewrite lookup_insert_eq. by rewrite (Hk w Hx).
Qed.

Lemma memory_recorded s e s' status :
  append_once s e = (s', Ok status) → status = APPENDED ∨ status = ALREADY_PRESENT →
  s'.(ix_receipts) !! receipt_key e = Some e.(en_payload_sha256) ∧
  s'.(ix_attempts) !! attempt_key e = Some e.(en_payload_sha256) ∧
  (status = APPENDED → s.(ix_receipts) !! receipt_key e = None ∧
     s'.(ix_idempotency) !! idempotency_key e = Some e.(en_intent_sha256)).
Proof.
  intros (st & [= <-] & H)%memory_index_step Hst. destruct H; try by destruct Hst.
  cbn [ix_receipts ix_attempts ix_idempotency]. rewrite !lookup_insert_eq. auto.
Qed.

Lemma memory_index_keeps s e s' r :
  append_once s e = (s', r) →
  (∀ k v, s.(ix_receipts) !! k = Some v → s'.(ix_receipts) !! k = Some v) ∧
  (∀ k v, s.(ix_attempts) !! k = Some v → s'.(ix_attempts) !! k = Some v) ∧
  (∀ k v, s.(ix_idempotency) !! k = Some v → s'.(ix_idempotency) !! k = Some v).
Proof.
  intros (st & -> & H)%memory_index_step. destruct H as [| | | | |H1 H2 H3 H4]; try done.
  cbn [ix_receipts ix_attempts ix_idempotency].
  split; [|split]; intros k v; apply insert_same_keeps; intros u Hu; [congruence..|by apply H3].
Qed.

#[export] Instance memory_index_laws : ReceiptIndexLaws InMemoryReceiptIndex := {|
  receipt_of s k := s.(ix_receipts) !! k;
  attempt_of s k := s.(ix_attempts) !! k;
  intent_of s k := s.(ix_idempotency) !! k;
  append_recorded := memory_recorded;
  append_keeps := memory_index_keeps;
|}.

Definition index_step `{ReceiptIndex T} (s s' : T) : Prop := ∃ e r, append_once s e = (s', r).

Section steps.
Context `{ReceiptIndexLaws T}.
Lemma index_steps_keep s s' : rtc index_step s s' →
  (∀ k v, receipt_of s k = Some v → receipt_of s' k = Some v) ∧
  (∀ k v, attempt_of s k = Some v → attempt_of s' k = Some v) ∧
  (∀ k v, intent_of s k = Some v → intent_of s' k = Some v).
Proof.
  induction 1 as [|s1 s2 s3 (e & r & He) _ (I1 & I2 & I3)]; [done|].
  apply append_keeps in He as (K1 & K2 & K3). auto 10.
Qed.
End steps.

Inductive index_reachable : InMemoryReceiptIndex → Prop :=
| ir_init capacity s : index_init capacity = Ok s → index_reachable s
| ir_step s e s' r : index_reachable s → memory_append_once s e = (s', r) → index_reachable s'.

(** The in-memory index in full: an append takes one of six branches and changes the
    index only when it appends; a reachable index holds as many attempts as receipts, at
    most its capacity; and a recorded receipt can be presented again at any later time: it
    is found, and nothing changes. *)
Lemma memory_index_contract (s s1 s2 : InMemoryReceiptIndex) (e : ReceiptEntry) (r : ReceiptIndexStatus) :
  index_reachable s → memory_append_once s e = (s1, r) → rtc index_step s1 s2 →
  append s e s1 r ∧ (r ≠ APPENDED → s1 = s) ∧
  size s1.(ix_attempts) = size s1.(ix_receipts) ∧ Z.of_nat (size s1.(ix_receipts)) ≤ s1.(ix_capacity) ≤ 1000000 ∧
  (r = APPENDED ∨ r = ALREADY_PRESENT → memory_append_once s2 e = (s2, ALREADY_PRESENT)).
Proof.
  intros Hs H Hsteps. pose proof (memory_append _ _ _ _ H) as Ha. split; [done|].
  split; [by destruct Ha|].
  assert (∀ t, index_reachable t → size t.(ix_attempts) = size t.(ix_receipts) ∧
    Z.of_nat (size t.(ix_receipts)) ≤ t.(ix_capacity) ≤ 1000000) as Hinv.
  { induction 1 as [capacity t Ht|t e' t' r' _ IH Ht].
    - unfold index_init, MAX_RECEIPT_INDEX_CAPACITY in Ht. apply bind_Ok in Ht as (? & Hc%require_Ok & [= <-]).
      apply negb_true_iff, orb_false_iff in Hc as [?%Z.ltb_ge ?%Z.ltb_ge]. cbn. rewrite !map_size_empty. lia.
    - apply memory_append in Ht. destruct Ht; try done. cbn [ix_receipts ix_attempts ix_capacity].
      rewrite !map_size_insert_None by done. lia. }
  destruct (Hinv s1) as [? ?]; [by eapply ir_step|]. do 2 (split; [done|]). intros Hr.
  destruct (memory_recorded s e s1 r) as (R1 & R2 & _); [|done|].
  { unfold append_once, memory_index. by rewrite H. }
  apply index_steps_keep in Hsteps as (K1 & K2 & _). cbn [receipt_of attempt_of memory_index_laws] in K1, K2.
  apply K1 in R1. apply K2 in R2. unfold memory_append_once. cbv zeta.
  by rewrite R1, R2, String.eqb_refl, bool_decide_eq_true_2.
Qed.
