(* ===== verification/ReceiptSound.v ===== *)
(** * What a recorded receipt has been checked for

    [attested] is the specification of an acceptable receipt: the accepted certificate it
    refers to, the roots that authorised that, the action it is about and the observers
    that signed it. *)
From S2P Require Import Prelude Json Dicts PyTime PyDecimal Sha256 Canonical Base64 Platforms Models.
From S2P Require Import Checks CertModels CertLedger Evidence Certificate CertFacts CertSound CertTotal.
From S2P Require Import ReceiptModels Receipt ReceiptFacts.
Local Open Scope Z_scope.

Lemma Ok_inj {A} (x y : A) : Ok x = Ok y → x = y.
Proof. congruence. Qed.
Lemma orR_false a b : orR a b = Ok false ↔ a = Ok false ∧ b = Ok false.
Proof.
  unfold orR. destruct a as [[]|]; cbn; split; try done; try by intros [? ?].
Qed.
Lemma anyR_false {A} (f : A → result bool) l : anyR f l = Ok false ↔ ∀ x, x ∈ l → f x = Ok false.
Proof.
  induction l as [|x l IH]; simpl.
  - split; [intros _ x ?%not_elem_of_nil; done|done].
  - rewrite orR_false, IH. split.
    + intros [Hx Hl] y [->|Hy]%elem_of_cons; auto.
    + intros H. split; [apply H; by left|intros y Hy; apply H; by right].
Qed.

Section authority.
Context `{P : Platform} `{K : Ed25519} `{C : CertificateParser}.

Lemma find_root_spec roots id root : find_root roots id = Some root → root ∈ roots ∧ root.(tr_root_id) = id.
Proof.
  intros H%assoc_Some%elem_of_dict_of. apply list_elem_of_In, in_map_iff in H as (r & [= <- <-] & Hr).
  split; [by apply list_elem_of_In|done].
Qed.

Lemma omap_roots roots ids :
  forallb (λ id, given (find_root roots id)) ids = true →
  map tr_root_id (omap (find_root roots) ids) = ids ∧
  ∀ r, r ∈ omap (find_root roots) ids → r ∈ roots ∧ r.(tr_root_id) ∈ ids.
Proof.
  induction ids as [|id ids IH]; [intros _; split; [done|intros r ?%not_elem_of_nil; done]|].
  intros [Hg H]%andb_true_iff. destruct (IH H) as [Hm Hr].
  destruct (find_root roots id) as [root|] eqn:E; [|done].
  assert (omap (find_root roots) (id :: ids) = root :: omap (find_root roots) ids) as ->
    by (cbn; by rewrite E).
  apply find_root_spec in E as [Hin Hid]. split; [cbn [map]; by rewrite Hid, Hm|].
  intros r [->|Hx]%elem_of_cons; [split; [done|]; rewrite Hid; by left|].
  destruct (Hr r Hx). split; [done|by right].
Qed.

Lemma authority_lacking_eligible policy predicate purpose approvers at_ root :
  authority_lacking policy predicate purpose
    (if is_purpose purpose ACTION_ISSUER then policy.(tp_allowed_action_issuer_principals)
     else policy.(tp_allowed_approval_principals)) approvers at_ root = Ok false →
  eligible policy purpose predicate at_ approvers root.
Proof.
  unfold authority_lacking. destruct (_ || _) eqn:E; [done|]. intros (current & Hc & [= Hn])%bind_Ok.
  split_bools. subst current. unfold is_purpose in *. split_bools. split; try done.
  - by apply String.eqb_eq.
  - by apply trust_root_is_current_sound.
  - intros l ->. by split_bools.
Qed.

Lemma below_threshold_false roots threshold :
  below_threshold roots threshold = Ok false →
  threshold ≤ distinct_count (map tr_principal_id roots) ∧
  ∃ fingerprints, mapR trust_root_fingerprint roots = Ok fingerprints ∧ threshold ≤ distinct_count fingerprints.
Proof.
  unfold below_threshold. intros [[= H1] H2]%orR_false. apply bind_Ok in H2 as (f & Hf & [= H2]).
  apply Z.ltb_ge in H1, H2. split; [done|]. by exists f.
Qed.

(** The roots of one purpose that stand behind a certificate *)
Record authorizing (policy : TrustPolicy) (predicate : ActionCertificatePredicate) (purpose : TrustPurpose)
    (approvers : option (list string)) (at_ : datetime) (envelope : DsseEnvelope) (payload : string)
    (threshold : Z) (ids : list string) (roots : list TrustRoot) : Prop := {
  az_ids : map tr_root_id roots = ids;
  az_signed : ∀ r, r ∈ roots → r ∈ policy.(tp_roots) ∧ signed_by envelope payload r;
  az_eligible : ∀ r, r ∈ roots → eligible policy purpose predicate at_ approvers r;
  az_threshold : threshold ≤ distinct_count (map tr_principal_id roots) ∧
    ∃ fingerprints, mapR trust_root_fingerprint roots = Ok fingerprints ∧ threshold ≤ distinct_count fingerprints;
}.

(** The issuers and approvers named by the verification signed the certificate and were
    entitled to when it was verified. *)
Definition authority (policy : TrustPolicy) (verification : Result) (st : ActionCertificateStatement)
    (bytes : string) (at_ : datetime) (issuers approvers : list TrustRoot) : Prop :=
  let p := st.(acs_predicate) in
  ∃ envelope payload, load_DsseEnvelope bytes = Ok envelope ∧
    (∃ label, decode_canonical_base64 envelope.(env_payload) label None true = Ok payload) ∧
    authorizing policy p ACTION_ISSUER None at_ envelope payload policy.(tp_action_issuer_threshold)
      verification.(avr_verified_action_issuer_roots) issuers ∧
    (if p.(acp_approval).(apb_required) then
       authorizing policy p HUMAN_APPROVAL (Some p.(acp_approval).(apb_approver_principals)) at_ envelope payload
         policy.(tp_human_approval_threshold) verification.(avr_verified_human_approval_roots) approvers
     else approvers = []) ∧
    independent p issuers approvers.

Lemma cryptographic_roots policy bytes ids :
  NoDup (map tr_root_id policy.(tp_roots)) → cryptographic_root_ids policy bytes = Ok (Some ids) →
  ∃ envelope payload, load_DsseEnvelope bytes = Ok envelope ∧
    (∃ label, decode_canonical_base64 envelope.(env_payload) label None true = Ok payload) ∧
    ∀ r, r ∈ policy.(tp_roots) → r.(tr_root_id) ∈ ids → signed_by envelope payload r.
Proof.
  unfold cryptographic_root_ids. intros Hids H.
  match type of H with match ?m with _ => _ end = _ => destruct m as [l|e] eqn:E end;
    [|by destruct (is_value_error e)].
  injection H as ->. apply bind_Ok in E as (envelope & He & E). apply bind_Ok in E as (payload & Hp & E).
  apply bind_Ok in E as (roots & Hr & [= <-]). exists envelope, payload.
  split; [by apply parse_json_model_Ok in He|]. split; [by eexists|]. intros r Hin Hid.
  apply verified_roots_spec in Hr as [_ Hr]; [|done].
  apply list_elem_of_In, in_map_iff in Hid as (r' & Heq & Hr'%list_elem_of_In). apply Hr in Hr' as [Hin' Hs].
  assert (r = r') as ->; [|done]. apply list_elem_of_lookup in Hin as [i Hi], Hin' as [j Hj].
  assert (i = j) as ->; [|congruence].
  apply (NoDup_lookup (map tr_root_id policy.(tp_roots)) i j r.(tr_root_id)); [done|..];
    change (map tr_root_id policy.(tp_roots)) with (tr_root_id <$> policy.(tp_roots)); rewrite list_lookup_fmap;
    by rewrite ?Hi, ?Hj; simpl; rewrite ?Heq.
Qed.

Lemma authority_roots_spec policy verification st bytes at_ roots :
  NoDup (map tr_root_id policy.(tp_roots)) →
  _authority_roots policy verification st bytes at_ = Ok (Some roots) →
  ∃ issuers approvers, roots = issuers ++ approvers ∧ authority policy verification st bytes at_ issuers approvers.
Proof.
  unfold _authority_roots. cbv zeta. intros Hids H. destruct (_ || _) eqn:E; [done|]. split_bools.
  match goal with H : forallb _ _ = true |- _ => rewrite forallb_app in H; apply andb_true_iff in H as [Gi Ga] end.
  unfold root_by_id in Gi, Ga. apply omap_roots in Gi as [Mi Ri], Ga as [Ma Ra].
  set (issuers := omap _ (avr_verified_action_issuer_roots _)) in *.
  set (approvers := omap _ (avr_verified_human_approval_roots _)) in *.
  apply bind_Ok in H as (oids & Ho & H). destruct oids as [ids|]; [|done].
  destruct (negb (forallb _ _)) eqn:Ei; [done|]. split_bools.
  assert (∀ id, id ∈ verification.(avr_verified_action_issuer_roots) ++ verification.(avr_verified_human_approval_roots) →
    id ∈ ids) as Hsub.
  { intros id Hid. rewrite forallb_forall in Ei. apply list_elem_of_In in Hid. by apply Ei, bool_decide_eq_true in Hid. }
  apply bind_Ok in H as (refused & Hr & H). destruct refused; [done|]. injection H as <-.
  apply (cryptographic_roots _ _ _ Hids) in Ho as (envelope & payload & He & Hp & Hs).
  exists issuers, approvers. split; [done|]. exists envelope, payload. do 2 (split; [done|]).
  unfold authority_refused in Hr. apply orR_false in Hr as [Hi Hr]. apply orR_false in Hr as [Ha Hself].
  apply orR_false in Hi as [Hi Hit]. split; [|split; [|by apply self_approved_independent]].
  - split; [done| | |by apply below_threshold_false].
    + intros r Hx. destruct (Ri r Hx). split; [done|]. apply Hs; [done|]. apply Hsub, elem_of_app. by left.
    + intros r Hx. apply authority_lacking_eligible. rewrite anyR_false in Hi. by apply Hi.
  - destruct (apb_required _); [|injection Ha as Ha; by destruct approvers].
    apply orR_false in Ha as [_ Ha]. apply orR_false in Ha as [Ha Hat].
    split; [done| | |by apply below_threshold_false].
    + intros r Hx. destruct (Ra r Hx). split; [done|]. apply Hs; [done|]. apply Hsub, elem_of_app. by right.
    + intros r Hx. apply authority_lacking_eligible. rewrite anyR_false in Ha. by apply Ha.
Qed.
End authority.

(** ** Observers *)
Section observers.
Context `{P : Platform}.
Context (policy : TrustPolicy) (predicate : ExecutionReceiptPredicate) (authority_roots : list TrustRoot)
  (authority_fingerprints : list string) (human_principal_id : string) (disallowed : list string) (now : datetime).
Notation skew := (seconds policy.(tp_max_clock_skew_seconds)).
Notation step := (observe policy predicate (map tr_principal_id authority_roots) authority_fingerprints
  human_principal_id disallowed now).

(** A signer that may observe: declared, in force when the receipt was issued and now, and
    none of the parties to the action *)
Record impartial (root : TrustRoot) : Prop := {
  im_declared : root.(tr_principal_id) ∈ predicate.(erp_producer).(pd_observer_principals);
  im_executor : root.(tr_principal_id) ≠ predicate.(erp_executor_workload).(pb_principal_id);
  im_human : root.(tr_principal_id) ≠ human_principal_id;
  im_authority : root.(tr_principal_id) ∉ map tr_principal_id authority_roots;
  im_key : ∃ fingerprint, trust_root_fingerprint root = Ok fingerprint ∧
    fingerprint ∉ authority_fingerprints ∧ fingerprint ∉ disallowed;
  im_issued : in_force root predicate.(erp_issued_at) skew;
  im_now : in_force root now skew;
}.

Definition unflagged (acc : Observers) : Prop :=
  acc.(ob_stale_or_revoked) = false ∧ acc.(ob_self_observation) = false ∧ acc.(ob_producer_mismatch) = false.
Definition observers_inv (roots : list TrustRoot) (acc : Observers) : Prop :=
  NoDup (map fst acc.(ob_distinct)) ∧ NoDup (map (λ kv, (snd kv).(tr_principal_id)) acc.(ob_distinct)) ∧
  Forall (λ kv : string * TrustRoot, trust_root_fingerprint (snd kv) = Ok (fst kv) ∧ snd kv ∈ roots ∧
    observer_root policy predicate (snd kv) = true ∧ impartial (snd kv) ∧
    (snd kv).(tr_principal_id) ∈ acc.(ob_principals)) acc.(ob_distinct).

Lemma current_false root at_ :
  (current ← trust_root_is_current root at_ skew; Ok (negb current)) = Ok false → in_force root at_ skew.
Proof. intros (c & Hc & [= Hn])%bind_Ok. destruct c; [|done]. by apply trust_root_is_current_sound. Qed.

Lemma observe_step roots acc root acc' :
  root ∈ roots → step acc root = Ok acc' →
  (observers_inv roots acc → observers_inv roots acc') ∧
  (unflagged acc' → unflagged acc ∧ (observer_root policy predicate root = true → impartial root)).
Proof.
  intros Hin. destruct acc as [distinct principals stale self mismatch]. unfold observe, unflagged. cbv zeta.
  destruct (observer_root policy predicate root) eqn:Eo; cbn [negb]; [|by intros [= <-]].
  destruct (bool_decide (_ ∈ pd_observer_principals _)) eqn:Ed; cbn [negb]; [|intros [= <-]; cbn; split; [done|by intros (?&?&?)]].
  intros (fp & Hfp & H)%bind_Ok. destruct (_ || _) eqn:Es; [injection H as <-; cbn; split; [done|by intros (?&?&?)]|].
  apply bind_Ok in H as (old & Hold & H). destruct old; [injection H as <-; cbn; split; [done|by intros (?&?&?)]|].
  apply orR_false in Hold as [Hi%current_false Hn%current_false].
  assert (impartial root) as Him.
  { split_bools. split; try done; [by apply String.eqb_neq..|]. by exists fp. }
  match type of H with (if ?b then _ else _) = _ => destruct b eqn:Ek end; injection H as <-; [by split|]. cbn [ob_stale_or_revoked ob_self_observation ob_producer_mismatch].
  split; [|done]. unfold observers_inv. cbn [ob_distinct ob_principals]. intros (N1 & N2 & Hall). split_bools.
  split; [|split].
  - rewrite map_app. apply NoDup_snoc; [done|by apply assoc_fresh].
  - rewrite map_app. apply NoDup_snoc; [done|]. intros Hx.
    apply list_elem_of_In, in_map_iff in Hx as (kv & He & Hkv%list_elem_of_In). cbn [snd] in He.
    rewrite Forall_forall in Hall. destruct (Hall kv Hkv) as (_ & _ & _ & _ & Hp). congruence.
  - apply Forall_app. split; [|apply Forall_singleton; cbn [fst snd]; auto 10 using list_elem_of_here].
    eapply Forall_impl; [exact Hall|]. intros kv (? & ? & ? & ? & ?). auto 10 using list_elem_of_further.
Qed.

Lemma observe_all roots l acc acc' :
  (∀ r, r ∈ l → r ∈ roots) → foldR step acc l = Ok acc' →
  (observers_inv roots acc → observers_inv roots acc') ∧
  (unflagged acc' → unflagged acc ∧ ∀ r, r ∈ l → observer_root policy predicate r = true → impartial r).
Proof.
  revert acc. induction l as [|root l IH]; intros acc Hl H; simpl in H.
  - injection H as <-. split; [done|]. intros Hu. split; [done|by intros r ?%not_elem_of_nil].
  - apply bind_Ok in H as (acc1 & H1 & H). apply (observe_step roots) in H1 as [I1 U1]; [|apply Hl; by left].
    destruct (IH acc1) as [I2 U2]; [intros r Hr; apply Hl; by right|done|]. split; [by auto|].
    intros Hu. destruct (U2 Hu) as [Hu1 Hr2]. destruct (U1 Hu1) as [Hu0 Hr1]. split; [done|].
    intros r [->|Hr]%elem_of_cons; auto.
Qed.
End observers.

Lemma qualifying_observers_spec `{P : Platform} roots predicate policy authority_roots human disallowed now l acc :
  _qualifying_observer_roots roots predicate policy authority_roots human disallowed now = Ok (l, acc) →
  ∃ keys, mapR trust_root_fingerprint authority_roots = Ok keys ∧ distinct_roots l ∧
    (∀ r, r ∈ l → r ∈ roots ∧ observer_root policy predicate r = true ∧
       impartial policy predicate authority_roots keys human disallowed now r) ∧
    (unflagged acc → ∀ r, r ∈ roots → observer_root policy predicate r = true →
       impartial policy predicate authority_roots keys human disallowed now r).
Proof.
  unfold _qualifying_observer_roots. intros (keys & Hk & H)%bind_Ok. apply bind_Ok in H as (acc1 & H & [= <- <-]).
  exists keys. split; [done|]. apply (observe_all _ _ _ _ _ _ _ roots) in H as [Hi Hu]; [|done].
  destruct Hi as (N1 & N2 & Hall).
  { split; [apply NoDup_nil_2|]. split; [apply NoDup_nil_2|constructor]. }
  set (sorted := isort (key_leb fst) _). assert (sorted ≡ₚ acc1.(ob_distinct)) as Hperm by apply isort_perm.
  rewrite <- Hperm in Hall. split; [|split; [|intros Hf; by apply Hu]].
  - split.
    + rewrite map_map. change (NoDup ((λ kv : string * TrustRoot, tr_principal_id (snd kv)) <$> sorted)).
      by rewrite Hperm.
    + exists (map fst sorted). split.
      * clear -Hall. induction Hall as [|kv sorted (H & _) _ IH]; simpl; [done|]. by rewrite H, IH.
      * change (NoDup (fst <$> sorted)). by rewrite Hperm.
  - intros r Hr. apply list_elem_of_In, in_map_iff in Hr as (kv & <- & Hkv%list_elem_of_In).
    rewrite Forall_forall in Hall. destruct (Hall kv Hkv) as (_ & ? & ? & ? & _). done.
Qed.

(** ** The specification of an acceptable receipt *)
Section sound.
Context `{P : Platform} `{K : Ed25519} `{C : CertificateParser}.
Context (load_ExecutionReceiptStatement : string → result ExecutionReceiptStatement).
Notation admission := (admit_receipt load_ExecutionReceiptStatement).

Definition receipt_opens (envelope_bytes : string) (policy : TrustPolicy) (o : OpenedReceipt) : Prop :=
  ∃ envelope payload,
    Z.of_nat (String.length envelope_bytes) ≤ MAX_ENVELOPE_BYTES ∧ load_DsseEnvelope envelope_bytes = Ok envelope ∧
    (∃ label, decode_canonical_base64 envelope.(env_payload) label None true = Ok payload) ∧
    Z.of_nat (String.length payload) ≤ MAX_PAYLOAD_BYTES ∧
    load_ExecutionReceiptStatement payload = Ok o.(or_statement) ∧
    o.(or_envelope_sha256) = sha256_bytes envelope_bytes ∧ o.(or_payload_sha256) = sha256_bytes payload ∧
    ∀ r, r ∈ o.(or_verified_roots) ↔ r ∈ policy.(tp_roots) ∧ signed_by envelope payload r.

(** The reference names these bytes, their payload and this accepted verification. *)
Definition refers_to (ref : ActionCertificateReference) (bytes : string) (verification : Result)
    (st : ActionCertificateStatement) : Prop :=
  ∃ envelope payload, load_DsseEnvelope bytes = Ok envelope ∧
    (∃ label, decode_canonical_base64 envelope.(env_payload) label None true = Ok payload) ∧
    load_ActionCertificateStatement payload = Ok st ∧
    ref.(cr_envelope_sha256) = sha256_bytes bytes ∧ ref.(cr_payload_sha256) = sha256_bytes payload ∧
    action_certificate_verification_sha256 verification = Ok ref.(cr_verification_result_sha256) ∧
    verification.(avr_certificate_id) = Some ref.(cr_certificate_id) ∧
    st.(acs_predicate).(acp_certificate_id) = ref.(cr_certificate_id) ∧
    approval_scope_sha256 st = Ok ref.(cr_intent_sha256) ∧
    verification.(avr_status) = VerificationStatus.ACCEPT ∧ verification.(avr_reserved) = true.

(** The action was reserved before it started and ran while the certificate was valid. *)
Definition in_window (policy : TrustPolicy) (p : ActionCertificatePredicate) (r : ExecutionReceiptPredicate) : Prop :=
  let skew := seconds policy.(tp_max_clock_skew_seconds) in
  let c := r.(erp_certificate_ref) in
  let from t := us p.(acp_not_before).(wt_at) ≤ us t + skew in
  let until t := us t - skew < us p.(acp_expires_at).(wt_at) in
  us c.(cr_reserved_at) ≤ us r.(erp_attempt).(at_started_at) ∧
  from c.(cr_verification_at) ∧ until c.(cr_verification_at) ∧ from c.(cr_reserved_at) ∧ until c.(cr_reserved_at) ∧
  from r.(erp_attempt).(at_started_at) ∧ until r.(erp_attempt).(at_ended_at).

(** The receipt is about the action the certificate authorises. *)
Record same_action (expected : ExpectedExecutionBinding) (st : ActionCertificateStatement)
    (r : ExecutionReceiptPredicate) : Prop := {
  sa_tenant : st.(acs_predicate).(acp_tenant_id) = r.(erp_tenant_id);
  sa_human : st.(acs_predicate).(acp_human_principal) = expected.(xe_human_principal);
  sa_case : st.(acs_predicate).(acp_subject).(sb_subject_id) = r.(erp_case_id);
  sa_workload : st.(acs_predicate).(acp_workload_principal) = r.(erp_executor_workload);
  sa_trace : st.(acs_predicate).(acp_context).(cb_trace_id) = r.(erp_trace).(to_trace_id);
  sa_request : st.(acs_predicate).(acp_context).(cb_request_id) = r.(erp_execution_id);
  sa_operation : st.(acs_predicate).(acp_action).(ab_action_name) = r.(erp_operation).(oo_name);
  sa_parameters : st.(acs_predicate).(acp_action).(ab_parameters_sha256) = r.(erp_operation).(oo_request_sha256);
  sa_effect : (st.(acs_predicate).(acp_effect).(eb_effect_type), st.(acs_predicate).(acp_effect).(eb_target),
               st.(acs_predicate).(acp_effect).(eb_request_sha256), st.(acs_predicate).(acp_effect).(eb_idempotency_key)) =
              (r.(erp_effect).(eo_effect_type), r.(erp_effect).(eo_target), r.(erp_operation).(oo_request_sha256),
               r.(erp_effect).(eo_idempotency_key));
  sa_intent : approval_scope_sha256 st = Ok r.(erp_effect).(eo_intent_sha256);
  sa_inputs : dict_map (map (λ s, (s.(its_name), "sha256:" +:+ s.(its_sha256))) st.(acs_subject)) =
              dict_map (map (λ a, (a.(ao_artifact_id), a.(ao_sha256))) r.(erp_inputs));
  sa_resource : st.(acs_predicate).(acp_resource).(rb_resource_type) = "artifact" →
    st.(acs_predicate).(acp_resource).(rb_resource_id) ∈ artifact_ids r.(erp_outputs);
}.

(** Enough observers signed, all of them declared, and no signature of an observer root is
    that of a party. *)
Definition observed_by (policy : TrustPolicy) (expected : ExpectedExecutionBinding) (now : datetime)
    (st : ActionCertificateStatement) (o : OpenedReceipt) (authorities observers : list TrustRoot) : Prop :=
  let r := o.(or_statement).(ers_predicate) in
  ∃ keys, mapR trust_root_fingerprint authorities = Ok keys ∧ distinct_roots observers ∧
    policy.(tp_execution_observer_threshold) ≤ Z.of_nat (length observers) ∧
    (∀ p, p ∈ map tr_principal_id observers ↔ p ∈ r.(erp_producer).(pd_observer_principals)) ∧
    (∀ root, root ∈ observers → root ∈ o.(or_verified_roots) ∧ observer_root policy r root = true) ∧
    ∀ root, root ∈ o.(or_verified_roots) → observer_root policy r root = true →
      impartial policy r authorities keys st.(acs_predicate).(acp_human_principal).(pb_principal_id)
        (expected.(xe_executor_workload_key_fingerprints) ++ expected.(xe_human_principal_key_fingerprints)) now root.

Record attested (envelope_bytes : string) (policy : TrustPolicy) (expected : ExpectedExecutionBinding)
    (certificate_bytes : string) (verification : Result) (now : datetime) (o : OpenedReceipt)
    (st : ActionCertificateStatement) (issuers approvers observers : list TrustRoot) : Prop := {
  tt_opens : receipt_opens envelope_bytes policy o;
  tt_issued : us o.(or_statement).(ers_predicate).(erp_issued_at) ≤
    us now + seconds policy.(tp_max_clock_skew_seconds);
  tt_policy : _policy_allows_receipt policy expected = true;
  tt_expected : expected_execution_binding_for o.(or_statement) expected.(xe_human_principal)
    expected.(xe_executor_workload_key_fingerprints) expected.(xe_human_principal_key_fingerprints) = expected;
  tt_refers : refers_to o.(or_statement).(ers_predicate).(erp_certificate_ref) certificate_bytes verification st;
  tt_window : in_window policy st.(acs_predicate) o.(or_statement).(ers_predicate);
  tt_action : same_action expected st o.(or_statement).(ers_predicate);
  tt_authority : authority policy verification st certificate_bytes
    o.(or_statement).(ers_predicate).(erp_certificate_ref).(cr_verification_at) issuers approvers;
  tt_observed : observed_by policy expected now st o (issuers ++ approvers) observers;
}.

(** ** Each check establishes its part *)
Lemma halt_Go {A} status reason e i p roots (x : A) : halt status reason e i p roots ≠ Ok (Go x).
Proof. unfold halt. by intros (? & _ & ?)%bind_Ok. Qed.
Lemma halt_on_Go {A} o status reason roots (x : A) : halt_on o status reason roots ≠ Ok (Go x).
Proof. unfold halt_on. by intros (? & _ & ?)%bind_Ok. Qed.
Ltac no_halt := match goal with H : halt _ _ _ _ _ _ = Ok (Go _) |- _ => by apply halt_Go in H
  | H : halt_on _ _ _ _ = Ok (Go _) |- _ => by apply halt_on_Go in H end.

Lemma open_payload_Some bytes l l' envelope payload :
  open_payload bytes l l' = Ok (Some (envelope, payload)) →
  load_DsseEnvelope bytes = Ok envelope ∧ decode_canonical_base64 envelope.(env_payload) l' None true = Ok payload.
Proof.
  unfold open_payload. intros H.
  match type of H with match ?m with _ => _ end = _ => destruct m as [x|e] eqn:E end; [|by destruct (is_value_error e)].
  injection H as ->. apply bind_Ok in E as (env & He & E). apply bind_Ok in E as (pay & Hp & [= -> ->]).
  split; [by apply parse_json_model_Ok in He|done].
Qed.

Lemma open_receipt_Go envelope_bytes policy o :
  NoDup (map tr_root_id policy.(tp_roots)) →
  open_receipt load_ExecutionReceiptStatement envelope_bytes policy = Ok (Go o) → receipt_opens envelope_bytes policy o.
Proof.
  unfold open_receipt. cbv zeta. intros Hids H.
  destruct (Z.ltb_spec MAX_ENVELOPE_BYTES (Z.of_nat (String.length envelope_bytes))); [no_halt|].
  apply bind_Ok in H as (opened & Hopen & H). destruct opened as [[envelope payload]|]; [|no_halt].
  apply open_payload_Some in Hopen as [He Hp].
  destruct (Z.ltb_spec MAX_PAYLOAD_BYTES (Z.of_nat (String.length payload))); [no_halt|].
  apply bind_Ok in H as (roots & Hr & H). destruct (negb (nonempty roots)); [no_halt|].
  destruct (parse_json_model load_ExecutionReceiptStatement _ _) as [statement|e] eqn:Es;
    [|destruct (is_value_error e); [no_halt|done]].
  injection H as <-. exists envelope, payload. do 2 (split; [done|]). split; [by eexists|]. split; [done|].
  split; [by apply parse_json_model_Ok in Es|]. do 2 (split; [done|]). by apply verified_roots_spec in Hr as [_ ?].
Qed.

Lemma check_expected_Go policy expected now o u :
  check_expected policy expected now o = Ok (Go u) →
  us o.(or_statement).(ers_predicate).(erp_issued_at) ≤ us now + seconds policy.(tp_max_clock_skew_seconds) ∧
  _policy_allows_receipt policy expected = true ∧
  expected_execution_binding_for o.(or_statement) expected.(xe_human_principal)
    expected.(xe_executor_workload_key_fingerprints) expected.(xe_human_principal_key_fingerprints) = expected.
Proof.
  unfold check_expected. cbv zeta. intros (ahead & Ha & H)%bind_Ok. apply bind_Ok in H as (future & Hf & H).
  destruct future; [no_halt|]. destruct (_policy_allows_receipt policy expected); cbn [negb] in H; [|no_halt].
  destruct (bool_decide _) eqn:Hb; cbn [negb] in H; [|no_halt]. us_facts. split_bools. split; [lia|done].
Qed.

Lemma context_accept bytes verification ref st :
  _action_certificate_context bytes verification ref = Ok (VerificationStatus.ACCEPT, None, Some st) →
  refers_to ref bytes verification st.
Proof.
  unfold _action_certificate_context. cbv zeta. intros H. destruct (_ <? _); [done|].
  apply bind_Ok in H as (opened & Hopen & H). destruct opened as [[envelope payload]|]; [|done].
  apply open_payload_Some in Hopen as [He Hp]. destruct (_ || _); [done|].
  apply bind_Ok in H as (other & Hm & H). destruct other; [done|].
  destruct (bool_decide _); [done|]. destruct (negb _ || _) eqn:Eacc; [done|].
  destruct (parse_json_model load_ActionCertificateStatement _ _) as [st'|e] eqn:Es; [|by destruct (is_value_error e)].
  apply bind_Ok in H as (another & Hn & H). destruct another; [done|]. injection H as ->.
  unfold reference_mismatch in Hm. apply orR_false in Hm as [Hm%Ok_inj Hm2]. apply bind_Ok in Hm2 as (digest & Hd & [= Hm2]).
  apply orR_false in Hn as [Hn%Ok_inj Hn2]. apply bind_Ok in Hn2 as (scope & Hsc & [= Hn2]). split_bools.
  repeat match goal with H : String.eqb _ _ = true |- _ => apply String.eqb_eq in H end. subst.
  exists envelope, payload. split; [done|]. split; [by eexists|]. split; [by apply parse_json_model_Ok in Es|].
  repeat split; congruence.
Qed.

Lemma check_certificate_Go certificate_bytes verification o st :
  check_certificate certificate_bytes verification o = Ok (Go st) →
  refers_to o.(or_statement).(ers_predicate).(erp_certificate_ref) certificate_bytes verification st.
Proof.
  unfold check_certificate. intros ([[status reason] found] & Hc & H)%bind_Ok.
  destruct (bool_decide _) eqn:Es; cbn [negb] in H; [|destruct reason; no_halt]. split_bools. subst status.
  destruct found as [st'|]; [|no_halt]. injection H as ->. apply context_accept.
  destruct reason as [r|]; [|done]. exfalso. revert Hc. unfold _action_certificate_context. cbv zeta.
  destruct (_ <? _); [done|]. intros (opened & _ & H)%bind_Ok. destruct opened as [[e p]|]; [|done].
  destruct (_ || _); [done|]. apply bind_Ok in H as (other & _ & H). destruct other; [done|].
  destruct (bool_decide _); [done|]. destruct (negb _ || _); [done|].
  destruct (parse_json_model _ _ _) as [x|err]; [|by destruct (is_value_error err)].
  by apply bind_Ok in H as ([] & _ & H).
Qed.

Lemma before_window_false p skew t : before_window p skew t = Ok false → us p.(acp_not_before).(wt_at) ≤ us t + skew.
Proof. unfold before_window. intros (a & Ha & H)%bind_Ok. us_facts. lia. Qed.
Lemma after_window_false p skew t : after_window p skew t = Ok false → us t - skew < us p.(acp_expires_at).(wt_at).
Proof.
  unfold after_window. intros (a & Ha & H)%bind_Ok. apply bind_Ok in H as (live & Hl & [= Hn]).
  destruct live; [|done]. us_facts. lia.
Qed.

Lemma check_action_Go policy expected st o u :
  check_action policy expected st o = Ok (Go u) →
  in_window policy st.(acs_predicate) o.(or_statement).(ers_predicate) ∧
  same_action expected st o.(or_statement).(ers_predicate).
Proof.
  unfold check_action. cbv zeta. intros (late & Hl & H)%bind_Ok. destruct late; [no_halt|].
  apply bind_Ok in H as (outside & Ho & H). destruct outside; [no_halt|].
  apply bind_Ok in H as (other & Ha & H). destruct other; [no_halt|]. us_facts. split.
  - unfold outside_window in Ho. cbv zeta in Ho.
    apply orR_false in Ho as [?%before_window_false Ho]. apply orR_false in Ho as [?%after_window_false Ho].
    apply orR_false in Ho as [?%before_window_false Ho]. apply orR_false in Ho as [?%after_window_false Ho].
    apply orR_false in Ho as [?%before_window_false ?%after_window_false]. by repeat split.
  - unfold other_action in Ha. cbv zeta in Ha. apply orR_false in Ha as [H1%Ok_inj H2].
    apply bind_Ok in H2 as (scope & Hs & H2%Ok_inj). split_bools.
    repeat match goal with H : String.eqb _ _ = true |- _ => apply String.eqb_eq in H end.
    split; try congruence. intros Hart. match goal with H : _ && _ = false |- _ => rename H into Hres end.
    rewrite Hart in Hres. cbn [String.eqb andb] in Hres.
    apply negb_false_iff in Hres. by apply bool_decide_eq_true in Hres.
Qed.

Lemma same_set_spec {A} `{EqDecision A} (l k : list A) : same_set l k = true → ∀ x, x ∈ l ↔ x ∈ k.
Proof.
  unfold same_set. rewrite andb_true_iff, !forallb_forall. intros [H1 H2] x.
  rewrite !list_elem_of_In. split; intros Hx; [apply H1 in Hx|apply H2 in Hx];
    apply bool_decide_eq_true in Hx; by apply list_elem_of_In.
Qed.

Lemma check_observers_Go policy expected certificate_bytes verification now st o observers :
  NoDup (map tr_root_id policy.(tp_roots)) →
  check_observers policy expected certificate_bytes verification now st o = Ok (Go observers) →
  ∃ issuers approvers, authority policy verification st certificate_bytes
      o.(or_statement).(ers_predicate).(erp_certificate_ref).(cr_verification_at) issuers approvers ∧
    observed_by policy expected now st o (issuers ++ approvers) observers.
Proof.
  unfold check_observers. cbv zeta. intros Hids (roots & Hr & H)%bind_Ok. destruct roots as [roots|]; [|no_halt].
  apply (authority_roots_spec _ _ _ _ _ _ Hids) in Hr as (issuers & approvers & -> & Hau).
  destruct (negb (nonempty _)); [no_halt|]. apply bind_Ok in H as ([l found] & Hq & H).
  destruct (ob_self_observation found) eqn:Es; [no_halt|]. destruct (ob_stale_or_revoked found) eqn:Eo; [no_halt|].
  destruct (_ || _) eqn:Em; [no_halt|]. destruct (Z.ltb_spec (Z.of_nat (length l)) policy.(tp_execution_observer_threshold));
    [no_halt|]. injection H as ->. apply orb_false_iff in Em as [Em Ed]. unfold different_set in Ed. split_bools.
  exists issuers, approvers. split; [done|].
  apply qualifying_observers_spec in Hq as (keys & Hk & Hd & Hl & Hall). exists keys.
  do 2 (split; [done|]). split; [lia|]. split; [by apply same_set_spec|].
  split; [intros root Hx; by destruct (Hl root Hx) as (? & ? & _)|]. by apply Hall.
Qed.

Lemma admit_receipt_Go envelope_bytes policy expected certificate_bytes verification now o observers :
  NoDup (map tr_root_id policy.(tp_roots)) →
  admission envelope_bytes policy expected certificate_bytes verification now = Ok (Go (o, observers)) →
  ∃ st issuers approvers, attested envelope_bytes policy expected certificate_bytes verification now o st
    issuers approvers observers.
Proof.
  unfold admit_receipt. intros Hids (t & _ & H)%bind_Ok.
  apply and_then_Go in H as (o' & Ho & H). apply and_then_Go in H as (u & He & H).
  apply and_then_Go in H as (st & Hc & H). apply and_then_Go in H as (u' & Ha & H).
  apply and_then_Go in H as (l & Hl & [= -> ->]).
  apply check_expected_Go in He as (? & ? & ?). apply check_action_Go in Ha as [? ?].
  apply check_certificate_Go in Hc. apply (check_observers_Go _ _ _ _ _ _ _ _ Hids) in Hl as (issuers & approvers & ? & ?).
  exists st, issuers, approvers. split; try done. by apply open_receipt_Go.
Qed.

(** ** A stopped verification records nothing *)
Definition receipt_refusal (r : ReceiptResult) : Prop :=
  r.(erv_status) ≠ VerificationStatus.ACCEPT ∧ r.(erv_recorded) = false ∧ nothing_observed r = true.

Lemma receipt_result_refusal status reasons e i p roots st r :
  status ≠ VerificationStatus.ACCEPT → _receipt_result status reasons e i p roots false st = Ok r → receipt_refusal r.
Proof.
  unfold _receipt_result, ReceiptResult_validate, receipt_refusal. cbv zeta. intros Hs H. inv_ok.
  cbn [erv_status erv_recorded]. split; [done|]. split; [done|]. by destruct status, st.
Qed.
Lemma stops_halt {A} status reason e i p roots :
  status ≠ VerificationStatus.ACCEPT → stops (A := A) receipt_refusal (halt status reason e i p roots).
Proof. intros Hs r. unfold halt. intros (x & Hx & [= <-])%bind_Ok. by eapply receipt_result_refusal. Qed.
Lemma stops_halt_on {A} o status reason roots :
  status ≠ VerificationStatus.ACCEPT → stops (A := A) receipt_refusal (halt_on o status reason roots).
Proof. intros Hs r. unfold halt_on. intros (x & Hx & [= <-])%bind_Ok. by eapply receipt_result_refusal. Qed.
#[local] Hint Extern 1 (stops receipt_refusal (halt _ _ _ _ _ _)) => apply stops_halt; congruence : stops.
#[local] Hint Extern 1 (stops receipt_refusal (halt_on _ _ _ _)) => apply stops_halt_on; congruence : stops.

Lemma admit_receipt_stops envelope_bytes policy expected certificate_bytes verification now :
  stops receipt_refusal (admission envelope_bytes policy expected certificate_bytes verification now).
Proof.
  unfold admit_receipt. apply stops_bind. intros _. apply stops_then; [unfold open_receipt; cbv zeta; by_guards|].
  intros o. apply stops_then; [unfold check_expected; cbv zeta; by_guards|]. intros _.
  apply stops_then.
  { unfold check_certificate. apply stops_bind. intros [[status reason] found].
    destruct (bool_decide (status = VerificationStatus.ACCEPT)) eqn:E; cbn [negb]; [by_guards|].
    apply bool_decide_eq_false in E. by_guards. }
  intros st. apply stops_then; [unfold check_action; cbv zeta; by_guards|]. intros _.
  apply stops_then; [unfold check_observers; cbv zeta; by_guards|]. by_guards.
Qed.

(** ** The verifier *)
Section index.
Context `{HI : ReceiptIndex T}.
Notation verify := (verify_execution_receipt load_ExecutionReceiptStatement).

(** The receipt was appended, or it was there already. *)
Definition records (s : T) (o : OpenedReceipt) (s' : T) (r : ReceiptResult) : Prop :=
  ∃ status, append_once s (entry_of o) = (s', Ok status) ∧
    (status = APPENDED ∧ r.(erv_reason_codes) = [ReceiptReason.APPENDED] ∨
     status = ALREADY_PRESENT ∧ r.(erv_reason_codes) = [ReceiptReason.ALREADY_PRESENT]).

(** What an accepted result reports of the receipt *)
Definition reports (r : ReceiptResult) (o : OpenedReceipt) (observers : list TrustRoot) : Prop :=
  let p := o.(or_statement).(ers_predicate) in
  r.(erv_status) = VerificationStatus.ACCEPT ∧ r.(erv_recorded) = true ∧
  r.(erv_receipt_id) = Some p.(erp_receipt_id) ∧ r.(erv_payload_sha256) = Some o.(or_payload_sha256) ∧
  r.(erv_envelope_sha256) = o.(or_envelope_sha256) ∧
  r.(erv_verified_execution_observer_roots) = isort String.leb (map tr_root_id observers) ∧
  (r.(erv_effect_status), r.(erv_cost_status), r.(erv_duration_status)) =
    (p.(erp_effect).(eo_status), p.(erp_cost).(co_status), p.(erp_duration).(du_status)).

Lemma verify_receipt_cases envelope_bytes policy expected certificate_bytes verification s now s' r :
  TrustPolicy_validate policy = Ok policy →
  verify envelope_bytes policy expected certificate_bytes verification s now = (s', Ok r) →
  receipt_refusal r ∨ ∃ o st issuers approvers observers,
    attested envelope_bytes policy expected certificate_bytes verification now o st issuers approvers observers ∧
    records s o s' r ∧ reports r o observers.
Proof.
  unfold verify_execution_receipt. intros Hp%policy_root_ids.
  pose proof (admit_receipt_stops envelope_bytes policy expected certificate_bytes verification now) as Hstop.
  destruct (admit_receipt _ _ _ _ _ _ _) as [[x|[o observers]]|e] eqn:Ha; [|destruct (append_once s (entry_of o)) as [s1 r1] eqn:Hap|done].
  - intros [= <- <-]. left. by apply Hstop.
  - destruct (index_outcome _) as [[status reason] recorded] eqn:Eo. intros [= <- Hr].
    destruct (decide (status = VerificationStatus.ACCEPT)) as [->|Hne].
    + right. apply (admit_receipt_Go _ _ _ _ _ _ _ _ Hp) in Ha as (st & issuers & approvers & Hat).
      exists o, st, issuers, approvers, observers. split; [done|].
      unfold _receipt_result, ReceiptResult_validate in Hr. cbv zeta in Hr. inv_ok.
      destruct r1 as [[]|]; injection Eo as <- <-; try done; (split; [|by repeat split]); eexists; split; eauto.
    + left. assert (recorded = false) as -> by (destruct r1 as [[]|]; by injection Eo as <- <- <-).
      by eapply receipt_result_refusal.
Qed.

(** C10. A receipt that returns from the verifier is refused, records nothing and reports
    nothing as observed, or it is attested and recorded: its bytes are those the observers
    signed, it meets the expectation, it refers to the very certificate and verification
    result it was given, that verification was accepted, the certificate was signed by
    entitled issuers and approvers, covers the time of the attempt and authorises this
    action with these inputs, and enough distinct declared observers that are none of the
    parties, in force when the receipt was issued and now, signed it. *)
Theorem receipt_accept_sound (envelope_bytes : string) (policy : TrustPolicy) (expected : ExpectedExecutionBinding)
    (certificate_bytes : string) (verification : Result) (s s' : T) (now : datetime) (r : ReceiptResult) :
  TrustPolicy_validate policy = Ok policy →
  verify envelope_bytes policy expected certificate_bytes verification s now = (s', Ok r) →
  receipt_refusal r ∨ ∃ o st issuers approvers observers,
    attested envelope_bytes policy expected certificate_bytes verification now o st issuers approvers observers ∧
    records s o s' r ∧ reports r o observers.
Proof. apply verify_receipt_cases. Qed.

Lemma expected_entry o expected policy bytes cb v now st i a l :
  attested bytes policy expected cb v now o st i a l →
  receipt_key (entry_of o) = (expected.(xe_tenant_id), o.(or_statement).(ers_predicate).(erp_receipt_id)) ∧
  attempt_key (entry_of o) = (expected.(xe_tenant_id), expected.(xe_execution_id), expected.(xe_attempt_id)) ∧
  idempotency_key (entry_of o) = (expected.(xe_tenant_id), expected.(xe_idempotency_key)) ∧
  en_intent_sha256 (entry_of o) = expected.(xe_effect_intent_sha256).
Proof. intros [? ? ? <-]. done. Qed.

End index.
End sound.
