(* ===== verification/ReceiptChain.v ===== *)
(** * From an authorized certificate to a recorded receipt

    The receipt verifier trusts the verification result it is given.  When that is the
    result of the certificate verifier on the same bytes, an accepted receipt is about an
    action that was authorized and reserved. *)
From S2P Require Import Prelude Json Dicts PyTime PyDecimal Sha256 Canonical Base64 Platforms Models.
From S2P Require Import Checks CertModels CertLedger Evidence Certificate CertFacts CertSound CertTotal.
From S2P Require Import ReceiptModels Receipt ReceiptFacts ReceiptSound.
Local Open Scope Z_scope.

Lemma decode_same value l l' n n' url x y :
  decode_canonical_base64 value l n url = Ok x → decode_canonical_base64 value l' n' url = Ok y → x = y.
Proof.
  unfold decode_canonical_base64. cbv zeta. intros (? & _ & H1)%bind_Ok (? & _ & H2)%bind_Ok.
  destruct (b64decode _) as [d|]; [|done]. by inv_ok.
Qed.

Section chain.
Context `{P : Platform} `{K : Ed25519} `{C : CertificateParser}.
Context (load_ExecutionReceiptStatement : string → result ExecutionReceiptStatement).

(** The reference of a receipt and the certificate verifier read one statement. *)
Lemma one_statement bytes policy o ref verification st :
  opens bytes policy o → refers_to ref bytes verification st → st = o.(op_statement).
Proof.
  intros (envelope & payload & _ & He%parse_json_model_Ok & Hp & _ & Hs%parse_json_model_Ok & _)
    (envelope' & payload' & He' & [label Hp'] & Hs' & _).
  rewrite He' in He. injection He as ->. rewrite (decode_same _ _ _ _ _ _ _ _ Hp' Hp) in Hs'. congruence.
Qed.

(** C6. What an accepted receipt reports was authorized: when the certificate verifier
    produced the result the receipt refers to, from the same bytes, the certificate was
    authorized and its nonce reserved, the receipt is about the action that
    certificate authorises, on behalf of the same principals and with the same inputs,
    the attempt started after the reservation and ran within the certificate's
    validity, and none of its observers issued or approved it. *)
Theorem receipt_of_authorized_action {T T'} `{ReplayLedger T} `{ReceiptIndex T'}
    (certificate_bytes receipt_bytes : string) (policy0 policy : TrustPolicy) (expected0 : ExpectedBinding)
    (expected : ExpectedExecutionBinding) (resolver : option Resolver) (now0 now : datetime)
    (s s' : T) (t t' : T') (verification : Result) (r : ReceiptResult) :
  TrustPolicy_validate policy0 = Ok policy0 → TrustPolicy_validate policy = Ok policy →
  verify_action_certificate certificate_bytes policy0 expected0 s resolver now0 = (s', Ok verification) →
  verify_execution_receipt load_ExecutionReceiptStatement receipt_bytes policy expected certificate_bytes
    verification t now = (t', Ok r) →
  r.(erv_status) = VerificationStatus.ACCEPT →
  ∃ c issuers0 approvers0 o issuers approvers observers,
    authorized certificate_bytes policy0 expected0 resolver now0 c issuers0 approvers0 ∧
    reserves s c.(op_statement) s' ∧ verification = accepted_result c issuers0 approvers0 ∧
    attested load_ExecutionReceiptStatement receipt_bytes policy expected certificate_bytes verification now o c.(op_statement) issuers approvers
      observers ∧
    records t o t' r ∧ reports r o observers ∧
    map tr_root_id issuers = isort String.leb (map tr_root_id issuers0) ∧
    disjoint_lists (map tr_principal_id observers) (map tr_principal_id (issuers ++ approvers)).
Proof.
  intros Hp0 Hp Hc Hr Ha.
  destruct (verify_receipt_cases _ _ _ _ _ _ _ _ _ _ Hp Hr) as
    [[? _]|(o & st & issuers & approvers & observers & Hat & Hrec & Hrep)]; [done|].
  pose proof Hat as [_ _ _ _ Href _ _ Hau (keys & Hkeys & Hd & _ & _ & Hl & Him)].
  destruct (Href) as (_ & _ & _ & _ & _ & _ & _ & _ & _ & _ & _ & Hst & _).
  destruct (verify_accept _ _ _ _ _ _ _ _ Hp0 Hc Hst) as (c & issuers0 & approvers0 & Hauth & Hres & Heq).
  pose proof (one_statement _ _ _ _ _ _ (au_opens _ _ _ _ _ _ _ _ Hauth) Href) as ->.
  exists c, issuers0, approvers0, o, issuers, approvers, observers. do 6 (split; [done|]). split.
  - destruct Hau as (? & ? & _ & _ & [Hids _ _ _] & _). by rewrite Hids, Heq.
  - intros p Hin. apply list_elem_of_In, in_map_iff in Hin as (root & <- & Hroot%list_elem_of_In).
    destruct (Hl root Hroot) as [Hv Ho]. exact (im_authority _ _ _ _ _ _ _ _ (Him root Hv Ho)).
Qed.
End chain.
