(* ===== verification/ReceiptDemo.v ===== *)
(** * A receipt, end to end

    The observer's receipt for the first certificate of CertDemo: the hypotheses of the
    theorems about receipts hold together. *)
From S2P Require Import Prelude Json Dicts PyTime PyDecimal Sha256 Canonical Base64 Platforms Models.
From S2P Require Import Checks CertModels CertLedger Evidence Certificate CertFacts CertSound CertTotal.
From S2P Require Import CertDemo ReceiptModels Receipt ReceiptFacts ReceiptSound ReceiptChain.
Local Open Scope Z_scope.
#[local] Existing Instance toy_platform.

Definition value {A} (d : A) (m : result A) : A := match m with Ok x => x | Raise _ => d end.
Definition verification1 : Result := Eval vm_compute in outcome verify1.
Definition scope1 : string := default "" statement1.(acs_predicate).(acp_approval).(apb_scope_sha256).

(** ** The receipt *)
Definition minute (h m : Z) : datetime := Aware (738000 * day + hours h + seconds (60 * m)).
Definition demo_ref : ActionCertificateReference := Eval vm_compute in
  mk_ActionCertificateReference "CERT-1" (sha256_bytes (payload_text "1")) (sha256_bytes (envelope_text "1"))
    (value "" (action_certificate_verification_sha256 verification1)) scope1 (minute 0 0) (minute 0 1).
Definition demo_receipt_predicate : ExecutionReceiptPredicate :=
  mk_ExecutionReceiptPredicate "0.1" "RECEIPT-1" "REQ-1" "TASK-1" (minute 0 5) demo_ref "TENANT-1" "CASE-1"
    (mk_ProducerDeclaration "PRODUCER-1" "observer" "1.0" ["OBSERVER-1"])
    (mk_AttemptObservation "ATTEMPT-1" 1 (minute 0 2) (minute 0 4) COMPLETED)
    (mk_PrincipalBinding "WORKLOAD-1" "issuer") (mk_RuntimeObservation "runtime" "1.0" no_sha "INSTANCE-1")
    (LocalProtocolObservation "package" no_sha no_sha)
    (mk_TraceObservation "0123456789abcdef0123456789abcdef" "0123456789abcdef" None [] no_sha)
    [mk_ArtifactObservation "request" ("sha256:" +:+ toy_hex "request") "application/json"]
    [mk_ArtifactObservation "package" no_sha "application/json"]
    (mk_OperationObservation TOOL "OP-1" "package" "1.0" no_sha no_sha no_sha no_sha) None
    (mk_EffectObservation "write" "PKG-1" scope1 "KEY-1" UNOBSERVED None None None None None None None None None None)
    (mk_CostObservation UNOBSERVED None None None None) (mk_DurationObservation UNOBSERVED None None None None)
    [mk_ProvenanceReference "build" "application/json" no_sha].
Definition demo_receipt : ExecutionReceiptStatement :=
  mk_ExecutionReceiptStatement IN_TOTO_STATEMENT_TYPE [mk_InTotoSubject "package" (toy_hex "")]
    EXECUTION_RECEIPT_PREDICATE_TYPE demo_receipt_predicate.
Definition load_receipt : string → result ExecutionReceiptStatement :=
  table ExecutionReceiptStatement_validate [(receipt_payload_text, demo_receipt)].
Definition demo_expected : ExpectedExecutionBinding :=
  expected_execution_binding_for demo_receipt (mk_PrincipalBinding "HUMAN-1" "issuer") [no_sha] [no_sha].

Definition index0 : InMemoryReceiptIndex := mk_InMemoryReceiptIndex 4 ∅ ∅ ∅.
Definition later : datetime := minute 0 10.
Definition verify_demo (t : InMemoryReceiptIndex) : InMemoryReceiptIndex * result ReceiptResult :=
  verify_execution_receipt load_receipt receipt_envelope_text demo_policy demo_expected (envelope_text "1")
    verification1 t later.
Definition recorded1 : InMemoryReceiptIndex * result ReceiptResult := Eval vm_compute in verify_demo index0.
Definition recorded2 : InMemoryReceiptIndex * result ReceiptResult := Eval vm_compute in verify_demo (fst recorded1).

(** ** Witnesses *)
Lemma receipt_recorded1 : verify_demo index0 = recorded1.
Proof. vm_compute. reflexivity. Qed.
Lemma receipt_recorded2 : verify_demo (fst recorded1) = recorded2.
Proof. vm_compute. reflexivity. Qed.
Definition report (v : InMemoryReceiptIndex * result ReceiptResult) : ReceiptResult :=
  value (mk_ReceiptResult VerificationStatus.UNKNOWN [] None None "" [] false UNOBSERVED UNOBSERVED UNOBSERVED
    UNOBSERVED UNOBSERVED) (snd v).

Lemma memory_index_contract_witness :
  let e := mk_ReceiptEntry "TENANT-1" "RECEIPT-1" "REQ-1" "ATTEMPT-1" "PAYLOAD" "KEY-1" "INTENT" in
  memory_append_once (fst (memory_append_once index0 e)) e = (fst (memory_append_once index0 e), ALREADY_PRESENT).
Proof.
  intros e. destruct (memory_index_contract index0 (fst (memory_append_once index0 e))
    (fst (memory_append_once index0 e)) e APPENDED) as (_ & _ & _ & _ & H).
  - apply (ir_init 4). reflexivity.
  - reflexivity.
  - apply rtc_refl.
  - apply H. left. reflexivity.
Defined.

Lemma receipt_accept_sound_witness :
  ∃ o st issuers approvers observers,
    attested load_receipt receipt_envelope_text demo_policy demo_expected (envelope_text "1") verification1 later o st
      issuers approvers observers ∧ records index0 o (fst recorded1) (report recorded1) ∧
    reports (report recorded1) o observers.
Proof.
  destruct (receipt_accept_sound load_receipt receipt_envelope_text demo_policy demo_expected (envelope_text "1")
    verification1 index0 (fst recorded1) later (report recorded1)) as [[H _]|H]; [vm_compute; reflexivity| | |exact H].
  - exact receipt_recorded1.
  - destruct H. reflexivity.
Defined.


Lemma receipt_of_authorized_action_witness :
  ∃ c issuers0 approvers0, authorized (envelope_text "1") demo_policy (expected_binding_for statement1) resolver1
    demo_now c issuers0 approvers0 ∧ verification1 = accepted_result c issuers0 approvers0.
Proof.
  destruct (receipt_of_authorized_action load_receipt (envelope_text "1") receipt_envelope_text demo_policy
    demo_policy (expected_binding_for statement1) demo_expected resolver1 demo_now later ledger0 (fst verify1)
    index0 (fst recorded1) verification1 (report recorded1))
    as (c & issuers0 & approvers0 & _ & _ & _ & _ & H1 & _ & H2 & _).
  - vm_compute; reflexivity.
  - vm_compute; reflexivity.
  - exact verified1.
  - exact receipt_recorded1.
  - reflexivity.
  - exists c, issuers0, approvers0. split; [exact H1|exact H2].
Defined.
