(* ===== verification/OutcomeModels.v ===== *)
(** * outcome_closure.py: the contracts

    A Record per observation with its validator, as in ReceiptModels: what the observers
    report of the effects, the closure they sign and what the operator expects of it. *)
From S2P Require Import Prelude Json PyTime PyDecimal Sha256 Canonical Base64 Platforms Models CertModels.
From S2P Require Import Certificate ReceiptModels.
Local Open Scope Z_scope.

Definition OUTCOME_CLOSURE_AUDIENCE : string := "proofflow-outcome-closure".
Definition MAX_EFFECT_ATTEMPTS : Z := 128.
Definition MAX_UNRESOLVED_EFFECTS : Z := 128.
Definition MAX_OUTCOME_INDEX_CAPACITY : Z := 1000000.

(** [_parse_wire_timestamp] of a datetime; its offset is zero in the model. *)
Definition _parse_wire_timestamp (value : datetime) (label : string) : result datetime :=
  _ ← require (is_aware value) (ValueError (label +:+ " must use UTC RFC 3339 with a trailing Z")); Ok value.

Module OutcomeVerdict.
Inductive OutcomeVerdict := PASS | FAIL | UNKNOWN | UNSAFE_SUCCESS.
End OutcomeVerdict.
#[global] Instance OutcomeVerdict_eq_dec : EqDecision OutcomeVerdict.OutcomeVerdict.
Proof. solve_decision. Defined.
Notation OutcomeVerdict := OutcomeVerdict.OutcomeVerdict.
Inductive ClaimedOutcome := CLAIMED_PASS | CLAIMED_FAIL | CLAIMED_UNKNOWN.
Inductive EffectAttemptStatus := EFFECT_SUCCEEDED | EFFECT_FAILED.
#[export] Instance EffectAttemptStatus_eq_dec : EqDecision EffectAttemptStatus.
Proof. solve_decision. Defined.
Inductive EffectTerminalResult := EFFECT_COMMITTED | EFFECT_REJECTED | EFFECT_NOT_APPLIED.
#[export] Instance EffectTerminalResult_eq_dec : EqDecision EffectTerminalResult.
Proof. solve_decision. Defined.
Inductive UnresolvedEffectReason := QUERY_UNAVAILABLE | PENDING | CONFLICT | MISSING_EVIDENCE.
#[export] Instance UnresolvedEffectReason_eq_dec : EqDecision UnresolvedEffectReason.
Proof. solve_decision. Defined.

Record OutcomeProducerDeclaration := mk_OutcomeProducerDeclaration {
  od_producer_id : string; od_software_name : string; od_software_version : string;
  od_observer_principals : list string }.
Definition OutcomeProducerDeclaration_validate (x : OutcomeProducerDeclaration)
    : result OutcomeProducerDeclaration :=
  _ ← require (is_identifier x.(od_producer_id) && len_between 1 128 x.(od_software_name) &&
               len_between 1 64 x.(od_software_version) && size_between 1 16 x.(od_observer_principals))
        (value_error "constraint");
  _ ← local_labels "outcome producer" [("software_name", x.(od_software_name));
                                       ("software_version", x.(od_software_version))];
  _ ← require (unique x.(od_observer_principals)) (ValueError "outcome observer principals must be unique");
  _ ← require (forallb is_identifier x.(od_observer_principals))
        (ValueError "outcome observer principal is invalid");
  Ok x.

Record ExecutionReceiptReference := mk_ExecutionReceiptReference {
  rr_receipt_id : string; rr_payload_sha256 : string; rr_envelope_sha256 : string;
  rr_verification_result_sha256 : string }.
#[export] Instance ExecutionReceiptReference_eq_dec : EqDecision ExecutionReceiptReference.
Proof. solve_decision. Defined.
Definition ExecutionReceiptReference_validate (x : ExecutionReceiptReference)
    : result ExecutionReceiptReference :=
  _ ← require (is_identifier x.(rr_receipt_id) &&
               all_sha256 [x.(rr_payload_sha256); x.(rr_envelope_sha256); x.(rr_verification_result_sha256)])
        (value_error "constraint"); Ok x.

Record OutcomeEvidenceSource := mk_OutcomeEvidenceSource {
  es_source_kind : OutcomeEvidenceSourceKind; es_principal_id : string;
  es_observed_at : datetime; es_valid_until : datetime; es_source_event_sha256 : string }.
#[export] Instance OutcomeEvidenceSource_eq_dec : EqDecision OutcomeEvidenceSource.
Proof. solve_decision. Defined.
Definition OutcomeEvidenceSource_validate (x : OutcomeEvidenceSource) : result OutcomeEvidenceSource :=
  _ ← require (is_identifier x.(es_principal_id) && is_sha256 x.(es_source_event_sha256))
        (value_error "constraint");
  observed ← _parse_wire_timestamp x.(es_observed_at) "outcome evidence source observed_at";
  until ← _parse_wire_timestamp x.(es_valid_until) "outcome evidence source valid_until";
  early ← dt_ltb until observed;
  _ ← require (negb early) (ValueError "outcome evidence source valid_until must follow observed_at");
  Ok x.

(** ** Effects *)
Record EffectAttemptObservation := mk_EffectAttemptObservation {
  ea_effect_id : string; ea_attempt_id : string; ea_effect_type : string; ea_target : string;
  ea_intent_sha256 : string; ea_idempotency_key : string; ea_status : EffectAttemptStatus;
  ea_terminal_result : EffectTerminalResult; ea_provider_operation_id : option string;
  ea_before_state_sha256 : string; ea_after_state_sha256 : string; ea_provider_event_sha256 : string;
  ea_observer_evidence_sha256 : string }.
(** [terminal_result_matches_status] *)
Definition attempt_consistent (x : EffectAttemptObservation) : result unit :=
  let committed := bool_decide (x.(ea_terminal_result) = EFFECT_COMMITTED) in
  match x.(ea_status) with
  | EFFECT_SUCCEEDED => require (committed && given x.(ea_provider_operation_id))
      (ValueError "SUCCEEDED effect must have committed result and provider operation")
  | EFFECT_FAILED => require (negb committed)
      (ValueError "FAILED effect must not have EFFECT_COMMITTED terminal result")
  end.
Definition EffectAttemptObservation_validate (x : EffectAttemptObservation)
    : result EffectAttemptObservation :=
  _ ← require (forallb is_identifier [x.(ea_effect_id); x.(ea_attempt_id); x.(ea_idempotency_key)] &&
               len_between 1 128 x.(ea_effect_type) && len_between 1 512 x.(ea_target) &&
               opt_all is_identifier x.(ea_provider_operation_id) &&
               all_sha256 [x.(ea_intent_sha256); x.(ea_before_state_sha256); x.(ea_after_state_sha256);
                           x.(ea_provider_event_sha256); x.(ea_observer_evidence_sha256)])
        (value_error "constraint");
  _ ← local_labels "outcome effect" [("effect_type", x.(ea_effect_type)); ("target", x.(ea_target))];
  _ ← attempt_consistent x;
  Ok x.

Record UnresolvedEffectObservation := mk_UnresolvedEffectObservation {
  ue_effect_id : string; ue_reason : UnresolvedEffectReason; ue_observer_evidence_sha256 : option string }.
Definition UnresolvedEffectObservation_validate (x : UnresolvedEffectObservation)
    : result UnresolvedEffectObservation :=
  _ ← require (is_identifier x.(ue_effect_id) && opt_all is_sha256 x.(ue_observer_evidence_sha256))
        (value_error "constraint");
  _ ← (if bool_decide (x.(ue_reason) = MISSING_EVIDENCE)
       then require (negb (given x.(ue_observer_evidence_sha256)))
              (ValueError "MISSING_EVIDENCE must not claim observer evidence")
       else require (given x.(ue_observer_evidence_sha256))
              (ValueError "an unresolved effect reason requires observer evidence"));
  Ok x.

Record EffectReconciliation := mk_EffectReconciliation {
  rc_effect_type : string; rc_target : string; rc_intent_sha256 : string; rc_idempotency_key : string;
  rc_expected_effect_count : Z; rc_attempts : list EffectAttemptObservation;
  rc_unresolved : list UnresolvedEffectObservation }.
(** [observations_are_unambiguous] *)
Definition unambiguous (x : EffectReconciliation) : result unit :=
  let effect_ids := map ea_effect_id x.(rc_attempts) in
  let unresolved_ids := map ue_effect_id x.(rc_unresolved) in
  _ ← require (unique (map ea_attempt_id x.(rc_attempts))) (ValueError "effect attempt IDs must be unique");
  _ ← require (unique effect_ids) (ValueError "effect IDs must be unique");
  _ ← require (unique (omap ea_provider_operation_id x.(rc_attempts)))
        (ValueError "provider operation IDs must be unique");
  _ ← require (unique unresolved_ids) (ValueError "unresolved effect IDs must be unique");
  _ ← require (negb (overlap effect_ids unresolved_ids))
        (ValueError "resolved and unresolved effect IDs must be disjoint");
  _ ← mapR (λ item, require (String.eqb item.(ea_effect_type) x.(rc_effect_type) &&
                 String.eqb item.(ea_target) x.(rc_target) &&
                 String.eqb item.(ea_intent_sha256) x.(rc_intent_sha256) &&
                 String.eqb item.(ea_idempotency_key) x.(rc_idempotency_key))
          (ValueError "effect attempt is not bound to the reconciled intent")) x.(rc_attempts);
  require (Z.of_nat (length x.(rc_unresolved)) <=? x.(rc_expected_effect_count))
    (ValueError "unresolved effect count cannot exceed expected effect count").
Definition EffectReconciliation_validate (x : EffectReconciliation) : result EffectReconciliation :=
  _ ← require (len_between 1 128 x.(rc_effect_type) && len_between 1 512 x.(rc_target) &&
               is_sha256 x.(rc_intent_sha256) && is_identifier x.(rc_idempotency_key) &&
               within 1 16 x.(rc_expected_effect_count) &&
               size_between 0 MAX_EFFECT_ATTEMPTS x.(rc_attempts) &&
               size_between 0 MAX_UNRESOLVED_EFFECTS x.(rc_unresolved)) (value_error "constraint");
  _ ← mapR EffectAttemptObservation_validate x.(rc_attempts);
  _ ← mapR UnresolvedEffectObservation_validate x.(rc_unresolved);
  _ ← local_labels "reconciliation" [("effect_type", x.(rc_effect_type)); ("target", x.(rc_target))];
  _ ← unambiguous x;
  Ok x.

(** ** The closure *)
Record OutcomeClosurePredicate := mk_OutcomeClosurePredicate {
  ocp_version : string;
  ocp_closure_id : string;
  ocp_execution_id : string;
  ocp_task_id : string;
  ocp_attempt_id : string;
  ocp_closure_sequence : Z;
  ocp_previous_payload_sha256 : option string;
  ocp_tenant_id : string;
  ocp_case_id : string;
  ocp_issued_at : datetime;
  ocp_certificate_ref : ActionCertificateReference;
  ocp_receipt_ref : ExecutionReceiptReference;
  ocp_evidence_source : OutcomeEvidenceSource;
  ocp_producer : OutcomeProducerDeclaration;
  ocp_reconciliation : EffectReconciliation;
  ocp_claimed_outcome : ClaimedOutcome;
}.
Definition OutcomeClosurePredicate_validate (x : OutcomeClosurePredicate) : result OutcomeClosurePredicate :=
  _ ← require (String.eqb x.(ocp_version) "0.1" &&
               forallb is_identifier [x.(ocp_closure_id); x.(ocp_execution_id); x.(ocp_task_id);
                 x.(ocp_attempt_id); x.(ocp_tenant_id); x.(ocp_case_id)] &&
               within 1 1000000 x.(ocp_closure_sequence) &&
               opt_all is_sha256 x.(ocp_previous_payload_sha256)) (value_error "constraint");
  _ ← _parse_wire_timestamp x.(ocp_issued_at) "OutcomeClosure issued_at";
  _ ← ActionCertificateReference_validate x.(ocp_certificate_ref);
  _ ← ExecutionReceiptReference_validate x.(ocp_receipt_ref);
  _ ← OutcomeEvidenceSource_validate x.(ocp_evidence_source);
  _ ← OutcomeProducerDeclaration_validate x.(ocp_producer);
  _ ← EffectReconciliation_validate x.(ocp_reconciliation);
  Ok x.

Record OutcomeClosureStatement := mk_OutcomeClosureStatement {
  ocs_statement_type : string;
  ocs_subject : list InTotoSubject;
  ocs_predicateType : string;
  ocs_predicate : OutcomeClosurePredicate;
}.
Definition OutcomeClosureStatement_validate (x : OutcomeClosureStatement) : result OutcomeClosureStatement :=
  _ ← require (String.eqb x.(ocs_statement_type) IN_TOTO_STATEMENT_TYPE && size_between 0 64 x.(ocs_subject) &&
               String.eqb x.(ocs_predicateType) OUTCOME_CLOSURE_PREDICATE_TYPE) (value_error "constraint");
  _ ← mapR InTotoSubject_validate x.(ocs_subject);
  _ ← require (unique (map its_name x.(ocs_subject))) (ValueError "outcome subject names must be unique");
  _ ← OutcomeClosurePredicate_validate x.(ocs_predicate);
  Ok x.

(** ** What the operator expects *)
Record ExpectedOutcomeBinding := mk_ExpectedOutcomeBinding {
  xo_tenant_id : string;
  xo_case_id : string;
  xo_execution_id : string;
  xo_task_id : string;
  xo_attempt_id : string;
  xo_closure_sequence : Z;
  xo_previous_payload_sha256 : option string;
  xo_certificate_ref : ActionCertificateReference;
  xo_receipt_ref : ExecutionReceiptReference;
  xo_evidence_source : OutcomeEvidenceSource;
  xo_human_principal_key_fingerprints : list string;
  xo_executor_workload_key_fingerprints : list string;
  xo_effect_type : string;
  xo_effect_target : string;
  xo_effect_intent_sha256 : string;
  xo_idempotency_key : string;
  xo_expected_effect_count : Z;
}.
#[export] Instance ExpectedOutcomeBinding_eq_dec : EqDecision ExpectedOutcomeBinding.
Proof. solve_decision. Defined.
Definition ExpectedOutcomeBinding_validate (x : ExpectedOutcomeBinding) : result ExpectedOutcomeBinding :=
  _ ← require (forallb is_identifier [x.(xo_tenant_id); x.(xo_case_id); x.(xo_execution_id); x.(xo_task_id);
                 x.(xo_attempt_id); x.(xo_idempotency_key)] && within 1 1000000 x.(xo_closure_sequence) &&
               opt_all is_sha256 x.(xo_previous_payload_sha256) &&
               size_between 1 16 x.(xo_human_principal_key_fingerprints) &&
               size_between 1 16 x.(xo_executor_workload_key_fingerprints) &&
               len_between 1 128 x.(xo_effect_type) && len_between 1 512 x.(xo_effect_target) &&
               is_sha256 x.(xo_effect_intent_sha256) && within 1 16 x.(xo_expected_effect_count))
        (value_error "constraint");
  _ ← ActionCertificateReference_validate x.(xo_certificate_ref);
  _ ← ExecutionReceiptReference_validate x.(xo_receipt_ref);
  _ ← OutcomeEvidenceSource_validate x.(xo_evidence_source);
  _ ← local_labels "expected outcome" [("effect_type", x.(xo_effect_type)); ("effect_target", x.(xo_effect_target))];
  _ ← key_fingerprints x.(xo_human_principal_key_fingerprints);
  _ ← key_fingerprints x.(xo_executor_workload_key_fingerprints);
  Ok x.

(** [expected_outcome_binding_for], a view of a validated statement *)
Definition expected_outcome_binding_for (statement : OutcomeClosureStatement)
    (human_principal_key_fingerprints executor_workload_key_fingerprints : list string)
    : ExpectedOutcomeBinding :=
  let p := statement.(ocs_predicate) in
  let r := p.(ocp_reconciliation) in
  mk_ExpectedOutcomeBinding p.(ocp_tenant_id) p.(ocp_case_id) p.(ocp_execution_id) p.(ocp_task_id)
    p.(ocp_attempt_id) p.(ocp_closure_sequence) p.(ocp_previous_payload_sha256) p.(ocp_certificate_ref)
    p.(ocp_receipt_ref) p.(ocp_evidence_source) human_principal_key_fingerprints
    executor_workload_key_fingerprints r.(rc_effect_type) r.(rc_target) r.(rc_intent_sha256)
    r.(rc_idempotency_key) r.(rc_expected_effect_count).
