(* ===== verification/OutcomeIndex.v ===== *)
(** * outcome_closure.py: the append-only index of closures

    The closures of one attempt form a chain: each has the next sequence number and names
    the digest of the one before.  The abstract state is one log of digests per attempt;
    the in-memory index, with its four dicts, implements it ([index_refines_logs]). *)
From S2P Require Import Prelude Json Dicts PyTime PyDecimal Sha256 Canonical Base64 Platforms Models.
From S2P Require Import CertModels ReceiptModels OutcomeModels ReceiptFacts.
Local Open Scope Z_scope.

Module OutcomeIndexStatus.
Inductive OutcomeIndexStatus :=
| APPENDED | ALREADY_PRESENT | CLOSURE_ID_CONFLICT | ATTEMPT_SEQUENCE_CONFLICT | PREVIOUS_DIGEST_CONFLICT
| IDEMPOTENCY_CONFLICT | UNAVAILABLE.
End OutcomeIndexStatus.
#[global] Instance OutcomeIndexStatus_eq_dec : EqDecision OutcomeIndexStatus.OutcomeIndexStatus.
Proof. solve_decision. Defined.
Notation OutcomeIndexStatus := OutcomeIndexStatus.OutcomeIndexStatus.

(** The arguments of [append_once] *)
Record OutcomeEntry := mk_OutcomeEntry {
  oe_tenant_id : string; oe_closure_id : string; oe_execution_id : string; oe_attempt_id : string;
  oe_closure_sequence : Z; oe_previous_payload_sha256 : option string; oe_payload_sha256 : string;
  oe_idempotency_key : string; oe_intent_sha256 : string }.
Definition Attempt : Type := string * string * string.
Definition closure_key (e : OutcomeEntry) : string * string := (e.(oe_tenant_id), e.(oe_closure_id)).
Definition latest_key (e : OutcomeEntry) : Attempt :=
  (e.(oe_tenant_id), e.(oe_execution_id), e.(oe_attempt_id)).
Definition execution_key (e : OutcomeEntry) : Attempt * Z := (latest_key e, e.(oe_closure_sequence)).
Definition idempotency_keyed (e : OutcomeEntry) : string * string * Z :=
  (e.(oe_tenant_id), e.(oe_idempotency_key), e.(oe_closure_sequence)).

Class OutcomeClosureIndex (T : Type) := append_closure : T → OutcomeEntry → T * result OutcomeIndexStatus.

(** What the protocol promises *)
Definition appended_or_present (status : OutcomeIndexStatus) : Prop :=
  status = OutcomeIndexStatus.APPENDED ∨ status = OutcomeIndexStatus.ALREADY_PRESENT.
Class OutcomeIndexLaws (T : Type) `{OutcomeClosureIndex T} := {
  closure_of : T → string * string → option string;
  execution_of : T → Attempt * Z → option string;
  (** what is appended was not there, and is there afterwards *)
  closure_appended : ∀ s e s', append_closure s e = (s', Ok OutcomeIndexStatus.APPENDED) →
    closure_of s (closure_key e) = None ∧ execution_of s (execution_key e) = None ∧
    closure_of s' (closure_key e) = Some e.(oe_payload_sha256) ∧
    execution_of s' (execution_key e) = Some e.(oe_payload_sha256);
  (** what is present agrees with everything recorded under its names *)
  closure_present : ∀ s e s', append_closure s e = (s', Ok OutcomeIndexStatus.ALREADY_PRESENT) →
    (∀ d, closure_of s (closure_key e) = Some d → d = e.(oe_payload_sha256)) ∧
    (∀ d, execution_of s (execution_key e) = Some d → d = e.(oe_payload_sha256));
  closure_keeps : ∀ s e s' r, append_closure s e = (s', r) →
    (∀ k v, closure_of s k = Some v → closure_of s' k = Some v) ∧
    (∀ k v, execution_of s k = Some v → execution_of s' k = Some v);
}.

(** ** The in-memory index *)
Record InMemoryOutcomeClosureIndex := mk_InMemoryOutcomeClosureIndex {
  oi_capacity : Z;
  oi_closures : gmap (string * string) string;
  oi_executions : gmap (Attempt * Z) (string * option string);
  oi_latest : gmap Attempt (Z * string);
  oi_idempotency : gmap (string * string * Z) (string * string);
}.
Definition outcome_index_init (capacity : Z) : result InMemoryOutcomeClosureIndex :=
  _ ← require (negb ((capacity <? 1) || (MAX_OUTCOME_INDEX_CAPACITY <? capacity)))
        (ValueError "outcome index capacity must be between 1 and 1000000");
  Ok (mk_InMemoryOutcomeClosureIndex capacity ∅ ∅ ∅ ∅).

(** The closure continues the chain of its attempt. *)
Definition chain_conflict (latest : option (Z * string)) (e : OutcomeEntry) : option OutcomeIndexStatus :=
  if e.(oe_closure_sequence) =? 1 then
    if given e.(oe_previous_payload_sha256) then Some OutcomeIndexStatus.PREVIOUS_DIGEST_CONFLICT else None
  else
    match latest with
    | None => Some OutcomeIndexStatus.ATTEMPT_SEQUENCE_CONFLICT
    | Some (sequence, digest) =>
        if negb (sequence =? e.(oe_closure_sequence) - 1) then Some OutcomeIndexStatus.ATTEMPT_SEQUENCE_CONFLICT
        else if negb (bool_decide (e.(oe_previous_payload_sha256) = Some digest))
        then Some OutcomeIndexStatus.PREVIOUS_DIGEST_CONFLICT else None
    end.

Definition memory_append_closure (s : InMemoryOutcomeClosureIndex) (e : OutcomeEntry)
    : InMemoryOutcomeClosureIndex * OutcomeIndexStatus :=
  let payload := e.(oe_payload_sha256) in
  let existing_execution := s.(oi_executions) !! execution_key e in
  match s.(oi_closures) !! closure_key e with
  | Some existing_closure =>
      (s, if String.eqb existing_closure payload && bool_decide (fst <$> existing_execution = Some payload)
          then OutcomeIndexStatus.ALREADY_PRESENT else OutcomeIndexStatus.CLOSURE_ID_CONFLICT)
  | None =>
      if given existing_execution then (s, OutcomeIndexStatus.ATTEMPT_SEQUENCE_CONFLICT)
      else
        match s.(oi_idempotency) !! idempotency_keyed e with
        | Some existing_intent =>
            (s, if bool_decide (existing_intent = (e.(oe_intent_sha256), payload))
                then OutcomeIndexStatus.ALREADY_PRESENT else OutcomeIndexStatus.IDEMPOTENCY_CONFLICT)
        | None =>
            match chain_conflict (s.(oi_latest) !! latest_key e) e with
            | Some conflict => (s, conflict)
            | None =>
                if s.(oi_capacity) <=? Z.of_nat (size s.(oi_closures)) then (s, OutcomeIndexStatus.UNAVAILABLE)
                else
                  (mk_InMemoryOutcomeClosureIndex s.(oi_capacity)
                     (<[closure_key e := payload]> s.(oi_closures))
                     (<[execution_key e := (payload, e.(oe_previous_payload_sha256))]> s.(oi_executions))
                     (<[latest_key e := (e.(oe_closure_sequence), payload)]> s.(oi_latest))
                     (<[idempotency_keyed e := (e.(oe_intent_sha256), payload)]> s.(oi_idempotency)),
                   OutcomeIndexStatus.APPENDED)
            end
        end
  end.
#[export] Instance memory_outcome_index : OutcomeClosureIndex InMemoryOutcomeClosureIndex := λ s e,
  let '(s', r) := memory_append_closure s e in (s', Ok r).

(** ** Its branches *)
Definition put_closure (s : InMemoryOutcomeClosureIndex) (e : OutcomeEntry) : InMemoryOutcomeClosureIndex :=
  mk_InMemoryOutcomeClosureIndex s.(oi_capacity)
    (<[closure_key e := e.(oe_payload_sha256)]> s.(oi_closures))
    (<[execution_key e := (e.(oe_payload_sha256), e.(oe_previous_payload_sha256))]> s.(oi_executions))
    (<[latest_key e := (e.(oe_closure_sequence), e.(oe_payload_sha256))]> s.(oi_latest))
    (<[idempotency_keyed e := (e.(oe_intent_sha256), e.(oe_payload_sha256))]> s.(oi_idempotency)).

(** An entry that is appended *)
Record appends (s : InMemoryOutcomeClosureIndex) (e : OutcomeEntry) : Prop := {
  ac_closure : s.(oi_closures) !! closure_key e = None;
  ac_execution : s.(oi_executions) !! execution_key e = None;
  ac_idempotency : s.(oi_idempotency) !! idempotency_keyed e = None;
  ac_chain : chain_conflict (s.(oi_latest) !! latest_key e) e = None;
  ac_room : Z.of_nat (size s.(oi_closures)) < s.(oi_capacity);
}.

Lemma memory_append_closure_cases s e s' r :
  memory_append_closure s e = (s', r) →
  (r = OutcomeIndexStatus.APPENDED ∧ appends s e ∧ s' = put_closure s e) ∨
  (r ≠ OutcomeIndexStatus.APPENDED ∧ s' = s ∧
   (r = OutcomeIndexStatus.ALREADY_PRESENT →
     (∀ d, s.(oi_closures) !! closure_key e = Some d → d = e.(oe_payload_sha256)) ∧
     (∀ d, fst <$> s.(oi_executions) !! execution_key e = Some d → d = e.(oe_payload_sha256)))).
Proof.
  unfold memory_append_closure. cbv zeta. intros H. destruct (oi_closures s !! _) as [c|] eqn:Ec.
  { injection H as <- <-. right. destruct (String.eqb_spec c e.(oe_payload_sha256)) as [->|]; cbn [andb]; [|done].
    destruct (bool_decide _) eqn:Eb; [|done]. split_bools. do 2 (split; [done|]). intros _.
    split; [by intros d [= <-]|]. congruence. }
  destruct (oi_executions s !! _) as [x|] eqn:Ex; cbn [given] in H; [injection H as <- <-; by right|].
  destruct (oi_idempotency s !! _) as [i|] eqn:Ei.
  { injection H as <- <-. right. destruct (bool_decide _); [|done]. do 2 (split; [done|]). intros _.
    split; [done|]. by intros d [=]. }
  destruct (chain_conflict _ e) as [conflict|] eqn:Ech.
  { injection H as <- <-. right. assert (conflict ≠ OutcomeIndexStatus.APPENDED ∧
      conflict ≠ OutcomeIndexStatus.ALREADY_PRESENT) as [? ?]; [|done].
    unfold chain_conflict in Ech. destruct (_ =? 1); [destruct (given _); by simplify_eq|].
    destruct (oi_latest s !! _) as [[n d]|]; [|by simplify_eq].
    destruct (negb _); [by simplify_eq|]. destruct (negb _); by simplify_eq. }
  destruct (Z.leb_spec (oi_capacity s) (Z.of_nat (size (oi_closures s)))); injection H as <- <-; [by right|].
  left. done.
Qed.

Lemma memory_outcome_step s e s' r :
  append_closure s e = (s', r) → ∃ status, r = Ok status ∧ memory_append_closure s e = (s', status).
Proof.
  unfold append_closure, memory_outcome_index. destruct (memory_append_closure s e) as [s1 r1].
  intros [= <- <-]. by exists r1.
Qed.

Lemma memory_closure_appended s e s' :
  append_closure s e = (s', Ok OutcomeIndexStatus.APPENDED) →
  s.(oi_closures) !! closure_key e = None ∧ fst <$> s.(oi_executions) !! execution_key e = None ∧
  s'.(oi_closures) !! closure_key e = Some e.(oe_payload_sha256) ∧
  fst <$> s'.(oi_executions) !! execution_key e = Some e.(oe_payload_sha256).
Proof.
  intros (st & [= <-] & [(_ & [Hc Hx _ _ _] & ->)|(Hr & _)]%memory_append_closure_cases)%memory_outcome_step; [|done].
  cbn [oi_closures oi_executions put_closure]. by rewrite !lookup_insert_eq, Hc, Hx.
Qed.
Lemma memory_closure_present s e s' :
  append_closure s e = (s', Ok OutcomeIndexStatus.ALREADY_PRESENT) →
  (∀ d, s.(oi_closures) !! closure_key e = Some d → d = e.(oe_payload_sha256)) ∧
  (∀ d, fst <$> s.(oi_executions) !! execution_key e = Some d → d = e.(oe_payload_sha256)).
Proof. by intros (st & [= <-] & [(? & _)|(_ & _ & H)]%memory_append_closure_cases)%memory_outcome_step; [|apply H]. Qed.
Lemma memory_closure_keeps s e s' r :
  append_closure s e = (s', r) →
  (∀ k v, s.(oi_closures) !! k = Some v → s'.(oi_closures) !! k = Some v) ∧
  (∀ k v, fst <$> s.(oi_executions) !! k = Some v → fst <$> s'.(oi_executions) !! k = Some v).
Proof.
  intros (st & -> & [(_ & [Hc Hx _ _ _] & ->)|(_ & -> & _)]%memory_append_closure_cases)%memory_outcome_step; [|done].
  cbn [oi_closures oi_executions put_closure]. split; intros k v Hk.
  - rewrite lookup_insert_ne; [done|]. congruence.
  - rewrite lookup_insert_ne; [done|]. intros <-. by rewrite Hx in Hk.
Qed.

#[export] Instance memory_outcome_laws : OutcomeIndexLaws InMemoryOutcomeClosureIndex := {|
  closure_of s k := s.(oi_closures) !! k;
  execution_of s k := fst <$> s.(oi_executions) !! k;
  closure_appended := memory_closure_appended;
  closure_present := memory_closure_present;
  closure_keeps := memory_closure_keeps;
|}.

Definition closure_step `{OutcomeClosureIndex T} (s s' : T) : Prop := ∃ e r, append_closure s e = (s', r).
Lemma closure_steps_keep `{OutcomeIndexLaws T} s s' : rtc closure_step s s' →
  (∀ k v, closure_of s k = Some v → closure_of s' k = Some v) ∧
  (∀ k v, execution_of s k = Some v → execution_of s' k = Some v).
Proof.
  induction 1 as [|s1 s2 s3 (e & r & He) _ (I1 & I2)]; [done|].
  apply closure_keeps in He as (K1 & K2). auto 10.
Qed.

(** An appended closure can be presented again at any later time. *)
Lemma memory_closure_retry s e s1 s2 :
  memory_append_closure s e = (s1, OutcomeIndexStatus.APPENDED) → rtc closure_step s1 s2 →
  memory_append_closure s2 e = (s2, OutcomeIndexStatus.ALREADY_PRESENT).
Proof.
  intros H Hsteps. destruct (memory_closure_appended s e s1) as (_ & _ & Hc & Hx).
  { unfold append_closure, memory_outcome_index. by rewrite H. }
  destruct (closure_steps_keep _ _ Hsteps) as [K1 K2]. cbn [closure_of execution_of memory_outcome_laws] in K1, K2.
  apply K1 in Hc. apply K2 in Hx. unfold memory_append_closure. cbv zeta.
  by rewrite Hc, Hx, String.eqb_refl, bool_decide_eq_true_2.
Qed.

(** ** The abstract state *)
Notation Logs := (gmap Attempt (list string)).
Definition log (logs : Logs) (k : Attempt) : list string := default [] (logs !! k).
Definition log_append (logs : Logs) (e : OutcomeEntry) : Logs :=
  <[latest_key e := log logs (latest_key e) ++ [e.(oe_payload_sha256)]]> logs.
Definition next_sequence (l : list string) : Z := Z.of_nat (length l) + 1.

(** What the specification answers, and the logs afterwards *)
Inductive log_step (logs : Logs) (e : OutcomeEntry) : Logs → OutcomeIndexStatus → Prop :=
| ls_appended : e.(oe_closure_sequence) = next_sequence (log logs (latest_key e)) →
    e.(oe_previous_payload_sha256) = last (log logs (latest_key e)) →
    log_step logs e (log_append logs e) OutcomeIndexStatus.APPENDED
| ls_sequence : e.(oe_closure_sequence) ≠ next_sequence (log logs (latest_key e)) →
    log_step logs e logs OutcomeIndexStatus.ATTEMPT_SEQUENCE_CONFLICT
| ls_previous : e.(oe_closure_sequence) = next_sequence (log logs (latest_key e)) →
    e.(oe_previous_payload_sha256) ≠ last (log logs (latest_key e)) →
    log_step logs e logs OutcomeIndexStatus.PREVIOUS_DIGEST_CONFLICT
| ls_present : log_step logs e logs OutcomeIndexStatus.ALREADY_PRESENT
| ls_refused r : r ∈ [OutcomeIndexStatus.CLOSURE_ID_CONFLICT; OutcomeIndexStatus.IDEMPOTENCY_CONFLICT;
      OutcomeIndexStatus.UNAVAILABLE] → log_step logs e logs r.

(** The closure of a log at a sequence number, and what it names as its predecessor *)
Definition log_entry (l : list string) (i : Z) : option (string * option string) :=
  if i <? 1 then None
  else d ← l !! Z.to_nat (i - 1); Some (d, if i =? 1 then None else l !! Z.to_nat (i - 2)).
Definition log_latest (l : list string) : option (Z * string) :=
  d ← last l; Some (Z.of_nat (length l), d).
Definition log_view (s : InMemoryOutcomeClosureIndex) (logs : Logs) : Prop :=
  (∀ k i, s.(oi_executions) !! (k, i) = log_entry (log logs k) i) ∧
  (∀ k, s.(oi_latest) !! k = log_latest (log logs k)).

Lemma log_latest_None l : log_latest l = None ↔ l = [].
Proof. unfold log_latest. rewrite <- last_None. by destruct (last l). Qed.
Lemma log_latest_Some l n d : log_latest l = Some (n, d) ↔ last l = Some d ∧ n = Z.of_nat (length l).
Proof. unfold log_latest. destruct (last l); cbn; naive_solver. Qed.

Lemma log_entry_fresh l : log_entry l (next_sequence l) = None.
Proof.
  unfold log_entry, next_sequence. destruct (Z.ltb_spec (Z.of_nat (length l) + 1) 1); [done|].
  by assert (l !! Z.to_nat (Z.of_nat (length l) + 1 - 1) = None) as -> by (apply lookup_ge_None_2; lia).
Qed.
Lemma log_entry_first l : log_entry l 1 = None ↔ l = [].
Proof. destruct l; cbn; naive_solver. Qed.
Lemma log_entry_None l i : 1 ≤ i ≤ Z.of_nat (length l) → is_Some (log_entry l i).
Proof.
  intros Hi. unfold log_entry. rewrite (proj2 (Z.ltb_ge i 1)) by lia.
  destruct (lookup_lt_is_Some_2 l (Z.to_nat (i - 1))) as [d ->]; [lia|]. by eexists.
Qed.

Lemma log_entry_snoc l d i :
  log_entry (l ++ [d]) i = if i =? next_sequence l then Some (d, last l) else log_entry l i.
Proof.
  unfold log_entry, next_sequence. destruct (Z.eqb_spec i (Z.of_nat (length l) + 1)) as [->|Hne].
  - rewrite (proj2 (Z.ltb_ge _ 1)) by lia.
    assert (Z.to_nat (Z.of_nat (length l) + 1 - 1) = length l) as -> by lia.
    assert ((l ++ [d]) !! length l = Some d) as -> by by apply list_lookup_middle.
    destruct l as [|x l]; [done|]. rewrite (proj2 (Z.eqb_neq _ 1)) by (cbn [length]; lia).
    rewrite last_lookup, lookup_app_l by (cbn [length]; lia). cbn [mbind option_bind]. do 3 f_equal. cbn [length]. lia.
  - destruct (Z.ltb_spec i 1); [done|]. destruct (decide (i ≤ Z.of_nat (length l))).
    + rewrite (lookup_app_l l [d] (Z.to_nat (i - 1))) by lia. destruct (Z.eqb_spec i 1); [done|].
      by rewrite lookup_app_l by lia.
    + assert (l !! Z.to_nat (i - 1) = None) as -> by (apply lookup_ge_None_2; lia).
      by assert ((l ++ [d]) !! Z.to_nat (i - 1) = None) as -> by
        (apply lookup_ge_None_2; rewrite length_app; cbn; lia).
Qed.
Lemma log_latest_snoc l d : log_latest (l ++ [d]) = Some (next_sequence l, d).
Proof. apply log_latest_Some. rewrite last_snoc, length_app. split; [done|]. cbn. unfold next_sequence. lia. Qed.

Lemma log_append_log logs e k :
  log (log_append logs e) k =
    if decide (latest_key e = k) then log logs k ++ [e.(oe_payload_sha256)] else log logs k.
Proof.
  unfold log at 1, log_append. destruct (decide (latest_key e = k)) as [<-|Hne].
  - by rewrite lookup_insert_eq.
  - by rewrite lookup_insert_ne.
Qed.

Lemma chain_conflict_spec s logs e :
  log_view s logs → s.(oi_executions) !! execution_key e = None →
  let l := log logs (latest_key e) in
  match chain_conflict (s.(oi_latest) !! latest_key e) e with
  | None => e.(oe_closure_sequence) = next_sequence l ∧ e.(oe_previous_payload_sha256) = last l
  | Some OutcomeIndexStatus.ATTEMPT_SEQUENCE_CONFLICT => e.(oe_closure_sequence) ≠ next_sequence l
  | Some OutcomeIndexStatus.PREVIOUS_DIGEST_CONFLICT =>
      e.(oe_closure_sequence) = next_sequence l ∧ e.(oe_previous_payload_sha256) ≠ last l
  | _ => False
  end.
Proof.
  intros [He Hl] Hx. cbv zeta. unfold execution_key in Hx. rewrite He in Hx. rewrite Hl. clear He Hl.
  set (l := log logs (latest_key e)) in *. unfold chain_conflict, next_sequence.
  destruct (Z.eqb_spec (oe_closure_sequence e) 1) as [E|Hne].
  - rewrite E in Hx. apply log_entry_first in Hx as ->. rewrite E. cbn.
    by destruct (oe_previous_payload_sha256 e).
  - destruct (log_latest l) as [[n d]|] eqn:El.
    + apply log_latest_Some in El as [Hd ->]. rewrite Hd.
      destruct (Z.eqb_spec (Z.of_nat (length l)) (oe_closure_sequence e - 1)); cbn [negb]; [|lia].
      destruct (bool_decide _) eqn:Eb; cbn [negb]; split_bools; split; try done; lia.
    + apply log_latest_None in El as ->. cbn. lia.
Qed.

Lemma put_closure_view s logs e :
  log_view s logs → e.(oe_closure_sequence) = next_sequence (log logs (latest_key e)) →
  e.(oe_previous_payload_sha256) = last (log logs (latest_key e)) → log_view (put_closure s e) (log_append logs e).
Proof.
  intros [He Hl] Hs Hp. split.
  - intros k i. cbn [oi_executions put_closure]. rewrite log_append_log. unfold execution_key.
    destruct (decide (latest_key e = k)) as [<-|Hne].
    + rewrite log_entry_snoc. destruct (Z.eqb_spec i (next_sequence (log logs (latest_key e)))) as [->|Hni].
      * by rewrite <- Hs, lookup_insert_eq, Hp.
      * rewrite lookup_insert_ne; [apply He|]. intros [=]. congruence.
    + rewrite lookup_insert_ne; [apply He|]. by intros [=].
  - intros k. cbn [oi_latest put_closure]. rewrite log_append_log. destruct (decide (latest_key e = k)) as [<-|Hne].
    + by rewrite lookup_insert_eq, log_latest_snoc, Hs.
    + rewrite lookup_insert_ne by done. apply Hl.
Qed.

