(* ===== verification/Outcome.v ===== *)
(** * outcome_closure.py: the verification of an outcome

    [verify_outcome_closure] opens the observers' envelope, resolves the evidence it
    names, checks it against the operator's expectation, the accepted certificate and the
    recorded receipt, and derives the verdict from the reconciled effects.  Only a PASS or
    a FAIL reaches the index, which is the last step. *)
From S2P Require Import Prelude Json Dicts PyTime PyDecimal Sha256 Canonical Base64 Platforms Models.
From S2P Require Import Checks CertModels CertLedger Evidence Certificate ReceiptModels Receipt.
From S2P Require Import OutcomeModels OutcomeIndex.
Local Open Scope Z_scope.

(** ** Results *)
Module OutcomeReason.
Inductive OutcomeReason :=
| PASS_VERIFIED | FAIL_VERIFIED | PASS_ALREADY_PRESENT | FAIL_ALREADY_PRESENT | ENVELOPE_INVALID
| ENVELOPE_TOO_LARGE | PAYLOAD_INVALID | PAYLOAD_TOO_LARGE | SIGNATURE_INVALID | TRUST_POLICY_MISMATCH
| EXPECTED_BINDING_MISMATCH | CLOSURE_TIME_INVALID | ACTION_CERTIFICATE_ACCEPTANCE_UNKNOWN
| ACTION_CERTIFICATE_HANDOFF_UNTRUSTED | EXECUTION_RECEIPT_ACCEPTANCE_UNKNOWN
| EXECUTION_RECEIPT_HANDOFF_UNTRUSTED | ACTION_CERTIFICATE_UNSAFE | EXECUTION_RECEIPT_UNSAFE
| AUTHORIZATION_BINDING_MISMATCH | RECEIPT_BINDING_MISMATCH | EFFECT_BINDING_UNKNOWN
| EFFECT_BINDING_MISMATCH | EFFECT_COUNT_MISMATCH | EFFECT_RECONCILIATION_UNRESOLVED
| UNSAFE_UNRESOLVED_EFFECT | DUPLICATE_EFFECT_SUCCESS | DUPLICATE_PROVIDER_OPERATION_ID
| OUTCOME_OBSERVER_THRESHOLD_NOT_MET | ROOT_TIME_OR_REVOCATION_INVALID | PRODUCER_SIGNER_MISMATCH
| SELF_OBSERVATION | CLOSURE_ID_CONFLICT | ATTEMPT_SEQUENCE_CONFLICT | PREVIOUS_DIGEST_CONFLICT
| IDEMPOTENCY_CONFLICT | OUTCOME_INDEX_UNAVAILABLE | EVIDENCE_SOURCE_INVALID | EVIDENCE_BYTES_UNAVAILABLE
| EVIDENCE_DIGEST_MISMATCH | EFFECT_COVERAGE_INCOMPLETE | EFFECT_TERMINAL_INVALID | OUTCOME_WINDOW_UNSAFE
| OUTCOME_OBSERVER_SOD.
End OutcomeReason.
#[global] Instance OutcomeReason_eq_dec : EqDecision OutcomeReason.OutcomeReason.
Proof. solve_decision. Defined.
Notation OutcomeReason := OutcomeReason.OutcomeReason.

Definition PASS_OUTCOME_REASONS : list OutcomeReason :=
  [OutcomeReason.PASS_VERIFIED; OutcomeReason.PASS_ALREADY_PRESENT].
Definition FAIL_OUTCOME_REASONS : list OutcomeReason :=
  [OutcomeReason.FAIL_VERIFIED; OutcomeReason.FAIL_ALREADY_PRESENT].
Definition UNSAFE_OUTCOME_REASONS : list OutcomeReason :=
  [OutcomeReason.ACTION_CERTIFICATE_UNSAFE; OutcomeReason.EXECUTION_RECEIPT_UNSAFE;
   OutcomeReason.AUTHORIZATION_BINDING_MISMATCH; OutcomeReason.RECEIPT_BINDING_MISMATCH;
   OutcomeReason.EFFECT_BINDING_MISMATCH; OutcomeReason.DUPLICATE_EFFECT_SUCCESS;
   OutcomeReason.DUPLICATE_PROVIDER_OPERATION_ID; OutcomeReason.EFFECT_COUNT_MISMATCH;
   OutcomeReason.UNSAFE_UNRESOLVED_EFFECT; OutcomeReason.OUTCOME_WINDOW_UNSAFE;
   OutcomeReason.OUTCOME_OBSERVER_SOD].
(** Every reason that is in none of the other sets *)
Definition unknown_outcome_reason (r : OutcomeReason) : bool :=
  negb (bool_decide (r ∈ UNSAFE_OUTCOME_REASONS)) && negb (bool_decide (r ∈ PASS_OUTCOME_REASONS)) &&
  negb (bool_decide (r ∈ FAIL_OUTCOME_REASONS)).

Record OutcomeClosureVerificationResult := mk_OutcomeResult {
  ocv_status : OutcomeVerdict;
  ocv_reason_codes : list OutcomeReason;
  ocv_closure_id : option string;
  ocv_payload_sha256 : option string;
  ocv_envelope_sha256 : string;
  ocv_verified_outcome_observer_roots : list string;
  ocv_recorded : bool;
  ocv_attempt_id : option string;
  ocv_closure_sequence : option Z;
  ocv_previous_payload_sha256 : option string;
  ocv_expected_effect_count : option Z;
  ocv_observed_success_count : option Z;
  ocv_unresolved_effect_count : option Z;
}.
Notation OutcomeResult := OutcomeClosureVerificationResult.

(** What a recorded verdict must carry *)
Definition observer_bound (allowed : list OutcomeReason) (x : OutcomeResult) : bool :=
  x.(ocv_recorded) && Nat.eqb (length x.(ocv_reason_codes)) 1 &&
  forallb (λ r, bool_decide (r ∈ allowed)) x.(ocv_reason_codes) && given x.(ocv_closure_id) &&
  given x.(ocv_payload_sha256) && nonempty x.(ocv_verified_outcome_observer_roots) &&
  given x.(ocv_expected_effect_count) && given x.(ocv_observed_success_count) &&
  given x.(ocv_unresolved_effect_count) && given x.(ocv_attempt_id) && given x.(ocv_closure_sequence).
Definition OutcomeResult_validate (x : OutcomeResult) : result OutcomeResult :=
  _ ← require (size_between 1 16 x.(ocv_reason_codes) && opt_all is_identifier x.(ocv_closure_id) &&
               opt_all is_sha256 x.(ocv_payload_sha256) && is_sha256 x.(ocv_envelope_sha256) &&
               size_between 0 16 x.(ocv_verified_outcome_observer_roots) &&
               opt_all is_identifier x.(ocv_attempt_id) && opt_all (within 1 1000000) x.(ocv_closure_sequence) &&
               opt_all is_sha256 x.(ocv_previous_payload_sha256) &&
               opt_all (within 1 16) x.(ocv_expected_effect_count) &&
               opt_all (within 0 MAX_EFFECT_ATTEMPTS) x.(ocv_observed_success_count) &&
               opt_all (within 0 MAX_UNRESOLVED_EFFECTS) x.(ocv_unresolved_effect_count))
        (value_error "constraint");
  _ ← require (unique x.(ocv_reason_codes)) (ValueError "outcome verification reason codes must be unique");
  _ ← require (unique x.(ocv_verified_outcome_observer_roots))
        (ValueError "verified outcome observer roots must be unique");
  _ ← match x.(ocv_status) with
      | OutcomeVerdict.PASS => require (observer_bound PASS_OUTCOME_REASONS x)
          (ValueError "PASS requires a recorded, observer-bound closure")
      | OutcomeVerdict.FAIL => require (observer_bound FAIL_OUTCOME_REASONS x)
          (ValueError "a recorded FAIL requires an observer-bound closure")
      | OutcomeVerdict.UNKNOWN =>
          require (negb x.(ocv_recorded) && forallb unknown_outcome_reason x.(ocv_reason_codes))
            (ValueError "UNKNOWN requires only unavailable or unverified reasons")
      | OutcomeVerdict.UNSAFE_SUCCESS =>
          require (negb x.(ocv_recorded) &&
                   forallb (λ r, bool_decide (r ∈ UNSAFE_OUTCOME_REASONS)) x.(ocv_reason_codes))
            (ValueError "UNSAFE_SUCCESS requires only unsafe-success reasons")
      end;
  Ok x.

Definition succeeded (item : EffectAttemptObservation) : bool := bool_decide (item.(ea_status) = EFFECT_SUCCEEDED).
(** [sum(item.status == SUCCEEDED for item in attempts)] *)
Definition success_count (l : list EffectAttemptObservation) : Z := Z.of_nat (length (List.filter succeeded l)).

Definition _outcome_result (status : OutcomeVerdict) (reasons : list OutcomeReason) (envelope_sha256 : string)
    (closure_id payload_sha256 : option string) (observer_roots : list string) (recorded : bool)
    (attempt_id : option string) (closure_sequence : option Z) (previous_payload_sha256 : option string)
    (reconciliation : option EffectReconciliation) : result OutcomeResult :=
  OutcomeResult_validate
    (mk_OutcomeResult status (dedup reasons) closure_id payload_sha256 envelope_sha256
      (isort String.leb observer_roots) recorded attempt_id closure_sequence previous_payload_sha256
      (option_map rc_expected_effect_count reconciliation)
      (option_map (λ r, success_count r.(rc_attempts)) reconciliation)
      (option_map (λ r, Z.of_nat (length r.(rc_unresolved))) reconciliation)).

(** ** The receipt verification the closure refers to *)
Definition receipt_reason_text (r : ExecutionReceiptVerificationReason) : string :=
  match r with
  | ReceiptReason.APPENDED => "APPENDED"
  | ReceiptReason.ALREADY_PRESENT => "ALREADY_PRESENT"
  | ReceiptReason.ENVELOPE_INVALID => "ENVELOPE_INVALID"
  | ReceiptReason.ENVELOPE_TOO_LARGE => "ENVELOPE_TOO_LARGE"
  | ReceiptReason.PAYLOAD_INVALID => "PAYLOAD_INVALID"
  | ReceiptReason.PAYLOAD_TOO_LARGE => "PAYLOAD_TOO_LARGE"
  | ReceiptReason.SIGNATURE_INVALID => "SIGNATURE_INVALID"
  | ReceiptReason.TRUST_POLICY_MISMATCH => "TRUST_POLICY_MISMATCH"
  | ReceiptReason.EXPECTED_BINDING_MISMATCH => "EXPECTED_BINDING_MISMATCH"
  | ReceiptReason.RECEIPT_TIME_INVALID => "RECEIPT_TIME_INVALID"
  | ReceiptReason.ACTION_CERTIFICATE_REFERENCE_MISMATCH => "ACTION_CERTIFICATE_REFERENCE_MISMATCH"
  | ReceiptReason.ACTION_CERTIFICATE_NOT_ACCEPTED => "ACTION_CERTIFICATE_NOT_ACCEPTED"
  | ReceiptReason.ACTION_CERTIFICATE_RESERVATION_ORDER_INVALID => "ACTION_CERTIFICATE_RESERVATION_ORDER_INVALID"
  | ReceiptReason.CERTIFICATE_EXECUTION_WINDOW_MISMATCH => "CERTIFICATE_EXECUTION_WINDOW_MISMATCH"
  | ReceiptReason.ACTION_CERTIFICATE_ACCEPTANCE_UNKNOWN => "ACTION_CERTIFICATE_ACCEPTANCE_UNKNOWN"
  | ReceiptReason.ACTION_CERTIFICATE_AUTHORITY_UNKNOWN => "ACTION_CERTIFICATE_AUTHORITY_UNKNOWN"
  | ReceiptReason.EXECUTION_OBSERVER_THRESHOLD_NOT_MET => "EXECUTION_OBSERVER_THRESHOLD_NOT_MET"
  | ReceiptReason.ROOT_TIME_OR_REVOCATION_INVALID => "ROOT_TIME_OR_REVOCATION_INVALID"
  | ReceiptReason.PRODUCER_SIGNER_MISMATCH => "PRODUCER_SIGNER_MISMATCH"
  | ReceiptReason.SELF_OBSERVATION => "SELF_OBSERVATION"
  | ReceiptReason.RECEIPT_ID_CONFLICT => "RECEIPT_ID_CONFLICT"
  | ReceiptReason.ATTEMPT_CONFLICT => "ATTEMPT_CONFLICT"
  | ReceiptReason.IDEMPOTENCY_CONFLICT => "IDEMPOTENCY_CONFLICT"
  | ReceiptReason.RECEIPT_INDEX_UNAVAILABLE => "RECEIPT_INDEX_UNAVAILABLE"
  end.
Definition observation_text (s : ObservationState) : string :=
  match s with OBSERVED => "OBSERVED" | UNOBSERVED => "UNKNOWN" end.
Definition ReceiptResult_dump (x : ReceiptResult) : pyval :=
  let text (o : option string) := from_option VStr VNone o in
  VDict [("verification_version", VStr "proofflow.execution-receipt-verification/v0.1");
         ("status", VStr (status_text x.(erv_status)));
         ("reason_codes", VSeq (map (λ r, VStr (receipt_reason_text r)) x.(erv_reason_codes)));
         ("receipt_id", text x.(erv_receipt_id)); ("payload_sha256", text x.(erv_payload_sha256));
         ("envelope_sha256", VStr x.(erv_envelope_sha256));
         ("verified_execution_observer_roots", VSeq (map VStr x.(erv_verified_execution_observer_roots)));
         ("recorded", VBool x.(erv_recorded)); ("inference_status", VStr (observation_text x.(erv_inference_status)));
         ("usage_status", VStr (observation_text x.(erv_usage_status)));
         ("effect_status", VStr (observation_text x.(erv_effect_status)));
         ("cost_status", VStr (observation_text x.(erv_cost_status)));
         ("duration_status", VStr (observation_text x.(erv_duration_status)))].
#[export] Instance VerificationResult_eq_dec : EqDecision Result.
Proof. solve_decision. Defined.
#[export] Instance ReceiptResult_eq_dec : EqDecision ReceiptResult.
Proof. solve_decision. Defined.

(** ** The trusted handoff *)
Section handoff.
Context `{P : Platform} `{K : Ed25519} `{C : CertificateParser}.
Context (load_ExecutionReceiptStatement : string → result ExecutionReceiptStatement).

Definition execution_receipt_verification_sha256 (x : ReceiptResult) : result string :=
  sha256_digest (ReceiptResult_dump x).

(** An envelope, its payload and its statement; [except ValueError] *)
Definition open_statement {A} (load : string → result A) (bytes label payload_label : string)
    : result (option (DsseEnvelope * string * A)) :=
  match (envelope ← parse_json_model load_DsseEnvelope bytes label;
         payload ← decode_canonical_base64 envelope.(env_payload) payload_label None true;
         statement ← parse_json_model load payload payload_label;
         Ok (envelope, payload, statement)) with
  | Ok x => Ok (Some x)
  | Raise e => if is_value_error e then Ok None else Raise e
  end.

(** [not trust_root_is_current(root, a, skew) or not trust_root_is_current(root, b, skew)] *)
Definition not_current_at (root : TrustRoot) (skew : Z) (a b : datetime) : result bool :=
  orR (current ← trust_root_is_current root a skew; Ok (negb current))
      (current ← trust_root_is_current root b skew; Ok (negb current)).

Definition certificate_mismatch (bytes payload : string) (statement : ActionCertificateStatement) (x : Result)
    (expected : ActionCertificateReference) : result bool :=
  orR (Ok (negb (String.eqb (sha256_bytes bytes) expected.(cr_envelope_sha256)) ||
           negb (String.eqb (sha256_bytes payload) expected.(cr_payload_sha256)) ||
           negb (String.eqb statement.(acs_predicate).(acp_certificate_id) expected.(cr_certificate_id)) ||
           negb (bool_decide (x.(avr_certificate_id) = Some expected.(cr_certificate_id))) ||
           negb (bool_decide (x.(avr_payload_sha256) = Some expected.(cr_payload_sha256)))))
  (orR (digest ← action_certificate_verification_sha256 x;
        Ok (negb (String.eqb digest expected.(cr_verification_result_sha256))))
       (scope ← approval_scope_sha256 statement; Ok (negb (String.eqb scope expected.(cr_intent_sha256))))).

(** The condition on each issuer or approver root of the certificate *)
Definition certificate_root_lacking (policy : TrustPolicy) (predicate : ActionCertificatePredicate)
    (purpose : TrustPurpose) (allowed : list string) (approvers : option (list string))
    (verification_at now : datetime) (root : TrustRoot) : result bool :=
  orR (Ok (negb (is_purpose root.(tr_purpose) purpose) ||
           negb (String.eqb root.(tr_tenant_id) predicate.(acp_tenant_id)) ||
           negb (bool_decide (predicate.(acp_audience) ∈ root.(tr_audiences))) ||
           negb (bool_decide (ACTION_CERTIFICATE_PREDICATE_TYPE ∈ root.(tr_predicate_types))) ||
           negb (bool_decide (predicate.(acp_audience) ∈ policy.(tp_allowed_audiences))) ||
           negb (bool_decide (ACTION_CERTIFICATE_PREDICATE_TYPE ∈ policy.(tp_allowed_predicate_types))) ||
           negb (bool_decide (root.(tr_principal_id) ∈ allowed)) ||
           match approvers with Some l => negb (bool_decide (root.(tr_principal_id) ∈ l)) | None => false end))
      (not_current_at root (seconds policy.(tp_max_clock_skew_seconds)) verification_at now).

(** The last condition on the certificate: principals and thresholds *)
Definition certificate_unauthorized (policy : TrustPolicy) (predicate : ActionCertificatePredicate)
    (issuers approvers : list TrustRoot) : result bool :=
  issuer_fingerprints ← mapR trust_root_fingerprint issuers;
  approval_fingerprints ← mapR trust_root_fingerprint approvers;
  let human := predicate.(acp_human_principal).(pb_principal_id) in
  let workload := predicate.(acp_workload_principal).(pb_principal_id) in
  let issuer_principals := map tr_principal_id issuers in
  let approval_principals := map tr_principal_id approvers in
  Ok (negb (bool_decide (human ∈ policy.(tp_allowed_human_principals))) ||
      negb (bool_decide (workload ∈ policy.(tp_allowed_workload_principals))) ||
      String.eqb human workload ||
      (distinct_count issuer_principals <? policy.(tp_action_issuer_threshold)) ||
      (distinct_count issuer_fingerprints <? policy.(tp_action_issuer_threshold)) ||
      predicate.(acp_approval).(apb_required) &&
        ((distinct_count approval_principals <? policy.(tp_human_approval_threshold)) ||
         (distinct_count approval_fingerprints <? policy.(tp_human_approval_threshold))) ||
      overlap issuer_principals approval_principals || overlap issuer_fingerprints approval_fingerprints).

(** An outcome verification stops with a reason here, and with a result below. *)
Notation parsed := (checked OutcomeReason).

Definition _parse_external_action_certificate (envelope_bytes : string) (x : Result)
    (expected : ActionCertificateReference) (policy : TrustPolicy) (verification_time : datetime)
    : result (parsed ActionCertificatePredicate) :=
  let untrusted := Ok (Stop OutcomeReason.ACTION_CERTIFICATE_HANDOFF_UNTRUSTED) in
  if negb (bool_decide (x.(avr_status) = VerificationStatus.ACCEPT)) || negb x.(avr_reserved)
  then Ok (Stop OutcomeReason.ACTION_CERTIFICATE_ACCEPTANCE_UNKNOWN)
  else
    opened ← open_statement load_ActionCertificateStatement envelope_bytes "external ActionCertificate envelope"
               "external ActionCertificate payload";
    match opened with
    | None => untrusted
    | Some (envelope, payload, statement) =>
        other ← certificate_mismatch envelope_bytes payload statement x expected;
        if (other : bool) then untrusted
        else
          let predicate := statement.(acs_predicate) in
          let required := predicate.(acp_approval).(apb_required) in
          verified ← cryptographically_verified_roots envelope payload policy.(tp_roots);
          let issuer_ids := x.(avr_verified_action_issuer_roots) in
          let approval_ids := x.(avr_verified_human_approval_roots) in
          if negb (nonempty issuer_ids) || required && negb (nonempty approval_ids) ||
             negb required && nonempty approval_ids || negb (unique issuer_ids) || negb (unique approval_ids)
          then untrusted
          else if negb (forallb (λ id, given (find_root verified id)) (issuer_ids ++ approval_ids)) then untrusted
          else
            let issuers := omap (find_root verified) issuer_ids in
            let approvers := omap (find_root verified) approval_ids in
            let at_ := expected.(cr_verification_at) in
            lacking ← orR
              (anyR (certificate_root_lacking policy predicate ACTION_ISSUER
                 policy.(tp_allowed_action_issuer_principals) None at_ verification_time) issuers)
              (anyR (certificate_root_lacking policy predicate HUMAN_APPROVAL policy.(tp_allowed_approval_principals)
                 (Some predicate.(acp_approval).(apb_approver_principals)) at_ verification_time) approvers);
            if (lacking : bool) then untrusted
            else
              refused ← certificate_unauthorized policy predicate issuers approvers;
              if (refused : bool) then untrusted else Ok (Go predicate)
    end.

Definition receipt_mismatch (bytes payload : string) (statement : ExecutionReceiptStatement) (x : ReceiptResult)
    (expected : ExecutionReceiptReference) : result bool :=
  orR (Ok (negb (String.eqb (sha256_bytes bytes) expected.(rr_envelope_sha256)) ||
           negb (String.eqb (sha256_bytes payload) expected.(rr_payload_sha256)) ||
           negb (String.eqb statement.(ers_predicate).(erp_receipt_id) expected.(rr_receipt_id)) ||
           negb (bool_decide (x.(erv_receipt_id) = Some expected.(rr_receipt_id))) ||
           negb (bool_decide (x.(erv_payload_sha256) = Some expected.(rr_payload_sha256))) ||
           negb (String.eqb x.(erv_envelope_sha256) expected.(rr_envelope_sha256))))
      (digest ← execution_receipt_verification_sha256 x;
       Ok (negb (String.eqb digest expected.(rr_verification_result_sha256)))).

(** The condition on each observer root of the receipt *)
Definition receipt_root_lacking (policy : TrustPolicy) (predicate : ExecutionReceiptPredicate) (now : datetime)
    (root : TrustRoot) : result bool :=
  orR (Ok (negb (is_purpose root.(tr_purpose) EXECUTION_OBSERVER) ||
           negb (String.eqb root.(tr_tenant_id) predicate.(erp_tenant_id)) ||
           negb (bool_decide (EXECUTION_RECEIPT_AUDIENCE ∈ root.(tr_audiences))) ||
           negb (bool_decide (EXECUTION_RECEIPT_PREDICATE_TYPE ∈ root.(tr_predicate_types))) ||
           negb (bool_decide (EXECUTION_RECEIPT_AUDIENCE ∈ policy.(tp_allowed_audiences))) ||
           negb (bool_decide (EXECUTION_RECEIPT_PREDICATE_TYPE ∈ policy.(tp_allowed_predicate_types))) ||
           negb (bool_decide (root.(tr_principal_id) ∈ policy.(tp_allowed_execution_observer_principals))) ||
           negb (same_set root.(tr_execution_observer_scopes) all_execution_scopes)))
      (not_current_at root (seconds policy.(tp_max_clock_skew_seconds)) predicate.(erp_issued_at) now).

Definition _parse_external_receipt (envelope_bytes : string) (x : ReceiptResult)
    (expected : ExecutionReceiptReference) (policy : TrustPolicy) (verification_time : datetime)
    : result (parsed ExecutionReceiptStatement) :=
  let untrusted := Ok (Stop OutcomeReason.EXECUTION_RECEIPT_HANDOFF_UNTRUSTED) in
  if negb (bool_decide (x.(erv_status) = VerificationStatus.ACCEPT)) || negb x.(erv_recorded)
  then Ok (Stop OutcomeReason.EXECUTION_RECEIPT_ACCEPTANCE_UNKNOWN)
  else
    opened ← open_statement load_ExecutionReceiptStatement envelope_bytes "external ExecutionReceipt envelope"
               "external ExecutionReceipt payload";
    match opened with
    | None => untrusted
    | Some (envelope, payload, statement) =>
        other ← receipt_mismatch envelope_bytes payload statement x expected;
        if (other : bool) then untrusted
        else
          verified ← cryptographically_verified_roots envelope payload policy.(tp_roots);
          let root_ids := x.(erv_verified_execution_observer_roots) in
          if negb (nonempty root_ids) || negb (unique root_ids) ||
             negb (forallb (λ id, given (find_root verified id)) root_ids)
          then untrusted
          else
            let roots := omap (find_root verified) root_ids in
            lacking ← anyR (receipt_root_lacking policy statement.(ers_predicate) verification_time) roots;
            if (lacking : bool) then untrusted
            else
              fingerprints ← mapR trust_root_fingerprint roots;
              if (distinct_count (map tr_principal_id roots) <? policy.(tp_execution_observer_threshold)) ||
                 (distinct_count fingerprints <? policy.(tp_execution_observer_threshold))
              then untrusted else Ok (Go statement)
    end.
End handoff.

(** ** The observers *)
Section observers.
Context `{P : Platform} `{K : Ed25519}.

Definition outcome_observer_root (policy : TrustPolicy) (predicate : OutcomeClosurePredicate) (root : TrustRoot)
    : bool :=
  is_purpose root.(tr_purpose) OUTCOME_OBSERVER &&
  String.eqb root.(tr_tenant_id) predicate.(ocp_tenant_id) &&
  bool_decide (OUTCOME_CLOSURE_AUDIENCE ∈ root.(tr_audiences)) &&
  bool_decide (OUTCOME_CLOSURE_PREDICATE_TYPE ∈ root.(tr_predicate_types)) &&
  bool_decide (root.(tr_principal_id) ∈ policy.(tp_allowed_outcome_observer_principals)) &&
  same_set root.(tr_outcome_observer_scopes) all_outcome_scopes &&
  bool_decide (predicate.(ocp_evidence_source).(es_source_kind) ∈ root.(tr_outcome_evidence_source_kinds)) &&
  bool_decide (predicate.(ocp_evidence_source).(es_principal_id) ∈ root.(tr_outcome_evidence_source_principals)).

(** The state of the loop: the root ids with their fingerprints, the principals and the
    fingerprints that qualified, and the two flags *)
Record OutcomeObservers := mk_OutcomeObservers {
  ov_qualified : list (string * string);
  ov_principals : list string;
  ov_fingerprints : list string;
  ov_stale : bool;
  ov_self_observed : bool;
}.
(** The loop ends early on a signer that the producer did not declare. *)
Definition observe_outcome (policy : TrustPolicy) (predicate : OutcomeClosurePredicate)
    (authority_principals authority_fingerprints : list string) (now : datetime)
    (acc : OutcomeObservers) (root : TrustRoot) : result (checked OutcomeReason OutcomeObservers) :=
  let '(mk_OutcomeObservers qualified principals fingerprints stale self) := acc in
  if negb (outcome_observer_root policy predicate root) then Ok (Go acc)
  else if negb (bool_decide (root.(tr_principal_id) ∈ predicate.(ocp_producer).(od_observer_principals)))
  then Ok (Stop OutcomeReason.PRODUCER_SIGNER_MISMATCH)
  else
    own ← orR (Ok (bool_decide (root.(tr_principal_id) ∈ authority_principals)))
              (fingerprint ← trust_root_fingerprint root; Ok (bool_decide (fingerprint ∈ authority_fingerprints)));
    if (own : bool) then Ok (Go (mk_OutcomeObservers qualified principals fingerprints stale true))
    else
      old ← not_current_at root (seconds policy.(tp_max_clock_skew_seconds)) predicate.(ocp_issued_at) now;
      if (old : bool) then Ok (Go (mk_OutcomeObservers qualified principals fingerprints true self))
      else
        fingerprint ← trust_root_fingerprint root;
        Ok (Go (if negb (bool_decide (root.(tr_principal_id) ∈ principals)) &&
                   negb (bool_decide (fingerprint ∈ fingerprints))
                then mk_OutcomeObservers (dict_set root.(tr_root_id) fingerprint qualified)
                       (root.(tr_principal_id) :: principals) (fingerprint :: fingerprints) stale self
                else acc)).
Fixpoint observe_outcomes (policy : TrustPolicy) (predicate : OutcomeClosurePredicate)
    (authority_principals authority_fingerprints : list string) (now : datetime)
    (acc : OutcomeObservers) (roots : list TrustRoot) : result (checked OutcomeReason OutcomeObservers) :=
  match roots with
  | [] => Ok (Go acc)
  | root :: roots =>
      acc <~ observe_outcome policy predicate authority_principals authority_fingerprints now acc root;
      observe_outcomes policy predicate authority_principals authority_fingerprints now acc roots
  end.

(** The parties to the action, as principals, and the roots that stood behind its results *)
Definition party_principals (predicate : OutcomeClosurePredicate) (action : option ActionCertificatePredicate)
    (receipt : option ExecutionReceiptStatement) : list string :=
  from_option (λ a, [a.(acp_human_principal).(pb_principal_id); a.(acp_workload_principal).(pb_principal_id)])
    [] action ++
  from_option (λ r, r.(ers_predicate).(erp_producer).(pd_observer_principals)) [] receipt ++
  [predicate.(ocp_evidence_source).(es_principal_id)].
Definition party_roots (policy : TrustPolicy) (action_result : Result) (receipt_result : ReceiptResult)
    : list TrustRoot :=
  omap (find_root policy.(tp_roots))
    (action_result.(avr_verified_action_issuer_roots) ++ action_result.(avr_verified_human_approval_roots) ++
     receipt_result.(erv_verified_execution_observer_roots)).

(** [_qualifying_outcome_observers]: the qualified root ids, and why they do not do *)
Definition _qualifying_outcome_observers (envelope : DsseEnvelope) (payload : string)
    (statement : OutcomeClosureStatement) (policy : TrustPolicy) (action : option ActionCertificatePredicate)
    (receipt : option ExecutionReceiptStatement) (action_result : Result) (receipt_result : ReceiptResult)
    (expected : ExpectedOutcomeBinding) (now : datetime) : result (list string * option OutcomeReason) :=
  let predicate := statement.(ocs_predicate) in
  roots ← cryptographically_verified_roots envelope payload policy.(tp_roots);
  let parties := party_roots policy action_result receipt_result in
  party_fingerprints ← mapR trust_root_fingerprint parties;
  found ← observe_outcomes policy predicate
    (party_principals predicate action receipt ++ map tr_principal_id parties)
    (party_fingerprints ++ expected.(xo_human_principal_key_fingerprints) ++
     expected.(xo_executor_workload_key_fingerprints)) now (mk_OutcomeObservers [] [] [] false false) roots;
  Ok match found with
     | Stop reason => ([], Some reason)
     | Go acc =>
         let ids := isort String.leb (map fst acc.(ov_qualified)) in
         if acc.(ov_self_observed) then ([], Some OutcomeReason.SELF_OBSERVATION)
         else if acc.(ov_stale) then (ids, Some OutcomeReason.ROOT_TIME_OR_REVOCATION_INVALID)
         else if negb (same_set acc.(ov_principals) predicate.(ocp_producer).(od_observer_principals))
         then (ids, Some OutcomeReason.PRODUCER_SIGNER_MISMATCH)
         else if Z.of_nat (length acc.(ov_qualified)) <? policy.(tp_outcome_observer_threshold)
         then (ids, Some OutcomeReason.OUTCOME_OBSERVER_THRESHOLD_NOT_MET)
         else (ids, None)
     end.
End observers.

(** [_policy_allows_outcome]; the verifier does not call it. *)
Definition _policy_allows_outcome (policy : TrustPolicy) (expected : ExpectedOutcomeBinding) : bool :=
  bool_decide (expected.(xo_tenant_id) ∈ policy.(tp_allowed_tenants)) &&
  bool_decide (OUTCOME_CLOSURE_AUDIENCE ∈ policy.(tp_allowed_audiences)) &&
  bool_decide (OUTCOME_CLOSURE_PREDICATE_TYPE ∈ policy.(tp_allowed_predicate_types)) &&
  nonempty policy.(tp_allowed_outcome_observer_principals) &&
  bool_decide (expected.(xo_evidence_source).(es_source_kind) ∈
    policy.(tp_allowed_outcome_evidence_source_kinds)) &&
  bool_decide (expected.(xo_evidence_source).(es_principal_id) ∈
    policy.(tp_allowed_outcome_evidence_source_principals)).

(** ** Evidence *)

(** [OutcomeEvidenceResolver.resolve]; it may raise anything. *)
Definition EvidenceResolver : Type := string → OutcomeEvidenceSource → datetime → result (option string).

Section evidence.
Context `{P : Platform}.

(** [source.observed_at > now or source.valid_until < now] *)
Definition source_outside (source : OutcomeEvidenceSource) (now : datetime) : result bool :=
  orR (dt_ltb now source.(es_observed_at)) (dt_ltb source.(es_valid_until) now).

Record InMemoryOutcomeEvidenceResolver := mk_InMemoryOutcomeEvidenceResolver {
  er_evidence : gmap string string; er_max_bytes : Z }.
Definition evidence_init (evidence : gmap string string) (max_entries max_bytes : Z)
    : result InMemoryOutcomeEvidenceResolver :=
  _ ← require (negb ((max_entries <? 1) || (max_bytes <? 1)))
        (ValueError "outcome evidence limits must be positive");
  _ ← require (Z.of_nat (size evidence) <=? max_entries) (ValueError "outcome evidence exceeds entry limit");
  _ ← require (map_fold (λ _ v n, Z.of_nat (String.length v) + n) 0 evidence <=? max_bytes)
        (ValueError "outcome evidence exceeds byte limit");
  Ok (mk_InMemoryOutcomeEvidenceResolver evidence max_bytes).
Definition evidence_resolve (x : InMemoryOutcomeEvidenceResolver) : EvidenceResolver := λ digest source now,
  if negb (bool_decide (source.(es_source_kind) = LOCAL_BYTES)) then Ok None
  else
    outside ← source_outside source now;
    if (outside : bool) then Ok None
    else
      match x.(er_evidence) !! source.(es_source_event_sha256) with
      | None => Ok None
      | Some source_event =>
          if negb (String.eqb (sha256_bytes source_event) source.(es_source_event_sha256)) then Ok None
          else
            match x.(er_evidence) !! digest with
            | None => Ok None
            | Some value =>
                Ok (if (x.(er_max_bytes) <? Z.of_nat (String.length value)) ||
                       negb (String.eqb (sha256_bytes value) digest) then None else Some value)
            end
      end.

(** Every digest the closure names, in order *)
Definition evidence_digests (predicate : OutcomeClosurePredicate) : list string :=
  predicate.(ocp_evidence_source).(es_source_event_sha256) ::
  flat_map (λ item, [item.(ea_before_state_sha256); item.(ea_after_state_sha256);
                     item.(ea_provider_event_sha256); item.(ea_observer_evidence_sha256)])
    predicate.(ocp_reconciliation).(rc_attempts) ++
  omap ue_observer_evidence_sha256 predicate.(ocp_reconciliation).(rc_unresolved).

(** The first digest whose bytes are missing or differ *)
Fixpoint resolve_all (resolve : EvidenceResolver) (source : OutcomeEvidenceSource) (now : datetime)
    (digests : list string) : option OutcomeReason :=
  match digests with
  | [] => None
  | digest :: digests =>
      match resolve digest source now with
      | Raise _ | Ok None => Some OutcomeReason.EVIDENCE_BYTES_UNAVAILABLE
      | Ok (Some raw) =>
          if negb (String.eqb (sha256_bytes raw) digest) then Some OutcomeReason.EVIDENCE_DIGEST_MISMATCH
          else resolve_all resolve source now digests
      end
  end.
Definition _resolve_outcome_evidence (predicate : OutcomeClosurePredicate) (resolver : option EvidenceResolver)
    (now : datetime) : result (option OutcomeReason) :=
  let source := predicate.(ocp_evidence_source) in
  if negb (bool_decide (source.(es_source_kind) = LOCAL_BYTES)) then Ok (Some OutcomeReason.EVIDENCE_SOURCE_INVALID)
  else
    outside ← source_outside source now;
    if (outside : bool) then Ok (Some OutcomeReason.EVIDENCE_SOURCE_INVALID)
    else
      Ok match resolver with
         | None => Some OutcomeReason.EVIDENCE_BYTES_UNAVAILABLE
         | Some resolve => resolve_all resolve source now (evidence_digests predicate)
         end.
End evidence.

(** ** The verification *)
Notation ocheck := (checked OutcomeResult).

Section verify.
Context `{P : Platform} `{K : Ed25519} `{C : CertificateParser}.
(** pydantic's [model_validate_json] for receipts and for closures *)
Context (load_ExecutionReceiptStatement : string → result ExecutionReceiptStatement).
Context (load_OutcomeClosureStatement : string → result OutcomeClosureStatement).

(** What the operator hands over; each value may come twice and must then agree. *)
Record Handoff := mk_Handoff {
  ho_expected : ExpectedOutcomeBinding;
  ho_action : Result;
  ho_receipt : ReceiptResult;
}.
Record HandoffArguments := mk_HandoffArguments {
  ha_expected_binding : option ExpectedOutcomeBinding;
  ha_action_certificate_verification : option Result;
  ha_execution_receipt_verification : option ReceiptResult;
  ha_operator_expected_binding : option ExpectedOutcomeBinding;
  ha_operator_action_certificate_verification : option Result;
  ha_operator_execution_receipt_verification : option ReceiptResult;
}.
(** The operator's value, if there is one; [None] when the two differ. *)
Definition operator_value {A} `{EqDecision A} (given operator : option A) : option (option A) :=
  match operator with
  | None => Some given
  | Some x => match given with
              | Some y => if bool_decide (y = x) then Some (Some x) else None
              | None => Some (Some x)
              end
  end.

(** A result about bytes that were not opened *)
Definition unopened {A} (reason : OutcomeReason) (envelope_sha256 : string) (payload_sha256 : option string)
    : result (ocheck A) :=
  r ← _outcome_result OutcomeVerdict.UNKNOWN [reason] envelope_sha256 None payload_sha256 [] false None None None None;
  Ok (Stop r).

Definition merge_handoff (envelope_sha256 : string) (a : HandoffArguments) : result (ocheck Handoff) :=
  let refuse reason := unopened reason envelope_sha256 None in
  match operator_value a.(ha_expected_binding) a.(ha_operator_expected_binding) with
  | None => refuse OutcomeReason.ACTION_CERTIFICATE_HANDOFF_UNTRUSTED
  | Some expected =>
      match operator_value a.(ha_action_certificate_verification)
              a.(ha_operator_action_certificate_verification) with
      | None => refuse OutcomeReason.ACTION_CERTIFICATE_HANDOFF_UNTRUSTED
      | Some action =>
          match operator_value a.(ha_execution_receipt_verification)
                  a.(ha_operator_execution_receipt_verification) with
          | None => refuse OutcomeReason.EXECUTION_RECEIPT_HANDOFF_UNTRUSTED
          | Some receipt =>
              match expected, action, receipt with
              | Some expected, Some action, Some receipt => Ok (Go (mk_Handoff expected action receipt))
              | _, _, _ => refuse OutcomeReason.ACTION_CERTIFICATE_HANDOFF_UNTRUSTED
              end
          end
      end
  end.

(** A signed closure *)
Record OpenedOutcome := mk_OpenedOutcome {
  oc_envelope_sha256 : string;
  oc_envelope : DsseEnvelope;
  oc_payload : string;
  oc_statement : OutcomeClosureStatement;
}.
Definition oc_predicate (o : OpenedOutcome) : OutcomeClosurePredicate := o.(oc_statement).(ocs_predicate).
Definition oc_attempts (o : OpenedOutcome) : list EffectAttemptObservation :=
  (oc_predicate o).(ocp_reconciliation).(rc_attempts).

Definition closure_result (o : OpenedOutcome) (status : OutcomeVerdict) (reason : OutcomeReason)
    (observer_roots : list string) (recorded : bool) : result OutcomeResult :=
  let p := oc_predicate o in
  _outcome_result status [reason] o.(oc_envelope_sha256) (Some p.(ocp_closure_id))
    (Some (sha256_bytes o.(oc_payload))) observer_roots recorded (Some p.(ocp_attempt_id))
    (Some p.(ocp_closure_sequence)) p.(ocp_previous_payload_sha256) (Some p.(ocp_reconciliation)).
(** [_unknown] and [_unsafe] of an opened closure *)
Definition _unknown {A} (o : OpenedOutcome) (reason : OutcomeReason) (observer_roots : list string)
    : result (ocheck A) :=
  r ← closure_result o OutcomeVerdict.UNKNOWN reason observer_roots false; Ok (Stop r).
Definition _unsafe {A} (o : OpenedOutcome) (reason : OutcomeReason) (observer_roots : list string)
    : result (ocheck A) :=
  r ← closure_result o OutcomeVerdict.UNSAFE_SUCCESS reason observer_roots false; Ok (Stop r).
(** Unsafe when an effect is reported as a success, unknown otherwise *)
Definition unsafe_if {A} (success : bool) (o : OpenedOutcome) (unsafe_reason reason : OutcomeReason)
    (observer_roots : list string) : result (ocheck A) :=
  if success then _unsafe o unsafe_reason observer_roots else _unknown o reason observer_roots.
Definition any_success (o : OpenedOutcome) : bool := existsb succeeded (oc_attempts o).

Definition open_outcome (envelope_bytes : string) (policy : TrustPolicy) (now : datetime)
    : result (ocheck OpenedOutcome) :=
  let envelope_sha256 := sha256_bytes envelope_bytes in
  let refuse reason payload := unopened reason envelope_sha256 (option_map sha256_bytes payload) in
  if negb (is_ok (_parse_wire_timestamp now "verification time"))
  then refuse OutcomeReason.ENVELOPE_INVALID None
  else if MAX_ENVELOPE_BYTES <? Z.of_nat (String.length envelope_bytes)
  then refuse OutcomeReason.ENVELOPE_TOO_LARGE None
  else
    opened ← open_payload envelope_bytes "OutcomeClosure DSSE envelope" "OutcomeClosure payload";
    match opened with
    | None => refuse OutcomeReason.ENVELOPE_INVALID None
    | Some (envelope, payload) =>
        if MAX_PAYLOAD_BYTES <? Z.of_nat (String.length payload) then refuse OutcomeReason.PAYLOAD_TOO_LARGE None
        else
          roots ← cryptographically_verified_roots envelope payload policy.(tp_roots);
          if negb (nonempty roots) then refuse OutcomeReason.SIGNATURE_INVALID (Some payload)
          else
            match parse_json_model load_OutcomeClosureStatement payload "signed OutcomeClosure payload" with
            | Raise e => if is_value_error e then refuse OutcomeReason.PAYLOAD_INVALID (Some payload) else Raise e
            | Ok statement => Ok (Go (mk_OpenedOutcome envelope_sha256 envelope payload statement))
            end
    end.

Definition check_outcome_observers (policy : TrustPolicy) (h : Handoff) (now : datetime) (o : OpenedOutcome)
    (action : option ActionCertificatePredicate) (receipt : option ExecutionReceiptStatement)
    : result (ocheck (list string)) :=
  '(roots, reason) ← _qualifying_outcome_observers o.(oc_envelope) o.(oc_payload) o.(oc_statement) policy action
      receipt h.(ho_action) h.(ho_receipt) h.(ho_expected) now;
  match reason with Some reason => _unknown o reason roots | None => Ok (Go roots) end.

Definition check_outcome_evidence (resolver : option EvidenceResolver) (now : datetime) (o : OpenedOutcome)
    (roots : list string) : result (ocheck unit) :=
  reason ← _resolve_outcome_evidence (oc_predicate o) resolver now;
  match reason with Some reason => _unknown o reason roots | None => Ok (Go ()) end.

Definition check_expected_outcome (expected : ExpectedOutcomeBinding) (o : OpenedOutcome) (roots : list string)
    : result (ocheck unit) :=
  if negb (bool_decide (expected_outcome_binding_for o.(oc_statement)
             expected.(xo_human_principal_key_fingerprints)
             expected.(xo_executor_workload_key_fingerprints) = expected))
  then unsafe_if (any_success o) o OutcomeReason.EFFECT_BINDING_MISMATCH OutcomeReason.EXPECTED_BINDING_MISMATCH roots
  else Ok (Go ()).

(** A handoff that was not accepted is unsafe when effects are reported as successes. *)
Definition check_handoff {A} (m : result (checked OutcomeReason A)) (unaccepted unsafe_reason : OutcomeReason)
    (o : OpenedOutcome) (roots : list string) : result (ocheck A) :=
  x ← m;
  match x with
  | Go a => Ok (Go a)
  | Stop reason => unsafe_if (bool_decide (reason = unaccepted) && any_success o) o unsafe_reason reason roots
  end.

(** The closure is about another action or another execution. *)
Definition binding_mismatch (action : ActionCertificatePredicate) (receipt : ExecutionReceiptPredicate)
    (p : OutcomeClosurePredicate) : bool :=
  let r := p.(ocp_reconciliation) in
  negb (String.eqb action.(acp_tenant_id) p.(ocp_tenant_id)) ||
  negb (String.eqb action.(acp_subject).(sb_subject_id) p.(ocp_case_id)) ||
  negb (String.eqb action.(acp_context).(cb_request_id) p.(ocp_execution_id)) ||
  negb (String.eqb p.(ocp_attempt_id) receipt.(erp_attempt).(at_attempt_id)) ||
  negb (String.eqb action.(acp_effect).(eb_effect_type) r.(rc_effect_type)) ||
  negb (String.eqb action.(acp_effect).(eb_target) r.(rc_target)) ||
  negb (String.eqb p.(ocp_certificate_ref).(cr_intent_sha256) r.(rc_intent_sha256)) ||
  negb (String.eqb action.(acp_effect).(eb_idempotency_key) r.(rc_idempotency_key)) ||
  negb (String.eqb receipt.(erp_tenant_id) p.(ocp_tenant_id)) ||
  negb (String.eqb receipt.(erp_case_id) p.(ocp_case_id)) ||
  negb (String.eqb receipt.(erp_execution_id) p.(ocp_execution_id)) ||
  negb (String.eqb receipt.(erp_task_id) p.(ocp_task_id)) ||
  negb (bool_decide (receipt.(erp_certificate_ref) = p.(ocp_certificate_ref))) ||
  negb (String.eqb receipt.(erp_effect).(eo_effect_type) r.(rc_effect_type)) ||
  negb (String.eqb receipt.(erp_effect).(eo_target) r.(rc_target)) ||
  negb (String.eqb receipt.(erp_effect).(eo_intent_sha256) r.(rc_intent_sha256)) ||
  negb (String.eqb receipt.(erp_effect).(eo_idempotency_key) r.(rc_idempotency_key)).
Definition check_binding (action : ActionCertificatePredicate) (receipt : ExecutionReceiptPredicate)
    (o : OpenedOutcome) (roots : list string) : result (ocheck unit) :=
  if binding_mismatch action receipt (oc_predicate o)
  then unsafe_if (any_success o) o OutcomeReason.EFFECT_BINDING_MISMATCH OutcomeReason.EFFECT_BINDING_UNKNOWN roots
  else Ok (Go ()).

(** [not (a < b)] for [a >= b] *)
Definition not_before_instant (a b : datetime) : result bool := early ← dt_ltb a b; Ok (negb early).
Definition ordered_times (action : ActionCertificatePredicate) (receipt : ExecutionReceiptPredicate)
    (p : OutcomeClosurePredicate) : list datetime :=
  [action.(acp_not_before).(wt_at); p.(ocp_certificate_ref).(cr_verification_at);
   p.(ocp_certificate_ref).(cr_reserved_at); receipt.(erp_attempt).(at_started_at); receipt.(erp_issued_at);
   p.(ocp_evidence_source).(es_observed_at); p.(ocp_issued_at)].
Definition window_invalid (action : ActionCertificatePredicate) (receipt : ExecutionReceiptPredicate)
    (p : OutcomeClosurePredicate) (verification_time : datetime) : result bool :=
  let times := ordered_times action receipt p in
  let expires := action.(acp_expires_at).(wt_at) in
  let source := p.(ocp_evidence_source) in
  orR (anyR (λ ab : datetime * datetime, dt_ltb (snd ab) (fst ab)) (zip times (tail times)))
  (orR (dt_ltb verification_time p.(ocp_issued_at))
  (orR (dt_ltb source.(es_valid_until) p.(ocp_issued_at))
  (orR (not_before_instant p.(ocp_certificate_ref).(cr_reserved_at) expires)
  (orR (not_before_instant p.(ocp_issued_at) expires)
  (orR (dt_ltb action.(acp_policy).(plb_expires_at).(wt_at) expires)
  (orR (dt_ltb source.(es_valid_until) source.(es_observed_at))
       (not_before_instant receipt.(erp_issued_at) expires))))))).
Definition check_outcome_window (action : ActionCertificatePredicate) (receipt : ExecutionReceiptPredicate)
    (now : datetime) (o : OpenedOutcome) (roots : list string) : result (ocheck unit) :=
  outside ← window_invalid action receipt (oc_predicate o) now;
  if (outside : bool)
  then unsafe_if (0 <? success_count (oc_attempts o)) o OutcomeReason.OUTCOME_WINDOW_UNSAFE
         OutcomeReason.CLOSURE_TIME_INVALID roots
  else Ok (Go ()).

(** The verdict of the reconciled effects *)
Definition derive_verdict (o : OpenedOutcome) (roots : list string) : result (ocheck OutcomeVerdict) :=
  let r := (oc_predicate o).(ocp_reconciliation) in
  let attempts := r.(rc_attempts) in
  let successes := success_count attempts in
  let success := 0 <? successes in
  if r.(rc_expected_effect_count) <? successes then _unsafe o OutcomeReason.DUPLICATE_EFFECT_SUCCESS roots
  else if nonempty r.(rc_unresolved)
  then unsafe_if success o OutcomeReason.UNSAFE_UNRESOLVED_EFFECT OutcomeReason.EFFECT_RECONCILIATION_UNRESOLVED roots
  else if negb (Z.of_nat (length attempts + length r.(rc_unresolved)) =? r.(rc_expected_effect_count))
  then unsafe_if success o OutcomeReason.EFFECT_COUNT_MISMATCH OutcomeReason.EFFECT_COVERAGE_INCOMPLETE roots
  else if (successes =? r.(rc_expected_effect_count)) &&
          forallb (λ item, bool_decide (item.(ea_terminal_result) = EFFECT_COMMITTED)) attempts
  then Ok (Go OutcomeVerdict.PASS)
  else if (successes =? 0) && (Z.of_nat (length attempts) =? r.(rc_expected_effect_count)) &&
          forallb (λ item, bool_decide (item.(ea_status) = EFFECT_FAILED) &&
            bool_decide (item.(ea_terminal_result) ∈ [EFFECT_REJECTED; EFFECT_NOT_APPLIED])) attempts
  then Ok (Go OutcomeVerdict.FAIL)
  else unsafe_if success o OutcomeReason.EFFECT_TERMINAL_INVALID OutcomeReason.EFFECT_TERMINAL_INVALID roots.

(** Everything before the verdict: the closure and its observers *)
Definition vet_outcome (envelope_bytes : string) (policy : TrustPolicy) (a : HandoffArguments)
    (certificate_bytes receipt_bytes : string) (now : datetime) (resolver : option EvidenceResolver)
    : result (ocheck (OpenedOutcome * list string)) :=
  h <~ merge_handoff (sha256_bytes envelope_bytes) a;
  o <~ open_outcome envelope_bytes policy now;
  roots <~ check_outcome_observers policy h now o None None;
  _ <~ check_outcome_evidence resolver now o roots;
  _ <~ check_expected_outcome h.(ho_expected) o roots;
  action <~ check_handoff (_parse_external_action_certificate certificate_bytes h.(ho_action)
              (oc_predicate o).(ocp_certificate_ref) policy now)
              OutcomeReason.ACTION_CERTIFICATE_ACCEPTANCE_UNKNOWN OutcomeReason.ACTION_CERTIFICATE_UNSAFE o roots;
  receipt <~ check_handoff (_parse_external_receipt load_ExecutionReceiptStatement receipt_bytes h.(ho_receipt)
              (oc_predicate o).(ocp_receipt_ref) policy now)
              OutcomeReason.EXECUTION_RECEIPT_ACCEPTANCE_UNKNOWN OutcomeReason.EXECUTION_RECEIPT_UNSAFE o roots;
  roots <~ check_outcome_observers policy h now o (Some action) (Some receipt);
  _ <~ check_binding action receipt.(ers_predicate) o roots;
  _ <~ check_outcome_window action receipt.(ers_predicate) now o roots;
  Ok (Go (o, roots)).
(** Everything before the index *)
Definition assess_outcome (envelope_bytes : string) (policy : TrustPolicy) (a : HandoffArguments)
    (certificate_bytes receipt_bytes : string) (now : datetime) (resolver : option EvidenceResolver)
    : result (ocheck (OpenedOutcome * list string * OutcomeVerdict)) :=
  vetted <~ vet_outcome envelope_bytes policy a certificate_bytes receipt_bytes now resolver;
  let '(o, roots) := vetted in
  verdict <~ derive_verdict o roots;
  Ok (Go (o, roots, verdict)).

Definition outcome_entry (o : OpenedOutcome) : OutcomeEntry :=
  let p := oc_predicate o in
  mk_OutcomeEntry p.(ocp_tenant_id) p.(ocp_closure_id) p.(ocp_execution_id) p.(ocp_attempt_id)
    p.(ocp_closure_sequence) p.(ocp_previous_payload_sha256) (sha256_bytes o.(oc_payload))
    p.(ocp_reconciliation).(rc_idempotency_key) p.(ocp_reconciliation).(rc_intent_sha256).

(** The result for the status of the index *)
Definition index_result (o : OpenedOutcome) (roots : list string) (verdict : OutcomeVerdict)
    (status : OutcomeIndexStatus) : result OutcomeResult :=
  let pass := bool_decide (verdict = OutcomeVerdict.PASS) in
  let record reason := closure_result o verdict reason roots true in
  let refuse reason := closure_result o OutcomeVerdict.UNKNOWN reason roots false in
  match status with
  | OutcomeIndexStatus.APPENDED =>
      record (if pass then OutcomeReason.PASS_VERIFIED else OutcomeReason.FAIL_VERIFIED)
  | OutcomeIndexStatus.ALREADY_PRESENT =>
      record (if pass then OutcomeReason.PASS_ALREADY_PRESENT else OutcomeReason.FAIL_ALREADY_PRESENT)
  | OutcomeIndexStatus.CLOSURE_ID_CONFLICT => refuse OutcomeReason.CLOSURE_ID_CONFLICT
  | OutcomeIndexStatus.ATTEMPT_SEQUENCE_CONFLICT => refuse OutcomeReason.ATTEMPT_SEQUENCE_CONFLICT
  | OutcomeIndexStatus.PREVIOUS_DIGEST_CONFLICT => refuse OutcomeReason.PREVIOUS_DIGEST_CONFLICT
  | OutcomeIndexStatus.IDEMPOTENCY_CONFLICT => refuse OutcomeReason.IDEMPOTENCY_CONFLICT
  | OutcomeIndexStatus.UNAVAILABLE => refuse OutcomeReason.OUTCOME_INDEX_UNAVAILABLE
  end.

Definition verify_outcome_closure {T} `{OutcomeClosureIndex T} (envelope_bytes : string) (policy : TrustPolicy)
    (a : HandoffArguments) (action_certificate_envelope_bytes execution_receipt_envelope_bytes : string) (s : T)
    (now : datetime) (resolver : option EvidenceResolver) : T * result OutcomeResult :=
  match assess_outcome envelope_bytes policy a action_certificate_envelope_bytes execution_receipt_envelope_bytes
          now resolver with
  | Raise e => (s, Raise e)
  | Ok (Stop r) => (s, Ok r)
  | Ok (Go (o, roots, verdict)) =>
      let '(s, appended) := append_closure s (outcome_entry o) in
      (s, index_result o roots verdict
            match appended with Ok status => status | Raise _ => OutcomeIndexStatus.UNAVAILABLE end)
  end.
End verify.
