(* ===== verification/OutcomeFacts.v ===== *)
(** * What each check of an outcome establishes

    The specification of an acceptable closure, part by part, and the lemma that the
    check of each part implies it. *)
From S2P Require Import Prelude Json Dicts PyTime PyDecimal Sha256 Canonical Base64 Platforms Models.
From S2P Require Import Checks CertModels CertLedger Evidence Certificate CertFacts CertSound CertTotal.
From S2P Require Import ReceiptModels Receipt ReceiptFacts ReceiptSound OutcomeModels OutcomeIndex Outcome.
Local Open Scope Z_scope.

(** ** The effects *)

(** Every expected effect was committed, once. *)
Definition all_committed (r : EffectReconciliation) : Prop :=
  r.(rc_unresolved) = [] ∧ Z.of_nat (length r.(rc_attempts)) = r.(rc_expected_effect_count) ∧
  ∀ item, item ∈ r.(rc_attempts) → item.(ea_status) = EFFECT_SUCCEEDED ∧
    item.(ea_terminal_result) = EFFECT_COMMITTED.
(** Every expected effect was attempted, and none took place. *)
Definition none_applied (r : EffectReconciliation) : Prop :=
  r.(rc_unresolved) = [] ∧ Z.of_nat (length r.(rc_attempts)) = r.(rc_expected_effect_count) ∧
  ∀ item, item ∈ r.(rc_attempts) → item.(ea_status) = EFFECT_FAILED ∧
    item.(ea_terminal_result) ≠ EFFECT_COMMITTED.
(** All are accounted for: some succeeded and some did not. *)
Definition partly_applied (r : EffectReconciliation) : Prop :=
  r.(rc_unresolved) = [] ∧ Z.of_nat (length r.(rc_attempts)) = r.(rc_expected_effect_count) ∧
  0 < success_count r.(rc_attempts) < r.(rc_expected_effect_count).

Lemma success_count_le l : 0 ≤ success_count l ≤ Z.of_nat (length l).
Proof. unfold success_count. pose proof (List.filter_length_le succeeded l). lia. Qed.
Lemma success_count_all l : success_count l = Z.of_nat (length l) ↔ ∀ x, x ∈ l → x.(ea_status) = EFFECT_SUCCEEDED.
Proof.
  unfold success_count. induction l as [|x l IH]; simpl; [split; [intros _ y ?%not_elem_of_nil; done|done]|].
  pose proof (List.filter_length_le succeeded l). unfold succeeded at 1.
  destruct (bool_decide_reflect (ea_status x = EFFECT_SUCCEEDED)); cbn [length].
  - transitivity (Z.of_nat (length (List.filter succeeded l)) = Z.of_nat (length l)); [lia|]. rewrite IH.
    split; [intros H' y [->|Hy]%elem_of_cons; auto|intros H' y Hy; apply H'; by right].
  - split; [lia|]. intros H'. destruct n. apply H'. by left.
Qed.
Lemma success_count_none l : success_count l = 0 ↔ ∀ x, x ∈ l → x.(ea_status) = EFFECT_FAILED.
Proof.
  unfold success_count. induction l as [|x l IH]; simpl; [split; [intros _ y ?%not_elem_of_nil; done|done]|].
  unfold succeeded at 1. destruct (bool_decide_reflect (ea_status x = EFFECT_SUCCEEDED)) as [e|n]; cbn [length].
  - split; [lia|]. intros H'. rewrite (H' x) in e; [done|by left].
  - rewrite IH. split; [|intros H' y Hy; apply H'; by right].
    intros H' y [->|Hy]%elem_of_cons; [by destruct (ea_status x)|auto].
Qed.
Lemma any_success_count o : any_success o = true ↔ 0 < success_count (oc_attempts o).
Proof.
  unfold any_success. rewrite existsb_exists. pose proof (success_count_le (oc_attempts o)).
  assert (success_count (oc_attempts o) = 0 ↔ ¬ ∃ x, In x (oc_attempts o) ∧ succeeded x = true) as Hz.
  { rewrite success_count_none. unfold succeeded. split.
    - intros H' (x & Hx & Hs). apply bool_decide_eq_true in Hs. rewrite H' in Hs; [done|by apply list_elem_of_In].
    - intros H' x Hx. destruct (ea_status x) eqn:E; [|done]. destruct H'. exists x.
      split; [by apply list_elem_of_In|]. by apply bool_decide_eq_true. }
  split.
  - intros Hx. destruct (Z.eq_dec (success_count (oc_attempts o)) 0) as [e|]; [|lia]. apply Hz in e. done.
  - intros Hp. destruct (List.existsb succeeded (oc_attempts o)) eqn:E; [by apply existsb_exists|].
    assert (success_count (oc_attempts o) = 0); [|lia]. apply Hz. intros Hx. apply existsb_exists in Hx. congruence.
Qed.

Section facts.
Context `{P : Platform} `{K : Ed25519} `{C : CertificateParser}.

(** ** Stops *)
Lemma unopened_Go {A} reason e p (x : A) : unopened reason e p ≠ Ok (Go x).
Proof. unfold unopened. by intros (? & _ & ?)%bind_Ok. Qed.
Lemma unknown_Go {A} o reason roots (x : A) : _unknown o reason roots ≠ Ok (Go x).
Proof. unfold _unknown. by intros (? & _ & ?)%bind_Ok. Qed.
Lemma unsafe_Go {A} o reason roots (x : A) : _unsafe o reason roots ≠ Ok (Go x).
Proof. unfold _unsafe. by intros (? & _ & ?)%bind_Ok. Qed.
Lemma unsafe_if_Go {A} b o u reason roots (x : A) : unsafe_if b o u reason roots ≠ Ok (Go x).
Proof. destruct b; [apply unsafe_Go|apply unknown_Go]. Qed.
(** [no_go] closes a branch that stops. *)
Ltac no_go := match goal with
  | H : unopened _ _ _ = Ok (Go _) |- _ => by apply unopened_Go in H
  | H : _unknown _ _ _ = Ok (Go _) |- _ => by apply unknown_Go in H
  | H : _unsafe _ _ _ = Ok (Go _) |- _ => by apply unsafe_Go in H
  | H : unsafe_if _ _ _ _ _ = Ok (Go _) |- _ => by apply unsafe_if_Go in H end.

(** The verdict of a closure that is not stopped *)
Definition verdict_of (r : EffectReconciliation) (verdict : OutcomeVerdict) : Prop :=
  verdict = OutcomeVerdict.PASS ∧ all_committed r ∨ verdict = OutcomeVerdict.FAIL ∧ none_applied r.

Lemma derive_verdict_Go o roots verdict :
  derive_verdict o roots = Ok (Go verdict) → verdict_of (oc_predicate o).(ocp_reconciliation) verdict.
Proof.
  unfold derive_verdict. cbv zeta. intros H. set (r := ocp_reconciliation _) in *.
  destruct (_ <? success_count _); [no_go|]. destruct (nonempty _) eqn:Eu; [no_go|].
  assert (rc_unresolved r = []) as Hu by (by destruct (rc_unresolved r)). rewrite Hu in H.
  destruct (_ =? _) eqn:Ec in H; cbn [negb] in H; [|no_go]. apply Z.eqb_eq in Ec. cbn in Ec. rewrite Nat.add_0_r in Ec.
  destruct (_ && _) eqn:Ep in H.
  { injection H as <-. left. split; [done|]. split_bools. split; [done|]. split; [done|]. intros item Hi.
    split; [apply (proj1 (success_count_all (rc_attempts r))); [|done]; rewrite Ec; by apply Z.eqb_eq|].
    match goal with H : forallb _ _ = true |- _ => rewrite forallb_forall in H; specialize (H item) end.
    by eapply bool_decide_eq_true_1, H0, list_elem_of_In. }
  destruct (_ && _) eqn:Ef in H; [|no_go]. injection H as <-. right. split; [done|]. split_bools.
  split; [done|]. split; [done|]. intros item Hi.
  match goal with H : forallb _ _ = true |- _ => rewrite forallb_forall in H; specialize (H item);
    rewrite <- list_elem_of_In in H; specialize (H Hi) end. split_bools.
  split; [done|]. intros Hc. match goal with H : ea_terminal_result item ∈ _ |- _ => rewrite Hc in H;
    by apply elem_of_cons in H as [?|[?|?%not_elem_of_nil]%elem_of_cons] end.
Qed.

(** ** The envelope and the evidence *)
Context (load_ExecutionReceiptStatement : string → result ExecutionReceiptStatement).
Context (load_OutcomeClosureStatement : string → result OutcomeClosureStatement).

Definition closure_opens (envelope_bytes : string) (now : datetime) (o : OpenedOutcome) : Prop :=
  is_aware now = true ∧ Z.of_nat (String.length envelope_bytes) ≤ MAX_ENVELOPE_BYTES ∧
  load_DsseEnvelope envelope_bytes = Ok o.(oc_envelope) ∧
  (∃ label, decode_canonical_base64 o.(oc_envelope).(env_payload) label None true = Ok o.(oc_payload)) ∧
  Z.of_nat (String.length o.(oc_payload)) ≤ MAX_PAYLOAD_BYTES ∧
  load_OutcomeClosureStatement o.(oc_payload) = Ok o.(oc_statement) ∧
  o.(oc_envelope_sha256) = sha256_bytes envelope_bytes.

Lemma open_outcome_Go envelope_bytes policy now o :
  open_outcome load_OutcomeClosureStatement envelope_bytes policy now = Ok (Go o) →
  closure_opens envelope_bytes now o.
Proof.
  unfold open_outcome. cbv zeta. intros H. destruct (is_ok _) eqn:Ew; cbn [negb] in H; [|no_go].
  assert (is_aware now = true) as Hn by (unfold _parse_wire_timestamp in Ew; by destruct (is_aware now)).
  destruct (Z.ltb_spec MAX_ENVELOPE_BYTES (Z.of_nat (String.length envelope_bytes))); [no_go|].
  apply bind_Ok in H as (opened & Hopen & H). destruct opened as [[envelope payload]|]; [|no_go].
  apply open_payload_Some in Hopen as [He Hp].
  destruct (Z.ltb_spec MAX_PAYLOAD_BYTES (Z.of_nat (String.length payload))); [no_go|].
  apply bind_Ok in H as (roots & Hr & H). destruct (negb (nonempty roots)); [no_go|].
  destruct (parse_json_model load_OutcomeClosureStatement _ _) as [statement|e] eqn:Es;
    [|destruct (is_value_error e); [no_go|done]].
  injection H as <-. split; [done|]. split; [done|]. split; [done|]. split; [by eexists|].
  split; [done|]. split; [by apply parse_json_model_Ok in Es|done].
Qed.

(** The source is in force and the bytes behind every digest were resolved. *)
Definition evidenced (p : OutcomeClosurePredicate) (resolver : option EvidenceResolver) (now : datetime) : Prop :=
  us p.(ocp_evidence_source).(es_observed_at) ≤ us now ≤ us p.(ocp_evidence_source).(es_valid_until) ∧
  ∃ resolve, resolver = Some resolve ∧ ∀ digest, digest ∈ evidence_digests p →
    ∃ raw, resolve digest p.(ocp_evidence_source) now = Ok (Some raw) ∧ sha256_bytes raw = digest.

Lemma resolve_all_None resolve source now digests :
  resolve_all resolve source now digests = None ↔ ∀ digest, digest ∈ digests →
    ∃ raw, resolve digest source now = Ok (Some raw) ∧ sha256_bytes raw = digest.
Proof.
  induction digests as [|d l IH]; cbn [resolve_all]; [split; [intros _ x ?%not_elem_of_nil; done|done]|]. split.
  - destruct (resolve d source now) as [[raw|]|] eqn:E; [|done..].
    destruct (String.eqb_spec (sha256_bytes raw) d) as [Hd|]; cbn [negb]; [|done].
    intros H x [->|Hx]%elem_of_cons; [by exists raw|by apply IH].
  - intros H. destruct (H d) as (raw & -> & Hd); [by left|]. rewrite Hd, String.eqb_refl. cbn [negb].
    apply IH. intros x Hx. apply H. by right.
Qed.

Lemma source_outside_false source now :
  source_outside source now = Ok false → us source.(es_observed_at) ≤ us now ≤ us source.(es_valid_until).
Proof. unfold source_outside. intros [H1 H2]%orR_false. us_facts. lia. Qed.

Lemma check_evidence_Go resolver now o roots u :
  check_outcome_evidence resolver now o roots = Ok (Go u) → evidenced (oc_predicate o) resolver now.
Proof.
  unfold check_outcome_evidence, _resolve_outcome_evidence. cbv zeta. intros (reason & Hr & H)%bind_Ok.
  destruct reason; [no_go|]. destruct (negb (bool_decide _)); [done|].
  apply bind_Ok in Hr as (outside & Ho & Hr). destruct outside; [done|]. apply source_outside_false in Ho.
  split; [done|]. destruct resolver as [resolve|]; [|done]. exists resolve. split; [done|].
  apply resolve_all_None. by apply Ok_inj.
Qed.

Lemma check_expected_outcome_Go expected o roots u :
  check_expected_outcome expected o roots = Ok (Go u) →
  expected_outcome_binding_for o.(oc_statement) expected.(xo_human_principal_key_fingerprints)
    expected.(xo_executor_workload_key_fingerprints) = expected.
Proof. unfold check_expected_outcome. destruct (bool_decide _) eqn:E; cbn [negb]; intros; [by split_bools|no_go]. Qed.

Lemma check_handoff_Go {A} (m : result (checked OutcomeReason A)) unaccepted unsafe_reason o roots x :
  check_handoff m unaccepted unsafe_reason o roots = Ok (Go x) → m = Ok (Go x).
Proof. unfold check_handoff. intros ([reason|y] & -> & H)%bind_Ok; [no_go|]. by injection H as ->. Qed.

Lemma operator_value_Some {A} `{EqDecision A} (given operator : option A) x :
  operator_value given operator = Some (Some x) → (operator = None ∧ given = Some x) ∨
    (operator = Some x ∧ ∀ y, given = Some y → y = x).
Proof.
  unfold operator_value. destruct operator as [y|]; [|intros [= ->]; by left].
  destruct given as [z|]; [|intros [= ->]; by right]. destruct (bool_decide _) eqn:E; [|done].
  intros [= ->]. split_bools. right. split; [done|]. by intros ? [= <-].
Qed.

(** ** The certificate and the receipt *)
Lemma open_statement_Some {A} (load : string → result A) bytes l l' envelope payload st :
  open_statement load bytes l l' = Ok (Some (envelope, payload, st)) →
  load_DsseEnvelope bytes = Ok envelope ∧ decode_canonical_base64 envelope.(env_payload) l' None true = Ok payload ∧
  load payload = Ok st.
Proof.
  unfold open_statement. intros H.
  match type of H with match ?m with _ => _ end = _ => destruct m as [x|e] eqn:E end; [|by destruct (is_value_error e)].
  injection H as ->. apply bind_Ok in E as (env & He%parse_json_model_Ok & E). apply bind_Ok in E as (pay & Hp & E).
  apply bind_Ok in E as (s & Hs%parse_json_model_Ok & [= -> -> ->]). done.
Qed.

Lemma not_current_at_false root skew a b :
  not_current_at root skew a b = Ok false → in_force root a skew ∧ in_force root b skew.
Proof.
  unfold not_current_at. intros [H1 H2]%orR_false. apply bind_Ok in H1 as (c1 & H1 & [= E1]).
  apply bind_Ok in H2 as (c2 & H2 & [= E2]). destruct c1, c2; try done.
  split; by apply trust_root_is_current_sound.
Qed.

Lemma certificate_root_eligible policy predicate purpose approvers at_ now root :
  certificate_root_lacking policy predicate purpose
    (if is_purpose purpose ACTION_ISSUER then policy.(tp_allowed_action_issuer_principals)
     else policy.(tp_allowed_approval_principals)) approvers at_ now root = Ok false →
  eligible policy purpose predicate at_ approvers root ∧ eligible policy purpose predicate now approvers root.
Proof.
  unfold certificate_root_lacking. intros [H1%Ok_inj [Ha Hn]%not_current_at_false]%orR_false. split_bools.
  match goal with H : match approvers with _ => _ end = false |- _ => rename H into Happ end.
  match goal with H : is_purpose _ _ = true |- _ => apply bool_decide_eq_true in H end.
  match goal with H : String.eqb _ _ = true |- _ => apply String.eqb_eq in H end.
  split; (split; try done); intros l ->; by split_bools.
Qed.

(** The certificate the closure refers to is the accepted one, and the roots its
    verification names still authorise it. *)
Definition certificate_vouched (policy : TrustPolicy) (bytes : string) (x : Result)
    (ref : ActionCertificateReference) (now : datetime) (st : ActionCertificateStatement)
    (issuers approvers : list TrustRoot) : Prop :=
  let p := st.(acs_predicate) in
  refers_to ref bytes x st ∧
  p.(acp_human_principal).(pb_principal_id) ≠ p.(acp_workload_principal).(pb_principal_id) ∧
  disjoint_lists (map tr_principal_id issuers) (map tr_principal_id approvers) ∧
  ∃ envelope payload, load_DsseEnvelope bytes = Ok envelope ∧
    (∃ label, decode_canonical_base64 envelope.(env_payload) label None true = Ok payload) ∧
    ∀ at_, at_ ∈ [ref.(cr_verification_at); now] →
      authorizing policy p ACTION_ISSUER None at_ envelope payload policy.(tp_action_issuer_threshold)
        x.(avr_verified_action_issuer_roots) issuers ∧
      if p.(acp_approval).(apb_required) then
        authorizing policy p HUMAN_APPROVAL (Some p.(acp_approval).(apb_approver_principals)) at_ envelope payload
          policy.(tp_human_approval_threshold) x.(avr_verified_human_approval_roots) approvers
      else approvers = [].

(** The roots found for some ids among the signers of an envelope *)
Lemma found_roots policy envelope payload verified ids :
  NoDup (map tr_root_id policy.(tp_roots)) →
  cryptographically_verified_roots envelope payload policy.(tp_roots) = Ok verified →
  forallb (λ id, given (find_root verified id)) ids = true →
  map tr_root_id (omap (find_root verified) ids) = ids ∧
  ∀ r, r ∈ omap (find_root verified) ids → r ∈ policy.(tp_roots) ∧ signed_by envelope payload r.
Proof.
  intros Hids Hv Hf. apply omap_roots in Hf as [Hm Hr]. split; [done|]. intros r Hx.
  apply Hr in Hx as [Hx _]. by apply (verified_roots_spec _ _ _ _ Hids) in Hv as [_ Hv]; apply Hv in Hx.
Qed.

Lemma overlap_false l k : overlap l k = false → disjoint_lists l k.
Proof.
  unfold overlap. intros H x Hl Hk. apply (not_true_iff_false _) in H. apply H, existsb_exists. exists x.
  by rewrite <- list_elem_of_In, bool_decide_eq_true.
Qed.

Lemma certificate_refers bytes envelope payload l st x ref :
  load_DsseEnvelope bytes = Ok envelope → decode_canonical_base64 envelope.(env_payload) l None true = Ok payload →
  load_ActionCertificateStatement payload = Ok st → x.(avr_status) = VerificationStatus.ACCEPT →
  x.(avr_reserved) = true → certificate_mismatch bytes payload st x ref = Ok false → refers_to ref bytes x st.
Proof.
  unfold certificate_mismatch. intros He Hp Hst Hs Hres [H1%Ok_inj H2]%orR_false. apply orR_false in H2 as [H2 H3].
  apply bind_Ok in H2 as (digest & Hd & [= H2]). apply bind_Ok in H3 as (scope & Hsc & [= H3]). split_bools.
  repeat match goal with H : String.eqb _ _ = true |- _ => apply String.eqb_eq in H end. subst.
  exists envelope, payload. split; [done|]. split; [by eexists|]. split; [done|]. repeat split; congruence.
Qed.

Lemma parse_certificate_Go bytes x ref policy now p :
  NoDup (map tr_root_id policy.(tp_roots)) →
  _parse_external_action_certificate bytes x ref policy now = Ok (Go p) →
  ∃ st issuers approvers, p = st.(acs_predicate) ∧ certificate_vouched policy bytes x ref now st issuers approvers.
Proof.
  unfold _parse_external_action_certificate. cbv zeta. intros Hids H. destruct (_ || _) eqn:Es; [done|].
  apply bind_Ok in H as (opened & Ho & H). destruct opened as [[[envelope payload] st]|]; [|done].
  apply open_statement_Some in Ho as (He & Hp & Hst). apply bind_Ok in H as (other & Hm & H). destruct other; [done|].
  apply bind_Ok in H as (verified & Hv & H). destruct (_ || _) eqn:En in H; [done|].
  destruct (forallb _ _) eqn:Ef; cbn [negb] in H; [|done]. rewrite forallb_app in Ef. apply andb_true_iff in Ef as [Fi Fa].
  apply (found_roots _ _ _ _ _ Hids Hv) in Fi as [Mi Ri], Fa as [Ma Ra].
  set (issuers := omap _ (avr_verified_action_issuer_roots x)) in *.
  set (approvers := omap _ (avr_verified_human_approval_roots x)) in *.
  apply bind_Ok in H as (lacking & Hl & H). destruct lacking; [done|]. apply bind_Ok in H as (refused & Hr & H).
  destruct refused; [done|]. injection H as <-. apply orR_false in Hl as [Li La]. rewrite anyR_false in Li, La.
  unfold certificate_unauthorized in Hr. apply bind_Ok in Hr as (fi & Hfi & Hr). apply bind_Ok in Hr as (fa & Hfa & Hr).
  cbv zeta in Hr. apply Ok_inj in Hr. split_bools.
  exists st, issuers, approvers. split; [done|]. split; [by eapply certificate_refers|].
  split; [by apply String.eqb_neq|]. split; [by apply overlap_false|]. exists envelope, payload.
  split; [done|]. split; [by eexists|].
  repeat match goal with H : (_ <? _) = false |- _ => apply Z.ltb_ge in H end.
  assert (∀ r, r ∈ issuers → ∀ at_, at_ ∈ [ref.(cr_verification_at); now] →
    eligible policy ACTION_ISSUER st.(acs_predicate) at_ None r) as Hi.
  { intros r Hx at_ Hat. destruct (certificate_root_eligible _ _ _ _ _ _ _ (Li r Hx)).
    by apply elem_of_cons in Hat as [->|[->|?%not_elem_of_nil]%elem_of_cons]. }
  assert (∀ r, r ∈ approvers → ∀ at_, at_ ∈ [ref.(cr_verification_at); now] →
    eligible policy HUMAN_APPROVAL st.(acs_predicate) at_ (Some st.(acs_predicate).(acp_approval).(apb_approver_principals)) r) as Ha.
  { intros r Hx at_ Hat. destruct (certificate_root_eligible _ _ _ _ _ _ _ (La r Hx)).
    by apply elem_of_cons in Hat as [->|[->|?%not_elem_of_nil]%elem_of_cons]. }
  intros at_ Hat. split.
  - split; [done|done|auto|]. split; [done|by exists fi].
  - destruct (apb_required _) eqn:Eq.
    + cbn [andb] in *. split_bools. repeat match goal with H : (_ <? _) = false |- _ => apply Z.ltb_ge in H end.
      split; [done|done|auto|]. split; [done|by exists fa].
    + cbn [negb andb] in *. split_bools. unfold approvers. by destruct (avr_verified_human_approval_roots x).
Qed.

(** The receipt the closure refers to is the recorded one, and the observers its
    verification names still stand behind it. *)
Definition receipt_vouched (policy : TrustPolicy) (bytes : string) (x : ReceiptResult)
    (ref : ExecutionReceiptReference) (now : datetime) (st : ExecutionReceiptStatement)
    (observers : list TrustRoot) : Prop :=
  let skew := seconds policy.(tp_max_clock_skew_seconds) in
  ∃ envelope payload, load_DsseEnvelope bytes = Ok envelope ∧
    (∃ label, decode_canonical_base64 envelope.(env_payload) label None true = Ok payload) ∧
    load_ExecutionReceiptStatement payload = Ok st ∧
    ref.(rr_envelope_sha256) = sha256_bytes bytes ∧ ref.(rr_payload_sha256) = sha256_bytes payload ∧
    execution_receipt_verification_sha256 x = Ok ref.(rr_verification_result_sha256) ∧
    st.(ers_predicate).(erp_receipt_id) = ref.(rr_receipt_id) ∧ x.(erv_receipt_id) = Some ref.(rr_receipt_id) ∧
    x.(erv_status) = VerificationStatus.ACCEPT ∧ x.(erv_recorded) = true ∧
    map tr_root_id observers = x.(erv_verified_execution_observer_roots) ∧
    (∀ r, r ∈ observers → r ∈ policy.(tp_roots) ∧ signed_by envelope payload r ∧
       observer_root policy st.(ers_predicate) r = true ∧ in_force r st.(ers_predicate).(erp_issued_at) skew ∧
       in_force r now skew) ∧
    policy.(tp_execution_observer_threshold) ≤ distinct_count (map tr_principal_id observers).

Lemma receipt_root_ok policy predicate now root :
  receipt_root_lacking policy predicate now root = Ok false →
  observer_root policy predicate root = true ∧
  in_force root predicate.(erp_issued_at) (seconds policy.(tp_max_clock_skew_seconds)) ∧
  in_force root now (seconds policy.(tp_max_clock_skew_seconds)).
Proof.
  unfold receipt_root_lacking. intros [H1%Ok_inj H2%not_current_at_false]%orR_false. split; [|done].
  repeat (apply orb_false_iff in H1 as [H1 ?]). repeat match goal with H : negb _ = false |- _ => apply negb_false_iff in H end.
  unfold observer_root. by repeat match goal with H : _ = true |- _ => rewrite H; clear H end.
Qed.

Lemma parse_receipt_Go bytes x ref policy now st :
  NoDup (map tr_root_id policy.(tp_roots)) →
  _parse_external_receipt load_ExecutionReceiptStatement bytes x ref policy now = Ok (Go st) →
  ∃ observers, receipt_vouched policy bytes x ref now st observers.
Proof.
  unfold _parse_external_receipt. cbv zeta. intros Hids H. destruct (_ || _) eqn:Es; [done|].
  apply bind_Ok in H as (opened & Ho & H). destruct opened as [[[envelope payload] st']|]; [|done].
  apply open_statement_Some in Ho as (He & Hp & Hst). apply bind_Ok in H as (other & Hm & H). destruct other; [done|].
  apply bind_Ok in H as (verified & Hv & H). destruct (_ || _) eqn:En in H; [done|].
  apply orb_false_iff in En as [_ Hf%negb_false_iff]. apply (found_roots _ _ _ _ _ Hids Hv) in Hf as [Mo Ro].
  set (observers := omap _ _) in *. apply bind_Ok in H as (lacking & Hl & H). destruct lacking; [done|].
  apply bind_Ok in H as (fs & Hfs & H). destruct (_ || _) eqn:Et in H; [done|]. injection H as <-.
  rewrite anyR_false in Hl. unfold receipt_mismatch in Hm. apply orR_false in Hm as [Hm%Ok_inj Hd]. apply bind_Ok in Hd as (digest & Hd & [= Hq]).
  split_bools. repeat match goal with H : String.eqb _ _ = true |- _ => apply String.eqb_eq in H end.
  repeat match goal with H : (_ <? _) = false |- _ => apply Z.ltb_ge in H end. subst digest.
  exists observers, envelope, payload. split; [done|]. split; [by eexists|]. do 9 (split; [congruence|]).
  split; [|done]. intros r Hx. destruct (Ro r Hx). destruct (receipt_root_ok _ _ _ _ (Hl r Hx)) as (? & ? & ?). done.
Qed.
End facts.
