(* ===== verification/OutcomeObservers.v ===== *)
(** * The observers of a closure

    What the loop over the verified roots establishes: the qualified observers are
    distinct, declared and in force, and no signer that may observe is a party. *)
From S2P Require Import Prelude Json Dicts PyTime PyDecimal Sha256 Canonical Base64 Platforms Models.
From S2P Require Import Checks CertModels CertLedger Evidence Certificate CertFacts CertSound CertTotal.
From S2P Require Import ReceiptModels Receipt ReceiptFacts ReceiptSound OutcomeModels OutcomeIndex Outcome OutcomeFacts.
Local Open Scope Z_scope.

Section observers.
Context `{P : Platform} `{K : Ed25519}.
Context (policy : TrustPolicy) (predicate : OutcomeClosurePredicate)
  (party_principals party_fingerprints : list string) (now : datetime).
Notation skew := (seconds policy.(tp_max_clock_skew_seconds)).
Notation step := (observe_outcome policy predicate party_principals party_fingerprints now).

(** A signer that may observe: declared, not a party, and in force when the closure was
    issued and now *)
Record uninvolved (root : TrustRoot) : Prop := {
  un_declared : root.(tr_principal_id) ∈ predicate.(ocp_producer).(od_observer_principals);
  un_principal : root.(tr_principal_id) ∉ party_principals;
  un_key : ∃ fingerprint, trust_root_fingerprint root = Ok fingerprint ∧ fingerprint ∉ party_fingerprints;
  un_issued : in_force root predicate.(ocp_issued_at) skew;
  un_now : in_force root now skew;
}.

(** The state of the loop after it qualified the roots [l] *)
Record qualified_as (acc : OutcomeObservers) (l : list TrustRoot) : Prop := {
  qa_ids : map fst acc.(ov_qualified) = map tr_root_id l;
  qa_principals : acc.(ov_principals) = rev (map tr_principal_id l);
  qa_fingerprints : mapR trust_root_fingerprint l = Ok (rev acc.(ov_fingerprints));
  qa_distinct : NoDup acc.(ov_principals) ∧ NoDup acc.(ov_fingerprints);
  qa_roots : ∀ r, r ∈ l → outcome_observer_root policy predicate r = true;
  qa_declared : ∀ r, r ∈ l → r.(tr_principal_id) ∈ predicate.(ocp_producer).(od_observer_principals);
}.
Definition no_flags (acc : OutcomeObservers) : Prop := acc.(ov_stale) = false ∧ acc.(ov_self_observed) = false.

Lemma mapR_snoc {A B} (f : A → result B) l ys x y :
  mapR f l = Ok ys → f x = Ok y → mapR f (l ++ [x]) = Ok (ys ++ [y]).
Proof.
  revert ys; induction l as [|a l IH]; intros ys; simpl.
  - intros [= <-] ->. done.
  - intros (b & Hb & H)%bind_Ok Hx. apply bind_Ok in H as (bs & Hbs & [= <-]). rewrite Hb. cbn [mbind result_bind].
    by rewrite (IH bs Hbs Hx).
Qed.

Lemma observe_outcome_Go acc root acc' l :
  root.(tr_root_id) ∉ map tr_root_id l → qualified_as acc l → step acc root = Ok (Go acc') →
  (qualified_as acc' l ∨ qualified_as acc' (l ++ [root])) ∧
  (no_flags acc' → no_flags acc ∧ (outcome_observer_root policy predicate root = true → uninvolved root)).
Proof.
  destruct acc as [qualified principals fingerprints stale self]. unfold no_flags. intros Hfresh Hq.
  unfold observe_outcome. destruct (outcome_observer_root policy predicate root) eqn:Eo; cbn [negb];
    [|intros [= <-]; split; [by left|done]].
  destruct (bool_decide (_ ∈ od_observer_principals _)) eqn:Ed; cbn [negb]; [|done].
  assert (∀ b c, qualified_as (mk_OutcomeObservers qualified principals fingerprints b c) l) as Hsame
    by (intros b c; destruct Hq; by split).
  intros (own & Hown & H)%bind_Ok. destruct own; [injection H as <-; cbn; split; [by left|by intros [??]]|].
  apply bind_Ok in H as (old & Hold & H). destruct old; [injection H as <-; cbn; split; [by left|by intros [??]]|].
  apply orR_false in Hown as [Hp%Ok_inj Hf]. apply bind_Ok in Hf as (fp & Hfp & [= Hf]).
  apply not_current_at_false in Hold as [Hi Hn]. rewrite Hfp in H. cbn [mbind result_bind] in H. apply Ok_inj in H.
  injection H as <-. assert (uninvolved root) as Hun by (split_bools; split; [done|done|by exists fp|done|done]).
  split; [|by destruct (_ && _)]. destruct (_ && _) eqn:En; [right|by left]. split_bools.
  destruct Hq as [Q1 Q2 Q3 [Q4 Q5] Q6 Q7]. cbn [ov_qualified ov_principals ov_fingerprints] in *. split; cbn [ov_qualified ov_principals ov_fingerprints].
  - rewrite dict_set_fresh by by rewrite Q1. by rewrite !map_app, Q1.
  - rewrite map_app, rev_app_distr. cbn. by rewrite Q2.
  - cbn [rev]. by apply mapR_snoc.
  - split; by constructor.
  - intros r [Hr| ->%list_elem_of_singleton]%elem_of_app; auto.
  - intros r [Hr| ->%list_elem_of_singleton]%elem_of_app; auto.
Qed.

Lemma observe_outcomes_Go roots acc acc' l :
  NoDup (map tr_root_id (l ++ roots)) → qualified_as acc l →
  observe_outcomes policy predicate party_principals party_fingerprints now acc roots = Ok (Go acc') →
  ∃ l', qualified_as acc' l' ∧ NoDup (map tr_root_id l') ∧ (∀ r, r ∈ l' → r ∈ l ++ roots) ∧
    (no_flags acc' → no_flags acc ∧ ∀ r, r ∈ roots → outcome_observer_root policy predicate r = true → uninvolved r).
Proof.
  revert acc l. induction roots as [|root roots IH]; intros acc l Hnd Hq H; cbn [observe_outcomes] in H.
  - injection H as <-. exists l. rewrite app_nil_r in *. do 3 (split; [done|]). intros Hf.
    split; [done|by intros r ?%not_elem_of_nil].
  - apply and_then_Go in H as (acc1 & H1 & H). apply (observe_outcome_Go _ _ _ l) in H1 as [Hcase Hflags]; [|..|done].
    2: { rewrite map_app, NoDup_app in Hnd. destruct Hnd as (_ & Hd & _). intros Hx. apply (Hd _ Hx). by left. }
    assert (∃ l1, qualified_as acc1 l1 ∧ NoDup (map tr_root_id (l1 ++ roots)) ∧ ∀ r, r ∈ l1 → r ∈ l ++ [root])
      as (l1 & Hq1 & Hnd1 & Hsub).
    { destruct Hcase as [Hc|Hc].
      - exists l. split; [done|]. split; [|intros; by apply elem_of_app; left].
        rewrite map_app in *. cbn [map] in Hnd. apply NoDup_app in Hnd as (N1 & N2 & N3%NoDup_cons).
        apply NoDup_app. split; [done|]. split; [|tauto]. intros x Hx Hr. apply (N2 x Hx). by right.
      - exists (l ++ [root]). split; [done|]. by rewrite <- app_assoc. }
    destruct (IH acc1 l1 Hnd1 Hq1 H) as (l' & Hq' & Hl' & Hin & Hfl). exists l'. do 2 (split; [done|]). split.
    + intros r Hr. apply Hin, elem_of_app in Hr as [Hr|Hr].
      * apply Hsub, elem_of_app in Hr as [Hr| ->%list_elem_of_singleton]; apply elem_of_app; [by left|right; by left].
      * apply elem_of_app. right. by right.
    + intros Hf. destruct (Hfl Hf) as [Hf1 Hr]. destruct (Hflags Hf1) as [Hf0 Hroot]. split; [done|].
      intros r [->|Hx]%elem_of_cons; auto.
Qed.
End observers.
