(* ===== verification/OutcomeSound.v ===== *)
(** * What a verdict has been checked for

    [closed] is the specification of a closure that may be recorded: the accepted
    certificate and the recorded receipt it refers to, the evidence, the operator's
    expectation, the times and the observers.  A PASS or a FAIL implies it and the
    reconciled effects that make the verdict ([outcome_sound]); a recorded verdict is
    final ([outcome_is_final]). *)
From S2P Require Import Prelude Json Dicts PyTime PyDecimal Sha256 Canonical Base64 Platforms Models.
From S2P Require Import Checks CertModels CertLedger Evidence Certificate CertFacts CertSound CertTotal.
From S2P Require Import ReceiptModels Receipt ReceiptFacts ReceiptSound OutcomeModels OutcomeIndex Outcome.
From S2P Require Import OutcomeFacts OutcomeObservers.
Local Open Scope Z_scope.

Section sound.
Context `{P : Platform} `{K : Ed25519} `{C : CertificateParser}.
Context (load_ExecutionReceiptStatement : string → result ExecutionReceiptStatement).
Context (load_OutcomeClosureStatement : string → result OutcomeClosureStatement).

(** ** The specification *)

(** Enough distinct observers signed, all and only the declared ones, and no signature of
    an observer root is that of a party to the action, its receipt or its evidence. *)
Definition outcome_observed (policy : TrustPolicy) (h : Handoff) (o : OpenedOutcome)
    (action : ActionCertificatePredicate) (receipt : ExecutionReceiptStatement) (now : datetime)
    (observers : list TrustRoot) : Prop :=
  let p := oc_predicate o in
  let parties := party_roots policy h.(ho_action) h.(ho_receipt) in
  ∃ keys, mapR trust_root_fingerprint parties = Ok keys ∧ distinct_roots observers ∧
    policy.(tp_outcome_observer_threshold) ≤ Z.of_nat (length observers) ∧
    (∀ x, x ∈ map tr_principal_id observers ↔ x ∈ p.(ocp_producer).(od_observer_principals)) ∧
    (∀ r, r ∈ observers → r ∈ policy.(tp_roots) ∧ signed_by o.(oc_envelope) o.(oc_payload) r ∧
       outcome_observer_root policy p r = true) ∧
    ∀ r, r ∈ policy.(tp_roots) → signed_by o.(oc_envelope) o.(oc_payload) r → outcome_observer_root policy p r = true →
      uninvolved policy p (party_principals p (Some action) (Some receipt) ++ map tr_principal_id parties)
        (keys ++ h.(ho_expected).(xo_human_principal_key_fingerprints) ++
         h.(ho_expected).(xo_executor_workload_key_fingerprints)) now r.

(** The closure, the certificate and the receipt are about one action. *)
Record same_outcome (action : ActionCertificatePredicate) (receipt : ExecutionReceiptPredicate)
    (p : OutcomeClosurePredicate) : Prop := {
  so_tenant : action.(acp_tenant_id) = p.(ocp_tenant_id) ∧ receipt.(erp_tenant_id) = p.(ocp_tenant_id);
  so_case : action.(acp_subject).(sb_subject_id) = p.(ocp_case_id) ∧ receipt.(erp_case_id) = p.(ocp_case_id);
  so_execution : action.(acp_context).(cb_request_id) = p.(ocp_execution_id) ∧
    receipt.(erp_execution_id) = p.(ocp_execution_id);
  so_attempt : receipt.(erp_task_id) = p.(ocp_task_id) ∧ receipt.(erp_attempt).(at_attempt_id) = p.(ocp_attempt_id);
  so_certificate : receipt.(erp_certificate_ref) = p.(ocp_certificate_ref);
  so_intent : p.(ocp_certificate_ref).(cr_intent_sha256) = p.(ocp_reconciliation).(rc_intent_sha256) ∧
    receipt.(erp_effect).(eo_intent_sha256) = p.(ocp_reconciliation).(rc_intent_sha256);
  so_effect : (action.(acp_effect).(eb_effect_type), action.(acp_effect).(eb_target), action.(acp_effect).(eb_idempotency_key)) =
    (p.(ocp_reconciliation).(rc_effect_type), p.(ocp_reconciliation).(rc_target), p.(ocp_reconciliation).(rc_idempotency_key));
  so_observed : (receipt.(erp_effect).(eo_effect_type), receipt.(erp_effect).(eo_target), receipt.(erp_effect).(eo_idempotency_key)) =
    (p.(ocp_reconciliation).(rc_effect_type), p.(ocp_reconciliation).(rc_target), p.(ocp_reconciliation).(rc_idempotency_key));
}.

(** Authorised, verified, reserved, started, reported, observed and closed, in this order
    and before the certificate and the evidence expire *)
Definition in_order (action : ActionCertificatePredicate) (receipt : ExecutionReceiptPredicate)
    (p : OutcomeClosurePredicate) (now : datetime) : Prop :=
  let c := p.(ocp_certificate_ref) in
  let source := p.(ocp_evidence_source) in
  us action.(acp_not_before).(wt_at) ≤ us c.(cr_verification_at) ≤ us c.(cr_reserved_at) ∧
  us c.(cr_reserved_at) ≤ us receipt.(erp_attempt).(at_started_at) ≤ us receipt.(erp_issued_at) ∧
  us receipt.(erp_issued_at) ≤ us source.(es_observed_at) ≤ us p.(ocp_issued_at) ∧
  us p.(ocp_issued_at) ≤ us now ∧ us p.(ocp_issued_at) ≤ us source.(es_valid_until) ∧
  us p.(ocp_issued_at) < us action.(acp_expires_at).(wt_at) ≤ us action.(acp_policy).(plb_expires_at).(wt_at).

Record closed (envelope_bytes : string) (policy : TrustPolicy) (a : HandoffArguments)
    (certificate_bytes receipt_bytes : string) (now : datetime) (resolver : option EvidenceResolver)
    (h : Handoff) (o : OpenedOutcome) (st : ActionCertificateStatement) (receipt : ExecutionReceiptStatement)
    (issuers approvers witnesses observers : list TrustRoot) : Prop := {
  cl_handoff : merge_handoff (sha256_bytes envelope_bytes) a = Ok (Go h);
  cl_opens : closure_opens load_OutcomeClosureStatement envelope_bytes now o;
  cl_evidence : evidenced (oc_predicate o) resolver now;
  cl_expected : expected_outcome_binding_for o.(oc_statement) h.(ho_expected).(xo_human_principal_key_fingerprints)
    h.(ho_expected).(xo_executor_workload_key_fingerprints) = h.(ho_expected);
  cl_certificate : certificate_vouched policy certificate_bytes h.(ho_action) (oc_predicate o).(ocp_certificate_ref)
    now st issuers approvers;
  cl_receipt : receipt_vouched load_ExecutionReceiptStatement policy receipt_bytes h.(ho_receipt)
    (oc_predicate o).(ocp_receipt_ref) now receipt witnesses;
  cl_action : same_outcome st.(acs_predicate) receipt.(ers_predicate) (oc_predicate o);
  cl_order : in_order st.(acs_predicate) receipt.(ers_predicate) (oc_predicate o) now;
  cl_observed : outcome_observed policy h o st.(acs_predicate) receipt now observers;
}.

(** ** Each check establishes its part *)
Lemma check_binding_Go action receipt o roots u :
  check_binding action receipt o roots = Ok (Go u) → same_outcome action receipt (oc_predicate o).
Proof.
  unfold check_binding. destruct (binding_mismatch _ _ _) eqn:E; [intros; by apply unsafe_if_Go in H|]. intros _.
  unfold binding_mismatch in E. cbv zeta in E. split_bools.
  repeat match goal with H : String.eqb _ _ = true |- _ => apply String.eqb_eq in H end.
  by split; try (split; congruence); congruence.
Qed.

Lemma not_before_false a b : not_before_instant a b = Ok false → us a < us b.
Proof. unfold not_before_instant. intros (e & He & [= Hn])%bind_Ok. destruct e; [|done]. us_facts. lia. Qed.

Lemma check_outcome_window_Go action receipt now o roots u :
  check_outcome_window action receipt now o roots = Ok (Go u) → in_order action receipt (oc_predicate o) now.
Proof.
  unfold check_outcome_window. intros (outside & Hw & H)%bind_Ok. destruct outside; [by apply unsafe_if_Go in H|].
  unfold window_invalid in Hw. cbv zeta in Hw. apply orR_false in Hw as [Ht Hw]. apply orR_false in Hw as [H1 Hw].
  apply orR_false in Hw as [H2 Hw]. apply orR_false in Hw as [H3%not_before_false Hw].
  apply orR_false in Hw as [H4%not_before_false Hw]. apply orR_false in Hw as [H5 Hw].
  apply orR_false in Hw as [H6 H7%not_before_false]. unfold ordered_times in Ht. cbn [tail zip anyR] in Ht.
  repeat (apply orR_false in Ht as [? Ht]). cbn [fst snd] in *. us_facts. unfold in_order. cbv zeta. lia.
Qed.

Lemma qualifying_outcome_spec envelope payload st policy action receipt action_result receipt_result expected now ids :
  NoDup (map tr_root_id policy.(tp_roots)) →
  _qualifying_outcome_observers envelope payload st policy action receipt action_result receipt_result expected now =
    Ok (ids, None) →
  let p := st.(ocs_predicate) in
  let parties := party_roots policy action_result receipt_result in
  ∃ keys observers, mapR trust_root_fingerprint parties = Ok keys ∧ distinct_roots observers ∧
    ids = isort String.leb (map tr_root_id observers) ∧
    policy.(tp_outcome_observer_threshold) ≤ Z.of_nat (length observers) ∧
    (∀ x, x ∈ map tr_principal_id observers ↔ x ∈ p.(ocp_producer).(od_observer_principals)) ∧
    (∀ r, r ∈ observers → r ∈ policy.(tp_roots) ∧ signed_by envelope payload r ∧ outcome_observer_root policy p r = true) ∧
    ∀ r, r ∈ policy.(tp_roots) → signed_by envelope payload r → outcome_observer_root policy p r = true →
      uninvolved policy p (party_principals p action receipt ++ map tr_principal_id parties)
        (keys ++ expected.(xo_human_principal_key_fingerprints) ++ expected.(xo_executor_workload_key_fingerprints)) now r.
Proof.
  unfold _qualifying_outcome_observers. cbv zeta. intros Hids (roots & Hr & H)%bind_Ok.
  apply bind_Ok in H as (keys & Hk & H). apply bind_Ok in H as (found & Hf & H). destruct found as [reason|acc]; [done|].
  apply (verified_roots_spec _ _ _ _ Hids) in Hr as [Hnd Hr].
  destruct (ov_self_observed acc) eqn:Es; [done|]. destruct (ov_stale acc) eqn:Ea; [done|].
  destruct (same_set _ _) eqn:Ed; cbn [negb] in H; [|done].
  destruct (Z.ltb_spec (Z.of_nat (length (ov_qualified acc))) policy.(tp_outcome_observer_threshold)); [done|].
  injection H as <-. apply (observe_outcomes_Go _ _ _ _ _ _ _ _ []) in Hf as (l & [Q1 Q2 Q3 [Q4 Q5] Q6 _] & _ & Hin & Hfl).
  - exists keys, l. destruct Hfl as [_ Hall]; [done|]. split; [done|]. split.
    { rewrite Q2, <- Permutation_rev in Q4. split; [done|]. exists (rev (ov_fingerprints acc)). split; [done|]. by rewrite <- Permutation_rev. }
    split; [by rewrite Q1|]. split; [by rewrite <- (length_map tr_root_id l), <- Q1, length_map|].
    split; [|split].
    + intros x. rewrite <- (same_set_spec _ _ Ed x), Q2, !list_elem_of_In, <- in_rev. done.
    + intros r Hx. specialize (Hin r Hx). cbn [app] in Hin. apply Hr in Hin as [? ?]. auto.
    + intros r Hx Hs Ho. apply Hall; [|done]. by apply Hr.
  - done.
  - split; [done..|split; apply NoDup_nil_2|by intros r ?%not_elem_of_nil|by intros r ?%not_elem_of_nil].
Qed.

Lemma check_outcome_observers_Go policy h now o action receipt roots :
  NoDup (map tr_root_id policy.(tp_roots)) →
  check_outcome_observers policy h now o (Some action) (Some receipt) = Ok (Go roots) →
  ∃ observers, roots = isort String.leb (map tr_root_id observers) ∧
    outcome_observed policy h o action receipt now observers.
Proof.
  unfold check_outcome_observers. intros Hids ([ids reason] & Hq & H)%bind_Ok.
  destruct reason; [by apply unknown_Go in H|]. injection H as <-.
  apply (qualifying_outcome_spec _ _ _ _ _ _ _ _ _ _ _ Hids) in Hq as (keys & l & ? & ? & ? & ? & ? & ? & ?).
  exists l. split; [done|]. by exists keys.
Qed.

Lemma vet_outcome_Go envelope_bytes policy a certificate_bytes receipt_bytes now resolver o roots :
  NoDup (map tr_root_id policy.(tp_roots)) →
  vet_outcome load_ExecutionReceiptStatement load_OutcomeClosureStatement envelope_bytes policy a certificate_bytes
    receipt_bytes now resolver = Ok (Go (o, roots)) →
  ∃ h st receipt issuers approvers witnesses observers, roots = isort String.leb (map tr_root_id observers) ∧
    closed envelope_bytes policy a certificate_bytes receipt_bytes now resolver h o st receipt issuers approvers
      witnesses observers.
Proof.
  unfold vet_outcome. intros Hids H. apply and_then_Go in H as (h & Hh & H). apply and_then_Go in H as (o' & Ho & H).
  apply and_then_Go in H as (roots0 & _ & H). apply and_then_Go in H as (u1 & He & H).
  apply and_then_Go in H as (u2 & Hx & H). apply and_then_Go in H as (action & Ha & H).
  apply and_then_Go in H as (receipt & Hr & H). apply and_then_Go in H as (roots1 & Hq & H).
  apply and_then_Go in H as (u3 & Hb & H). apply and_then_Go in H as (u4 & Hw & [= -> ->]).
  apply check_handoff_Go in Ha, Hr. apply (parse_certificate_Go _ _ _ _ _ _ Hids) in Ha as (st & i & ap & -> & Ha).
  apply (parse_receipt_Go _ _ _ _ _ _ _ Hids) in Hr as (w & Hr).
  apply (check_outcome_observers_Go _ _ _ _ _ _ _ Hids) in Hq as (l & -> & Hq).
  exists h, st, receipt, i, ap, w, l. split; [done|]. split; try done.
  - by eapply open_outcome_Go.
  - by eapply check_evidence_Go.
  - by eapply check_expected_outcome_Go.
  - by eapply check_binding_Go.
  - by eapply check_outcome_window_Go.
Qed.

(** ** Results *)
Notation verify := (verify_outcome_closure load_ExecutionReceiptStatement load_OutcomeClosureStatement).
Notation vet := (vet_outcome load_ExecutionReceiptStatement load_OutcomeClosureStatement).

(** The result of an opened closure *)
Definition closure_report (o : OpenedOutcome) (status : OutcomeVerdict) (reason : OutcomeReason)
    (observer_roots : list string) (recorded : bool) : OutcomeResult :=
  let p := oc_predicate o in
  let r := p.(ocp_reconciliation) in
  mk_OutcomeResult status [reason] (Some p.(ocp_closure_id)) (Some (sha256_bytes o.(oc_payload))) o.(oc_envelope_sha256)
    (isort String.leb observer_roots) recorded (Some p.(ocp_attempt_id)) (Some p.(ocp_closure_sequence))
    p.(ocp_previous_payload_sha256) (Some r.(rc_expected_effect_count)) (Some (success_count r.(rc_attempts)))
    (Some (Z.of_nat (length r.(rc_unresolved)))).

Lemma OutcomeResult_validate_Ok x y : OutcomeResult_validate x = Ok y → y = x.
Proof. unfold OutcomeResult_validate. intros H. do 4 apply bind_Ok in H as (? & _ & H). by injection H. Qed.
Lemma closure_result_Ok o status reason roots recorded r :
  closure_result o status reason roots recorded = Ok r → r = closure_report o status reason roots recorded ∧
    OutcomeResult_validate r = Ok r ∧ 1 ≤ (oc_predicate o).(ocp_reconciliation).(rc_expected_effect_count).
Proof.
  unfold closure_result, _outcome_result. cbv zeta. intros H. pose proof H as Hy%OutcomeResult_validate_Ok.
  split; [exact Hy|]. split; [by rewrite <- Hy in H|]. unfold OutcomeResult_validate in H. apply bind_Ok in H as (? & Hc%require_Ok & _).
  cbn [ocv_expected_effect_count option_map opt_all ocv_observed_success_count ocv_unresolved_effect_count] in Hc.
  apply andb_true_iff in Hc as [Hc _]. apply andb_true_iff in Hc as [Hc _]. apply andb_true_iff in Hc as [_ Hc].
  unfold within in Hc. apply andb_true_iff in Hc. lia.
Qed.

(** A valid result that records nothing *)
Definition outcome_refusal (r : OutcomeResult) : Prop :=
  OutcomeResult_validate r = Ok r ∧ r.(ocv_recorded) = false ∧ (r.(ocv_status) = OutcomeVerdict.UNKNOWN ∨
    r.(ocv_status) = OutcomeVerdict.UNSAFE_SUCCESS ∧ ∃ n, r.(ocv_observed_success_count) = Some n ∧ 0 < n).

Lemma stops_unopened {A} reason e p : stops (A := A) outcome_refusal (unopened reason e p).
Proof.
  intros r. unfold unopened, _outcome_result. intros (x & Hx & [= <-])%bind_Ok.
  pose proof Hx as Hy%OutcomeResult_validate_Ok. rewrite <- Hy in Hx. split; [done|]. subst x. split; [done|by left].
Qed.
Lemma stops_unknown {A} o reason roots : stops (A := A) outcome_refusal (_unknown o reason roots).
Proof. intros r. unfold _unknown. intros (x & (-> & ? & _)%closure_result_Ok & [= <-])%bind_Ok. split; [done|]. split; [done|by left]. Qed.
Lemma stops_unsafe {A} o reason roots :
  (1 ≤ (oc_predicate o).(ocp_reconciliation).(rc_expected_effect_count) → 0 < success_count (oc_attempts o)) →
  stops (A := A) outcome_refusal (_unsafe o reason roots).
Proof.
  intros Hs r. unfold _unsafe. intros (x & (-> & ? & Hc)%closure_result_Ok & [= <-])%bind_Ok. split; [done|]. split; [done|]. right.
  split; [done|]. eexists. split; [done|]. by apply Hs.
Qed.
Lemma stops_unsafe_if {A} b o unsafe_reason reason roots :
  (b = true → 0 < success_count (oc_attempts o)) → stops (A := A) outcome_refusal (unsafe_if b o unsafe_reason reason roots).
Proof. intros Hb. destruct b; [apply stops_unsafe; auto|apply stops_unknown]. Qed.
#[local] Hint Resolve stops_unopened stops_unknown : stops.
#[local] Hint Extern 1 (stops outcome_refusal (unsafe_if _ _ _ _ _)) => apply stops_unsafe_if; intros Hsuccess;
  by apply any_success_count : stops.

Lemma check_handoff_stops {A} (m : result (checked OutcomeReason A)) unaccepted unsafe_reason o roots :
  stops outcome_refusal (check_handoff m unaccepted unsafe_reason o roots).
Proof.
  unfold check_handoff. apply stops_bind. intros [reason|x]; [|auto with stops]. apply stops_unsafe_if.
  intros [_ H]%andb_true_iff. by apply any_success_count.
Qed.
#[local] Hint Resolve check_handoff_stops : stops.

Lemma vet_outcome_stops envelope_bytes policy a certificate_bytes receipt_bytes now resolver :
  stops outcome_refusal (vet envelope_bytes policy a certificate_bytes receipt_bytes now resolver).
Proof.
  assert (∀ h o action receipt, stops outcome_refusal (check_outcome_observers policy h now o action receipt)) as Hobs.
  { intros. unfold check_outcome_observers. apply stops_bind. intros [ids reason]. destruct reason; auto with stops. }
  unfold vet_outcome. apply stops_then; [unfold merge_handoff; cbv zeta; by_guards|]. intros h.
  apply stops_then; [unfold open_outcome; cbv zeta; by_guards|]. intros o.
  apply stops_then; [apply Hobs|]. intros roots.
  apply stops_then; [unfold check_outcome_evidence; by_guards|]. intros _.
  apply stops_then; [unfold check_expected_outcome; destruct (bool_decide _); cbn [negb]; auto with stops|]. intros _.
  apply stops_then; [auto with stops|]. intros action. apply stops_then; [auto with stops|]. intros receipt.
  apply stops_then; [apply Hobs|]. intros roots'.
  apply stops_then; [unfold check_binding; destruct (binding_mismatch _ _ _); auto with stops|]. intros _.
  apply stops_then; [|auto with stops]. unfold check_outcome_window. apply stops_bind. intros [].
  - apply stops_unsafe_if. by intros ?%Z.ltb_lt.
  - auto with stops.
Qed.

Lemma derive_verdict_stops o roots : stops outcome_refusal (derive_verdict o roots).
Proof.
  unfold derive_verdict. cbv zeta. destruct (Z.ltb_spec (rc_expected_effect_count (ocp_reconciliation (oc_predicate o)))
    (success_count (rc_attempts (ocp_reconciliation (oc_predicate o))))).
  { apply stops_unsafe. unfold oc_attempts. lia. }
  repeat match goal with |- stops _ (if ?b then _ else _) => destruct b end; auto with stops;
    apply stops_unsafe_if; unfold oc_attempts; by intros ?%Z.ltb_lt.
Qed.

(** ** The verifier *)
Section index.
Context `{HI : OutcomeClosureIndex T}.

(** The closure was appended with this verdict, or it was there already. *)
Definition records_outcome (s : T) (o : OpenedOutcome) (verdict : OutcomeVerdict) (observers : list TrustRoot)
    (s' : T) (r : OutcomeResult) : Prop :=
  OutcomeResult_validate r = Ok r ∧ 1 ≤ (oc_predicate o).(ocp_reconciliation).(rc_expected_effect_count) ∧
  ∃ status reason, append_closure s (outcome_entry o) = (s', Ok status) ∧
    r = closure_report o verdict reason (isort String.leb (map tr_root_id observers)) true ∧
    (status = OutcomeIndexStatus.APPENDED ∧ reason ∈ [OutcomeReason.PASS_VERIFIED; OutcomeReason.FAIL_VERIFIED] ∨
     status = OutcomeIndexStatus.ALREADY_PRESENT ∧
     reason ∈ [OutcomeReason.PASS_ALREADY_PRESENT; OutcomeReason.FAIL_ALREADY_PRESENT]).

Lemma index_result_Ok o roots verdict status r :
  index_result o roots verdict status = Ok r →
  OutcomeResult_validate r = Ok r ∧
  ((appended_or_present status ∧ 1 ≤ (oc_predicate o).(ocp_reconciliation).(rc_expected_effect_count) ∧ ∃ reason, r = closure_report o verdict reason roots true ∧
     (status = OutcomeIndexStatus.APPENDED ∧ reason ∈ [OutcomeReason.PASS_VERIFIED; OutcomeReason.FAIL_VERIFIED] ∨
      status = OutcomeIndexStatus.ALREADY_PRESENT ∧
      reason ∈ [OutcomeReason.PASS_ALREADY_PRESENT; OutcomeReason.FAIL_ALREADY_PRESENT])) ∨
  (r.(ocv_recorded) = false ∧ r.(ocv_status) = OutcomeVerdict.UNKNOWN)).
Proof.
  unfold index_result, appended_or_present. cbv zeta.
  destruct status; intros (-> & ? & ?)%closure_result_Ok; (split; [done|]); try (by right); left.
  - split; [by left|]. split; [done|]. eexists. split; [done|]. left. split; [done|]. destruct (bool_decide _); set_solver.
  - split; [by right|]. split; [done|]. eexists. split; [done|]. right. split; [done|]. destruct (bool_decide _); set_solver.
Qed.

Lemma verify_outcome_cases envelope_bytes policy a certificate_bytes receipt_bytes s now resolver s' r :
  TrustPolicy_validate policy = Ok policy →
  verify envelope_bytes policy a certificate_bytes receipt_bytes s now resolver = (s', Ok r) →
  (outcome_refusal r ∧ (r.(ocv_status) = OutcomeVerdict.UNSAFE_SUCCESS → s' = s)) ∨
  ∃ h o st receipt issuers approvers witnesses observers verdict,
    closed envelope_bytes policy a certificate_bytes receipt_bytes now resolver h o st receipt issuers approvers
      witnesses observers ∧
    verdict_of (oc_predicate o).(ocp_reconciliation) verdict ∧ records_outcome s o verdict observers s' r.
Proof.
  unfold verify_outcome_closure, assess_outcome. intros Hp%policy_root_ids H.
  pose proof (vet_outcome_stops envelope_bytes policy a certificate_bytes receipt_bytes now resolver) as Hstop.
  destruct (vet envelope_bytes policy a certificate_bytes receipt_bytes now resolver) as [[x|[o roots]]|e] eqn:Hv;
    cbn [and_then mbind result_bind] in H; [|unfold and_then in H; cbn [mbind result_bind] in H|done].
  { injection H as <- <-. left. split; [by apply Hstop|done]. }
  pose proof (derive_verdict_stops o roots) as Hds.
  destruct (derive_verdict o roots) as [[x|verdict]|e] eqn:Hd; cbn [mbind result_bind] in H; [|..|done].
  { injection H as <- <-. left. split; [by apply Hds|done]. }
  destruct (append_closure s (outcome_entry o)) as [s1 r1] eqn:Hap. injection H as <- Hr.
  apply (vet_outcome_Go _ _ _ _ _ _ _ _ _ Hp) in Hv as (h & st & receipt & i & ap & w & l & -> & Hcl).
  apply derive_verdict_Go in Hd. apply index_result_Ok in Hr as (Hval & [(Hs & Hc & reason & Hreport & Hreason)|Hr]).
  - right. exists h, o, st, receipt, i, ap, w, l, verdict. split; [done|]. split; [done|].
    do 2 (split; [done|]).
    destruct r1 as [status|e]; [|by destruct Hs]. exists status, reason. done.
  - left. destruct Hr as [Hn Hu]. split; [do 2 (split; [done|]); by left|congruence].
Qed.

(** C4. What a verdict is worth.  A PASS was recorded for a closure that satisfies the whole
    specification and reports exactly the expected number of effects, all of them
    committed and none unresolved; a FAIL likewise, with every expected effect attempted
    and none applied.  UNSAFE_SUCCESS is returned only for a closure that reports a
    success, and it and UNKNOWN record nothing. *)
Theorem outcome_sound (envelope_bytes : string) (policy : TrustPolicy) (a : HandoffArguments)
    (certificate_bytes receipt_bytes : string) (s s' : T) (now : datetime) (resolver : option EvidenceResolver)
    (r : OutcomeResult) :
  TrustPolicy_validate policy = Ok policy →
  verify envelope_bytes policy a certificate_bytes receipt_bytes s now resolver = (s', Ok r) →
  match r.(ocv_status) with
  | OutcomeVerdict.UNKNOWN => r.(ocv_recorded) = false
  | OutcomeVerdict.UNSAFE_SUCCESS => s' = s ∧ r.(ocv_recorded) = false ∧
      ∃ n, r.(ocv_observed_success_count) = Some n ∧ 0 < n
  | verdict => ∃ h o st receipt issuers approvers witnesses observers,
      closed envelope_bytes policy a certificate_bytes receipt_bytes now resolver h o st receipt issuers approvers
        witnesses observers ∧
      (if bool_decide (verdict = OutcomeVerdict.PASS) then all_committed (oc_predicate o).(ocp_reconciliation)
       else none_applied (oc_predicate o).(ocp_reconciliation)) ∧
      records_outcome s o verdict observers s' r
  end.
Proof.
  intros Hp H. destruct (verify_outcome_cases _ _ _ _ _ _ _ _ _ _ Hp H) as
    [[(_ & Hrec & Hst) Hs]|(h & o & st & receipt & i & ap & w & l & verdict & Hcl & Hv & Hr)].
  - destruct Hst as [->|[Hst Hn]]; [done|]. rewrite Hst. split; [auto|done].
  - pose proof Hr as (_ & _ & status & reason & _ & -> & _). cbn [ocv_status closure_report].
    destruct Hv as [[-> Hv]|[-> Hv]]; exists h, o, st, receipt, i, ap, w, l; done.
Qed.

Lemma recorded_opens envelope_bytes policy a certificate_bytes receipt_bytes s now resolver s' r :
  TrustPolicy_validate policy = Ok policy →
  verify envelope_bytes policy a certificate_bytes receipt_bytes s now resolver = (s', Ok r) →
  r.(ocv_recorded) = true →
  ∃ o verdict observers, closure_opens load_OutcomeClosureStatement envelope_bytes now o ∧
    verdict_of (oc_predicate o).(ocp_reconciliation) verdict ∧ records_outcome s o verdict observers s' r.
Proof.
  intros Hp H Hr. destruct (verify_outcome_cases _ _ _ _ _ _ _ _ _ _ Hp H) as
    [[(_ & Hn & _) _]|(h & o & st & receipt & i & ap & w & l & verdict & Hcl & Hv & Hrec)]; [congruence|].
  exists o, verdict, l. split; [exact (cl_opens _ _ _ _ _ _ _ _ _ _ _ _ _ _ _ Hcl)|done].
Qed.

Lemma verdict_of_unique r v v' : 1 ≤ r.(rc_expected_effect_count) → verdict_of r v → verdict_of r v' → v = v'.
Proof.
  intros Hc. assert (¬ (all_committed r ∧ none_applied r)) as Hno.
  { intros [(_ & Hl & H1) (_ & _ & H2)]. destruct (rc_attempts r) as [|x l]; [cbn in Hl; lia|].
    destruct (H1 x), (H2 x); try congruence; by left. }
  unfold verdict_of. intros [[-> H]|[-> H]] [[-> H']|[-> H']]; try done; by destruct Hno.
Qed.

(** C15. A recorded outcome is final: once a closure was newly recorded, and whatever is
    appended in between, a later verdict recorded for the same attempt and sequence
    number, or under the same closure id, is a repetition: it is for a payload with the
    same digest, it is reported as already present, and the verdict is the same as long
    as the two payloads are. *)
Theorem outcome_is_final `{!OutcomeIndexLaws T} (bytes1 bytes2 certificate1 certificate2 receipt1 receipt2 : string)
    (policy1 policy2 : TrustPolicy) (a1 a2 : HandoffArguments) (resolver1 resolver2 : option EvidenceResolver)
    (now1 now2 : datetime) (s s1 s2 s3 : T) (r1 r2 : OutcomeResult) :
  TrustPolicy_validate policy1 = Ok policy1 → TrustPolicy_validate policy2 = Ok policy2 →
  verify bytes1 policy1 a1 certificate1 receipt1 s now1 resolver1 = (s1, Ok r1) →
  rtc closure_step s1 s2 →
  verify bytes2 policy2 a2 certificate2 receipt2 s2 now2 resolver2 = (s3, Ok r2) →
  r1.(ocv_reason_codes) ∈ [[OutcomeReason.PASS_VERIFIED]; [OutcomeReason.FAIL_VERIFIED]] →
  r1.(ocv_recorded) = true → r2.(ocv_recorded) = true →
  ∃ o1 o2, closure_opens load_OutcomeClosureStatement bytes1 now1 o1 ∧
    closure_opens load_OutcomeClosureStatement bytes2 now2 o2 ∧
    (execution_key (outcome_entry o1) = execution_key (outcome_entry o2) ∨
     closure_key (outcome_entry o1) = closure_key (outcome_entry o2) →
     sha256_bytes o1.(oc_payload) = sha256_bytes o2.(oc_payload) ∧
     r2.(ocv_reason_codes) ∈ [[OutcomeReason.PASS_ALREADY_PRESENT]; [OutcomeReason.FAIL_ALREADY_PRESENT]] ∧
     (o1.(oc_payload) = o2.(oc_payload) → r1.(ocv_status) = r2.(ocv_status))).
Proof.
  intros Hp1 Hp2 H1 Hsteps H2 Hnew Hrec1 Hrec2.
  destruct (recorded_opens _ _ _ _ _ _ _ _ _ _ Hp1 H1 Hrec1) as (o1 & v1 & l1 & Ho1 & Hv1 & _ & Hc1 & st1 & re1 & E1 & -> & X1).
  destruct (recorded_opens _ _ _ _ _ _ _ _ _ _ Hp2 H2 Hrec2) as (o2 & v2 & l2 & Ho2 & Hv2 & _ & _ & st2 & re2 & E2 & -> & X2).
  exists o1, o2. split; [done|]. split; [done|]. intros Hsame. cbn [ocv_reason_codes ocv_status closure_report] in *.
  destruct X1 as [[-> _]|[_ X1]]; [|set_solver]. apply closure_appended in E1 as (_ & _ & C1 & D1).
  destruct (closure_steps_keep _ _ Hsteps) as [K1 K2]. apply K1 in C1. apply K2 in D1.
  destruct X2 as [[-> _]|[-> X2]].
  - apply closure_appended in E2 as (C2 & D2 & _). exfalso. destruct Hsame as [Hk|Hk]; rewrite Hk in *; congruence.
  - apply closure_present in E2 as (C2 & D2). split; [|split].
    + destruct Hsame as [Hk|Hk]; rewrite Hk in *; [exact (D2 _ D1)|exact (C2 _ C1)].
    + set_solver.
    + intros Hpay. destruct Ho1 as (_ & _ & _ & _ & _ & L1 & _), Ho2 as (_ & _ & _ & _ & _ & L2 & _).
      rewrite Hpay, L2 in L1. apply Ok_inj in L1. unfold oc_predicate in *. rewrite L1 in Hv2.
      by eapply verdict_of_unique.
Qed.

(** C18. A closure that reports a partial success makes the verifier raise: when everything
    else about it is acceptable, all expected effects are accounted for and some but not
    all of them succeeded, the reason the verifier gives is not one its own result type
    allows for UNSAFE_SUCCESS, so it returns no verdict at all and records nothing. *)
Theorem partial_success_raises (envelope_bytes : string) (policy : TrustPolicy) (a : HandoffArguments)
    (certificate_bytes receipt_bytes : string) (s : T) (now : datetime) (resolver : option EvidenceResolver)
    (o : OpenedOutcome) (roots : list string) :
  vet envelope_bytes policy a certificate_bytes receipt_bytes now resolver = Ok (Go (o, roots)) →
  partly_applied (oc_predicate o).(ocp_reconciliation) →
  ∃ e, verify envelope_bytes policy a certificate_bytes receipt_bytes s now resolver = (s, Raise e) ∧
    is_value_error e = true.
Proof.
  intros Hv (Hu & Hl & Hs). unfold verify_outcome_closure, assess_outcome, and_then. rewrite Hv. cbn [mbind result_bind].
  assert (∃ e, derive_verdict o roots = Raise e ∧ is_value_error e = true) as (e & -> & He); [|by exists e].
  unfold derive_verdict. cbv zeta. set (r := ocp_reconciliation _) in *.
  rewrite (proj2 (Z.ltb_ge _ _)) by lia. rewrite Hu. cbn [nonempty length]. rewrite Nat.add_0_r, (proj2 (Z.eqb_eq _ _) Hl).
  cbn [negb]. rewrite (proj2 (Z.eqb_neq _ _)) by lia. rewrite (proj2 (Z.eqb_neq _ _)) by lia. cbn [andb].
  rewrite (proj2 (Z.ltb_lt _ _)) by lia. unfold unsafe_if, _unsafe, closure_result, _outcome_result, OutcomeResult_validate.
  cbv zeta. cbn [ocv_status ocv_recorded ocv_reason_codes].
  destruct (require _ (value_error _)) as [?|e] eqn:E1;
    [|exists e; split; [done|]; by apply require_Raise in E1 as [_ ->]].
  destruct (require (unique _) _) as [?|e] eqn:E2; [|exists e; split; [done|]; by apply require_Raise in E2 as [_ ->]].
  destruct (require (unique _) (ValueError "verified outcome observer roots must be unique")) as [?|e] eqn:E3;
    [|exists e; split; [done|]; by apply require_Raise in E3 as [_ ->]].
  eexists. split; [reflexivity|done].
Qed.
End index.
End sound.
