(* ===== verification/OutcomeChain.v ===== *)
(** * From an authorized certificate to a verified outcome

    The outcome verifier trusts the two verification results it is handed.  When they are
    the results of the certificate verifier and of the receipt verifier on the same bytes,
    a PASS speaks about an authorized action, executed as its receipt says. *)
From S2P Require Import Prelude Json Dicts PyTime PyDecimal Sha256 Canonical Base64 Platforms Models.
From S2P Require Import Checks CertModels CertLedger Evidence Certificate CertFacts CertSound CertTotal.
From S2P Require Import ReceiptModels Receipt ReceiptFacts ReceiptSound ReceiptChain.
From S2P Require Import OutcomeModels OutcomeIndex Outcome OutcomeFacts OutcomeObservers OutcomeSound.
Local Open Scope Z_scope.

Section chain.
Context `{P : Platform} `{K : Ed25519} `{C : CertificateParser}.
Context (load_ExecutionReceiptStatement : string → result ExecutionReceiptStatement).
Context (load_OutcomeClosureStatement : string → result OutcomeClosureStatement).

Lemma operator_value_operator {A} `{EqDecision A} given (x : A) y :
  operator_value given (Some x) = Some y → y = Some x.
Proof.
  unfold operator_value. destruct given as [z|]; [|by intros [= <-]]. destruct (bool_decide _); [|done].
  by intros [= <-].
Qed.
Lemma merge_handoff_operator e a h v0 v1 :
  merge_handoff e a = Ok (Go h) → a.(ha_operator_action_certificate_verification) = Some v0 →
  a.(ha_operator_execution_receipt_verification) = Some v1 → h.(ho_action) = v0 ∧ h.(ho_receipt) = v1.
Proof.
  unfold merge_handoff. cbv zeta. intros H O0 O1. rewrite O0, O1 in H. destruct (operator_value _ _) as [x|]; [|by apply unopened_Go in H].
  destruct (operator_value _ (Some v0)) as [y|] eqn:E0; [|by apply unopened_Go in H].
  destruct (operator_value _ (Some v1)) as [z|] eqn:E1; [|by apply unopened_Go in H].
  apply operator_value_operator in E0 as ->, E1 as ->.
  destruct x; [by injection H as <-|by apply unopened_Go in H].
Qed.

(** The closure and the receipt verifier read one receipt. *)
Lemma one_receipt bytes policy policy' o x ref now st w :
  receipt_opens load_ExecutionReceiptStatement bytes policy o →
  receipt_vouched load_ExecutionReceiptStatement policy' bytes x ref now st w → st = o.(or_statement).
Proof.
  intros (envelope & payload & _ & He & (l & Hp) & _ & Hs & _) (envelope' & payload' & He' & (l' & Hp') & Hs' & _).
  rewrite He' in He. injection He as ->. rewrite (decode_same _ _ _ _ _ _ _ _ Hp' Hp) in Hs'. congruence.
Qed.

(** An observer of the outcome is no party to the action, its authorisation or its receipt. *)
Definition independent_observers (policy : TrustPolicy) (action : ActionCertificatePredicate)
    (receipt : ExecutionReceiptPredicate) (verification0 : Result) (verification1 : ReceiptResult)
    (observers : list TrustRoot) : Prop :=
  ∀ r, r ∈ observers → r.(tr_principal_id) ∉
    [action.(acp_human_principal).(pb_principal_id); action.(acp_workload_principal).(pb_principal_id)] ++
    receipt.(erp_producer).(pd_observer_principals) ++
    map tr_principal_id (party_roots policy verification0 verification1).

(** C5. The whole chain: when the certificate verifier and the receipt verifier produced the
    results that the operator hands to the outcome verifier, from the same bytes, a PASS
    means that the action was authorized and reserved once, that the receipt of its
    execution was attested and recorded, that the closure is about that action, that
    execution and that receipt, that exactly the expected effects were committed, all
    within the certificate's validity, and that nobody who took part observed the
    outcome. *)
Theorem outcome_of_authorized_action {T T' T''} `{ReplayLedger T} `{ReceiptIndex T'} `{OutcomeClosureIndex T''}
    (certificate_bytes receipt_bytes outcome_bytes : string) (policy0 policy1 policy : TrustPolicy)
    (expected0 : ExpectedBinding) (expected1 : ExpectedExecutionBinding) (a : HandoffArguments)
    (resolver0 : option Resolver) (resolver : option EvidenceResolver) (now0 now1 now : datetime)
    (s s' : T) (t t' : T') (u u' : T'') (verification0 : Result) (verification1 : ReceiptResult) (r : OutcomeResult) :
  TrustPolicy_validate policy0 = Ok policy0 → TrustPolicy_validate policy1 = Ok policy1 →
  TrustPolicy_validate policy = Ok policy →
  verify_action_certificate certificate_bytes policy0 expected0 s resolver0 now0 = (s', Ok verification0) →
  verify_execution_receipt load_ExecutionReceiptStatement receipt_bytes policy1 expected1 certificate_bytes
    verification0 t now1 = (t', Ok verification1) →
  a.(ha_operator_action_certificate_verification) = Some verification0 →
  a.(ha_operator_execution_receipt_verification) = Some verification1 →
  verify_outcome_closure load_ExecutionReceiptStatement load_OutcomeClosureStatement outcome_bytes policy a
    certificate_bytes receipt_bytes u now resolver = (u', Ok r) →
  r.(ocv_status) = OutcomeVerdict.PASS →
  ∃ c issuers0 approvers0 o1 issuers1 approvers1 witnesses1 h o issuers approvers witnesses observers,
    let action := c.(op_statement).(acs_predicate) in
    authorized certificate_bytes policy0 expected0 resolver0 now0 c issuers0 approvers0 ∧
    reserves s c.(op_statement) s' ∧
    attested load_ExecutionReceiptStatement receipt_bytes policy1 expected1 certificate_bytes verification0 now1 o1
      c.(op_statement) issuers1 approvers1 witnesses1 ∧
    records t o1 t' verification1 ∧
    closed load_ExecutionReceiptStatement load_OutcomeClosureStatement outcome_bytes policy a certificate_bytes
      receipt_bytes now resolver h o c.(op_statement) o1.(or_statement) issuers approvers witnesses observers ∧
    all_committed (oc_predicate o).(ocp_reconciliation) ∧ records_outcome u o OutcomeVerdict.PASS observers u' r ∧
    independent_observers policy action o1.(or_statement).(ers_predicate) verification0 verification1 observers.
Proof.
  intros Hp0 Hp1 Hp Hc Hr Ha0 Ha1 Ho Hpass.
  destruct (verify_outcome_cases _ _ _ _ _ _ _ _ _ _ _ _ Hp Ho) as
    [[(_ & _ & [Hn|[Hn _]]) _]|(h & o & st & receipt & i & ap & w & l & verdict & Hcl & Hv & Hrec)]; [congruence..|].
  pose proof Hcl as [Hh _ _ _ (Href & _) Hrv _ _ (keys & _ & _ & _ & _ & Hl & Hun)].
  destruct (merge_handoff_operator _ _ _ _ _ Hh Ha0 Ha1) as [E0 E1]. rewrite E0 in Href. rewrite E1 in Hrv.
  assert (verification0.(avr_status) = VerificationStatus.ACCEPT) as Hst
    by (by destruct Href as (? & ? & _ & _ & _ & _ & _ & _ & _ & _ & _ & Hst & _)).
  destruct (verify_accept _ _ _ _ _ _ _ _ Hp0 Hc Hst) as (c & i0 & a0 & Hauth & Hres & _).
  pose proof (one_statement _ _ _ _ _ _ (au_opens _ _ _ _ _ _ _ _ Hauth) Href) as ->.
  pose proof Hrv as (_ & _ & _ & _ & _ & _ & _ & _ & _ & _ & Hacc & _).
  destruct (verify_receipt_cases _ _ _ _ _ _ _ _ _ _ Hp1 Hr) as [[? _]|(o1 & st1 & i1 & a1 & w1 & Hat & Hrec1 & _)]; [done|].
  pose proof (one_receipt _ _ _ _ _ _ _ _ _ (tt_opens _ _ _ _ _ _ _ _ _ _ _ _ Hat) Hrv) as ->.
  pose proof (one_statement _ _ _ _ _ _ (au_opens _ _ _ _ _ _ _ _ Hauth) (tt_refers _ _ _ _ _ _ _ _ _ _ _ _ Hat)) as ->.
  assert (verdict = OutcomeVerdict.PASS ∧ all_committed (oc_predicate o).(ocp_reconciliation)) as [-> Hall].
  { destruct Hrec as (_ & _ & ? & ? & _ & -> & _). destruct Hv as [[-> Hv]|[-> _]]; done. }
  exists c, i0, a0, o1, i1, a1, w1, h, o, i, ap, w, l. cbv zeta. do 7 (split; [done|]).
  intros root Hroot. destruct (Hl root Hroot) as (Hin & Hs & Hobs).
  pose proof (un_principal _ _ _ _ _ _ (Hun root Hin Hs Hobs)) as Hno. rewrite E0, E1 in Hno.
  intros Hx. apply Hno. unfold party_principals, oc_predicate. cbn [from_option]. rewrite !elem_of_app in Hx. rewrite !elem_of_app. tauto.
Qed.
End chain.
