(* ===== verification/OutcomeTotal.v ===== *)
(** * Every verification of an outcome answers, but for two exceptions

    With a valid policy and parsers that keep their contracts, nothing the verifier is
    given makes it raise, except a time so close to the ends of the calendar that the
    clock skew does not fit, and a closure that reports a partial success. *)
From S2P Require Import Prelude Json Dicts PyTime PyDecimal Sha256 Canonical Base64 Platforms Models.
From S2P Require Import Checks CertModels CertLedger Evidence Certificate CertFacts CertSound CertTotal.
From S2P Require Import ReceiptModels Receipt ReceiptFacts ReceiptSound OutcomeModels OutcomeIndex Outcome.
From S2P Require Import OutcomeFacts OutcomeObservers OutcomeSound.
Local Open Scope Z_scope.

Definition out_of_calendar (e : exn) : Prop := e = OverflowError "date value out of range".
Notation calendar := (raises_only out_of_calendar).

Lemma orR_calendar E a b : raises_only E a → raises_only E b → raises_only E (orR a b).
Proof. intros Ha Hb. unfold orR. apply raises_bind; [done|]. intros [] _; [|done]. apply raises_returns, returns_Ok. Qed.
Lemma anyR_calendar {A} E (f : A → result bool) l : (∀ x, x ∈ l → raises_only E (f x)) → raises_only E (anyR f l).
Proof.
  induction l as [|x l IH]; intros H; simpl; [apply raises_returns, returns_Ok|].
  apply orR_calendar; [apply H; by left|apply IH; intros y Hy; apply H; by right].
Qed.
Lemma both_aware a b : is_aware a = true → is_aware b = true → returns (dt_ltb a b).
Proof. destruct a; [done|]. intros _. by apply aware_ltb. Qed.

(** ** What the contracts establish *)
Class OutcomeParserLaws (load_receipt : string → result ExecutionReceiptStatement)
    (load_outcome : string → result OutcomeClosureStatement) : Prop := {
  load_receipt_valid : ∀ b x, load_receipt b = Ok x → ExecutionReceiptStatement_validate x = Ok x;
  load_outcome_valid : ∀ b x, load_outcome b = Ok x → OutcomeClosureStatement_validate x = Ok x;
  load_receipt_raise : ∀ b e, load_receipt b = Raise e → is_value_error e = true;
  load_outcome_raise : ∀ b e, load_outcome b = Raise e → is_value_error e = true;
}.

Record reference_ok (ref : ActionCertificateReference) : Prop := {
  rf_verified : is_aware ref.(cr_verification_at) = true;
  rf_reserved : is_aware ref.(cr_reserved_at) = true;
}.
Lemma reference_reference_ok ref x : ActionCertificateReference_validate ref = Ok x → reference_ok ref.
Proof.
  unfold ActionCertificateReference_validate, _require_utc. intros H. apply bind_Ok in H as (? & _ & H).
  apply bind_Ok in H as (? & H1 & H). apply bind_Ok in H as (? & H2 & _).
  apply bind_Ok in H1 as (? & H1%require_Ok & _). by apply bind_Ok in H2 as (? & H2%require_Ok & _).
Qed.

Record receipt_ok (p : ExecutionReceiptPredicate) : Prop := {
  rp_issued : is_aware p.(erp_issued_at) = true;
  rp_started : is_aware p.(erp_attempt).(at_started_at) = true;
}.
Lemma receipt_receipt_ok st x : ExecutionReceiptStatement_validate st = Ok x → receipt_ok st.(ers_predicate).
Proof.
  unfold ExecutionReceiptStatement_validate, ExecutionReceiptPredicate_validate, _require_utc. intros H.
  do 3 apply bind_Ok in H as (? & _ & H). apply bind_Ok in H as (? & Hp & _). apply bind_Ok in Hp as (? & _ & Hp).
  apply bind_Ok in Hp as (? & Hi & Hp). do 2 apply bind_Ok in Hp as (? & _ & Hp).
  apply bind_Ok in Hp as (? & Ha & _). apply bind_Ok in Hi as (? & Hi%require_Ok & _).
  unfold AttemptObservation_validate, _require_utc in Ha. apply bind_Ok in Ha as (? & _ & Ha).
  apply bind_Ok in Ha as (? & Hs & _). by apply bind_Ok in Hs as (? & Hs%require_Ok & _).
Qed.

Record closure_ok (p : OutcomeClosurePredicate) : Prop := {
  ck_id : is_identifier p.(ocp_closure_id) = true;
  ck_attempt : is_identifier p.(ocp_attempt_id) = true;
  ck_sequence : within 1 1000000 p.(ocp_closure_sequence) = true;
  ck_previous : opt_all is_sha256 p.(ocp_previous_payload_sha256) = true;
  ck_issued : is_aware p.(ocp_issued_at) = true;
  ck_reference : reference_ok p.(ocp_certificate_ref);
  ck_source : is_aware p.(ocp_evidence_source).(es_observed_at) = true ∧
    is_aware p.(ocp_evidence_source).(es_valid_until) = true;
  ck_declared : (length p.(ocp_producer).(od_observer_principals) ≤ 16)%nat;
  ck_count : within 1 16 p.(ocp_reconciliation).(rc_expected_effect_count) = true;
  ck_attempts : (length p.(ocp_reconciliation).(rc_attempts) ≤ 128)%nat;
  ck_unresolved : (length p.(ocp_reconciliation).(rc_unresolved) ≤ 128)%nat;
  ck_consistent : ∀ item, item ∈ p.(ocp_reconciliation).(rc_attempts) → attempt_consistent item = Ok ();
}.
Lemma size_between_length {A} n (l : list A) : size_between 0 (Z.of_nat n) l = true → (length l ≤ n)%nat.
Proof. unfold size_between. intros [_ H]%andb_true_iff. lia. Qed.
Lemma parse_wire_Ok t label x : _parse_wire_timestamp t label = Ok x → is_aware t = true.
Proof. unfold _parse_wire_timestamp. by intros (? & H%require_Ok & _)%bind_Ok. Qed.

Lemma reconciliation_attempts r x :
  EffectReconciliation_validate r = Ok x →
  within 1 16 r.(rc_expected_effect_count) = true ∧ (length r.(rc_attempts) ≤ 128)%nat ∧
  (length r.(rc_unresolved) ≤ 128)%nat ∧ ∀ item, item ∈ r.(rc_attempts) → attempt_consistent item = Ok ().
Proof.
  unfold EffectReconciliation_validate. intros H. apply bind_Ok in H as (? & Hc%require_Ok & H).
  apply bind_Ok in H as (ys & Ha & _).
  apply andb_true_iff in Hc as [Hc Hu]. apply andb_true_iff in Hc as [Hc Hl]. apply andb_true_iff in Hc as [_ Hc].
  split; [done|]. split; [by apply (size_between_length 128)|]. split; [by apply (size_between_length 128)|].
  intros item Hi. destruct (mapR_all _ _ _ _ Ha Hi) as [y Hy]. unfold EffectAttemptObservation_validate in Hy.
  do 2 apply bind_Ok in Hy as (? & _ & Hy). by apply bind_Ok in Hy as ([] & Hy & _).
Qed.

Lemma closure_closure_ok st x : OutcomeClosureStatement_validate st = Ok x → closure_ok st.(ocs_predicate).
Proof.
  unfold OutcomeClosureStatement_validate, OutcomeClosurePredicate_validate. intros H.
  do 3 apply bind_Ok in H as (? & _ & H). apply bind_Ok in H as (? & H & _). set (p := ocs_predicate st) in *.
  apply bind_Ok in H as (? & Hc%require_Ok & H). apply bind_Ok in H as (? & Hi%parse_wire_Ok & H).
  apply bind_Ok in H as (? & Hr%reference_reference_ok & H). apply bind_Ok in H as (? & _ & H).
  apply bind_Ok in H as (? & Hs & H). apply bind_Ok in H as (? & Hd & H).
  apply bind_Ok in H as (? & (Hn & Ha & Hu & Hco)%reconciliation_attempts & _).
  apply andb_true_iff in Hc as [Hc Hprev]. apply andb_true_iff in Hc as [Hc Hseq]. apply andb_true_iff in Hc as [_ Hids].
  cbn [forallb] in Hids. split_bools. unfold OutcomeEvidenceSource_validate in Hs. apply bind_Ok in Hs as (? & _ & Hs).
  apply bind_Ok in Hs as (? & Ho%parse_wire_Ok & Hs). apply bind_Ok in Hs as (? & Hv%parse_wire_Ok & _).
  unfold OutcomeProducerDeclaration_validate in Hd. apply bind_Ok in Hd as (? & Hd%require_Ok & _).
  apply andb_true_iff in Hd as [_ Hd]. unfold size_between in Hd. apply andb_true_iff in Hd as [_ Hd].
  split; try done. lia.
Qed.

(** ** Results *)
Section total.
Context `{P : Platform} `{!PlatformLaws P} `{K : Ed25519} `{C : CertificateParser} `{!CertificateParserLaws C}.
Context (load_ExecutionReceiptStatement : string → result ExecutionReceiptStatement).
Context (load_OutcomeClosureStatement : string → result OutcomeClosureStatement).
Context `{!OutcomeParserLaws load_ExecutionReceiptStatement load_OutcomeClosureStatement}.

Record outcome_ok (o : OpenedOutcome) : Prop := {
  ok_envelope : DsseEnvelope_validate o.(oc_envelope) = Ok o.(oc_envelope);
  ok_sha : is_sha256 o.(oc_envelope_sha256) = true;
  ok_predicate : closure_ok (oc_predicate o);
}.
Definition roots_ok (ids : list string) : Prop := NoDup ids ∧ (length ids ≤ 16)%nat.

(** The reasons that a verdict allows *)
Definition reason_fits (status : OutcomeVerdict) (reason : OutcomeReason) : bool :=
  match status with
  | OutcomeVerdict.PASS => bool_decide (reason ∈ PASS_OUTCOME_REASONS)
  | OutcomeVerdict.FAIL => bool_decide (reason ∈ FAIL_OUTCOME_REASONS)
  | OutcomeVerdict.UNKNOWN => unknown_outcome_reason reason
  | OutcomeVerdict.UNSAFE_SUCCESS => bool_decide (reason ∈ UNSAFE_OUTCOME_REASONS)
  end.
Definition records_for (status : OutcomeVerdict) : bool :=
  bool_decide (status ∈ [OutcomeVerdict.PASS; OutcomeVerdict.FAIL]).

Lemma closure_result_returns o status reason ids :
  outcome_ok o → roots_ok ids → reason_fits status reason = true → (records_for status = true → ids ≠ []) →
  returns (closure_result o status reason ids (records_for status)).
Proof.
  intros [_ Hsha [Hid Hat Hseq Hprev _ _ _ _ Hn Ha Hu _]] [Hnd Hlen] Hfit Hids.
  change (closure_result o status reason ids (records_for status)) with
    (OutcomeResult_validate (closure_report o status reason ids (records_for status))).
  unfold OutcomeResult_validate, observer_bound, closure_report. cbv zeta.
  cbn [ocv_reason_codes ocv_closure_id ocv_payload_sha256 ocv_envelope_sha256 ocv_verified_outcome_observer_roots
    ocv_attempt_id ocv_closure_sequence ocv_previous_payload_sha256 ocv_expected_effect_count
    ocv_observed_success_count ocv_unresolved_effect_count ocv_status ocv_recorded opt_all given].
  rewrite Hid, sha256_bytes_shape, Hsha, Hat, Hseq, Hprev, Hn.
  pose proof (success_count_le (rc_attempts (ocp_reconciliation (oc_predicate o)))) as Hs.
  assert (size_between 0 16 (isort String.leb ids) = true) as -> by (unfold size_between; rewrite length_isort; lia).
  assert (within 0 MAX_EFFECT_ATTEMPTS (success_count (rc_attempts (ocp_reconciliation (oc_predicate o)))) = true) as ->
    by (unfold within, MAX_EFFECT_ATTEMPTS; lia).
  assert (within 0 MAX_UNRESOLVED_EFFECTS (Z.of_nat (length (rc_unresolved (ocp_reconciliation (oc_predicate o))))) = true)
    as -> by (unfold within, MAX_UNRESOLVED_EFFECTS; lia).
  cbn [andb]. change (size_between 1 16 [reason]) with true. cbn [andb require mbind result_bind].
  assert (unique [reason] = true) as Huq by (apply bool_decide_eq_true_2, NoDup_singleton).
  assert (unique (isort String.leb ids) = true) as Hui by (apply bool_decide_eq_true_2; by rewrite isort_perm).
  rewrite Huq, Hui. cbn [require mbind result_bind].
  assert (records_for status = true → nonempty (isort String.leb ids) = true) as Hne.
  { intros Hr. specialize (Hids Hr). destruct (isort String.leb ids) eqn:E; [|done]. destruct Hids.
    apply length_zero_iff_nil. by rewrite <- (length_isort String.leb), E. }
  destruct status; cbn [reason_fits] in Hfit; cbn [forallb length Nat.eqb];
    try change (records_for _) with true in *; try change (records_for _) with false in *; cbn [negb andb].
  - rewrite Hfit, (Hne eq_refl). apply returns_Ok.
  - rewrite Hfit, (Hne eq_refl). apply returns_Ok.
  - rewrite Hfit. apply returns_Ok.
  - rewrite Hfit. apply returns_Ok.
Qed.

Lemma unopened_returns {A} reason envelope_bytes payload :
  unknown_outcome_reason reason = true →
  returns (unopened (A := A) reason (sha256_bytes envelope_bytes) (option_map sha256_bytes payload)).
Proof.
  intros Hr. unfold unopened, _outcome_result, OutcomeResult_validate. apply returns_bind; [|intros; apply returns_Ok].
  cbn [ocv_reason_codes ocv_closure_id ocv_payload_sha256 ocv_envelope_sha256 ocv_verified_outcome_observer_roots
    ocv_attempt_id ocv_closure_sequence ocv_previous_payload_sha256 ocv_expected_effect_count
    ocv_observed_success_count ocv_unresolved_effect_count opt_all forallb ocv_status ocv_recorded].
  rewrite sha256_bytes_shape. assert (opt_all is_sha256 (option_map sha256_bytes payload) = true) as ->
    by (destruct payload; [apply sha256_bytes_shape|done]).
  assert (dedup [reason] = [reason]) as -> by done. cbn [forallb]. rewrite Hr.
  assert (unique [reason] = true) as -> by (apply bool_decide_eq_true_2, NoDup_singleton). apply returns_Ok.
Qed.

Lemma unknown_returns {A} o reason ids :
  outcome_ok o → roots_ok ids → unknown_outcome_reason reason = true → returns (_unknown (A := A) o reason ids).
Proof.
  intros Ho Hi Hr. unfold _unknown. apply returns_bind; [|intros; apply returns_Ok].
  by apply (closure_result_returns o OutcomeVerdict.UNKNOWN).
Qed.
Lemma unsafe_returns {A} o reason ids :
  outcome_ok o → roots_ok ids → bool_decide (reason ∈ UNSAFE_OUTCOME_REASONS) = true →
  returns (_unsafe (A := A) o reason ids).
Proof.
  intros Ho Hi Hr. unfold _unsafe. apply returns_bind; [|intros; apply returns_Ok].
  by apply (closure_result_returns o OutcomeVerdict.UNSAFE_SUCCESS).
Qed.
Lemma unsafe_if_delivers {A} E (Q : A → Prop) b o u reason ids :
  outcome_ok o → roots_ok ids → bool_decide (u ∈ UNSAFE_OUTCOME_REASONS) = true →
  unknown_outcome_reason reason = true → delivers E (unsafe_if b o u reason ids) Q.
Proof.
  intros Ho Hi Hu Hr. split; [|by intros a ?%unsafe_if_Go]. apply raises_returns.
  destruct b; [by apply unsafe_returns|by apply unknown_returns].
Qed.
Lemma unknown_delivers {A} E (Q : A → Prop) o reason ids :
  outcome_ok o → roots_ok ids → unknown_outcome_reason reason = true → delivers E (_unknown o reason ids) Q.
Proof. intros Ho Hi Hr. split; [|by intros a ?%unknown_Go]. by apply raises_returns, unknown_returns. Qed.

(** ** The clock and the roots *)
Context (policy : TrustPolicy) (now : datetime).
Hypothesis Hpolicy : policy_ok policy.
Hypothesis Hnow : is_aware now = true.

Lemma add_calendar t d : is_aware t = true → calendar (dt_add t d) ∧ ∀ u, dt_add t d = Ok u → is_aware u = true.
Proof.
  destruct t as [|t]; [done|]. intros _. unfold dt_add. split.
  - intros e [[_ ->]%require_Raise|(? & _ & ?)]%bind_Raise; done.
  - by intros u (? & _ & [= <-])%bind_Ok.
Qed.
Lemma current_calendar root t skew : root_ok root → is_aware t = true → calendar (trust_root_is_current root t skew).
Proof.
  intros [_ Hb Ha Hr] Ht. unfold trust_root_is_current. destruct (add_calendar t skew Ht) as [C1 A1].
  destruct (add_calendar t (- skew) Ht) as [C2 A2].
  apply raises_bind; [done|]. intros ahead Hah. specialize (A1 _ Hah).
  apply raises_bind; [by apply raises_returns, both_aware|]. intros [] _; [apply raises_returns, returns_Ok|].
  apply raises_bind; [done|]. intros behind Hbe. specialize (A2 _ Hbe).
  apply raises_bind; [by apply raises_returns, both_aware|]. intros [] _; [|apply raises_returns, returns_Ok]. cbn [negb].
  destruct (tr_revoked_at root) as [u|] eqn:Eu; [|apply raises_returns, returns_Ok].
  apply raises_returns, both_aware; [done|]. by apply Hr.
Qed.
Lemma not_current_calendar root skew a b :
  root_ok root → is_aware a = true → is_aware b = true → calendar (not_current_at root skew a b).
Proof.
  intros Hr Ha Hb. apply orR_calendar; (apply raises_bind; [by apply current_calendar|intros; apply raises_returns, returns_Ok]).
Qed.
Lemma find_root_ok roots id root : Forall root_ok roots → find_root roots id = Some root → root_ok root.
Proof. intros H [Hin _]%find_root_spec. rewrite Forall_forall in H. auto. Qed.
Lemma found_roots_ok roots ids : Forall root_ok roots → Forall root_ok (omap (find_root roots) ids).
Proof.
  intros H. apply Forall_forall. intros r Hr. apply list_elem_of_omap in Hr as (id & _ & Hf).
  by eapply find_root_ok.
Qed.
Lemma policy_roots_ok : Forall root_ok policy.(tp_roots).
Proof. apply Forall_forall. intros r Hr. by apply (po_roots _ Hpolicy). Qed.
Lemma fingerprints_calendar E l : Forall root_ok l → raises_only E (mapR trust_root_fingerprint l).
Proof. intros Hl. by apply raises_returns, fingerprints_return. Qed.

(** ** Opening *)
Lemma merge_handoff_answers envelope_bytes a :
  answers (merge_handoff (sha256_bytes envelope_bytes) a) (λ _, True).
Proof.
  split; [|done]. unfold merge_handoff. cbv zeta.
  pose proof (λ A reason H, unopened_returns (A := A) reason envelope_bytes None H) as Hu. cbn [option_map] in Hu.
  destruct (operator_value (ha_expected_binding a) _) as [x|]; [|by apply Hu].
  destruct (operator_value (ha_action_certificate_verification a) _) as [y|]; [|by apply Hu].
  destruct (operator_value (ha_execution_receipt_verification a) _) as [z|]; [|by apply Hu].
  destruct x, y, z; try (by apply Hu). apply returns_Ok.
Qed.

Lemma open_payload_returns bytes l l' : returns (open_payload bytes l l').
Proof.
  unfold open_payload. match goal with |- returns (match ?m with _ => _ end) => destruct m as [x|e] eqn:E end;
    [apply returns_Ok|]. assert (is_value_error e = true) as ->; [|apply returns_Ok].
  apply bind_Raise in E as [E|(env & _ & E)].
  - by apply (parse_json_model_raise _ _ _ _ (load_DsseEnvelope_raise _) E).
  - apply bind_Raise in E as [E|(? & _ & E)]; [by eapply decode_raise|done].
Qed.
Lemma open_statement_returns {A} (load : string → result A) bytes l l' :
  (∀ b e, load b = Raise e → is_value_error e = true) → returns (open_statement load bytes l l').
Proof.
  intros Hl. unfold open_statement. match goal with |- returns (match ?m with _ => _ end) => destruct m as [x|e] eqn:E end;
    [apply returns_Ok|]. assert (is_value_error e = true) as ->; [|apply returns_Ok].
  apply bind_Raise in E as [E|(env & _ & E)].
  - by apply (parse_json_model_raise _ _ _ _ (load_DsseEnvelope_raise _) E).
  - apply bind_Raise in E as [E|(pay & _ & E)]; [by eapply decode_raise|].
    apply bind_Raise in E as [E|(? & _ & E)]; [|done]. by apply (parse_json_model_raise _ _ _ _ (Hl _) E).
Qed.

Lemma open_outcome_answers envelope_bytes :
  answers (open_outcome load_OutcomeClosureStatement envelope_bytes policy now) outcome_ok.
Proof.
  pose proof (λ A reason p H, unopened_returns (A := A) reason envelope_bytes p H) as Hu.
  split.
  - unfold open_outcome. cbv zeta. destruct (negb _); [by apply Hu|]. destruct (_ <? _); [by apply Hu|].
    apply returns_bind; [apply open_payload_returns|]. intros [[envelope payload]|] Ho; [|by apply Hu].
    apply open_payload_Some in Ho as [He _]. apply load_DsseEnvelope_valid in He.
    destruct (_ <? _); [by apply Hu|]. apply returns_bind; [by apply verified_returns|]. intros roots _.
    destruct (negb _); [by apply Hu|]. destruct (parse_json_model load_OutcomeClosureStatement _ _) as [st|e] eqn:Es;
      [apply returns_Ok|]. rewrite (parse_json_model_raise _ _ _ _ (load_outcome_raise _) Es). by apply Hu.
  - intros o Ho. apply open_outcome_Go in Ho as (_ & _ & He & _ & _ & Hs & Hsha).
    split; [by eapply load_DsseEnvelope_valid|rewrite Hsha; apply sha256_bytes_shape|].
    eapply closure_closure_ok. by apply load_outcome_valid in Hs.
Qed.

(** ** The observers *)
Lemma observe_outcomes_calendar predicate principals fingerprints roots acc :
  Forall root_ok roots → is_aware predicate.(ocp_issued_at) = true →
  calendar (observe_outcomes policy predicate principals fingerprints now acc roots).
Proof.
  intros Hr Hi. revert acc. induction Hr as [|root roots Hroot _ IH]; intros acc; cbn [observe_outcomes];
    [apply raises_returns, returns_Ok|]. apply raises_bind; [|intros [] _; [apply raises_returns, returns_Ok|apply IH]].
  destruct acc as [qualified ps fs stale self]. unfold observe_outcome.
  destruct (negb _); [apply raises_returns, returns_Ok|]. destruct (negb _); [apply raises_returns, returns_Ok|].
  apply raises_bind.
  { apply orR_calendar; [apply raises_returns, returns_Ok|]. apply raises_bind; [by apply raises_returns, fingerprint_returns|].
    intros; apply raises_returns, returns_Ok. }
  intros [] _; [apply raises_returns, returns_Ok|].
  apply raises_bind; [by apply not_current_calendar|]. intros [] _; [apply raises_returns, returns_Ok|].
  apply raises_bind; [by apply raises_returns, fingerprint_returns|]. intros; apply raises_returns, returns_Ok.
Qed.

Lemma qualified_roots_ok predicate acc l :
  (length predicate.(ocp_producer).(od_observer_principals) ≤ 16)%nat → NoDup (map tr_root_id l) →
  qualified_as policy predicate acc l → roots_ok (isort String.leb (map fst acc.(ov_qualified))).
Proof.
  intros Hlen Hnd [Q1 Q2 _ [Q4 _] _ Q7]. split; [by rewrite isort_perm, Q1|].
  rewrite length_isort, Q1, length_map. etransitivity; [|exact Hlen].
  rewrite <- (length_map tr_principal_id l). apply submseteq_length, NoDup_submseteq.
  - by rewrite Q2, <- Permutation_rev in Q4.
  - intros x (r & <- & Hr%list_elem_of_In)%list_elem_of_In%in_map_iff. auto.
Qed.

Hypothesis Hids : NoDup (map tr_root_id policy.(tp_roots)).
Hypothesis Hthreshold : 1 ≤ policy.(tp_outcome_observer_threshold).

Lemma check_outcome_observers_delivers h o action receipt :
  outcome_ok o → delivers out_of_calendar (check_outcome_observers policy h now o action receipt)
    (λ ids, roots_ok ids ∧ ids ≠ []).
Proof.
  intros Ho. pose proof Ho as [He _ Hc]. unfold check_outcome_observers. apply delivers_bind.
  { unfold _qualifying_outcome_observers. cbv zeta. apply raises_bind; [by apply raises_returns, verified_returns|].
    intros roots Hr. apply verified_incl in Hr; [|done]. apply raises_bind.
    { apply fingerprints_calendar, found_roots_ok, policy_roots_ok. }
    intros keys _. apply raises_bind; [apply observe_outcomes_calendar; [done|apply ck_issued, Hc]|].
    intros; apply raises_returns, returns_Ok. }
  intros [ids reason] Hq.
  assert (roots_ok ids ∧ (reason = None → ids ≠ []) ∧ from_option unknown_outcome_reason true reason = true)
    as (Hok & Hne & Hfit).
  { unfold _qualifying_outcome_observers in Hq. cbv zeta in Hq. apply bind_Ok in Hq as (roots & Hr & Hq).
    apply (verified_roots_spec _ _ _ _ Hids) in Hr as [Hnd Hr]. apply bind_Ok in Hq as (keys & _ & Hq).
    apply bind_Ok in Hq as (found & Hf & Hq). apply Ok_inj in Hq.
    assert (roots_ok []) as Hnil by (split; [apply NoDup_nil_2|simpl; lia]).
    destruct found as [r|acc].
    { injection Hq as <- <-. split; [done|]. split; [done|]. clear -Hf. unfold from_option.
      revert Hf. generalize (mk_OutcomeObservers [] [] [] false false). induction roots as [|root roots IH]; [done|].
      intros acc. cbn [observe_outcomes]. unfold and_then at 1. intros (x & Hx & H)%bind_Ok. destruct x as [r'|acc']; [|by eapply IH].
      injection H as ->. destruct acc as [a b c d e]. unfold observe_outcome in Hx. destruct (negb _); [done|].
      destruct (negb _); [by injection Hx as <-|]. apply bind_Ok in Hx as ([] & _ & Hx); [done|].
      apply bind_Ok in Hx as ([] & _ & Hx); [done|]. by apply bind_Ok in Hx as (? & _ & Hx). }
    apply (observe_outcomes_Go _ _ _ _ _ _ _ _ []) in Hf as (l & Hqa & Hl & _).
    - pose proof (qualified_roots_ok _ _ _ (ck_declared _ Hc) Hl Hqa) as Hok.
      destruct (ov_self_observed acc); [by injection Hq as <- <-|]. destruct (ov_stale acc); [by injection Hq as <- <-|].
      destruct (negb _); [by injection Hq as <- <-|].
      destruct (Z.ltb_spec (Z.of_nat (length (ov_qualified acc))) policy.(tp_outcome_observer_threshold));
        injection Hq as <- <-; [done|]. split; [done|]. split; [|done]. intros _ Hx.
      apply (f_equal length) in Hx. rewrite length_isort, length_map in Hx. cbn in Hx. lia.
    - done.
    - split; [done..|split; apply NoDup_nil_2|by intros r ?%not_elem_of_nil|by intros r ?%not_elem_of_nil]. }
  destruct reason as [reason|]; [by apply unknown_delivers|]. apply delivers_Go. auto.
Qed.

(** ** The handoff *)
Lemma forallb_map_VStr {A} (f : A → string) l : forallb wf_py (map (λ x, VStr (f x)) l) = true.
Proof. induction l; simpl; auto. Qed.
Lemma forallb_VStr l : forallb wf_py (map VStr l) = true.
Proof. apply (forallb_map_VStr (λ s, s)). Qed.
Lemma certificate_digest_returns x : returns (action_certificate_verification_sha256 x).
Proof.
  apply digest_total. unfold VerificationResult_dump. cbv zeta. cbn [wf_py forallb snd].
  rewrite !forallb_VStr, !forallb_map_VStr.
  destruct (avr_certificate_id x), (avr_payload_sha256 x); reflexivity.
Qed.
Lemma receipt_digest_returns x : returns (execution_receipt_verification_sha256 x).
Proof.
  apply digest_total. unfold ReceiptResult_dump. cbv zeta. cbn [wf_py forallb snd].
  rewrite !forallb_VStr, !forallb_map_VStr.
  destruct (erv_receipt_id x), (erv_payload_sha256 x); reflexivity.
Qed.

Definition unknown_stop {A} (m : result (checked OutcomeReason A)) : Prop :=
  stops (λ reason, unknown_outcome_reason reason = true) m.
Lemma check_handoff_delivers {A} (m : result (checked OutcomeReason A)) (Q : A → Prop) unaccepted u o ids :
  outcome_ok o → roots_ok ids → bool_decide (u ∈ UNSAFE_OUTCOME_REASONS) = true → unknown_stop m →
  delivers out_of_calendar m Q → delivers out_of_calendar (check_handoff m unaccepted u o ids) Q.
Proof.
  intros Ho Hi Hu Hstop [Hr Hq]. unfold check_handoff. apply delivers_bind; [done|]. intros [reason|x] Hx.
  - apply unsafe_if_delivers; auto.
  - apply delivers_Go. auto.
Qed.

#[local] Hint Extern 2 (stops _ (Ok (Stop _))) => intros ? [= <-]; reflexivity : stops.
Lemma parse_certificate_stops bytes x ref : unknown_stop (_parse_external_action_certificate bytes x ref policy now).
Proof. unfold unknown_stop, _parse_external_action_certificate. cbv zeta. by_guards. Qed.
Lemma parse_receipt_stops bytes x ref :
  unknown_stop (_parse_external_receipt load_ExecutionReceiptStatement bytes x ref policy now).
Proof. unfold unknown_stop, _parse_external_receipt. cbv zeta. by_guards. Qed.

Ltac returned := intros; apply raises_returns, returns_Ok.
Lemma parse_certificate_delivers bytes x ref :
  reference_ok ref →
  delivers out_of_calendar (_parse_external_action_certificate bytes x ref policy now) predicate_ok.
Proof.
  intros [Hat _]. split.
  - unfold _parse_external_action_certificate. cbv zeta. destruct (_ || _); [returned|].
    apply raises_bind; [apply raises_returns, open_statement_returns, load_Statement_raise|].
    intros [[[envelope payload] st]|] Ho; [|returned]. apply open_statement_Some in Ho as (He & _ & _).
    apply load_DsseEnvelope_valid in He. apply raises_bind.
    { unfold certificate_mismatch. apply orR_calendar; [returned|]. apply orR_calendar; apply raises_bind;
        [apply raises_returns, certificate_digest_returns|returned|apply raises_returns, scope_returns|returned]. }
    intros [] _; [returned|]. apply raises_bind; [by apply raises_returns, verified_returns|].
    intros verified Hv. apply verified_incl in Hv; [|done]. destruct (_ || _); [returned|].
    destruct (negb _); [returned|].
    assert (∀ p purpose allowed approvers r, r ∈ verified → calendar (certificate_root_lacking policy p purpose allowed
      approvers ref.(cr_verification_at) now r)) as Hlack.
    { intros p purpose allowed approvers r Hr. unfold certificate_root_lacking. apply orR_calendar; [returned|].
      apply not_current_calendar; [|done..]. rewrite Forall_forall in Hv. auto. }
    assert (∀ (ids : list string) r, r ∈ omap (find_root verified) ids → r ∈ verified) as Hsub.
    { intros ids r (id & _ & Hf)%list_elem_of_omap. by apply find_root_spec in Hf as [? _]. }
    apply raises_bind.
    { apply orR_calendar; apply anyR_calendar; intros r Hr; eapply Hlack, Hsub, Hr. }
    intros [] _; [returned|]. apply raises_bind; [|intros [] _; returned].
    unfold certificate_unauthorized. apply raises_bind; [by apply fingerprints_calendar, found_roots_ok|]. intros k1 _.
    apply raises_bind; [by apply fingerprints_calendar, found_roots_ok|]. intros; returned.
  - intros p (st & i & a & -> & (envelope & payload & _ & _ & Hs & _) & _)%parse_certificate_Go; [|done].
    apply load_Statement_valid in Hs. unfold ActionCertificateStatement_validate in Hs.
    do 3 apply bind_Ok in Hs as (? & _ & Hs). apply bind_Ok in Hs as (? & Hp & _). by eapply predicate_predicate_ok.
Qed.

Lemma parse_receipt_delivers bytes x ref :
  delivers out_of_calendar (_parse_external_receipt load_ExecutionReceiptStatement bytes x ref policy now)
    (λ st, receipt_ok st.(ers_predicate)).
Proof.
  split.
  - unfold _parse_external_receipt. cbv zeta. destruct (_ || _); [returned|].
    apply raises_bind; [apply raises_returns, open_statement_returns, load_receipt_raise|].
    intros [[[envelope payload] st]|] Ho; [|returned]. apply open_statement_Some in Ho as (He & _ & Hs).
    apply load_DsseEnvelope_valid in He. apply load_receipt_valid, receipt_receipt_ok in Hs. apply raises_bind.
    { unfold receipt_mismatch. apply orR_calendar; [returned|].
      apply raises_bind; [apply raises_returns, receipt_digest_returns|returned]. }
    intros [] _; [returned|]. apply raises_bind; [by apply raises_returns, verified_returns|].
    intros verified Hv. apply verified_incl in Hv; [|done]. destruct (_ || _); [returned|].
    apply raises_bind.
    { apply anyR_calendar. intros r (id & _ & [Hr _]%find_root_spec)%list_elem_of_omap. unfold receipt_root_lacking.
      apply orR_calendar; [returned|]. apply not_current_calendar; [|apply Hs|done]. rewrite Forall_forall in Hv. auto. }
    intros [] _; [returned|]. apply raises_bind; [by apply fingerprints_calendar, found_roots_ok|].
    intros; destruct (_ || _); returned.
  - intros st (w & (envelope & payload & _ & _ & Hs & _))%parse_receipt_Go; [|done].
    by eapply receipt_receipt_ok, load_receipt_valid.
Qed.

(** ** The verdict *)
Lemma check_evidence_delivers resolver o ids :
  outcome_ok o → roots_ok ids → delivers out_of_calendar (check_outcome_evidence resolver now o ids) (λ _, True).
Proof.
  intros Ho Hi. pose proof (ck_source _ (ok_predicate _ Ho)) as [Hobs Huntil]. unfold check_outcome_evidence.
  assert (∀ f l, from_option unknown_outcome_reason true (resolve_all f (oc_predicate o).(ocp_evidence_source) now l) = true) as Hall.
  { intros f l. induction l as [|d l IH]; cbn [resolve_all]; [done|].
    destruct (f d _ now) as [[raw|]|]; [|done..]. by destruct (negb _). }
  apply delivers_bind.
  - unfold _resolve_outcome_evidence. cbv zeta. destruct (negb _); [returned|]. apply raises_bind.
    { apply raises_returns. unfold source_outside, orR. apply returns_bind; [by apply both_aware|].
      intros [] _; [apply returns_Ok|by apply both_aware]. }
    intros [] _; returned.
  - intros reason Hr. assert (from_option unknown_outcome_reason true reason = true) as Hfit.
    { unfold _resolve_outcome_evidence in Hr. cbv zeta in Hr. destruct (negb _); [by injection Hr as <-|].
      apply bind_Ok in Hr as ([] & _ & Hr); [by injection Hr as <-|]. apply Ok_inj in Hr. rewrite <- Hr.
      destruct resolver as [f|]; [apply Hall|done]. }
    destruct reason as [reason|]; [by apply unknown_delivers|]. by apply delivers_Go.
Qed.

Lemma check_expected_delivers expected o ids :
  outcome_ok o → roots_ok ids → delivers out_of_calendar (check_expected_outcome expected o ids) (λ _, True).
Proof.
  intros Ho Hi. unfold check_expected_outcome. destruct (negb _); [by apply unsafe_if_delivers|by apply delivers_Go].
Qed.
Lemma check_binding_delivers action receipt o ids :
  outcome_ok o → roots_ok ids → delivers out_of_calendar (check_binding action receipt o ids) (λ _, True).
Proof.
  intros Ho Hi. unfold check_binding. destruct (binding_mismatch _ _ _); [by apply unsafe_if_delivers|by apply delivers_Go].
Qed.

Lemma aware_calendar E a b : is_aware a = true → is_aware b = true → raises_only E (dt_ltb a b).
Proof. intros. by apply raises_returns, both_aware. Qed.
Lemma not_before_calendar E a b : is_aware a = true → is_aware b = true → raises_only E (not_before_instant a b).
Proof. intros. unfold not_before_instant. apply raises_bind; [by apply aware_calendar|returned]. Qed.
Lemma check_outcome_window_delivers action receipt o ids :
  outcome_ok o → roots_ok ids → predicate_ok action → receipt_ok receipt →
  delivers out_of_calendar (check_outcome_window action receipt now o ids) (λ _, True).
Proof.
  intros Ho Hi [A1 A2 A3 A4 _] [R1 R2]. pose proof (ok_predicate _ Ho) as [_ _ _ _ Hiss [F1 F2] [S1 S2] _ _ _ _ _].
  unfold check_outcome_window. apply delivers_bind.
  - unfold window_invalid. cbv zeta. repeat apply orR_calendar; try (by apply aware_calendar); try (by apply not_before_calendar).
    unfold ordered_times. cbn [tail zip anyR]. repeat apply orR_calendar; try (by apply aware_calendar). returned.
  - intros [] _; [by apply unsafe_if_delivers|by apply delivers_Go].
Qed.

(** Everything before the verdict *)
Lemma vet_outcome_delivers envelope_bytes a certificate_bytes receipt_bytes resolver :
  delivers out_of_calendar (vet_outcome load_ExecutionReceiptStatement load_OutcomeClosureStatement envelope_bytes policy
    a certificate_bytes receipt_bytes now resolver) (λ x, outcome_ok (fst x) ∧ roots_ok (snd x) ∧ snd x ≠ []).
Proof.
  unfold vet_outcome. eapply delivers_then; [apply delivers_returns, merge_handoff_answers|]. intros h _.
  eapply delivers_then; [apply delivers_returns, open_outcome_answers|]. intros o Ho.
  eapply delivers_then; [by apply check_outcome_observers_delivers|]. intros ids [Hi _].
  eapply delivers_then; [by apply check_evidence_delivers|]. intros _ _.
  eapply delivers_then; [by apply check_expected_delivers|]. intros _ _.
  eapply delivers_then.
  { apply check_handoff_delivers; [done|done|done|apply parse_certificate_stops|apply parse_certificate_delivers].
    apply ck_reference, Ho. }
  intros action Ha. eapply delivers_then.
  { apply check_handoff_delivers; [done|done|done|apply parse_receipt_stops|apply parse_receipt_delivers]. }
  intros receipt Hr. eapply delivers_then; [by apply check_outcome_observers_delivers|]. intros ids' [Hi' Hne].
  eapply delivers_then; [by apply check_binding_delivers|]. intros _ _.
  eapply delivers_then; [by apply check_outcome_window_delivers|]. intros _ _. by apply delivers_Go.
Qed.

Lemma derive_verdict_raises o ids e :
  outcome_ok o → roots_ok ids → derive_verdict o ids = Raise e → partly_applied (oc_predicate o).(ocp_reconciliation).
Proof.
  intros Ho Hi. pose proof (ok_predicate _ Ho) as [_ _ _ _ _ _ _ _ Hn _ _ Hco].
  assert (∀ b u reason, bool_decide (u ∈ UNSAFE_OUTCOME_REASONS) = true → unknown_outcome_reason reason = true →
    unsafe_if (A := OutcomeVerdict) b o u reason ids ≠ Raise e) as Hno.
  { intros b u reason Hu Hr Hx.
    destruct (unsafe_if_delivers (λ _, False) (λ _ : OutcomeVerdict, True) b o u reason ids Ho Hi Hu Hr) as [Hc _].
    by apply (Hc e). }
  unfold derive_verdict. cbv zeta. set (r := ocp_reconciliation _) in *. intros H.
  destruct (Z.ltb_spec (rc_expected_effect_count r) (success_count (rc_attempts r))); [by apply (Hno true _ OutcomeReason.EVIDENCE_SOURCE_INVALID) in H|].
  destruct (nonempty (rc_unresolved r)) eqn:Eu; [by apply Hno in H|].
  assert (rc_unresolved r = []) as Hu by (by destruct (rc_unresolved r)). rewrite Hu in H. cbn [length] in H. rewrite Nat.add_0_r in H.
  destruct (Z.eqb_spec (Z.of_nat (length (rc_attempts r))) (rc_expected_effect_count r)) as [El|]; cbn [negb] in H; [|by apply Hno in H].
  split; [done|]. split; [done|]. pose proof (success_count_le (rc_attempts r)).
  destruct (Z.eqb_spec (success_count (rc_attempts r)) (rc_expected_effect_count r)) as [Es|]; cbn [andb] in H.
  - exfalso. rewrite <- El in Es. pose proof (proj1 (success_count_all _) Es) as Hs.
    assert (forallb (λ item, bool_decide (ea_terminal_result item = EFFECT_COMMITTED)) (rc_attempts r) = true) as Hc; [|by rewrite Hc in H].
    apply forallb_forall. intros item Hin%list_elem_of_In. specialize (Hco item Hin). unfold attempt_consistent in Hco.
    rewrite (Hs item Hin) in Hco. apply require_Ok in Hco. by apply andb_true_iff in Hco as [? _].
  - destruct (Z.eqb_spec (success_count (rc_attempts r)) 0) as [Ez|]; [|lia]. exfalso. cbn [andb] in H.
    destruct (forallb _ _); [done|]. unfold unsafe_if in H. rewrite (proj2 (Z.ltb_ge 0 _)) in H by lia.
    by apply (Hno false OutcomeReason.OUTCOME_OBSERVER_SOD OutcomeReason.EFFECT_TERMINAL_INVALID) in H.
Qed.

Lemma index_result_returns o ids verdict status :
  outcome_ok o → roots_ok ids → ids ≠ [] → verdict_of (oc_predicate o).(ocp_reconciliation) verdict →
  returns (index_result o ids verdict status).
Proof.
  intros Ho Hi Hne Hv. unfold index_result. cbv zeta.
  assert (∀ reason, unknown_outcome_reason reason = true → returns (closure_result o OutcomeVerdict.UNKNOWN reason ids false))
    as Hu by (intros; by apply (closure_result_returns o OutcomeVerdict.UNKNOWN)).
  destruct status; try (by apply Hu); destruct Hv as [[-> _]|[-> _]].
  - by apply (closure_result_returns o OutcomeVerdict.PASS).
  - by apply (closure_result_returns o OutcomeVerdict.FAIL).
  - by apply (closure_result_returns o OutcomeVerdict.PASS).
  - by apply (closure_result_returns o OutcomeVerdict.FAIL).
Qed.
End total.

Lemma policy_outcome_threshold policy :
  TrustPolicy_validate policy = Ok policy → 1 ≤ policy.(tp_outcome_observer_threshold).
Proof.
  unfold TrustPolicy_validate. intros (? & Hc%require_Ok & _)%bind_Ok. apply andb_true_iff in Hc as [Hc _].
  do 2 apply andb_true_iff in Hc as [Hc _]. apply andb_true_iff in Hc as [_ Hc]. unfold within in Hc. lia.
Qed.

(** A naive clock is refused before anything else is looked at. *)
Lemma vet_outcome_any `{P : Platform} `{!PlatformLaws P} `{K : Ed25519} `{C : CertificateParser}
    `{!CertificateParserLaws C} load_receipt load_outcome `{!OutcomeParserLaws load_receipt load_outcome}
    policy now : TrustPolicy_validate policy = Ok policy → ∀ envelope_bytes a certificate_bytes receipt_bytes resolver,
  delivers out_of_calendar (vet_outcome load_receipt load_outcome envelope_bytes policy a certificate_bytes receipt_bytes
    now resolver) (λ x, outcome_ok (fst x) ∧ roots_ok (snd x) ∧ snd x ≠ []).
Proof.
  intros Hp envelope_bytes a certificate_bytes receipt_bytes resolver. destruct now as [t|t].
  - unfold vet_outcome. eapply delivers_then; [apply delivers_returns, merge_handoff_answers|]. intros h _.
    destruct (unopened_returns (A := OpenedOutcome) OutcomeReason.ENVELOPE_INVALID envelope_bytes None eq_refl) as [x Hx].
    eapply (delivers_then _ _ (λ _, False)); [|done]. unfold open_outcome. cbv zeta.
    cbn [is_ok _parse_wire_timestamp is_aware require mbind result_bind negb].
    split; [|by intros o ?%unopened_Go]. apply raises_returns. by exists x.
  - apply (vet_outcome_delivers load_receipt load_outcome policy (Aware t)); [by apply TrustPolicy_policy_ok|done|by apply policy_root_ids|].
    by apply policy_outcome_threshold.
Qed.

(** The result model refuses with a ValidationError. *)
Lemma closure_result_raise `{P : Platform} o status reason roots recorded e :
  closure_result o status reason roots recorded = Raise e → is_value_error e = true.
Proof.
  unfold closure_result, _outcome_result, OutcomeResult_validate. cbv zeta. intros H.
  repeat (apply bind_Raise in H as [H|(? & _ & H)]; [repeat case_match; by apply require_Raise in H as [_ ->]|]). done.
Qed.
Lemma derive_verdict_value_error `{P : Platform} o roots e : derive_verdict o roots = Raise e → is_value_error e = true.
Proof.
  assert (∀ {A} u o reason roots, closure_result o u reason roots false ≫= (λ r, Ok (Stop (A := A) r)) = Raise e → is_value_error e = true) as Hc.
  { intros A u o' reason roots' [H|(? & _ & H)]%bind_Raise; [by eapply closure_result_raise|done]. }
  unfold derive_verdict, unsafe_if, _unsafe, _unknown. cbv zeta. intros H. repeat case_match; try done; by eapply Hc.
Qed.
(** How the outcome verifier ends *)
Lemma verify_outcome_ends `{P : Platform} `{!PlatformLaws P} `{K : Ed25519} `{C : CertificateParser}
    `{!CertificateParserLaws C} `{OutcomeClosureIndex T}
    (load_receipt : string → result ExecutionReceiptStatement)
    (load_outcome : string → result OutcomeClosureStatement) `{!OutcomeParserLaws load_receipt load_outcome}
    (envelope_bytes : string) (policy : TrustPolicy) (a : HandoffArguments) (certificate_bytes receipt_bytes : string)
    (s : T) (now : datetime) (resolver : option EvidenceResolver) :
  TrustPolicy_validate policy = Ok policy →
  match snd (verify_outcome_closure load_receipt load_outcome envelope_bytes policy a certificate_bytes receipt_bytes s
          now resolver) with
  | Ok r => OutcomeResult_validate r = Ok r
  | Raise e => out_of_calendar e ∨ is_value_error e = true ∧ ∃ o roots,
      vet_outcome load_receipt load_outcome envelope_bytes policy a certificate_bytes receipt_bytes now resolver =
        Ok (Go (o, roots)) ∧ partly_applied (oc_predicate o).(ocp_reconciliation)
  end.
Proof.
  intros Hp. destruct (vet_outcome_any load_receipt load_outcome policy now Hp envelope_bytes a certificate_bytes
    receipt_bytes resolver) as [Hraise Hgo].
  pose proof (vet_outcome_stops load_receipt load_outcome envelope_bytes policy a certificate_bytes receipt_bytes now
    resolver) as Hstop.
  unfold verify_outcome_closure, assess_outcome, and_then.
  destruct (vet_outcome _ _ _ _ _ _ _ _ _) as [[r|[o roots]]|e] eqn:Hv; cbn [mbind result_bind snd].
  - by apply Hstop.
  - destruct (Hgo _ eq_refl) as (Ho & Hi & Hne). cbn [fst snd] in *.
    pose proof (derive_verdict_raises o roots) as Hdr. pose proof (derive_verdict_Go o roots) as Hdg.
    pose proof (derive_verdict_stops o roots) as Hds.
    destruct (derive_verdict o roots) as [[r|verdict]|e] eqn:Hd; cbn [mbind result_bind snd].
    + by apply Hds.
    + destruct (append_closure s (outcome_entry o)) as [s1 r1]. cbn [snd].
      destruct (index_result_returns o roots verdict match r1 with Ok st => st | Raise _ => OutcomeIndexStatus.UNAVAILABLE end
        Ho Hi Hne (Hdg _ eq_refl)) as [r Hr].
      rewrite Hr. by apply index_result_Ok in Hr as [? _].
    + right. split; [by eapply derive_verdict_value_error|]. exists o, roots. split; [done|]. by eapply Hdr.
  - left. by apply Hraise.
Qed.

