(* ===== verification/OutcomeDemo.v ===== *)
(** * An outcome, end to end

    The observers' closures of the execution in ReceiptDemo: one that reports the one
    expected effect as committed, and one that expects two and reports one of them as
    failed.  The hypotheses of the theorems about outcomes hold together. *)
From S2P Require Import Prelude Json Dicts PyTime PyDecimal Sha256 Canonical Base64 Platforms Models.
From S2P Require Import Checks CertModels CertLedger Evidence Certificate CertFacts CertSound CertTotal CertDemo.
From S2P Require Import ReceiptModels Receipt ReceiptFacts ReceiptSound ReceiptChain ReceiptDemo.
From S2P Require Import OutcomeModels OutcomeIndex Outcome OutcomeFacts OutcomeObservers OutcomeSound OutcomeChain.
From S2P Require Import OutcomeTotal.
Local Open Scope Z_scope.
#[local] Existing Instance toy_platform.
#[local] Existing Instance toy_platform_laws.

Definition receipt_result1 : ReceiptResult := Eval vm_compute in report recorded1.
Definition demo_receipt_ref : ExecutionReceiptReference := Eval vm_compute in
  mk_ExecutionReceiptReference "RECEIPT-1" (sha256_bytes receipt_payload_text) (sha256_bytes receipt_envelope_text)
    (value "" (execution_receipt_verification_sha256 receipt_result1)).
Definition demo_attempt (n : string) (status : EffectAttemptStatus) (terminal : EffectTerminalResult)
    (operation : option string) : EffectAttemptObservation :=
  mk_EffectAttemptObservation ("EFFECT-" +:+ n) ("TRY-" +:+ n) "write" "PKG-1" scope1 "KEY-1" status terminal operation
    no_sha no_sha no_sha no_sha.
Definition demo_closure (id : string) (count : Z) (attempts : list EffectAttemptObservation)
    : OutcomeClosureStatement :=
  mk_OutcomeClosureStatement IN_TOTO_STATEMENT_TYPE [] OUTCOME_CLOSURE_PREDICATE_TYPE
    (mk_OutcomeClosurePredicate "0.1" id "REQ-1" "TASK-1" "ATTEMPT-1" 1 None "TENANT-1" "CASE-1" (minute 0 8) demo_ref
      demo_receipt_ref (mk_OutcomeEvidenceSource LOCAL_BYTES "SOURCE-1" (minute 0 6) (minute 0 30) no_sha)
      (mk_OutcomeProducerDeclaration "PRODUCER-2" "observer" "1.0" ["OUTCOME-1"])
      (mk_EffectReconciliation "write" "PKG-1" scope1 "KEY-1" count attempts []) CLAIMED_PASS).
Definition committed1 : EffectAttemptObservation := demo_attempt "1" EFFECT_SUCCEEDED EFFECT_COMMITTED (Some "OP-1").
Definition closure1 : OutcomeClosureStatement := demo_closure "CLOSURE-1" 1 [committed1].
Definition closure2 : OutcomeClosureStatement :=
  demo_closure "CLOSURE-2" 2 [committed1; demo_attempt "2" EFFECT_FAILED EFFECT_REJECTED None].
Definition load_outcome : string → result OutcomeClosureStatement :=
  table OutcomeClosureStatement_validate
    [(outcome_payload_text "1", closure1); (outcome_payload_text "2", closure2)].

#[export] Instance demo_outcome_laws : OutcomeParserLaws load_receipt load_outcome.
Proof.
  split.
  - intros b x. apply table_valid. unfold ExecutionReceiptStatement_validate. intros y z H. by inv_ok.
  - intros b x. apply table_valid. unfold OutcomeClosureStatement_validate. intros y z H. by inv_ok.
  - intros b e. apply table_raise.
  - intros b e. apply table_raise.
Qed.

(** The operator expects the closure; its evidence is the empty text. *)
Definition handoff_of (closure : OutcomeClosureStatement) : HandoffArguments :=
  mk_HandoffArguments None None None (Some (expected_outcome_binding_for closure [no_sha] [no_sha]))
    (Some verification1) (Some receipt_result1).
Definition demo_evidence : option EvidenceResolver :=
  Some (evidence_resolve (mk_InMemoryOutcomeEvidenceResolver {[ no_sha := "" ]} 1024)).
Definition outcomes0 : InMemoryOutcomeClosureIndex := mk_InMemoryOutcomeClosureIndex 4 ∅ ∅ ∅ ∅.
Definition verify_outcome (n : string) (closure : OutcomeClosureStatement) (s : InMemoryOutcomeClosureIndex)
    : InMemoryOutcomeClosureIndex * result OutcomeResult :=
  verify_outcome_closure load_receipt load_outcome (outcome_envelope_text n) demo_policy (handoff_of closure)
    (envelope_text "1") receipt_envelope_text s later demo_evidence.
Definition passed1 : InMemoryOutcomeClosureIndex * result OutcomeResult := Eval vm_compute in verify_outcome "1" closure1 outcomes0.
Definition outcome_report (v : InMemoryOutcomeClosureIndex * result OutcomeResult) : OutcomeResult :=
  value (mk_OutcomeResult OutcomeVerdict.UNKNOWN [] None None "" [] false None None None None None None) (snd v).
Definition passed2 : InMemoryOutcomeClosureIndex * result OutcomeResult :=
  Eval vm_compute in verify_outcome "1" closure1 (fst passed1).
Lemma verify_passed1 :
  verify_outcome "1" closure1 outcomes0 = (fst passed1, Ok (outcome_report passed1)).
Proof. vm_compute. reflexivity. Qed.
Lemma verify_passed2 :
  verify_outcome "1" closure1 (fst passed1) = (fst passed2, Ok (outcome_report passed2)).
Proof. vm_compute. reflexivity. Qed.
Lemma demo_policy_valid : TrustPolicy_validate demo_policy = Ok demo_policy.
Proof. vm_compute. reflexivity. Qed.


Lemma outcome_sound_witness :
  ∃ h o st receipt issuers approvers witnesses observers,
    closed load_receipt load_outcome (outcome_envelope_text "1") demo_policy (handoff_of closure1) (envelope_text "1")
      receipt_envelope_text later demo_evidence h o st receipt issuers approvers witnesses observers ∧
    all_committed (oc_predicate o).(ocp_reconciliation) ∧
    records_outcome outcomes0 o OutcomeVerdict.PASS observers (fst passed1) (outcome_report passed1).
Proof.
  exact (outcome_sound load_receipt load_outcome (outcome_envelope_text "1") demo_policy (handoff_of closure1)
    (envelope_text "1") receipt_envelope_text outcomes0 (fst passed1) later demo_evidence (outcome_report passed1)
    demo_policy_valid verify_passed1).
Defined.

Lemma outcome_is_final_witness :
  (outcome_report passed2).(ocv_reason_codes) ∈
    [[OutcomeReason.PASS_ALREADY_PRESENT]; [OutcomeReason.FAIL_ALREADY_PRESENT]].
Proof.
  destruct (outcome_is_final load_receipt load_outcome (outcome_envelope_text "1") (outcome_envelope_text "1")
    (envelope_text "1") (envelope_text "1") receipt_envelope_text receipt_envelope_text demo_policy demo_policy
    (handoff_of closure1) (handoff_of closure1) demo_evidence demo_evidence later later outcomes0 (fst passed1)
    (fst passed1) (fst passed2) (outcome_report passed1) (outcome_report passed2) demo_policy_valid demo_policy_valid
    verify_passed1) as (o1 & o2 & H1 & H2 & H).
  - apply rtc_refl.
  - exact verify_passed2.
  - left.
  - reflexivity.
  - reflexivity.
  - left.
Defined.

Definition vet2 : result (checked OutcomeResult (OpenedOutcome * list string)) := Eval vm_compute in
  vet_outcome load_receipt load_outcome (outcome_envelope_text "2") demo_policy (handoff_of closure2)
    (envelope_text "1") receipt_envelope_text later demo_evidence.
Lemma vetted2 : vet_outcome load_receipt load_outcome (outcome_envelope_text "2") demo_policy (handoff_of closure2)
    (envelope_text "1") receipt_envelope_text later demo_evidence = vet2.
Proof. vm_compute. reflexivity. Qed.
Lemma partial_success_raises_witness :
  ∃ e, verify_outcome_closure load_receipt load_outcome (outcome_envelope_text "2") demo_policy (handoff_of closure2)
    (envelope_text "1") receipt_envelope_text outcomes0 later demo_evidence = (outcomes0, Raise e) ∧
    is_value_error e = true.
Proof.
  pose proof vetted2 as E. unfold vet2 in E. eapply partial_success_raises.
  - exact E.
  - repeat split; reflexivity.
Defined.

Lemma outcome_of_authorized_action_witness :
  ∃ c issuers0 approvers0 o, authorized (envelope_text "1") demo_policy (expected_binding_for statement1) resolver1
    demo_now c issuers0 approvers0 ∧ all_committed (oc_predicate o).(ocp_reconciliation).
Proof.
  destruct (outcome_of_authorized_action load_receipt load_outcome (envelope_text "1") receipt_envelope_text
    (outcome_envelope_text "1") demo_policy demo_policy demo_policy (expected_binding_for statement1) demo_expected
    (handoff_of closure1) resolver1 demo_evidence demo_now later later ledger0 (fst verify1) index0 (fst recorded1)
    outcomes0 (fst passed1) verification1 (report recorded1) (outcome_report passed1))
    as (c & issuers0 & approvers0 & o1 & issuers1 & approvers1 & witnesses1 & h & o & issuers & approvers & witnesses
        & observers & H & _ & _ & _ & _ & Hc & _).
  - exact demo_policy_valid.
  - exact demo_policy_valid.
  - exact demo_policy_valid.
  - exact verified1.
  - exact receipt_recorded1.
  - reflexivity.
  - reflexivity.
  - exact verify_passed1.
  - reflexivity.
  - exists c, issuers0, approvers0, o. split; [exact H|exact Hc].
Defined.

