(* ===== verification/HttpFraming.v ===== *)
(** * tool_server.py: the framing grammar of a request

    A [bytes] value is the list of its bytes.  The recognisers for chunk size lines, chunk
    extensions, trailer lines and header values follow the code; where the code keeps an
    index into immutable bytes, a definition here keeps the bytes from that index on.
    The extension grammar is stated apart ([chunk_ext]) and the recogniser decides it. *)
From S2P Require Import Prelude Json.
Local Open Scope Z_scope.

Definition bytes : Type := list ascii.
Definition lit (s : string) : bytes := list_ascii_of_string s.
Definition CR : ascii := ascii_of_nat 13.
Definition LF : ascii := ascii_of_nat 10.
Definition HTAB : ascii := ascii_of_nat 9.
Definition CRLF : bytes := [CR; LF].

Definition MAX_JSON_NESTING : nat := 64.
Definition MAX_CHUNK_LINE_BYTES : nat := Z.to_nat 8192.
Definition MAX_CHUNK_TRAILER_BYTES : nat := Z.to_nat 16384.
Definition _HTTP_TOKEN_CHARACTERS : string :=
  "!#$%&'*+-.^_`|~0123456789ABCDEFGHIJKLMNOPQRSTUVWXYZabcdefghijklmnopqrstuvwxyz".
Definition _HEX_CHARACTERS : string := "0123456789ABCDEFabcdef".
Definition _FORBIDDEN_TRAILER_FIELDS : list bytes :=
  [lit "authorization"; lit "connection"; lit "content-length"; lit "content-type"; lit "host"; lit "trailer";
   lit "transfer-encoding"].

Definition is_token_char (c : ascii) : bool := ascii_in _HTTP_TOKEN_CHARACTERS c.
Definition is_hex_char (c : ascii) : bool := ascii_in _HEX_CHARACTERS c.
Definition is_ows (c : ascii) : bool := Ascii.eqb c " " || Ascii.eqb c HTAB.
Definition is_empty {A} (l : list A) : bool := match l with [] => true | _ => false end.

(** The longest prefix of bytes that satisfy [p], and the rest *)
Fixpoint span (p : ascii → bool) (l : bytes) : bytes * bytes :=
  match l with
  | [] => ([], [])
  | c :: r => if p c then let '(a, b) := span p r in (c :: a, b) else ([], l)
  end.

(** [line[:-2]] of a line that ends in CR LF *)
Definition strip_crlf (line : bytes) : option bytes :=
  match rev line with
  | lf :: cr :: raw => if Ascii.eqb lf LF && Ascii.eqb cr CR then Some (rev raw) else None
  | _ => None
  end.

(** [int(token, 16)] *)
Definition hex_int (token : bytes) : Z :=
  foldl (λ n c, 16 * n + from_option Z.of_N 0 (hex_value c)) 0 token.

Definition lower_byte (c : ascii) : ascii := if in_range 65 90 c then ascii_of_nat (nat_of_ascii c + 32) else c.
Definition lower (l : bytes) : bytes := map lower_byte l.

(** ** Chunk extensions *)
Definition _skip_optional_whitespace (value : bytes) : bytes := snd (span is_ows value).
Definition _consume_token (value : bytes) : bytes := snd (span is_token_char value).

Definition is_quoted_text (c : ascii) : bool :=
  Ascii.eqb c HTAB || in_range 32 33 c || in_range 35 91 c || in_range 93 126 c.
Definition is_field_char (c : ascii) : bool := Ascii.eqb c HTAB || in_range 32 126 c.
(** From inside the quotes to what follows the closing one *)
Fixpoint quoted_tail (value : bytes) : option bytes :=
  match value with
  | [] => None
  | c :: r =>
      if Ascii.eqb c dquote then Some r
      else if Ascii.eqb c backslash then
        match r with
        | d :: r => if is_field_char d then quoted_tail r else None
        | [] => None
        end
      else if is_quoted_text c then quoted_tail r else None
  end.
Definition _consume_quoted_string (value : bytes) : option bytes := quoted_tail (tail value).

(** The optional value of a parameter *)
Definition extension_value (value : bytes) : option bytes :=
  match value with
  | c :: r =>
      if Ascii.eqb c "=" then
        let r := _skip_optional_whitespace r in
        match r with
        | [] => None
        | d :: _ =>
            if Ascii.eqb d dquote then _consume_quoted_string r
            else let after := _consume_token r in
                 if Nat.eqb (length after) (length r) then None else Some after
        end
      else Some value
  | [] => Some value
  end.
(** Each round consumes a semicolon, so the length of the text bounds their number. *)
Fixpoint extensions_loop (fuel : nat) (rest : bytes) : bool :=
  match rest, fuel with
  | [], _ => true
  | _, O => false
  | _, S fuel =>
      match _skip_optional_whitespace rest with
      | c :: rest =>
          if negb (Ascii.eqb c ";") then false
          else
            let name := _skip_optional_whitespace rest in
            let after := _consume_token name in
            if Nat.eqb (length after) (length name) then false
            else
              match extension_value (_skip_optional_whitespace after) with
              | None => false
              | Some rest =>
                  let rest := _skip_optional_whitespace rest in
                  match rest with
                  | d :: _ => if negb (Ascii.eqb d ";") then false else extensions_loop fuel rest
                  | [] => extensions_loop fuel rest
                  end
              end
      | [] => false
      end
  end.
Definition _valid_chunk_extensions (extensions : bytes) : bool := extensions_loop (length extensions) extensions.

Definition _parse_chunk_size (line : bytes) : option Z :=
  match strip_crlf line with
  | None => None
  | Some raw =>
      let '(size_token, extensions) := span (λ c, negb (Ascii.eqb c ";")) raw in
      if is_empty size_token || negb (forallb is_hex_char size_token) then None
      else if negb (is_empty extensions) && negb (_valid_chunk_extensions extensions) then None
      else Some (hex_int size_token)
  end.

Definition _valid_trailer_line (line : bytes) : bool :=
  match strip_crlf line with
  | None => false
  | Some field =>
      let '(name, rest) := span (λ c, negb (Ascii.eqb c ":")) field in
      if is_empty rest || is_empty name || negb (forallb is_token_char name) then false
      else if bool_decide (lower name ∈ _FORBIDDEN_TRAILER_FIELDS) then false
      else forallb is_field_char (tail rest)
  end.

(** A header value holds Latin-1 characters, one per byte. *)
Definition drop_ows_right (l : bytes) : bytes := rev (snd (span is_ows (rev l))).
Definition _strict_http_ows_value (value : bytes) : option bytes :=
  if existsb (λ c, (126 <? nat_of_ascii c)%nat || (nat_of_ascii c =? 127)%nat ||
                   ((nat_of_ascii c <? 32)%nat && negb (Ascii.eqb c HTAB))) value then None
  else Some (drop_ows_right (snd (span is_ows value))).

(** ** The grammar of chunk extensions *)
Definition ows (l : bytes) : Prop := Forall (λ c, is_ows c = true) l.
Definition token (l : bytes) : Prop := l ≠ [] ∧ Forall (λ c, is_token_char c = true) l.
Inductive quoted_body : bytes → Prop :=
| quoted_nil : quoted_body []
| quoted_text c l : is_quoted_text c = true → quoted_body l → quoted_body (c :: l)
| quoted_pair c l : is_field_char c = true → quoted_body l → quoted_body (backslash :: c :: l).
Inductive ext_value : bytes → Prop :=
| value_none : ext_value []
| value_token w l : ows w → token l → ext_value ("="%char :: w ++ l)
| value_quoted w l : ows w → quoted_body l → ext_value ("="%char :: w ++ dquote :: l ++ [dquote]).
Inductive chunk_ext : bytes → Prop :=
| ext_nil : chunk_ext []
| ext_cons w1 name w2 value w3 rest : ows w1 → token name → ows w2 → ext_value value → ows w3 → chunk_ext rest →
    chunk_ext (";"%char :: w1 ++ name ++ w2 ++ value ++ w3 ++ rest).
(** What a chunk size line says *)
Definition size_line (line : bytes) (n : Z) : Prop :=
  ∃ size_token extensions, line = size_token ++ extensions ++ CRLF ∧ size_token ≠ [] ∧
    Forall (λ c, is_hex_char c = true) size_token ∧ n = hex_int size_token ∧ chunk_ext extensions.

(** ** Prefixes *)
Definition stops (p : ascii → bool) (l : bytes) : Prop := match l with [] => True | c :: _ => p c = false end.
Definition all (p : ascii → bool) (l : bytes) : Prop := Forall (λ c, p c = true) l.

Lemma span_app p a b : all p a → stops p b → span p (a ++ b) = (a, b).
Proof.
  intros Ha Hb. induction Ha as [|c a Hc _ IH]; cbn.
  - destruct b as [|d b]; cbn in *; [done|by rewrite Hb].
  - by rewrite Hc, IH.
Qed.
Lemma span_spec p l : ∃ a b, span p l = (a, b) ∧ l = a ++ b ∧ all p a ∧ stops p b.
Proof.
  induction l as [|c l (a & b & IH & -> & Ha & Hb)]; cbn; [by exists [], []; repeat split; constructor|].
  destruct (p c) eqn:E.
  - rewrite IH. exists (c :: a), b. repeat split; [by constructor|done].
  - exists [], (c :: a ++ b). repeat split; [constructor|exact E].
Qed.
Lemma forallb_all p l : forallb p l = true ↔ all p l.
Proof. unfold all. rewrite forallb_forall, Forall_forall. by setoid_rewrite list_elem_of_In. Qed.
Lemma is_empty_true {A} (l : list A) : is_empty l = true ↔ l = [].
Proof. by destruct l. Qed.

Lemma strip_crlf_Some line raw : strip_crlf line = Some raw ↔ line = raw ++ CRLF.
Proof.
  unfold strip_crlf. split.
  - destruct (rev line) as [|lf [|cr l]] eqn:E; try done.
    destruct (Ascii.eqb_spec lf LF) as [->|]; [|done]. destruct (Ascii.eqb_spec cr CR) as [->|]; [|done].
    intros [= <-]. rewrite <- (rev_involutive line), E. cbn. by rewrite <- app_assoc.
  - intros ->. rewrite rev_app_distr. cbn. by rewrite rev_involutive.
Qed.

(** The bytes that matter are in different classes. *)
Lemma ows_cases c : is_ows c = true → is_token_char c = false ∧ c ≠ ";"%char ∧ c ≠ "="%char ∧ c ≠ dquote.
Proof. destruct c as [[] [] [] [] [] [] [] []]; try done; by vm_compute. Qed.
Lemma token_cases c : is_token_char c = true → is_ows c = false ∧ c ≠ ";"%char ∧ c ≠ "="%char ∧ c ≠ dquote.
Proof. destruct c as [[] [] [] [] [] [] [] []]; try done; by vm_compute. Qed.
Lemma quoted_cases c : is_quoted_text c = true → c ≠ dquote ∧ c ≠ backslash.
Proof. destruct c as [[] [] [] [] [] [] [] []]; try done; by vm_compute. Qed.
Lemma hex_cases c : is_hex_char c = true → c ≠ ";"%char.
Proof. destruct c as [[] [] [] [] [] [] [] []]; try done; by vm_compute. Qed.

Lemma skip_app w l : ows w → stops is_ows l → _skip_optional_whitespace (w ++ l) = l.
Proof. intros Hw Hl. unfold _skip_optional_whitespace. by rewrite span_app. Qed.
Lemma skip_spec l : ∃ w, l = w ++ _skip_optional_whitespace l ∧ ows w ∧ stops is_ows (_skip_optional_whitespace l).
Proof.
  unfold _skip_optional_whitespace. destruct (span_spec is_ows l) as (w & r & -> & -> & Hw & Hr). by exists w.
Qed.
Lemma consume_app t l : all is_token_char t → stops is_token_char l → _consume_token (t ++ l) = l.
Proof. intros Ht Hl. unfold _consume_token. by rewrite span_app. Qed.
Lemma consume_spec l : ∃ t, l = t ++ _consume_token l ∧ all is_token_char t.
Proof. unfold _consume_token. destruct (span_spec is_token_char l) as (t & r & -> & -> & Ht & _). by exists t. Qed.
Lemma consumed l : Nat.eqb (length (_consume_token l)) (length l) = false → ∃ t, l = t ++ _consume_token l ∧ token t.
Proof.
  destruct (consume_spec l) as (t & Hl & Ht). intros H. exists t. split; [done|]. split; [|done].
  intros ->. cbn in Hl. by rewrite <- Hl, Nat.eqb_refl in H.
Qed.

(** ** The recognisers decide the grammar *)
Lemma quoted_tail_app b r : quoted_body b → quoted_tail (b ++ dquote :: r) = Some r.
Proof.
  induction 1 as [|c l Hc _ IH|c l Hc _ IH]; [done| |]; cbn [app quoted_tail].
  - destruct (quoted_cases c Hc) as [H1 H2]. rewrite (proj2 (Ascii.eqb_neq _ _) H1), (proj2 (Ascii.eqb_neq _ _) H2).
    by rewrite Hc.
  - by rewrite Hc.
Qed.
Lemma quoted_tail_Some n v r : (length v ≤ n)%nat → quoted_tail v = Some r → ∃ b, v = b ++ dquote :: r ∧ quoted_body b.
Proof.
  revert v; induction n as [|n IH]; intros [|c v] Hn; cbn [length quoted_tail] in *; try done; [lia|].
  destruct (Ascii.eqb_spec c dquote) as [->|_].
  { intros [= ->]. exists []. split; [done|constructor]. }
  destruct (Ascii.eqb_spec c backslash) as [->|_].
  - destruct v as [|d v]; [done|]. destruct (is_field_char d) eqn:E; [|done]. cbn [length] in Hn.
    intros (b & -> & Hb)%IH; [|lia]. exists (backslash :: d :: b). split; [done|by constructor].
  - destruct (is_quoted_text c) eqn:E; [|done]. intros (b & -> & Hb)%IH; [|lia].
    exists (c :: b). split; [done|by constructor].
Qed.

(** What may follow a parameter: whitespace, a semicolon or nothing *)
Definition ends_param (c : ascii) : bool := negb (is_ows c || Ascii.eqb c ";").
Lemma ends_param_cases l : stops ends_param l → stops is_token_char l ∧ stops (λ c, Ascii.eqb c "=") l.
Proof.
  destruct l as [|c l]; [done|]. cbn. unfold ends_param. rewrite negb_false_iff, orb_true_iff.
  intros [H|H%Ascii.eqb_eq]; [|by subst].
  destruct (ows_cases c H) as (H1 & _ & H2 & _). split; [done|by apply Ascii.eqb_neq].
Qed.
Lemma ext_starts l : chunk_ext l → stops is_ows l ∧ stops ends_param l.
Proof. by destruct 1. Qed.
Lemma ows_ends w l : ows w → stops ends_param l → stops ends_param (w ++ l).
Proof. intros [|c w' Hc _] Hl; [done|]. cbn. unfold ends_param. by rewrite Hc. Qed.

Lemma extension_value_app x r : ext_value x → stops ends_param r → extension_value (x ++ r) = Some r.
Proof.
  intros Hx Hr. destruct (ends_param_cases r Hr) as [Ht He]. destruct Hx as [|w l Hw [Hne Hl]|w l Hw Hl].
  - destruct r as [|c r]; [done|]. cbn in He |- *. by rewrite He.
  - rewrite <- app_comm_cons, <- app_assoc. cbn [extension_value]. cbn [Ascii.eqb Bool.eqb].
    destruct Hl as [|c l Hc Hl]; [done|]. destruct (token_cases c Hc) as (H1 & _ & _ & H2).
    rewrite skip_app by done. cbn [app]. rewrite (proj2 (Ascii.eqb_neq _ _) H2).
    rewrite app_comm_cons, consume_app by (by constructor || done).
    rewrite (proj2 (Nat.eqb_neq _ _)); [done|]. rewrite length_app. cbn. lia.
  - rewrite <- app_comm_cons, <- app_assoc. cbn [extension_value]. cbn [Ascii.eqb Bool.eqb].
    rewrite skip_app by done. cbn [app]. rewrite (Ascii.eqb_refl dquote). unfold _consume_quoted_string. cbn [tail].
    rewrite <- app_assoc. by apply quoted_tail_app.
Qed.
Lemma extension_value_Some v r : extension_value v = Some r → ∃ x, v = x ++ r ∧ ext_value x.
Proof.
  destruct v as [|c v]; cbn [extension_value].
  { intros [= <-]. exists []. split; [done|constructor]. }
  destruct (Ascii.eqb_spec c "=") as [->|_].
  2:{ intros [= <-]. exists []. split; [done|constructor]. }
  destruct (skip_spec v) as (w & Hv & Hw & _).
  destruct (_skip_optional_whitespace v) as [|d u]; [done|].
  destruct (Ascii.eqb_spec d dquote) as [->|_].
  - unfold _consume_quoted_string. cbn [tail]. intros (b & -> & Hb)%(quoted_tail_Some (length u)); [|done]. rewrite Hv.
    exists ("="%char :: w ++ dquote :: b ++ [dquote]). split; [|by constructor].
    cbn. by rewrite <- !app_assoc, <- app_comm_cons, <- app_assoc.
  - destruct (Nat.eqb _ _) eqn:E; [done|]. intros [= <-]. apply consumed in E as (t & Ht & Htok). rewrite Hv.
    exists ("="%char :: w ++ t). split; [|by constructor]. cbn. by rewrite <- app_assoc, <- Ht.
Qed.

Lemma extensions_loop_complete l fuel : chunk_ext l → (length l ≤ fuel)%nat → extensions_loop fuel l = true.
Proof.
  intros Hl. revert fuel. induction Hl as [|w1 name w2 value w3 rest Hw1 [Hne Hname] Hw2 Hvalue Hw3 Hrest IH];
    intros [|fuel] Hf; try done; [cbn in Hf; lia|].
  destruct (ext_starts rest Hrest) as [Hs Hend]. cbn [extensions_loop].
  change (_skip_optional_whitespace (";"%char :: ?l)) with (";"%char :: l). cbn [Ascii.eqb Bool.eqb negb].
  assert (stops is_ows (name ++ w2 ++ value ++ w3 ++ rest)) as Hn.
  { destruct Hname as [|c t Hc _]; [done|]. exact (proj1 (token_cases c Hc)). }
  assert (stops is_token_char (w2 ++ value ++ w3 ++ rest)) as Ht.
  { destruct Hw2 as [|c t Hc _]; [|exact (proj1 (ows_cases c Hc))].
    destruct Hvalue; [|done|done]. exact (proj1 (ends_param_cases _ (ows_ends _ _ Hw3 Hend))). }
  rewrite skip_app, consume_app by done.
  rewrite (proj2 (Nat.eqb_neq _ _)) by (rewrite (length_app name); destruct name; [done|cbn; lia]).
  assert (∃ w, ows w ∧ extension_value (_skip_optional_whitespace (w2 ++ value ++ w3 ++ rest)) = Some (w ++ rest))
    as (w & Hw & ->).
  { destruct (decide (value = [])) as [->|Hv].
    - exists []. split; [constructor|]. cbn [app]. rewrite (app_assoc w2), skip_app by (by apply Forall_app_2 || done).
      by apply (extension_value_app []); [constructor|].
    - exists w3. split; [done|]. rewrite skip_app; [|done|by destruct Hvalue].
      apply extension_value_app; [done|by apply ows_ends]. }
  rewrite skip_app by done. cbn [length] in Hf. rewrite !length_app in Hf.
  destruct Hrest; [|cbn [Ascii.eqb Bool.eqb negb]]; apply IH; lia.
Qed.

Lemma extensions_loop_sound fuel l : extensions_loop fuel l = true → ∃ w e, l = w ++ e ∧ ows w ∧ chunk_ext e.
Proof.
  revert l; induction fuel as [|fuel IH]; intros [|c0 l0]; cbn [extensions_loop]; try done;
    try by intros _; exists [], []; repeat constructor.
  destruct (skip_spec (c0 :: l0)) as (w & Hl & Hw & _).
  destruct (_skip_optional_whitespace (c0 :: l0)) as [|c r]; [done|].
  destruct (Ascii.eqb_spec c ";") as [->|]; [|done]. cbn [negb].
  destruct (skip_spec r) as (w1 & Hr & Hw1 & _). set (name := _skip_optional_whitespace r) in *.
  destruct (Nat.eqb _ _) eqn:E; [done|]. apply consumed in E as (t & Ht & Htok).
  set (after := _consume_token name) in *. destruct (skip_spec after) as (w2 & Ha & Hw2 & _).
  destruct (extension_value _) as [v|] eqn:Ev; [|done]. apply extension_value_Some in Ev as (x & Hx & Hvalue).
  destruct (skip_spec v) as (w3 & Hv & Hw3 & Hs). set (rest := _skip_optional_whitespace v) in *. intros H.
  assert (extensions_loop fuel rest = true) as (w4 & e & He & Hw4 & Hext)%IH.
  { destruct rest as [|d rest']; [done|]. by destruct (Ascii.eqb d ";"). }
  exists w, (";"%char :: w1 ++ t ++ w2 ++ x ++ (w3 ++ w4) ++ e). repeat split; [|done|].
  - rewrite Hl, Hr, Ht, Ha, Hx, Hv, He. by rewrite <- !app_assoc.
  - constructor; try done. by apply Forall_app_2.
Qed.

(** A chunk size line is hexadecimal digits and extensions. *)
Lemma parse_chunk_size_exact line n : _parse_chunk_size line = Some n ↔ size_line line n.
Proof.
  unfold _parse_chunk_size. split.
  - destruct (strip_crlf line) as [raw|] eqn:E; [|done]. apply strip_crlf_Some in E as ->.
    destruct (span_spec (λ c, negb (Ascii.eqb c ";")) raw) as (size & ext & -> & -> & _ & Hs).
    destruct (is_empty size || _) eqn:E1; [done|]. apply orb_false_iff in E1 as [E1 E2].
    apply negb_false_iff, forallb_all in E2. destruct (negb (is_empty ext) && _) eqn:E3; [done|]. intros [= <-].
    exists size, ext. rewrite <- app_assoc. repeat split; [by destruct size|done|].
    destruct ext as [|c ext]; [constructor|]. cbn in Hs. apply negb_false_iff, Ascii.eqb_eq in Hs as ->.
    apply andb_false_iff in E3 as [E3|E3]; apply negb_false_iff in E3; [done|].
    apply extensions_loop_sound in E3 as (w & e & He & Hw & Hext). destruct Hw as [|d w Hd _]; [by rewrite He|].
    injection He as <- _. by destruct (ows_cases ";"%char Hd) as (_ & ? & _).
  - intros (size & ext & -> & Hne & Hhex & -> & Hext). rewrite app_assoc.
    rewrite (proj2 (strip_crlf_Some _ _) eq_refl). rewrite span_app.
    + rewrite (proj2 (forallb_all _ _) Hhex). destruct size; [done|]. cbn [is_empty orb negb].
      unfold _valid_chunk_extensions. rewrite extensions_loop_complete by done. by rewrite andb_false_r.
    + eapply Forall_impl; [exact Hhex|]. intros c Hc. cbn.
      by rewrite (proj2 (Ascii.eqb_neq _ _) (hex_cases c Hc)).
    + by destruct Hext.
Qed.
Lemma valid_trailer_line_ends line : _valid_trailer_line line = true → ∃ field, line = field ++ CRLF.
Proof.
  unfold _valid_trailer_line. destruct (strip_crlf line) as [f|] eqn:E; [|done]. exists f. by apply strip_crlf_Some.
Qed.
