(* ===== verification/HttpReader.v ===== *)
(** * tool_server.py: the request reader

    [Reader] is [_DeadlineRequestReader]: the bytes it has buffered and what its stream
    will still deliver.  A read of the stream returns one arrival, or the part of it the
    caller asked for; an empty arrival is the end of the stream, and after the last
    arrival the peer has closed or the deadline has passed ([rd_late]).  The chunked
    decoder is written against [ByteSource]; the laws say that a source is a text that
    is consumed from the left, however it arrives. *)
From S2P Require Import Prelude Json Stateful HttpFraming.

(** [except _BodyLineTooLong] *)
Definition too_long_as {R A} (e : exn) (m : stateful R A) : stateful R A := λ r,
  let '(r, x) := m r in (r, match x with Raise BodyLineTooLong => Raise e | _ => x end).

Class ByteSource (R : Type) := {
  read_exact : nat → stateful R bytes;
  read_line : nat → stateful R bytes;
  remaining : R → nat;
}.

(** The first line of a text, with its newline, if it has at most [limit] bytes *)
Inductive line_cut := Line (line rest : bytes) | TooLong | Incomplete.
Definition not_newline (c : ascii) : bool := negb (Ascii.eqb c LF).
Definition cut_line (limit : nat) (text : bytes) : line_cut :=
  match span not_newline text with
  | (line, newline :: rest) => if limit <? S (length line) then TooLong else Line (line ++ [newline]) rest
  | (_, []) => if limit <=? length text then TooLong else Incomplete
  end%nat.

Class ByteSourceLaws (R : Type) `{ByteSource R} := {
  text_of : R → bytes;
  failure_of : R → exn;
  failure_kind r : failure_of r = RequestReadTimeout ∨ failure_of r = BodyUnexpectedEOF;
  remaining_text r : remaining r = length (text_of r);
  read_exact_law n r :
    if (n <=? length (text_of r))%nat then
      ∃ r', read_exact n r = (r', Ok (take n (text_of r))) ∧ text_of r' = drop n (text_of r) ∧
        failure_of r' = failure_of r
    else ∃ r', read_exact n r = (r', Raise (failure_of r));
  read_line_law limit r :
    match cut_line limit (text_of r) with
    | Line line rest => ∃ r', read_line limit r = (r', Ok line) ∧ text_of r' = rest ∧ failure_of r' = failure_of r
    | TooLong => ∃ r', read_line limit r = (r', Raise BodyLineTooLong)
    | Incomplete => ∃ r', read_line limit r = (r', Raise (failure_of r))
    end;
}.

(** ** The reader *)
Record Reader := mk_Reader {
  rd_buffer : bytes;
  rd_arrivals : list bytes;
  rd_late : bool;
}.
Definition buffered (r : Reader) (buffer : bytes) : Reader := mk_Reader buffer r.(rd_arrivals) r.(rd_late).

Definition _take (size : nat) : stateful Reader bytes := λ r,
  (buffered r (drop size r.(rd_buffer)), Ok (take size r.(rd_buffer))).

(** One [read1]; what it returns is appended to the buffer. *)
Definition _read_from_stream (max_bytes : nat) : stateful Reader unit := λ r,
  match r.(rd_arrivals) with
  | [] => (r, Raise (if r.(rd_late) then RequestReadTimeout else BodyUnexpectedEOF))
  | [] :: later => (mk_Reader r.(rd_buffer) later r.(rd_late), Raise BodyUnexpectedEOF)
  | chunk :: later =>
      let later := if (length chunk <=? max_bytes)%nat then later else drop max_bytes chunk :: later in
      (mk_Reader (r.(rd_buffer) ++ take max_bytes chunk) later r.(rd_late), Ok ())
  end.

Fixpoint delivered (arrivals : list bytes) : bytes :=
  match arrivals with
  | [] | [] :: _ => []
  | chunk :: later => chunk ++ delivered later
  end.
(** Each round reads at least one byte. *)
Definition rounds (r : Reader) : nat := S (length (delivered r.(rd_arrivals))).

Fixpoint exact_loop (fuel size : nat) (r : Reader) : Reader * result bytes :=
  if (length r.(rd_buffer) <? size)%nat then
    match fuel with
    | O => (r, Raise (Unmodelled "fuel"))
    | S fuel =>
        match _read_from_stream (Nat.min (Z.to_nat 65536) (size - length r.(rd_buffer))) r with
        | (r, Ok _) => exact_loop fuel size r
        | (r, Raise e) => (r, Raise e)
        end
    end
  else _take size r.
Definition reader_read_exact (size : nat) : stateful Reader bytes := λ r, exact_loop (rounds r) size r.

Fixpoint line_loop (fuel limit : nat) (r : Reader) : Reader * result bytes :=
  match span not_newline r.(rd_buffer) with
  | (line, _ :: _) => if (limit <? S (length line))%nat then (r, Raise BodyLineTooLong) else _take (S (length line)) r
  | (_, []) =>
      if (limit <=? length r.(rd_buffer))%nat then (r, Raise BodyLineTooLong)
      else
        match fuel with
        | O => (r, Raise (Unmodelled "fuel"))
        | S fuel =>
            match _read_from_stream (Nat.min 4096 (limit - length r.(rd_buffer))) r with
            | (r, Ok _) => line_loop fuel limit r
            | (r, Raise e) => (r, Raise e)
            end
        end
  end.
Definition reader_read_line (limit : nat) : stateful Reader bytes := λ r, line_loop (rounds r) limit r.

(** [readline], for the parser of the request line and the headers: at the end of the stream
    it returns what is there. *)
Definition within (limit : option nat) (n : nat) : nat := from_option (λ l, Nat.min n l) n limit.
Fixpoint readline_loop (fuel : nat) (limit : option nat) (r : Reader) : Reader * result bytes :=
  match span not_newline r.(rd_buffer) with
  | (line, _ :: _) => _take (within limit (S (length line))) r
  | (_, []) =>
      let held := length r.(rd_buffer) in
      if from_option (λ l, l <=? held)%nat false limit then _take (from_option id held limit) r
      else
        match fuel with
        | O => (r, Raise (Unmodelled "fuel"))
        | S fuel =>
            match _read_from_stream (from_option (λ l, Nat.min 4096 (l - held)) 4096%nat limit) r with
            | (r, Ok _) => readline_loop fuel limit r
            | (r, Raise BodyUnexpectedEOF) => if is_empty r.(rd_buffer) then (r, Ok []) else _take (within limit held) r
            | (r, Raise e) => (r, Raise e)
            end
        end
  end.
Definition readline (size : Z) : stateful Reader bytes := λ r,
  if (size =? 0)%Z then (r, Ok [])
  else readline_loop (rounds r) (if (size <? 0)%Z then None else Some (Z.to_nat size)) r.

#[export] Instance reader_source : ByteSource Reader := {|
  read_exact := reader_read_exact;
  read_line := reader_read_line;
  remaining r := length (r.(rd_buffer) ++ delivered r.(rd_arrivals));
|}.

(** ** The text of a reader *)
Definition reader_text (r : Reader) : bytes := r.(rd_buffer) ++ delivered r.(rd_arrivals).
(** How it ends: an empty arrival comes before the deadline. *)
Fixpoint stream_end (late : bool) (arrivals : list bytes) : exn :=
  match arrivals with
  | [] => if late then RequestReadTimeout else BodyUnexpectedEOF
  | [] :: _ => BodyUnexpectedEOF
  | _ :: later => stream_end late later
  end.
Definition reader_end (r : Reader) : exn := stream_end r.(rd_late) r.(rd_arrivals).

Lemma stream_end_kind late l : stream_end late l = RequestReadTimeout ∨ stream_end late l = BodyUnexpectedEOF.
Proof. induction l as [|[|c b] l IH]; cbn; [destruct late; auto|by right|exact IH]. Qed.

(** A read fails as the stream ends, when nothing is left; otherwise it moves bytes from the
    stream to the buffer. *)
Lemma read_from_stream_spec m r : (0 < m)%nat →
  (delivered r.(rd_arrivals) = [] ∧ ∃ r', _read_from_stream m r = (r', Raise (reader_end r)) ∧
    r'.(rd_buffer) = r.(rd_buffer)) ∨
  ∃ r', _read_from_stream m r = (r', Ok ()) ∧ reader_text r' = reader_text r ∧ reader_end r' = reader_end r ∧
    (rounds r' < rounds r)%nat.
Proof.
  intros Hm. destruct r as [buffer [|[|c chunk] later] late]; unfold _read_from_stream, rounds, reader_text, reader_end;
    cbn [rd_arrivals rd_buffer rd_late delivered stream_end].
  - left. split; [done|eexists; by split].
  - left. split; [done|eexists; by split].
  - right. destruct (Nat.leb_spec (length (c :: chunk)) m) as [Hl|Hl].
    + rewrite take_ge by done. eexists. split; [done|]. cbn [rd_arrivals rd_buffer rd_late].
      rewrite <- app_assoc. repeat split. rewrite length_app. cbn. lia.
    + eexists. split; [done|]. cbn [rd_arrivals rd_buffer rd_late].
      destruct (drop m (c :: chunk)) as [|d rest] eqn:E.
      { apply (f_equal length) in E. rewrite length_drop in E. cbn [length] in E, Hl. lia. }
      cbn [delivered stream_end]. repeat split.
      * rewrite <- app_assoc, (app_assoc (take m _)), <- E. by rewrite take_drop.
      * rewrite !length_app, <- E, length_drop. cbn [length] in *. lia.
Qed.

(** The fuel of a loop is what [rounds] counts. *)
Lemma exact_loop_spec fuel size r : (rounds r ≤ fuel)%nat →
  if (size <=? length (reader_text r))%nat then
    ∃ r', exact_loop fuel size r = (r', Ok (take size (reader_text r))) ∧ reader_text r' = drop size (reader_text r) ∧
      reader_end r' = reader_end r
  else ∃ r', exact_loop fuel size r = (r', Raise (reader_end r)).
Proof.
  revert r; induction fuel as [|fuel IH]; intros r Hf; [unfold rounds in Hf; lia|]. cbn [exact_loop].
  destruct (Nat.ltb_spec (length (rd_buffer r)) size) as [Hs|Hs].
  - destruct (read_from_stream_spec (Nat.min (Z.to_nat 65536) (size - length (rd_buffer r))) r)
      as [(Hd & r' & -> & _)|(r' & -> & Ht & He & Hr)]; [lia| |].
    + unfold reader_text. rewrite Hd, app_nil_r, (proj2 (Nat.leb_gt _ _)) by done. by eexists.
    + rewrite <- Ht, <- He. apply IH. lia.
  - assert (size ≤ length (reader_text r))%nat as Hl by (unfold reader_text; rewrite length_app; lia).
    rewrite (proj2 (Nat.leb_le _ _) Hl). exists (buffered r (drop size r.(rd_buffer))). split; [|split; [|done]].
    + unfold reader_text, _take. by rewrite take_app_le by lia.
    + unfold reader_text. cbn. rewrite drop_app_le by lia. done.
Qed.

Lemma span_not_newline_app a b : match span not_newline a with
  | (l, x :: r) => span not_newline (a ++ b) = (l, x :: r ++ b)
  | (l, []) => l = a ∧ fst (span not_newline (a ++ b)) = a ++ fst (span not_newline b) ∧
      snd (span not_newline (a ++ b)) = snd (span not_newline b)
  end.
Proof.
  induction a as [|c a IH]; cbn; [done|]. destruct (not_newline c); [|done].
  destruct (span not_newline a) as [l [|x r]].
  - destruct IH as (-> & H1 & H2). destruct (span not_newline (a ++ b)), (span not_newline b). cbn in *. by subst.
  - by rewrite IH.
Qed.

Lemma line_loop_spec fuel limit r : (rounds r ≤ fuel)%nat →
  match cut_line limit (reader_text r) with
  | Line line rest => ∃ r', line_loop fuel limit r = (r', Ok line) ∧ reader_text r' = rest ∧ reader_end r' = reader_end r
  | TooLong => ∃ r', line_loop fuel limit r = (r', Raise BodyLineTooLong)
  | Incomplete => ∃ r', line_loop fuel limit r = (r', Raise (reader_end r))
  end.
Proof.
  revert r; induction fuel as [|fuel IH]; intros r Hf; [unfold rounds in Hf; lia|]. cbn [line_loop].
  pose proof (span_not_newline_app (rd_buffer r) (delivered (rd_arrivals r))) as Hspan.
  destruct (span_spec not_newline (rd_buffer r)) as (line & after & E & Hb & _). rewrite E in Hspan |- *.
  destruct after as [|x after].
  - destruct Hspan as (_ & H1 & H2). destruct (Nat.leb_spec limit (length (rd_buffer r))) as [Hl|Hl].
    + unfold cut_line, reader_text. destruct (span not_newline (rd_buffer r ++ _)) as [line' [|x rest]]; cbn in H1.
      * rewrite (proj2 (Nat.leb_le _ _)) by (rewrite length_app; lia). by eexists.
      * rewrite (proj2 (Nat.ltb_lt _ _)) by (rewrite H1, length_app; lia). by eexists.
    + destruct (read_from_stream_spec (Nat.min 4096 (limit - length (rd_buffer r))) r)
        as [(Hd & r' & -> & _)|(r' & -> & Ht & He & Hr)]; [lia| |].
      * unfold cut_line, reader_text. rewrite Hd, app_nil_r, E, (proj2 (Nat.leb_gt _ _)) by done. by eexists.
      * rewrite <- Ht, <- He. apply IH. lia.
  - unfold cut_line, reader_text. rewrite Hspan. destruct (limit <? S (length line))%nat; [by eexists|].
    unfold _take. rewrite Hb. replace (S (length line)) with (length (line ++ [x])) by (rewrite length_app; cbn; lia).
    rewrite (cons_middle x line after), app_assoc, take_app_length, drop_app_length. eexists; by repeat split.
Qed.

#[export] Instance reader_laws : ByteSourceLaws Reader.
Proof.
  refine {| text_of := reader_text; failure_of := reader_end |}.
  - intros r. apply stream_end_kind.
  - done.
  - intros n r. by apply exact_loop_spec.
  - intros limit r. by apply line_loop_spec.
Defined.
