(* ===== verification/HttpChunked.v ===== *)
(** * tool_server.py: the chunked body decoder

    [_read_chunked_body] against any [ByteSource].  [chunked] is the grammar of a chunked
    body within the limits of the service; the decoder returns exactly the bodies of the
    texts of that grammar and leaves what follows them, and on every other text it says
    what is wrong with it. *)
From S2P Require Import Prelude Json Stateful HttpFraming HttpReader.
Local Open Scope Z_scope.

Module HTTPStatus.
Definition OK : Z := 200.
Definition BAD_REQUEST : Z := 400.
Definition UNAUTHORIZED : Z := 401.
Definition NOT_FOUND : Z := 404.
Definition REQUEST_TIMEOUT : Z := 408.
Definition LENGTH_REQUIRED : Z := 411.
Definition REQUEST_ENTITY_TOO_LARGE : Z := 413.
Definition UNSUPPORTED_MEDIA_TYPE : Z := 415.
Definition UNPROCESSABLE_ENTITY : Z := 422.
Definition INTERNAL_SERVER_ERROR : Z := 500.
Definition SERVICE_UNAVAILABLE : Z := 503.
End HTTPStatus.

Definition malformed_chunk : exn :=
  BodyProtocolError HTTPStatus.BAD_REQUEST "INVALID_CHUNKED_BODY" "chunk framing is malformed".
Definition body_too_large : exn :=
  BodyProtocolError HTTPStatus.REQUEST_ENTITY_TOO_LARGE "REQUEST_TOO_LARGE" "request body exceeds the configured limit".
Definition trailers_too_large : exn :=
  BodyProtocolError HTTPStatus.REQUEST_ENTITY_TOO_LARGE "CHUNKED_TRAILERS_TOO_LARGE"
    "chunk trailers exceed the configured limit".

Section decoder.
Context {R : Type} `{HR : ByteSource R}.

(** The first loop: the chunks, up to the one of size zero *)
Fixpoint read_chunks (fuel : nat) (max_body_bytes : Z) (body : bytes) : stateful R bytes :=
  match fuel with
  | O => failing (Unmodelled "fuel")
  | S fuel =>
      size_line ← too_long_as malformed_chunk (read_line MAX_CHUNK_LINE_BYTES);
      match _parse_chunk_size size_line with
      | None => failing malformed_chunk
      | Some chunk_size =>
          if chunk_size =? 0 then mret body
          else if max_body_bytes - Z.of_nat (length body) <? chunk_size then failing body_too_large
          else
            chunk ← read_exact (Z.to_nat chunk_size);
            separator ← read_exact 2;
            if negb (bool_decide (separator = CRLF)) then failing malformed_chunk
            else read_chunks fuel max_body_bytes (body ++ chunk)
      end
  end.
(** The second loop: the trailers, up to the empty line *)
Fixpoint read_trailers (fuel : nat) (trailer_bytes : nat) : stateful R unit :=
  match fuel with
  | O => failing (Unmodelled "fuel")
  | S fuel =>
      let remaining := (MAX_CHUNK_TRAILER_BYTES - trailer_bytes)%nat in
      if (remaining =? 0)%nat then failing trailers_too_large
      else
        trailer_line ← too_long_as trailers_too_large (read_line remaining);
        if bool_decide (trailer_line = CRLF) then mret ()
        else if negb (_valid_trailer_line trailer_line) then failing malformed_chunk
        else read_trailers fuel (trailer_bytes + length trailer_line)
  end.
(** Each round of either loop consumes a line. *)
Definition _read_chunked_body (max_body_bytes : Z) : stateful R bytes := λ r,
  let fuel := S (remaining r) in
  (body ← read_chunks fuel max_body_bytes []; _ ← read_trailers fuel 0; mret body) r.
End decoder.

(** ** The grammar *)
Definition is_line (line : bytes) : Prop := ∃ l, line = l ++ [LF] ∧ all not_newline l.
Inductive chunks : bytes → bytes → Prop :=
| last_chunk line : is_line line → (length line ≤ MAX_CHUNK_LINE_BYTES)%nat → size_line line 0 → chunks line []
| more_chunks line chunk text body :
    is_line line → (length line ≤ MAX_CHUNK_LINE_BYTES)%nat → size_line line (Z.of_nat (length chunk)) → chunk ≠ [] →
    chunks text body → chunks (line ++ chunk ++ CRLF ++ text) (chunk ++ body).
Inductive trailers : bytes → Prop :=
| no_trailer : trailers CRLF
| more_trailers line text : is_line line → _valid_trailer_line line = true → trailers text → trailers (line ++ text).
Definition chunked (max_body_bytes : Z) (text body : bytes) : Prop :=
  ∃ head trailer, text = head ++ trailer ∧ chunks head body ∧ Z.of_nat (length body) ≤ max_body_bytes ∧
    trailers trailer ∧ (length trailer ≤ MAX_CHUNK_TRAILER_BYTES)%nat.

(** What a client sends: one chunk per part and no trailer *)
Fixpoint hex_text_go (fuel : nat) (n : N) (acc : bytes) : bytes :=
  match fuel with
  | O => acc
  | S fuel => let acc := hex_digit (n mod 16) :: acc in if (n <? 16)%N then acc else hex_text_go fuel (n / 16) acc
  end.
Definition hex_text (n : nat) : bytes := hex_text_go (S n) (N.of_nat n) [].
Definition encode_chunk (part : bytes) : bytes := hex_text (length part) ++ CRLF ++ part ++ CRLF.
Definition encode_chunked (parts : list bytes) : bytes := concat (map encode_chunk parts) ++ lit "0" ++ CRLF ++ CRLF.

(** ** Lines *)
Lemma cut_line_Line limit t line rest :
  cut_line limit t = Line line rest ↔ t = line ++ rest ∧ is_line line ∧ (length line ≤ limit)%nat.
Proof.
  unfold cut_line. split.
  - destruct (span_spec not_newline t) as (a & [|x b] & -> & -> & Ha & Hb); [by destruct (_ <=? _)%nat|].
    cbn in Hb. unfold not_newline in Hb. apply negb_false_iff, Ascii.eqb_eq in Hb as ->.
    destruct (Nat.ltb_spec limit (S (length a))); [done|]. intros [= <- <-].
    rewrite <- app_assoc. repeat split; [by exists a|]. rewrite length_app. cbn. lia.
  - intros (-> & (l & -> & Hl) & Hn). rewrite <- app_assoc. rewrite span_app by done. cbn [app].
    rewrite length_app in Hn. cbn in Hn. by rewrite (proj2 (Nat.ltb_ge _ _)) by lia.
Qed.
Lemma is_line_nonempty line : is_line line → (0 < length line)%nat.
Proof. intros (l & -> & _). rewrite length_app. cbn. lia. Qed.

Lemma hex_int_nonneg l : 0 ≤ hex_int l.
Proof.
  unfold hex_int. assert (∀ n, 0 ≤ n → 0 ≤ foldl (λ n c, 16 * n + from_option Z.of_N 0 (hex_value c)) n l) as H;
    [|by apply H]. induction l as [|c l IH]; intros n Hn; [done|]. apply IH. destruct (hex_value c); cbn; lia.
Qed.
Lemma size_line_nonneg line n : size_line line n → 0 ≤ n.
Proof. intros (size & ext & _ & _ & _ & -> & _). apply hex_int_nonneg. Qed.

Section facts.
Context {R : Type} `{HR : ByteSource R} `{!ByteSourceLaws R}.


(** Two sources at one point of one text *)
Definition reaches (r r' : R) (rest : bytes) : Prop := text_of r' = rest ∧ failure_of r' = failure_of r.
Inductive line_read (e : exn) (limit : nat) (r : R) : R * result bytes → Prop :=
| line_got r' line rest : text_of r = line ++ rest → is_line line → (length line ≤ limit)%nat → reaches r r' rest →
    line_read e limit r (r', Ok line)
| line_not r' e' : (∀ line rest, text_of r = line ++ rest → is_line line → ¬ (length line ≤ limit)%nat) →
    e' = e ∨ e' = failure_of r → line_read e limit r (r', Raise e').
Lemma too_long_as_spec e limit r : line_read e limit r (too_long_as e (read_line limit) r).
Proof.
  pose proof (read_line_law limit r) as H. unfold too_long_as. destruct (cut_line limit (text_of r)) as [l rest| |] eqn:E.
  - destruct H as (r' & -> & H1 & H2). apply cut_line_Line in E as (E1 & E2 & E3). by econstructor.
  - destruct H as (r' & ->). constructor; [|by left]. intros l rest H1 H2 H3.
    by rewrite (proj2 (cut_line_Line limit (text_of r) l rest)) in E.
  - destruct H as (r' & ->). destruct (failure_kind r) as [Hk|Hk]; rewrite Hk; (constructor; [|right; by rewrite Hk]);
      intros l rest H1 H2 H3; by rewrite (proj2 (cut_line_Line limit (text_of r) l rest)) in E.
Qed.
Inductive exact_read (n : nat) (r : R) : R * result bytes → Prop :=
| exact_got r' part rest : text_of r = part ++ rest → length part = n → reaches r r' rest → exact_read n r (r', Ok part)
| exact_not r' : (length (text_of r) < n)%nat → exact_read n r (r', Raise (failure_of r)).
Lemma read_exact_spec n r : exact_read n r (read_exact n r).
Proof.
  pose proof (read_exact_law n r) as H. destruct (Nat.leb_spec n (length (text_of r))) as [Hn|Hn].
  - destruct H as (r' & -> & H). apply (exact_got _ _ _ _ (drop n (text_of r))); [by rewrite take_drop| |done].
    rewrite length_take. lia.
  - destruct H as (r' & ->). by constructor.
Qed.

Lemma read_line_at e limit r line rest : text_of r = line ++ rest → is_line line → (length line ≤ limit)%nat →
  ∃ r', too_long_as e (read_line limit) r = (r', Ok line) ∧ reaches r r' rest.
Proof.
  intros Ht Hl Hn. pose proof (read_line_law limit r) as H.
  rewrite (proj2 (cut_line_Line limit (text_of r) line rest)) in H by done.
  destruct H as (r' & H & H1). exists r'. unfold too_long_as. by rewrite H.
Qed.
Lemma read_exact_at r part rest : text_of r = part ++ rest →
  ∃ r', read_exact (length part) r = (r', Ok part) ∧ reaches r r' rest.
Proof.
  intros Ht. pose proof (read_exact_law (length part) r) as H.
  rewrite (proj2 (Nat.leb_le _ _)) in H by (rewrite Ht, length_app; lia).
  rewrite Ht, take_app_length, drop_app_length in H. destruct H as (r' & H & H1). by exists r'.
Qed.

(** What the decoder says when the text is not a chunked body *)
Definition chunked_error (r : R) (e : exn) : Prop :=
  e = failure_of r ∨ e = malformed_chunk ∨ e = body_too_large ∨ e = trailers_too_large.
Lemma chunked_error_reaches r r' rest e : reaches r r' rest → chunked_error r' e → chunked_error r e.
Proof. unfold chunked_error. intros [_ <-]. done. Qed.
Lemma reaches_trans r1 r2 r3 rest2 rest3 : reaches r1 r2 rest2 → reaches r2 r3 rest3 → reaches r1 r3 rest3.
Proof. unfold reaches. intros [_ H1] [H2 H3]. split; congruence. Qed.

(** *** The first loop *)
Lemma read_chunks_spec fuel max body r : (length (text_of r) < fuel)%nat → Z.of_nat (length body) ≤ max →
  match read_chunks fuel max body r with
  | (r', Ok body') => ∃ head more, text_of r = head ++ text_of r' ∧ chunks head more ∧ body' = body ++ more ∧
      Z.of_nat (length body') ≤ max ∧ failure_of r' = failure_of r
  | (_, Raise e) => chunked_error r e
  end.
Proof.
  revert body r; induction fuel as [|fuel IH]; intros body r Hf Hb; [lia|].
  cbn [read_chunks]. unfold mbind, stateful_bind.
  destruct (too_long_as_spec malformed_chunk MAX_CHUNK_LINE_BYTES r) as [r1 line rest Ht Hline Hlen [<- Hfail]|r1 e _ He].
  2:{ unfold chunked_error. tauto. }
  destruct (_parse_chunk_size line) as [n|] eqn:En; [|right; by left]. apply parse_chunk_size_exact in En.
  destruct (Z.eqb_spec n 0) as [->|Hn0].
  { cbn. exists line, []. rewrite app_nil_r. split_and!; try done. by constructor. }
  destruct (Z.ltb_spec (max - Z.of_nat (length body)) n) as [|Hmax]; [right; right; by left|].
  assert (0 ≤ n) as Hn by by apply size_line_nonneg in En.
  destruct (read_exact_spec (Z.to_nat n) r1) as [r2 chunk rest Ht1 Hchunk [<- Hf1]|r2 _]; [|left; congruence].
  destruct (read_exact_spec 2 r2) as [r3 sep rest Ht2 _ [<- Hf2]|r3 _]; [|left; congruence].
  destruct (decide (sep = CRLF)) as [->|Hsep]; [|rewrite bool_decide_eq_false_2 by done; right; by left].
  rewrite bool_decide_eq_true_2 by done. cbn [negb].
  pose proof (is_line_nonempty line Hline). assert (n = Z.of_nat (length chunk)) as -> by lia.
  specialize (IH (body ++ chunk) r3). destruct (read_chunks fuel max (body ++ chunk) r3) as [r4 [body'|e]].
  - destruct IH as (head & more & Hh & Hc & -> & Hlen' & Hf3).
    { rewrite Ht, Ht1, Ht2, !length_app in Hf. lia. }
    { rewrite length_app. lia. }
    exists (line ++ chunk ++ CRLF ++ head), (chunk ++ more). rewrite <- !app_assoc. split_and!; try congruence.
    + constructor; try done. by intros ->.
    + by rewrite <- app_assoc in Hlen'.
  - eapply chunked_error_reaches; [split; [reflexivity|]|apply IH].
    + congruence.
    + rewrite Ht, Ht1, Ht2, !length_app in Hf. lia.
    + rewrite length_app. lia.
Qed.
Lemma read_chunks_complete head more : chunks head more → ∀ fuel max body r rest, text_of r = head ++ rest →
  (length head ≤ fuel)%nat → Z.of_nat (length (body ++ more)) ≤ max →
  ∃ r', read_chunks fuel max body r = (r', Ok (body ++ more)) ∧ reaches r r' rest.
Proof.
  induction 1 as [line Hline Hlen Hsize|line chunk text more Hline Hlen Hsize Hne Hchunks IH];
    intros [|fuel] max body r rest Ht Hf Hmax; pose proof (is_line_nonempty line Hline) as Hl;
    rewrite ?length_app in Hf; try lia; cbn [read_chunks]; unfold mbind, stateful_bind.
  - destruct (read_line_at malformed_chunk MAX_CHUNK_LINE_BYTES r line rest) as (r1 & -> & H1); [done..|].
    rewrite (proj2 (parse_chunk_size_exact line 0) Hsize). cbn. rewrite app_nil_r. by exists r1.
  - rewrite <- !app_assoc in Ht.
    destruct (read_line_at malformed_chunk MAX_CHUNK_LINE_BYTES r line (chunk ++ CRLF ++ text ++ rest))
      as (r1 & -> & H1 & H1'); [done..|].
    rewrite (proj2 (parse_chunk_size_exact line _) Hsize).
    rewrite (proj2 (Z.eqb_neq _ _)) by (destruct chunk; [done|cbn; lia]).
    rewrite !length_app in Hmax. rewrite (proj2 (Z.ltb_ge _ _)) by lia. rewrite Nat2Z.id.
    destruct (read_exact_at r1 chunk (CRLF ++ text ++ rest)) as (r2 & -> & H2 & H2'); [done|].
    destruct (read_exact_at r2 CRLF (text ++ rest)) as (r3 & H3 & H3' & H3''); [done|].
    change (length CRLF) with 2%nat in H3. rewrite H3. rewrite bool_decide_eq_true_2 by done. cbn [negb].
    destruct (IH fuel max (body ++ chunk) r3 rest) as (r4 & -> & H4); [done|cbn in Hf; lia|rewrite !length_app; lia|].
    rewrite <- app_assoc. exists r4. split; [done|]. destruct H4. split; congruence.
Qed.

(** *** The second loop *)
Lemma read_trailers_spec fuel used r : (length (text_of r) < fuel)%nat →
  match read_trailers fuel used r with
  | (r', Ok _) => ∃ trailer, text_of r = trailer ++ text_of r' ∧ trailers trailer ∧
      (length trailer + used ≤ MAX_CHUNK_TRAILER_BYTES)%nat ∧ failure_of r' = failure_of r
  | (_, Raise e) => chunked_error r e
  end.
Proof.
  revert used r; induction fuel as [|fuel IH]; intros used r Hf; [lia|].
  cbn [read_trailers]. destruct (Nat.eqb_spec (MAX_CHUNK_TRAILER_BYTES - used) 0) as [|Hleft]; [by right; right; right|].
  unfold mbind, stateful_bind.
  destruct (too_long_as_spec trailers_too_large (MAX_CHUNK_TRAILER_BYTES - used) r)
    as [r1 line rest Ht Hline Hlen [<- Hfail]|r1 e _ He].
  2:{ unfold chunked_error. tauto. }
  destruct (decide (line = CRLF)) as [->|Hne].
  { rewrite bool_decide_eq_true_2 by done. exists CRLF. split_and!; [done|constructor|lia|done]. }
  rewrite bool_decide_eq_false_2 by done. destruct (_valid_trailer_line line) eqn:Ev; [|right; by left]. cbn [negb].
  pose proof (is_line_nonempty line Hline). specialize (IH (used + length line)%nat r1).
  assert (length (text_of r1) < fuel)%nat as Hf1 by (rewrite Ht, length_app in Hf; lia). specialize (IH Hf1).
  destruct (read_trailers fuel _ r1) as [r2 [u|e]].
  - destruct IH as (trailer & Ht1 & Htr & Hlen1 & Hf2). exists (line ++ trailer). rewrite <- app_assoc, length_app.
    split_and!; [congruence|by constructor|lia|congruence].
  - by apply (chunked_error_reaches r r1 (text_of r1)).
Qed.
Lemma read_trailers_complete trailer : trailers trailer → ∀ fuel used r rest, text_of r = trailer ++ rest →
  (length trailer ≤ fuel)%nat → (length trailer + used ≤ MAX_CHUNK_TRAILER_BYTES)%nat →
  ∃ r', read_trailers fuel used r = (r', Ok ()) ∧ reaches r r' rest.
Proof.
  assert (is_line CRLF) as Hcrlf by by (exists [CR]; repeat constructor).
  induction 1 as [|line text Hline Hv Htext IH]; intros [|fuel] used r rest Ht Hf Hmax; [cbn in Hf; lia| | |].
  - cbn [read_trailers]. cbn [length] in Hmax. rewrite (proj2 (Nat.eqb_neq _ _)) by (change (length CRLF) with 2%nat in Hmax; lia).
    unfold mbind, stateful_bind.
    destruct (read_line_at trailers_too_large (MAX_CHUNK_TRAILER_BYTES - used) r CRLF rest) as (r1 & -> & H1);
      [done|done|lia|]. rewrite bool_decide_eq_true_2 by done. by exists r1.
  - pose proof (is_line_nonempty line Hline). rewrite length_app in Hf. lia.
  - pose proof (is_line_nonempty line Hline). rewrite length_app in Hf, Hmax. rewrite <- app_assoc in Ht.
    cbn [read_trailers]. rewrite (proj2 (Nat.eqb_neq _ _)) by lia. unfold mbind, stateful_bind.
    destruct (read_line_at trailers_too_large (MAX_CHUNK_TRAILER_BYTES - used) r line (text ++ rest))
      as (r1 & -> & H1 & H1'); [done|done|lia|].
    destruct (decide (line = CRLF)) as [->|Hne]; [done|]. rewrite bool_decide_eq_false_2 by done. rewrite Hv. cbn [negb].
    destruct (IH fuel (used + length line)%nat r1 rest) as (r2 & -> & H2 & H2'); [done|lia|lia|].
    exists r2. split; [done|]. split; congruence.
Qed.

(** *** The decoder *)
Lemma read_chunked_body_spec max r : 0 ≤ max →
  match _read_chunked_body max r with
  | (r', Ok body) => ∃ text, text_of r = text ++ text_of r' ∧ chunked max text body
  | (_, Raise e) => chunked_error r e
  end.
Proof.
  intros Hmax. unfold _read_chunked_body. rewrite remaining_text. unfold mbind, stateful_bind.
  pose proof (read_chunks_spec (S (length (text_of r))) max [] r) as H.
  destruct (read_chunks _ max [] r) as [r1 [body|e]]; [|by apply H; cbn; lia].
  destruct H as (head & more & Ht & Hc & Hb & Hlen & Hf); [lia|done|]. cbn [app] in Hb. subst more.
  pose proof (read_trailers_spec (S (length (text_of r))) 0 r1) as H.
  assert (length (text_of r1) < S (length (text_of r)))%nat as Hl by (rewrite Ht, length_app; lia). specialize (H Hl).
  destruct (read_trailers _ 0 r1) as [r2 [u|e]]; [|by apply (chunked_error_reaches r r1 (text_of r1))].
  destruct H as (trailer & Ht1 & Htr & Hlen1 & _). exists (head ++ trailer). split; [rewrite <- app_assoc; congruence|].
  exists head, trailer. split_and!; try done. lia.
Qed.
Lemma read_chunked_body_complete max r text rest body : text_of r = text ++ rest → chunked max text body →
  ∃ r', _read_chunked_body max r = (r', Ok body) ∧ reaches r r' rest.
Proof.
  intros Ht (head & trailer & -> & Hc & Hlen & Htr & Hmax). rewrite <- app_assoc in Ht.
  unfold _read_chunked_body. rewrite remaining_text. unfold mbind, stateful_bind.
  destruct (read_chunks_complete head body Hc (S (length (text_of r))) max [] r (trailer ++ rest)) as (r1 & -> & H1 & H1');
    [done|rewrite Ht, !length_app; lia|done|].
  destruct (read_trailers_complete trailer Htr (S (length (text_of r))) 0 r1 rest) as (r2 & -> & H2 & H2');
    [done|rewrite Ht, !length_app; lia|lia|]. exists r2. split; [done|]. split; congruence.
Qed.
End facts.

(** ** Hexadecimal sizes *)
Lemma hex_digit_value n : (n < 16)%N → hex_value (hex_digit n) = Some n ∧ is_hex_char (hex_digit n) = true.
Proof.
  intros Hn. assert (n ∈ [0; 1; 2; 3; 4; 5; 6; 7; 8; 9; 10; 11; 12; 13; 14; 15]%N) as H.
  { rewrite !elem_of_cons. lia. }
  elem_cases; by vm_compute.
Qed.
Lemma hex_text_go_value fuel n acc : (n < 16 ^ N.of_nat fuel)%N →
  hex_int (hex_text_go fuel n acc) = foldl (λ n c, 16 * n + from_option Z.of_N 0 (hex_value c)) (Z.of_N n) acc.
Proof.
  unfold hex_int. revert n acc; induction fuel as [|fuel IH]; intros n acc Hn; cbn [hex_text_go].
  - by assert (n = 0%N) as -> by (cbn in Hn; lia).
  - assert (n mod 16 < 16)%N as Hd by (apply N.mod_lt; lia). destruct (hex_digit_value _ Hd) as [Hv _].
    pose proof (N.div_mod n 16 ltac:(lia)) as Hdiv. destruct (N.ltb_spec n 16).
    + cbn [foldl]. rewrite Hv. cbn [from_option]. f_equal. rewrite N.mod_small by done. lia.
    + rewrite IH. { cbn [foldl]. rewrite Hv. cbn [from_option]. f_equal. lia. }
      rewrite Nat2N.inj_succ, N.pow_succ_r' in Hn. apply N.Div0.div_lt_upper_bound. lia.
Qed.
Lemma hex_text_value n : hex_int (hex_text n) = Z.of_nat n.
Proof.
  unfold hex_text. rewrite hex_text_go_value; [cbn; lia|]. rewrite Nat2N.inj_succ.
  induction n as [|n IH]; [done|]. rewrite !Nat2N.inj_succ in *. rewrite N.pow_succ_r'. lia.
Qed.
Lemma hex_text_go_hex fuel n acc : all is_hex_char acc → all is_hex_char (hex_text_go fuel n acc).
Proof.
  revert n acc; induction fuel as [|fuel IH]; intros n acc Ha; cbn [hex_text_go]; [done|].
  assert (all is_hex_char (hex_digit (n mod 16) :: acc)) as H.
  { constructor; [|done]. apply hex_digit_value, N.mod_lt. lia. }
  destruct (n <? 16)%N; [done|by apply IH].
Qed.
Lemma hex_text_go_length k fuel n acc : (n < 16 ^ N.of_nat (S k))%N →
  (length acc ≤ length (hex_text_go fuel n acc) ≤ S k + length acc)%nat.
Proof.
  revert fuel n acc; induction k as [|k IH]; intros [|fuel] n acc Hn; cbn [hex_text_go]; try lia.
  - cbn in Hn. rewrite (proj2 (N.ltb_lt _ _)) by lia. cbn. lia.
  - destruct (N.ltb_spec n 16); [cbn; lia|].
    assert (n / 16 < 16 ^ N.of_nat (S k))%N as Hd.
    { rewrite Nat2N.inj_succ, N.pow_succ_r' in Hn. apply N.Div0.div_lt_upper_bound. lia. }
    specialize (IH fuel (n / 16)%N (hex_digit (n mod 16) :: acc) Hd). cbn [length] in IH. lia.
Qed.
Lemma hex_text_nonempty n : hex_text n ≠ [].
Proof.
  unfold hex_text. cbn [hex_text_go]. destruct (_ <? _)%N; [done|].
  destruct (hex_text_go n _ _) eqn:E; [|done]. exfalso. revert E. generalize (N.of_nat n / 16)%N.
  assert (∀ fuel m acc, acc ≠ [] → hex_text_go fuel m acc ≠ []) as H; [|intros m; by apply H].
  induction fuel as [|fuel IH]; intros m acc Ha; [done|]. cbn [hex_text_go]. destruct (_ <? _)%N; [done|by apply IH].
Qed.
Lemma size_line_hex_text n : size_line (hex_text n ++ CRLF) (Z.of_nat n).
Proof.
  exists (hex_text n), []. split_and!; [done|apply hex_text_nonempty| |by rewrite hex_text_value|constructor].
  apply hex_text_go_hex. constructor.
Qed.
Lemma hex_text_line n : is_line (hex_text n ++ CRLF).
Proof.
  exists (hex_text n ++ [CR]). split; [by rewrite <- app_assoc|]. apply Forall_app_2; [|by repeat constructor].
  eapply Forall_impl; [apply (hex_text_go_hex (S n) (N.of_nat n) []); constructor|].
  intros c. destruct c as [[] [] [] [] [] [] [] []]; done.
Qed.

(** The encoding of parts that are not empty is a chunked body. *)
Lemma encode_chunked_chunked max parts : max < 16 ^ 16 → Forall (λ part, part ≠ []) parts →
  Z.of_nat (length (concat parts)) ≤ max → chunked max (encode_chunked parts) (concat parts).
Proof.
  intros Hm Hne Hmax. exists (concat (map encode_chunk parts) ++ lit "0" ++ CRLF), CRLF. unfold encode_chunked.
  split_and!; [by rewrite <- !app_assoc| |done|constructor|unfold MAX_CHUNK_TRAILER_BYTES; cbn; lia].
  revert Hmax. induction Hne as [|part parts Hpart _ IH]; intros Hmax; cbn [map concat app].
  - apply last_chunk; [by exists (lit "0" ++ [CR]); repeat constructor|unfold MAX_CHUNK_LINE_BYTES; cbn; lia|].
    exact (size_line_hex_text 0).
  - cbn [concat] in Hmax. rewrite length_app in Hmax.
    unfold encode_chunk at 1. rewrite <- !app_assoc. rewrite (app_assoc (hex_text _)).
    apply more_chunks; [apply hex_text_line| |apply size_line_hex_text|done|apply IH; lia].
    assert (N.of_nat (length part) < 16 ^ N.of_nat 16)%N as Hp by (change (16 ^ N.of_nat 16)%N with (Z.to_N (16 ^ 16)); lia).
    pose proof (hex_text_go_length 15 (S (length part)) _ [] Hp). unfold hex_text, MAX_CHUNK_LINE_BYTES.
    rewrite length_app. cbn [length CRLF] in *. lia.
Qed.

(** C20. The chunked decoder reads exactly the chunked bodies within the limits of the
    service.  It returns a body and leaves the rest of the text if and only if the text
    that arrives begins with a chunked encoding of that body: size lines of at most 8192
    bytes with well-formed extensions, a body within the limit and well-formed trailers
    within theirs.  How the text is cut into arrivals makes no difference.  On any other
    text it ends with a protocol error, or as the stream ends. *)
Theorem chunked_body_exact (max : Z) (r : Reader) : 0 ≤ max →
  (∀ body rest, (∃ r', _read_chunked_body max r = (r', Ok body) ∧ reader_text r' = rest) ↔
    ∃ text, reader_text r = text ++ rest ∧ chunked max text body) ∧
  ∀ r' e, _read_chunked_body max r = (r', Raise e) → chunked_error r e.
Proof.
  intros Hmax. pose proof (read_chunked_body_spec max r Hmax) as H. split.
  - intros body rest. split.
    + intros (r' & E & <-). by rewrite E in H.
    + intros (text & Ht & Hc). pose proof (read_chunked_body_complete (R:=Reader) max r text rest body) as C.
      destruct (C Ht Hc) as (r' & H1 & H2 & _). by exists r'.
  - intros r' e E. by rewrite E in H.
Qed.

(** A body survives the trip: whatever non-empty parts a client sends as chunks, and
    however the bytes arrive, the decoder returns their concatenation and leaves what
    follows on the connection. *)
Lemma chunked_round_trip (parts : list bytes) (rest : bytes) (max : Z) (r : Reader) :
  Forall (λ part, part ≠ []) parts → Z.of_nat (length (concat parts)) ≤ max → max < 16 ^ 16 →
  reader_text r = encode_chunked parts ++ rest →
  ∃ r', _read_chunked_body max r = (r', Ok (concat parts)) ∧ reader_text r' = rest.
Proof.
  intros Hne Hmax Hm Ht.
  pose proof (read_chunked_body_complete (R:=Reader) max r (encode_chunked parts) rest (concat parts)) as C.
  destruct C as (r' & H1 & H2 & _); [exact Ht|by apply encode_chunked_chunked|by exists r'].
Qed.
