(* ===== verification/JsonNesting.v ===== *)
(** * tool_server.py: the nesting limit of a request body

    [_json_nesting_exceeds] counts brackets outside strings, before the text is parsed.  On
    every text [json.loads] accepts it compares the depth of the value with the limit. *)
From S2P Require Import Prelude Json HttpFraming.

(** depth, in_string, escaped *)
Definition nesting_state : Type := nat * bool * bool.
Definition is_open (c : ascii) : bool := Ascii.eqb c "[" || Ascii.eqb c "{".
Definition is_close (c : ascii) : bool := Ascii.eqb c "]" || Ascii.eqb c "}".
Definition nesting_step (limit : nat) (st : nesting_state) (c : ascii) : option nesting_state :=
  let '(depth, in_string, escaped) := st in
  if in_string then
    if escaped then Some (depth, true, false)
    else if Ascii.eqb c backslash then Some (depth, true, true)
    else if Ascii.eqb c dquote then Some (depth, false, escaped)
    else Some st
  else if Ascii.eqb c dquote then Some (depth, true, escaped)
  else if is_open c then if (limit <? S depth)%nat then None else Some (S depth, in_string, escaped)
  else if is_close c then Some (Nat.pred depth, in_string, escaped)
  else Some st.
Fixpoint nesting_run (limit : nat) (st : nesting_state) (payload : bytes) : option nesting_state :=
  match payload with
  | [] => Some st
  | c :: payload => st ← nesting_step limit st c; nesting_run limit st payload
  end.
Definition _json_nesting_exceeds (payload : bytes) (limit : nat) : bool :=
  match nesting_run limit (0%nat, false, false) payload with None => true | Some _ => false end.

(** The depth of a value *)
Definition max_of {A} (f : A → nat) (l : list A) : nat := foldr (λ x n, Nat.max (f x) n) 0%nat l.
Fixpoint depth (j : json) : nat :=
  match j with
  | JArr l => S (max_of depth l)
  | JObj l => S (max_of (λ kv, depth (snd kv)) l)
  | _ => 0
  end.

Section run.
Context (limit : nat).
Implicit Types (d : nat) (s r : string).
Notation run st s := (nesting_run limit st (lit s)).
Notation plain d := (d, false, false).
Notation quoted d := (d, true, false).

(** Bytes the count ignores *)
Definition ignored (c : ascii) : bool := negb (Ascii.eqb c dquote || is_open c || is_close c).
Lemma run_ignored d c s : ignored c = true → run (plain d) (String c s) = run (plain d) s.
Proof.
  unfold ignored. rewrite negb_true_iff, !orb_false_iff. intros [[H1 H2] H3].
  cbn [lit list_ascii_of_string nesting_run nesting_step]. by rewrite H1, H2, H3.
Qed.
Lemma run_word d w s : string_all ignored w = true → run (plain d) (w +:+ s) = run (plain d) s.
Proof.
  induction w as [|c w IH]; [done|]. cbn [string_all]. intros [Hc Hw]%andb_true_iff.
  rewrite str_app_cons, run_ignored by done. by apply IH.
Qed.
Lemma run_dquote d s : run (plain d) (String dquote s) = run (quoted d) s.
Proof. done. Qed.
Lemma run_open d c s : is_open c = true →
  run (plain d) (String c s) = if (limit <? S d)%nat then None else run (plain (S d)) s.
Proof.
  intros H. cbn [lit list_ascii_of_string nesting_run nesting_step]. rewrite H.
  destruct (Ascii.eqb_spec c dquote) as [->|_]; [done|]. by destruct (limit <? S d)%nat.
Qed.
Lemma run_close d c s : is_close c = true → run (plain (S d)) (String c s) = run (plain d) s.
Proof.
  intros H. cbn [lit list_ascii_of_string nesting_run nesting_step]. rewrite H.
  destruct (Ascii.eqb_spec c dquote) as [->|_]; [done|].
  by destruct c as [[] [] [] [] [] [] [] []].
Qed.

Lemma digit_ignored c : is_digit c = true → ignored c = true.
Proof. by destruct c as [[] [] [] [] [] [] [] []]. Qed.
Lemma run_skip_ws d s : run (plain d) (skip_ws s) = run (plain d) s.
Proof.
  induction s as [|c s IH]; [done|]. cbn [skip_ws]. destruct (is_ws c) eqn:E; [|done].
  rewrite run_ignored by by destruct c as [[] [] [] [] [] [] [] []]. done.
Qed.
Lemma span_digits_text s : fst (span_digits s) +:+ snd (span_digits s) = s ∧ string_all is_digit (fst (span_digits s)) = true.
Proof.
  induction s as [|c s [IH1 IH2]]; [done|]. cbn [span_digits]. destruct (is_digit c) eqn:E; [|done].
  destruct (span_digits s) as [a b]. cbn [fst snd] in *. rewrite str_app_cons, IH1. cbn. by rewrite E, IH2.
Qed.
Lemma digits_ignored w : string_all is_digit w = true → string_all ignored w = true.
Proof. induction w as [|c w IH]; [done|]. cbn. intros [H1 H2]%andb_true_iff. by rewrite (digit_ignored c H1), IH. Qed.
Lemma run_span_digits d s : run (plain d) (snd (span_digits s)) = run (plain d) s.
Proof.
  destruct (span_digits_text s) as [H1 H2]. rewrite <- H1 at 2. symmetry. by apply run_word, digits_ignored.
Qed.

Lemma run_scan_frac d s : run (plain d) (snd (scan_frac s)) = run (plain d) s.
Proof.
  destruct s as [|c s]; [done|]. unfold scan_frac. destruct c as [[] [] [] [] [] [] [] []]; try done.
  pose proof (run_span_digits d s) as H. destruct (span_digits s) as [[|c ds] r]; [done|]. cbn [snd] in *.
  by rewrite run_ignored.
Qed.
Lemma run_scan_exp d s : run (plain d) (snd (scan_exp s)) = run (plain d) s.
Proof.
  destruct s as [|c s]; [done|]. unfold scan_exp. destruct (_ || _) eqn:Ec; [|done].
  assert (ignored c = true) as Hc.
  { apply orb_true_iff in Ec as [->%Ascii.eqb_eq | ->%Ascii.eqb_eq]; done. }
  set (p := match s with String "+" t => ("+", t) | String "-" t => ("-", t) | _ => ("", s) end).
  assert (run (plain d) (snd p) = run (plain d) s) as Hp.
  { subst p. destruct s as [|e s]; [done|]. destruct e as [[] [] [] [] [] [] [] []]; try done; by rewrite run_ignored. }
  destruct p as [sg s2]. pose proof (run_span_digits d s2) as H. cbn [snd] in Hp.
  destruct (span_digits s2) as [[|e ds] r]; [done|]. cbn [snd] in *. rewrite run_ignored by done. congruence.
Qed.
Lemma run_scan_number d s j r : scan_number s = Some (j, r) → run (plain d) s = run (plain d) r ∧ depth j = 0%nat.
Proof.
  unfold scan_number.
  set (p := match s with String "-" t => ("-", t) | _ => ("", s) end).
  assert (run (plain d) (snd p) = run (plain d) s) as Hp.
  { subst p. destruct s as [|e s]; [done|]. destruct e as [[] [] [] [] [] [] [] []]; try done; by rewrite run_ignored. }
  destruct p as [sg s1]. cbn [snd] in Hp. destruct (span_digits_text s1) as [Ht Hd].
  destruct (span_digits s1) as [[|c ds] s2]; [done|]. cbn [fst snd] in *.
  set (q := if Ascii.eqb c "0" then ("0", ds +:+ s2) else (String c ds, s2)).
  assert (run (plain d) (snd q) = run (plain d) s1) as Hq.
  { subst q. rewrite <- Ht. cbn in Hd. apply andb_true_iff in Hd as [Hc Hds].
    destruct (Ascii.eqb c "0"); cbn [snd].
    - by rewrite str_app_cons, run_ignored by by apply digit_ignored.
    - symmetry. apply run_word, digits_ignored. cbn. by rewrite Hc, Hds. }
  destruct q as [int s3]. pose proof (run_scan_frac d s3). destruct (scan_frac s3) as [fr s4].
  pose proof (run_scan_exp d s4). destruct (scan_exp s4) as [ex s5]. cbn [fst snd] in *.
  destruct (fr +:+ ex); [destruct (read_int _)|]; intros [= <- <-]; split; congruence || done.
Qed.

(** The inside of a string *)
Lemma run_quoted d c s : Ascii.eqb c dquote = false → Ascii.eqb c backslash = false →
  run (quoted d) (String c s) = run (quoted d) s.
Proof. intros H1 H2. cbn [lit list_ascii_of_string nesting_run nesting_step]. by rewrite H1, H2. Qed.
Lemma run_escape d e s : run (quoted d) (String backslash (String e s)) = run (quoted d) s.
Proof. done. Qed.
Lemma run_hex d c s n : hex_value c = Some n → run (quoted d) (String c s) = run (quoted d) s.
Proof. intros H. apply run_quoted; destruct c as [[] [] [] [] [] [] [] []]; done. Qed.
Lemma hex4_values a b c e n : hex4_value a b c e = Some n →
  is_Some (hex_value a) ∧ is_Some (hex_value b) ∧ is_Some (hex_value c) ∧ is_Some (hex_value e).
Proof.
  unfold hex4_value. destruct (hex_value a), (hex_value b), (hex_value c), (hex_value e); done.
Qed.
Lemma run_hex4 d a b c e n s : hex4_value a b c e = Some n →
  run (quoted d) (String a (String b (String c (String e s)))) = run (quoted d) s.
Proof.
  intros ((? & Ha) & (? & Hb) & (? & Hc) & (? & He))%hex4_values.
  by rewrite (run_hex d a _ _ Ha), (run_hex d b _ _ Hb), (run_hex d c _ _ Hc), (run_hex d e _ _ He).
Qed.

Lemma cons_str_Ok t m x r : cons_str t m = Ok (x, r) → ∃ u, m = Ok (u, r).
Proof. unfold cons_str. destruct m as [[u r']|]; [|done]. intros [= _ <-]. by exists u. Qed.
Lemma run_scanstring d s t r : scanstring s = Ok (t, r) → run (quoted d) s = run (plain d) r.
Proof.
  revert t; induction s as [s IH] using (induction_ltof1 _ String.length). unfold ltof in IH. intros t.
  destruct s as [|c s1]; [done|]. cbn [scanstring].
  destruct (Ascii.eqb c dquote) eqn:Eq; [apply Ascii.eqb_eq in Eq as ->; by intros [= _ <-]|].
  destruct (Ascii.eqb c backslash) eqn:Eb.
  2:{ destruct (_ <? 32)%nat; [done|]. intros (u & H)%cons_str_Ok. rewrite run_quoted by done.
      eapply IH; [|exact H]. cbn. lia. }
  apply Ascii.eqb_eq in Eb as ->. destruct s1 as [|e s2]; [done|]. rewrite run_escape.
  destruct (Ascii.eqb e "u").
  - destruct s2 as [|a [|b [|c' [|d' s3]]]]; try done. destruct (hex4_value a b c' d') as [n|] eqn:Eh; [|done].
    rewrite (run_hex4 d _ _ _ _ _ _ Eh).
    destruct (_ || _); [|intros (u & H)%cons_str_Ok; eapply IH; [|exact H]; cbn; lia].
    destruct s3 as [|k1 [|k2 [|p [|q [|r' [|t' s4]]]]]]; try done. destruct (_ && _) eqn:Ek; [|done].
    destruct (hex4_value p q r' t') as [m|] eqn:Eh2; [|done]. destruct (is_low m); [|done].
    intros (u & H)%cons_str_Ok. split_bools. apply Ascii.eqb_eq in H0 as ->.
    rewrite run_escape, (run_hex4 d _ _ _ _ _ _ Eh2). eapply IH; [|exact H]. cbn. lia.
  - destruct (simple_escape e); [|done]. intros (u & H)%cons_str_Ok. eapply IH; [|exact H]. cbn. lia.
Qed.

(** The three scanners *)
Context (h : hooks).
Hypothesis pairs_kept : ∀ l l', object_pairs h l = Ok l' → l' = l.
Hypothesis no_constant : ∀ w j, parse_constant h w ≠ Ok j.

(** From a text to what is left of it, with a value of depth [n] in between *)
Definition counts d s n r : Prop :=
  run (plain d) s = if (limit <? d + n)%nat then None else run (plain d) r.

Lemma run_literal d w j s m r : string_all ignored w = true → literal w m s = Some (Ok (j, r)) →
  m = Ok j ∧ run (plain d) s = run (plain d) r.
Proof.
  unfold literal. intros Hw H. destruct (starts_with w s) eqn:Hs; [|done].
  destruct m as [v|]; [|done]. injection H as -> <-. split; [done|].
  rewrite <- (starts_with_drop w s Hs) at 1. by apply run_word.
Qed.
Lemma run_scan_literal d s j r : scan_literal h s = Some (Ok (j, r)) →
  run (plain d) s = run (plain d) r ∧ depth j = 0%nat.
Proof.
  unfold scan_literal. intros H.
  repeat match type of H with
  | match ?m with _ => _ end = Some _ => destruct m eqn:?; [try injection H as ->|]
  end; try match goal with
  | Hl : literal _ _ _ = Some _ |- _ =>
      apply (run_literal d) in Hl as [Hj ?]; [|done]; (injection Hj as <- || by apply no_constant in Hj); by split
  end.
  by apply run_scan_number.
Qed.
Lemma eat_Some c s r : eat c s = Some r → s = String c r.
Proof. destruct s as [|e s]; [done|]. cbn. destruct (Ascii.eqb_spec e c) as [->|]; [|done]. by intros [= ->]. Qed.

Definition value_counts (fuel : nat) : Prop := ∀ d s j r, (d ≤ limit)%nat →
  scan_value h fuel s = Ok (j, r) → counts d s (depth j) r.
Definition items_count (fuel : nat) : Prop := ∀ d s l r, (S d ≤ limit)%nat →
  scan_items h fuel s = Ok (l, r) →
  run (plain (S d)) s = if (limit <? S d + max_of depth l)%nat then None else run (plain d) r.
Definition members_count (fuel : nat) : Prop := ∀ d s l r, (S d ≤ limit)%nat →
  scan_members h fuel s = Ok (l, r) →
  run (plain (S d)) s = if (limit <? S d + max_of (λ kv, depth (snd kv)) l)%nat then None else run (plain d) r.

Lemma counts_zero d s r : (d ≤ limit)%nat → run (plain d) s = run (plain d) r → counts d s 0 r.
Proof. intros Hd H. unfold counts. by rewrite Nat.add_0_r, (proj2 (Nat.ltb_ge _ _)) by lia. Qed.
(** A bracket, the items and the bracket that closes it *)
Lemma counts_bracket d c s n r : is_open c = true →
  ((S d ≤ limit)%nat → run (plain (S d)) s = if (limit <? S d + n)%nat then None else run (plain d) r) →
  counts d (String c s) (S n) r.
Proof.
  intros Hc H. unfold counts. rewrite run_open by done. rewrite Nat.add_succ_r.
  destruct (Nat.ltb_spec limit (S d)) as [Hl|Hl]; [by rewrite (proj2 (Nat.ltb_lt _ _)) by lia|].
  rewrite H by done. by rewrite Nat.add_succ_l.
Qed.

Lemma scan_value_counts fuel : items_count fuel → members_count fuel → value_counts (S fuel).
Proof.
  intros Hi Hm d [|c s1] j r Hd; [done|]. cbn [scan_value].
  destruct (Ascii.eqb_spec c dquote) as [->|_].
  { intros H. inv_ok. destruct x as [t r']. injection H as <- <-. apply counts_zero; [done|].
    rewrite run_dquote. by apply run_scanstring with t. }
  destruct (Ascii.eqb_spec c "[") as [->|_].
  { destruct (eat "]" (skip_ws s1)) as [r'|] eqn:He.
    - intros [= <- <-]. apply eat_Some in He. apply counts_bracket; [done|]. intros Hl.
      rewrite <- (run_skip_ws _ s1), He, run_close by done. by rewrite Nat.add_0_r, (proj2 (Nat.ltb_ge _ _)) by lia.
    - intros H. inv_ok. destruct x as [l r']. injection H as <- <-. apply counts_bracket; [done|]. intros Hl.
      rewrite <- (run_skip_ws _ s1). by apply Hi. }
  destruct (Ascii.eqb_spec c "{") as [->|_].
  { destruct (eat "}" (skip_ws s1)) as [r'|] eqn:He.
    - intros H. inv_ok. apply pairs_kept in H0 as ->. apply eat_Some in He. apply counts_bracket; [done|]. intros Hl.
      rewrite <- (run_skip_ws _ s1), He, run_close by done. by rewrite Nat.add_0_r, (proj2 (Nat.ltb_ge _ _)) by lia.
    - intros ([l r'] & Hl & (l' & ->%pairs_kept & [= <- <-])%bind_Ok)%bind_Ok. apply counts_bracket; [done|].
      intros Hd'. rewrite <- (run_skip_ws _ s1). by apply Hm. }
  destruct (scan_literal h (String c s1)) as [[[j' r']|e]|] eqn:El; [|done|done]. intros [= <- <-].
  destruct (run_scan_literal d _ _ _ El) as [Hr ->]. by apply counts_zero.
Qed.

(** A value and what follows it: the comma and more, or the bracket *)
Lemma counts_item d s n r s' m r' : counts (S d) s n r →
  run (plain (S d)) r = (if (limit <? S d + m)%nat then None else run (plain d) r') → s' = s →
  run (plain (S d)) s' = if (limit <? S d + Nat.max n m)%nat then None else run (plain d) r'.
Proof.
  intros Hv Hr ->. rewrite Hv, Hr. destruct (Nat.ltb_spec limit (S d + n)), (Nat.ltb_spec limit (S d + m)),
    (Nat.ltb_spec limit (S d + Nat.max n m)); done || lia.
Qed.
Lemma run_bracket d c r r' : (S d ≤ limit)%nat → is_close c = true → skip_ws r = String c r' →
  run (plain (S d)) r = if (limit <? S d + 0)%nat then None else run (plain d) r'.
Proof.
  intros Hl Hc Hr. rewrite <- (run_skip_ws _ r), Hr, run_close by done.
  by rewrite Nat.add_0_r, (proj2 (Nat.ltb_ge _ _)) by lia.
Qed.
Lemma run_comma d r r' : skip_ws r = String "," r' → run (plain d) r = run (plain d) (skip_ws r').
Proof. intros Hr. by rewrite <- (run_skip_ws _ r), Hr, run_ignored, run_skip_ws by done. Qed.

Lemma scan_items_count fuel : value_counts fuel → items_count fuel → items_count (S fuel).
Proof.
  intros Hv Hi d s l r Hd. cbn [scan_items]. intros ([j r1] & Hj & H)%bind_Ok.
  apply (Hv (S d)) in Hj; [|done]. destruct (skip_ws r1) as [|c r2] eqn:Er; [done|].
  destruct c as [[] [] [] [] [] [] [] []]; try discriminate H.
  - injection H as <- <-. eapply counts_item; [exact Hj| |done]. eapply run_bracket; [done| |exact Er]; done.
  - apply bind_Ok in H as ([l' r3] & Hl & [= <- <-]). eapply counts_item; [exact Hj| |done].
    rewrite (run_comma _ _ _ Er). by apply Hi.
Qed.
Lemma scan_members_count fuel : value_counts fuel → members_count fuel → members_count (S fuel).
Proof.
  intros Hv Hm d [|c s1] l r Hd; [done|]. cbn [scan_members]. destruct (Ascii.eqb_spec c dquote) as [->|]; [|done].
  cbn [negb]. intros ([k r0] & Hk & H)%bind_Ok. destruct (skip_ws r0) as [|e r1] eqn:Er0; [done|].
  assert (e = ":"%char) as -> by (destruct e as [[] [] [] [] [] [] [] []]; try discriminate H; done).
  apply bind_Ok in H as ([j r2] & Hj & H). apply (Hv (S d)) in Hj; [|done].
  destruct (skip_ws r2) as [|c r3] eqn:Er; [done|].
  assert (run (plain (S d)) (String dquote s1) = run (plain (S d)) (skip_ws r1)) as Hs.
  { rewrite run_dquote, (run_scanstring _ _ _ _ Hk), <- (run_skip_ws _ r0), Er0, run_ignored, run_skip_ws by done. done. }
  rewrite Hs. destruct c as [[] [] [] [] [] [] [] []]; try discriminate H.
  - injection H as <- <-. eapply counts_item; [exact Hj| |done]. eapply run_bracket; [done| |exact Er]; done.
  - apply bind_Ok in H as ([l' r4] & Hl & [= <- <-]). eapply counts_item; [exact Hj| |done].
    rewrite (run_comma _ _ _ Er). by apply Hm.
Qed.
Lemma scanners_count fuel : value_counts fuel ∧ items_count fuel ∧ members_count fuel.
Proof.
  induction fuel as [|fuel (Hv & Hi & Hm)]; [by split_and!; intros ?|].
  split_and!; [by apply scan_value_counts|by apply scan_items_count|by apply scan_members_count].
Qed.

Lemma nesting_exact s j : loads_with h s = Ok j → _json_nesting_exceeds (lit s) limit = (limit <? depth j)%nat.
Proof.
  unfold loads_with. intros ([j' r] & Hj & H)%bind_Ok. destruct (skip_ws r) eqn:Er; [|done]. injection H as ->.
  apply (proj1 (scanners_count _) 0%nat) in Hj; [|lia]. unfold counts in Hj. rewrite run_skip_ws in Hj.
  unfold _json_nesting_exceeds. rewrite Hj. cbn [Nat.add]. destruct (limit <? depth j)%nat; [done|].
  by rewrite <- (run_skip_ws _ r), Er.
Qed.
End run.
