(* ===== verification/RunStore.v ===== *)
(** * reference_runtime.py: the run directory

    A run directory is a finite map from relative POSIX paths to file contents;
    it holds no symbolic links.  Writing renders the canonical form of a value;
    reading decodes the bytes and parses the JSON text.  What pydantic's
    [model_validate] makes of a JSON value is the parameter [Loader]. *)
From S2P Require Import Prelude Json Dicts PyTime PyDecimal Canonical Platforms Models Common Evidence.
Local Open Scope Z_scope.

Definition Files : Type := gmap string string.

(** ** Paths *)

(** [PurePosixPath(s).parts]: empty and "." components are dropped. *)
Fixpoint split_on (sep : ascii) (cur : string) (s : string) : list string :=
  match s with
  | EmptyString => [cur]
  | String c s =>
      if Ascii.eqb c sep then cur :: split_on sep "" s
      else split_on sep (cur +:+ String c "") s
  end.
Definition path_parts (s : string) : list string :=
  filter (λ p, p ≠ "" ∧ p ≠ ".") (split_on "/" "" s).
Definition is_absolute (s : string) : bool := starts_with "/" s.
Definition nul : ascii := ascii_of_nat 0.

(** [Path.resolve()] on absolute components without symbolic links *)
Fixpoint resolve (root : list string) (parts : list string) : list string :=
  match parts with
  | [] => root
  | p :: parts => resolve (if String.eqb p ".." then removelast root else root ++ [p]) parts
  end.

Definition is_prefix (l k : list string) : bool := bool_decide (take (length l) k = l).

(** The regular files outside the run directory, by resolved absolute path *)
Definition Fixtures : Type := gmap (list string) string.

(** Returns the resolved path and the file's content. *)
Definition _safe_document_path (fixtures : Fixtures) (base : list string) (relative_path : string)
    : result (list string * string) :=
  _ ← require (negb (has_char nul relative_path)) (Unmodelled "embedded null byte");
  let candidate := resolve (if is_absolute relative_path then [] else base) (path_parts relative_path) in
  _ ← require (is_prefix base candidate)
        (ReferenceRunError ("document path escapes the fixture directory: " +:+ relative_path));
  match fixtures !! candidate with
  | None => Raise (ReferenceRunError ("document does not exist: /" +:+ str_join "/" candidate))
  | Some content => Ok (candidate, content)
  end.

(** The resolved path of a file inside the run directory, relative to it *)
Definition _safe_run_path (files : Files) (relative_path : string) (require_file : bool)
    : result string :=
  let parts := path_parts relative_path in
  _ ← require (negb (has_char nul relative_path)) (Unmodelled "embedded null byte");
  _ ← require (negb (String.eqb relative_path "" || is_absolute relative_path ||
        bool_decide (parts = []) || bool_decide (".." ∈ parts)))
        (ReferenceRunError ("unsafe run artifact path: " +:+ relative_path));
  let candidate := str_join "/" parts in
  _ ← require (negb require_file || bool_decide (is_Some (files !! candidate)))
        (ReferenceRunError ("run artifact does not exist: " +:+ relative_path));
  Ok candidate.

(** ** Reading and writing *)

(** [json.load] on a file opened as UTF-8 text *)
Definition _load_json (files : Files) (path : string) : result json :=
  match files !! path with
  | None => Raise (OSError path)
  | Some raw =>
      text ← decode_utf8 raw;
      _ ← require (digit_run 0 0 text <=? 4300)%nat (Unmodelled "int digits");
      loads text
  end.

Definition _atomic_write (path data : string) (files : Files) : Files := <[path := data]> files.

Definition line_feed : string := char 10.

Definition _write_json (path : string) (value : pyval) (files : Files) : result Files :=
  j ← canonicalize [] value;
  Ok (_atomic_write path (dumps Indent2 j +:+ line_feed) files).

Definition _write_trace (path : string) (events : list TraceEvent) (files : Files) : result Files :=
  lines ← mapR (λ e, canonical_json [] (to_py e)) events;
  Ok (_atomic_write path (str_join "" (map (λ l, l +:+ line_feed) lines)) files).

(** Writes in sequence: a failing one leaves the files written before it. *)
Fixpoint write_all (files : Files) (writes : list (Files → result Files)) : Files * result unit :=
  match writes with
  | [] => (files, Ok ())
  | w :: writes =>
      match w files with
      | Ok files' => write_all files' writes
      | Raise e => (files, Raise e)
      end
  end.

(** ** The run state *)
Record RunState := mk_RunState {
  rs_run_id : string;
  rs_trace_id : string;
  rs_status : string;
  rs_stage : CaseState;
  rs_case : CaseRecord;
  rs_approval_subject_hash : string;
  rs_approval_request_id : string;
  rs_agentteams_integrated : bool;
  rs_external_side_effects_enabled : bool;
  rs_created_at : datetime;
  rs_updated_at : datetime;
  rs_artifact_paths : list (string * string);
}.
#[export] Instance RunState_to_py : ToPy RunState := λ x, VDict
    [("run_id", to_py x.(rs_run_id)); ("trace_id", to_py x.(rs_trace_id));
     ("status", to_py x.(rs_status)); ("stage", to_py x.(rs_stage)); ("case", to_py x.(rs_case));
     ("approval_subject_hash", to_py x.(rs_approval_subject_hash));
     ("approval_request_id", to_py x.(rs_approval_request_id));
     ("agentteams_integrated", to_py x.(rs_agentteams_integrated));
     ("external_side_effects_enabled", to_py x.(rs_external_side_effects_enabled));
     ("created_at", to_py x.(rs_created_at)); ("updated_at", to_py x.(rs_updated_at));
     ("artifact_paths", VDict (map (λ kv, (fst kv, VStr (snd kv))) x.(rs_artifact_paths)))].

Definition PERSISTED_STAGES : list CaseState :=
  [CaseState.AWAITING_APPROVAL; CaseState.APPROVED; CaseState.REJECTED;
   CaseState.REVISION_REQUIRED; CaseState.PACKAGED].

Definition RunState_validate (x : RunState) : result RunState :=
  _ ← require (bool_decide (x.(rs_stage) = x.(rs_case).(case_state)))
        (ValidationError "run stage must match the embedded case state");
  _ ← require (negb x.(rs_agentteams_integrated))
        (ValidationError "reference runtime state cannot claim AgentTeams integration");
  _ ← require (negb x.(rs_external_side_effects_enabled))
        (ValidationError "reference runtime state cannot enable external side effects");
  _ ← require (String.eqb x.(rs_status) "REFERENCE_RUNTIME_ONLY")
        (ValidationError "reference runtime state has an unsupported status");
  _ ← require (is_aware x.(rs_created_at))
        (ValidationError "reference runtime creation time must be timezone-aware");
  _ ← require (is_aware x.(rs_updated_at))
        (ValidationError "reference runtime update time must be timezone-aware");
  early ← dt_ltb x.(rs_updated_at) x.(rs_created_at);
  _ ← require (negb early)
        (ValidationError "reference runtime update time cannot precede creation");
  _ ← require (bool_decide (x.(rs_stage) ∈ PERSISTED_STAGES))
        (ValidationError "reference runtime state has an unsupported persisted stage");
  Ok x.

(** [state.model_copy(update=...)] *)
Definition update_state (case : CaseRecord) (now : datetime) (paths : list (string * string))
    (x : RunState) : RunState :=
  mk_RunState x.(rs_run_id) x.(rs_trace_id) x.(rs_status) case.(case_state) case
    x.(rs_approval_subject_hash) x.(rs_approval_request_id) x.(rs_agentteams_integrated)
    x.(rs_external_side_effects_enabled) x.(rs_created_at) now paths.

Record VerificationReport := mk_VerificationReport {
  vr_valid : bool;
  vr_checked_artifacts : Z;
  vr_checked_package_files : Z;
  vr_errors : list string;
}.

#[export] Instance SkillResult_to_py `{ToPy T} : ToPy (SkillResult T) := λ x, VDict
    [("status", to_py x.(sr_status)); ("value", to_py x.(sr_value)); ("issues", to_py x.(sr_issues));
     ("input_hash", to_py x.(sr_input_hash)); ("output_hash", to_py x.(sr_output_hash));
     ("emitted_refs", to_py x.(sr_emitted_refs))].

(** [X.model_validate(value)] of pydantic, for each class the runtime loads *)
Class Loader := {
  load_CaseManifest : json → result CaseManifest;
  load_RuleCatalog : json → result RuleCatalog;
  load_EvidenceObject : json → result EvidenceObject;
  load_RuleCitation : json → result RuleCitation;
  load_CalculationSheet : json → result CalculationSheet;
  load_ConflictReport : json → result ConflictReport;
  load_Proposal : json → result Proposal;
  load_AuditReport : json → result AuditReport;
  load_TimelineEvent : json → result TimelineEvent;
  load_ApprovalRequest : json → result ApprovalRequest;
  load_ApprovalRecord : json → result ApprovalRecord;
  load_PackageManifest : json → result PackageManifest;
  load_RunState : json → result RunState;
  (** [TraceEvent.model_validate_json(line)] *)
  load_TraceEvent : string → result TraceEvent;
}.

(** pydantic returns only instances whose validators passed. *)
Class LoaderLaws (L : Loader) : Prop := {
  load_RunState_valid : ∀ j s, load_RunState j = Ok s → RunState_validate s = Ok s;
  load_TraceEvent_valid : ∀ l e, load_TraceEvent l = Ok e → TraceEvent_validate e = Ok e;
  load_ApprovalRequest_valid : ∀ j r, load_ApprovalRequest j = Ok r → ApprovalRequest_validate r = Ok r;
  load_ApprovalRecord_valid : ∀ j r, load_ApprovalRecord j = Ok r → ApprovalRecord_validate r = Ok r;
}.

(** ** Loading the files of a run *)

(** A value [json.load] returned, as a Python value *)
Fixpoint py_of_json (j : json) : pyval :=
  match j with
  | JNull => VNone
  | JBool b => VBool b
  | JInt z => VInt z
  | JFloat t => VFloat t
  | JStr s => VStr s
  | JArr l => VSeq (map py_of_json l)
  | JObj l => VDict (map (λ kv, (fst kv, py_of_json (snd kv))) l)
  end.

(** [not line.strip()]: only Unicode whitespace *)
Fixpoint is_blank (s : string) : bool :=
  match s with
  | EmptyString => true
  | String a r =>
      if in_range 9 13 a || in_range 28 32 a then is_blank r else
      match r with
      | String b r =>
          if Ascii.eqb a (ascii_of_nat 194) then
            (Ascii.eqb b (ascii_of_nat 133) || Ascii.eqb b (ascii_of_nat 160)) && is_blank r
          else
          match r with
          | String c r =>
              ((Ascii.eqb a (ascii_of_nat 225) && Ascii.eqb b (ascii_of_nat 154) &&
                Ascii.eqb c (ascii_of_nat 128)) ||
               (Ascii.eqb a (ascii_of_nat 226) && Ascii.eqb b (ascii_of_nat 128) &&
                (in_range 128 138 c || in_range 168 169 c || Ascii.eqb c (ascii_of_nat 175))) ||
               (Ascii.eqb a (ascii_of_nat 226) && Ascii.eqb b (ascii_of_nat 129) &&
                Ascii.eqb c (ascii_of_nat 159)) ||
               (Ascii.eqb a (ascii_of_nat 227) && Ascii.eqb b (ascii_of_nat 128) &&
                Ascii.eqb c (ascii_of_nat 128))) && is_blank r
          | _ => false
          end
      | _ => false
      end
  end.

(** The lines of a text file, without their ends; the extra empty line a CR LF
    yields is blank. *)
Definition text_lines (s : string) : list string :=
  flat_map (split_on (ascii_of_nat 13) "") (split_on (ascii_of_nat 10) "" s).

(** [for item in value] *)
Definition items_of (j : json) : result (list json) :=
  match j with
  | JArr l => Ok l
  | JObj l => Ok (map (λ kv, JStr (fst kv)) l)
  | JStr "" => Ok []
  | JStr _ => Raise (Unmodelled "characters of a str")
  | _ => Raise (TypeError "object is not iterable")
  end.

Section readers.
Context `{P : Platform} `{L : Loader}.

Definition _state_artifact_path (files : Files) (state : RunState) (key : string)
    (require_file : bool) : result string :=
  match assoc key state.(rs_artifact_paths) with
  | None => Raise (ReferenceRunError ("run artifact path is missing: " +:+ key))
  | Some relative_path => _safe_run_path files relative_path require_file
  end.

Definition load_key (files : Files) (state : RunState) (key : string) : result json :=
  path ← _state_artifact_path files state key true; _load_json files path.

Definition load_one {A} (load : json → result A) (files : Files) (state : RunState) (key : string)
    : result A := j ← load_key files state key; load j.
Definition load_many {A} (load : json → result A) (files : Files) (state : RunState) (key : string)
    : result (list A) := j ← load_key files state key; items ← items_of j; mapR load items.

(** The six values [_read_artifacts] returns *)
Record RunArtifacts := mk_RunArtifacts {
  ra_evidence : list EvidenceObject;
  ra_rules : list RuleCitation;
  ra_calculation : CalculationSheet;
  ra_conflict_report : ConflictReport;
  ra_proposals : list Proposal;
  ra_audit_report : AuditReport;
}.

Definition _read_artifacts (files : Files) (state : RunState) : result RunArtifacts :=
  evidence ← load_many load_EvidenceObject files state "evidence";
  rules ← load_many load_RuleCitation files state "rules";
  calculation ← load_one load_CalculationSheet files state "calculation";
  conflict_report ← load_one load_ConflictReport files state "conflict_report";
  proposals ← load_many load_Proposal files state "proposals";
  audit_report ← load_one load_AuditReport files state "audit_report";
  Ok (mk_RunArtifacts evidence rules calculation conflict_report proposals audit_report).

(** [run_dir] is [None] where no such directory exists. *)
Definition _load_state (run_dir : option Files) : result RunState :=
  match run_dir with
  | None => Raise (ReferenceRunError "run directory does not exist")
  | Some files =>
      match (j ← _load_json files "run-state.json"; load_RunState j) with
      | Ok state => Ok state
      | Raise e =>
          if is_value_error e || match e with OSError _ => true | _ => false end
          then Raise (ReferenceRunError "run state is missing or invalid") else Raise e
      end
  end.

Definition _read_trace (files : Files) (path : string) : result (list TraceEvent) :=
  match files !! path with
  | None => Raise (OSError path)
  | Some raw =>
      text ← decode_utf8 raw;
      mapR load_TraceEvent (filter (λ l, is_blank l = false) (text_lines text))
  end.

Definition _read_manifest (files : Files) (state : RunState) : result CaseManifest :=
  load_one load_CaseManifest files state "manifest".
Definition _read_timeline (files : Files) (state : RunState) : result (list TimelineEvent) :=
  load_many load_TimelineEvent files state "timeline".
Definition _read_skill_results (files : Files) (state : RunState) : result (list json) :=
  j ← load_key files state "skill_results";
  match j with
  | JArr l => Ok l
  | _ => Raise (ReferenceRunError "stored skill results are not a list")
  end.
Definition _load_approval_request (files : Files) (state : RunState) : result ApprovalRequest :=
  match load_one load_ApprovalRequest files state "approval_request" with
  | Ok r => Ok r
  | Raise e =>
      if is_value_error e || match e with OSError _ => true | _ => false end
      then Raise (ReferenceRunError "approval request is missing or invalid") else Raise e
  end.

(** [_require_success(stage, result)] *)
Definition _require_success {T} (stage : string) (r : SkillResult T) : result T :=
  match r.(sr_status), r.(sr_value) with
  | SkillStatus.SUCCESS, Some value => Ok value
  | _, _ => Raise (ReferenceRunBlocked stage (map iss_code r.(sr_issues)))
  end.
End readers.

(** ** Confinement *)
Lemma resolve_plain root parts : ".." ∉ parts → resolve root parts = root ++ parts.
Proof.
  revert root; induction parts as [|p l IH]; intros root; simpl; [by rewrite app_nil_r|].
  intros [Hp Hl]%not_elem_of_cons. destruct (String.eqb_spec p ".."); [congruence|].
  rewrite IH by done. by rewrite <- app_assoc.
Qed.

Lemma split_on_no_sep sep cur s : has_char sep cur = false →
  Forall (λ p, has_char sep p = false) (split_on sep cur s).
Proof.
  revert cur; induction s as [|c s IH]; intros cur Hc; simpl; [by repeat constructor|].
  destruct (Ascii.eqb c sep) eqn:E.
  - constructor; [done|]. by apply IH.
  - apply IH. rewrite has_char_app, Hc. simpl. by rewrite E.
Qed.

Lemma path_parts_plain s p : p ∈ path_parts s → p ≠ "" ∧ p ≠ "." ∧ has_char "/" p = false.
Proof.
  intros [[H1 H2] Hp]%list_elem_of_filter. split; [done|]. split; [done|].
  pose proof (split_on_no_sep "/" "" s eq_refl) as HF. rewrite Forall_forall in HF. auto.
Qed.

Lemma safe_run_path_Ok files rel rf key : _safe_run_path files rel rf = Ok key ↔
  has_char nul rel = false ∧ rel ≠ "" ∧ is_absolute rel = false ∧ path_parts rel ≠ [] ∧
  ".." ∉ path_parts rel ∧ key = str_join "/" (path_parts rel) ∧
  (rf = true → is_Some (files !! key)).
Proof.
  unfold _safe_run_path. split.
  - intros H. apply bind_Ok in H as (? & H1%require_Ok & H).
    apply bind_Ok in H as (? & H2%require_Ok & H). cbv zeta in H.
    apply bind_Ok in H as (? & H3%require_Ok & [= <-]).
    rewrite negb_true_iff in H1, H2. rewrite !orb_false_iff in H2.
    destruct H2 as [[[Hr Ha] Hp] Hd]. apply String.eqb_neq in Hr.
    apply bool_decide_eq_false in Hp, Hd. repeat split; try done.
    intros ->. apply orb_true_iff in H3 as [?|H3]; [done|]. by apply bool_decide_eq_true in H3.
  - intros (H1 & Hr & Ha & Hp & Hd & -> & Hf). rewrite H1. cbn [negb require mbind result_bind].
    apply String.eqb_neq in Hr. rewrite Hr, Ha,
      (bool_decide_eq_false_2 (path_parts rel = [])), (bool_decide_eq_false_2 (".." ∈ path_parts rel))
      by done.
    cbn [orb negb require mbind result_bind].
    destruct rf; simpl; [|done]. rewrite bool_decide_eq_true_2; [done|]. by apply Hf.
Qed.

(** Confinement: whatever absolute directory the run lives in, a path the runtime
    accepts resolves strictly below it, to nonempty components none of which is "." or
    ".." or contains a separator, and a file that must exist does; an accepted document
    path resolves to an existing file below the fixture directory. *)
Lemma accepted_paths_are_confined (files : Files) (fixtures : Fixtures) (rel key : string)
    (require_file : bool) (root base path : list string) (content : string) :
  (_safe_run_path files rel require_file = Ok key →
    resolve root (path_parts rel) = root ++ path_parts rel ∧ path_parts rel ≠ [] ∧
    key = str_join "/" (path_parts rel) ∧
    (∀ p, p ∈ path_parts rel → p ∉ [""; "."; ".."] ∧ has_char "/" p = false) ∧
    (require_file = true → is_Some (files !! key))) ∧
  (_safe_document_path fixtures base rel = Ok (path, content) →
    (∃ inside, path = base ++ inside) ∧ fixtures !! path = Some content).
Proof.
  split.
  - intros (_ & _ & _ & Hp & Hd & Hk & Hf)%safe_run_path_Ok.
    split; [by apply resolve_plain|]. split; [done|]. split; [done|]. split; [|done].
    intros p Hin. destruct (path_parts_plain _ _ Hin) as (H1 & H2 & H3). split; [|done].
    rewrite !not_elem_of_cons. split; [done|]. split; [done|]. split; [|apply not_elem_of_nil].
    by intros ->.
  - unfold _safe_document_path. intros H. apply bind_Ok in H as (? & _ & H). cbv zeta in H.
    apply bind_Ok in H as (? & Hp%require_Ok & H).
    destruct (fixtures !! _) as [c|] eqn:E; [|done]. injection H as <- <-. split; [|done].
    apply bool_decide_eq_true in Hp. rewrite <- (take_drop (length base) (resolve _ _)), Hp. eauto.
Qed.

Lemma accepted_paths_are_confined_witness :
  _safe_run_path {[ "artifacts/rules.json" := "[]" ]} "artifacts//./rules.json" true =
    Ok "artifacts/rules.json" ∧
  ∃ inside, ["data"; "docs"; "a.json"] = ["data"] ++ inside.
Proof.
  pose proof (accepted_paths_are_confined {[ "artifacts/rules.json" := "[]" ]}
    {[ ["data"; "docs"; "a.json"] := "{}" ]} "artifacts//./rules.json" "artifacts/rules.json" true
    ["srv"] ["data"] ["data"; "docs"; "a.json"] "{}") as [H1 _].
  pose proof (accepted_paths_are_confined {[ "artifacts/rules.json" := "[]" ]}
    {[ ["data"; "docs"; "a.json"] := "{}" ]} "docs/../docs/a.json" "artifacts/rules.json" true
    ["srv"] ["data"] ["data"; "docs"; "a.json"] "{}") as [_ H2].
  assert (_safe_run_path {[ "artifacts/rules.json" := "[]" ]} "artifacts//./rules.json" true =
    Ok "artifacts/rules.json") as E by (vm_compute; reflexivity).
  split; [exact E|]. specialize (H1 E). apply H2. vm_compute. reflexivity.
Defined.
