(* ===== verification/RunBinding.v ===== *)
(** * reference_runtime.py: the approval subject and what is bound to it

    The approval subject of a run is the digest of everything a reviewer sees.
    The approval request is a function of the sealed audit report and of that
    digest; a request or a record that differs from it is reported, one message
    per field. *)
From S2P Require Import Prelude Json Dicts PyTime PyDecimal Canonical Platforms Models StateMachine.
From S2P Require Import Common TrustedStore Calculation Approval AuditSkill Packaging Evidence.
From S2P Require Import RunStore.
Local Open Scope Z_scope.

#[export] Instance ApprovalRequest_eq_dec : EqDecision ApprovalRequest.
Proof. solve_decision. Defined.
#[export] Instance CaseRecord_eq_dec : EqDecision CaseRecord.
Proof. solve_decision. Defined.

Definition APPROVAL_POLICY_VERSION : string := "approval-policy-v0.1".
Definition APPROVAL_REQUIRED_ROLE : string := "legal-reviewer".
Definition APPROVAL_TTL : Z := hours 24.

(** [if condition: errors.append(message)] *)
Definition error_if (condition : bool) (message : string) : list string :=
  if condition then [message] else [].
(** [if a != b: errors.append(message)] on [str] *)
Definition unless_eq (a b : string) (message : string) : list string :=
  error_if (negb (String.eqb a b)) message.

Lemma error_if_nil b m : error_if b m = [] ↔ b = false.
Proof. by destruct b. Qed.
Lemma unless_eq_nil a b m : unless_eq a b m = [] ↔ a = b.
Proof. unfold unless_eq. by rewrite error_if_nil, negb_false_iff, String.eqb_eq. Qed.

(** What the digest of the approval subject covers *)
Record Subject := mk_Subject {
  sj_manifest : CaseManifest;
  sj_case : CaseRecord;
  sj_timeline : list TimelineEvent;
  sj_artifacts : RunArtifacts;
  sj_skill_results : pyval;
  sj_trace : list TraceEvent;
}.
Definition subject_items (x : Subject) : list (string * pyval) :=
    [("manifest", to_py x.(sj_manifest)); ("case", to_py x.(sj_case));
     ("evidence", to_py x.(sj_artifacts).(ra_evidence)); ("timeline", to_py x.(sj_timeline));
     ("rules", to_py x.(sj_artifacts).(ra_rules));
     ("calculation", to_py x.(sj_artifacts).(ra_calculation));
     ("conflict_report", to_py x.(sj_artifacts).(ra_conflict_report));
     ("proposals", to_py x.(sj_artifacts).(ra_proposals));
     ("audit_report", to_py x.(sj_artifacts).(ra_audit_report));
     ("skill_results", x.(sj_skill_results)); ("trace", to_py x.(sj_trace))].
#[export] Instance Subject_to_py : ToPy Subject := λ x, VDict (subject_items x).

Section binding.
Context `{P : Platform}.

Definition _subject_hash (x : Subject) : result string := sha256_digest (to_py x).

Fixpoint _approval_trace_prefix (trace : list TraceEvent) : list TraceEvent :=
  match trace with
  | [] => []
  | event :: trace =>
      if String.eqb event.(te_event_type) "skill.human_approval" then []
      else event :: _approval_trace_prefix trace
  end.

Definition is_transition (e : TraceEvent) : bool := String.eqb e.(te_event_type) "case.state_transition".

(** The case as it was when the approval was requested *)
Definition approval_case (case : CaseRecord) (approval_trace : list TraceEvent) : CaseRecord :=
  with_state CaseState.AWAITING_APPROVAL
    (Z.of_nat (length (List.filter is_transition approval_trace))) case.

Definition _current_approval_subject_hash `{L : Loader} (files : Files) (state : RunState)
    (artifacts : RunArtifacts) (full_trace : list TraceEvent) : result string :=
  manifest ← _read_manifest files state;
  timeline ← _read_timeline files state;
  skill_results ← _read_skill_results files state;
  let approval_trace := _approval_trace_prefix full_trace in
  _subject_hash (mk_Subject manifest (approval_case state.(rs_case) approval_trace) timeline artifacts
    (VSeq (map py_of_json skill_results)) approval_trace).

Definition _expected_approval_request (audit_report : AuditReport) (approval_subject_hash : string)
    : result ApprovalRequest :=
  let m := audit_report.(ar_meta) in
  request_id ← stable_id "approval-request"
    (VDict [("policy_version", to_py APPROVAL_POLICY_VERSION); ("trace_id", to_py m.(meta_trace_id));
            ("subject", to_py approval_subject_hash)]);
  expires_at ← dt_add m.(meta_created_at) APPROVAL_TTL;
  ApprovalRequest_validate
    (mk_ApprovalRequest request_id m.(meta_tenant_id) m.(meta_case_id) m.(meta_trace_id)
      ("ApprovalSubject:" +:+ m.(meta_trace_id)) approval_subject_hash (artifact_ref audit_report)
      APPROVAL_REQUIRED_ROLE m.(meta_created_at) expires_at).

Definition _approval_request_binding_errors (state : RunState) (approval_request expected : ApprovalRequest)
    : list string :=
  unless_eq state.(rs_approval_subject_hash) expected.(areq_artifact_hash)
    "run state approval subject does not match deterministic policy" ++
  unless_eq state.(rs_approval_request_id) expected.(areq_request_id)
    "run state approval request id does not match deterministic policy" ++
  unless_eq state.(rs_trace_id) expected.(areq_trace_id)
    "run state trace id does not match deterministic policy" ++
  error_if (negb (String.eqb state.(rs_case).(case_tenant_id) expected.(areq_tenant_id)) ||
            negb (String.eqb state.(rs_case).(case_case_id) expected.(areq_case_id)))
    "run state tenant or case does not match deterministic policy" ++
  error_if (negb (dt_eqb state.(rs_created_at) expected.(areq_created_at)))
    "run state creation time does not match deterministic policy" ++
  error_if (negb (bool_decide (approval_request = expected)))
    "approval request does not match deterministic policy".

Definition _approval_record_binding_errors (record : ApprovalRecord) (expected : ApprovalRequest)
    : result (list string) :=
  let m := record.(arec_meta) in
  let expected_sources := ["ApprovalRequest:" +:+ expected.(areq_request_id);
                           expected.(areq_artifact_ref); expected.(areq_audit_report_ref)] in
  expected_artifact_id ← stable_id "approval"
    (VDict [("request_id", to_py expected.(areq_request_id)); ("decision", to_py record.(arec_decision));
            ("actor_id", to_py record.(arec_approver_id));
            ("artifact_hash", to_py expected.(areq_artifact_hash))]);
  early ← dt_ltb record.(arec_decided_at) expected.(areq_created_at);
  late ← dt_ltb expected.(areq_expires_at) record.(arec_decided_at);
  Ok (unless_eq m.(meta_artifact_id) expected_artifact_id "approval record artifact id mismatch" ++
      unless_eq record.(arec_request_id) expected.(areq_request_id)
        "approval record request id mismatch" ++
      unless_eq record.(arec_approver_role) expected.(areq_required_role)
        "approval record role mismatch" ++
      unless_eq record.(arec_approved_artifact_hash) expected.(areq_artifact_hash)
        "approval record subject hash mismatch" ++
      error_if (negb (dt_eqb record.(arec_expires_at) expected.(areq_expires_at)))
        "approval record expiry mismatch" ++
      error_if early "approval record decision occurred before request creation" ++
      error_if late "approval record decision occurred after expiry" ++
      error_if (negb (dt_eqb m.(meta_created_at) record.(arec_decided_at)))
        "approval record metadata time mismatch" ++
      unless_eq m.(meta_tenant_id) expected.(areq_tenant_id) "approval record tenant mismatch" ++
      unless_eq m.(meta_case_id) expected.(areq_case_id) "approval record case mismatch" ++
      unless_eq m.(meta_trace_id) expected.(areq_trace_id) "approval record trace mismatch" ++
      error_if (negb (bool_decide (m.(meta_source_refs) = expected_sources)))
        "approval record source binding mismatch" ++
      unless_eq m.(meta_producer_identity) ("HUMAN:" +:+ record.(arec_approver_id))
        "approval record producer identity mismatch" ++
      error_if (negb (bool_decide (m.(meta_classification) = DataClassification.PUBLIC_SYNTHETIC)))
        "approval record classification mismatch" ++
      unless_eq m.(meta_schema_version) SCHEMA_VERSION "approval record schema version mismatch" ++
      unless_eq record.(arec_approval_method) "LOCAL_DEMO" "approval record method mismatch").

(** [_context(...)] *)
Definition _context (case : CaseRecord) (trace_id caller idempotency_key : string) : result SkillContext :=
  SkillContext_validate
    (mk_SkillContext case.(case_tenant_id) case.(case_case_id) caller ActorKind.AGENT trace_id
      idempotency_key SCHEMA_VERSION case.(case_state_version)).

(** [_skill_event(...)] *)
Definition _skill_event {T} (r : SkillResult T) (sequence : Z) (trace_id : string) (case : CaseRecord)
    (actor_identity event_type : string) (now : datetime) : result TraceEvent :=
  TraceEvent_validate
    (mk_TraceEvent sequence trace_id case.(case_tenant_id) case.(case_case_id) actor_identity
      ActorKind.AGENT event_type (Some r.(sr_input_hash)) r.(sr_output_hash)
      (SkillStatus.value r.(sr_status)) now
      (match r.(sr_issues) with i :: _ => Some i.(iss_code) | [] => None end)).

Definition _require_approval_request_binding (state : RunState) (approval_request : ApprovalRequest)
    (audit_report : AuditReport) : result ApprovalRequest :=
  sealed ← verify_hash audit_report;
  _ ← require sealed
        (ReferenceRunError "approval request binding mismatch: audit report is unsealed");
  expected ← _expected_approval_request audit_report state.(rs_approval_subject_hash);
  let errors := _approval_request_binding_errors state approval_request expected in
  _ ← require (bool_decide (errors = []))
        (ReferenceRunError ("approval request binding mismatch: " +:+ str_join "; " errors));
  Ok expected.

(** ** The meaning of the checks *)
Lemma request_binding_nil state areq expected :
  _approval_request_binding_errors state areq expected = [] ↔
  areq = expected ∧ state.(rs_approval_subject_hash) = expected.(areq_artifact_hash) ∧
  state.(rs_approval_request_id) = expected.(areq_request_id) ∧
  (state.(rs_case).(case_tenant_id), state.(rs_case).(case_case_id), state.(rs_trace_id)) =
    (expected.(areq_tenant_id), expected.(areq_case_id), expected.(areq_trace_id)) ∧
  state.(rs_created_at) = expected.(areq_created_at).
Proof.
  unfold _approval_request_binding_errors.
  rewrite !app_nil, !unless_eq_nil, !error_if_nil, orb_false_iff, !negb_false_iff, !String.eqb_eq,
    dt_eqb_eq, bool_decide_eq_true.
  split; [intros (? & ? & ? & [? ?] & ? & ?)|intros (? & ? & ? & [= ? ? ?] & ?)];
    repeat split; congruence.
Qed.

(** What a record without binding errors says *)
Record record_bound (record : ApprovalRecord) (expected : ApprovalRequest) : Prop := {
  rb_request : record.(arec_request_id) = expected.(areq_request_id);
  rb_role : record.(arec_approver_role) = expected.(areq_required_role);
  rb_subject : record.(arec_approved_artifact_hash) = expected.(areq_artifact_hash);
  rb_expiry : record.(arec_expires_at) = expected.(areq_expires_at);
  rb_window : dt_ltb record.(arec_decided_at) expected.(areq_created_at) = Ok false ∧
    dt_ltb expected.(areq_expires_at) record.(arec_decided_at) = Ok false;
  rb_meta : ∃ i, stable_id "approval"
      (VDict [("request_id", to_py expected.(areq_request_id)); ("decision", to_py record.(arec_decision));
              ("actor_id", to_py record.(arec_approver_id));
              ("artifact_hash", to_py expected.(areq_artifact_hash))]) = Ok i ∧
    with_content_hash None record.(arec_meta) =
    mk_ArtifactMeta i expected.(areq_tenant_id) expected.(areq_case_id) SCHEMA_VERSION
      ("HUMAN:" +:+ record.(arec_approver_id)) expected.(areq_trace_id) record.(arec_decided_at)
      ["ApprovalRequest:" +:+ expected.(areq_request_id); expected.(areq_artifact_ref);
       expected.(areq_audit_report_ref)]
      DataClassification.PUBLIC_SYNTHETIC None;
  rb_method : record.(arec_approval_method) = "LOCAL_DEMO";
}.

Lemma record_binding_nil record expected :
  _approval_record_binding_errors record expected = Ok [] ↔ record_bound record expected.
Proof.
  unfold _approval_record_binding_errors. cbv zeta. split.
  - intros H. apply bind_Ok in H as (i & Hi & H). apply bind_Ok in H as (early & He & H).
    apply bind_Ok in H as (late & Hl & [= H]).
    rewrite !app_nil, !unless_eq_nil, !error_if_nil, !negb_false_iff, !dt_eqb_eq, !bool_decide_eq_true in H.
    destruct H as (H1 & H2 & H3 & H4 & H5 & -> & -> & H6 & H7 & H8 & H9 & H10 & H11 & H12 & H13 & H14).
    split; try done. exists i. split; [done|].
    unfold with_content_hash. destruct (arec_meta record). simpl in *. congruence.
  - intros [H1 H2 H3 H4 [-> ->] (i & -> & Hm) Hme].
    unfold with_content_hash in Hm. destruct (arec_meta record) eqn:E. simpl in *.
    injection Hm as -> -> -> -> -> -> -> -> ->.
    cbn [mbind result_bind]. f_equal.
    rewrite !app_nil, !unless_eq_nil, !error_if_nil, !negb_false_iff, !dt_eqb_eq, !bool_decide_eq_true.
    done.
Qed.
End binding.

(** ** What an approval is bound to *)
Section subject.
Context `{P : Platform}.

(** Two values with one canonical form *)
Definition same_canonical `{ToPy A} (x y : A) : Prop := canonicalize [] (to_py x) = canonicalize [] (to_py y).

(** The approval subject commits to everything the reviewer saw: two well-formed
    subjects with the same digest have the same canonical manifest, case, evidence,
    timeline, rules, calculation, conflict report, proposals, audit report, Skill
    results and trace, or their canonical texts are a SHA-256 collision. A changed run
    therefore needs a new approval. *)
Lemma subject_hash_binds (a b : Subject) (h : string) :
  wf_py (to_py a) = true → wf_py (to_py b) = true →
  _subject_hash a = Ok h → _subject_hash b = Ok h →
  (same_canonical a.(sj_manifest) b.(sj_manifest) ∧ same_canonical a.(sj_case) b.(sj_case) ∧
   same_canonical a.(sj_artifacts).(ra_evidence) b.(sj_artifacts).(ra_evidence) ∧
   same_canonical a.(sj_timeline) b.(sj_timeline) ∧
   same_canonical a.(sj_artifacts).(ra_rules) b.(sj_artifacts).(ra_rules) ∧
   same_canonical a.(sj_artifacts).(ra_calculation) b.(sj_artifacts).(ra_calculation) ∧
   same_canonical a.(sj_artifacts).(ra_conflict_report) b.(sj_artifacts).(ra_conflict_report) ∧
   same_canonical a.(sj_artifacts).(ra_proposals) b.(sj_artifacts).(ra_proposals) ∧
   same_canonical a.(sj_artifacts).(ra_audit_report) b.(sj_artifacts).(ra_audit_report) ∧
   canonicalize [] a.(sj_skill_results) = canonicalize [] b.(sj_skill_results) ∧
   same_canonical a.(sj_trace) b.(sj_trace) ∧
   (a.(sj_case).(case_tenant_id), a.(sj_case).(case_case_id), a.(sj_case).(case_jurisdiction)) =
     (b.(sj_case).(case_tenant_id), b.(sj_case).(case_case_id), b.(sj_case).(case_jurisdiction))) ∨
  colliding [] (to_py a) (to_py b).
Proof.
  intros Hwa Hwb Ha Hb. destruct (digest_injective _ _ _ _ Hwa Hwb Ha Hb) as [Hj|]; [left|by right].
  assert (∀ k v w, (k, v) ∈ subject_items a → (k, w) ∈ subject_items b →
    canonicalize [] v = canonicalize [] w) as Hf
    by (intros k v w Hv Hk; exact (fields_agree (subject_items a) (subject_items b) k v w Hwa Hj Hv Hk)).
  assert (∀ k v, (k, v) ∈ subject_items a → wf_py v = true) as Hw
    by (intros k v Hk; exact (wf_dict_elem (subject_items a) k v Hwa Hk)).
  assert (("case", to_py a.(sj_case)) ∈ subject_items a ∧ ("case", to_py b.(sj_case)) ∈ subject_items b)
    as [Ca Cb] by (split; right; left).
  pose proof (Hf _ _ _ Ca Cb) as Ec. unfold same_canonical.
  repeat match goal with
  | |- _ ∧ _ => split
  | |- canonicalize _ _ = canonicalize _ _ => eapply Hf; unfold subject_items; repeat constructor
  end.
  f_equal; [f_equal|]; eapply (strings_agree _ _ _ _ _ (Hw _ _ Ca) Ec); repeat constructor.
Qed.
End subject.
