(* ===== verification/RunTrace.v ===== *)
(** * reference_runtime.py: the integrity of a stored trace

    [_trace_integrity_errors] replays the workflow a run must have followed: the
    sequence of events and actors, the hash chain of the case, the human
    decision, the package, and the stored results of the Skills.  [intact] is
    the specification: a trace without errors is exactly an intact one. *)
From S2P Require Import Prelude Json Dicts PyTime PyDecimal Canonical Platforms Models StateMachine.
From S2P Require Import Common TrustedStore Calculation Approval AuditSkill Packaging Evidence.
From S2P Require Import RunStore RunBinding.
Local Open Scope Z_scope.

Definition opt_neq (a b : option string) : bool := negb (bool_decide (a = b)).
Lemma opt_neq_false a b : opt_neq a b = false ↔ a = b.
Proof. unfold opt_neq. by rewrite negb_false_iff, bool_decide_eq_true. Qed.

(** [(event_type, actor_identity, actor_kind)] *)
Definition EventKey : Type := string * string * ActorKind.
Definition event_key (e : TraceEvent) : EventKey :=
  (e.(te_event_type), e.(te_actor_identity), e.(te_actor_kind)).
Definition agent_event (event_type identity : string) : EventKey := (event_type, identity, ActorKind.AGENT).
Definition transition_key : EventKey := agent_event "case.state_transition" "PF-A1".

Definition prepared_events (manifest_document_count : nat) : list EventKey :=
  [transition_key] ++ repeat (agent_event "skill.evidence_ingest" "PF-A2") manifest_document_count ++
  [agent_event "skill.timeline_build" "PF-A2"; transition_key;
   agent_event "skill.rule_retrieve" "PF-A3"; transition_key;
   agent_event "skill.deterministic_calculate" "PF-A4"; transition_key;
   agent_event "strategy.proposal_generate" "PF-A5"; transition_key;
   agent_event "skill.conflict_detect" "PF-A6"; agent_event "skill.decision_audit" "PF-A6";
   transition_key].

Definition expected_events (manifest_document_count : nat) (approval_record : option ApprovalRecord)
    (package_manifest : option PackageManifest) : list EventKey :=
  prepared_events manifest_document_count ++
  match approval_record with
  | Some r => [("skill.human_approval", r.(arec_approver_id), ActorKind.HUMAN);
               ("case.state_transition", r.(arec_approver_id), ActorKind.HUMAN)]
  | None => []
  end ++
  match package_manifest with
  | Some _ => [agent_event "skill.document_package" "PF-A1"; transition_key]
  | None => []
  end.

(** The state each decision leads to *)
Definition decision_target (d : ApprovalDecision) : CaseState :=
  match d with
  | ApprovalDecision.APPROVE => CaseState.APPROVED
  | ApprovalDecision.REJECT => CaseState.REJECTED
  | ApprovalDecision.REVISE => CaseState.REVISION_REQUIRED
  end.

Definition prepared_targets : list CaseState :=
  [CaseState.INGESTING; CaseState.FACTS_READY; CaseState.RULES_READY; CaseState.CALC_READY;
   CaseState.PROPOSAL_READY; CaseState.AWAITING_APPROVAL].
Definition expected_state_targets (approval_record : option ApprovalRecord)
    (package_manifest : option PackageManifest) : list CaseState :=
  prepared_targets ++
  match approval_record with Some r => [decision_target r.(arec_decision)] | None => [] end ++
  match package_manifest with Some _ => [CaseState.PACKAGED] | None => [] end.

Definition unclean (e : TraceEvent) : bool :=
  negb (String.eqb e.(te_status) "SUCCESS") || bool_decide (is_Some e.(te_error_code)).

(** [for previous, current in pairwise(items)] *)
Definition pairwise {A} (l : list A) : list (A * A) := zip l (tail l).

Definition time_errors (state : RunState) (trace : list TraceEvent) : result (list string) :=
  decreasing ← mapR (λ pc : TraceEvent * TraceEvent,
    dt_ltb (snd pc).(te_occurred_at) (fst pc).(te_occurred_at)) (pairwise trace);
  Ok (error_if (existsb id decreasing) "trace timestamps are not monotonic" ++
      error_if (match trace with e :: _ => negb (dt_eqb e.(te_occurred_at) state.(rs_created_at))
                | [] => true end)
        "run creation time does not match the first trace event" ++
      error_if (match last trace with Some e => negb (dt_eqb e.(te_occurred_at) state.(rs_updated_at))
                | None => true end)
        "run update time does not match the final trace event").

(** The body of the first loop over the trace *)
Definition event_errors (state : RunState) (e : TraceEvent) : list string :=
  error_if (unclean e) "trace contains a non-success event" ++
  unless_eq e.(te_trace_id) state.(rs_trace_id) "trace event trace id mismatch" ++
  unless_eq e.(te_tenant_id) state.(rs_case).(case_tenant_id) "trace event tenant mismatch" ++
  unless_eq e.(te_case_id) state.(rs_case).(case_case_id) "trace event case mismatch".

Section trace.
Context `{P : Platform}.

Definition initial_case (state : RunState) : CaseRecord := with_state CaseState.RECEIVED 0 state.(rs_case).

Definition chain_errors (state : RunState) (state_events : list TraceEvent) : result (list string) :=
  first ← sha256_digest (to_py (initial_case state));
  final ← sha256_digest (to_py state.(rs_case));
  Ok (error_if (negb (Z.of_nat (length state_events) =? state.(rs_case).(case_state_version)))
        "trace state-transition count mismatch" ++
      error_if (match state_events with e :: _ => opt_neq e.(te_input_hash) (Some first) | [] => true end)
        "trace does not start at the deterministic initial case state" ++
      flat_map (λ pc : TraceEvent * TraceEvent,
        error_if (opt_neq (fst pc).(te_output_hash) (snd pc).(te_input_hash))
          "trace state-transition hash chain is broken") (pairwise state_events) ++
      error_if (match last state_events with Some e => opt_neq e.(te_output_hash) (Some final)
                | None => true end)
        "trace does not terminate at the stored case state" ++
      flat_map (λ e, error_if (unclean e) "trace contains a non-successful state transition")
        state_events).

(** The replay of the state plan: the errors, and the case it ends in *)
Fixpoint replay (expected_case : CaseRecord) (plan : list (TraceEvent * CaseState))
    : result (list string * CaseRecord) :=
  match plan with
  | [] => Ok ([], expected_case)
  | (event, target) :: plan =>
      let next_case := with_state target (expected_case.(case_state_version) + 1) expected_case in
      before ← sha256_digest (to_py expected_case);
      after ← sha256_digest (to_py next_case);
      '(errors, final) ← replay next_case plan;
      Ok (error_if (opt_neq event.(te_input_hash) (Some before))
            "trace transition input does not match the expected state plan" ++
          error_if (opt_neq event.(te_output_hash) (Some after))
            "trace transition output does not match the expected state plan" ++ errors, final)
  end.

Definition plan_errors (state : RunState) (state_events : list TraceEvent) (targets : list CaseState)
    : result (list string) :=
  if negb (length state_events =? length targets)%nat then
    Ok ["trace state-transition plan mismatch"]
  else
    '(errors, final) ← replay (initial_case state) (zip state_events targets);
    Ok (errors ++ error_if (negb (bool_decide (final = state.(rs_case))))
          "stored case does not match the replayed state plan").

Definition events_of_type (event_type : string) (trace : list TraceEvent) : list TraceEvent :=
  List.filter (λ e, String.eqb e.(te_event_type) event_type) trace.

Definition approval_event_errors (trace : list TraceEvent) (approval_request : ApprovalRequest)
    (current_subject_hash : string) (approval_record : option ApprovalRecord) : result (list string) :=
  match approval_record, events_of_type "skill.human_approval" trace with
  | None, l => Ok (error_if (nonempty l) "trace contains approval without an approval record")
  | Some record, [e] =>
      input ← sha256_digest (to_py (mk_ApprovalExecuteRequest approval_request current_subject_hash));
      output ← sha256_digest (to_py (mk_ApprovalExecuteOutput record));
      Ok (error_if (negb (bool_decide (e.(te_actor_kind) = ActorKind.HUMAN)))
            "approval trace actor is not human" ++
          unless_eq e.(te_actor_identity) record.(arec_approver_id)
            "approval trace actor does not match approval record" ++
          error_if (unclean e) "approval trace event is not a clean success" ++
          error_if (negb (dt_eqb e.(te_occurred_at) record.(arec_decided_at)))
            "approval trace time does not match approval record" ++
          error_if (opt_neq e.(te_input_hash) (Some input))
            "approval trace input does not match the active request" ++
          error_if (opt_neq e.(te_output_hash) (Some output))
            "approval trace output does not match approval record")
  | Some _, _ => Ok ["trace must contain exactly one human approval event"]
  end.

Definition package_event_errors (trace : list TraceEvent) (package_manifest : option PackageManifest)
    (package_input_hash package_output_hash : option string) : list string :=
  match package_manifest, events_of_type "skill.document_package" trace with
  | None, l => error_if (nonempty l) "trace contains package event without a package manifest"
  | Some m, [e] =>
      error_if (negb (String.eqb e.(te_actor_identity) "PF-A1") ||
                negb (bool_decide (e.(te_actor_kind) = ActorKind.AGENT))) "package trace actor mismatch" ++
      error_if (unclean e) "package trace event is not a clean success" ++
      error_if (negb (dt_eqb e.(te_occurred_at) m.(pm_meta).(meta_created_at)))
        "package trace time does not match package manifest" ++
      error_if (negb (bool_decide (is_Some package_input_hash)) || opt_neq e.(te_input_hash) package_input_hash)
        "package trace input does not match packaged artifacts" ++
      error_if (negb (bool_decide (is_Some package_output_hash)) || opt_neq e.(te_output_hash) package_output_hash)
        "package trace output does not match package files"
  | Some _, _ => ["trace must contain exactly one document package event"]
  end.

(** [dict.get(key)]; [None] is [JNull]. *)
Definition dict_get (key : string) (items : list (string * json)) : json :=
  default JNull (assoc key items).
Definition is_null (j : json) : bool := match j with JNull => true | _ => false end.
(** [text_or_none != json_value] *)
Definition differs (s : option string) (j : json) : bool :=
  match s, j with
  | Some s, JStr t => negb (String.eqb s t)
  | None, JNull => false
  | _, _ => true
  end.

Definition result_errors (index : nat) (event : TraceEvent) (stored : json) : result (list string) :=
  let n := nat_text index in
  match stored with
  | JObj items =>
      let errors :=
        error_if (differs event.(te_input_hash) (dict_get "input_hash" items))
          ("trace input hash mismatch for stored skill result " +:+ n) ++
        error_if (differs event.(te_output_hash) (dict_get "output_hash" items))
          ("trace output hash mismatch for stored skill result " +:+ n) ++
        error_if (differs (Some event.(te_status)) (dict_get "status" items))
          ("trace status mismatch for stored skill result " +:+ n) in
      let output_hash := dict_get "output_hash" items in
      if is_null output_hash then Ok errors
      else
        match sha256_digest (py_of_json (dict_get "value" items)) with
        | Ok expected =>
            Ok (errors ++ error_if (differs (Some expected) output_hash)
                  ("stored skill result " +:+ n +:+ " output hash mismatch"))
        | Raise e =>
            if is_type_error e || is_value_error e then
              Ok (errors ++ ["stored skill result " +:+ n +:+ " is not canonicalizable"])
            else Raise e
        end
  | _ => Ok ["stored skill result " +:+ n +:+ " is not an object"]
  end.

Fixpoint results_errors (index : nat) (pairs : list (TraceEvent * json)) : result (list string) :=
  match pairs with
  | [] => Ok []
  | (event, stored) :: pairs =>
      errors ← result_errors index event stored;
      more ← results_errors (S index) pairs;
      Ok (errors ++ more)
  end.

Definition skill_result_errors (trace : list TraceEvent) (skill_results : list json)
    : result (list string) :=
  let events := List.filter (λ e, negb (is_transition e)) (_approval_trace_prefix trace) in
  if negb (length events =? length skill_results)%nat then
    Ok ["trace and stored skill-result counts differ"]
  else results_errors 1 (zip events skill_results).

Definition _trace_integrity_errors (state : RunState) (trace : list TraceEvent)
    (skill_results : list json) (manifest_document_count : nat) (approval_request : ApprovalRequest)
    (current_subject_hash : string) (approval_record : option ApprovalRecord)
    (package_manifest : option PackageManifest) (package_input_hash package_output_hash : option string)
    : result (list string) :=
  let state_events := List.filter is_transition trace in
  times ← time_errors state trace;
  chain ← chain_errors state state_events;
  plan ← plan_errors state state_events (expected_state_targets approval_record package_manifest);
  approval ← approval_event_errors trace approval_request current_subject_hash approval_record;
  results ← skill_result_errors trace skill_results;
  Ok (error_if (negb (bool_decide (map event_key trace =
        expected_events manifest_document_count approval_record package_manifest)))
        "trace event sequence or actor contract mismatch" ++
      error_if (negb (bool_decide (map te_sequence trace = map Z.of_nat (seq 1 (length trace)))))
        "trace sequence is not contiguous" ++
      times ++ flat_map (event_errors state) trace ++ chain ++ plan ++ approval ++
      package_event_errors trace package_manifest package_input_hash package_output_hash ++ results).

(** ** The specification *)

(** The state events apply the plan to [c], one transition each, and end in [c']. *)
Inductive follows : CaseRecord → list TraceEvent → list CaseState → CaseRecord → Prop :=
| fw_end c : follows c [] [] c
| fw_step c e es target targets c' h h' :
    let next := with_state target (c.(case_state_version) + 1) c in
    sha256_digest (to_py c) = Ok h → sha256_digest (to_py next) = Ok h' →
    e.(te_input_hash) = Some h → e.(te_output_hash) = Some h' →
    follows next es targets c' → follows c (e :: es) (target :: targets) c'.

(** A clean event of the run *)
Definition of_run (state : RunState) (e : TraceEvent) : Prop :=
  e.(te_status) = "SUCCESS" ∧ e.(te_error_code) = None ∧ e.(te_trace_id) = state.(rs_trace_id) ∧
  e.(te_tenant_id) = state.(rs_case).(case_tenant_id) ∧ e.(te_case_id) = state.(rs_case).(case_case_id).

(** The event of the human decision *)
Definition decision_event (areq : ApprovalRequest) (subject : string) (r : ApprovalRecord)
    (e : TraceEvent) : Prop :=
  e.(te_actor_kind) = ActorKind.HUMAN ∧ e.(te_actor_identity) = r.(arec_approver_id) ∧
  e.(te_occurred_at) = r.(arec_decided_at) ∧
  (∃ h, sha256_digest (to_py (mk_ApprovalExecuteRequest areq subject)) = Ok h ∧ e.(te_input_hash) = Some h) ∧
  (∃ h, sha256_digest (to_py (mk_ApprovalExecuteOutput r)) = Ok h ∧ e.(te_output_hash) = Some h).

(** The event of the package *)
Definition package_event (m : PackageManifest) (input output : option string) (e : TraceEvent) : Prop :=
  e.(te_actor_identity) = "PF-A1" ∧ e.(te_actor_kind) = ActorKind.AGENT ∧
  e.(te_occurred_at) = m.(pm_meta).(meta_created_at) ∧
  is_Some input ∧ e.(te_input_hash) = input ∧ is_Some output ∧ e.(te_output_hash) = output.

(** A stored result that agrees with its event, and whose output digest is that of
    the stored value *)
Definition result_matches (e : TraceEvent) (stored : json) : Prop :=
  ∃ items, stored = JObj items ∧ differs e.(te_input_hash) (dict_get "input_hash" items) = false ∧
  differs e.(te_output_hash) (dict_get "output_hash" items) = false ∧
  dict_get "status" items = JStr e.(te_status) ∧
  (dict_get "output_hash" items ≠ JNull →
   ∃ h, sha256_digest (py_of_json (dict_get "value" items)) = Ok h ∧ dict_get "output_hash" items = JStr h).

Record intact (state : RunState) (trace : list TraceEvent) (skill_results : list json)
    (count : nat) (areq : ApprovalRequest) (subject : string) (record : option ApprovalRecord)
    (pm : option PackageManifest) (input output : option string) : Prop := {
  it_events : map event_key trace = expected_events count record pm;
  it_sequence : map te_sequence trace = map Z.of_nat (seq 1 (length trace));
  it_times : Forall (λ pc : TraceEvent * TraceEvent,
    dt_ltb (snd pc).(te_occurred_at) (fst pc).(te_occurred_at) = Ok false) (pairwise trace);
  it_first : te_occurred_at <$> head trace = Some state.(rs_created_at);
  it_last : te_occurred_at <$> last trace = Some state.(rs_updated_at);
  it_of_run : Forall (of_run state) trace;
  it_plan : follows (initial_case state) (List.filter is_transition trace)
    (expected_state_targets record pm) state.(rs_case);
  it_decision : match record with
    | Some r => ∃ e, events_of_type "skill.human_approval" trace = [e] ∧ decision_event areq subject r e
    | None => events_of_type "skill.human_approval" trace = [] end;
  it_package : match pm with
    | Some m => ∃ e, events_of_type "skill.document_package" trace = [e] ∧ package_event m input output e
    | None => events_of_type "skill.document_package" trace = [] end;
  it_results : Forall2 result_matches
    (List.filter (λ e, negb (is_transition e)) (_approval_trace_prefix trace)) skill_results;
}.

Lemma follows_length c es ts c' : follows c es ts c' → length es = length ts.
Proof. induction 1; simpl; congruence. Qed.

Lemma follows_case c es ts c' : follows c es ts c' →
  c'.(case_state_version) = c.(case_state_version) + Z.of_nat (length es) ∧
  case_state c' = default (case_state c) (last ts) ∧ same_case c c'.
Proof.
  induction 1 as [c|c e es target ts c' h h' next _ _ _ _ _ (IH1 & IH2 & s & v & IH3)].
  - simpl. split; [lia|]. split; [done|]. exists (case_state c), (case_state_version c). by destruct c.
  - split; [rewrite IH1; simpl; lia|]. split; [rewrite IH2, last_cons; by destruct (last ts)|].
    exists s, v. rewrite IH3. done.
Qed.

Lemma replay_follows c es ts c' :
  replay c (zip es ts) = Ok ([], c') ∧ length es = length ts ↔ follows c es ts c'.
Proof.
  split.
  - intros [H Hl]. revert c ts H Hl; induction es as [|e es IH]; intros c [|t ts]; try done; simpl.
    + intros [= ->] _. constructor.
    + intros H Hl. apply bind_Ok in H as (h & Hh & H). apply bind_Ok in H as (h' & Hh' & H).
      apply bind_Ok in H as ([errors final] & Hr & [= He ->]).
      rewrite !app_nil, !error_if_nil, !opt_neq_false in He. destruct He as (Hi & Ho & ->).
      econstructor; try done. apply IH; [done|lia].
  - induction 1 as [c|c e es target ts c' h h' next Hh Hh' Hi Ho _ [IH Hl]]; [done|].
    simpl. split; [|lia]. rewrite Hh. cbn [mbind result_bind]. fold next. rewrite Hh'.
    cbn [mbind result_bind]. rewrite IH. cbn [mbind result_bind]. rewrite Hi, Ho.
    rewrite !(proj2 (error_if_nil _ _)) by (by apply opt_neq_false). done.
Qed.

Lemma flat_map_nil {A B} (f : A → list B) l : flat_map f l = [] ↔ Forall (λ x, f x = []) l.
Proof.
  induction l as [|x l IH]; simpl; [split; [constructor|done]|].
  by rewrite app_nil, IH, Forall_cons.
Qed.

Lemma unclean_false e : unclean e = false ↔ te_status e = "SUCCESS" ∧ te_error_code e = None.
Proof.
  unfold unclean. rewrite orb_false_iff, negb_false_iff, String.eqb_eq, bool_decide_eq_false.
  by rewrite <- eq_None_not_Some.
Qed.

Lemma event_errors_nil state e : event_errors state e = [] ↔ of_run state e.
Proof.
  unfold event_errors, of_run. rewrite !app_nil, !unless_eq_nil, error_if_nil, unclean_false. tauto.
Qed.

(** The checks of the hash chain hold of any trace that follows its plan. *)
Lemma follows_chain state es ts :
  es ≠ [] → follows (initial_case state) es ts state.(rs_case) →
  Forall (λ e, unclean e = false) es → chain_errors state es = Ok [].
Proof.
  intros Hne Hf Hc. unfold chain_errors. pose proof (follows_case _ _ _ _ Hf) as (Hv & _ & _).
  destruct (digest_total [] (to_py (initial_case state)) (CaseRecord_wf _)) as [a Ha].
  destruct (digest_total [] (to_py state.(rs_case)) (CaseRecord_wf _)) as [b Hb].
  unfold sha256_digest. rewrite Ha, Hb. cbn [mbind result_bind]. f_equal.
  rewrite !app_nil, !error_if_nil, negb_false_iff, Z.eqb_eq, !flat_map_nil.
  split; [rewrite Hv; simpl; lia|].
  assert (∀ c es ts c', follows c es ts c' → Forall (λ pc : TraceEvent * TraceEvent,
    te_output_hash (fst pc) = te_input_hash (snd pc)) (pairwise es) ∧
    (es ≠ [] → ∃ e h, last es = Some e ∧ sha256_digest (to_py c') = Ok h ∧ te_output_hash e = Some h)) as Hp.
  { clear. induction 1 as [c|c e es t ts c' h h' next Hh Hh' Hi Ho Hf [IH1 IH2]]; [by split; [constructor|]|].
    subst next. destruct es as [|e' es].
    - split; [constructor|]. intros _. exists e, h'. inversion Hf; subst. done.
    - destruct IH2 as (x & hx & Hx & ?); [done|].
      split; [|intros _; exists x, hx; by rewrite last_cons, Hx].
      constructor; [|exact IH1]. inversion Hf as [|? ? ? ? ? ? k ? ? Hk _ Hi' _ _]; subst. simpl. congruence. }
  destruct (Hp _ _ _ _ Hf) as [H1 H2]. destruct (H2 Hne) as (x & h & Hx & Hh & Hox).
  inversion Hf as [|c e es' t ts' c' h1 h2 next Hh1 _ Hi _ _]; subst; [done|].
  split; [apply opt_neq_false; unfold sha256_digest in Hh1; congruence|].
  split; [eapply Forall_impl; [exact H1|]; intros; by apply error_if_nil, opt_neq_false|].
  split; [rewrite Hx; apply opt_neq_false; unfold sha256_digest in Hh; congruence|].
  eapply Forall_impl; [exact Hc|]. intros. by apply error_if_nil.
Qed.

Lemma plan_errors_nil state es ts :
  plan_errors state es ts = Ok [] ↔ follows (initial_case state) es ts state.(rs_case).
Proof.
  unfold plan_errors. rewrite <- replay_follows.
  destruct (Nat.eqb_spec (length es) (length ts)) as [Hl|Hl]; simpl; [|split; [done|tauto]].
  split.
  - intros H. apply bind_Ok in H as ([errors final] & Hr & [= He]).
    rewrite app_nil, error_if_nil, negb_false_iff, bool_decide_eq_true in He. destruct He as [-> <-]. done.
  - intros [Hr _]. rewrite Hr. cbn [mbind result_bind].
    rewrite bool_decide_eq_true_2 by done. done.
Qed.

Lemma time_errors_nil state trace : time_errors state trace = Ok [] ↔
  Forall (λ pc : TraceEvent * TraceEvent,
    dt_ltb (snd pc).(te_occurred_at) (fst pc).(te_occurred_at) = Ok false) (pairwise trace) ∧
  te_occurred_at <$> head trace = Some state.(rs_created_at) ∧
  te_occurred_at <$> last trace = Some state.(rs_updated_at).
Proof.
  unfold time_errors.
  assert (∀ l, (∃ bs, mapR (λ pc : TraceEvent * TraceEvent,
      dt_ltb (snd pc).(te_occurred_at) (fst pc).(te_occurred_at)) l = Ok bs ∧ existsb id bs = false) ↔
    Forall (λ pc : TraceEvent * TraceEvent,
      dt_ltb (snd pc).(te_occurred_at) (fst pc).(te_occurred_at) = Ok false) l) as Hm.
  { clear. induction l as [|x l IH]; simpl; [split; [constructor|by exists []]|].
    rewrite Forall_cons, <- IH. split.
    - intros (bs & H & Hb). apply bind_Ok in H as (b & Hx & H). apply bind_Ok in H as (bs' & Hl & [= <-]).
      simpl in Hb. apply orb_false_iff in Hb as [Hb Hbs]. unfold id in Hb. subst b. eauto.
    - intros [-> (bs & Hl & Hb)]. rewrite Hl. by exists (false :: bs). }
  assert (∀ o t, match o with Some e => negb (dt_eqb e.(te_occurred_at) t) | None => true end = false ↔
    te_occurred_at <$> o = Some t) as Ho.
  { intros [e|] t; simpl; [|done]. rewrite negb_false_iff, dt_eqb_eq. split; [by intros ->|by intros [= ->]]. }
  rewrite <- Hm. rewrite <- !Ho. split.
  - intros H. apply bind_Ok in H as (bs & Hl & [= H]).
    rewrite !app_nil, !error_if_nil in H. destruct H as (? & ? & ?). destruct trace; eauto.
  - intros ((bs & -> & Hb) & Hh & Hla). cbn [mbind result_bind]. f_equal.
    rewrite !app_nil, !error_if_nil. by destruct trace.
Qed.

Lemma approval_event_errors_nil trace areq subject record :
  Forall (λ e, unclean e = false) trace →
  approval_event_errors trace areq subject record = Ok [] ↔
  match record with
  | Some r => ∃ e, events_of_type "skill.human_approval" trace = [e] ∧ decision_event areq subject r e
  | None => events_of_type "skill.human_approval" trace = [] end.
Proof.
  intros Hc. unfold approval_event_errors.
  destruct record as [r|].
  2: { rewrite <- nonempty_false, <- error_if_nil. split; [by intros [= ->]|by intros ->]. }
  destruct (events_of_type "skill.human_approval" trace) as [|e [|e' l]] eqn:E;
    [by split; [|intros (? & ? & _)]| |by split; [|intros (? & ? & _)]].
  assert (unclean e = false) as Hu.
  { assert (e ∈ events_of_type "skill.human_approval" trace) as Hin by (rewrite E; by left).
    apply list_elem_of_In, filter_In in Hin as [Hin _]. rewrite List.Forall_forall in Hc. auto. }
  unfold decision_event. split.
  - intros H. apply bind_Ok in H as (i & Hi & H). apply bind_Ok in H as (o & Ho & [= H]).
    rewrite !app_nil, unless_eq_nil, !error_if_nil, !negb_false_iff, !opt_neq_false, dt_eqb_eq,
      bool_decide_eq_true in H.
    exists e. split; [done|]. destruct H as (? & ? & _ & ? & ? & ?). eauto 10.
  - intros (e' & [= <-] & H1 & H2 & H3 & (i & Hi & H4) & (o & Ho & H5)).
    rewrite Hi. cbn [mbind result_bind]. rewrite Ho. cbn [mbind result_bind]. f_equal.
    rewrite !app_nil, unless_eq_nil, !error_if_nil, !negb_false_iff, !opt_neq_false, dt_eqb_eq,
      bool_decide_eq_true. done.
Qed.

Lemma package_event_errors_nil trace pm input output :
  Forall (λ e, unclean e = false) trace →
  package_event_errors trace pm input output = [] ↔
  match pm with
  | Some m => ∃ e, events_of_type "skill.document_package" trace = [e] ∧ package_event m input output e
  | None => events_of_type "skill.document_package" trace = [] end.
Proof.
  intros Hc. unfold package_event_errors. destruct pm as [m|].
  2: { by rewrite error_if_nil, nonempty_false. }
  destruct (events_of_type "skill.document_package" trace) as [|e [|e' l]] eqn:E;
    [by split; [|intros (? & ? & _)]| |by split; [|intros (? & ? & _)]].
  assert (unclean e = false) as Hu.
  { assert (e ∈ events_of_type "skill.document_package" trace) as Hin by (rewrite E; by left).
    apply list_elem_of_In, filter_In in Hin as [Hin _]. rewrite List.Forall_forall in Hc. auto. }
  rewrite !app_nil, !error_if_nil, !orb_false_iff, !negb_false_iff, !opt_neq_false, dt_eqb_eq,
    !bool_decide_eq_true, String.eqb_eq.
  unfold package_event. split.
  - intros ([? ?] & _ & ? & [? ?] & ? & ?). exists e. done.
  - intros (? & [= <-] & ? & ? & ? & ? & ? & ? & ?). done.
Qed.

Lemma differs_false s j : differs s j = false ↔ match s with Some t => j = JStr t | None => j = JNull end.
Proof.
  destruct s, j; simpl; try (split; congruence).
  rewrite negb_false_iff, String.eqb_eq. naive_solver.
Qed.

Lemma result_errors_nil n e stored : result_errors n e stored = Ok [] ↔ result_matches e stored.
Proof.
  unfold result_errors, result_matches.
  destruct stored as [| | | | | |items]; try (split; [done|by intros (? & ? & _)]).
  cbv zeta. set (errors := _ ++ _).
  assert (errors = [] ↔ differs e.(te_input_hash) (dict_get "input_hash" items) = false ∧
    differs e.(te_output_hash) (dict_get "output_hash" items) = false ∧
    dict_get "status" items = JStr e.(te_status)) as He.
  { unfold errors. rewrite !app_nil, !error_if_nil, (differs_false (Some _)). tauto. }
  clearbody errors. destruct (is_null (dict_get "output_hash" items)) eqn:Ho.
  - assert (dict_get "output_hash" items = JNull) as Hn by (destruct (dict_get "output_hash" items); done).
    split.
    + intros [= H]. apply He in H as (? & ? & ?). exists items. by rewrite Hn in *.
    + intros (? & [= <-] & H1 & H2 & H3 & _). f_equal. by apply He.
  - transitivity (errors = [] ∧ ∃ h, sha256_digest (py_of_json (dict_get "value" items)) = Ok h ∧
      dict_get "output_hash" items = JStr h).
    + destruct (sha256_digest _) as [h|x].
      * split.
        -- intros [= H]. rewrite app_nil, error_if_nil in H. destruct H as [H1 H2].
           change (differs (Some h) (dict_get "output_hash" items) = false) in H2.
           apply differs_false in H2. eauto.
        -- intros (-> & ? & [= <-] & Hd). f_equal. by apply app_nil; rewrite error_if_nil, differs_false.
      * split; [|by intros (_ & ? & ? & _)]. destruct (_ || _); [|done].
        intros [= H]. by apply app_eq_nil in H as [_ ?].
    + rewrite He. split.
      * intros ((? & ? & ?) & ?). exists items. done.
      * intros (? & [= <-] & ? & ? & ? & Hh). split; [done|]. apply Hh. by intros Hn; rewrite Hn in Ho.
Qed.

Lemma results_errors_nil n es stored : length es = length stored →
  results_errors n (zip es stored) = Ok [] ↔ Forall2 result_matches es stored.
Proof.
  revert n stored; induction es as [|e es IH]; intros n [|j stored]; try done; simpl; intros Hl.
  rewrite Forall2_cons, <- (result_errors_nil n), <- (IH (S n)) by lia. split.
  - intros H. apply bind_Ok in H as (a & Ha & H). apply bind_Ok in H as (b & Hb & [= H]).
    apply app_eq_nil in H as [-> ->]. done.
  - intros [-> H]. cbn [mbind result_bind]. by rewrite H.
Qed.

Lemma skill_result_errors_nil trace stored : skill_result_errors trace stored = Ok [] ↔
  Forall2 result_matches (List.filter (λ e, negb (is_transition e)) (_approval_trace_prefix trace)) stored.
Proof.
  unfold skill_result_errors. set (es := List.filter _ _).
  destruct (Nat.eqb_spec (length es) (length stored)) as [Hl|Hl]; simpl.
  - by apply results_errors_nil.
  - split; [done|]. intros H%Forall2_length. done.
Qed.

(** A trace without errors is an intact trace. *)
Lemma trace_integrity_nil state trace stored count areq subject record pm input output :
  _trace_integrity_errors state trace stored count areq subject record pm input output = Ok [] ↔
  intact state trace stored count areq subject record pm input output.
Proof.
  assert (Forall (of_run state) trace → Forall (λ e, unclean e = false) trace) as Hu.
  { intros H. eapply Forall_impl; [exact H|]. intros e (? & ? & _). by apply unclean_false. }
  unfold _trace_integrity_errors. cbv zeta. split.
  - intros H. apply bind_Ok in H as (times & Ht & H). apply bind_Ok in H as (chain & Hc & H).
    apply bind_Ok in H as (plan & Hp & H). apply bind_Ok in H as (approval & Ha & H).
    apply bind_Ok in H as (results & Hr & [= H]).
    rewrite !app_nil, !error_if_nil, !negb_false_iff, !bool_decide_eq_true, flat_map_nil in H.
    destruct H as (He & Hs & -> & Hof & -> & -> & -> & Hpk & ->).
    apply time_errors_nil in Ht as (Ht1 & Ht2 & Ht3). apply plan_errors_nil in Hp.
    apply skill_result_errors_nil in Hr.
    assert (Forall (of_run state) trace) as Hrun
      by (eapply Forall_impl; [exact Hof|]; intros e; by apply event_errors_nil).
    apply approval_event_errors_nil in Ha; [|auto]. apply package_event_errors_nil in Hpk; [|auto].
    by split.
  - intros [He Hs Ht1 Ht2 Ht3 Hof Hp Ha Hpk Hr].
    rewrite (proj2 (time_errors_nil state trace)) by done. cbn [mbind result_bind].
    assert (List.filter is_transition trace ≠ []) as Hne.
    { intros Hn. apply follows_length in Hp. rewrite Hn in Hp. simpl in Hp. discriminate. }
    rewrite (follows_chain _ _ _ Hne Hp).
    2: { apply List.Forall_forall. intros e [Hin _]%filter_In. specialize (Hu Hof).
         rewrite List.Forall_forall in Hu. auto. }
    cbn [mbind result_bind]. rewrite (proj2 (plan_errors_nil _ _ _) Hp). cbn [mbind result_bind].
    rewrite (proj2 (approval_event_errors_nil _ _ _ _ (Hu Hof)) Ha). cbn [mbind result_bind].
    rewrite (proj2 (skill_result_errors_nil _ _) Hr). cbn [mbind result_bind]. f_equal.
    rewrite !app_nil, !error_if_nil, !negb_false_iff, !bool_decide_eq_true, flat_map_nil.
    split; [done|]. split; [done|]. split; [done|].
    split; [eapply Forall_impl; [exact Hof|]; intros e; apply event_errors_nil|].
    split; [done|]. split; [done|]. split; [done|]. split; [|done].
    by apply package_event_errors_nil; auto.
Qed.

(** C33. The trace check is exact: it reports nothing on exactly the intact traces (the
    prescribed events and actors in sequence and in time order, all of the run and clean,
    the hash chain of the case along the plan, the decision, the package and the stored
    results as recorded), and on no trace whose run is not in the state and at the
    version its plan ends in. *)
Theorem trace_integrity_correct (state : RunState) (trace : list TraceEvent) (stored : list json)
    (count : nat) (areq : ApprovalRequest) (subject : string) (record : option ApprovalRecord)
    (pm : option PackageManifest) (input output : option string) :
  let targets := expected_state_targets record pm in
  _trace_integrity_errors state trace stored count areq subject record pm input output = Ok [] ↔
  intact state trace stored count areq subject record pm input output ∧
    Some state.(rs_case).(case_state) = last targets ∧
    state.(rs_case).(case_state_version) = Z.of_nat (length targets) ∧
    length (List.filter is_transition trace) = length targets.
Proof.
  cbv zeta. rewrite trace_integrity_nil. split; [|by intros [? _]]. intros Hin. split; [done|].
  destruct Hin as [_ _ _ _ _ _ Hp _ _ _]. pose proof (follows_length _ _ _ _ Hp) as Hl.
  apply follows_case in Hp as (Hv & Hs & _). rewrite Hl in Hv. split; [|done].
  rewrite Hs. unfold expected_state_targets. destruct record, pm; done.
Qed.
End trace.
