(* ===== verification/Runtime.v ===== *)
(** * reference_runtime.py: prepare_reference_run

    The pipeline up to the human gate.  Each step builds its context, calls its
    Skill, records the result and one trace event, and stops the run unless the
    Skill succeeded; between the steps the case advances by one transition. *)
From S2P Require Import Prelude Json Dicts PyTime PyDecimal Canonical Platforms Models StateMachine.
From S2P Require Import Common TrustedStore Rules Compensation Calculation Approval AuditSkill.
From S2P Require Import Strategy Packaging Evidence RunStore RunBinding RunTrace.
Local Open Scope Z_scope.

(** The contexts of the six transitions of [prepare_reference_run] *)
Definition ctx_of_flags (manifest hashes evidence rules calculation proposal : bool)
    (verdict : option AuditVerdict) : TransitionContext :=
  mk_TransitionContext manifest hashes evidence false rules calculation proposal verdict None
    false false false None None.

(** The state of the run while it is prepared *)
Record Progress := mk_Progress {
  pg_case : CaseRecord;
  pg_trace : list TraceEvent;
  pg_skill_results : list pyval;
}.
Definition next_sequence (g : Progress) : Z := Z.of_nat (length g.(pg_trace)) + 1.

(** What the run produces before anything is written *)
Record Prepared := mk_Prepared {
  pp_manifest : CaseManifest;
  pp_timeline : list TimelineEvent;
  pp_artifacts : RunArtifacts;
  pp_approval_request : ApprovalRequest;
  pp_progress : Progress;
  pp_state : RunState;
}.

Definition initial_paths : list (string * string) :=
  [("manifest", "input/manifest.json"); ("evidence", "artifacts/evidence.json");
   ("timeline", "artifacts/timeline.json"); ("rules", "artifacts/rules.json");
   ("calculation", "artifacts/calculation.json"); ("proposals", "artifacts/proposals.json");
   ("conflict_report", "artifacts/conflict-report.json");
   ("audit_report", "artifacts/audit-report.json");
   ("approval_request", "artifacts/approval-request.json"); ("trace", "trace.jsonl");
   ("skill_results", "skill-results.json")].

Definition load_fixture {A} (load : json → result A) (fixtures : Fixtures) (path : list string)
    : result A :=
  match fixtures !! path with
  | None => Raise (OSError (str_join "/" path))
  | Some raw =>
      text ← decode_utf8 raw;
      _ ← require (digit_run 0 0 text <=? 4300)%nat (Unmodelled "int digits");
      j ← loads text; load j
  end.

Definition is_store_error (e : exn) : bool :=
  match e with
  | TrustedArtifactStoreCapacityError _ | TrustedArtifactStoreRegistrationError _ => true
  | _ => false
  end.

Section prepare.
Context `{P : Platform} `{L : Loader}.
Context (now : datetime) (run_id trace_id : string).

(** [transition_case(case, ...)] by PF-A1, with the version of the case *)
Definition advance (target : CaseState) (context : TransitionContext) (g : Progress)
    : result Progress :=
  '(case, event) ← transition_case g.(pg_case)
    (mk_TransitionRequest target g.(pg_case).(case_state_version) "PF-A1" ActorKind.AGENT trace_id
      (next_sequence g) now context);
  Ok (mk_Progress case (g.(pg_trace) ++ [event]) g.(pg_skill_results)).

(** Calls a Skill in a fresh context, records its result and requires success. *)
Definition step {T} `{ToPy T} (caller key event_type stage : string)
    (skill : SkillContext → result (SkillResult T)) (g : Progress) : result (T * Progress) :=
  context ← _context g.(pg_case) trace_id caller (run_id +:+ ":" +:+ key);
  r ← skill context;
  event ← _skill_event r (next_sequence g) trace_id g.(pg_case) caller event_type now;
  value ← _require_success stage r;
  Ok (value, mk_Progress g.(pg_case) (g.(pg_trace) ++ [event]) (g.(pg_skill_results) ++ [to_py r])).

(** The loop over the documents: (evidence, registry, progress) *)
Definition ingest_document (fixtures : Fixtures) (base : list string)
    (acc : list EvidenceObject * TrustedArtifactStore * Progress) (entry : nat * ManifestDocument)
    : result (list EvidenceObject * TrustedArtifactStore * Progress) :=
  let '(evidence, store, g) := acc in
  let '(index, document) := entry in
  '(_, raw) ← _safe_document_path fixtures base document.(md_path);
  _ ← require (String.eqb (sha256_bytes raw) document.(md_sha256))
        (ReferenceRunError ("manifest hash mismatch for " +:+ document.(md_path)));
  '(output, g) ← step "PF-A2" ("evidence:" +:+ nat_text index) "skill.evidence_ingest"
    "evidence_ingest"
    (λ context, evidence_ingest context
      (mk_EvidenceIngestRequest document.(md_document_id) document.(md_media_type)
        document.(md_sha256) (mk_bytes raw)) now) g;
  match register_all store output.(eio_evidence_objects) with
  | (store, Ok _) => Ok (evidence ++ output.(eio_evidence_objects), store, g)
  | (_, Raise e) =>
      if is_store_error e then Raise (ReferenceRunError "trusted Evidence registration failed")
      else Raise e
  end.

Definition ingest_documents (fixtures : Fixtures) (base : list string)
    (documents : list ManifestDocument) (g : Progress)
    : result (list EvidenceObject * TrustedArtifactStore * Progress) :=
  store ← store_init DEFAULT_TRUSTED_ARTIFACT_CAPACITY;
  foldR (ingest_document fixtures base) ([], store, g) (imap (λ i d, (S i, d)) documents).

(** Facts and rules: the timeline, FACTS_READY, the citations, RULES_READY *)
Definition prepare_facts (manifest : CaseManifest) (catalog : RuleCatalog)
    (evidence : list EvidenceObject) (g : Progress)
    : result (list TimelineEvent * RuleRetrieveOutput * Progress) :=
  '(timeline, g) ← step "PF-A2" "timeline" "skill.timeline_build" "timeline_build"
    (λ context, timeline_build context (mk_TimelineBuildRequest evidence) now) g;
  g ← advance CaseState.FACTS_READY
        (ctx_of_flags false false (nonempty evidence) false false false None) g;
  '(rule_output, g) ← step "PF-A3" "rules" "skill.rule_retrieve" "rule_retrieve"
    (λ context, query ← RuleRetrieveRequest_validate
        (mk_RuleRetrieveRequest manifest.(cm_issue_codes) manifest.(cm_jurisdiction)
          manifest.(cm_as_of_date));
      rule_retrieve context query catalog now) g;
  g ← advance CaseState.RULES_READY
        (ctx_of_flags false false false (nonempty rule_output.(rro_citations)) false false None) g;
  Ok (timeline.(tbo_events), rule_output, g).

(** The calculation and the proposals *)
Definition prepare_proposals (catalog : RuleCatalog) (store : TrustedArtifactStore)
    (evidence : list EvidenceObject) (rule_output : RuleRetrieveOutput) (g : Progress)
    : result (CalculationSheet * list Proposal * Progress) :=
  let rules := rule_output.(rro_citations) in
  '(calculated, g) ← step "PF-A4" "calculation" "skill.deterministic_calculate"
    "deterministic_calculate"
    (λ context, deterministic_calculate context
      (mk_CalculateRequest evidence rules rule_output.(rro_rule_scope) SUPPORTED_FORMULA)
      catalog store now) g;
  let calculation := calculated.(cout_sheet) in
  invalid ← calculation_invalid calculation;
  g ← advance CaseState.CALC_READY
        (ctx_of_flags false false false false (negb invalid) false None) g;
  '(proposed, g) ← step "PF-A5" "proposal" "strategy.proposal_generate" "proposal_generate"
    (λ context, create_candidate_proposals context
      (mk_ProposalGenerateRequest evidence rules calculation) now) g;
  g ← advance CaseState.PROPOSAL_READY
        (ctx_of_flags false false false false false (nonempty proposed.(pgo_proposals)) None) g;
  Ok (calculation, proposed.(pgo_proposals), g).

(** The conflict report, the audit and the request for approval *)
Definition prepare_audit (evidence : list EvidenceObject) (rules : list RuleCitation)
    (calculation : CalculationSheet) (proposals : list Proposal) (g : Progress)
    : result (ConflictReport * AuditReport * Progress) :=
  '(detected, g) ← step "PF-A6" "conflict" "skill.conflict_detect" "conflict_detect"
    (λ context, conflict_detect context
      (mk_ConflictDetectRequest evidence rules (Some calculation) "conflict-policy-v0.1") now) g;
  let observed := map te_event_type g.(pg_trace) in
  '(audited, g) ← step "PF-A6" "audit" "skill.decision_audit" "decision_audit"
    (λ context, decision_audit context
      (mk_DecisionAuditRequest proposals evidence rules calculation detected.(cdo_report) observed
        "audit-policy-v0.1") now) g;
  let audit_report := audited.(dao_report) in
  _ ← require (bool_decide (audit_report.(ar_verdict) = AuditVerdict.PASS))
        (ReferenceRunError "the reference run did not pass structural audit");
  g ← advance CaseState.AWAITING_APPROVAL
        (ctx_of_flags false false false false false false (Some audit_report.(ar_verdict))) g;
  Ok (detected.(cdo_report), audit_report, g).

(** From the new case to the persisted state *)
Definition prepare_case (manifest : CaseManifest) (catalog : RuleCatalog) (fixtures : Fixtures)
    (base : list string) (case : CaseRecord) : result Prepared :=
  g ← advance CaseState.INGESTING (ctx_of_flags true true false false false false None)
        (mk_Progress case [] []);
  '(evidence, store, g) ← ingest_documents fixtures base manifest.(cm_documents) g;
  '(timeline, rule_output, g) ← prepare_facts manifest catalog evidence g;
  let rules := rule_output.(rro_citations) in
  '(calculation, proposals, g) ← prepare_proposals catalog store evidence rule_output g;
  '(conflict_report, audit_report, g) ← prepare_audit evidence rules calculation proposals g;
  let artifacts := mk_RunArtifacts evidence rules calculation conflict_report proposals audit_report in
  subject_hash ← _subject_hash (mk_Subject manifest g.(pg_case) timeline artifacts
    (VSeq g.(pg_skill_results)) g.(pg_trace));
  approval_request ← _expected_approval_request audit_report subject_hash;
  state ← RunState_validate
    (mk_RunState run_id trace_id "REFERENCE_RUNTIME_ONLY" g.(pg_case).(case_state) g.(pg_case)
      subject_hash approval_request.(areq_request_id) false false now now initial_paths);
  Ok (mk_Prepared manifest timeline artifacts approval_request g state).
End prepare.

Section reference_run.
Context `{P : Platform} `{L : Loader}.

(** The files of a prepared run, in the order they are written *)
Definition prepared_writes (p : Prepared) : list (Files → result Files) :=
  let a := p.(pp_artifacts) in
  [_write_json "input/manifest.json" (to_py p.(pp_manifest));
   _write_json "artifacts/evidence.json" (to_py a.(ra_evidence));
   _write_json "artifacts/timeline.json" (to_py p.(pp_timeline));
   _write_json "artifacts/rules.json" (to_py a.(ra_rules));
   _write_json "artifacts/calculation.json" (to_py a.(ra_calculation));
   _write_json "artifacts/proposals.json" (to_py a.(ra_proposals));
   _write_json "artifacts/conflict-report.json" (to_py a.(ra_conflict_report));
   _write_json "artifacts/audit-report.json" (to_py a.(ra_audit_report));
   _write_json "artifacts/approval-request.json" (to_py p.(pp_approval_request));
   _write_json "skill-results.json" (VSeq p.(pp_progress).(pg_skill_results));
   _write_trace "trace.jsonl" p.(pp_progress).(pg_trace);
   _write_json "run-state.json" (to_py p.(pp_state))].

(** Everything up to [run_dir.mkdir]; [fixture_base] is the manifest's directory. *)
Definition prepare_run (fixtures : Fixtures) (manifest_path rule_catalog_path : list string)
    (run_dir : option Files) (now : datetime) : result Prepared :=
  _ ← require (is_aware now) (ReferenceRunError "now must be timezone-aware");
  _ ← require (bool_decide (run_dir = None)) (ReferenceRunError "run directory already exists");
  manifest ← load_fixture load_CaseManifest fixtures manifest_path;
  _ ← require (String.eqb manifest.(cm_fixture_status) "SYNTHETIC")
        (ReferenceRunError "the reference runtime accepts only SYNTHETIC fixtures");
  catalog ← load_fixture load_RuleCatalog fixtures rule_catalog_path;
  manifest_hash ← sha256_digest (to_py manifest);
  run_id ← stable_id "run" (VDict [("manifest_hash", to_py manifest_hash); ("prepared_at", to_py now);
                                   ("case_id", to_py manifest.(cm_case_id))]);
  trace_id ← stable_id "trace" (VDict [("run_id", to_py run_id)]);
  case ← CaseRecord_validate
    (mk_CaseRecord manifest.(cm_case_id) manifest.(cm_tenant_id) CaseState.RECEIVED 0
      manifest.(cm_jurisdiction) manifest.(cm_as_of_date) manifest_hash [] []);
  prepare_case now run_id trace_id manifest catalog fixtures (removelast manifest_path) case.

(** The run directory afterwards, and the state or the exception *)
Definition prepare_reference_run (fixtures : Fixtures) (manifest_path rule_catalog_path : list string)
    (run_dir : option Files) (now : datetime) : option Files * result RunState :=
  match prepare_run fixtures manifest_path rule_catalog_path run_dir now with
  | Raise e => (run_dir, Raise e)
  | Ok p =>
      match write_all ∅ (prepared_writes p) with
      | (files, Ok _) => (Some files, Ok p.(pp_state))
      | (files, Raise e) => (Some files, Raise e)
      end
  end.
End reference_run.
