(* ===== verification/RunPrepared.v ===== *)
(** * What a prepared run satisfies

    The pipeline of [Runtime] and the checker of [RunTrace] agree: the trace, the
    stored results, the state and the approval request of a prepared run pass
    every check. *)
From S2P Require Import Prelude Json Dicts PyTime PyDecimal Canonical Platforms Models StateMachine.
From S2P Require Import Common TrustedStore Rules Compensation Calculation Approval AuditSkill.
From S2P Require Import Strategy Packaging Evidence RunStore RunBinding RunTrace Runtime.
Local Open Scope Z_scope.

(** ** Canonical values read back *)
Definition stable (j : json) : Prop := canonicalize [] (py_of_json j) = Ok j.

Lemma map_stable (l : list (string * json)) : Forall (λ kv, stable (snd kv)) l →
  map (λ kv : string * pyval, (fst kv, canonicalize [] (snd kv)))
    (map (λ kv : string * json, (fst kv, py_of_json (snd kv))) l) =
  map (λ kv : string * json, (fst kv, Ok (snd kv))) l.
Proof.
  induction 1 as [|[k j] l Hj _ IH]; [done|]. cbn [map fst snd]. rewrite IH.
  unfold stable in Hj. simpl in Hj. by rewrite Hj.
Qed.

Lemma mapR_pair_id (l : list (string * json)) :
  mapR pair_result (map (λ kv : string * json, (fst kv, Ok (snd kv))) l) = Ok l.
Proof. induction l as [|[k v] l IH]; [done|]. simpl. by rewrite IH. Qed.

Lemma sorted_by_keys {A B} (l1 : list (string * A)) (l2 : list (string * B)) :
  map fst l1 = map fst l2 → StronglySorted (λ a b, key_leb fst a b = true) l2 →
  StronglySorted (λ a b, key_leb fst a b = true) l1.
Proof.
  intros Heq Hl2. revert l1 Heq.
  induction Hl2 as [|b l2 _ IHs Hb]; intros [|a l1] Heq; try done; [constructor|].
  injection Heq as Hab Heq. constructor; [by apply IHs|].
  apply List.Forall_forall. intros x Hx. unfold key_leb. rewrite Hab.
  assert (In (fst x) (map fst l2)) as Hin by (rewrite <- Heq; by apply in_map).
  apply in_map_iff in Hin as (y & <- & Hy). rewrite List.Forall_forall in Hb. by apply Hb.
Qed.

Lemma filter_nothing {A} (l : list (string * A)) : filter (λ kv, fst kv ∉ []) l = l.
Proof.
  induction l as [|x l IH]; [done|]. rewrite filter_cons_True by apply not_elem_of_nil. by rewrite IH.
Qed.

Lemma stable_obj (l : list (string * json)) :
  StronglySorted (λ a b, key_leb fst a b = true) l → Forall (λ kv, stable (snd kv)) l → stable (JObj l).
Proof.
  intros Hs Hl. unfold stable. cbn [py_of_json canonicalize]. cbv zeta.
  rewrite (map_stable l Hl), isort_id.
  - by rewrite filter_nothing, mapR_pair_id.
  - eapply sorted_by_keys; [|exact Hs]. by rewrite map_map.
Qed.

Lemma mapR_id_map {A B} (f : A → result B) l : mapR id (map f l) = mapR f l.
Proof.
  induction l as [|x l IH]; [done|]. cbn [map mapR]. change (id (f x)) with (f x).
  destruct (f x); [|done]. cbn [mbind result_bind]. by rewrite IH.
Qed.

Lemma stable_arr l : Forall stable l → stable (JArr l).
Proof.
  intros Hl. unfold stable.
  change (canonicalize [] (py_of_json (JArr l))) with
    (js ← mapR id (map (canonicalize []) (map py_of_json l)); Ok (JArr js)).
  assert (mapR id (map (canonicalize []) (map py_of_json l)) = Ok l) as Hm; [|by rewrite Hm].
  induction Hl as [|j l Hj _ IH]; [done|]. cbn [map mapR]. unfold stable in Hj.
  change (id (canonicalize [] (py_of_json j))) with (canonicalize [] (py_of_json j)).
  rewrite Hj. cbn [mbind result_bind]. by rewrite IH.
Qed.

(** A canonical structure is canonicalized to itself. *)
Lemma canonicalize_stable ex v j : canonicalize ex v = Ok j → stable j.
Proof.
  assert (∀ l js, Forall (λ v, ∀ j, canonicalize ex v = Ok j → stable j) l →
    mapR id (map (canonicalize ex) l) = Ok js → Forall stable js) as Hseq.
  { intros l js Hl. revert js. induction Hl as [|x l Hx _ IH]; simpl; [intros ? [= <-]; constructor|].
    intros js (j' & Hj & (js' & Hjs & [= <-])%bind_Ok)%bind_Ok. constructor; eauto. }
  revert j. induction v as [| | | | | d | t | | | | v IH | l IH | l IH | l IH | ] using pyval_ind';
    simpl; intros j Hj; inv_ok; try done.
  - by apply IH.
  - rename x into r, H into Hr. set (kept := filter _ _) in Hr. apply stable_obj.
    + eapply sorted_by_keys; [by apply mapR_pair_result_keys in Hr|].
      apply StronglySorted_filter, isort_key_sorted.
    + apply mapR_Forall2 in Hr. apply Forall_forall. intros kj Hkj.
      destruct (Forall2_in_r _ _ _ _ Hr Hkj) as ([k m] & Hk & Hp).
      unfold pair_result in Hp. simpl in Hp. inv_ok. subst. simpl.
      apply list_elem_of_filter in Hk as [_ Hk]. rewrite elem_of_isort in Hk.
      apply list_elem_of_In, in_map_iff in Hk as ([k' v] & [= <- Hm] & Hv).
      rewrite List.Forall_forall in IH. by apply (IH _ Hv).
  - apply stable_arr. rewrite isort_perm. by eapply Hseq.
  - apply stable_arr. by eapply Hseq.
Qed.

(** ** Successful results *)
Section clean.
Context `{P : Platform}.

(** A successful result has a value, its digest, and no issue. *)
Definition clean {T} `{ToPy T} (r : SkillResult T) : Prop :=
  r.(sr_status) = SkillStatus.SUCCESS → r.(sr_issues) = [] ∧
  ∃ v h, r.(sr_value) = Some v ∧ sha256_digest (to_py v) = Ok h ∧ r.(sr_output_hash) = Some h.

Lemma clean_blocked {T} `{ToPy T} request issues (r : SkillResult T) :
  blocked request issues = Ok r → clean r.
Proof. intros Hr Hs. by apply blocked_not_success in Hr. Qed.

Lemma clean_success {T} `{ToPy T} request (v : T) refs r : success request v refs = Ok r → clean r.
Proof. intros (_ & Hv & Hi & _ & _ & h & Hh & Ho)%success_Ok _. eauto 10. Qed.

Lemma clean_unless_denied {T} `{ToPy T} context request identity handler (r : SkillResult T) :
  unless_denied context request identity handler = Ok r →
  (handler = Ok r → clean r) → clean r.
Proof. intros [[_ ?]|(_ & Hs & _)]%unless_denied_Ok Hc; [auto|]. intros ?. congruence. Qed.

(** [clean_skill] walks through a handler down to the results it returns. *)
Ltac clean_skill :=
  match goal with |- _ = Ok ?r → clean ?r =>
    let H := fresh in intros H; eapply clean_unless_denied; [exact H|clear H]
  end; cbv zeta;
  repeat match goal with
  | |- blocked _ _ = Ok _ → _ => apply clean_blocked
  | |- success _ _ _ = Ok _ → _ => apply clean_success
  | |- Raise _ = Ok _ → _ => discriminate
  | |- mbind _ _ = Ok _ → _ => let H := fresh in intros H; apply bind_Ok in H as (? & _ & H); revert H
  | |- (if ?b then _ else _) = Ok _ → _ => destruct b
  | |- match ?x with _ => _ end = Ok _ → _ => destruct x
  end.

Lemma evidence_ingest_clean context request now r : evidence_ingest context request now = Ok r → clean r.
Proof. unfold evidence_ingest. clean_skill. Qed.
Lemma calculate_clean context request catalog s now r :
  deterministic_calculate context request catalog s now = Ok r → clean r.
Proof. unfold deterministic_calculate. clean_skill. Qed.
Lemma proposals_clean context request now r :
  create_candidate_proposals context request now = Ok r → clean r.
Proof. unfold create_candidate_proposals. clean_skill. Qed.
Lemma audit_clean context request now r : decision_audit context request now = Ok r → clean r.
Proof. unfold decision_audit. clean_skill. Qed.
Lemma approval_clean context request decision now r :
  human_approval context request decision now = Ok r → clean r.
Proof. unfold human_approval. clean_skill. Qed.
Lemma package_clean context request now r : document_package context request now = Ok r → clean r.
Proof. unfold document_package. clean_skill. Qed.

Lemma timeline_clean context request now r : timeline_build context request now = Ok r → clean r.
Proof.
  unfold timeline_build. intros H. eapply clean_unless_denied; [exact H|clear H]. cbv zeta. intros H.
  apply bind_Ok in H as ([events unresolved] & _ & H). apply bind_Ok in H as (i & _ & H).
  apply bind_Ok in H as (o & Ho & [= <-]). intros Hs. simpl in Hs |- *.
  destruct unresolved; [|done]. split; [done|]. by eexists _, o.
Qed.

Lemma rules_clean context request catalog now r : rule_retrieve context request catalog now = Ok r → clean r.
Proof.
  unfold rule_retrieve. intros H. eapply clean_unless_denied; [exact H|clear H]. cbv zeta. intros H.
  apply bind_Ok in H as ([citations missing] & _ & H). apply bind_Ok in H as (q & _ & H).
  apply bind_Ok in H as (scope & _ & H). apply bind_Ok in H as (i & _ & H).
  apply bind_Ok in H as (o & Ho & [= <-]). intros Hs. simpl in Hs |- *.
  destruct missing; [|done]. split; [done|]. by eexists _, o.
Qed.

Lemma conflict_clean context request now r : conflict_detect context request now = Ok r → clean r.
Proof.
  unfold conflict_detect. intros H. eapply clean_unless_denied; [exact H|clear H]. cbv zeta. intros H.
  apply bind_Ok in H as (conflicts & _ & H). apply bind_Ok in H as (m & _ & H).
  apply bind_Ok in H as (report & _ & H). apply bind_Ok in H as (i & _ & H).
  apply bind_Ok in H as (o & Ho & [= <-]). intros Hs. cbn [sr_status sr_issues sr_value sr_output_hash] in *.
  destruct (_ && _); [|done]. split; [done|]. by eexists _, o.
Qed.
End clean.

(** ** The stored form of a result *)


(** The items of a canonical object, by key *)
Lemma canonical_get l j : NoDup (map fst l) → canonicalize [] (VDict l) = Ok j →
  ∃ items, j = JObj items ∧ ∀ k v, (k, v) ∈ l → ∃ jv, canonicalize [] v = Ok jv ∧ dict_get k items = jv.
Proof.
  intros Hnd Hj. destruct (canonicalize [] (VDict l)) eqn:E; [|done]. injection Hj as ->.
  pose proof E as E'. simpl in E'. apply bind_Ok in E' as (items & Hi & [= <-]).
  exists items. split; [done|]. intros k v Hkv.
  destruct (canonical_item [] l _ k v E Hkv) as (r & jv & [= <-] & Hkeys & Hv & Hin); [apply not_elem_of_nil|].
  exists jv. split; [done|]. unfold dict_get. rewrite (assoc_elem k jv); [done| |done].
  rewrite Hkeys. apply canonical_keys. by rewrite map_map.
Qed.

Section stored.
Context `{P : Platform}.

(** The event of a clean success agrees with the stored result. *)
Lemma stored_matches {T} `{ToPy T} (r : SkillResult T) (e : TraceEvent) j :
  clean r → r.(sr_status) = SkillStatus.SUCCESS → canonicalize [] (to_py r) = Ok j →
  e.(te_input_hash) = Some r.(sr_input_hash) → e.(te_output_hash) = r.(sr_output_hash) →
  e.(te_status) = "SUCCESS" → result_matches e j.
Proof.
  intros Hc Hs Hj Hi Ho Hst. destruct (Hc Hs) as (_ & v & h & Hv & Hh & Hoh).
  set (fields := [("status", to_py r.(sr_status)); ("value", to_py r.(sr_value));
    ("issues", to_py r.(sr_issues)); ("input_hash", to_py r.(sr_input_hash));
    ("output_hash", to_py r.(sr_output_hash)); ("emitted_refs", to_py r.(sr_emitted_refs))]).
  change (to_py r) with (VDict fields) in Hj.
  destruct (canonical_get fields j) as (items & -> & Hg);
    [apply distinct_keys_NoDup; reflexivity|exact Hj|].
  assert (∀ k v, (k, v) ∈ fields → canonicalize [] v = Ok (dict_get k items)) as Hget.
  { intros k w Hkw. destruct (Hg k w Hkw) as (jv & ? & ->). done. }
  clear Hg. exists items. split; [done|].
  assert (dict_get "input_hash" items = JStr r.(sr_input_hash)) as H1.
  { pose proof (Hget "input_hash" _ ltac:(by right; right; right; left)) as [= <-]. done. }
  assert (dict_get "output_hash" items = JStr h) as H2.
  { pose proof (Hget "output_hash" _ ltac:(by do 4 right; left)) as H'. rewrite Hoh in H'. by injection H' as <-. }
  assert (dict_get "status" items = JStr "SUCCESS") as H3.
  { pose proof (Hget "status" _ ltac:(by left)) as H'. rewrite Hs in H'. by injection H' as <-. }
  assert (canonicalize [] (to_py v) = Ok (dict_get "value" items)) as H4.
  { pose proof (Hget "value" _ ltac:(by right; left)) as H'. by rewrite Hv in H'. }
  rewrite H1, H2, H3, Hi, Ho, Hoh, Hst. unfold differs. rewrite !String.eqb_refl.
  split; [done|]. split; [done|]. split; [done|]. intros _. exists h. split; [|done].
  rewrite <- Hh. unfold sha256_digest, sha256_digest_except, canonical_json.
  by rewrite (canonicalize_stable _ _ _ H4), H4.
Qed.
End stored.

(** ** The progress of a run *)
Section progress.
Context `{P : Platform} (now : datetime) (run_id trace_id : string) (c0 : CaseRecord).

Record traced (keys : list EventKey) (targets : list CaseState) (g : Progress) : Prop := {
  td_keys : map event_key g.(pg_trace) = keys;
  td_sequence : map te_sequence g.(pg_trace) = map Z.of_nat (seq 1 (length g.(pg_trace)));
  td_events : Forall (λ e, e.(te_occurred_at) = now ∧ e.(te_status) = "SUCCESS" ∧
    e.(te_error_code) = None ∧ e.(te_trace_id) = trace_id ∧
    e.(te_tenant_id) = c0.(case_tenant_id) ∧ e.(te_case_id) = c0.(case_case_id)) g.(pg_trace);
  td_plan : follows c0 (List.filter is_transition g.(pg_trace)) targets g.(pg_case);
  td_results : Forall2 (λ e v, ∀ j, canonicalize [] v = Ok j → result_matches e j)
    (List.filter (λ e, negb (is_transition e)) g.(pg_trace)) g.(pg_skill_results);
}.

Lemma traced_start : traced [] [] (mk_Progress c0 [] []).
Proof. split; simpl; constructor. Qed.

Lemma traced_case keys targets g : traced keys targets g →
  g.(pg_case).(case_tenant_id) = c0.(case_tenant_id) ∧ g.(pg_case).(case_case_id) = c0.(case_case_id).
Proof. intros [_ _ _ Hp _]. apply follows_case in Hp as (_ & _ & s & v & ->). done. Qed.

Lemma follows_snoc c es ts c' e target h h' :
  follows c es ts c' → sha256_digest (to_py c') = Ok h →
  sha256_digest (to_py (with_state target (c'.(case_state_version) + 1) c')) = Ok h' →
  e.(te_input_hash) = Some h → e.(te_output_hash) = Some h' →
  follows c (es ++ [e]) (ts ++ [target]) (with_state target (c'.(case_state_version) + 1) c').
Proof.
  induction 1; intros; simpl; econstructor; eauto; constructor.
Qed.

Lemma sequence_snoc (l : list TraceEvent) e :
  map te_sequence l = map Z.of_nat (seq 1 (length l)) → e.(te_sequence) = Z.of_nat (length l) + 1 →
  map te_sequence (l ++ [e]) = map Z.of_nat (seq 1 (length (l ++ [e]))).
Proof.
  intros Hl He. rewrite length_app, Nat.add_comm. cbn [length Nat.add].
  rewrite seq_S, !map_app, Hl. cbn [map]. do 2 f_equal. lia.
Qed.

Lemma advance_traced keys targets target context g g' :
  traced keys targets g → advance now trace_id target context g = Ok g' →
  traced (keys ++ [transition_key]) (targets ++ [target]) g' ∧ g'.(pg_case).(case_state) = target ∧
  permitted ActorKind.AGENT context g.(pg_case).(case_state) target.
Proof.
  intros Htd H. pose proof (traced_case _ _ _ Htd) as [Ht Hc]. destruct Htd as [H1 H2 H3 H4 H5].
  unfold advance in H. apply bind_Ok in H as ([case event] & Htr & [= <-]).
  apply transition_Ok in Htr as ((_ & _ & Hp) & _ & Hcase & h & h' & Hh & Hh' & ->). subst case. simpl in *.
  split; [|done]. split; cbn [pg_trace pg_case pg_skill_results].
  - by rewrite map_app, H1.
  - by apply sequence_snoc.
  - apply Forall_app. split; [done|]. constructor; [|constructor]. simpl. done.
  - rewrite List.filter_app. by eapply follows_snoc.
  - rewrite List.filter_app. cbn. by rewrite app_nil_r.
Qed.

Lemma step_traced {T} `{ToPy T} keys targets caller key event_type stage
    (skill : SkillContext → result (SkillResult T)) v g g' :
  event_type ≠ "case.state_transition" → (∀ context r, skill context = Ok r → clean r) →
  traced keys targets g →
  step now run_id trace_id caller key event_type stage skill g = Ok (v, g') →
  traced (keys ++ [agent_event event_type caller]) targets g' ∧ g'.(pg_case) = g.(pg_case) ∧
  ∃ context r, _context g.(pg_case) trace_id caller (run_id +:+ ":" +:+ key) = Ok context ∧
    skill context = Ok r ∧ r.(sr_status) = SkillStatus.SUCCESS ∧ r.(sr_value) = Some v.
Proof.
  intros Het Hcl Htd H0. pose proof (traced_case _ _ _ Htd) as [Ht Hc]. destruct Htd as [H1 H2 H3 H4 H5].
  unfold step in H0. apply bind_Ok in H0 as (context & Hctx & H0). apply bind_Ok in H0 as (r & Hr & H0).
  apply bind_Ok in H0 as (event & He & H0). apply bind_Ok in H0 as (value & Hv & [= <- <-]).
  assert (r.(sr_status) = SkillStatus.SUCCESS ∧ r.(sr_value) = Some value) as [Hs Hval].
  { unfold _require_success in Hv. destruct (sr_status r), (sr_value r); try done. by injection Hv as <-. }
  pose proof (Hcl _ _ Hr) as Hclean. destruct (Hclean Hs) as (Hi & _).
  unfold _skill_event, TraceEvent_validate in He. rewrite Hi, Hs in He.
  apply bind_Ok in He as (? & _ & He). apply bind_Ok in He as (? & _ & [= <-]).
  set (event := mk_TraceEvent _ _ _ _ _ _ _ _ _ _ _ _).
  assert (is_transition event = false) as Hnt by (by apply String.eqb_neq).
  split; [|split; [done|by exists context, r]]. split; cbn [pg_trace pg_case pg_skill_results].
  - by rewrite map_app, H1.
  - by apply sequence_snoc.
  - apply Forall_app. split; [done|]. constructor; [|constructor]. simpl. done.
  - rewrite List.filter_app. cbn [List.filter]. rewrite Hnt. by rewrite app_nil_r.
  - rewrite List.filter_app. cbn [List.filter]. rewrite Hnt. cbn [negb]. apply Forall2_app; [done|].
    constructor; [|constructor]. intros j Hj. by eapply (stored_matches r).
Qed.
End progress.

(** ** The phases *)
Section phases.
Context `{P : Platform} `{L : Loader} (now : datetime) (run_id trace_id : string) (c0 : CaseRecord).
Notation traced := (traced now trace_id c0).

Lemma ingest_document_traced fixtures base keys targets evidence store g entry acc :
  traced keys targets g →
  ingest_document now run_id trace_id fixtures base (evidence, store, g) entry = Ok acc →
  traced (keys ++ [agent_event "skill.evidence_ingest" "PF-A2"]) targets (snd acc) ∧
  (snd acc).(pg_case) = g.(pg_case).
Proof.
  intros Htd. destruct entry as [index document]. unfold ingest_document. intros H.
  apply bind_Ok in H as ([path raw] & _ & H). apply bind_Ok in H as (? & _ & H).
  apply bind_Ok in H as ([output g'] & Hs & H).
  eapply step_traced in Hs as (Htd' & Hc & _); [|done|by intros; eapply evidence_ingest_clean|exact Htd].
  destruct (register_all store _) as [store' [?|e]].
  - by injection H as <-.
  - by destruct (is_store_error e).
Qed.

Lemma ingest_documents_traced fixtures base documents keys targets g evidence store g' :
  traced keys targets g →
  ingest_documents now run_id trace_id fixtures base documents g = Ok (evidence, store, g') →
  traced (keys ++ repeat (agent_event "skill.evidence_ingest" "PF-A2") (length documents)) targets g' ∧
  g'.(pg_case) = g.(pg_case).
Proof.
  intros Htd H. unfold ingest_documents in H. apply bind_Ok in H as (s & _ & H).
  assert (∀ docs keys ev s g acc, traced keys targets g →
    foldR (ingest_document now run_id trace_id fixtures base) (ev, s, g) docs = Ok acc →
    traced (keys ++ repeat (agent_event "skill.evidence_ingest" "PF-A2") (length docs)) targets (snd acc) ∧
    (snd acc).(pg_case) = g.(pg_case)) as Hloop.
  { clear. induction docs as [|d docs IH]; intros keys ev s g acc Htd; simpl.
    - intros [= <-]. by rewrite app_nil_r.
    - intros H. apply bind_Ok in H as ([[ev1 s1] g1] & Hd & H).
      apply (ingest_document_traced _ _ _ _ _ _ _ _ _ Htd) in Hd as [Htd1 Hc1].
      destruct (IH _ _ _ _ _ Htd1 H) as [Htd2 Hc2]. simpl in *.
      rewrite <- app_assoc in Htd2. split; [exact Htd2|congruence]. }
  destruct (Hloop _ _ _ _ _ _ Htd H) as [H1 H2]. by rewrite length_imap in H1.
Qed.

Lemma prepare_facts_traced manifest catalog evidence keys targets g timeline rules g' :
  traced keys targets g →
  prepare_facts now run_id trace_id manifest catalog evidence g = Ok (timeline, rules, g') →
  traced (keys ++ [agent_event "skill.timeline_build" "PF-A2"; transition_key;
      agent_event "skill.rule_retrieve" "PF-A3"; transition_key])
    (targets ++ [CaseState.FACTS_READY; CaseState.RULES_READY]) g' ∧
  evidence ≠ [] ∧ rules.(rro_citations) ≠ [].
Proof.
  intros Htd H. unfold prepare_facts in H.
  apply bind_Ok in H as ([tl g1] & H1 & H).
  eapply step_traced in H1 as (Htd1 & _ & _); [|done|by intros; eapply timeline_clean|exact Htd].
  apply bind_Ok in H as (g2 & H2 & H).
  eapply advance_traced in H2 as (Htd2 & _ & Hp2); [|exact Htd1].
  apply bind_Ok in H as ([ro g3] & H3 & H).
  eapply step_traced in H3 as (Htd3 & _ & _); [|done| |exact Htd2].
  2: { intros context r Hr. apply bind_Ok in Hr as (q & _ & Hr). by eapply rules_clean. }
  apply bind_Ok in H as (g4 & H4 & [= <- <- <-]).
  eapply advance_traced in H4 as (Htd4 & _ & Hp4); [|exact Htd3].
  rewrite <- !app_assoc in Htd4. split; [exact Htd4|].
  split; [inversion Hp2 as [| | | | | | | | | | | | | | |]|inversion Hp4 as [| | | | | | | | | | | | | | |]];
    simpl in *; by intros E; rewrite E in *.
Qed.

Lemma prepare_proposals_traced catalog store evidence rules keys targets g calculation proposals g' :
  traced keys targets g →
  prepare_proposals now run_id trace_id catalog store evidence rules g = Ok (calculation, proposals, g') →
  traced (keys ++ [agent_event "skill.deterministic_calculate" "PF-A4"; transition_key;
      agent_event "strategy.proposal_generate" "PF-A5"; transition_key])
    (targets ++ [CaseState.CALC_READY; CaseState.PROPOSAL_READY]) g' ∧
  valid_calculation calculation ∧ proposals ≠ [].
Proof.
  intros Htd H. unfold prepare_proposals in H. cbv zeta in H.
  apply bind_Ok in H as ([co g1] & H1 & H).
  eapply step_traced in H1 as (Htd1 & _ & _); [|done|by intros; eapply calculate_clean|exact Htd].
  apply bind_Ok in H as (invalid & Hinv & H). apply bind_Ok in H as (g2 & H2 & H).
  eapply advance_traced in H2 as (Htd2 & _ & Hp2); [|exact Htd1].
  apply bind_Ok in H as ([po g3] & H3 & H).
  eapply step_traced in H3 as (Htd3 & _ & _); [|done|by intros; eapply proposals_clean|exact Htd2].
  apply bind_Ok in H as (g4 & H4 & [= <- <- <-]).
  eapply advance_traced in H4 as (Htd4 & _ & Hp4); [|exact Htd3].
  rewrite <- !app_assoc in Htd4. split; [exact Htd4|]. split.
  - assert (invalid = false) as ->.
    { inversion Hp2; simpl in *; by destruct invalid. }
    unfold calculation_invalid in Hinv. unfold valid_calculation.
    destruct (cs_total _); [|done]. split; [done|].
    apply bind_Ok in Hinv as ([] & Hv & Hb); [done|discriminate Hb].
  - inversion Hp4; simpl in *. intros E. by rewrite E in *.
Qed.

Lemma prepare_audit_traced evidence rules calculation proposals keys targets g report audit g' :
  traced keys targets g →
  prepare_audit now run_id trace_id evidence rules calculation proposals g = Ok (report, audit, g') →
  traced (keys ++ [agent_event "skill.conflict_detect" "PF-A6";
      agent_event "skill.decision_audit" "PF-A6"; transition_key])
    (targets ++ [CaseState.AWAITING_APPROVAL]) g' ∧
  audit.(ar_verdict) = AuditVerdict.PASS ∧ verify_hash audit = Ok true ∧
  meta_scope audit.(ar_meta) = (c0.(case_tenant_id), c0.(case_case_id), trace_id) ∧
  audit.(ar_meta).(meta_created_at) = now ∧ g'.(pg_case).(case_state) = CaseState.AWAITING_APPROVAL.
Proof.
  intros Htd H. unfold prepare_audit in H. cbv zeta in H.
  apply bind_Ok in H as ([co g1] & H1 & H).
  eapply step_traced in H1 as (Htd1 & Hc1 & _); [|done|by intros; eapply conflict_clean|exact Htd].
  apply bind_Ok in H as ([ao g2] & H2 & H). pose proof (traced_case _ _ _ _ _ _ Htd1) as [Ht Hci].
  eapply step_traced in H2 as (Htd2 & _ & context & r & Hctx & Hr & Hs & Hv);
    [|done|by intros; eapply audit_clean|exact Htd1].
  apply bind_Ok in H as (? & Hp%require_Ok & H). apply bool_decide_eq_true in Hp.
  apply bind_Ok in H as (g3 & H3 & [= <- <- <-]).
  eapply advance_traced in H3 as (Htd3 & Hst & _); [|exact Htd2].
  rewrite <- !app_assoc in Htd3. split; [exact Htd3|]. split; [done|].
  apply unless_denied_success in Hr as [_ Hr]; [|by rewrite Hs].
  apply bind_Ok in Hr as (u & _ & Hr). apply bind_Ok in Hr as (us & _ & Hr).
  apply bind_Ok in Hr as (l & _ & Hr). cbv zeta in Hr.
  apply bind_Ok in Hr as (m & (i & _ & _ & ->)%artifact_meta_Ok & Hr).
  apply bind_Ok in Hr as (rep & Hrep & Hr). apply success_Ok in Hr as (_ & Hv' & _).
  rewrite Hv in Hv'. injection Hv' as ->. cbn [dao_report].
  pose proof (seal_verifies _ _ Hrep) as Hver. apply seal_Ok in Hrep as (h & _ & ->).
  split; [done|]. unfold _context, SkillContext_validate in Hctx.
  apply bind_Ok in Hctx as (? & _ & [= <-]). unfold meta_scope. cbn.
  by rewrite Ht, Hci.
Qed.
End phases.

(** ** The prepared run *)
Section prepared.
Context `{P : Platform} `{L : Loader}.

Lemma RunState_validate_Ok x y : RunState_validate x = Ok y → y = x.
Proof.
  unfold RunState_validate. intros H. repeat (apply bind_Ok in H as (? & _ & H)). by injection H as <-.
Qed.
Lemma ApprovalRequest_validate_Ok x y : ApprovalRequest_validate x = Ok y → y = x.
Proof.
  unfold ApprovalRequest_validate. intros H. repeat (apply bind_Ok in H as (? & _ & H)). by injection H as <-.
Qed.

Lemma events_absent event_type (keys : list EventKey) (trace : list TraceEvent) :
  map event_key trace = keys → forallb (λ k : EventKey, negb (String.eqb (fst (fst k)) event_type)) keys = true →
  events_of_type event_type trace = [].
Proof.
  intros <-. induction trace as [|e l IH]; [done|]. cbn [map forallb event_key fst].
  intros [He Hl]%andb_true_iff. unfold events_of_type. cbn [List.filter].
  apply negb_true_iff in He. rewrite He. by apply IH.
Qed.

Lemma prefix_whole (trace : list TraceEvent) :
  events_of_type "skill.human_approval" trace = [] → _approval_trace_prefix trace = trace.
Proof.
  induction trace as [|e l IH]; [done|]. unfold events_of_type. cbn [List.filter _approval_trace_prefix].
  destruct (String.eqb (te_event_type e) "skill.human_approval"); [done|]. intros H. f_equal. by apply IH.
Qed.

Lemma prepared_no_event event_type n :
  event_type ∈ ["skill.human_approval"; "skill.document_package"] →
  forallb (λ k : EventKey, negb (String.eqb (fst (fst k)) event_type)) (prepared_events n) = true.
Proof.
  intros H. unfold prepared_events. rewrite !forallb_app.
  assert (forallb (λ k : EventKey, negb (String.eqb (fst (fst k)) event_type))
    (repeat (agent_event "skill.evidence_ingest" "PF-A2") n) = true) as ->; [|by elem_cases].
  induction n as [|n IH]; [done|]. cbn [repeat forallb]. rewrite IH. by elem_cases.
Qed.

(** All the events of a run happen at one instant, in order. *)
Lemma same_time_pairs now (trace : list TraceEvent) :
  is_aware now = true → Forall (λ e, e.(te_occurred_at) = now) trace →
  Forall (λ pc : TraceEvent * TraceEvent,
    dt_ltb (snd pc).(te_occurred_at) (fst pc).(te_occurred_at) = Ok false) (pairwise trace).
Proof.
  intros Ha H. apply Forall_forall. intros [a b] Hab. unfold pairwise in Hab. rewrite Forall_forall in H.
  pose proof (elem_of_zip_l _ _ _ _ Hab) as H1. pose proof (elem_of_zip_r _ _ _ _ Hab) as H2.
  simpl. rewrite (H a H1), (H b) by (destruct trace; [done|by right]).
  destruct now; [done|]. simpl. by rewrite Z.ltb_irrefl.
Qed.

(** The run before it is written: what the phases establish *)
Lemma prepare_case_Ok now run_id trace_id manifest catalog fixtures base c0 p :
  is_aware now = true →
  c0.(case_state) = CaseState.RECEIVED → c0.(case_state_version) = 0 →
  prepare_case now run_id trace_id manifest catalog fixtures base c0 = Ok p →
  traced now trace_id c0 (prepared_events (length manifest.(cm_documents))) prepared_targets p.(pp_progress) ∧
  p.(pp_manifest) = manifest ∧ p.(pp_artifacts).(ra_audit_report).(ar_verdict) = AuditVerdict.PASS ∧
  verify_hash p.(pp_artifacts).(ra_audit_report) = Ok true ∧
  meta_scope p.(pp_artifacts).(ra_audit_report).(ar_meta) =
    (c0.(case_tenant_id), c0.(case_case_id), trace_id) ∧
  p.(pp_artifacts).(ra_audit_report).(ar_meta).(meta_created_at) = now ∧
  p.(pp_progress).(pg_case).(case_state) = CaseState.AWAITING_APPROVAL ∧
  ∃ subject, _subject_hash (mk_Subject manifest p.(pp_progress).(pg_case) p.(pp_timeline)
      p.(pp_artifacts) (VSeq p.(pp_progress).(pg_skill_results)) p.(pp_progress).(pg_trace)) = Ok subject ∧
    _expected_approval_request p.(pp_artifacts).(ra_audit_report) subject = Ok p.(pp_approval_request) ∧
    p.(pp_state) = mk_RunState run_id trace_id "REFERENCE_RUNTIME_ONLY" CaseState.AWAITING_APPROVAL
      p.(pp_progress).(pg_case) subject p.(pp_approval_request).(areq_request_id) false false now now
      initial_paths ∧ RunState_validate p.(pp_state) = Ok p.(pp_state).
Proof.
  intros Ha Hst Hv H. unfold prepare_case in H. cbv zeta in H.
  apply bind_Ok in H as (g1 & H1 & H).
  eapply advance_traced in H1 as (Htd1 & _ & _); [|apply traced_start].
  apply bind_Ok in H as ([[evidence store] g2] & H2 & H).
  eapply ingest_documents_traced in H2 as (Htd2 & _); [|exact Htd1].
  apply bind_Ok in H as ([[timeline rules] g3] & H3 & H).
  eapply prepare_facts_traced in H3 as (Htd3 & _); [|exact Htd2].
  apply bind_Ok in H as ([[calculation proposals] g4] & H4 & H).
  eapply prepare_proposals_traced in H4 as (Htd4 & _); [|exact Htd3].
  apply bind_Ok in H as ([[report audit] g5] & H5 & H).
  eapply prepare_audit_traced in H5 as (Htd5 & Hp & Hver & Hsc & Htm & Hs5); [|exact Htd4].
  apply bind_Ok in H as (subject & Hsub & H). apply bind_Ok in H as (areq & Hareq & H).
  apply bind_Ok in H as (state & Hstate & [= <-]). cbn [pp_progress pp_manifest pp_artifacts ra_audit_report
    pp_timeline pp_approval_request pp_state].
  pose proof (RunState_validate_Ok _ _ Hstate) as ->. rewrite Hs5 in Hstate |- *.
  rewrite <- !app_assoc in Htd5. split; [exact Htd5|]. do 6 (split; [done|]). by exists subject.
Qed.

(** The digest of a subject does not depend on how its results are represented. *)
Lemma subject_hash_results m c tl a v w tr :
  canonicalize [] v = canonicalize [] w →
  _subject_hash (mk_Subject m c tl a v tr) = _subject_hash (mk_Subject m c tl a w tr).
Proof.
  intros Hvw. unfold _subject_hash, sha256_digest, sha256_digest_except, canonical_json, to_py at 1 2,
    Subject_to_py, subject_items. cbn [sj_manifest sj_case sj_timeline sj_artifacts sj_skill_results sj_trace].
  cbn [canonicalize]. cbn [map fst snd]. by rewrite Hvw.
Qed.

Lemma stored_results_same vs js : mapR (canonicalize []) vs = Ok js →
  canonicalize [] (VSeq (map py_of_json js)) = canonicalize [] (VSeq vs).
Proof.
  intros H. change (canonicalize [] (VSeq vs)) with (l ← mapR id (map (canonicalize []) vs); Ok (JArr l)).
  rewrite mapR_id_map, H. cbn [mbind result_bind].
  assert (Forall stable js) as Hs by
    (apply Forall_forall; intros j Hj; rewrite mapR_Forall2 in H;
     destruct (Forall2_in_r _ _ _ _ H Hj) as (v & _ & Hv); by eapply canonicalize_stable).
  by apply stable_arr in Hs.
Qed.

(** What [prepare_run] has established when it returns *)
Lemma prepare_run_traced fixtures mp cp run_dir now p :
  prepare_run fixtures mp cp run_dir now = Ok p →
  is_aware now = true ∧ run_dir = None ∧ ∃ run_id trace_id manifest_hash,
  let c0 := mk_CaseRecord p.(pp_manifest).(cm_case_id) p.(pp_manifest).(cm_tenant_id) CaseState.RECEIVED 0
      p.(pp_manifest).(cm_jurisdiction) p.(pp_manifest).(cm_as_of_date) manifest_hash [] [] in
  ∃ catalog, sha256_digest (to_py p.(pp_manifest)) = Ok manifest_hash ∧
    prepare_case now run_id trace_id p.(pp_manifest) catalog fixtures (removelast mp) c0 = Ok p.
Proof.
  unfold prepare_run. intros H. apply bind_Ok in H as (? & Ha%require_Ok & H).
  apply bind_Ok in H as (? & Hd%require_Ok & H). apply bool_decide_eq_true in Hd.
  split; [done|]. split; [done|].
  apply bind_Ok in H as (manifest & _ & H). apply bind_Ok in H as (? & _ & H).
  apply bind_Ok in H as (catalog & _ & H). apply bind_Ok in H as (mh & Hmh & H).
  apply bind_Ok in H as (run_id & _ & H). apply bind_Ok in H as (trace_id & _ & H).
  apply bind_Ok in H as (case & Hc & H).
  unfold CaseRecord_validate in Hc. apply bind_Ok in Hc as (? & _ & [= <-]).
  exists run_id, trace_id, mh. pose proof H as H'.
  apply prepare_case_Ok in H' as (_ & -> & _); [|done..]. by exists catalog.
Qed.

(** A traced progress is intact. *)
Lemma traced_intact now trace_id c0 n g state stored areq subject :
  is_aware now = true → c0.(case_state) = CaseState.RECEIVED → c0.(case_state_version) = 0 →
  traced now trace_id c0 (prepared_events n) prepared_targets g →
  state.(rs_case) = g.(pg_case) → state.(rs_trace_id) = trace_id →
  state.(rs_created_at) = now → state.(rs_updated_at) = now →
  mapR (canonicalize []) g.(pg_skill_results) = Ok stored →
  intact state g.(pg_trace) stored n areq subject None None None None.
Proof.
  intros Ha Hc0 Hv0 [H1 H2 H3 H4 H5] Hc Ht Hcr Hup Hst.
  pose proof (events_absent "skill.human_approval" _ _ H1 (prepared_no_event "skill.human_approval" _ ltac:(elem_here))) as Hnoh.
  pose proof (follows_case _ _ _ _ H4) as (_ & _ & s & v & Hsame).
  split; rewrite ?Hc, ?Ht, ?Hcr, ?Hup.
  - rewrite H1. unfold expected_events. by rewrite app_nil_r.
  - done.
  - eapply same_time_pairs; [exact Ha|]. eapply Forall_impl; [exact H3|]. by intros ? (? & _).
  - destruct (pg_trace g) as [|e tr]; [by apply follows_length in H4|]. simpl. f_equal.
    by apply Forall_inv in H3 as (? & _).
  - destruct (last (pg_trace g)) as [e|] eqn:El.
    + simpl. f_equal. apply last_Some_elem_of in El. rewrite Forall_forall in H3. by apply H3 in El as (? & _).
    + apply last_None in El. rewrite El in H4. by apply follows_length in H4.
  - eapply Forall_impl; [exact H3|]. intros e (? & ? & ? & ? & ? & ?). unfold of_run. rewrite Hc, Ht, Hsame. done.
  - unfold initial_case, expected_state_targets. rewrite app_nil_r, Hc.
    replace (with_state CaseState.RECEIVED 0 (pg_case g)) with c0; [exact H4|].
    rewrite Hsame, <- Hc0, <- Hv0. by destruct c0.
  - done.
  - by apply (events_absent "skill.document_package" _ _ H1), prepared_no_event; elem_here.
  - rewrite (prefix_whole _ Hnoh). apply mapR_Forall2 in Hst. revert stored Hst.
    induction H5 as [|e v' es vs He _ IH]; intros stored Hst; inversion Hst; subst; constructor; auto.
Qed.

Lemma expected_request_bound audit subject areq state :
  verify_hash audit = Ok true → _expected_approval_request audit subject = Ok areq →
  state.(rs_approval_subject_hash) = subject → state.(rs_approval_request_id) = areq.(areq_request_id) →
  (state.(rs_case).(case_tenant_id), state.(rs_case).(case_case_id), state.(rs_trace_id)) =
    meta_scope audit.(ar_meta) →
  state.(rs_created_at) = audit.(ar_meta).(meta_created_at) →
  _require_approval_request_binding state areq audit = Ok areq.
Proof.
  intros Hver Hareq Hsub Hid Hsc Htm. unfold _require_approval_request_binding.
  rewrite Hver, Hsub. cbn [mbind result_bind require]. rewrite Hareq. cbn [mbind result_bind].
  rewrite bool_decide_eq_true_2; [done|]. apply request_binding_nil.
  unfold _expected_approval_request in Hareq. cbv zeta in Hareq.
  apply bind_Ok in Hareq as (rid & _ & Hareq). apply bind_Ok in Hareq as (ex & _ & Hareq).
  apply ApprovalRequest_validate_Ok in Hareq. rewrite Hid, Hsub, Hareq.
  cbn. unfold meta_scope in Hsc. by rewrite Hsc, Htm.
Qed.

(** The results of a run whose subject has a digest can be stored. *)
Lemma subject_results_stored m c tl a vs tr h :
  _subject_hash (mk_Subject m c tl a (VSeq vs) tr) = Ok h → ∃ stored, mapR (canonicalize []) vs = Ok stored.
Proof.
  intros Hsub. unfold _subject_hash, sha256_digest, sha256_digest_except, canonical_json in Hsub.
  apply bind_Ok in Hsub as (b & Hb & _). apply bind_Ok in Hb as (j & Hj & _).
  destruct (canonical_item [] _ j "skill_results" (VSeq vs) Hj) as (r & jv & _ & _ & Hjv & _);
    [do 9 right; by left|apply not_elem_of_nil|].
  change (canonicalize [] (VSeq vs)) with (l ← mapR id (map (canonicalize []) vs); Ok (JArr l)) in Hjv.
  apply bind_Ok in Hjv as (l & Hl & _). rewrite mapR_id_map in Hl. by exists l.
Qed.

(** The pipeline and the checker agree: a run that [prepare_run] prepared stops at
    AWAITING_APPROVAL after exactly six transitions with a sealed PASS audit; on the
    state, the trace and the stored results it leaves, the trace check and the binding
    check of the approval request report nothing, and the approval subject recomputed
    from the stored results is the one recorded in the state. *)
Lemma prepared_run_intact (fixtures : Fixtures) (manifest_path rule_catalog_path : list string)
    (run_dir : option Files) (now : datetime) (p : Prepared) :
  prepare_run fixtures manifest_path rule_catalog_path run_dir now = Ok p →
  let state := p.(pp_state) in let trace := p.(pp_progress).(pg_trace) in
  let audit := p.(pp_artifacts).(ra_audit_report) in
  state.(rs_stage) = CaseState.AWAITING_APPROVAL ∧ state.(rs_case).(case_state_version) = 6 ∧
  audit.(ar_verdict) = AuditVerdict.PASS ∧
  _require_approval_request_binding state p.(pp_approval_request) audit = Ok p.(pp_approval_request) ∧
  ∃ stored, mapR (canonicalize []) p.(pp_progress).(pg_skill_results) = Ok stored ∧
    _trace_integrity_errors state trace stored (length p.(pp_manifest).(cm_documents))
      p.(pp_approval_request) state.(rs_approval_subject_hash) None None None None = Ok [] ∧
    _subject_hash (mk_Subject p.(pp_manifest)
      (approval_case state.(rs_case) (_approval_trace_prefix trace)) p.(pp_timeline) p.(pp_artifacts)
      (VSeq (map py_of_json stored)) (_approval_trace_prefix trace)) = Ok state.(rs_approval_subject_hash).
Proof.
  intros H. destruct (prepare_run_traced _ _ _ _ _ _ H) as (Ha & _ & run_id & trace_id & mh & catalog & _ & Hc).
  apply prepare_case_Ok in Hc as (Htd & _ & Hp & Hver & Hsc & Htm & Hst & subject & Hsub & Hareq &
    Hs & _); [|done..]. cbv zeta. rewrite Hs. cbn [rs_stage rs_case rs_approval_subject_hash].
  destruct (subject_results_stored _ _ _ _ _ _ _ Hsub) as [stored Hstored].
  pose proof Htd as [H1 _ _ H4 _].
  pose proof (follows_case _ _ _ _ H4) as (Hv & _ & s & v & Hsame).
  pose proof (follows_length _ _ _ _ H4) as Hl6. rewrite Hl6 in Hv. simpl in Hv.
  split; [done|]. split; [done|]. split; [done|].
  split; [eapply expected_request_bound; try done; cbn; by rewrite Hsc, Hsame|].
  exists stored. split; [done|].
  split; [apply trace_integrity_nil; eapply traced_intact; [exact Ha| | |exact Htd|..]; done|].
  rewrite (prefix_whole (pg_trace (pp_progress p))) by
    (by apply (events_absent "skill.human_approval" _ _ H1), prepared_no_event; elem_here).
  replace (approval_case (pg_case (pp_progress p)) (pg_trace (pp_progress p))) with (pg_case (pp_progress p)).
  - rewrite <- Hsub. apply subject_hash_results. by apply stored_results_same.
  - unfold approval_case. rewrite Hl6. rewrite Hsame in Hst, Hv |- *. simpl in Hst, Hv. by subst.
Qed.
End prepared.
