(* ===== verification/RunApprove.v ===== *)
(** * reference_runtime.py: approve_reference_run and package_reference_run

    Both load the run, recompute the approval subject, check the bindings, call
    their Skill, advance the case, and write.  The functions return the run
    directory as they leave it, with the result or the exception. *)
From S2P Require Import Prelude Json Dicts PyTime PyDecimal Canonical Platforms Models StateMachine.
From S2P Require Import Common TrustedStore Rules Compensation Calculation Approval AuditSkill.
From S2P Require Import Strategy Packaging Evidence RunStore RunBinding RunTrace.
Local Open Scope Z_scope.

(** [{**paths, key: value}] *)
Definition with_path (key value : string) (paths : list (string * string)) : list (string * string) :=
  dict_set key value paths.

Section lifecycle.
Context `{P : Platform} `{L : Loader}.

(** The state of a run that may be continued at [now] *)
Definition load_stage (stage : CaseState) (late refused : string) (naive : string)
    (run_dir : option Files) (now : datetime) : result RunState :=
  state ← _load_state run_dir;
  _ ← require (is_aware now) (ReferenceRunError naive);
  early ← dt_ltb now state.(rs_updated_at);
  _ ← require (negb early) (ReferenceRunError late);
  _ ← require (bool_decide (state.(rs_stage) = stage))
        (ReferenceRunError (refused +:+ CaseState.value state.(rs_stage)));
  Ok state.

(** The artifacts, the trace, the current subject and the checked request *)
Definition load_subject (files : Files) (state : RunState)
    : result (RunArtifacts * list TraceEvent * string * ApprovalRequest * ApprovalRequest) :=
  artifacts ← _read_artifacts files state;
  path ← _state_artifact_path files state "trace" true;
  trace ← _read_trace files path;
  current_hash ← _current_approval_subject_hash files state artifacts trace;
  approval_request ← _load_approval_request files state;
  expected ← _require_approval_request_binding state approval_request artifacts.(ra_audit_report);
  Ok (artifacts, trace, current_hash, approval_request, expected).

Definition require_bound_record (record : ApprovalRecord) (expected : ApprovalRequest) : result unit :=
  errors ← _approval_record_binding_errors record expected;
  require (bool_decide (errors = []))
    (ReferenceRunError ("approval record binding mismatch: " +:+ str_join "; " errors)).

(** The event of the human decision *)
Definition human_event {T} (r : SkillResult T) (state : RunState) (sequence : Z) (approver_id : string)
    (now : datetime) : result TraceEvent :=
  TraceEvent_validate
    (mk_TraceEvent sequence state.(rs_trace_id) state.(rs_case).(case_tenant_id)
      state.(rs_case).(case_case_id) approver_id ActorKind.HUMAN "skill.human_approval"
      (Some r.(sr_input_hash)) r.(sr_output_hash) (SkillStatus.value r.(sr_status)) now None).

(** Everything [approve_reference_run] does before it writes *)
Definition approve_run (run_dir : option Files) (approver_id approver_role : string)
    (decision : ApprovalDecision) (reason : string) (now : datetime)
    : result (ApprovalRecord * list TraceEvent * RunState) :=
  state ← load_stage CaseState.AWAITING_APPROVAL "approval time cannot precede the current run state"
    "run is not awaiting approval: " "approval time must be timezone-aware" run_dir now;
  let files := default ∅ run_dir in
  '(artifacts, trace, current_hash, approval_request, expected) ← load_subject files state;
  human_decision ← HumanDecision_validate
    (mk_HumanDecision (str_strip approver_id) ActorKind.HUMAN (str_strip approver_role) decision
      (str_strip reason) now);
  context ← _context state.(rs_case) state.(rs_trace_id) "PF-A1"
    (state.(rs_run_id) +:+ ":approval:" +:+ approval_request.(areq_request_id));
  r ← human_approval context (mk_ApprovalExecuteRequest approval_request current_hash)
        human_decision now;
  output ← _require_success "human_approval" r;
  let record := output.(aeo_record) in
  _ ← require_bound_record record expected;
  event ← human_event r state (Z.of_nat (length trace) + 1) (str_strip approver_id) now;
  let trace := trace ++ [event] in
  '(case, event) ← transition_case state.(rs_case)
    (mk_TransitionRequest (decision_target decision) state.(rs_case).(case_state_version)
      (str_strip approver_id) ActorKind.HUMAN state.(rs_trace_id) (Z.of_nat (length trace) + 1) now
      (mk_TransitionContext false false false false false false false None (Some decision)
        (String.eqb current_hash approval_request.(areq_artifact_hash)) false false
        (Some (str_strip approver_role)) (Some approval_request.(areq_required_role))));
  Ok (record, trace ++ [event],
      update_state case now
        (with_path "approval_record" "artifacts/approval-record.json" state.(rs_artifact_paths)) state).

(** A write to the path the state holds for a key *)
Definition write_state_path (key : string) (require_file : bool) (state : RunState)
    (write : string → Files → result Files) (files : Files) : result Files :=
  path ← _state_artifact_path files state key require_file; write path files.

Definition approve_reference_run (run_dir : option Files) (approver_id approver_role : string)
    (decision : ApprovalDecision) (reason : string) (now : datetime)
    : option Files * result ApprovalRecord :=
  match approve_run run_dir approver_id approver_role decision reason now with
  | Raise e => (run_dir, Raise e)
  | Ok (record, trace, state) =>
      match write_all (default ∅ run_dir)
        [write_state_path "approval_record" false state (λ p, _write_json p (to_py record));
         write_state_path "trace" true state (λ p, _write_trace p trace);
         _write_json "run-state.json" (to_py state)] with
      | (files, Ok _) => (Some files, Ok record)
      | (files, Raise e) => (Some files, Raise e)
      end
  end.

(** ** Packaging *)

(** [package_dir.exists()]: some file lies below it. *)
Definition package_exists (files : Files) : bool :=
  existsb (λ p : string * string, starts_with "package/" (fst p) || String.eqb (fst p) "package")
    (map_to_list files).

(** Up to the result of the packaging Skill *)
Definition package_checks (run_dir : option Files) (now : datetime)
    : result (RunState * RunArtifacts * list TraceEvent * string * ApprovalRecord *
              SkillResult DocumentPackageOutput * DocumentPackageOutput) :=
  state ← load_stage CaseState.APPROVED "package time cannot precede the current run state"
    "run is not approved: " "package time must be timezone-aware" run_dir now;
  let files := default ∅ run_dir in
  '(artifacts, trace, current_hash, approval_request, expected) ← load_subject files state;
  record ← load_one load_ApprovalRecord files state "approval_record";
  _ ← require_bound_record record expected;
  manifest ← _read_manifest files state;
  skill_results ← _read_skill_results files state;
  trace_errors ← _trace_integrity_errors state trace skill_results (length manifest.(cm_documents))
    expected current_hash (Some record) None None None;
  _ ← require (bool_decide (trace_errors = []))
        (ReferenceRunError ("pre-package trace integrity failed: " +:+ str_join "; " trace_errors));
  proposal ← match artifacts.(ra_proposals) with p :: _ => Ok p | [] => Raise IndexError end;
  context ← _context state.(rs_case) state.(rs_trace_id) "PF-A1" (state.(rs_run_id) +:+ ":package");
  r ← document_package context
    (mk_DocumentPackageRequest proposal artifacts.(ra_calculation) artifacts.(ra_audit_report)
      approval_request record current_hash "controlled-review-draft" "0.1.0") now;
  output ← _require_success "document_package" r;
  _ ← require (negb (package_exists files))
        (ReferenceRunError "package directory already exists; refusing to overwrite");
  Ok (state, artifacts, trace, current_hash, record, r, output).

(** The trace and the state after the package *)
Definition package_advance (state : RunState) (artifacts : RunArtifacts) (trace : list TraceEvent)
    (current_hash : string) (record : ApprovalRecord) (r : SkillResult DocumentPackageOutput)
    (output : DocumentPackageOutput) (now : datetime) : result (list TraceEvent * RunState) :=
  event ← _skill_event r (Z.of_nat (length trace) + 1) state.(rs_trace_id) state.(rs_case) "PF-A1"
    "skill.document_package" now;
  let trace := trace ++ [event] in
  sealed ← verify_hash output.(dpo_manifest);
  '(case, event) ← transition_case state.(rs_case)
    (mk_TransitionRequest CaseState.PACKAGED state.(rs_case).(case_state_version) "PF-A1"
      ActorKind.AGENT state.(rs_trace_id) (Z.of_nat (length trace) + 1) now
      (mk_TransitionContext false false false false false false false
        (Some artifacts.(ra_audit_report).(ar_verdict)) None
        (String.eqb current_hash record.(arec_approved_artifact_hash)) sealed false None None));
  Ok (trace ++ [event],
      update_state case now
        (with_path "package_manifest" "package/package-manifest.json" state.(rs_artifact_paths)) state).

Definition package_reference_run (run_dir : option Files) (now : datetime)
    : option Files * result PackageManifest :=
  match package_checks run_dir now with
  | Raise e => (run_dir, Raise e)
  | Ok (state, artifacts, trace, current_hash, record, r, output) =>
      let files := _atomic_write "package/artifacts.json" output.(dpo_artifacts_json)
        (_atomic_write "package/review-draft.md" output.(dpo_draft_markdown) (default ∅ run_dir)) in
      match write_all files
        [_write_json "package/package-manifest.json" (to_py output.(dpo_manifest))] with
      | (files, Raise e) => (Some files, Raise e)
      | (files, Ok _) =>
          match package_advance state artifacts trace current_hash record r output now with
          | Raise e => (Some files, Raise e)
          | Ok (trace, state) =>
              match write_all files
                [write_state_path "trace" true state (λ p, _write_trace p trace);
                 _write_json "run-state.json" (to_py state)] with
              | (files, Ok _) => (Some files, Ok output.(dpo_manifest))
              | (files, Raise e) => (Some files, Raise e)
              end
          end
      end
  end.
End lifecycle.
