(* ===== verification/RunLifecycle.v ===== *)
(** * Approval and packaging of a run: what they check, establish and preserve *)
From S2P Require Import Prelude Json Dicts PyTime PyDecimal Canonical Platforms Models StateMachine.
From S2P Require Import Common TrustedStore Rules Compensation Calculation Approval AuditSkill.
From S2P Require Import Strategy Packaging Evidence RunStore RunBinding RunTrace Runtime.
From S2P Require Import RunPrepared RunApprove.
Local Open Scope Z_scope.

(** ** Successful Skills *)
Section skills.
Context `{P : Platform}.

Lemma human_approval_success context request decision now r :
  valid_request request.(aer_approval_request) → valid_decision decision →
  human_approval context request decision now = Ok r → r.(sr_status) = SkillStatus.SUCCESS →
  acceptable context request decision now ∧ ∃ record, r.(sr_value) = Some (mk_ApprovalExecuteOutput record) ∧
    approval_record context request decision now = Ok record ∧
    bound_record context request decision now record ∧
    sha256_digest (to_py request) = Ok r.(sr_input_hash) ∧
    ∃ h, sha256_digest (to_py (mk_ApprovalExecuteOutput record)) = Ok h ∧ r.(sr_output_hash) = Some h.
Proof.
  intros Hr Hd H Hs. apply unless_denied_success in H as [_ H]; [|by rewrite Hs].
  destruct (approval_issues_spec context request decision now Hr Hd) as (l & Hl & Hacc).
  rewrite Hl in H. cbn [mbind result_bind] in H. destruct l; [|by apply blocked_not_success in H].
  assert (acceptable context request decision now) as Ha by by apply Hacc.
  apply bind_Ok in H as (record & Hrec & H). apply success_Ok in H as (_ & Hv & _ & _ & Hi & Ho).
  split; [done|]. exists record. split; [done|]. split; [done|].
  split; [by apply approval_record_bound|done].
Qed.

Lemma or_unsealed_false `{Artifact A} b (a : A) : or_unsealed b a = Ok false → b = false ∧ verify_hash a = Ok true.
Proof.
  unfold or_unsealed. destruct b; [done|]. intros ([] & Hv & Hx)%bind_Ok; done.
Qed.

Lemma package_issues_nil request now : package_issues request now = Ok [] → packable request now.
Proof.
  unfold package_issues. cbv zeta. intros H.
  apply bind_Ok in H as (b1 & H1 & H). apply bind_Ok in H as (b2 & H2 & H).
  apply bind_Ok in H as (l3 & H3 & H). apply bind_Ok in H as (b4 & H4 & [= H]).
  rewrite !app_nil, !issue_when_nil in H. destruct H as (-> & -> & Hm & Hh & -> & ->).
  apply or_unsealed_false in H1 as [Hpass Hv1], H2 as [Happ Hv2].
  apply negb_false_iff, bool_decide_eq_true in Hpass, Happ. apply request_mismatch_spec in Hm.
  apply negb_false_iff, String.eqb_eq in Hh.
  assert (dt_ltb now (arec_decided_at (dpr_approval_record request)) = Ok false ∧
    dt_ltb (arec_expires_at (dpr_approval_record request)) now = Ok false) as [Ht1 Ht2].
  { unfold package_time_issues in H3. destruct (is_aware now); [|done]. cbn [negb] in H3.
    apply bind_Ok in H3 as ([] & He & H3); [done|]. apply bind_Ok in H3 as ([] & Hl & H3); done. }
  assert (valid_calculation request.(dpr_calculation)) as Hcalc.
  { unfold calculation_invalid in H4. unfold valid_calculation. destruct (cs_total _); [|done].
    split; [done|]. apply bind_Ok in H4 as ([] & ? & ?); done. }
  unfold packable. done.
Qed.

Lemma document_package_success context request now r :
  document_package context request now = Ok r → r.(sr_status) = SkillStatus.SUCCESS →
  packable request now ∧ ∃ output, r.(sr_value) = Some output ∧ package_of context request now output ∧
    sha256_digest (to_py request) = Ok r.(sr_input_hash) ∧
    ∃ h, sha256_digest (to_py output) = Ok h ∧ r.(sr_output_hash) = Some h.
Proof.
  intros H Hs. apply unless_denied_success in H as [_ H]; [|by rewrite Hs].
  apply bind_Ok in H as (l & Hl & H). destruct l; [|by apply blocked_not_success in H].
  apply package_issues_nil in Hl. apply bind_Ok in H as (output & Ho & H).
  apply success_Ok in H as (_ & Hv & _ & _ & Hi & Hout). split; [done|]. exists output.
  split; [done|]. split; [by apply build_package_Ok|]. done.
Qed.
End skills.

(** ** Extending an intact trace *)
Section extend.
Context `{P : Platform}.

(** The two events each later step appends: its Skill's and the transition's *)
Record extension (state : RunState) (trace : list TraceEvent) (now : datetime) (target : CaseState)
    (e1 e2 : TraceEvent) (case : CaseRecord) : Prop := {
  ex_seq : e1.(te_sequence) = Z.of_nat (length trace) + 1 ∧ e2.(te_sequence) = Z.of_nat (length trace) + 2;
  ex_time : e1.(te_occurred_at) = now ∧ e2.(te_occurred_at) = now;
  ex_run : of_run state e1 ∧ of_run state e2;
  ex_kinds : is_transition e1 = false ∧ is_transition e2 = true;
  ex_case : case = with_state target (state.(rs_case).(case_state_version) + 1) state.(rs_case);
  ex_hash : ∃ h h', sha256_digest (to_py state.(rs_case)) = Ok h ∧ sha256_digest (to_py case) = Ok h' ∧
    e2.(te_input_hash) = Some h ∧ e2.(te_output_hash) = Some h';
}.

Lemma sequence_two (l : list TraceEvent) e1 e2 :
  map te_sequence l = map Z.of_nat (seq 1 (length l)) → e1.(te_sequence) = Z.of_nat (length l) + 1 →
  e2.(te_sequence) = Z.of_nat (length l) + 2 →
  map te_sequence (l ++ [e1; e2]) = map Z.of_nat (seq 1 (length (l ++ [e1; e2]))).
Proof.
  intros Hl H1 H2. change (l ++ [e1; e2]) with (l ++ [e1] ++ [e2]). rewrite app_assoc.
  apply sequence_snoc; [by apply sequence_snoc|]. rewrite H2, length_app. simpl. lia.
Qed.

Lemma pairwise_snoc {A} (l : list A) x y : last l = Some x → pairwise (l ++ [y]) = pairwise l ++ [(x, y)].
Proof.
  unfold pairwise. induction l as [|a l IH]; [done|]. destruct l as [|b l]; [by intros [= ->]|].
  intros Hl. simpl in IH |- *. f_equal. by apply IH.
Qed.

Lemma times_two (l : list TraceEvent) e1 e2 last_time now :
  Forall (λ pc : TraceEvent * TraceEvent,
    dt_ltb (snd pc).(te_occurred_at) (fst pc).(te_occurred_at) = Ok false) (pairwise l) →
  te_occurred_at <$> last l = Some last_time → dt_ltb now last_time = Ok false → is_aware now = true →
  e1.(te_occurred_at) = now → e2.(te_occurred_at) = now →
  Forall (λ pc : TraceEvent * TraceEvent,
    dt_ltb (snd pc).(te_occurred_at) (fst pc).(te_occurred_at) = Ok false) (pairwise (l ++ [e1; e2])).
Proof.
  intros Hl Hla Hnow Ha H1 H2. destruct (last l) as [e|] eqn:E; [|done]. injection Hla as <-.
  change (l ++ [e1; e2]) with (l ++ [e1] ++ [e2]).
  rewrite app_assoc, (pairwise_snoc _ e1), (pairwise_snoc _ e) by (done || by rewrite last_snoc).
  apply Forall_app. split; [apply Forall_app; split; [done|constructor; [|constructor]]|].
  - simpl. by rewrite H1.
  - constructor; [|constructor]. simpl. rewrite H1, H2. destruct now; [done|]. simpl. by rewrite Z.ltb_irrefl.
Qed.

(** The checks that do not depend on the kind of step survive the extension. *)
Lemma intact_extend state trace stored n areq subject record pm input output now target e1 e2 case paths :
  intact state trace stored n areq subject record pm input output →
  extension state trace now target e1 e2 case →
  is_aware now = true → dt_ltb now state.(rs_updated_at) = Ok false →
  let state' := update_state case now paths state in let trace' := trace ++ [e1; e2] in
  map te_sequence trace' = map Z.of_nat (seq 1 (length trace')) ∧
  Forall (λ pc : TraceEvent * TraceEvent,
    dt_ltb (snd pc).(te_occurred_at) (fst pc).(te_occurred_at) = Ok false) (pairwise trace') ∧
  te_occurred_at <$> head trace' = Some state'.(rs_created_at) ∧
  te_occurred_at <$> last trace' = Some state'.(rs_updated_at) ∧
  Forall (of_run state') trace' ∧
  follows (initial_case state') (List.filter is_transition trace')
    (expected_state_targets record pm ++ [target]) state'.(rs_case).
Proof.
  intros [_ Hseq Ht Hf Hla Hrun Hp _ _ _] [[E1 E2] [T1 T2] [R1 R2] [K1 K2] -> (h & h' & Hh & Hh' & I2 & O2)]
    Ha Hnow. cbv zeta.
  split; [by apply sequence_two|]. split; [by eapply times_two|].
  split; [destruct trace; [done|]; exact Hf|].
  split; [change (trace ++ [e1; e2]) with (trace ++ [e1] ++ [e2]); rewrite app_assoc, last_snoc; simpl; by rewrite T2|].
  split.
  - apply Forall_app. split; [eapply Forall_impl; [exact Hrun|]; done|]. repeat constructor; apply R1 || apply R2.
  - rewrite List.filter_app. cbn [List.filter]. rewrite K1, K2. by eapply follows_snoc.
Qed.

Lemma prefix_app (trace extra : list TraceEvent) :
  events_of_type "skill.human_approval" trace = [] →
  _approval_trace_prefix (trace ++ extra) = trace ++ _approval_trace_prefix extra.
Proof.
  induction trace as [|e l IH]; [done|]. unfold events_of_type. cbn [List.filter app _approval_trace_prefix].
  destruct (String.eqb (te_event_type e) "skill.human_approval"); [done|]. intros H. f_equal. by apply IH.
Qed.

Lemma prefix_app_human (trace extra : list TraceEvent) :
  events_of_type "skill.human_approval" trace ≠ [] →
  _approval_trace_prefix (trace ++ extra) = _approval_trace_prefix trace.
Proof.
  induction trace as [|e l IH]; [done|]. unfold events_of_type. cbn [List.filter app _approval_trace_prefix].
  destruct (String.eqb (te_event_type e) "skill.human_approval"); [done|]. intros H. f_equal. by apply IH.
Qed.

Lemma events_of_type_app t (l k : list TraceEvent) :
  events_of_type t (l ++ k) = events_of_type t l ++ events_of_type t k.
Proof. apply List.filter_app. Qed.
End extend.

(** ** Inversion of the checks *)
Section checks.
Context `{P : Platform} `{L : Loader}.

Lemma load_stage_Ok stage late refused naive run_dir now state :
  load_stage stage late refused naive run_dir now = Ok state →
  _load_state run_dir = Ok state ∧ state.(rs_stage) = stage ∧ is_aware now = true ∧
  dt_ltb now state.(rs_updated_at) = Ok false.
Proof.
  unfold load_stage. intros H. apply bind_Ok in H as (s & Hs & H).
  apply bind_Ok in H as (? & Ha%require_Ok & H). apply bind_Ok in H as (early & He & H).
  apply bind_Ok in H as (? & Hn%require_Ok & H). apply bind_Ok in H as (? & Hst%require_Ok & [= <-]).
  apply negb_true_iff in Hn as ->. by apply bool_decide_eq_true in Hst.
Qed.

Lemma expected_request_valid audit subject areq :
  _expected_approval_request audit subject = Ok areq →
  valid_request areq ∧ areq.(areq_artifact_hash) = subject ∧ areq.(areq_required_role) = APPROVAL_REQUIRED_ROLE.
Proof.
  unfold _expected_approval_request. cbv zeta. intros H.
  apply bind_Ok in H as (rid & _ & H). apply bind_Ok in H as (ex & _ & H).
  pose proof (ApprovalRequest_validate_Ok _ _ H) as ->. done.
Qed.

(** The request in force: it is the one the policy prescribes, and names the subject
    recorded in the state. *)
Lemma require_binding_Ok state areq audit expected :
  _require_approval_request_binding state areq audit = Ok expected →
  expected = areq ∧ valid_request areq ∧ verify_hash audit = Ok true ∧
  _expected_approval_request audit state.(rs_approval_subject_hash) = Ok areq ∧
  areq.(areq_artifact_hash) = state.(rs_approval_subject_hash) ∧
  areq.(areq_required_role) = APPROVAL_REQUIRED_ROLE.
Proof.
  unfold _require_approval_request_binding. intros H.
  apply bind_Ok in H as ([] & Hv & H); [|done]. cbn [require mbind result_bind] in H.
  apply bind_Ok in H as (ex & Hex & H). apply bind_Ok in H as (? & Hb%require_Ok & [= <-]).
  apply bool_decide_eq_true, request_binding_nil in Hb as (-> & _).
  destruct (expected_request_valid _ _ _ Hex) as (? & ? & ?). done.
Qed.

Lemma load_subject_Ok files state artifacts trace subject areq expected :
  load_subject files state = Ok (artifacts, trace, subject, areq, expected) →
  expected = areq ∧ _read_artifacts files state = Ok artifacts ∧
  _current_approval_subject_hash files state artifacts trace = Ok subject ∧
  _require_approval_request_binding state areq artifacts.(ra_audit_report) = Ok areq ∧
  ∃ path, _state_artifact_path files state "trace" true = Ok path ∧ _read_trace files path = Ok trace.
Proof.
  unfold load_subject. intros H. apply bind_Ok in H as (a & Ha & H).
  apply bind_Ok in H as (path & Hp & H). apply bind_Ok in H as (t & Ht & H).
  apply bind_Ok in H as (s & Hs & H). apply bind_Ok in H as (r & Hr & H).
  apply bind_Ok in H as (e & He & [= <- <- <- <- <-]).
  destruct (require_binding_Ok _ _ _ _ He) as (-> & _). eauto 10.
Qed.

Lemma require_success_Ok {T} stage (r : SkillResult T) v :
  _require_success stage r = Ok v → r.(sr_status) = SkillStatus.SUCCESS ∧ r.(sr_value) = Some v.
Proof. unfold _require_success. destruct (sr_status r), (sr_value r); try done. by intros [= <-]. Qed.

Lemma HumanDecision_validate_Ok d d' : HumanDecision_validate d = Ok d' → d' = d ∧ valid_decision d.
Proof.
  intros H. assert (d' = d) as ->; [|done]. unfold HumanDecision_validate in H.
  repeat (apply bind_Ok in H as (? & _ & H)). by injection H as <-.
Qed.

(** The two events of a step form an extension. *)
Lemma transition_extension state trace now target identity kind context e1 e2 case :
  transition_case state.(rs_case)
    (mk_TransitionRequest target state.(rs_case).(case_state_version) identity kind state.(rs_trace_id)
      (Z.of_nat (length (trace ++ [e1])) + 1) now context) = Ok (case, e2) →
  e1.(te_sequence) = Z.of_nat (length trace) + 1 → e1.(te_occurred_at) = now → of_run state e1 →
  is_transition e1 = false →
  extension state trace now target e1 e2 case ∧ event_key e2 = ("case.state_transition", identity, kind) ∧
  permitted kind context state.(rs_case).(case_state) target.
Proof.
  intros (Hadm & _ & Hc & h & h' & Hh & Hh' & ->)%transition_Ok Hs Ht Hr Hk.
  destruct Hadm as (_ & _ & Hp). simpl in *. split; [|done].
  split; try done; cbn.
  - rewrite length_app. simpl. split; [done|lia].
  - by exists h, h'.
Qed.
End checks.

Section approve.
Context `{P : Platform} `{L : Loader}.

(** What an approved run has checked and produced *)
Record approval_step (run_dir : option Files) (approver_id approver_role : string)
    (decision : ApprovalDecision) (now : datetime) (state : RunState) (artifacts : RunArtifacts)
    (trace : list TraceEvent) (subject : string) (areq : ApprovalRequest) (record : ApprovalRecord)
    (e1 e2 : TraceEvent) (case : CaseRecord) : Prop := {
  as_state : _load_state run_dir = Ok state ∧ state.(rs_stage) = CaseState.AWAITING_APPROVAL;
  as_subject : load_subject (default ∅ run_dir) state = Ok (artifacts, trace, subject, areq, areq);
  as_unchanged : subject = areq.(areq_artifact_hash) ∧ subject = state.(rs_approval_subject_hash);
  as_now : is_aware now = true ∧ dt_ltb now state.(rs_updated_at) = Ok false;
  as_record : verify_hash record = Ok true ∧ record_bound record areq;
  as_human : record.(arec_approver_id) = str_strip approver_id ∧
    record.(arec_approver_role) = str_strip approver_role ∧ str_strip approver_role = APPROVAL_REQUIRED_ROLE ∧
    record.(arec_decision) = decision ∧ record.(arec_decided_at) = now;
  as_extension : extension state trace now (decision_target decision) e1 e2 case;
  as_keys : event_key e1 = ("skill.human_approval", record.(arec_approver_id), ActorKind.HUMAN) ∧
    event_key e2 = ("case.state_transition", record.(arec_approver_id), ActorKind.HUMAN);
  as_event : decision_event areq subject record e1;
}.

Lemma approve_run_Ok run_dir id role decision reason now record trace' state' :
  approve_run run_dir id role decision reason now = Ok (record, trace', state') →
  ∃ state artifacts trace subject areq e1 e2 case,
    approval_step run_dir id role decision now state artifacts trace subject areq record e1 e2 case ∧
    trace' = trace ++ [e1; e2] ∧
    state' = update_state case now
      (with_path "approval_record" "artifacts/approval-record.json" state.(rs_artifact_paths)) state.
Proof.
  unfold approve_run. intros H. apply bind_Ok in H as (state & Hs & H). cbv zeta in H.
  apply load_stage_Ok in Hs as (Hs & Hst & Ha & Hnow).
  apply bind_Ok in H as ([[[[artifacts trace] subject] areq] expected] & Hsub & H).
  pose proof (load_subject_Ok _ _ _ _ _ _ _ Hsub) as (-> & _ & _ & Hbind & _).
  destruct (require_binding_Ok _ _ _ _ Hbind) as (_ & Hval & _ & _ & Hh & Hrole).
  apply bind_Ok in H as (hd & [-> Hd]%HumanDecision_validate_Ok & H).
  apply bind_Ok in H as (context & Hctx & H). apply bind_Ok in H as (r & Hr & H).
  apply bind_Ok in H as (output & [Hsucc Hv]%require_success_Ok & H).
  apply bind_Ok in H as ([] & Hbound & H). apply bind_Ok in H as (e1 & He1 & H).
  apply bind_Ok in H as ([case e2] & Htr & [= <- <- <-]).
  destruct (human_approval_success context (mk_ApprovalExecuteRequest areq subject) _ _ _ Hval Hd Hr Hsucc)
    as (Hacc & record & Hv' & _ & Hbr & Hi & h & Ho & Hoh).
  rewrite Hv in Hv'. injection Hv' as ->. cbn [aeo_record] in *.
  unfold require_bound_record in Hbound. apply bind_Ok in Hbound as (errors & Herr & Hb%require_Ok).
  apply bool_decide_eq_true in Hb as ->. apply record_binding_nil in Herr.
  destruct Hacc as (_ & Hrl & _ & _ & Hcur). destruct Hbr as [Hver _ _ _ _ Hdec _]. cbn in Hrl, Hcur, Hdec.
  injection Hdec as D1 D2 D3 D4 D5.
  unfold human_event, TraceEvent_validate in He1. rewrite Hsucc in He1.
  apply bind_Ok in He1 as (? & _ & He1). apply bind_Ok in He1 as (? & _ & [= <-]).
  set (e1 := mk_TraceEvent _ _ _ _ _ _ _ _ _ _ _ _) in *.
  edestruct (transition_extension state trace now) as (Hext & Hk2 & _); [exact Htr|done..|].
  exists state, artifacts, trace, subject, areq, e1, e2, case.
  rewrite <- app_assoc. split; [|done]. split; try done.
  - by rewrite <- Hh.
  - by rewrite D2, D3, <- Hrole.
  - split; [by rewrite D2|by rewrite Hk2, D2].
  - split; [done|]. split; [by rewrite D2|]. split; [by rewrite D5|].
    split; [eauto|]. exists h. by rewrite <- Hoh.
Qed.

(** An approved run stays intact, now with its record. *)
Lemma approval_preserves_intact run_dir id role decision now state artifacts trace subject areq record
    e1 e2 case paths stored n :
  approval_step run_dir id role decision now state artifacts trace subject areq record e1 e2 case →
  intact state trace stored n areq subject None None None None →
  intact (update_state case now paths state) (trace ++ [e1; e2]) stored n areq subject (Some record)
    None None None.
Proof.
  intros [_ _ _ [Ha Hnow] _ (_ & _ & _ & Hdec & _) Hext [K1 K2] Hev] Hin.
  destruct (intact_extend _ _ _ _ _ _ _ _ _ _ _ _ _ _ _ paths Hin Hext Ha Hnow)
    as (I1 & I2 & I3 & I4 & I5 & I6).
  destruct Hin as [J1 _ _ _ _ _ _ J2 J3 J4].
  assert (te_event_type e1 = "skill.human_approval") as T1 by (unfold event_key in K1; congruence).
  assert (te_event_type e2 = "case.state_transition") as T2 by (unfold event_key in K2; congruence).
  split; try done.
  - rewrite map_app, J1. cbn [map]. rewrite K1, K2. unfold expected_events. cbn [app].
    by rewrite !app_nil_r.
  - unfold expected_state_targets in I6 |- *. cbn [app] in I6 |- *. by rewrite Hdec.
  - exists e1. split; [|done]. rewrite events_of_type_app, J2. unfold events_of_type.
    cbn [List.filter app]. by rewrite T1, T2.
  - rewrite events_of_type_app, J3. unfold events_of_type. cbn [List.filter app]. by rewrite T1, T2.
  - rewrite prefix_app by done. cbn [_approval_trace_prefix]. rewrite T1. cbn. rewrite app_nil_r.
    by rewrite prefix_whole in J4.
Qed.
End approve.

(** ** Writing *)
Section writing.
Context `{P : Platform} `{L : Loader} `{HL : !LoaderLaws L}.

Lemma canonical_dict_total ex l :
  Forall (λ kv : string * pyval, ∃ j, canonicalize ex (snd kv) = Ok j) l →
  ∃ j, canonicalize ex (VDict l) = Ok j.
Proof.
  intros Hl. cbn [canonicalize]. cbv zeta.
  assert (Forall (λ kv : string * result json, ∃ j, snd kv = Ok j)
    (filter (λ kv : string * result json, fst kv ∉ ex)
      (isort (key_leb fst) (map (λ kv : string * pyval, (fst kv, canonicalize ex (snd kv))) l)))) as H.
  { apply Forall_forall. intros kv [_ Hkv]%list_elem_of_filter. rewrite elem_of_isort in Hkv.
    apply list_elem_of_In, in_map_iff in Hkv as (x & <- & Hx). rewrite List.Forall_forall in Hl. by apply Hl. }
  assert (∀ m : list (string * result json), Forall (λ kv, ∃ j, snd kv = Ok j) m →
    ∃ r, mapR pair_result m = Ok r) as Hm.
  { induction 1 as [|[k x] m (j & Hj) _ (r & Hr)]; [by exists []|]. simpl in *. subst. simpl.
    rewrite Hr. by eexists. }
  destruct (Hm _ H) as (r & Hr). exists (JObj r). apply bind_Ok. eauto.
Qed.

Lemma canonical_of_wf ex v : wf_py v = true → ∃ j, canonicalize ex v = Ok j.
Proof. intros (j & ? & _)%(canonicalize_wf ex). eauto. Qed.

Lemma state_canonical (s : RunState) :
  is_aware s.(rs_created_at) = true → is_aware s.(rs_updated_at) = true →
  ∃ j, canonicalize [] (to_py s) = Ok j.
Proof.
  intros Hc Hu. apply canonical_dict_total. repeat constructor; cbn [snd];
    try (apply canonical_of_wf; first [done|apply CaseRecord_wf]).
  apply canonical_dict_total. apply List.Forall_forall. intros kv (x & <- & _)%in_map_iff. by eexists.
Qed.

Lemma TraceEvent_wf (e : TraceEvent) : is_aware e.(te_occurred_at) = true → wf_py (to_py e) = true.
Proof. intros Ha. wf_solve. Qed.

Lemma read_trace_aware files path trace : _read_trace files path = Ok trace →
  Forall (λ e, is_aware e.(te_occurred_at) = true) trace.
Proof.
  unfold _read_trace. destruct (files !! path); [|done]. intros H. apply bind_Ok in H as (text & _ & H).
  apply mapR_Forall2 in H. apply Forall_forall. intros e He.
  destruct (Forall2_in_r _ _ _ _ H He) as (l & _ & Hl). apply load_TraceEvent_valid in Hl.
  unfold TraceEvent_validate in Hl. apply bind_Ok in Hl as (? & _ & Hl).
  by apply bind_Ok in Hl as (? & Ha%require_Ok & _).
Qed.

Lemma loaded_state_valid run_dir state : _load_state run_dir = Ok state →
  RunState_validate state = Ok state ∧ is_Some run_dir.
Proof.
  unfold _load_state. destruct run_dir as [files|]; [|done].
  destruct (_ ≫= _) as [s|e] eqn:E; [|by destruct (_ || _)]. intros [= <-].
  apply bind_Ok in E as (j & _ & E). split; [by eapply load_RunState_valid|by eexists].
Qed.

Lemma valid_state_facts state : RunState_validate state = Ok state →
  state.(rs_stage) = state.(rs_case).(case_state) ∧ is_aware state.(rs_created_at) = true.
Proof.
  unfold RunState_validate. intros H. apply bind_Ok in H as (? & H1%require_Ok & H).
  do 3 (apply bind_Ok in H as (? & _ & H)). apply bind_Ok in H as (? & H2%require_Ok & _).
  by apply bool_decide_eq_true in H1.
Qed.


(** A path that led to a file still does after other files were written. *)
Lemma state_path_kept (files files' : Files) state state' key path :
  _state_artifact_path files state key true = Ok path →
  assoc key state'.(rs_artifact_paths) = assoc key state.(rs_artifact_paths) →
  (is_Some (files !! path) → is_Some (files' !! path)) →
  _state_artifact_path files' state' key true = Ok path.
Proof.
  unfold _state_artifact_path. intros H -> Hf. destruct (assoc key _); [|done].
  apply safe_run_path_Ok in H as (? & ? & ? & ? & ? & -> & Hs). apply safe_run_path_Ok.
  repeat (split; [done|]). auto.
Qed.

(** The text [_write_json] stores for a value, and [_write_trace] for a trace *)
Definition json_text (v : pyval) (text : string) : Prop :=
  ∃ j, canonicalize [] v = Ok j ∧ text = dumps Indent2 j +:+ line_feed.
Definition trace_text (events : list TraceEvent) (text : string) : Prop :=
  ∃ lines, mapR (λ e : TraceEvent, canonical_json [] (to_py e)) events = Ok lines ∧
    text = str_join "" (map (λ l, l +:+ line_feed) lines).

Lemma write_json_spec path v : (∃ j, canonicalize [] v = Ok j) →
  ∃ text, json_text v text ∧ ∀ files, _write_json path v files = Ok (<[path := text]> files).
Proof.
  intros [j Hj]. eexists. split; [by exists j|]. intros files. apply bind_Ok. by exists j.
Qed.

Lemma write_trace_spec events : Forall (λ e, is_aware e.(te_occurred_at) = true) events →
  ∃ text, trace_text events text ∧
    ∀ path files, _write_trace path events files = Ok (<[path := text]> files).
Proof.
  intros He. destruct (mapR_total (λ e : TraceEvent, canonical_json [] (to_py e)) events) as [ls Hls].
  { intros e Hin. rewrite Forall_forall in He.
    destruct (canonical_of_wf [] (to_py e)) as [j Hj]; [by apply TraceEvent_wf, He|].
    unfold canonical_json. eexists. apply bind_Ok. by exists j. }
  eexists. split; [by exists ls|]. intros path files. unfold _write_trace. by rewrite Hls.
Qed.

(** The last two writes of a step: the trace where the state says, then the state *)
Lemma finish_writes (files0 files : Files) (state state' : RunState) path events :
  _state_artifact_path files0 state "trace" true = Ok path →
  assoc "trace" state'.(rs_artifact_paths) = assoc "trace" state.(rs_artifact_paths) →
  (is_Some (files0 !! path) → is_Some (files !! path)) →
  Forall (λ e, is_aware e.(te_occurred_at) = true) events →
  is_aware state'.(rs_created_at) = true → is_aware state'.(rs_updated_at) = true →
  ∃ t s, trace_text events t ∧ json_text (to_py state') s ∧
    write_all files [write_state_path "trace" true state' (λ p, _write_trace p events);
                     _write_json "run-state.json" (to_py state')] =
      (<["run-state.json" := s]> (<[path := t]> files), Ok ()).
Proof.
  intros Hp Hk Hf He Hc Hu. destruct (write_trace_spec events He) as (t & Ht & Hwt).
  destruct (write_json_spec "run-state.json" (to_py state')) as (s & Hs & Hws); [by apply state_canonical|].
  exists t, s. split; [done|]. split; [done|]. cbn [write_all]. unfold write_state_path.
  rewrite (state_path_kept files0 files state state' "trace" path Hp Hk Hf). cbn [mbind result_bind].
  by rewrite Hwt, Hws.
Qed.

Lemma trace_path_Ok files state path : _state_artifact_path files state "trace" true = Ok path →
  is_Some (files !! path).
Proof.
  unfold _state_artifact_path. destruct (assoc _ _); [|done]. intros H%safe_run_path_Ok.
  destruct H as (_ & _ & _ & _ & _ & _ & H). by apply H.
Qed.

Lemma insert_keeps (files : Files) k v p : is_Some (files !! p) → is_Some (<[k := v]> files !! p).
Proof.
  intros H. destruct (decide (k = p)) as [->|Hk].
  - exists v. apply lookup_insert_eq.
  - unfold Files in *. by rewrite lookup_insert_ne.
Qed.

Lemma bound_record_canonical record areq :
  record_bound record areq → is_aware record.(arec_decided_at) = true →
  ∃ j, canonicalize [] (to_py record) = Ok j.
Proof.
  intros [_ _ _ Hex [_ Hw2] (i & _ & Hm) _] Hd. apply (canonical_of_wf [] (artifact_to_py record)).
  assert (is_aware record.(arec_meta).(meta_created_at) = true) as Hc
    by (apply (f_equal meta_created_at) in Hm; simpl in Hm; by rewrite Hm).
  assert (is_aware record.(arec_expires_at) = true) as He.
  { rewrite <- Hex in Hw2. by destruct (arec_expires_at record), (arec_decided_at record). }
  apply wf_artifact_spec. split; [exact Hc|]. simpl. by rewrite Hd, He.
Qed.

End writing.
