(* ===== verification/RunVerify.v ===== *)
(** * reference_runtime.py: verify_reference_run

    The verifier reloads a run and reports, one message per finding, whatever does not
    follow from the policy: unsealed or foreign artifacts, another manifest, another
    approval subject, request or record, a package that is not the one the Skill
    regenerates, files that differ from it, and a trace that is not intact. *)
From S2P Require Import Prelude Json Dicts PyTime PyDecimal Canonical Platforms Models StateMachine Common.
From S2P Require Import TrustedStore Rules Compensation Calculation Approval AuditSkill Strategy.
From S2P Require Import Packaging Evidence RunStore RunBinding RunTrace Runtime RunPrepared RunApprove.
From S2P Require Import RunLifecycle.
Local Open Scope Z_scope.

#[export] Instance PackageFile_eq_dec : EqDecision PackageFile.
Proof. solve_decision. Defined.
#[export] Instance ArtifactMeta_eq_dec : EqDecision ArtifactMeta.
Proof. solve_decision. Defined.
#[export] Instance PackageManifest_eq_dec : EqDecision PackageManifest.
Proof. solve_decision. Defined.

(** [Path.read_text]: CR LF and CR are read as LF. *)
Fixpoint universal_newlines (s : string) : string :=
  match s with
  | String a r =>
      if Ascii.eqb a (ascii_of_nat 13) then
        match r with
        | String b r' => if Ascii.eqb b (ascii_of_nat 10) then String b (universal_newlines r')
                         else String (ascii_of_nat 10) (universal_newlines r)
        | EmptyString => line_feed
        end
      else String a (universal_newlines r)
  | EmptyString => EmptyString
  end.
Definition read_text (raw : string) : result string := text ← decode_utf8 raw; Ok (universal_newlines text).

Section verify.
Context `{P : Platform} `{L : Loader}.

(** The body of the loop over the artifacts *)
Definition artifact_errors {A} `{Artifact A} (state : RunState) (item : A) : result (list string) :=
  sealed ← verify_hash item;
  let m := meta item in
  Ok (error_if (negb sealed) ("artifact hash mismatch: " +:+ artifact_ref item) ++
      unless_eq m.(meta_tenant_id) state.(rs_case).(case_tenant_id)
        ("artifact tenant mismatch: " +:+ artifact_ref item) ++
      unless_eq m.(meta_case_id) state.(rs_case).(case_case_id)
        ("artifact case mismatch: " +:+ artifact_ref item) ++
      unless_eq m.(meta_trace_id) state.(rs_trace_id)
        ("artifact trace mismatch: " +:+ artifact_ref item)).

Definition artifacts_errors (state : RunState) (a : RunArtifacts) (timeline : list TimelineEvent)
    : result (list string) :=
  evidence ← mapR (artifact_errors state) a.(ra_evidence);
  timeline ← mapR (artifact_errors state) timeline;
  rules ← mapR (artifact_errors state) a.(ra_rules);
  calculation ← artifact_errors state a.(ra_calculation);
  conflict_report ← artifact_errors state a.(ra_conflict_report);
  proposals ← mapR (artifact_errors state) a.(ra_proposals);
  audit_report ← artifact_errors state a.(ra_audit_report);
  Ok (concat evidence ++ concat timeline ++ concat rules ++ calculation ++ conflict_report ++
      concat proposals ++ audit_report).

Definition artifact_count (a : RunArtifacts) (timeline : list TimelineEvent) : nat :=
  length a.(ra_evidence) + length timeline + length a.(ra_rules) + 2 + length a.(ra_proposals) + 1.

Definition manifest_errors (state : RunState) (manifest : CaseManifest) : result (list string) :=
  let case := state.(rs_case) in
  h ← sha256_digest (to_py manifest);
  Ok (unless_eq h case.(case_input_manifest_hash) "input manifest hash mismatch" ++
      error_if (negb (String.eqb manifest.(cm_tenant_id) case.(case_tenant_id)) ||
                negb (String.eqb manifest.(cm_case_id) case.(case_case_id)))
        "input manifest tenant or case mismatch" ++
      error_if (negb (String.eqb manifest.(cm_jurisdiction) case.(case_jurisdiction)) ||
                negb (bool_decide (manifest.(cm_as_of_date) = case.(case_as_of_date))))
        "input manifest scope mismatch").

Definition request_errors (files : Files) (state : RunState) (expected : ApprovalRequest)
    : result (list string) :=
  match _load_approval_request files state with
  | Ok approval_request => Ok (_approval_request_binding_errors state approval_request expected)
  | Raise (ReferenceRunError _ | ReferenceRunBlocked _ _) => Ok ["approval request is missing or invalid"]
  | Raise e => Raise e
  end.

(** The record, when the state names one, and what is wrong with it *)
Definition record_errors (files : Files) (state : RunState) (expected : ApprovalRequest)
    (current_subject_hash : string) : result (option ApprovalRecord * list string) :=
  match assoc "approval_record" state.(rs_artifact_paths) with
  | None => Ok (None, [])
  | Some _ =>
      record ← load_one load_ApprovalRecord files state "approval_record";
      sealed ← verify_hash record;
      binding ← _approval_record_binding_errors record expected;
      Ok (Some record,
          error_if (negb sealed) ("artifact hash mismatch: " +:+ artifact_ref record) ++ binding ++
          unless_eq record.(arec_approved_artifact_hash) current_subject_hash
            "approval record is bound to a stale subject hash")
  end.

Definition expected_decision (stage : CaseState) : option ApprovalDecision :=
  match stage with
  | CaseState.APPROVED | CaseState.PACKAGED => Some ApprovalDecision.APPROVE
  | CaseState.REJECTED => Some ApprovalDecision.REJECT
  | CaseState.REVISION_REQUIRED => Some ApprovalDecision.REVISE
  | _ => None
  end.

Definition stage_errors (state : RunState) (record : option ApprovalRecord) : result (list string) :=
  if decide (state.(rs_stage) = CaseState.AWAITING_APPROVAL) then
    Ok (error_if (bool_decide (is_Some record)) "approval record must not exist while awaiting approval")
  else
    match expected_decision state.(rs_stage), record with
    | None, _ => Raise (KeyError (CaseState.value state.(rs_stage)))
    | Some _, None => Ok ["approval record is missing for the current stage"]
    | Some decision, Some record =>
        Ok (error_if (negb (bool_decide (record.(arec_decision) = decision)))
              "approval decision does not match the current stage")
    end.

(** ** The package *)
Definition package_path (name : string) : string := "package/" +:+ name.

Definition package_identity_errors (state : RunState) (pm : PackageManifest) : list string :=
  let m := pm.(pm_meta) in
  unless_eq m.(meta_tenant_id) state.(rs_case).(case_tenant_id) "package manifest tenant mismatch" ++
  unless_eq m.(meta_case_id) state.(rs_case).(case_case_id) "package manifest case mismatch" ++
  unless_eq m.(meta_trace_id) state.(rs_trace_id) "package manifest trace mismatch" ++
  unless_eq m.(meta_producer_identity) "PF-A1" "package manifest producer mismatch" ++
  error_if (negb (bool_decide (m.(meta_classification) = DataClassification.PUBLIC_SYNTHETIC)))
    "package manifest classification mismatch".

Definition package_record_errors (pm : PackageManifest) (record : option ApprovalRecord) : list string :=
  match record with
  | None => ["package manifest exists without an approval record"]
  | Some record =>
      error_if (negb (bool_decide (record.(arec_decision) = ApprovalDecision.APPROVE)))
        "package is not backed by an APPROVE decision" ++
      unless_eq pm.(pm_approval_record_ref) (artifact_ref record)
        "package manifest approval reference mismatch"
  end.

(** References, internal digest and artifact id of the manifest *)
Definition package_reference_errors (a : RunArtifacts) (proposal : Proposal) (pm : PackageManifest)
    (record : option ApprovalRecord) : result (list string) :=
  let refs := [artifact_ref proposal; artifact_ref a.(ra_calculation); artifact_ref a.(ra_audit_report);
               match record with Some r => artifact_ref r | None => "ApprovalRecord:MISSING" end] in
  expected_manifest_hash ← sha256_digest (VDict
    [("files", to_py pm.(pm_files)); ("included_refs", to_py refs);
     ("approval_hash", match record with Some r => to_py r.(arec_meta).(meta_content_hash) | None => VNone end);
     ("template_id", to_py "controlled-review-draft"); ("template_version", to_py "0.1.0")]);
  artifact_id ← stable_id "package" (VDict [("manifest_hash", to_py expected_manifest_hash)]);
  Ok (unless_eq pm.(pm_audit_report_ref) (artifact_ref a.(ra_audit_report))
        "package manifest audit reference mismatch" ++
      error_if (negb (bool_decide (pm.(pm_included_artifact_refs) = refs)))
        "package manifest included references mismatch" ++
      error_if (negb (bool_decide (pm.(pm_meta).(meta_source_refs) = refs)))
        "package manifest source references mismatch" ++
      error_if (opt_neq pm.(pm_manifest_hash) (Some expected_manifest_hash))
        "package manifest internal hash mismatch" ++
      unless_eq pm.(pm_meta).(meta_artifact_id) artifact_id "package manifest artifact id mismatch").

(** The body of the loop over the packaged files; [root] is the resolved run directory. *)
Definition file_errors (root : list string) (files : Files) (f : PackageFile) : result (list string) :=
  let package_root := root ++ ["package"] in
  _ ← require (negb (has_char nul f.(pfile_path))) (Unmodelled "embedded null byte");
  let candidate :=
    resolve (if is_absolute f.(pfile_path) then [] else package_root) (path_parts f.(pfile_path)) in
  if negb (is_prefix package_root candidate) then
    Ok ["package file escapes package directory: " +:+ f.(pfile_path)]
  else
    match files !! str_join "/" (drop (length root) candidate) with
    | None => Ok ["package file is missing: " +:+ f.(pfile_path)]
    | Some content =>
        Ok (unless_eq (sha256_bytes content) f.(pfile_sha256)
              ("package file hash mismatch: " +:+ f.(pfile_path)))
    end.

(** The package regenerated: errors, the digests of the trace event, the output *)
Definition regenerate (state : RunState) (a : RunArtifacts) (proposal : Proposal)
    (expected : ApprovalRequest) (record : ApprovalRecord) (current_subject_hash : string)
    (pm : PackageManifest)
    : result (list string * option string * option string * option DocumentPackageOutput) :=
  let request := mk_DocumentPackageRequest proposal a.(ra_calculation) a.(ra_audit_report) expected
    record current_subject_hash "controlled-review-draft" "0.1.0" in
  input_hash ← sha256_digest (to_py request);
  context ← _context state.(rs_case) state.(rs_trace_id) "PF-A1" (state.(rs_run_id) +:+ ":package");
  r ← document_package context request pm.(pm_meta).(meta_created_at);
  match r.(sr_status), r.(sr_value) with
  | SkillStatus.SUCCESS, Some output =>
      Ok (error_if (negb (bool_decide (output.(dpo_manifest) = pm)))
            "package manifest does not match deterministic regeneration",
          Some input_hash, r.(sr_output_hash), Some output)
  | _, _ => Ok (["package cannot be deterministically regenerated"], Some input_hash, None, None)
  end.

(** The two files of the package, when both exist *)
Definition content_errors (files : Files) (pm : PackageManifest) (output : option DocumentPackageOutput)
    : result (list string) :=
  match files !! package_path "review-draft.md", files !! package_path "artifacts.json" with
  | Some draft, Some bundle =>
      f1 ← PackageFile_validate (mk_PackageFile "review-draft.md" (sha256_bytes draft));
      f2 ← PackageFile_validate (mk_PackageFile "artifacts.json" (sha256_bytes bundle));
      let errors := error_if (negb (bool_decide (pm.(pm_files) = [f1; f2])))
        "package manifest file contract mismatch" in
      match output with
      | None => Ok errors
      | Some output =>
          draft ← read_text draft;
          bundle ← read_text bundle;
          Ok (errors ++
              unless_eq draft output.(dpo_draft_markdown)
                "package draft does not match deterministic regeneration" ++
              unless_eq bundle output.(dpo_artifacts_json)
                "package artifact bundle does not match deterministic regeneration")
      end
  | _, _ => Ok []
  end.

(** What the package branch leaves: the manifest, its digests, the errors *)
Record PackageCheck := mk_PackageCheck {
  pc_manifest : option PackageManifest;
  pc_input_hash : option string;
  pc_output_hash : option string;
  pc_errors : list string;
}.

Definition package_errors (root : list string) (files : Files) (state : RunState) (a : RunArtifacts)
    (expected : ApprovalRequest) (record : option ApprovalRecord) (current_subject_hash : string)
    : result PackageCheck :=
  let packaged := bool_decide (state.(rs_stage) = CaseState.PACKAGED) in
  match assoc "package_manifest" state.(rs_artifact_paths) with
  | None =>
      Ok (mk_PackageCheck None None None
            (error_if packaged "package manifest is missing for PACKAGED state"))
  | Some _ =>
      pm ← load_one load_PackageManifest files state "package_manifest";
      sealed ← verify_hash pm;
      proposal ← match a.(ra_proposals) with p :: _ => Ok p | [] => Raise IndexError end;
      references ← package_reference_errors a proposal pm record;
      listed ← mapR (file_errors root files) pm.(pm_files);
      '(regenerated, input_hash, output_hash, output) ←
        match record with
        | None => Ok ([], None, None, None)
        | Some record => regenerate state a proposal expected record current_subject_hash pm
        end;
      contents ← content_errors files pm output;
      Ok (mk_PackageCheck (Some pm) input_hash output_hash
            (error_if (negb packaged) "package manifest is only valid for PACKAGED state" ++
             error_if (negb sealed) ("artifact hash mismatch: " +:+ artifact_ref pm) ++
             package_identity_errors state pm ++ package_record_errors pm record ++ references ++
             concat listed ++ regenerated ++ contents))
  end.

(** ** The report *)
Definition verify_reference_run (root : list string) (run_dir : option Files) : result VerificationReport :=
  state ← _load_state run_dir;
  let files := default ∅ run_dir in
  a ← _read_artifacts files state;
  manifest ← _read_manifest files state;
  timeline ← _read_timeline files state;
  skill_results ← _read_skill_results files state;
  path ← _state_artifact_path files state "trace" true;
  trace ← _read_trace files path;
  artifacts ← artifacts_errors state a timeline;
  inputs ← manifest_errors state manifest;
  current_subject_hash ← _current_approval_subject_hash files state a trace;
  expected ← _expected_approval_request a.(ra_audit_report) state.(rs_approval_subject_hash);
  request ← request_errors files state expected;
  '(record, recorded) ← record_errors files state expected current_subject_hash;
  stage ← stage_errors state record;
  package ← package_errors root files state a expected record current_subject_hash;
  integrity ← _trace_integrity_errors state trace skill_results (length manifest.(cm_documents))
    expected current_subject_hash record package.(pc_manifest) package.(pc_input_hash)
    package.(pc_output_hash);
  let errors := artifacts ++ inputs ++
    unless_eq current_subject_hash state.(rs_approval_subject_hash) "approval subject hash mismatch" ++
    request ++ recorded ++ stage ++ package.(pc_errors) ++ integrity in
  let count (b : bool) : nat := (if b then 1 else 0)%nat in
  Ok (mk_VerificationReport (bool_decide (errors = []))
        (Z.of_nat (artifact_count a timeline + count (bool_decide (is_Some record)) +
           count (bool_decide (is_Some package.(pc_manifest)))))
        (Z.of_nat (match package.(pc_manifest) with Some pm => length pm.(pm_files) | None => 0%nat end))
        errors).
End verify.

(** ** What a valid report says *)
Section valid.
Context `{P : Platform} `{L : Loader}.

(** A sealed artifact of the run *)
Definition belongs {A} `{Artifact A} (state : RunState) (x : A) : Prop :=
  verify_hash x = Ok true ∧
  meta_scope (meta x) = (state.(rs_case).(case_tenant_id), state.(rs_case).(case_case_id), state.(rs_trace_id)).

(** A file of the package is where its path leads, below the package, with its digest. *)
Definition packaged_file (root : list string) (files : Files) (f : PackageFile) : Prop :=
  ∃ inside content,
    resolve (if is_absolute f.(pfile_path) then [] else root ++ ["package"]) (path_parts f.(pfile_path)) =
      root ++ ["package"] ++ inside ∧
    files !! str_join "/" ("package" :: inside) = Some content ∧ sha256_bytes content = f.(pfile_sha256).

Record run_package (root : list string) (files : Files) (state : RunState) (a : RunArtifacts)
    (areq : ApprovalRequest) (record : ApprovalRecord) (subject : string) (pm : PackageManifest)
    (input output_hash : option string) : Prop := {
  rp_loaded : load_one load_PackageManifest files state "package_manifest" = Ok pm;
  rp_sealed : belongs state pm;
  rp_approved : record.(arec_decision) = ApprovalDecision.APPROVE;
  rp_regenerated : ∃ proposal proposals context r output h,
    let request := mk_DocumentPackageRequest proposal a.(ra_calculation) a.(ra_audit_report) areq record
      subject "controlled-review-draft" "0.1.0" in
    a.(ra_proposals) = proposal :: proposals ∧
    document_package context request pm.(pm_meta).(meta_created_at) = Ok r ∧
    r.(sr_status) = SkillStatus.SUCCESS ∧ r.(sr_value) = Some output ∧ output.(dpo_manifest) = pm ∧
    packable request pm.(pm_meta).(meta_created_at) ∧
    sha256_digest (to_py request) = Ok h ∧ input = Some h ∧ output_hash = r.(sr_output_hash) ∧
    (∀ draft bundle, files !! package_path "review-draft.md" = Some draft →
       files !! package_path "artifacts.json" = Some bundle →
       read_text draft = Ok output.(dpo_draft_markdown) ∧ read_text bundle = Ok output.(dpo_artifacts_json));
  rp_files : Forall (packaged_file root files) pm.(pm_files);
}.

(** A run in which everything follows from the policy *)
Record verified (root : list string) (files : Files) (state : RunState) (a : RunArtifacts)
    (timeline : list TimelineEvent) (manifest : CaseManifest) (stored : list json)
    (trace : list TraceEvent) (areq : ApprovalRequest) (record : option ApprovalRecord)
    (pm : option PackageManifest) (input output : option string) : Prop := {
  vf_state : _load_state (Some files) = Ok state;
  vf_artifacts : _read_artifacts files state = Ok a ∧ Forall (belongs state) a.(ra_evidence) ∧
    Forall (belongs state) timeline ∧ Forall (belongs state) a.(ra_rules) ∧
    belongs state a.(ra_calculation) ∧ belongs state a.(ra_conflict_report) ∧
    Forall (belongs state) a.(ra_proposals) ∧ belongs state a.(ra_audit_report);
  vf_manifest : _read_manifest files state = Ok manifest ∧
    sha256_digest (to_py manifest) = Ok state.(rs_case).(case_input_manifest_hash) ∧
    (manifest.(cm_tenant_id), manifest.(cm_case_id), manifest.(cm_jurisdiction), manifest.(cm_as_of_date)) =
      (state.(rs_case).(case_tenant_id), state.(rs_case).(case_case_id),
       state.(rs_case).(case_jurisdiction), state.(rs_case).(case_as_of_date));
  vf_subject : _subject_hash (mk_Subject manifest
      (approval_case state.(rs_case) (_approval_trace_prefix trace)) timeline a
      (VSeq (map py_of_json stored)) (_approval_trace_prefix trace)) = Ok state.(rs_approval_subject_hash);
  vf_request : _load_approval_request files state = Ok areq ∧
    _expected_approval_request a.(ra_audit_report) state.(rs_approval_subject_hash) = Ok areq ∧
    _approval_request_binding_errors state areq areq = [];
  vf_record : match record with
    | None => state.(rs_stage) = CaseState.AWAITING_APPROVAL
    | Some r => load_one load_ApprovalRecord files state "approval_record" = Ok r ∧
        verify_hash r = Ok true ∧ record_bound r areq ∧
        expected_decision state.(rs_stage) = Some r.(arec_decision)
    end;
  vf_package : match pm with
    | None => state.(rs_stage) ≠ CaseState.PACKAGED
    | Some m => state.(rs_stage) = CaseState.PACKAGED ∧ ∃ r, record = Some r ∧
        run_package root files state a areq r state.(rs_approval_subject_hash) m input output
    end;
  vf_trace : intact state trace stored (length manifest.(cm_documents)) areq
    state.(rs_approval_subject_hash) record pm input output;
}.

Lemma artifact_errors_nil {A} `{Artifact A} state (x : A) : artifact_errors state x = Ok [] → belongs state x.
Proof.
  unfold artifact_errors, belongs, meta_scope. intros Hx. apply bind_Ok in Hx as (sealed & Hs & [= Hx]).
  rewrite !app_nil, !unless_eq_nil, error_if_nil, negb_false_iff in Hx. destruct Hx as (-> & -> & -> & ->).
  done.
Qed.

Lemma artifacts_list_nil {A} `{Artifact A} state (l : list A) errors :
  mapR (artifact_errors state) l = Ok errors → concat errors = [] → Forall (belongs state) l.
Proof.
  intros Hm%mapR_Forall2 Hc. induction Hm as [|x e l errors Hx _ IH]; constructor.
  - apply artifact_errors_nil. simpl in Hc. apply app_eq_nil in Hc as [-> _]. done.
  - apply IH. simpl in Hc. by apply app_eq_nil in Hc as [_ ?].
Qed.

Lemma file_errors_nil root files f : file_errors root files f = Ok [] → packaged_file root files f.
Proof.
  unfold file_errors, packaged_file. cbv zeta. intros H. apply bind_Ok in H as (? & _ & H).
  destruct (is_prefix _ _) eqn:Hp; [|done]. cbn [negb] in H. unfold is_prefix in Hp.
  apply bool_decide_eq_true in Hp.
  set (candidate := resolve _ _) in *. rewrite <- (take_drop (length (root ++ ["package"])) candidate), Hp in H |- *.
  set (inside := drop _ candidate) in *. exists inside.
  rewrite <- app_assoc in H |- *. rewrite drop_app_length in H. cbn [app] in H |- *.
  destruct (files !! _) as [content|]; [|done]. exists content. split; [done|]. split; [done|].
  injection H as H. by apply unless_eq_nil in H.
Qed.

Lemma files_nil root files l errors :
  mapR (file_errors root files) l = Ok errors → concat errors = [] → Forall (packaged_file root files) l.
Proof.
  intros Hm%mapR_Forall2 Hc. induction Hm as [|x e l errors Hx _ IH]; constructor.
  - apply file_errors_nil. simpl in Hc. apply app_eq_nil in Hc as [-> _]. done.
  - apply IH. simpl in Hc. by apply app_eq_nil in Hc as [_ ?].
Qed.

Lemma request_errors_nil files state expected :
  request_errors files state expected = Ok [] →
  _load_approval_request files state = Ok expected ∧
  _approval_request_binding_errors state expected expected = [].
Proof.
  unfold request_errors. destruct (_load_approval_request files state) as [r|[]]; try done.
  intros [= H]. pose proof H as H'. apply request_binding_nil in H' as [-> _]. done.
Qed.

Lemma record_errors_nil files state expected subject record :
  record_errors files state expected subject = Ok (record, []) →
  match record with
  | None => True
  | Some r => load_one load_ApprovalRecord files state "approval_record" = Ok r ∧
      verify_hash r = Ok true ∧ record_bound r expected ∧ r.(arec_approved_artifact_hash) = subject
  end.
Proof.
  unfold record_errors. destruct (assoc _ _); [|by intros [= <-]]. intros H.
  apply bind_Ok in H as (r & Hr & H). apply bind_Ok in H as (sealed & Hs & H).
  apply bind_Ok in H as (binding & Hb & [= <- H]).
  rewrite !app_nil, error_if_nil, negb_false_iff, unless_eq_nil in H. destruct H as (-> & -> & ->).
  apply record_binding_nil in Hb. done.
Qed.

Lemma stage_errors_nil state record : stage_errors state record = Ok [] →
  match record with
  | None => state.(rs_stage) = CaseState.AWAITING_APPROVAL
  | Some r => expected_decision state.(rs_stage) = Some r.(arec_decision)
  end.
Proof.
  unfold stage_errors. destruct (decide _) as [Hs|Hs].
  - intros [= H]. apply error_if_nil, bool_decide_eq_false in H. destruct record; [|done].
    exfalso. apply H. by eexists.
  - destruct (expected_decision _) as [d|]; [|done]. destruct record; [|done]. intros [= H].
    by apply error_if_nil, negb_false_iff, bool_decide_eq_true in H as <-.
Qed.

Lemma content_errors_nil files pm output draft bundle :
  content_errors files pm (Some output) = Ok [] →
  files !! package_path "review-draft.md" = Some draft →
  files !! package_path "artifacts.json" = Some bundle →
  read_text draft = Ok output.(dpo_draft_markdown) ∧ read_text bundle = Ok output.(dpo_artifacts_json).
Proof.
  unfold content_errors. intros H Hdraft Hbundle. rewrite Hdraft, Hbundle in H. cbv zeta in H.
  apply bind_Ok in H as (f1 & _ & H). apply bind_Ok in H as (f2 & _ & H).
  apply bind_Ok in H as (d & Hd & H). apply bind_Ok in H as (b & Hb & [= H]).
  rewrite !app_nil, !unless_eq_nil in H. destruct H as (_ & -> & ->). done.
Qed.

Lemma regenerate_nil state a proposal expected record subject pm input output_hash output :
  regenerate state a proposal expected record subject pm = Ok ([], input, output_hash, output) →
  ∃ context r o h,
    let request := mk_DocumentPackageRequest proposal a.(ra_calculation) a.(ra_audit_report) expected
      record subject "controlled-review-draft" "0.1.0" in
    document_package context request pm.(pm_meta).(meta_created_at) = Ok r ∧
    r.(sr_status) = SkillStatus.SUCCESS ∧ r.(sr_value) = Some o ∧ output = Some o ∧
    o.(dpo_manifest) = pm ∧ packable request pm.(pm_meta).(meta_created_at) ∧
    sha256_digest (to_py request) = Ok h ∧ input = Some h ∧ output_hash = r.(sr_output_hash).
Proof.
  unfold regenerate. cbv zeta. intros H. apply bind_Ok in H as (h & Hh & H).
  apply bind_Ok in H as (context & _ & H). apply bind_Ok in H as (r & Hr & H).
  destruct (sr_status r) eqn:Es; try done. destruct (sr_value r) as [o|] eqn:Ev; [|done].
  injection H as He <- <- <-. apply error_if_nil, negb_false_iff, bool_decide_eq_true in He.
  destruct (document_package_success _ _ _ _ Hr Es) as [Hp _].
  exists context, r, o, h. done.
Qed.

Lemma package_errors_nil root files state a expected record subject pc :
  package_errors root files state a expected record subject = Ok pc → pc.(pc_errors) = [] →
  match pc.(pc_manifest) with
  | None => state.(rs_stage) ≠ CaseState.PACKAGED
  | Some m => state.(rs_stage) = CaseState.PACKAGED ∧ ∃ r, record = Some r ∧
      run_package root files state a expected r subject m pc.(pc_input_hash) pc.(pc_output_hash)
  end.
Proof.
  unfold package_errors. cbv zeta. destruct (assoc _ _).
  2: { intros [= <-] H. by apply error_if_nil, bool_decide_eq_false in H. }
  intros H. apply bind_Ok in H as (pm & Hpm & H). apply bind_Ok in H as (sealed & Hs & H).
  apply bind_Ok in H as (proposal & Hp & H). apply bind_Ok in H as (references & Href & H).
  apply bind_Ok in H as (listed & Hl & H).
  apply bind_Ok in H as ([[[regenerated input] output_hash] output] & Hg & H).
  apply bind_Ok in H as (contents & Hc & [= <-]). cbn [pc_errors pc_manifest pc_input_hash pc_output_hash].
  rewrite !app_nil, !error_if_nil, !negb_false_iff, bool_decide_eq_true.
  intros (Hst & -> & Hid & Hrec & _ & Hli & -> & ->). split; [done|].
  destruct record as [r|]; [|done]. exists r. split; [done|].
  destruct (ra_proposals a) as [|p rest] eqn:El; [done|]. injection Hp as ->.
  unfold package_identity_errors in Hid. rewrite !app_nil, !unless_eq_nil in Hid.
  destruct Hid as (H1 & H2 & H3 & _).
  cbn in Hrec. rewrite app_nil, error_if_nil, negb_false_iff, bool_decide_eq_true in Hrec.
  apply regenerate_nil in Hg as (context & res & o & h & Hg1 & Hg2 & Hg3 & -> & Hg4 & Hg5 & Hg6 & Hg7 & Hg8).
  split; try done.
  - split; [done|]. unfold meta_scope. cbn [meta PackageManifest_Artifact]. congruence.
  - by destruct Hrec.
  - exists proposal, rest, context, res, o, h. do 9 (split; [done|]).
    intros draft bundle Hd Hb. by eapply content_errors_nil.
  - by eapply files_nil.
Qed.

(** What a run reported valid has been checked for *)
Lemma verify_valid (root : list string) (run_dir : option Files) (report : VerificationReport) :
  verify_reference_run root run_dir = Ok report → report.(vr_valid) = true →
  report.(vr_errors) = [] ∧ ∃ files state a timeline manifest stored trace areq record pm input output,
    run_dir = Some files ∧
    verified root files state a timeline manifest stored trace areq record pm input output.
Proof.
  unfold verify_reference_run. intros H Hvalid.
  apply bind_Ok in H as (state & Hstate & H). cbv zeta in H.
  assert (is_Some run_dir) as [files ->].
  { unfold _load_state in Hstate. destruct run_dir; [by eexists|done]. }
  change (default ∅ (Some files)) with files in H.
  apply bind_Ok in H as (a & Ha & H). apply bind_Ok in H as (manifest & Hm & H).
  apply bind_Ok in H as (timeline & Htl & H). apply bind_Ok in H as (stored & Hst & H).
  apply bind_Ok in H as (path & _ & H). apply bind_Ok in H as (trace & _ & H).
  apply bind_Ok in H as (e1 & H1 & H). apply bind_Ok in H as (e2 & H2 & H).
  apply bind_Ok in H as (subject & Hsub & H). apply bind_Ok in H as (expected & Hex & H).
  apply bind_Ok in H as (e3 & H3 & H). apply bind_Ok in H as ([record e4] & H4 & H).
  apply bind_Ok in H as (e5 & H5 & H). apply bind_Ok in H as (pc & H6 & H).
  apply bind_Ok in H as (e7 & H7 & [= <-]). cbn [vr_valid vr_errors] in *.
  apply bool_decide_eq_true in Hvalid. split; [done|].
  rewrite !app_nil, unless_eq_nil in Hvalid. destruct Hvalid as (-> & -> & -> & -> & -> & -> & H6' & ->).
  unfold artifacts_errors in H1. repeat (apply bind_Ok in H1 as (? & ? & H1)).
  injection H1 as H1. rewrite !app_nil in H1. destruct H1 as (C1 & C2 & C3 & -> & -> & C6 & ->).
  unfold manifest_errors in H2. apply bind_Ok in H2 as (h & Hh & [= H2]).
  rewrite !app_nil, unless_eq_nil, !error_if_nil, !orb_false_iff, !negb_false_iff, !String.eqb_eq,
    bool_decide_eq_true in H2. destruct H2 as (-> & [M1 M2] & [M3 M4]).
  apply request_errors_nil in H3 as [R1 R2]. apply record_errors_nil in H4. apply stage_errors_nil in H5.
  apply trace_integrity_nil in H7.
  exists files, state, a, timeline, manifest, stored, trace, expected, record, pc.(pc_manifest),
    pc.(pc_input_hash), pc.(pc_output_hash). split; [done|]. split; try done.
  - split; [done|].
    repeat match goal with
    | |- _ ∧ _ => split
    | |- Forall _ _ => eapply artifacts_list_nil; eassumption
    | |- belongs _ _ => apply artifact_errors_nil; assumption
    end.
  - split; [done|]. split; [done|]. congruence.
  - unfold _current_approval_subject_hash in Hsub. rewrite Hm, Htl, Hst in Hsub. exact Hsub.
  - destruct record as [r|]; [|done]. by destruct H4 as (? & ? & ? & _).
  - by eapply package_errors_nil.
Qed.


End valid.
