(* ===== verification/RunWritten.v ===== *)
(** * What a prepared run writes

    Every value was canonicalized when the approval subject was digested, so no write
    can fail: the run directory is created with exactly its twelve files, or not at all. *)
From S2P Require Import Prelude Json Dicts PyTime PyDecimal Canonical Platforms Models StateMachine Common.
From S2P Require Import TrustedStore Rules Compensation Calculation Approval AuditSkill Strategy.
From S2P Require Import Packaging Evidence RunStore RunBinding RunTrace Runtime RunPrepared RunApprove.
From S2P Require Import RunLifecycle.
Local Open Scope Z_scope.

(** [w] stores one text at one path, whatever else is there. *)
Definition puts (w : Files → result Files) (path text : string) : Prop :=
  ∀ files, w files = Ok (<[path := text]> files).

Lemma lookup_put (files : Files) k k' v : (<[k := v]> files : Files) !! k' =
  if decide (k = k') then Some v else files !! k'.
Proof. unfold Files in *. apply lookup_insert. Qed.

(** A sequence of such writes to different paths succeeds and stores every text. *)
Lemma write_all_puts (writes : list (Files → result Files)) (targets : list (string * (string → Prop))) files :
  Forall2 (λ w target, ∃ t, puts w (fst target) t ∧ snd target t) writes targets →
  NoDup (map fst targets) →
  ∃ files', write_all files writes = (files', Ok ()) ∧
    (∀ k (spec : string → Prop), (k, spec) ∈ targets → ∃ t, files' !! k = Some t ∧ spec t) ∧
    ∀ k, k ∉ map fst targets → files' !! k = files !! k.
Proof.
  intros H; revert files; induction H as [|w [k0 spec0] writes targets (t & Hw & Ht) _ IH];
    intros files Hnd; cbn [map fst write_all] in *.
  - exists files. split; [done|]. split; [|done]. by intros k spec ?%elem_of_nil.
  - apply NoDup_cons in Hnd as [Hk Hnd]. rewrite Hw.
    destruct (IH (<[k0 := t]> files) Hnd) as (files' & -> & H1 & H2). exists files'. split; [done|]. split.
    + intros k spec [[= -> ->]|Hin]%elem_of_cons; [|by apply H1].
      exists t. split; [|done]. rewrite (H2 k0) by done. rewrite lookup_put. by rewrite decide_True.
    + intros k [Hne Hin]%not_elem_of_cons. rewrite (H2 k) by done. rewrite lookup_put.
      by rewrite decide_False by congruence.
Qed.

Section written.
Context `{P : Platform} `{L : Loader}.

(** The files of a run, each with the value it stores *)
Definition prepared_documents (p : Prepared) : list (string * pyval) :=
  let a := p.(pp_artifacts) in
  [("input/manifest.json", to_py p.(pp_manifest)); ("artifacts/evidence.json", to_py a.(ra_evidence));
   ("artifacts/timeline.json", to_py p.(pp_timeline)); ("artifacts/rules.json", to_py a.(ra_rules));
   ("artifacts/calculation.json", to_py a.(ra_calculation));
   ("artifacts/proposals.json", to_py a.(ra_proposals));
   ("artifacts/conflict-report.json", to_py a.(ra_conflict_report));
   ("artifacts/audit-report.json", to_py a.(ra_audit_report));
   ("artifacts/approval-request.json", to_py p.(pp_approval_request));
   ("skill-results.json", VSeq p.(pp_progress).(pg_skill_results))].
Definition prepared_texts (p : Prepared) : list (string * (string → Prop)) :=
  map (λ kv, (fst kv, json_text (snd kv))) (prepared_documents p) ++
  [("trace.jsonl", trace_text p.(pp_progress).(pg_trace));
   ("run-state.json", json_text (to_py p.(pp_state)))].

Lemma subject_canonical (x : Subject) h k v :
  _subject_hash x = Ok h → (k, v) ∈ subject_items x → ∃ j, canonicalize [] v = Ok j.
Proof.
  intros H Hk. unfold _subject_hash, sha256_digest, sha256_digest_except, canonical_json in H.
  apply bind_Ok in H as (b & Hb & _). apply bind_Ok in Hb as (j & Hj & _).
  destruct (canonical_item [] _ j k v Hj Hk) as (r & jv & _ & _ & Hjv & _); [apply not_elem_of_nil|eauto].
Qed.

Lemma prepared_canonical fixtures mp cp run_dir now p :
  prepare_run fixtures mp cp run_dir now = Ok p →
  Forall (λ kv, ∃ j, canonicalize [] (snd kv) = Ok j) (prepared_documents p) ∧
  Forall (λ e, is_aware e.(te_occurred_at) = true) p.(pp_progress).(pg_trace) ∧
  is_aware p.(pp_state).(rs_created_at) = true ∧ is_aware p.(pp_state).(rs_updated_at) = true ∧
  p.(pp_state).(rs_artifact_paths) = initial_paths ∧ run_dir = None.
Proof.
  intros H. destruct (prepare_run_traced _ _ _ _ _ _ H) as (Ha & -> & run_id & trace_id & mh & catalog & _ & Hc).
  apply prepare_case_Ok in Hc as ([_ _ Htr _ _] & _ & _ & _ & _ & Htm & _ & subject & Hsub & Hareq & Hs & _);
    [|done..].
  split; [|split; [|by rewrite Hs]].
  - assert (∀ k v, (k, v) ∈ subject_items (mk_Subject p.(pp_manifest) p.(pp_progress).(pg_case) p.(pp_timeline)
      p.(pp_artifacts) (VSeq p.(pp_progress).(pg_skill_results)) p.(pp_progress).(pg_trace)) →
      ∃ j, canonicalize [] v = Ok j) as Hv by (intros; by eapply subject_canonical).
    unfold prepared_documents.
    repeat first [apply List.Forall_nil | apply List.Forall_cons; [cbn [snd]|]];
      try (eapply Hv; unfold subject_items; cbn; solve [repeat constructor]).
    apply (expected_request_valid _ _ _) in Hareq as (Hval & _). apply canonical_of_wf.
    by apply wf_approval_request.
  - eapply Forall_impl; [exact Htr|]. intros e (-> & _). done.
Qed.

Lemma prepared_writes_put p :
  Forall (λ kv, ∃ j, canonicalize [] (snd kv) = Ok j) (prepared_documents p) →
  Forall (λ e, is_aware e.(te_occurred_at) = true) p.(pp_progress).(pg_trace) →
  (∃ j, canonicalize [] (to_py p.(pp_state)) = Ok j) →
  Forall2 (λ w target, ∃ t, puts w (fst target) t ∧ snd target t) (prepared_writes p) (prepared_texts p).
Proof.
  intros Hd He Hs.
  change (prepared_writes p) with
    (map (λ kv : string * pyval, _write_json (fst kv) (snd kv)) (prepared_documents p) ++
     [_write_trace "trace.jsonl" p.(pp_progress).(pg_trace); _write_json "run-state.json" (to_py p.(pp_state))]).
  unfold prepared_texts. apply Forall2_app.
  - induction Hd as [|kv l Hv _ IH]; cbn [map]; constructor; [|exact IH].
    destruct (write_json_spec (fst kv) (snd kv) Hv) as (t & Ht & Hw). by exists t.
  - destruct (write_trace_spec _ He) as (t & Ht & Hw).
    destruct (write_json_spec "run-state.json" _ Hs) as (s & Hst & Hws).
    constructor; [exists t; split; [intros files; apply Hw|done]|]. constructor; [by exists s|constructor].
Qed.

End written.
