(* ===== verification/RunPackage.v ===== *)
(** * Packaging of a run: what it checks, what it writes, and why it cannot stop halfway *)
From S2P Require Import Prelude Json Dicts PyTime PyDecimal Canonical Platforms Models StateMachine Common.
From S2P Require Import TrustedStore Rules Compensation Calculation Approval AuditSkill Strategy.
From S2P Require Import Packaging Evidence RunStore RunBinding RunTrace Runtime RunPrepared RunApprove.
From S2P Require Import RunLifecycle.
Local Open Scope Z_scope.

Section package.
Context `{P : Platform} `{L : Loader}.

(** What a run has when its package may be written *)
Record package_ready (files : Files) (now : datetime) (state : RunState) (artifacts : RunArtifacts)
    (trace : list TraceEvent) (subject : string) (areq : ApprovalRequest) (record : ApprovalRecord)
    (manifest : CaseManifest) (stored : list json) (r : SkillResult DocumentPackageOutput)
    (output : DocumentPackageOutput) : Prop := {
  pk_state : _load_state (Some files) = Ok state ∧ state.(rs_stage) = CaseState.APPROVED;
  pk_subject : load_subject files state = Ok (artifacts, trace, subject, areq, areq);
  pk_now : is_aware now = true ∧ dt_ltb now state.(rs_updated_at) = Ok false;
  pk_record : load_one load_ApprovalRecord files state "approval_record" = Ok record ∧
    record_bound record areq;
  pk_inputs : _read_manifest files state = Ok manifest ∧ _read_skill_results files state = Ok stored;
  pk_intact : intact state trace stored (length manifest.(cm_documents)) areq subject (Some record)
    None None None;
  pk_package : ∃ proposal proposals context,
    let request := mk_DocumentPackageRequest proposal artifacts.(ra_calculation)
      artifacts.(ra_audit_report) areq record subject "controlled-review-draft" "0.1.0" in
    artifacts.(ra_proposals) = proposal :: proposals ∧
    _context state.(rs_case) state.(rs_trace_id) "PF-A1" (state.(rs_run_id) +:+ ":package") = Ok context ∧
    packable request now ∧ package_of context request now output ∧
    sha256_digest (to_py request) = Ok r.(sr_input_hash);
  pk_result : r.(sr_status) = SkillStatus.SUCCESS ∧ r.(sr_issues) = [] ∧
    ∃ h, sha256_digest (to_py output) = Ok h ∧ r.(sr_output_hash) = Some h;
  pk_fresh : package_exists files = false;
}.

Lemma package_checks_Ok run_dir now state artifacts trace subject record r output :
  package_checks run_dir now = Ok (state, artifacts, trace, subject, record, r, output) →
  ∃ files areq manifest stored, run_dir = Some files ∧
    package_ready files now state artifacts trace subject areq record manifest stored r output.
Proof.
  unfold package_checks. intros H. apply bind_Ok in H as (s & Hs & H). cbv zeta in H.
  apply load_stage_Ok in Hs as (Hs & Hst & Ha & Hnow).
  assert (is_Some run_dir) as [files ->].
  { unfold _load_state in Hs. destruct run_dir; [by eexists|done]. }
  change (default ∅ (Some files)) with files in H.
  apply bind_Ok in H as ([[[[a tr] sub] areq] expected] & Hsub & H).
  pose proof (load_subject_Ok _ _ _ _ _ _ _ Hsub) as (-> & _).
  apply bind_Ok in H as (rec & Hrec & H). apply bind_Ok in H as ([] & Hbound & H).
  apply bind_Ok in H as (manifest & Hm & H). apply bind_Ok in H as (stored & Hsr & H).
  apply bind_Ok in H as (errors & Herr & H).
  apply bind_Ok in H as (? & ->%require_Ok%bool_decide_eq_true & H).
  apply trace_integrity_nil in Herr.
  apply bind_Ok in H as (proposal & Hp & H). apply bind_Ok in H as (context & Hctx & H).
  apply bind_Ok in H as (r' & Hr & H). apply bind_Ok in H as (out & Hv & H).
  apply bind_Ok in H as (? & Hfresh%require_Ok & [= <- <- <- <- <- <- <-]).
  pose proof (require_success_Ok _ _ _ Hv) as [Hsucc Hval].
  destruct (document_package_success _ _ _ _ Hr Hsucc) as (Hpk & o & Hval' & Hof & Hi & h & Ho & Hoh).
  assert (o = out) as -> by congruence.
  unfold require_bound_record in Hbound. apply bind_Ok in Hbound as (es & Hes & Hb%require_Ok).
  apply bool_decide_eq_true in Hb as ->. apply record_binding_nil in Hes.
  exists files, areq, manifest, stored. split; [done|].
  destruct (ra_proposals a) as [|p l] eqn:El; [done|]. injection Hp as ->.
  split; try done.
  - exists proposal, l, context. done.
  - split; [done|]. split; [|by exists h]. by apply (package_clean _ _ _ _ Hr).
  - by apply negb_true_iff.
Qed.

(** The state after the package *)
Definition packaged_state (state : RunState) (case : CaseRecord) (now : datetime) : RunState :=
  update_state case now
    (with_path "package_manifest" "package/package-manifest.json" state.(rs_artifact_paths)) state.

(** A package that may be written can be recorded: the transition cannot fail. *)
Lemma package_advance_total files now state artifacts trace subject areq record manifest stored r output :
  state.(rs_stage) = state.(rs_case).(case_state) →
  package_ready files now state artifacts trace subject areq record manifest stored r output →
  ∃ e1 e2 case, extension state trace now CaseState.PACKAGED e1 e2 case ∧
    event_key e1 = agent_event "skill.document_package" "PF-A1" ∧ event_key e2 = transition_key ∧
    package_event output.(dpo_manifest) (Some r.(sr_input_hash)) r.(sr_output_hash) e1 ∧
    package_advance state artifacts trace subject record r output now =
      Ok (trace ++ [e1; e2], packaged_state state case now).
Proof.
  intros Hst Hready. destruct Hready as [[_ Hstage] _ [Ha Hnow] _ _ _ Hp (Hs & Hi & h & Hh & Ho) _].
  destruct Hp as (proposal & l & context & _ & _ & Hpk & [Hseal _ _ _ _ _ _ Htime] & _).
  destruct Hpk as (Hpass & _ & _ & _ & _ & Hhash & _).
  cbn [dpr_audit_report dpr_current_artifact_hash dpr_approval_record] in *.
  unfold package_advance, _skill_event, TraceEvent_validate. rewrite Hi, Hs. cbn [te_sequence te_occurred_at].
  rewrite Ha, (proj2 (Z.leb_le 1 (Z.of_nat (length trace) + 1))) by lia.
  cbn [require mbind result_bind]. set (e1 := mk_TraceEvent _ _ _ _ _ _ _ _ _ _ _ _).
  rewrite Hseal. cbn [mbind result_bind].
  match goal with |- context [transition_case ?c ?q] =>
    destruct (transition_cases c q Ha) as [[_ [e2 Htr]]|[Hn _]] end.
  - rewrite Htr. cbn [mbind result_bind tr_target].
    edestruct (transition_extension state trace now) as (Hext & Hk & _); [exact Htr|done..|].
    eexists e1, e2, _. split; [exact Hext|]. split; [done|]. split; [done|].
    split; [|by rewrite <- app_assoc]. unfold package_event. cbn. rewrite Htime. eauto 10.
  - exfalso. apply Hn. split; [cbn; lia|]. split; [done|]. cbn. rewrite <- Hst, Hstage.
    apply p_package; cbn; [by apply String.eqb_eq|by f_equal|done].
Qed.

(** A packaged run stays intact, now with its manifest. *)
Lemma package_preserves_intact state trace stored n areq subject record manifest input output now
    e1 e2 case paths :
  extension state trace now CaseState.PACKAGED e1 e2 case →
  is_aware now = true → dt_ltb now state.(rs_updated_at) = Ok false →
  event_key e1 = agent_event "skill.document_package" "PF-A1" → event_key e2 = transition_key →
  package_event manifest input output e1 →
  intact state trace stored n areq subject (Some record) None None None →
  intact (update_state case now paths state) (trace ++ [e1; e2]) stored n areq subject (Some record)
    (Some manifest) input output.
Proof.
  intros Hext Ha Hnow K1 K2 Hev Hin.
  destruct (intact_extend _ _ _ _ _ _ _ _ _ _ _ _ _ _ _ paths Hin Hext Ha Hnow)
    as (I1 & I2 & I3 & I4 & I5 & I6).
  destruct Hin as [J1 _ _ _ _ _ _ (e & J2 & J2') J3 J4].
  assert (te_event_type e1 = "skill.document_package") as T1 by (unfold event_key, agent_event in K1; congruence).
  assert (te_event_type e2 = "case.state_transition") as T2 by (unfold event_key, transition_key, agent_event in K2; congruence).
  split; try done.
  - rewrite map_app, J1. cbn [map]. rewrite K1, K2. unfold expected_events. cbn [app].
    by rewrite <- app_assoc.
  - exists e. split; [|done]. rewrite events_of_type_app, J2. unfold events_of_type.
    cbn [List.filter app]. by rewrite T1, T2.
  - exists e1. split; [|done]. rewrite events_of_type_app, J3. unfold events_of_type.
    cbn [List.filter app]. by rewrite T1, T2.
  - by rewrite prefix_app_human by (by rewrite J2).
Qed.

Lemma package_manifest_canonical context request now output :
  package_of context request now output → is_aware now = true →
  ∃ j, canonicalize [] (to_py output.(dpo_manifest)) = Ok j.
Proof.
  intros [_ _ _ _ _ _ _ Ht] Ha. apply (canonical_of_wf [] (artifact_to_py output.(dpo_manifest))).
  apply wf_artifact_spec. split; [change (meta output.(dpo_manifest)) with (pm_meta output.(dpo_manifest)); by rewrite Ht|].
  assert (wf_py (to_py (pm_files output.(dpo_manifest))) = true) as Hf
    by (apply wf_list_all; intros f; wf_solve).
  cbn [body PackageManifest_Artifact forallb snd]. rewrite Hf, wf_string_list. by rewrite ?wf_option_string.
Qed.

End package.
