(* ===== verification/RunDemo.v ===== *)
(** * A concrete reference run

    The loader answers from a table of canonical texts, each with the value it
    stands for, and validates the value; the fixtures are a manifest, a rule
    catalog and one document. *)
From S2P Require Import Prelude Json Dicts PyTime PyDecimal Canonical Platforms Models StateMachine.
From S2P Require Import Common TrustedStore Rules Compensation Calculation Approval AuditSkill.
From S2P Require Import Strategy Packaging Evidence RunStore RunBinding RunTrace Runtime.
From S2P Require Import RunPrepared RunApprove RunLifecycle RunPackage RunVerify.
Local Open Scope Z_scope.
#[local] Existing Instance toy_platform.

Definition table_load {A} (entries : list (string * A)) (j : json) : result A :=
  match assoc (dumps Compact j) entries with
  | Some a => Ok a
  | None => Raise (ValidationError "unknown value")
  end.
Definition entry_of `{ToPy A} (a : A) : string * A :=
  (match canonicalize [] (to_py a) with Ok j => dumps Compact j | Raise _ => "" end, a).
Definition table_of `{ToPy A} (l : list A) : list (string * A) := map entry_of l.

(** ** The fixtures *)
Definition demo_source : string := dumps Compact (JObj
  [("employment_start_date", JStr "2020-01-15"); ("planned_termination_date", JStr "2026-07-31");
   ("monthly_wage_average", JStr "12000.00");
   ("local_previous_year_monthly_average_wage", JStr "9000.00"); ("note", JBool true)]).
Definition demo_manifest : CaseManifest :=
  mk_CaseManifest SCHEMA_VERSION "SYNTHETIC" "CASE-1" "TENANT-1" "CN-ZJ" (mk_date 2026 7 1) demo_codes
    [mk_ManifestDocument "DOC-1" "documents/notice.json" "application/json" (sha256_bytes demo_source)]
    "synthetic".
Definition json_text `{ToPy A} (a : A) : string := fst (entry_of a).
Definition demo_fixtures : Fixtures :=
  {[ ["data"; "manifest.json"] := json_text demo_manifest;
     ["data"; "documents"; "notice.json"] := demo_source;
     ["rules"; "catalog.json"] := json_text demo_catalog ]}.

(** A loader that knows the manifest and the catalog *)
Definition fixture_loader : Loader := {|
  load_CaseManifest := table_load (table_of [demo_manifest]);
  load_RuleCatalog := table_load (table_of [demo_catalog]);
  load_EvidenceObject := table_load []; load_RuleCitation := table_load [];
  load_CalculationSheet := table_load []; load_ConflictReport := table_load [];
  load_Proposal := table_load []; load_AuditReport := table_load [];
  load_TimelineEvent := table_load []; load_ApprovalRequest := table_load [];
  load_ApprovalRecord := table_load []; load_PackageManifest := table_load [];
  load_RunState := table_load [];
  load_TraceEvent := λ _, Raise (ValidationError "unknown value") |}.

Definition demo_now : datetime := Aware 63900000000000000.
#[local] Existing Instance fixture_loader.
Notation demo_prepare run_dir :=
  (prepare_run demo_fixtures ["data"; "manifest.json"] ["rules"; "catalog.json"] run_dir demo_now).

Lemma demo_prepare_runs : is_ok (demo_prepare None) = true.
Proof. vm_compute. reflexivity. Qed.

Lemma prepared_run_intact_witness :
  match demo_prepare None with
  | Ok p => p.(pp_state).(rs_stage) = CaseState.AWAITING_APPROVAL
  | Raise _ => False
  end.
Proof.
  pose proof demo_prepare_runs as Hr. destruct (demo_prepare None) as [p|] eqn:E; [|discriminate Hr].
  exact (proj1 (prepared_run_intact _ _ _ _ _ p E)).
Defined.

(** ** Loading what a run stored

    Each stored text is looked up in a table of the values that were written, and the
    value's validators run again.  The values of each step are computed once. *)
Definition value_of {A} (r : result A) : option A := match r with Ok a => Some a | Raise _ => None end.
Definition demo_prepared : option Prepared := Eval vm_compute in value_of (demo_prepare None).
Definition listed (dir : option Files) : list (string * string) :=
  match dir with Some files => map_to_list files | None => [] end.
Definition demo_files : list (string * string) := Eval vm_compute in
  listed (fst (prepare_reference_run demo_fixtures ["data"; "manifest.json"] ["rules"; "catalog.json"] None demo_now)).
Definition demo_dir : option Files := Some (list_to_map demo_files).

Definition of_run_of {A} (p : option Prepared) (f : Prepared → list A) : list A := from_option f [] p.
Definition of_artifacts {A} (p : option Prepared) (f : RunArtifacts → list A) : list A :=
  of_run_of p (λ p, f p.(pp_artifacts)).

Definition event_entry (e : TraceEvent) : string * TraceEvent :=
  (match canonical_json [] (to_py e) with Ok s => s | Raise _ => "" end, e).

Definition stored_loader (p : option Prepared) (states : list RunState) (events : list TraceEvent)
    (records : list ApprovalRecord) (packages : list PackageManifest) : Loader := {|
  load_CaseManifest := table_load (table_of [demo_manifest]);
  load_RuleCatalog := table_load (table_of [demo_catalog]);
  load_EvidenceObject := table_load (table_of (of_artifacts p ra_evidence));
  load_RuleCitation := table_load (table_of (of_artifacts p ra_rules));
  load_CalculationSheet := table_load (table_of (of_artifacts p (λ a, [a.(ra_calculation)])));
  load_ConflictReport := table_load (table_of (of_artifacts p (λ a, [a.(ra_conflict_report)])));
  load_Proposal := table_load (table_of (of_artifacts p ra_proposals));
  load_AuditReport := table_load (table_of (of_artifacts p (λ a, [a.(ra_audit_report)])));
  load_TimelineEvent := table_load (table_of (of_run_of p pp_timeline));
  load_ApprovalRequest := λ j,
    r ← table_load (table_of (of_run_of p (λ p, [p.(pp_approval_request)]))) j; ApprovalRequest_validate r;
  load_ApprovalRecord := λ j, r ← table_load (table_of records) j; ApprovalRecord_validate r;
  load_PackageManifest := table_load (table_of packages);
  load_RunState := λ j,
    s ← table_load (table_of (of_run_of p (λ p, [p.(pp_state)]) ++ states)) j; RunState_validate s;
  load_TraceEvent := λ line,
    match assoc line (map event_entry (of_run_of p (λ p, p.(pp_progress).(pg_trace)) ++ events)) with
    | Some e => TraceEvent_validate e
    | None => Raise (ValidationError "unknown value")
    end |}.

Lemma ApprovalRecord_validate_Ok x y : ApprovalRecord_validate x = Ok y → y = x.
Proof.
  unfold ApprovalRecord_validate. intros H. repeat (apply bind_Ok in H as (? & _ & H)). by injection H as <-.
Qed.
Lemma TraceEvent_validate_Ok x y : TraceEvent_validate x = Ok y → y = x.
Proof.
  unfold TraceEvent_validate. intros H. repeat (apply bind_Ok in H as (? & _ & H)). by injection H as <-.
Qed.

Lemma stored_loader_laws p states events records packages :
  LoaderLaws (stored_loader p states events records packages).
Proof.
  split.
  - intros j s H. apply bind_Ok in H as (x & _ & H). by rewrite (RunState_validate_Ok _ _ H) at 1.
  - intros l e H. cbn [load_TraceEvent stored_loader] in H. destruct (assoc l _); [|done].
    by rewrite (TraceEvent_validate_Ok _ _ H) at 1.
  - intros j r H. apply bind_Ok in H as (x & _ & H). by rewrite (ApprovalRequest_validate_Ok _ _ H) at 1.
  - intros j r H. apply bind_Ok in H as (x & _ & H). by rewrite (ApprovalRecord_validate_Ok _ _ H) at 1.
Qed.

(** ** The approval *)
Definition later (s : Z) : datetime := Aware (63900000000000000 + s * 1000000).
Definition demo_reviewer : string := "reviewer-1".
Notation prepared_loader := (stored_loader demo_prepared [] [] [] []).
Notation demo_approve := (approve_reference_run (L := prepared_loader) demo_dir demo_reviewer
  "legal-reviewer" ApprovalDecision.APPROVE "reviewed" (later 60)).

Lemma demo_approve_runs : is_ok (snd demo_approve) = true.
Proof. vm_compute. reflexivity. Qed.


(** ** The package *)
Definition approved_run : option (ApprovalRecord * list TraceEvent * RunState) := Eval vm_compute in
  value_of (approve_run (L := prepared_loader) demo_dir demo_reviewer "legal-reviewer"
    ApprovalDecision.APPROVE "reviewed" (later 60)).
Definition approved_files : list (string * string) := Eval vm_compute in listed (fst demo_approve).
Definition approved_dir : option Files := Some (list_to_map approved_files).

Definition approved_records : list ApprovalRecord := from_option (λ x, [fst (fst x)]) [] approved_run.
Definition approved_events : list TraceEvent := from_option (λ x, snd (fst x)) [] approved_run.
Definition approved_states : list RunState := from_option (λ x, [snd x]) [] approved_run.
Notation approved_loader :=
  (stored_loader demo_prepared approved_states approved_events approved_records []).
Notation demo_package := (package_reference_run (L := approved_loader) approved_dir (later 120)).

Lemma demo_package_runs : is_ok (snd demo_package) = true.
Proof. vm_compute. reflexivity. Qed.


(** ** The verification of the package *)
Definition advanced (checks : result (RunState * RunArtifacts * list TraceEvent * string * ApprovalRecord *
    SkillResult DocumentPackageOutput * DocumentPackageOutput))
    : result (PackageManifest * list TraceEvent * RunState) :=
  '(state, artifacts, trace, subject, record, r, output) ← checks;
  '(trace, state) ← package_advance state artifacts trace subject record r output (later 120);
  Ok (output.(dpo_manifest), trace, state).
Definition packaged_run : option (PackageManifest * list TraceEvent * RunState) := Eval vm_compute in
  value_of (advanced (package_checks (L := approved_loader) approved_dir (later 120))).
Definition packaged_files : list (string * string) := Eval vm_compute in listed (fst demo_package).
Definition packaged_dir : option Files := Some (list_to_map packaged_files).
Definition packaged_manifests : list PackageManifest := from_option (λ x, [fst (fst x)]) [] packaged_run.
Definition packaged_events : list TraceEvent := from_option (λ x, snd (fst x)) [] packaged_run.
Definition packaged_states : list RunState := from_option (λ x, [snd x]) [] packaged_run.
Notation packaged_loader :=
  (stored_loader demo_prepared packaged_states packaged_events approved_records packaged_manifests).
Notation demo_verify := (verify_reference_run (L := packaged_loader) ["srv"; "runs"; "run-1"] packaged_dir).
Notation demo_packaged_state := (_load_state (L := packaged_loader) packaged_dir).

Definition valid_report (r : result VerificationReport) : bool :=
  match r with
  | Ok report => report.(vr_valid) && (report.(vr_checked_package_files) =? 2)%Z
  | Raise _ => false
  end.
Lemma demo_verify_valid : valid_report demo_verify = true.
Proof. vm_compute. reflexivity. Qed.


Definition is_packaged (r : result RunState) : bool :=
  match r with Ok state => bool_decide (state.(rs_stage) = CaseState.PACKAGED) | Raise _ => false end.
Lemma demo_is_packaged : is_packaged demo_packaged_state = true.
Proof. vm_compute. reflexivity. Qed.


(** ** Two subjects with one digest: the trailing zero of a Decimal does not count. *)
Definition demo_subject_of (p : Prepared) (value : decimal) : Subject :=
  mk_Subject p.(pp_manifest) p.(pp_state).(rs_case) p.(pp_timeline) p.(pp_artifacts)
    (VDict [("value", VDecimal value)]) p.(pp_progress).(pg_trace).
Definition same_subjects (p : option Prepared) : bool :=
  match p with
  | Some p =>
      let a := demo_subject_of p (Fin false 10 (-1)) in let b := demo_subject_of p (Fin false 100 (-2)) in
      wf_py (to_py a) && wf_py (to_py b) && is_ok (_subject_hash a) &&
        bool_decide (_subject_hash a = _subject_hash b)
  | None => false
  end.
Lemma demo_same_subjects : same_subjects demo_prepared = true.
Proof. vm_compute. reflexivity. Qed.

Lemma subject_hash_binds_witness :
  ∃ (a b : Subject) (h : string), _subject_hash a = Ok h ∧ _subject_hash b = Ok h ∧
    (same_canonical a.(sj_manifest) b.(sj_manifest) ∨ colliding [] (to_py a) (to_py b)).
Proof.
  pose proof demo_same_subjects as Hr. destruct demo_prepared as [p|]; [|discriminate Hr].
  unfold same_subjects in Hr. set (a := demo_subject_of p (Fin false 10 (-1))) in *.
  set (b := demo_subject_of p (Fin false 100 (-2))) in *. cbv zeta in Hr.
  apply andb_true_iff in Hr as [[[Ha Hb]%andb_true_iff Hok]%andb_true_iff Heq].
  apply bool_decide_eq_true in Heq. destruct (_subject_hash a) as [h|] eqn:E; [|discriminate Hok].
  exists a, b, h. split; [exact E|]. split; [symmetry; exact Heq|].
  destruct (subject_hash_binds a b h Ha Hb E (eq_sym Heq)) as [(Hm & _)|Hc]; [left; exact Hm|right; exact Hc].
Defined.
