(* ===== verification/ToolServer.v ===== *)
(** * tool_server.py: the tool service

    Its configuration, the admission of requests, the reading of a body, and the handlers.
    A handler returns the registry, the reader and the response as it leaves them; an
    exception that escapes it closes the connection without a response.  The parsed
    request line and headers come from http.server, the tool calls from pydantic. *)
From Stdlib Require Import QArith.
From S2P Require Import Prelude Json Dicts PyTime PyDecimal Sha256 Canonical Base64 Platforms Models.
From S2P Require Import Common TrustedStore Rules Compensation Calculation Evidence Checks Certificate RunStore.
From S2P Require Import Stateful HttpFraming HttpReader HttpChunked JsonNesting.
Local Open Scope Z_scope.

Definition HEALTH_PATH : bytes := lit "/health".
Definition EVIDENCE_INGEST_PATH : bytes := lit "/v1/tools/evidence-ingest".
Definition RULE_RETRIEVE_PATH : bytes := lit "/v1/tools/rule-retrieve".
Definition DETERMINISTIC_CALCULATE_PATH : bytes := lit "/v1/tools/deterministic-calculate".
Definition protected_paths : list bytes := [EVIDENCE_INGEST_PATH; RULE_RETRIEVE_PATH; DETERMINISTIC_CALCULATE_PATH].

Definition error_json (code message : string) (details : list json) : json :=
  JObj [("error", JObj ([("code", JStr code); ("message", JStr message)] ++
    match details with [] => [] | _ => [("details", JArr details)] end))].
Definition error_text (code message : string) : string := print Compact 0 (error_json code message []).
Definition _OVERLOADED_BODY : string := error_text "SERVER_BUSY" "request capacity exhausted".
Definition _RESPONSE_TOO_LARGE_BODY : string := error_text "RESPONSE_TOO_LARGE" "response exceeds configured limit".
Definition _REQUEST_TIMEOUT_BODY : string :=
  error_text "REQUEST_TIMEOUT" "request was not received before the deadline".

(** ** Tool calls (contracts.py) *)
Record EvidenceIngestToolArguments := mk_EvidenceIngestToolArguments {
  eit_document_id : string;
  eit_media_type : string;
  eit_declared_sha256 : string;
  eit_raw_content_base64 : string;
}.
Definition require_strict_standard_base64 (value : string) : result string :=
  match b64decode value with
  | Some _ => Ok value
  | None => Raise (ValidationError "raw_content_base64 must be strict standard Base64")
  end.
Definition EvidenceIngestToolArguments_validate (x : EvidenceIngestToolArguments)
    : result EvidenceIngestToolArguments :=
  _ ← require (min_length_1 x.(eit_document_id) && min_length_1 x.(eit_media_type) && is_sha256 x.(eit_declared_sha256))
        (ValidationError "EvidenceIngestToolArguments");
  _ ← require_strict_standard_base64 x.(eit_raw_content_base64);
  Ok x.
Definition to_skill_request (x : EvidenceIngestToolArguments) : result EvidenceIngestRequest :=
  match b64decode x.(eit_raw_content_base64) with
  | Some raw => Ok (mk_EvidenceIngestRequest x.(eit_document_id) x.(eit_media_type) x.(eit_declared_sha256)
                      (mk_bytes raw))
  | None => Raise (ValueError "base64")
  end.
(** A tool context is a SkillContext with a fixed caller: PF-A2, PF-A3 or PF-A4. *)
Definition ToolContext_validate (caller_identity : string) (x : SkillContext) : result SkillContext :=
  _ ← require (String.eqb x.(ctx_caller_identity) caller_identity && bool_decide (x.(ctx_actor_kind) = ActorKind.AGENT))
        (ValidationError "literal_error");
  SkillContext_validate x.
Record ToolCall (A : Type) := mk_ToolCall {
  tc_fixture_status : string;
  tc_context : SkillContext;
  tc_arguments : A;
}.
Arguments mk_ToolCall {A}.
Arguments tc_fixture_status {A}.
Arguments tc_context {A}.
Arguments tc_arguments {A}.
Definition ToolCall_validate {A} (caller_identity : string) (validate : A → result A) (x : ToolCall A)
    : result (ToolCall A) :=
  _ ← require (String.eqb x.(tc_fixture_status) "SYNTHETIC") (ValidationError "literal_error");
  _ ← ToolContext_validate caller_identity x.(tc_context);
  _ ← validate x.(tc_arguments);
  Ok x.

(** pydantic's [model_validate_json], and the errors of one of its ValidationErrors: where
    each is and what kind it is *)
Class ToolLoader := {
  load_EvidenceIngestToolCall : string → result (ToolCall EvidenceIngestToolArguments);
  load_RuleRetrieveToolCall : string → result (ToolCall RuleRetrieveRequest);
  load_DeterministicCalculateToolCall : string → result (ToolCall CalculateRequest);
  load_RuleCatalog_json : string → result RuleCatalog;
  validation_errors : string → list (list string * string);
}.

(** ** Configuration *)
(** A float: a rational number, or an infinity or NaN *)
Inductive pyfloat := Finite (q : Q) | NonFinite.
Definition positive (x : pyfloat) : bool := match x with Finite q => negb (Qle_bool q 0) | NonFinite => false end.

Record ToolServer := mk_ToolServer {
  srv_catalog : RuleCatalog;
  srv_api_token : string;
  srv_max_body_bytes : Z;
  srv_max_response_bytes : Z;
  srv_max_concurrent_requests : Z;
  srv_read_timeout_seconds : pyfloat;
}.
Definition misconfigured (message : string) : exn := ToolServerConfigurationError message.
(** [ProofFlowToolHTTPServer.__init__], with the registry it starts with *)
Definition server_init (catalog : RuleCatalog) (api_token : string)
    (max_body_bytes max_response_bytes max_concurrent_requests trusted_artifact_capacity : Z)
    (read_timeout_seconds : pyfloat) : result (ToolServer * TrustedArtifactStore) :=
  _ ← require (negb (String.eqb api_token "")) (misconfigured "the backend Bearer token must not be empty");
  _ ← require (1 <=? max_body_bytes) (misconfigured "max_body_bytes must be positive");
  _ ← require (Z.of_nat (String.length _RESPONSE_TOO_LARGE_BODY) <=? max_response_bytes)
        (misconfigured "max_response_bytes is too small for errors");
  _ ← require (1 <=? max_concurrent_requests) (misconfigured "max_concurrent_requests must be positive");
  _ ← require (1 <=? trusted_artifact_capacity) (misconfigured "trusted_artifact_capacity must be positive");
  _ ← require (positive read_timeout_seconds) (misconfigured "read_timeout_seconds must be finite and positive");
  store ← store_init trusted_artifact_capacity;
  Ok (mk_ToolServer catalog api_token max_body_bytes max_response_bytes max_concurrent_requests read_timeout_seconds,
      store).

(** The code points [str.isspace] holds of *)
Definition SPACES : list N :=
  [9; 10; 11; 12; 13; 28; 29; 30; 31; 32; 133; 160; 5760; 8192; 8193; 8194; 8195; 8196; 8197; 8198; 8199; 8200; 8201;
   8202; 8232; 8233; 8239; 8287; 12288]%N.
Definition has_space (s : string) : bool :=
  existsb (λ n, match String.index 0 (utf8_encode n) s with Some _ => true | None => false end) SPACES.

Definition _is_sha256_digest (value : string) : bool :=
  let digest := remove_prefix "sha256:" value in
  starts_with "sha256:" value && (String.length digest =? 64)%nat &&
  string_all (ascii_in "0123456789abcdef") digest.

Section configuration.
Context `{P : Platform} `{L : ToolLoader}.

(** The environment's value of PROOFFLOW_TOOL_API_TOKEN *)
Definition api_token_from_environment (value : option string) : result string :=
  let token := default "" value in
  _ ← require (negb (String.eqb token "" || negb (String.eqb token (str_strip token)) || has_space token))
        (misconfigured "PROOFFLOW_TOOL_API_TOKEN must contain one non-empty Bearer token without whitespace");
  Ok token.

(** [payload] is what reading the file gives, if it can be read. *)
Definition load_rule_catalog (payload : option string) (expected_sha256 : string) : result RuleCatalog :=
  _ ← require (_is_sha256_digest expected_sha256)
        (misconfigured "the expected rule catalog digest must be lowercase sha256:<64-hex>");
  match payload with
  | None => Raise (misconfigured "cannot read rule catalog")
  | Some payload =>
      _ ← require (String.eqb (sha256_bytes payload) expected_sha256)
            (misconfigured "rule catalog does not match its configured digest pin");
      match load_RuleCatalog_json payload with
      | Raise (ValidationError _) => Raise (misconfigured "invalid rule catalog")
      | x => x
      end
  end.

(** Everything [serve_tool_service] does before it serves; [binds] when the port is free *)
Definition serve_tool_service (port : Z) (binds : bool) (catalog_file : option string) (catalog_sha256 api_token : string)
    (max_body_bytes max_response_bytes max_concurrent_requests trusted_artifact_capacity : Z)
    (read_timeout_seconds : pyfloat) : result (ToolServer * TrustedArtifactStore) :=
  _ ← require ((0 <=? port) && (port <=? 65535)) (misconfigured "port must be between 0 and 65535");
  catalog ← load_rule_catalog catalog_file catalog_sha256;
  server ← server_init catalog api_token max_body_bytes max_response_bytes max_concurrent_requests
             trusted_artifact_capacity read_timeout_seconds;
  _ ← require binds (misconfigured "cannot bind the tool service");
  Ok server.
End configuration.

(** ** Responses *)
Record Response := mk_Response {
  resp_status : Z;
  resp_body : string;
  resp_headers : list (string * string);
}.
Definition _send_json (server : ToolServer) (status : Z) (payload : json) (extra_headers : list (string * string))
    : Response :=
  let body := print Compact 0 payload in
  let '(status, body, extra_headers) :=
    if server.(srv_max_response_bytes) <? Z.of_nat (String.length body)
    then (HTTPStatus.INTERNAL_SERVER_ERROR, _RESPONSE_TOO_LARGE_BODY, [])
    else (status, body, extra_headers) in
  mk_Response status body
    ([("Content-Type", "application/json; charset=utf-8"); ("Content-Length", nat_text (String.length body));
      ("Cache-Control", "no-store"); ("Connection", "close"); ("X-Content-Type-Options", "nosniff")] ++ extra_headers).
Definition _send_error (server : ToolServer) (status : Z) (code message : string) : Response :=
  _send_json server status (error_json code message []) [].
Definition error_detail (error : list string * string) : json :=
  JObj [("location", JArr (map JStr (fst error))); ("type", JStr (snd error))].
Definition _send_model `{P : Platform} (server : ToolServer) (status : Z) (model : pyval) : result Response :=
  payload ← canonicalize [] model; Ok (_send_json server status payload []).

(** [_raw_http_response] *)
Definition _raw_http_response (status : Z) (phrase body : string) : string :=
  let crlf := char 13 +:+ char 10 in
  "HTTP/1.1 " +:+ z_text status +:+ " " +:+ phrase +:+ crlf +:+
  "Content-Type: application/json; charset=utf-8" +:+ crlf +:+
  "Content-Length: " +:+ nat_text (String.length body) +:+ crlf +:+
  "Cache-Control: no-store" +:+ crlf +:+ "Connection: close" +:+ crlf +:+ "X-Content-Type-Options: nosniff" +:+ crlf +:+
  crlf +:+ body.

(** ** The parsed request *)
Record Request := mk_Request {
  req_command : bytes;
  req_path : bytes;
  req_headers : list (bytes * bytes);
}.
(** [headers.get_all(name, [])] *)
Definition get_all (name : string) (r : Request) : list bytes :=
  omap (λ header, if bool_decide (lower (fst header) = lower (lit name)) then Some (snd header) else None)
    r.(req_headers).

(** [urlsplit(url).path].  Bracketed hosts and hosts beyond ASCII, which urlsplit examines
    further, are left out. *)
Definition is_control_or_space (c : ascii) : bool := in_range 0 32 c.
Definition is_alpha (c : ascii) : bool := in_range 65 90 c || in_range 97 122 c.
Definition is_scheme_char (c : ascii) : bool := is_alnum c || ascii_in "+-." c.
Definition without_scheme (url : bytes) : bytes :=
  let '(scheme, rest) := span (λ c, negb (Ascii.eqb c ":")) url in
  match scheme, rest with
  | c :: _, _ :: rest => if is_alpha c && forallb is_scheme_char scheme then rest else url
  | _, _ => url
  end.
Definition url_path (url : bytes) : result bytes :=
  let url := List.filter (λ c, negb (ascii_in (char 9 +:+ char 10 +:+ char 13) c)) (snd (span is_control_or_space url)) in
  let url := without_scheme url in
  rest ← match url with
         | a :: b :: url' =>
             if Ascii.eqb a "/" && Ascii.eqb b "/" then
               let '(netloc, rest) := span (λ c, negb (ascii_in "/?#" c)) url' in
               let opens := existsb (Ascii.eqb "[") netloc in
               let closes := existsb (Ascii.eqb "]") netloc in
               if negb (Bool.eqb opens closes) then Raise (ValueError "Invalid IPv6 URL")
               else if opens || negb (forallb (in_range 0 127) netloc) then Raise (Unmodelled "netloc")
               else Ok rest
             else Ok url
         | _ => Ok url
         end;
  Ok (fst (span (λ c, negb (ascii_in "?#" c)) rest)).

(** ** Authorization *)
Definition is_ascii_text (l : bytes) : bool := forallb (in_range 0 127) l.
(** [hmac.compare_digest] of two strings *)
Definition compare_digest (a b : bytes) : result bool :=
  _ ← require (is_ascii_text a && is_ascii_text b)
        (TypeError "comparing strings with non-ASCII characters is not supported");
  Ok (bool_decide (a = b)).
(** For a Latin-1 text, [casefold] gives an ASCII word when [lower] does. *)
Definition _authorized (server : ToolServer) (r : Request) : result bool :=
  let authorization := default [] (head (get_all "Authorization" r)) in
  let '(scheme, rest) := span (λ c, negb (Ascii.eqb c " ")) authorization in
  match rest with
  | _ :: ((_ :: _) as provided) =>
      if bool_decide (lower scheme = lit "bearer") then compare_digest provided (lit server.(srv_api_token)) else Ok false
  | _ => Ok false
  end.

(** ** The framing of the body *)
Inductive framing := Chunked | Sized (content_length : Z).

(** [headers.get_content_type()]: the first value up to a semicolon, or text/plain *)
Definition is_latin_space (c : ascii) : bool :=
  in_range 9 13 c || in_range 28 32 c || in_range 133 133 c || in_range 160 160 c.
Definition strip_latin (l : bytes) : bytes := rev (snd (span is_latin_space (rev (snd (span is_latin_space l))))).
Definition content_type (values : list bytes) : bytes :=
  match values with
  | [] => lit "text/plain"
  | value :: _ =>
      let media := lower (strip_latin (fst (span (λ c, negb (Ascii.eqb c ";")) value))) in
      if (length (List.filter (Ascii.eqb "/") media) =? 1)%nat then media else lit "text/plain"
  end.
Definition has_comma (value : bytes) : bool := existsb (Ascii.eqb ",") value.

(** [int(text)] of decimal digits *)
Definition dec_int (l : bytes) : Z := foldl (λ n c, 10 * n + Z.of_nat (nat_of_ascii c - 48)) 0 l.
(** [raw_length.lstrip("0") or "0"] *)
Definition normalized_length (raw_length : bytes) : bytes :=
  match snd (span (Ascii.eqb "0") raw_length) with [] => lit "0" | l => l end.
(** The comparison of two digit texts as texts *)
Definition content_length_exceeds (normalized : bytes) (max_body_length : string) : bool :=
  let limit := String.length max_body_length in
  (limit <? length normalized)%nat ||
  (Nat.eqb (length normalized) limit && String.ltb max_body_length (string_of_list_ascii normalized)).

Definition bad_request {A} (server : ToolServer) (code message : string) : checked Response A :=
  Stop (_send_error server HTTPStatus.BAD_REQUEST code message).
(** The checks of Transfer-Encoding, once there is one *)
Definition check_transfer_encoding (server : ToolServer) (values : list bytes) : checked Response unit :=
  match values with
  | [] => Go ()
  | [value] =>
      match _strict_http_ows_value value with
      | None => bad_request server "INVALID_TRANSFER_ENCODING"
                  "Transfer-Encoding contains invalid whitespace or control bytes"
      | Some encoding =>
          if has_comma encoding
          then bad_request server "AMBIGUOUS_TRANSFER_ENCODING" "exactly one Transfer-Encoding is allowed"
          else if negb (bool_decide (lower encoding = lit "chunked"))
          then bad_request server "UNSUPPORTED_TRANSFER_ENCODING" "only Transfer-Encoding: chunked is supported"
          else Go ()
      end
  | _ => bad_request server "AMBIGUOUS_TRANSFER_ENCODING" "exactly one Transfer-Encoding is allowed"
  end.
Definition check_content_type (server : ToolServer) (values : list bytes) : checked Response unit :=
  if (1 <? length values)%nat || match values with value :: _ => has_comma value | [] => false end
  then bad_request server "AMBIGUOUS_CONTENT_TYPE" "exactly one Content-Type is allowed"
  else if negb (bool_decide (content_type values = lit "application/json"))
  then Stop (_send_error server HTTPStatus.UNSUPPORTED_MEDIA_TYPE "UNSUPPORTED_MEDIA_TYPE"
               "Content-Type must be application/json")
  else Go ().
Definition check_content_length (server : ToolServer) (values : list bytes) : checked Response Z :=
  match values with
  | [] => Stop (_send_error server HTTPStatus.LENGTH_REQUIRED "LENGTH_REQUIRED"
                  "Content-Length or Transfer-Encoding: chunked is required")
  | value :: more =>
      if nonempty more || has_comma value
      then bad_request server "AMBIGUOUS_CONTENT_LENGTH" "exactly one Content-Length is required"
      else
        match _strict_http_ows_value value with
        | Some ((_ :: _) as raw_length) =>
            if negb (forallb is_digit raw_length)
            then bad_request server "INVALID_CONTENT_LENGTH" "Content-Length must be one non-negative decimal integer"
            else
              let normalized := normalized_length raw_length in
              if content_length_exceeds normalized (z_text server.(srv_max_body_bytes))
              then Stop (_send_error server HTTPStatus.REQUEST_ENTITY_TOO_LARGE "REQUEST_TOO_LARGE"
                           "request body exceeds the configured limit")
              else Go (dec_int normalized)
        | _ => bad_request server "INVALID_CONTENT_LENGTH" "Content-Length must be one non-negative decimal integer"
        end
  end.
Definition body_framing (server : ToolServer) (r : Request) : checked Response framing :=
  let raw_transfer_encodings := get_all "Transfer-Encoding" r in
  let raw_lengths := get_all "Content-Length" r in
  if nonempty raw_transfer_encodings && nonempty raw_lengths
  then bad_request server "AMBIGUOUS_REQUEST_FRAMING" "Content-Length and Transfer-Encoding cannot be combined"
  else
    match check_transfer_encoding server raw_transfer_encodings with
    | Stop response => Stop response
    | Go _ =>
        match check_content_type server (get_all "Content-Type" r) with
        | Stop response => Stop response
        | Go _ =>
            if nonempty raw_transfer_encodings then Go Chunked
            else match check_content_length server raw_lengths with
                 | Stop response => Stop response
                 | Go content_length => Go (Sized content_length)
                 end
        end
    end.

(** ** The body *)
Definition _unique_json_object (pairs : list (string * json)) : result (list (string * json)) :=
  foldR (λ result kv, _ ← require (negb (bool_decide (fst kv ∈ map fst result))) (ValueError "duplicate object key");
           Ok (result ++ [kv])) [] pairs.
Definition _reject_json_constant (value : string) : result json :=
  Raise (ValueError ("non-standard JSON constant: " +:+ value)).
Definition tool_hooks : hooks := {| object_pairs := _unique_json_object; parse_constant := _reject_json_constant |}.
(** [json.loads(body.decode("utf-8"), ...)], with the limit of [int] on digits *)
Definition parse_body (body : bytes) : result json :=
  text ← decode_utf8 (string_of_list_ascii body);
  parsed ← loads_with tool_hooks text;
  _ ← require (negb (has_big_int parsed)) (ValueError "int digits");
  Ok parsed.
Definition check_json (server : ToolServer) (body : bytes) : result (checked Response bytes) :=
  if _json_nesting_exceeds body MAX_JSON_NESTING
  then Ok (bad_request server "JSON_NESTING_TOO_DEEP" "request JSON exceeds the nesting limit")
  else
    match parse_body body with
    | Ok _ => Ok (Go body)
    | Raise e => if is_value_error e then Ok (bad_request server "INVALID_JSON" "request body must be valid UTF-8 JSON")
                 else Raise e
    end.

(** [_read_json_body]: the body, or the error that was sent *)
Definition _read_json_body (server : ToolServer) (r : Request) : stateful Reader (checked Response bytes) := λ reader,
  match body_framing server r with
  | Stop response => (reader, Ok (Stop response))
  | Go framing =>
      let '(reader, received) :=
        match framing with
        | Chunked => _read_chunked_body server.(srv_max_body_bytes) reader
        | Sized content_length => read_exact (Z.to_nat content_length) reader
        end in
      (reader,
       match received with
       | Ok body => check_json server body
       | Raise RequestReadTimeout =>
           Ok (Stop (_send_error server HTTPStatus.REQUEST_TIMEOUT "REQUEST_TIMEOUT"
                       "request body was not received before the read deadline"))
       | Raise BodyUnexpectedEOF =>
           Ok (bad_request server
                 match framing with Chunked => "INCOMPLETE_CHUNKED_BODY" | Sized _ => "INCOMPLETE_REQUEST_BODY" end
                 "request body ended before its framing was complete")
       | Raise (BodyProtocolError status code message) => Ok (Stop (_send_error server status code message))
       | Raise e => Raise e
       end)
  end.

(** ** The handlers *)
Section handlers.
Context `{P : Platform} `{L : ToolLoader}.

Definition do_GET (server : ToolServer) (r : Request) : result Response :=
  path ← url_path r.(req_path);
  Ok (if negb (bool_decide (path = HEALTH_PATH))
      then _send_error server HTTPStatus.NOT_FOUND "NOT_FOUND" "endpoint not found"
      else _send_json server HTTPStatus.OK
             (JObj [("service", JStr "proofflow-tool-service"); ("status", JStr "ok");
                    ("schema_version", JStr SCHEMA_VERSION);
                    ("catalog_version", JStr server.(srv_catalog).(cat_catalog_version));
                    ("side_effects", JStr "IN_MEMORY_SYNTHETIC_ARTIFACT_REGISTRY")]) []).

(** What a tool answers with; a registration that fails is answered at once. *)
Definition register_result (server : ToolServer) (s : TrustedArtifactStore) (x : SkillResult EvidenceIngestOutput)
    : TrustedArtifactStore * result (checked Response pyval) :=
  match x.(sr_status), x.(sr_value) with
  | SkillStatus.SUCCESS, Some value =>
      let '(s, registered) := register_all s value.(eio_evidence_objects) in
      (s, match registered with
          | Ok _ => Ok (Go (to_py x))
          | Raise (TrustedArtifactStoreCapacityError _) =>
              Ok (Stop (_send_error server HTTPStatus.SERVICE_UNAVAILABLE "TRUST_STORE_CAPACITY_EXHAUSTED"
                          "trusted Evidence registry capacity is exhausted"))
          | Raise (TrustedArtifactStoreRegistrationError _) =>
              Ok (Stop (_send_error server HTTPStatus.INTERNAL_SERVER_ERROR "TRUST_STORE_REGISTRATION_FAILED"
                          "trusted Evidence could not be registered"))
          | Raise e => Raise e
          end)
  | _, _ => (s, Ok (Go (to_py x)))
  end.
Definition run_tool (server : ToolServer) (s : TrustedArtifactStore) (path : bytes) (body : string) (now : datetime)
    : TrustedArtifactStore * result (checked Response pyval) :=
  if bool_decide (path = EVIDENCE_INGEST_PATH) then
    match (call ← load_EvidenceIngestToolCall body; request ← to_skill_request call.(tc_arguments);
           evidence_ingest call.(tc_context) request now) with
    | Ok x => register_result server s x
    | Raise e => (s, Raise e)
    end
  else if bool_decide (path = RULE_RETRIEVE_PATH) then
    (s, call ← load_RuleRetrieveToolCall body;
        x ← rule_retrieve call.(tc_context) call.(tc_arguments) server.(srv_catalog) now; Ok (Go (to_py x)))
  else
    (s, call ← load_DeterministicCalculateToolCall body;
        x ← deterministic_calculate call.(tc_context) call.(tc_arguments) server.(srv_catalog) s now;
        Ok (Go (to_py x))).

(** [except Exception]: what the model leaves out is not caught. *)
Definition caught (e : exn) : bool := match e with Unmodelled _ => false | _ => true end.
Definition answer_tool (server : ToolServer) (x : result (checked Response pyval)) : result Response :=
  match x with
  | Ok (Stop response) => Ok response
  | Ok (Go value) =>
      match _send_model server HTTPStatus.OK value with
      | Ok response => Ok response
      | Raise e => if is_type_error e || is_value_error e
                   then Ok (_send_error server HTTPStatus.INTERNAL_SERVER_ERROR "RESPONSE_SERIALIZATION_FAILED"
                              "request could not be completed")
                   else Raise e
      end
  | Raise (ValidationError m) =>
      Ok (_send_json server HTTPStatus.UNPROCESSABLE_ENTITY
            (error_json "SCHEMA_VALIDATION_FAILED" "request does not match the tool schema"
               (map error_detail (validation_errors m))) [])
  | Raise e => if caught e then Ok (_send_error server HTTPStatus.INTERNAL_SERVER_ERROR "INTERNAL_ERROR"
                                      "request could not be completed")
               else Raise e
  end.

(** The checks before the body is read *)
Definition admit_post (server : ToolServer) (r : Request) : result (checked Response bytes) :=
  path ← url_path r.(req_path);
  if negb (bool_decide (path ∈ protected_paths))
  then Ok (Stop (_send_error server HTTPStatus.NOT_FOUND "NOT_FOUND" "endpoint not found"))
  else if (1 <? length (get_all "Authorization" r))%nat
  then Ok (bad_request server "AMBIGUOUS_AUTHORIZATION" "exactly one Authorization header is allowed")
  else
    authorized ← _authorized server r;
    if negb authorized
    then Ok (Stop (_send_json server HTTPStatus.UNAUTHORIZED
                     (error_json "UNAUTHORIZED" "valid Bearer authorization is required" [])
                     [("WWW-Authenticate", "Bearer")]))
    else Ok (Go path).
Definition do_POST (server : ToolServer) (r : Request) (s : TrustedArtifactStore) (reader : Reader) (now : datetime)
    : TrustedArtifactStore * Reader * result Response :=
  match admit_post server r with
  | Raise e => (s, reader, Raise e)
  | Ok (Stop response) => (s, reader, Ok response)
  | Ok (Go path) =>
      let '(reader, received) := _read_json_body server r reader in
      match received with
      | Raise e => (s, reader, Raise e)
      | Ok (Stop response) => (s, reader, Ok response)
      | Ok (Go body) =>
          let '(s, x) := run_tool server s path (string_of_list_ascii body) now in
          (s, reader, answer_tool server x)
      end
  end.

(** [handle_one_request]: what goes to the client.  [parse_request] is that of http.server:
    it reads the headers, and answers itself when it returns nothing. *)
Inductive reply :=
| Replied (response : Response)
| RawReply (response : string)
| StandardError (status : Z)
| NoReply.
Definition handle_one_request (parse_request : bytes → stateful Reader (option Request)) (server : ToolServer)
    (s : TrustedArtifactStore) (reader : Reader) (now : datetime) : TrustedArtifactStore * result reply :=
  let finish (x : result reply) : result reply :=
    match x with
    | Raise RequestReadTimeout =>
        Ok (RawReply (_raw_http_response HTTPStatus.REQUEST_TIMEOUT "Request Timeout" _REQUEST_TIMEOUT_BODY))
    | _ => x
    end in
  let '(reader, requestline) := readline 65537 reader in
  match requestline with
  | Raise e => (s, finish (Raise e))
  | Ok raw_requestline =>
      if 65536 <? Z.of_nat (length raw_requestline) then (s, Ok (StandardError 414))
      else if is_empty raw_requestline then (s, Ok NoReply)
      else
        let '(reader, parsed) := parse_request raw_requestline reader in
        match parsed with
        | Raise e => (s, finish (Raise e))
        | Ok None => (s, Ok NoReply)
        | Ok (Some r) =>
            if bool_decide (r.(req_command) = lit "GET")
            then (s, finish (response ← do_GET server r; Ok (Replied response)))
            else if bool_decide (r.(req_command) = lit "POST")
            then let '(s, _, response) := do_POST server r s reader now in
                 (s, finish (response ← response; Ok (Replied response)))
            else (s, Ok (StandardError 501))
        end
  end.
End handlers.

(** ** The slots for concurrent requests *)
Record Slots := mk_Slots {
  slots_initial : Z;
  slots_free : Z;
  slots_threads : nat;
}.
Definition slots_init (server : ToolServer) : Slots :=
  mk_Slots server.(srv_max_concurrent_requests) server.(srv_max_concurrent_requests) 0.
(** [BoundedSemaphore.acquire(blocking=False)] and [release] *)
Definition acquire (x : Slots) : option Slots :=
  if x.(slots_free) =? 0 then None else Some (mk_Slots x.(slots_initial) (x.(slots_free) - 1) x.(slots_threads)).
Definition release (x : Slots) : result Slots :=
  _ ← require (x.(slots_free) <? x.(slots_initial)) (ValueError "Semaphore released too many times");
  Ok (mk_Slots x.(slots_initial) (x.(slots_free) + 1) x.(slots_threads)).
(** [process_request]: a request is refused, or gets a thread; [starts] is the exception of
    a thread that cannot be started. *)
Definition process_request (starts : result unit) (x : Slots) : Slots * result (option string) :=
  match acquire x with
  | None => (x, Ok (Some (_raw_http_response HTTPStatus.SERVICE_UNAVAILABLE "Service Unavailable" _OVERLOADED_BODY)))
  | Some x =>
      match starts with
      | Ok _ => (mk_Slots x.(slots_initial) x.(slots_free) (S x.(slots_threads)), Ok None)
      | Raise e => match release x with Ok x => (x, Raise e) | Raise e' => (x, Raise e') end
      end
  end.
(** [process_request_thread], when the thread ends: the [finally] clause *)
Definition thread_ends (x : Slots) : Slots * result unit :=
  let x := mk_Slots x.(slots_initial) x.(slots_free) (Nat.pred x.(slots_threads)) in
  match release x with Ok x => (x, Ok ()) | Raise e => (x, Raise e) end.
(** What the server does with its slots; only a running thread ends. *)
Inductive slots_step : Slots → Slots → Prop :=
| step_request starts x : slots_step x (fst (process_request starts x))
| step_thread_ends x : (0 < x.(slots_threads))%nat → slots_step x (fst (thread_ends x)).
