(* ===== verification/ToolServerFacts.v ===== *)
(** * What the tool service has checked of a body

    The limit on Content-Length is compared digit by digit, so a text of any length is
    refused without being converted; here it is the comparison of the numbers.  A body
    that is handed on was framed in one way only, is within the limits and is the JSON
    the handlers load. *)
From Stdlib Require Import DecimalString DecimalFacts DecimalZ DecimalPos.
From S2P Require Import Prelude Json JsonTotal Dicts PyTime PyDecimal Sha256 Canonical Base64 Platforms Models.
From S2P Require Import Common TrustedStore Rules Compensation Calculation Evidence Checks Certificate RunStore.
From S2P Require Import Stateful HttpFraming HttpReader HttpChunked JsonNesting ToolServer.
Local Open Scope Z_scope.

(** ** Digit texts *)
Definition digit_value (c : ascii) : Z := Z.of_nat (nat_of_ascii c - 48).
Definition dec_from (n : Z) (l : bytes) : Z := foldl (λ n c, 10 * n + digit_value c) n l.
Lemma dec_int_from l : dec_int l = dec_from 0 l.
Proof. done. Qed.
Lemma dec_from_split n l : dec_from n l = n * 10 ^ Z.of_nat (length l) + dec_int l.
Proof.
  rewrite dec_int_from. revert n; induction l as [|c l IH]; intros n; [cbn; lia|].
  cbn [dec_from foldl length]. fold (dec_from (10 * n + digit_value c) l). fold (dec_from (10 * 0 + digit_value c) l).
  rewrite IH, (IH (10 * 0 + digit_value c)). rewrite Nat2Z.inj_succ, Z.pow_succ_r by lia. lia.
Qed.
Lemma digit_value_range c : is_digit c = true → 0 ≤ digit_value c ≤ 9.
Proof. unfold is_digit, in_range, digit_value. rewrite andb_true_iff, !Nat.leb_le. lia. Qed.
Lemma dec_int_cons c l : dec_int (c :: l) = digit_value c * 10 ^ Z.of_nat (length l) + dec_int l.
Proof. rewrite dec_int_from. cbn [dec_from foldl]. fold (dec_from (10 * 0 + digit_value c) l). rewrite dec_from_split. lia. Qed.
Lemma dec_int_bound l : all is_digit l → 0 ≤ dec_int l < 10 ^ Z.of_nat (length l).
Proof.
  induction 1 as [|c l Hc _ IH]; [cbn; lia|]. rewrite dec_int_cons. cbn [length].
  rewrite Nat2Z.inj_succ, Z.pow_succ_r by lia. pose proof (digit_value_range c Hc). nia.
Qed.

(** No superfluous zero in front *)
Definition normal (l : bytes) : Prop := all is_digit l ∧ (l = lit "0" ∨ ∃ c r, l = c :: r ∧ 1 ≤ digit_value c).
Lemma normal_bound l : normal l → (1 < length l)%nat → 10 ^ Z.of_nat (length l - 1) ≤ dec_int l.
Proof.
  intros [Hd [->|(c & r & -> & Hc)]] Hl; [cbn in Hl; lia|]. rewrite dec_int_cons. cbn [length].
  replace (S (length r) - 1)%nat with (length r) by lia.
  assert (all is_digit r) as Hr by by inversion Hd. pose proof (dec_int_bound r Hr). nia.
Qed.
Lemma dec_int_shorter a b : all is_digit a → normal b → (length a < length b)%nat → dec_int a < dec_int b ∨ b = lit "0" ∧ a = [].
Proof.
  intros Ha Hb Hl. destruct (decide (1 < length b)%nat) as [H1|H1].
  - left. pose proof (normal_bound b Hb H1). pose proof (dec_int_bound a Ha).
    assert (10 ^ Z.of_nat (length a) ≤ 10 ^ Z.of_nat (length b - 1)) by (apply Z.pow_le_mono_r; lia). lia.
  - assert (a = []) as -> by (destruct a; [done|cbn in *; lia]). destruct Hb as [_ [->|(c & r & -> & Hc)]]; [by right|].
    left. cbn [length] in H1. assert (r = []) as -> by (destruct r; [done|cbn in *; lia]). rewrite dec_int_cons.
    cbn. change (dec_int []) with 0. lia.
Qed.

Lemma digit_compare c d : is_digit c = true → is_digit d = true →
  Ascii.compare c d = (digit_value c ?= digit_value d).
Proof.
  unfold Ascii.compare, is_digit, in_range, digit_value, nat_of_ascii. rewrite !andb_true_iff, !Nat.leb_le. intros Hc Hd.
  destruct (N.compare_spec (N_of_ascii c) (N_of_ascii d)), (Z.compare_spec (Z.of_nat (N.to_nat (N_of_ascii c) - 48))
    (Z.of_nat (N.to_nat (N_of_ascii d) - 48))); try done; lia.
Qed.
(** Texts of one length compare as the numbers do. *)
Lemma digits_compare a b : all is_digit a → all is_digit b → length a = length b →
  String.compare (string_of_list_ascii a) (string_of_list_ascii b) = (dec_int a ?= dec_int b).
Proof.
  intros Ha. revert b; induction Ha as [|c a Hc Ha IH]; intros [|d b] Hb Hl; try done. injection Hl as Hl.
  assert (is_digit d = true) as Hd by by inversion Hb. assert (all is_digit b) as Hb' by by inversion Hb.
  cbn [string_of_list_ascii String.compare]. rewrite digit_compare by done. rewrite !dec_int_cons, <- Hl.
  pose proof (dec_int_bound a Ha). pose proof (dec_int_bound b Hb') as Hbb. rewrite <- Hl in Hbb.
  destruct (Z.compare_spec (digit_value c) (digit_value d)) as [E|E|E].
  - rewrite IH by done. rewrite E. symmetry. apply Z.add_compare_mono_l.
  - symmetry. apply Z.compare_lt_iff. nia.
  - symmetry. apply Z.compare_gt_iff. nia.
Qed.

Lemma dec_from_cons n c s : dec_from n (lit (String c s)) = dec_from (10 * n + digit_value c) (lit s).
Proof. done. Qed.
Ltac fold_digit :=
  cbn [NilEmpty.string_of_uint]; rewrite dec_from_cons; f_equal;
  match goal with |- context [digit_value ?c] =>
    let v := eval vm_compute in (digit_value c) in change (digit_value c) with v end; lia.
Lemma string_of_uint_value d acc :
  dec_from (Zpos acc) (lit (NilEmpty.string_of_uint d)) = Zpos (Pos.of_uint_acc d acc).
Proof.
  revert acc; induction d as [|d IH|d IH|d IH|d IH|d IH|d IH|d IH|d IH|d IH|d IH]; intros acc; [done|..];
    cbn [Pos.of_uint_acc]; rewrite <- IH; fold_digit.
Qed.
Lemma z_text_digits z : 0 ≤ z → normal (lit (z_text z)) ∧ dec_int (lit (z_text z)) = z.
Proof.
  intros Hz. destruct z as [|p|p]; [|split|lia].
  - split; [|done]. split; [by repeat constructor|by left].
  - destruct (z_text_shape (Zpos p)) as (ds & Hds & E). cbn [Z.ltb Z.compare] in E. rewrite E.
    assert (∀ s, string_all is_digit s = true → all is_digit (lit s)) as Hall.
    { induction s as [|c s IH]; [constructor|]. cbn. intros [H1 H2]%andb_true_iff. constructor; [done|by apply IH]. }
    split; [by apply Hall, digits_wf_all|]. destruct ds as [|c [|d s]]; [done| |].
    + cbn in Hds. destruct (Ascii.eqb_spec c "0") as [->|Hc]; [by left|]. right. exists c, []. split; [done|].
      destruct c as [[] [] [] [] [] [] [] []]; try discriminate Hds; try (exfalso; by apply Hc); vm_compute; discriminate.
    + cbn [digits_wf] in Hds. apply andb_true_iff in Hds as [[Hc H0]%andb_true_iff _]. right. exists c, (d :: lit s).
      split; [done|]. apply negb_true_iff in H0.
      destruct c as [[] [] [] [] [] [] [] []]; try discriminate Hc; try discriminate H0; vm_compute; discriminate.
  - unfold z_text. cbn [Z.to_int NilZero.string_of_int]. pose proof (Unsigned.of_to p) as H. unfold NilZero.string_of_uint.
    assert (∀ d, d ≠ Decimal.Nil → dec_int (lit (NilEmpty.string_of_uint d)) = Z.of_N (Pos.of_uint d)) as Hd.
    { clear. intros d _. rewrite dec_int_from.
      induction d as [|d IH|d IH|d IH|d IH|d IH|d IH|d IH|d IH|d IH|d IH]; [done|exact IH|..];
        cbn [Pos.of_uint Z.of_N]; rewrite <- string_of_uint_value; fold_digit. }
    destruct (Pos.to_uint p) eqn:E; [by destruct (Unsigned.to_uint_nonnil p)|..]; rewrite Hd by done; by rewrite H.
Qed.

Lemma normalized_length_normal l : all is_digit l → normal (normalized_length l) ∧ dec_int (normalized_length l) = dec_int l.
Proof.
  intros Hl. unfold normalized_length. destruct (span_spec (Ascii.eqb "0") l) as (zeros & r & -> & -> & Hz & Hr). cbn [snd].
  apply Forall_app in Hl as [_ Hd].
  assert (dec_int (zeros ++ r) = dec_int r) as ->.
  { clear Hd. rewrite !dec_int_from. unfold dec_from. rewrite foldl_app.
    assert (foldl (λ n c, 10 * n + digit_value c) 0 zeros = 0) as ->; [|done].
    induction Hz as [|c z Hc _ IH]; [done|]. apply Ascii.eqb_eq in Hc as <-. exact IH. }
  destruct r as [|c r]; [split; [|done]; split; [by repeat constructor|by left]|].
  split; [|done]. split; [done|]. right. exists c, r. split; [done|]. cbn in Hr.
  assert (is_digit c = true) as Hc by by inversion Hd.
  destruct c as [[] [] [] [] [] [] [] []]; try discriminate Hc; try discriminate Hr; vm_compute; discriminate.
Qed.

(** The textual comparison of Content-Length is the numeric one. *)
Lemma content_length_exceeds_spec n limit : normal n → 1 ≤ limit →
  content_length_exceeds n (z_text limit) = (limit <? dec_int n).
Proof.
  intros Hn Hlimit. destruct (z_text_digits limit ltac:(lia)) as [Hm Hv].
  assert (length (lit (z_text limit)) = String.length (z_text limit)) as Hlen.
  { generalize (z_text limit) as s. intros s. unfold lit. induction s as [|c s IH]; [done|]. cbn. by f_equal. }
  unfold content_length_exceeds. rewrite <- Hlen. set (m := lit (z_text limit)) in *.
  destruct (Nat.ltb_spec (length m) (length n)) as [Hl|Hl]; cbn [orb].
  { symmetry. apply Z.ltb_lt. destruct (dec_int_shorter m n (proj1 Hm) Hn Hl) as [H|[-> _]]; [lia|]. exfalso.
    destruct Hm as [_ [Hm|(c & r & Hm & _)]]; rewrite Hm in Hl; cbn in Hl; lia. }
  destruct (Nat.eqb_spec (length n) (length m)) as [He|He]; cbn [andb].
  - unfold String.ltb. rewrite <- (string_of_list_ascii_of_string (z_text limit)). fold (lit (z_text limit)). fold m.
    rewrite digits_compare by (apply Hm || apply Hn || done). rewrite Hv. by rewrite Z.ltb_compare.
  - symmetry. apply Z.ltb_ge. destruct (dec_int_shorter n m (proj1 Hn) Hm) as [H|[Hm0 _]]; [lia|lia|].
    rewrite Hm0 in Hv. change (dec_int (lit "0")) with 0 in Hv. lia.
Qed.

(** ** Framing *)
(** The value of a Content-Length header *)
Definition declares (value : bytes) (n : Z) : Prop :=
  ∃ digits, _strict_http_ows_value value = Some digits ∧ digits ≠ [] ∧ all is_digit digits ∧ dec_int digits = n.
Definition declares_chunked (value : bytes) : Prop :=
  ∃ encoding, _strict_http_ows_value value = Some encoding ∧ lower encoding = lit "chunked".

Lemma check_content_length_Go server values n : 1 ≤ server.(srv_max_body_bytes) →
  check_content_length server values = Go n →
  ∃ value, values = [value] ∧ declares value n ∧ 0 ≤ n ≤ server.(srv_max_body_bytes).
Proof.
  intros Hmax. unfold check_content_length. destruct values as [|value more]; [done|].
  destruct (nonempty more || has_comma value) eqn:E1; [done|]. apply orb_false_iff in E1 as [E1 _].
  destruct more; [|done].
  destruct (_strict_http_ows_value value) as [[|c digits]|] eqn:E2; try done.
  destruct (forallb is_digit (c :: digits)) eqn:E3; [|done]. cbn [negb]. apply forallb_all in E3.
  destruct (normalized_length_normal _ E3) as [Hn Hv].
  rewrite content_length_exceeds_spec by done.
  destruct (Z.ltb_spec (srv_max_body_bytes server) (dec_int (normalized_length (c :: digits)))) as [|Hle]; [done|].
  intros [= <-]. exists value. split; [done|]. split; [by exists (c :: digits)|].
  rewrite Hv. pose proof (dec_int_bound _ E3). lia.
Qed.
Lemma check_transfer_encoding_Go server values u :
  check_transfer_encoding server values = Go u → values = [] ∨ ∃ value, values = [value] ∧ declares_chunked value.
Proof.
  unfold check_transfer_encoding. destruct values as [|value [|]]; [by left| |done].
  destruct (_strict_http_ows_value value) as [encoding|] eqn:E; [|done]. destruct (has_comma encoding); [done|].
  destruct (bool_decide _) eqn:Eb; [|done]. apply bool_decide_eq_true in Eb. intros _. right. exists value.
  split; [done|]. by exists encoding.
Qed.

(** The two framings, each with what it says of the headers *)
Definition framed (server : ToolServer) (r : Request) (f : framing) : Prop :=
  (length (get_all "Content-Type" r) ≤ 1)%nat ∧ content_type (get_all "Content-Type" r) = lit "application/json" ∧
  match f with
  | Chunked => get_all "Content-Length" r = [] ∧
      ∃ value, get_all "Transfer-Encoding" r = [value] ∧ declares_chunked value
  | Sized n => get_all "Transfer-Encoding" r = [] ∧ 0 ≤ n ≤ server.(srv_max_body_bytes) ∧
      ∃ value, get_all "Content-Length" r = [value] ∧ declares value n
  end.
Lemma body_framing_Go server r f : 1 ≤ server.(srv_max_body_bytes) → body_framing server r = Go f → framed server r f.
Proof.
  intros Hmax. unfold body_framing, check_content_type.
  destruct (nonempty _ && nonempty _) eqn:E1; [done|].
  destruct (check_transfer_encoding _ _) as [|u] eqn:E2; [done|]. apply check_transfer_encoding_Go in E2.
  destruct (_ || _) eqn:E3; [done|]. apply orb_false_iff in E3 as [E3 _]. apply Nat.ltb_ge in E3.
  destruct (bool_decide _) eqn:E4; [|done]. apply bool_decide_eq_true in E4. cbn [negb].
  destruct E2 as [E2|(value & E2 & Hc)]; rewrite E2 in *; cbn [nonempty andb] in *.
  - destruct (check_content_length _ _) as [|n] eqn:E5; [done|]. intros [= <-].
    apply check_content_length_Go in E5 as (value & E5 & Hd & Hn); [|done]. split; [done|]. split; [done|].
    split; [done|]. split; [done|]. by exists value.
  - intros [= <-]. split; [done|]. split; [done|]. split; [by destruct (get_all "Content-Length" r)|by exists value].
Qed.

(** ** The JSON of a body *)
Lemma unique_object_keeps l l' : _unique_json_object l = Ok l' → l' = l ∧ NoDup (map fst l).
Proof.
  unfold _unique_json_object.
  assert (∀ acc, NoDup (map fst acc) → foldR (λ result kv, _ ← require (negb (bool_decide (fst kv ∈ map fst result)))
    (ValueError "duplicate object key"); Ok (result ++ [kv])) acc l = Ok l' →
    l' = acc ++ l ∧ NoDup (map fst (acc ++ l))) as H; [|apply (H []), NoDup_nil_2].
  induction l as [|kv l IH]; intros acc Hacc; cbn [foldR].
  - intros [= <-]. by rewrite app_nil_r.
  - intros (acc' & (u & Hk & [= <-])%bind_Ok & H)%bind_Ok. apply require_Ok, negb_true_iff, bool_decide_eq_false in Hk.
    apply IH in H; [by rewrite <- app_assoc in H|]. rewrite map_app. apply NoDup_app. split; [done|].
    split; [|apply NoDup_singleton]. intros x Hx Hx'. apply list_elem_of_singleton in Hx' as ->. done.
Qed.
Lemma unique_object_raise l e : _unique_json_object l = Raise e → is_value_error e = true.
Proof.
  unfold _unique_json_object. set (f := λ _ _, _). generalize (@nil (string * json)) as acc. subst f.
  induction l as [|kv l IH]; intros acc; cbn [foldR]; [done|].
  intros [H|(acc' & _ & H)]%bind_Raise; [|by apply (IH acc')].
  apply bind_Raise in H as [[_ ->]%require_Raise|(u & _ & H)]; done.
Qed.
Lemma parse_body_Ok body j : parse_body body = Ok j →
  is_utf8 false (string_of_list_ascii body) = true ∧ loads_with tool_hooks (string_of_list_ascii body) = Ok j ∧
  has_big_int j = false.
Proof.
  unfold parse_body, decode_utf8. intros (t & (u & Hu%require_Ok & [= <-])%bind_Ok & (j' & Hj & H)%bind_Ok)%bind_Ok.
  apply bind_Ok in H as (u' & Hb%require_Ok & [= <-]). by apply negb_true_iff in Hb.
Qed.
Lemma lit_of_list l : lit (string_of_list_ascii l) = l.
Proof. apply list_ascii_of_string_of_list_ascii. Qed.

(** What the handlers may rely on *)
Record json_body (body : bytes) (j : json) : Prop := {
  jb_parsed : loads_with tool_hooks (string_of_list_ascii body) = Ok j;
  jb_utf8 : is_utf8 false (string_of_list_ascii body) = true;
  jb_depth : (depth j ≤ MAX_JSON_NESTING)%nat;
  jb_ints : has_big_int j = false;
}.
Lemma nesting_of_loads body j limit : loads_with tool_hooks (string_of_list_ascii body) = Ok j →
  _json_nesting_exceeds body limit = (limit <? depth j)%nat.
Proof.
  intros H. rewrite <- (lit_of_list body). apply (nesting_exact limit tool_hooks); [|done|done].
  intros l l' Hl. by apply unique_object_keeps in Hl as [-> _].
Qed.
Lemma check_json_Go server body b : check_json server body = Ok (Go b) → b = body ∧ ∃ j, json_body body j.
Proof.
  unfold check_json. destruct (_json_nesting_exceeds _ _) eqn:En; [done|].
  destruct (parse_body body) as [j|e] eqn:Ep; [|by destruct (is_value_error e)]. intros [= <-]. split; [done|].
  apply parse_body_Ok in Ep as (Hu & Hl & Hb). exists j. split; try done.
  rewrite (nesting_of_loads _ _ _ Hl) in En. by apply Nat.ltb_ge in En.
Qed.

(** The text of a body, as it was framed *)
Definition framed_text (server : ToolServer) (f : framing) (text body : bytes) : Prop :=
  match f with
  | Chunked => chunked server.(srv_max_body_bytes) text body
  | Sized n => text = body ∧ Z.of_nat (length body) = n
  end.

Lemma read_json_body_Go server r reader reader' body : 1 ≤ server.(srv_max_body_bytes) →
  _read_json_body server r reader = (reader', Ok (Go body)) →
  ∃ f text j, framed server r f ∧ reader_text reader = text ++ reader_text reader' ∧ framed_text server f text body ∧
    json_body body j.
Proof.
  intros Hmax. unfold _read_json_body. destruct (body_framing server r) as [|f] eqn:Ef; [done|].
  apply body_framing_Go in Ef; [|done].
  destruct f as [|n].
  - pose proof (read_chunked_body_spec (R := Reader) (srv_max_body_bytes server) reader ltac:(lia)) as H.
    destruct (_read_chunked_body _ reader) as [reader1 [received|e]]; [|by destruct e].
    intros [= <- Hc]. apply check_json_Go in Hc as [-> (j & Hj)]. destruct H as (text & Ht & Hch).
    exists Chunked, text, j. done.
  - pose proof Ef as (_ & _ & _ & Hn & _). pose proof (read_exact_spec (R := Reader) (Z.to_nat n) reader) as H.
    destruct (read_exact _ reader) as [reader1 [received|e]]; [|by destruct e].
    intros [= <- Hc]. apply check_json_Go in Hc as [-> (j & Hj)].
    inversion H as [? ? rest Ht Hlen [Hrest _]|]; subst. exists (Sized n), received, j.
    split; [done|]. split; [exact Ht|]. split; [|done]. split; [done|lia].
Qed.

(** C24. The scan for nesting is exact: it runs over the bytes before anything is parsed and
    knows brackets, quotes and backslashes only, yet on every text the reader accepts it
    answers whether the value that is read is nested deeper than the limit; a text that is
    refused for its depth is therefore never one within it. *)
Theorem json_nesting_exact (body : bytes) (j : json) (limit : nat) :
  loads_with tool_hooks (string_of_list_ascii body) = Ok j → _json_nesting_exceeds body limit = (limit <? depth j)%nat.
Proof. apply nesting_of_loads. Qed.

(** C21. A body that reaches a tool was framed in one way only and is within every limit.
    Either there is one Transfer-Encoding, chunked, and no Content-Length, and the text
    that arrived is a chunked encoding of the body; or there is one Content-Length and no
    Transfer-Encoding, and the body is as long as it says.  The media type is
    application/json, the body has at most [max_body_bytes] bytes, and it is UTF-8 JSON
    without repeated keys and with at most 64 levels; what follows it stays unread. *)
Theorem read_json_body_sound (server : ToolServer) (r : Request) (reader reader' : Reader) (body : bytes) :
  1 ≤ server.(srv_max_body_bytes) → _read_json_body server r reader = (reader', Ok (Go body)) →
  Z.of_nat (length body) ≤ server.(srv_max_body_bytes) ∧
  ∃ f text j, framed server r f ∧ reader_text reader = text ++ reader_text reader' ∧ framed_text server f text body ∧
    json_body body j.
Proof.
  intros Hmax H. destruct (read_json_body_Go _ _ _ _ _ Hmax H) as (f & text & j & Hf & Ht & Hb & Hj).
  split; [|by exists f, text, j]. destruct f; [by destruct Hb as (? & ? & _ & _ & ? & _)|].
  destruct Hb as [_ <-]. by destruct Hf as (_ & _ & _ & [_ ?] & _).
Qed.
