(* ===== verification/ToolServerSound.v ===== *)
(** * What the tool service guarantees

    Every request that reaches a handler is answered within the limit on responses, but
    for the defects [post_answers] names; the registry holds only what authorised ingest
    requests of this run produced, so a calculation that succeeds rests on them; and the
    slots of concurrent requests are neither lost nor made up. *)
From S2P Require Import Prelude Json JsonTotal Dicts PyTime PyDecimal Sha256 Canonical Base64 Platforms Models.
From S2P Require Import Common TrustedStore Rules Compensation Calculation Evidence Checks Certificate RunStore.
From S2P Require Import Stateful HttpFraming HttpReader HttpChunked JsonNesting ToolServer ToolServerFacts.
Local Open Scope Z_scope.

(** ** Responses *)
(** A response the service composed *)
Definition sent (server : ToolServer) (response : Response) : Prop :=
  ∃ status payload extra, response = _send_json server status payload extra.
Lemma sent_json server status payload extra : sent server (_send_json server status payload extra).
Proof. by exists status, payload, extra. Qed.
Lemma sent_error server status code message : sent server (_send_error server status code message).
Proof. apply sent_json. Qed.
Create HintDb sent.
#[export] Hint Resolve sent_json sent_error : sent.

Lemma sent_within server response :
  Z.of_nat (String.length _RESPONSE_TOO_LARGE_BODY) ≤ server.(srv_max_response_bytes) → sent server response →
  Z.of_nat (String.length response.(resp_body)) ≤ server.(srv_max_response_bytes) ∧
  ("Content-Length", nat_text (String.length response.(resp_body))) ∈ response.(resp_headers).
Proof.
  intros Hmax (status & payload & extra & ->). unfold _send_json.
  destruct (Z.ltb_spec (srv_max_response_bytes server) (Z.of_nat (String.length (print Compact 0 payload)))); cbn [resp_body resp_headers].
  - split; [done|]. right. left.
  - split; [done|]. right. left.
Qed.

(** ** What may escape a handler *)
Definition comparison_error : exn := TypeError "comparing strings with non-ASCII characters is not supported".
Definition escapes (e : exn) : Prop :=
  e = comparison_error ∨ e = ValueError "Invalid IPv6 URL" ∨ ∃ m, e = Unmodelled m.
Lemma escapes_unmodelled m : escapes (Unmodelled m).
Proof. right. right. by exists m. Qed.

(** A check that raises only what may escape and stops only with a response *)
Definition safe_check {A} (server : ToolServer) (m : result (checked Response A)) : Prop :=
  match m with
  | Ok (Stop response) => sent server response
  | Ok (Go _) => True
  | Raise e => escapes e
  end.
Definition safe (server : ToolServer) (m : result Response) : Prop :=
  match m with Ok response => sent server response | Raise e => escapes e end.

Lemma mapR_Raise {A B} (f : A → result B) l e : mapR f l = Raise e → ∃ x, x ∈ l ∧ f x = Raise e.
Proof.
  induction l as [|x l IH]; [done|]. cbn. intros [H|(y & _ & H)]%bind_Raise; [exists x; split; [by left|done]|].
  apply bind_Raise in H as [H|(ys & _ & H)]; [|done]. destruct (IH H) as (z & Hz & E). exists z. split; [by right|done].
Qed.
Lemma canonicalize_raises ex v e : canonicalize ex v = Raise e → is_type_error e || is_value_error e = true.
Proof.
  revert e. assert (∀ l, Forall (λ v, ∀ e, canonicalize ex v = Raise e → is_type_error e || is_value_error e = true) l →
    ∀ e, mapR id (map (canonicalize ex) l) = Raise e → is_type_error e || is_value_error e = true) as Hseq.
  { intros l Hl e (m & Hm & E)%mapR_Raise. apply list_elem_of_fmap in Hm as (x & -> & Hx).
    rewrite Forall_forall in Hl. by apply (Hl x). }
  induction v as [| | | | | d | t | | | | v IH | l IH | l IH | l IH | ] using pyval_ind'; intros e; cbn [canonicalize];
    try done; try (by intros [= <-]).
  - intros [H|(? & _ & H)]%bind_Raise; [|done]. unfold _decimal_text in H.
    apply bind_Raise in H as [[_ ->]%require_Raise|(? & _ & H)]; done.
  - intros [H|(? & _ & H)]%bind_Raise; [|done]. destruct t; [|done]. by injection H as <-.
  - apply IH.
  - intros [H|(? & _ & H)]%bind_Raise; [|done]. apply mapR_Raise in H as ([k m] & Hm & H).
    apply list_elem_of_filter in Hm as [_ Hm]. rewrite elem_of_isort in Hm.
    apply list_elem_of_fmap in Hm as (x & [= -> ->] & Hx). rewrite Forall_forall in IH.
    apply bind_Raise in H as [H|(? & _ & H)]; [|done]. cbn in H. by apply (IH x).
  - intros [H|(? & _ & H)]%bind_Raise; [|done]. by apply (Hseq l).
  - intros [H|(? & _ & H)]%bind_Raise; [|done]. by apply (Hseq l).
Qed.

Lemma parse_body_raises body e : parse_body body = Raise e → is_value_error e = false → escapes e.
Proof.
  unfold parse_body. intros H Hv. apply bind_Raise in H as [H|(t & _ & H)].
  { unfold decode_utf8 in H. apply bind_Raise in H as [[_ ->]%require_Raise|(? & _ & H)]; done. }
  apply bind_Raise in H as [H|(j & _ & H)].
  - pose proof (loads_with_ends tool_hooks (λ e, is_value_error e = true ∨ e = Unmodelled "lone surrogate")) as E.
    specialize (E (λ m, or_introl eq_refl) (or_intror eq_refl)). 
    specialize (E (λ l e H, or_introl (unique_object_raise l e H))).
    specialize (E ltac:(intros w e' [= <-]; by left) t). rewrite H in E.
    destruct E as [E| ->]; [congruence|apply escapes_unmodelled].
  - apply bind_Raise in H as [[_ ->]%require_Raise|(? & _ & H)]; done.
Qed.
Lemma check_json_safe server body : safe_check server (check_json server body).
Proof.
  unfold check_json. destruct (_json_nesting_exceeds _ _); [apply sent_error|].
  destruct (parse_body body) as [j|e] eqn:E; [done|]. destruct (is_value_error e) eqn:Hv; [apply sent_error|].
  by apply (parse_body_raises body).
Qed.

(** Every way a check of the headers stops is a response. *)
Ltac stop_cases := intros response H;
  repeat match type of H with
  | context [match ?x with _ => _ end] => destruct x; try discriminate H
  end; injection H as <-; apply sent_error.
Lemma transfer_encoding_sent server values response :
  check_transfer_encoding server values = Stop response → sent server response.
Proof. revert response. unfold check_transfer_encoding, bad_request. stop_cases. Qed.
Lemma content_type_sent server values response :
  check_content_type server values = Stop response → sent server response.
Proof. revert response. unfold check_content_type, bad_request. stop_cases. Qed.
Lemma content_length_sent server values response :
  check_content_length server values = Stop response → sent server response.
Proof. revert response. unfold check_content_length, bad_request. stop_cases. Qed.
Lemma body_framing_sent server r response : body_framing server r = Stop response → sent server response.
Proof.
  unfold body_framing, bad_request. destruct (_ && _); [intros [= <-]; apply sent_error|].
  destruct (check_transfer_encoding _ _) eqn:E1; [intros [= <-]; by eapply transfer_encoding_sent|].
  destruct (check_content_type _ _) eqn:E2; [intros [= <-]; by eapply content_type_sent|].
  destruct (nonempty _); [done|].
  destruct (check_content_length _ _) eqn:E3; [intros [= <-]; by eapply content_length_sent|done].
Qed.

Lemma read_json_body_safe server r reader : 1 ≤ server.(srv_max_body_bytes) →
  safe_check server (snd (_read_json_body server r reader)).
Proof.
  intros Hmax. unfold _read_json_body. destruct (body_framing server r) as [response|f] eqn:Ef.
  { by apply body_framing_sent in Ef. }
  destruct f as [|n].
  - pose proof (read_chunked_body_spec (R := Reader) (srv_max_body_bytes server) reader ltac:(lia)) as H.
    destruct (_read_chunked_body _ reader) as [reader1 [body|e]]; [apply check_json_safe|].
    destruct H as [->|[->|[->| ->]]]; try apply sent_error.
    destruct (failure_kind reader) as [-> | ->]; apply sent_error.
  - pose proof (read_exact_spec (R := Reader) (Z.to_nat n) reader) as H.
    destruct (read_exact _ reader) as [reader1 [body|e]]; [apply check_json_safe|].
    assert (e = RequestReadTimeout ∨ e = BodyUnexpectedEOF) as [-> | ->] by (inversion H; apply stream_end_kind);
      apply sent_error.
Qed.

Section handlers.
Context `{P : Platform} `{L : ToolLoader}.

Lemma answer_tool_safe server x : safe_check server x → safe server (answer_tool server x).
Proof.
  destruct x as [[response|value]|e]; cbn [answer_tool safe_check]; [done| |].
  - intros _. unfold _send_model. destruct (canonicalize [] value) as [j|e] eqn:E; cbn; [apply sent_json|].
    by rewrite (canonicalize_raises _ _ _ E); apply sent_error.
  - intros He. destruct e; try apply sent_json; try apply sent_error. done.
Qed.
(** What a tool raises is turned into a response; only what is left out is not. *)
Lemma run_tool_answer server s path body now :
  safe server (answer_tool server (snd (run_tool server s path body now))).
Proof.
  assert (∀ x, match x with Ok (Stop response) => sent server response | _ => True end →
    safe server (answer_tool server x)) as H.
  { intros [[response|value]|e] Hx; [done|by apply answer_tool_safe|].
    destruct e; try apply sent_json; try apply sent_error. apply escapes_unmodelled. }
  apply H. unfold run_tool. destruct (bool_decide _).
  - destruct (_ ≫= _) as [x|e]; [|done]. unfold register_result. destruct (sr_status x), (sr_value x); try done.
    destruct (register_all _ _) as [s' [u|e0]]; [done|]. destruct e0; try done; apply sent_error.
  - destruct (bool_decide _); cbn [snd].
    + destruct (load_RuleRetrieveToolCall body) as [call|]; [|done]. cbn. by destruct (rule_retrieve _ _ _ _).
    + destruct (load_DeterministicCalculateToolCall body) as [call|]; [|done]. cbn. by destruct (deterministic_calculate _ _ _ _ _).
Qed.

Lemma url_path_raises url e : url_path url = Raise e → escapes e.
Proof.
  unfold url_path. cbv zeta. intros [H|(rest & _ & H)]%bind_Raise; [|done].
  destruct (without_scheme _) as [|a [|b url']]; try done. destruct (_ && _); [|done].
  destruct (span _ url') as [netloc rest]. destruct (negb _); [injection H as <-; right; by left|].
  destruct (_ || _); [injection H as <-; apply escapes_unmodelled|done].
Qed.
Lemma authorized_raises server r e : _authorized server r = Raise e → e = comparison_error.
Proof.
  unfold _authorized. destruct (span _ _) as [scheme [|c [|d provided]]]; try done.
  destruct (bool_decide _); [|done]. unfold compare_digest. intros [[_ ->]%require_Raise|(u & _ & H)]%bind_Raise; done.
Qed.
Lemma admit_post_safe server r : safe_check server (admit_post server r).
Proof.
  unfold admit_post. destruct (url_path (req_path r)) as [path|e] eqn:E; [|by apply url_path_raises in E].
  cbn [mbind result_bind]. destruct (negb _); [apply sent_error|]. destruct (1 <? _)%nat; [apply sent_error|].
  destruct (_authorized server r) as [[]|e] eqn:Ea; cbn; [done|apply sent_json|left; by apply authorized_raises in Ea].
Qed.
Lemma do_POST_safe server r s reader now : 1 ≤ server.(srv_max_body_bytes) →
  safe server (snd (do_POST server r s reader now)).
Proof.
  intros Hmax. unfold do_POST. pose proof (admit_post_safe server r) as H.
  destruct (admit_post server r) as [[response|path]|e]; [done| |done].
  pose proof (read_json_body_safe server r reader Hmax) as Hb.
  destruct (_read_json_body server r reader) as [reader' [[response|body]|e]]; [done| |done].
  pose proof (run_tool_answer server s path (string_of_list_ascii body) now) as Ht.
  by destruct (run_tool _ _ _ _ _) as [s' x].
Qed.
Lemma do_GET_safe server r : safe server (do_GET server r).
Proof.
  unfold do_GET. destruct (url_path (req_path r)) as [path|e] eqn:E; [|by apply url_path_raises in E]. cbn.
  destruct (negb _); apply sent_json.
Qed.

Lemma server_init_Ok catalog token body response concurrent capacity timeout server s0 :
  server_init catalog token body response concurrent capacity timeout = Ok (server, s0) →
  server = mk_ToolServer catalog token body response concurrent timeout ∧ token ≠ "" ∧ 1 ≤ body ∧
  Z.of_nat (String.length _RESPONSE_TOO_LARGE_BODY) ≤ response ∧ 1 ≤ concurrent ∧ s0 = mk_TrustedArtifactStore capacity ∅.
Proof.
  unfold server_init, store_init. intros H.
  do 6 (apply bind_Ok in H as (? & ?%require_Ok & H)). apply bind_Ok in H as (s & Hs & H). inv_ok. split_bools.
  repeat match goal with H : (_ <=? _) = true |- _ => apply Z.leb_le in H end.
  match goal with H : (_ =? "")%string = false |- _ => apply String.eqb_neq in H end. split_and!; done.
Qed.


(** C25. A token that is not ASCII locks everyone out: the service accepts it at the start,
    but then every POST to a tool that carries one bearer token ends in a TypeError of the
    comparison, before anything is read or registered, and gets no response.  The same
    happens with any server token when the header itself is not ASCII. *)
Theorem non_ascii_token_escapes (server : ToolServer) (r : Request) (s : TrustedArtifactStore) (reader : Reader)
    (now : datetime) (path scheme provided : bytes) :
  url_path r.(req_path) = Ok path → path ∈ protected_paths →
  get_all "Authorization" r = [scheme ++ " "%char :: provided] → all (λ c, negb (Ascii.eqb c " ")) scheme →
  lower scheme = lit "bearer" → provided ≠ [] →
  is_ascii_text provided = false ∨ is_ascii_text (lit server.(srv_api_token)) = false →
  do_POST server r s reader now = (s, reader, Raise comparison_error).
Proof.
  intros Hp Hpath Ha Hs Hb Hne Hascii. unfold do_POST, admit_post. rewrite Hp. cbn [mbind result_bind].
  rewrite bool_decide_eq_true_2 by done. cbn [negb]. rewrite Ha. cbn [length Nat.ltb Nat.leb].
  unfold _authorized. rewrite Ha.
  change (default [] (head [scheme ++ " "%char :: provided])) with (scheme ++ " "%char :: provided).
  rewrite span_app by done.
  destruct provided as [|c provided]; [done|]. rewrite bool_decide_eq_true_2 by done. unfold compare_digest.
  by replace (is_ascii_text (c :: provided) && is_ascii_text (lit (srv_api_token server))) with false
    by (symmetry; apply andb_false_iff; tauto).
Qed.
End handlers.


(** ** Where the registered evidence comes from *)
(** The requests of a run, in the order the lock of the registry puts them *)
Record Post := mk_Post { post_request : Request; post_reader : Reader; post_now : datetime }.

Section provenance.
Context `{P : Platform} `{L : ToolLoader}.

Definition serve_one (server : ToolServer) (s : TrustedArtifactStore) (p : Post) : TrustedArtifactStore :=
  fst (fst (do_POST server p.(post_request) s p.(post_reader) p.(post_now))).
Definition serve (server : ToolServer) (posts : list Post) (s : TrustedArtifactStore) : TrustedArtifactStore :=
  foldl (serve_one server) s posts.

(** The one Authorization header carries the server's token. *)
Definition bears_token (server : ToolServer) (r : Request) : Prop :=
  ∃ scheme, get_all "Authorization" r = [scheme ++ " "%char :: lit server.(srv_api_token)] ∧ lower scheme = lit "bearer".
(** The request reached the tool at [path] with this body. *)
Definition accepted (server : ToolServer) (p : Post) (path body : bytes) : Prop :=
  admit_post server p.(post_request) = Ok (Go path) ∧
  ∃ reader, _read_json_body server p.(post_request) p.(post_reader) = (reader, Ok (Go body)).
(** The request was an ingestion that produced the Evidence [e]. *)
Definition ingests (server : ToolServer) (p : Post) (e : EvidenceObject) : Prop :=
  ∃ body call request x out, accepted server p EVIDENCE_INGEST_PATH body ∧
    load_EvidenceIngestToolCall (string_of_list_ascii body) = Ok call ∧
    to_skill_request call.(tc_arguments) = Ok request ∧ evidence_ingest call.(tc_context) request p.(post_now) = Ok x ∧
    x.(sr_status) = SkillStatus.SUCCESS ∧ x.(sr_value) = Some out ∧ e ∈ out.(eio_evidence_objects).

Lemma authorized_true server r : (length (get_all "Authorization" r) ≤ 1)%nat →
  _authorized server r = Ok true → bears_token server r.
Proof.
  unfold _authorized. destruct (get_all "Authorization" r) as [|value [|]] eqn:E; [done| |cbn; lia].
  intros _. change (default [] (head [value])) with value.
  destruct (span_spec (λ c, negb (Ascii.eqb c " ")) value) as (scheme & rest & -> & -> & _ & Hs).
  destruct rest as [|space [|c provided]]; [done..|]. cbn in Hs. apply negb_false_iff, Ascii.eqb_eq in Hs as ->.
  destruct (bool_decide _) eqn:Eb; [|done]. apply bool_decide_eq_true in Eb. unfold compare_digest.
  intros (? & _ & [= H%bool_decide_eq_true])%bind_Ok. exists scheme. rewrite E. by rewrite <- H.
Qed.
Lemma admit_post_Go server r path : admit_post server r = Ok (Go path) → path ∈ protected_paths ∧ bears_token server r.
Proof.
  unfold admit_post. intros (path' & _ & H)%bind_Ok. destruct (bool_decide _) eqn:Ep in H; [|done].
  apply bool_decide_eq_true in Ep. cbn [negb] in H.
  destruct (Nat.ltb_spec 1 (length (get_all "Authorization" r))) as [|Hl]; [done|].
  apply bind_Ok in H as ([] & Ha & H); [|done]. injection H as <-. split; [done|by apply authorized_true].
Qed.

(** A request leaves the registry as it is, or registers what it ingested. *)
Lemma serve_one_cases server s p :
  serve_one server s p = s ∨
  ∃ l, (∀ e, e ∈ l → ingests server p e) ∧ serve_one server s p = fst (register_all s l).
Proof.
  unfold serve_one, do_POST. destruct (admit_post _ _) as [[response|path]|e] eqn:Ea; [by left| |by left].
  destruct (_read_json_body _ _ _) as [reader [[response|body]|e]] eqn:Eb; [by left| |by left].
  unfold run_tool. destruct (bool_decide (path = EVIDENCE_INGEST_PATH)) eqn:Ep; [|left; by destruct (bool_decide (path = RULE_RETRIEVE_PATH))].
  apply bool_decide_eq_true in Ep as ->.
  destruct (load_EvidenceIngestToolCall _) as [call|e] eqn:El; cbn [mbind result_bind]; [|by left].
  destruct (to_skill_request _) as [request|e] eqn:Er; cbn [mbind result_bind]; [|by left].
  destruct (evidence_ingest _ _ _) as [x|e] eqn:Ex; [|by left]. unfold register_result.
  destruct (sr_status x) eqn:Es, (sr_value x) as [out|] eqn:Eo; try by left.
  right. exists out.(eio_evidence_objects). split; [|by destruct (register_all _ _)].
  intros e He. exists body, call, request, x, out. repeat split; try done. by exists reader.
Qed.

(** What the registry holds was put there by one of the requests. *)
Lemma serve_origin server posts s k p :
  (serve server posts s).(ts_records) !! k = Some p →
  s.(ts_records) !! k = Some p ∨ ∃ post e, post ∈ posts ∧ ingests server post e ∧ registrable e k p.
Proof.
  unfold serve. induction posts as [|post posts IH] using rev_ind; [by left|]. rewrite foldl_snoc.
  set (s1 := foldl _ s posts) in *. intros H.
  assert (s1.(ts_records) !! k = Some p ∨ ∃ e, ingests server post e ∧ registrable e k p) as [H1|(e & He & Hr)].
  { destruct (serve_one_cases server s1 post) as [E|(l & Hl & E)]; rewrite E in H; [by left|].
    destruct (register_all_registered s1 l) as [s' _ _ Hrec _|]; cbn [fst] in H; [|by left].
    apply Hrec in H as [H|(e & He & Hr)]; [by left|right]. exists e. split; [by apply Hl|done]. }
  - destruct (IH H1) as [|(post' & e & Hp & ?)]; [by left|right]. exists post', e. split; [|done].
    apply elem_of_app. by left.
  - right. exists post, e. split; [|done]. apply elem_of_app. right. by left.
Qed.

(** One piece of Evidence is another in all that the hash and the registry see. *)
Lemma registered_same (e0 e : EvidenceObject) ctx h p :
  registrable e0 (ctx.(ctx_tenant_id), ctx.(ctx_case_id), ctx.(ctx_trace_id), e.(ev_meta).(meta_artifact_id), h) p →
  canonical_json [] (to_py e) = Ok p →
  meta_scope e0.(ev_meta) = context_scope ctx ∧ canonicalize [] (to_py e) = canonicalize [] (to_py e0).
Proof.
  intros (_ & _ & _ & _ & Hk & Hp0) Hp. unfold _key_from_artifact in Hk.
  destruct (meta_content_hash (ev_meta e0)) as [h0|]; [|done]. injection Hk as Ht Hc Htr _ _.
  unfold meta_scope, context_scope. split; [by rewrite Ht, Hc, Htr|].
  assert (∀ e : EvidenceObject, canonical_json [] (to_py e) = Ok p → wf_py (to_py e) = true) as Hwf.
  { intros e1 (j & Hj & _)%bind_Ok. by eapply evidence_canonical_wf. }
  destruct (canonicalize_from_bytes [] (to_py e) (to_py e0) p) as (j & -> & ->); auto.
Qed.

(** C19. The trust of a calculation, end to end.  In a run of a started server, a
    calculation succeeds only for a request that carried the server's token, and only on
    Evidence each piece of which is, in canonical form, one that an earlier request of the
    run produced: that request carried the token as well, was an ingestion that succeeded,
    and belongs to the tenant, case and trace of the calculation.  Evidence from outside
    the run, of another case, or changed since is never calculated with. *)
Theorem service_calculation_sound (catalog : RuleCatalog) (token : string) (max response concurrent capacity : Z)
    (timeout : pyfloat) (server : ToolServer) (s0 : TrustedArtifactStore) (posts : list Post) (post : Post)
    (body : bytes) (call : ToolCall CalculateRequest) (x : SkillResult CalculateOutput) :
  server_init catalog token max response concurrent capacity timeout = Ok (server, s0) →
  accepted server post DETERMINISTIC_CALCULATE_PATH body →
  load_DeterministicCalculateToolCall (string_of_list_ascii body) = Ok call →
  deterministic_calculate call.(tc_context) call.(tc_arguments) catalog (serve server posts s0) post.(post_now) = Ok x →
  x.(sr_status) = SkillStatus.SUCCESS →
  snd (run_tool server (serve server posts s0) DETERMINISTIC_CALCULATE_PATH (string_of_list_ascii body) post.(post_now))
    = Ok (Go (to_py x)) ∧
  bears_token server post.(post_request) ∧
  calculation_basis call.(tc_context) call.(tc_arguments) catalog (serve server posts s0) ∧
  ∀ e, e ∈ call.(tc_arguments).(creq_evidence) → ∃ earlier e0, earlier ∈ posts ∧ ingests server earlier e0 ∧
    bears_token server earlier.(post_request) ∧ meta_scope e0.(ev_meta) = context_scope call.(tc_context) ∧
    canonicalize [] (to_py e) = canonicalize [] (to_py e0).
Proof.
  intros (-> & _ & _ & _ & _ & ->)%server_init_Ok (Hadmit & _) Hcall Hx Hs. set (server := mk_ToolServer _ _ _ _ _ _) in *.
  split; [|split; [by eapply admit_post_Go|]].
  { unfold run_tool. rewrite !bool_decide_eq_false_2 by done. cbn [snd]. rewrite Hcall. cbn [mbind result_bind].
    change (srv_catalog server) with catalog. by rewrite Hx. }
  destruct (calculate_cases _ _ _ _ _ _ Hx) as [[Hb _]|(_ & Hbasis & _)]; [congruence|]. split; [done|].
  intros e He. pose proof (cb_evidence _ _ _ _ Hbasis) as Hev. rewrite Forall_forall in Hev.
  destruct (Hev e He) as (_ & _ & _ & _ & _ & (h & p & _ & Hp & Hl)%contains_true).
  apply serve_origin in Hl as [Hl|(earlier & e0 & Hin & Hi & Hr)]; [by cbn in Hl; rewrite lookup_empty in Hl|].
  exists earlier, e0. split; [done|]. split; [done|].
  destruct (registered_same e0 e _ h p Hr Hp) as [Hscope Hcan]. split; [|done].
  destruct Hi as (? & ? & ? & ? & ? & (Ha & _) & _). by eapply admit_post_Go.
Qed.
End provenance.

(** ** The slots *)
Definition slots_wf (max : Z) (x : Slots) : Prop :=
  x.(slots_initial) = max ∧ 0 ≤ x.(slots_free) ∧ x.(slots_free) + Z.of_nat x.(slots_threads) = max.
Lemma slots_step_wf max x y : slots_wf max x → slots_step x y → slots_wf max y.
Proof.
  unfold slots_wf. intros H Hs. revert H. destruct Hs as [starts x'|x' Hn]; intros (Hi & Hf & Ht).
  - unfold process_request, acquire. destruct (Z.eqb_spec (slots_free x') 0); [cbn; lia|].
    destruct starts; unfold release; cbn; [lia|]. destruct (Z.ltb_spec (slots_free x' - 1) (slots_initial x')); cbn; lia.
  - unfold thread_ends, release. cbn. destruct (Z.ltb_spec (slots_free x') (slots_initial x')); cbn; lia.
Qed.
Lemma slots_reach_wf max x y : slots_wf max x → rtc slots_step x y → slots_wf max y.
Proof. intros Hx H. induction H; [done|]. apply IHrtc. by eapply slots_step_wf. Qed.

(** C22. The slots of a started server are neither lost nor made up.  However requests
    arrive, threads end and threads fail to start, the free slots and the running threads
    add up to [max_concurrent_requests]; the semaphore is never released too often; and a
    request is refused as busy exactly when that many threads are running, with a slot
    free again as soon as one of them ends. *)
Theorem request_slots_bounded (catalog : RuleCatalog) (token : string) (body response concurrent capacity : Z)
    (timeout : pyfloat) (server : ToolServer) (s0 : TrustedArtifactStore) (x : Slots) (starts : result unit) :
  server_init catalog token body response concurrent capacity timeout = Ok (server, s0) →
  rtc slots_step (slots_init server) x →
  Z.of_nat x.(slots_threads) ≤ concurrent ∧ x.(slots_free) = concurrent - Z.of_nat x.(slots_threads) ∧
  ((∃ reply, snd (process_request starts x) = Ok (Some reply)) ↔ Z.of_nat x.(slots_threads) = concurrent) ∧
  (∀ e, snd (process_request starts x) = Raise e → starts = Raise e ∧ fst (process_request starts x) = x) ∧
  ((0 < x.(slots_threads))%nat → snd (thread_ends x) = Ok () ∧ 0 < (fst (thread_ends x)).(slots_free)).
Proof.
  intros (-> & _ & _ & _ & Hc & _)%server_init_Ok Hx.
  assert (slots_wf concurrent x) as (Hi & Hf & Ht).
  { eapply slots_reach_wf; [|exact Hx]. unfold slots_wf, slots_init. cbn. lia. }
  split; [lia|]. split; [lia|]. unfold process_request, acquire, release, thread_ends, release.
  destruct x as [initial free threads]. cbn [slots_initial slots_free slots_threads] in *. subst initial.
  destruct (Z.eqb_spec free 0) as [->|Hfree]; cbn [snd fst slots_free].
  - split; [split; [lia|by eexists]|]. split; [done|]. intros Hn. destruct (Z.ltb_spec 0 concurrent); cbn; [split; [done|lia]|lia].
  - assert ((free - 1 <? concurrent) = true) as E by (apply Z.ltb_lt; lia).
    destruct starts as [u|e]; cbn -[Z.ltb].
    + split; [split; [by intros [? ?]|lia]|]. split; [done|]. intros Hn. destruct (Z.ltb_spec free concurrent); cbn; [split; [done|lia]|lia].
    + rewrite E. cbn. split; [split; [by intros [? ?]|lia]|]. split.
      * intros e' [= <-]. split; [done|]. f_equal. lia.
      * intros Hn. destruct (Z.ltb_spec free concurrent); cbn; [split; [done|lia]|lia].
Qed.
