(* ===== verification/ToolServerDemo.v ===== *)
(** * A concrete run of the tool service

    A started server, a document that is ingested in one request and calculated with in the
    next, which arrives in chunks and in pieces; and the requests that apply the theorems
    about the decoder, the handlers and the slots.  The loader is a table of the bodies. *)
From Stdlib Require Import QArith.
From S2P Require Import Prelude Json Dicts PyTime PyDecimal Sha256 Canonical Base64 Platforms Models.
From S2P Require Import Common TrustedStore Rules Compensation Calculation Evidence Checks Certificate RunStore.
From S2P Require Import Stateful HttpFraming HttpReader HttpChunked JsonNesting ToolServer ToolServerFacts ToolServerSound.
Local Open Scope Z_scope.
#[local] Existing Instance toy_platform.

(** ** The decoder *)
Definition quote : string := char 34.
Definition demo_parts : list bytes := [lit ("{" +:+ quote +:+ "a" +:+ quote +:+ ":"); lit "[1,2]}"].
Definition demo_rest : bytes := lit "GET".
(** One piece per byte *)
Definition demo_trickle (text : bytes) : Reader := mk_Reader [] (map (λ c, [c]) text) false.

Lemma chunked_round_trip_witness :
  ∃ r', _read_chunked_body 64 (demo_trickle (encode_chunked demo_parts ++ demo_rest)) = (r', Ok (concat demo_parts)) ∧
    reader_text r' = demo_rest.
Proof.
  apply chunked_round_trip.
  - repeat constructor; discriminate.
  - vm_compute. discriminate.
  - vm_compute. reflexivity.
  - vm_compute. reflexivity.
Defined.

(** A chunk extension and a trailer are read over; a trailer that names the framing is not. *)
Definition demo_line (s : string) : bytes := lit s ++ CRLF.
Definition demo_chunked (trailer : string) : bytes :=
  demo_line ("3;name=" +:+ quote +:+ "v" +:+ quote) ++ demo_line "abc" ++ demo_line "0" ++ demo_line trailer ++ demo_line "".
Lemma chunked_body_exact_witness :
  (∃ text, demo_chunked "X-Trace: 1" = text ++ [] ∧ chunked 3 text (lit "abc")) ∧
  chunked_error (demo_trickle (demo_chunked "Content-Length: 3"))
    (BodyProtocolError HTTPStatus.BAD_REQUEST "INVALID_CHUNKED_BODY" "chunk framing is malformed").
Proof.
  split.
  - apply (chunked_body_exact 3 (mk_Reader [] [demo_chunked "X-Trace: 1"] false) ltac:(discriminate)).
    eexists. split; vm_compute; reflexivity.
  - eapply (chunked_body_exact 3 (demo_trickle (demo_chunked "Content-Length: 3")) ltac:(discriminate)).
    vm_compute. reflexivity.
Defined.

(** Brackets in a string do not count. *)
Definition demo_nested : json := JObj [("a", JArr [JArr [JInt 1]; JStr "]]{{{"])].
Definition demo_nested_body : bytes := Eval vm_compute in lit (dumps Compact demo_nested).
Lemma json_nesting_exact_witness :
  _json_nesting_exceeds demo_nested_body 2 = true ∧ _json_nesting_exceeds demo_nested_body 3 = false.
Proof. split; (rewrite (json_nesting_exact demo_nested_body demo_nested); vm_compute; reflexivity). Defined.

(** ** The server and its requests *)
Definition demo_token : string := "demo-token".
Definition demo_tool_server : ToolServer := mk_ToolServer demo_catalog demo_token 4096 4096 2 (Finite 5).
Definition demo_tool_store : TrustedArtifactStore := mk_TrustedArtifactStore 16 ∅.
Lemma demo_tool_init :
  server_init demo_catalog demo_token 4096 4096 2 16 (Finite 5) = Ok (demo_tool_server, demo_tool_store).
Proof. vm_compute. reflexivity. Qed.

Definition demo_headers (framing : bytes * bytes) : list (bytes * bytes) :=
  [(lit "Authorization", lit "bearer demo-token"); (lit "Content-Type", lit "application/json; charset=utf-8"); framing].
Definition demo_text (tool : string) : string := Eval vm_compute in dumps Compact (JObj [("tool", JStr tool)]).
(** One request says how long its body is, the other sends it in chunks and in pieces. *)
Definition demo_sized (path : bytes) (text : string) : Post := mk_Post
  (mk_Request (lit "POST") path (demo_headers (lit "Content-Length", lit (nat_text (String.length text)))))
  (mk_Reader [] [lit text] false) (Aware 0).
Definition demo_in_chunks (path : bytes) (text : string) : Post := mk_Post
  (mk_Request (lit "POST") path (demo_headers (lit "Transfer-Encoding", lit "chunked")))
  (demo_trickle (encode_chunked [lit text])) (Aware 0).

Definition demo_fields : string := Eval vm_compute in dumps Compact (JObj
  [("employment_start_date", JStr "2020-01-15"); ("local_previous_year_monthly_average_wage", JStr "12000.00");
   ("monthly_wage_average", JStr "12000.00"); ("planned_termination_date", JStr "2026-07-31")]).
Definition demo_ingest_arguments : EvidenceIngestToolArguments := Eval vm_compute in
  mk_EvidenceIngestToolArguments "DOC-1" "application/json" (sha256_bytes demo_fields) (b64encode false demo_fields).
Definition demo_ingest_call : ToolCall EvidenceIngestToolArguments :=
  mk_ToolCall "SYNTHETIC" (demo_agent "PF-A2") demo_ingest_arguments.
Definition demo_tool_evidence : list EvidenceObject := Eval vm_compute in
  match (request ← to_skill_request demo_ingest_arguments; evidence_ingest (demo_agent "PF-A2") request (Aware 0)) with
  | Ok x => match x.(sr_value) with Some out => out.(eio_evidence_objects) | None => [] end
  | Raise _ => []
  end.
Definition demo_calculate_call : ToolCall CalculateRequest :=
  mk_ToolCall "SYNTHETIC" (demo_agent "PF-A4")
    (mk_CalculateRequest demo_tool_evidence demo_retrieved.(rro_citations) demo_retrieved.(rro_rule_scope) SUPPORTED_FORMULA).

Definition tool_table {A} (caller : string) (validate : A → result A) (name : string) (call : ToolCall A) (body : string)
    : result (ToolCall A) :=
  if String.eqb body (demo_text name) then ToolCall_validate caller validate call else Raise (ValidationError "json_invalid").
#[local] Instance demo_tool_loader : ToolLoader := {|
  load_EvidenceIngestToolCall := tool_table "PF-A2" EvidenceIngestToolArguments_validate "ingest" demo_ingest_call;
  load_RuleRetrieveToolCall := tool_table "PF-A3" RuleRetrieveRequest_validate "rules"
    (mk_ToolCall "SYNTHETIC" (demo_agent "PF-A3") demo_scope_query);
  load_DeterministicCalculateToolCall := tool_table "PF-A4" Ok "calculate" demo_calculate_call;
  load_RuleCatalog_json _ := Ok demo_catalog;
  validation_errors _ := [];
|}.

Definition demo_posts : list Post := [demo_sized EVIDENCE_INGEST_PATH (demo_text "ingest")].
Definition demo_calculate_post : Post := demo_in_chunks DETERMINISTIC_CALCULATE_PATH (demo_text "calculate").
Definition demo_served : TrustedArtifactStore := serve demo_tool_server demo_posts demo_tool_store.

Definition demo_calculated : SkillResult CalculateOutput := Eval vm_compute in
  match deterministic_calculate demo_calculate_call.(tc_context) demo_calculate_call.(tc_arguments) demo_catalog
    demo_served (Aware 0) with
  | Ok x => x | Raise _ => mk_SkillResult SkillStatus.BLOCKED None [] "" None [] end.
Lemma demo_accepted : accepted demo_tool_server demo_calculate_post DETERMINISTIC_CALCULATE_PATH (lit (demo_text "calculate")).
Proof. split; [vm_compute; reflexivity|]. eexists. vm_compute. reflexivity. Qed.

Lemma service_calculation_sound_witness :
  ∃ e0, ingests demo_tool_server (demo_sized EVIDENCE_INGEST_PATH (demo_text "ingest")) e0 ∧
    e0.(ev_meta).(meta_tenant_id) = "TENANT-1".
Proof.
  destruct (service_calculation_sound demo_catalog demo_token 4096 4096 2 16 (Finite 5) demo_tool_server demo_tool_store
    demo_posts demo_calculate_post (lit (demo_text "calculate")) demo_calculate_call demo_calculated demo_tool_init
    demo_accepted) as (_ & _ & _ & H).
  - vm_compute. reflexivity.
  - vm_compute. reflexivity.
  - vm_compute. reflexivity.
  - destruct (H (hd (demo_evidence "f" "v") demo_tool_evidence)) as (earlier & e0 & Hin & Hi & _ & Hs & _); [left|].
    apply list_elem_of_singleton in Hin as ->. exists e0. split; [exact Hi|]. by injection Hs.
Defined.

Lemma read_json_body_sound_witness :
  ∃ f text j, framed demo_tool_server demo_calculate_post.(post_request) f ∧
    framed_text demo_tool_server f text (lit (demo_text "calculate")) ∧ json_body (lit (demo_text "calculate")) j.
Proof.
  destruct (_read_json_body demo_tool_server demo_calculate_post.(post_request) demo_calculate_post.(post_reader))
    as [reader x] eqn:E.
  destruct (read_json_body_sound demo_tool_server demo_calculate_post.(post_request) demo_calculate_post.(post_reader) reader
    (lit (demo_text "calculate"))) as (_ & f & text & j & Hf & _ & Ht & Hj).
  - discriminate.
  - rewrite E. f_equal. change x with (snd (reader, x)). rewrite <- E. vm_compute. reflexivity.
  - exists f, text, j. split; [exact Hf|]. split; [exact Ht|exact Hj].
Defined.

(** A body that never arrives in full is answered too. *)
Definition demo_short : Post :=
  mk_Post (demo_sized EVIDENCE_INGEST_PATH (demo_text "ingest")).(post_request) (mk_Reader [] [lit "{"] true) (Aware 0).

(** The token an operator typed with an accent *)
Definition demo_accented : string := "caf" +:+ char 195 +:+ char 169.
Lemma non_ascii_token_escapes_witness :
  ∃ s0, serve_tool_service 8080 true (Some "") (sha256_bytes "") demo_accented 4096 4096 2 16 (Finite 5) =
      Ok (mk_ToolServer demo_catalog demo_accented 4096 4096 2 (Finite 5), s0) ∧
    api_token_from_environment (Some demo_accented) = Ok demo_accented ∧
    do_POST (mk_ToolServer demo_catalog demo_accented 4096 4096 2 (Finite 5))
      (demo_sized EVIDENCE_INGEST_PATH (demo_text "ingest")).(post_request) s0 demo_short.(post_reader) (Aware 0) =
      (s0, demo_short.(post_reader), Raise comparison_error).
Proof.
  exists demo_tool_store. split; [vm_compute; reflexivity|]. split; [vm_compute; reflexivity|].
  eapply (non_ascii_token_escapes _ _ _ _ _ EVIDENCE_INGEST_PATH (lit "bearer") (lit demo_token)).
  - vm_compute. reflexivity.
  - left.
  - vm_compute. reflexivity.
  - repeat constructor.
  - vm_compute. reflexivity.
  - discriminate.
  - right. vm_compute. reflexivity.
Defined.

(** Two requests run, a third is refused; one ends, and there is a slot again. *)
Definition demo_started (n : nat) : Slots := Nat.iter n (λ x, fst (process_request (Ok ()) x)) (slots_init demo_tool_server).
Lemma request_slots_bounded_witness :
  (∃ reply, snd (process_request (Ok ()) (demo_started 2)) = Ok (Some reply)) ∧
  0 < (fst (thread_ends (demo_started 2))).(slots_free).
Proof.
  assert (rtc slots_step (slots_init demo_tool_server) (demo_started 2)) as Hx.
  { eapply rtc_l; [apply (step_request (Ok ()))|]. eapply rtc_l; [apply (step_request (Ok ()))|apply rtc_refl]. }
  destruct (request_slots_bounded demo_catalog demo_token 4096 4096 2 16 (Finite 5) demo_tool_server demo_tool_store
    (demo_started 2) (Ok ()) demo_tool_init Hx) as (_ & _ & Hb & _ & He).
  split; [apply Hb; reflexivity|apply He]. vm_compute. repeat constructor.
Defined.
