(* ===== verification/DemoFs.v ===== *)
(** * demo_init.py: the file system it writes to

    Inodes hold directories, files, and everything else; a descriptor is a number open on an
    inode.  Another process may act before any system call, and any call may fail: an
    [event] says what happens before one call, whether it fails, and how much a write
    takes; when the events are used up nothing more happens.  [fs_parent] is what the path
    of the parent directory resolves to at the moment.  An inode number stands for the pair
    of st_dev and st_ino; it is not used again while the descriptors that pin it are open,
    so numbers are never reused here. *)
From S2P Require Import Prelude Json Stateful.

Inductive node :=
| Dir (entries : gmap string nat)
| File (content : string)
| Other.
#[export] Instance node_eq_dec : EqDecision node.
Proof. solve_decision. Defined.

Record fs := mk_fs {
  fs_nodes : gmap nat node;
  fs_next : nat;
  fs_parent : option nat;
}.

(** ** Other processes *)
Inductive env_step :=
| env_create (dir : nat) (name : string) (n : node)
| env_link (dir : nat) (name : string) (ino : nat)
| env_unlink (dir : nat) (name : string)
| env_write (ino : nat) (content : string)
| env_parent (ino : option nat).

Definition set_entries (f : fs) (dir : nat) (entries : gmap string nat) : fs :=
  mk_fs (<[dir := Dir entries]> f.(fs_nodes)) f.(fs_next) f.(fs_parent).
Definition add_node (f : fs) (n : node) : fs :=
  mk_fs (<[f.(fs_next) := n]> f.(fs_nodes)) (S f.(fs_next)) f.(fs_parent).
Definition set_content (f : fs) (ino : nat) (content : string) : fs :=
  mk_fs (<[ino := File content]> f.(fs_nodes)) f.(fs_next) f.(fs_parent).

(** A rename is a link and an unlink. *)
Definition env_apply (f : fs) (step : env_step) : fs :=
  match step with
  | env_create dir name n =>
      match f.(fs_nodes) !! dir with
      | Some (Dir entries) => set_entries (add_node f n) dir (<[name := f.(fs_next)]> entries)
      | _ => f
      end
  | env_link dir name ino =>
      match f.(fs_nodes) !! dir, f.(fs_nodes) !! ino with
      | Some (Dir entries), Some _ => set_entries f dir (<[name := ino]> entries)
      | _, _ => f
      end
  | env_unlink dir name =>
      match f.(fs_nodes) !! dir with
      | Some (Dir entries) => set_entries f dir (delete name entries)
      | _ => f
      end
  | env_write ino content =>
      match f.(fs_nodes) !! ino with
      | Some (File _) => set_content f ino content
      | _ => f
      end
  | env_parent ino => mk_fs f.(fs_nodes) f.(fs_next) ino
  end.
(** The inode a step changes *)
Definition touched (step : env_step) : option nat :=
  match step with
  | env_create dir _ _ | env_link dir _ _ | env_unlink dir _ => Some dir
  | env_write ino _ => Some ino
  | env_parent _ => None
  end.

Record event := mk_event {
  ev_before : list env_step;
  ev_fails : bool;
  ev_takes : option nat;
}.
Definition uneventful : event := mk_event [] false None.

(** ** The state of a run *)
(** [_PinnedDirectory], with its descriptor and the inode that was pinned *)
Record PinnedDirectory := mk_PinnedDirectory {
  pd_name : string;
  pd_parent_fd : nat;
  pd_fd : nat;
  pd_inode : nat;
}.
(** [_PinnedFile]; [pf_in_root] is [record.parent is root]. *)
Record PinnedFile := mk_PinnedFile {
  pf_name : string;
  pf_parent : PinnedDirectory;
  pf_in_root : bool;
  pf_fd : nat;
  pf_inode : nat;
  pf_expected_payload : string;
}.
(** The system, and the variables of [initialize_demo] that its calls fill *)
Record Session := mk_Session {
  ss_fs : fs;
  ss_fds : gmap nat nat;
  ss_next_fd : nat;
  ss_events : list event;
  ss_root : option PinnedDirectory;
  ss_children : list (string * PinnedDirectory);
  ss_written : list PinnedFile;
}.
Definition with_fs (s : Session) (f : fs) : Session :=
  mk_Session f s.(ss_fds) s.(ss_next_fd) s.(ss_events) s.(ss_root) s.(ss_children) s.(ss_written).
Definition with_fds (s : Session) (fds : gmap nat nat) (next : nat) : Session :=
  mk_Session s.(ss_fs) fds next s.(ss_events) s.(ss_root) s.(ss_children) s.(ss_written).
Definition with_root (s : Session) (root : PinnedDirectory) : Session :=
  mk_Session s.(ss_fs) s.(ss_fds) s.(ss_next_fd) s.(ss_events) (Some root) s.(ss_children) s.(ss_written).
Definition with_child (s : Session) (name : string) (child : PinnedDirectory) : Session :=
  mk_Session s.(ss_fs) s.(ss_fds) s.(ss_next_fd) s.(ss_events) s.(ss_root) (s.(ss_children) ++ [(name, child)])
    s.(ss_written).
Definition with_written (s : Session) (record : PinnedFile) : Session :=
  mk_Session s.(ss_fs) s.(ss_fds) s.(ss_next_fd) s.(ss_events) s.(ss_root) s.(ss_children) (s.(ss_written) ++ [record]).

(** ** System calls *)
Notation io := (stateful Session).
Definition io_error : exn := OSError "Input/output error".
Definition is_os_error (e : exn) : bool :=
  match e with OSError _ | FileExistsError | FileNotFoundError => true | _ => false end.

Definition next_event (s : Session) : event * Session :=
  match s.(ss_events) with
  | [] => (uneventful, s)
  | ev :: events =>
      (ev, mk_Session (foldl env_apply s.(ss_fs) ev.(ev_before)) s.(ss_fds) s.(ss_next_fd) events s.(ss_root)
             s.(ss_children) s.(ss_written))
  end.
Definition syscall {A} (act : event → io A) : io A := λ s,
  let '(ev, s) := next_event s in
  if ev.(ev_fails) then (s, Raise io_error) else act ev s.

Inductive mode := S_IFDIR | S_IFREG | S_IFOTHER.
#[export] Instance mode_eq_dec : EqDecision mode.
Proof. solve_decision. Defined.
Definition mode_of (n : node) : mode :=
  match n with Dir _ => S_IFDIR | File _ => S_IFREG | Other => S_IFOTHER end.

(** The entries of the directory a descriptor is open on *)
Definition entries_at (s : Session) (fd : nat) : option (nat * gmap string nat) :=
  dir ← s.(ss_fds) !! fd;
  match s.(ss_fs).(fs_nodes) !! dir with Some (Dir entries) => Some (dir, entries) | _ => None end.
Definition open_fd (ino : nat) : io nat := λ s,
  (with_fds s (<[s.(ss_next_fd) := ino]> s.(ss_fds)) (S s.(ss_next_fd)), Ok s.(ss_next_fd)).

(** [os.stat(name, dir_fd=fd, follow_symlinks=False)] *)
Definition look_up (s : Session) (fd : nat) (name : string) : result (nat * node) :=
  match entries_at s fd with
  | None => Raise io_error
  | Some (_, entries) =>
      match entries !! name with
      | None => Raise FileNotFoundError
      | Some ino => match s.(ss_fs).(fs_nodes) !! ino with Some n => Ok (ino, n) | None => Raise io_error end
      end
  end.
Definition stat_at (fd : nat) (name : string) : io (nat * mode) :=
  syscall (λ _ s, (s, match look_up s fd name with Ok (ino, n) => Ok (ino, mode_of n) | Raise e => Raise e end)).
Definition fstat (fd : nat) : io (nat * mode) :=
  syscall (λ _ s, (s,
    match (ino ← s.(ss_fds) !! fd; n ← s.(ss_fs).(fs_nodes) !! ino; Some (ino, mode_of n)) with
    | Some x => Ok x
    | None => Raise io_error
    end)).
Definition mkdir_at (fd : nat) (name : string) : io unit :=
  syscall (λ _ s,
    match entries_at s fd with
    | None => (s, Raise io_error)
    | Some (dir, entries) =>
        if bool_decide (is_Some (entries !! name)) then (s, Raise FileExistsError)
        else (with_fs s (set_entries (add_node s.(ss_fs) (Dir ∅)) dir (<[name := s.(ss_fs).(fs_next)]> entries)), Ok ())
    end).
(** [os.open] with O_DIRECTORY and O_NOFOLLOW *)
Definition open_directory_at (fd : nat) (name : string) : io nat :=
  syscall (λ _ s,
    match look_up s fd name with
    | Raise e => (s, Raise e)
    | Ok (ino, Dir _) => open_fd ino s
    | Ok _ => (s, Raise io_error)
    end).
(** [os.open] with O_CREAT and O_EXCL *)
Definition open_new_at (fd : nat) (name : string) : io nat :=
  syscall (λ _ s,
    match entries_at s fd with
    | None => (s, Raise io_error)
    | Some (dir, entries) =>
        if bool_decide (is_Some (entries !! name)) then (s, Raise FileExistsError)
        else
          let ino := s.(ss_fs).(fs_next) in
          open_fd ino (with_fs s (set_entries (add_node s.(ss_fs) (File "")) dir (<[name := ino]> entries)))
    end).

(** A write at an offset; what lies between is filled with zero bytes. *)
Definition overwrite (content : string) (offset : nat) (data : string) : string :=
  str_take offset content +:+ string_of_list_ascii (repeat Ascii.zero (offset - String.length content)) +:+ data +:+
  str_drop (offset + String.length data) content.
(** [os.write]: the number of bytes it took *)
Definition write_fd (fd offset : nat) (data : string) : io nat :=
  syscall (λ ev s,
    match (ino ← s.(ss_fds) !! fd; n ← s.(ss_fs).(fs_nodes) !! ino; Some (ino, n)) with
    | Some (ino, File content) =>
        let count := from_option (Nat.min (String.length data)) (String.length data) ev.(ev_takes) in
        (with_fs s (set_content s.(ss_fs) ino (overwrite content offset (str_take count data))), Ok count)
    | _ => (s, Raise io_error)
    end).
(** [os.read]: at most as many bytes as the event lets through, but one if there is one *)
Definition read_fd (fd offset size : nat) : io string :=
  syscall (λ ev s, (s,
    match (ino ← s.(ss_fds) !! fd; s.(ss_fs).(fs_nodes) !! ino) with
    | Some (File content) =>
        Ok (str_take (Nat.min size (from_option (Nat.max 1) size ev.(ev_takes))) (str_drop offset content))
    | _ => Raise io_error
    end)).
(** [os.fsync] and [os.lseek] *)
Definition sync (fd : nat) : io unit := syscall (λ _ s, (s, Ok ())).
Definition seek (fd : nat) : io unit := syscall (λ _ s, (s, Ok ())).
Definition listdir (fd : nat) : io (gset string) :=
  syscall (λ _ s, (s, match entries_at s fd with Some (_, entries) => Ok (dom entries) | None => Raise io_error end)).
Definition unlink_at (fd : nat) (name : string) : io unit :=
  syscall (λ _ s,
    match entries_at s fd, look_up s fd name with
    | Some (dir, entries), Ok (_, (File _ | Other)) => (with_fs s (set_entries s.(ss_fs) dir (delete name entries)), Ok ())
    | _, Raise e => (s, Raise e)
    | _, _ => (s, Raise io_error)
    end).
Definition rmdir_at (fd : nat) (name : string) : io unit :=
  syscall (λ _ s,
    match entries_at s fd, look_up s fd name with
    | Some (dir, entries), Ok (_, Dir inside) =>
        if bool_decide (inside = ∅) then (with_fs s (set_entries s.(ss_fs) dir (delete name entries)), Ok ())
        else (s, Raise io_error)
    | _, Raise e => (s, Raise e)
    | _, _ => (s, Raise io_error)
    end).
(** [os.close], which succeeds on an open descriptor *)
Definition close_fd (fd : nat) : io unit := λ s, (with_fds s (delete fd s.(ss_fds)) s.(ss_next_fd), Ok ()).

(** *** The path of the parent directory *)
(** [logical_parent.mkdir(parents=True, exist_ok=True)] *)
Definition mkdir_parent : io unit :=
  syscall (λ _ s,
    match s.(ss_fs).(fs_parent) with
    | None =>
        let f := add_node s.(ss_fs) (Dir ∅) in
        (with_fs s (mk_fs f.(fs_nodes) f.(fs_next) (Some s.(ss_fs).(fs_next))), Ok ())
    | Some ino =>
        (s, match s.(ss_fs).(fs_nodes) !! ino with Some (Dir _) => Ok () | _ => Raise FileExistsError end)
    end).
(** [resolve(strict=True)] *)
Definition resolve_parent : io unit :=
  syscall (λ _ s, (s, match s.(ss_fs).(fs_parent) with Some _ => Ok () | None => Raise FileNotFoundError end)).
Definition open_parent : io nat :=
  syscall (λ _ s,
    match s.(ss_fs).(fs_parent) with
    | None => (s, Raise FileNotFoundError)
    | Some ino =>
        match s.(ss_fs).(fs_nodes) !! ino with Some (Dir _) => open_fd ino s | _ => (s, Raise io_error) end
    end).
(** [os.stat] of the path of the parent and of the path of the output *)
Definition stat_parent : io (nat * mode) :=
  syscall (λ _ s, (s,
    match (ino ← s.(ss_fs).(fs_parent); n ← s.(ss_fs).(fs_nodes) !! ino; Some (ino, mode_of n)) with
    | Some x => Ok x
    | None => Raise FileNotFoundError
    end)).
Definition stat_output (name : string) : io (nat * mode) :=
  syscall (λ _ s, (s,
    match (dir ← s.(ss_fs).(fs_parent); s.(ss_fs).(fs_nodes) !! dir) with
    | Some (Dir entries) =>
        match (ino ← entries !! name; n ← s.(ss_fs).(fs_nodes) !! ino; Some (ino, mode_of n)) with
        | Some x => Ok x
        | None => Raise FileNotFoundError
        end
    | _ => Raise FileNotFoundError
    end)).
