(* ===== verification/DemoInit.v ===== *)
(** * demo_init.py: installing the demo

    The assets are checked before anything is created; then a directory is created, pinned
    by a descriptor, filled, and verified; on any failure the entries that are still the
    pinned inodes are removed, and in the end every descriptor is closed.  What a resource
    of the package holds is an argument. *)
From S2P Require Import Prelude Json Dicts Stateful PyTime PyDecimal Sha256 Canonical Platforms Models Common Evidence RunStore.
From S2P Require Import DemoFs.

Record DemoInitializationResult := mk_DemoInitializationResult {
  dir_classification : string;
  dir_files : list string;
}.

Definition DEMO_ASSET_FILES : list string :=
  ["README.md"; "case/contract.json"; "case/manifest.json"; "case/payroll.json"; "case/termination_notice.json";
   "rules/cn_labor_contract_law.catalog.json"].
Definition DEMO_ASSET_DIGESTS : list (string * string) :=
  [("README.md", "sha256:d554efb6eddbf754282fb02f0c41595d159fe6cd23184cf73177c17c9f6747e1");
   ("case/contract.json", "sha256:f17e64030475d0a6de6d0f0c340cab223ea64f9addca2789c523fcc3513914ff");
   ("case/manifest.json", "sha256:c659dee0e33e0e63a5d51f82476a9b98d7287388a2dd13a2798f1543ca102c30");
   ("case/payroll.json", "sha256:2979d172f73d3bc83cc7c3a673e39a12b68026afa05424bcf7877cbe7c3300f5");
   ("case/termination_notice.json", "sha256:529aa937fdd04b08e6fdb87c2dc0dbb0eac8c27b4b373f03b001ad5bbf489eca");
   ("rules/cn_labor_contract_law.catalog.json",
      "sha256:27686c904451870dd5953ec6e47c155a395b2f279995e50f68aea984e6bf91de")].

Definition asset_invalid : exn :=
  DemoInitializationError "DEMO_ASSET_INVALID" "the installed demo asset bundle failed its integrity contract".
Definition asset_missing : exn :=
  DemoInitializationError "DEMO_ASSET_MISSING" "the installed demo asset bundle is incomplete".
Definition asset_unreadable : exn :=
  DemoInitializationError "DEMO_ASSET_UNREADABLE" "the installed demo asset bundle cannot be read".
Definition race_detected : exn :=
  DemoInitializationError "DEMO_OUTPUT_RACE_DETECTED" "the demo output directory changed during initialization".
Definition output_exists : exn :=
  DemoInitializationError "DEMO_OUTPUT_EXISTS" "the demo output target already exists; choose a new directory".
Definition output_unavailable : exn :=
  DemoInitializationError "DEMO_OUTPUT_UNAVAILABLE" "the demo output directory cannot be created".
Definition platform_unsupported : exn :=
  DemoInitializationError "DEMO_PLATFORM_UNSUPPORTED" "secure demo initialization is unavailable on this platform".
Definition write_failed : exn :=
  DemoInitializationError "DEMO_OUTPUT_WRITE_FAILED" "the demo asset bundle could not be written completely".

(** ** The assets *)
(** A resource of the package: not a file, not readable, or its bytes *)
Inductive resource := Missing | Unreadable | Payload (payload : string).
Definition _resource_bytes (bundle : string → resource) (relative_path : string) : result string :=
  match bundle relative_path with
  | Missing => Raise asset_missing
  | Unreadable => Raise asset_unreadable
  | Payload payload => Ok payload
  end.

(** A dict that was built from pairs: the last value of a key counts. *)
Definition item (key : string) (items : list (string * json)) : option json := assoc key items.
Definition text_item (key : string) (items : list (string * json)) : option string :=
  match item key items with Some (JStr s) => Some s | _ => None end.
Definition loaded_asset (payloads : list (string * string)) (path : string) : result json :=
  match json_loads (default "" (assoc path payloads)) with
  | Raise e => if is_value_error e then Raise asset_invalid else Raise e
  | x => x
  end.
(** The documents a manifest declares, with their digests *)
Definition declare_document (declared : gmap string string) (document : json) : result (gmap string string) :=
  match document with
  | JObj items =>
      match text_item "path" items, text_item "sha256" items with
      | Some path, Some digest => Ok (<[path := digest]> declared)
      | _, _ => Raise asset_invalid
      end
  | _ => Raise asset_invalid
  end.
Definition declared_documents (manifest rules : json) : result (gmap string string) :=
  match manifest, rules with
  | JObj manifest, JObj rules =>
      match item "documents" manifest with
      | Some (JArr documents) =>
          _ ← require (bool_decide (text_item "fixture_status" manifest = Some "SYNTHETIC") &&
                bool_decide (text_item "status" rules = Some "CURATED_REFERENCE_ONLY") &&
                match item "legal_advice" rules with Some (JBool false) => true | _ => false end) asset_invalid;
          foldR declare_document ∅ documents
      | _ => Raise asset_invalid
      end
  | _, _ => Raise asset_invalid
  end.

Section init.
Context `{P : Platform}.

Definition digests_match (payloads : list (string * string)) : bool :=
  forallb (λ x, bool_decide (assoc (fst x) DEMO_ASSET_DIGESTS = Some (sha256_bytes (snd x)))) payloads.
Definition document_matches (payloads : list (string * string)) (declared : string * string) : bool :=
  String.eqb (sha256_bytes (default "" (assoc ("case/" +:+ fst declared) payloads))) (snd declared).
Definition _load_and_validate_assets (bundle : string → resource) : result (list (string * string)) :=
  payloads ← mapR (λ path, payload ← _resource_bytes bundle path; Ok (path, payload)) DEMO_ASSET_FILES;
  _ ← require (bool_decide (map fst payloads ≡ₚ map fst DEMO_ASSET_DIGESTS) && digests_match payloads) asset_invalid;
  manifest ← loaded_asset payloads "case/manifest.json";
  rules ← loaded_asset payloads "rules/cn_labor_contract_law.catalog.json";
  declared ← declared_documents manifest rules;
  _ ← require (bool_decide (dom declared =@{gset string} {["contract.json"; "payroll.json"; "termination_notice.json"]}))
        asset_invalid;
  _ ← require (forallb (document_matches payloads) (map_to_list declared)) asset_invalid;
  Ok payloads.
End init.

(** ** Pinned entries *)
(** [_entry_matches]: an entry that cannot be looked at does not match. *)
Definition _entry_matches (parent_fd : nat) (name : string) (inode : nat) (expected_mode : mode) : io bool :=
  x ← attempt (stat_at parent_fd name);
  match x with
  | Ok metadata => mret (bool_decide (metadata = (inode, expected_mode)))
  | Raise e => if is_os_error e then mret false else failing e
  end.
(** What is raised after the descriptor was opened closes it. *)
Definition or_close {A} (descriptor : nat) (m : io A) : io A :=
  catching m (λ e, _ ← close_fd descriptor; failing e).
Definition _open_pinned_directory (parent_fd : nat) (name : string) : io PinnedDirectory :=
  descriptor ← open_directory_at parent_fd name;
  or_close descriptor (
    metadata ← fstat descriptor;
    matches ← (if bool_decide (snd metadata = S_IFDIR) then _entry_matches parent_fd name (fst metadata) S_IFDIR
               else mret false);
    if negb matches then failing race_detected
    else mret (mk_PinnedDirectory name parent_fd descriptor (fst metadata))).

(** Each round writes at least one byte. *)
Fixpoint write_loop (fuel : nat) (descriptor offset : nat) (remaining : string) : io unit :=
  if String.eqb remaining "" then mret ()
  else
    match fuel with
    | O => failing (Unmodelled "fuel")
    | S fuel =>
        written ← write_fd descriptor offset remaining;
        if (written =? 0)%nat then failing (OSError "short write")
        else write_loop fuel descriptor (offset + written) (str_drop written remaining)
    end.
Definition _write_payload (descriptor : nat) (payload : string) : io unit :=
  _ ← write_loop (String.length payload) descriptor 0 payload;
  sync descriptor.

(** The directories the assets need, in order *)
Definition directory_names (payloads : list (string * string)) : list string :=
  isort String.leb (dedup (omap (λ x, match path_parts (fst x) with [directory; _] => Some directory | _ => None end) payloads)).
Definition sorted_items (payloads : list (string * string)) : list (string * string) :=
  isort (λ x y, String.leb (fst x) (fst y)) payloads.
Definition make_directory (root : PinnedDirectory) (name : string) : io unit :=
  _ ← mkdir_at root.(pd_fd) name;
  child ← _open_pinned_directory root.(pd_fd) name;
  modify (λ s, with_child s name child).
(** The directory of an asset, and the name of its file *)
Definition asset_place (root : PinnedDirectory) (children : list (string * PinnedDirectory)) (relative_path : string)
    : option (PinnedDirectory * bool * string) :=
  match path_parts relative_path with
  | [filename] => Some (root, true, filename)
  | [directory; filename] => child ← assoc directory children; Some (child, false, filename)
  | _ => None
  end.
Definition write_asset (root : PinnedDirectory) (asset : string * string) : io unit :=
  children ← gets ss_children;
  match asset_place root children (fst asset) with
  | None => failing asset_invalid
  | Some (parent, in_root, filename) =>
      descriptor ← open_new_at parent.(pd_fd) filename;
      metadata ← or_close descriptor (
        metadata ← fstat descriptor;
        if negb (bool_decide (snd metadata = S_IFREG)) then failing race_detected
        else _ ← _write_payload descriptor (snd asset); mret metadata);
      modify (λ s, with_written s (mk_PinnedFile filename parent in_root descriptor (fst metadata) (snd asset)))
  end.
Definition _write_all_assets (root : PinnedDirectory) (payloads : list (string * string)) : io unit :=
  _ ← each (make_directory root) (directory_names payloads);
  each (write_asset root) (sorted_items payloads).

(** ** Verification *)
(** A file can grow while it is read, but by no more than the events write. *)
Definition node_size (n : option node) : nat := match n with Some (File content) => String.length content | _ => 0 end.
Definition step_size (step : env_step) : nat :=
  match step with
  | env_write _ content => String.length content
  | env_create _ _ n => node_size (Some n)
  | _ => 0
  end.
Definition growth (events : list event) : nat :=
  list_sum (map (λ ev, list_sum (map step_size ev.(ev_before))) events).
Definition file_size (s : Session) (fd : nat) : nat :=
  node_size (ino ← s.(ss_fds) !! fd; s.(ss_fs).(fs_nodes) !! ino).
Fixpoint read_loop (fuel : nat) (fd : nat) (chunks : string) : io string :=
  match fuel with
  | O => failing (Unmodelled "fuel")
  | S fuel =>
      chunk ← read_fd fd (String.length chunks) (Z.to_nat 1048576);
      if String.eqb chunk "" then mret chunks else read_loop fuel fd (chunks +:+ chunk)
  end.
Definition _read_pinned_file (record : PinnedFile) : io string :=
  _ ← seek record.(pf_fd);
  fuel ← gets (λ s, S (file_size s record.(pf_fd) + growth s.(ss_events)));
  read_loop fuel record.(pf_fd) "".

(** [if not check(): raise race] *)
Definition or_race (check : io bool) : io unit := ok ← check; if (ok : bool) then mret () else failing race_detected.
(** [a and b] *)
Definition and_then (a b : io bool) : io bool := x ← a; if (x : bool) then b else mret false.
(** [os.stat] of a path, where an OSError is a race *)
Definition stat_or_race (m : io (nat * mode)) : io (nat * mode) :=
  catching m (λ e, if is_os_error e then failing race_detected else failing e).
Definition check_output (name : string) (parent_inode : nat) (root : PinnedDirectory) : io unit :=
  logical_parent_metadata ← stat_or_race stat_parent;
  logical_output_metadata ← stat_or_race (stat_output name);
  or_race (and_then
    (mret (bool_decide (fst logical_parent_metadata = parent_inode) &&
           bool_decide (logical_output_metadata = (root.(pd_inode), S_IFDIR))))
    (_entry_matches root.(pd_parent_fd) root.(pd_name) root.(pd_inode) S_IFDIR)).
Definition expected_root_entries (s : Session) : gset string := {["README.md"]} ∪ list_to_set (map fst s.(ss_children)).
Definition expected_child_entries (s : Session) (child : PinnedDirectory) : gset string :=
  list_to_set (map pf_name (filter (λ record, record.(pf_in_root) = false ∧ record.(pf_parent).(pd_fd) = child.(pd_fd))
    s.(ss_written))).
Definition check_child (root : PinnedDirectory) (child : string * PinnedDirectory) : io unit :=
  or_race (_entry_matches root.(pd_fd) (fst child) (snd child).(pd_inode) S_IFDIR).
Definition check_file (record : PinnedFile) : io unit :=
  metadata ← fstat record.(pf_fd);
  or_race (and_then (mret (bool_decide (metadata = (record.(pf_inode), S_IFREG))))
    (and_then (_entry_matches record.(pf_parent).(pd_fd) record.(pf_name) record.(pf_inode) S_IFREG)
      (content ← _read_pinned_file record; mret (String.eqb content record.(pf_expected_payload))))).
Definition check_entries (fd : nat) (expected : gset string) : io unit :=
  or_race (entries ← listdir fd; mret (bool_decide (entries = expected))).
Definition _verify_completed_output (name : string) (parent_inode : nat) (root : PinnedDirectory) : io unit :=
  _ ← check_output name parent_inode root;
  s ← gets id;
  _ ← check_entries root.(pd_fd) (expected_root_entries s);
  _ ← each (check_child root) s.(ss_children);
  _ ← each check_file s.(ss_written);
  each (λ child, check_entries (snd child).(pd_fd) (expected_child_entries s (snd child))) s.(ss_children).

(** ** Cleaning up *)
(** [with suppress(OSError)] *)
Definition suppressed (m : io unit) : io unit := catching m (λ e, if is_os_error e then mret () else failing e).
Definition remove_file (record : PinnedFile) : io unit :=
  matches ← _entry_matches record.(pf_parent).(pd_fd) record.(pf_name) record.(pf_inode) S_IFREG;
  if (matches : bool) then suppressed (unlink_at record.(pf_parent).(pd_fd) record.(pf_name)) else mret ().
Definition remove_directory (parent_fd : nat) (name : string) (directory : PinnedDirectory) : io unit :=
  matches ← _entry_matches parent_fd name directory.(pd_inode) S_IFDIR;
  if (matches : bool) then suppressed (rmdir_at parent_fd name) else mret ().
Definition _cleanup_owned_entries (parent_fd : nat) : io unit :=
  s ← gets id;
  _ ← each remove_file (rev s.(ss_written));
  match s.(ss_root) with
  | None => mret ()
  | Some root =>
      _ ← each (λ child, remove_directory root.(pd_fd) (fst child) (snd child)) (rev s.(ss_children));
      remove_directory parent_fd root.(pd_name) root
  end.
Definition _close_descriptors (parent_fd : nat) : io unit :=
  s ← gets id;
  _ ← each (λ record, close_fd record.(pf_fd)) s.(ss_written);
  _ ← each (λ child, close_fd (snd child).(pd_fd)) s.(ss_children);
  _ ← match s.(ss_root) with Some root => close_fd root.(pd_fd) | None => mret () end;
  close_fd parent_fd.

(** ** The installation *)
(** The parent directory, by descriptor *)
Definition open_logical_parent : io nat :=
  catching (_ ← mkdir_parent; _ ← resolve_parent; open_parent)
    (λ e, if is_os_error e then failing output_unavailable else failing e).
Definition require_absent (parent_fd : nat) (name : string) : io unit :=
  x ← attempt (stat_at parent_fd name);
  match x with
  | Raise FileNotFoundError => mret ()
  | Ok _ => failing output_exists
  | Raise e => failing e
  end.
Definition create_root (parent_fd : nat) (name : string) : io PinnedDirectory :=
  _ ← require_absent parent_fd name;
  _ ← mkdir_at parent_fd name;
  root ← catching (_open_pinned_directory parent_fd name)
           (λ e, if is_os_error e then failing race_detected else failing e);
  _ ← modify (λ s, with_root s root);
  mret root.
(** The [try] block *)
Definition fill_output (parent_fd : nat) (name : string) (payloads : list (string * string)) : io (nat * PinnedDirectory) :=
  parent_metadata ← fstat parent_fd;
  root ← create_root parent_fd name;
  _ ← _write_all_assets root payloads;
  mret (fst parent_metadata, root).
Definition install (parent_fd : nat) (name : string) (payloads : list (string * string)) : io unit :=
  '(parent_inode, root) ← fill_output parent_fd name payloads;
  _verify_completed_output name parent_inode root.
(** Its handlers *)
Definition public_error (e : exn) : exn :=
  match e with
  | FileExistsError => output_exists
  | DemoInitializationError _ _ => e
  | _ => if is_os_error e then write_failed else e
  end.
Definition cleans_up (e : exn) : bool := match e with DemoInitializationError _ _ => true | _ => is_os_error e end.
Definition handle_failure (parent_fd : nat) (e : exn) : io unit :=
  _ ← (if cleans_up e then _cleanup_owned_entries parent_fd else mret ());
  failing (public_error e).

Section initialize.
Context `{P : Platform}.

(** [supported] says whether [os] has what the descriptors need; [name] is the last component
    of the absolute path of the output. *)
Definition _require_descriptor_safe_platform (supported : bool) : result unit := require supported platform_unsupported.
Definition initialize_demo (bundle : string → resource) (supported : bool) (name : string) : io DemoInitializationResult :=
  payloads ← lifted (_load_and_validate_assets bundle);
  _ ← lifted (_require_descriptor_safe_platform supported);
  if String.eqb name "" then failing output_exists
  else
    parent_fd ← open_logical_parent;
    outcome ← attempt (catching (install parent_fd name payloads) (handle_failure parent_fd));
    _ ← _close_descriptors parent_fd;
    match outcome with
    | Ok _ => mret (mk_DemoInitializationResult "PUBLIC_SYNTHETIC" (isort String.leb (map fst payloads)))
    | Raise e => failing e
    end.
End initialize.

(** The variables a call starts with *)
Definition fresh_call (f : fs) (fds : gmap nat nat) (next_fd : nat) (events : list event) : Session :=
  mk_Session f fds next_fd events None [] [].
