(* ===== verification/DemoInitFacts.v ===== *)
(** * Rules for the system calls, and what a run can raise

    A property that the next event cannot break is carried over a system call by what the
    call itself does.  The loops over writes and reads end whatever the events are, and
    every failure of [initialize_demo] is one of its public errors. *)
From S2P Require Import Prelude Json JsonTotal Dicts Stateful PyTime PyDecimal Sha256 Canonical Platforms Models Common.
From S2P Require Import Evidence RunStore DemoFs DemoInit.

(** Nothing another process does before a call breaks [P]. *)
Definition stable (P : Session → Prop) : Prop := ∀ s, P s → P (snd (next_event s)).
Lemma triple_syscall {A} P (act : event → io A) Q X :
  stable P → (∀ s, P s → X io_error s) → (∀ ev, triple P (act ev) Q X) → triple P (syscall act) Q X.
Proof.
  intros Hs Hx Ha s Hp. unfold syscall. specialize (Hs s Hp). destruct (next_event s) as [ev s1]. cbn [snd] in Hs.
  destruct (ev_fails ev); [by apply Hx|by apply Ha].
Qed.
Lemma stable_true : stable (λ _, True).
Proof. done. Qed.

(** A call that only looks *)
Lemma triple_look {A} P (f : event → Session → result A) Q X :
  stable P → (∀ s, P s → X io_error s) →
  (∀ ev s, P s → match f ev s with Ok a => Q a s | Raise e => X e s end) →
  triple P (syscall (λ ev s, (s, f ev s))) Q X.
Proof. intros H1 H2 H3. apply triple_syscall; [done..|]. intros ev s Hp. by specialize (H3 ev s Hp). Qed.

(** ** What may be raised *)
Definition may_raise {A} (X : exn → Prop) (m : io A) : Prop := triple (λ _, True) m (λ _ _, True) (λ e _, X e).
Definition os_error (e : exn) : Prop := is_os_error e = true.
(** The errors of the command, with their fixed texts *)
Definition published : list exn :=
  [asset_invalid; asset_missing; asset_unreadable; platform_unsupported; output_exists; output_unavailable; race_detected;
   write_failed].
Definition trouble (e : exn) : Prop := os_error e ∨ e ∈ published.

Create HintDb raises.
Lemma raise_ret {A} X (a : A) : may_raise X (mret a).
Proof. by apply triple_ret. Qed.
Lemma raise_failing {A} (X : exn → Prop) e : X e → may_raise (A := A) X (failing e).
Proof. intros H. by apply triple_failing. Qed.
Lemma raise_bind {A B} X (m : io A) (k : A → io B) : may_raise X m → (∀ a, may_raise X (k a)) → may_raise X (m ≫= k).
Proof. intros Hm Hk. eapply triple_bind; [exact Hm|]. intros a. apply Hk. Qed.
Lemma raise_weaken {A} (X Y : exn → Prop) (m : io A) : may_raise X m → (∀ e, X e → Y e) → may_raise Y m.
Proof. intros H HY. eapply triple_weaken; [exact H|done|done|]. intros e s. apply HY. Qed.
Lemma raise_catching {A} X Y (m : io A) handler :
  may_raise X m → (∀ e, X e → may_raise Y (handler e)) → may_raise Y (catching m handler).
Proof.
  intros Hm Hh. eapply triple_catching; [exact Hm|]. intros e s He. by apply (Hh e He).
Qed.
Lemma raise_attempt {A B} X Y (m : io A) (k : result A → io B) :
  may_raise X m → (∀ a, may_raise Y (k (Ok a))) → (∀ e, X e → may_raise Y (k (Raise e))) →
  may_raise Y (x ← attempt m; k x).
Proof.
  intros Hm Ho Hr s _. specialize (Hm s I). unfold mbind, stateful_bind, attempt.
  destruct (m s) as [s' [a|e]]; [by apply Ho|by apply Hr].
Qed.
Lemma raise_gets {A} X (f : Session → A) : may_raise X (gets f).
Proof. by apply triple_gets. Qed.
Lemma raise_modify X f : may_raise X (modify f).
Proof. by apply triple_modify. Qed.
Lemma raise_each {A} X (f : A → io unit) l : (∀ x, x ∈ l → may_raise X (f x)) → may_raise X (each f l).
Proof. intros H. apply triple_each. exact H. Qed.
Lemma raise_syscall {A} (act : event → io A) : (∀ ev, may_raise os_error (act ev)) → may_raise os_error (syscall act).
Proof. intros H. by apply triple_syscall. Qed.

Lemma look_up_raises s fd name e : look_up s fd name = Raise e → os_error e.
Proof. unfold look_up. repeat case_match; by intros [= <-]. Qed.
(** Every system call raises an OSError or nothing. *)
Ltac call := apply raise_syscall; intros ev s _; cbn; repeat case_match; simplify_eq; try done;
  by eapply look_up_raises.
Lemma raise_stat_at fd name : may_raise os_error (stat_at fd name).
Proof. call. Qed.
Lemma raise_fstat fd : may_raise os_error (fstat fd).
Proof. call. Qed.
Lemma raise_mkdir_at fd name : may_raise os_error (mkdir_at fd name).
Proof. call. Qed.
Lemma raise_open_directory_at fd name : may_raise os_error (open_directory_at fd name).
Proof. call. Qed.
Lemma raise_open_new_at fd name : may_raise os_error (open_new_at fd name).
Proof. call. Qed.
Lemma raise_listdir fd : may_raise os_error (listdir fd).
Proof. call. Qed.
Lemma raise_sync fd : may_raise os_error (sync fd).
Proof. call. Qed.
Lemma raise_seek fd : may_raise os_error (seek fd).
Proof. call. Qed.
Lemma raise_unlink_at fd name : may_raise os_error (unlink_at fd name).
Proof. call. Qed.
Lemma raise_rmdir_at fd name : may_raise os_error (rmdir_at fd name).
Proof. call. Qed.
Lemma raise_mkdir_parent : may_raise os_error mkdir_parent.
Proof. call. Qed.
Lemma raise_resolve_parent : may_raise os_error resolve_parent.
Proof. call. Qed.
Lemma raise_open_parent : may_raise os_error open_parent.
Proof. call. Qed.
Lemma raise_stat_parent : may_raise os_error stat_parent.
Proof. call. Qed.
Lemma raise_stat_output name : may_raise os_error (stat_output name).
Proof. call. Qed.
Lemma raise_close_fd X fd : may_raise X (close_fd fd).
Proof. done. Qed.
#[export] Hint Resolve raise_ret raise_gets raise_modify raise_stat_at raise_fstat raise_mkdir_at raise_open_directory_at
  raise_open_new_at raise_listdir raise_sync raise_seek raise_unlink_at raise_rmdir_at raise_mkdir_parent raise_resolve_parent
  raise_open_parent raise_stat_parent raise_stat_output raise_close_fd : raises.

(** ** The loops end *)
Lemma str_empty_length s : String.length s = 0 → s = "".
Proof. by destruct s. Qed.
Lemma write_loop_ends fuel descriptor offset remaining :
  String.length remaining ≤ fuel → may_raise os_error (write_loop fuel descriptor offset remaining).
Proof.
  revert offset remaining; induction fuel as [|fuel IH]; intros offset remaining Hf; cbn [write_loop];
    destruct (String.eqb_spec remaining "") as [->|Hne]; try by apply raise_ret.
  - exfalso. apply Hne, str_empty_length. lia.
  - apply raise_bind; [unfold write_fd; call|]. intros written.
    destruct (Nat.eqb_spec written 0); [by apply raise_failing|]. apply IH. rewrite str_drop_length.
    destruct remaining; [done|]. cbn in *. lia.
Qed.

(** How long a file is, with all that is still to be written to it *)
Definition bounded (fd n : nat) (s : Session) : Prop := file_size s fd + growth s.(ss_events) ≤ n.
Lemma set_lookup_size (m : gmap nat node) i j n : node_size (<[i := n]> m !! j) ≤ Nat.max (node_size (m !! j)) (node_size (Some n)).
Proof. destruct (decide (i = j)) as [->|]; [rewrite lookup_insert_eq|rewrite lookup_insert_ne by done]; lia. Qed.
Lemma env_apply_size f step ino :
  node_size ((env_apply f step).(fs_nodes) !! ino) ≤ node_size (f.(fs_nodes) !! ino) + step_size step.
Proof.
  assert (∀ (m : gmap nat node) dir es, node_size (<[dir := Dir es]> m !! ino) ≤ node_size (m !! ino)) as Hd.
  { intros m dir es. pose proof (set_lookup_size m dir ino (Dir es)) as H. cbn in *. lia. }
  destruct step as [dir name n|dir name ino'|dir name|ino' content|p]; cbn [env_apply step_size].
  - destruct (fs_nodes f !! dir) as [[es| |]|]; try lia. cbn [set_entries add_node fs_nodes].
    pose proof (Hd (<[fs_next f := n]> (fs_nodes f)) dir (<[name := fs_next f]> es)).
    pose proof (set_lookup_size (fs_nodes f) (fs_next f) ino n). lia.
  - destruct (fs_nodes f !! dir) as [[es| |]|]; try lia. destruct (fs_nodes f !! ino'); [|lia].
    pose proof (Hd (fs_nodes f) dir (<[name := ino']> es)). cbn [set_entries fs_nodes]. lia.
  - destruct (fs_nodes f !! dir) as [[es| |]|]; try lia. pose proof (Hd (fs_nodes f) dir (delete name es)).
    cbn [set_entries fs_nodes]. lia.
  - destruct (fs_nodes f !! ino') as [[| |]|]; try lia. pose proof (set_lookup_size (fs_nodes f) ino' ino (File content)).
    cbn [set_content fs_nodes]. cbn [node_size] in *. lia.
  - cbn. lia.
Qed.
Lemma list_sum_cons n l : list_sum (n :: l) = n + list_sum l.
Proof. done. Qed.
Lemma env_steps_size steps f ino :
  node_size ((foldl env_apply f steps).(fs_nodes) !! ino) ≤ node_size (f.(fs_nodes) !! ino) + list_sum (map step_size steps).
Proof.
  revert f; induction steps as [|step steps IH]; intros f; [cbn; lia|]. cbn [foldl map]. rewrite list_sum_cons.
  pose proof (IH (env_apply f step)). pose proof (env_apply_size f step ino). lia.
Qed.
Lemma bounded_stable fd n : stable (bounded fd n).
Proof.
  unfold stable, bounded, next_event. intros s H. destruct (ss_events s) as [|ev events] eqn:E; [cbn [snd]; by rewrite E|].
  cbn [snd ss_events]. unfold file_size in *. cbn [ss_fds ss_fs]. unfold growth in *. cbn [map] in H. rewrite list_sum_cons in H.
  destruct (ss_fds s !! fd) as [ino|]; cbn [mbind option_bind] in *; [|cbn [node_size] in *; lia].
  pose proof (env_steps_size (ev_before ev) (ss_fs s) ino). lia.
Qed.

Lemma str_take_length_le n s : String.length (str_take n s) ≤ String.length s.
Proof.
  unfold str_take. revert n; induction s as [|c s IH]; intros [|n]; cbn; try lia. pose proof (IH n). lia.
Qed.
Lemma read_fd_bounded fd n offset size :
  triple (bounded fd n) (read_fd fd offset size)
    (λ chunk s, bounded fd n s ∧ (chunk = "" ∨ offset + String.length chunk ≤ n)) (λ e _, os_error e).
Proof.
  apply triple_look; [apply bounded_stable|done|]. intros ev s H.
  destruct (_ ≫= _) as [[| content |]|] eqn:E; try done. split; [done|].
  set (take := Nat.min _ _). pose proof (str_take_length_le take (str_drop offset content)) as Hl.
  rewrite str_drop_length in Hl. unfold bounded, file_size in H. rewrite E in H. cbn [node_size] in H.
  destruct (String.length (str_take take (str_drop offset content))) eqn:El; [left; by apply str_empty_length|right; lia].
Qed.
Lemma read_loop_ends fuel fd n chunks :
  String.length chunks ≤ n → n < fuel + String.length chunks →
  triple (bounded fd n) (read_loop fuel fd chunks) (λ _ _, True) (λ e _, os_error e).
Proof.
  revert chunks; induction fuel as [|fuel IH]; intros chunks H1 H2; [lia|]. cbn [read_loop].
  eapply triple_bind; [apply read_fd_bounded|]. intros chunk s [Hs Hc]. cbv beta.
  destruct (String.eqb_spec chunk "") as [->|Hne]; [done|]. destruct Hc as [->|Hc]; [done|].
  assert (0 < String.length chunk) by (destruct chunk; cbn; [done|lia]).
  apply IH; [rewrite str_length_app; lia|rewrite str_length_app; lia|done].
Qed.
Lemma raise_read_pinned_file record : may_raise os_error (_read_pinned_file record).
Proof.
  apply raise_bind; [auto with raises|]. intros _ s _. unfold mbind, stateful_bind, gets.
  apply (read_loop_ends _ _ (file_size s (pf_fd record) + growth (ss_events s))); [cbn; lia|cbn; lia|].
  unfold bounded. lia.
Qed.

(** ** The parts of a run *)
Lemma os_trouble e : os_error e → trouble e.
Proof. by left. Qed.
Lemma raise_os_trouble {A} (m : io A) : may_raise os_error m → may_raise trouble m.
Proof. intros H. eapply raise_weaken; [exact H|apply os_trouble]. Qed.
Lemma raise_race {A} : may_raise (A := A) trouble (failing race_detected).
Proof. apply raise_failing. right. unfold published. elem_here. Qed.
Lemma raise_if_os {A} e (m : io A) : os_error e → may_raise trouble m → may_raise trouble (if is_os_error e then m else failing e).
Proof. intros -> H. exact H. Qed.
#[export] Hint Resolve raise_os_trouble raise_race : raises.

Lemma raise_entry_matches fd name ino m : may_raise os_error (_entry_matches fd name ino m).
Proof.
  unfold _entry_matches. eapply raise_attempt; [apply raise_stat_at|intros; apply raise_ret|].
  intros e ->. apply raise_ret.
Qed.
Lemma raise_or_close {A} fd (m : io A) : may_raise trouble m → may_raise trouble (or_close fd m).
Proof.
  intros H. unfold or_close. eapply raise_catching; [exact H|]. intros e He.
  apply raise_bind; [auto with raises|]. intros _. by apply raise_failing.
Qed.
#[export] Hint Resolve raise_entry_matches raise_or_close raise_read_pinned_file : raises.
(** Go through a block call by call. *)
Ltac raises := repeat first
  [ solve [auto with raises]
  | apply raise_bind; [|intros ?]
  | match goal with |- may_raise _ (match ?x with _ => _ end) => destruct x end
  | match goal with |- may_raise _ (if ?x then _ else _) => destruct x end ].

Lemma raise_open_pinned fd name : may_raise trouble (_open_pinned_directory fd name).
Proof. unfold _open_pinned_directory. raises. apply raise_or_close. raises. Qed.
Lemma raise_write_payload fd payload : may_raise trouble (_write_payload fd payload).
Proof. apply raise_os_trouble. unfold _write_payload. apply raise_bind; [by apply write_loop_ends|auto with raises]. Qed.
Lemma raise_invalid {A} : may_raise (A := A) trouble (failing asset_invalid).
Proof. apply raise_failing. right. unfold published. elem_here. Qed.
#[export] Hint Resolve raise_open_pinned raise_write_payload raise_invalid : raises.
Lemma raise_make_directory root name : may_raise trouble (make_directory root name).
Proof. unfold make_directory. raises. Qed.
Lemma raise_write_asset root asset : may_raise trouble (write_asset root asset).
Proof. unfold write_asset. raises. apply raise_or_close. raises. Qed.
Lemma raise_write_all root payloads : may_raise trouble (_write_all_assets root payloads).
Proof.
  unfold _write_all_assets. apply raise_bind; [|intros _]; apply raise_each; intros; [apply raise_make_directory|apply raise_write_asset].
Qed.
Lemma raise_or_race check : may_raise os_error check → may_raise trouble (or_race check).
Proof. intros H. unfold or_race. raises. Qed.
Lemma raise_and_then a b : may_raise os_error a → may_raise os_error b → may_raise os_error (and_then a b).
Proof. intros Ha Hb. unfold and_then. raises. Qed.
Lemma raise_stat_or_race m : may_raise os_error m → may_raise trouble (stat_or_race m).
Proof. intros H. unfold stat_or_race. eapply raise_catching; [exact H|]. intros e He. apply raise_if_os; [done|auto with raises]. Qed.
#[export] Hint Resolve raise_write_all raise_or_race raise_and_then raise_stat_or_race : raises.
Lemma raise_verify name parent_inode root : may_raise trouble (_verify_completed_output name parent_inode root).
Proof.
  unfold _verify_completed_output, check_output, check_entries, check_child, check_file.
  raises; try (apply raise_or_race; raises); apply raise_each; intros; raises; apply raise_or_race; raises.
Qed.
Lemma raise_suppressed X m : may_raise os_error m → may_raise X (suppressed m).
Proof. intros H. unfold suppressed. eapply raise_catching; [exact H|]. intros e ->. apply raise_ret. Qed.

(** Cleaning up and closing raise nothing. *)
Definition nothing (e : exn) : Prop := False.
Lemma entry_matches_quiet fd name ino m : may_raise nothing (_entry_matches fd name ino m).
Proof.
  unfold _entry_matches. eapply raise_attempt; [apply raise_stat_at|intros; apply raise_ret|]. intros e ->. apply raise_ret.
Qed.
#[export] Hint Resolve raise_suppressed entry_matches_quiet : raises.
Lemma raise_cleanup parent_fd : may_raise nothing (_cleanup_owned_entries parent_fd).
Proof.
  assert (∀ fd name d, may_raise nothing (remove_directory fd name d)) as Hd by (intros; unfold remove_directory; raises).
  unfold _cleanup_owned_entries. raises; apply raise_each; intros; [unfold remove_file; raises|apply Hd].
Qed.
Lemma raise_close parent_fd : may_raise nothing (_close_descriptors parent_fd).
Proof. unfold _close_descriptors. raises; apply raise_each; intros; auto with raises. Qed.

Lemma raise_require_absent fd name : may_raise trouble (require_absent fd name).
Proof.
  unfold require_absent. eapply raise_attempt; [apply raise_stat_at| |].
  - intros _. apply raise_failing. right. unfold published. elem_here.
  - intros e He. destruct e; try done; first [apply raise_ret|apply raise_failing; by left].
Qed.
Lemma raise_create_root fd name : may_raise trouble (create_root fd name).
Proof.
  unfold create_root. apply raise_bind; [apply raise_require_absent|]. intros _. raises.
  eapply raise_catching; [apply raise_open_pinned|]. intros e He.
  destruct (is_os_error e) eqn:E; [apply raise_race|by apply raise_failing].
Qed.
Lemma raise_fill_output parent_fd name payloads : may_raise trouble (fill_output parent_fd name payloads).
Proof.
  unfold fill_output. apply raise_bind; [auto with raises|]. intros metadata. apply raise_bind; [apply raise_create_root|]. intros root. raises.
Qed.
Lemma raise_install parent_fd name payloads : may_raise trouble (install parent_fd name payloads).
Proof. unfold install. apply raise_bind; [apply raise_fill_output|]. intros [ino root]. apply raise_verify. Qed.
Lemma public_error_published e : trouble e → public_error e ∈ published.
Proof.
  intros [He|He]; [|unfold published in *; elem_cases; cbn; elem_here].
  destruct e; try done; unfold published; cbn; elem_here.
Qed.
Lemma raise_install_handled parent_fd name payloads :
  may_raise (λ e, e ∈ published) (catching (install parent_fd name payloads) (handle_failure parent_fd)).
Proof.
  eapply raise_catching; [apply raise_install|]. intros e He. unfold handle_failure. apply raise_bind.
  - destruct (cleans_up e); [|auto with raises]. eapply raise_weaken; [apply raise_cleanup|done].
  - intros _. by apply raise_failing, public_error_published.
Qed.

(** What a directory is pinned as *)
Lemma open_pinned_names fd name :
  triple (λ _, True) (_open_pinned_directory fd name) (λ d _, d.(pd_name) = name ∧ d.(pd_parent_fd) = fd) (λ _ _, True).
Proof.
  assert (∀ {A} (m : io A), triple (λ _, True) m (λ _ _, True) (λ _ _, True)) as Hany.
  { intros A m s _. by destruct (m s) as [s' [a|e]]. }
  unfold _open_pinned_directory. eapply triple_bind; [apply Hany|]. intros d. unfold or_close.
  eapply triple_catching with (X := λ _ _, True); [|intros e].
  - eapply triple_bind; [apply Hany|]. intros metadata. eapply triple_bind; [apply Hany|]. intros ok.
    destruct (negb ok); [by apply triple_failing|by apply triple_ret].
  - eapply triple_bind; [apply Hany|]. intros u. by apply triple_failing.
Qed.

(** The assets are refused with one of three errors, or hold what the JSON model leaves out. *)
Lemma declared_documents_raises manifest rules e : declared_documents manifest rules = Raise e → e = asset_invalid.
Proof.
  assert (∀ l acc, foldR declare_document acc l = Raise e → e = asset_invalid) as Hf.
  { induction l as [|d l IH]; intros acc; cbn [foldR]; [done|]. intros [H|(acc' & _ & H)]%bind_Raise; [|by eapply IH].
    unfold declare_document in H. repeat case_match; congruence. }
  unfold declared_documents. destruct manifest as [| | | | | |items]; try congruence. destruct rules as [| | | | | |rules]; try congruence.
  destruct (item "documents" items) as [[| | | | |documents|]|]; try congruence.
  intros [[_ ->]%require_Raise|(u & _ & H)]%bind_Raise; [done|by eapply Hf].
Qed.
Lemma loaded_asset_raises payloads path e : loaded_asset payloads path = Raise e → e = asset_invalid ∨ ∃ m, e = Unmodelled m.
Proof.
  unfold loaded_asset. destruct (json_loads _) as [j|e'] eqn:E; [done|]. destruct (is_value_error e') eqn:Hv; [intros [= <-]; by left|].
  intros [= <-]. right. unfold json_loads in E. repeat case_match; simplify_eq; try (by eexists).
  pose proof (loads_with_ends default_hooks (λ e, is_value_error e = true ∨ e = Unmodelled "lone surrogate")) as L.
  specialize (L (λ m, or_introl eq_refl) (or_intror eq_refl)).
  assert (∀ l e, object_pairs default_hooks l = Raise e → is_value_error e = true ∨ e = Unmodelled "lone surrogate") as L1 by done.
  assert (∀ w e, parse_constant default_hooks w = Raise e → is_value_error e = true ∨ e = Unmodelled "lone surrogate") as L2 by done.
  specialize (L L1 L2 (default "" (assoc path payloads))). unfold loads in E. rewrite E in L.
  destruct L as [L| ->]; [congruence|by eexists].
Qed.
Lemma load_assets_raises `{P : Platform} bundle e :
  _load_and_validate_assets bundle = Raise e → e ∈ published ∨ ∃ m, e = Unmodelled m.
Proof.
  assert (asset_invalid ∈ published) as Hi by (unfold published; elem_here).
  unfold _load_and_validate_assets. intros [H|(payloads & _ & H)]%bind_Raise.
  { left. revert H. induction DEMO_ASSET_FILES as [|path l IH]; [done|]. cbn [mapR].
    intros [[H|(? & _ & H)]%bind_Raise|(? & _ & [H|(? & _ & H)]%bind_Raise)]%bind_Raise; try done; [|by apply IH].
    unfold _resource_bytes in H. unfold published. destruct (bundle path); simplify_eq; elem_here. }
  apply bind_Raise in H as [[_ ->]%require_Raise|(u & _ & H)]; [by left|].
  apply bind_Raise in H as [[->|?]%loaded_asset_raises|(manifest & _ & H)]; [by left|by right|].
  apply bind_Raise in H as [[->|?]%loaded_asset_raises|(rules & _ & H)]; [by left|by right|].
  apply bind_Raise in H as [->%declared_documents_raises|(declared & _ & H)]; [by left|].
  apply bind_Raise in H as [[_ ->]%require_Raise|(u' & _ & H)]; [by left|].
  apply bind_Raise in H as [[_ ->]%require_Raise|(u'' & _ & H)]; [by left|done].
Qed.

Lemma raise_open_parent_dir : may_raise (λ e, e ∈ published) open_logical_parent.
Proof.
  unfold open_logical_parent. eapply raise_catching with (X := os_error); [raises|]. intros e ->. apply raise_failing.
  unfold published. elem_here.
Qed.

(** Whatever other processes do and whichever calls fail, [initialize_demo] ends, with a
    receipt or with one of eight errors of fixed text, which name no path and quote no
    message of the system; the loops that write and read back run out of neither fuel nor
    input.  The only other error is that of an asset file outside the JSON model, and it
    comes before anything is created. *)
Lemma initialize_demo_errors `{P : Platform} (bundle : string → resource) (supported : bool) (name : string)
    (s s' : Session) (e : exn) :
  initialize_demo bundle supported name s = (s', Raise e) →
  e ∈ published ∨ s' = s ∧ _load_and_validate_assets bundle = Raise e ∧ ∃ m, e = Unmodelled m.
Proof.
  unfold initialize_demo, lifted. destruct (_load_and_validate_assets bundle) as [payloads|e0] eqn:El.
  - intros H. left. revert H. unfold mbind, stateful_bind.
    destruct supported; cbn; [|intros [= _ <-]; unfold published; elem_here].
    destruct (String.eqb name ""); [intros [= _ <-]; unfold published; elem_here|].
    pose proof (raise_open_parent_dir s I) as Hp. destruct (open_logical_parent s) as [s1 [parent_fd|e1]]; [|intros [= _ <-]; exact Hp].
    unfold attempt. pose proof (raise_install_handled parent_fd name payloads s1 I) as Hi.
    destruct (catching _ _ s1) as [s2 outcome]. pose proof (raise_close parent_fd s2 I) as Hc.
    destruct (_close_descriptors parent_fd s2) as [s3 [u|e3]]; [|done].
    destruct outcome as [u'|e2]; [done|]. intros [= _ <-]. exact Hi.
  - unfold mbind, stateful_bind. intros [= <- <-]. destruct (load_assets_raises _ _ El) as [?|Hm]; [by left|by right].
Qed.
