(* ===== verification/DemoInitDescriptors.v ===== *)
(** * Every descriptor is closed

    [initialize_demo] ends with the descriptors it began with, whatever happens: each one it
    opens is recorded in a variable the last block closes, or is closed where it failed. *)
From S2P Require Import Prelude Json Dicts Stateful PyTime PyDecimal Sha256 Canonical Platforms Models Common.
From S2P Require Import Evidence RunStore DemoFs DemoInit DemoInitFacts.

(** The descriptors the variables of the run hold *)
Definition held (s : Session) : list nat :=
  map pf_fd s.(ss_written) ++ map (λ child, (snd child).(pd_fd)) s.(ss_children) ++
  match s.(ss_root) with Some root => [root.(pd_fd)] | None => [] end.
(** Beyond those of [base], the open descriptors are those held and the [local] ones. *)
Record accounted (base : gmap nat nat) (local : list nat) (root : option PinnedDirectory) (s : Session) : Prop := {
  ac_root : s.(ss_root) = root;
  ac_next : ∀ fd, s.(ss_next_fd) ≤ fd → s.(ss_fds) !! fd = None;
  ac_others : ∀ fd, fd ∉ local ++ held s → s.(ss_fds) !! fd = base !! fd;
  ac_new : ∀ fd, fd ∈ local ++ held s → base !! fd = None;
}.

(** It depends on these parts of the state only. *)
Lemma accounted_same base local root s s' :
  s'.(ss_fds) = s.(ss_fds) → s'.(ss_next_fd) = s.(ss_next_fd) → s'.(ss_root) = s.(ss_root) →
  s'.(ss_children) = s.(ss_children) → s'.(ss_written) = s.(ss_written) → accounted base local root s → accounted base local root s'.
Proof. intros H1 H2 H3 H4 H5 [A1 A2 A3 A4]. split; unfold held in *; rewrite ?H1, ?H2, ?H3, ?H4, ?H5; done. Qed.
Lemma accounted_stable base local root : stable (accounted base local root).
Proof.
  intros s H. unfold next_event. destruct (ss_events s); [done|]. by eapply accounted_same; [..|exact H].
Qed.
Lemma accounted_open base local root s ino : accounted base local root s →
  match open_fd ino s with (s', Ok fd) => accounted base (fd :: local) root s' | (_, Raise _) => False end.
Proof.
  intros [A1 A2 A3 A4]. cbn. split; cbn; [done| | |].
  - intros fd Hfd. rewrite lookup_insert_ne by lia. apply A2. lia.
  - intros fd [Hne Hfd]%not_elem_of_cons. rewrite lookup_insert_ne by done. by apply A3.
  - intros fd Hfd. destruct (decide (fd ∈ local ++ held s)) as [?|Hn]; [by apply A4|].
    assert (fd = ss_next_fd s) as -> by (apply elem_of_cons in Hfd as [?|?]; [done|done]).
    rewrite <- A3 by done. by apply A2.
Qed.
Lemma accounted_close base local root fd :
  triple (accounted base (fd :: local) root) (close_fd fd) (λ _, accounted base local root) (λ _ _, False).
Proof.
  intros s [A1 A2 A3 A4]. cbn. split; cbn; [done| | |].
  - intros fd' Hfd. destruct (decide (fd = fd')) as [->|]; [apply lookup_delete_eq|rewrite lookup_delete_ne by done; by apply A2].
  - intros fd' Hfd. destruct (decide (fd = fd')) as [->|].
    + rewrite lookup_delete_eq. symmetry. apply A4. by left.
    + rewrite lookup_delete_ne by done. apply A3. apply not_elem_of_cons. by split.
  - intros fd' Hfd. apply A4. by right.
Qed.

Section calls.
Context (base : gmap nat nat) (local : list nat) (root : option PinnedDirectory).
Notation I := (accounted base local root).
(** A call that opens nothing *)
Lemma accounted_syscall {A} (act : event → io A) :
  (∀ ev s, let s' := fst (act ev s) in
     s'.(ss_fds) = s.(ss_fds) ∧ s'.(ss_next_fd) = s.(ss_next_fd) ∧ s'.(ss_root) = s.(ss_root) ∧
     s'.(ss_children) = s.(ss_children) ∧ s'.(ss_written) = s.(ss_written)) →
  keeps I (syscall act).
Proof.
  intros H. apply triple_syscall; [apply accounted_stable|done|]. intros ev s Hs. specialize (H ev s).
  destruct (act ev s) as [s' x]. destruct H as (H1 & H2 & H3 & H4 & H5). destruct x; by eapply accounted_same.
Qed.
Ltac call := apply accounted_syscall; intros ev s; cbn; repeat case_match; done.
Lemma accounted_stat_at fd name : keeps I (stat_at fd name).
Proof. call. Qed.
Lemma accounted_fstat fd : keeps I (fstat fd).
Proof. call. Qed.
Lemma accounted_mkdir_at fd name : keeps I (mkdir_at fd name).
Proof. call. Qed.
Lemma accounted_write_fd fd offset data : keeps I (write_fd fd offset data).
Proof. call. Qed.
Lemma accounted_read_fd fd offset size : keeps I (read_fd fd offset size).
Proof. call. Qed.
Lemma accounted_sync fd : keeps I (sync fd).
Proof. call. Qed.
Lemma accounted_seek fd : keeps I (seek fd).
Proof. call. Qed.
Lemma accounted_listdir fd : keeps I (listdir fd).
Proof. call. Qed.
Lemma accounted_unlink_at fd name : keeps I (unlink_at fd name).
Proof. call. Qed.
Lemma accounted_rmdir_at fd name : keeps I (rmdir_at fd name).
Proof. call. Qed.
Lemma accounted_mkdir_parent : keeps I mkdir_parent.
Proof. call. Qed.
Lemma accounted_resolve_parent : keeps I resolve_parent.
Proof. call. Qed.
Lemma accounted_stat_parent : keeps I stat_parent.
Proof. call. Qed.
Lemma accounted_stat_output name : keeps I (stat_output name).
Proof. call. Qed.

(** A call that opens a descriptor or fails *)
Lemma accounted_opening (act : event → io nat) :
  (∀ ev s, (∃ e, act ev s = (s, Raise e)) ∨ ∃ s1 ino, act ev s = open_fd ino s1 ∧
     s1.(ss_fds) = s.(ss_fds) ∧ s1.(ss_next_fd) = s.(ss_next_fd) ∧ s1.(ss_root) = s.(ss_root) ∧
     s1.(ss_children) = s.(ss_children) ∧ s1.(ss_written) = s.(ss_written)) →
  triple I (syscall act) (λ fd, accounted base (fd :: local) root) (λ _, I).
Proof.
  intros H. apply triple_syscall; [apply accounted_stable|done|]. intros ev s Hs.
  destruct (H ev s) as [[e ->]|(s1 & ino & -> & H1 & H2 & H3 & H4 & H5)]; [done|].
  pose proof (accounted_open base local root s1 ino) as Ho.
  destruct (open_fd ino s1) as [s2 [fd|e]]; [apply Ho|destruct Ho]; by eapply accounted_same.
Qed.
Ltac opening := apply accounted_opening; intros ev s; repeat case_match;
  first [left; by eexists|right; eexists _, _; split; [reflexivity|done]].
Lemma accounted_open_directory_at fd name :
  triple I (open_directory_at fd name) (λ fd, accounted base (fd :: local) root) (λ _, I).
Proof. opening. Qed.
Lemma accounted_open_new_at fd name : triple I (open_new_at fd name) (λ fd, accounted base (fd :: local) root) (λ _, I).
Proof. opening. Qed.
Lemma accounted_open_parent : triple I open_parent (λ fd, accounted base (fd :: local) root) (λ _, I).
Proof. opening. Qed.
End calls.
#[export] Hint Resolve accounted_stat_at accounted_fstat accounted_mkdir_at accounted_write_fd accounted_read_fd accounted_sync
  accounted_seek accounted_listdir accounted_unlink_at accounted_rmdir_at accounted_mkdir_parent accounted_resolve_parent
  accounted_stat_parent accounted_stat_output : keeps.

(** ** The parts of a run *)
Section parts.
Context (base : gmap nat nat).
Implicit Types (local : list nat) (root : option PinnedDirectory).
Notation I local root := (accounted base local root).

Lemma accounted_entry_matches local root fd name ino m : keeps (I local root) (_entry_matches fd name ino m).
Proof. unfold _entry_matches. keeping. Qed.
Lemma accounted_or_close {A} local root fd (m : io A) Q :
  triple (I (fd :: local) root) m Q (λ _, I (fd :: local) root) →
  triple (I (fd :: local) root) (or_close fd m) Q (λ _, I local root).
Proof.
  intros H. eapply triple_catching; [exact H|]. intros e.
  eapply triple_bind; [eapply triple_weaken; [apply accounted_close|done|done|done]|]. intros u. by apply triple_failing.
Qed.
#[local] Hint Resolve accounted_entry_matches : keeps.

Lemma accounted_open_pinned local root fd name :
  triple (I local root) (_open_pinned_directory fd name) (λ pd, I (pd.(pd_fd) :: local) root) (λ _, I local root).
Proof.
  unfold _open_pinned_directory. eapply triple_bind; [apply accounted_open_directory_at|]. intros d. apply accounted_or_close.
  eapply triple_bind; [apply accounted_fstat|]. intros metadata.
  eapply triple_bind with (Q := λ _, I (d :: local) root); [change (keeps (I (d :: local) root) (if bool_decide (snd metadata = S_IFDIR)
    then _entry_matches fd name (fst metadata) S_IFDIR else mret false)); keeping|].
  intros matches. destruct (negb matches); [by apply triple_failing|by apply triple_ret].
Qed.
Lemma accounted_write_loop local root fuel fd offset remaining : keeps (I local root) (write_loop fuel fd offset remaining).
Proof.
  revert offset remaining; induction fuel as [|fuel IH]; intros offset remaining; cbn [write_loop]; keeping; apply IH.
Qed.
Lemma accounted_read_loop local root fuel fd chunks : keeps (I local root) (read_loop fuel fd chunks).
Proof. revert chunks; induction fuel as [|fuel IH]; intros chunks; cbn [read_loop]; keeping; apply IH. Qed.
#[local] Hint Resolve accounted_write_loop accounted_read_loop : keeps.

(** A local descriptor becomes a held one. *)
Lemma accounted_held local root fd s s' :
  s'.(ss_fds) = s.(ss_fds) → s'.(ss_next_fd) = s.(ss_next_fd) → s'.(ss_root) = root → held s' ≡ₚ fd :: held s →
  I (fd :: local) (ss_root s) s → I local root s'.
Proof.
  intros H1 H2 H3 H4 [A1 A2 A3 A4].
  assert (∀ x, x ∈ local ++ held s' ↔ x ∈ (fd :: local) ++ held s) as Hx.
  { intros x. rewrite H4. set_solver. }
  split; rewrite ?H1, ?H2; [done|done| |]; intros x; rewrite Hx; [apply A3|apply A4].
Qed.
Lemma accounted_make_directory local root d name : keeps (I local root) (make_directory d name).
Proof.
  unfold make_directory. eapply triple_bind; [apply accounted_mkdir_at|]. intros u.
  eapply triple_bind; [apply accounted_open_pinned|]. intros child. apply triple_modify. intros s Hs.
  pose proof (ac_root _ _ _ _ Hs) as <-. eapply accounted_held; [..|exact Hs]; try done. unfold held. cbn.
  rewrite map_app. cbn. rewrite <- app_assoc. cbn. rewrite <- (Permutation_middle (map _ _) _ _). by rewrite <- Permutation_middle.
Qed.
Lemma accounted_write_asset local root d asset : keeps (I local root) (write_asset d asset).
Proof.
  unfold write_asset. apply keeps_bind; [apply keeps_gets|]. intros children.
  destruct (asset_place d children (fst asset)) as [[[parent in_root] filename]|]; [|apply keeps_failing].
  eapply triple_bind; [apply accounted_open_new_at|]. intros fd.
  eapply triple_bind with (Q := λ _, I (fd :: local) root).
  - apply accounted_or_close. change (keeps (I (fd :: local) root) (metadata ← fstat fd;
      if negb (bool_decide (snd metadata = S_IFREG)) then failing race_detected
      else _ ← _write_payload fd (snd asset); mret metadata)). unfold _write_payload. keeping.
  - intros metadata. apply triple_modify. intros s Hs. pose proof (ac_root _ _ _ _ Hs) as <-.
    eapply accounted_held; [..|exact Hs]; try done. unfold held. cbn. rewrite map_app. cbn.
    by rewrite <- Permutation_cons_append.
Qed.
Lemma accounted_fill_output fd name payloads :
  triple (I [fd] None) (fill_output fd name payloads) (λ x, I [fd] (Some x.2)) (λ _ s, ∃ root, I [fd] root s).
Proof.
  assert (∀ {A} root (m : io A), keeps (I [fd] root) m → triple (I [fd] root) m (λ _, I [fd] root) (λ _ s, ∃ root, I [fd] root s)) as Hk.
  { intros A root m H. eapply triple_weaken; [exact H|done|done|]. intros e s Hs. by exists root. }
  unfold fill_output. eapply triple_bind; [apply Hk; keeping|]. intros metadata.
  eapply triple_bind with (Q := λ d, I [fd] (Some d)).
  - unfold create_root, require_absent. eapply triple_bind; [apply Hk; keeping|]. intros u.
    eapply triple_bind; [apply Hk; keeping|]. intros u'.
    eapply triple_bind with (Q := λ d, I [d.(pd_fd); fd] None).
    + eapply triple_catching; [apply accounted_open_pinned|]. intros e.
      destruct (is_os_error e); apply triple_failing; intros s Hs; by exists None.
    + intros d. eapply triple_bind with (Q := λ _, I [fd] (Some d)); [|intros ?; by apply triple_ret].
      apply triple_modify. intros s Hs. pose proof (ac_root _ _ _ _ Hs) as Hr.
      eapply accounted_held; [..|rewrite Hr; exact Hs]; try done. unfold held. cbn. rewrite Hr.
      rewrite !app_assoc. by rewrite (comm (++) _ [pd_fd d]), app_nil_r.
  - intros d. eapply triple_bind; [apply Hk|intros ?; by apply triple_ret]. unfold _write_all_assets.
    apply keeps_bind; [|intros u]; apply keeps_each; intros; [apply accounted_make_directory|apply accounted_write_asset].
Qed.
Lemma accounted_verify local root name ino d : keeps (I local root) (_verify_completed_output name ino d).
Proof.
  unfold _verify_completed_output, check_output, check_entries, check_child, check_file, or_race, and_then, stat_or_race,
    _read_pinned_file. keeping.
Qed.
Lemma accounted_cleanup local root fd : keeps (I local root) (_cleanup_owned_entries fd).
Proof. unfold _cleanup_owned_entries, remove_file, remove_directory, suppressed. keeping. Qed.
Lemma accounted_install fd name payloads s : I [fd] None s →
  ∃ root, I [fd] root (fst (catching (install fd name payloads) (handle_failure fd) s)).
Proof.
  assert (triple (I [fd] None) (catching (install fd name payloads) (handle_failure fd)) (λ _ s, ∃ root, I [fd] root s)
    (λ _ s, ∃ root, I [fd] root s)) as H.
  { eapply triple_catching with (X := λ _ s, ∃ root, I [fd] root s).
    - unfold install. eapply triple_bind; [apply accounted_fill_output|]. intros [ino root].
      eapply triple_weaken; [apply (accounted_verify [fd] (Some root))|done| |]; intros ? s' Hs; by exists (Some root).
    - intros e s' [root Hs]. assert (keeps (I [fd] root) (handle_failure fd e)) as Hh.
      { unfold handle_failure. keeping. }
      specialize (Hh s' Hs). destruct (handle_failure fd e s') as [s2 [u|e']]; by exists root. }
  intros Hs. specialize (H s Hs). destruct (catching _ _ s) as [s' [u|e]]; exact H.
Qed.
Lemma accounted_open_logical_parent : triple (I [] None) open_logical_parent (λ fd, I [fd] None) (λ _, I [] None).
Proof.
  unfold open_logical_parent. eapply triple_catching.
  - eapply triple_bind; [apply accounted_mkdir_parent|]. intros u. eapply triple_bind; [apply accounted_resolve_parent|].
    intros u'. apply accounted_open_parent.
  - intros e. destruct (is_os_error e); by apply triple_failing.
Qed.
End parts.

(** The parent is opened last. *)
Lemma unopened fds : triple (λ s, s.(ss_fds) = fds) open_logical_parent (λ _ _, True) (λ _ s, s.(ss_fds) = fds).
Proof.
  assert (stable (λ s, s.(ss_fds) = fds)) as Hs by (intros s H; unfold next_event; by destruct (ss_events s)).
  unfold open_logical_parent. eapply triple_catching with (X := λ _ s, s.(ss_fds) = fds).
  - eapply triple_bind with (Q := λ _ s, s.(ss_fds) = fds).
    { apply triple_syscall; [done..|]. intros ev s H. cbn. by repeat case_match; simplify_eq. }
    intros u. eapply triple_bind with (Q := λ _ s, s.(ss_fds) = fds).
    { apply triple_syscall; [done..|]. intros ev s H. cbn. by repeat case_match; simplify_eq. }
    intros u'. apply triple_syscall; [done..|]. intros ev s H. by repeat case_match; simplify_eq.
  - intros e. destruct (is_os_error e); by apply triple_failing.
Qed.

(** ** Closing *)
Lemma lookup_delete_all {A} (f : A → nat) (l : list A) (m : gmap nat nat) fd :
  foldl (λ m x, delete (f x) m) m l !! fd = if bool_decide (fd ∈ map f l) then None else m !! fd.
Proof.
  revert m; induction l as [|x l IH]; intros m; cbn [foldl map]; [by rewrite bool_decide_eq_false_2 by apply not_elem_of_nil|].
  rewrite IH. destruct (decide (fd ∈ map f l)) as [Hin|Hin].
  - by rewrite !bool_decide_eq_true_2 by (try apply elem_of_cons; auto).
  - rewrite (bool_decide_eq_false_2 (fd ∈ map f l)) by done. destruct (decide (fd = f x)) as [->|Hne].
    + rewrite bool_decide_eq_true_2 by left. apply lookup_delete_eq.
    + rewrite bool_decide_eq_false_2 by (by rewrite not_elem_of_cons). by rewrite lookup_delete_ne.
Qed.
Lemma each_close {A} (f : A → nat) (l : list A) s :
  each (λ x, close_fd (f x)) l s = (with_fds s (foldl (λ m x, delete (f x) m) s.(ss_fds) l) s.(ss_next_fd), Ok ()).
Proof. revert s; induction l as [|x l IH]; intros s; cbn [each]; [by destruct s|]. unfold mbind, stateful_bind. cbn. by rewrite IH. Qed.
Lemma close_all base fd root s : accounted base [fd] root s → (fst (_close_descriptors fd s)).(ss_fds) = base.
Proof.
  intros [A1 A2 A3 A4]. unfold _close_descriptors, mbind, stateful_bind, gets. rewrite !each_close. cbn [fst].
  set (m1 := foldl _ _ _). cbn [ss_fds with_fds ss_children].
  assert (∀ m r, (fst ((let '(s0, x) := match r with Some d => close_fd d.(pd_fd) | None => mret () end
     (with_fds s m (ss_next_fd s)) in match x with Ok _ => close_fd fd s0 | Raise e => (s0, Raise e) end))).(ss_fds) =
     delete fd (match r with Some d => delete d.(pd_fd) m | None => m end)) as Hd by by intros m [d|].
  cbn [ss_next_fd with_fds] in *. match goal with |- context [foldl ?g ?m ?l] => set (m2 := foldl g m l) end.
  change (ss_root (id s)) with (ss_root s). etransitivity; [apply Hd|].
  apply map_eq. intros x. destruct (decide (x ∈ [fd] ++ held s)) as [Hin|Hin].
  - rewrite (A4 x Hin). unfold held in Hin. destruct (decide (x = fd)) as [->|Hne]; [apply lookup_delete_eq|].
    rewrite lookup_delete_ne by done. cbn in Hin. apply elem_of_cons in Hin as [?|Hin]; [done|].
    assert (x ∈ map pf_fd (ss_written s) ∨ x ∈ map (λ child, pd_fd (snd child)) (ss_children s) → m2 !! x = None) as Hm2.
    { intros Hx. subst m2. rewrite lookup_delete_all. destruct Hx as [Hx|Hx].
      - case_bool_decide; [done|]. subst m1. rewrite lookup_delete_all. by rewrite bool_decide_eq_true_2.
      - by rewrite bool_decide_eq_true_2. }
    destruct (ss_root s) as [d|].
    + destruct (decide (x = pd_fd d)) as [->|Hd']; [apply lookup_delete_eq|]. rewrite lookup_delete_ne by done. apply Hm2.
      rewrite !elem_of_app, list_elem_of_singleton in Hin. naive_solver.
    + apply Hm2. rewrite !elem_of_app in Hin. destruct Hin as [?|[?|?%not_elem_of_nil]]; auto; done.
  - rewrite <- (A3 x Hin). unfold held in Hin. cbn in Hin. rewrite not_elem_of_cons, !not_elem_of_app in Hin.
    destruct Hin as (H1 & H2 & H3 & H4). rewrite lookup_delete_ne by done.
    assert (m2 !! x = ss_fds s !! x) as Hm2.
    { subst m2 m1. rewrite lookup_delete_all, bool_decide_eq_false_2 by done.
      by rewrite lookup_delete_all, bool_decide_eq_false_2. }
    destruct (ss_root s) as [d|]; [|exact Hm2]. rewrite lookup_delete_ne; [exact Hm2|]. intros E. apply H4. rewrite E. by left.
Qed.

