(* ===== verification/DemoInitKeeps.v ===== *)
(** * What was there before is left alone

    A file that existed keeps its content and a directory keeps every entry it had, as long
    as no other process touches it.  The run writes to files it created with O_EXCL only,
    and removes entries that it created itself in that directory. *)
From S2P Require Import Prelude Json Dicts Stateful PyTime PyDecimal Sha256 Canonical Platforms Models Common.
From S2P Require Import Evidence RunStore DemoFs DemoInit DemoInitFacts.

(** A node that was [n0] *)
Definition kept (n0 n : option node) : Prop :=
  match n0 with
  | Some (Dir entries) => ∃ entries', n = Some (Dir entries') ∧ entries ⊆ entries'
  | _ => n = n0
  end.
Lemma kept_refl n : kept n n.
Proof. destruct n as [[entries| |]|]; cbn; [by exists entries|done..]. Qed.

Section inode.
Context (i : nat) (n0 : option node).
Context (parent_fd : nat).

(** [fd] is not open on the inode, or the inode had no entry [name]. *)
Definition mine (s : Session) (place : nat * string) : Prop :=
  place.1 < s.(ss_next_fd) ∧
  (s.(ss_fds) !! place.1 = Some i → ∀ entries, n0 = Some (Dir entries) → entries !! place.2 = None).
Definition writable (s : Session) (fd : nat) : Prop :=
  fd < s.(ss_next_fd) ∧ s.(ss_fds) !! fd ≠ Some i.
(** The entries the variables of the run say were created *)
Definition owned (s : Session) : list (nat * string) :=
  map (λ record, (record.(pf_parent).(pd_fd), record.(pf_name))) s.(ss_written) ++
  match s.(ss_root) with
  | Some root => (parent_fd, root.(pd_name)) :: map (λ child, (root.(pd_fd), fst child)) s.(ss_children)
  | None => []
  end.

(** Nothing touches the inode before the next calls either. *)
Definition untouched (events : list event) : Prop :=
  Forall (λ ev, Forall (λ step, touched step ≠ Some i) ev.(ev_before)) events.

Record keeping_inv (places : list (nat * string)) (files : list nat) (root : option PinnedDirectory) (s : Session) : Prop := {
  ki_root : s.(ss_root) = root;
  ki_empty : root = None → s.(ss_children) = [];
  ki_old : i < s.(ss_fs).(fs_next);
  ki_kept : kept n0 (s.(ss_fs).(fs_nodes) !! i);
  ki_events : untouched s.(ss_events);
  ki_fds : ∀ fd, s.(ss_next_fd) ≤ fd → s.(ss_fds) !! fd = None;
  ki_places : Forall (mine s) (places ++ owned s);
  ki_files : Forall (writable s) files;
}.

(** ** Other processes *)
Lemma env_apply_kept f step : i < f.(fs_next) → kept n0 (f.(fs_nodes) !! i) → touched step ≠ Some i →
  i < (env_apply f step).(fs_next) ∧ kept n0 ((env_apply f step).(fs_nodes) !! i).
Proof.
  intros Hi Hk Ht. destruct step as [dir name n|dir name ino|dir name|ino content|p]; cbn in *;
    repeat case_match; cbn; (split; [lia|]); try done;
    repeat (rewrite lookup_insert_ne; [|first [congruence|lia]]); done.
Qed.
Lemma env_steps_kept steps f : i < f.(fs_next) → kept n0 (f.(fs_nodes) !! i) →
  Forall (λ step, touched step ≠ Some i) steps →
  i < (foldl env_apply f steps).(fs_next) ∧ kept n0 ((foldl env_apply f steps).(fs_nodes) !! i).
Proof.
  intros Hi Hk Hs. revert f Hi Hk; induction Hs as [|step steps Hstep _ IH]; intros f Hi Hk; [done|]. cbn.
  destruct (env_apply_kept f step Hi Hk Hstep). by apply IH.
Qed.
Lemma keeping_stable places files root : stable (keeping_inv places files root).
Proof.
  intros s [K1 K0 K2 K3 K4 K5 K6 K7]. unfold next_event. destruct (ss_events s) as [|ev events] eqn:E; [cbn [snd]; by split; rewrite ?E|]; rewrite ?E in K4.
  unfold untouched in K4. apply Forall_cons in K4 as [H1 H2].
  destruct (env_steps_kept _ _ K2 K3 H1). by split.
Qed.

(** ** Changes of the state *)
(** Descriptors are added and closed, never changed. *)
Lemma mine_grows s s' place : ss_next_fd s ≤ ss_next_fd s' →
  (∀ fd x, fd < ss_next_fd s → s'.(ss_fds) !! fd = Some x → s.(ss_fds) !! fd = Some x) → mine s place → mine s' place.
Proof. intros Hn Hf [H1 H2]. split; [lia|]. intros H. by apply H2, Hf. Qed.
Lemma writable_grows s s' fd : ss_next_fd s ≤ ss_next_fd s' →
  (∀ fd x, fd < ss_next_fd s → s'.(ss_fds) !! fd = Some x → s.(ss_fds) !! fd = Some x) → writable s fd → writable s' fd.
Proof. intros Hn Hf [H1 H2]. split; [lia|]. intros H. by apply H2, Hf. Qed.
Lemma keeping_fs places files root s f : keeping_inv places files root s →
  i < f.(fs_next) → kept n0 (f.(fs_nodes) !! i) → keeping_inv places files root (with_fs s f).
Proof. intros [K1 K0 K2 K3 K4 K5 K6 K7] H1 H2. by split. Qed.
Lemma keeping_open places files root s ino : keeping_inv places files root s →
  match open_fd ino s with
  | (s', Ok fd) => keeping_inv places files root s' ∧ (ino ≠ i → keeping_inv places (fd :: files) root s')
  | (_, Raise _) => False
  end.
Proof.
  intros [K1 K0 K2 K3 K4 K5 K6 K7]. cbn. set (s' := with_fds _ _ _).
  assert (∀ fd x, fd < ss_next_fd s → s'.(ss_fds) !! fd = Some x → s.(ss_fds) !! fd = Some x) as Hg.
  { intros fd x Hfd. subst s'. cbn. by rewrite lookup_insert_ne by lia. }
  assert (keeping_inv places files root s') as H.
  { split; try done.
    - intros fd Hfd. subst s'. cbn in *. rewrite lookup_insert_ne by lia. apply K5. lia.
    - eapply Forall_impl; [exact K6|]. intros place. apply mine_grows; [cbn; lia|done].
    - eapply Forall_impl; [exact K7|]. intros fd. apply writable_grows; [cbn; lia|done]. }
  split; [done|]. intros Hne. split; try apply H. apply Forall_cons. split; [|apply H].
  split; [cbn; lia|]. subst s'. cbn. rewrite lookup_insert_eq. congruence.
Qed.
Lemma keeping_close places files root fd : keeps (keeping_inv places files root) (close_fd fd).
Proof.
  intros s [K1 K0 K2 K3 K4 K5 K6 K7]. cbn. set (s' := with_fds _ _ _).
  assert (∀ fd' x, fd' < ss_next_fd s → s'.(ss_fds) !! fd' = Some x → s.(ss_fds) !! fd' = Some x) as Hg.
  { intros fd' x _. subst s'. cbn. by intros [_ ?]%lookup_delete_Some. }
  split; try done.
  - intros fd' Hfd. destruct (s'.(ss_fds) !! fd') as [x|] eqn:E; [|done]. exfalso. subst s'. cbn in *.
    apply lookup_delete_Some in E as [_ E]. rewrite K5 in E; done.
  - eapply Forall_impl; [exact K6|]. intros place. by apply mine_grows.
  - eapply Forall_impl; [exact K7|]. intros fd'. by apply writable_grows.
Qed.
(** The set of entries of a directory changes at one name. *)
Lemma kept_entries places files root s fd dir entries entries' f :
  keeping_inv places files root s → entries_at s fd = Some (dir, entries) →
  f.(fs_nodes) !! dir = Some (Dir entries') → (∀ j, j ≠ dir → j < fs_next (ss_fs s) → f.(fs_nodes) !! j = (ss_fs s).(fs_nodes) !! j) →
  (dir = i → ∀ e0, n0 = Some (Dir e0) → e0 ⊆ entries → e0 ⊆ entries') →
  kept n0 (f.(fs_nodes) !! i).
Proof.
  intros [K1 K0 K2 K3 K4 K5 K6 K7] He Hd Ho Hs. destruct (decide (i = dir)) as [->|Hne]; [|by rewrite Ho].
  unfold entries_at in He. destruct (ss_fds s !! fd) as [dir'|]; [|done]. cbn in He.
  destruct (fs_nodes (ss_fs s) !! dir') as [[es| |]|] eqn:En; simplify_eq. rewrite Hd. rewrite En in K3.
  destruct n0 as [[e0| |]|]; cbn in *; try congruence. destruct K3 as (e1 & [= <-] & Hsub). exists entries'. split; [done|]. by apply Hs.
Qed.
Lemma entries_at_open s fd x : entries_at s fd = Some x → s.(ss_fds) !! fd = Some x.1.
Proof. unfold entries_at. destruct (ss_fds s !! fd) as [dir|]; [|done]. cbn. by repeat case_match; intros [= <-]. Qed.
(** A name that a directory lacks now, it lacked before. *)
Lemma absent_mine places files root s fd dir entries name : keeping_inv places files root s →
  entries_at s fd = Some (dir, entries) → entries !! name = None → mine s (fd, name).
Proof.
  intros [K1 K0 K2 K3 K4 K5 K6 K7] He Hn. pose proof (entries_at_open _ _ _ He) as Ho. cbn in Ho. split; cbn.
  - destruct (decide (fd < ss_next_fd s)); [done|]. rewrite K5 in Ho by lia. done.
  - rewrite Ho. intros [= ->] e0 E. unfold entries_at in He. rewrite Ho in He. cbn in He.
    destruct (fs_nodes (ss_fs s) !! i) as [[es| |]|]; simplify_eq. rewrite E in K3. cbn in K3. destruct K3 as (e1 & [= <-] & Hsub).
    by eapply lookup_weaken_None.
Qed.
Lemma keeping_place places files root s place :
  keeping_inv places files root s → mine s place → keeping_inv (place :: places) files root s.
Proof. intros [K1 K0 K2 K3 K4 K5 K6 K7] Hm. split; try done. by apply Forall_cons. Qed.
Lemma keeping_drop places files root s place :
  keeping_inv (place :: places) files root s → keeping_inv places files root s ∧ mine s place.
Proof. intros [K1 K0 K2 K3 K4 K5 K6 K7]. cbn in K6. apply Forall_cons in K6 as [H1 H2]. split; [by split|done]. Qed.
Lemma keeping_drop_file places files root s fd :
  keeping_inv places (fd :: files) root s → keeping_inv places files root s ∧ writable s fd.
Proof. intros [K1 K0 K2 K3 K4 K5 K6 K7]. apply Forall_cons in K7 as [H1 H2]. split; [by split|done]. Qed.

(** ** System calls *)
Notation I := keeping_inv.
Lemma keeping_looking {A} places files root (act : event → io A) :
  (∀ ev s, fst (act ev s) = s) → keeps (I places files root) (syscall act).
Proof.
  intros H. apply triple_syscall; [apply keeping_stable|done|]. intros ev s Hs. specialize (H ev s).
  destruct (act ev s) as [s' x]. cbn in H. subst. by destruct x.
Qed.
Ltac looking := apply keeping_looking; intros ev s; repeat case_match; done.
Lemma keeping_stat_at places files root fd name : keeps (I places files root) (stat_at fd name).
Proof. looking. Qed.
Lemma keeping_fstat places files root fd : keeps (I places files root) (fstat fd).
Proof. looking. Qed.
Lemma keeping_read_fd places files root fd offset size : keeps (I places files root) (read_fd fd offset size).
Proof. looking. Qed.
Lemma keeping_sync places files root fd : keeps (I places files root) (sync fd).
Proof. looking. Qed.
Lemma keeping_seek places files root fd : keeps (I places files root) (seek fd).
Proof. looking. Qed.
Lemma keeping_listdir places files root fd : keeps (I places files root) (listdir fd).
Proof. looking. Qed.
Lemma keeping_resolve_parent places files root : keeps (I places files root) resolve_parent.
Proof. looking. Qed.
Lemma keeping_stat_parent places files root : keeps (I places files root) stat_parent.
Proof. looking. Qed.
Lemma keeping_stat_output places files root name : keeps (I places files root) (stat_output name).
Proof. looking. Qed.

Lemma keeping_opening places files root (act : event → io nat) :
  (∀ ev s, (∃ e, act ev s = (s, Raise e)) ∨ ∃ ino, act ev s = open_fd ino s) → keeps (I places files root) (syscall act).
Proof.
  intros H. apply triple_syscall; [apply keeping_stable|done|]. intros ev s Hs.
  destruct (H ev s) as [[e ->]|[ino ->]]; [done|]. pose proof (keeping_open _ _ _ _ ino Hs) as Ho.
  destruct (open_fd ino s) as [s' [fd|e]]; [apply Ho|done].
Qed.
Ltac opening := apply keeping_opening; intros ev s; repeat case_match; first [left; by eexists|right; by eexists].
Lemma keeping_open_directory_at places files root fd name : keeps (I places files root) (open_directory_at fd name).
Proof. opening. Qed.
Lemma keeping_open_parent places files root : keeps (I places files root) open_parent.
Proof. opening. Qed.
Lemma keeping_mkdir_parent places files root : keeps (I places files root) mkdir_parent.
Proof.
  apply triple_syscall; [apply keeping_stable|done|]. intros ev s Hs. pose proof Hs as [K1 K0 K2 K3 K4 K5 K6 K7].
  destruct (fs_parent (ss_fs s)); [by repeat case_match|]. apply keeping_fs; cbn; [done|lia|].
  by rewrite lookup_insert_ne by lia.
Qed.

(** A new entry, for a new node *)
Lemma keeping_add places files root s fd dir entries name n : I places files root s →
  entries_at s fd = Some (dir, entries) → entries !! name = None →
  I ((fd, name) :: places) files root
    (with_fs s (set_entries (add_node s.(ss_fs) n) dir (<[name := s.(ss_fs).(fs_next)]> entries))).
Proof.
  intros Hs He Hn. pose proof (absent_mine _ _ _ _ _ _ _ _ Hs He Hn) as Hm.
  apply keeping_fs; [by apply keeping_place|cbn; pose proof (ki_old _ _ _ _ Hs); lia|].
  eapply (kept_entries _ _ _ _ _ _ _ _ _ Hs He); cbn.
  - apply lookup_insert_eq.
  - intros j Hj Hlt. by rewrite !lookup_insert_ne by lia.
  - intros _ e0 _ Hsub. etransitivity; [exact Hsub|]. by apply insert_subseteq.
Qed.
Lemma keeping_mkdir_at places files root fd name :
  triple (I places files root) (mkdir_at fd name) (λ _, I ((fd, name) :: places) files root) (λ _, I places files root).
Proof.
  apply triple_syscall; [apply keeping_stable|done|]. intros ev s Hs. destruct (entries_at s fd) as [[dir entries]|] eqn:E; [|done].
  case_bool_decide as Hb; [done|]. apply eq_None_not_Some in Hb. by apply keeping_add.
Qed.
Lemma keeping_open_new_at places files root fd name :
  triple (I places files root) (open_new_at fd name) (λ d, I ((fd, name) :: places) (d :: files) root) (λ _, I places files root).
Proof.
  apply triple_syscall; [apply keeping_stable|done|]. intros ev s Hs. destruct (entries_at s fd) as [[dir entries]|] eqn:E; [|done].
  case_bool_decide as Hb; [done|]. apply eq_None_not_Some in Hb.
  pose proof (keeping_add _ _ _ _ _ _ _ _ (File "") Hs E Hb) as Ha.
  pose proof (keeping_open _ _ _ _ (fs_next (ss_fs s)) Ha) as Ho. pose proof (ki_old _ _ _ _ Hs).
  destruct (open_fd _ _) as [s' [d|e]]; [|done]. apply Ho. lia.
Qed.
Lemma keeping_write_fd places files root fd offset data :
  fd ∈ files → keeps (I places files root) (write_fd fd offset data).
Proof.
  intros Hfd. apply triple_syscall; [apply keeping_stable|done|]. intros ev s Hs. pose proof Hs as [K1 K0 K2 K3 K4 K5 K6 K7].
  rewrite Forall_forall in K7. destruct (K7 fd Hfd) as [_ Hw].
  destruct (ss_fds s !! fd) as [ino|]; [|done]. cbn. destruct (fs_nodes (ss_fs s) !! ino) as [[|content|]|]; try done. cbn.
  apply keeping_fs; cbn; [done|done|]. rewrite lookup_insert_ne; [done|congruence].
Qed.
(** Removing an entry that is ours *)
Lemma keeping_delete places files root s fd dir entries name : I places files root s → (fd, name) ∈ places →
  entries_at s fd = Some (dir, entries) → I places files root (with_fs s (set_entries s.(ss_fs) dir (delete name entries))).
Proof.
  intros Hs Hp He. apply keeping_fs; [done|apply (ki_old _ _ _ _ Hs)|]. eapply (kept_entries _ _ _ _ _ _ _ _ _ Hs He); cbn.
  - apply lookup_insert_eq.
  - intros j Hj _. by rewrite lookup_insert_ne.
  - intros -> e0 E Hsub. pose proof (ki_places _ _ _ _ Hs) as Hm. rewrite Forall_forall in Hm.
    destruct (Hm (fd, name)) as [_ Hn]; [apply elem_of_app; by left|]. cbn in Hn.
    specialize (Hn (entries_at_open _ _ _ He) e0 E). apply map_subseteq_spec. intros k x Hk.
    rewrite lookup_delete_ne by congruence. by eapply lookup_weaken.
Qed.
Lemma keeping_unlink_at places files root fd name :
  (fd, name) ∈ places → keeps (I places files root) (unlink_at fd name).
Proof.
  intros Hp. apply triple_syscall; [apply keeping_stable|done|]. intros ev s Hs.
  destruct (entries_at s fd) as [[dir entries]|] eqn:E; repeat case_match; simplify_eq; try done; by eapply keeping_delete.
Qed.
Lemma keeping_rmdir_at places files root fd name :
  (fd, name) ∈ places → keeps (I places files root) (rmdir_at fd name).
Proof.
  intros Hp. apply triple_syscall; [apply keeping_stable|done|]. intros ev s Hs.
  destruct (entries_at s fd) as [[dir entries]|] eqn:E; repeat case_match; simplify_eq; try done; by eapply keeping_delete.
Qed.
#[local] Hint Resolve keeping_close keeping_stat_at keeping_fstat keeping_read_fd keeping_sync keeping_seek keeping_listdir
  keeping_resolve_parent keeping_stat_parent keeping_stat_output keeping_open_directory_at keeping_open_parent
  keeping_mkdir_parent keeping_write_fd : keeps.

(** ** The parts of a run *)
Lemma keeping_entry_matches places files root fd name ino m : keeps (I places files root) (_entry_matches fd name ino m).
Proof. unfold _entry_matches. keeping. Qed.
#[local] Hint Resolve keeping_entry_matches : keeps.
Lemma keeping_open_pinned places files root fd name : keeps (I places files root) (_open_pinned_directory fd name).
Proof. unfold _open_pinned_directory, or_close. keeping. Qed.
Lemma keeping_write_loop places files root fuel fd offset remaining :
  fd ∈ files → keeps (I places files root) (write_loop fuel fd offset remaining).
Proof. intros Hfd. revert offset remaining; induction fuel as [|fuel IH]; intros offset remaining; cbn [write_loop]; keeping; apply IH. Qed.
Lemma keeping_read_loop places files root fuel fd chunks : keeps (I places files root) (read_loop fuel fd chunks).
Proof. revert chunks; induction fuel as [|fuel IH]; intros chunks; cbn [read_loop]; keeping; apply IH. Qed.
#[local] Hint Resolve keeping_open_pinned keeping_write_loop keeping_read_loop : keeps.
(** A place that was created is recorded. *)
Lemma keeping_recorded places files root s s' place :
  s'.(ss_fs) = s.(ss_fs) → s'.(ss_fds) = s.(ss_fds) → s'.(ss_next_fd) = s.(ss_next_fd) → s'.(ss_events) = s.(ss_events) →
  owned s' ≡ₚ place :: owned s → s'.(ss_root) = root → (root = None → s'.(ss_children) = []) → I (place :: places) files s.(ss_root) s → I places files root s'.
Proof.
  intros H1 H2 H3 H4 H5 H6 H7 [K1 K0 K2 K3 K4 K5 K6 K7]. split; unfold mine, writable in *; rewrite ?H1, ?H2, ?H3, ?H4; try done.
  rewrite H5. by rewrite <- Permutation_middle.
Qed.
Lemma keeping_make_directory places files root name : keeps (I places files (Some root)) (make_directory root name).
Proof.
  unfold make_directory. eapply triple_bind; [apply keeping_mkdir_at|]. intros u.
  eapply triple_bind with (Q := λ _, I ((root.(pd_fd), name) :: places) files (Some root)).
  - eapply triple_weaken; [apply keeping_open_pinned|done|done|]. intros e s Hs. by apply keeping_drop in Hs as [? _].
  - intros child. apply triple_modify. intros s Hs. pose proof (ki_root _ _ _ _ Hs) as Hr.
    eapply keeping_recorded; [..|rewrite Hr; exact Hs]; try done. unfold owned. cbn. rewrite Hr, map_app. cbn.
    rewrite <- (Permutation_cons_append (map _ (ss_children s))), perm_swap. by rewrite <- Permutation_middle.
Qed.
Lemma keeping_write_asset places files root d asset : keeps (I places files root) (write_asset d asset).
Proof.
  unfold write_asset. apply keeps_bind; [apply keeps_gets|]. intros children.
  destruct (asset_place d children (fst asset)) as [[[parent in_root] filename]|]; [|apply keeps_failing].
  eapply triple_bind; [apply keeping_open_new_at|]. intros fd.
  eapply triple_bind with (Q := λ _, I ((parent.(pd_fd), filename) :: places) (fd :: files) root).
  - assert (keeps (I ((parent.(pd_fd), filename) :: places) (fd :: files) root) (or_close fd (metadata ← fstat fd;
        if negb (bool_decide (snd metadata = S_IFREG)) then failing race_detected
        else _ ← _write_payload fd (snd asset); mret metadata))) as Hk.
    { unfold or_close, _write_payload. keeping. apply keeping_write_loop. by left. }
    eapply triple_weaken; [exact Hk|done|done|]. intros e s [Hs _]%keeping_drop. by apply keeping_drop_file in Hs as [? _].
  - intros metadata. apply triple_modify. intros s Hs. pose proof (ki_root _ _ _ _ Hs) as Hr.
    eapply (keeping_recorded _ _ _ s _ (parent.(pd_fd), filename)); [..|rewrite Hr]; try done.
    + unfold owned. cbn. rewrite map_app. cbn. by rewrite <- (Permutation_cons_append (map _ (ss_written s))).
    + exact (ki_empty _ _ _ _ Hs).
    + destruct Hs as [K1 K0 K2 K3 K4 K5 K6 K7]. apply Forall_cons in K7 as [_ K7]. by split.
Qed.
Lemma keeping_verify places files root name ino d : keeps (I places files root) (_verify_completed_output name ino d).
Proof.
  unfold _verify_completed_output, check_output, check_entries, check_child, check_file, or_race, and_then, stat_or_race,
    _read_pinned_file. keeping.
Qed.
Lemma keeping_cleanup files root : keeps (I [] files root) (_cleanup_owned_entries parent_fd).
Proof.
  unfold _cleanup_owned_entries. intros s0 Hs0. unfold mbind at 1, stateful_bind at 1, gets, id.
  assert (I (owned s0) files root s0) as Hs.
  { destruct Hs0 as [K1 K0 K2 K3 K4 K5 K6 K7]. split; try done. by apply Forall_app. }
  match goal with |- match ?m s0 with _ => _ end => assert (keeps (I (owned s0) files root) m) as Hk end.
  - apply keeps_bind.
    + apply keeps_each. intros record Hr. unfold remove_file, suppressed. keeping. apply keeping_unlink_at.
      unfold owned. apply elem_of_app. left. apply list_elem_of_fmap. exists record. split; [done|]. by rewrite list_elem_of_In, in_rev, <- list_elem_of_In.
    + intros u. destruct (ss_root s0) as [d|] eqn:Er; [|apply keeps_ret]. apply keeps_bind.
      * apply keeps_each. intros child Hc. unfold remove_directory, suppressed. keeping. apply keeping_rmdir_at.
        unfold owned. rewrite Er. apply elem_of_app. right. right. apply list_elem_of_fmap. exists child. split; [done|].
        by rewrite list_elem_of_In, in_rev, <- list_elem_of_In.
      * intros u'. unfold remove_directory, suppressed. keeping. apply keeping_rmdir_at. unfold owned. rewrite Er.
        apply elem_of_app. right. left.
  - specialize (Hk s0 Hs). match goal with |- match ?m s0 with _ => _ end => destruct (m s0) as [s' [u|e]] end;
      destruct Hk as [K1 K0 K2 K3 K4 K5 K6 K7]; split; try done; by apply Forall_app in K6 as [_ ?].
Qed.

Lemma keeping_create_root name :
  triple (I [] [] None) (create_root parent_fd name) (λ d, I [] [] (Some d)) (λ _ s, ∃ root, I [] [] root s).
Proof.
  assert (∀ {A} places files (m : io A), keeps (I places files None) m →
    triple (I places files None) m (λ _, I places files None) (λ _ s, ∃ root, I [] [] root s)) as Hk.
  { intros A places files m H. eapply triple_weaken; [exact H|done|done|]. intros e s [K1 K0 K2 K3 K4 K5 K6 K7]. exists None.
    apply Forall_app in K6 as [_ K6]. by split. }
  unfold create_root. eapply triple_bind; [apply Hk; unfold require_absent; keeping|]. intros u.
  eapply triple_bind; [eapply triple_weaken; [apply keeping_mkdir_at|done|done|intros e s Hs; by exists None]|]. intros u'.
  eapply triple_bind with (Q := λ d s, I [(parent_fd, name)] [] None s ∧ d.(pd_name) = name ∧ d.(pd_parent_fd) = parent_fd).
  - eapply triple_catching.
    + apply triple_and with (X' := λ _ _, True); [|apply open_pinned_names]. apply Hk, keeping_open_pinned.
    + intros e. destruct (is_os_error e); by apply triple_failing.
  - intros d. eapply triple_bind with (Q := λ _, I [] [] (Some d)); [|intros ?; by apply triple_ret].
    apply triple_modify. intros s (Hs & Hn & _). pose proof (ki_root _ _ _ _ Hs) as Hr. pose proof (ki_empty _ _ _ _ Hs eq_refl) as Hc.
    eapply (keeping_recorded _ _ _ s _ (parent_fd, name)); [..|rewrite Hr; exact Hs]; try done.
    unfold owned. cbn. rewrite Hr, Hc, Hn. cbn. rewrite app_nil_r. by rewrite <- Permutation_cons_append.
Qed.
Lemma keeping_fill_output name payloads :
  triple (I [] [] None) (fill_output parent_fd name payloads) (λ x, I [] [] (Some x.2)) (λ _ s, ∃ root, I [] [] root s).
Proof.
  unfold fill_output. eapply triple_bind; [eapply triple_weaken; [apply keeping_fstat|done|done|intros e s Hs; by exists None]|].
  intros metadata. eapply triple_bind; [apply keeping_create_root|]. intros d.
  assert (keeps (I [] [] (Some d)) (_write_all_assets d payloads)) as Hw.
  { unfold _write_all_assets. apply keeps_bind; [|intros u]; apply keeps_each; intros;
      [apply keeping_make_directory|apply keeping_write_asset]. }
  eapply triple_bind; [eapply triple_weaken; [exact Hw|done|done|intros e s Hs; by exists (Some d)]|]. intros u.
  by apply triple_ret.
Qed.
Lemma keeping_install name payloads s : I [] [] None s →
  ∃ root, I [] [] root (fst (catching (install parent_fd name payloads) (handle_failure parent_fd) s)).
Proof.
  assert (triple (I [] [] None) (catching (install parent_fd name payloads) (handle_failure parent_fd))
    (λ _ s, ∃ root, I [] [] root s) (λ _ s, ∃ root, I [] [] root s)) as H.
  { eapply triple_catching with (X := λ _ s, ∃ root, I [] [] root s).
    - unfold install. eapply triple_bind; [apply keeping_fill_output|]. intros [ino root].
      eapply triple_weaken; [apply (keeping_verify [] [] (Some root))|done| |]; intros ? s' Hs; by exists (Some root).
    - intros e s' [root Hs]. assert (keeps (I [] [] root) (handle_failure parent_fd e)) as Hh.
      { unfold handle_failure. apply keeps_bind; [destruct (cleans_up e); [apply keeping_cleanup|apply keeps_ret]|intros u; apply keeps_failing]. }
      specialize (Hh s' Hs). destruct (handle_failure parent_fd e s') as [s2 [u|e']]; by exists root. }
  intros Hs. specialize (H s Hs). destruct (catching _ _ s) as [s' [u|e]]; exact H.
Qed.
Lemma keeping_close_descriptors root : keeps (I [] [] root) (_close_descriptors parent_fd).
Proof. unfold _close_descriptors. keeping. Qed.
Lemma keeping_open_logical_parent : keeps (I [] [] None) open_logical_parent.
Proof. unfold open_logical_parent. keeping. Qed.
End inode.

(** C8. What was there is left alone, under any interleaving.  Take any file or directory
    that exists when [initialize_demo] is called, and let other processes do anything except
    change that one, with any calls failing: at the end a file holds what it held, and a
    directory has every entry it had, still naming the same inode.  So nothing is ever
    overwritten, replaced or deleted that the call did not create, not even through a
    directory that was swapped under it. *)
Theorem initialize_demo_keeps `{P : Platform} (bundle : string → resource) (supported : bool) (name : string)
    (f : fs) (fds : gmap nat nat) (next_fd : nat) (events : list event) (i : nat) :
  (∀ fd, next_fd ≤ fd → fds !! fd = None) → i < f.(fs_next) → untouched i events →
  kept (f.(fs_nodes) !! i)
    ((fst (initialize_demo bundle supported name (fresh_call f fds next_fd events))).(ss_fs).(fs_nodes) !! i).
Proof.
  intros Hnext Hi Hu. set (s := fresh_call f fds next_fd events). set (n0 := fs_nodes f !! i).
  assert (∀ p, keeping_inv i n0 p [] [] None s) as Hs by (intros p; split; try done; apply kept_refl).
  unfold initialize_demo, lifted, mbind, stateful_bind.
  destruct (_load_and_validate_assets bundle) as [payloads|e]; [|apply kept_refl].
  destruct (_require_descriptor_safe_platform supported) as [u|e]; [|apply kept_refl].
  destruct (String.eqb name ""); [apply kept_refl|].
  assert (∀ p, match open_logical_parent s with (s1, _) => keeping_inv i n0 p [] [] None s1 end) as Hp.
  { intros p. pose proof (keeping_open_logical_parent i n0 p s (Hs p)) as H. by destruct (open_logical_parent s) as [s1 [fd|e]]. }
  destruct (open_logical_parent s) as [s1 [fd|e]]; [|exact (ki_kept _ _ 0 _ _ _ _ (Hp 0))].
  unfold attempt. destruct (keeping_install i n0 fd name payloads s1 (Hp fd)) as [root Hr].
  destruct (catching _ _ s1) as [s2 outcome]. pose proof (keeping_close_descriptors i n0 fd root s2 Hr) as Hc.
  destruct (_close_descriptors fd s2) as [s3 [u'|e]]; [destruct outcome|]; exact (ki_kept _ _ _ _ _ _ _ Hc).
Qed.
