(* ===== verification/DemoInitSound.v ===== *)
(** * What a successful installation leaves

    While the directory is filled other processes may do anything; what the run knows then
    is in its variables ([filled]).  If they are quiet from the verification on, its checks
    all speak of one file system, and together they say that the output is the bundle. *)
From S2P Require Import Prelude Json Dicts Stateful PyTime PyDecimal Sha256 Canonical Platforms Models Common.
From S2P Require Import Evidence RunStore DemoFs DemoInit DemoInitFacts.

(** ** Filling *)
Section filled.
Context (name : string) (parent_fd : nat).

Definition child_fds (s : Session) : list nat := map (λ child, (snd child).(pd_fd)) s.(ss_children).
(** The descriptors in [known] are open on these inodes; [new] is none of a child. *)
Record filled (known : list (nat * nat)) (new : list nat) (root : option PinnedDirectory) (children : list (string * PinnedDirectory))
    (assets : list (string * string)) (s : Session) : Prop := {
  fl_root : s.(ss_root) = root;
  fl_next : ∀ fd, s.(ss_next_fd) ≤ fd → s.(ss_fds) !! fd = None;
  fl_known : Forall (λ x, s.(ss_fds) !! x.1 = Some x.2) known;
  fl_new : Forall (λ fd, fd ∉ child_fds s) new;
  fl_child_list : s.(ss_children) = children;
  fl_children : Forall (λ child, s.(ss_fds) !! child.2.(pd_fd) = Some child.2.(pd_inode)) s.(ss_children);
  fl_distinct : NoDup (child_fds s);
  fl_files : Forall2 (λ record asset, s.(ss_fds) !! record.(pf_fd) = Some record.(pf_inode) ∧
    (∃ d, root = Some d ∧ asset_place d s.(ss_children) asset.1 = Some (record.(pf_parent), record.(pf_in_root), record.(pf_name))) ∧
    record.(pf_expected_payload) = asset.2) s.(ss_written) assets;
}.
Implicit Types (known : list (nat * nat)) (new : list nat) (root : option PinnedDirectory).
Notation F := filled.
Notation fine m P Q := (triple P m Q (λ _ _, True)).

Lemma filled_same known new root children assets s s' :
  s'.(ss_fds) = s.(ss_fds) → s'.(ss_next_fd) = s.(ss_next_fd) → s'.(ss_root) = s.(ss_root) →
  s'.(ss_children) = s.(ss_children) → s'.(ss_written) = s.(ss_written) →
  F known new root children assets s → F known new root children assets s'.
Proof. intros H1 H2 H3 H4 H5 []. split; unfold child_fds in *; rewrite ?H1, ?H2, ?H3, ?H4, ?H5; done. Qed.
Lemma filled_stable known new root children assets : stable (F known new root children assets).
Proof. intros s H. unfold next_event. destruct (ss_events s); [done|]. by eapply filled_same; [..|exact H]. Qed.

Section calls.
Context (known : list (nat * nat)) (new : list nat) (root : option PinnedDirectory) (children : list (string * PinnedDirectory))
  (assets : list (string * string)).
Notation I := (F known new root children assets).
Lemma filled_syscall {A} (act : event → io A) :
  (∀ ev s, let s' := fst (act ev s) in
     s'.(ss_fds) = s.(ss_fds) ∧ s'.(ss_next_fd) = s.(ss_next_fd) ∧ s'.(ss_root) = s.(ss_root) ∧
     s'.(ss_children) = s.(ss_children) ∧ s'.(ss_written) = s.(ss_written)) →
  fine (syscall act) I (λ _, I).
Proof.
  intros H. apply triple_syscall; [apply filled_stable|done|]. intros ev s Hs. specialize (H ev s).
  destruct (act ev s) as [s' x]. destruct H as (H1 & H2 & H3 & H4 & H5). destruct x; [by eapply filled_same|done].
Qed.
Ltac call := apply filled_syscall; intros ev s; cbn; repeat case_match; done.
Lemma filled_stat_at fd n : fine (stat_at fd n) I (λ _, I).
Proof. call. Qed.
Lemma filled_mkdir_at fd n : fine (mkdir_at fd n) I (λ _, I).
Proof. call. Qed.
Lemma filled_write_fd fd offset data : fine (write_fd fd offset data) I (λ _, I).
Proof. call. Qed.
Lemma filled_sync fd : fine (sync fd) I (λ _, I).
Proof. call. Qed.
Lemma filled_mkdir_parent : fine mkdir_parent I (λ _, I).
Proof. call. Qed.
Lemma filled_resolve_parent : fine resolve_parent I (λ _, I).
Proof. call. Qed.
(** The inode of a descriptor becomes known. *)
Lemma filled_fstat fd : fine (fstat fd) I (λ metadata, F ((fd, metadata.1) :: known) new root children assets).
Proof.
  apply triple_syscall; [apply filled_stable|done|]. intros ev s Hs. destruct (ss_fds s !! fd) as [ino|] eqn:E; [|done]. cbn.
  destruct (fs_nodes (ss_fs s) !! ino); [|done]. cbn. destruct Hs. split; try done. by apply Forall_cons.
Qed.
Lemma filled_opening (act : event → io nat) :
  (∀ ev s, (∃ s1 e, act ev s = (s1, Raise e)) ∨ ∃ s1 ino, act ev s = open_fd ino s1 ∧
     s1.(ss_fds) = s.(ss_fds) ∧ s1.(ss_next_fd) = s.(ss_next_fd) ∧ s1.(ss_root) = s.(ss_root) ∧
     s1.(ss_children) = s.(ss_children) ∧ s1.(ss_written) = s.(ss_written)) →
  fine (syscall act) I (λ fd, F known (fd :: new) root children assets).
Proof.
  intros H. apply triple_syscall; [apply filled_stable|done|]. intros ev s Hs.
  destruct (H ev s) as [(s1 & e & ->)|(s1 & ino & -> & H1 & H2 & H3 & H4 & H5)]; [done|].
  assert (I s1) as Hs1 by by eapply filled_same. clear Hs H. destruct Hs1 as [A1 A2 A3 A4 A5 A6 A7 A8]. cbn.
  assert (∀ fd x, s1.(ss_fds) !! fd = Some x → <[ss_next_fd s1 := ino]> (ss_fds s1) !! fd = Some x) as Hg.
  { intros fd x E. rewrite lookup_insert_ne; [done|]. intros <-. rewrite A2 in E; done. }
  split; cbn; try done.
  - intros fd Hfd. rewrite lookup_insert_ne by lia. apply A2. lia.
  - eapply Forall_impl; [exact A3|]. intros x. apply Hg.
  - apply Forall_cons. split; [|exact A4]. intros Hin. apply list_elem_of_fmap in Hin as (child & E & Hc).
    rewrite Forall_forall in A6. specialize (A6 child Hc). cbn in A6. rewrite <- E, A2 in A6; done.
  - eapply Forall_impl; [exact A6|]. intros x. apply Hg.
  - eapply Forall2_impl; [exact A8|]. intros record asset (B1 & B2 & B3). split; [by apply Hg|]. by split.
Qed.
Ltac opening := apply filled_opening; intros ev s; repeat case_match;
  first [left; by eexists _, _|right; eexists _, _; split; [reflexivity|done]].
Lemma filled_open_directory_at fd n : fine (open_directory_at fd n) I (λ fd, F known (fd :: new) root children assets).
Proof. opening. Qed.
Lemma filled_open_new_at fd n : fine (open_new_at fd n) I (λ fd, F known (fd :: new) root children assets).
Proof. opening. Qed.
Lemma filled_open_parent : fine open_parent I (λ fd, F known (fd :: new) root children assets).
Proof. opening. Qed.

Lemma filled_entry_matches fd n ino m : fine (_entry_matches fd n ino m) I (λ _, I).
Proof.
  unfold _entry_matches. eapply triple_bind with (Q := λ _, I).
  - apply triple_attempt. assert (keeps I (stat_at fd n)) as H; [|exact H].
    apply triple_look; [apply filled_stable|done|]. intros ev s Hs. by destruct (look_up s fd n) as [[ino' node]|e].
  - intros [metadata|e]; [by apply triple_ret|]. destruct (is_os_error e); [by apply triple_ret|by apply triple_failing].
Qed.
Lemma filled_write_loop fuel fd offset remaining : fine (write_loop fuel fd offset remaining) I (λ _, I).
Proof.
  revert offset remaining; induction fuel as [|fuel IH]; intros offset remaining; cbn [write_loop];
    destruct (String.eqb remaining ""); try (by apply triple_ret); try (by apply triple_failing).
  eapply triple_bind; [apply filled_write_fd|]. intros written. destruct (written =? 0); [by apply triple_failing|apply IH].
Qed.
End calls.
Lemma fine_or_close {A} fd (m : io A) P (Q : A → Session → Prop) : fine m P Q → fine (or_close fd m) P Q.
Proof. intros H s Hs. specialize (H s Hs). unfold or_close, catching. by destruct (m s) as [s' [a|e]]. Qed.
Lemma fine_catching {A} (m : io A) e' P (Q : A → Session → Prop) :
  fine m P Q → fine (catching m (λ e, if is_os_error e then failing e' else failing e)) P Q.
Proof. intros H s Hs. specialize (H s Hs). unfold catching. destruct (m s) as [s' [a|e]]; [done|]. by destruct (is_os_error e). Qed.

Lemma filled_open_pinned known new root children assets fd n :
  fine (_open_pinned_directory fd n) (F known new root children assets)
    (λ d, F ((d.(pd_fd), d.(pd_inode)) :: known) (d.(pd_fd) :: new) root children assets).
Proof.
  unfold _open_pinned_directory. eapply triple_bind; [apply filled_open_directory_at|]. intros d. apply fine_or_close.
  eapply triple_bind; [apply filled_fstat|]. intros metadata.
  eapply triple_bind with (Q := λ _, F ((d, metadata.1) :: known) (d :: new) root children assets).
  - destruct (bool_decide _); [apply filled_entry_matches|by apply triple_ret].
  - intros ok. destruct (negb ok); [by apply triple_failing|by apply triple_ret].
Qed.

(** What is known need not be kept in mind. *)
Lemma filled_forget known known' new new' root children assets s :
  known' ⊆ known → new' ⊆ new → F known new root children assets s → F known' new' root children assets s.
Proof.
  intros Hk Hn []. split; try done; apply Forall_forall; intros x Hx;
    [by apply (proj1 (Forall_forall _ _) fl_known0), Hk|by apply (proj1 (Forall_forall _ _) fl_new0), Hn].
Qed.
(** While there are no files, a directory is added to the children. *)
Lemma filled_make_directory known d children n :
  fine (make_directory d n) (F known [] (Some d) children [])
    (λ _ s, ∃ child, F known [] (Some d) (children ++ [(n, child)]) [] s).
Proof.
  unfold make_directory. eapply triple_bind; [apply filled_mkdir_at|]. intros u.
  eapply triple_bind; [apply filled_open_pinned|]. intros child. apply triple_modify.
  intros s [A1 A2 A3 A4 A5 A6 A7 A8]. exists child. apply Forall_cons in A3 as [A3 A3'], A4 as [A4 _].
  inversion A8 as [Hw|]. split; cbn; try done.
  - by rewrite A5.
  - apply Forall_app. split; [done|]. by apply Forall_singleton.
  - unfold child_fds. cbn. rewrite map_app. cbn. apply NoDup_app. split; [exact A7|]. split; [|apply NoDup_singleton].
    intros x Hx Hx'. apply list_elem_of_singleton in Hx' as ->. done.
  - rewrite <- Hw. constructor.
Qed.
Lemma filled_make_directories known d names :
  fine (each (make_directory d) names) (F known [] (Some d) [] [])
    (λ _ s, ∃ children, map fst children = names ∧ F known [] (Some d) children [] s).
Proof.
  eapply triple_weaken.
  - apply (triple_each_seq (λ done s, ∃ children, map fst children = done ∧ F known [] (Some d) children [] s) _ names) with (done := []).
    intros done n s (children & <- & Hs). pose proof (filled_make_directory known d children n s Hs) as H.
    destruct (make_directory d n s) as [s' [u|e]]; [|exact I]. destruct H as [child H]. exists (children ++ [(n, child)]).
    by rewrite map_app.
  - intros s Hs. by exists [].
  - done.
  - done.
Qed.
Lemma filled_write_asset known d children assets asset :
  fine (write_asset d asset) (F known [] (Some d) children assets) (λ _, F known [] (Some d) children (assets ++ [asset])).
Proof.
  unfold write_asset. eapply triple_bind with (Q := λ c s, F known [] (Some d) children assets s ∧ c = children).
  { apply triple_gets. intros s Hs. split; [done|apply Hs]. }
  intros c. apply triple_pure. intros ->.
  destruct (asset_place d children asset.1) as [[[parent in_root] filename]|] eqn:Ep; [|by apply triple_failing].
  eapply triple_bind; [apply filled_open_new_at|]. intros fd.
  eapply triple_bind with (Q := λ metadata, F ((fd, metadata.1) :: known) [fd] (Some d) children assets).
  - apply fine_or_close. eapply triple_bind; [apply filled_fstat|]. intros metadata.
    destruct (negb _); [by apply triple_failing|]. eapply triple_bind with (Q := λ _, F ((fd, metadata.1) :: known) [fd] (Some d) children assets).
    + unfold _write_payload. eapply triple_bind; [apply filled_write_loop|]. intros u. apply filled_sync.
    + intros u. by apply triple_ret.
  - intros metadata. apply triple_modify. intros s [A1 A2 A3 A4 A5 A6 A7 A8]. apply Forall_cons in A3 as [A3 A3'].
    split; try done. cbn. apply Forall2_app; [exact A8|]. apply Forall2_cons. split; [|done]. cbn. rewrite A5.
    split; [exact A3|]. split; [|done]. by exists d.
Qed.
Lemma filled_write_all known d payloads :
  fine (_write_all_assets d payloads) (F known [] (Some d) [] [])
    (λ _ s, ∃ children, map fst children = directory_names payloads ∧ F known [] (Some d) children (sorted_items payloads) s).
Proof.
  unfold _write_all_assets. eapply triple_bind; [apply filled_make_directories|]. intros u s (children & Hc & Hs).
  pose proof (triple_each_seq (λ done, F known [] (Some d) children done) (write_asset d) (sorted_items payloads) (λ _ _, True)
    (filled_write_asset known d children) [] s Hs) as H.
  destruct (each _ _ s) as [s' [u'|e]]; [|done]. by exists children.
Qed.
(** All that the run knows when the output is written *)
Definition written (x : nat * PinnedDirectory) (payloads : list (string * string)) (s : Session) : Prop :=
  x.2.(pd_name) = name ∧ x.2.(pd_parent_fd) = parent_fd ∧ ∃ children, map fst children = directory_names payloads ∧
  F [(x.2.(pd_fd), x.2.(pd_inode)); (parent_fd, x.1)] [] (Some x.2) children (sorted_items payloads) s.
Lemma filled_fill_output payloads :
  fine (fill_output parent_fd name payloads) (F [] [] None [] []) (λ x, written x payloads).
Proof.
  unfold fill_output. eapply triple_bind; [apply filled_fstat|]. intros metadata.
  set (known := [(parent_fd, metadata.1)]).
  eapply triple_bind with (Q := λ d s, F ((d.(pd_fd), d.(pd_inode)) :: known) [] (Some d) [] [] s ∧ d.(pd_name) = name ∧ d.(pd_parent_fd) = parent_fd).
  - unfold create_root, require_absent. eapply triple_bind with (Q := λ _, F known [] None [] []).
    { eapply triple_bind with (Q := λ _, F known [] None [] []).
      - apply triple_attempt. assert (keeps (F known [] None [] []) (stat_at parent_fd name)) as H; [|exact H].
        apply triple_look; [apply filled_stable|done|]. intros ev s Hs. by destruct (look_up s parent_fd name) as [[ino node]|e].
      - intros [x|e]; [by apply triple_failing|]. destruct e; first [by apply triple_ret|by apply triple_failing]. }
    intros u. eapply triple_bind; [apply filled_mkdir_at|]. intros u'.
    eapply triple_bind; [apply triple_and with (X' := λ _ _, True)|].
    + apply fine_catching, filled_open_pinned.
    + apply fine_catching. apply open_pinned_names.
    + intros d. eapply triple_bind with (Q := λ _ s, F ((d.(pd_fd), d.(pd_inode)) :: known) [] (Some d) [] [] s ∧ d.(pd_name) = name ∧ d.(pd_parent_fd) = parent_fd);
        [|intros ?; by apply triple_ret].
      apply triple_modify. intros s [Hs Hn]. split; [|done]. apply (filled_forget _ ((d.(pd_fd), d.(pd_inode)) :: known) _ []) in Hs; [|done|apply list_subseteq_nil].
      destruct Hs as [A1 A2 A3 A4 A5 A6 A7 A8]. split; try done. cbn. inversion A8. constructor.
  - intros d. apply triple_pure. intros [Hn Hp]. eapply triple_bind; [apply filled_write_all|]. intros u.
    apply triple_ret. intros s (children & Hc & Hs). split; [done|]. split; [done|]. by exists children.
Qed.
End filled.

(** ** Verifying, while nothing else happens *)
Definition quiet (events : list event) : Prop := Forall (λ ev, ev.(ev_before) = []) events.
(** The state is [s1] still, but for the events. *)
Record calm (s1 s : Session) : Prop := {
  calm_events : quiet s.(ss_events);
  calm_fs : s.(ss_fs) = s1.(ss_fs);
  calm_fds : s.(ss_fds) = s1.(ss_fds);
  calm_children : s.(ss_children) = s1.(ss_children);
  calm_written : s.(ss_written) = s1.(ss_written);
}.
Section calm.
Context (s1 : Session).
Notation fine m Q := (triple (calm s1) m Q (λ _, calm s1)).
(** A call that looks tells what it saw in [s1]. *)
Definition seen {A} (a : A) (F : Prop) : A → Session → Prop := λ a' s, calm s1 s ∧ (a' = a → F).

Lemma calm_stable : stable (calm s1).
Proof.
  intros s [C1 C2 C3 C4 C5]. unfold next_event. destruct (ss_events s) as [|ev events] eqn:E; [cbn [snd]; by split; rewrite ?E|].
  rewrite ?E in C1.
  apply Forall_cons in C1 as [C1 C1']. rewrite C1. by split.
Qed.
Lemma calm_look {A} (f : event → Session → result A) (Q : A → Prop) :
  (∀ ev s a, calm s1 s → f ev s = Ok a → Q a) → fine (syscall (λ ev s, (s, f ev s))) (λ a s, calm s1 s ∧ Q a).
Proof.
  intros H. apply triple_look; [apply calm_stable|done|]. intros ev s Hs. specialize (H ev s).
  destruct (f ev s) as [a|e]; [|done]. split; [done|by apply H].
Qed.
Lemma calm_entries_at s fd : calm s1 s → entries_at s fd = entries_at s1 fd.
Proof. intros [_ C2 C3 _ _]. unfold entries_at. by rewrite C2, C3. Qed.
Lemma calm_look_up s fd n : calm s1 s → look_up s fd n = look_up s1 fd n.
Proof. intros Hs. unfold look_up. rewrite calm_entries_at by done. by destruct Hs as [_ -> _ _ _]. Qed.

(** An entry of [s1] *)
Definition entry (fd : nat) (n : string) (ino : nat) (m : mode) : Prop :=
  ∃ node, look_up s1 fd n = Ok (ino, node) ∧ mode_of node = m.
Lemma calm_stat_at fd n : fine (stat_at fd n) (λ x s, calm s1 s ∧ entry fd n x.1 x.2).
Proof.
  apply calm_look. intros ev s [ino m] Hs. rewrite calm_look_up by done.
  destruct (look_up s1 fd n) as [[ino' node]|e] eqn:E; [|done]. intros [= <- <-]. by exists node.
Qed.
Lemma calm_listdir fd : fine (listdir fd) (λ x s, calm s1 s ∧ ∃ dir entries, entries_at s1 fd = Some (dir, entries) ∧ x = dom entries).
Proof.
  apply calm_look. intros ev s x Hs. rewrite calm_entries_at by done. destruct (entries_at s1 fd) as [[dir entries]|]; [|done].
  intros [= <-]. by exists dir, entries.
Qed.
Lemma calm_fstat fd : fine (fstat fd) (λ _, calm s1).
Proof. apply triple_look; [apply calm_stable|done|]. intros ev s Hs. by repeat case_match. Qed.
Lemma calm_seek fd : fine (seek fd) (λ _, calm s1).
Proof. by apply triple_look; [apply calm_stable|..]. Qed.
Lemma calm_entry_matches fd n ino m : fine (_entry_matches fd n ino m) (seen true (entry fd n ino m)).
Proof.
  unfold _entry_matches. eapply triple_bind with (Q := λ x s, calm s1 s ∧ match x with Ok y => entry fd n y.1 y.2 | Raise _ => True end).
  - apply triple_attempt. eapply triple_weaken; [apply calm_stat_at|done|done|done].
  - intros [x|e]; apply triple_pure; intros Hx.
    + apply triple_ret. intros s Hs. split; [done|]. intros [= Hb%bool_decide_eq_true]. by rewrite Hb in Hx.
    + destruct (is_os_error e); [apply triple_ret|by apply triple_failing]. intros s Hs. by split.
Qed.

Lemma calm_or_race check (G : Prop) : fine check (seen true G) → fine (or_race check) (λ _ s, calm s1 s ∧ G).
Proof.
  intros H. unfold or_race. eapply triple_bind; [exact H|]. intros ok. apply triple_pure. intros HG.
  destruct ok; [apply triple_ret; intros s Hs; split; [done|by apply HG]|by apply triple_failing].
Qed.
Lemma calm_and_then a b (G H : Prop) : fine a (seen true G) → fine b (seen true H) → fine (and_then a b) (seen true (G ∧ H)).
Proof.
  intros Ha Hb. unfold and_then. eapply triple_bind; [exact Ha|]. intros x. apply triple_pure. intros HG. destruct x.
  - eapply triple_weaken; [exact Hb|done| |done]. intros y s [Hs HH]. split; [done|]. intros ->. auto.
  - apply triple_ret. intros s Hs. by split.
Qed.
Lemma calm_mret (b : bool) (G : Prop) : (b = true → G) → fine (mret b) (seen true G).
Proof. intros H. apply triple_ret. intros s Hs. by split. Qed.
Lemma calm_stat_or_race m (G : nat * mode → Prop) :
  fine m (λ x s, calm s1 s ∧ G x) → fine (stat_or_race m) (λ x s, calm s1 s ∧ G x).
Proof. intros H. unfold stat_or_race. eapply triple_catching; [exact H|]. intros e. destruct (is_os_error e); by apply triple_failing. Qed.
Lemma calm_stat_parent : fine stat_parent (λ x s, calm s1 s ∧ s1.(ss_fs).(fs_parent) = Some x.1).
Proof.
  apply calm_look. intros ev s x [_ -> _ _ _]. destruct (fs_parent (ss_fs s1)) as [ino|]; [|done]. cbn.
  destruct (fs_nodes (ss_fs s1) !! ino); [|done]. by intros [= <-].
Qed.
(** The entry of a directory inode *)
Definition names (dir : nat) (n : string) (ino : nat) (m : mode) : Prop :=
  ∃ entries node, s1.(ss_fs).(fs_nodes) !! dir = Some (Dir entries) ∧ entries !! n = Some ino ∧
    s1.(ss_fs).(fs_nodes) !! ino = Some node ∧ mode_of node = m.
Lemma calm_stat_output n : fine (stat_output n) (λ x s, calm s1 s ∧
  ∃ dir, s1.(ss_fs).(fs_parent) = Some dir ∧ names dir n x.1 x.2).
Proof.
  apply calm_look. intros ev s x [_ -> _ _ _]. destruct (fs_parent (ss_fs s1)) as [dir|]; [|done]. cbn.
  destruct (fs_nodes (ss_fs s1) !! dir) as [[entries| |]|] eqn:Ed; try done.
  destruct (entries !! n) as [ino|] eqn:En; [|done]. cbn. destruct (fs_nodes (ss_fs s1) !! ino) as [node|] eqn:Ei; [|done].
  intros [= <-]. exists dir. split; [done|]. by exists entries, node.
Qed.
Lemma entry_names fd dir n ino m : s1.(ss_fds) !! fd = Some dir → entry fd n ino m → names dir n ino m.
Proof.
  intros Hfd (node & Hl & Hm). unfold look_up, entries_at in Hl. rewrite Hfd in Hl. cbn in Hl. unfold names.
  destruct (fs_nodes (ss_fs s1) !! dir) as [[entries| |]|]; try done.
  destruct (entries !! n) as [ino'|] eqn:En; [|done]. destruct (fs_nodes (ss_fs s1) !! ino') as [node'|] eqn:Ei; [|done].
  injection Hl as -> ->. by exists entries, node.
Qed.

(** Reading returns the whole content. *)
Lemma str_drop_all n s : str_drop n s = "" ↔ String.length s ≤ n.
Proof.
  split; intros H.
  - apply (f_equal String.length) in H. rewrite str_drop_length in H. cbn in H. lia.
  - apply str_empty_length. rewrite str_drop_length. lia.
Qed.
Lemma str_take_then_drop n s : str_take n s +:+ str_drop n s = s.
Proof.
  revert s; induction n as [|n IH]; intros s.
  - assert (str_drop 0 s = s) as -> by exact (str_drop_app "" s). unfold str_take. by destruct s.
  - destruct s as [|c s]; [done|]. rewrite str_drop_cons. unfold str_take in *. cbn. by rewrite <- (IH s) at 3.
Qed.
Lemma str_take_some n s : 1 ≤ n → str_take n s = "" → s = "".
Proof. destruct n as [|n]; [lia|]. by destruct s. Qed.
Definition file_at (fd : nat) (content : string) : Prop :=
  ∃ ino, s1.(ss_fds) !! fd = Some ino ∧ s1.(ss_fs).(fs_nodes) !! ino = Some (File content).
Lemma calm_read_fd fd offset size content : 1 ≤ size → file_at fd content →
  fine (read_fd fd offset size) (λ chunk s, calm s1 s ∧ ∃ k, 1 ≤ k ∧ chunk = str_take k (str_drop offset content)).
Proof.
  intros Hsize (ino & Hfd & Hc). apply calm_look. intros ev s chunk [_ -> -> _ _]. rewrite Hfd. cbn. rewrite Hc.
  intros [= <-]. eexists. split; [|done]. destruct (ev_takes ev); cbn; lia.
Qed.
Lemma calm_read_loop fuel fd content chunks rest : file_at fd content → content = chunks +:+ rest →
  fine (read_loop fuel fd chunks) (λ x s, calm s1 s ∧ x = content).
Proof.
  intros Hf. revert chunks rest; induction fuel as [|fuel IH]; intros chunks rest Hr; cbn [read_loop]; [by apply triple_failing|].
  eapply triple_bind; [apply (calm_read_fd _ _ _ content); [lia|done]|]. intros chunk. apply triple_pure. intros (k & Hk & Hc).
  rewrite Hr, str_drop_app in Hc. destruct (String.eqb_spec chunk "") as [He|He].
  - rewrite He in Hc. symmetry in Hc. apply str_take_some in Hc as ->; [|done]. apply triple_ret. intros s Hs.
    split; [done|]. by rewrite Hr, str_app_nil_r.
  - apply (IH _ (str_drop k rest)). rewrite Hr, Hc, <- str_app_assoc. by rewrite str_take_then_drop.
Qed.
Lemma calm_read_pinned_file record content : file_at record.(pf_fd) content →
  fine (_read_pinned_file record) (λ x s, calm s1 s ∧ x = content).
Proof.
  intros Hf. unfold _read_pinned_file. eapply triple_bind; [apply calm_seek|]. intros u.
  eapply triple_bind with (Q := λ _, calm s1); [by apply triple_gets|]. intros fuel. by apply (calm_read_loop _ _ _ "" content).
Qed.

(** *** What the verification has found out *)
Record verified (name : string) (parent_inode : nat) (root : PinnedDirectory) : Prop := {
  vf_parent : s1.(ss_fs).(fs_parent) = Some parent_inode;
  vf_output : names parent_inode name root.(pd_inode) S_IFDIR;
  vf_root : ∃ dir entries, entries_at s1 root.(pd_fd) = Some (dir, entries) ∧ expected_root_entries s1 = dom entries;
  vf_children : Forall (λ child, entry root.(pd_fd) child.1 child.2.(pd_inode) S_IFDIR) s1.(ss_children);
  vf_files : Forall (λ record, entry record.(pf_parent).(pd_fd) record.(pf_name) record.(pf_inode) S_IFREG ∧
    (s1.(ss_fds) !! record.(pf_fd) = Some record.(pf_inode) → file_at record.(pf_fd) record.(pf_expected_payload)))
    s1.(ss_written);
  vf_entries : Forall (λ child, ∃ dir entries, entries_at s1 child.2.(pd_fd) = Some (dir, entries) ∧
    expected_child_entries s1 child.2 = dom entries) s1.(ss_children);
}.
Lemma calm_check_output n parent_inode root :
  fine (check_output n parent_inode root)
    (λ _ s, calm s1 s ∧ s1.(ss_fs).(fs_parent) = Some parent_inode ∧ names parent_inode n root.(pd_inode) S_IFDIR).
Proof.
  unfold check_output. eapply triple_bind; [apply calm_stat_or_race, calm_stat_parent|]. intros x. apply triple_pure. intros Hp.
  eapply triple_bind; [apply (calm_stat_or_race _ (λ x, ∃ dir, s1.(ss_fs).(fs_parent) = Some dir ∧ names dir n x.1 x.2)), calm_stat_output|].
  intros y. apply triple_pure. intros (dir & Hd & Hn).
  eapply triple_weaken; [eapply calm_or_race, calm_and_then; [|apply calm_entry_matches]|done| |done].
  - apply (calm_mret _ (x.1 = parent_inode ∧ y = (root.(pd_inode), S_IFDIR))). by intros [H1%bool_decide_eq_true H2%bool_decide_eq_true]%andb_true_iff.
  - intros u s (Hs & [Hx ->] & _). rewrite Hp in Hd. injection Hd as <-. by rewrite <- Hx.
Qed.
Lemma calm_check_entries fd expected :
  fine (check_entries fd expected) (λ _ s, calm s1 s ∧ ∃ dir entries, entries_at s1 fd = Some (dir, entries) ∧ expected = dom entries).
Proof.
  unfold check_entries. apply calm_or_race. eapply triple_bind; [apply calm_listdir|]. intros x. apply triple_pure.
  intros (dir & entries & He & ->). apply calm_mret. intros <-%bool_decide_eq_true. by exists dir, entries.
Qed.
Lemma file_at_or fd : (∃ content, file_at fd content) ∨ ∀ content, ¬ file_at fd content.
Proof.
  unfold file_at. destruct (ss_fds s1 !! fd) as [ino|]; [|right; by intros c (? & ? & _)].
  destruct (fs_nodes (ss_fs s1) !! ino) as [[|content|]|] eqn:E; try (right; intros c (? & [= <-] & ?); congruence).
  left. by exists content, ino.
Qed.
(** What is not a file cannot be read. *)
Lemma calm_read_nothing record : (∀ content, ¬ file_at record.(pf_fd) content) →
  fine (_read_pinned_file record) (λ _ s, calm s1 s ∧ False).
Proof.
  intros Hf. unfold _read_pinned_file. eapply triple_bind; [apply calm_seek|]. intros u.
  eapply triple_bind with (Q := λ _, calm s1); [by apply triple_gets|]. intros fuel.
  destruct fuel as [|fuel]; cbn [read_loop]; [by apply triple_failing|].
  eapply triple_bind with (Q := λ _ s, calm s1 s ∧ False); [|intros chunk; by apply triple_pure].
  apply calm_look. intros ev s chunk [_ -> -> _ _]. destruct (ss_fds s1 !! pf_fd record) as [ino|] eqn:Ei; [|done]. cbn.
  destruct (fs_nodes (ss_fs s1) !! ino) as [[|content|]|] eqn:En; try done. intros _. apply (Hf content). by exists ino.
Qed.
Lemma calm_check_file record :
  fine (check_file record) (λ _ s, calm s1 s ∧ entry record.(pf_parent).(pd_fd) record.(pf_name) record.(pf_inode) S_IFREG ∧
    (s1.(ss_fds) !! record.(pf_fd) = Some record.(pf_inode) → file_at record.(pf_fd) record.(pf_expected_payload))).
Proof.
  unfold check_file. eapply triple_bind; [apply calm_fstat|]. intros metadata.
  destruct (file_at_or record.(pf_fd)) as [[content Hf]|Hf].
  - eapply triple_weaken; [eapply calm_or_race, calm_and_then; [by apply (calm_mret _ True)|];
      apply calm_and_then; [apply calm_entry_matches|]|done| |done].
    + eapply triple_bind; [by apply calm_read_pinned_file|]. intros x. apply triple_pure. intros ->.
      apply (calm_mret _ (content = pf_expected_payload record)). apply String.eqb_eq.
    + intros u s (Hs & _ & He & Hc). split; [done|]. split; [done|]. intros _. by rewrite <- Hc.
  - eapply triple_weaken; [eapply calm_or_race, calm_and_then; [by apply (calm_mret _ True)|];
      eapply (calm_and_then _ _ _ False); [apply calm_entry_matches|]|done| |done].
    + eapply triple_bind; [by apply calm_read_nothing|]. intros x. by apply triple_pure.
    + intros u s (_ & _ & _ & []).
Qed.
Lemma calm_check_child root child :
  fine (check_child root child) (λ _ s, calm s1 s ∧ entry root.(pd_fd) child.1 child.2.(pd_inode) S_IFDIR).
Proof. unfold check_child. apply calm_or_race, calm_entry_matches. Qed.
Lemma calm_verify n parent_inode root :
  fine (_verify_completed_output n parent_inode root) (λ _ s, calm s1 s ∧ verified n parent_inode root).
Proof.
  unfold _verify_completed_output. eapply triple_bind; [apply calm_check_output|]. intros u. 
  apply (triple_pure _ (_ ∧ _)). intros [Hp Ho].
  eapply triple_bind with (Q := λ s s', calm s1 s' ∧ s.(ss_children) = s1.(ss_children) ∧ s.(ss_written) = s1.(ss_written)).
  { apply triple_gets. intros s Hs. split; [done|]. split; apply Hs. }
  intros s. apply triple_pure. intros [Ec Ew].
  eapply triple_bind; [apply calm_check_entries|]. intros u'. apply triple_pure. intros Hr.
  eapply triple_bind; [apply (triple_each_facts _ (λ child, entry root.(pd_fd) child.1 child.2.(pd_inode) S_IFDIR)); intros child _;
    apply calm_check_child|]. intros u''. apply triple_pure. intros Hc.
  eapply triple_bind; [apply triple_each_facts; intros record _; apply calm_check_file|]. intros u3. apply triple_pure. intros Hf.
  eapply triple_weaken;
    [apply (triple_each_facts _ (λ child, ∃ dir entries, entries_at s1 child.2.(pd_fd) = Some (dir, entries) ∧
       expected_child_entries s child.2 = dom entries)); intros child _; apply calm_check_entries|done| |done].
  intros u4 s' [Hs He]. split; [done|]. unfold expected_root_entries in Hr. unfold expected_child_entries in He.
  rewrite Ec in Hr, Hc, He. rewrite Ew in Hf, He. by split.
Qed.
End calm.

(** ** The output directory *)
Definition member (f : fs) (dir : nat) (n : string) : option nat :=
  match f.(fs_nodes) !! dir with Some (Dir entries) => entries !! n | _ => None end.
Fixpoint walk (f : fs) (dir : nat) (path : list string) : option nat :=
  match path with [] => Some dir | n :: path => ino ← member f dir n; walk f ino path end.
(** Below [name] there is every asset with its content, its directory, and nothing else. *)
Definition installed (payloads : list (string * string)) (f : fs) (name : string) : Prop :=
  ∃ parent out, f.(fs_parent) = Some parent ∧ member f parent name = Some out ∧
    (∀ path content, (path, content) ∈ payloads →
       ∃ ino, walk f out (path_parts path) = Some ino ∧ f.(fs_nodes) !! ino = Some (File content)) ∧
    (∀ parts, is_Some (walk f out parts) →
       parts ∈ [[]; ["case"]; ["rules"]] ∨ ∃ path, path ∈ map fst payloads ∧ parts = path_parts path).

(** One case for each element *)
Ltac each_in H := repeat (apply elem_of_cons in H as [->|H]); [..|by apply elem_of_nil in H].
(** The element is there. *)
Ltac listed := cbn; repeat first [by left|right].

Section contents.
Context (f : fs).
Lemma member_file dir n content : f.(fs_nodes) !! dir = Some (File content) → member f dir n = None.
Proof. intros H. unfold member. by rewrite H. Qed.
Lemma walk_file ino content parts : f.(fs_nodes) !! ino = Some (File content) → is_Some (walk f ino parts) → parts = [].
Proof. intros H. destruct parts as [|n parts]; [done|]. cbn. rewrite (member_file _ _ content) by done. by intros []. Qed.
(** A directory with exactly these entries *)
Definition lists (dir : nat) (entries : list string) : Prop := ∀ n, is_Some (member f dir n) → n ∈ entries.
Definition holds (dir : nat) (n content : string) : Prop :=
  ∃ ino, member f dir n = Some ino ∧ f.(fs_nodes) !! ino = Some (File content).
Lemma holds_walk dir n content parts : holds dir n content → is_Some (walk f dir (n :: parts)) → parts = [].
Proof. intros (ino & Hm & Hc). cbn. rewrite Hm. by apply walk_file with content. Qed.

(** A path through a directory of files *)
Lemma walk_directory dir entries parts : lists dir entries → (∀ n, n ∈ entries → ∃ content, holds dir n content) →
  is_Some (walk f dir parts) → parts = [] ∨ ∃ n, n ∈ entries ∧ parts = [n].
Proof.
  intros Hl Hh Hw. destruct parts as [|n parts]; [by left|right]. exists n.
  assert (n ∈ entries) as Hn. { apply Hl. cbn in Hw. destruct (member f dir n); [done|by destruct Hw]. }
  split; [done|]. destruct (Hh n Hn) as [content Hc]. by rewrite (holds_walk dir n content parts Hc Hw).
Qed.
Lemma walk_into out d dir parts : member f out d = Some dir → is_Some (walk f out (d :: parts)) → is_Some (walk f dir parts).
Proof. intros Hd. cbn. by rewrite Hd. Qed.
(** The shape of the bundle *)
Lemma installed_bundle name parent out case rules p0 p1 p2 p3 p4 p5 :
  f.(fs_parent) = Some parent → member f parent name = Some out →
  lists out ["README.md"; "case"; "rules"] → holds out "README.md" p0 →
  member f out "case" = Some case → member f out "rules" = Some rules →
  lists case ["contract.json"; "manifest.json"; "payroll.json"; "termination_notice.json"] →
  holds case "contract.json" p1 → holds case "manifest.json" p2 → holds case "payroll.json" p3 →
  holds case "termination_notice.json" p4 →
  lists rules ["cn_labor_contract_law.catalog.json"] → holds rules "cn_labor_contract_law.catalog.json" p5 →
  installed (zip DEMO_ASSET_FILES [p0; p1; p2; p3; p4; p5]) f name.
Proof.
  intros Hp Ho Lo H0 Hc Hr Lc H1 H2 H3 H4 Lr H5. exists parent, out. split; [done|]. split; [done|]. split.
  - assert (∀ n p, holds out n p → ∃ ino, walk f out [n] = Some ino ∧ fs_nodes f !! ino = Some (File p)) as W1.
    { intros n p (ino & Hm & Hf). exists ino. cbn. by rewrite Hm. }
    assert (∀ d dir n p, member f out d = Some dir → holds dir n p →
      ∃ ino, walk f out [d; n] = Some ino ∧ fs_nodes f !! ino = Some (File p)) as W2.
    { intros d dir n p Hd (ino & Hm & Hf). exists ino. cbn. by rewrite Hd; cbn; rewrite Hm. }
    intros path content Hin. cbn in Hin.
    repeat (apply elem_of_cons in Hin as [[= -> ->]|Hin]; [first [by apply W1|by eapply W2]|]). by apply elem_of_nil in Hin.
  - intros parts Hw. destruct parts as [|n parts]; [left; by left|].
    assert (n ∈ ["README.md"; "case"; "rules"]) as Hn.
    { apply Lo. cbn in Hw. destruct (member f out n); [done|by destruct Hw]. }
    each_in Hn.
    + right. exists "README.md". split; [by left|]. by rewrite (holds_walk out "README.md" p0 parts H0 Hw).
    + destruct (walk_directory case _ parts Lc) as [->|(n & Hn' & ->)]; [|by eapply walk_into|left; listed|].
      * intros n Hn'. each_in Hn'; eauto.
      * right. exists ("case/" +:+ n). each_in Hn'; (split; [listed|reflexivity]).
    + destruct (walk_directory rules _ parts Lr) as [->|(n & Hn' & ->)]; [|by eapply walk_into|left; listed|].
      * intros n Hn'. each_in Hn'; eauto.
      * right. exists ("rules/" +:+ n). each_in Hn'; (split; [listed|reflexivity]).
Qed.
End contents.

(** What was written and then verified is the bundle. *)
Section bundle.
Context (s : Session).
Notation f := s.(ss_fs).
Lemma names_member dir n ino m : names s dir n ino m → member f dir n = Some ino.
Proof. intros (entries & node & Hd & Hn & _). unfold member. by rewrite Hd. Qed.
Lemma entries_list fd dir (expected : gset string) l :
  s.(ss_fds) !! fd = Some dir → (∃ dir' entries, entries_at s fd = Some (dir', entries) ∧ expected = dom entries) →
  (∀ n, n ∈ expected → n ∈ l) → lists f dir l.
Proof.
  intros Hfd (dir' & entries & He & ->) Hl n Hn. apply Hl, elem_of_dom. unfold entries_at in He. rewrite Hfd in He. cbn in He.
  unfold member in Hn. destruct (fs_nodes f !! dir) as [[es| |]|]; try done. by injection He as _ <-.
Qed.
(** What the run and the verification say of a file *)
Definition file_facts (root : PinnedDirectory) (children : list (string * PinnedDirectory)) (record : PinnedFile)
    (asset : string * string) : Prop :=
  asset_place root children asset.1 = Some (record.(pf_parent), record.(pf_in_root), record.(pf_name)) ∧
  entry s record.(pf_parent).(pd_fd) record.(pf_name) record.(pf_inode) S_IFREG ∧
  s.(ss_fds) !! record.(pf_fd) = Some record.(pf_inode) ∧ file_at s record.(pf_fd) asset.2.
Lemma file_facts_holds root children record asset parent in_root n dir :
  file_facts root children record asset → asset_place root children asset.1 = Some (parent, in_root, n) →
  s.(ss_fds) !! parent.(pd_fd) = Some dir → holds f dir n asset.2.
Proof.
  intros (Hp & He & Hf & (ino & Hino & Hc)) Hp' Hd. rewrite Hp in Hp'. injection Hp' as <- <- <-.
  exists (pf_inode record). split; [by eapply names_member, entry_names|]. by rewrite Hf in Hino; injection Hino as ->.
Qed.
Lemma file_facts_place root children record asset parent in_root n :
  file_facts root children record asset → asset_place root children asset.1 = Some (parent, in_root, n) →
  record.(pf_parent) = parent ∧ record.(pf_in_root) = in_root ∧ record.(pf_name) = n.
Proof. intros [H _] H'. rewrite H in H'. by injection H'. Qed.
Lemma written_file_facts name parent_fd x payloads : written name parent_fd x payloads s → verified s name x.1 x.2 →
  Forall2 (file_facts x.2 s.(ss_children)) s.(ss_written) (sorted_items payloads).
Proof.
  intros (_ & _ & children & _ & F) V. apply Forall2_same_length_lookup. pose proof (fl_files _ _ _ _ _ _ F) as Hf.
  split; [by eapply Forall2_length|]. intros i record asset Hr Ha.
  destruct (proj2 (proj1 (Forall2_same_length_lookup _ _ _) Hf) i _ _ Hr Ha) as (H1 & (d & [= <-] & H2) & H3).
  destruct (proj1 (Forall_lookup _ _) (vf_files _ _ _ _ V) i _ Hr) as [H4 H5]. split; [done|]. split; [done|]. split; [done|].
  rewrite <- H3. by apply H5.
Qed.

Lemma verified_installed name parent_fd x p0 p1 p2 p3 p4 p5 :
  let payloads := zip DEMO_ASSET_FILES [p0; p1; p2; p3; p4; p5] in
  written name parent_fd x payloads s → verified s name x.1 x.2 → installed payloads f name.
Proof.
  intros payloads W V. pose proof (written_file_facts _ _ _ _ W V) as Hfiles. destruct W as (Hn & _ & children & Hc & F).
  destruct x as [parent root]. cbn [fst snd] in *.
  pose proof (fl_known _ _ _ _ _ _ F) as Hk. apply Forall_cons in Hk as [Hroot _]. cbn in Hroot.
  pose proof (fl_children _ _ _ _ _ _ F) as Hch. pose proof (fl_distinct _ _ _ _ _ _ F) as Hdis. unfold child_fds in Hdis.
  rewrite (fl_child_list _ _ _ _ _ _ F) in *. change (map fst children = ["case"; "rules"]) in Hc.
  destruct children as [|[? case] [|[? rules] [|]]]; try done. injection Hc as -> ->.
  destruct V as [Vp Vo Vr Vc Vf Ve]. rewrite (fl_child_list _ _ _ _ _ _ F) in *.
  apply Forall_cons in Hch as [Hcase Hch]. apply Forall_cons in Hch as [Hrules _].
  apply Forall_cons in Vc as [Vcase Vc]. apply Forall_cons in Vc as [Vrules _].
  apply Forall_cons in Ve as [Ecase Ve]. apply Forall_cons in Ve as [Erules _].
  cbn [fst snd map] in *.
  unfold expected_root_entries, expected_child_entries in *. rewrite (fl_child_list _ _ _ _ _ _ F) in Vr. clear F Vf.
  change (sorted_items payloads) with payloads in Hfiles. subst payloads. cbn [zip_with DEMO_ASSET_FILES] in Hfiles.
  set (all := ss_written s) in *. clearbody all.
  repeat match goal with H : Forall2 _ _ (_ :: _) |- _ => apply Forall2_cons_inv_r in H as (? & ? & ? & H & ->) end.
  apply Forall2_nil_inv_r in Hfiles as ->.
  set (children := [("case", case); ("rules", rules)]) in *.
  assert (∀ n, n ∈ ({["README.md"]} ∪ list_to_set (map fst children) : gset string) → n ∈ ["README.md"; "case"; "rules"]) as Lr.
  { intros n. unfold children. cbn. set_solver. }
  eapply installed_bundle with (out := pd_inode root) (case := pd_inode case) (rules := pd_inode rules);
    [exact Vp|by eapply names_member|by eapply entries_list| | by eapply names_member, entry_names|by eapply names_member, entry_names|..];
    try match goal with H : file_facts _ _ ?r (?path, ?p) |- holds _ _ _ ?p =>
      exact (file_facts_holds root children r (path, p) _ _ _ _ H eq_refl ltac:(eassumption)) end.
  all: eapply entries_list; [eassumption|eassumption|]; intros n Hn'; apply elem_of_list_to_set in Hn';
    apply list_elem_of_fmap in Hn' as (record & -> & Hn'); apply list_elem_of_filter in Hn' as [[Hroot' Hfd] Hn'].
  all: repeat match goal with H : file_facts _ _ _ _ |- _ =>
    pose proof (file_facts_place _ _ _ _ _ _ _ H eq_refl) as (? & ? & ?); clear H end.
  all: apply NoDup_cons in Hdis as [Hdis _]; rewrite list_elem_of_singleton in Hdis; each_in Hn'; try congruence.
  all: match goal with H : pf_name ?r = ?n |- pf_name ?r ∈ _ => let v := eval vm_compute in n in change n with v in H; rewrite H; listed end.
Qed.

End bundle.

(** *** The assets *)
Lemma loaded_assets `{P : Platform} bundle payloads : _load_and_validate_assets bundle = Ok payloads →
  Forall2 (λ path x, x.1 = path ∧ bundle path = Payload x.2) DEMO_ASSET_FILES payloads ∧
  Forall (λ x, assoc x.1 DEMO_ASSET_DIGESTS = Some (sha256_bytes x.2)) payloads.
Proof.
  unfold _load_and_validate_assets. intros (l & Hl & H)%bind_Ok. apply bind_Ok in H as (u & Hu & H).
  apply require_Ok, andb_true_iff in Hu as [_ Hd]. assert (payloads = l) as ->.
  { do 5 (apply bind_Ok in H as (? & _ & H)). by injection H. }
  split.
  - apply mapR_Forall2 in Hl. eapply Forall2_impl; [exact Hl|]. intros path x Hx. apply bind_Ok in Hx as (payload & Hx & [= <-]).
    split; [done|]. unfold _resource_bytes in Hx. destruct (bundle path); try done. by injection Hx as ->.
  - apply Forall_forall. intros x Hx. unfold digests_match in Hd. rewrite forallb_forall in Hd.
    by apply list_elem_of_In, Hd, bool_decide_eq_true in Hx.
Qed.
Lemma loaded_shape `{P : Platform} bundle payloads : _load_and_validate_assets bundle = Ok payloads →
  (∃ p0 p1 p2 p3 p4 p5, payloads = zip DEMO_ASSET_FILES [p0; p1; p2; p3; p4; p5]) ∧
  map (λ x, (x.1, Payload x.2)) payloads = map (λ path, (path, bundle path)) DEMO_ASSET_FILES ∧
  map (λ x, (x.1, sha256_bytes x.2)) payloads = DEMO_ASSET_DIGESTS.
Proof.
  intros [H D]%loaded_assets. unfold DEMO_ASSET_FILES in *.
  repeat match goal with H : Forall2 _ (_ :: _) _ |- _ => apply Forall2_cons_inv_l in H as ([? ?] & ? & [? ?] & ? & ->) end.
  match goal with H : Forall2 _ [] _ |- _ => apply Forall2_nil_inv_l in H as -> end. cbn [fst snd] in *. subst. split; [by do 6 eexists|].
  repeat match goal with D : Forall _ (_ :: _) |- _ => let E := fresh in apply Forall_cons in D as [E D]; cbv [fst snd] in E end.
  split; [cbn; congruence|]. cbn [map fst snd].
  repeat match goal with H : assoc ?k DEMO_ASSET_DIGESTS = Some ?d |- _ =>
    let v := eval vm_compute in (assoc k DEMO_ASSET_DIGESTS) in change (v = Some d) in H; apply (inj Some) in H; rewrite <- H; clear H end.
  reflexivity.
Qed.

(** ** The whole run *)
Lemma closing_keeps_fs parent_fd (f : fs) : keeps (λ s, s.(ss_fs) = f) (_close_descriptors parent_fd).
Proof.
  assert (∀ fd, keeps (λ s, s.(ss_fs) = f) (close_fd fd)) as Hc by (by intros fd s <-).
  unfold _close_descriptors. keeping.
Qed.
Lemma filled_open_logical_parent :
  triple (filled [] [] None [] []) open_logical_parent (λ _, filled [] [] None [] []) (λ _ _, True).
Proof.
  unfold open_logical_parent. apply fine_catching. eapply triple_bind; [apply filled_mkdir_parent|]. intros u.
  eapply triple_bind; [apply filled_resolve_parent|]. intros u'.
  eapply triple_weaken; [apply filled_open_parent|done| |done]. intros fd s. by apply filled_forget, list_subseteq_nil.
Qed.
(** A handled failure is a failure still. *)
Lemma attempt_handled (m : io unit) parent_fd s s' u :
  attempt (catching m (handle_failure parent_fd)) s = (s', Ok (Ok u)) → m s = (s', Ok u).
Proof.
  unfold attempt, catching, handle_failure. destruct (m s) as [s1 [a|e]]; [by intros [= -> ->]|].
  unfold mbind, stateful_bind. set (m' := if cleans_up e then _ else _). by destruct (m' s1) as [s2 [u'|e']].
Qed.
(** C9. A successful initialization means that the assets of the package have the pinned
    digests; and when no other process interferes from the moment the files are written,
    whatever happened before and whichever calls fail, the output directory then holds
    exactly these assets, with their exact contents, and nothing else. *)
Theorem initialize_demo_installs `{P : Platform} (bundle : string → resource) (supported : bool) (name : string)
    (f : fs) (fds : gmap nat nat) (next_fd : nat) (events : list event) (s' : Session) (result : DemoInitializationResult) :
  (∀ fd, next_fd ≤ fd → fds !! fd = None) →
  initialize_demo bundle supported name (fresh_call f fds next_fd events) = (s', Ok result) →
  result = mk_DemoInitializationResult "PUBLIC_SYNTHETIC" DEMO_ASSET_FILES ∧
  ∃ payloads parent_fd s0 s1 x,
    _load_and_validate_assets bundle = Ok payloads ∧
    map (λ x, (x.1, Payload x.2)) payloads = map (λ path, (path, bundle path)) DEMO_ASSET_FILES ∧
    map (λ x, (x.1, sha256_bytes x.2)) payloads = DEMO_ASSET_DIGESTS ∧
    open_logical_parent (fresh_call f fds next_fd events) = (s0, Ok parent_fd) ∧
    fill_output parent_fd name payloads s0 = (s1, Ok x) ∧
    (quiet s1.(ss_events) → installed payloads s'.(ss_fs) name).
Proof.
  intros Hnext. set (s := fresh_call f fds next_fd events).
  assert (filled [] [] None [] [] s) as Hs by (split; try done; by constructor).
  unfold initialize_demo, lifted. intros (sl & payloads & [= <- Hl] & H)%bind_stateful_Ok.
  apply bind_stateful_Ok in H as (sp & u & [= <- _] & H). destruct (String.eqb name ""); [done|].
  apply bind_stateful_Ok in H as (s0 & parent_fd & Ho & H). apply bind_stateful_Ok in H as (s2 & outcome & Hi & H).
  apply bind_stateful_Ok in H as (s3 & u' & Hclose & H). destruct outcome as [u2|e]; [|done]. injection H as -> <-.
  pose proof (loaded_shape _ _ Hl) as ((p0 & p1 & p2 & p3 & p4 & p5 & Hp) & Hb & Hd).
  split; [by rewrite Hp|]. apply attempt_handled, bind_stateful_Ok in Hi as (s1 & x & Hf & Hv).
  exists payloads, parent_fd, s0, s1, x. do 5 (split; [done|]). intros Hq.
  pose proof (filled_open_logical_parent s Hs) as H0. rewrite Ho in H0.
  pose proof (filled_fill_output name parent_fd payloads s0 H0) as H1. rewrite Hf in H1.
  destruct x as [parent_inode root]. pose proof (calm_verify s1 name parent_inode root s1) as H2. rewrite Hv in H2.
  destruct H2 as [Hc H2]; [by split|].
  pose proof (closing_keeps_fs parent_fd (ss_fs s1) s2 (calm_fs _ _ Hc)) as H3. rewrite Hclose in H3. rewrite H3.
  subst payloads. by eapply verified_installed.
Qed.
