(* ===== verification/DemoInitDemo.v ===== *)
(** * A concrete installation of the demo

    A bundle with short contents, under a digest function that maps these contents to the
    pinned digests; a file system whose parent directory holds one other file; and runs with
    another process at work and short reads and writes, with an entry in the way, with a
    full disk, and with a file changed before the verification. *)
From S2P Require Import Prelude Json Dicts Stateful PyTime PyDecimal Sha256 Canonical Platforms Models Common.
From S2P Require Import Evidence RunStore DemoFs DemoInit DemoInitFacts DemoInitDescriptors DemoInitKeeps DemoInitSound.

Definition pinned_digest (path : string) : string := default "" (assoc path DEMO_ASSET_DIGESTS).
Definition demo_document (path : string) : json := JObj [("path", JStr path); ("sha256", JStr (pinned_digest ("case/" +:+ path)))].
Definition demo_manifest : string := Eval vm_compute in
  dumps Compact (JObj [("documents", JArr (map demo_document ["contract.json"; "payroll.json"; "termination_notice.json"]));
    ("fixture_status", JStr "SYNTHETIC")]).
Definition demo_rules : string := Eval vm_compute in
  dumps Compact (JObj [("legal_advice", JBool false); ("status", JStr "CURATED_REFERENCE_ONLY")]).
Definition demo_payloads : list (string * string) :=
  zip DEMO_ASSET_FILES ["readme"; "contract"; demo_manifest; "payroll"; "notice"; demo_rules].
Definition demo_resources (path : string) : resource :=
  match assoc path demo_payloads with Some payload => Payload payload | None => Missing end.

(** The digest of a content of the bundle is the pinned one. *)
Definition demo_hex (value : string) : string :=
  match list_find (λ x, snd x = value) demo_payloads with
  | Some (_, (path, _)) => str_drop 7 (pinned_digest path)
  | None => toy_hex value
  end.
Definition demo_platform : Platform := {| sha256_hex := demo_hex; str_strip := strip_text_ascii; exc_text := exn_text |}.
#[local] Existing Instance demo_platform.

Lemma demo_loads : _load_and_validate_assets demo_resources = Ok demo_payloads.
Proof. vm_compute. reflexivity. Qed.

(** Inode 0 is the parent directory; descriptors from 3 on are free. *)
Definition demo_fs : fs := mk_fs {[0 := Dir {["notes" := 1]}; 1 := File "mine"]} 2 (Some 0).
Definition demo_call (events : list event) : Session := fresh_call demo_fs ∅ 3 events.
Definition demo_init (events : list event) : Session * result DemoInitializationResult :=
  initialize_demo demo_resources true "demo" (demo_call events).
(** Another process adds an entry to the parent, a write takes three bytes, and one call in
    the end reads two bytes. *)
Definition demo_events : list event :=
  repeat uneventful 4 ++ [mk_event [env_create 0 "other" (Dir ∅); env_write 1 "still mine"] false None] ++
  repeat uneventful 13 ++ [mk_event [] false (Some 3)].
Definition demo_at (f : fs) (path : list string) : option node := ino ← walk f 0 path; f.(fs_nodes) !! ino.

Example demo_installed :
  let '(s, x) := demo_init demo_events in
  (x, map (λ payload, demo_at s.(ss_fs) ("demo" :: path_parts (fst payload))) demo_payloads, demo_at s.(ss_fs) ["notes"],
   bool_decide (s.(ss_fds) = ∅)) =
  (Ok (mk_DemoInitializationResult "PUBLIC_SYNTHETIC" DEMO_ASSET_FILES), map (λ payload, Some (File (snd payload))) demo_payloads,
   Some (File "still mine"), true).
Proof. vm_compute. reflexivity. Qed.

(** The disk is full when the first file is written: the partial file is not recorded, so
    neither it nor the directory can be removed, and the next attempt finds them. *)
Definition full_disk : list event := repeat uneventful 19 ++ [mk_event [] true None].
Example demo_full_disk :
  let '(s, x) := demo_init full_disk in
  (x, demo_at s.(ss_fs) ["demo"; "README.md"],
   snd (initialize_demo demo_resources true "demo" (fresh_call s.(ss_fs) ∅ 3 []))) =
  (Raise write_failed, Some (File ""), Raise output_exists).
Proof. vm_compute. reflexivity. Qed.

(** A file whose content another process changes before the verification *)
Definition changed : list event := repeat uneventful 45 ++ [mk_event [env_write 5 "forged"] false None].
Example demo_changed :
  let '(s, x) := demo_init changed in
  (x, demo_at s.(ss_fs) ["demo"], bool_decide (s.(ss_fds) = ∅)) = (Raise race_detected, None, true).
Proof. vm_compute. reflexivity. Qed.

(** ** The theorems on these runs *)
Lemma demo_free fd : 3 ≤ fd → (∅ : gmap nat nat) !! fd = None.
Proof. intros _. apply lookup_empty. Qed.
Lemma demo_untouched : untouched 0 changed.
Proof. vm_compute. repeat constructor; discriminate. Qed.
Lemma initialize_demo_keeps_witness :
  untouched 0 changed ∧ kept (Some (Dir {["notes" := 1]})) ((fst (demo_init changed)).(ss_fs).(fs_nodes) !! 0).
Proof.
  split; [exact demo_untouched|].
  exact (initialize_demo_keeps demo_resources true "demo" demo_fs ∅ 3 changed 0 demo_free Nat.lt_0_2 demo_untouched).
Defined.
Lemma demo_filled_events :
  let '(s, fd) := open_logical_parent (demo_call demo_events) in
  (fd, (fst (fill_output 3 "demo" demo_payloads s)).(ss_events)) = (Ok 3, []).
Proof. vm_compute. reflexivity. Qed.
Lemma demo_quiet fd s0 s1 x :
  open_logical_parent (demo_call demo_events) = (s0, Ok fd) → fill_output fd "demo" demo_payloads s0 = (s1, Ok x) → quiet s1.(ss_events).
Proof.
  intros Ho Hf. pose proof demo_filled_events as H. rewrite Ho in H.
  assert (fd = 3) as E by (by injection H). subst fd. rewrite Hf in H. assert (s1.(ss_events) = []) as -> by (by injection H). constructor.
Qed.
Lemma initialize_demo_installs_witness :
  ∃ s', demo_init demo_events = (s', Ok (mk_DemoInitializationResult "PUBLIC_SYNTHETIC" DEMO_ASSET_FILES)) ∧
  installed demo_payloads s'.(ss_fs) "demo".
Proof.
  exists (fst (demo_init demo_events)).
  assert (demo_init demo_events = (fst (demo_init demo_events), Ok (mk_DemoInitializationResult "PUBLIC_SYNTHETIC" DEMO_ASSET_FILES))) as H.
  { vm_compute. reflexivity. }
  split; [exact H|].
  destruct (initialize_demo_installs demo_resources true "demo" demo_fs ∅ 3 demo_events (fst (demo_init demo_events))
    (mk_DemoInitializationResult "PUBLIC_SYNTHETIC" DEMO_ASSET_FILES) demo_free H) as (_ & payloads & fd & s0 & s1 & x & Hl & _ & _ & Ho & Hf & Hi).
  rewrite demo_loads in Hl. injection Hl as <-. apply Hi. by eapply demo_quiet.
Defined.
