(* ===== verification/WireTime.v ===== *)
(** * The timestamps of the wire

    [parse_utc_rfc3339_z] of action_certificate.py, and its inverse: the text of every
    instant a datetime can hold is read back as that instant.  The proof goes through the
    calendar: [fromordinal] is the inverse of [toordinal] on all days of the years 1 to
    9999. *)
From S2P Require Import Prelude PyTime.
Local Open Scope Z_scope.

(** ** The parser *)
Definition expect (c : ascii) (s : string) : option string :=
  match s with String d s => if Ascii.eqb d c then Some s else None | EmptyString => None end.
(** One to six digits, as microseconds *)
Fixpoint parse_fraction (n : nat) (acc : Z) (s : string) : Z * string :=
  match n, s with
  | S n, String c s' =>
      match digit_value c with
      | Some v => parse_fraction n (acc + v * 10 ^ Z.of_nat n) s'
      | None => (acc, s)
      end
  | _, _ => (acc, s)
  end.
Definition optional_fraction (s : string) : option (Z * string) :=
  match s with
  | String "." s => match s with
                    | String c _ => if is_digit c then Some (parse_fraction 6 0 s) else None
                    | EmptyString => None
                    end
  | _ => Some (0, s)
  end.
(** UTC_RFC3339_Z_PATTERN, with the values of its groups *)
Record wire_fields := mk_wire_fields {
  wf_date : Z * Z * Z;
  wf_time : Z * Z * Z;
  wf_microsecond : Z;
}.
Definition match_rfc3339_z (value : string) : option wire_fields :=
  '(y, s) ← parse_digits 4 0 value; s ← expect "-" s;
  '(mo, s) ← parse_digits 2 0 s; s ← expect "-" s;
  '(d, s) ← parse_digits 2 0 s; s ← expect "T" s;
  '(h, s) ← parse_digits 2 0 s; s ← expect ":" s;
  '(mi, s) ← parse_digits 2 0 s; s ← expect ":" s;
  '(se, s) ← parse_digits 2 0 s;
  '(us, s) ← optional_fraction s;
  if String.eqb s "Z" then Some (mk_wire_fields (y, mo, d) (h, mi, se) us) else None.
(** [datetime.fromisoformat] on such a text, and [astimezone(UTC)] *)
Definition wire_instant (x : wire_fields) : option Z :=
  let '(y, mo, d) := x.(wf_date) in
  let '(h, mi, se) := x.(wf_time) in
  if valid_date (mk_date y mo d) && (h <=? 23) && (mi <=? 59) && (se <=? 59)
  then Some ((toordinal (mk_date y mo d) - 1) * us_per_day + ((h * 60 + mi) * 60 + se) * us_per_second + x.(wf_microsecond))
  else None.
(** [None] is one of its two ValueErrors, which no caller tells apart; so a digit of another
    script, which passes the pattern and fails the calendar, may fail the pattern here. *)
Definition parse_utc_rfc3339_z (value : string) : option datetime :=
  x ← match_rfc3339_z value; us ← wire_instant x; Some (Aware us).

(** ** The calendar *)
Lemma days_before_cycle a b c d : 0 ≤ b ≤ 3 → 0 ≤ c ≤ 24 → 0 ≤ d ≤ 3 →
  days_before_year (a * 400 + b * 100 + c * 4 + d + 1) = 146097 * a + 36524 * b + 1461 * c + 365 * d.
Proof.
  intros Hb Hc Hd. unfold days_before_year. set (p := a * 400 + b * 100 + c * 4 + d + 1 - 1).
  assert (p / 4 = 100 * a + 25 * b + c) as -> by (symmetry; apply (Z.div_unique p 4 _ d); lia).
  assert (p / 100 = 4 * a + b) as -> by (symmetry; apply (Z.div_unique p 100 _ (4 * c + d)); lia).
  assert (p / 400 = a) as -> by (symmetry; apply (Z.div_unique p 400 _ (100 * b + 4 * c + d)); lia). lia.
Qed.
Lemma is_leap_cycle a b c d : 0 ≤ b ≤ 3 → 0 ≤ c ≤ 24 → 0 ≤ d ≤ 3 →
  is_leap (a * 400 + b * 100 + c * 4 + d + 1) = (d =? 3) && ((c <? 24) || (b =? 3)).
Proof.
  intros Hb Hc Hd. unfold is_leap. set (y := a * 400 + b * 100 + c * 4 + d + 1).
  assert (y mod 4 = (d + 1) mod 4) as ->.
  { replace y with (d + 1 + (100 * a + 25 * b + c) * 4) by lia. apply Z.mod_add. lia. }
  assert (y mod 100 = (4 * c + d + 1) mod 100) as ->.
  { replace y with (4 * c + d + 1 + (4 * a + b) * 100) by lia. apply Z.mod_add. lia. }
  assert (y mod 400 = (100 * b + 4 * c + d + 1) mod 400) as ->.
  { replace y with (100 * b + 4 * c + d + 1 + a * 400) by lia. apply Z.mod_add. lia. }
  destruct (Z.eqb_spec d 3) as [->|Hd3]; cbn [andb].
  - change ((3 + 1) mod 4 =? 0) with true. cbn [andb]. destruct (Z.ltb_spec c 24) as [Hc'|Hc']; cbn [orb].
    + rewrite (Z.mod_small (4 * c + 3 + 1)) by lia. destruct (Z.eqb_spec (4 * c + 3 + 1) 0); [lia|done].
    + assert (c = 24) as -> by lia. destruct (Z.eqb_spec b 3) as [->|Hb3]; [done|].
      change ((4 * 24 + 3 + 1) mod 100 =? 0) with true. cbn [negb orb].
      rewrite Z.mod_small by lia. apply Z.eqb_neq. lia.
  - rewrite Z.mod_small by lia. by destruct (Z.eqb_spec (d + 1) 0); [lia|].
Qed.

Lemma find_month_spec y fuel k n : (fuel + k = 12)%nat → 1 ≤ n ≤ sum_months y 12 - sum_months y k →
  let '(m, d) := find_month y n (Z.of_nat (S k)) fuel in
  1 ≤ m ≤ 12 ∧ 1 ≤ d ≤ days_in_month y m ∧ days_before_month y m + d = sum_months y k + n.
Proof.
  revert k n; induction fuel as [|fuel IH]; intros k n Hk Hn.
  - assert (k = 12)%nat as -> by lia. lia.
  - cbn [find_month]. destruct (Z.leb_spec n (days_in_month y (Z.of_nat (S k)))) as [Hd|Hd].
    + split; [lia|]. split; [lia|]. unfold days_before_month.
      replace (Z.to_nat (Z.of_nat (S k) - 1)) with k by lia. lia.
    + replace (Z.of_nat (S k) + 1) with (Z.of_nat (S (S k))) by lia.
      assert (sum_months y (S k) = sum_months y k + days_in_month y (Z.of_nat (S k))) as Hs by done.
      specialize (IH (S k) (n - days_in_month y (Z.of_nat (S k))) ltac:(lia) ltac:(lia)).
      destruct (find_month _ _ _ fuel) as [m d]. destruct IH as (H1 & H2 & H3). split; [done|]. split; [done|]. lia.
Qed.
Lemma sum_months_year y : sum_months y 12 = 365 + Z.b2z (is_leap y).
Proof. cbn. unfold days_in_month. by destruct (is_leap y). Qed.

(** The last day of a leap year, which the cycles count as a fifth year *)
Lemma leap_year_end a b c : 0 ≤ a ≤ 24 → 0 ≤ b ≤ 3 → 0 ≤ c ≤ 24 → c < 24 ∨ b = 3 →
  a * 400 + b * 100 + c * 4 + 3 < 9999 →
  let d := mk_date (a * 400 + b * 100 + c * 4 + 3 + 1) 12 31 in
  valid_date d = true ∧ toordinal d = 146097 * a + 36524 * b + 1461 * c + 1461.
Proof.
  intros Ha Hb Hc Hl Hy d. split.
  - unfold valid_date, MINYEAR, MAXYEAR, d. cbn [year month day]. change (days_in_month _ 12) with 31.
    rewrite !andb_true_iff, !Z.leb_le. repeat split; lia.
  - unfold toordinal, d. cbn [year month day]. rewrite days_before_cycle by lia. set (y := _ + 3 + 1).
    assert (days_before_month y 12 = 334 + Z.b2z (is_leap y)) as ->.
    { clearbody y. change (days_before_month y 12) with (sum_months y 11). cbn. unfold days_in_month. by destruct (is_leap y). }
    unfold y. rewrite is_leap_cycle by lia.
    destruct (Z.ltb_spec c 24); destruct (Z.eqb_spec b 3); cbn; lia.
Qed.
Lemma year_day a b c d r : 0 ≤ a ≤ 24 → 0 ≤ b ≤ 3 → 0 ≤ c ≤ 24 → 0 ≤ d ≤ 3 → 0 ≤ r < 365 + Z.b2z ((d =? 3) && ((c <? 24) || (b =? 3))) →
  a * 400 + b * 100 + c * 4 + d < 9999 →
  let y := a * 400 + b * 100 + c * 4 + d + 1 in
  let '(m, k) := find_month y (r + 1) 1 12 in
  valid_date (mk_date y m k) = true ∧ toordinal (mk_date y m k) = 146097 * a + 36524 * b + 1461 * c + 365 * d + r + 1.
Proof.
  intros Ha Hb Hc Hd Hr Hy y. rewrite <- (is_leap_cycle a b c d Hb Hc Hd) in Hr. fold y in Hr.
  pose proof (find_month_spec y 12 0 (r + 1) eq_refl) as H. rewrite sum_months_year in H. cbn [sum_months] in H.
  specialize (H ltac:(lia)). change (Z.of_nat 1) with 1 in H. destruct (find_month y (r + 1) 1 12) as [m k].
  destruct H as (H1 & H2 & H3). split.
  - unfold valid_date, MINYEAR, MAXYEAR. cbn [year month day]. rewrite !andb_true_iff, !Z.leb_le. unfold y in *. repeat split; lia.
  - unfold toordinal. cbn [year month day]. unfold y at 1. rewrite days_before_cycle by lia. lia.
Qed.
Lemma fromordinal_spec n : 1 ≤ n ≤ 3652059 → valid_date (fromordinal n) = true ∧ toordinal (fromordinal n) = n.
Proof.
  intros Hn. unfold fromordinal. cbv zeta. set (n0 := n - 1).
  pose proof (Z.div_mod n0 146097 ltac:(done)) as E1. pose proof (Z.mod_pos_bound n0 146097 eq_refl) as B1.
  set (a := n0 / 146097) in *. set (r1 := n0 mod 146097) in *.
  pose proof (Z.div_mod r1 36524 ltac:(done)) as E2. pose proof (Z.mod_pos_bound r1 36524 eq_refl) as B2.
  set (b := r1 / 36524) in *. set (r2 := r1 mod 36524) in *.
  pose proof (Z.div_mod r2 1461 ltac:(done)) as E3. pose proof (Z.mod_pos_bound r2 1461 eq_refl) as B3.
  set (c := r2 / 1461) in *. set (r3 := r2 mod 1461) in *.
  pose proof (Z.div_mod r3 365 ltac:(done)) as E4. pose proof (Z.mod_pos_bound r3 365 eq_refl) as B4.
  set (d := r3 / 365) in *. set (r4 := r3 mod 365) in *.
  assert (0 ≤ a ≤ 24) as Ha by lia. assert (0 ≤ b ≤ 4) as Hb by lia. assert (0 ≤ c ≤ 24) as Hc by lia.
  assert (0 ≤ d ≤ 4) as Hd by lia. clearbody a b c d r1 r2 r3 r4. subst n0.
  destruct (Z.eqb_spec d 4) as [->|Hd4]; [|destruct (Z.eqb_spec b 4) as [->|Hb4]]; cbn [orb].
  - assert (r4 = 0) as -> by lia. replace (_ + 4 + 1 - 1) with (a * 400 + b * 100 + c * 4 + 3 + 1) by lia.
    destruct (leap_year_end a b c) as [H1 H2]; [lia..|]. split; [done|lia].
  - assert (c = 0 ∧ d = 0 ∧ r4 = 0) as (-> & -> & ->) by lia.
    replace (_ + 0 + 1 - 1) with (a * 400 + 3 * 100 + 24 * 4 + 3 + 1) by lia.
    destruct (leap_year_end a 3 24) as [H1 H2]; [lia..|]. split; [done|lia].
  - assert (r4 < 365 + Z.b2z ((d =? 3) && ((c <? 24) || (b =? 3)))) as Hr.
    { destruct (Z.eqb_spec d 3); destruct (Z.ltb_spec c 24); destruct (Z.eqb_spec b 3); cbn; lia. }
    pose proof (year_day a b c d r4 ltac:(lia) ltac:(lia) ltac:(lia) ltac:(lia) ltac:(lia) ltac:(lia)) as H. cbv zeta in H.
    destruct (find_month _ (r4 + 1) 1 12) as [m k]. destruct H as [H1 H2]. split; [done|lia].
Qed.

(** ** Reading back *)
Lemma parse_fraction_pad2 n acc z s : 0 ≤ z ≤ 99 →
  parse_fraction (S (S n)) acc (pad2 z +:+ s) = parse_fraction n (acc + z * 10 ^ Z.of_nat n) s.
Proof.
  intros Hz. unfold pad2. rewrite !str_app_cons, str_app_nil_l. cbn [parse_fraction].
  pose proof (Z.mod_pos_bound (z / 10) 10 eq_refl). pose proof (Z.mod_pos_bound z 10 eq_refl).
  rewrite !digit_value_char by lia. f_equal.
  rewrite (Z.mod_small (z / 10)) by (split; [apply Z.div_pos|apply Z.div_lt_upper_bound]; lia).
  rewrite Nat2Z.inj_succ, Z.pow_succ_r by lia. pose proof (Z.div_mod z 10). nia.
Qed.
Lemma optional_fraction_pad6 z s : 0 ≤ z ≤ 999999 → optional_fraction ("." +:+ pad6 z +:+ s) = Some (parse_fraction 0 z s).
Proof.
  intros Hz. pose proof (Z.mod_pos_bound z 10000 eq_refl). pose proof (Z.div_mod z 10000).
  assert (0 ≤ z / 10000 ≤ 99) as H1 by lia.
  assert (0 ≤ z mod 10000 / 100 ≤ 99 ∧ 0 ≤ z mod 10000 mod 100 ≤ 99 ∧ z mod 10000 = z mod 10000 / 100 * 100 + z mod 10000 mod 100) as (H2 & H3 & H4).
  { pose proof (Z.div_mod (z mod 10000) 100). pose proof (Z.mod_pos_bound (z mod 10000) 100 eq_refl). lia. }
  assert (parse_fraction 6 0 (pad6 z +:+ s) = parse_fraction 0 z s) as <-.
  { unfold pad6, pad4. rewrite <- !str_app_assoc, !parse_fraction_pad2 by done. f_equal. cbn. lia. }
  assert (∃ c r, pad6 z +:+ s = String c r ∧ is_digit c = true) as (c & r & -> & Hc).
  { unfold pad6, pad2. rewrite !str_app_cons. eexists _, _. split; [reflexivity|].
    pose proof (digit_value_char (z / 10000 / 10 mod 10)) as Hv. unfold digit_value in Hv.
    pose proof (Z.mod_pos_bound (z / 10000 / 10) 10 eq_refl). destruct (is_digit _); [done|]. discriminate Hv. lia. }
  change (optional_fraction ("." +:+ String c r)) with (if is_digit c then Some (parse_fraction 6 0 (String c r)) else None).
  by rewrite Hc.
Qed.
Lemma match_rfc3339_z_text d h mi se us :
  valid_date d = true → 0 ≤ h ≤ 99 → 0 ≤ mi ≤ 99 → 0 ≤ se ≤ 99 → 0 ≤ us ≤ 999999 →
  match_rfc3339_z (date_isoformat d +:+ "T" +:+ pad2 h +:+ ":" +:+ pad2 mi +:+ ":" +:+ pad2 se +:+ "." +:+ pad6 us +:+ "Z") =
    Some (mk_wire_fields (year d, month d, day d) (h, mi, se) us).
Proof.
  intros Hd Hh Hm Hs Hu. pose proof (valid_date_bounds d Hd) as (Hy & Hmo & Hda). pose proof (days_in_month_bounds (year d) (month d)).
  unfold match_rfc3339_z, date_isoformat, mbind, option_bind. rewrite <- !str_app_assoc.
  assert (∀ c s, expect c (String c "" +:+ s) = Some s) as Hexp 
    by (intros c s; change (expect c (String c "" +:+ s)) with (if Ascii.eqb c c then Some s else None); by rewrite Ascii.eqb_refl).
  rewrite parse_pad4 by lia. repeat (rewrite Hexp || rewrite parse_pad2 by lia). by rewrite optional_fraction_pad6 by lia.
Qed.

(** C28. Every instant a datetime can hold, written with microseconds and a Z as the canonical
    JSON writes it, is read back as that instant. *)
Theorem parse_utc_rfc3339_z_round_trip (us : Z) :
  in_datetime_range us = true → parse_utc_rfc3339_z (isoformat_us us +:+ "Z") = Some (Aware us).
Proof.
  unfold in_datetime_range, MAX_US. rewrite andb_true_iff, !Z.leb_le. intros Hus. unfold us_per_day, us_per_second in Hus.
  unfold parse_utc_rfc3339_z, isoformat_us. cbv zeta. set (r := us mod us_per_day). set (s := r / us_per_second).
  pose proof (Z.div_mod us us_per_day ltac:(done)) as E. pose proof (Z.mod_pos_bound us us_per_day eq_refl) as B. fold r in E, B.
  pose proof (Z.div_mod r us_per_second ltac:(done)) as E'. pose proof (Z.mod_pos_bound r us_per_second eq_refl) as B'. fold s in E'.
  unfold us_per_day, us_per_second in *. set (n := us / _) in *. set (f := r mod _) in *. clearbody n s f r.
  destruct (fromordinal_spec (n + 1) ltac:(lia)) as [Hv Ho]. set (d := fromordinal (n + 1)) in *. clearbody d.
  pose proof (Z.div_mod s 3600). pose proof (Z.mod_pos_bound (s / 60) 60 eq_refl).
  pose proof (Z.div_mod s 60). pose proof (Z.mod_pos_bound s 60 eq_refl). pose proof (Z.div_mod (s / 60) 60).
  assert (s / 3600 = s / 60 / 60) as Hdiv by (by rewrite Z.div_div).
  rewrite <- !str_app_assoc, match_rfc3339_z_text by (try done; lia). unfold mbind, option_bind, wire_instant. cbn [wf_date wf_time wf_microsecond].
  replace (mk_date (year d) (month d) (day d)) with d by (by destruct d). rewrite Hv, Ho.
  rewrite !(proj2 (Z.leb_le _ _)) by lia. cbn [andb]. unfold us_per_day, us_per_second. do 2 f_equal. lia.
Qed.
Lemma parse_utc_rfc3339_z_round_trip_witness :
  in_datetime_range 86401500000 = true ∧ parse_utc_rfc3339_z "0001-01-02T00:00:01.500000Z" = Some (Aware 86401500000).
Proof. split; [reflexivity|]. exact (parse_utc_rfc3339_z_round_trip 86401500000 eq_refl). Defined.
