(* ===== verification/Cli.v ===== *)
(** * cli.py: the command line

    [main] reads the files its arguments name, calls the component of the command, prints
    what it returns, and turns every expected exception into one line of JSON on stderr and
    an exit code.  An exception that is none of these leaves [main] (a traceback).  What
    argparse makes of the arguments is the [Command]; a usage error is [usage_error]. *)
From S2P Require Import Prelude Json Dicts Stateful PyTime PyDecimal Sha256 Canonical Base64 Platforms Models Common.
From S2P Require Import Checks Evidence WireTime CertModels CertLedger Certificate ReceiptModels Receipt.
From S2P Require Import OutcomeModels OutcomeIndex Outcome RunStore Runtime RunApprove RunVerify TrustedStore.
From S2P Require Import ToolServer DemoFs DemoInit.
Local Open Scope Z_scope.

(** ** What a command prints *)
Record Completed := mk_Completed {
  exit_code : Z;
  stdout : list string;
  stderr : list string;
}.
Definition error_line (code message : string) (context : list (string * json)) : string :=
  dumps Spaced (JObj [("error", JObj ([("code", JStr code); ("message", JStr message)] ++
    if nonempty context then [("context", JObj context)] else []))]).
(** [_write_cli_error] and the exit code that is returned after it *)
Definition _write_cli_error (exit : Z) (code message : string) (context : list (string * json)) : Completed :=
  mk_Completed exit [] [error_line code message context].
(** [_JsonArgumentParser.error] *)
Definition usage_error : Completed :=
  _write_cli_error 2 "CLI_USAGE_ERROR" "invalid command-line arguments; run proofflow --help for usage" [].

(** A dump in JSON mode, with its fields in the order of the class *)
Fixpoint plain (v : pyval) : json :=
  match v with
  | VBool b => JBool b
  | VInt z => JInt z
  | VStr s => JStr s
  | VEnum v => plain v
  | VSeq items => JArr (map plain items)
  | VDict items => JObj (map (λ x, (fst x, plain (snd x))) items)
  | _ => JNull
  end.
Definition printed (v : pyval) : string := print Indent2 0 (plain v).

Definition outcome_reason_text (r : OutcomeReason) : string :=
  match r with
  | OutcomeReason.PASS_VERIFIED => "PASS_VERIFIED"
  | OutcomeReason.FAIL_VERIFIED => "FAIL_VERIFIED"
  | OutcomeReason.PASS_ALREADY_PRESENT => "PASS_ALREADY_PRESENT"
  | OutcomeReason.FAIL_ALREADY_PRESENT => "FAIL_ALREADY_PRESENT"
  | OutcomeReason.ENVELOPE_INVALID => "ENVELOPE_INVALID"
  | OutcomeReason.ENVELOPE_TOO_LARGE => "ENVELOPE_TOO_LARGE"
  | OutcomeReason.PAYLOAD_INVALID => "PAYLOAD_INVALID"
  | OutcomeReason.PAYLOAD_TOO_LARGE => "PAYLOAD_TOO_LARGE"
  | OutcomeReason.SIGNATURE_INVALID => "SIGNATURE_INVALID"
  | OutcomeReason.TRUST_POLICY_MISMATCH => "TRUST_POLICY_MISMATCH"
  | OutcomeReason.EXPECTED_BINDING_MISMATCH => "EXPECTED_BINDING_MISMATCH"
  | OutcomeReason.CLOSURE_TIME_INVALID => "CLOSURE_TIME_INVALID"
  | OutcomeReason.ACTION_CERTIFICATE_ACCEPTANCE_UNKNOWN => "ACTION_CERTIFICATE_ACCEPTANCE_UNKNOWN"
  | OutcomeReason.ACTION_CERTIFICATE_HANDOFF_UNTRUSTED => "ACTION_CERTIFICATE_HANDOFF_UNTRUSTED"
  | OutcomeReason.EXECUTION_RECEIPT_ACCEPTANCE_UNKNOWN => "EXECUTION_RECEIPT_ACCEPTANCE_UNKNOWN"
  | OutcomeReason.EXECUTION_RECEIPT_HANDOFF_UNTRUSTED => "EXECUTION_RECEIPT_HANDOFF_UNTRUSTED"
  | OutcomeReason.ACTION_CERTIFICATE_UNSAFE => "ACTION_CERTIFICATE_UNSAFE"
  | OutcomeReason.EXECUTION_RECEIPT_UNSAFE => "EXECUTION_RECEIPT_UNSAFE"
  | OutcomeReason.AUTHORIZATION_BINDING_MISMATCH => "AUTHORIZATION_BINDING_MISMATCH"
  | OutcomeReason.RECEIPT_BINDING_MISMATCH => "RECEIPT_BINDING_MISMATCH"
  | OutcomeReason.EFFECT_BINDING_UNKNOWN => "EFFECT_BINDING_UNKNOWN"
  | OutcomeReason.EFFECT_BINDING_MISMATCH => "EFFECT_BINDING_MISMATCH"
  | OutcomeReason.EFFECT_COUNT_MISMATCH => "EFFECT_COUNT_MISMATCH"
  | OutcomeReason.EFFECT_RECONCILIATION_UNRESOLVED => "EFFECT_RECONCILIATION_UNRESOLVED"
  | OutcomeReason.UNSAFE_UNRESOLVED_EFFECT => "UNSAFE_UNRESOLVED_EFFECT"
  | OutcomeReason.DUPLICATE_EFFECT_SUCCESS => "DUPLICATE_EFFECT_SUCCESS"
  | OutcomeReason.DUPLICATE_PROVIDER_OPERATION_ID => "DUPLICATE_PROVIDER_OPERATION_ID"
  | OutcomeReason.OUTCOME_OBSERVER_THRESHOLD_NOT_MET => "OUTCOME_OBSERVER_THRESHOLD_NOT_MET"
  | OutcomeReason.ROOT_TIME_OR_REVOCATION_INVALID => "ROOT_TIME_OR_REVOCATION_INVALID"
  | OutcomeReason.PRODUCER_SIGNER_MISMATCH => "PRODUCER_SIGNER_MISMATCH"
  | OutcomeReason.SELF_OBSERVATION => "SELF_OBSERVATION"
  | OutcomeReason.CLOSURE_ID_CONFLICT => "CLOSURE_ID_CONFLICT"
  | OutcomeReason.ATTEMPT_SEQUENCE_CONFLICT => "ATTEMPT_SEQUENCE_CONFLICT"
  | OutcomeReason.PREVIOUS_DIGEST_CONFLICT => "PREVIOUS_DIGEST_CONFLICT"
  | OutcomeReason.IDEMPOTENCY_CONFLICT => "IDEMPOTENCY_CONFLICT"
  | OutcomeReason.OUTCOME_INDEX_UNAVAILABLE => "OUTCOME_INDEX_UNAVAILABLE"
  | OutcomeReason.EVIDENCE_SOURCE_INVALID => "EVIDENCE_SOURCE_INVALID"
  | OutcomeReason.EVIDENCE_BYTES_UNAVAILABLE => "EVIDENCE_BYTES_UNAVAILABLE"
  | OutcomeReason.EVIDENCE_DIGEST_MISMATCH => "EVIDENCE_DIGEST_MISMATCH"
  | OutcomeReason.EFFECT_COVERAGE_INCOMPLETE => "EFFECT_COVERAGE_INCOMPLETE"
  | OutcomeReason.EFFECT_TERMINAL_INVALID => "EFFECT_TERMINAL_INVALID"
  | OutcomeReason.OUTCOME_WINDOW_UNSAFE => "OUTCOME_WINDOW_UNSAFE"
  | OutcomeReason.OUTCOME_OBSERVER_SOD => "OUTCOME_OBSERVER_SOD"
  end.
Definition verdict_text (v : OutcomeVerdict) : string :=
  match v with
  | OutcomeVerdict.PASS => "PASS"
  | OutcomeVerdict.FAIL => "FAIL"
  | OutcomeVerdict.UNKNOWN => "UNKNOWN"
  | OutcomeVerdict.UNSAFE_SUCCESS => "UNSAFE_SUCCESS"
  end.
Definition OutcomeResult_dump (x : OutcomeResult) : pyval :=
  let text := from_option VStr VNone in
  let count := from_option VInt VNone in
  VDict [("verification_version", VStr "proofflow.outcome-closure-verification/v0.1");
         ("status", VStr (verdict_text x.(ocv_status)));
         ("reason_codes", VSeq (map (λ r, VStr (outcome_reason_text r)) x.(ocv_reason_codes)));
         ("closure_id", text x.(ocv_closure_id)); ("payload_sha256", text x.(ocv_payload_sha256));
         ("envelope_sha256", VStr x.(ocv_envelope_sha256));
         ("verified_outcome_observer_roots", VSeq (map VStr x.(ocv_verified_outcome_observer_roots)));
         ("recorded", VBool x.(ocv_recorded)); ("attempt_id", text x.(ocv_attempt_id));
         ("closure_sequence", count x.(ocv_closure_sequence));
         ("previous_payload_sha256", text x.(ocv_previous_payload_sha256));
         ("expected_effect_count", count x.(ocv_expected_effect_count));
         ("observed_success_count", count x.(ocv_observed_success_count));
         ("unresolved_effect_count", count x.(ocv_unresolved_effect_count))].
Definition VerificationReport_dump (x : VerificationReport) : pyval :=
  VDict [("valid", VBool x.(vr_valid)); ("checked_artifacts", VInt x.(vr_checked_artifacts));
         ("checked_package_files", VInt x.(vr_checked_package_files)); ("errors", VSeq (map VStr x.(vr_errors)))].

(** ** Inputs *)
(** What a path names: not a regular file (or a symbolic link), a file that cannot be read,
    or its content *)
Inductive local_file := Irregular | Unreadable | Regular (content : string).
(** [handle.read(n)] *)
Fixpoint read_up_to (n : Z) (content : string) : string :=
  match content with
  | String c content => if n <=? 0 then "" else String c (read_up_to (n - 1) content)
  | EmptyString => ""
  end.
Definition regular (label : string) : exn :=
  ValueError (label +:+ " must be a local regular file, not a symlink or reference").
Definition _read_bounded_local_file (file : local_file) (limit : Z) (label : string) : result string :=
  match file with
  | Irregular => Raise (regular label)
  | Unreadable => Raise io_error
  | Regular content =>
      let payload := read_up_to (limit + 1) content in
      if limit <? Z.of_nat (String.length payload)
      then Raise (ValueError (label +:+ " exceeds " +:+ z_text limit +:+ " bytes")) else Ok payload
  end.
(** Its size is checked by the verifier. *)
Definition _read_certificate_envelope (file : local_file) : result string :=
  match file with
  | Irregular => Raise (regular "envelope")
  | Unreadable => Raise io_error
  | Regular content => Ok (read_up_to (MAX_ENVELOPE_BYTES + 1) content)
  end.
Definition _parse_verification_time (value : string) : result datetime :=
  match parse_utc_rfc3339_z value with
  | Some t => Ok t
  | None => Raise (CliInputError "INVALID_VERIFICATION_TIME" "verification time must use UTC RFC 3339 with a trailing Z")
  end.

(** pydantic's [model_validate_json] for the documents the commands read *)
Class WireParser := {
  load_TrustPolicy : string → result TrustPolicy;
  load_ExpectedBinding : string → result ExpectedBinding;
  load_ApprovalRevocationSnapshot : string → result ApprovalRevocationSnapshot;
  load_ExpectedExecutionBinding : string → result ExpectedExecutionBinding;
  load_ActionCertificateVerificationResult : string → result Result;
  load_ExpectedOutcomeBinding : string → result ExpectedOutcomeBinding;
  load_ExecutionReceiptVerificationResult : string → result ReceiptResult;
}.
(** They return what passed the validators, and fail with a ValidationError. *)
Class WireParserLaws (W : WireParser) : Prop := {
  load_TrustPolicy_valid : ∀ b x, load_TrustPolicy b = Ok x → TrustPolicy_validate x = Ok x;
  load_TrustPolicy_raise : ∀ b e, load_TrustPolicy b = Raise e → is_value_error e = true;
  load_ExpectedBinding_raise : ∀ b e, load_ExpectedBinding b = Raise e → is_value_error e = true;
  load_ApprovalRevocationSnapshot_raise : ∀ b e, load_ApprovalRevocationSnapshot b = Raise e → is_value_error e = true;
  load_ExpectedExecutionBinding_raise : ∀ b e, load_ExpectedExecutionBinding b = Raise e → is_value_error e = true;
  load_ActionCertificateVerificationResult_raise :
    ∀ b e, load_ActionCertificateVerificationResult b = Raise e → is_value_error e = true;
  load_ExpectedOutcomeBinding_raise : ∀ b e, load_ExpectedOutcomeBinding b = Raise e → is_value_error e = true;
  load_ExecutionReceiptVerificationResult_raise :
    ∀ b e, load_ExecutionReceiptVerificationResult b = Raise e → is_value_error e = true;
}.
(** [parse_json_model(_read_bounded_local_file(path, ...), Model, label)] *)
Definition read_model {A} (load : string → result A) (file : local_file) (limit : Z) (label : string) : result A :=
  payload ← _read_bounded_local_file file limit label; parse_json_model load payload label.

(** ** The verification commands

    The options, with the files their paths name *)
Record CertificateArgs := mk_CertificateArgs {
  ca_envelope : local_file;
  ca_trust_policy : local_file;
  ca_expected_binding : local_file;
  ca_approval_revocations : option local_file;
  ca_at : string;
  ca_ledger_capacity : Z;
}.
Record ReceiptArgs := mk_ReceiptArgs {
  ra_envelope : local_file;
  ra_trust_policy : local_file;
  ra_expected_binding : local_file;
  ra_action_certificate_envelope : local_file;
  ra_action_certificate_verification : local_file;
  ra_at : string;
  ra_index_capacity : Z;
}.
Record OutcomeArgs := mk_OutcomeArgs {
  oa_envelope : local_file;
  oa_trust_policy : local_file;
  oa_expected_binding : local_file;
  oa_action_certificate_envelope : local_file;
  oa_action_certificate_verification : local_file;
  oa_execution_receipt_envelope : local_file;
  oa_execution_receipt_verification : local_file;
  oa_evidence : local_file;
  oa_at : string;
  oa_index_capacity : Z;
}.
Definition status_code (status : VerificationStatus) : Z :=
  match status with VerificationStatus.ACCEPT => 0 | VerificationStatus.REJECT => 1 | VerificationStatus.UNKNOWN => 3 end.
Definition verdict_code (verdict : OutcomeVerdict) : Z :=
  match verdict with
  | OutcomeVerdict.PASS => 0
  | OutcomeVerdict.FAIL => 1
  | OutcomeVerdict.UNSAFE_SUCCESS => 4
  | OutcomeVerdict.UNKNOWN => 3
  end.
(** One entry of the evidence document *)
Definition decode_evidence (evidence : gmap string string) (entry : string * json) : result (gmap string string) :=
  match snd entry with
  | JStr encoded =>
      match b64decode encoded with
      | Some raw => Ok (<[fst entry := raw]> evidence)
      | None => Raise (ValueError "Only base64 data is allowed")
      end
  | _ => Raise (ValueError "outcome evidence entries must be string digest/base64 pairs")
  end.
Definition read_evidence (file : local_file) : result (gmap string string) :=
  payload ← _read_bounded_local_file file (256 * 1024) "outcome evidence";
  evidence_document ← _strict_json_object payload "outcome evidence";
  foldR decode_evidence ∅ evidence_document.

Section commands.
Context `{P : Platform} `{K : Ed25519} `{C : CertificateParser} `{W : WireParser}.
Context (load_receipt : string → result ExecutionReceiptStatement) (load_outcome : string → result OutcomeClosureStatement).

Definition read_trust_policy (file : local_file) : result TrustPolicy :=
  read_model load_TrustPolicy file (256 * 1024) "trust policy".
Definition read_revocations (file : option local_file) : result (option Resolver) :=
  match file with
  | None => Ok None
  | Some file =>
      snapshot ← read_model load_ApprovalRevocationSnapshot file (256 * 1024) "approval revocation snapshot";
      Ok (Some (snapshot_resolve snapshot))
  end.
Definition _verify_certificate_command (args : CertificateArgs) : result Completed :=
  envelope ← _read_certificate_envelope args.(ca_envelope);
  trust_policy ← read_trust_policy args.(ca_trust_policy);
  expected_binding ← read_model load_ExpectedBinding args.(ca_expected_binding) (128 * 1024) "expected binding";
  resolver ← read_revocations args.(ca_approval_revocations);
  replay_ledger ← ledger_init args.(ca_ledger_capacity);
  now ← _parse_verification_time args.(ca_at);
  r ← snd (verify_action_certificate envelope trust_policy expected_binding replay_ledger resolver now);
  Ok (mk_Completed (status_code r.(avr_status)) [printed (VerificationResult_dump r)] []).

Definition read_verification (file : local_file) : result Result :=
  read_model load_ActionCertificateVerificationResult file (128 * 1024) "ActionCertificate verification result".
Definition _verify_receipt_command (args : ReceiptArgs) : result Completed :=
  envelope ← _read_certificate_envelope args.(ra_envelope);
  action_certificate_envelope ← _read_certificate_envelope args.(ra_action_certificate_envelope);
  trust_policy ← read_trust_policy args.(ra_trust_policy);
  expected_binding ← read_model load_ExpectedExecutionBinding args.(ra_expected_binding) (256 * 1024) "expected execution binding";
  action_verification ← read_verification args.(ra_action_certificate_verification);
  receipt_index ← index_init args.(ra_index_capacity);
  now ← _parse_verification_time args.(ra_at);
  r ← snd (verify_execution_receipt load_receipt envelope trust_policy expected_binding action_certificate_envelope
             action_verification receipt_index now);
  Ok (mk_Completed (status_code r.(erv_status)) [printed (ReceiptResult_dump r)] []).

Definition _verify_outcome_command (args : OutcomeArgs) : result Completed :=
  envelope ← _read_certificate_envelope args.(oa_envelope);
  action_certificate_envelope ← _read_certificate_envelope args.(oa_action_certificate_envelope);
  execution_receipt_envelope ← _read_certificate_envelope args.(oa_execution_receipt_envelope);
  trust_policy ← read_trust_policy args.(oa_trust_policy);
  expected_binding ← read_model load_ExpectedOutcomeBinding args.(oa_expected_binding) (256 * 1024) "expected outcome binding";
  action_verification ← read_verification args.(oa_action_certificate_verification);
  execution_verification ← read_model load_ExecutionReceiptVerificationResult args.(oa_execution_receipt_verification)
                             (128 * 1024) "ExecutionReceipt verification result";
  evidence ← read_evidence args.(oa_evidence);
  outcome_index ← outcome_index_init args.(oa_index_capacity);
  evidence_resolver ← evidence_init evidence 1024 (256 * 1024);
  now ← _parse_verification_time args.(oa_at);
  r ← snd (verify_outcome_closure load_receipt load_outcome envelope trust_policy
             (mk_HandoffArguments (Some expected_binding) (Some action_verification) (Some execution_verification) None None None)
             action_certificate_envelope execution_receipt_envelope outcome_index now (Some (evidence_resolve evidence_resolver)));
  Ok (mk_Completed (verdict_code r.(ocv_status)) [printed (OutcomeResult_dump r)] []).
End commands.

(** ** The commands *)
Record ServeArgs := mk_ServeArgs {
  sa_rules : option string;
  sa_rules_sha256 : string;
  sa_port : Z;
  sa_max_body_bytes : Z;
  sa_max_response_bytes : Z;
  sa_max_concurrent_requests : Z;
  sa_trusted_artifact_capacity : Z;
  sa_read_timeout_seconds : pyfloat;
}.
(** The paths of [prepare] are resolved; [init_demo] keeps the text of its path. *)
Inductive Command :=
| init_demo (output : string)
| certificate (args : CertificateArgs)
| receipt (args : ReceiptArgs)
| outcome (args : OutcomeArgs)
| prepare (manifest rules : list string)
| approve (approver_id role : string) (decision : ApprovalDecision) (reason : string)
| package
| verify
| serve_tools (args : ServeArgs).

(** What the commands only read: the working directory, the resources of the package and what
    [os] supports, the fixtures, the clock, the path of the run directory, the environment
    variable of the token, whether the port is free, and whether serving ends by an
    interrupt *)
Record Environment := mk_Environment {
  env_cwd : list string;
  env_bundle : string → resource;
  env_supported : bool;
  env_fixtures : Fixtures;
  env_now : datetime;
  env_root : list string;
  env_token : option string;
  env_binds : bool;
  env_interrupted : bool;
}.
(** What they change: the file system [init-demo] writes to, and the run directory *)
Record World := mk_World {
  w_session : Session;
  w_run : option Files;
}.

(** A command returns an exit code itself, or the output that is printed at the end. *)
Inductive answer := Returned (c : Completed) | Output (output : json).

(** The name of [Path(os.path.abspath(output))] *)
Definition output_name (cwd : list string) (output : string) : string :=
  default "" (last (resolve (if is_absolute output then [] else cwd) (path_parts output))).

(** The part of the world a command works on *)
Definition on_session {A} (m : stateful Session A) : stateful World A := λ w,
  let '(s, x) := m w.(w_session) in (mk_World s w.(w_run), x).
Definition on_run {A} (f : option Files → option Files * result A) : stateful World A := λ w,
  let '(run, x) := f w.(w_run) in (mk_World w.(w_session) run, x).

Definition initialized (output : string) (r : DemoInitializationResult) : answer :=
  Output (JObj [("classification", JStr r.(dir_classification)); ("files", JArr (map JStr r.(dir_files)));
                ("output", JStr output); ("status", JStr "INITIALIZED")]).
Definition prepared (state : RunState) : answer :=
  Output (JObj [("run_id", JStr state.(rs_run_id)); ("stage", JStr (CaseState.value state.(rs_stage)));
                ("approval_request_id", JStr state.(rs_approval_request_id));
                ("agentteams_integrated", JBool state.(rs_agentteams_integrated))]).
Definition approved_output (record : ApprovalRecord) : answer :=
  Output (JObj [("approval_id", JStr record.(arec_meta).(meta_artifact_id));
                ("decision", JStr (ApprovalDecision.value record.(arec_decision)));
                ("approval_method", JStr record.(arec_approval_method))]).
Definition packaged (manifest : PackageManifest) : answer :=
  Output (JObj [("package_id", JStr manifest.(pm_meta).(meta_artifact_id)); 
                ("manifest_hash", from_option JStr JNull manifest.(pm_manifest_hash))]).
Definition verification_failed (report : VerificationReport) : Completed :=
  _write_cli_error 1 "VERIFICATION_FAILED" "the run package failed deterministic verification"
    [("checked_artifacts", JInt report.(vr_checked_artifacts)); ("checked_package_files", JInt report.(vr_checked_package_files));
     ("error_count", JInt (Z.of_nat (length report.(vr_errors)))); ("valid", JBool false)].
Definition verified_output (report : VerificationReport) : answer :=
  if negb report.(vr_valid) then Returned (verification_failed report) else Output (plain (VerificationReport_dump report)).
Definition interrupted : Completed := _write_cli_error 130 "INTERRUPTED" "the command was interrupted" [].

(** The [except] clauses of [main]; [None] is an exception that none of them takes. *)
Definition handled (e : exn) : option Completed :=
  match e with
  | DemoInitializationError code safe_message | CliInputError code safe_message =>
      Some (_write_cli_error 2 code safe_message [])
  | ReferenceRunBlocked stage _ =>
      Some (_write_cli_error 2 "REFERENCE_RUN_BLOCKED" "the reference run was blocked by its deterministic contract"
              [("stage", JStr stage)])
  | ReferenceRunError _ =>
      Some (_write_cli_error 2 "REFERENCE_RUN_ERROR" "the reference run input or state is invalid" [])
  | ToolServerConfigurationError _ =>
      Some (_write_cli_error 2 "TOOL_SERVER_CONFIGURATION_ERROR" "the tool service configuration is invalid" [])
  | _ =>
      if is_value_error e then Some (_write_cli_error 2 "INVALID_INPUT" "the command input is invalid" [])
      else if is_os_error e then Some (_write_cli_error 2 "FILESYSTEM_ERROR" "a required local file operation failed" [])
      else None
  end.
Definition completed (x : result answer) : result Completed :=
  match x with
  | Ok (Returned c) => Ok c
  | Ok (Output output) => Ok (mk_Completed 0 [print Indent2 0 output] [])
  | Raise e => match handled e with Some c => Ok c | None => Raise e end
  end.

Section main.
Context `{P : Platform} `{K : Ed25519} `{C : CertificateParser} `{W : WireParser} `{L : Loader} `{T : ToolLoader}.
Context (load_receipt : string → result ExecutionReceiptStatement) (load_outcome : string → result OutcomeClosureStatement).

(** [serve_tool_service] serves until it is stopped. *)
Definition serve (env : Environment) (args : ServeArgs) : result answer :=
  api_token ← api_token_from_environment env.(env_token);
  _ ← serve_tool_service args.(sa_port) env.(env_binds) args.(sa_rules) args.(sa_rules_sha256) api_token
        args.(sa_max_body_bytes) args.(sa_max_response_bytes) args.(sa_max_concurrent_requests)
        args.(sa_trusted_artifact_capacity) args.(sa_read_timeout_seconds);
  Ok (Returned (if env.(env_interrupted) then interrupted else mk_Completed 0 [] [])).
(** The [try] block *)
Definition run_command (env : Environment) (command : Command) : stateful World answer :=
  match command with
  | init_demo output =>
      receipt ← on_session (initialize_demo env.(env_bundle) env.(env_supported) (output_name env.(env_cwd) output));
      mret (initialized output receipt)
  | certificate args => c ← lifted (_verify_certificate_command args); mret (Returned c)
  | receipt args => c ← lifted (_verify_receipt_command load_receipt args); mret (Returned c)
  | outcome args => c ← lifted (_verify_outcome_command load_receipt load_outcome args); mret (Returned c)
  | prepare manifest rules =>
      state ← on_run (λ run, prepare_reference_run env.(env_fixtures) manifest rules run env.(env_now)); mret (prepared state)
  | approve approver_id role decision reason =>
      record ← on_run (λ run, approve_reference_run run approver_id role decision reason env.(env_now)); mret (approved_output record)
  | package => manifest ← on_run (λ run, package_reference_run run env.(env_now)); mret (packaged manifest)
  | verify => report ← on_run (λ run, (run, verify_reference_run env.(env_root) run)); mret (verified_output report)
  | serve_tools args => lifted (serve env args)
  end.
Definition main (env : Environment) (command : Command) (w : World) : World * result Completed :=
  let '(w, x) := run_command env command w in (w, completed x).
End main.
