(* ===== verification/CliSound.v ===== *)
(** * What the exit codes of the command line mean

    Exit code 0 says that the component behind the command succeeded on what the files
    hold, and the verification commands end with an exit code and fixed texts, whatever
    the files hold. *)
From S2P Require Import Prelude Json JsonTotal Dicts Stateful PyTime PyDecimal Sha256 Canonical Base64 Platforms Models Common.
From S2P Require Import Checks Evidence WireTime CertModels CertLedger Certificate CertFacts CertSound CertTotal.
From S2P Require Import ReceiptModels Receipt ReceiptFacts ReceiptSound OutcomeModels OutcomeIndex Outcome.
From S2P Require Import OutcomeFacts OutcomeObservers OutcomeSound OutcomeTotal RunStore Runtime RunApprove RunVerify TrustedStore.
From S2P Require Import ToolServer DemoFs DemoInit DemoInitFacts Cli.
Local Open Scope Z_scope.

(** ** Reading *)
Lemma read_up_to_short n s : Z.of_nat (String.length (read_up_to n s)) < n → read_up_to n s = s.
Proof.
  revert n; induction s as [|c s IH]; intros n H; [done|]. cbn [read_up_to] in *.
  destruct (Z.leb_spec n 0); cbn [String.length] in H; [lia|]. f_equal. apply IH. lia.
Qed.
(** The document a file holds *)
Definition holds_model {A} (load : string → result A) (file : local_file) (limit : Z) (label : string) (x : A) : Prop :=
  ∃ text, file = Regular text ∧ Z.of_nat (String.length text) ≤ limit ∧ parse_json_model load text label = Ok x.
Lemma read_bounded_Ok file limit label payload : 0 ≤ limit → _read_bounded_local_file file limit label = Ok payload →
  file = Regular payload ∧ Z.of_nat (String.length payload) ≤ limit.
Proof.
  intros Hl. destruct file as [| |content]; try done. cbn -[Z.add].
  destruct (Z.ltb_spec limit (Z.of_nat (String.length (read_up_to (limit + 1) content)))) as [|H]; [done|].
  intros [= <-]. split; [|done]. f_equal. symmetry. apply read_up_to_short. lia.
Qed.
Lemma read_model_Ok {A} (load : string → result A) file limit label x : 0 ≤ limit →
  read_model load file limit label = Ok x → holds_model load file limit label x.
Proof. intros Hl (text & [-> Ht]%read_bounded_Ok & Hp)%bind_Ok; [|done]. by exists text. Qed.
Lemma read_envelope_whole file bytes : _read_certificate_envelope file = Ok bytes →
  Z.of_nat (String.length bytes) ≤ MAX_ENVELOPE_BYTES → file = Regular bytes.
Proof.
  destruct file as [| |content]; try done. cbn -[Z.add]. intros [= <-] H. f_equal. symmetry. apply read_up_to_short.
  unfold MAX_ENVELOPE_BYTES in *. lia.
Qed.
Lemma parse_time_Ok value now : _parse_verification_time value = Ok now → parse_utc_rfc3339_z value = Some now.
Proof. unfold _parse_verification_time. destruct (parse_utc_rfc3339_z value); [by intros [= <-]|done]. Qed.

(** ** Exit code 0 *)
Section sound.
Context `{P : Platform} `{K : Ed25519} `{C : CertificateParser} `{W : WireParser} `{L : Loader} `{TL : ToolLoader}.
Context (load_receipt : string → result ExecutionReceiptStatement) (load_outcome : string → result OutcomeClosureStatement).
Context {HW : WireParserLaws W}.
Notation main := (main load_receipt load_outcome).

(** The certificate in the file is authorized, under the policy, the expectation and the
    revocations in the files, at the time of the option. *)
Definition certificate_shown (args : CertificateArgs) : Prop :=
  ∃ envelope policy expected resolver now o issuers approvers,
    args.(ca_envelope) = Regular envelope ∧
    holds_model load_TrustPolicy args.(ca_trust_policy) (256 * 1024) "trust policy" policy ∧
    holds_model load_ExpectedBinding args.(ca_expected_binding) (128 * 1024) "expected binding" expected ∧
    read_revocations args.(ca_approval_revocations) = Ok resolver ∧
    parse_utc_rfc3339_z args.(ca_at) = Some now ∧
    authorized envelope policy expected resolver now o issuers approvers.
Definition receipt_shown (args : ReceiptArgs) : Prop :=
  ∃ envelope policy expected certificate_bytes verification now o st issuers approvers observers,
    args.(ra_envelope) = Regular envelope ∧
    _read_certificate_envelope args.(ra_action_certificate_envelope) = Ok certificate_bytes ∧
    holds_model load_TrustPolicy args.(ra_trust_policy) (256 * 1024) "trust policy" policy ∧
    holds_model load_ExpectedExecutionBinding args.(ra_expected_binding) (256 * 1024) "expected execution binding" expected ∧
    read_verification args.(ra_action_certificate_verification) = Ok verification ∧
    parse_utc_rfc3339_z args.(ra_at) = Some now ∧
    attested load_receipt envelope policy expected certificate_bytes verification now o st issuers approvers observers.
Definition outcome_shown (args : OutcomeArgs) : Prop :=
  ∃ envelope policy expected certificate_bytes receipt_bytes action execution evidence resolver now
    h o st receipt issuers approvers witnesses observers,
    args.(oa_envelope) = Regular envelope ∧
    _read_certificate_envelope args.(oa_action_certificate_envelope) = Ok certificate_bytes ∧
    _read_certificate_envelope args.(oa_execution_receipt_envelope) = Ok receipt_bytes ∧
    holds_model load_TrustPolicy args.(oa_trust_policy) (256 * 1024) "trust policy" policy ∧
    holds_model load_ExpectedOutcomeBinding args.(oa_expected_binding) (256 * 1024) "expected outcome binding" expected ∧
    read_verification args.(oa_action_certificate_verification) = Ok action ∧
    holds_model load_ExecutionReceiptVerificationResult args.(oa_execution_receipt_verification) (128 * 1024)
      "ExecutionReceipt verification result" execution ∧
    read_evidence args.(oa_evidence) = Ok evidence ∧ evidence_init evidence 1024 (256 * 1024) = Ok resolver ∧
    parse_utc_rfc3339_z args.(oa_at) = Some now ∧
    closed load_receipt load_outcome envelope policy
      (mk_HandoffArguments (Some expected) (Some action) (Some execution) None None None) certificate_bytes receipt_bytes now
      (Some (evidence_resolve resolver)) h o st receipt issuers approvers witnesses observers ∧
    all_committed (oc_predicate o).(ocp_reconciliation).
(** What a command that exits with 0 has done *)
Definition shown (env : Environment) (command : Command) (w w' : World) : Prop :=
  match command with
  | init_demo output => ∃ r, initialize_demo env.(env_bundle) env.(env_supported) (output_name env.(env_cwd) output) w.(w_session) =
      (w'.(w_session), Ok r)
  | certificate args => w' = w ∧ certificate_shown args
  | receipt args => w' = w ∧ receipt_shown args
  | outcome args => w' = w ∧ outcome_shown args
  | prepare manifest rules => ∃ state, prepare_reference_run env.(env_fixtures) manifest rules w.(w_run) env.(env_now) =
      (w'.(w_run), Ok state)
  | approve approver_id role decision reason => ∃ record,
      approve_reference_run w.(w_run) approver_id role decision reason env.(env_now) = (w'.(w_run), Ok record)
  | package => ∃ manifest, package_reference_run w.(w_run) env.(env_now) = (w'.(w_run), Ok manifest)
  | verify => w' = w ∧ ∃ report, verify_reference_run env.(env_root) w.(w_run) = Ok report ∧ report.(vr_valid) = true
  | serve_tools args => w' = w ∧ env.(env_interrupted) = false ∧ ∃ api_token server,
      api_token_from_environment env.(env_token) = Ok api_token ∧
      serve_tool_service args.(sa_port) env.(env_binds) args.(sa_rules) args.(sa_rules_sha256) api_token
        args.(sa_max_body_bytes) args.(sa_max_response_bytes) args.(sa_max_concurrent_requests)
        args.(sa_trusted_artifact_capacity) args.(sa_read_timeout_seconds) = Ok server
  end.

Lemma status_code_zero status : status_code status = 0 → status = VerificationStatus.ACCEPT.
Proof. by destruct status. Qed.
Lemma policy_valid file limit label policy : holds_model load_TrustPolicy file limit label policy → TrustPolicy_validate policy = Ok policy.
Proof. intros (text & _ & _ & H%parse_json_model_Ok). by eapply load_TrustPolicy_valid. Qed.
Ltac steps H := repeat (let x := fresh "x" in let E := fresh "E" in apply bind_Ok in H as (x & E & H)).

Lemma certificate_command_shown args c : _verify_certificate_command args = Ok c → exit_code c = 0 → certificate_shown args.
Proof.
  unfold _verify_certificate_command. intros (envelope & He & H)%bind_Ok.
  apply bind_Ok in H as (policy & Hp%read_model_Ok & H); [|done]. apply bind_Ok in H as (expected & Hx%read_model_Ok & H); [|done].
  apply bind_Ok in H as (resolver & Hr & H). apply bind_Ok in H as (ledger & _ & H).
  apply bind_Ok in H as (now & Hn%parse_time_Ok & H). apply bind_Ok in H as (r & Hv & [= <-]). cbn. intros Hs%status_code_zero.
  destruct (verify_action_certificate _ _ _ _ _ _) as [s' x] eqn:E. cbn in Hv. subst x.
  destruct (verify_accept _ _ _ _ _ _ _ _ (policy_valid _ _ _ _ Hp) E Hs) as (o & issuers & approvers & Ha & _).
  pose proof (au_opens _ _ _ _ _ _ _ _ Ha) as (? & ? & Hl & _).
  exists envelope, policy, expected, resolver, now, o, issuers, approvers. pose proof (read_envelope_whole _ _ He Hl). done.
Qed.
Lemma receipt_command_shown args c : _verify_receipt_command load_receipt args = Ok c → exit_code c = 0 → receipt_shown args.
Proof.
  unfold _verify_receipt_command. intros (envelope & He & H)%bind_Ok. apply bind_Ok in H as (certificate_bytes & Hc & H).
  apply bind_Ok in H as (policy & Hp%read_model_Ok & H); [|done]. apply bind_Ok in H as (expected & Hx%read_model_Ok & H); [|done].
  apply bind_Ok in H as (verification & Hr & H). apply bind_Ok in H as (index & _ & H).
  apply bind_Ok in H as (now & Hn%parse_time_Ok & H). apply bind_Ok in H as (r & Hv & [= <-]). cbn. intros Hs%status_code_zero.
  destruct (verify_execution_receipt _ _ _ _ _ _ _ _) as [s' x] eqn:E. cbn in Hv. subst x.
  destruct (verify_receipt_cases _ _ _ _ _ _ _ _ _ _ (policy_valid _ _ _ _ Hp) E) as [Hf|(o & st & i & a & l & Ha & _)].
  - by destruct Hf.
  - pose proof (tt_opens _ _ _ _ _ _ _ _ _ _ _ _ Ha) as (? & ? & Hl & _). pose proof (read_envelope_whole _ _ He Hl).
    by exists envelope, policy, expected, certificate_bytes, verification, now, o, st, i, a, l.
Qed.
Lemma verdict_code_zero verdict : verdict_code verdict = 0 → verdict = OutcomeVerdict.PASS.
Proof. by destruct verdict. Qed.
Lemma outcome_command_shown args c : _verify_outcome_command load_receipt load_outcome args = Ok c → exit_code c = 0 → outcome_shown args.
Proof.
  unfold _verify_outcome_command. intros (envelope & He & H)%bind_Ok. apply bind_Ok in H as (certificate_bytes & Hc & H).
  apply bind_Ok in H as (receipt_bytes & Hrb & H). apply bind_Ok in H as (policy & Hp%read_model_Ok & H); [|done].
  apply bind_Ok in H as (expected & Hx%read_model_Ok & H); [|done]. apply bind_Ok in H as (action & Hav & H).
  apply bind_Ok in H as (execution & Hev%read_model_Ok & H); [|done]. apply bind_Ok in H as (evidence & Hed & H).
  apply bind_Ok in H as (index & _ & H). apply bind_Ok in H as (resolver & Hres & H).
  apply bind_Ok in H as (now & Hn%parse_time_Ok & H). apply bind_Ok in H as (r & Hv & [= <-]). cbn. intros Hs%verdict_code_zero.
  destruct (verify_outcome_closure _ _ _ _ _ _ _ _ _ _) as [s' x] eqn:E. cbn in Hv. subst x.
  destruct (verify_outcome_cases _ _ _ _ _ _ _ _ _ _ _ _ (policy_valid _ _ _ _ Hp) E) as
    [[(_ & _ & [Hst|[Hst _]]) _]|(h & o & st & receipt & i & a & w & l & verdict & Hcl & Hvo & (_ & _ & status & reason & _ & Hr & _))];
    [congruence..|].
  pose proof (cl_opens _ _ _ _ _ _ _ _ _ _ _ _ _ _ _ _ _ Hcl) as (_ & Hl & _). pose proof (read_envelope_whole _ _ He Hl).
  subst r. cbn in Hs. subst verdict. destruct Hvo as [[_ Hall]|[? _]]; [|done].
  by exists envelope, policy, expected, certificate_bytes, receipt_bytes, action, execution, evidence, resolver, now, h, o, st, receipt, i, a, w, l.
Qed.

Lemma handled_fails e c : handled e = Some c → exit_code c = 2.
Proof. unfold handled. intros H. repeat case_match; simplify_eq; done. Qed.
Lemma on_session_Ok {A} (m : stateful Session A) w w' r : on_session m w = (w', Ok r) → m w.(w_session) = (w'.(w_session), Ok r).
Proof. unfold on_session. destruct (m (w_session w)) as [s x]. by intros [= <- ->]. Qed.
Lemma on_run_Ok {A} (f : option Files → option Files * result A) w w' r : on_run f w = (w', Ok r) → f w.(w_run) = (w'.(w_run), Ok r).
Proof. unfold on_run. destruct (f (w_run w)) as [run x]. by intros [= <- ->]. Qed.
Lemma lifted_Ok {S A} (x : result A) (s s' : S) a : lifted x s = (s', Ok a) → s' = s ∧ x = Ok a.
Proof. by intros [= -> ->]. Qed.
(** C7. Exit code 0 can be trusted.  When [proofflow] exits with 0, the command did what it is
    for: [init-demo] initialized, [prepare], [approve] and [package] succeeded, the report of
    [verify] is valid; and a verification that exits with 0 means that the certificate in the
    envelope file is authorized, the receipt attested, or the outcome closed with every
    expected effect committed, judged by exactly the policy, the expectation, the proofs and
    the time that the other files and the option hold, all of them within their limits. *)
Theorem exit_code_zero_sound (env : Environment) (command : Command) (w w' : World) (c : Completed) :
  main env command w = (w', Ok c) → exit_code c = 0 → shown env command w w'.
Proof.
  unfold Cli.main. intros H H0. destruct (run_command load_receipt load_outcome env command w) as [w1 x] eqn:E. injection H as -> H.
  destruct x as [a|e]; cbn [completed] in H.
  2: { destruct (handled e) as [c'|] eqn:Eh; [|done]. injection H as ->. apply handled_fails in Eh. lia. }
  destruct command; cbn [run_command shown] in *; [apply bind_stateful_Ok in E as (w2 & r & E & [= <- <-])..|].
  - exists r. by apply on_session_Ok.
  - apply lifted_Ok in E as [-> E]. injection H as ->. split; [done|]. by eapply certificate_command_shown.
  - apply lifted_Ok in E as [-> E]. injection H as ->. split; [done|]. by eapply receipt_command_shown.
  - apply lifted_Ok in E as [-> E]. injection H as ->. split; [done|]. by eapply outcome_command_shown.
  - exists r. exact (on_run_Ok _ _ _ _ E).
  - exists r. exact (on_run_Ok _ _ _ _ E).
  - exists r. exact (on_run_Ok _ _ _ _ E).
  - assert (w2 = w) as ->. { unfold on_run in E. injection E as <- _. by destruct w. }
    apply on_run_Ok in E. injection E as E. split; [done|]. exists r. split; [done|].
    unfold verified_output in H. destruct (vr_valid r); [done|]. injection H as <-. done.
  - apply lifted_Ok in E as [-> E]. split; [done|]. apply bind_Ok in E as (api_token & Et & E). apply bind_Ok in E as (server & Es & [= <-]).
    injection H as <-. destruct (env_interrupted env); [done|]. split; [done|]. by exists api_token, server.
Qed.
End sound.
