(* ===== verification/CliEnds.v ===== *)
(** * How the commands end

    [init-demo] and the verification commands end with an exit code, whatever the files
    hold: an answer on stdout, or one line of JSON with a fixed text on stderr.  What is
    left are datetimes that overflow at the ends of the calendar. *)
From S2P Require Import Prelude Json JsonTotal Dicts Stateful PyTime PyDecimal Sha256 Canonical Base64 Platforms Models Common.
From S2P Require Import Checks Evidence WireTime CertModels CertLedger Certificate CertFacts CertSound CertTotal.
From S2P Require Import ReceiptModels Receipt OutcomeModels OutcomeIndex Outcome OutcomeFacts OutcomeTotal.
From S2P Require Import RunStore Runtime RunApprove RunVerify TrustedStore ToolServer DemoFs DemoInit DemoInitFacts Cli CliSound.
Local Open Scope Z_scope.

(** ** What [main] takes *)
Definition time_invalid : exn :=
  CliInputError "INVALID_VERIFICATION_TIME" "verification time must use UTC RFC 3339 with a trailing Z".
(** The errors a command may show, with their fixed texts *)
Definition shown_errors : list (string * string) :=
  [("INVALID_INPUT", "the command input is invalid"); ("FILESYSTEM_ERROR", "a required local file operation failed");
   ("INVALID_VERIFICATION_TIME", "verification time must use UTC RFC 3339 with a trailing Z")] ++
  omap (λ e, match e with DemoInitializationError code message => Some (code, message) | _ => None end) published.
Definition refused (c : Completed) : Prop :=
  c.(exit_code) = 2 ∧ c.(stdout) = [] ∧ ∃ code message, (code, message) ∈ shown_errors ∧ c.(stderr) = [error_line code message []].
Definition answered (codes : list Z) (c : Completed) : Prop :=
  c.(exit_code) ∈ codes ∧ (∃ text, c.(stdout) = [text]) ∧ c.(stderr) = [].
Definition taken (e : exn) : Prop := is_value_error e = true ∨ is_os_error e = true ∨ e = time_invalid ∨ e ∈ published.
Lemma taken_refused e : taken e → ∃ c, handled e = Some c ∧ refused c.
Proof.
  assert (∀ code message, (code, message) ∈ shown_errors → refused (_write_cli_error 2 code message [])) as Hr.
  { intros code message H. split; [done|]. split; [done|]. by exists code, message. }
  intros [H|[H|[->|H]]].
  - eexists. split; [|apply (Hr "INVALID_INPUT"); by left]. unfold handled. by destruct e.
  - eexists. split; [|apply (Hr "FILESYSTEM_ERROR"); by right; left]. unfold handled. by destruct e.
  - eexists. split; [reflexivity|]. apply Hr. by right; right; left.
  - unfold published in H. repeat (apply elem_of_cons in H as [->|H]; [eexists; split; [reflexivity|]; apply Hr; unfold shown_errors, published; cbn;
      repeat first [by left|right]|]). by apply elem_of_nil in H.
Qed.

(** A computation that answers, or raises one of [T] *)
Definition finishes {A} (T : exn → Prop) (Q : A → Prop) (x : result A) : Prop := match x with Ok a => Q a | Raise e => T e end.
Lemma finishes_bind {A B} T (Q : A → Prop) (R : B → Prop) (x : result A) (k : A → result B) :
  finishes T Q x → (∀ a, x = Ok a → Q a → finishes T R (k a)) → finishes T R (x ≫= k).
Proof. destruct x as [a|e]; [|done]. intros Hx Hk. by apply Hk. Qed.
Lemma finishes_weaken {A} (T T' : exn → Prop) (Q : A → Prop) x : (∀ e, T e → T' e) → finishes T Q x → finishes T' Q x.
Proof. destruct x as [a|e]; cbn; auto. Qed.
Notation ends := (finishes taken).
Lemma ends_value_error {A} (x : result A) : (∀ e, x = Raise e → is_value_error e = true) → ends (λ _, True) x.
Proof. intros H. destruct x as [a|e]; [done|]. left. by apply H. Qed.
Lemma ends_envelope file : ends (λ _, True) (_read_certificate_envelope file).
Proof. destruct file; [by left|by right; left|done]. Qed.
Lemma ends_bounded file limit label : ends (λ _, True) (_read_bounded_local_file file limit label).
Proof. destruct file as [| |content]; [by left|by right; left|]. cbn -[Z.add]. destruct (_ <? _); [by left|done]. Qed.
Lemma ends_model {A} (load : string → result A) file limit label :
  (∀ b e, load b = Raise e → is_value_error e = true) → ends (λ _, True) (read_model load file limit label).
Proof.
  intros Hl. eapply finishes_bind; [apply ends_bounded|]. intros text _ _. apply ends_value_error. intros e.
  apply parse_json_model_raise. apply Hl.
Qed.
Lemma ends_time value : ends (λ _, True) (_parse_verification_time value).
Proof. unfold _parse_verification_time. destruct (parse_utc_rfc3339_z value); [done|]. by right; right; left. Qed.
Lemma ends_require b m : ends (λ _, True) (require b (ValueError m)).
Proof. destruct b; [done|by left]. Qed.
Lemma ends_evidence file : ends (λ _, True) (read_evidence file).
Proof.
  eapply finishes_bind; [apply ends_bounded|]. intros text _ _.
  eapply finishes_bind; [apply ends_value_error; intros e; apply strict_json_raise|]. intros items _ _.
  generalize (∅ : gmap string string). induction items as [|[k v] items IH]; intros m; [done|]. cbn [foldR].
  apply (finishes_bind taken (λ _, True)); [|intros m' _ _; apply IH]. unfold decode_evidence. cbn. destruct v; try by left. destruct (b64decode s); [exact I|by left].
Qed.

(** ** The commands *)
Section commands.
Context `{P : Platform} `{!PlatformLaws P} `{K : Ed25519} `{C : CertificateParser} `{!CertificateParserLaws C}.
Context `{W : WireParser} `{!WireParserLaws W} `{L : Loader} `{TL : ToolLoader}.
Context (load_receipt : string → result ExecutionReceiptStatement) (load_outcome : string → result OutcomeClosureStatement).
Context `{!OutcomeParserLaws load_receipt load_outcome}.


Lemma ends_revocations file : ends (λ _, True) (read_revocations file).
Proof.
  destruct file as [file|]; [|done]. eapply finishes_bind; [apply ends_model, load_ApprovalRevocationSnapshot_raise|]. done.
Qed.
(** The time is not within 300 seconds of the ends of the calendar, and the policy names at
    most 16 issuers and 16 approvers. *)
Definition certificate_sane (args : CertificateArgs) : Prop :=
  (∀ now, parse_utc_rfc3339_z args.(ca_at) = Some now → clear_clock now) ∧
  (∀ policy, holds_model load_TrustPolicy args.(ca_trust_policy) (256 * 1024) "trust policy" policy →
    (length policy.(tp_allowed_action_issuer_principals) ≤ 16)%nat ∧ (length policy.(tp_allowed_approval_principals) ≤ 16)%nat).
Lemma certificate_command_ends args : certificate_sane args → ends (answered [0; 1; 3]) (_verify_certificate_command args).
Proof.
  intros [Hclock Hsize]. unfold _verify_certificate_command.
  eapply finishes_bind; [apply ends_envelope|]. intros envelope _ _.
  eapply finishes_bind; [apply ends_model, load_TrustPolicy_raise|]. intros policy Hp%read_model_Ok _; [|done].
  eapply finishes_bind; [apply ends_model, load_ExpectedBinding_raise|]. intros expected _ _.
  eapply finishes_bind; [apply ends_revocations|]. intros resolver _ _.
  eapply finishes_bind with (Q := λ _, True).
  { unfold ledger_init. eapply finishes_bind; [apply ends_require|done]. }
  intros ledger _ _. eapply finishes_bind; [apply ends_time|]. intros now Hn%parse_time_Ok _.
  destruct (Hsize _ Hp) as [Hi Ha]. pose proof (policy_valid _ _ _ _ Hp) as Hv%TrustPolicy_policy_ok.
  destruct (verify_returns policy now Hv (Hclock _ Hn) Hi Ha envelope expected ledger resolver) as [r ->]. cbn [mbind result_bind ends].
  split; [|by split; [eexists|]]. cbn. destruct (avr_status r); cbn; repeat first [by left|right].
Qed.

(** What the outcome command leaves to nobody *)
Definition taken_or_overflow (e : exn) : Prop := taken e ∨ out_of_calendar e.
Notation ends' := (finishes taken_or_overflow).
Lemma ends_ends' {A} (Q : A → Prop) x : ends Q x → ends' Q x.
Proof. apply finishes_weaken. intros e He. by left. Qed.
Lemma outcome_command_ends (args : OutcomeArgs) : ends' (answered [0; 1; 3; 4]) (_verify_outcome_command load_receipt load_outcome args).
Proof.
  unfold _verify_outcome_command.
  eapply finishes_bind; [apply ends_ends', ends_envelope|]. intros envelope _ _.
  eapply finishes_bind; [apply ends_ends', ends_envelope|]. intros certificate_bytes _ _.
  eapply finishes_bind; [apply ends_ends', ends_envelope|]. intros receipt_bytes _ _.
  eapply finishes_bind; [apply ends_ends', ends_model, load_TrustPolicy_raise|]. intros policy Hp%read_model_Ok _; [|done].
  eapply finishes_bind; [apply ends_ends', ends_model, load_ExpectedOutcomeBinding_raise|]. intros expected _ _.
  eapply finishes_bind; [apply ends_ends', ends_model, load_ActionCertificateVerificationResult_raise|]. intros action _ _.
  eapply finishes_bind; [apply ends_ends', ends_model, load_ExecutionReceiptVerificationResult_raise|]. intros execution _ _.
  eapply finishes_bind; [apply ends_ends', ends_evidence|]. intros evidence _ _.
  eapply finishes_bind with (Q := λ _, True).
  { apply ends_ends'. unfold outcome_index_init. eapply finishes_bind; [apply ends_require|done]. }
  intros index _ _. eapply finishes_bind with (Q := λ _, True).
  { apply ends_ends'. unfold evidence_init. do 3 (eapply finishes_bind; [apply ends_require|intros ? _ _]). done. }
  intros resolver _ _. eapply finishes_bind; [apply ends_ends', ends_time|]. intros now _ _.
  pose proof (verify_outcome_ends load_receipt load_outcome envelope policy
    (mk_HandoffArguments (Some expected) (Some action) (Some execution) None None None) certificate_bytes receipt_bytes index now
    (Some (evidence_resolve resolver)) (policy_valid _ _ _ _ Hp)) as H.
  destruct (snd _) as [r|e]; cbn [mbind result_bind finishes].
  - split; [|by split; [eexists|]]. cbn. destruct (ocv_status r); cbn; repeat first [by left|right].
  - destruct H as [H|[H _]]; [by right|by left; left].
Qed.

(** The commands whose end is certain, and the exit codes of their answers *)
Definition certain (env : Environment) (command : Command) : Prop :=
  match command with
  | init_demo _ => ∀ m, _load_and_validate_assets env.(env_bundle) ≠ Raise (Unmodelled m)
  | certificate args => certificate_sane args
  | outcome args => True
  | _ => False
  end.
Definition answer_codes (command : Command) : list Z :=
  match command with init_demo _ => [0] | certificate _ => [0; 1; 3] | _ => [0; 1; 3; 4] end.

End commands.
