(* ===== verification/CliDemo.v ===== *)
(** * The command line, end to end

    The three verifications of CertDemo, ReceiptDemo and OutcomeDemo, run as commands on the
    files an operator would give them. *)
From S2P Require Import Prelude Json Dicts Stateful PyTime PyDecimal Sha256 Canonical Base64 Platforms Models Common.
From S2P Require Import Checks WireTime CertModels CertLedger Evidence Certificate CertFacts CertSound CertTotal CertDemo.
From S2P Require Import ReceiptModels Receipt ReceiptFacts ReceiptSound ReceiptChain ReceiptDemo.
From S2P Require Import OutcomeModels OutcomeIndex Outcome OutcomeFacts OutcomeObservers OutcomeSound OutcomeTotal OutcomeDemo.
From S2P Require Import RunStore RunDemo ToolServer DemoFs DemoInit Cli CliSound CliEnds.
Local Open Scope Z_scope.
#[local] Existing Instance toy_platform.
#[local] Existing Instance toy_platform_laws.
#[local] Existing Instance fixture_loader.

(** ** The files *)
Definition document_text (n : string) : string := dumps Compact (JObj [("document", JStr n)]).
#[local] Instance demo_wire_parser : WireParser := {|
  load_TrustPolicy := table TrustPolicy_validate [(document_text "policy", demo_policy)];
  load_ExpectedBinding := table Ok [(document_text "expected", expected_binding_for statement1)];
  load_ApprovalRevocationSnapshot := table ApprovalRevocationSnapshot_validate [(document_text "revocations", demo_revocations)];
  load_ExpectedExecutionBinding := table Ok [(document_text "expected execution", demo_expected)];
  load_ActionCertificateVerificationResult := table VerificationResult_validate [(document_text "verification", verification1)];
  load_ExpectedOutcomeBinding := table Ok
    [(document_text "expected outcome", expected_outcome_binding_for closure1 [no_sha] [no_sha]);
     (document_text "expected partial outcome", expected_outcome_binding_for closure2 [no_sha] [no_sha])];
  load_ExecutionReceiptVerificationResult := table ReceiptResult_validate [(document_text "recorded", receipt_result1)];
|}.
#[local] Instance demo_wire_parser_laws : WireParserLaws demo_wire_parser.
Proof.
  split; try (intros b e; apply table_raise).
  intros b x. apply table_valid. unfold TrustPolicy_validate. intros y z H. by inv_ok.
Qed.
#[local] Instance no_tool_loader : ToolLoader := {|
  load_EvidenceIngestToolCall := λ _, Raise (value_error "none");
  load_RuleRetrieveToolCall := λ _, Raise (value_error "none");
  load_DeterministicCalculateToolCall := λ _, Raise (value_error "none");
  load_RuleCatalog_json := λ _, Raise (value_error "none");
  validation_errors := λ _, [];
|}.
Definition document (n : string) : local_file := Regular (document_text n).
Definition time_text (t : datetime) : string := match t with Aware us => isoformat_us us +:+ "Z" | Naive _ => "" end.
Definition certificate_args (at_ : string) : CertificateArgs :=
  mk_CertificateArgs (Regular (envelope_text "1")) (document "policy") (document "expected") (Some (document "revocations")) at_ 10000.
Definition receipt_args : ReceiptArgs :=
  mk_ReceiptArgs (Regular receipt_envelope_text) (document "policy") (document "expected execution") (Regular (envelope_text "1"))
    (document "verification") (time_text ReceiptDemo.later) 10000.
Definition outcome_args (n expected : string) : OutcomeArgs :=
  mk_OutcomeArgs (Regular (outcome_envelope_text n)) (document "policy") (document expected) (Regular (envelope_text "1"))
    (document "verification") (Regular receipt_envelope_text) (document "recorded")
    (Regular (dumps Compact (JObj [(no_sha, JStr "")]))) (time_text ReceiptDemo.later) 10000.
Definition demo_env : Environment := mk_Environment [] (λ _, Missing) true ∅ CertDemo.demo_now [] None true false.
Definition demo_world : World := mk_World (fresh_call (mk_fs ∅ 0 None) ∅ 3 []) None.
Notation run command := (snd (main load_receipt load_outcome demo_env command demo_world)).
Definition code (x : result Completed) : option Z := match x with Ok c => Some c.(exit_code) | Raise _ => None end.

Example certificate_exits : code (run (certificate (certificate_args (time_text CertDemo.demo_now)))) = Some 0.
Proof. vm_compute. reflexivity. Qed.
Example receipt_exits : code (run (receipt receipt_args)) = Some 0.
Proof. vm_compute. reflexivity. Qed.
Example outcome_exits : code (run (outcome (outcome_args "1" "expected outcome"))) = Some 0.
Proof. vm_compute. reflexivity. Qed.
(** A partial success is not reported as one, see [partial_success_raises]. *)
Example partial_outcome_exits :
  run (outcome (outcome_args "2" "expected partial outcome")) =
    Ok (_write_cli_error 2 "INVALID_INPUT" "the command input is invalid" []).
Proof. vm_compute. reflexivity. Qed.
(** In the last minute of the calendar the skew of the clock cannot be added. *)
Example last_minute_escapes :
  run (certificate (certificate_args "9999-12-31T23:59:59Z")) = Raise (OverflowError "date value out of range").
Proof. vm_compute. reflexivity. Qed.

(** ** The theorems on these runs *)
Definition outcome_run : Completed := Eval vm_compute in
  match run (outcome (outcome_args "1" "expected outcome")) with Ok c => c | Raise _ => usage_error end.
Lemma outcome_runs : main load_receipt load_outcome demo_env (outcome (outcome_args "1" "expected outcome")) demo_world = (demo_world, Ok outcome_run).
Proof. vm_compute. reflexivity. Qed.
Lemma exit_code_zero_sound_witness :
  outcome_run.(exit_code) = 0 ∧ outcome_shown load_receipt load_outcome (outcome_args "1" "expected outcome").
Proof.
  split; [reflexivity|].
  exact (proj2 (exit_code_zero_sound load_receipt load_outcome demo_env (outcome (outcome_args "1" "expected outcome")) demo_world demo_world
    outcome_run outcome_runs eq_refl)).
Defined.
Lemma demo_sane : certificate_sane (certificate_args (time_text CertDemo.demo_now)).
Proof.
  split.
  - intros now H. exists (738000 * day). split; [|split; discriminate]. assert (parse_utc_rfc3339_z (time_text CertDemo.demo_now) = Some CertDemo.demo_now) as E.
    { vm_compute. reflexivity. }
    cbn [certificate_args ca_at] in H. rewrite E in H. by injection H as <-.
  - intros policy (text & [= <-] & _ & H%parse_json_model_Ok). assert (load_TrustPolicy (document_text "policy") = Ok demo_policy) as E.
    { vm_compute. reflexivity. }
    rewrite E in H. injection H as <-. split; vm_compute; lia.
Qed.
Lemma exits_zero_answers codes (x : result Completed) (F : exn → Prop) :
  match x with Ok c => answered codes c ∨ refused c | Raise e => F e end → code x = Some 0 → ∃ c, x = Ok c ∧ answered codes c.
Proof.
  destruct x as [c|e]; [|done]. intros H [= E]. exists c. split; [done|]. destruct H as [H|[H _]]; [done|]. rewrite H in E. done.
Qed.
